(* ===== verification/_CoqProject ===== *)
-Q . S2P
Prelude.v
Sema42.v
Edma.v
EdmaControl.v
EdmaCopy.v
EdmaStream.v
Crc.v
Ctimer.v
Ostimer.v
Mrt.v
Lptmr.v
Fmu.v
Mailbox.v
Rtc.v
Pwm.v
Gpio.v
InputMux.v
Sai.v
Dac.v
Adc.v
Signal.v
Sinc.v
FlexCan.v
Enet.v
I2c.v
At24c.v
Ssi.v
Sd.v
SdCard.v
SdStream.v
SdBlock.v
Usdhc.v
FlexComm.v
Lpuart.v
Lpi2c.v
Lpspi.v
Soc.v
SocConsole.v
ClockTree.v
Sct.v
M25p80.v
FlexSpi.v
FlexSpiNor.v
FlexSpiXip.v
