(* ===== verification/Prelude.v ===== *)
(** * A verified model of the MCX N947 peripherals of qemu-mcxn947

    The repository is QEMU with a machine for the NXP MCX N947 microcontroller.
    Its own logic is a set of device models, one C file per peripheral, named
    [mcxn_*] under [src/hw] and [src/include/hw], and the SoC file
    [src/hw/arm/mcxn_soc.c] that places them in the address map and connects
    their lines.  A device is a struct with a register file; the guest reaches it
    through read and write callbacks of its memory region, other devices through
    its input lines, the emulator through timer callbacks, bottom halves, reset
    and post-load hooks.  Between callbacks nothing happens, so a device is a
    state machine whose steps are those callbacks.

    ** How the code is modelled

    Every struct is a record with the source's fields, every callback a function
    from the state to the new state (and the value read, the events emitted, or
    [None] where the C would trap), with the source's names.
    - Unsigned integers are [Z] with the wrap-around of their type written out at
      the stores ([u8] to [u64], [swrap] for the signed types); the bit operators
      have C's notations in [c_scope].
    - Arrays are lists with [l.[i]] and [l.[i <- v]]; register files are arrays of
      words at [offset / 4], as in the code.
    - A division that can trap is [cdiv] or [cmod], with result in [option].
    - Host time is an argument; a host timer is an optional deadline in the state.
    - An output line that holds a level is a boolean of the state; a pulse and a
      change of a DMA request are events in the result, delivered by the caller.
    - Logging, QOM construction and tracing have no effect on the state and are
      left out.

    ** The files
    - [Prelude]: machine integers, bit operators and their lemmas, arrays, array
      FIFOs, record update, checked division, memory as a function from addresses
      to bytes, the tactics ([zcases], [bitwise],
      [fnorm], [dlia], ...) and the hint databases.
    - [Sema42] (hw/misc/mcxn_sema42.c): hardware gate semaphores.  The device
      refines a lock table; a gate has one owner and only the owner frees it.
    - [Edma], [EdmaControl], [EdmaCopy] (hw/dma/mcxn_edma.c): the DMA engine.  Its
      surroundings are the class [AddressSpace]; the theorems on control hold for
      every address space, those on single pulses for one that leaves the request
      lines alone ([QuietSpace]), those on data for one with a window of RAM
      ([RamWindow]).  A minor loop copies the bytes its two address sequences
      name, a held request runs a major loop to completion, an invalid descriptor
      moves nothing and is reported, links end, and interrupt lines are CH_INT.
    - [Crc] (hw/misc/mcxn_crc.c): the checksum register is the remainder of a
      polynomial division; word writes are byte writes.
    - [Ctimer], [Ostimer], [Mrt], [Lptmr] (hw/timer): counters evaluated lazily
      from host time.  Ticks come on time and periodically, a match does what its
      control bits say, Gray-coded match values round-trip, no reachable state
      traps while there is a clock, and lines agree with status registers.
    - [Fmu] (hw/misc/mcxn_fmu.c): the flash controller.  Programming only clears
      bits, erasing sets them, erase and program write what is read back, and the
      command handshake is consistent in every reachable state, resets in the middle
      of a command included.
    - [Mailbox] (hw/misc/mcxn_mailbox.c): the mutex is exclusive, the interrupt
      words signal between the cores.
    - [Gpio] (hw/gpio/mcxn_gpio.c): the port refines 32 independent pins.
    - [InputMux] (hw/misc/mcxn_inputmux.c): the router is a routing table, but for a
      reserved selector of the TSI; the DMA gates follow the enable registers.
    - [Sai] (hw/misc/mcxn_sai.c), [Dac] (hw/misc/mcxn_dac.c) and [Adc]
      (hw/misc/mcxn_adc.c): the FIFOs refine queues with overflow and underflow,
      lines agree with the status registers, a trigger converts the pin and into
      the FIFO its command selects.
    - [Signal], [Sinc] (hw/misc/mcxn_sinc.c): [Signal] is the mathematics of
      moving sums; the integrator and comb cascade, with its 64-bit wrap-around,
      refines the decimated moving-sum filter; results stay within 24 bits.
    - [FlexCan] (hw/misc/mcxn_flexcan.c, and the broadcast of
      net/can/can_core.c): a message armed on one controller arrives, filtered,
      in the mailboxes of the others; the mode handshake.
    - [I2c] (hw/i2c/core.c), [At24c] (hw/nvram/eeprom_at24c.c), [Ssi]
      (hw/ssi/ssi.c, hw/ssi/spi_link.c, util/fifo8.c): the buses behind the
      serial controllers.  The slaves of a bus are a type class
      ([I2CSlaveClass], [SSIPeripheralClass]); the EEPROM and the socket bridge
      are its instances.
    - [FlexComm] (hw/char/mcxn_lpuart.c): the serial controller with its three
      functions, for any slaves; its lines are those of the selected function.
      [Lpuart]: under any register access the receiver refines a bounded queue, and
      flow control loses nothing.  [Lpi2c]: an EEPROM returns what was written to it.  [Lpspi]: a
      continued sequence of words is one transaction of the peripheral, and two
      boards exchange words through SPI links.
    - [EdmaStream]: a channel that serves a word-wide stream under a level
      request, for every address space.
    - [Enet] (hw/misc/mcxn_enet.c): the Ethernet MAC.  Two boards on a wire
      exchange frames in order through their descriptor rings.
    - [Rtc] (hw/misc/mcxn_rtc.c): the calendar counts seconds without drift and
      the alarm rings when the calendar reaches it.
    - [Pwm] (hw/misc/mcxn_pwm.c): on a carrier that counts up pulses have the
      programmed width; a complementary pair keeps its dead time unless an edge
      overflows 16 bits; a fault cuts the outputs; the carrier and its triggers do not
      drift when the timers are served on time.
    - [ClockTree] (hw/misc/mcxn_scg.c, hw/misc/mcxn_syscon.c, clocks of
      hw/core/clock.c): every clock rate is that of the selected oscillator or PLL
      behind its dividers; the start of the second core.
    - [Sct] (hw/misc/mcxn_sct.c): limit events come one period apart, pin changes
      raise the events whose condition they meet.
    - [Sd] (hw/sd/core.c), [SdCard], [SdStream], [SdBlock] (hw/sd/sd.c), [Usdhc]
      (hw/misc/mcxn_usdhc.c): the SD bus over a class of cards, the memory card
      and the host controller.  The card keeps within its buffer, fails no assertion and
      is a stream of bytes; the DMA walk of the host scatters and gathers the stream of any
      such card; a block written to a card is read back.
    - [M25p80] (hw/block/m25p80.c), [FlexSpi] (hw/misc/mcxn_flexspi.c): the W25Q64
      flash and the controller, over any SSI peripheral.  A writable drive
      holds the flash whenever the chip is released.  [FlexSpiNor]: controller and chip
      refine one memory, which the executable window shows but for the images that the
      ROM loader (hw/core/loader.c) writes over it at a reset.  [FlexSpiXip]: a
      driver that erases and programs a sector finds its bytes in the window.
    - [Soc], [SocConsole] (hw/arm/mcxn_soc.c): CTIMER0, INPUTMUX, DAC0, ADC0,
      FlexComm4, eDMA and SRAM connected as in the SoC: a waveform generator and
      a recorder that run without the processor, and a console that the eDMA
      feeds.

    ** Theorems
    Each file states its component's theorems after its definitions.  Refinement
    theorems relate the concrete state to an abstract one (lock table, queue,
    pins, routing table, moving sums, mailboxes and messages, flash content) under every sequence
    of the operations concerned.  Invariants are proved over all states reachable
    from reset by the step relation or the operation list of the file, error paths
    and resets included.  A section on departures at the end of a file proves, on a
    concrete input, behaviour that a comment of the code rules out.

    ** Bounds and fuel
    - [EDMA_FUEL] = 2: a channel link runs the linked channel's minor loop, which
      may not link on (the [in_link] guard); [edma_minor_loop_terminates] shows
      that two levels are enough for every state and that more change nothing.
    - [MCXN_EDMA_MAX_LOOPS] is the source's own bound on the passes of the bottom
      half, not a bound of the model.
    - [ENET_RING_GUARD] and [ADMA_GUARD] are the source's own bounds on the
      descriptors of one doorbell and one transfer.
    - The delivery loop of [Enet] has one pass per byte and one more: each pass
      consumes at least one byte ([deliver_loop_total]).
    - [pwm_later_fuel] is the number of periods passed, which [later_exits] shows to
      be enough; [run_fuel] is the number of 512-byte pieces of a transfer, enough
      by [run_fuel_step].
    - The other loops of the code run over fixed ranges or over the bytes of a
      transfer, and are folds or structural recursions.
    - Theorems on timers assume that the products of the code fit in 63 bits where
      they say so; the overflows themselves are proved as departures.

    ** Not modelled
    - Upstream QEMU: the CPUs, the memory API, QOM, the timer
      wheel, migration streams.  What the devices use of it appears as arguments
      and events; migration as the post-load hooks.
    - USB and PowerQuad, which compute with the usbredir library and the host's
      mathematics library.
    - Smaller devices with behaviour of their own: I3C, FlexIO, PDM, PINT, CMP, TSI,
      QDC, VBAT, EMVSIM, ELS, SmartDMA and the NPU.
    - The watchdogs, power, protection and routing blocks, which are register files
      that raise no event.
    - The parts of [hw/block/m25p80.c] and [hw/sd/sd.c] for other chips, SPI mode and
      eMMC.
    - Of the SoC wiring, every connection but those that [Soc] uses. *)
From stdpp Require Export base tactics numbers list list_numbers relations.
From Stdlib Require Export ZArith Lia Bool Btauto.

#[global] Open Scope Z_scope.

(** ** Machine integers

    A C unsigned integer of width [w] is a [Z] in [0, 2^w); every store into a
    [uintN_t] lvalue is written with the wrap-around of its type. *)

Definition wrap (w z : Z) : Z := z mod 2 ^ w.
Abbreviation u8 := (wrap 8).
Abbreviation u16 := (wrap 16).
Abbreviation u32 := (wrap 32).
Abbreviation u64 := (wrap 64).

(** Conversion to the two's complement signed type of width [w]. *)
Definition swrap (w z : Z) : Z := (z + 2 ^ (w - 1)) mod 2 ^ w - 2 ^ (w - 1).

(** [1u << n] *)
Definition bit (n : Z) : Z := Z.shiftl 1 n.

Declare Scope c_scope.
Delimit Scope c_scope with c.
Infix ".&" := Z.land (at level 40, left associativity) : c_scope.
Infix ".^" := Z.lxor (at level 45, left associativity) : c_scope.
Infix ".|" := Z.lor (at level 50, left associativity) : c_scope.
Infix ".<<" := Z.shiftl (at level 32, left associativity) : c_scope.
Infix ".>>" := Z.shiftr (at level 32, left associativity) : c_scope.
Notation ".~ x" := (Z.lnot x) (at level 35, right associativity) : c_scope.
#[global] Open Scope c_scope.

(** The C condition [if (v & m)]. *)
Definition flag (v m : Z) : bool := negb (v .& m =? 0).

(** The range of a [w]-bit register. *)
Definition in_range (w z : Z) : Prop := 0 <= z < 2 ^ w.
Definition in_rangeb (w z : Z) : bool := (0 <=? z) && (z <? 2 ^ w).

(** ** Record update

    [s <| f := v |>] is the C assignment [s->f = v].  A record type declares
    its eta expansion once ([Settable]); the setter of a field is computed from
    it by abstracting the projection. *)

Class Settable (R : Type) := eta : R -> R.
Class Setter {R T : Type} (proj : R -> T) := modify : (T -> T) -> R -> R.
Arguments modify {R T} proj {_} _ _ : assert.

Ltac solve_setter :=
  lazymatch goal with
  | |- @Setter ?R ?T ?p =>
      let e := constr:(_ : Settable R) in
      let t := constr:(fun (f : T -> T) (r : R) => ltac:(
        let b := eval hnf in (e r) in
        lazymatch eval pattern (p r) in b with
        | ?F (p r) => let t := eval cbv beta in (F (f (p r))) in exact t
        end)) in
      exact t
  end.
#[global] Hint Extern 1 (@Setter _ _ _) => solve_setter : typeclass_instances.

Notation "s <| f := v |>" := (modify f (fun _ => v) s)
  (at level 1, f at level 200, left associativity,
   format "s  <| f  :=  v |>") : c_scope.

(** ** Arrays

    A C array is a list of its length; an index is a [Z].  The accesses of the
    source are all in range (the length invariants are proved per component);
    out of range, a read gives the default element and a write does nothing. *)

Abbreviation zlen l := (Z.of_nat (length l)).
Definition arr_get {A} `{Inhabited A} (l : list A) (i : Z) : A := l !!! Z.to_nat i.
Definition arr_set {A} (l : list A) (i : Z) (v : A) : list A := <[Z.to_nat i := v]> l.
Notation "l .[ i ]" := (arr_get l i) (at level 1, i at level 200, left associativity, format "l .[ i ]") : c_scope.
Notation "l .[ i <- v ]" := (arr_set l i v)
  (at level 1, i at level 200, v at level 200, left associativity, format "l .[ i  <-  v ]") : c_scope.

(** ** Little-endian bytes *)

Fixpoint le_load (bs : list Z) : Z :=
  match bs with
  | [] => 0
  | b :: bs => b .| (le_load bs .<< 8)
  end.
Fixpoint le_store (n : nat) (v : Z) : list Z :=
  match n with
  | O => []
  | S n => u8 v :: le_store n (v .>> 8)
  end.

(** [len] elements of [l] from index [i]. *)
Definition slice {A} (i len : Z) (l : list A) : list A := take (Z.to_nat len) (drop (Z.to_nat i) l).

(** ** Checked division

    The C division traps on a zero divisor: [None] is the trap. *)
Definition cdiv (a b : Z) : option Z := if b =? 0 then None else Some (a / b).
Definition cmod (a b : Z) : option Z := if b =? 0 then None else Some (a mod b).

(** [muldiv64] of QEMU's host-utils: the product is not truncated. *)
Definition muldiv64 (a b c : Z) : Z := u64 (a * b / c).

Lemma bind_Some {A B} (f : A -> option B) x : (Some x ≫= f) = f x.
Proof. done. Qed.

(** ** Lemmas on bits and wrap-around *)

Create Rewrite HintDb bits.

Lemma wrap_range w z : 0 <= w -> 0 <= wrap w z < 2 ^ w.
Proof. intros. apply Z.mod_pos_bound, Z.pow_pos_nonneg; lia. Qed.

Lemma wrap_id w z : 0 <= z < 2 ^ w -> wrap w z = z.
Proof. apply Z.mod_small. Qed.

Lemma swrap_small w z : 0 < w -> 0 <= z < 2 ^ (w - 1) -> swrap w z = z.
Proof.
  intros Hw Hz. unfold swrap. rewrite Z.mod_small; [lia|].
  replace (2 ^ w) with (2 * 2 ^ (w - 1)); [lia|].
  rewrite <- Z.pow_succ_r by lia. f_equal. lia.
Qed.

Lemma swrap_id w z : 0 < w -> - 2 ^ (w - 1) <= z < 2 ^ (w - 1) -> swrap w z = z.
Proof.
  intros Hw Hz. unfold swrap. assert (2 ^ w = 2 * 2 ^ (w - 1)) by (rewrite <- Z.pow_succ_r by lia; f_equal; lia).
  rewrite Z.mod_small; lia.
Qed.

(** [swrap] is a congruence: it only depends on its argument modulo [2^w]. *)
Lemma swrap_cong w a b : (a - b) mod 2 ^ w = 0 -> swrap w a = swrap w b.
Proof.
  intros Hab. unfold swrap. f_equal. destruct (decide (2 ^ w = 0)) as [E|E]; [by rewrite E, !Z.mod_0_r in *; lia|].
  apply Z.mod_divide in Hab as [q Hq]; [|done]. replace (a + 2 ^ (w - 1)) with (b + 2 ^ (w - 1) + q * 2 ^ w) by lia.
  apply Z.mod_add. lia.
Qed.

Lemma swrap_sub_mod w a : 0 <= w -> (swrap w a - a) mod 2 ^ w = 0.
Proof.
  intros Hw. unfold swrap. pose proof (Z.pow_pos_nonneg 2 w ltac:(lia) Hw).
  rewrite (Z.mod_eq (a + _)) by lia. apply Z.mod_divide; [lia|].
  exists (- ((a + 2 ^ (w - 1)) / 2 ^ w)). ring.
Qed.

Lemma swrap_add w a b : 0 <= w -> swrap w (swrap w a + swrap w b) = swrap w (a + b).
Proof.
  intros Hw. apply swrap_cong. pose proof (swrap_sub_mod w a Hw) as Ha. pose proof (swrap_sub_mod w b Hw) as Hb.
  pose proof (Z.pow_pos_nonneg 2 w ltac:(lia) Hw). apply Z.mod_divide in Ha, Hb; [|lia..]. apply Z.mod_divide; [lia|].
  replace (swrap w a + swrap w b - (a + b)) with ((swrap w a - a) + (swrap w b - b)) by ring. by apply Z.divide_add_r.
Qed.

Lemma swrap_sub w a b : 0 <= w -> swrap w (swrap w a - swrap w b) = swrap w (a - b).
Proof.
  intros Hw. apply swrap_cong. pose proof (swrap_sub_mod w a Hw) as Ha. pose proof (swrap_sub_mod w b Hw) as Hb.
  pose proof (Z.pow_pos_nonneg 2 w ltac:(lia) Hw). apply Z.mod_divide in Ha, Hb; [|lia..]. apply Z.mod_divide; [lia|].
  replace (swrap w a - swrap w b - (a - b)) with ((swrap w a - a) - (swrap w b - b)) by ring. by apply Z.divide_sub_r.
Qed.

Lemma wrap_wrap w z : 0 <= w -> wrap w (wrap w z) = wrap w z.
Proof. intros. apply wrap_id, wrap_range; done. Qed.

Lemma testbit_wrap w z i : 0 <= w -> 0 <= i -> Z.testbit (wrap w z) i = (i <? w) && Z.testbit z i.
Proof.
  intros. unfold wrap. destruct (Z.ltb_spec i w); simpl.
  - by apply Z.mod_pow2_bits_low.
  - apply Z.mod_pow2_bits_high; lia.
Qed.

Lemma testbit_bit n i : 0 <= n -> Z.testbit (bit n) i = (n =? i).
Proof. intros. unfold bit. rewrite Z.shiftl_1_l. by apply Z.pow2_bits_eqb. Qed.

Lemma testbit_ones n i : 0 <= n -> 0 <= i -> Z.testbit (Z.ones n) i = (i <? n).
Proof.
  intros. destruct (Z.ltb_spec i n).
  - apply Z.ones_spec_low; lia.
  - apply Z.ones_spec_high; lia.
Qed.

(** The bits of a value of a [w]-bit register above [w] are zero. *)
Lemma testbit_range w z i : 0 <= z < 2 ^ w -> 0 <= w <= i -> Z.testbit z i = false.
Proof.
  intros Hz Hi. rewrite <- (wrap_id w z) by done.
  rewrite testbit_wrap by lia. destruct (Z.ltb_spec i w); [lia | done].
Qed.

Lemma bits_range w z : 0 <= w -> (forall i, w <= i -> Z.testbit z i = false) -> 0 <= z -> 0 <= z < 2 ^ w.
Proof.
  intros Hw Hb Hz. split; [done|].
  destruct (Z.eq_dec z 0) as [->|]; [by apply Z.pow_pos_nonneg|].
  apply Z.log2_lt_pow2; [lia|].
  destruct (Z.lt_ge_cases (Z.log2 z) w); [done|].
  specialize (Hb (Z.log2 z) H). rewrite Z.bit_log2 in Hb by lia. done.
Qed.

#[export] Hint Rewrite Z.land_spec Z.lor_spec Z.lxor_spec Z.ldiff_spec Z.testbit_0_l : bits.
#[export] Hint Rewrite Z.lnot_spec Z.shiftl_spec Z.shiftr_spec testbit_wrap testbit_bit testbit_ones using lia : bits.


(** Decide an equality of integers bit by bit. *)
Ltac bitwise_split :=
  repeat match goal with
  | |- context [?a <? ?b] => destruct (Z.ltb_spec a b); try lia
  | |- context [?a =? ?b] => destruct (Z.eqb_spec a b); try lia
  end.
(** [lia] with the quotients and remainders of the goal spelled out. *)
Ltac dlia := Z.to_euclidean_division_equations; lia.

(** Case analysis on every integer comparison of the goal. *)
Ltac zcases :=
  repeat match goal with
  | |- context [?a <=? ?b] => destruct (Z.leb_spec a b); try lia
  | |- context [?a <? ?b] => destruct (Z.ltb_spec a b); try lia
  | |- context [?a =? ?b] => destruct (Z.eqb_spec a b); try lia
  end; cbn [andb orb negb].
Ltac bitwise :=
  apply Z.bits_inj'; let i := fresh "i" in let Hi := fresh "Hi" in intros i Hi;
  autorewrite with bits; try btauto; bitwise_split; subst; try btauto.

Lemma flag_bit v n : 0 <= n -> flag v (bit n) = Z.testbit v n.
Proof.
  intros. unfold flag. destruct (Z.testbit v n) eqn:E.
  - apply negb_true_iff, Z.eqb_neq. intros H0.
    apply (f_equal (fun x => Z.testbit x n)) in H0. autorewrite with bits in H0.
    rewrite E, Z.eqb_refl in H0. done.
  - apply negb_false_iff, Z.eqb_eq. bitwise. by rewrite E.
Qed.

Lemma flag_true v m : flag v m = true <-> v .& m <> 0.
Proof. unfold flag. rewrite negb_true_iff. apply Z.eqb_neq. Qed.
Lemma flag_false v m : flag v m = false <-> v .& m = 0.
Proof. unfold flag. rewrite negb_false_iff. apply Z.eqb_eq. Qed.

(** Flags of a register after constant masks are set and cleared. *)
Lemma flag_land v c m : flag (v .& c) m = flag v (c .& m).
Proof. unfold flag. by rewrite Z.land_assoc. Qed.
Lemma flag_lor v c m : flag (v .| c) m = flag v m || flag c m.
Proof.
  unfold flag. rewrite Z.land_lor_distr_l, <- negb_andb. f_equal. apply eq_true_iff_eq.
  rewrite andb_true_iff, !Z.eqb_eq. apply Z.lor_eq_0_iff.
Qed.
Lemma flag_lor_r v a b : flag v (a .| b) = flag v a || flag v b.
Proof.
  unfold flag. rewrite Z.land_lor_distr_r, <- negb_andb. f_equal. apply eq_true_iff_eq. rewrite andb_true_iff, !Z.eqb_eq. apply Z.lor_eq_0_iff.
Qed.
Lemma flag_0_r v : flag v 0 = false.
Proof. unfold flag. by rewrite Z.land_0_r. Qed.

Ltac is_closed c := assert_fails (idtac; match c with context [?v] => is_var v end).
(** Evaluate the comparisons of closed integers in the goal. *)
Ltac zclosed :=
  repeat match goal with
  | |- context [?a =? ?b] =>
      is_closed a; is_closed b; let v := eval vm_compute in (a =? b) in change (a =? b) with v
  end; cbn [negb andb orb]; cbv iota.
(** Push flags to the registers they come from and evaluate the masks: a flag is
    left on a variable register with a numeral mask, in goal and hypotheses. *)
Ltac fnorm_mask x c :=
  is_closed c;
  let c' := eval vm_compute in c in
  assert_fails (constr_eq c c'); change (flag x c) with (flag x c') in *.
Ltac fnorm_val x c :=
  is_closed x; is_closed c;
  let b := eval vm_compute in (flag x c) in change (flag x c) with b in *.
Ltac fnorm :=
  repeat match goal with
  | |- context [flag ?x ?c] => fnorm_val x c
  | H : context [flag ?x ?c] |- _ => fnorm_val x c
  | |- context [flag ?x ?c] => fnorm_mask x c
  | H : context [flag ?x ?c] |- _ => fnorm_mask x c
  | |- context [flag _ 0] => rewrite flag_0_r
  | H : context [flag _ 0] |- _ => rewrite flag_0_r in H
  | |- context [flag (_ .& _) _] => rewrite flag_land
  | |- context [flag (_ .| _) _] => rewrite flag_lor
  | H : context [flag (_ .& _) _] |- _ => rewrite flag_land in H
  | H : context [flag (_ .| _) _] |- _ => rewrite flag_lor in H
  end;
  rewrite ?orb_false_r, ?orb_true_r in *; cbn [orb andb negb] in *.

(** ** Ranges *)

Create HintDb ranges.

Lemma in_range_bits w z :
  0 <= w -> in_range w z <-> (forall i, w <= i -> Z.testbit z i = false).
Proof.
  intros Hw. split.
  - intros Hz i Hi. eapply testbit_range; [apply Hz | lia].
  - intros Hb. apply bits_range; [done.. |].
    apply Z.bits_iff_nonneg_ex. exists w. intros m Hm. apply Hb. lia.
Qed.

Lemma in_range_wrap w z : 0 <= w -> in_range w (wrap w z).
Proof. apply wrap_range. Qed.
Lemma in_range_0 w : 0 <= w -> in_range w 0.
Proof. intros. split; [done | by apply Z.pow_pos_nonneg]. Qed.
Lemma in_range_land_l w a b : 0 <= w -> in_range w a -> in_range w (a .& b).
Proof. intros Hw. rewrite !in_range_bits by done. intros Ha i Hi. rewrite Z.land_spec, Ha; done. Qed.
Lemma in_range_land_r w a b : 0 <= w -> in_range w b -> in_range w (a .& b).
Proof. intros. rewrite Z.land_comm. by apply in_range_land_l. Qed.
Lemma in_range_lor w a b : 0 <= w -> in_range w a -> in_range w b -> in_range w (a .| b).
Proof. intros Hw. rewrite !in_range_bits by done. intros Ha Hb i Hi. rewrite Z.lor_spec, Ha, Hb; done. Qed.
Lemma in_range_lxor w a b : 0 <= w -> in_range w a -> in_range w b -> in_range w (a .^ b).
Proof. intros Hw. rewrite !in_range_bits by done. intros Ha Hb i Hi. rewrite Z.lxor_spec, Ha, Hb; done. Qed.
Lemma in_range_bit w n : 0 <= n < w -> in_range w (bit n).
Proof. intros. unfold in_range, bit. rewrite Z.shiftl_1_l. split; [lia|]. apply Z.pow_lt_mono_r; lia. Qed.
Lemma in_range_mono w w' z : 0 <= w <= w' -> in_range w z -> in_range w' z.
Proof. unfold in_range. intros ? []. assert (2 ^ w <= 2 ^ w') by (apply Z.pow_le_mono_r; lia). lia. Qed.
Lemma in_range_shiftr w z n : 0 <= w -> 0 <= n -> in_range w z -> in_range w (z .>> n).
Proof. intros Hw Hn. rewrite !in_range_bits by done. intros Hb i Hi. rewrite Z.shiftr_spec by lia. apply Hb. lia. Qed.
Lemma in_range_if (b : bool) w x y : in_range w x -> in_range w y -> in_range w (if b then x else y).
Proof. by destruct b. Qed.
Lemma wrap_in_range w z : in_range w z -> wrap w z = z.
Proof. apply wrap_id. Qed.

#[export] Hint Resolve in_range_wrap in_range_0 in_range_lor in_range_lxor in_range_bit
  in_range_if in_range_shiftr : ranges.
#[export] Hint Resolve in_range_land_l | 3 : ranges.
#[export] Hint Resolve in_range_land_r | 4 : ranges.
#[export] Hint Extern 2 (_ <= _) => lia : ranges.
#[export] Hint Extern 2 (_ <= _ < _) => lia : ranges.
(** Closed terms are evaluated. *)
Ltac closed_range :=
  match goal with
  | |- in_range ?w ?z =>
      assert_fails (idtac; match z with context [?v] => is_var v end);
      assert_fails (idtac; match w with context [?v] => is_var v end);
      solve [split; vm_compute; congruence]
  end.
#[export] Hint Extern 3 (in_range _ _) => closed_range : ranges.

Lemma flag_land_false x c m : flag x m = false -> flag (x .& c) m = false.
Proof.
  rewrite !flag_false. intros H. by rewrite <- Z.land_assoc, (Z.land_comm c), Z.land_assoc, H, Z.land_0_l.
Qed.

(** Write-one-to-clear of the flags [e] leaves the other flags alone. *)
Lemma flag_w1c_other x v e m : in_range 32 m -> e .& m = 0 -> flag (x .& u32 (.~ (v .& e))) m = flag x m.
Proof.
  intros Hm He. rewrite flag_land. f_equal. apply Z.bits_inj'. intros i Hi. autorewrite with bits.
  apply (f_equal (fun z => Z.testbit z i)) in He. autorewrite with bits in He.
  destruct (Z.ltb_spec i 32).
  - destruct (Z.testbit e i), (Z.testbit m i); cbn in He; try discriminate He; btauto.
  - rewrite (testbit_range 32 m) by (done || lia). btauto.
Qed.

(** ** Array lemmas *)

Create Rewrite HintDb arrays.

Section arrays.
Context {A : Type} `{Inhabited A}.
Implicit Types l : list A.

Lemma length_arr_set l i v : length (l.[i <- v]) = length l.
Proof. apply length_insert. Qed.

Lemma arr_get_set_eq l i v :
  0 <= i < zlen l -> l.[i <- v].[i] = v.
Proof. intros. unfold arr_get, arr_set. apply list_lookup_total_insert_eq. lia. Qed.

Lemma arr_get_set_ne l i j v : 0 <= i -> 0 <= j -> i <> j -> l.[i <- v].[j] = l.[j].
Proof. intros. unfold arr_get, arr_set. apply list_lookup_total_insert_ne. lia. Qed.

Lemma arr_get_set l i j v :
  0 <= i < zlen l -> 0 <= j -> l.[i <- v].[j] = if j =? i then v else l.[j].
Proof.
  intros. destruct (Z.eqb_spec j i) as [->|]; [by apply arr_get_set_eq|].
  apply arr_get_set_ne; lia.
Qed.

Lemma arr_set_set l i v w : l.[i <- v].[i <- w] = l.[i <- w].
Proof. apply list_insert_insert_eq. Qed.

Lemma arr_set_get l i : 0 <= i < zlen l -> l.[i <- l.[i]] = l.
Proof.
  intros. unfold arr_set, arr_get. apply list_insert_id.
  apply list_lookup_lookup_total_lt. lia.
Qed.

Lemma Forall_arr_set (P : A -> Prop) l i v : Forall P l -> P v -> Forall P (l.[i <- v]).
Proof. intros. by apply Forall_insert. Qed.

Lemma Forall_arr_get (P : A -> Prop) l i :
  Forall P l -> 0 <= i < zlen l -> P (l.[i]).
Proof.
  intros Hl ?. rewrite Forall_lookup in Hl. apply (Hl (Z.to_nat i)).
  apply list_lookup_lookup_total_lt. lia.
Qed.

Lemma arr_get_replicate n (x : A) i : 0 <= i < Z.of_nat n -> (replicate n x).[i] = x.
Proof. intros. unfold arr_get. apply lookup_total_replicate_2. lia. Qed.

Lemma arr_ext l1 l2 :
  length l1 = length l2 ->
  (forall i, 0 <= i < zlen l1 -> l1.[i] = l2.[i]) -> l1 = l2.
Proof.
  intros Hlen Hget. apply list_eq_same_length with (n := length l1); [done..|].
  intros i x y Hi Hx Hy. specialize (Hget (Z.of_nat i) ltac:(lia)).
  unfold arr_get in Hget. rewrite Nat2Z.id in Hget.
  apply list_lookup_total_correct in Hx, Hy. congruence.
Qed.
End arrays.
#[export] Hint Rewrite @length_arr_set : arrays.

Lemma seqZ_S a n : 0 < n -> seqZ a n = a :: seqZ (a + 1) (n - 1).
Proof. intros. rewrite seqZ_cons by lia. f_equal. Qed.

Lemma seqZ_snoc (j : nat) : seqZ 0 (Z.of_nat (S j)) = seqZ 0 (Z.of_nat j) ++ [Z.of_nat j].
Proof. rewrite Nat2Z.inj_succ, <- Z.add_1_r, seqZ_app by lia. by rewrite (seqZ_S (0 + Z.of_nat j)) by lia. Qed.

Lemma foldl_map {A B C} (f : A -> C -> A) (g : B -> C) (a : A) (l : list B) :
  foldl f a (map g l) = foldl (fun a x => f a (g x)) a l.
Proof. revert a. induction l as [|x l IH]; intros a; cbn; [done | apply IH]. Qed.

Lemma existsb_ext {A} (f g : A -> bool) l : (forall x, x ∈ l -> f x = g x) -> existsb f l = existsb g l.
Proof.
  intros Hfg. induction l as [|x l IH]; [done|]. cbn [existsb].
  rewrite (Hfg x) by left. rewrite IH; [done|]. intros y Hy. apply Hfg. by right.
Qed.

Lemma seqZ_cases (P : Z -> Prop) a n : Forall P (seqZ a n) -> forall j, a <= j < a + n -> P j.
Proof. intros Hf j Hj. rewrite Forall_forall in Hf. by apply Hf, elem_of_seqZ. Qed.

(** ** Array FIFOs

    A hardware FIFO kept as the first [n] elements of an array, oldest first:
    popped by [memmove(&f[0], &f[1], n * sizeof(f[0]))], [n] being the count
    after the pop. *)

Definition fifo_shift (f : list Z) (n : Z) : list Z := slice 1 n f ++ drop (Z.to_nat n) f.

Lemma fifo_push (f : list Z) n w : 0 <= n < zlen f ->
  take (Z.to_nat (n + 1)) (f.[n <- w]) = take (Z.to_nat n) f ++ [w].
Proof.
  intros Hn. replace (Z.to_nat (n + 1)) with (S (Z.to_nat n)) by lia. unfold arr_set.
  rewrite (take_S_r _ _ w); [by rewrite take_insert_ge by lia|]. apply list_lookup_insert_eq. lia.
Qed.

Lemma fifo_pop (f : list Z) n : 0 < n <= zlen f ->
  take (Z.to_nat n) f = f.[0] :: take (Z.to_nat (n - 1)) (fifo_shift f (n - 1)).
Proof.
  intros Hn. destruct f as [|x f]; cbn [length] in Hn; [lia|]. replace (Z.to_nat n) with (S (Z.to_nat (n - 1))) by lia.
  cbn [take]. unfold fifo_shift, slice. change (drop (Z.to_nat 1) (x :: f)) with f. f_equal.
  rewrite take_app_le by (rewrite length_take; lia). by rewrite take_take, Nat.min_id.
Qed.

Lemma fifo_shift_len (f : list Z) n : 0 <= n < zlen f -> zlen (fifo_shift f n) = zlen f.
Proof.
  intros Hn. unfold fifo_shift, slice. rewrite length_app, length_take, !length_drop. lia.
Qed.

(** ** Ring buffers

    The [n] elements of a ring of [D] cells that starts at index [r], oldest
    first. *)

Definition ring_items {A} `{Inhabited A} (D : Z) (f : list A) (r n : Z) : list A :=
  map (fun i => f.[(r + i) mod D]) (seqZ 0 n).

Lemma ring_distinct D r i c : 0 < D -> 0 <= i < c -> c - i < D -> (r + i) mod D <> (r + c) mod D.
Proof.
  intros HD Hi Hc E. pose proof (Z.div_mod (r + i) D ltac:(lia)). pose proof (Z.div_mod (r + c) D ltac:(lia)).
  rewrite E in *. assert (Hq : c - i = D * ((r + c) / D - (r + i) / D)) by lia.
  assert (0 < (r + c) / D - (r + i) / D < 1) by nia. lia.
Qed.

Lemma ring_next D r i : 0 < D -> ((r + 1) mod D + i) mod D = (r + (1 + i)) mod D.
Proof. intros. rewrite Z.add_mod_idemp_l by lia. f_equal. lia. Qed.

Section ring.
Context {A : Type} `{Inhabited A}.
Implicit Types f : list A.

Lemma ring_items_len D f r n : 0 <= n -> zlen (ring_items D f r n) = n.
Proof. intros. unfold ring_items. rewrite length_map, length_seqZ. lia. Qed.

Lemma ring_push D f r n v : 0 < D <= zlen f -> 0 <= n < D ->
  ring_items D (f.[(r + n) mod D <- v]) r (n + 1) = ring_items D f r n ++ [v].
Proof.
  intros HD Hn. unfold ring_items. pose proof (Z.mod_pos_bound (r + n) D ltac:(lia)).
  rewrite seqZ_app, map_app by lia. f_equal.
  - apply map_ext_in. intros i Hi%list_elem_of_In%elem_of_seqZ. pose proof (Z.mod_pos_bound (r + i) D ltac:(lia)).
    apply arr_get_set_ne; [lia.. |]. apply not_eq_sym, ring_distinct; lia.
  - rewrite (seqZ_S (0 + n) 1) by lia. change (seqZ (0 + n + 1) (1 - 1)) with (@nil Z). cbn [map].
    rewrite Z.add_0_l. f_equal. apply arr_get_set_eq. lia.
Qed.

Lemma ring_pop D f r n : 0 <= r < D -> 0 < n ->
  ring_items D f r n = f.[r] :: ring_items D f ((r + 1) mod D) (n - 1).
Proof.
  intros Hr Hn. unfold ring_items. rewrite seqZ_S by lia. cbn [map]. f_equal.
  - by rewrite Z.add_0_r, Z.mod_small by lia.
  - change (0 + 1) with (1 + 0). rewrite <- (fmap_add_seqZ 1 0 (n - 1)). unfold fmap.
    change (list_fmap Z Z (Z.add 1)) with (map (Z.add 1)). rewrite map_map. apply map_ext. intros i. by rewrite ring_next by lia.
Qed.
End ring.

(** ** Bytes of a word *)

Lemma length_le_store n v : length (le_store n v) = n.
Proof. revert v. induction n as [|n IH]; intros v; [done|]. cbn [le_store length]. by rewrite IH. Qed.

Lemma le_load_store n v : le_load (le_store n v) = wrap (8 * Z.of_nat n) v.
Proof.
  revert v. induction n as [|n IH]; intros v; cbn [le_store le_load].
  { change (8 * Z.of_nat 0) with 0. unfold wrap. by rewrite Z.pow_0_r, Z.mod_1_r. }
  rewrite IH. apply Z.bits_inj'. intros i Hi. unfold wrap.
  rewrite Z.lor_spec, Z.shiftl_spec, <- !Z.land_ones, !Z.land_spec by lia. rewrite !Z.testbit_ones by lia.
  destruct (Z.ltb_spec i 8).
  - rewrite (Z.testbit_neg_r _ (i - 8)) by lia. zcases. btauto.
  - rewrite Z.shiftr_spec by lia. replace (i - 8 + 8) with i by lia. zcases; btauto.
Qed.

Lemma le_store_load bs : Forall (in_range 8) bs -> le_store (length bs) (le_load bs) = bs.
Proof.
  induction 1 as [|b bs Hb _ IH]; [done|]. cbn [length le_store le_load].
  assert (E1 : u8 (b .| (le_load bs .<< 8)) = b).
  { rewrite <- (wrap_in_range 8 b Hb) at 2. unfold wrap. rewrite <- !Z.land_ones by lia. rewrite Z.land_lor_distr_l.
    rewrite (Z.land_ones (le_load bs .<< 8)), Z.shiftl_mul_pow2, Z.mod_mul, Z.lor_0_r by lia. done. }
  assert (E2 : (b .| (le_load bs .<< 8)) .>> 8 = le_load bs).
  { rewrite Z.shiftr_lor, Z.shiftr_shiftl_l by lia. rewrite Z.shiftr_div_pow2, Z.div_small by (unfold in_range in Hb; lia). done. }
  by rewrite E1, E2, IH.
Qed.

(** ** Memory

    Guest memory is a function from addresses to bytes. *)

Definition mem_load (m : Z -> Z) (a n : Z) : list Z := map m (seqZ a n).
Definition mem_store (m : Z -> Z) (a : Z) (bs : list Z) : Z -> Z :=
  fun x => if (a <=? x) && (x <? a + zlen bs) then bs.[x - a] else m x.

(** The little-endian word at an address. *)
Definition word_at (m : Z -> Z) (a : Z) : Z := le_load (mem_load m a 4).

(** Two stretches of memory without a common byte, and a list of such. *)
Definition apart (p q : Z * Z) : Prop := p.1 + p.2 <= q.1 \/ q.1 + q.2 <= p.1.
Fixpoint separate (l : list (Z * Z)) : Prop :=
  match l with
  | [] => True
  | p :: l => Forall (apart p) l /\ separate l
  end.
Definition apartb (p q : Z * Z) : bool := (p.1 + p.2 <=? q.1) || (q.1 + q.2 <=? p.1).
Fixpoint separateb (l : list (Z * Z)) : bool :=
  match l with
  | [] => true
  | p :: l => forallb (apartb p) l && separateb l
  end.
Definition inside (x : Z) (p : Z * Z) : Prop := p.1 <= x < p.1 + p.2.

Lemma apartb_ok p l : forallb (apartb p) l = true -> Forall (apart p) l.
Proof.
  intros H. apply Forall_forall. intros q Hq%list_elem_of_In. rewrite forallb_forall in H. specialize (H q Hq).
  unfold apartb in H. rewrite orb_true_iff, !Z.leb_le in H. done.
Qed.
Lemma separateb_ok l : separateb l = true -> separate l.
Proof. induction l as [|p l IH]; [done|]. cbn. rewrite andb_true_iff. intros [H1 H2]. split; [by apply apartb_ok | by apply IH]. Qed.

Lemma mem_load_ext m m' a n : (forall x, inside x (a, n) -> m' x = m x) -> mem_load m' a n = mem_load m a n.
Proof. intros Hm. apply map_ext_in. intros x Hx%list_elem_of_In%elem_of_seqZ. by apply Hm. Qed.

Lemma word_at_ext m m' a : (forall x, inside x (a, 4) -> m' x = m x) -> word_at m' a = word_at m a.
Proof. intros Hm. unfold word_at. by rewrite (mem_load_ext m m'). Qed.

Lemma mem_store_out m a bs x : ~ inside x (a, zlen bs) -> mem_store m a bs x = m x.
Proof. unfold inside, mem_store. cbn [fst snd]. intros Hx. zcases; try done; exfalso; lia. Qed.

Lemma length_mem_load m a n : zlen (mem_load m a n) = Z.max 0 n.
Proof. unfold mem_load. rewrite length_map, length_seqZ. lia. Qed.

Lemma mem_load_store m a bs : mem_load (mem_store m a bs) a (zlen bs) = bs.
Proof.
  apply list_eq. intros i. unfold mem_load. rewrite list_lookup_fmap. destruct (decide (i < length bs)%nat) as [Hi|Hi].
  - rewrite lookup_seqZ_lt by lia. cbn [fmap option_fmap option_map]. unfold mem_store.
    destruct (lookup_lt_is_Some_2 bs i Hi) as [y Hy]. rewrite Hy. f_equal.
    rewrite (proj2 (Z.leb_le _ _)), (proj2 (Z.ltb_lt _ _)) by lia. replace (a + Z.of_nat i - a) with (Z.of_nat i) by lia.
    unfold arr_get. rewrite Nat2Z.id. by apply list_lookup_total_correct.
  - rewrite lookup_seqZ_ge by lia. symmetry. apply lookup_ge_None_2. lia.
Qed.

Lemma mem_load_app m a n k : 0 <= n -> 0 <= k -> mem_load m a (n + k) = mem_load m a n ++ mem_load m (a + n) k.
Proof. intros Hn Hk. unfold mem_load. by rewrite seqZ_app, map_app by lia. Qed.

(** A block read from several stretches in turn. *)
Definition gather (m : Z -> Z) (l : list (Z * Z)) : list Z := flat_map (fun p => mem_load m p.1 p.2) l.
(** [m'] differs from [m] in those stretches at most. *)
Definition only_in (l : list (Z * Z)) (m m' : Z -> Z) : Prop := forall x, Forall (fun p => ~ inside x p) l -> m' x = m x.

Lemma apart_sym p q : apart p q -> apart q p.
Proof. unfold apart. lia. Qed.
Lemma apart_outside x p l : Forall (apart p) l -> inside x p -> Forall (fun q => ~ inside x q) l.
Proof. intros Hl Hx. eapply Forall_impl; [exact Hl|]. unfold apart, inside in *. cbn beta. intros q Hq. lia. Qed.
Lemma mem_load_only l m m' p : only_in l m m' -> Forall (apart p) l -> mem_load m' p.1 p.2 = mem_load m p.1 p.2.
Proof. intros Hm Hp. apply mem_load_ext. intros x Hx. apply Hm. apply (apart_outside x p); [done|]. by destruct p. Qed.
Lemma gather_only l m m' k : only_in l m m' -> Forall (fun p => Forall (apart p) l) k -> gather m' k = gather m k.
Proof. intros Hm. induction 1 as [|p k Hp _ IH]; [done|]. unfold gather in *. cbn [flat_map]. by rewrite (mem_load_only l m m' p), IH. Qed.
Lemma gather_length m l : Forall (fun p => 0 <= p.2) l -> zlen (gather m l) = foldr (fun p t => p.2 + t) 0 l.
Proof.
  induction 1 as [|p l Hp _ IH]; [done|]. unfold gather in *. cbn [flat_map foldr]. rewrite length_app, Nat2Z.inj_add, length_mem_load, IH. lia.
Qed.

Lemma word_at_store m a v : in_range 32 v -> word_at (mem_store m a (le_store 4 v)) a = v.
Proof.
  intros Hv. unfold word_at. rewrite <- (wrap_in_range 32 v) at 2 by done. change 32 with (8 * Z.of_nat 4). rewrite <- le_load_store. f_equal.
  exact (mem_load_store m a (le_store 4 v)).
Qed.

(** ** Transition systems *)

(** An invariant preserved by every step holds in every reachable state. *)
Lemma rtc_invariant {A} (R : relation A) (I : A -> Prop) x y :
  (forall a b, R a b -> I a -> I b) -> rtc R x y -> I x -> I y.
Proof. intros Hstep. induction 1; eauto. Qed.

(** ** Operation sequences

    A sequence of operations and what they return, and the simulation of one
    machine by another under which they return the same. *)

Definition run_ops {S Op O} (exec : S -> Op -> S * list O) (s : S) (ops : list Op) : S * list O :=
  foldl (fun so op => let '(s, out) := so in let '(s, o) := exec s op in (s, out ++ o)) (s, []) ops.

Lemma run_ops_cons {S Op O} (exec : S -> Op -> S * list O) s op ops :
  run_ops exec s (op :: ops) =
    let '(s1, o1) := exec s op in let '(s2, o2) := run_ops exec s1 ops in (s2, o1 ++ o2).
Proof.
  assert (Hacc : forall ops s out, foldl (fun so op => let '(s, out) := so in let '(s, o) := exec s op in (s, out ++ o)) (s, out) ops =
    let '(s2, o2) := run_ops exec s ops in (s2, out ++ o2)).
  { unfold run_ops. clear. induction ops as [|op ops IH]; intros s out; cbn [foldl]; [by rewrite app_nil_r|].
    destruct (exec s op) as [s1 o1]. cbn [app]. rewrite (IH s1 (out ++ o1)), (IH s1 o1). destruct (foldl _ (s1, []) ops) as [s2 o2]. by rewrite app_assoc. }
  unfold run_ops at 1. cbn [foldl]. destruct (exec s op) as [s1 o1]. by rewrite Hacc.
Qed.

Section simulation.
Context {S A Op O : Type} (exec : S -> Op -> S * list O) (aexec : A -> Op -> A * list O).
Context (R : S -> A -> Prop) (ok : Op -> Prop).
Hypothesis step : forall s a op, ok op -> R s a -> R (exec s op).1 (aexec a op).1 /\ (exec s op).2 = (aexec a op).2.

Lemma run_ops_simulates ops s a : Forall ok ops -> R s a ->
  R (run_ops exec s ops).1 (run_ops aexec a ops).1 /\ (run_ops exec s ops).2 = (run_ops aexec a ops).2.
Proof.
  intros Hops. unfold run_ops. generalize (@nil O) as out. revert s a. induction Hops as [|op ops Hop _ IH]; intros s a out Hr; [done|].
  cbn [foldl]. destruct (step s a op Hop Hr) as [H1 H2]. destruct (exec s op) as [s' o], (aexec a op) as [a' o'].
  cbn [fst snd] in H1, H2. subst o'. by apply IH.
Qed.
End simulation.
