(* ===== verification/Sema42.v ===== *)
(** * SEMA42: the sixteen hardware gate semaphores

    Model of [hw/misc/mcxn_sema42.c]: the gate registers, their lock protocol
    and the reset register, with an abstract lock table the device refines and
    a mutual exclusion theorem for any number of domains that interleave their
    accesses. *)
From stdpp Require Import gmap.
From S2P Require Import Prelude.

Definition SEMA42_GATE_LAST : Z := 0x0F.
Definition SEMA42_RSTGT : Z := 0x42.
Definition SEMA42_GATE_GTFSM_MASK : Z := 0x0F.
Definition MCXN_SEMA42_NUM_GATES : nat := 16.

Record MCXNSema42State := mkSema42 {
  gate : list Z;      (* uint8_t gate[MCXN_SEMA42_NUM_GATES] *)
  rstgt : Z           (* uint16_t *)
}.
#[export] Instance sema42_settable : Settable MCXNSema42State :=
  fun s => mkSema42 (gate s) (rstgt s).

Definition mcxn_sema42_read (s : MCXNSema42State) (offset : Z) : Z :=
  if offset <=? SEMA42_GATE_LAST then (gate s).[offset] .& SEMA42_GATE_GTFSM_MASK
  else if offset =? SEMA42_RSTGT then rstgt s
  else 0.

Definition mcxn_sema42_write (s : MCXNSema42State) (offset value : Z) : MCXNSema42State :=
  if offset <=? SEMA42_GATE_LAST then
    let domain := u8 (value .& SEMA42_GATE_GTFSM_MASK) in
    let cur := u8 ((gate s).[offset] .& SEMA42_GATE_GTFSM_MASK) in
    if domain =? 0 then s <| gate := (gate s).[offset <- 0] |>
    else if (cur =? 0) || (cur =? domain) then s <| gate := (gate s).[offset <- domain] |>
    else s
  else if offset =? SEMA42_RSTGT then s <| rstgt := u16 (value .& 0xFF) |>
  else s.

Definition mcxn_sema42_reset : MCXNSema42State :=
  mkSema42 (replicate MCXN_SEMA42_NUM_GATES 0) 0.

(** ** Invariant: sixteen gates, each a 4-bit state machine value *)

Record sema42_wf (s : MCXNSema42State) : Prop := {
  sema42_len : zlen (gate s) = 16;
  sema42_vals : Forall (in_range 4) (gate s);
}.

Lemma sema42_domain_range v : in_range 4 (v .& SEMA42_GATE_GTFSM_MASK).
Proof. auto with ranges. Qed.

Lemma sema42_mask_id v : in_range 4 v -> u8 (v .& SEMA42_GATE_GTFSM_MASK) = v.
Proof.
  intros H. change SEMA42_GATE_GTFSM_MASK with (Z.ones 4). rewrite Z.land_ones by lia.
  change (v mod 2 ^ 4) with (wrap 4 v). rewrite (wrap_in_range 4) by done.
  apply wrap_in_range. eapply in_range_mono; [|done]. lia.
Qed.

Lemma sema42_reset_wf : sema42_wf mcxn_sema42_reset.
Proof. split; [done|]. apply Forall_replicate. auto with ranges. Qed.

Lemma sema42_u8_domain_range v : in_range 4 (u8 (v .& SEMA42_GATE_GTFSM_MASK)).
Proof.
  rewrite (wrap_in_range 8); [apply sema42_domain_range|].
  eapply in_range_mono; [|apply sema42_domain_range]. lia.
Qed.
#[local] Hint Resolve sema42_u8_domain_range : ranges.

Lemma sema42_write_wf s off v : sema42_wf s -> sema42_wf (mcxn_sema42_write s off v).
Proof.
  intros [Hl Hv]. unfold mcxn_sema42_write.
  repeat case_match; split; cbn; rewrite ?length_arr_set; auto using Forall_arr_set with ranges.
Qed.

(** ** The lock table the device implements *)

(** The domain that owns a gate, if any. *)
Definition owner (s : MCXNSema42State) (g : Z) : option Z :=
  if (gate s).[g] =? 0 then None else Some ((gate s).[g] - 1).

(** What a write of [v] to a gate does to its owner: zero releases, a domain
    number takes a free gate and loses against an owner. *)
Definition lock_spec (cur : option Z) (v : Z) : option Z :=
  if v =? 0 then None
  else match cur with
       | None => Some (v - 1)
       | Some o => Some o
       end.

Lemma gate_write s g v g' :
  sema42_wf s -> 0 <= g <= 15 -> 0 <= g' <= 15 -> in_range 4 v ->
  (gate (mcxn_sema42_write s g v)).[g'] =
    if g' =? g then
      if v =? 0 then 0 else if (gate s).[g] =? 0 then v else (gate s).[g]
    else (gate s).[g'].
Proof.
  intros [Hl Hv] Hg Hg' Hr. unfold mcxn_sema42_write, SEMA42_GATE_LAST.
  rewrite (proj2 (Z.leb_le _ _)) by lia.
  assert (Hr' : in_range 4 (gate s).[g]) by (apply Forall_arr_get; [done | lia]).
  rewrite !sema42_mask_id by done.
  destruct (Z.eqb_spec v 0); cbn -[arr_get arr_set];
    [rewrite arr_get_set by lia; done|].
  destruct (Z.eqb_spec (gate s).[g] 0); simpl;
    [rewrite arr_get_set by lia; done|].
  destruct (Z.eqb_spec (gate s).[g] v); simpl;
    [rewrite arr_get_set by lia|]; destruct (Z.eqb_spec g' g); congruence.
Qed.

(** Every gate write acts on the table of gate owners exactly as the lock
    specification says, and on no other gate: releasing frees the gate, a
    domain takes a free gate, and a lock attempt on an owned gate leaves the
    owner in place. *)
Theorem sema42_write_refines s g v g' :
  sema42_wf s -> 0 <= g <= 15 -> 0 <= g' <= 15 -> in_range 4 v ->
  owner (mcxn_sema42_write s g v) g' =
    if g' =? g then lock_spec (owner s g) v else owner s g'.
Proof.
  intros Hwf Hg Hg' Hv. unfold owner, lock_spec. rewrite gate_write by done.
  destruct (Z.eqb_spec g' g) as [->|]; [|done].
  destruct (Z.eqb_spec v 0); [done|]. destruct (Z.eqb_spec (gate s).[g] 0) as [E|E].
  - by rewrite (proj2 (Z.eqb_neq v 0)).
  - by rewrite (proj2 (Z.eqb_neq _ 0)).
Qed.

Lemma sema42_write_refines_witness :
  owner (mcxn_sema42_write (mcxn_sema42_write mcxn_sema42_reset 3 2) 3 5) 3 = Some 1.
Proof.
  rewrite (sema42_write_refines (mcxn_sema42_write mcxn_sema42_reset 3 2) 3 5 3);
    [reflexivity | apply sema42_write_wf, sema42_reset_wf | lia | lia | split; vm_compute; congruence].
Defined.

(** ** Mutual exclusion between domains

    The domains run concurrently; a register access is atomic.  A domain that
    wants gate [g] writes its number, and enters its critical section only if
    the gate then reads back as its own; it releases a gate it holds by
    writing zero. *)

Record sema_sys := mkSys { dev : MCXNSema42State; crit : gset (Z * Z) }.

Inductive sema_step : sema_sys -> sema_sys -> Prop :=
  | step_try s c d g : 0 <= d < 15 -> 0 <= g <= 15 ->
      sema_step (mkSys s c) (mkSys (mcxn_sema42_write s g (d + 1)) c)
  | step_enter s c d g : 0 <= d < 15 -> 0 <= g <= 15 ->
      mcxn_sema42_read s g = d + 1 ->
      sema_step (mkSys s c) (mkSys s ({[(d, g)]} ∪ c))
  | step_release s c d g : (d, g) ∈ c ->
      sema_step (mkSys s c) (mkSys (mcxn_sema42_write s g 0) (c ∖ {[(d, g)]})).

Record sema_inv (st : sema_sys) : Prop := {
  inv_dev : sema42_wf (dev st);
  inv_crit d g : (d, g) ∈ crit st -> 0 <= d < 15 /\ 0 <= g <= 15 /\ (gate (dev st)).[g] = d + 1;
}.

Lemma read_gate s g : sema42_wf s -> 0 <= g <= 15 -> mcxn_sema42_read s g = (gate s).[g].
Proof.
  intros [Hl Hv] Hg. unfold mcxn_sema42_read, SEMA42_GATE_LAST.
  rewrite (proj2 (Z.leb_le _ _)) by lia.
  assert (Hr : in_range 4 (gate s).[g]) by (apply Forall_arr_get; [done | lia]).
  rewrite <- (sema42_mask_id _ Hr) at 2. symmetry. apply wrap_in_range.
  eapply in_range_mono; [|apply sema42_domain_range]. lia.
Qed.

Lemma sema_step_inv st st' : sema_step st st' -> sema_inv st -> sema_inv st'.
Proof.
  destruct 1 as [s c d g Hd Hg | s c d g Hd Hg Hread | s c d g Hin]; intros [Hwf Hc]; cbn in *;
    split; cbn; auto using sema42_write_wf; intros d' g' Hin'.
  - destruct (Hc _ _ Hin') as (? & ? & E). rewrite gate_write by (auto; unfold in_range; lia).
    split; [done|]. split; [done|]. destruct (Z.eqb_spec g' g) as [->|]; [|done].
    rewrite E, !(proj2 (Z.eqb_neq _ 0)) by lia. done.
  - rewrite read_gate in Hread by done. set_solver.
  - destruct (Hc _ _ Hin) as (? & ? & E1).
    assert (Hne : (d', g') <> (d, g)) by set_solver.
    destruct (Hc d' g') as (? & ? & E2); [set_solver|].
    rewrite gate_write by (auto; unfold in_range; lia).
    split; [done|]. split; [done|]. destruct (Z.eqb_spec g' g) as [->|]; [|done].
    exfalso. apply Hne. f_equal. lia.
Qed.

(** C32: mutual exclusion.  Whatever the interleaving of the domains' accesses
    from reset, two domains in the critical section of the same gate are the
    same domain. *)
Theorem sema42_mutual_exclusion st d1 d2 g :
  rtc sema_step (mkSys mcxn_sema42_reset ∅) st ->
  (d1, g) ∈ crit st -> (d2, g) ∈ crit st -> d1 = d2.
Proof.
  intros Hr H1 H2. assert (Hinv : sema_inv st).
  { eapply rtc_invariant; [exact sema_step_inv | exact Hr |].
    split; cbn; [apply sema42_reset_wf | set_solver]. }
  destruct (inv_crit st Hinv _ _ H1) as (? & ? & ?), (inv_crit st Hinv _ _ H2) as (? & ? & ?). lia.
Qed.

Lemma sema42_mutual_exclusion_witness :
  let st := mkSys (mcxn_sema42_write (mcxn_sema42_write mcxn_sema42_reset 3 2) 3 5) ({[(1, 3)]} ∪ ∅) in
  rtc sema_step (mkSys mcxn_sema42_reset ∅) st /\ (1, 3) ∈ crit st /\ (1 = 1 :> Z).
Proof.
  intros st.
  assert (Hr : rtc sema_step (mkSys mcxn_sema42_reset ∅) st).
  { eapply rtc_l; [apply (step_try _ _ 1 3); lia|].
    eapply rtc_l; [apply (step_try _ _ 4 3); lia|].
    apply rtc_once, (step_enter _ _ 1 3); [lia | lia | reflexivity]. }
  assert (Hc : (1, 3) ∈ crit st) by (apply elem_of_union_l, elem_of_singleton; done).
  split; [done|]. split; [done|]. exact (sema42_mutual_exclusion st 1 1 3 Hr Hc Hc).
Defined.
