(* ===== verification/Edma.v ===== *)
(** * eDMA: the sixteen-channel direct memory access engine

    Model of [hw/dma/mcxn_edma.c] and [include/hw/dma/mcxn_edma.h]: the channel
    and transfer descriptor registers, one minor loop with its validation,
    channel links and scatter/gather, the request lines and the bottom half
    that services them.  The system address space the engine reads and writes
    is an interface ([AddressSpace]); the theorems on data movement are proved
    for any address space that behaves as RAM on a window ([RamWindow]). *)
From S2P Require Import Prelude.

(** ** The address space *)

(** While it serves an access of the engine, a peripheral may drive the
    engine's request inputs: the level line of a source, its pulse line, or
    the gate line that INPUTMUX holds. *)
Inductive line_event :=
  | EvReq (src : Z) (level : bool)
  | EvReqEnable (src : Z) (level : bool)
  | EvReqPulse (src : Z) (level : bool).

(** [as_read m a n]: did the transaction succeed, the [n] bytes, the new state
    of the system, and what happened on the request inputs. *)
Class AddressSpace (B : Type) := {
  as_read : B -> Z -> Z -> bool * list Z * B * list line_event;
  as_write : B -> Z -> list Z -> B * list line_event;
}.

(** ** Registers *)

Definition MCXN_EDMA_CHANNELS : Z := 16.
Definition MCXN_EDMA_REQ_SOURCES : Z := 128.
Definition MCXN_EDMA_MAX_XFER : Z := 64.
Definition CH_MUX_SRC_MASK : Z := 0x7F.
Definition MCXN_EDMA_MAX_LOOPS : nat := Z.to_nat 0x100000.

Record MCXNEDMAChan := mkChan {
  csr : Z; es : Z; intr : Z; sbr : Z; pri : Z; mux : Z;            (* uint32_t *)
  tcd_saddr : Z; tcd_slast : Z; tcd_daddr : Z; tcd_dlast : Z;      (* uint32_t *)
  tcd_nbytes : Z;                                                  (* uint32_t *)
  tcd_soff : Z; tcd_attr : Z; tcd_doff : Z;                        (* uint16_t *)
  tcd_citer : Z; tcd_csr : Z; tcd_biter : Z;                       (* uint16_t *)
  sg_pending : bool
}.
#[export] Instance chan_settable : Settable MCXNEDMAChan := fun c =>
  mkChan (csr c) (es c) (intr c) (sbr c) (pri c) (mux c)
    (tcd_saddr c) (tcd_slast c) (tcd_daddr c) (tcd_dlast c) (tcd_nbytes c)
    (tcd_soff c) (tcd_attr c) (tcd_doff c) (tcd_citer c) (tcd_csr c) (tcd_biter c)
    (sg_pending c).
Definition chan_zero : MCXNEDMAChan :=
  mkChan 0 0 0 0 0 0 0 0 0 0 0 0 0 0 0 0 0 false.
#[export] Instance chan_inhabited : Inhabited MCXNEDMAChan := populate chan_zero.

Record MCXNEDMAState := mkEdma {
  irq : list bool;              (* level of each channel's interrupt line *)
  mp_csr : Z; mp_es : Z;
  ch_grpri : list Z;
  ch : list MCXNEDMAChan;
  req_level : list bool;
  req_edge : list bool;
  req_enabled : list bool;
  dma_id : Z;
  bh : bool;                    (* the bottom half is scheduled *)
  in_link : bool
}.
#[export] Instance edma_settable : Settable MCXNEDMAState := fun s =>
  mkEdma (irq s) (mp_csr s) (mp_es s) (ch_grpri s) (ch s) (req_level s) (req_edge s)
    (req_enabled s) (dma_id s) (bh s) (in_link s).

Definition CH_SBR_MID_MASK : Z := 0x1F.
Definition EDMA_MID_DMA0 : Z := 6.
Definition EDMA_MID_DMA1 : Z := 7.

Definition CH_ES_SGE : Z := bit 2.
Definition CH_ES_NCE : Z := bit 3.
Definition CH_ES_DOE : Z := bit 4.
Definition CH_ES_DAE : Z := bit 5.
Definition CH_ES_SOE : Z := bit 6.
Definition CH_ES_SAE : Z := bit 7.
Definition CH_ES_ERR : Z := bit 31.
Definition CH_CSR_ERQ : Z := bit 0.
Definition CH_CSR_EEI : Z := bit 2.
Definition CH_CSR_DONE : Z := bit 30.
Definition CH_INT_INT : Z := bit 0.
Definition TCD_CSR_START : Z := bit 0.
Definition TCD_CSR_INTMAJOR : Z := bit 1.
Definition TCD_CSR_DREQ : Z := bit 3.
Definition TCD_CSR_ESG : Z := bit 4.
Definition TCD_CSR_MAJORELINK : Z := bit 5.
Definition TCD_CSR_MAJORLINKCH (v : Z) : Z := (v .>> 8) .& 0xF.
Definition ATTR_SMOD (a : Z) : Z := (a .>> 11) .& 0x1F.
Definition ATTR_DMOD (a : Z) : Z := (a .>> 3) .& 0x1F.
Definition ATTR_SSIZE (a : Z) : Z := (a .>> 8) .& 0x7.
Definition ATTR_DSIZE (a : Z) : Z := a .& 0x7.
Definition CITER_ELINK : Z := bit 15.
Definition CITER_ELINK_MASK : Z := 0x1FF.
Definition CITER_LINKCH (v : Z) : Z := (v .>> 9) .& 0xF.
Definition NBYTES_MASK : Z := 0x3FFFFFFF.
Definition CITER_MASK : Z := 0x7FFF.

(** Register offsets of the management page and of a channel page. *)
Definition R_MP_CSR : Z := 0x00.
Definition R_MP_ES : Z := 0x04.
Definition R_MP_INT : Z := 0x08.
Definition R_MP_HRS : Z := 0x0C.
Definition R_CH_GRPRI : Z := 0x100.
Definition R_CH_CSR : Z := 0x00.
Definition R_CH_ES : Z := 0x04.
Definition R_CH_INT : Z := 0x08.
Definition R_CH_SBR : Z := 0x0C.
Definition R_CH_PRI : Z := 0x10.
Definition R_CH_MUX : Z := 0x14.
Definition R_TCD_SADDR : Z := 0x20.
Definition R_TCD_SOFF : Z := 0x24.
Definition R_TCD_ATTR : Z := 0x26.
Definition R_TCD_NBYTES : Z := 0x28.
Definition R_TCD_SLAST : Z := 0x2C.
Definition R_TCD_DADDR : Z := 0x30.
Definition R_TCD_DOFF : Z := 0x34.
Definition R_TCD_CITER : Z := 0x36.
Definition R_TCD_DLAST : Z := 0x38.
Definition R_TCD_CSR : Z := 0x3C.
Definition R_TCD_BITER : Z := 0x3E.

(** Assign a field of channel [n]. *)
Definition upd_ch (s : MCXNEDMAState) (n : Z) (f : MCXNEDMAChan -> MCXNEDMAChan) : MCXNEDMAState :=
  s <| ch := (ch s).[n <- f ((ch s).[n])] |>.

(** ** Addresses *)

Definition edma_advance (addr off mod_ : Z) : Z :=
  if mod_ =? 0 then u32 (addr + off)
  else
    let mask := u32 (bit mod_ - 1) in
    (addr .& u32 (.~ mask)) .| (u32 (addr + off) .& mask).

(** ** Interrupt and request lines *)

Definition edma_update_irq (s : MCXNEDMAState) (n : Z) : MCXNEDMAState :=
  s <| irq := (irq s).[n <- flag (intr ((ch s).[n])) CH_INT_INT] |>.

Definition mcxn_edma_req_enable (s : MCXNEDMAState) (src : Z) (level : bool) : MCXNEDMAState :=
  if (src <? 0) || (MCXN_EDMA_REQ_SOURCES <=? src) then s
  else if Bool.eqb ((req_enabled s).[src]) level then s
  else
    let s := s <| req_enabled := (req_enabled s).[src <- level] |> in
    if level && (req_level s).[src] then s <| bh := true |> else s.

Definition mcxn_edma_req (s : MCXNEDMAState) (src : Z) (level : bool) : MCXNEDMAState :=
  if (src <? 0) || (MCXN_EDMA_REQ_SOURCES <=? src) then s
  else
    let s := s <| req_level := (req_level s).[src <- level] |> in
    if level then s <| bh := true |> else s.

Definition mcxn_edma_req_pulse (s : MCXNEDMAState) (src : Z) (level : bool) : MCXNEDMAState :=
  if (src <? 0) || (MCXN_EDMA_REQ_SOURCES <=? src) then s
  else if negb level then s
  else
    s <| req_edge := (req_edge s).[src <- true] |>
      <| req_level := (req_level s).[src <- true] |>
      <| bh := true |>.

Definition edma_line (s : MCXNEDMAState) (e : line_event) : MCXNEDMAState :=
  match e with
  | EvReq src level => mcxn_edma_req s src level
  | EvReqEnable src level => mcxn_edma_req_enable s src level
  | EvReqPulse src level => mcxn_edma_req_pulse s src level
  end.
Definition edma_lines (s : MCXNEDMAState) (es : list line_event) : MCXNEDMAState :=
  foldl edma_line s es.

(** ** The engine *)

Section engine.
Context {B : Type} `{AddressSpace B}.

(** The engine and the system around it. *)
Abbreviation mach := (MCXNEDMAState * B)%type.

Definition bus_read (st : mach) (a n : Z) : bool * list Z * mach :=
  let '(s, m) := st in
  let '(ok, bs, m, evs) := as_read m a n in
  (ok, bs, (edma_lines s evs, m)).
Definition bus_write (st : mach) (a : Z) (bs : list Z) : mach :=
  let '(s, m) := st in
  let '(m, evs) := as_write m a bs in
  (edma_lines s evs, m).

(** Scatter/gather: load the descriptor that [DLAST_SGA] points to. *)
Definition edma_load_next_tcd (st : mach) (n : Z) : bool * mach :=
  let '(s, m) := st in
  let sga := tcd_dlast ((ch s).[n]) in
  let sge s := upd_ch s n (fun c => c <| es := es c .| (CH_ES_SGE .| CH_ES_ERR) |>) in
  if (sga =? 0) || flag sga 0x1F then (false, (sge s, m))
  else
    let '(ok, tcd, (s, m)) := bus_read (s, m) sga 32 in
    if negb ok then (false, (sge s, m))
    else
      (true, (upd_ch s n (fun c =>
         c <| tcd_saddr := le_load (slice 0x00 4 tcd) |>
           <| tcd_soff := le_load (slice 0x04 2 tcd) |>
           <| tcd_attr := le_load (slice 0x06 2 tcd) |>
           <| tcd_nbytes := le_load (slice 0x08 4 tcd) |>
           <| tcd_slast := le_load (slice 0x0C 4 tcd) |>
           <| tcd_daddr := le_load (slice 0x10 4 tcd) |>
           <| tcd_doff := le_load (slice 0x14 2 tcd) |>
           <| tcd_citer := le_load (slice 0x16 2 tcd) |>
           <| tcd_dlast := le_load (slice 0x18 4 tcd) |>
           <| tcd_csr := le_load (slice 0x1C 2 tcd) |>
           <| tcd_biter := le_load (slice 0x1E 2 tcd) |>), m)).

(** *** One minor loop, in the order of [edma_minor_loop] *)

(** The fields of the descriptor as the minor loop decodes them. *)
Definition tcd_ssize (c : MCXNEDMAChan) : Z := u32 (bit (ATTR_SSIZE (tcd_attr c))).
Definition tcd_dsize (c : MCXNEDMAChan) : Z := u32 (bit (ATTR_DSIZE (tcd_attr c))).
Definition tcd_nb (c : MCXNEDMAChan) : Z := tcd_nbytes c .& NBYTES_MASK.
Definition tcd_elink (c : MCXNEDMAChan) : bool := flag (tcd_citer c) CITER_ELINK.
Definition tcd_cmask (c : MCXNEDMAChan) : Z := if tcd_elink c then CITER_ELINK_MASK else CITER_MASK.
Definition tcd_count (c : MCXNEDMAChan) : Z := tcd_citer c .& tcd_cmask c.

(** Raise an error status, and the error interrupt if it is enabled. *)
Definition edma_error (s : MCXNEDMAState) (n err : Z) : MCXNEDMAState :=
  let s := upd_ch s n (fun c => c <| es := es c .| (err .| CH_ES_ERR) |>) in
  if flag (csr ((ch s).[n])) CH_CSR_EEI then
    edma_update_irq (upd_ch s n (fun c => c <| intr := intr c .| CH_INT_INT |>)) n
  else s.

(** The validation of the whole descriptor. *)
Definition edma_tcd_errors (c : MCXNEDMAChan) : Z :=
  let ssize := tcd_ssize c in
  let dsize := tcd_dsize c in
  let nbytes := tcd_nb c in
  let err := 0 in
  let err := if tcd_saddr c mod ssize =? 0 then err else err .| CH_ES_SAE in
  let err := if Z.rem (swrap 16 (tcd_soff c)) (swrap 16 ssize) =? 0 then err else err .| CH_ES_SOE in
  let err := if tcd_daddr c mod dsize =? 0 then err else err .| CH_ES_DAE in
  let err := if Z.rem (swrap 16 (tcd_doff c)) (swrap 16 dsize) =? 0 then err else err .| CH_ES_DOE in
  let err := if (nbytes mod ssize =? 0) && (nbytes mod dsize =? 0) then err else err .| CH_ES_NCE in
  if (MCXN_EDMA_MAX_XFER <? ssize) || (MCXN_EDMA_MAX_XFER <? dsize) then err .| CH_ES_NCE else err.

(** [k] source reads of [size] bytes; the bytes are appended to the buffer. *)
Fixpoint edma_fill (k : nat) (st : mach) (saddr size off mod_ : Z) (buf : list Z)
  : mach * Z * list Z :=
  match k with
  | O => (st, saddr, buf)
  | S k =>
      let '(_, bs, st) := bus_read st saddr size in
      edma_fill k st (edma_advance saddr off mod_) size off mod_ (buf ++ bs)
  end.

(** [k] destination writes of [size] bytes each, from offset [i] of the buffer. *)
Fixpoint edma_drain (k : nat) (st : mach) (daddr size off mod_ : Z) (i : Z) (buf : list Z)
  : mach * Z :=
  match k with
  | O => (st, daddr)
  | S k =>
      let st := bus_write st daddr (slice i size buf) in
      edma_drain k st (edma_advance daddr off mod_) size off mod_ (i + size) buf
  end.

(** [k] chunks of max(SSIZE, DSIZE) bytes. *)
Fixpoint edma_chunks (k : nat) (c : MCXNEDMAChan) (st : mach) (saddr daddr : Z)
  : mach * Z * Z :=
  match k with
  | O => (st, saddr, daddr)
  | S k =>
      let ssize := tcd_ssize c in
      let dsize := tcd_dsize c in
      let chunk := Z.max ssize dsize in
      let '(st, saddr, buf) :=
        edma_fill (Z.to_nat (chunk / ssize)) st saddr ssize
          (swrap 16 (tcd_soff c)) (ATTR_SMOD (tcd_attr c)) [] in
      let '(st, daddr) :=
        edma_drain (Z.to_nat (chunk / dsize)) st daddr dsize
          (swrap 16 (tcd_doff c)) (ATTR_DMOD (tcd_attr c)) 0 buf in
      edma_chunks k c st saddr daddr
  end.

(** The copy loop: [for (b = 0; b < nbytes; b += chunk)]. *)
Definition edma_copy (c : MCXNEDMAChan) (st : mach) : mach * Z * Z :=
  let chunk := Z.max (tcd_ssize c) (tcd_dsize c) in
  edma_chunks (Z.to_nat ((tcd_nb c + chunk - 1) / chunk)) c st (tcd_saddr c) (tcd_daddr c).

(** A linked channel is started through the engine again: [ml] is the minor
    loop. *)
Definition edma_run (ml : mach -> Z -> option (bool * mach)) (st : mach) (n : Z) : option mach :=
  '(_, (s, m)) ← ml st n;
  Some (upd_ch s n (fun c => c <| tcd_csr := tcd_csr c .& u16 (.~ TCD_CSR_START) |>), m).

Definition edma_link_channel (ml : mach -> Z -> option (bool * mach)) (st : mach) (link : Z)
  : option mach :=
  let '(s, m) := st in
  if (MCXN_EDMA_CHANNELS <=? link) || in_link s then Some (s, m)
  else
    let s := s <| in_link := true |> in
    let s := upd_ch s link (fun c => c <| csr := csr c .& u32 (.~ CH_CSR_DONE) |>) in
    '(s, m) ← edma_run ml (s, m) link;
    Some (s <| in_link := false |>, m).

(** Completion of the major loop. *)
Definition edma_major_complete (ml : mach -> Z -> option (bool * mach)) (st : mach) (n saddr daddr : Z)
  : option mach :=
  let '(s, m) := st in
  let s := upd_ch s n (fun c =>
    let c := c <| tcd_saddr := u32 (saddr + swrap 32 (tcd_slast c)) |> in
    let c := if negb (flag (tcd_csr c) TCD_CSR_ESG)
             then c <| tcd_daddr := u32 (daddr + swrap 32 (tcd_dlast c)) |>
             else c <| tcd_daddr := daddr |> in
    c <| tcd_citer := tcd_biter c |>) in
  let c := (ch s).[n] in
  '(s, m) ← (if flag (tcd_csr c) TCD_CSR_MAJORELINK
             then edma_link_channel ml (s, m) (TCD_CSR_MAJORLINKCH (tcd_csr c))
             else Some (s, m));
  let '(s, m) := if flag (tcd_csr ((ch s).[n])) TCD_CSR_ESG
                 then snd (edma_load_next_tcd (s, m) n) else (s, m) in
  let s := upd_ch s n (fun c => c <| csr := csr c .| CH_CSR_DONE |>) in
  let s := if flag (tcd_csr ((ch s).[n])) TCD_CSR_DREQ
           then upd_ch s n (fun c => c <| csr := csr c .& u32 (.~ CH_CSR_ERQ) |>) else s in
  let s := if flag (tcd_csr ((ch s).[n])) TCD_CSR_INTMAJOR
           then edma_update_irq (upd_ch s n (fun c => c <| intr := intr c .| CH_INT_INT |>)) n
           else s in
  Some (s, m).

(** The transfer of a valid descriptor: copy, advance, count, link. *)
Definition edma_transfer (ml : mach -> Z -> option (bool * mach)) (st : mach) (n : Z)
  : option (bool * mach) :=
  let '(s, m) := st in
  let c := (ch s).[n] in
  let elink := tcd_elink c in
  let cmask := tcd_cmask c in
  let '((s, m), saddr, daddr) := edma_copy c (s, m) in
  let citer := u32 (tcd_count c - 1) in
  let s := upd_ch s n (fun c =>
    c <| tcd_saddr := saddr |> <| tcd_daddr := daddr |>
      <| tcd_citer := u16 ((tcd_citer c .& u32 (.~ cmask)) .| citer) |>) in
  if negb (citer =? 0) then
    st ← (if elink then edma_link_channel ml (s, m) (CITER_LINKCH (tcd_citer ((ch s).[n])))
          else Some (s, m));
    Some (false, st)
  else
    st ← edma_major_complete ml (s, m) n saddr daddr;
    Some (true, st).

Definition edma_minor_body (ml : mach -> Z -> option (bool * mach)) (st : mach) (n : Z)
  : option (bool * mach) :=
  let '(s, m) := st in
  let c := (ch s).[n] in
  if (tcd_dsize c =? 0) || (tcd_nb c =? 0) || (tcd_count c =? 0) then
    Some (true, (edma_error s n CH_ES_NCE, m))
  else if negb (edma_tcd_errors c =? 0) then
    Some (true, (edma_error s n (edma_tcd_errors c), m))
  else edma_transfer ml (s, m) n.

(** [None]: the recursion through channel links is deeper than [fuel]. *)
Fixpoint edma_minor_loop (fuel : nat) (st : mach) (n : Z) : option (bool * mach) :=
  match fuel with
  | O => None
  | S fuel => edma_minor_body (edma_minor_loop fuel) st n
  end.

(** A link is not followed from a linked channel, so the depth is two. *)
Definition EDMA_FUEL : nat := 2.

(** ** Register access *)

Definition edma_mp_int (s : MCXNEDMAState) : Z :=
  foldl (fun r n => if flag (intr ((ch s).[n])) CH_INT_INT then r .| bit n else r) 0 (seqZ 0 16).

Definition edma_read_mp (s : MCXNEDMAState) (off : Z) : Z :=
  if off =? R_MP_CSR then mp_csr s
  else if off =? R_MP_ES then mp_es s
  else if off =? R_MP_INT then edma_mp_int s
  else if off =? R_MP_HRS then 0
  else if (R_CH_GRPRI <=? off) && (off <? R_CH_GRPRI + 4 * MCXN_EDMA_CHANNELS)
       then (ch_grpri s).[(off - R_CH_GRPRI) / 4]
  else 0.

Definition edma_read_ch (c : MCXNEDMAChan) (off : Z) : Z :=
  if off =? R_CH_CSR then csr c
  else if off =? R_CH_ES then es c
  else if off =? R_CH_INT then intr c
  else if off =? R_CH_SBR then sbr c
  else if off =? R_CH_PRI then pri c
  else if off =? R_CH_MUX then mux c
  else if off =? R_TCD_SADDR then tcd_saddr c
  else if off =? R_TCD_SOFF then tcd_soff c
  else if off =? R_TCD_ATTR then tcd_attr c
  else if off =? R_TCD_NBYTES then tcd_nbytes c
  else if off =? R_TCD_SLAST then tcd_slast c
  else if off =? R_TCD_DADDR then tcd_daddr c
  else if off =? R_TCD_DOFF then tcd_doff c
  else if off =? R_TCD_CITER then tcd_citer c
  else if off =? R_TCD_DLAST then tcd_dlast c
  else if off =? R_TCD_CSR then tcd_csr c
  else if off =? R_TCD_BITER then tcd_biter c
  else 0.

Definition edma_read (s : MCXNEDMAState) (off : Z) : Z :=
  if off <? 0x1000 then edma_read_mp s off
  else
    let n := off / 0x1000 - 1 in
    if MCXN_EDMA_CHANNELS <=? n then 0 else edma_read_ch ((ch s).[n]) (off mod 0x1000).

Definition edma_write_mp (s : MCXNEDMAState) (off v : Z) : MCXNEDMAState :=
  if off =? R_MP_CSR then s <| mp_csr := v |>
  else if (R_CH_GRPRI <=? off) && (off <? R_CH_GRPRI + 4 * MCXN_EDMA_CHANNELS)
       then s <| ch_grpri := (ch_grpri s).[(off - R_CH_GRPRI) / 4 <- v] |>
  else s.

(** The channel registers whose write is a plain store. *)
Definition edma_store_ch (c : MCXNEDMAChan) (off v : Z) : MCXNEDMAChan :=
  if off =? R_CH_ES then c <| es := es c .& u32 (.~ v) |>
  else if off =? R_CH_SBR then c <| sbr := v |>
  else if off =? R_CH_PRI then c <| pri := v |>
  else if off =? R_CH_MUX then c <| mux := v |>
  else if off =? R_TCD_SADDR then c <| tcd_saddr := v |>
  else if off =? R_TCD_SOFF then c <| tcd_soff := u16 v |>
  else if off =? R_TCD_ATTR then c <| tcd_attr := u16 v |>
  else if off =? R_TCD_NBYTES then c <| tcd_nbytes := v |>
  else if off =? R_TCD_SLAST then c <| tcd_slast := v |>
  else if off =? R_TCD_DADDR then c <| tcd_daddr := v |>
  else if off =? R_TCD_DOFF then c <| tcd_doff := u16 v |>
  else if off =? R_TCD_CITER then c <| tcd_citer := u16 v |>
  else if off =? R_TCD_DLAST then c <| tcd_dlast := v |>
  else if off =? R_TCD_BITER then c <| tcd_biter := u16 v |>
  else c.

Definition edma_write (st : mach) (off val : Z) : option mach :=
  let '(s, m) := st in
  let v := u32 val in
  if off <? 0x1000 then Some (edma_write_mp s off v, m)
  else
    let n := off / 0x1000 - 1 in
    let r := off mod 0x1000 in
    if MCXN_EDMA_CHANNELS <=? n then Some (s, m)
    else if r =? R_CH_CSR then
      Some (upd_ch s n (fun c =>
        let c := if flag v CH_CSR_DONE then c <| csr := csr c .& u32 (.~ CH_CSR_DONE) |> else c in
        c <| csr := (csr c .& CH_CSR_DONE) .| (v .& u32 (.~ CH_CSR_DONE)) |>), m)
    else if r =? R_CH_INT then
      if flag v CH_INT_INT then
        Some (edma_update_irq (upd_ch s n (fun c => c <| intr := intr c .& u32 (.~ CH_INT_INT) |>)) n, m)
      else Some (s, m)
    else if r =? R_TCD_CSR then
      let s := upd_ch s n (fun c => c <| tcd_csr := u16 v |>) in
      if flag v TCD_CSR_START then
        let s := upd_ch s n (fun c => c <| csr := csr c .& u32 (.~ CH_CSR_DONE) |>) in
        edma_run (edma_minor_loop EDMA_FUEL) (s, m) n
      else Some (s, m)
    else Some (upd_ch s n (fun c => edma_store_ch c r v), m).

(** ** The service bottom half *)

(** Is channel [n] asked for service, and is the request let through? *)
Definition edma_requested (s : MCXNEDMAState) (n : Z) : bool :=
  let c := (ch s).[n] in
  let src := mux c .& CH_MUX_SRC_MASK in
  flag (csr c) CH_CSR_ERQ && negb (src =? 0) && (req_level s).[src] && (req_enabled s).[src].

(** One iteration of the channel loop; the boolean is [progress]. *)
Definition edma_service_channel (pst : bool * mach) (n : Z) : option (bool * mach) :=
  let '(progress, (s, m)) := pst in
  if negb (edma_requested s n) then Some (progress, (s, m))
  else
    let src := mux ((ch s).[n]) .& CH_MUX_SRC_MASK in
    let s := upd_ch s n (fun c => c <| csr := csr c .& u32 (.~ CH_CSR_DONE) |>) in
    '(_, (s, m)) ← edma_minor_loop EDMA_FUEL (s, m) n;
    let s := if (req_edge s).[src] then s <| req_level := (req_level s).[src <- false] |> else s in
    Some (true, (s, m)).

Fixpoint edma_service_channels (ns : list Z) (pst : bool * mach) : option (bool * mach) :=
  match ns with
  | [] => Some pst
  | n :: ns => pst ← edma_service_channel pst n; edma_service_channels ns pst
  end.

Definition edma_service_pass (st : mach) : option (bool * mach) :=
  edma_service_channels (seqZ 0 MCXN_EDMA_CHANNELS) (false, st).

(** [do ... while (progress && ++guard < MCXN_EDMA_MAX_LOOPS)]: at most
    [guard] passes. *)
Fixpoint edma_service_loop (guard : nat) (st : mach) : option mach :=
  match guard with
  | O => Some st
  | S guard =>
      pst ← edma_service_pass st;
      if fst pst : bool then edma_service_loop guard (snd pst) else Some (snd pst)
  end.

(** Pulses that nothing consumed evaporate. *)
Definition edma_drop_pulses (s : MCXNEDMAState) : MCXNEDMAState :=
  foldl (fun (s : MCXNEDMAState) (src : Z) =>
    if (req_edge s).[src] then s <| req_level := (req_level s).[src <- false] |> else s)
    s (seqZ 0 MCXN_EDMA_REQ_SOURCES).

Definition mcxn_edma_service_bh (st : mach) : option mach :=
  '(s, m) ← edma_service_loop MCXN_EDMA_MAX_LOOPS st;
  Some (edma_drop_pulses s, m).

End engine.
Arguments edma_minor_loop {B _} fuel st n : simpl never.
Arguments edma_service_loop {B _} guard st : simpl never.
Arguments MCXN_EDMA_MAX_LOOPS : simpl never.

(** ** Reset and migration *)

Definition mcxn_edma_reset (s : MCXNEDMAState) : MCXNEDMAState :=
  let mid := (if dma_id s =? 0 then EDMA_MID_DMA0 else EDMA_MID_DMA1) .& CH_SBR_MID_MASK in
  s <| mp_csr := 0x00310000 |>
    <| mp_es := 0 |>
    <| ch_grpri := replicate 16 0 |>
    <| ch := replicate 16 (chan_zero <| sbr := mid |>) |>
    <| req_level := replicate 128 false |>
    <| req_edge := replicate 128 false |>
    <| req_enabled := replicate 128 true |>.

(** The interrupt lines are re-driven from the restored registers, and a
    standing request restarts the service. *)
Definition mcxn_edma_post_load (s : MCXNEDMAState) : MCXNEDMAState :=
  let s := foldl edma_update_irq s (seqZ 0 MCXN_EDMA_CHANNELS) in
  if existsb (fun n => (req_level s).[n] && (req_enabled s).[n]) (seqZ 0 MCXN_EDMA_REQ_SOURCES)
  then s <| bh := true |> else s.

(** The device as it is created: all lines low, the object zeroed. *)
Definition mcxn_edma_init (id : Z) : MCXNEDMAState :=
  mkEdma (replicate 16 false) 0 0 (replicate 16 0) (replicate 16 chan_zero)
    (replicate 128 false) (replicate 128 false) (replicate 128 false) id false false.
