(* ===== verification/EdmaControl.v ===== *)
(** * eDMA: control

    Properties of [hw/dma/mcxn_edma.c] that do not depend on what the bus is:
    the recursion through channel links ends, a refused descriptor moves
    nothing and is reported, the interrupt lines follow the channel interrupt
    registers, a pulse request asks for one minor loop, and a closed request
    gate stops the engine. *)
From S2P Require Import Prelude Edma.

Create HintDb edma.

(** ** Validation *)

Record tcd_valid (c : MCXNEDMAChan) : Prop := {
  valid_count : tcd_count c <> 0;
  valid_nb : tcd_nb c <> 0;
  valid_saddr : (tcd_ssize c | tcd_saddr c);
  valid_soff : (tcd_ssize c | swrap 16 (tcd_soff c));
  valid_daddr : (tcd_dsize c | tcd_daddr c);
  valid_doff : (tcd_dsize c | swrap 16 (tcd_doff c));
  valid_nb_s : (tcd_ssize c | tcd_nb c);
  valid_nb_d : (tcd_dsize c | tcd_nb c);
  valid_width : tcd_ssize c <= MCXN_EDMA_MAX_XFER /\ tcd_dsize c <= MCXN_EDMA_MAX_XFER;
}.

(** The error bits a minor loop refuses the descriptor with, 0 if it runs. *)
Definition tcd_refused (c : MCXNEDMAChan) : Z :=
  if (tcd_dsize c =? 0) || (tcd_nb c =? 0) || (tcd_count c =? 0) then CH_ES_NCE
  else edma_tcd_errors c.

(** A transfer size is a power of two up to 128. *)
Lemma tcd_sizes c :
  exists i j, 0 <= i < 8 /\ 0 <= j < 8 /\ tcd_ssize c = 2 ^ i /\ tcd_dsize c = 2 ^ j.
Proof.
  assert (Hb : forall x, 0 <= x .& 7 < 8) by (intros; apply (in_range_land_r 3); [lia | split; done]).
  assert (Hu : forall i, 0 <= i < 8 -> u32 (bit i) = 2 ^ i).
  { intros i Hi. unfold bit. rewrite Z.shiftl_1_l. apply wrap_id. split; [lia|].
    apply Z.pow_lt_mono_r; lia. }
  exists (ATTR_SSIZE (tcd_attr c)), (ATTR_DSIZE (tcd_attr c)).
  unfold tcd_ssize, tcd_dsize, ATTR_SSIZE, ATTR_DSIZE. rewrite !Hu by apply Hb. auto.
Qed.

Lemma tcd_size_range c : 0 < tcd_ssize c <= 128 /\ 0 < tcd_dsize c <= 128.
Proof.
  destruct (tcd_sizes c) as (i & j & ? & ? & -> & ->).
  assert (forall k, 0 <= k < 8 -> 0 < 2 ^ k <= 128); [|auto].
  intros k Hk. split; [apply Z.pow_pos_nonneg; lia|].
  change 128 with (2 ^ 7). apply Z.pow_le_mono_r; lia.
Qed.

Lemma eqb_mod_divide a b : b <> 0 -> (a mod b =? 0) = true <-> (b | a).
Proof. intros. rewrite Z.eqb_eq. by apply Z.mod_divide. Qed.
Lemma eqb_rem_divide a b : b <> 0 -> (Z.rem a b =? 0) = true <-> (b | a).
Proof. intros. rewrite Z.eqb_eq. by apply Z.rem_divide. Qed.

(** The five checks of the error word. *)
Definition tcd_checks (c : MCXNEDMAChan) : bool * bool * bool * bool * bool :=
  (tcd_saddr c mod tcd_ssize c =? 0, Z.rem (swrap 16 (tcd_soff c)) (tcd_ssize c) =? 0,
   tcd_daddr c mod tcd_dsize c =? 0, Z.rem (swrap 16 (tcd_doff c)) (tcd_dsize c) =? 0,
   (tcd_nb c mod tcd_ssize c =? 0) && (tcd_nb c mod tcd_dsize c =? 0) &&
     negb ((MCXN_EDMA_MAX_XFER <? tcd_ssize c) || (MCXN_EDMA_MAX_XFER <? tcd_dsize c))).

Definition err_word (chk : bool * bool * bool * bool * bool) : Z :=
  let '(sae, soe, dae, doe, nce) := chk in
  (if sae then 0 else CH_ES_SAE) .| (if soe then 0 else CH_ES_SOE) .|
  (if dae then 0 else CH_ES_DAE) .| (if doe then 0 else CH_ES_DOE) .|
  (if nce then 0 else CH_ES_NCE).

Lemma edma_tcd_errors_word c : edma_tcd_errors c = err_word (tcd_checks c).
Proof.
  pose proof (tcd_size_range c) as [Hs Hd]. unfold edma_tcd_errors, tcd_checks.
  rewrite !(swrap_small 16 (tcd_ssize c)), !(swrap_small 16 (tcd_dsize c)) by lia.
  repeat match goal with |- context [?a =? 0] => destruct (a =? 0) end;
  destruct (_ <? tcd_ssize c), (_ <? tcd_dsize c); reflexivity.
Qed.

Lemma err_word_0 sae soe dae doe nce :
  err_word (sae, soe, dae, doe, nce) = 0 <-> sae && soe && dae && doe && nce = true.
Proof. destruct sae, soe, dae, doe, nce; split; done. Qed.

Lemma tcd_refused_valid c : tcd_refused c = 0 <-> tcd_valid c.
Proof.
  pose proof (tcd_size_range c) as [Hs Hd]. unfold tcd_refused.
  rewrite (proj2 (Z.eqb_neq (tcd_dsize c) 0)) by lia. cbn [orb].
  destruct (Z.eqb_spec (tcd_nb c) 0); cbn [orb]; [split; [done | by intros []]|].
  destruct (Z.eqb_spec (tcd_count c) 0); [split; [done | by intros []]|].
  rewrite edma_tcd_errors_word. unfold tcd_checks. rewrite err_word_0.
  rewrite !andb_true_iff, !eqb_mod_divide, !eqb_rem_divide by lia.
  rewrite negb_true_iff, orb_false_iff, !Z.ltb_ge.
  split; [intros; split; tauto | intros []; tauto].
Qed.

(** ** The state of the device and of its interrupt lines *)

Record edma_wf (s : MCXNEDMAState) : Prop := {
  wf_irq : zlen (irq s) = 16;
  wf_grpri : zlen (ch_grpri s) = 16;
  wf_ch : zlen (ch s) = 16;
  wf_level : zlen (req_level s) = 128;
  wf_edge : zlen (req_edge s) = 128;
  wf_enabled : zlen (req_enabled s) = 128;
}.

(** Every interrupt line carries its channel's CH_INT. *)
Definition irq_lines (s : MCXNEDMAState) : Prop :=
  forall n, 0 <= n < 16 -> (irq s).[n] = flag (intr ((ch s).[n])) CH_INT_INT.

(** The state invariant; [l] is the value of [in_link]. *)
Record edma_ok (l : bool) (s : MCXNEDMAState) : Prop := {
  ok_wf : edma_wf s;
  ok_irq : irq_lines s;
  ok_link : in_link s = l;
}.

Lemma ch_upd_eq s n f : edma_wf s -> 0 <= n < 16 -> (ch (upd_ch s n f)).[n] = f ((ch s).[n]).
Proof. intros [] Hn. cbn. apply arr_get_set_eq. lia. Qed.
Lemma ch_upd_ne s n j f : 0 <= n -> 0 <= j -> j <> n -> (ch (upd_ch s n f)).[j] = (ch s).[j].
Proof. intros. cbn. apply arr_get_set_ne; lia. Qed.

Lemma edma_wf_upd s n f : edma_wf s -> edma_wf (upd_ch s n f).
Proof. intros []. split; cbn; rewrite ?length_arr_set; done. Qed.
Lemma edma_wf_irq s n : edma_wf s -> edma_wf (edma_update_irq s n).
Proof. intros []. split; cbn; rewrite ?length_arr_set; done. Qed.
#[export] Hint Resolve edma_wf_upd edma_wf_irq : edma.

(** A store that keeps CH_INT keeps the invariant ... *)
Lemma edma_ok_upd l s n f :
  edma_ok l s -> 0 <= n < 16 -> (forall c, intr (f c) = intr c) -> edma_ok l (upd_ch s n f).
Proof.
  intros [Hwf Hirq Hl] Hn Hf. split; [auto with edma | | done].
  intros j Hj. change (irq (upd_ch s n f)) with (irq s). rewrite Hirq by done.
  destruct (decide (j = n)) as [->|]; [by rewrite ch_upd_eq, Hf by done|].
  by rewrite ch_upd_ne by lia.
Qed.

(** ... and so does any store followed by driving the line. *)
Lemma edma_ok_upd_irq l s n f :
  edma_ok l s -> 0 <= n < 16 -> edma_ok l (edma_update_irq (upd_ch s n f) n).
Proof.
  intros [Hwf Hirq Hl] Hn. split; [auto with edma | | done].
  intros j Hj. cbn -[arr_get arr_set flag]. rewrite arr_get_set by (destruct Hwf; lia).
  destruct (Z.eqb_spec j n) as [->|]; [done|]. rewrite arr_get_set_ne by lia. by apply Hirq.
Qed.
#[export] Hint Resolve edma_ok_upd_irq : edma.
#[export] Hint Extern 2 (edma_ok _ (upd_ch _ _ _)) => apply edma_ok_upd; [|auto | by intros] : edma.

Lemma edma_ok_req l s src level : edma_ok l s -> edma_ok l (mcxn_edma_req s src level).
Proof.
  intros [[] Hi Hl]. unfold mcxn_edma_req.
  repeat case_match; (split; [split; cbn; rewrite ?length_arr_set; done | done | done]).
Qed.
Lemma edma_ok_req_enable l s src level : edma_ok l s -> edma_ok l (mcxn_edma_req_enable s src level).
Proof.
  intros [[] Hi Hl]. unfold mcxn_edma_req_enable.
  repeat case_match; (split; [split; cbn; rewrite ?length_arr_set; done | done | done]).
Qed.
Lemma edma_ok_req_pulse l s src level : edma_ok l s -> edma_ok l (mcxn_edma_req_pulse s src level).
Proof.
  intros [[] Hi Hl]. unfold mcxn_edma_req_pulse.
  repeat case_match; (split; [split; cbn; rewrite ?length_arr_set; done | done | done]).
Qed.
#[export] Hint Resolve edma_ok_req edma_ok_req_enable edma_ok_req_pulse : edma.

Lemma edma_ok_lines l s evs : edma_ok l s -> edma_ok l (edma_lines s evs).
Proof.
  unfold edma_lines. revert s. induction evs as [|e evs IH]; intros s Hs; cbn; [done|].
  apply IH. destruct e; cbn; auto with edma.
Qed.
#[export] Hint Resolve edma_ok_lines : edma.

(** ** The engine keeps the invariant *)

Section engine_ok.
Context {B : Type} `{AddressSpace B}.

Definition st_ok (l : bool) (st : MCXNEDMAState * B) : Prop := edma_ok l (fst st).

Lemma bus_read_ok l st a n : st_ok l st -> st_ok l (snd (bus_read st a n)).
Proof.
  destruct st as [s m]. unfold st_ok, bus_read. intros Hs.
  destruct (as_read m a n) as [[[ok bs] m'] evs]. cbn. auto with edma.
Qed.
Lemma bus_write_ok l st a bs : st_ok l st -> st_ok l (bus_write st a bs).
Proof.
  destruct st as [s m]. unfold st_ok, bus_write. intros Hs.
  destruct (as_write m a bs) as [m' evs]. cbn. auto with edma.
Qed.

Lemma edma_fill_ok k l st a size off mod_ buf :
  st_ok l st -> st_ok l (edma_fill k st a size off mod_ buf).1.1.
Proof.
  revert st a buf. induction k as [|k IH]; intros st a buf Hs; cbn; [done|].
  pose proof (bus_read_ok l st a size Hs). destruct bus_read as [[ok bs] st']. by apply IH.
Qed.
Lemma edma_drain_ok k l st a size off mod_ i buf :
  st_ok l st -> st_ok l (edma_drain k st a size off mod_ i buf).1.
Proof.
  revert st a i. induction k as [|k IH]; intros st a i Hs; cbn; [done|].
  by apply IH, bus_write_ok.
Qed.
Lemma edma_chunks_ok k l c st a b : st_ok l st -> st_ok l (edma_chunks k c st a b).1.1.
Proof.
  revert st a b. induction k as [|k IH]; intros st a b Hs; cbn; [done|].
  destruct edma_fill as [[st1 a1] buf] eqn:E1. destruct edma_drain as [st2 b1] eqn:E2.
  apply IH. eapply (f_equal fst) in E2. cbn in E2. rewrite <- E2. apply edma_drain_ok.
  eapply (f_equal (fun x => x.1.1)) in E1. cbn in E1. rewrite <- E1. by apply edma_fill_ok.
Qed.
Lemma edma_copy_ok l c st : st_ok l st -> st_ok l (edma_copy c st).1.1.
Proof. apply edma_chunks_ok. Qed.

Lemma edma_load_next_tcd_ok l st n :
  st_ok l st -> 0 <= n < 16 -> st_ok l (snd (edma_load_next_tcd st n)).
Proof.
  destruct st as [s m]. intros Hs Hn. unfold edma_load_next_tcd.
  case_match; [unfold st_ok in *; cbn [fst snd]; auto with edma|].
  pose proof (bus_read_ok l (s, m) (tcd_dlast (ch s).[n]) 32 Hs) as Hr.
  destruct bus_read as [[ok bs] [s' m']]. unfold st_ok in *. cbn [fst snd] in Hr.
  case_match; cbn [fst snd]; auto with edma.
Qed.

Lemma edma_error_ok l s n err : edma_ok l s -> 0 <= n < 16 -> edma_ok l (edma_error s n err).
Proof. intros Hs Hn. unfold edma_error. case_match; auto 6 with edma. Qed.

(** [ml] returns from every state with [in_link = l], in such a state. *)
Definition ml_ok (l : bool) (ml : MCXNEDMAState * B -> Z -> option (bool * (MCXNEDMAState * B))) : Prop :=
  forall st n, st_ok l st -> 0 <= n < 16 -> exists r, ml st n = Some r /\ st_ok l (snd r).

Lemma edma_run_ok l ml st n :
  ml_ok l ml -> st_ok l st -> 0 <= n < 16 ->
  exists st', edma_run ml st n = Some st' /\ st_ok l st'.
Proof.
  intros Hml Hs Hn. destruct (Hml st n Hs Hn) as ([b [s m]] & E & Hr).
  unfold edma_run. rewrite E. cbn. eexists. split; [done|]. unfold st_ok in *. cbn in *. auto with edma.
Qed.

Lemma link_range x : 0 <= x .& 0xF < 16.
Proof. apply (in_range_land_r 4); [lia | split; done]. Qed.

(** A link is followed only from a channel that was not itself linked. *)
Lemma edma_link_channel_ok l ml st link :
  (l = false -> ml_ok true ml) -> st_ok l st -> 0 <= link ->
  exists st', edma_link_channel ml st link = Some st' /\ st_ok l st'.
Proof.
  destruct st as [s m]. intros Hml Hs Hlink. unfold edma_link_channel.
  destruct (Z.leb_spec MCXN_EDMA_CHANNELS link) as [|Hlt]; cbn [orb]; [eauto|].
  unfold st_ok in Hs. cbn in Hs. pose proof (ok_link _ _ Hs) as Hl. rewrite Hl.
  destruct l; [eauto|].
  change MCXN_EDMA_CHANNELS with 16 in Hlt.
  destruct (edma_run_ok true ml (upd_ch (s <| in_link := true |>) link
    (fun c => c <| csr := csr c .& u32 (.~ CH_CSR_DONE) |>), m) link) as ([s' m'] & E & Hr); [auto | | lia |].
  - apply edma_ok_upd; [|lia|done]. destruct Hs as [[] ? ?]. by split; [split|..].
  - rewrite E. cbn. eexists. split; [done|]. unfold st_ok in *. cbn in *.
    destruct Hr as [[] ? ?]. by split; [split|..].
Qed.

Lemma edma_major_complete_ok l ml st n saddr daddr :
  (l = false -> ml_ok true ml) -> st_ok l st -> 0 <= n < 16 ->
  exists st', edma_major_complete ml st n saddr daddr = Some st' /\ st_ok l st'.
Proof.
  destruct st as [s m]. intros Hml Hs Hn. unfold edma_major_complete.
  set (s1 := upd_ch s n _).
  assert (H1 : edma_ok l s1).
  { apply edma_ok_upd; [done | lia |]. intros c. by case_match. }
  assert (H2 : exists st, (if flag (tcd_csr (ch s1).[n]) TCD_CSR_MAJORELINK
    then edma_link_channel ml (s1, m) (TCD_CSR_MAJORLINKCH (tcd_csr (ch s1).[n]))
    else Some (s1, m)) = Some st /\ st_ok l st).
  { case_match; [|by exists (s1, m)]. apply edma_link_channel_ok; [done | done | apply link_range]. }
  destruct H2 as ([s2 m2] & -> & H2). cbn -[flag upd_ch edma_load_next_tcd].
  assert (H3 : st_ok l (if flag (tcd_csr (ch s2).[n]) TCD_CSR_ESG
    then snd (edma_load_next_tcd (s2, m2) n) else (s2, m2))).
  { case_match; [by apply edma_load_next_tcd_ok | exact H2]. }
  destruct (if flag _ TCD_CSR_ESG then _ else _) as [s3 m3].
  eexists. split; [done|]. unfold st_ok in *. cbn -[flag upd_ch] in *.
  repeat case_match; auto 8 with edma.
Qed.

Lemma edma_transfer_ok l ml st n :
  (l = false -> ml_ok true ml) -> st_ok l st -> 0 <= n < 16 ->
  exists r, edma_transfer ml st n = Some r /\ st_ok l (snd r).
Proof.
  destruct st as [s m]. intros Hml Hs Hn. unfold edma_transfer.
  pose proof (edma_copy_ok l ((ch s).[n]) (s, m) Hs) as Hc.
  destruct edma_copy as [[[s1 m1] sa] da]. cbn [fst snd] in Hc.
  set (s2 := upd_ch s1 n _).
  assert (H2 : edma_ok l s2) by (apply edma_ok_upd; done).
  case_match.
  - case_match; [|by eexists].
    destruct (edma_link_channel_ok l ml (s2, m1) (CITER_LINKCH (tcd_citer (ch s2).[n])))
      as (st' & -> & Hr); [done | done | apply link_range |]. by eexists.
  - destruct (edma_major_complete_ok l ml (s2, m1) n sa da) as (st' & -> & Hr); [done.. |]. by eexists.
Qed.

Lemma edma_minor_body_refused ml s (m : B) n :
  edma_minor_body ml (s, m) n =
    if tcd_refused ((ch s).[n]) =? 0 then edma_transfer ml (s, m) n
    else Some (true, (edma_error s n (tcd_refused ((ch s).[n])), m)).
Proof.
  unfold edma_minor_body, tcd_refused. case_match; [done|].
  by destruct (edma_tcd_errors _ =? 0).
Qed.

Lemma edma_minor_body_ok l ml : (l = false -> ml_ok true ml) -> ml_ok l (edma_minor_body ml).
Proof.
  intros Hml [s m] n Hs Hn. rewrite edma_minor_body_refused.
  case_match; [by apply edma_transfer_ok|]. eexists. split; [done|]. by apply edma_error_ok.
Qed.

Lemma edma_minor_loop_ok l k : ml_ok l (edma_minor_loop (2 + k)).
Proof. apply edma_minor_body_ok. intros _. by apply edma_minor_body_ok. Qed.

(** More fuel does not change a result. *)
Definition ml_le (ml ml' : MCXNEDMAState * B -> Z -> option (bool * (MCXNEDMAState * B))) : Prop :=
  forall st n r, ml st n = Some r -> ml' st n = Some r.

Lemma edma_link_channel_mono ml ml' st link r :
  ml_le ml ml' -> edma_link_channel ml st link = Some r -> edma_link_channel ml' st link = Some r.
Proof.
  intros Hle. destruct st as [s m]. unfold edma_link_channel, edma_run. case_match; [done|].
  destruct (ml _ _) as [r'|] eqn:E; [|done]. by rewrite (Hle _ _ _ E).
Qed.

Lemma edma_major_complete_mono ml ml' st n sa da r :
  ml_le ml ml' -> edma_major_complete ml st n sa da = Some r ->
  edma_major_complete ml' st n sa da = Some r.
Proof.
  intros Hle. destruct st as [s m]. unfold edma_major_complete. case_match; [|done].
  destruct (edma_link_channel ml _ _) eqn:E; [|done]. by rewrite (edma_link_channel_mono _ _ _ _ _ Hle E).
Qed.

Lemma edma_minor_body_mono ml ml' : ml_le ml ml' -> ml_le (edma_minor_body ml) (edma_minor_body ml').
Proof.
  intros Hle [s m] n r. rewrite !edma_minor_body_refused. case_match; [|done].
  unfold edma_transfer. destruct edma_copy as [[[s1 m1] sa] da]. case_match.
  - case_match; [|done]. destruct (edma_link_channel ml _ _) eqn:E; [|done].
    by rewrite (edma_link_channel_mono _ _ _ _ _ Hle E).
  - destruct (edma_major_complete ml _ _ _ _) eqn:E; [|done].
    by rewrite (edma_major_complete_mono _ _ _ _ _ _ _ Hle E).
Qed.

Lemma edma_minor_loop_mono k : ml_le (edma_minor_loop k) (edma_minor_loop (S k)).
Proof. induction k; [done|]. by apply edma_minor_body_mono. Qed.

(** ** The operations of the device *)

Lemma edma_write_mp_ok l s off v : edma_ok l s -> edma_ok l (edma_write_mp s off v).
Proof.
  intros [[] ? ?]. unfold edma_write_mp.
  repeat case_match; (split; [split; cbn; rewrite ?length_arr_set; done | done | done]).
Qed.

Lemma edma_store_ch_intr c r v : intr (edma_store_ch c r v) = intr c.
Proof. unfold edma_store_ch. by repeat case_match. Qed.

Lemma edma_write_ok l st off v :
  st_ok l st -> exists st', edma_write st off v = Some st' /\ st_ok l st'.
Proof.
  destruct st as [s m]. intros Hs. unfold edma_write.
  destruct (Z.ltb_spec off 0x1000).
  { eexists. split; [done|]. by apply edma_write_mp_ok. }
  destruct (Z.leb_spec MCXN_EDMA_CHANNELS (off / 0x1000 - 1)) as [|Hn]; [by eexists|].
  change MCXN_EDMA_CHANNELS with 16 in Hn.
  assert (1 <= off / 0x1000) by (apply Z.div_le_lower_bound; lia).
  set (n := off / 0x1000 - 1) in *. assert (Hn' : 0 <= n < 16) by lia.
  case_match. { eexists. split; [done|]. apply edma_ok_upd; [done | lia |]. intros c. by case_match. }
  case_match. { case_match; eexists; (split; [done|]); unfold st_ok in *; cbn in *; auto with edma. }
  case_match.
  - case_match; [|eexists; split; [done|]; by apply edma_ok_upd].
    apply edma_run_ok; [apply (edma_minor_loop_ok l 0) | | done].
    unfold st_ok in *. cbn in *. auto with edma.
  - eexists. split; [done|]. apply edma_ok_upd; [done | done |]. intros. apply edma_store_ch_intr.
Qed.

Lemma edma_ok_level l s f : edma_ok l s -> length f = length (req_level s) -> edma_ok l (s <| req_level := f |>).
Proof. intros [[] ? ?] Hf. split; [split; cbn; congruence | done | done]. Qed.

Lemma edma_service_channels_ok l ns pst :
  Forall (fun n => 0 <= n < 16) ns -> st_ok l (snd pst) ->
  exists r, edma_service_channels ns pst = Some r /\ st_ok l (snd r).
Proof.
  intros Hns. revert pst. induction Hns as [|n ns Hn Hns IH]; intros [p [s m]] Hs; [eauto|].
  cbn [edma_service_channels]. unfold edma_service_channel. case_match; [by apply IH|].
  change EDMA_FUEL with (2 + 0)%nat. edestruct (edma_minor_loop_ok l 0 (upd_ch s n (fun c => c <| csr := csr c .& u32 (.~ CH_CSR_DONE) |>), m) n)
    as ([b [s' m']] & -> & Hr); [unfold st_ok in *; cbn in *; auto with edma | done |].
  cbn -[edma_service_channels]. apply IH. unfold st_ok in *. cbn in *. case_match; [|done].
  apply edma_ok_level; [done|]. apply length_arr_set.
Qed.

Lemma edma_service_loop_ok l k st :
  st_ok l st -> exists st', edma_service_loop k st = Some st' /\ st_ok l st'.
Proof.
  revert st. induction k as [|k IH]; intros st Hs; [by eexists|].
  destruct (edma_service_channels_ok l (seqZ 0 MCXN_EDMA_CHANNELS) (false, st)) as (r & E & Hr); [|done|].
  { apply Forall_seqZ. intros. unfold MCXN_EDMA_CHANNELS in *. lia. }
  change (edma_service_loop (S k) st) with
    (pst ← edma_service_pass st; if fst pst : bool then edma_service_loop k (snd pst) else Some (snd pst)).
  unfold edma_service_pass. rewrite E. cbn. case_match; [by apply IH | by eexists].
Qed.

Lemma edma_drop_pulses_ok l s : edma_ok l s -> edma_ok l (edma_drop_pulses s).
Proof.
  unfold edma_drop_pulses. generalize (seqZ 0 MCXN_EDMA_REQ_SOURCES). intros ss. revert s.
  induction ss as [|src ss IH]; intros s Hs; cbn; [done|]. apply IH.
  case_match; [|done]. apply edma_ok_level; [done | apply length_arr_set].
Qed.

Lemma mcxn_edma_service_bh_ok l st :
  st_ok l st -> exists st', mcxn_edma_service_bh st = Some st' /\ st_ok l st'.
Proof.
  intros Hs. destruct (edma_service_loop_ok l MCXN_EDMA_MAX_LOOPS st Hs) as ([s m] & E & Hr).
  unfold mcxn_edma_service_bh. rewrite E. cbn -[edma_drop_pulses].
  eexists. split; [done|]. by apply edma_drop_pulses_ok.
Qed.

(** What a guest, the peripherals and the main loop can do to the device. *)
Inductive edma_op :=
  | OpWrite (off val : Z)
  | OpLine (e : line_event)
  | OpDispatch
  | OpPostLoad.

Definition edma_exec (st : MCXNEDMAState * B) (op : edma_op) : option (MCXNEDMAState * B) :=
  let '(s, m) := st in
  match op with
  | OpWrite off val => edma_write (s, m) off val
  | OpLine e => Some (edma_line s e, m)
  | OpDispatch => if bh s then mcxn_edma_service_bh (s <| bh := false |>, m) else Some (s, m)
  | OpPostLoad => Some (mcxn_edma_post_load s, m)
  end.
Fixpoint edma_execs (st : MCXNEDMAState * B) (ops : list edma_op) : option (MCXNEDMAState * B) :=
  match ops with
  | [] => Some st
  | op :: ops => st ← edma_exec st op; edma_execs st ops
  end.

Lemma edma_ok_bh l s b : edma_ok l s -> edma_ok l (s <| bh := b |>).
Proof. intros [[] ? ?]. by split; [split|..]. Qed.
#[local] Hint Resolve edma_ok_bh : edma.

Lemma foldl_update_irq_ok l ns s :
  Forall (fun n => 0 <= n < 16) ns -> edma_ok l s -> edma_ok l (foldl edma_update_irq s ns).
Proof.
  intros Hns. revert s. induction Hns as [|n ns Hn Hns IH]; intros s Hs; cbn; [done|].
  apply IH. replace s with (upd_ch s n id) at 1; [auto with edma|].
  unfold upd_ch, id. rewrite arr_set_get by (destruct Hs as [[] _ _]; lia). by destruct s.
Qed.

Lemma mcxn_edma_post_load_ok l s : edma_ok l s -> edma_ok l (mcxn_edma_post_load s).
Proof.
  intros Hs. unfold mcxn_edma_post_load.
  assert (edma_ok l (foldl edma_update_irq s (seqZ 0 MCXN_EDMA_CHANNELS))).
  { apply foldl_update_irq_ok; [|done]. apply Forall_seqZ. intros. unfold MCXN_EDMA_CHANNELS in *. lia. }
  case_match; auto with edma.
Qed.

Lemma edma_exec_ok l st op : st_ok l st -> exists st', edma_exec st op = Some st' /\ st_ok l st'.
Proof.
  destruct st as [s m]. intros Hs. destruct op; cbn [edma_exec].
  - by apply edma_write_ok.
  - eexists. split; [done|]. apply (edma_ok_lines l s [e]). done.
  - case_match; [|by eexists]. apply mcxn_edma_service_bh_ok. by apply edma_ok_bh.
  - eexists. split; [done|]. by apply mcxn_edma_post_load_ok.
Qed.

Lemma edma_execs_ok l st ops : st_ok l st -> exists st', edma_execs st ops = Some st' /\ st_ok l st'.
Proof.
  revert st. induction ops as [|op ops IH]; intros st Hs; [by eexists|].
  destruct (edma_exec_ok l st op Hs) as (st1 & E & H1). cbn. rewrite E. by apply IH.
Qed.

Lemma edma_reset_ok id : edma_ok false (mcxn_edma_reset (mcxn_edma_init id)).
Proof.
  split; [split; done | | done]. intros n Hn. unfold mcxn_edma_init, mcxn_edma_reset. cbn -[arr_get flag replicate].
  rewrite !arr_get_replicate by lia. done.
Qed.

(** The address of register [r] of channel [n]. *)
Definition ch_reg (n r : Z) : Z := 0x1000 * (n + 1) + r.
Lemma ch_reg_page n r : 0 <= r < 0x1000 -> ch_reg n r / 0x1000 - 1 = n /\ ch_reg n r mod 0x1000 = r.
Proof.
  intros. unfold ch_reg. pose proof (Z.div_unique (0x1000 * (n + 1) + r) 0x1000 (n + 1) r).
  pose proof (Z.mod_unique (0x1000 * (n + 1) + r) 0x1000 (n + 1) r). lia.
Qed.
Lemma edma_read_channel s n r :
  0 <= n < 16 -> 0 <= r < 0x1000 -> edma_read s (ch_reg n r) = edma_read_ch ((ch s).[n]) r.
Proof.
  intros Hn Hr. unfold edma_read. destruct (ch_reg_page n r Hr) as [-> ->].
  rewrite (proj2 (Z.ltb_ge _ _)) by (unfold ch_reg; lia).
  by rewrite (proj2 (Z.leb_gt _ _)) by (unfold MCXN_EDMA_CHANNELS; lia).
Qed.

(** C29: whatever registers the guest writes, whatever the peripherals do on the
    request inputs and whenever the bottom half runs, every operation of the
    device returns, no channel link is left pending, and each channel's
    interrupt line carries its CH_INT register. *)
Theorem edma_reachable_irq id (m : B) ops :
  exists s' m', edma_execs (mcxn_edma_reset (mcxn_edma_init id), m) ops = Some (s', m') /\
    edma_wf s' /\ in_link s' = false /\
    forall n, 0 <= n < 16 -> (irq s').[n] = flag (edma_read s' (ch_reg n R_CH_INT)) CH_INT_INT.
Proof.
  destruct (edma_execs_ok false (mcxn_edma_reset (mcxn_edma_init id), m) ops) as ([s' m'] & E & [Hwf Hi Hl]);
    [apply edma_reset_ok|].
  exists s', m'. split; [done|]. split; [done|]. split; [done|]. intros n Hn. cbn in *. rewrite Hi by done.
  by rewrite edma_read_channel.
Qed.

(** C31: a chain of channel links is never deeper than two: from any state of
    the device, two levels of the minor loop give a result, and any greater
    depth gives the same one. *)
Theorem edma_minor_loop_terminates l s (m : B) n k :
  edma_ok l s -> 0 <= n < 16 ->
  exists r, edma_minor_loop EDMA_FUEL (s, m) n = Some r /\ edma_minor_loop (EDMA_FUEL + k) (s, m) n = Some r.
Proof.
  intros Hs Hn. destruct (edma_minor_loop_ok l 0 (s, m) n Hs Hn) as (r & E & _).
  exists r. split; [done|]. induction k as [|k IH]; [done|].
  rewrite Nat.add_succ_r. by apply edma_minor_loop_mono.
Qed.
End engine_ok.

(** ** A flat memory

    The simplest address space: a byte at every address, no peripherals. *)
Definition flat_ram : Type := Z -> Z.
#[export] Instance flat_address_space : AddressSpace flat_ram := {
  as_read m a n := (true, map m (seqZ a n), m, []);
  as_write m a bs := (fun x => if (a <=? x) && (x <? a + zlen bs) then bs.[x - a] else m x, []);
}.
Definition flat_zero : flat_ram := fun _ => 0.

(** Set up channel [n]: its request mux, then its descriptor. *)
Definition program_channel (s : MCXNEDMAState) (n : Z) (c : MCXNEDMAChan) : MCXNEDMAState :=
  s <| ch := (ch s).[n <- c] |>.

Definition edma0 : MCXNEDMAState := mcxn_edma_reset (mcxn_edma_init 0).

Lemma edma_minor_loop_terminates_witness :
  exists r, edma_minor_loop EDMA_FUEL (edma0, flat_zero) 3 = Some r /\
    edma_minor_loop (EDMA_FUEL + 5) (edma0, flat_zero) 3 = Some r.
Proof. apply (edma_minor_loop_terminates false); [apply edma_reset_ok | lia]. Defined.

Section refusal.
Context {B : Type} `{AddressSpace B}.

(** C30: a minor loop of a descriptor that is not valid moves no data: memory,
    the descriptor, CH_CSR (so DONE too) and every other channel are as before.
    The refusal is reported in CH_ES, and by an interrupt when CH_CSR[EEI]
    asks for one. *)
Theorem edma_invalid_tcd_refused l s (m : B) n :
  edma_ok l s -> 0 <= n < 16 -> ~ tcd_valid ((ch s).[n]) ->
  exists s', edma_minor_loop EDMA_FUEL (s, m) n = Some (true, (s', m)) /\
    let c := (ch s).[n] in
    let eei := flag (csr c) CH_CSR_EEI in
    (ch s').[n] = c <| es := es c .| (tcd_refused c .| CH_ES_ERR) |>
                    <| intr := if eei then intr c .| CH_INT_INT else intr c |> /\
    (forall j, 0 <= j -> j <> n -> (ch s').[j] = (ch s).[j]) /\
    flag (es ((ch s').[n])) CH_ES_ERR = true /\
    (eei = true -> (irq s').[n] = true).
Proof.
  intros Hs Hn Hv. rewrite <- tcd_refused_valid in Hv.
  change (edma_minor_loop EDMA_FUEL) with (edma_minor_body (B := B) (edma_minor_loop 1)).
  rewrite edma_minor_body_refused, (proj2 (Z.eqb_neq _ _)) by done.
  eexists. split; [done|]. cbn zeta. unfold edma_error.
  set (e := tcd_refused _ .| _). set (f := fun c => _ : MCXNEDMAChan).
  assert (Hwf : edma_wf s) by apply Hs. rewrite ch_upd_eq by done.
  assert (Herr : forall x, flag (x .| e) CH_ES_ERR = true).
  { intros x. unfold CH_ES_ERR. rewrite flag_bit by lia. unfold e, CH_ES_ERR.
    autorewrite with bits. cbn. by rewrite !orb_true_r. }
  change (csr (f ((ch s).[n]))) with (csr (ch s).[n]). case_match.
  - set (g := fun c => _ : MCXNEDMAChan).
    assert (Hg : (ch (edma_update_irq (upd_ch (upd_ch s n f) n g) n)).[n] = g (f (ch s).[n])).
    { change (ch (edma_update_irq ?x n)) with (ch x). by rewrite !ch_upd_eq by auto with edma. }
    split; [by rewrite Hg|]. split; [|split; [rewrite Hg; apply Herr|]].
    + intros j Hj Hne. change (ch (edma_update_irq ?x n)) with (ch x). by rewrite !ch_upd_ne by lia.
    + intros _. rewrite (ok_irq l) by auto 6 with edma. rewrite Hg.
      unfold CH_INT_INT. rewrite flag_bit by lia. cbn -[Z.testbit Z.lor]. by rewrite Z.lor_spec, orb_true_r.
  - rewrite ch_upd_eq by done. split; [by destruct (ch s).[n]|].
    split; [intros; by apply ch_upd_ne; lia|]. split; [apply Herr | done].
Qed.

(** Each error bit of a refused descriptor reports its own cause and
    nothing else: SAE and DAE a misaligned address, SOE and DOE an offset that
    is not a multiple of the transfer size, NCE a byte count that is not a
    multiple of both sizes or a size wider than the engine's buffer. *)
Theorem edma_error_bits c :
  let err := edma_tcd_errors c in
  (flag err CH_ES_SAE = false <-> (tcd_ssize c | tcd_saddr c)) /\
  (flag err CH_ES_SOE = false <-> (tcd_ssize c | swrap 16 (tcd_soff c))) /\
  (flag err CH_ES_DAE = false <-> (tcd_dsize c | tcd_daddr c)) /\
  (flag err CH_ES_DOE = false <-> (tcd_dsize c | swrap 16 (tcd_doff c))) /\
  (flag err CH_ES_NCE = false <->
     (tcd_ssize c | tcd_nb c) /\ (tcd_dsize c | tcd_nb c) /\
     tcd_ssize c <= MCXN_EDMA_MAX_XFER /\ tcd_dsize c <= MCXN_EDMA_MAX_XFER).
Proof.
  pose proof (tcd_size_range c) as [Hs Hd]. cbn zeta.
  rewrite <- (eqb_mod_divide (tcd_saddr c)), <- (eqb_mod_divide (tcd_daddr c)),
    <- !(eqb_mod_divide (tcd_nb c)), <- !eqb_rem_divide, <- !Z.ltb_ge by lia.
  rewrite edma_tcd_errors_word. unfold tcd_checks.
  repeat match goal with |- context [?a =? 0] => destruct (a =? 0) end;
  destruct (_ <? tcd_ssize c), (_ <? tcd_dsize c); cbn; intuition discriminate.
Qed.
End refusal.

(** A descriptor with a byte count of six for four-byte transfers. *)
Definition bad_tcd : MCXNEDMAChan :=
  chan_zero <| csr := CH_CSR_EEI |> <| tcd_attr := 0x0202 |> <| tcd_nbytes := 6 |> <| tcd_citer := 1 |>.
Lemma program_channel_ok s n c :
  edma_ok false s -> 0 <= n < 16 -> intr c = intr ((ch s).[n]) -> edma_ok false (program_channel s n c).
Proof.
  intros [Hwf Hi Hl] Hn Hc. split; [destruct Hwf; split; cbn; rewrite ?length_arr_set; done | | done].
  intros j Hj. cbn. rewrite arr_get_set by (destruct Hwf; lia).
  destruct (Z.eqb_spec j n) as [->|]; [by rewrite Hc, <- Hi | by apply Hi].
Qed.

Lemma edma_invalid_tcd_refused_witness :
  exists s', edma_minor_loop EDMA_FUEL (program_channel edma0 2 bad_tcd, flat_zero) 2 = Some (true, (s', flat_zero)) /\
    (irq s').[2] = true.
Proof.
  destruct (edma_invalid_tcd_refused false (program_channel edma0 2 bad_tcd) flat_zero 2)
    as (s' & E & _ & _ & _ & Hi).
  - apply program_channel_ok; [apply edma_reset_ok | lia | reflexivity].
  - lia.
  - rewrite <- tcd_refused_valid. vm_compute. discriminate.
  - exists s'. split; [exact E | apply Hi; reflexivity].
Defined.

(** ** Requests *)

Section requests.
Context {B : Type} `{AddressSpace B}.

Lemma edma_service_channels_idle ns p s (m : B) :
  (forall n, n ∈ ns -> edma_requested s n = false) ->
  edma_service_channels ns (p, (s, m)) = Some (p, (s, m)).
Proof.
  induction ns as [|n ns IH]; intros Hns; [done|].
  cbn [edma_service_channels]. unfold edma_service_channel. rewrite Hns by set_solver.
  apply IH. set_solver.
Qed.

Lemma edma_service_loop_idle k s (m : B) :
  (forall n, 0 <= n < 16 -> edma_requested s n = false) ->
  edma_service_loop k (s, m) = Some (s, m).
Proof.
  intros Hr. destruct k; [done|]. unfold edma_service_loop, edma_service_pass.
  rewrite edma_service_channels_idle; [done|]. intros n Hn%elem_of_seqZ. by apply Hr.
Qed.

(** A request that INPUTMUX gates off, a source that is not asserted and a
    channel without ERQ get no service: when no channel has an enabled,
    asserted and gated-through request, the bottom half moves no data and
    changes nothing but the pulses that it drops. *)
Theorem edma_gate_closed s (m : B) :
  (forall n, 0 <= n < 16 ->
     let c := (ch s).[n] in
     let src := mux c .& CH_MUX_SRC_MASK in
     flag (csr c) CH_CSR_ERQ = false \/ src = 0 \/
     (req_level s).[src] = false \/ (req_enabled s).[src] = false) ->
  mcxn_edma_service_bh (s, m) = Some (edma_drop_pulses s, m).
Proof.
  intros Hr. unfold mcxn_edma_service_bh. rewrite edma_service_loop_idle; [done|].
  intros n Hn. specialize (Hr n Hn). unfold edma_requested. cbn zeta in Hr.
  destruct Hr as [-> | [-> | [-> | ->]]]; rewrite ?Z.eqb_refl; btauto.
Qed.

(** The request a pulse leaves behind is dropped at the latest by the end of
    the bottom half. *)
Lemma edma_drop_pulses_spec s src :
  edma_wf s ->
  req_edge (edma_drop_pulses s) = req_edge s /\
  (0 <= src < 128 -> (req_edge s).[src] = true -> (req_level (edma_drop_pulses s)).[src] = false).
Proof.
  intros Hwf. unfold edma_drop_pulses, MCXN_EDMA_REQ_SOURCES.
  assert (Hgen : forall ss s, zlen (req_level s) = 128 -> Forall (fun x => 0 <= x < 128) ss ->
    let s' := foldl (fun (s : MCXNEDMAState) (src : Z) =>
      if (req_edge s).[src] then s <| req_level := (req_level s).[src <- false] |> else s) s ss in
    req_edge s' = req_edge s /\
    (0 <= src < 128 -> (req_edge s).[src] = true -> src ∈ ss \/ (req_level s).[src] = false ->
     (req_level s').[src] = false)).
  { clear. intros ss s Hl Hss. revert s Hl. induction Hss as [|x ss Hx Hss IH]; intros s Hl; cbn.
    { split; [done|]. intros ? ? [?%not_elem_of_nil|]; done. }
    destruct (req_edge s).[x] eqn:Ex.
    - destruct (IH (s <| req_level := (req_level s).[x <- false] |>)) as [IH1 IH2].
      { cbn. by rewrite length_arr_set. }
      split; [done|]. intros Hsrc He Hor. apply IH2; [done | done|]. cbn.
      rewrite arr_get_set by lia. destruct (Z.eqb_spec src x); [by right | set_solver].
    - destruct (IH s Hl) as [IH1 IH2]. split; [done|]. intros Hsrc He Hor. apply IH2; [done.. |].
      destruct Hor as [[->|]%elem_of_cons|]; [congruence | by left | by right]. }
  destruct (Hgen (seqZ 0 128) s) as [H1 H2]; [apply Hwf | apply Forall_seqZ; lia |].
  split; [done|]. intros. apply H2; [done..|]. left. apply elem_of_seqZ. lia.
Qed.

(** A pulse asks once.  After the bottom half no pulse source is still
    asserted, so a channel that is armed later is not started by an event of
    the past. *)
Theorem edma_pulses_evaporate l s (m : B) :
  edma_ok l s ->
  exists s' m', mcxn_edma_service_bh (s, m) = Some (s', m') /\
    forall src, 0 <= src < 128 -> (req_edge s').[src] = true -> (req_level s').[src] = false.
Proof.
  intros Hs. destruct (edma_service_loop_ok l MCXN_EDMA_MAX_LOOPS (s, m) Hs) as ([s' m'] & E & Hr).
  exists (edma_drop_pulses s'), m'. unfold mcxn_edma_service_bh. rewrite E. split; [done|].
  intros src Hsrc. destruct (edma_drop_pulses_spec s' src) as [-> H2]; [apply Hr|]. by apply H2.
Qed.
End requests.

Lemma edma_gate_closed_witness :
  mcxn_edma_service_bh (edma0, flat_zero) = Some (edma_drop_pulses edma0, flat_zero).
Proof.
  apply (edma_gate_closed edma0 flat_zero). intros n Hn. left. cbn -[arr_get flag replicate].
  unfold edma0, mcxn_edma_reset. cbn -[arr_get flag replicate]. rewrite arr_get_replicate by lia. reflexivity.
Defined.

Lemma edma_pulses_evaporate_witness :
  exists s' m', mcxn_edma_service_bh (mcxn_edma_req_pulse edma0 7 true, flat_zero) = Some (s', m') /\
    forall src, 0 <= src < 128 -> (req_edge s').[src] = true -> (req_level s').[src] = false.
Proof. apply (edma_pulses_evaporate false). apply edma_ok_req_pulse, edma_reset_ok. Defined.

(** ** One pulse, one minor loop *)

(** An address space none of whose accesses drives a request input. *)
Class QuietSpace (B : Type) `{AddressSpace B} := {
  quiet_read m a n : snd (as_read m a n) = [];
  quiet_write m a bs : snd (as_write m a bs) = [];
}.
#[export] Instance flat_quiet : QuietSpace flat_ram.
Proof. by split. Qed.

(** What the engine itself does to the request state: nothing but to disable
    the hardware request of a channel (DREQ). *)
Record req_frame (s s' : MCXNEDMAState) : Prop := {
  fr_level : req_level s' = req_level s;
  fr_edge : req_edge s' = req_edge s;
  fr_enabled : req_enabled s' = req_enabled s;
  fr_len : length (ch s') = length (ch s);
  fr_ch j : 0 <= j -> mux ((ch s').[j]) = mux ((ch s).[j]) /\
    (flag (csr ((ch s').[j])) CH_CSR_ERQ = true -> flag (csr ((ch s).[j])) CH_CSR_ERQ = true);
}.
#[export] Instance req_frame_preorder : PreOrder req_frame.
Proof.
  split; [by split|]. intros s1 s2 s3 [] []. split; [congruence.. |].
  intros j Hj. destruct (fr_ch0 j Hj) as [E1 ?], (fr_ch1 j Hj) as [E2 ?]. split; [congruence | auto].
Qed.

Lemma req_frame_upd s n f :
  0 <= n ->
  (forall c, mux (f c) = mux c /\ (flag (csr (f c)) CH_CSR_ERQ = true -> flag (csr c) CH_CSR_ERQ = true)) ->
  req_frame s (upd_ch s n f).
Proof.
  intros Hn Hf. split; try done; [apply length_arr_set|]. intros j Hj.
  destruct (decide (j = n)) as [->|]; [|by rewrite ch_upd_ne by lia].
  destruct (Z.lt_ge_cases n (zlen (ch s))).
  - cbn. rewrite arr_get_set_eq by lia. apply Hf.
  - cbn. unfold arr_set. by rewrite list_insert_ge by lia.
Qed.
Lemma req_frame_irq s n : req_frame s (edma_update_irq s n).
Proof. by split. Qed.
Lemma req_frame_link s b : req_frame s (s <| in_link := b |>).
Proof. by split. Qed.

(** Clearing or setting other bits of CH_CSR does not set ERQ. *)
Lemma erq_land v m : flag (v .& m) CH_CSR_ERQ = true -> flag v CH_CSR_ERQ = true.
Proof. unfold CH_CSR_ERQ. rewrite !flag_bit, Z.land_spec by lia. by intros []%andb_true_iff. Qed.
Lemma erq_done v : flag (v .| CH_CSR_DONE) CH_CSR_ERQ = true -> flag v CH_CSR_ERQ = true.
Proof.
  unfold CH_CSR_ERQ, CH_CSR_DONE. rewrite !flag_bit, Z.lor_spec, testbit_bit by lia. by rewrite orb_false_r.
Qed.
#[export] Hint Resolve erq_land erq_done : edma.

Ltac frame :=
  repeat first
    [ reflexivity
    | etransitivity; [|apply req_frame_irq]
    | etransitivity; [|apply req_frame_upd;
        [lia | intros; cbn -[flag Z.land Z.lor]; repeat case_match; cbn -[flag Z.land Z.lor];
          (split; [done | solve [eauto with edma]])]]
    | progress case_match ].

Section pulse.
Context {B : Type} `{QuietSpace B}.

Lemma bus_read_quiet s (m : B) a n : fst (snd (bus_read (s, m) a n)) = s.
Proof.
  unfold bus_read. pose proof (quiet_read m a n) as E.
  destruct (as_read m a n) as [[[ok bs] m'] evs]. cbn in E. by subst.
Qed.
Lemma bus_write_quiet s (m : B) a bs : fst (bus_write (s, m) a bs) = s.
Proof.
  unfold bus_write. pose proof (quiet_write m a bs) as E.
  destruct (as_write m a bs) as [m' evs]. cbn in E. by subst.
Qed.

Lemma edma_fill_quiet k s (m : B) a size off mod_ buf :
  fst ((edma_fill k (s, m) a size off mod_ buf).1.1) = s.
Proof.
  revert m a buf. induction k as [|k IH]; intros m a buf; cbn [edma_fill]; [done|].
  pose proof (bus_read_quiet s m a size) as E. destruct bus_read as [[ok bs] [s' m']].
  cbn in E. subst. apply IH.
Qed.
Lemma edma_drain_quiet k s (m : B) a size off mod_ i buf :
  fst ((edma_drain k (s, m) a size off mod_ i buf).1) = s.
Proof.
  revert m a i. induction k as [|k IH]; intros m a i; cbn [edma_drain]; [done|].
  pose proof (bus_write_quiet s m a (slice i size buf)) as E. destruct bus_write as [s' m'].
  cbn in E. subst. apply IH.
Qed.
Lemma edma_copy_quiet c s (m : B) : fst ((edma_copy c (s, m)).1.1) = s.
Proof.
  unfold edma_copy. generalize (tcd_saddr c), (tcd_daddr c).
  induction (Z.to_nat _) as [|k IH] in m |- *; intros a b; cbn [edma_chunks]; [done|].
  destruct edma_fill as [[[s1 m1] a1] buf] eqn:E1. apply (f_equal (fun x => fst x.1.1)) in E1.
  rewrite edma_fill_quiet in E1. cbn in E1. subst s1.
  destruct edma_drain as [[s2 m2] b1] eqn:E2. apply (f_equal (fun x => fst x.1)) in E2.
  rewrite edma_drain_quiet in E2. cbn in E2. subst s2. apply IH.
Qed.

Definition ml_frame (ml : MCXNEDMAState * B -> Z -> option (bool * (MCXNEDMAState * B))) : Prop :=
  forall s m n r, 0 <= n -> ml (s, m) n = Some r -> req_frame s (fst (snd r)).

Lemma edma_error_frame s n err : 0 <= n -> req_frame s (edma_error s n err).
Proof. intros. unfold edma_error. cbn zeta. frame. Qed.

Lemma edma_load_next_tcd_frame s (m : B) n :
  0 <= n -> req_frame s (fst (snd (edma_load_next_tcd (s, m) n))).
Proof.
  intros Hn. unfold edma_load_next_tcd. case_match; [cbn [fst snd]; frame|].
  pose proof (bus_read_quiet s m (tcd_dlast (ch s).[n]) 32) as E.
  destruct bus_read as [[ok bs] [s' m']]. cbn in E. subst s'. case_match; cbn [fst snd]; frame.
Qed.

Lemma edma_link_channel_frame ml s (m : B) link r :
  ml_frame ml -> 0 <= link -> edma_link_channel ml (s, m) link = Some r -> req_frame s (fst r).
Proof.
  intros Hml Hl. unfold edma_link_channel, edma_run. case_match; [by intros [= <-]|].
  destruct (ml _ _) as [[b [s1 m1]]|] eqn:E; [|done]. cbn -[upd_ch]. intros [= <-]. cbn [fst].
  etransitivity; [|apply req_frame_link]. frame. etransitivity; [|exact (Hml _ _ _ _ Hl E)].
  frame. apply req_frame_link.
Qed.

Lemma edma_major_complete_frame ml s (m : B) n sa da r :
  ml_frame ml -> 0 <= n -> edma_major_complete ml (s, m) n sa da = Some r -> req_frame s (fst r).
Proof.
  intros Hml Hn. unfold edma_major_complete.
  set (s1 := upd_ch s n _). assert (H1 : req_frame s s1) by (unfold s1; frame).
  assert (H2 : forall st, (if flag (tcd_csr (ch s1).[n]) TCD_CSR_MAJORELINK
    then edma_link_channel ml (s1, m) (TCD_CSR_MAJORLINKCH (tcd_csr (ch s1).[n]))
    else Some (s1, m)) = Some st -> req_frame s (fst st)).
  { intros st. case_match; [|by intros [= <-]]. intros E. etransitivity; [exact H1|].
    eapply edma_link_channel_frame; [done | apply link_range | done]. }
  destruct (if flag _ TCD_CSR_MAJORELINK then _ else _) as [[s2 m2]|]; [|done].
  specialize (H2 _ eq_refl). cbn [fst] in H2. cbn -[flag upd_ch edma_load_next_tcd].
  assert (H3 : req_frame s (fst (if flag (tcd_csr (ch s2).[n]) TCD_CSR_ESG
    then snd (edma_load_next_tcd (s2, m2) n) else (s2, m2)))).
  { case_match; [|done]. etransitivity; [exact H2|]. by apply edma_load_next_tcd_frame. }
  destruct (if flag _ TCD_CSR_ESG then _ else _) as [s3 m3].
  intros [= <-]. cbn [fst] in *. etransitivity; [exact H3|]. frame.
Qed.

Lemma edma_minor_body_frame ml : ml_frame ml -> ml_frame (edma_minor_body ml).
Proof.
  intros Hml s m n r Hn. rewrite edma_minor_body_refused.
  case_match; [|intros [= <-]; by apply edma_error_frame].
  unfold edma_transfer. pose proof (edma_copy_quiet ((ch s).[n]) s m) as Ec.
  destruct edma_copy as [[[s1 m1] sa] da]. cbn in Ec. subst s1.
  set (s2 := upd_ch s n _). assert (H2 : req_frame s s2) by (unfold s2; frame).
  case_match.
  - case_match; [|intros [= <-]; exact H2].
    destruct edma_link_channel eqn:E; [|done]. intros [= <-]. etransitivity; [exact H2|].
    eapply edma_link_channel_frame; [done | apply link_range | done].
  - destruct edma_major_complete eqn:E; [|done]. intros [= <-]. etransitivity; [exact H2|].
    by eapply edma_major_complete_frame.
Qed.

Lemma edma_minor_loop_frame k : ml_frame (edma_minor_loop k).
Proof. induction k; [done|]. by apply edma_minor_body_frame. Qed.

Lemma edma_requested_frame s s' j :
  req_frame s s' -> 0 <= j -> edma_requested s j = false -> edma_requested s' j = false.
Proof.
  intros [Hl _ He _ Hch] Hj. destruct (Hch j Hj) as [Hm Hc]. unfold edma_requested. rewrite Hl, He, Hm.
  destruct (flag (csr (ch s').[j]) CH_CSR_ERQ); [by rewrite Hc | done].
Qed.

Lemma edma_requested_lower s src j :
  zlen (req_level s) = 128 -> 0 <= src < 128 -> edma_requested s j = false ->
  edma_requested (s <| req_level := (req_level s).[src <- false] |>) j = false.
Proof.
  intros Hl Hsrc. unfold edma_requested. cbn -[flag arr_get arr_set Z.land].
  assert (0 <= mux (ch s).[j] .& CH_MUX_SRC_MASK) by (apply Z.land_nonneg; right; done).
  rewrite arr_get_set by lia. case_match; [intros _; btauto | done].
Qed.

Lemma edma_service_channels_app ns1 ns2 (pst : bool * (MCXNEDMAState * B)) :
  edma_service_channels (ns1 ++ ns2) pst =
    (pst ← edma_service_channels ns1 pst; edma_service_channels ns2 pst).
Proof.
  revert pst. induction ns1 as [|n ns1 IH]; intros pst; [done|].
  cbn [app edma_service_channels]. destruct edma_service_channel; [apply IH | done].
Qed.

Lemma mux_src_range v : 0 <= v .& CH_MUX_SRC_MASK < 128.
Proof. apply (in_range_land_r 7); [lia | split; done]. Qed.

Definition clear_done (s : MCXNEDMAState) (n : Z) : MCXNEDMAState :=
  upd_ch s n (fun c => c <| csr := csr c .& u32 (.~ CH_CSR_DONE) |>).

(** One pass of the service loop when [n] is the only requested channel, and the
    only one that may be requested afterwards. *)
Lemma edma_service_pass_only s (m : B) n b s' m' :
  0 <= n < 16 -> edma_requested s n = true ->
  (forall j, 0 <= j < 16 -> j <> n -> edma_requested s j = false) ->
  edma_minor_loop EDMA_FUEL (clear_done s n, m) n = Some (b, (s', m')) ->
  let src := mux ((ch s).[n]) .& CH_MUX_SRC_MASK in
  let s2 := if (req_edge s').[src] then s' <| req_level := (req_level s').[src <- false] |> else s' in
  (forall j, 0 <= j < 16 -> j <> n -> edma_requested s2 j = false) ->
  edma_service_pass (s, m) = Some (true, (s2, m')).
Proof.
  intros Hn Hreq Hoth E src s2 Hidle. unfold edma_service_pass, MCXN_EDMA_CHANNELS.
  assert (Hsplit : seqZ 0 16 = seqZ 0 n ++ n :: seqZ (n + 1) (16 - n - 1)).
  { rewrite <- (seqZ_S n (16 - n)) by lia. pose proof (seqZ_app 0 n (16 - n)) as Ha.
    replace (n + (16 - n)) with 16 in Ha by lia. apply Ha; lia. }
  rewrite Hsplit, edma_service_channels_app, edma_service_channels_idle.
  2:{ intros j Hj%elem_of_seqZ. apply Hoth; lia. }
  cbn -[edma_service_channels]. cbn [edma_service_channels]. unfold edma_service_channel at 1.
  rewrite Hreq. cbn [negb]. fold (clear_done s n). rewrite E. cbn -[edma_service_channels].
  apply edma_service_channels_idle. intros j Hj%elem_of_seqZ. apply Hidle; lia.
Qed.

(** The bus leaves the request lines alone: the other channels stay idle. *)
Lemma edma_service_pass_one s (m : B) n b s' m' :
  0 <= n < 16 -> edma_requested s n = true ->
  (forall j, 0 <= j < 16 -> j <> n -> edma_requested s j = false) ->
  edma_minor_loop EDMA_FUEL (clear_done s n, m) n = Some (b, (s', m')) ->
  req_frame s s' -> zlen (req_level s) = 128 ->
  let src := mux ((ch s).[n]) .& CH_MUX_SRC_MASK in
  let s2 := if (req_edge s').[src] then s' <| req_level := (req_level s').[src <- false] |> else s' in
  edma_service_pass (s, m) = Some (true, (s2, m')) /\
  forall j, 0 <= j < 16 -> j <> n -> edma_requested s2 j = false.
Proof.
  intros Hn Hreq Hoth E Hf Hlen src s2.
  assert (Hidle : forall j, 0 <= j < 16 -> j <> n -> edma_requested s2 j = false).
  { intros j Hj Hne. assert (edma_requested s' j = false).
    { eapply edma_requested_frame; [done | lia | by apply Hoth]. }
    unfold s2. case_match; [|done]. apply edma_requested_lower; [|apply mux_src_range | done].
    by rewrite (fr_level _ _ Hf). }
  split; [|done]. by apply (edma_service_pass_only s m n b s' m').
Qed.

Lemma max_loops_S k : (k < 100)%nat -> exists j, MCXN_EDMA_MAX_LOOPS = (k + j)%nat.
Proof. intros. exists (MCXN_EDMA_MAX_LOOPS - k)%nat. unfold MCXN_EDMA_MAX_LOOPS. lia. Qed.

Lemma edma_service_loop_S k (st : MCXNEDMAState * B) :
  edma_service_loop (S k) st =
    (pst ← edma_service_pass st; if fst pst : bool then edma_service_loop k (snd pst) else Some (snd pst)).
Proof. done. Qed.

(** One pulse, one minor loop.  When a pulse arrives on the source of the
    only channel that is asked for service, the bottom half runs that
    channel's minor loop exactly once, takes the request away, and stops. *)
Theorem edma_pulse_one_minor_loop s (m : B) n :
  let src := mux ((ch s).[n]) .& CH_MUX_SRC_MASK in
  let s1 := mcxn_edma_req_pulse s src true in
  edma_ok false s -> 0 <= n < 16 -> src <> 0 ->
  flag (csr ((ch s).[n])) CH_CSR_ERQ = true -> (req_enabled s).[src] = true ->
  (forall j, 0 <= j < 16 -> j <> n -> edma_requested s1 j = false) ->
  exists b s' m', edma_minor_loop EDMA_FUEL (clear_done s1 n, m) n = Some (b, (s', m')) /\
    mcxn_edma_service_bh (s1, m) =
      Some (edma_drop_pulses (s' <| req_level := (req_level s').[src <- false] |>), m').
Proof.
  intros src s1 Hs Hn Hsrc Herq Hen Hoth.
  assert (Hr : 0 <= src < 128) by apply mux_src_range.
  assert (Hs1 : s1 = s <| req_edge := (req_edge s).[src <- true] |>
                       <| req_level := (req_level s).[src <- true] |> <| bh := true |>).
  { unfold s1, mcxn_edma_req_pulse, MCXN_EDMA_REQ_SOURCES. by zcases. }
  assert (Hok : edma_ok false s1) by (apply edma_ok_req_pulse; done).
  destruct (edma_minor_loop_ok false 0 (clear_done s1 n, m) n) as ([b [s' m']] & E & _);
    [unfold clear_done, st_ok; cbn [fst]; auto with edma | done |].
  exists b, s', m'. split; [exact E|].
  assert (Hf : req_frame s1 s').
  { etransitivity; [|exact (edma_minor_loop_frame _ _ _ _ _ (proj1 Hn) E)]. unfold clear_done. frame. }
  pose proof (ok_wf _ _ Hs) as Hwf.
  assert (Hedge : (req_edge s').[src] = true).
  { rewrite (fr_edge _ _ Hf), Hs1. cbn. rewrite arr_get_set_eq by (destruct Hwf; lia). done. }
  assert (Hreq : edma_requested s1 n = true).
  { unfold edma_requested. rewrite Hs1. cbn -[flag arr_get arr_set Z.land]. fold src.
    rewrite arr_get_set_eq by (destruct Hwf; lia). by rewrite Herq, Hen, (proj2 (Z.eqb_neq _ _)). }
  destruct (edma_service_pass_one s1 m n b s' m' Hn Hreq Hoth E) as [Hp Hidle]; [done | apply Hok|].
  replace (mux (ch s1).[n]) with (mux (ch s).[n]) in Hp, Hidle by (by rewrite Hs1).
  fold src in Hp, Hidle. rewrite Hedge in Hp, Hidle.
  destruct (max_loops_S 2) as [k Hk]; [lia|]. unfold mcxn_edma_service_bh. rewrite Hk.
  cbn [Nat.add]. rewrite edma_service_loop_S, Hp. cbn -[edma_drop_pulses edma_service_loop].
  rewrite edma_service_loop_idle; [done|].
  intros j Hj. destruct (decide (j = n)) as [->|]; [|by apply Hidle].
  unfold edma_requested. cbn -[flag arr_get arr_set Z.land].
  destruct (fr_ch _ _ Hf n) as [-> _]; [lia|].
  replace (mux (ch s1).[n]) with (mux (ch s).[n]) by (by rewrite Hs1). fold src.
  rewrite arr_get_set_eq; [btauto|]. rewrite (fr_level _ _ Hf). destruct Hok as [[] _ _]. lia.
Qed.
End pulse.

(** A descriptor that copies [nb] bytes per request, in words. *)
Definition word_tcd (src sa da nb citer : Z) (tcsr : Z) : MCXNEDMAChan :=
  chan_zero <| csr := CH_CSR_ERQ |> <| mux := src |> <| tcd_saddr := sa |> <| tcd_daddr := da |>
    <| tcd_soff := 4 |> <| tcd_doff := 4 |> <| tcd_attr := 0x0202 |> <| tcd_nbytes := nb |>
    <| tcd_citer := citer |> <| tcd_biter := citer |> <| tcd_csr := tcsr |>.

Lemma edma_pulse_one_minor_loop_witness :
  let s := program_channel edma0 2 (word_tcd 7 0x100 0x200 8 3 0) in
  exists b s' m', edma_minor_loop EDMA_FUEL (clear_done (mcxn_edma_req_pulse s 7 true) 2, flat_zero) 2 = Some (b, (s', m')) /\
    mcxn_edma_service_bh (mcxn_edma_req_pulse s 7 true, flat_zero) =
      Some (edma_drop_pulses (s' <| req_level := (req_level s').[7 <- false] |>), m').
Proof.
  intros s. apply (edma_pulse_one_minor_loop s flat_zero 2).
  - apply program_channel_ok; [apply edma_reset_ok | lia | reflexivity].
  - lia.
  - vm_compute. discriminate.
  - reflexivity.
  - reflexivity.
  - apply (seqZ_cases (fun j => j <> 2 -> _) 0 16). cbn [seqZ].
    repeat constructor; intros Hj; first [by exfalso; apply Hj | reflexivity].
Defined.
