(* ===== verification/EdmaCopy.v ===== *)
(** * eDMA: what a minor loop does to memory

    The data movement of [edma_minor_loop] (hw/dma/mcxn_edma.c), proved against
    a byte-level reference: the bytes at the source addresses, in the order the
    source side visits them, are stored at the destination addresses, in the
    order the destination side visits them.  The engine interleaves reads and
    writes in chunks of two independent transfer sizes; the theorems say that
    the interleaving is not observable when source and destination are
    disjoint. *)
From S2P Require Import Prelude Edma EdmaControl.

(** An address space that is memory between [ram_lo] and [ram_hi]: accesses
    there succeed, have no side effect and drive no request line. *)
Class RamWindow (B : Type) `{AddressSpace B} := {
  ram_lo : Z;
  ram_hi : Z;
  ram_byte : B -> Z -> Z;
  ram_read m a n : ram_lo <= a -> 0 <= n -> a + n <= ram_hi ->
    as_read m a n = (true, map (ram_byte m) (seqZ a n), m, []);
  ram_write_quiet m a bs : ram_lo <= a -> a + zlen bs <= ram_hi ->
    snd (as_write m a bs) = [];
  ram_write m a bs x : ram_lo <= a -> a + zlen bs <= ram_hi -> ram_lo <= x < ram_hi ->
    ram_byte (fst (as_write m a bs)) x =
      if (a <=? x) && (x <? a + zlen bs) then bs.[x - a] else ram_byte m x;
}.

(** ** The addresses a strided access visits *)

(** The address after [k] accesses. *)
Fixpoint adv (k : nat) (a off mod_ : Z) : Z :=
  match k with
  | O => a
  | S k => adv k (edma_advance a off mod_) off mod_
  end.

(** The bytes that [k] accesses of [size] bytes touch, in order. *)
Fixpoint touched (k : nat) (a size off mod_ : Z) : list Z :=
  match k with
  | O => []
  | S k => seqZ a size ++ touched k (edma_advance a off mod_) size off mod_
  end.

Lemma adv_add k1 k2 a off mod_ : adv (k1 + k2) a off mod_ = adv k2 (adv k1 a off mod_) off mod_.
Proof. revert a. by induction k1; simpl. Qed.

Lemma touched_add k1 k2 a size off mod_ :
  touched (k1 + k2) a size off mod_ =
    touched k1 a size off mod_ ++ touched k2 (adv k1 a off mod_) size off mod_.
Proof. revert a. induction k1 as [|k1 IH]; intros a; simpl; [done|]. by rewrite IH, <- app_assoc. Qed.

Lemma length_touched k a size off mod_ :
  0 <= size -> zlen (touched k a size off mod_) = Z.of_nat k * size.
Proof.
  intros Hs. revert a. induction k as [|k IH]; intros a; cbn [touched]; [done|].
  rewrite length_app, length_seqZ, Nat2Z.inj_add, IH. lia.
Qed.

(** ** The reference: byte stores *)

Definition poke (f : Z -> Z) (ab : Z * Z) : Z -> Z := fun x => if x =? ab.1 then ab.2 else f x.
Definition pokes (f : Z -> Z) (l : list (Z * Z)) : Z -> Z := foldl poke f l.

(** Copy the bytes at [src] to [dst]. *)
Definition copy_spec (f : Z -> Z) (src dst : list Z) : Z -> Z := pokes f (zip dst (map f src)).

Lemma pokes_ext f g l x : f x = g x -> pokes f l x = pokes g l x.
Proof.
  revert f g. induction l as [|ab l IH]; intros f g Hfg; simpl; [done|].
  apply IH. unfold poke. by rewrite Hfg.
Qed.

Lemma pokes_app f l1 l2 : pokes f (l1 ++ l2) = pokes (pokes f l1) l2.
Proof. apply foldl_app. Qed.

Lemma pokes_frame f l x : x ∉ l.*1 -> pokes f l x = f x.
Proof.
  revert f. induction l as [|[a b] l IH]; intros f Hx; simpl; [done|].
  rewrite IH by set_solver. unfold poke. simpl. rewrite (proj2 (Z.eqb_neq _ _)); set_solver.
Qed.

(** Storing a block of bytes at consecutive addresses. *)
Lemma pokes_block f a bs x :
  pokes f (zip (seqZ a (zlen bs)) bs) x =
    if (a <=? x) && (x <? a + zlen bs) then bs.[x - a] else f x.
Proof.
  revert f a. induction bs as [|b bs IH]; intros f a.
  { cbn [zip zip_with length pokes foldl]. by zcases. }
  rewrite seqZ_S by (cbn [length]; lia).
  replace (zlen (b :: bs) - 1) with (zlen bs) by (cbn [length]; lia).
  cbn [zip zip_with pokes foldl]. fold (pokes (poke f (a, b)) (zip (seqZ (a + 1) (zlen bs)) bs)).
  rewrite IH. unfold poke, arr_get. cbn [fst snd].
  assert (Hl : zlen (b :: bs) = zlen bs + 1) by (cbn [length]; lia). rewrite Hl.
  destruct (Z.eqb_spec x a) as [->|]; zcases; try done.
  - by replace (Z.to_nat (a - a)) with 0%nat by lia.
  - by replace (Z.to_nat (x - a)) with (S (Z.to_nat (x - (a + 1)))) by lia.
Qed.

(** ** The copy loop against the reference *)

Section copy.
Context {B : Type} `{RamWindow B}.

Definition in_ram (x : Z) : Prop := ram_lo <= x < ram_hi.
Definition ram_is (m : B) (f : Z -> Z) : Prop := forall x, in_ram x -> ram_byte m x = f x.

Lemma Forall_in_ram_seqZ a n : 0 < n -> Forall in_ram (seqZ a n) -> ram_lo <= a /\ a + n <= ram_hi.
Proof.
  intros Hn Hf. rewrite Forall_forall in Hf.
  assert (Ha : in_ram a) by (apply Hf, elem_of_seqZ; lia).
  assert (Hb : in_ram (a + n - 1)) by (apply Hf, elem_of_seqZ; lia).
  unfold in_ram in *. lia.
Qed.

Lemma map_ram_byte (m : B) f l : ram_is m f -> Forall in_ram l -> map (ram_byte m) l = map f l.
Proof. intros Hm. induction 1; simpl; [done|]. by rewrite Hm, IHForall. Qed.

Lemma bus_write_ram (m : B) a bs :
  0 < zlen bs -> Forall in_ram (seqZ a (zlen bs)) ->
  exists m', (forall s, bus_write (s, m) a bs = (s, m')) /\
    ram_is m' (pokes (ram_byte m) (zip (seqZ a (zlen bs)) bs)).
Proof.
  intros Hn Hr. apply Forall_in_ram_seqZ in Hr as [Hlo Hhi]; [|done].
  unfold bus_write. destruct (as_write m a bs) as [m' evs] eqn:E.
  assert (evs = []) as -> by (pose proof (ram_write_quiet m a bs Hlo Hhi) as Hq; by rewrite E in Hq).
  exists m'. split; [done|]. intros x Hx. rewrite pokes_block.
  pose proof (ram_write m a bs x Hlo Hhi Hx) as Hw. by rewrite E in Hw.
Qed.

Lemma edma_fill_ram k s (m : B) a size off mod_ buf :
  0 < size -> Forall in_ram (touched k a size off mod_) ->
  edma_fill k (s, m) a size off mod_ buf =
    ((s, m), adv k a off mod_, buf ++ map (ram_byte m) (touched k a size off mod_)).
Proof.
  intros Hs. revert a buf. induction k as [|k IH]; intros a buf Hr; simpl in *; [by rewrite app_nil_r|].
  apply Forall_app in Hr as [Hr1 Hr2]. apply Forall_in_ram_seqZ in Hr1 as [Hlo Hhi]; [|done].
  unfold bus_read. rewrite ram_read by lia. cbn [edma_lines foldl].
  rewrite IH by done. by rewrite map_app, app_assoc.
Qed.

Lemma edma_drain_ram k (m : B) a size off mod_ i buf :
  0 < size -> 0 <= i -> i + Z.of_nat k * size <= zlen buf ->
  Forall in_ram (touched k a size off mod_) ->
  exists m', (forall s, edma_drain k (s, m) a size off mod_ i buf = ((s, m'), adv k a off mod_)) /\
    ram_is m' (pokes (ram_byte m) (zip (touched k a size off mod_) (drop (Z.to_nat i) buf))).
Proof.
  intros Hs. revert a m i. induction k as [|k IH]; intros a m i Hi Hlen Hr; cbn [edma_drain touched adv] in *.
  { by exists m. }
  apply Forall_app in Hr as [Hr1 Hr2].
  assert (Hsl : zlen (slice i size buf) = size).
  { unfold slice. rewrite length_take, length_drop. lia. }
  destruct (bus_write_ram m a (slice i size buf)) as (m1 & E1 & Hm1); [by rewrite Hsl.. |].
  destruct (IH (edma_advance a off mod_) m1 (i + size)) as (m2 & E2 & Hm2); [lia | lia | done|].
  exists m2. split; [intros s; by rewrite E1|]. intros x Hx. rewrite Hm2 by done.
  rewrite <- (take_drop (Z.to_nat size) (drop (Z.to_nat i) buf)), drop_drop.
  rewrite zip_with_app, pokes_app.
  - replace (Z.to_nat i + Z.to_nat size)%nat with (Z.to_nat (i + size)) by lia.
    apply pokes_ext. rewrite Hm1 by done. by rewrite Hsl.
  - rewrite length_seqZ, length_take, length_drop. lia.
Qed.

(** The descriptor's two sides: the addresses they visit in [k] chunks. *)
Definition chunk_size (c : MCXNEDMAChan) : Z := Z.max (tcd_ssize c) (tcd_dsize c).
Definition src_accesses (c : MCXNEDMAChan) : nat := Z.to_nat (chunk_size c / tcd_ssize c).
Definition dst_accesses (c : MCXNEDMAChan) : nat := Z.to_nat (chunk_size c / tcd_dsize c).
Definition src_touched (c : MCXNEDMAChan) (k : nat) (a : Z) : list Z :=
  touched (k * src_accesses c) a (tcd_ssize c) (swrap 16 (tcd_soff c)) (ATTR_SMOD (tcd_attr c)).
Definition dst_touched (c : MCXNEDMAChan) (k : nat) (a : Z) : list Z :=
  touched (k * dst_accesses c) a (tcd_dsize c) (swrap 16 (tcd_doff c)) (ATTR_DMOD (tcd_attr c)).
Definition src_adv (c : MCXNEDMAChan) (k : nat) (a : Z) : Z :=
  adv (k * src_accesses c) a (swrap 16 (tcd_soff c)) (ATTR_SMOD (tcd_attr c)).
Definition dst_adv (c : MCXNEDMAChan) (k : nat) (a : Z) : Z :=
  adv (k * dst_accesses c) a (swrap 16 (tcd_doff c)) (ATTR_DMOD (tcd_attr c)).

(** The larger transfer size is a multiple of the smaller one. *)
Lemma pow2_max_div i j :
  0 <= i -> 0 <= j -> Z.max (2 ^ i) (2 ^ j) / 2 ^ i * 2 ^ i = Z.max (2 ^ i) (2 ^ j).
Proof.
  intros Hi Hj. assert (0 < 2 ^ i) by (apply Z.pow_pos_nonneg; lia).
  rewrite Z.mul_comm. symmetry. apply Z_div_exact_full_2; [lia|].
  destruct (Z.le_ge_cases i j).
  - rewrite Z.max_r by (apply Z.pow_le_mono_r; lia).
    replace j with (j - i + i) by lia. rewrite Z.pow_add_r by lia. apply Z.mod_mul; lia.
  - rewrite Z.max_l by (apply Z.pow_le_mono_r; lia). apply Z_mod_same_full.
Qed.

Lemma chunk_accesses c :
  Z.of_nat (src_accesses c) * tcd_ssize c = chunk_size c /\
  Z.of_nat (dst_accesses c) * tcd_dsize c = chunk_size c.
Proof.
  pose proof (tcd_size_range c). unfold src_accesses, dst_accesses, chunk_size.
  rewrite !Z2Nat.id by (apply Z.div_pos; lia).
  destruct (tcd_sizes c) as (i & j & ? & ? & -> & ->).
  split; [|rewrite Z.max_comm]; apply pow2_max_div; lia.
Qed.

Lemma src_touched_S c k a :
  src_touched c (S k) a = src_touched c 1 a ++ src_touched c k (src_adv c 1 a).
Proof. unfold src_touched, src_adv. rewrite Nat.mul_1_l. apply (touched_add (src_accesses c)). Qed.
Lemma dst_touched_S c k a :
  dst_touched c (S k) a = dst_touched c 1 a ++ dst_touched c k (dst_adv c 1 a).
Proof. unfold dst_touched, dst_adv. rewrite Nat.mul_1_l. apply (touched_add (dst_accesses c)). Qed.
Lemma src_adv_S c k a : src_adv c (S k) a = src_adv c k (src_adv c 1 a).
Proof. unfold src_adv. rewrite Nat.mul_1_l. apply (adv_add (src_accesses c)). Qed.
Lemma dst_adv_S c k a : dst_adv c (S k) a = dst_adv c k (dst_adv c 1 a).
Proof. unfold dst_adv. rewrite Nat.mul_1_l. apply (adv_add (dst_accesses c)). Qed.

Lemma length_sides c k a b :
  zlen (src_touched c k a) = Z.of_nat k * chunk_size c /\
  zlen (dst_touched c k b) = Z.of_nat k * chunk_size c.
Proof.
  pose proof (tcd_size_range c). pose proof (chunk_accesses c) as [E1 E2].
  unfold src_touched, dst_touched. rewrite !length_touched by lia. nia.
Qed.

Lemma copy_spec_app f src1 src2 dst1 dst2 x :
  length src1 = length dst1 -> (forall y, y ∈ src2 -> y ∉ dst1) ->
  copy_spec f (src1 ++ src2) (dst1 ++ dst2) x =
    copy_spec (copy_spec f src1 dst1) src2 dst2 x.
Proof.
  intros Hl Hd. unfold copy_spec at 1 2. rewrite map_app, zip_with_app, pokes_app.
  - f_equal. f_equal. apply map_ext_in. intros y Hy%list_elem_of_In. symmetry. apply pokes_frame.
    rewrite fst_zip; [by apply Hd | by rewrite length_map, Hl].
  - by rewrite length_map.
Qed.

Lemma copy_spec_ram (m : B) f src dst x :
  ram_is m f -> Forall in_ram src -> in_ram x ->
  copy_spec (ram_byte m) src dst x = copy_spec f src dst x.
Proof.
  intros Hm Hs Hx. unfold copy_spec. rewrite (map_ram_byte m f) by done. by apply pokes_ext, Hm.
Qed.

(** One chunk. *)
Lemma edma_chunk_ram c (m : B) a b :
  Forall in_ram (src_touched c 1 a) -> Forall in_ram (dst_touched c 1 b) ->
  exists m', (forall s, edma_chunks 1 c (s, m) a b = ((s, m'), src_adv c 1 a, dst_adv c 1 b)) /\
    ram_is m' (copy_spec (ram_byte m) (src_touched c 1 a) (dst_touched c 1 b)).
Proof.
  pose proof (tcd_size_range c) as [Hs Hd]. pose proof (chunk_accesses c) as [E1 E2].
  unfold src_touched, dst_touched, src_adv, dst_adv. rewrite !Nat.mul_1_l. intros Hr1 Hr2.
  cbn [edma_chunks]. unfold src_accesses, dst_accesses, chunk_size in *.
  destruct (edma_drain_ram (Z.to_nat (Z.max (tcd_ssize c) (tcd_dsize c) / tcd_dsize c)) m b
    (tcd_dsize c) (swrap 16 (tcd_doff c)) (ATTR_DMOD (tcd_attr c)) 0
    (map (ram_byte m) (touched (Z.to_nat (Z.max (tcd_ssize c) (tcd_dsize c) / tcd_ssize c)) a
       (tcd_ssize c) (swrap 16 (tcd_soff c)) (ATTR_SMOD (tcd_attr c))))) as (m' & E & Hm');
    [lia | lia | rewrite length_map, length_touched by lia; lia | done |].
  exists m'. split; [|done]. intros s. rewrite edma_fill_ram by (lia || done). cbn [app]. by rewrite E.
Qed.

(** The whole copy loop. *)
Lemma edma_chunks_ram k c (m : B) a b :
  Forall in_ram (src_touched c k a) -> Forall in_ram (dst_touched c k b) ->
  (forall x, x ∈ src_touched c k a -> x ∉ dst_touched c k b) ->
  exists m', (forall s, edma_chunks k c (s, m) a b = ((s, m'), src_adv c k a, dst_adv c k b)) /\
    ram_is m' (copy_spec (ram_byte m) (src_touched c k a) (dst_touched c k b)).
Proof.
  revert m a b. induction k as [|k IH]; intros m a b; [by exists m|].
  rewrite (src_touched_S c k), (dst_touched_S c k), (src_adv_S c k), (dst_adv_S c k), !Forall_app.
  intros [Hs1 Hs2] [Hd1 Hd2] Hdisj. setoid_rewrite elem_of_app in Hdisj.
  destruct (edma_chunk_ram c m a b Hs1 Hd1) as (m1 & E1 & Hm1).
  destruct (IH m1 (src_adv c 1 a) (dst_adv c 1 b)) as (m2 & E2 & Hm2);
    [done | done | intros y Hy; specialize (Hdisj y); tauto |].
  exists m2. split.
  - intros s. specialize (E1 s). rewrite <- E2. cbn [edma_chunks] in E1 |- *.
    destruct edma_fill as [[st1 a1] buf]. destruct edma_drain as [st2 b1]. by simplify_eq.
  - intros x Hx. rewrite Hm2 by done. rewrite copy_spec_app.
    + by apply copy_spec_ram.
    + pose proof (length_sides c 1 a b). lia.
    + intros y Hy. specialize (Hdisj y). tauto.
Qed.

(** ** One minor loop *)

Definition chunks (c : MCXNEDMAChan) : nat := Z.to_nat (tcd_nb c / chunk_size c).

Lemma chunk_size_pos c : 0 < chunk_size c.
Proof. pose proof (tcd_size_range c). unfold chunk_size. lia. Qed.

Lemma chunks_nb c : tcd_valid c -> Z.of_nat (chunks c) * chunk_size c = tcd_nb c.
Proof.
  intros Hv. pose proof (chunk_size_pos c).
  assert (0 <= tcd_nb c) by (apply Z.land_nonneg; right; done).
  assert (Hd : (chunk_size c | tcd_nb c)).
  { unfold chunk_size. destruct (Z.max_spec (tcd_ssize c) (tcd_dsize c)) as [[_ ->]|[_ ->]]; apply Hv. }
  destruct Hd as [q Hq]. unfold chunks. rewrite Hq at 1. rewrite Z.div_mul by lia.
  rewrite Z2Nat.id by nia. done.
Qed.

(** The copy loop of a valid descriptor runs [NBYTES / chunk] times. *)
Lemma edma_copy_chunks c (st : MCXNEDMAState * B) :
  tcd_valid c -> edma_copy c st = edma_chunks (chunks c) c st (tcd_saddr c) (tcd_daddr c).
Proof.
  intros Hv. pose proof (chunk_size_pos c). pose proof (chunks_nb c Hv) as Hn.
  unfold edma_copy. fold (chunk_size c). f_equal. apply Nat2Z.inj.
  rewrite <- Hn. replace (Z.of_nat (chunks c) * chunk_size c + chunk_size c - 1)
    with (chunk_size c - 1 + Z.of_nat (chunks c) * chunk_size c) by lia.
  rewrite Z.div_add, Z.div_small by lia. rewrite Z2Nat.id by lia. lia.
Qed.

(** No channel link and no scatter/gather. *)
Definition plain (c : MCXNEDMAChan) : Prop :=
  tcd_elink c = false /\ flag (tcd_csr c) TCD_CSR_MAJORELINK = false /\ flag (tcd_csr c) TCD_CSR_ESG = false.

(** The channel after one minor loop. *)
Definition chan_after (c : MCXNEDMAChan) : MCXNEDMAChan :=
  let sa := src_adv c (chunks c) (tcd_saddr c) in
  let da := dst_adv c (chunks c) (tcd_daddr c) in
  if tcd_count c =? 1 then
    c <| tcd_saddr := u32 (sa + swrap 32 (tcd_slast c)) |>
      <| tcd_daddr := u32 (da + swrap 32 (tcd_dlast c)) |>
      <| tcd_citer := tcd_biter c |>
      <| csr := let v := csr c .| CH_CSR_DONE in
                if flag (tcd_csr c) TCD_CSR_DREQ then v .& u32 (.~ CH_CSR_ERQ) else v |>
      <| intr := if flag (tcd_csr c) TCD_CSR_INTMAJOR then intr c .| CH_INT_INT else intr c |>
  else c <| tcd_saddr := sa |> <| tcd_daddr := da |> <| tcd_citer := tcd_count c - 1 |>.

(** The device after one minor loop of channel [n]. *)
Definition edma_after (s : MCXNEDMAState) (n : Z) : MCXNEDMAState :=
  let c := (ch s).[n] in
  let s1 := s <| ch := (ch s).[n <- chan_after c] |> in
  if (tcd_count c =? 1) && flag (tcd_csr c) TCD_CSR_INTMAJOR then edma_update_irq s1 n else s1.

Lemma tcd_count_range c : tcd_elink c = false -> 0 <= tcd_count c < 2 ^ 15.
Proof.
  intros He. unfold tcd_count, tcd_cmask. rewrite He. apply (in_range_land_r 15); [lia | split; done].
Qed.

(** The store of the decremented count: the link fields stay zero. *)
Lemma citer_store c :
  tcd_elink c = false -> 0 < tcd_count c ->
  u16 ((tcd_citer c .& u32 (.~ tcd_cmask c)) .| u32 (tcd_count c - 1)) = tcd_count c - 1.
Proof.
  intros He Hc. pose proof (tcd_count_range c He). rewrite (wrap_id 32 (tcd_count c - 1)) by lia.
  unfold tcd_cmask. rewrite He. change CITER_MASK with (Z.ones 15).
  unfold tcd_elink, CITER_ELINK in He. rewrite flag_bit in He by lia.
  apply Z.bits_inj'. intros i Hi. autorewrite with bits.
  destruct (Z.ltb_spec i 16); cbn [andb].
  - destruct (Z.ltb_spec i 15); cbn [andb negb]; [destruct (Z.ltb_spec i 32); [btauto | lia]|].
    replace i with 15 by lia. by rewrite He.
  - symmetry. apply (testbit_range 15); lia.
Qed.

Lemma upd_ch_upd s n f g : edma_wf s -> 0 <= n < 16 ->
  upd_ch (upd_ch s n f) n g = upd_ch s n (fun c => g (f c)).
Proof.
  intros Hwf Hn. unfold upd_ch. cbn -[arr_get arr_set]. rewrite arr_get_set_eq by (destruct Hwf; lia).
  by rewrite arr_set_set.
Qed.

Lemma edma_major_complete_plain ml s (m : B) n sa da :
  edma_wf s -> 0 <= n < 16 ->
  let c := (ch s).[n] in
  flag (tcd_csr c) TCD_CSR_MAJORELINK = false -> flag (tcd_csr c) TCD_CSR_ESG = false ->
  let s1 := upd_ch s n (fun c =>
    c <| tcd_saddr := u32 (sa + swrap 32 (tcd_slast c)) |>
      <| tcd_daddr := u32 (da + swrap 32 (tcd_dlast c)) |>
      <| tcd_citer := tcd_biter c |>
      <| csr := let v := csr c .| CH_CSR_DONE in
                if flag (tcd_csr c) TCD_CSR_DREQ then v .& u32 (.~ CH_CSR_ERQ) else v |>
      <| intr := if flag (tcd_csr c) TCD_CSR_INTMAJOR then intr c .| CH_INT_INT else intr c |>) in
  edma_major_complete ml (s, m) n sa da =
    Some (if flag (tcd_csr c) TCD_CSR_INTMAJOR then edma_update_irq s1 n else s1, m).
Proof.
  intros Hwf Hn c Hmaj Hesg s1. unfold edma_major_complete.
  set (s2 := upd_ch s n _).
  assert (H2 : (ch s2).[n] = c <| tcd_saddr := u32 (sa + swrap 32 (tcd_slast c)) |>
    <| tcd_daddr := u32 (da + swrap 32 (tcd_dlast c)) |> <| tcd_citer := tcd_biter c |>).
  { unfold s2. rewrite ch_upd_eq by done. fold c. cbn -[flag wrap swrap]. by rewrite Hesg. }
  rewrite H2. cbn -[flag upd_ch]. rewrite Hmaj. cbn -[flag upd_ch]. rewrite H2. cbn -[flag upd_ch]. rewrite Hesg.
  assert (Hwf2 : edma_wf s2) by (unfold s2; auto with edma).
  rewrite ch_upd_eq by done. rewrite H2. cbn -[flag upd_ch edma_update_irq].
  f_equal. f_equal.
  destruct (flag (tcd_csr c) TCD_CSR_DREQ) eqn:Ed; rewrite ?ch_upd_eq, ?H2 by auto with edma;
    cbn -[flag upd_ch edma_update_irq]; rewrite Ed || idtac; rewrite ?ch_upd_eq, ?H2 by auto with edma;
    cbn -[flag upd_ch edma_update_irq];
    destruct (flag (tcd_csr c) TCD_CSR_INTMAJOR) eqn:Ei; rewrite ?Ei;
    rewrite ?upd_ch_upd by auto with edma; unfold s2, s1; rewrite ?upd_ch_upd by auto with edma;
    try apply (f_equal (fun x => edma_update_irq x n));
    unfold upd_ch; f_equal; f_equal; fold c; cbn -[flag Z.land Z.lor wrap swrap];
    rewrite ?Hesg, ?Ed, ?Ei; cbn -[flag Z.land Z.lor wrap swrap]; reflexivity.
Qed.

(** The two sides of the transfer of channel [n] in [k] minor loops. *)
Definition src_bytes (c : MCXNEDMAChan) (k : nat) : list Z := src_touched c (k * chunks c) (tcd_saddr c).
Definition dst_bytes (c : MCXNEDMAChan) (k : nat) : list Z := dst_touched c (k * chunks c) (tcd_daddr c).

(** Both sides lie in memory and do not overlap. *)
Definition in_memory (c : MCXNEDMAChan) (k : nat) : Prop :=
  Forall in_ram (src_bytes c k) /\ Forall in_ram (dst_bytes c k) /\
  (forall x, x ∈ src_bytes c k -> x ∉ dst_bytes c k).

(** The copy of a minor loop that takes memory from [m] to [m'] and changes no
    request line. *)
Definition quiet_copy (c : MCXNEDMAChan) (m m' : B) : Prop :=
  forall s : MCXNEDMAState, edma_copy c (s, m) = ((s, m'), src_adv c (chunks c) (tcd_saddr c), dst_adv c (chunks c) (tcd_daddr c)).

Lemma edma_transfer_quiet ml s (m m' : B) n :
  edma_wf s -> 0 <= n < 16 ->
  let c := (ch s).[n] in
  tcd_valid c -> plain c -> quiet_copy c m m' ->
  edma_transfer ml (s, m) n = Some (tcd_count c =? 1, (edma_after s n, m')).
Proof.
  intros Hwf Hn c Hv (He & Hmaj & Hesg) Hq. unfold edma_transfer. fold c. rewrite Hq.
  pose proof (tcd_count_range c He). pose proof (valid_count c Hv).
  rewrite (wrap_id 32 (tcd_count c - 1)) by lia.
  replace (tcd_count c - 1 =? 0) with (tcd_count c =? 1) by (by zcases).
  unfold edma_after. fold c. unfold chan_after.
  destruct (Z.eqb_spec (tcd_count c) 1) as [E1|E1]; cbn [negb andb].
  - set (s2 := upd_ch s n _).
    assert (Hc2 : (ch s2).[n] = c <| tcd_saddr := src_adv c (chunks c) (tcd_saddr c) |>
      <| tcd_daddr := dst_adv c (chunks c) (tcd_daddr c) |>
      <| tcd_citer := u16 ((tcd_citer c .& u32 (.~ tcd_cmask c)) .| (tcd_count c - 1)) |>).
    { unfold s2. by rewrite ch_upd_eq. }
    rewrite edma_major_complete_plain by (rewrite ?Hc2; unfold s2; auto with edma).
    rewrite Hc2. cbn -[flag upd_ch wrap swrap edma_update_irq]. unfold s2. rewrite upd_ch_upd by done.
    f_equal.
  - rewrite He. cbn -[upd_ch]. f_equal. f_equal. f_equal. unfold upd_ch. fold c. f_equal. f_equal.
    pose proof (citer_store c He ltac:(lia)) as Hst. rewrite (wrap_id 32 (tcd_count c - 1)) in Hst by lia.
    by rewrite Hst.
Qed.

Lemma quiet_copy_ram c (m : B) : tcd_valid c -> in_memory c 1 ->
  exists m', quiet_copy c m m' /\ ram_is m' (copy_spec (ram_byte m) (src_bytes c 1) (dst_bytes c 1)).
Proof.
  intros Hv (Hs & Hd & Hdisj). unfold src_bytes, dst_bytes in *. rewrite !Nat.mul_1_l in *.
  destruct (edma_chunks_ram (chunks c) c m (tcd_saddr c) (tcd_daddr c) Hs Hd Hdisj) as (m' & E & Hm').
  exists m'. split; [|done]. intros s. by rewrite edma_copy_chunks, E.
Qed.

(** ** From minor loops to the major loop *)

Lemma pow2_divide_bits i x : 0 <= i -> (2 ^ i | x) <-> forall j, 0 <= j < i -> Z.testbit x j = false.
Proof.
  intros Hi. rewrite <- Z.mod_divide by (apply Z.pow_nonzero; lia). split.
  - intros Hx j Hj. rewrite <- (Z.mod_pow2_bits_low x i j), Hx by lia. apply Z.testbit_0_l.
  - intros Hb. apply Z.bits_inj'. intros j Hj. rewrite Z.testbit_0_l.
    destruct (Z.lt_ge_cases j i); [rewrite Z.mod_pow2_bits_low by lia; auto|].
    apply Z.mod_pow2_bits_high; lia.
Qed.

Lemma u32_pow2_divide i x : 0 <= i <= 32 -> (2 ^ i | x) -> (2 ^ i | u32 x).
Proof.
  intros Hi. rewrite !pow2_divide_bits by lia. intros Hx j Hj.
  rewrite testbit_wrap by lia. rewrite Hx by lia. apply andb_false_r.
Qed.

(** Advancing keeps an address aligned. *)
Lemma edma_advance_aligned i a off mod_ :
  0 <= i <= 32 -> (2 ^ i | a) -> (2 ^ i | off) -> (2 ^ i | edma_advance a off mod_).
Proof.
  intros Hi Ha Ho.
  assert (Hao : (2 ^ i | u32 (a + off))) by (apply u32_pow2_divide, Z.divide_add_r; done).
  unfold edma_advance. case_match; [done|]. revert Ha Hao. rewrite !pow2_divide_bits by lia.
  intros Ha Hao j Hj. rewrite Z.lor_spec, !Z.land_spec, Ha, Hao by lia. done.
Qed.

Lemma adv_aligned k i a off mod_ :
  0 <= i <= 32 -> (2 ^ i | a) -> (2 ^ i | off) -> (2 ^ i | adv k a off mod_).
Proof.
  intros Hi Ha Ho. revert a Ha. induction k as [|k IH]; intros a Ha; [done|].
  by apply IH, edma_advance_aligned.
Qed.

(** What the remaining minor loops of a major loop need. *)
Lemma chan_after_count c :
  tcd_elink c = false -> 1 < tcd_count c ->
  tcd_count (chan_after c) = tcd_count c - 1 /\ tcd_elink (chan_after c) = false.
Proof.
  intros He Hc. pose proof (tcd_count_range c He) as Hr. unfold chan_after.
  rewrite (proj2 (Z.eqb_neq _ _)) by lia.
  set (q := tcd_count c - 1). assert (Hq : 0 <= q < 2 ^ 15) by lia. clearbody q.
  assert (Hel : flag q CITER_ELINK = false).
  { unfold CITER_ELINK. rewrite flag_bit by lia. apply (testbit_range 15); lia. }
  split; [|exact Hel]. unfold tcd_count, tcd_cmask, tcd_elink. cbn -[flag].
  rewrite Hel. change CITER_MASK with (Z.ones 15). rewrite Z.land_ones by lia. apply Z.mod_small. lia.
Qed.

Lemma chan_after_valid c :
  tcd_valid c -> tcd_elink c = false -> 1 < tcd_count c -> tcd_valid (chan_after c).
Proof.
  intros Hv He Hc. destruct (chan_after_count c He Hc) as [Hcnt _].
  assert (Hn : chan_after c = c <| tcd_saddr := src_adv c (chunks c) (tcd_saddr c) |>
    <| tcd_daddr := dst_adv c (chunks c) (tcd_daddr c) |> <| tcd_citer := tcd_count c - 1 |>).
  { unfold chan_after. by rewrite (proj2 (Z.eqb_neq _ _)) by lia. }
  destruct Hv. destruct (tcd_sizes c) as (i & j & ? & ? & Ei & Ej).
  split; [rewrite Hcnt; lia | rewrite Hn; try done ..].
  - change (tcd_ssize (_ <| tcd_citer := _ |>)) with (tcd_ssize c). cbn. rewrite Ei in *.
    apply adv_aligned; [lia | done..].
  - change (tcd_dsize (_ <| tcd_citer := _ |>)) with (tcd_dsize c). cbn. rewrite Ej in *.
    apply adv_aligned; [lia | done..].
Qed.

Lemma side_split c k :
  1 < tcd_count c ->
  src_bytes c (S k) = src_bytes c 1 ++ src_bytes (chan_after c) k /\
  dst_bytes c (S k) = dst_bytes c 1 ++ dst_bytes (chan_after c) k.
Proof.
  intros Hc. unfold chan_after. rewrite (proj2 (Z.eqb_neq _ _)) by lia.
  unfold src_bytes, dst_bytes, src_touched, dst_touched. cbn -[Nat.mul touched chunks src_accesses dst_accesses].
  rewrite !Nat.mul_1_l, !Nat.mul_succ_l, !(Nat.add_comm _ (chunks c)), !Nat.mul_add_distr_r, !touched_add.
  done.
Qed.

Lemma edma_after_wf s n : edma_wf s -> edma_wf (edma_after s n).
Proof.
  intros Hwf. unfold edma_after. case_match; [apply edma_wf_irq|];
    destruct Hwf; split; cbn; rewrite ?length_arr_set; done.
Qed.
Lemma edma_after_ch s n : edma_wf s -> 0 <= n < 16 -> (ch (edma_after s n)).[n] = chan_after ((ch s).[n]).
Proof.
  intros Hwf Hn. unfold edma_after. destruct (_ && _); cbn -[chan_after arr_get arr_set];
    rewrite arr_get_set_eq by (destruct Hwf; lia); done.
Qed.
Lemma edma_after_frame s n : 0 <= n -> req_frame s (edma_after s n).
Proof.
  intros Hn.
  assert (Hf : req_frame s (upd_ch s n chan_after)).
  { apply req_frame_upd; [done|]. intros c. unfold chan_after. case_match; [|done].
    cbn -[flag Z.land Z.lor]. split; [done|]. case_match; eauto using erq_land, erq_done. }
  unfold edma_after. change (s <| ch := _ |>) with (upd_ch s n chan_after).
  case_match; [|done]. etransitivity; [exact Hf | apply req_frame_irq].
Qed.

(** The registers of a channel whose major loop is complete. *)
Definition completed (c : MCXNEDMAChan) (s' : MCXNEDMAState) (n : Z) : Prop :=
  let c' := (ch s').[n] in
  flag (csr c') CH_CSR_DONE = true /\ flag (csr c') CH_CSR_ERQ = false /\
  tcd_citer c' = tcd_biter c /\
  (flag (tcd_csr c) TCD_CSR_INTMAJOR = true -> (irq s').[n] = true).

Lemma edma_after_completed s n :
  edma_wf s -> 0 <= n < 16 -> tcd_count ((ch s).[n]) = 1 ->
  flag (tcd_csr ((ch s).[n])) TCD_CSR_DREQ = true -> completed ((ch s).[n]) (edma_after s n) n.
Proof.
  intros Hwf Hn Hc Hd. unfold completed. rewrite edma_after_ch by done. unfold edma_after, chan_after.
  rewrite Hc, Hd. cbn -[flag Z.land Z.lor arr_get arr_set wrap swrap edma_update_irq].
  unfold CH_CSR_DONE, CH_CSR_ERQ. rewrite !flag_bit by lia. autorewrite with bits. cbn.
  rewrite orb_true_r. split; [done|]. split; [by rewrite !andb_false_r|]. split; [done|].
  intros Hi. rewrite Hi. cbn -[flag Z.lor wrap swrap arr_get arr_set].
  rewrite !arr_get_set_eq by (rewrite ?length_arr_set; destruct Hwf; lia).
  cbn -[flag Z.lor]. unfold CH_INT_INT. rewrite flag_bit by lia.
  rewrite Z.lor_spec, (testbit_bit 0 0) by lia. apply orb_true_r.
Qed.

(** A channel that waits for a level request on source [src]: enabled, gated
    through, alone, and set to disable itself at the end (DREQ). *)
Record waiting (s : MCXNEDMAState) (n : Z) : Prop := {
  w_wf : edma_wf s;
  w_alone j : 0 <= j < 16 -> edma_requested s j = (j =? n);
  w_level : (req_edge s).[mux ((ch s).[n]) .& CH_MUX_SRC_MASK] = false;
  w_valid : tcd_valid ((ch s).[n]);
  w_plain : plain ((ch s).[n]);
  w_dreq : flag (tcd_csr ((ch s).[n])) TCD_CSR_DREQ = true;
}.

(** One pass of the service loop serves the waiting channel once. *)
Definition served (s : MCXNEDMAState) (n : Z) : MCXNEDMAState := edma_after (clear_done s n) n.

Lemma clear_done_ch s n : edma_wf s -> 0 <= n < 16 ->
  (ch (clear_done s n)).[n] = (ch s).[n] <| csr := csr ((ch s).[n]) .& u32 (.~ CH_CSR_DONE) |>.
Proof. intros. unfold clear_done. by rewrite ch_upd_eq. Qed.

Lemma served_frame s n : 0 <= n < 16 -> req_frame s (served s n).
Proof.
  intros Hn. unfold served. etransitivity; [|apply edma_after_frame; lia]. unfold clear_done. frame.
Qed.

Lemma tcd_valid_csr c v : tcd_valid c -> tcd_valid (c <| csr := v |>).
Proof. by intros []. Qed.

Lemma quiet_copy_csr c v m m' : quiet_copy c m m' -> quiet_copy (c <| csr := v |>) m m'.
Proof.
  intros Hq s. transitivity (edma_copy c (s, m)); [|exact (Hq s)]. unfold edma_copy.
  change (tcd_ssize (c <| csr := v |>)) with (tcd_ssize c). change (tcd_dsize (c <| csr := v |>)) with (tcd_dsize c).
  change (tcd_nb (c <| csr := v |>)) with (tcd_nb c). cbv zeta. generalize (Z.to_nat ((tcd_nb c + Z.max (tcd_ssize c) (tcd_dsize c) - 1) / Z.max (tcd_ssize c) (tcd_dsize c))).
  cbn [tcd_saddr tcd_daddr modify]. intros k. generalize (s, m), (tcd_saddr c), (tcd_daddr c). induction k as [|k IH]; intros st a b; [done|].
  cbn [edma_chunks]. change (tcd_ssize (c <| csr := v |>)) with (tcd_ssize c). change (tcd_dsize (c <| csr := v |>)) with (tcd_dsize c).
  cbn [tcd_soff tcd_doff tcd_attr modify]. destruct (edma_fill _ _ _ _ _ _ _) as [[st1 a1] buf]. destruct (edma_drain _ _ _ _ _ _ _ _) as [st2 b1]. apply IH.
Qed.

Lemma waiting_pass s (m m' : B) n :
  waiting s n -> 0 <= n < 16 -> quiet_copy ((ch s).[n]) m m' ->
  edma_service_pass (s, m) = Some (true, (served s n, m')) /\
  (forall j, 0 <= j < 16 -> j <> n -> edma_requested (served s n) j = false).
Proof.
  intros [Hwf Hal Hlev Hv Hp Hd] Hn Hq.
  assert (Hwf' : edma_wf (clear_done s n)) by (unfold clear_done; auto with edma).
  pose proof (clear_done_ch s n Hwf Hn) as Hc.
  assert (Hml : edma_minor_loop EDMA_FUEL (clear_done s n, m) n =
    Some (tcd_count ((ch (clear_done s n)).[n]) =? 1, (served s n, m'))).
  { change (edma_minor_loop EDMA_FUEL) with (edma_minor_body (B := B) (edma_minor_loop 1)).
    rewrite edma_minor_body_refused, (proj2 (Z.eqb_eq _ _)) by (apply tcd_refused_valid; rewrite Hc; by apply tcd_valid_csr).
    apply edma_transfer_quiet; rewrite ?Hc; [done | done | by apply tcd_valid_csr | exact Hp | by apply quiet_copy_csr]. }
  pose proof (served_frame s n Hn) as Hf.
  assert (Hreq : edma_requested s n = true) by (rewrite Hal by done; apply Z.eqb_refl).
  assert (Hoth : forall j, 0 <= j < 16 -> j <> n -> edma_requested s j = false).
  { intros j Hj Hne. rewrite Hal by done. by apply Z.eqb_neq. }
  destruct (edma_service_pass_one s m n _ _ _ Hn Hreq Hoth Hml Hf (wf_level s Hwf)) as [Hpass Hidle].
  rewrite (fr_edge _ _ Hf), Hlev in Hpass, Hidle. done.
Qed.

Lemma waiting_next s n :
  waiting s n -> 0 <= n < 16 -> 1 < tcd_count ((ch s).[n]) ->
  (forall j, 0 <= j < 16 -> j <> n -> edma_requested (served s n) j = false) ->
  waiting (served s n) n.
Proof.
  intros [Hwf Hal Hlev Hv (He & Hmaj & Hesg) Hd] Hn Hc Hidle. pose proof (served_frame s n Hn) as Hf.
  assert (Hwf' : edma_wf (clear_done s n)) by (unfold clear_done; auto with edma).
  set (c1 := (ch s).[n] <| csr := csr ((ch s).[n]) .& u32 (.~ CH_CSR_DONE) |>).
  assert (Hch : (ch (served s n)).[n] = chan_after c1).
  { unfold served. rewrite edma_after_ch by done. by rewrite clear_done_ch. }
  assert (Hafter : chan_after c1 = c1 <| tcd_saddr := src_adv c1 (chunks c1) (tcd_saddr c1) |>
    <| tcd_daddr := dst_adv c1 (chunks c1) (tcd_daddr c1) |> <| tcd_citer := tcd_count c1 - 1 |>).
  { unfold chan_after. by rewrite (proj2 (Z.eqb_neq (tcd_count c1) 1)) by (change (tcd_count c1) with (tcd_count (ch s).[n]); lia). }
  assert (Hmux : mux (ch (served s n)).[n] = mux (ch s).[n]) by (by rewrite Hch, Hafter).
  split.
  - by apply edma_after_wf.
  - intros j Hj. destruct (Z.eqb_spec j n) as [->|]; [|by apply Hidle].
    specialize (Hal n Hj). rewrite Z.eqb_refl in Hal. revert Hal. unfold edma_requested.
    rewrite Hmux, (fr_level _ _ Hf), (fr_enabled _ _ Hf), Hch, Hafter. cbn -[flag Z.land wrap arr_get].
    unfold CH_CSR_ERQ. rewrite !flag_bit by lia. rewrite Z.land_spec. intros Hal. rewrite <- Hal at 1.
    f_equal. f_equal. f_equal. apply andb_true_r.
  - by rewrite Hmux, (fr_edge _ _ Hf).
  - rewrite Hch. by apply chan_after_valid; [apply tcd_valid_csr|..].
  - rewrite Hch. split; [apply (chan_after_count c1); done|]. by rewrite Hafter.
  - by rewrite Hch, Hafter.
Qed.

Lemma in_memory_split c k :
  tcd_elink c = false -> 1 < tcd_count c -> in_memory c (S k) ->
  in_memory c 1 /\ in_memory (chan_after c) k /\
  (forall x, x ∈ src_bytes (chan_after c) k -> x ∉ dst_bytes c 1).
Proof.
  intros He Hc (Hs & Hd & Hdisj). destruct (side_split c k Hc) as [E1 E2]. rewrite E1, E2 in *.
  apply Forall_app in Hs as [? ?], Hd as [? ?]. setoid_rewrite elem_of_app in Hdisj.
  split; [|split]; [split; [done|]; split; [done|] .. |]; intros x Hx; specialize (Hdisj x); tauto.
Qed.

(** The data side of a descriptor does not depend on CH_CSR. *)
Lemma src_bytes_csr c v k : src_bytes (c <| csr := v |>) k = src_bytes c k.
Proof. done. Qed.
Lemma dst_bytes_csr c v k : dst_bytes (c <| csr := v |>) k = dst_bytes c k.
Proof. done. Qed.
Lemma chan_after_csr c v :
  1 < tcd_count c -> chan_after (c <| csr := v |>) = (chan_after c) <| csr := v |>.
Proof.
  intros Hc. unfold chan_after. change (tcd_count (c <| csr := v |>)) with (tcd_count c).
  by rewrite (proj2 (Z.eqb_neq (tcd_count c) 1)) by lia.
Qed.
Lemma chan_after_keeps c :
  1 < tcd_count c -> tcd_biter (chan_after c) = tcd_biter c /\ tcd_csr (chan_after c) = tcd_csr c.
Proof. intros Hc. unfold chan_after. by rewrite (proj2 (Z.eqb_neq (tcd_count c) 1)) by lia. Qed.

Lemma served_ch s n :
  edma_wf s -> 0 <= n < 16 -> 1 < tcd_count ((ch s).[n]) ->
  (ch (served s n)).[n] =
    (chan_after ((ch s).[n])) <| csr := csr ((ch s).[n]) .& u32 (.~ CH_CSR_DONE) |>.
Proof.
  intros Hwf Hn Hc. unfold served. rewrite edma_after_ch by (unfold clear_done; auto with edma).
  rewrite clear_done_ch by done. by apply chan_after_csr.
Qed.

(** The copies of [k] minor loops, one after the other. *)
Fixpoint quiet_copies (k : nat) (c : MCXNEDMAChan) (m m' : B) : Prop :=
  match k with
  | O => m' = m
  | S k => exists m1, quiet_copy c m m1 /\ quiet_copies k (chan_after c) m1 m'
  end.

Lemma quiet_copies_csr k c v m m' : Z.of_nat k <= tcd_count c -> tcd_elink c = false ->
  quiet_copies k c m m' -> quiet_copies k (c <| csr := v |>) m m'.
Proof.
  revert c m. induction k as [|k IH]; intros c m Hk He; [done|]. intros (m1 & Hq & Hr). exists m1. split; [by apply quiet_copy_csr|].
  destruct k as [|k]; [exact Hr|]. rewrite chan_after_csr by lia. destruct (chan_after_count c He ltac:(lia)) as [Hc He'].
  apply IH; [lia | done | done].
Qed.

(** The last minor loop. *)
Lemma edma_service_loop_last j s (m m' : B) n :
  waiting s n -> 0 <= n < 16 ->
  let c := (ch s).[n] in
  tcd_count c = 1 -> quiet_copy c m m' ->
  exists s', edma_service_loop (S j) (s, m) = Some (s', m') /\ completed c s' n.
Proof.
  intros Hw Hn c Hcnt Hq. destruct (waiting_pass s m m' n Hw Hn Hq) as (Hp & Hidle).
  exists (served s n). rewrite edma_service_loop_S, Hp.
  cbn -[edma_service_loop]. destruct Hw as [Hwf Hal Hlev Hv Hpl Hd].
  assert (Hcomp : completed c (served s n) n).
  { pose proof (edma_after_completed (clear_done s n) n) as Hx. rewrite clear_done_ch in Hx by done.
    apply Hx; [unfold clear_done; auto with edma | done | done | done]. }
  split; [|done]. apply edma_service_loop_idle. intros i Hi.
  destruct (decide (i = n)) as [->|]; [|by apply Hidle].
  unfold edma_requested. destruct Hcomp as (_ & -> & _). done.
Qed.

(** The whole major loop under a level request. *)
Lemma edma_service_loop_major k j s (m m' : B) n :
  waiting s n -> 0 <= n < 16 ->
  let c := (ch s).[n] in
  tcd_count c = Z.of_nat (S k) -> quiet_copies (S k) c m m' ->
  exists s', edma_service_loop (S k + j) (s, m) = Some (s', m') /\ completed c s' n.
Proof.
  revert s m. induction k as [|k IH]; intros s m Hw Hn c Hcnt (m1 & Hq & Hr).
  { cbn in Hr. subst m1. by apply edma_service_loop_last. }
  assert (Hc1 : 1 < tcd_count c) by lia. destruct (w_plain s n Hw) as [He _].
  destruct (waiting_pass s m m1 n Hw Hn Hq) as (Hp & Hidle).
  pose proof (waiting_next s n Hw Hn Hc1 Hidle) as Hw1.
  pose proof (served_ch s n (w_wf s n Hw) Hn Hc1) as Hch. fold c in Hch.
  destruct (chan_after_count c He Hc1) as [Hcnt1 He1]. destruct (chan_after_keeps c Hc1) as [Eb Ec].
  specialize (IH (served s n) m1 Hw1 Hn). cbn zeta in IH. unfold completed in IH. rewrite Hch in IH.
  destruct IH as (s' & E & Hcomp).
  - transitivity (tcd_count (chan_after c)); [done | rewrite Hcnt1; lia].
  - apply quiet_copies_csr; [lia | done | done].
  - exists s'. cbn [Nat.add]. rewrite edma_service_loop_S, Hp. split; [exact E|].
    unfold completed. rewrite <- Eb, <- Ec. exact Hcomp.
Qed.

Lemma edma_service_bh_quiet s (m m' : B) n :
  waiting s n -> 0 <= n < 16 ->
  let c := (ch s).[n] in
  quiet_copies (Z.to_nat (tcd_count c)) c m m' ->
  exists s', mcxn_edma_service_bh (s, m) = Some (s', m') /\ completed c s' n.
Proof.
  intros Hw Hn c Hq. set (k := Z.to_nat (tcd_count c)) in *. pose proof (tcd_count_range c (proj1 (w_plain s n Hw))) as Hr.
  pose proof (valid_count c (w_valid s n Hw)).
  destruct (edma_service_loop_major (pred k) (MCXN_EDMA_MAX_LOOPS - k) s m m' n Hw Hn)
    as (s' & E & Hc); [fold c; lia | by replace (S (pred k)) with k by lia|].
  fold c in Hc. replace (S (pred k)) with k in E by lia.
  replace (k + (MCXN_EDMA_MAX_LOOPS - k))%nat with MCXN_EDMA_MAX_LOOPS in E
    by (unfold MCXN_EDMA_MAX_LOOPS; lia).
  exists (edma_drop_pulses s'). unfold mcxn_edma_service_bh. rewrite E. split; [done|].
  assert (Hd : ch (edma_drop_pulses s') = ch s' /\ irq (edma_drop_pulses s') = irq s').
  { unfold edma_drop_pulses. clear. generalize (seqZ 0 MCXN_EDMA_REQ_SOURCES). intros l. revert s'.
    induction l as [|x l IH]; intros s'; cbn; [done|].
    destruct (req_edge s').[x]; [|apply IH]. destruct (IH (s' <| req_level := (req_level s').[x <- false] |>)) as [-> ->].
    done. }
  unfold completed. destruct Hd as [-> ->]. exact Hc.
Qed.

(** In memory the copies of the major loop are one big copy. *)
Lemma quiet_copies_ram k c (m : B) : tcd_valid c -> plain c -> tcd_count c = Z.of_nat (S k) -> in_memory c (S k) ->
  exists m', quiet_copies (S k) c m m' /\ ram_is m' (copy_spec (ram_byte m) (src_bytes c (S k)) (dst_bytes c (S k))).
Proof.
  revert c m. induction k as [|k IH]; intros c m Hv (He & Hmaj & Hesg) Hcnt Hmem.
  { destruct (quiet_copy_ram c m Hv Hmem) as (m' & Hq & Hr). exists m'. split; [by exists m' | done]. }
  assert (Hc1 : 1 < tcd_count c) by lia. destruct (in_memory_split c (S k) He Hc1 Hmem) as (Hm1 & Hm2 & Hx).
  destruct (quiet_copy_ram c m Hv Hm1) as (m1 & Hq & Hr1). destruct (chan_after_count c He Hc1) as [Hcnt1 He1].
  destruct (chan_after_keeps c Hc1) as [_ Ec].
  destruct (IH (chan_after c) m1) as (m' & Hqs & Hr); [by apply chan_after_valid | by rewrite <- Ec in Hmaj, Hesg | lia | done|].
  exists m'. split; [by exists m1|]. destruct (side_split c (S k) Hc1) as [-> ->].
  intros x Hxr. rewrite Hr by done. rewrite copy_spec_app; [|clear -H0 | exact Hx].
  - apply copy_spec_ram; [done | apply Hm2 | done].
  - pose proof (length_sides c (1 * chunks c) (tcd_saddr c) (tcd_daddr c)).
    unfold src_bytes, dst_bytes. lia.
Qed.

Lemma edma_service_bh_major s (m : B) n :
  waiting s n -> 0 <= n < 16 ->
  let c := (ch s).[n] in
  let k := Z.to_nat (tcd_count c) in
  in_memory c k ->
  exists s' m', mcxn_edma_service_bh (s, m) = Some (s', m') /\ completed c s' n /\
    ram_is m' (copy_spec (ram_byte m) (src_bytes c k) (dst_bytes c k)).
Proof.
  intros Hw Hn c k Hmem. pose proof (tcd_count_range c (proj1 (w_plain s n Hw))) as Hr.
  pose proof (valid_count c (w_valid s n Hw)). replace k with (S (pred k)) in * by (unfold k; lia).
  destruct (quiet_copies_ram (pred k) c m) as (m' & Hq & Hm'); [apply Hw | apply Hw | unfold k; lia | done|].
  replace (S (pred k)) with k in Hq by (unfold k; lia). destruct (edma_service_bh_quiet s m m' n Hw Hn Hq) as (s' & E & Hc).
  by exists s', m'.
Qed.

(** C28: one minor loop of a valid descriptor copies NBYTES: the bytes that the
    source side visits, in SSIZE pieces with its stride and modulo, arrive at
    the addresses that the destination side visits, in DSIZE pieces with its
    own; nothing else in memory changes; the descriptor advances and the loop
    reports completion exactly when it was the last one. *)
Theorem edma_minor_loop_copies s (m : B) n :
  edma_wf s -> 0 <= n < 16 -> tcd_valid ((ch s).[n]) -> plain ((ch s).[n]) -> in_memory ((ch s).[n]) 1 ->
  exists m', edma_minor_loop EDMA_FUEL (s, m) n =
      Some (tcd_count ((ch s).[n]) =? 1, (edma_after s n, m')) /\
    ram_is m' (copy_spec (ram_byte m) (src_bytes ((ch s).[n]) 1) (dst_bytes ((ch s).[n]) 1)).
Proof.
  intros Hwf Hn Hv Hp Hmem.
  change (edma_minor_loop EDMA_FUEL) with (edma_minor_body (B := B) (edma_minor_loop 1)).
  rewrite edma_minor_body_refused, (proj2 (Z.eqb_eq _ _)) by (by apply tcd_refused_valid).
  destruct (quiet_copy_ram ((ch s).[n]) m Hv Hmem) as (m' & Hq & Hr). exists m'. split; [by apply edma_transfer_quiet | done].
Qed.

(** C1: a peripheral that holds its request gets the whole major loop.  The
    bottom half runs CITER minor loops, which together copy the bytes the
    source side visits to the addresses the destination side visits; then the
    channel is done, its request is disabled, the count is reloaded and the
    interrupt is raised if INTMAJOR asks for it. *)
Theorem edma_request_major_loop s (m : B) n :
  waiting s n -> 0 <= n < 16 -> in_memory ((ch s).[n]) (Z.to_nat (tcd_count ((ch s).[n]))) ->
  let c := (ch s).[n] in
  let k := Z.to_nat (tcd_count c) in
  exists s' m', mcxn_edma_service_bh (s, m) = Some (s', m') /\ completed c s' n /\
    ram_is m' (copy_spec (ram_byte m) (src_bytes c k) (dst_bytes c k)).
Proof. intros Hw Hn Hmem. by apply edma_service_bh_major. Qed.

(** ** Contiguous transfers *)

(** A descriptor that walks both sides byte after byte. *)
Record linear (c : MCXNEDMAChan) (k : nat) : Prop := {
  lin_soff : swrap 16 (tcd_soff c) = tcd_ssize c;
  lin_doff : swrap 16 (tcd_doff c) = tcd_dsize c;
  lin_mod : ATTR_SMOD (tcd_attr c) = 0 /\ ATTR_DMOD (tcd_attr c) = 0;
  lin_src : 0 <= tcd_saddr c /\ tcd_saddr c + Z.of_nat k * tcd_nb c < 2 ^ 32;
  lin_dst : 0 <= tcd_daddr c /\ tcd_daddr c + Z.of_nat k * tcd_nb c < 2 ^ 32;
}.

Lemma touched_linear k a size :
  0 < size -> 0 <= a -> a + Z.of_nat k * size < 2 ^ 32 ->
  touched k a size size 0 = seqZ a (Z.of_nat k * size).
Proof.
  intros Hs. revert a. induction k as [|k IH]; intros a Ha Hb; [done|]. cbn [touched].
  unfold edma_advance. cbn [Z.eqb]. rewrite wrap_id by lia. rewrite IH by lia.
  rewrite <- seqZ_app by lia. f_equal. lia.
Qed.

Lemma sides_linear c k :
  tcd_valid c -> linear c k ->
  src_bytes c k = seqZ (tcd_saddr c) (Z.of_nat k * tcd_nb c) /\
  dst_bytes c k = seqZ (tcd_daddr c) (Z.of_nat k * tcd_nb c).
Proof.
  intros Hv [Hso Hdo [Hsm Hdm] Hs Hd]. pose proof (chunks_nb c Hv) as Hnb.
  destruct (chunk_accesses c) as [E1 E2]. destruct (tcd_size_range c).
  assert (Ek1 : Z.of_nat (k * chunks c * src_accesses c) * tcd_ssize c = Z.of_nat k * tcd_nb c) by nia.
  assert (Ek2 : Z.of_nat (k * chunks c * dst_accesses c) * tcd_dsize c = Z.of_nat k * tcd_nb c) by nia.
  unfold src_bytes, dst_bytes, src_touched, dst_touched. rewrite Hso, Hdo, Hsm, Hdm.
  rewrite !touched_linear, Ek1, Ek2 by lia. done.
Qed.

Lemma copy_spec_block f sa da len x :
  0 <= len ->
  copy_spec f (seqZ sa len) (seqZ da len) x =
    if (da <=? x) && (x <? da + len) then f (sa + (x - da)) else f x.
Proof.
  intros Hl. unfold copy_spec.
  assert (Hlen : zlen (map f (seqZ sa len)) = len) by (rewrite length_map, length_seqZ; lia).
  pose proof (pokes_block f da (map f (seqZ sa len)) x) as Hb. rewrite Hlen in Hb. rewrite Hb.
  zcases; [|done..].
  unfold arr_get. apply list_lookup_total_correct. rewrite list_lookup_fmap.
  rewrite lookup_seqZ_lt by lia. cbn. f_equal. f_equal. lia.
Qed.

(** DMA memcpy.  With contiguous strides a held request copies the block
    of CITER * NBYTES bytes from SADDR to DADDR, leaves every other byte of
    memory alone, and completes the channel. *)
Theorem edma_request_memcpy s (m : B) n :
  let c := (ch s).[n] in
  let k := Z.to_nat (tcd_count c) in
  let len := tcd_count c * tcd_nb c in
  waiting s n -> 0 <= n < 16 -> linear c k ->
  ram_lo <= tcd_saddr c /\ tcd_saddr c + len <= ram_hi ->
  ram_lo <= tcd_daddr c /\ tcd_daddr c + len <= ram_hi ->
  tcd_saddr c + len <= tcd_daddr c \/ tcd_daddr c + len <= tcd_saddr c ->
  exists s' m', mcxn_edma_service_bh (s, m) = Some (s', m') /\ completed c s' n /\
    forall x, ram_lo <= x < ram_hi ->
      ram_byte m' x = if (tcd_daddr c <=? x) && (x <? tcd_daddr c + len)
                      then ram_byte m (tcd_saddr c + (x - tcd_daddr c)) else ram_byte m x.
Proof.
  intros c k len Hw Hn Hlin Hs Hd Hdisj.
  pose proof (tcd_count_range c (proj1 (w_plain s n Hw))) as Hr.
  assert (0 <= tcd_nb c) by (apply Z.land_nonneg; right; done).
  destruct (sides_linear c k (w_valid s n Hw) Hlin) as [Es Ed].
  replace (Z.of_nat k * tcd_nb c) with len in Es, Ed by (unfold k, len; lia).
  destruct (edma_service_bh_major s m n Hw Hn) as (s' & m' & E & Hc & Hm').
  { fold c. fold k. unfold in_memory. rewrite Es, Ed.
    split; [apply Forall_seqZ; unfold in_ram; lia|]. split; [apply Forall_seqZ; unfold in_ram; lia|].
    intros x. rewrite !elem_of_seqZ. lia. }
  exists s', m'. split; [done|]. split; [done|]. intros x Hx. rewrite Hm' by done.
  fold c. fold k. rewrite Es, Ed. apply copy_spec_block. unfold len. nia.
Qed.
End copy.

(** ** Concrete transfers *)

#[export] Instance flat_window : RamWindow flat_ram.
Proof.
  refine {| ram_lo := 0; ram_hi := 2 ^ 32; ram_byte := fun m => m |}; done.
Defined.

Section decide.
Context {B : Type} `{RamWindow B}.
#[export] Instance in_ram_dec x : Decision (in_ram x).
Proof. unfold in_ram. apply _. Defined.
Lemma in_memory_decide c k :
  bool_decide (Forall in_ram (src_bytes c k)) && bool_decide (Forall in_ram (dst_bytes c k)) &&
  bool_decide (Forall (fun x => x ∉ dst_bytes c k) (src_bytes c k)) = true -> in_memory c k.
Proof.
  rewrite !andb_true_iff, !bool_decide_eq_true. intros [[Hs Hd] Hx].
  split; [done|]. split; [done|]. by rewrite Forall_forall in Hx.
Qed.
End decide.

(** A counting pattern as initial memory. *)
Definition flat_pattern : flat_ram := fun x => x mod 251.

(** Byte reads, word writes: the two sizes differ. *)
Definition mixed_tcd : MCXNEDMAChan :=
  (word_tcd 7 0x101 0x200 8 2 TCD_CSR_DREQ) <| tcd_attr := 0x0002 |> <| tcd_soff := 1 |>.

Lemma edma_minor_loop_copies_witness :
  let s := program_channel edma0 2 mixed_tcd in
  exists m', edma_minor_loop EDMA_FUEL (s, flat_pattern) 2 = Some (false, (edma_after s 2, m')) /\
    ram_is m' (copy_spec flat_pattern (seqZ 0x101 8) (seqZ 0x200 8)).
Proof.
  intros s. replace (seqZ 0x101 8) with (src_bytes ((ch s).[2]) 1) by (vm_compute; reflexivity).
  replace (seqZ 0x200 8) with (dst_bytes ((ch s).[2]) 1) by (vm_compute; reflexivity).
  destruct (edma_minor_loop_copies s flat_pattern 2) as (m' & E & Hm').
  - apply program_channel_ok; [apply edma_reset_ok | lia | reflexivity].
  - lia.
  - apply tcd_refused_valid. reflexivity.
  - done.
  - apply in_memory_decide. vm_compute. reflexivity.
  - exists m'. split; [exact E | exact Hm'].
Defined.

(** Channel 2 armed on source 7, which asks for service. *)
Definition armed (c : MCXNEDMAChan) : MCXNEDMAState :=
  mcxn_edma_req (program_channel edma0 2 c) 7 true.

Lemma armed_waiting c :
  intr c = 0 -> edma_requested (armed c) 2 = true -> mux c .& CH_MUX_SRC_MASK = 7 ->
  tcd_refused c = 0 -> plain c -> flag (tcd_csr c) TCD_CSR_DREQ = true -> waiting (armed c) 2.
Proof.
  intros Hi Hr Hm Hv Hp Hd. assert (Hok : edma_ok false (armed c)).
  { apply edma_ok_req, program_channel_ok; [apply edma_reset_ok | lia | rewrite Hi; reflexivity]. }
  assert (Hc : (ch (armed c)).[2] = c) by done.
  assert (Hoth : forall j, 0 <= j < 16 -> j <> 2 -> edma_requested (armed c) j = false).
  { apply (seqZ_cases (fun j => j <> 2 -> _) 0 16). cbn [seqZ].
    repeat constructor; intros Hj; first [by exfalso; apply Hj | reflexivity]. }
  split; rewrite ?Hc; [exact (ok_wf _ _ Hok) | | by rewrite Hm | by apply tcd_refused_valid | done | done].
  intros j Hj. destruct (Z.eqb_spec j 2) as [->|]; [done | by apply Hoth].
Qed.

(** Two sources of different strides: a ring of 16 bytes read in words. *)
Definition ring_tcd : MCXNEDMAChan :=
  (word_tcd 7 0x108 0x200 8 3 (TCD_CSR_DREQ .| TCD_CSR_INTMAJOR)) <| tcd_attr := 0x2202 |>.

Lemma edma_request_major_loop_witness :
  exists s' m', mcxn_edma_service_bh (armed ring_tcd, flat_pattern) = Some (s', m') /\ completed ring_tcd s' 2 /\
    ram_is m' (copy_spec flat_pattern (seqZ 0x108 8 ++ seqZ 0x100 8 ++ seqZ 0x108 8) (seqZ 0x200 24)).
Proof.
  replace (seqZ 0x108 8 ++ seqZ 0x100 8 ++ seqZ 0x108 8)
    with (src_bytes ((ch (armed ring_tcd)).[2]) 3) by (vm_compute; reflexivity).
  replace (seqZ 0x200 24) with (dst_bytes ((ch (armed ring_tcd)).[2]) 3) by (vm_compute; reflexivity).
  destruct (edma_request_major_loop (armed ring_tcd) flat_pattern 2) as (s' & m' & E & Hc & Hm').
  - apply armed_waiting; reflexivity || done.
  - lia.
  - apply in_memory_decide. vm_compute. reflexivity.
  - exists s', m'. split; [exact E|]. split; [exact Hc | exact Hm'].
Defined.

Lemma edma_request_memcpy_witness :
  let c := word_tcd 7 0x100 0x200 8 3 (TCD_CSR_DREQ .| TCD_CSR_INTMAJOR) in
  exists s' m', mcxn_edma_service_bh (armed c, flat_pattern) = Some (s', m') /\ completed c s' 2 /\
    forall x, 0 <= x < 2 ^ 32 ->
      ram_byte m' x = if (0x200 <=? x) && (x <? 0x200 + 24) then flat_pattern (0x100 + (x - 0x200)) else flat_pattern x.
Proof.
  intros c. destruct (edma_request_memcpy (armed c) flat_pattern 2) as (s' & m' & E & Hc & Hm').
  - apply armed_waiting; reflexivity || done.
  - lia.
  - split; try reflexivity; split; reflexivity || (vm_compute; congruence).
  - split; vm_compute; congruence.
  - split; vm_compute; congruence.
  - left. vm_compute. congruence.
  - exists s', m'. split; [exact E|]. split; [exact Hc | exact Hm'].
Defined.

(** ** Circular buffers *)

Lemma edma_block_range a r mod_ :
  0 < mod_ < 32 -> 0 <= a < 2 ^ 32 -> 0 <= r < 2 ^ mod_ -> 0 <= 2 ^ mod_ * (a / 2 ^ mod_) + r < 2 ^ 32.
Proof.
  intros Hm Ha Hr. assert (E : 2 ^ 32 = 2 ^ mod_ * 2 ^ (32 - mod_)) by (rewrite <- Z.pow_add_r by lia; f_equal; lia).
  assert (0 <= a / 2 ^ mod_) by (apply Z.div_pos; lia).
  assert (a / 2 ^ mod_ < 2 ^ (32 - mod_)) by (apply Z.div_lt_upper_bound; lia). nia.
Qed.

Lemma edma_advance_ring a off mod_ :
  0 < mod_ < 32 -> 0 <= a < 2 ^ 32 ->
  edma_advance a off mod_ = 2 ^ mod_ * (a / 2 ^ mod_) + (a + off) mod 2 ^ mod_.
Proof.
  intros Hm Ha. unfold edma_advance. rewrite (proj2 (Z.eqb_neq _ _)) by lia. cbn zeta.
  assert (Hmask : u32 (bit mod_ - 1) = Z.ones mod_).
  { unfold bit. rewrite Z.shiftl_1_l, Z.ones_equiv, <- Z.sub_1_r. apply wrap_id.
    assert (0 < 2 ^ mod_) by (apply Z.pow_pos_nonneg; lia).
    assert (2 ^ mod_ < 2 ^ 32) by (apply Z.pow_lt_mono_r; lia). lia. }
  rewrite Hmask.
  replace (2 ^ mod_ * (a / 2 ^ mod_)) with (a .& u32 (.~ Z.ones mod_)).
  2:{ rewrite Z.mul_comm, <- Z.shiftr_div_pow2, <- Z.shiftl_mul_pow2 by lia.
      apply Z.bits_inj'. intros i Hi. autorewrite with bits. destruct (Z.ltb_spec i mod_).
      - by rewrite (Z.testbit_neg_r _ (i - mod_)), !andb_false_r by lia.
      - rewrite Z.shiftr_spec by lia. replace (i - mod_ + mod_) with i by lia.
        destruct (Z.ltb_spec i 32); [btauto|]. by rewrite (testbit_range 32 a) by lia. }
  replace ((a + off) mod 2 ^ mod_) with (u32 (a + off) .& Z.ones mod_) by (fold (wrap mod_ (a + off)); bitwise).
  assert (Hd : (a .& u32 (.~ Z.ones mod_)) .& (u32 (a + off) .& Z.ones mod_) = 0) by bitwise.
  rewrite (Z.add_nocarry_lxor _ _ Hd). symmetry. by apply Z.lxor_lor.
Qed.

(** A ring stays a ring.  With modulo MOD = k the address after [i]
    accesses is in the same 2^k-aligned block as the first one, at the offset
    that [i] steps modulo 2^k give. *)
Theorem edma_ring_address i a off mod_ :
  0 < mod_ < 32 -> 0 <= a < 2 ^ 32 ->
  adv i a off mod_ = 2 ^ mod_ * (a / 2 ^ mod_) + (a + Z.of_nat i * off) mod 2 ^ mod_.
Proof.
  intros Hm. revert a. induction i as [|i IH]; intros a Ha.
  { cbn [adv]. replace (a + Z.of_nat 0 * off) with a by lia. apply Z.div_mod. by apply Z.pow_nonzero; lia. }
  assert (Hpos : 0 < 2 ^ mod_) by (apply Z.pow_pos_nonneg; lia).
  assert (Hadv : edma_advance a off mod_ = 2 ^ mod_ * (a / 2 ^ mod_) + (a + off) mod 2 ^ mod_).
  { by apply edma_advance_ring. }
  pose proof (Z.mod_pos_bound (a + off) (2 ^ mod_) Hpos).
  assert (Hdiv : edma_advance a off mod_ / 2 ^ mod_ = a / 2 ^ mod_).
  { rewrite Hadv, Z.mul_comm, Z.div_add_l by lia. rewrite (Z.div_small (_ mod _)) by lia. lia. }
  cbn [adv]. rewrite IH.
  - rewrite Hdiv, Hadv. f_equal. rewrite <- Z.add_assoc, Z.mul_comm, Z.add_comm, Z.mod_add by lia.
    rewrite Z.add_mod_idemp_l by lia. f_equal. lia.
  - rewrite Hadv. apply edma_block_range; lia.
Qed.

Lemma edma_ring_address_witness : adv 5 0x108 4 4 = 0x100 + (0x108 + 5 * 4) mod 16.
Proof. rewrite (edma_ring_address 5 0x108 4 4); [reflexivity | lia | lia]. Defined.
