(* ===== verification/EdmaStream.v ===== *)
(** * eDMA: one word per request

    The service that the engine of [hw/dma/mcxn_edma.c] gives to a peripheral
    whose request falls when a word is moved: a channel that moves a 32-bit word
    per minor loop answers each request with one word, and the bottom half ends
    with the request answered and every other channel untouched. *)
From S2P Require Import Prelude Edma EdmaControl EdmaCopy.

(** A descriptor that moves one aligned 32-bit word per minor loop; each side
    advances by a word or stays. *)
Record word_stream (soff doff : Z) (c : MCXNEDMAChan) : Prop := {
  ws_attr : tcd_attr c = 0x0202;
  ws_nb : tcd_nb c = 4;
  ws_soff : tcd_soff c = soff /\ (soff = 0 \/ soff = 4);
  ws_doff : tcd_doff c = doff /\ (doff = 0 \/ doff = 4);
  ws_saddr : tcd_saddr c mod 4 = 0;
  ws_daddr : tcd_daddr c mod 4 = 0;
  ws_elink : tcd_elink c = false;
}.

(** The channel after one word. *)
Definition word_next (soff doff : Z) (c : MCXNEDMAChan) : MCXNEDMAChan :=
  c <| tcd_saddr := tcd_saddr c + soff |> <| tcd_daddr := tcd_daddr c + doff |> <| tcd_citer := tcd_count c - 1 |>.

Lemma citer_next c q : tcd_elink c = false -> 0 <= q < 2 ^ 15 ->
  tcd_count (c <| tcd_citer := q |>) = q /\ tcd_elink (c <| tcd_citer := q |>) = false.
Proof.
  intros He Hq. assert (Hel : flag q CITER_ELINK = false).
  { unfold CITER_ELINK. rewrite flag_bit by lia. apply (testbit_range 15); lia. }
  split; [|exact Hel]. unfold tcd_count, tcd_cmask, tcd_elink. cbn -[flag].
  rewrite Hel. change CITER_MASK with (Z.ones 15). rewrite Z.land_ones by lia. apply Z.mod_small. lia.
Qed.

Lemma word_next_stream soff doff c : word_stream soff doff c -> 1 < tcd_count c ->
  word_stream soff doff (word_next soff doff c) /\ tcd_count (word_next soff doff c) = tcd_count c - 1.
Proof.
  intros Hw Hc. pose proof (tcd_count_range c (ws_elink _ _ c Hw)).
  destruct (citer_next (c <| tcd_saddr := tcd_saddr c + soff |> <| tcd_daddr := tcd_daddr c + doff |>) (tcd_count c - 1)) as [Hn He];
    [apply Hw | lia|].
  split; [|exact Hn]. destruct Hw as [? ? [? ?] [? ?] ? ? ?]. split; try done;
    [change (tcd_saddr (word_next soff doff c)) with (tcd_saddr c + soff) | change (tcd_daddr (word_next soff doff c)) with (tcd_daddr c + doff)];
    dlia.
Qed.

Lemma edma_lines_ch evs s : ch (edma_lines s evs) = ch s.
Proof.
  revert s. induction evs as [|e evs IH]; intros s; [done|]. cbn [edma_lines foldl]. change (foldl edma_line) with edma_lines.
  rewrite IH. destruct e; cbn; unfold mcxn_edma_req, mcxn_edma_req_enable, mcxn_edma_req_pulse; by repeat case_match.
Qed.

Lemma edma_drop_pulses_none s : (forall src, 0 <= src < 128 -> (req_edge s).[src] = false) -> edma_drop_pulses s = s.
Proof.
  intros He. unfold edma_drop_pulses. assert (Hall : Forall (fun x => 0 <= x < 128) (seqZ 0 MCXN_EDMA_REQ_SOURCES)) by (apply Forall_seqZ; done).
  induction Hall as [|x xs Hx _ IH]; [done|]. cbn [foldl]. by rewrite (He x Hx).
Qed.

(** Channel [n] moves a word on each request of source [req], and no other
    channel is asked for service. *)
Record serving (req soff doff n : Z) (s : MCXNEDMAState) : Prop := {
  sv_wf : edma_wf s;
  sv_n : 0 <= n < 16;
  sv_req : 0 < req < 128;
  sv_edges : forall src, 0 <= src < 128 -> (req_edge s).[src] = false;
  sv_word : word_stream soff doff (ch s).[n];
  sv_mux : mux (ch s).[n] .& CH_MUX_SRC_MASK = req;
  sv_erq : flag (csr (ch s).[n]) CH_CSR_ERQ = true;
  sv_enabled : (req_enabled s).[req] = true;
  sv_others : forall j, 0 <= j < 16 -> j <> n ->
    mux (ch s).[j] .& CH_MUX_SRC_MASK <> req /\ edma_requested s j = false;
}.

Section serving.
Context (req soff doff n : Z).
Local Abbreviation serving' := (serving req soff doff n).

Lemma serving_requested s : serving' s -> edma_requested s n = (req_level s).[req].
Proof.
  intros []. unfold edma_requested. rewrite sv_erq0, sv_mux0, sv_enabled0, (proj2 (Z.eqb_neq req 0)) by lia. cbn -[arr_get]. btauto.
Qed.

Lemma edma_req_set s b : 0 < req < 128 ->
  mcxn_edma_req s req b = s <| req_level := (req_level s).[req <- b] |> <| bh := b || bh s |>.
Proof.
  intros Hr. unfold mcxn_edma_req, MCXN_EDMA_REQ_SOURCES. rewrite (proj2 (Z.ltb_ge req 0)), (proj2 (Z.leb_gt 128 req)) by lia.
  by destruct b, s.
Qed.

Lemma serving_level s b b' : serving' s -> serving' (s <| req_level := (req_level s).[req <- b] |> <| bh := b' |>).
Proof.
  intros []. split; try done.
  - destruct sv_wf0. split; try done. cbn. by autorewrite with arrays.
  - intros j Hj Hne. destruct (sv_others0 j Hj Hne) as [Hm Hr]. split; [done|]. revert Hr. unfold edma_requested.
    cbn -[arr_get arr_set flag Z.land]. rewrite arr_get_set by (destruct sv_wf0; try apply mux_src_range; lia).
    by rewrite (proj2 (Z.eqb_neq _ _) Hm).
Qed.

Lemma serving_bh s b : serving' s -> serving' (s <| bh := b |>).
Proof. intros []. split; try done. by destruct sv_wf0. Qed.

Lemma serving_chan s f : serving' s ->
  (let c := f (ch s).[n] in word_stream soff doff c /\ mux c = mux (ch s).[n] /\ flag (csr c) CH_CSR_ERQ = true) ->
  serving' (upd_ch s n f).
Proof.
  intros [] (Hw & Hm & He). split; rewrite ?ch_upd_eq by done; try done.
  - by apply edma_wf_upd.
  - by rewrite Hm.
  - intros j Hj Hne. destruct (sv_others0 j Hj Hne). unfold edma_requested in *. by rewrite ch_upd_ne by lia.
Qed.

Lemma serving_clear_done s : serving' s ->
  serving' (clear_done s n) /\ (ch (clear_done s n)).[n] = (ch s).[n] <| csr := csr (ch s).[n] .& u32 (.~ CH_CSR_DONE) |>.
Proof.
  intros Hf. pose proof Hf as []. split; [|unfold clear_done; by rewrite ch_upd_eq]. apply serving_chan; [done|]. cbv zeta.
  split; [by destruct sv_word0|]. split; [done|]. revert sv_erq0. cbn [csr modify].
  unfold CH_CSR_ERQ, CH_CSR_DONE. rewrite !flag_bit by lia. intros E. autorewrite with bits. rewrite E. reflexivity.
Qed.
End serving.

Section word.
Context {B : Type} `{AddressSpace B} (soff doff : Z).

Lemma word_sizes c : word_stream soff doff c ->
  tcd_ssize c = 4 /\ tcd_dsize c = 4 /\ ATTR_SMOD (tcd_attr c) = 0 /\ ATTR_DMOD (tcd_attr c) = 0 /\
  swrap 16 (tcd_soff c) = soff /\ swrap 16 (tcd_doff c) = doff.
Proof.
  intros [Ha _ [Hs Hs'] [Hd Hd'] _ _ _]. unfold tcd_ssize, tcd_dsize. rewrite Ha, Hs, Hd.
  destruct Hs' as [-> | ->], Hd' as [-> | ->]; by vm_compute.
Qed.

Lemma word_stream_refused c : word_stream soff doff c -> 1 < tcd_count c -> tcd_refused c = 0.
Proof.
  intros Hw Hc. destruct (word_sizes c Hw) as (Hs & Hd & _ & _ & Hso & Hdo). destruct Hw as [? Hnb [_ Hs'] [_ Hd'] ? ? ?].
  apply tcd_refused_valid. split; rewrite ?Hs, ?Hd, ?Hso, ?Hdo, ?Hnb; try lia; try (by apply Z.mod_divide; [lia | done]); try done;
    apply Z.mod_divide; try lia; [destruct Hs' as [-> | ->] | destruct Hd' as [-> | ->]]; done.
Qed.

Lemma word_copy c (st : MCXNEDMAState * B) : word_stream soff doff c ->
  edma_copy c st =
    let '(_, bs, st) := bus_read st (tcd_saddr c) 4 in
    (bus_write st (tcd_daddr c) (slice 0 4 bs), u32 (tcd_saddr c + soff), u32 (tcd_daddr c + doff)).
Proof.
  intros Hw. destruct (word_sizes c Hw) as (Hs & Hd & Hsm & Hdm & Hso & Hdo). unfold edma_copy. rewrite Hs, Hd, (ws_nb _ _ c Hw).
  change (Z.to_nat ((4 + Z.max 4 4 - 1) / Z.max 4 4)) with 1%nat. cbn [edma_chunks]. rewrite Hs, Hd, Hsm, Hdm, Hso, Hdo.
  change (Z.to_nat (Z.max 4 4 / 4)) with 1%nat. cbn [edma_fill edma_drain]. unfold edma_advance. cbn [Z.eqb].
  by destruct (bus_read st (tcd_saddr c) 4) as [[ok bs] st'].
Qed.

(** A minor loop whose read returns [bs] and whose accesses change the lines by
    [evs]. *)
Lemma word_minor_loop s (m m1 m2 : B) n ok bs evs1 evs2 : edma_wf s -> 0 <= n < 16 ->
  let c := (ch s).[n] in
  word_stream soff doff c -> 1 < tcd_count c ->
  0 <= tcd_saddr c /\ tcd_saddr c + soff < 2 ^ 32 -> 0 <= tcd_daddr c /\ tcd_daddr c + doff < 2 ^ 32 ->
  as_read m (tcd_saddr c) 4 = (ok, bs, m1, evs1) -> zlen bs = 4 -> as_write m1 (tcd_daddr c) bs = (m2, evs2) ->
  edma_minor_loop EDMA_FUEL (s, m) n =
    Some (false, (upd_ch (edma_lines s (evs1 ++ evs2)) n (fun _ => word_next soff doff c), m2)).
Proof.
  intros Hwf Hn c Hw Hc Hsa Hda Hread Hlen Hwrite.
  change (edma_minor_loop EDMA_FUEL) with (edma_minor_body (B := B) (edma_minor_loop 1)).
  rewrite edma_minor_body_refused. fold c. rewrite word_stream_refused by done. cbn [Z.eqb]. unfold edma_transfer. fold c.
  rewrite word_copy by done. unfold bus_read. rewrite Hread. cbv beta iota. unfold slice. rewrite drop_0, take_ge by lia.
  unfold bus_write. rewrite Hwrite. cbv beta iota.
  pose proof (tcd_count_range c (ws_elink _ _ c Hw)) as Hr. rewrite (wrap_id 32 (tcd_count c - 1)) by lia.
  rewrite (proj2 (Z.eqb_neq (tcd_count c - 1) 0)) by lia. cbn [negb]. rewrite (ws_elink _ _ c Hw).
  assert (E : edma_lines s (evs1 ++ evs2) = edma_lines (edma_lines s evs1) evs2) by apply foldl_app. rewrite E.
  set (s2 := edma_lines (edma_lines s evs1) evs2). assert (Hch : (ch s2).[n] = c) by (unfold s2; by rewrite !edma_lines_ch).
  destruct Hw as [_ _ [_ Hs'] [_ Hd'] _ _ He]. pose proof (citer_store c He ltac:(lia)) as Hst. rewrite (wrap_id 32 (tcd_count c - 1)) in Hst by lia.
  unfold upd_ch. rewrite Hch, Hst, (wrap_id 32 (tcd_saddr c + soff)), (wrap_id 32 (tcd_daddr c + doff)) by lia. done.
Qed.

(** The bottom half answers the request with one word: the accesses make the
    request fall, and nothing else is asked for. *)
Lemma stream_service req n s (m m1 m2 : B) ok bs evs1 evs2 : serving req soff doff n s ->
  (req_level s).[req] = true -> bh s = false ->
  let c := (ch s).[n] in
  1 < tcd_count c ->
  0 <= tcd_saddr c /\ tcd_saddr c + soff < 2 ^ 32 -> 0 <= tcd_daddr c /\ tcd_daddr c + doff < 2 ^ 32 ->
  as_read m (tcd_saddr c) 4 = (ok, bs, m1, evs1) -> zlen bs = 4 -> as_write m1 (tcd_daddr c) bs = (m2, evs2) ->
  evs1 ++ evs2 = [EvReq req false] ->
  exists s', mcxn_edma_service_bh (s, m) = Some (s', m2) /\ serving req soff doff n s' /\
    (req_level s').[req] = false /\ bh s' = false /\ tcd_count (ch s').[n] = tcd_count c - 1 /\
    tcd_saddr (ch s').[n] = tcd_saddr c + soff /\ tcd_daddr (ch s').[n] = tcd_daddr c + doff.
Proof.
  intros Hf Hlev Hbh c Hc Hsa Hda Hread Hlen Hwrite Hevs. destruct (serving_clear_done req soff doff n s Hf) as [Hf1 Hc1].
  set (s1 := clear_done s n) in *. fold c in Hc1. pose proof (sv_n _ _ _ _ _ Hf) as Hn. pose proof (sv_req _ _ _ _ _ Hf) as Hreq.
  pose proof (word_minor_loop s1 m m1 m2 n ok bs evs1 evs2 (sv_wf _ _ _ _ _ Hf1) Hn) as E. cbv zeta in E. rewrite Hc1, Hevs in E.
  specialize (E ltac:(rewrite <- Hc1; apply Hf1) Hc Hsa Hda Hread Hlen Hwrite).
  cbn [edma_lines foldl edma_line] in E. rewrite edma_req_set in E by done. cbn [orb] in E.
  set (c2 := word_next _ _ _) in E. destruct (word_next_stream soff doff (c <| csr := csr c .& u32 (.~ CH_CSR_DONE) |>)) as [Hw2 Hn2];
    [by rewrite <- Hc1; apply Hf1 | done|]. fold c2 in Hw2, Hn2.
  set (s2 := upd_ch _ _ _) in E.
  assert (Hf2 : serving req soff doff n s2).
  { apply serving_chan; [by apply serving_level|]. cbn [ch modify]. rewrite Hc1. pose proof (sv_erq _ _ _ _ _ Hf1) as He.
    rewrite Hc1 in He. by split_and!. }
  assert (Hlev2 : (req_level s2).[req] = false) by (apply (arr_get_set_eq (req_level s1)); destruct (sv_wf _ _ _ _ _ Hf1); lia).
  assert (Hch2 : (ch s2).[n] = c2) by (apply (arr_get_set_eq (ch s1)); destruct (sv_wf _ _ _ _ _ Hf1); lia).
  exists s2. split; [|rewrite Hch2; by split_and!]. pose proof (sv_edges _ _ _ _ _ Hf2) as Hedge.
  assert (Hp : edma_service_pass (s, m) = Some (true, (s2, m2))).
  { pose proof (edma_service_pass_only s m n false s2 m2 Hn) as Hp. cbv zeta in Hp.
    rewrite (sv_mux _ _ _ _ _ Hf), Hedge in Hp by lia.
    apply Hp; [by rewrite (serving_requested req soff doff n s) | | done |]; intros; by apply Hf || by apply Hf2. }
  destruct (max_loops_S 2) as [k Hk]; [lia|]. unfold mcxn_edma_service_bh. rewrite Hk.
  cbn [Nat.add]. rewrite edma_service_loop_S, Hp, bind_Some. cbn [fst snd]. rewrite edma_service_loop_idle, bind_Some.
  - by rewrite edma_drop_pulses_none.
  - intros j Hj. destruct (decide (j = n)) as [->|]; [by rewrite (serving_requested req soff doff n s2) | by apply Hf2].
Qed.

(** A request arrives, and the bottom half that it schedules runs. *)
Lemma stream_request req n s (m m1 m2 : B) ok bs evs1 evs2 : serving req soff doff n s ->
  let c := (ch s).[n] in
  1 < tcd_count c ->
  0 <= tcd_saddr c /\ tcd_saddr c + soff < 2 ^ 32 -> 0 <= tcd_daddr c /\ tcd_daddr c + doff < 2 ^ 32 ->
  as_read m (tcd_saddr c) 4 = (ok, bs, m1, evs1) -> zlen bs = 4 -> as_write m1 (tcd_daddr c) bs = (m2, evs2) ->
  evs1 ++ evs2 = [EvReq req false] ->
  let s1 := edma_lines s [EvReq req true] in
  bh s1 = true /\
  exists s', mcxn_edma_service_bh (s1 <| bh := false |>, m) = Some (s', m2) /\ serving req soff doff n s' /\
    (req_level s').[req] = false /\ bh s' = false /\ tcd_count (ch s').[n] = tcd_count c - 1 /\
    tcd_saddr (ch s').[n] = tcd_saddr c + soff /\ tcd_daddr (ch s').[n] = tcd_daddr c + doff.
Proof.
  intros Hf c Hc Hsa Hda Hread Hlen Hwrite Hevs s1. pose proof (sv_req _ _ _ _ _ Hf) as Hreq.
  assert (E : s1 = s <| req_level := (req_level s).[req <- true] |> <| bh := true |>) by (apply edma_req_set; done).
  rewrite E. split; [done|].
  destruct (stream_service req n (s <| req_level := (req_level s).[req <- true] |> <| bh := true |> <| bh := false |>) m m1 m2 ok bs evs1 evs2)
    as (s' & Hs'); try done; [by apply (serving_level req soff doff n s true false)| | by exists s'].
  apply (arr_get_set_eq (req_level s)). destruct (sv_wf _ _ _ _ _ Hf). lia.
Qed.
End word.

(** ** An engine fresh from reset with one channel programmed *)

Lemma edma0_lines src : 0 <= src < 128 ->
  (req_edge edma0).[src] = false /\ (req_level edma0).[src] = false /\ (req_enabled edma0).[src] = true.
Proof.
  intros Hs. assert (Hall : forallb (fun x => negb (req_edge edma0).[x] && negb (req_level edma0).[x] && (req_enabled edma0).[x]) (seqZ 0 128) = true)
    by (vm_compute; reflexivity).
  rewrite forallb_forall in Hall. specialize (Hall src). rewrite <- list_elem_of_In, elem_of_seqZ in Hall.
  specialize (Hall ltac:(lia)). by destruct (req_edge edma0).[src], (req_level edma0).[src], (req_enabled edma0).[src].
Qed.

Lemma edma0_chans j : 0 <= j < 16 -> mux (ch edma0).[j] = 0 /\ flag (csr (ch edma0).[j]) CH_CSR_ERQ = false.
Proof.
  intros Hj. assert (Hall : forallb (fun x => (mux (ch edma0).[x] =? 0) && negb (flag (csr (ch edma0).[x]) CH_CSR_ERQ)) (seqZ 0 16) = true)
    by (vm_compute; reflexivity).
  rewrite forallb_forall in Hall. specialize (Hall j). rewrite <- list_elem_of_In, elem_of_seqZ in Hall.
  specialize (Hall ltac:(lia)). apply andb_true_iff in Hall as [H1%Z.eqb_eq H2%negb_true_iff]. done.
Qed.

Lemma programmed_serving req soff doff n c : 0 < req < 128 -> 0 <= n < 16 -> word_stream soff doff c ->
  mux c .& CH_MUX_SRC_MASK = req -> flag (csr c) CH_CSR_ERQ = true ->
  let s := program_channel edma0 n c in
  serving req soff doff n s /\ (ch s).[n] = c /\ (req_level s).[req] = false /\ bh s = false.
Proof.
  intros Hr Hn Hw Hm He s. pose proof (edma_reset_ok 0) as [Hwf _ _]. fold edma0 in Hwf.
  assert (Hc : (ch s).[n] = c) by (apply (arr_get_set_eq (ch edma0)); destruct Hwf; lia).
  split; [|split; [done|]; split; [by apply edma0_lines; lia | by vm_compute]].
  split; rewrite ?Hc; try done.
  - destruct Hwf. split; try done. unfold s, program_channel. cbn -[edma0]. by autorewrite with arrays.
  - intros src Hs. by apply edma0_lines.
  - apply edma0_lines. lia.
  - intros j Hj Hne. assert (Hcj : (ch s).[j] = (ch edma0).[j]) by (apply (arr_get_set_ne (ch edma0)); lia).
    unfold edma_requested. rewrite Hcj. destruct (edma0_chans j Hj) as [-> ->]. rewrite Z.land_0_l. split; [lia | done].
Qed.
