(* ===== verification/Crc.v ===== *)
(** * CRC: the cyclic redundancy check engine

    Model of [hw/misc/mcxn_crc.c]: the transposition unit, the two bit-serial
    update routines, the data register with its access sizes, and reset.  The
    specification is polynomial division over GF(2): a polynomial is the
    integer of its coefficients, addition is exclusive or, multiplication by x
    is a left shift. *)
From S2P Require Import Prelude.

Definition CRC_DATA : Z := 0x0.
Definition CRC_GPOLY : Z := 0x4.
Definition CRC_CTRL : Z := 0x8.
Definition CRC_CTRL_TCRC : Z := bit 24.
Definition CRC_CTRL_WAS : Z := bit 25.
Definition CRC_CTRL_FXOR : Z := bit 26.
Definition CRC_CTRL_TOTR : Z := 3 .<< 28.
Definition CRC_CTRL_TOT : Z := 3 .<< 30.
Definition CRC_CTRL_TOTR_SHIFT : Z := 28.
Definition CRC_CTRL_TOT_SHIFT : Z := 30.
Definition CRC_GPOLY_RESET : Z := 0x00001021.

Record MCXNCRCState := mkCrc { data : Z; gpoly : Z; ctrl : Z }.
#[export] Instance crc_settable : Settable MCXNCRCState := fun s => mkCrc (data s) (gpoly s) (ctrl s).

(** ** Transposition *)

Definition revbit8 (x : Z) : Z :=
  let x := u8 (((x .& 0xf0) .>> 4) .| ((x .& 0x0f) .<< 4)) in
  u8 (((x .& 0x88) .>> 3) .| ((x .& 0x44) .>> 1) .| ((x .& 0x22) .<< 1) .| ((x .& 0x11) .<< 3)).

Definition bswap32 (v : Z) : Z :=
  ((v .& 0xff) .<< 24) .| (((v .>> 8) .& 0xff) .<< 16) .|
  (((v .>> 16) .& 0xff) .<< 8) .| ((v .>> 24) .& 0xff).

Definition transpose_bits_in_bytes (v : Z) : Z :=
  foldl (fun r b =>
    let byte := (v .>> (b * 8)) .& 0xff in
    let byte := revbit8 byte in
    r .| u32 (byte .<< (b * 8))) 0 (seqZ 0 4).

Definition crc_transpose (v type : Z) : Z :=
  match type with
  | 0 => v
  | 1 => transpose_bits_in_bytes v
  | 2 => bswap32 (transpose_bits_in_bytes v)
  | 3 => bswap32 v
  | _ => v
  end.

(** ** The engine *)

Definition crc32_step (poly crc : Z) : Z :=
  if flag crc 0x80000000 then u32 (crc .<< 1) .^ poly else u32 (crc .<< 1).
Definition crc32_update_byte (crc byte poly : Z) : Z :=
  Nat.iter 8 (crc32_step poly) (crc .^ u32 (byte .<< 24)).

Definition crc16_step (poly crc : Z) : Z :=
  if flag crc 0x8000 then (u32 (crc .<< 1) .^ poly) .& 0xffff else u32 (crc .<< 1) .& 0xffff.
Definition crc16_update_byte (crc byte poly : Z) : Z :=
  Nat.iter 8 (crc16_step poly) (crc .^ u32 (byte .<< 8)) .& 0xffff.

Definition is32 (s : MCXNCRCState) : bool := flag (ctrl s) CRC_CTRL_TCRC.
Definition tot (s : MCXNCRCState) : Z := (ctrl s .& CRC_CTRL_TOT) .>> CRC_CTRL_TOT_SHIFT.
Definition totr (s : MCXNCRCState) : Z := (ctrl s .& CRC_CTRL_TOTR) .>> CRC_CTRL_TOTR_SHIFT.

Definition crc_update (s : MCXNCRCState) (byte : Z) : MCXNCRCState :=
  if is32 s then s <| data := crc32_update_byte (data s) byte (gpoly s) |>
  else s <| data := crc16_update_byte (data s) byte (gpoly s .& 0xffff) |>.

Definition crc_feed_data (s : MCXNCRCState) (value nbytes : Z) : MCXNCRCState :=
  let value := crc_transpose value (tot s) in
  foldl (fun s b => crc_update s ((value .>> ((nbytes - 1 - b) * 8)) .& 0xff)) s (seqZ 0 nbytes).

Definition crc_read_result (s : MCXNCRCState) : Z :=
  let v := if is32 s then data s else data s .& 0xffff in
  let v := crc_transpose v (totr s) in
  if flag (ctrl s) CRC_CTRL_FXOR then (if is32 s then u32 (.~ v) else u32 (.~ v) .& 0xffff) else v.

(** ** Registers *)

Definition mcxn_crc_read (s : MCXNCRCState) (offset : Z) : Z :=
  if offset =? CRC_DATA then crc_read_result s
  else if offset =? CRC_GPOLY then gpoly s
  else if offset =? CRC_CTRL then ctrl s
  else 0.

Definition mcxn_crc_write (s : MCXNCRCState) (offset value size : Z) : MCXNCRCState :=
  if offset =? CRC_DATA then
    if flag (ctrl s) CRC_CTRL_WAS then
      s <| data := if flag (ctrl s) CRC_CTRL_TCRC then u32 value else u32 value .& 0xffff |>
    else crc_feed_data s (u32 value) size
  else if offset =? CRC_GPOLY then s <| gpoly := u32 value |>
  else if offset =? CRC_CTRL then s <| ctrl := u32 value |>
  else s.

Definition mcxn_crc_reset : MCXNCRCState := mkCrc 0 CRC_GPOLY_RESET 0.

(** ** Polynomial division *)

(** The product of the polynomial with coefficients [q], highest degree first,
    with [g] (Horner's scheme). *)
Definition clmul (q : list bool) (g : Z) : Z :=
  foldl (fun acc b => (acc .<< 1) .^ (if b : bool then g else 0)) 0 q.

(** The message polynomial of a byte string, first byte highest. *)
Definition message (bs : list Z) : Z := foldl (fun acc b => (acc .<< 8) .^ b) 0 bs.

(** [crc] is the remainder of [seed * x^8n + message * x^w] modulo the
    generator [x^w + poly]. *)
Definition remainder_of (w poly seed : Z) (bs : list Z) (crc : Z) : Prop :=
  in_range w crc /\
  exists q, (seed .<< (8 * zlen bs)) .^ (message bs .<< w) = clmul q (bit w .^ poly) .^ crc.

Lemma clmul_snoc q b g : clmul (q ++ [b]) g = (clmul q g .<< 1) .^ (if b : bool then g else 0).
Proof. unfold clmul. by rewrite foldl_app. Qed.

Lemma clmul_app q1 q2 g : clmul (q1 ++ q2) g = (clmul q1 g .<< zlen q2) .^ clmul q2 g.
Proof.
  induction q2 as [|b q2 IH] using rev_ind; [rewrite app_nil_r; cbn; by rewrite Z.shiftl_0_r, Z.lxor_0_r|].
  rewrite app_assoc, !clmul_snoc, IH. rewrite Z.shiftl_lxor, Z.shiftl_shiftl, length_app by lia. cbn [length].
  replace (zlen q2 + 1) with (Z.of_nat (length q2 + 1)) by lia. by rewrite Z.lxor_assoc.
Qed.

(** One step of either width: shift, and subtract the generator if the top
    coefficient was set. *)
Definition gstep (w g crc : Z) : Z := (crc .<< 1) .^ (if Z.testbit crc (w - 1) then g else 0).

Lemma wrap_shl w crc :
  0 < w -> in_range w crc -> wrap w (crc .<< 1) = (crc .<< 1) .^ (if Z.testbit crc (w - 1) then bit w else 0).
Proof.
  intros Hw Hc. apply Z.bits_inj'. intros i Hi. rewrite testbit_wrap, Z.lxor_spec, Z.shiftl_spec by lia.
  destruct (Z.ltb_spec i w).
  - destruct (Z.testbit crc (w - 1)); autorewrite with bits; zcases; btauto.
  - destruct (Z.eqb_spec i w) as [->|].
    + destruct (Z.testbit crc (w - 1)) eqn:E; autorewrite with bits; rewrite ?E; zcases; done.
    + rewrite (testbit_range w crc (i - 1)) by (apply Hc || lia).
      destruct (Z.testbit crc (w - 1)); autorewrite with bits; zcases; done.
Qed.

Lemma gstep_range w poly crc :
  0 < w -> in_range w poly -> in_range w crc -> in_range w (gstep w (bit w .^ poly) crc).
Proof.
  intros Hw Hp Hc. unfold gstep.
  replace ((crc .<< 1) .^ _) with (wrap w (crc .<< 1) .^ (if Z.testbit crc (w - 1) then poly else 0)).
  - auto with ranges.
  - rewrite wrap_shl by done. destruct (Z.testbit crc (w - 1)); by rewrite ?Z.lxor_0_r, ?Z.lxor_assoc.
Qed.

Lemma crc32_step_gstep poly crc :
  in_range 32 crc -> crc32_step poly crc = gstep 32 (bit 32 .^ poly) crc.
Proof.
  intros Hc. unfold crc32_step, gstep. change 0x80000000 with (bit 31). rewrite flag_bit by lia.
  rewrite wrap_shl by (done || lia). change (32 - 1) with 31.
  destruct (Z.testbit crc 31); by rewrite ?Z.lxor_0_r, ?Z.lxor_assoc.
Qed.

Lemma crc16_step_gstep poly crc :
  in_range 16 poly -> in_range 16 crc -> crc16_step poly crc = gstep 16 (bit 16 .^ poly) crc.
Proof.
  intros Hp Hc. unfold crc16_step, gstep. change 0x8000 with (bit 15). rewrite flag_bit by lia.
  assert (Hm : forall x, in_range 16 x -> (u32 (crc .<< 1) .^ x) .& 0xffff = wrap 16 (crc .<< 1) .^ x).
  { intros x Hx. change 0xffff with (Z.ones 16). apply Z.bits_inj'. intros i Hi. autorewrite with bits.
    destruct (Z.ltb_spec i 16), (Z.ltb_spec i 32); try lia; try btauto.
    - rewrite (testbit_range 16 x i) by (apply Hx || lia). btauto.
    - rewrite (testbit_range 16 x i) by (apply Hx || lia). btauto. }
  change (16 - 1) with 15. destruct (Z.testbit crc 15) eqn:E.
  - rewrite Hm by done. rewrite wrap_shl by (done || lia). change (16 - 1) with 15. by rewrite E, Z.lxor_assoc.
  - rewrite <- (Z.lxor_0_r (u32 _)), Hm by (auto with ranges). rewrite wrap_shl by (done || lia).
    change (16 - 1) with 15. by rewrite E, !Z.lxor_0_r.
Qed.

Lemma gsteps w poly n crc :
  0 < w -> in_range w poly -> in_range w crc ->
  let r := Nat.iter n (gstep w (bit w .^ poly)) crc in
  in_range w r /\ exists q, length q = n /\ r = (crc .<< Z.of_nat n) .^ clmul q (bit w .^ poly).
Proof.
  intros Hw Hp Hc. cbn zeta. induction n as [|n [IHr (q & Hq & IHe)]].
  - split; [done|]. exists []. split; [done|]. cbn. by rewrite Z.shiftl_0_r, Z.lxor_0_r.
  - rewrite Nat.iter_succ. split; [by apply gstep_range|].
    set (r := Nat.iter n _ crc) in *. clearbody r. exists (q ++ [Z.testbit r (w - 1)]).
    split; [rewrite length_app; cbn; lia|]. rewrite clmul_app. unfold gstep at 1.
    replace (clmul [_] _) with (if Z.testbit r (w - 1) then bit w .^ poly else 0) by done.
    assert (E : r .<< 1 = (crc .<< Z.of_nat (S n)) .^ (clmul q (bit w .^ poly) .<< 1)).
    { rewrite IHe, Z.shiftl_lxor, Z.shiftl_shiftl by lia. do 2 f_equal. lia. }
    by rewrite E, Z.lxor_assoc.
Qed.

(** The remainder is determined: a multiple of the generator of degree below
    its own is zero. *)
Lemma clmul_xor_acc g q1 q2 a1 a2 :
  length q1 = length q2 ->
  let f := fun acc (b : bool) => (acc .<< 1) .^ (if b then g else 0) in
  foldl f a1 q1 .^ foldl f a2 q2 = foldl f (a1 .^ a2) (zip_with xorb q1 q2).
Proof.
  intros Hl f. revert q2 a1 a2 Hl. induction q1 as [|b1 q1 IH]; intros [|b2 q2] a1 a2 Hl; try done.
  cbn [foldl zip_with]. rewrite IH by (cbn in Hl; lia). f_equal. unfold f. rewrite Z.shiftl_lxor.
  destruct b1, b2; cbn [xorb]; bitwise.
Qed.

Lemma clmul_pad n q g : clmul (replicate n false ++ q) g = clmul q g.
Proof. unfold clmul. rewrite foldl_app. f_equal. by induction n. Qed.

(** The sum of two multiples is a multiple. *)
Lemma clmul_xor q1 q2 g : exists q, clmul q1 g .^ clmul q2 g = clmul q g.
Proof.
  exists (zip_with xorb (replicate (length q2) false ++ q1) (replicate (length q1) false ++ q2)).
  rewrite <- (clmul_pad (length q2) q1), <- (clmul_pad (length q1) q2). unfold clmul at 1 2.
  rewrite clmul_xor_acc by (rewrite !length_app, !length_replicate; lia). done.
Qed.

Lemma clmul_top w poly q a k :
  0 < w -> in_range w poly -> 0 <= k -> Z.testbit a (w + k) = true ->
  Z.testbit (foldl (fun acc (b : bool) => (acc .<< 1) .^ (if b then bit w .^ poly else 0)) a q)
    (w + k + zlen q) = true.
Proof.
  intros Hw Hp. revert a k. induction q as [|b q IH]; intros a k Hk Ha; cbn [foldl length].
  { by replace (w + k + Z.of_nat 0) with (w + k) by lia. }
  replace (w + k + Z.of_nat (S (length q))) with (w + (k + 1) + zlen q) by lia. apply IH; [lia|].
  rewrite Z.lxor_spec, Z.shiftl_spec by lia. replace (w + (k + 1) - 1) with (w + k) by lia.
  rewrite Ha. destruct b; [|by rewrite Z.testbit_0_l].
  rewrite Z.lxor_spec, testbit_bit, (testbit_range w poly) by (apply Hp || lia).
  rewrite (proj2 (Z.eqb_neq _ _)) by lia. done.
Qed.

Lemma clmul_small w poly q :
  0 < w -> in_range w poly -> in_range w (clmul q (bit w .^ poly)) -> clmul q (bit w .^ poly) = 0.
Proof.
  intros Hw Hp. induction q as [|[] q IH]; intros Hr; [done | | by apply IH].
  exfalso. assert (Ht : Z.testbit (clmul (true :: q) (bit w .^ poly)) (w + 0 + zlen q) = true).
  { unfold clmul. cbn [foldl]. apply clmul_top; [done | done | lia |].
    rewrite Z.add_0_r, Z.shiftl_0_l, Z.lxor_0_l, Z.lxor_spec, testbit_bit, Z.eqb_refl by lia.
    by rewrite (testbit_range w poly) by (apply Hp || lia). }
  rewrite (testbit_range w) in Ht by (apply Hr || lia). done.
Qed.

Lemma remainder_unique w poly seed bs c1 c2 :
  0 < w -> in_range w poly ->
  remainder_of w poly seed bs c1 -> remainder_of w poly seed bs c2 -> c1 = c2.
Proof.
  intros Hw Hp [Hr1 [q1 E1]] [Hr2 [q2 E2]]. destruct (clmul_xor q1 q2 (bit w .^ poly)) as [q Hq].
  assert (E : clmul q (bit w .^ poly) = c1 .^ c2).
  { rewrite <- Hq. apply Z.lxor_eq. rewrite E1 in E2. apply Z.lxor_eq_0_iff in E2.
    rewrite <- E2. bitwise. }
  apply Z.lxor_eq. rewrite <- E. apply clmul_small; [done | done|]. rewrite E. auto with ranges.
Qed.

(** ** The engine divides *)

Definition width (s : MCXNCRCState) : Z := if is32 s then 32 else 16.
Definition poly (s : MCXNCRCState) : Z := if is32 s then gpoly s else gpoly s .& 0xffff.
Definition byte_range (b : Z) : Prop := 0 <= b < 256.

Record crc_wf (s : MCXNCRCState) : Prop := {
  crc_data : in_range (width s) (data s);
  crc_gpoly : in_range 32 (gpoly s);
}.

Lemma poly_range s : in_range 32 (gpoly s) -> in_range (width s) (poly s).
Proof. unfold width, poly. destruct (is32 s); [done|]. intros. apply in_range_land_r; [lia | split; done]. Qed.

Lemma width_cases s : width s = 32 \/ width s = 16.
Proof. unfold width. destruct (is32 s); auto. Qed.

Lemma iter_ext {A} (P : A -> Prop) (f g : A -> A) n x :
  (forall y, P y -> f y = g y) -> (forall y, P y -> P (g y)) -> P x ->
  Nat.iter n f x = Nat.iter n g x /\ P (Nat.iter n g x).
Proof.
  intros Hf Hg Hx. induction n as [|n [IH1 IH2]]; [done|]. rewrite !Nat.iter_succ, IH1.
  split; auto.
Qed.

Lemma land_ffff x : in_range 16 x -> x .& 0xffff = x.
Proof. intros Hx. change 0xffff with (Z.ones 16). rewrite Z.land_ones by lia. by apply wrap_in_range. Qed.

#[local] Opaque gstep crc32_step crc16_step Nat.iter.
(** Both update routines compute eight division steps. *)
Lemma crc_update_gsteps s b :
  crc_wf s -> byte_range b ->
  data (crc_update s b) =
    Nat.iter 8 (gstep (width s) (bit (width s) .^ poly s)) (data s .^ (b .<< (width s - 8))).
Proof.
  intros [Hd Hg] Hb. pose proof (poly_range s Hg) as Hp. unfold byte_range in Hb.
  assert (Hs : forall n, 0 <= n <= 24 -> u32 (b .<< n) = b .<< n /\ in_range (n + 8) (b .<< n)).
  { intros n Hn. assert (Hr : in_range (n + 8) (b .<< n)).
    { unfold in_range. rewrite Z.shiftl_mul_pow2, Z.pow_add_r by lia.
      assert (0 < 2 ^ n) by (apply Z.pow_pos_nonneg; lia). change (2 ^ 8) with 256. nia. }
    split; [|done]. apply wrap_in_range. eapply in_range_mono; [|done]. lia. }
  unfold crc_update, width, poly in *. destruct (is32 s); cbn [data modify].
  - unfold crc32_update_byte. destruct (Hs 24) as [E Hr]; [lia|]. rewrite E.
    change (24 + 8) with 32 in Hr.
    destruct (iter_ext (in_range 32) (crc32_step (gpoly s)) (gstep 32 (bit 32 .^ gpoly s)) 8
      (data s .^ (b .<< 24))) as [Hx _]; [intros; by apply crc32_step_gstep | | auto with ranges | exact Hx].
    intros. apply gstep_range; done || lia.
  - unfold crc16_update_byte. destruct (Hs 8) as [E Hr]; [lia|]. change (16 - 8) with 8. rewrite E.
    change (8 + 8) with 16 in Hr.
    destruct (iter_ext (in_range 16) (crc16_step (gpoly s .& 0xffff)) (gstep 16 (bit 16 .^ (gpoly s .& 0xffff))) 8
      (data s .^ (b .<< 8))) as [-> Hx]; [intros; by apply crc16_step_gstep | | auto with ranges |].
    { intros. apply gstep_range; done || lia. }
    by apply land_ffff.
Qed.

Lemma crc_update_spec s b :
  crc_wf s -> byte_range b ->
  in_range (width s) (data (crc_update s b)) /\
  exists q, length q = 8%nat /\
    data (crc_update s b) =
      (data s .<< 8) .^ (b .<< width s) .^ clmul q (bit (width s) .^ poly s).
Proof.
  intros Hwf Hb. rewrite crc_update_gsteps by done. destruct Hwf as [Hd Hg]. unfold byte_range in Hb.
  assert (Hx : in_range (width s) (data s .^ (b .<< (width s - 8)))).
  { apply in_range_lxor; [destruct (width_cases s); lia | done|].
    assert (0 < 2 ^ (width s - 8)) by (apply Z.pow_pos_nonneg; destruct (width_cases s); lia).
    unfold in_range. rewrite Z.shiftl_mul_pow2 by (destruct (width_cases s); lia).
    replace (2 ^ width s) with (2 ^ 8 * 2 ^ (width s - 8)); [change (2 ^ 8) with 256; nia|].
    rewrite <- Z.pow_add_r by (destruct (width_cases s); lia). f_equal. lia. }
  destruct (gsteps (width s) (poly s) 8 _ ltac:(destruct (width_cases s); lia) (poly_range s Hg) Hx)
    as [Hr (q & Hq & E)].
  split; [done|]. exists q. split; [done|]. rewrite E, Z.shiftl_lxor, Z.shiftl_shiftl by (destruct (width_cases s); lia).
  by replace (width s - 8 + Z.of_nat 8) with (width s) by lia.
Qed.

Lemma crc_update_regs s b : gpoly (crc_update s b) = gpoly s /\ ctrl (crc_update s b) = ctrl s.
Proof. unfold crc_update. by destruct (is32 s). Qed.
Lemma crc_update_is32 s b : is32 (crc_update s b) = is32 s.
Proof. unfold is32. by rewrite (proj2 (crc_update_regs s b)). Qed.
Lemma crc_update_tot s b : tot (crc_update s b) = tot s.
Proof. unfold tot. by rewrite (proj2 (crc_update_regs s b)). Qed.
Lemma crc_update_wf s b : crc_wf s -> byte_range b -> crc_wf (crc_update s b).
Proof.
  intros Hwf Hb. destruct (crc_update_spec s b Hwf Hb) as [Hr _]. split.
  - unfold width in *. by rewrite crc_update_is32.
  - rewrite (proj1 (crc_update_regs s b)). apply Hwf.
Qed.

Lemma message_snoc bs b : message (bs ++ [b]) = (message bs .<< 8) .^ b.
Proof. unfold message. by rewrite foldl_app. Qed.

(** Feeding a byte string divides the extended message. *)
Lemma crc_updates_remainder s bs :
  crc_wf s -> Forall byte_range bs ->
  let s' := foldl crc_update s bs in
  crc_wf s' /\ is32 s' = is32 s /\ gpoly s' = gpoly s /\ ctrl s' = ctrl s /\
  remainder_of (width s) (poly s) (data s) bs (data s').
Proof.
  intros Hwf. cbn zeta. induction bs as [|b bs IH] using rev_ind; intros Hbs.
  - cbn. do 4 (split; [done|]). split; [apply Hwf|]. exists [].
    change (message []) with 0. by rewrite Z.mul_0_r, Z.shiftl_0_r, Z.shiftl_0_l, Z.lxor_0_r.
  - apply Forall_app in Hbs as [Hbs Hb]. apply Forall_inv in Hb. destruct (IH Hbs) as (Hwf' & H32 & Hg & Hct & [Hr [q E]]).
    rewrite foldl_app. cbn [foldl]. set (s' := foldl crc_update s bs) in *.
    destruct (crc_update_regs s' b) as [Hg' Hct'].
    split; [exact (crc_update_wf _ _ Hwf' Hb)|]. split; [by rewrite crc_update_is32|].
    split; [congruence|]. split; [congruence|].
    destruct (crc_update_spec s' b Hwf' Hb) as [Hr' (q8 & Hq8 & E8)].
    assert (Hw : width s' = width s) by (unfold width; by rewrite H32).
    assert (Hp : poly s' = poly s) by (unfold poly; by rewrite H32, Hg).
    rewrite Hw, Hp in *. split; [done|]. exists (q ++ q8).
    rewrite clmul_app, Hq8, E8, message_snoc, length_app. cbn [length].
    replace (8 * Z.of_nat (length bs + 1)) with (8 * zlen bs + 8) by lia.
    rewrite <- Z.shiftl_shiftl, Z.shiftl_lxor by lia. change (Z.of_nat 8) with 8.
    assert (E' : (data s .<< (8 * zlen bs)) .<< 8 .^ (message bs .<< 8 .<< width s)
      = (clmul q (bit (width s) .^ poly s) .<< 8) .^ (data s' .<< 8)).
    { rewrite <- Z.shiftl_lxor, <- E, Z.shiftl_lxor. f_equal.
      rewrite !Z.shiftl_shiftl by (destruct (width_cases s); lia). f_equal. lia. }
    rewrite <- Z.lxor_assoc, E'. bitwise.
Qed.

(** ** Writes of the data register *)

Definition feeding (s : MCXNCRCState) : Prop := flag (ctrl s) CRC_CTRL_WAS = false.

Lemma shr_byte_range v n : 0 <= n -> byte_range ((v .>> n) .& 0xff).
Proof. intros. apply (in_range_land_r 8); [lia | split; done]. Qed.

(** A write feeds the bytes of the transposed value, highest byte first. *)
Lemma crc_write_feeds s v n :
  feeding s ->
  mcxn_crc_write s CRC_DATA v n =
    foldl crc_update s (map (fun b => (crc_transpose (u32 v) (tot s) .>> ((n - 1 - b) * 8)) .& 0xff) (seqZ 0 n)).
Proof.
  intros Hf. unfold mcxn_crc_write, feeding in *. cbn [Z.eqb CRC_DATA]. rewrite Hf.
  by rewrite foldl_map.
Qed.

(** C27: the engine divides.  Byte writes of a message leave in the accumulator
    the remainder of the message, extended by the CRC width and prefixed by the
    seed, modulo the generator polynomial of GPOLY; for both widths, any seed,
    any polynomial and any length.  (The remainder is unique.) *)
Theorem crc_divides s bs :
  crc_wf s -> feeding s -> tot s = 0 -> Forall byte_range bs ->
  let s' := foldl (fun s b => mcxn_crc_write s CRC_DATA b 1) s bs in
  remainder_of (width s) (poly s) (data s) bs (data s') /\
  forall c, remainder_of (width s) (poly s) (data s) bs c -> c = data s'.
Proof.
  intros Hwf Hf Ht Hbs. cbn zeta.
  assert (E : foldl (fun s b => mcxn_crc_write s CRC_DATA b 1) s bs = foldl crc_update s bs).
  { clear Hwf. revert s Hf Ht. induction Hbs as [|b bs Hb Hbs IH]; intros s Hf Ht; [done|]. cbn [foldl].
    assert (Eb : mcxn_crc_write s CRC_DATA b 1 = crc_update s b).
    { rewrite crc_write_feeds by done. rewrite Ht. change (seqZ 0 1) with [0].
      cbn [map foldl crc_transpose]. change ((1 - 1 - 0) * 8) with 0. unfold byte_range in Hb.
      rewrite wrap_id, Z.shiftr_0_r by lia. change 255 with (Z.ones 8).
      by rewrite Z.land_ones, Z.mod_small by lia. }
    rewrite Eb. destruct (crc_update_regs s b) as [_ Hct]. apply IH; unfold feeding, tot; by rewrite Hct. }
  rewrite E. destruct (crc_updates_remainder s bs Hwf Hbs) as (_ & _ & _ & _ & Hr).
  split; [done|]. intros c Hc. eapply remainder_unique; [| |done|done].
  - destruct (width_cases s); lia.
  - apply poly_range, Hwf.
Qed.

(** ** Access sizes *)

(** The bytes of a word, highest first. *)
Definition be_bytes (v : Z) : list Z := map (fun b => (v .>> ((3 - b) * 8)) .& 0xff) (seqZ 0 4).

Lemma crc_write_byte s b :
  feeding s -> byte_range b -> mcxn_crc_write s CRC_DATA b 1 = crc_update s (crc_transpose b (tot s) .& 0xff).
Proof.
  intros Hf Hb. rewrite crc_write_feeds by done. change (seqZ 0 1) with [0]. cbn [map foldl].
  change ((1 - 1 - 0) * 8) with 0. unfold byte_range in Hb. by rewrite wrap_id, Z.shiftr_0_r by lia.
Qed.

(** A word from its bytes. *)
Definition pack4 (f : Z -> Z) : Z := f 0 .| (f 1 .<< 8) .| (f 2 .<< 16) .| (f 3 .<< 24).

Lemma pack4_byte f n :
  (forall b, in_range 8 (f b)) -> 0 <= n < 4 -> (pack4 f .>> (n * 8)) .& 0xff = f n.
Proof.
  intros Hf Hn.
  assert (Hbit : forall b k i, 0 <= i -> 0 <= k -> Z.testbit (f b .<< k) i =
    (k <=? i) && (i <? k + 8) && Z.testbit (f b) (i - k)).
  { intros b k i Hi Hk. rewrite Z.shiftl_spec by lia. destruct (Z.leb_spec k i); cbn [andb].
    - destruct (Z.ltb_spec i (k + 8)); cbn [andb]; [done|]. apply (testbit_range 8); [apply Hf | lia].
    - by rewrite Z.testbit_neg_r by lia. }
  change 0xff with (Z.ones 8). unfold pack4. rewrite <- (Z.shiftl_0_r (f 0)).
  apply Z.bits_inj'. intros i Hi. rewrite Z.land_spec, Z.shiftr_spec, testbit_ones by lia.
  destruct (Z.ltb_spec i 8); [|rewrite andb_false_r; symmetry; apply (testbit_range 8); [apply Hf | lia]].
  rewrite !Z.lor_spec, !Hbit by lia.
  assert (n = 0 \/ n = 1 \/ n = 2 \/ n = 3) as [-> | [-> | [-> | ->]]] by lia;
    zcases; rewrite ?orb_false_r, ?andb_true_r; cbn [orb]; f_equal; lia.
Qed.

Lemma revbit8_range x : in_range 8 (revbit8 x).
Proof. apply wrap_range. lia. Qed.

Lemma transpose_bits_byte v n :
  0 <= n < 4 -> (transpose_bits_in_bytes v .>> (n * 8)) .& 0xff = revbit8 ((v .>> (n * 8)) .& 0xff).
Proof.
  intros Hn. set (r := fun b => revbit8 ((v .>> (b * 8)) .& 0xff)).
  assert (E : transpose_bits_in_bytes v = pack4 r).
  { assert (Hu : forall b k, 0 <= k <= 24 -> u32 (r b .<< k) = r b .<< k).
    { intros b k Hk. apply wrap_id. pose proof (revbit8_range ((v .>> (b * 8)) .& 0xff)) as Hr.
      unfold in_range in Hr. fold (r b) in Hr. rewrite Z.shiftl_mul_pow2 by lia.
      assert (0 < 2 ^ k <= 2 ^ 24) by (split; [apply Z.pow_pos_nonneg | apply Z.pow_le_mono_r]; lia). nia. }
    transitivity (0 .| u32 (r 0 .<< 0) .| u32 (r 1 .<< 8) .| u32 (r 2 .<< 16) .| u32 (r 3 .<< 24)); [done|].
    rewrite !Hu by lia. by rewrite Z.shiftl_0_r, Z.lor_0_l. }
  rewrite E. apply (pack4_byte r); [intros; apply revbit8_range | done].
Qed.

Lemma bswap32_byte v n : 0 <= n < 4 -> (bswap32 v .>> (n * 8)) .& 0xff = (v .>> ((3 - n) * 8)) .& 0xff.
Proof.
  intros Hn. set (r := fun b => (v .>> ((3 - b) * 8)) .& 0xff).
  assert (E : bswap32 v = pack4 r).
  { unfold bswap32, pack4, r. cbn [Z.sub Z.mul]. rewrite Z.shiftr_0_r.
    rewrite (Z.lor_comm _ ((v .>> 24) .& 0xff)), <- !Z.lor_assoc. f_equal.
    rewrite Z.lor_comm, <- Z.lor_assoc. rewrite Z.lor_comm, <- Z.lor_assoc. f_equal. apply Z.lor_comm. }
  rewrite E. apply (pack4_byte r); [|done]. intros. apply (in_range_land_r 8); [lia | split; done].
Qed.

(** C38: a word is its bytes.  Without byte transposition (TOT 0 or 1) a 32-bit
    write of DATA has the effect of four byte writes, highest byte first, so
    software may split a message into words and bytes as it likes. *)
Theorem crc_word_is_bytes s v :
  feeding s -> tot s = 0 \/ tot s = 1 -> 0 <= v < 2 ^ 32 ->
  mcxn_crc_write s CRC_DATA v 4 = foldl (fun s b => mcxn_crc_write s CRC_DATA b 1) s (be_bytes v).
Proof.
  intros Hf Ht Hv. rewrite crc_write_feeds, wrap_id by done.
  assert (Hseq : forall bs s0, feeding s0 -> tot s0 = tot s -> Forall byte_range bs ->
    foldl (fun s b => mcxn_crc_write s CRC_DATA b 1) s0 bs =
    foldl crc_update s0 (map (fun b => crc_transpose b (tot s) .& 0xff) bs)).
  { induction bs as [|b bs IH]; intros s0 Hf0 Ht0 Hbs; [done|]. inversion Hbs; subst. cbn [foldl map].
    rewrite crc_write_byte, Ht0 by done. apply IH; [|by rewrite crc_update_tot | done].
    unfold feeding. by rewrite (proj2 (crc_update_regs _ _)). }
  rewrite Hseq; [|done|done|]; unfold be_bytes.
  - rewrite map_map. apply (f_equal (foldl crc_update s)), map_ext_in. intros b Hb%list_elem_of_In%elem_of_seqZ.
    replace (4 - 1 - b) with (3 - b) by lia. destruct Ht as [-> | ->]; cbn [crc_transpose].
    + change 0xff with (Z.ones 8). by rewrite <- Z.land_assoc, Z.land_diag.
    + rewrite transpose_bits_byte by lia.
      pose proof (transpose_bits_byte ((v .>> ((3 - b) * 8)) .& 0xff) 0 ltac:(lia)) as E.
      rewrite Z.mul_0_l, !Z.shiftr_0_r in E. rewrite E. change 0xff with (Z.ones 8).
      by rewrite <- Z.land_assoc, Z.land_diag.
  - apply Forall_map, Forall_seqZ. intros b Hb. apply shr_byte_range. lia.
Qed.

(** Byte writes under byte transposition.  With TOT 2 or 3 a byte write of
    DATA swaps the byte out of the accessed lane before it is fed: whatever
    the byte, the engine consumes a zero. *)
Theorem crc_byte_write_loses_data s b b' :
  feeding s -> tot s = 2 \/ tot s = 3 -> byte_range b -> byte_range b' ->
  mcxn_crc_write s CRC_DATA b 1 = mcxn_crc_write s CRC_DATA b' 1 /\
  mcxn_crc_write s CRC_DATA b 1 = crc_update s 0.
Proof.
  intros Hf Ht Hb Hb'. rewrite !crc_write_byte by done.
  assert (H0 : forall x, byte_range x -> crc_transpose x (tot s) .& 0xff = 0).
  { intros x Hx. unfold byte_range in Hx.
    assert (Hsh : x .>> 24 = 0) by (rewrite Z.shiftr_div_pow2 by lia; apply Z.div_small; lia).
    destruct Ht as [-> | ->]; cbn [crc_transpose].
    - pose proof (bswap32_byte (transpose_bits_in_bytes x) 0 ltac:(lia)) as E.
      rewrite Z.mul_0_l, Z.shiftr_0_r in E. rewrite E.
      change ((3 - 0) * 8) with (3 * 8). rewrite transpose_bits_byte by lia. change (3 * 8) with 24.
      by rewrite Hsh.
    - pose proof (bswap32_byte x 0 ltac:(lia)) as E. rewrite Z.mul_0_l, Z.shiftr_0_r in E. rewrite E.
      change ((3 - 0) * 8) with 24. by rewrite Hsh. }
  by rewrite !H0.
Qed.

(** Final complement of a byte-swapped 16-bit result.  With TOTR 2 or 3 the
    swapped CRC-16 sits in the upper half word, and the complement keeps only
    the lower one: the register reads 0xFFFF whatever the checksum is. *)
Theorem crc16_fxor_swapped_constant s :
  is32 s = false -> totr s = 2 \/ totr s = 3 -> flag (ctrl s) CRC_CTRL_FXOR = true ->
  mcxn_crc_read s CRC_DATA = 0xFFFF.
Proof.
  intros H32 Ht Hx. unfold mcxn_crc_read, crc_read_result. cbn [Z.eqb CRC_DATA]. rewrite H32, Hx.
  set (v := data s .& 0xffff).
  assert (Hlow : forall x, (x .>> 24) .& 0xff = 0 -> (x .>> 16) .& 0xff = 0 -> bswap32 x .& 0xffff = 0).
  { intros x H3 H2. unfold bswap32. change (0xff) with (Z.ones 8) in *. change 0xffff with (Z.ones 16).
    rewrite H2, H3. apply Z.bits_inj'. intros i Hi. rewrite Z.land_spec, testbit_ones, Z.testbit_0_l by lia.
    destruct (Z.ltb_spec i 16); [|apply andb_false_r]. rewrite !Z.lor_spec, !Z.shiftl_spec by lia.
    by rewrite !(Z.testbit_neg_r _ (i - 24)), !(Z.testbit_neg_r _ (i - 16)), !Z.testbit_0_l by lia. }
  assert (Hv : forall n, 16 <= n -> v .>> n = 0).
  { intros n Hn. assert (Hr : in_range 16 v) by (apply in_range_land_r; [lia | split; done]).
    rewrite Z.shiftr_div_pow2 by lia. apply Z.div_small. unfold in_range in Hr.
    assert (2 ^ 16 <= 2 ^ n) by (apply Z.pow_le_mono_r; lia). lia. }
  assert (Hz : crc_transpose v (totr s) .& 0xffff = 0).
  { destruct Ht as [-> | ->]; cbn [crc_transpose]; apply Hlow.
    - change 24 with (3 * 8). rewrite transpose_bits_byte by lia. by rewrite Hv by lia.
    - change 16 with (2 * 8). rewrite transpose_bits_byte by lia. by rewrite Hv by lia.
    - by rewrite Hv by lia.
    - by rewrite Hv by lia. }
  change 0xffff with (Z.ones 16) in *. apply Z.bits_inj'. intros i Hi.
  apply (f_equal (fun z => Z.testbit z i)) in Hz. autorewrite with bits in Hz |- *.
  destruct (Z.ltb_spec i 16); [|by rewrite !andb_false_r]. rewrite andb_true_r in Hz. rewrite Hz.
  by zcases.
Qed.

(** ** Published check values *)

Definition check_input : list Z := [0x31; 0x32; 0x33; 0x34; 0x35; 0x36; 0x37; 0x38; 0x39].

(** Program the engine as a driver does: control with WAS, polynomial, seed,
    control without WAS. *)
Definition crc_setup (ct gp seed : Z) : MCXNCRCState :=
  let s := mcxn_crc_write mcxn_crc_reset CRC_CTRL (ct .| CRC_CTRL_WAS) 4 in
  let s := mcxn_crc_write s CRC_GPOLY gp 4 in
  let s := mcxn_crc_write s CRC_DATA seed 4 in
  mcxn_crc_write s CRC_CTRL ct 4.
Definition crc_run (s : MCXNCRCState) (bs : list Z) : Z :=
  mcxn_crc_read (foldl (fun s b => mcxn_crc_write s CRC_DATA b 1) s bs) CRC_DATA.

(** The registers reproduce the published check values of the message
    123456789: CRC-16/CCITT-FALSE, CRC-32/MPEG-2 and the reflected CRC-32 of
    Ethernet. *)
Theorem crc_check_values :
  crc_run (crc_setup 0 0x1021 0xFFFF) check_input = 0x29B1 /\
  crc_run (crc_setup CRC_CTRL_TCRC 0x04C11DB7 0xFFFFFFFF) check_input = 0x0376E6E7 /\
  crc_run (crc_setup (CRC_CTRL_TCRC .| (1 .<< 30) .| (2 .<< 28) .| CRC_CTRL_FXOR) 0x04C11DB7 0xFFFFFFFF)
    check_input = 0xCBF43926.
Proof. vm_compute. auto. Qed.

Definition crc16_s : MCXNCRCState := crc_setup 0 0x1021 0xFFFF.
Definition crc32_s : MCXNCRCState := crc_setup CRC_CTRL_TCRC 0x04C11DB7 0xFFFFFFFF.

Lemma crc_divides_witness : remainder_of 16 0x1021 0xFFFF check_input 0x29B1.
Proof.
  destruct (crc_divides crc16_s check_input) as [Hr _].
  - split; split; vm_compute; congruence.
  - reflexivity.
  - reflexivity.
  - repeat constructor; vm_compute; congruence.
  - vm_compute in Hr. exact Hr.
Defined.

Lemma crc_word_is_bytes_witness :
  mcxn_crc_write crc32_s CRC_DATA 0x31323334 4 =
    foldl (fun s b => mcxn_crc_write s CRC_DATA b 1) crc32_s [0x31; 0x32; 0x33; 0x34].
Proof. apply (crc_word_is_bytes crc32_s 0x31323334); [reflexivity | left; reflexivity | lia]. Defined.

Lemma crc_byte_write_loses_data_witness :
  let s := crc32_s <| ctrl := CRC_CTRL_TCRC .| (3 .<< 30) |> in
  mcxn_crc_write s CRC_DATA 0x31 1 = mcxn_crc_write s CRC_DATA 0x77 1.
Proof.
  intros s. apply (crc_byte_write_loses_data s 0x31 0x77);
    [reflexivity | right; reflexivity | split; vm_compute; congruence | split; vm_compute; congruence].
Defined.

Lemma crc16_fxor_swapped_constant_witness :
  mcxn_crc_read (crc16_s <| ctrl := (2 .<< 28) .| CRC_CTRL_FXOR |>) CRC_DATA = 0xFFFF.
Proof.
  apply (crc16_fxor_swapped_constant (crc16_s <| ctrl := (2 .<< 28) .| CRC_CTRL_FXOR |>));
    [reflexivity | left; reflexivity | reflexivity].
Defined.
