(* ===== verification/Ctimer.v ===== *)
(** * CTIMER: the standard counter/timer

    Model of [hw/timer/mcxn_ctimer.c]: the lazily evaluated counter, the host
    timer that is armed for the next match, the match actions with their
    request and trigger pulses, input capture, registers and reset.  Host time
    is an argument in nanoseconds; [clk_hz] is the frequency of the input
    clock; a division by zero, which stops the emulator, is [None]. *)
From S2P Require Import Prelude.

Definition R_IR : Z := 0x00.
Definition R_TCR : Z := 0x04.
Definition R_TC : Z := 0x08.
Definition R_PR : Z := 0x0C.
Definition R_PC : Z := 0x10.
Definition R_MCR : Z := 0x14.
Definition R_MR0 : Z := 0x18.
Definition R_CCR : Z := 0x28.
Definition R_CR0 : Z := 0x2C.
Definition R_EMR : Z := 0x3C.
Definition R_CTCR : Z := 0x70.
Definition R_PWMC : Z := 0x74.
Definition R_MSR0 : Z := 0x78.
Definition TCR_CEN : Z := bit 0.
Definition TCR_CRST : Z := bit 1.
Definition MCR_INT (n : Z) : Z := bit (3 * n + 0).
Definition MCR_RST (n : Z) : Z := bit (3 * n + 1).
Definition MCR_STOP (n : Z) : Z := bit (3 * n + 2).
Definition MCR_ANY (n : Z) : Z := MCR_INT n .| MCR_RST n .| MCR_STOP n.
Definition CCR_CAP0RE : Z := bit 0.
Definition CCR_CAP0FE : Z := bit 1.
Definition CCR_CAP0I : Z := bit 2.
Definition IR_CR0INT : Z := bit 4.
Definition UINT64_MAX : Z := 2 ^ 64 - 1.
Definition NS_PER_S : Z := 1000000000.

Record MCXNCTimerState := mkCTimer {
  irq : bool;                       (* level of the NVIC line *)
  timer : option Z;                 (* deadline of the host timer *)
  clk_hz : Z;                       (* frequency of [clk]; 0: none *)
  ir : Z; tcr : Z; pr : Z; mcr : Z;
  mr : list Z;
  ccr : Z; emr : Z; ctcr : Z; pwmc : Z;
  cr : list Z; msr : list Z;
  tc : Z; pc : Z; base_ns : Z;
  cap0_level : bool
}.
#[export] Instance ctimer_settable : Settable MCXNCTimerState := fun s =>
  mkCTimer (irq s) (timer s) (clk_hz s) (ir s) (tcr s) (pr s) (mcr s) (mr s) (ccr s) (emr s)
    (ctcr s) (pwmc s) (cr s) (msr s) (tc s) (pc s) (base_ns s) (cap0_level s).

(** Pulses on the outputs: a request to the eDMA, a trigger event. *)
Inductive ctimer_event := DmaReq (n : Z) | MatchTrig (n : Z).

Definition ctimer_running (s : MCXNCTimerState) : bool :=
  flag (tcr s) TCR_CEN && negb (flag (tcr s) TCR_CRST).

Definition ctimer_freq (s : MCXNCTimerState) : Z := u32 (clk_hz s).

Definition ctimer_peek (s : MCXNCTimerState) (now : Z) : option (Z * Z) :=
  if negb (ctimer_running s) || (now <=? base_ns s) then Some (tc s, pc s)
  else
    let div := u32 (pr s + 1) in
    let elapsed := u64 (now - base_ns s) in
    let pclk := u64 (elapsed * ctimer_freq s) / NS_PER_S in
    let total := u64 (pc s + pclk) in
    q ← cdiv total div;
    r ← cmod total div;
    Some (u32 (tc s + u32 q), u32 r).

Definition ctimer_sync (s : MCXNCTimerState) (now : Z) : option MCXNCTimerState :=
  x ← ctimer_peek s now;
  Some (s <| tc := fst x |> <| pc := snd x |> <| base_ns := now |>).

Definition ctimer_update_irq (s : MCXNCTimerState) : MCXNCTimerState :=
  s <| irq := negb (ir s =? 0) |>.

(** Counts from [tc] to match [n]. *)
Definition ctimer_dtc (s : MCXNCTimerState) (n : Z) : Z :=
  if tc s <=? (mr s).[n] then (mr s).[n] - tc s else 2 ^ 32 - tc s + (mr s).[n].

(** Nanoseconds to match [n]. *)
Definition ctimer_match_ns (s : MCXNCTimerState) (n : Z) : option Z :=
  let div := u32 (pr s + 1) in
  let clocks := u64 (ctimer_dtc s n * div) in
  let clocks := if pc s <? clocks then clocks - pc s else 1 in
  cdiv (u64 (clocks * NS_PER_S)) (ctimer_freq s).

Fixpoint ctimer_best (ns : list Z) (s : MCXNCTimerState) (best : Z) : option Z :=
  match ns with
  | [] => Some best
  | n :: ns =>
      if negb (flag (mcr s) (MCR_ANY n)) then ctimer_best ns s best
      else t ← ctimer_match_ns s n; ctimer_best ns s (if t <? best then t else best)
  end.

Definition ctimer_reschedule (s : MCXNCTimerState) (now : Z) : option MCXNCTimerState :=
  let s := s <| timer := None |> in
  if negb (ctimer_running s) then Some s
  else
    best ← ctimer_best (seqZ 0 4) s UINT64_MAX;
    Some (if best =? UINT64_MAX then s
          else s <| timer := Some (now + swrap 64 (if best =? 0 then 1 else best)) |>).

(** The match that is reached first: its distance and its number. *)
Definition ctimer_soonest (s : MCXNCTimerState) : Z * Z :=
  foldl (fun (bf : Z * Z) n =>
    if negb (flag (mcr s) (MCR_ANY n)) then bf
    else if ctimer_dtc s n <? fst bf then (ctimer_dtc s n, n) else bf)
    (UINT64_MAX, -1) (seqZ 0 4).

(** The actions of match [n]; [tc] is the value all matches are compared with. *)
Definition ctimer_match (acc : MCXNCTimerState * bool * list ctimer_event) (n : Z)
  : MCXNCTimerState * bool * list ctimer_event :=
  let '(s, do_reset, evs) := acc in
  if flag (mcr s) (MCR_ANY n) && ((mr s).[n] =? tc s) then
    let s := if flag (mcr s) (MCR_INT n) then s <| ir := ir s .| bit n |> else s in
    let s := if flag (mcr s) (MCR_STOP n) then s <| tcr := tcr s .& u32 (.~ TCR_CEN) |> else s in
    let do_reset := do_reset || flag (mcr s) (MCR_RST n) in
    (s, do_reset, evs ++ (if n <? 2 then [DmaReq n] else []) ++ [MatchTrig n])
  else (s, do_reset, evs).

(** The counter snaps to the match that fires, and its actions happen. *)
Definition ctimer_fire (s : MCXNCTimerState) (fire now : Z) : MCXNCTimerState * list ctimer_event :=
  let s := s <| tc := (mr s).[fire] |> <| pc := 0 |> in
  let '(s, do_reset, evs) := foldl ctimer_match (s, false, []) (seqZ 0 4) in
  let s := if do_reset then s <| tc := 0 |> <| pc := 0 |> else s in
  (s <| base_ns := now |>, evs).

(** What the soonest match does, if there is one. *)
Definition ctimer_expire (s : MCXNCTimerState) (now : Z) : MCXNCTimerState * list ctimer_event :=
  let fire := snd (ctimer_soonest s) in
  if 0 <=? fire then ctimer_fire s fire now else (s, []).

Definition ctimer_tick (s : MCXNCTimerState) (now : Z) : option (MCXNCTimerState * list ctimer_event) :=
  s ← ctimer_sync s now;
  let x := ctimer_expire s now in
  s ← ctimer_reschedule (ctimer_update_irq (fst x)) now;
  Some (s, snd x).

Definition ctimer_capture0 (s : MCXNCTimerState) (level : bool) (now : Z) : option MCXNCTimerState :=
  let rising := level && negb (cap0_level s) in
  let falling := negb level && cap0_level s in
  let s := s <| cap0_level := level |> in
  if (rising && flag (ccr s) CCR_CAP0RE) || (falling && flag (ccr s) CCR_CAP0FE) then
    x ← ctimer_peek s now;
    let s := s <| cr := (cr s).[0 <- fst x] |> in
    Some (if flag (ccr s) CCR_CAP0I then ctimer_update_irq (s <| ir := ir s .| IR_CR0INT |>) else s)
  else Some s.

(** [case R: case R + 4: case R + 8: case R + 12:] *)
Definition in_array4 (off base : Z) : bool :=
  (base <=? off) && (off <=? base + 12) && ((off - base) mod 4 =? 0).

Definition ctimer_read (s : MCXNCTimerState) (off now : Z) : option Z :=
  if off =? R_IR then Some (ir s)
  else if off =? R_TCR then Some (tcr s)
  else if off =? R_TC then fst <$> ctimer_peek s now
  else if off =? R_PR then Some (pr s)
  else if off =? R_PC then snd <$> ctimer_peek s now
  else if off =? R_MCR then Some (mcr s)
  else if in_array4 off R_MR0 then Some ((mr s).[(off - R_MR0) / 4])
  else if off =? R_CCR then Some (ccr s)
  else if in_array4 off R_CR0 then Some ((cr s).[(off - R_CR0) / 4])
  else if off =? R_EMR then Some (emr s)
  else if off =? R_CTCR then Some (ctcr s)
  else if off =? R_PWMC then Some (pwmc s)
  else if in_array4 off R_MSR0 then Some ((msr s).[(off - R_MSR0) / 4])
  else Some 0.

(** Synchronise, store, re-arm: the pattern of the counting registers. *)
Definition ctimer_store (s : MCXNCTimerState) (now : Z) (f : MCXNCTimerState -> MCXNCTimerState)
  : option MCXNCTimerState :=
  s ← ctimer_sync s now;
  ctimer_reschedule (f s) now.

Definition ctimer_write (s : MCXNCTimerState) (off val now : Z) : option MCXNCTimerState :=
  let v := u32 val in
  if off =? R_IR then Some (ctimer_update_irq (s <| ir := ir s .& u32 (.~ v) |>))
  else if off =? R_TCR then
    ctimer_store s now (fun s =>
      let s := s <| tcr := v .& 0xFF |> in
      if flag (tcr s) TCR_CRST then s <| tc := 0 |> <| pc := 0 |> else s)
  else if off =? R_TC then ctimer_store s now (fun s => s <| tc := v |>)
  else if off =? R_PR then ctimer_store s now (fun s => s <| pr := v |>)
  else if off =? R_PC then ctimer_store s now (fun s => s <| pc := v |>)
  else if off =? R_MCR then ctimer_store s now (fun s => s <| mcr := v |>)
  else if in_array4 off R_MR0 then
    ctimer_store s now (fun s => s <| mr := (mr s).[(off - R_MR0) / 4 <- v] |>)
  else if off =? R_CCR then Some (s <| ccr := v |>)
  else if in_array4 off R_CR0 then Some s
  else if off =? R_EMR then Some (s <| emr := v |>)
  else if off =? R_CTCR then Some (s <| ctcr := v |>)
  else if off =? R_PWMC then Some (s <| pwmc := v |>)
  else if in_array4 off R_MSR0 then Some (s <| msr := (msr s).[(off - R_MSR0) / 4 <- v] |>)
  else Some s.

Definition mcxn_ctimer_reset (s : MCXNCTimerState) : MCXNCTimerState :=
  mkCTimer (irq s) None (clk_hz s) 0 0 0 0 (replicate 4 0) 0 0 0 0 (replicate 4 0) (replicate 4 0)
    0 0 0 false.

Definition mcxn_ctimer_post_load (s : MCXNCTimerState) : MCXNCTimerState := ctimer_update_irq s.

(** The device as it is created, on a clock of [hz]. *)
Definition ctimer_init (hz : Z) : MCXNCTimerState :=
  mcxn_ctimer_reset (mkCTimer false None hz 0 0 0 0 [] 0 0 0 0 [] [] 0 0 0 false).

(** ** Invariant *)

Record ctimer_wf (s : MCXNCTimerState) : Prop := {
  wf_mr : zlen (mr s) = 4 /\ Forall (in_range 32) (mr s);
  wf_tc : in_range 32 (tc s);
  wf_pc : in_range 32 (pc s);
  wf_pr : in_range 32 (pr s);
  wf_irq : irq s = negb (ir s =? 0);
}.

(** The clock runs and the divider does not wrap to zero. *)
Definition ctimer_clocked (s : MCXNCTimerState) : Prop :=
  0 < ctimer_freq s /\ pr s <> 2 ^ 32 - 1.

Lemma ctimer_div s : ctimer_wf s -> ctimer_clocked s -> u32 (pr s + 1) = pr s + 1 /\ 0 < pr s + 1.
Proof. intros [_ _ _ Hpr _] [_ Hp]. unfold in_range in Hpr. split; [apply wrap_id|]; lia. Qed.

Lemma ctimer_peek_some s now :
  ctimer_wf s -> ctimer_clocked s ->
  exists t p, ctimer_peek s now = Some (t, p) /\ in_range 32 t /\ in_range 32 p.
Proof.
  intros Hwf Hc. destruct (ctimer_div s Hwf Hc) as [Ed Hd]. unfold ctimer_peek.
  destruct (_ || _); [exists (tc s), (pc s); by destruct Hwf|]. cbn zeta. rewrite Ed. unfold cdiv, cmod.
  rewrite (proj2 (Z.eqb_neq _ 0)) by lia. cbn -[wrap].
  do 2 eexists. split; [done|]. auto with ranges.
Qed.

Lemma ctimer_sync_some s now :
  ctimer_wf s -> ctimer_clocked s ->
  exists t p, ctimer_sync s now = Some (s <| tc := t |> <| pc := p |> <| base_ns := now |>) /\
    ctimer_peek s now = Some (t, p) /\ in_range 32 t /\ in_range 32 p.
Proof.
  intros Hwf Hc. destruct (ctimer_peek_some s now Hwf Hc) as (t & p & E & Ht & Hp).
  exists t, p. unfold ctimer_sync. by rewrite E.
Qed.

Lemma ctimer_best_some ns s best : 0 < ctimer_freq s -> exists b, ctimer_best ns s best = Some b.
Proof.
  intros Hf. revert best. induction ns as [|n ns IH]; intros best; [by eexists|]. cbn [ctimer_best].
  case_match; [apply IH|]. unfold ctimer_match_ns, cdiv.
  rewrite (proj2 (Z.eqb_neq _ 0)) by lia. cbn -[ctimer_best]. apply IH.
Qed.

(** Re-arming changes nothing but the host timer. *)
Lemma ctimer_reschedule_some s now :
  0 < ctimer_freq s -> exists d, ctimer_reschedule s now = Some (s <| timer := d |>).
Proof.
  intros Hf. unfold ctimer_reschedule. cbn zeta.
  destruct (negb (ctimer_running _)); [by eexists|].
  match goal with |- context [ctimer_best ?l ?s' ?b] =>
    destruct (ctimer_best_some l s' b Hf) as [r ->] end.
  cbn -[swrap]. case_match; by eexists.
Qed.

Lemma ctimer_wf_timer s d : ctimer_wf s -> ctimer_wf (s <| timer := d |>).
Proof. by intros []. Qed.

Lemma ctimer_match_regs acc n :
  let s := fst (fst acc) in
  let s' := fst (fst (ctimer_match acc n)) in
  mr s' = mr s /\ tc s' = tc s /\ pc s' = pc s /\ pr s' = pr s /\ mcr s' = mcr s /\
  clk_hz s' = clk_hz s /\ base_ns s' = base_ns s.
Proof. destruct acc as [[s b] evs]. unfold ctimer_match. by repeat case_match. Qed.


Lemma seqZ_0_4 : seqZ 0 4 = [0; 1; 2; 3].
Proof. done. Qed.

(** The match loop touches only IR and TCR. *)
Lemma ctimer_matches_regs ns acc :
  let s := fst (fst acc) in
  let s' := fst (fst (foldl ctimer_match acc ns)) in
  mr s' = mr s /\ tc s' = tc s /\ pc s' = pc s /\ pr s' = pr s /\ mcr s' = mcr s /\
  clk_hz s' = clk_hz s /\ base_ns s' = base_ns s.
Proof.
  revert acc. induction ns as [|n ns IH]; intros acc; [done|]. cbn zeta in *. cbn [foldl].
  destruct (IH (ctimer_match acc n)) as (-> & -> & -> & -> & -> & -> & ->).
  apply (ctimer_match_regs acc n).
Qed.

Lemma ctimer_freq_hz s s' : clk_hz s' = clk_hz s -> ctimer_freq s' = ctimer_freq s.
Proof. unfold ctimer_freq. by intros ->. Qed.

(** What stays true of the machine configuration. *)
Definition ctimer_ok (s : MCXNCTimerState) : Prop := ctimer_wf s /\ ctimer_clocked s.

Lemma ctimer_soonest_range s : -1 <= snd (ctimer_soonest s) < 4.
Proof. unfold ctimer_soonest. rewrite seqZ_0_4. cbn [foldl]. repeat case_match; cbn; lia. Qed.

Lemma ctimer_fire_regs s fire now :
  let s' := fst (ctimer_fire s fire now) in
  mr s' = mr s /\ (tc s' = 0 \/ tc s' = (mr s).[fire]) /\ pc s' = 0 /\ pr s' = pr s /\ clk_hz s' = clk_hz s.
Proof.
  unfold ctimer_fire. set (s2 := s <| tc := _ |> <| pc := 0 |>).
  destruct (ctimer_matches_regs (seqZ 0 4) (s2, false, [])) as (Hmr & Htc & Hpc & Hpr & _ & Hhz & _).
  destruct foldl as [[s3 rst] evs]. cbn [fst snd] in *.
  destruct rst; cbn; rewrite ?Hmr, ?Htc, ?Hpc, ?Hpr, ?Hhz; cbn; auto.
Qed.

Lemma ctimer_wf_arm s d : ctimer_wf s -> ctimer_wf ((ctimer_update_irq s) <| timer := d |>).
Proof. by intros []. Qed.

(** Any state with the configuration of [s] and counters in range is in order
    once the interrupt line is driven. *)
Lemma ctimer_ok_drive s s' d :
  ctimer_ok s -> mr s' = mr s -> in_range 32 (tc s') -> in_range 32 (pc s') -> pr s' = pr s ->
  clk_hz s' = clk_hz s -> ctimer_ok ((ctimer_update_irq s') <| timer := d |>).
Proof.
  intros [[] [? ?]] Hmr Htc Hpc Hpr Hhz. split; [split; cbn; congruence || done|].
  split; [|cbn; congruence]. unfold ctimer_freq in *. cbn. congruence.
Qed.

Lemma ctimer_expire_regs s now :
  ctimer_wf s ->
  let s' := fst (ctimer_expire s now) in
  mr s' = mr s /\ in_range 32 (tc s') /\ in_range 32 (pc s') /\ pr s' = pr s /\ clk_hz s' = clk_hz s.
Proof.
  intros [[Hlen Hvals] ? ? ? ?]. unfold ctimer_expire. pose proof (ctimer_soonest_range s) as Hfire.
  generalize dependent (snd (ctimer_soonest s)). intros fire Hfire. cbn zeta.
  destruct (Z.leb_spec 0 fire); [|done].
  destruct (ctimer_fire_regs s fire now) as (-> & Htc & -> & -> & ->).
  split; [done|]. split; [|auto with ranges].
  destruct Htc as [-> | ->]; [auto with ranges|]. apply Forall_arr_get; [done | lia].
Qed.

Lemma ctimer_tick_ok s now :
  ctimer_ok s -> exists s' evs, ctimer_tick s now = Some (s', evs) /\ ctimer_ok s'.
Proof.
  intros [Hwf Hc]. destruct (ctimer_sync_some s now Hwf Hc) as (t & p & E & _ & Ht & Hp).
  unfold ctimer_tick. rewrite E, bind_Some. cbn zeta. clear E.
  assert (Hwf1 : ctimer_wf (s <| tc := t |> <| pc := p |> <| base_ns := now |>)) by (by destruct Hwf).
  destruct (ctimer_expire_regs _ now Hwf1) as (Hmr & Htc & Hpc & Hpr & Hhz).
  destruct (ctimer_expire _ now) as [s2 evs]. cbn [fst snd] in *.
  destruct (ctimer_reschedule_some (ctimer_update_irq s2) now) as [d ->].
  { rewrite (ctimer_freq_hz s); [apply Hc | done]. }
  rewrite bind_Some. do 2 eexists. split; [done|]. by eapply (ctimer_ok_drive s).
Qed.

Lemma ctimer_store_ok s now f :
  ctimer_ok s -> (forall s, ctimer_ok s -> ctimer_ok (f s)) ->
  exists s', ctimer_store s now f = Some s' /\ ctimer_ok s'.
Proof.
  intros [Hwf Hc] Hf. destruct (ctimer_sync_some s now Hwf Hc) as (t & p & E & _ & Ht & Hp).
  unfold ctimer_store. rewrite E, bind_Some.
  destruct (Hf (s <| tc := t |> <| pc := p |> <| base_ns := now |>)) as [Hwf' Hc'].
  { split; [by destruct Hwf | done]. }
  destruct (ctimer_reschedule_some (f (s <| tc := t |> <| pc := p |> <| base_ns := now |>)) now) as [d Ed];
    [apply Hc'|].
  eexists. split; [exact Ed|]. split; [by apply ctimer_wf_timer | done].
Qed.

Lemma ctimer_ok_upd_irq s v : ctimer_ok s -> ctimer_ok (ctimer_update_irq (s <| ir := v |>)).
Proof. by intros [[] ?]. Qed.

(** Every write keeps the timer in order, except the prescaler value whose
    successor is zero. *)
Lemma ctimer_write_ok s off v now :
  ctimer_ok s -> (off = R_PR -> u32 v <> 2 ^ 32 - 1) ->
  exists s', ctimer_write s off v now = Some s' /\ ctimer_ok s'.
Proof.
  intros Hok Hpr. assert (Hv : in_range 32 (u32 v)) by auto with ranges.
  assert (Hvff : in_range 32 (u32 v .& 0xFF)) by auto with ranges.
  unfold ctimer_write. cbn zeta.
  destruct (_ =? R_IR). { eexists. split; [done|]. by apply ctimer_ok_upd_irq. }
  destruct (_ =? R_TCR).
  { apply ctimer_store_ok; [done|]. intros s0 [[] ?]. destruct (flag _ TCR_CRST); split; try done; split; done || auto with ranges. }
  destruct (_ =? R_TC). { apply ctimer_store_ok; [done|]. by intros s0 [[] ?]. }
  destruct (Z.eqb_spec off R_PR).
  { apply ctimer_store_ok; [done|]. intros s0 [[] []]. split; [done|]. split; [done | by apply Hpr]. }
  destruct (_ =? R_PC). { apply ctimer_store_ok; [done|]. by intros s0 [[] ?]. }
  destruct (_ =? R_MCR). { apply ctimer_store_ok; [done|]. by intros s0 [[] ?]. }
  destruct (in_array4 off R_MR0).
  { apply ctimer_store_ok; [done|]. intros s0 [[[? ?] ? ? ?] ?]. split; [|done]. split; try done.
    cbn. rewrite length_arr_set. auto using Forall_arr_set. }
  destruct Hok as [[] ?]. repeat case_match; eexists; (split; [done|]); (split; [split; done | done]).
Qed.

Lemma ctimer_capture0_ok s level now :
  ctimer_ok s -> exists s', ctimer_capture0 s level now = Some s' /\ ctimer_ok s'.
Proof.
  intros [Hwf Hc]. unfold ctimer_capture0. cbn zeta.
  assert (Hok1 : ctimer_ok (s <| cap0_level := level |>)) by (by destruct Hwf).
  destruct (_ || _); [|by eexists].
  destruct (ctimer_peek_some (s <| cap0_level := level |>) now) as (t & p & E & _); [apply Hok1..|].
  rewrite E, bind_Some. eexists. split; [done|].
  destruct Hwf. by destruct (flag _ _).
Qed.

(** ** Runs *)

(** What can happen to the timer, each at a point of host time. *)
Inductive ctimer_op :=
  | TWrite (off v : Z)
  | TTick
  | TCapture (level : bool).

Definition ctimer_exec (s : MCXNCTimerState) (now : Z) (op : ctimer_op)
  : option (MCXNCTimerState * list ctimer_event) :=
  match op with
  | TWrite off v => s ← ctimer_write s off v now; Some (s, [])
  | TTick => ctimer_tick s now
  | TCapture level => s ← ctimer_capture0 s level now; Some (s, [])
  end.
Fixpoint ctimer_execs (s : MCXNCTimerState) (ops : list (Z * ctimer_op))
  : option (MCXNCTimerState * list ctimer_event) :=
  match ops with
  | [] => Some (s, [])
  | (now, op) :: ops =>
      x ← ctimer_exec s now op;
      y ← ctimer_execs (fst x) ops;
      Some (fst y, snd x ++ snd y)
  end.

Definition sane_op (o : Z * ctimer_op) : Prop :=
  match snd o with TWrite off v => off = R_PR -> u32 v <> 2 ^ 32 - 1 | _ => True end.

Lemma ctimer_exec_ok s now op :
  ctimer_ok s -> sane_op (now, op) -> exists s' evs, ctimer_exec s now op = Some (s', evs) /\ ctimer_ok s'.
Proof.
  intros Hok Hop. destruct op as [off v | | level]; cbn [ctimer_exec].
  - destruct (ctimer_write_ok s off v now Hok Hop) as (s' & -> & Hok'). exists s', []. by rewrite bind_Some.
  - by apply ctimer_tick_ok.
  - destruct (ctimer_capture0_ok s level now Hok) as (s' & -> & Hok'). exists s', []. by rewrite bind_Some.
Qed.

Lemma ctimer_execs_ok s ops :
  ctimer_ok s -> Forall sane_op ops -> exists s' evs, ctimer_execs s ops = Some (s', evs) /\ ctimer_ok s'.
Proof.
  intros Hok Hops. revert s Hok. induction Hops as [|[now op] ops Hop Hops IH]; intros s Hok; [by exists s, []|].
  destruct (ctimer_exec_ok s now op Hok Hop) as (s1 & evs1 & E1 & Hok1).
  destruct (IH s1 Hok1) as (s2 & evs2 & E2 & Hok2).
  exists s2, (evs1 ++ evs2). cbn [ctimer_execs]. rewrite E1, bind_Some. cbn [fst snd].
  by rewrite E2, bind_Some.
Qed.

Lemma ctimer_init_ok hz : 0 < u32 hz -> ctimer_ok (ctimer_init hz).
Proof.
  intros Hhz. split; [split; try done; [split; [done|]; apply Forall_replicate | ..]; auto with ranges|].
  split; [exact Hhz | done].
Qed.

(** The registers that do not count are words too. *)
Record ctimer_words (s : MCXNCTimerState) : Prop := {
  wd_ir : in_range 32 (ir s);
  wd_tcr : in_range 32 (tcr s);
  wd_mcr : in_range 32 (mcr s);
  wd_ccr : in_range 32 (ccr s);
  wd_emr : in_range 32 (emr s);
  wd_ctcr : in_range 32 (ctcr s);
  wd_pwmc : in_range 32 (pwmc s);
  wd_cr : zlen (cr s) = 4 /\ Forall (in_range 32) (cr s);
  wd_msr : zlen (msr s) = 4 /\ Forall (in_range 32) (msr s);
}.

Lemma ctimer_words_count s t p b : ctimer_words s -> ctimer_words (s <| tc := t |> <| pc := p |> <| base_ns := b |>).
Proof. by intros []. Qed.
Lemma ctimer_words_arm s d : ctimer_words s -> ctimer_words (s <| timer := d |>).
Proof. by intros []. Qed.

Lemma ctimer_reschedule_words s s' now : ctimer_reschedule s now = Some s' -> ctimer_words s -> ctimer_words s'.
Proof.
  unfold ctimer_reschedule. cbn zeta. intros E Hs. destruct (negb _); [injection E as <-; by apply ctimer_words_arm|].
  destruct (ctimer_best _ _ _) as [best|]; [|done]. rewrite bind_Some in E. injection E as <-. case_match; by destruct Hs.
Qed.

Lemma ctimer_store_words s s' now f : ctimer_store s now f = Some s' -> (forall s, ctimer_words s -> ctimer_words (f s)) ->
  ctimer_words s -> ctimer_words s'.
Proof.
  unfold ctimer_store, ctimer_sync. intros E Hf Hs. destruct (ctimer_peek s now) as [[t p]|]; [|done]. rewrite !bind_Some in E.
  eapply ctimer_reschedule_words; [exact E|]. by apply Hf, ctimer_words_count.
Qed.

Lemma ctimer_write_words s off v now s' : ctimer_write s off v now = Some s' -> ctimer_words s -> ctimer_words s'.
Proof.
  assert (Hv : in_range 32 (u32 v)) by auto with ranges. assert (Hff : in_range 32 (u32 v .& 0xFF)) by auto with ranges.
  unfold ctimer_write. cbn zeta. intros E Hs.
  repeat (case_match; [first [eapply ctimer_store_words; [exact E | | exact Hs]; intros s0 []; try case_match; by split
    | injection E as <-; destruct Hs as [? ? ? ? ? ? ? [] []]; split; cbn; rewrite ?length_arr_set; auto using Forall_arr_set with ranges]|]).
  by injection E as <-.
Qed.

Lemma ctimer_match_words acc n : 0 <= n < 4 -> ctimer_words acc.1.1 -> ctimer_words (ctimer_match acc n).1.1.
Proof.
  intros Hn. destruct acc as [[s b] evs]. unfold ctimer_match. cbn [fst]. intros []. destruct (_ && _); [|by split]. cbv zeta. cbn [fst].
  assert (in_range 32 (ir s .| bit n)) by auto with ranges.
  assert (in_range 32 (tcr s .& u32 (.~ TCR_CEN))) by auto with ranges. repeat case_match; by split.
Qed.

Lemma ctimer_expire_words s now : ctimer_words s -> ctimer_words (ctimer_expire s now).1.
Proof.
  intros Hs. unfold ctimer_expire, ctimer_fire. cbv zeta. case_match; [|done]. rewrite seqZ_0_4. set (s1 := s <| tc := _ |> <| pc := 0 |>).
  assert (H1 : ctimer_words (s1, false, @nil ctimer_event).1.1) by by destruct Hs. clearbody s1.
  assert (H2 : ctimer_words (foldl ctimer_match (s1, false, []) [0; 1; 2; 3]).1.1).
  { cbn [foldl]. do 4 (apply ctimer_match_words; [lia|]). exact H1. }
  destruct (foldl _ _ _) as [[s2 rst] evs]. cbn [fst] in *. destruct H2, rst; by split.
Qed.

Lemma ctimer_exec_words s now op s' evs : ctimer_ok s -> ctimer_exec s now op = Some (s', evs) -> ctimer_words s -> ctimer_words s'.
Proof.
  intros [Hwf Hc] E Hs. destruct op as [off v | | level]; cbn [ctimer_exec] in E.
  - destruct (ctimer_write s off v now) as [s1|] eqn:E1; [|done]. rewrite bind_Some in E. injection E as <- <-. by eapply ctimer_write_words.
  - unfold ctimer_tick, ctimer_sync in E. destruct (ctimer_peek s now) as [[t p]|]; [|done]. rewrite !bind_Some in E. cbv zeta in E. cbn [fst snd] in E.
    pose proof (ctimer_expire_words _ now (ctimer_words_count s t p now Hs)) as H1. destruct (ctimer_expire _ now) as [s2 e]. cbn [fst snd] in *.
    destruct (ctimer_reschedule _ now) as [s3|] eqn:E3; [|done]. rewrite bind_Some in E. injection E as <- <-.
    eapply ctimer_reschedule_words; [exact E3|]. by destruct H1.
  - destruct (ctimer_peek_some (s <| cap0_level := level |>) now ltac:(by destruct Hwf) Hc) as (t & p & Ep & Ht & _).
    unfold ctimer_capture0 in E. cbv zeta in E. destruct (_ || _); [|rewrite bind_Some in E; injection E as <- <-; by destruct Hs].
    rewrite Ep, !bind_Some in E. injection E as <- <-. destruct Hs as [? ? ? ? ? ? ? [] []].
    assert (in_range 32 (ir s .| IR_CR0INT)) by auto with ranges.
    case_match; split; cbn; rewrite ?length_arr_set; auto using Forall_arr_set.
Qed.

Lemma ctimer_execs_words s ops s' evs : ctimer_ok s -> Forall sane_op ops -> ctimer_execs s ops = Some (s', evs) -> ctimer_words s -> ctimer_words s'.
Proof.
  intros Hok Hops. revert s evs Hok. induction Hops as [|[now op] ops Hop Hops IH]; intros s evs Hok E Hs; [by injection E as <- <-|].
  cbn [ctimer_execs] in E. destruct (ctimer_exec_ok s now op Hok Hop) as (s1 & e1 & E1 & Hok1). rewrite E1, bind_Some in E. cbn [fst snd] in E.
  destruct (ctimer_execs s1 ops) as [[s2 e2]|] eqn:E2; [|done]. rewrite bind_Some in E. injection E as <- <-.
  apply (IH s1 e2 Hok1 E2). exact (ctimer_exec_words s now op s1 e1 Hok E1 Hs).
Qed.

(** Offsets of an array of four registers. *)
Lemma in_array4_index off base : in_array4 off base = true -> 0 <= (off - base) / 4 < 4.
Proof. unfold in_array4. intros H. apply andb_prop in H as [H H3]. apply andb_prop in H as [H1 H2]. apply Z.leb_le in H1, H2. dlia. Qed.

Lemma ctimer_read_words s off now : ctimer_ok s -> ctimer_words s -> exists v, ctimer_read s off now = Some v /\ in_range 32 v.
Proof.
  intros [Hwf Hc] Hs. destruct (ctimer_peek_some s now Hwf Hc) as (t & p & E & Ht & Hp). destruct Hwf as [[] ? ? ? ?], Hs as [? ? ? ? ? ? ? [] []].
  unfold ctimer_read. rewrite E. cbn [fmap option_fmap option_map fst snd].
  repeat (case_match; [eexists; split; [done|]; first [done | apply Forall_arr_get; [done|]; pose proof (in_array4_index off _ ltac:(eassumption)); lia]|]).
  eexists. split; [done|]. auto with ranges.
Qed.

(** C39: a clocked timer never stops the emulator and its interrupt line is the
    interrupt register.  From reset, whatever the guest writes (short of the
    prescaler value 0xFFFFFFFF), whenever the host timer fires and whatever the
    capture pin does, every operation returns, the line is high exactly when IR
    is not zero, every register that is stored is a 32-bit value, and a read of
    any offset at any time returns a 32-bit value. *)
Theorem ctimer_reachable_irq hz ops :
  0 < u32 hz -> Forall sane_op ops ->
  exists s evs, ctimer_execs (ctimer_init hz) ops = Some (s, evs) /\
    irq s = negb (ir s =? 0) /\ ctimer_words s /\
    (in_range 32 (tc s) /\ in_range 32 (pc s) /\ in_range 32 (pr s) /\ zlen (mr s) = 4 /\ Forall (in_range 32) (mr s)) /\
    forall off now, exists v, ctimer_read s off now = Some v /\ in_range 32 v.
Proof.
  intros Hhz Hops. pose proof (ctimer_init_ok hz Hhz) as H0. destruct (ctimer_execs_ok (ctimer_init hz) ops H0 Hops) as (s & evs & E & Hok).
  assert (Hw : ctimer_words s).
  { apply (ctimer_execs_words _ _ _ _ H0 Hops E). split; try (split; [done | apply Forall_replicate]); cbn; auto with ranges. }
  pose proof Hok as [[[? ?] ? ? ? ?] ?]. exists s, evs. do 4 (split; [done|]). intros off now. by apply ctimer_read_words.
Qed.

Lemma ctimer_reachable_irq_witness :
  exists s evs, ctimer_execs (ctimer_init 48000000)
      [(0, TWrite R_MR0 480); (0, TWrite R_MCR 3); (0, TWrite R_TCR 1); (10000, TTick)] = Some (s, evs) /\
    irq s = negb (ir s =? 0) /\ exists v, ctimer_read s R_CR0 20000 = Some v /\ in_range 32 v.
Proof.
  destruct (ctimer_reachable_irq 48000000 [(0, TWrite R_MR0 480); (0, TWrite R_MCR 3); (0, TWrite R_TCR 1); (10000, TTick)]) as (s & evs & E & Hi & _ & _ & Hr).
  - reflexivity.
  - repeat constructor; vm_compute; discriminate.
  - exists s, evs. split; [exact E|]. split; [exact Hi | exact (Hr R_CR0 20000)].
Defined.

(** A timer without a clock stops the emulator.  With no input clock, the
    write that enables the counter divides by the clock frequency as soon as
    one match has an action. *)
Theorem ctimer_no_clock_traps s n now v :
  ctimer_freq s = 0 -> 0 <= n < 4 -> flag (mcr s) (MCR_ANY n) = true ->
  u32 (pr s + 1) <> 0 -> flag v TCR_CEN = true -> flag v TCR_CRST = false -> 0 <= v < 256 ->
  ctimer_write s R_TCR v now = None.
Proof.
  intros Hf Hn Hm Hp Hcen Hcrst Hv. unfold ctimer_write. cbn zeta.
  change (R_TCR =? R_IR) with false. rewrite Z.eqb_refl. cbv iota.
  assert (Ev : u32 v .& 0xFF = v).
  { rewrite wrap_id by lia. change 0xFF with (Z.ones 8). rewrite Z.land_ones by lia. apply Z.mod_small. lia. }
  rewrite Ev. unfold ctimer_store.
  destruct (ctimer_sync s now) as [s1|] eqn:Es; [|done]. rewrite bind_Some.
  assert (Hs1 : clk_hz s1 = clk_hz s /\ mcr s1 = mcr s).
  { unfold ctimer_sync in Es. destruct ctimer_peek as [x|]; [|done]. rewrite bind_Some in Es.
    by inversion Es; subst. }
  destruct Hs1 as [Hhz Hmcr]. cbv beta zeta. change (tcr (s1 <| tcr := v |>)) with v. rewrite Hcrst.
  unfold ctimer_reschedule. cbn zeta.
  change (ctimer_running _) with (flag v TCR_CEN && negb (flag v TCR_CRST)). rewrite Hcen, Hcrst. cbn [andb negb].
  match goal with |- context [ctimer_best _ ?x _] => set (s2 := x) end.
  assert (Hb : forall ns best, n ∈ ns -> ctimer_best ns s2 best = None).
  { induction ns as [|k ns IH]; intros best Hin; [set_solver|]. cbn [ctimer_best].
    replace (mcr s2) with (mcr s) by (by rewrite <- Hmcr).
    unfold ctimer_match_ns, cdiv. replace (ctimer_freq s2) with 0.
    2:{ rewrite <- Hf. unfold ctimer_freq. f_equal. by rewrite <- Hhz. }
    destruct (flag (mcr s) (MCR_ANY k)) eqn:Ek; cbn [negb]; [done|]. apply IH.
    apply elem_of_cons in Hin as [->|]; [congruence | done]. }
  rewrite Hb; [done|]. apply elem_of_seqZ. lia.
Qed.

Lemma ctimer_no_clock_traps_witness :
  ctimer_write ((ctimer_init 0) <| mcr := MCR_INT 0 |>) R_TCR 1 0 = None.
Proof.
  apply (ctimer_no_clock_traps ((ctimer_init 0) <| mcr := MCR_INT 0 |>) 0 0 1);
    first [reflexivity | lia | vm_compute; discriminate].
Defined.

(** ** A timer with one match *)

Definition only_match (s : MCXNCTimerState) (n : Z) : Prop :=
  0 <= n < 4 /\ forall j, 0 <= j < 4 -> flag (mcr s) (MCR_ANY j) = (j =? n).

Lemma only_match_flags s n :
  only_match s n ->
  flag (mcr s) (MCR_ANY 0) = (0 =? n) /\ flag (mcr s) (MCR_ANY 1) = (1 =? n) /\
  flag (mcr s) (MCR_ANY 2) = (2 =? n) /\ flag (mcr s) (MCR_ANY 3) = (3 =? n).
Proof. intros [_ Hm]. rewrite !Hm by lia. done. Qed.

Lemma ctimer_dtc_range s n :
  ctimer_wf s -> 0 <= n < 4 -> 0 <= ctimer_dtc s n < 2 ^ 32.
Proof.
  intros [[Hl Hv] Htc _ _ _] Hn. unfold ctimer_dtc.
  pose proof (Forall_arr_get (in_range 32) (mr s) n Hv ltac:(lia)) as Hm.
  unfold in_range in *. destruct (Z.leb_spec (tc s) (mr s).[n]); lia.
Qed.

Lemma ctimer_soonest_single s n : ctimer_wf s -> only_match s n -> snd (ctimer_soonest s) = n.
Proof.
  intros Hwf Hm. pose proof (ctimer_dtc_range s n Hwf (proj1 Hm)) as Hd.
  destruct (only_match_flags s n Hm) as (E0 & E1 & E2 & E3). destruct Hm as [Hn _].
  unfold ctimer_soonest. rewrite seqZ_0_4. cbn [foldl]. rewrite E0, E1, E2, E3.
  assert (Hlt : (ctimer_dtc s n <? UINT64_MAX) = true) by (apply Z.ltb_lt; unfold UINT64_MAX; lia).
  assert (n = 0 \/ n = 1 \/ n = 2 \/ n = 3) as [-> | [-> | [-> | ->]]] by lia;
    cbn [Z.eqb negb Pos.eqb fst snd]; rewrite Hlt; done.
Qed.

(** What the actions of match [n] do to the registers, and what they emit. *)
Definition match_actions (s : MCXNCTimerState) (n : Z) : MCXNCTimerState :=
  let s := if flag (mcr s) (MCR_INT n) then s <| ir := ir s .| bit n |> else s in
  if flag (mcr s) (MCR_STOP n) then s <| tcr := tcr s .& u32 (.~ TCR_CEN) |> else s.
Definition match_events (n : Z) : list ctimer_event :=
  (if n <? 2 then [DmaReq n] else []) ++ [MatchTrig n].

Lemma match_actions_regs s n :
  mcr (match_actions s n) = mcr s /\ mr (match_actions s n) = mr s /\ tc (match_actions s n) = tc s /\
  pc (match_actions s n) = pc s /\ pr (match_actions s n) = pr s /\ clk_hz (match_actions s n) = clk_hz s.
Proof. unfold match_actions. by repeat case_match. Qed.

Lemma ctimer_match_single s n j :
  only_match s n -> 0 <= j < 4 -> tc s = (mr s).[n] ->
  forall b evs, ctimer_match (s, b, evs) j =
    if j =? n then (match_actions s n, b || flag (mcr s) (MCR_RST n), evs ++ match_events n) else (s, b, evs).
Proof.
  intros [Hn Hm] Hj Htc b evs. unfold ctimer_match. rewrite Hm by done.
  destruct (Z.eqb_spec j n) as [->|]; [|done]. rewrite Htc, Z.eqb_refl. cbn [andb].
  unfold match_actions, match_events. destruct (flag (mcr s) (MCR_INT n)); cbn [mcr modify];
    match goal with |- context [flag ?m (MCR_STOP n)] => destruct (flag m (MCR_STOP n)) end; done.
Qed.

Lemma ctimer_matches_single s n :
  only_match s n -> tc s = (mr s).[n] ->
  foldl ctimer_match (s, false, []) (seqZ 0 4) =
    (match_actions s n, flag (mcr s) (MCR_RST n), match_events n).
Proof.
  intros Hm Htc. destruct (match_actions_regs s n) as (Hmcr & Hmr & Htc' & _).
  assert (Hm' : only_match (match_actions s n) n) by (unfold only_match; by rewrite Hmcr).
  pose proof (ctimer_match_single s n) as E. pose proof (ctimer_match_single (match_actions s n) n) as E'.
  rewrite seqZ_0_4. cbn [foldl]. destruct Hm as [Hn Hm0].
  assert (n = 0 \/ n = 1 \/ n = 2 \/ n = 3) as [-> | [-> | [-> | ->]]] by lia;
    repeat (first [rewrite E by (done || lia) | rewrite E' by (rewrite ?Htc', ?Hmr; done || lia)];
            cbn [Z.eqb Pos.eqb orb app]); done.
Qed.

Lemma ctimer_fire_single s n now :
  only_match s n ->
  ctimer_fire s n now =
    (let s1 := match_actions (s <| tc := (mr s).[n] |> <| pc := 0 |>) n in
     (if flag (mcr s) (MCR_RST n) then s1 <| tc := 0 |> <| pc := 0 |> else s1) <| base_ns := now |>,
     match_events n).
Proof. intros Hm. unfold ctimer_fire. cbv zeta. by rewrite (ctimer_matches_single _ n). Qed.

(** Input clocks until match [n], and the host time they take. *)
Definition match_clocks (s : MCXNCTimerState) (n : Z) : Z :=
  let c := ctimer_dtc s n * (pr s + 1) in if pc s <? c then c - pc s else 1.

Lemma ctimer_best_single s n :
  ctimer_ok s -> only_match s n ->
  0 <= match_clocks s n -> ctimer_dtc s n * (pr s + 1) < 2 ^ 64 -> match_clocks s n * NS_PER_S < 2 ^ 63 ->
  ctimer_best (seqZ 0 4) s UINT64_MAX = Some (match_clocks s n * NS_PER_S / ctimer_freq s).
Proof.
  intros [Hwf Hc] Hm Hpos Hov Hov2. destruct (ctimer_div s Hwf Hc) as [Ed Hd].
  pose proof (ctimer_dtc_range s n Hwf (proj1 Hm)). destruct Hc as [Hf _].
  assert (Ens : ctimer_match_ns s n = Some (match_clocks s n * NS_PER_S / ctimer_freq s)).
  { unfold ctimer_match_ns. rewrite Ed. cbv zeta. 
    rewrite (wrap_id 64 (ctimer_dtc s n * (pr s + 1))) by (split; [apply Z.mul_nonneg_nonneg; lia | done]).
    fold (match_clocks s n). unfold cdiv. rewrite (proj2 (Z.eqb_neq _ 0)) by lia.
    rewrite wrap_id; [done|]. unfold NS_PER_S in *. lia. }
  assert (Hlt : (match_clocks s n * NS_PER_S / ctimer_freq s <? UINT64_MAX) = true).
  { apply Z.ltb_lt. unfold UINT64_MAX, NS_PER_S in *. apply Z.div_lt_upper_bound; nia. }
  destruct (only_match_flags s n Hm) as (E0 & E1 & E2 & E3). destruct Hm as [Hn _].
  rewrite seqZ_0_4. cbn [ctimer_best]. rewrite E0, E1, E2, E3.
  assert (n = 0 \/ n = 1 \/ n = 2 \/ n = 3) as [-> | [-> | [-> | ->]]] by lia;
    cbn [Z.eqb negb Pos.eqb]; rewrite Ens, bind_Some, Hlt; done.
Qed.

Lemma ctimer_reschedule_single s n now :
  ctimer_ok s -> only_match s n -> ctimer_running s = true ->
  0 <= match_clocks s n -> ctimer_dtc s n * (pr s + 1) < 2 ^ 64 -> match_clocks s n * NS_PER_S < 2 ^ 63 ->
  ctimer_reschedule s now =
    Some (s <| timer := Some (now + Z.max 1 (match_clocks s n * NS_PER_S / ctimer_freq s)) |>).
Proof.
  intros Hok Hm Hr Hpos Hov Hov2. unfold ctimer_reschedule. cbv zeta.
  change (ctimer_running _) with (ctimer_running s). rewrite Hr. cbn [negb].
  assert (Eb : forall s', mcr s' = mcr s -> mr s' = mr s -> tc s' = tc s -> pc s' = pc s -> pr s' = pr s ->
    clk_hz s' = clk_hz s -> ctimer_best (seqZ 0 4) s' UINT64_MAX = ctimer_best (seqZ 0 4) s UINT64_MAX).
  { intros s' E1 E2 E3 E4 E5 E6. generalize UINT64_MAX. induction (seqZ 0 4) as [|k ns IH]; intros best; [done|].
    cbn [ctimer_best]. unfold ctimer_match_ns, ctimer_dtc, ctimer_freq. rewrite E1, E2, E3, E4, E5, E6, IH.
    case_match; [done|]. destruct cdiv as [q|]; [|done]. by rewrite !bind_Some, IH. }
  rewrite Eb by done. rewrite (ctimer_best_single s n) by done. rewrite bind_Some.
  assert (Hq : 0 <= match_clocks s n * NS_PER_S / ctimer_freq s < 2 ^ 63).
  { destruct Hok as [_ [Hf _]]. unfold NS_PER_S in *. split; [apply Z.div_pos; lia|].
    apply Z.div_lt_upper_bound; nia. }
  rewrite (proj2 (Z.eqb_neq _ _)) by (unfold UINT64_MAX; lia).
  set (q := match_clocks s n * NS_PER_S / ctimer_freq s) in *. clearbody q.
  assert (Eq : swrap 64 (if q =? 0 then 1 else q) = Z.max 1 q).
  { rewrite swrap_small by (destruct (q =? 0); lia). destruct (Z.eqb_spec q 0) as [->|]; lia. }
  by rewrite Eq.
Qed.

(** The registers after a tick of the only match. *)
Record ticked (s s' : MCXNCTimerState) (n : Z) : Prop := {
  tk_tc : tc s' = if flag (mcr s) (MCR_RST n) then 0 else (mr s).[n];
  tk_pc : pc s' = 0;
  tk_ir : ir s' = if flag (mcr s) (MCR_INT n) then ir s .| bit n else ir s;
  tk_tcr : tcr s' = if flag (mcr s) (MCR_STOP n) then tcr s .& u32 (.~ TCR_CEN) else tcr s;
  tk_conf : mcr s' = mcr s /\ mr s' = mr s /\ pr s' = pr s /\ clk_hz s' = clk_hz s;
}.

Lemma ctimer_expire_single s n now :
  ctimer_wf s -> only_match s n ->
  ticked s (fst (ctimer_expire s now)) n /\ snd (ctimer_expire s now) = match_events n /\
  base_ns (fst (ctimer_expire s now)) = now.
Proof.
  intros Hwf Hm. unfold ctimer_expire. rewrite (ctimer_soonest_single s n) by done. cbv zeta.
  rewrite (proj2 (Z.leb_le 0 n)) by (destruct Hm; lia).
  rewrite ctimer_fire_single by done. cbn [fst snd]. split; [|by destruct (flag _ (MCR_RST n))].
  unfold match_actions. destruct (flag (mcr s) (MCR_RST n)) eqn:Er;
    (destruct (flag (mcr s) (MCR_INT n)) eqn:Ei; cbv zeta;
     change (mcr (_ <| tc := _ |> <| pc := 0 |>)) with (mcr s); rewrite Ei;
     change (mcr (_ <| tc := _ |> <| pc := 0 |> <| ir := _ |>)) with (mcr s);
     change (mcr (_ <| tc := _ |> <| pc := 0 |>)) with (mcr s);
     destruct (flag (mcr s) (MCR_STOP n)) eqn:Et; split; rewrite ?Er, ?Ei, ?Et; done).
Qed.

Lemma ctimer_tick_single_regs s n now :
  ctimer_ok s -> only_match s n ->
  exists s1, ctimer_tick s now =
      (s' ← ctimer_reschedule (ctimer_update_irq s1) now; Some (s', match_events n)) /\
    ticked s s1 n.
Proof.
  intros [Hwf Hc] Hm. destruct (ctimer_sync_some s now Hwf Hc) as (t & p & E & _ & Ht & Hp).
  unfold ctimer_tick. rewrite E, bind_Some. cbv zeta. clear E.
  assert (Hwf1 : ctimer_wf (s <| tc := t |> <| pc := p |> <| base_ns := now |>)) by (by destruct Hwf).
  destruct (ctimer_expire_single _ n now Hwf1 Hm) as (Htk & Hev & _).
  destruct (ctimer_expire _ now) as [s1 evs]. cbn [fst snd] in *. subst evs. exists s1. split; [done|].
  by destruct Htk.
Qed.

(** What a match does.  When the host timer of a timer with one active
    match fires, TC is the match value (zero with the reset action), the
    prescaler is cleared, IR, TCR[CEN] and the interrupt line follow the INT
    and STOP actions, matches 0 and 1 pulse their DMA request, and every match
    pulses its trigger output once. *)
Theorem ctimer_match_actions s n now :
  ctimer_ok s -> only_match s n ->
  exists s', ctimer_tick s now = Some (s', match_events n) /\ ticked s s' n /\ irq s' = negb (ir s' =? 0).
Proof.
  intros Hok Hm. destruct (ctimer_tick_single_regs s n now Hok Hm) as (s1 & E & Htk).
  destruct (ctimer_reschedule_some (ctimer_update_irq s1) now) as [d Ed].
  { rewrite (ctimer_freq_hz s); [apply Hok | apply Htk]. }
  rewrite E, Ed, bind_Some. eexists. split; [done|]. split; [by destruct Htk | done].
Qed.

(** ** Running from deadline to deadline *)

Fixpoint ctimer_run (k : nat) (s : MCXNCTimerState) : option (MCXNCTimerState * list ctimer_event) :=
  match k with
  | O => Some (s, [])
  | S k =>
      d ← timer s;
      x ← ctimer_tick s d;
      y ← ctimer_run k (fst x);
      Some (fst y, snd x ++ snd y)
  end.

(** The host time from one tick to the next. *)
Definition tick_wait (s : MCXNCTimerState) (n : Z) : Z :=
  let clocks := if flag (mcr s) (MCR_RST n) && (0 <? (mr s).[n]) then (mr s).[n] * (pr s + 1) else 1 in
  Z.max 1 (clocks * NS_PER_S / ctimer_freq s).

(** A timer that one match keeps alive, within the range of host time. *)
Record ticking (s : MCXNCTimerState) (n : Z) : Prop := {
  tg_ok : ctimer_ok s;
  tg_only : only_match s n;
  tg_run : ctimer_running s = true;
  tg_nostop : flag (mcr s) (MCR_STOP n) = false;
  tg_fit : (mr s).[n] * (pr s + 1) * NS_PER_S < 2 ^ 63;
}.

Lemma ticking_tick s n now :
  ticking s n ->
  exists s', ctimer_tick s now = Some (s', match_events n) /\ ticked s s' n /\ ticking s' n /\
    timer s' = Some (now + tick_wait s n) /\ tick_wait s' n = tick_wait s n.
Proof.
  intros [Hok Hm Hr Hst Hfit]. destruct (ctimer_tick_single_regs s n now Hok Hm) as (s1 & E & Htk).
  destruct Htk as [Htc Hpc Hir Htcr (Hmcr & Hmr & Hpr & Hhz)]. rewrite Hst in Htcr.
  assert (Hmn : in_range 32 (mr s).[n]).
  { destruct Hok as [[[Hl Hv] _ _ _ _] _]. apply Forall_arr_get; [done|]. destruct Hm; lia. }
  assert (Hd : 0 < pr s + 1) by (apply ctimer_div; apply Hok). unfold in_range in Hmn.
  assert (Hok1 : ctimer_ok (ctimer_update_irq s1)).
  { apply (ctimer_ok_drive s s1 (timer s1)); [done | done | | by rewrite Hpc; auto with ranges | done | done].
    rewrite Htc. case_match; auto with ranges. }
  assert (Hck : match_clocks (ctimer_update_irq s1) n =
    if flag (mcr s) (MCR_RST n) && (0 <? (mr s).[n]) then (mr s).[n] * (pr s + 1) else 1).
  { unfold match_clocks, ctimer_dtc. cbn. rewrite Htc, Hmr, Hpr, Hpc.
    destruct (flag (mcr s) (MCR_RST n)); cbn [andb]; zcases; nia. }
  assert (Hdtc : ctimer_dtc (ctimer_update_irq s1) n = if flag (mcr s) (MCR_RST n) then (mr s).[n] else 0).
  { unfold ctimer_dtc. cbn. rewrite Htc, Hmr. destruct (flag (mcr s) (MCR_RST n)); zcases; lia. }
  assert (Hm1 : only_match (ctimer_update_irq s1) n) by (unfold only_match; cbn; by rewrite Hmcr).
  unfold NS_PER_S in Hfit.
  rewrite (ctimer_reschedule_single (ctimer_update_irq s1) n now) in E; [| done | done | | | |].
  - rewrite bind_Some in E. eexists. split; [exact E|]. split; [by split; rewrite ?Hst|]. split; [|split].
    + split; cbn; rewrite ?Hmr, ?Hpr, ?Hmcr; [|exact Hm1 | unfold ctimer_running; cbn; by rewrite Htcr | done | done].
      destruct Hok1 as [[] ?]. done.
    + cbn -[match_clocks NS_PER_S]. unfold tick_wait. rewrite Hck. unfold ctimer_freq. cbn -[NS_PER_S]. by rewrite Hhz.
    + unfold tick_wait, ctimer_freq. cbn. by rewrite Hmcr, Hmr, Hpr, Hhz.
  - unfold ctimer_running. cbn. by rewrite Htcr.
  - rewrite Hck. destruct (_ && _); nia.
  - rewrite Hdtc. cbn. rewrite Hpr. destruct (flag (mcr s) (MCR_RST n)); nia.
  - rewrite Hck. unfold NS_PER_S. destruct (_ && _); nia.
Qed.

Lemma ctimer_run_ticking k s n d :
  ticking s n -> timer s = Some d ->
  exists s', ctimer_run k s = Some (s', concat (replicate k (match_events n))) /\ ticking s' n /\
    timer s' = Some (d + Z.of_nat k * tick_wait s n) /\ mcr s' = mcr s /\ mr s' = mr s /\
    ((0 < k)%nat -> tc s' = (if flag (mcr s) (MCR_RST n) then 0 else (mr s).[n]) /\
       (flag (mcr s) (MCR_INT n) = true -> flag (ir s') (bit n) = true)).
Proof.
  revert s d. induction k as [|k IH]; intros s d Hs Hd.
  { exists s. replace (d + Z.of_nat 0 * _) with d by lia.
    repeat (split; [done|]). intros Hk. lia. }
  destruct (ticking_tick s n d Hs) as (s1 & E1 & Htk & Hs1 & Hd1 & Hw).
  destruct (IH s1 _ Hs1 Hd1) as (s2 & E2 & Hs2 & Hd2 & Hmcr & Hmr & Hlast).
  destruct Htk as [Htc _ Hir _ (Hmcr1 & Hmr1 & _ & _)].
  exists s2. cbn [ctimer_run]. rewrite Hd, bind_Some, E1, bind_Some. cbn [fst snd]. rewrite E2, bind_Some.
  split; [done|]. split; [done|]. split; [rewrite Hd2, Hw; f_equal; lia|].
  split; [congruence|]. split; [congruence|]. intros _. rewrite Hmcr1, Hmr1 in Hlast.
  destruct k as [|k]; [|apply Hlast; lia]. cbn in E2. injection E2 as <-. split; [done|].
  intros Hint. rewrite Hint in Hir. assert (0 <= n) by (destruct (tg_only s n Hs); lia).
  rewrite Hir, flag_bit, Z.lor_spec, testbit_bit, Z.eqb_refl by done. apply orb_true_r.
Qed.

(** A periodic timer keeps its period.  With the reset action the k-th
    tick from the deadline [d] is at d + k * P, where P is the host time of
    MR * (PR + 1) input clocks, and each tick emits its pulses exactly once. *)
Theorem ctimer_periodic k s n d :
  ticking s n -> timer s = Some d -> flag (mcr s) (MCR_RST n) = true -> 0 < (mr s).[n] ->
  let P := Z.max 1 ((mr s).[n] * (pr s + 1) * NS_PER_S / ctimer_freq s) in
  exists s', ctimer_run k s = Some (s', concat (replicate k (match_events n))) /\
    timer s' = Some (d + Z.of_nat k * P) /\ ((0 < k)%nat -> tc s' = 0).
Proof.
  intros Hs Hd Hr Hm P. destruct (ctimer_run_ticking k s n d Hs Hd) as (s' & E & _ & Ht & _ & _ & Hlast).
  exists s'. split; [done|]. rewrite Hr in Hlast. split; [|intros; by apply Hlast].
  rewrite Ht. unfold tick_wait. by rewrite Hr, (proj2 (Z.ltb_lt _ _)).
Qed.

(** A match that only interrupts holds the counter.  Without the reset
    action the host timer is re-armed one input clock later and TC is set back
    to the match value each time: the counter never passes the match, and IR
    is set again on every clock, however often the guest clears it. *)
Theorem ctimer_interrupt_only_match_stalls k s n d :
  ticking s n -> timer s = Some d ->
  flag (mcr s) (MCR_RST n) = false -> flag (mcr s) (MCR_INT n) = true -> (0 < k)%nat ->
  exists s', ctimer_run k s = Some (s', concat (replicate k (match_events n))) /\
    tc s' = (mr s).[n] /\ flag (ir s') (bit n) = true /\
    timer s' = Some (d + Z.of_nat k * Z.max 1 (NS_PER_S / ctimer_freq s)).
Proof.
  intros Hs Hd Hr Hi Hk. destruct (ctimer_run_ticking k s n d Hs Hd) as (s' & E & _ & Ht & _ & _ & Hlast).
  exists s'. split; [done|]. rewrite Hr in Hlast. destruct (Hlast Hk) as [Htc Hint].
  split; [done|]. split; [auto|]. rewrite Ht. unfold tick_wait. rewrite Hr. cbn [andb].
  by rewrite Z.mul_1_l.
Qed.

(** A 48 MHz timer with match 0 at 480, started at time 0. *)
Definition ctimer_started (hz m prescale mctl : Z) : option (MCXNCTimerState * list ctimer_event) :=
  ctimer_execs (ctimer_init hz)
    [(0, TWrite R_MR0 m); (0, TWrite R_PR prescale); (0, TWrite R_MCR mctl); (0, TWrite R_TCR 1)].
Definition started_state (mctl : Z) : MCXNCTimerState :=
  mkCTimer false (Some 10000) 48000000 0 1 0 mctl [480; 0; 0; 0] 0 0 0 0 [0; 0; 0; 0] [0; 0; 0; 0] 0 0 0 false.
Lemma ctimer_started_state : ctimer_started 48000000 480 0 3 = Some (started_state 3, []).
Proof. vm_compute. reflexivity. Qed.
Lemma started_ticking mctl : mctl = 1 \/ mctl = 3 -> ticking (started_state mctl) 0.
Proof.
  intros Hm. split.
  - split; [|split; [reflexivity | done]].
    split; [split; [done|]; repeat constructor; vm_compute; congruence | ..]; done || auto with ranges.
  - split; [lia|]. apply (seqZ_cases (fun j => flag _ (MCR_ANY j) = (j =? 0)) 0 4).
    destruct Hm as [-> | ->]; repeat constructor.
  - reflexivity.
  - by destruct Hm as [-> | ->].
  - destruct Hm as [-> | ->]; reflexivity.
Qed.

Lemma ctimer_match_actions_witness :
  exists s', ctimer_tick (started_state 3) 10000 = Some (s', [DmaReq 0; MatchTrig 0]) /\
    ticked (started_state 3) s' 0 /\ irq s' = negb (ir s' =? 0).
Proof.
  apply (ctimer_match_actions (started_state 3) 0 10000); apply started_ticking; right; reflexivity.
Defined.

Lemma ctimer_periodic_witness :
  exists s', ctimer_run 3 (started_state 3) =
      Some (s', [DmaReq 0; MatchTrig 0; DmaReq 0; MatchTrig 0; DmaReq 0; MatchTrig 0]) /\
    timer s' = Some 40000 /\ tc s' = 0.
Proof.
  destruct (ctimer_periodic 3 (started_state 3) 0 10000) as (s' & E & Ht & Htc).
  - apply started_ticking. right. reflexivity.
  - reflexivity.
  - reflexivity.
  - reflexivity.
  - exists s'. split; [exact E|]. split; [exact Ht | apply Htc; lia].
Defined.

Lemma ctimer_interrupt_only_match_stalls_witness :
  exists s', ctimer_run 3 (started_state 1) =
      Some (s', [DmaReq 0; MatchTrig 0; DmaReq 0; MatchTrig 0; DmaReq 0; MatchTrig 0]) /\
    tc s' = 480 /\ timer s' = Some 10060.
Proof.
  destruct (ctimer_interrupt_only_match_stalls 3 (started_state 1) 0 10000) as (s' & E & Htc & _ & Ht).
  - apply started_ticking. left. reflexivity.
  - reflexivity.
  - reflexivity.
  - reflexivity.
  - lia.
  - exists s'. split; [exact E|]. split; [exact Htc | exact Ht].
Defined.

(** Long timeouts fire early.  The conversion of input clocks to host time
    overflows 64 bits: a 1000 s timeout (48 MHz, prescaler 48000, match
    1000000) is armed for 231 s, and the tick there reports the match. *)
Theorem ctimer_long_timeout_early :
  exists s s', ctimer_started 48000000 1000000 47999 1 = Some (s, []) /\
    timer s = Some 231385663595 /\ ctimer_read s R_TC 231385663595 = Some 231385 /\
    ctimer_tick s 231385663595 = Some (s', [DmaReq 0; MatchTrig 0]) /\ tc s' = 1000000 /\ irq s' = true.
Proof.
  destruct (ctimer_started 48000000 1000000 47999 1) as [[s evs]|] eqn:E; [|by vm_compute in E].
  vm_compute in E. injection E as <- <-.
  eexists _, _. split; [reflexivity|]. split; [vm_compute; reflexivity|].
  split; [vm_compute; reflexivity|]. split; [vm_compute; reflexivity|]. split; vm_compute; reflexivity.
Qed.
