(* ===== verification/Ostimer.v ===== *)
(** * OSTIMER: the operating system event timer

    Model of [hw/timer/mcxn_ostimer.c]: the free-running Gray-coded counter,
    the 42-bit match register written in two halves, the event interrupt and
    the host timer.  As in the other timers the host time is an argument and a
    division by zero is [None]. *)
From S2P Require Import Prelude.

Definition R_EVTIMERL : Z := 0x00.
Definition R_EVTIMERH : Z := 0x04.
Definition R_CAPTURE_L : Z := 0x08.
Definition R_CAPTURE_H : Z := 0x0C.
Definition R_MATCH_L : Z := 0x10.
Definition R_MATCH_H : Z := 0x14.
Definition R_OSEVENT_CTRL : Z := 0x1C.
Definition CTRL_INTRFLAG : Z := bit 0.
Definition CTRL_INTENA : Z := bit 1.
Definition NS_PER_S : Z := 1000000000.

Record MCXNOSTimerState := mkOSTimer {
  irq : bool;
  timer : option Z;
  clk_hz : Z;
  base_count : Z;               (* uint64_t *)
  base_ns : Z;
  match_ : Z;                   (* uint64_t, binary *)
  match_gray_l : Z; match_gray_h : Z;
  ctrl : Z;
  capture_l : Z; capture_h : Z
}.
#[export] Instance ostimer_settable : Settable MCXNOSTimerState := fun s =>
  mkOSTimer (irq s) (timer s) (clk_hz s) (base_count s) (base_ns s) (match_ s) (match_gray_l s)
    (match_gray_h s) (ctrl s) (capture_l s) (capture_h s).

Definition bin_to_gray (n : Z) : Z := n .^ (n .>> 1).

(** [while (g >>= 1) b ^= g]: a 64-bit word is shifted out in 64 rounds. *)
Fixpoint gray_loop (fuel : nat) (g b : Z) : Z :=
  match fuel with
  | O => b
  | S fuel =>
      let g := g .>> 1 in
      if g =? 0 then b else gray_loop fuel g (b .^ g)
  end.
Definition gray_to_bin (g : Z) : Z := gray_loop 64 g g.

Definition ostimer_freq (s : MCXNOSTimerState) : Z := u32 (clk_hz s).

Definition ostimer_count (s : MCXNOSTimerState) (now : Z) : Z :=
  let elapsed := if base_ns s <? now then now - base_ns s else 0 in
  u64 (base_count s + u64 (elapsed * ostimer_freq s) / NS_PER_S).

Definition ostimer_update_irq (s : MCXNOSTimerState) : MCXNOSTimerState :=
  s <| irq := flag (ctrl s) CTRL_INTRFLAG && flag (ctrl s) CTRL_INTENA |>.

Definition ostimer_reschedule (s : MCXNOSTimerState) (now : Z) : option MCXNOSTimerState :=
  let cur := ostimer_count s now in
  let s := s <| timer := None |> in
  if negb (flag (ctrl s) CTRL_INTENA) || (match_ s <=? cur) then Some s
  else
    ns ← cdiv (u64 ((match_ s - cur) * NS_PER_S)) (ostimer_freq s);
    Some (s <| timer := Some (now + swrap 64 ns) |>).

Definition ostimer_tick (s : MCXNOSTimerState) : MCXNOSTimerState :=
  ostimer_update_irq (s <| ctrl := ctrl s .| CTRL_INTRFLAG |>).

Definition mcxn_ostimer_read (s : MCXNOSTimerState) (off now : Z) : Z :=
  if off =? R_EVTIMERL then bin_to_gray (ostimer_count s now) .& 0xFFFFFFFF
  else if off =? R_EVTIMERH then (bin_to_gray (ostimer_count s now) .>> 32) .& 0x3FF
  else if off =? R_CAPTURE_L then capture_l s
  else if off =? R_CAPTURE_H then capture_h s
  else if off =? R_MATCH_L then bin_to_gray (match_ s) .& 0xFFFFFFFF
  else if off =? R_MATCH_H then (bin_to_gray (match_ s) .>> 32) .& 0x3FF
  else if off =? R_OSEVENT_CTRL then ctrl s
  else 0.

Definition ostimer_load_match (s : MCXNOSTimerState) : MCXNOSTimerState :=
  s <| match_ := gray_to_bin ((match_gray_h s .<< 32) .| match_gray_l s) |>.

Definition mcxn_ostimer_write (s : MCXNOSTimerState) (off val now : Z) : option MCXNOSTimerState :=
  let v := u32 val in
  if off =? R_MATCH_L then ostimer_reschedule (ostimer_load_match (s <| match_gray_l := v |>)) now
  else if off =? R_MATCH_H then ostimer_reschedule (ostimer_load_match (s <| match_gray_h := v .& 0x3FF |>)) now
  else if off =? R_OSEVENT_CTRL then
    let s := if flag v CTRL_INTRFLAG then s <| ctrl := ctrl s .& u32 (.~ CTRL_INTRFLAG) |> else s in
    let s := s <| ctrl := (ctrl s .& CTRL_INTRFLAG) .| (v .& CTRL_INTENA) |> in
    ostimer_reschedule (ostimer_update_irq s) now
  else Some s.

Definition mcxn_ostimer_reset (s : MCXNOSTimerState) (now : Z) : MCXNOSTimerState :=
  ostimer_load_match
    (s <| timer := None |> <| base_count := 0 |> <| base_ns := now |>
       <| match_gray_l := 0xFFFFFFFF |> <| match_gray_h := 0x3FF |>
       <| ctrl := 0 |> <| capture_l := 0 |> <| capture_h := 0 |>).

Definition mcxn_ostimer_post_load (s : MCXNOSTimerState) : MCXNOSTimerState := ostimer_update_irq s.

Definition ostimer_init (hz now : Z) : MCXNOSTimerState :=
  mcxn_ostimer_reset (mkOSTimer false None hz 0 0 0 0 0 0 0 0) now.

(** ** Gray code *)

Lemma gray_loop_acc fuel g b : gray_loop fuel g b = b .^ gray_loop fuel g 0.
Proof.
  revert g b. induction fuel as [|fuel IH]; intros g b; cbn [gray_loop]; [by rewrite Z.lxor_0_r|].
  case_match; [by rewrite Z.lxor_0_r|]. rewrite IH, (IH _ (0 .^ _)), Z.lxor_0_l. by rewrite Z.lxor_assoc.
Qed.

(** One round: the top bits are decoded first. *)
Lemma gray_loop_S fuel g : gray_loop (S fuel) g g = g .^ gray_loop fuel (g .>> 1) (g .>> 1).
Proof.
  cbn [gray_loop]. destruct (Z.eqb_spec (g .>> 1) 0) as [->|].
  - assert (E : gray_loop fuel 0 0 = 0) by (by destruct fuel). by rewrite E, Z.lxor_0_r.
  - rewrite gray_loop_acc, (gray_loop_acc fuel (g .>> 1) (g .>> 1)). by rewrite Z.lxor_assoc.
Qed.

Lemma shiftr_1_range (f : nat) n : 0 <= n < 2 ^ Z.of_nat (S f) -> 0 <= n .>> 1 < 2 ^ Z.of_nat f.
Proof.
  intros Hn. rewrite Z.shiftr_div_pow2 by lia. change (2 ^ 1) with 2.
  assert (E : 2 ^ Z.of_nat (S f) = 2 * 2 ^ Z.of_nat f) by (rewrite <- Z.pow_succ_r by lia; f_equal; lia).
  split; [apply Z.div_pos; lia | apply Z.div_lt_upper_bound; lia].
Qed.

Lemma bin_to_gray_shr n : bin_to_gray n .>> 1 = bin_to_gray (n .>> 1).
Proof. unfold bin_to_gray. by rewrite Z.shiftr_lxor. Qed.

Lemma gray_decode fuel n : 0 <= n < 2 ^ Z.of_nat fuel -> gray_loop fuel (bin_to_gray n) (bin_to_gray n) = n.
Proof.
  revert n. induction fuel as [|f IH]; intros n Hn.
  { replace n with 0 by (cbn in Hn; lia). done. }
  rewrite gray_loop_S, bin_to_gray_shr, IH by (by apply shiftr_1_range).
  unfold bin_to_gray. rewrite Z.lxor_assoc, Z.lxor_nilpotent. apply Z.lxor_0_r.
Qed.

Lemma gray_encode fuel g : 0 <= g < 2 ^ Z.of_nat fuel -> bin_to_gray (gray_loop fuel g g) = g.
Proof.
  revert g. induction fuel as [|f IH]; intros g Hg.
  { replace g with 0 by (cbn in Hg; lia). done. }
  rewrite gray_loop_S. specialize (IH _ (shiftr_1_range f g Hg)).
  set (b := gray_loop f (g .>> 1) (g .>> 1)) in *. unfold bin_to_gray in *.
  rewrite Z.shiftr_lxor, <- IH. clear. bitwise.
Qed.

Lemma gray_range w n : 0 <= w -> in_range w n -> in_range w (bin_to_gray n).
Proof. intros. unfold bin_to_gray. auto with ranges. Qed.

(** The two conversions are inverse to each other on 64-bit words. *)
Theorem gray_roundtrip n :
  in_range 64 n -> gray_to_bin (bin_to_gray n) = n /\ bin_to_gray (gray_to_bin n) = n.
Proof. intros Hn. split; [by apply gray_decode | by apply gray_encode]. Qed.
Lemma gray_roundtrip_42 n :
  in_range 42 n -> gray_to_bin (bin_to_gray n) = n /\ bin_to_gray (gray_to_bin n) = n.
Proof.
  intros Hn. assert (in_range 64 n) by (eapply in_range_mono; [|done]; lia).
  split; [by apply gray_decode | by apply gray_encode].
Qed.
#[local] Opaque gray_to_bin.

(** ** The match register *)

Definition ostimer_wf (s : MCXNOSTimerState) : Prop :=
  in_range 32 (match_gray_l s) /\ in_range 10 (match_gray_h s) /\
  match_ s = gray_to_bin ((match_gray_h s .<< 32) .| match_gray_l s) /\
  irq s = flag (ctrl s) CTRL_INTRFLAG && flag (ctrl s) CTRL_INTENA.

(** Two halves of a 42-bit word. *)
Lemma halves_range h l : in_range 10 h -> in_range 32 l -> in_range 42 ((h .<< 32) .| l).
Proof.
  intros Hh Hl. apply in_range_lor; [lia | | eapply in_range_mono; [|done]; lia].
  unfold in_range in *. rewrite Z.shiftl_mul_pow2 by lia. change (2 ^ 42) with (2 ^ 10 * 2 ^ 32). lia.
Qed.
Lemma halves_low h l : in_range 32 l -> ((h .<< 32) .| l) .& 0xFFFFFFFF = l.
Proof.
  intros Hl. change 0xFFFFFFFF with (Z.ones 32). apply Z.bits_inj'. intros i Hi. autorewrite with bits.
  destruct (Z.ltb_spec i 32).
  - by rewrite (Z.testbit_neg_r h), andb_true_r by lia.
  - rewrite andb_false_r. symmetry. apply (testbit_range 32); [apply Hl | lia].
Qed.
Lemma halves_high h l : in_range 10 h -> in_range 32 l -> (((h .<< 32) .| l) .>> 32) .& 0x3FF = h.
Proof.
  intros Hh Hl. change 0x3FF with (Z.ones 10). apply Z.bits_inj'. intros i Hi. autorewrite with bits.
  rewrite (testbit_range 32 l) by (apply Hl || lia). rewrite orb_false_r.
  replace (i + 32 - 32) with i by lia. destruct (Z.ltb_spec i 10); [apply andb_true_r|].
  rewrite andb_false_r. symmetry. apply (testbit_range 10); [apply Hh | lia].
Qed.

Lemma gray_match_reads s :
  ostimer_wf s ->
  bin_to_gray (match_ s) = (match_gray_h s .<< 32) .| match_gray_l s.
Proof.
  intros (Hl & Hh & Hm & _). rewrite Hm. by apply gray_roundtrip_42, halves_range.
Qed.

(** Re-arming touches only the host timer. *)
Lemma ostimer_reschedule_some s now :
  0 < ostimer_freq s -> exists d, ostimer_reschedule s now = Some (s <| timer := d |>).
Proof.
  intros Hf. unfold ostimer_reschedule. cbv zeta. destruct (_ || _); [by eexists|].
  unfold cdiv. change (ostimer_freq (s <| timer := None |>)) with (ostimer_freq s).
  rewrite (proj2 (Z.eqb_neq _ 0)) by lia. rewrite bind_Some. by eexists.
Qed.

Lemma ostimer_write_match_l s v now :
  0 < ostimer_freq s -> in_range 32 v ->
  exists d, mcxn_ostimer_write s R_MATCH_L v now =
    Some ((ostimer_load_match (s <| match_gray_l := v |>)) <| timer := d |>).
Proof.
  intros Hf Hv. unfold mcxn_ostimer_write. rewrite Z.eqb_refl, (wrap_in_range 32) by done.
  by apply ostimer_reschedule_some.
Qed.
Lemma ostimer_write_match_h s v now :
  0 < ostimer_freq s -> in_range 10 v ->
  exists d, mcxn_ostimer_write s R_MATCH_H v now =
    Some ((ostimer_load_match (s <| match_gray_h := v |>)) <| timer := d |>).
Proof.
  intros Hf Hv. unfold mcxn_ostimer_write. change (R_MATCH_H =? R_MATCH_L) with false.
  rewrite Z.eqb_refl, (wrap_in_range 32) by (eapply in_range_mono; [|done]; lia).
  assert (Hv' : v .& 0x3FF = v).
  { change 0x3FF with (Z.ones 10). rewrite Z.land_ones by lia. by apply (wrap_in_range 10). }
  rewrite Hv'. by apply ostimer_reschedule_some.
Qed.
Lemma ostimer_read_match s now :
  mcxn_ostimer_read s R_MATCH_L now = bin_to_gray (match_ s) .& 0xFFFFFFFF /\
  mcxn_ostimer_read s R_MATCH_H now = (bin_to_gray (match_ s) .>> 32) .& 0x3FF.
Proof. done. Qed.

(** The Gray code of a 42-bit value splits into its halves. *)
Lemma gray_halves n :
  in_range 42 n ->
  let l := bin_to_gray n .& 0xFFFFFFFF in
  let h := bin_to_gray n .>> 32 in
  in_range 32 l /\ in_range 10 h /\ (h .<< 32) .| l = bin_to_gray n.
Proof.
  intros Hn l h. pose proof (gray_range 42 n ltac:(lia) Hn) as Hg.
  split; [apply in_range_land_r; [lia | split; done]|]. split.
  - unfold h, in_range in *. rewrite Z.shiftr_div_pow2 by lia. split; [apply Z.div_pos; lia|].
    apply Z.div_lt_upper_bound; [lia|]. change (2 ^ 32 * 2 ^ 10) with (2 ^ 42). lia.
  - unfold h, l. change 0xFFFFFFFF with (Z.ones 32). apply Z.bits_inj'. intros i Hi. autorewrite with bits.
    destruct (Z.ltb_spec i 32); [by rewrite Z.testbit_neg_r, andb_true_r by lia|].
    rewrite Z.shiftr_spec by lia. replace (i - 32 + 32) with i by lia. by rewrite andb_false_r, orb_false_r.
Qed.

(** The match value round-trips through its Gray-coded halves.  After
    software writes the Gray code of a 42-bit value to MATCH_L and MATCH_H, the
    timer compares with exactly that value, and both registers read back what
    was written. *)
Theorem ostimer_match_roundtrip s n now :
  0 < ostimer_freq s -> in_range 42 n ->
  exists s1 s2,
    mcxn_ostimer_write s R_MATCH_L (bin_to_gray n .& 0xFFFFFFFF) now = Some s1 /\
    mcxn_ostimer_write s1 R_MATCH_H (bin_to_gray n .>> 32) now = Some s2 /\
    match_ s2 = n /\
    mcxn_ostimer_read s2 R_MATCH_L now = bin_to_gray n .& 0xFFFFFFFF /\
    mcxn_ostimer_read s2 R_MATCH_H now = bin_to_gray n .>> 32.
Proof.
  intros Hf Hn. destruct (gray_halves n Hn) as (Hl & Hh & Hgl).
  generalize dependent (bin_to_gray n .& 0xFFFFFFFF). generalize dependent (bin_to_gray n .>> 32).
  intros h Hh l Hl Hgl.
  destruct (ostimer_write_match_l s l now Hf Hl) as [d1 E1].
  assert (Hf1 : 0 < ostimer_freq ((ostimer_load_match (s <| match_gray_l := l |>)) <| timer := d1 |>)) by exact Hf.
  destruct (ostimer_write_match_h _ h now Hf1 Hh) as [d2 E2].
  do 2 eexists. split; [exact E1|]. split; [exact E2|].
  assert (Hm : gray_to_bin ((h .<< 32) .| l) = n).
  { rewrite Hgl. by apply gray_roundtrip_42. }
  split; [exact Hm|].
  match goal with |- mcxn_ostimer_read ?x _ _ = _ /\ _ =>
    destruct (ostimer_read_match x now) as [-> ->]; change (match_ x) with (gray_to_bin ((h .<< 32) .| l)) end.
  rewrite Hm, <- Hgl. split; [by apply halves_low | by apply halves_high].
Qed.

Lemma ostimer_match_roundtrip_witness :
  exists s1 s2,
    mcxn_ostimer_write (ostimer_init 1000000 0) R_MATCH_L (bin_to_gray 0x212345678 .& 0xFFFFFFFF) 5 = Some s1 /\
    mcxn_ostimer_write s1 R_MATCH_H (bin_to_gray 0x212345678 .>> 32) 5 = Some s2 /\ match_ s2 = 0x212345678.
Proof.
  destruct (ostimer_match_roundtrip (ostimer_init 1000000 0) 0x212345678 5) as (s1 & s2 & E1 & E2 & E3 & _).
  - reflexivity.
  - split; vm_compute; congruence.
  - exists s1, s2. split; [exact E1|]. split; [exact E2 | exact E3].
Defined.

(** ** The event *)

(** Counts elapsed since reset, without wrap-around. *)
Definition elapsed_counts (s : MCXNOSTimerState) (now : Z) : Z :=
  (now - base_ns s) * ostimer_freq s / NS_PER_S.

Lemma ostimer_count_exact s now :
  base_count s = 0 -> base_ns s <= now -> (now - base_ns s) * ostimer_freq s < 2 ^ 64 ->
  ostimer_count s now = elapsed_counts s now.
Proof.
  intros Hb Hnow Hov. assert (0 <= ostimer_freq s) by (apply wrap_range; lia).
  assert (Hp : 0 <= (now - base_ns s) * ostimer_freq s) by (apply Z.mul_nonneg_nonneg; lia).
  unfold ostimer_count. cbv zeta.
  replace (if base_ns s <? now then now - base_ns s else 0) with (now - base_ns s) by (zcases; lia).
  rewrite (wrap_id 64 (_ * _)) by lia. fold (elapsed_counts s now). rewrite Hb. apply wrap_id.
  unfold elapsed_counts, NS_PER_S. split; [apply Z.div_pos; lia|]. apply Z.div_lt_upper_bound; lia.
Qed.

(** Rounding both ways loses at most one count. *)
Lemma count_at_deadline f E k N :
  0 < f <= N -> 0 <= k ->
  let d := k * N / f in
  E * f / N + k - 1 <= (E + d) * f / N <= E * f / N + k.
Proof.
  intros Hf Hk d.
  pose proof (Z.div_mod (E * f) N ltac:(lia)) as D1. pose proof (Z.mod_pos_bound (E * f) N ltac:(lia)) as R1.
  pose proof (Z.div_mod (k * N) f ltac:(lia)) as D2. fold d in D2.
  pose proof (Z.mod_pos_bound (k * N) f ltac:(lia)) as R2.
  set (c := E * f / N) in *.
  assert (Hsum : (E + d) * f = N * (c + k) + (E * f mod N - k * N mod f)) by lia.
  split; [apply Z.div_le_lower_bound; lia | apply Z.lt_succ_r, Z.div_lt_upper_bound; lia].
Qed.

(** The event is on time.  When the interrupt is enabled for a match in the
    future, the host timer is armed so that at its deadline the counter has
    reached the match value or is one count short of it; the tick then sets the
    flag and raises the interrupt line. *)
Theorem ostimer_event_on_time s now :
  let f := ostimer_freq s in
  let k := match_ s - ostimer_count s now in
  let d := k * NS_PER_S / f in
  base_count s = 0 -> 0 < f <= NS_PER_S -> base_ns s <= now -> 0 < k ->
  flag (ctrl s) CTRL_INTENA = true ->
  (now + d - base_ns s) * f < 2 ^ 64 -> k * NS_PER_S < 2 ^ 63 ->
  exists s', ostimer_reschedule s now = Some s' /\ timer s' = Some (now + d) /\
    match_ s - 1 <= ostimer_count s' (now + d) <= match_ s /\ irq (ostimer_tick s') = true.
Proof.
  intros f k d Hb Hf Hnow Hk Hen Hov Hov2.
  assert (HN : NS_PER_S = 1000000000) by done.
  assert (Hd : 0 <= d) by (apply Z.div_pos; lia).
  assert (Hge : (now - base_ns s) * f <= (now + d - base_ns s) * f) by (apply Z.mul_le_mono_nonneg_r; lia).
  pose proof (count_at_deadline f (now - base_ns s) k NS_PER_S ltac:(lia) ltac:(lia)) as Hq. fold d in Hq.
  assert (Hc : ostimer_count s now = (now - base_ns s) * f / NS_PER_S).
  { apply ostimer_count_exact; [done | done | fold f; lia]. }
  assert (Hdk : d < 2 ^ 63) by (apply Z.div_lt_upper_bound; nia).
  assert (Er : ostimer_reschedule s now = Some (s <| timer := Some (now + d) |>)).
  { unfold ostimer_reschedule. cbv zeta. change (ctrl (s <| timer := None |>)) with (ctrl s).
    change (match_ (s <| timer := None |>)) with (match_ s). rewrite Hen.
    rewrite (proj2 (Z.leb_gt _ _)) by lia. cbn [negb orb]. fold k. rewrite wrap_id by lia.
    unfold cdiv. change (ostimer_freq (s <| timer := None |>)) with f.
    rewrite (proj2 (Z.eqb_neq _ 0)) by lia. rewrite bind_Some. fold d. by rewrite swrap_small by lia. }
  eexists. split; [exact Er|]. split; [done|].
  change (ostimer_count (s <| timer := Some (now + d) |>) (now + d)) with (ostimer_count s (now + d)).
  rewrite (ostimer_count_exact s (now + d)) by (fold f; lia). unfold elapsed_counts. fold f.
  replace (now + d - base_ns s) with (now - base_ns s + d) by lia.
  split; [unfold k in *; lia|].
  unfold ostimer_tick, ostimer_update_irq. cbn -[flag Z.lor]. unfold CTRL_INTENA, CTRL_INTRFLAG in *.
  rewrite flag_bit in * by lia. rewrite flag_bit by lia. rewrite !Z.lor_spec, Hen. cbn. by rewrite orb_true_r.
Qed.

Definition ostimer_armed : MCXNOSTimerState :=
  (ostimer_init 1000000 0) <| match_ := 500 |> <| ctrl := CTRL_INTENA |>.
Lemma ostimer_event_on_time_witness :
  exists s', ostimer_reschedule ostimer_armed 1234 = Some s' /\ timer s' = Some 500234 /\
    499 <= ostimer_count s' 500234 <= 500.
Proof.
  destruct (ostimer_event_on_time ostimer_armed 1234) as (s' & E & Ht & Hc & _).
  - reflexivity.
  - vm_compute. split; congruence.
  - vm_compute. congruence.
  - reflexivity.
  - reflexivity.
  - reflexivity.
  - reflexivity.
  - exists s'. split; [exact E|]. split; [exact Ht | exact Hc].
Defined.

(** Enabling the event without a clock divides by zero: the match register
    resets to all ones, so the very first enable does it. *)
Theorem ostimer_no_clock_traps s now v :
  ostimer_freq s = 0 -> 0 < match_ s -> base_count s = 0 -> flag v CTRL_INTENA = true -> 0 <= v < 2 ^ 32 ->
  mcxn_ostimer_write s R_OSEVENT_CTRL v now = None.
Proof.
  intros Hf Hm Hb Hv Hr. unfold mcxn_ostimer_write. change (R_OSEVENT_CTRL =? R_MATCH_L) with false.
  change (R_OSEVENT_CTRL =? R_MATCH_H) with false. rewrite Z.eqb_refl. cbv zeta iota. rewrite wrap_id by lia.
  assert (Hres : forall s', ostimer_freq s' = 0 -> 0 < match_ s' -> base_count s' = 0 ->
    flag (ctrl s') CTRL_INTENA = true -> ostimer_reschedule s' now = None).
  { clear. intros s Hf Hm Hb He. unfold ostimer_reschedule. cbv zeta.
    change (ctrl (s <| timer := None |>)) with (ctrl s). change (match_ (s <| timer := None |>)) with (match_ s).
    assert (Hc : ostimer_count s now = 0).
    { unfold ostimer_count. rewrite Hf, Hb, Z.mul_0_r. done. }
    rewrite Hc, He, (proj2 (Z.leb_gt _ _)) by lia. cbn [negb orb].
    change (ostimer_freq (s <| timer := None |>)) with (ostimer_freq s). by rewrite Hf. }
  apply Hres; [by case_match | by case_match | by case_match |].
  unfold ostimer_update_irq. cbn -[flag Z.land Z.lor]. unfold CTRL_INTENA in *.
  rewrite flag_bit in * by lia. rewrite Z.lor_spec, !Z.land_spec, Hv. apply orb_true_r.
Qed.
Lemma ostimer_no_clock_traps_witness :
  mcxn_ostimer_write (ostimer_init 0 5) R_OSEVENT_CTRL CTRL_INTENA 7 = None.
Proof.
  apply (ostimer_no_clock_traps (ostimer_init 0 5) 7 CTRL_INTENA);
    first [reflexivity | vm_compute; split; congruence].
Defined.

(** The product of elapsed time and frequency overflows 64 bits: after 5.1
    hours at 1 MHz the counter of a running system falls back to zero. *)
Theorem ostimer_count_goes_backwards :
  let s := ostimer_init 1000000 0 in
  ostimer_count s 18446744073709 = 18446744073 /\ ostimer_count s 18446744073710 = 0.
Proof. vm_compute. auto. Qed.
