(* ===== verification/Mrt.v ===== *)
(** * MRT: the four-channel multi-rate timer

    Model of [hw/timer/mcxn_mrt.c]: the down-counting channels with their
    interval, mode and status registers, the shared interrupt and the host
    timer that is armed for the channel that expires first. *)
From S2P Require Import Prelude.

Definition CH_INTVAL : Z := 0x0.
Definition CH_TIMER : Z := 0x4.
Definition CH_CTRL : Z := 0x8.
Definition CH_STAT : Z := 0xC.
Definition CH_STRIDE : Z := 0x10.
Definition R_MODCFG : Z := 0xF0.
Definition R_IDLE_CH : Z := 0xF4.
Definition R_IRQ_FLAG : Z := 0xF8.
Definition INTVAL_LOAD : Z := bit 31.
Definition INTVAL_IVALUE : Z := 0x7FFFFFFF.
Definition CTRL_INTEN : Z := bit 0.
Definition CTRL_MODE : Z := 3 .<< 1.
Definition MODE_REPEAT : Z := 0.
Definition STAT_INTFLAG : Z := bit 0.
Definition STAT_RUN : Z := bit 1.
Definition MCXN_MRT_CHANNELS : Z := 4.
Definition UINT64_MAX : Z := 2 ^ 64 - 1.
Definition NS_PER_S : Z := 1000000000.

Record MCXNMRTState := mkMRT {
  irq : bool;
  timer : option Z;
  clk_hz : Z;
  intval : list Z; ctrl : list Z; stat : list Z; load : list Z;
  base_ns : list Z
}.
#[export] Instance mrt_settable : Settable MCXNMRTState := fun s =>
  mkMRT (irq s) (timer s) (clk_hz s) (intval s) (ctrl s) (stat s) (load s) (base_ns s).

Definition mrt_freq (s : MCXNMRTState) : Z := u32 (clk_hz s).

Definition mrt_peek (s : MCXNMRTState) (n now : Z) : Z :=
  if negb (flag ((stat s).[n]) STAT_RUN) || (now <=? (base_ns s).[n]) then (load s).[n]
  else
    let elapsed := u64 (now - (base_ns s).[n]) in
    let counts := u64 (elapsed * mrt_freq s) / NS_PER_S in
    if (load s).[n] <=? counts then 0 else u32 ((load s).[n] - u32 counts).

Definition mrt_level (s : MCXNMRTState) : bool :=
  existsb (fun n => flag ((stat s).[n]) STAT_INTFLAG && flag ((ctrl s).[n]) CTRL_INTEN) (seqZ 0 MCXN_MRT_CHANNELS).
Definition mrt_update_irq (s : MCXNMRTState) : MCXNMRTState := s <| irq := mrt_level s |>.

Fixpoint mrt_best (ns : list Z) (s : MCXNMRTState) (now best : Z) : option Z :=
  match ns with
  | [] => Some best
  | n :: ns =>
      if negb (flag ((stat s).[n]) STAT_RUN) then mrt_best ns s now best
      else
        t ← cdiv (u64 (mrt_peek s n now * NS_PER_S)) (mrt_freq s);
        mrt_best ns s now (if t <? best then t else best)
  end.

Definition mrt_reschedule (s : MCXNMRTState) (now : Z) : option MCXNMRTState :=
  let s := s <| timer := None |> in
  best ← mrt_best (seqZ 0 MCXN_MRT_CHANNELS) s now UINT64_MAX;
  Some (if best =? UINT64_MAX then s
        else s <| timer := Some (now + swrap 64 (if best =? 0 then 1 else best)) |>).

(** A channel that has counted down: flag it, then reload or stop. *)
Definition mrt_expire (s : MCXNMRTState) (n now : Z) : MCXNMRTState :=
  let s := s <| stat := (stat s).[n <- (stat s).[n] .| STAT_INTFLAG] |> in
  if (((ctrl s).[n] .& CTRL_MODE) .>> 1 =? MODE_REPEAT) && negb ((intval s).[n] =? 0) then
    s <| load := (load s).[n <- (intval s).[n] .& INTVAL_IVALUE] |>
      <| base_ns := (base_ns s).[n <- now] |>
  else
    s <| stat := (stat s).[n <- (stat s).[n] .& u32 (.~ STAT_RUN)] |>
      <| load := (load s).[n <- 0] |>.

Definition mrt_tick_channel (now : Z) (s : MCXNMRTState) (n : Z) : MCXNMRTState :=
  if negb (flag ((stat s).[n]) STAT_RUN) then s
  else if mrt_peek s n now =? 0 then mrt_expire s n now else s.

Definition mrt_tick (s : MCXNMRTState) (now : Z) : option MCXNMRTState :=
  let s := foldl (mrt_tick_channel now) s (seqZ 0 MCXN_MRT_CHANNELS) in
  mrt_reschedule (mrt_update_irq s) now.

(** The first idle channel, 0 if there is none. *)
Fixpoint mrt_first_idle (ns : list Z) (s : MCXNMRTState) : Z :=
  match ns with
  | [] => 0
  | n :: ns => if negb (flag ((stat s).[n]) STAT_RUN) then n else mrt_first_idle ns s
  end.

Definition mrt_read (s : MCXNMRTState) (off now : Z) : Z :=
  if off <? CH_STRIDE * MCXN_MRT_CHANNELS then
    let n := off / CH_STRIDE in
    let r := off mod CH_STRIDE in
    if r =? CH_INTVAL then (intval s).[n] .& INTVAL_IVALUE
    else if r =? CH_TIMER then mrt_peek s n now
    else if r =? CH_CTRL then (ctrl s).[n]
    else if r =? CH_STAT then (stat s).[n]
    else 0
  else if off =? R_IDLE_CH then mrt_first_idle (seqZ 0 MCXN_MRT_CHANNELS) s .<< 4
  else if off =? R_IRQ_FLAG then
    foldl (fun f n => if flag ((stat s).[n]) STAT_INTFLAG then f .| bit n else f) 0 (seqZ 0 MCXN_MRT_CHANNELS)
  else 0.

Definition mrt_write (s : MCXNMRTState) (off val now : Z) : option MCXNMRTState :=
  let v := u32 val in
  if off <? CH_STRIDE * MCXN_MRT_CHANNELS then
    let n := off / CH_STRIDE in
    let r := off mod CH_STRIDE in
    if r =? CH_INTVAL then
      let s := s <| intval := (intval s).[n <- v] |> in
      let s :=
        if flag v INTVAL_LOAD || negb (flag ((stat s).[n]) STAT_RUN) then
          let s := s <| load := (load s).[n <- v .& INTVAL_IVALUE] |>
                     <| base_ns := (base_ns s).[n <- now] |> in
          if negb ((load s).[n] =? 0)
          then s <| stat := (stat s).[n <- (stat s).[n] .| STAT_RUN] |>
          else s <| stat := (stat s).[n <- (stat s).[n] .& u32 (.~ STAT_RUN)] |>
        else s in
      mrt_reschedule s now
    else if r =? CH_CTRL then Some (mrt_update_irq (s <| ctrl := (ctrl s).[n <- v .& 0x7] |>))
    else if r =? CH_STAT then
      let s := if flag v STAT_INTFLAG
               then s <| stat := (stat s).[n <- (stat s).[n] .& u32 (.~ STAT_INTFLAG)] |> else s in
      Some (mrt_update_irq s)
    else Some s
  else Some s.

Definition mcxn_mrt_reset (s : MCXNMRTState) : MCXNMRTState :=
  mkMRT (irq s) None (clk_hz s) (replicate 4 0) (replicate 4 0) (replicate 4 0) (replicate 4 0) (replicate 4 0).
Definition mcxn_mrt_post_load (s : MCXNMRTState) : MCXNMRTState := mrt_update_irq s.
Definition mrt_init (hz : Z) : MCXNMRTState := mcxn_mrt_reset (mkMRT false None hz [] [] [] [] []).

(** ** Invariant *)

Definition mrt_lens (s : MCXNMRTState) : Prop :=
  zlen (stat s) = 4 /\ zlen (load s) = 4 /\ zlen (base_ns s) = 4 /\ zlen (ctrl s) = 4 /\ zlen (intval s) = 4.

Record mrt_wf (s : MCXNMRTState) : Prop := {
  wf_len : mrt_lens s;
  wf_load : Forall (in_range 31) (load s);
  wf_irq : irq s = mrt_level s;
}.

Lemma mrt_best_some ns s now best : 0 < mrt_freq s -> exists b, mrt_best ns s now best = Some b.
Proof.
  intros Hf. revert best. induction ns as [|n ns IH]; intros best; [by eexists|]. cbn [mrt_best].
  destruct (negb _); [apply IH|]. unfold cdiv. rewrite (proj2 (Z.eqb_neq _ 0)) by lia.
  rewrite bind_Some. apply IH.
Qed.

Lemma mrt_reschedule_some s now :
  0 < mrt_freq s -> exists d, mrt_reschedule s now = Some (s <| timer := d |>).
Proof.
  intros Hf. unfold mrt_reschedule. cbv zeta.
  assert (Hf' : 0 < mrt_freq (s <| timer := None |>)) by exact Hf.
  destruct (mrt_best_some (seqZ 0 MCXN_MRT_CHANNELS) _ now UINT64_MAX Hf') as [b ->].
  rewrite bind_Some. destruct (b =? UINT64_MAX); by eexists.
Qed.

(** ** One tick *)

(** The three registers of a channel that a tick changes. *)
Definition chan (s : MCXNMRTState) (n : Z) : Z * Z * Z := ((stat s).[n], (load s).[n], (base_ns s).[n]).

(** Channel [n] has counted its load down to zero. *)
Definition mrt_due (s : MCXNMRTState) (n now : Z) : bool :=
  flag ((stat s).[n]) STAT_RUN && (mrt_peek s n now =? 0).

Definition repeats (s : MCXNMRTState) (n : Z) : bool :=
  (((ctrl s).[n] .& CTRL_MODE) .>> 1 =? MODE_REPEAT) && negb ((intval s).[n] =? 0).

(** What a tick does to a channel. *)
Definition chan_ticked (s : MCXNMRTState) (n now : Z) : Z * Z * Z :=
  if negb (mrt_due s n now) then chan s n
  else if repeats s n then ((stat s).[n] .| STAT_INTFLAG, (intval s).[n] .& INTVAL_IVALUE, now)
  else (((stat s).[n] .| STAT_INTFLAG) .& u32 (.~ STAT_RUN), 0, (base_ns s).[n]).

Lemma mrt_tick_channel_eq s n now :
  mrt_tick_channel now s n = if mrt_due s n now then mrt_expire s n now else s.
Proof. unfold mrt_tick_channel, mrt_due. by destruct (flag _ STAT_RUN). Qed.

Lemma mrt_expire_chan s n now :
  mrt_lens s -> 0 <= n < 4 ->
  let s' := mrt_expire s n now in
  mrt_lens s' /\ ctrl s' = ctrl s /\ intval s' = intval s /\ clk_hz s' = clk_hz s /\
  forall j, 0 <= j < 4 ->
    chan s' j = if j =? n
                then (if repeats s n then ((stat s).[n] .| STAT_INTFLAG, (intval s).[n] .& INTVAL_IVALUE, now)
                      else (((stat s).[n] .| STAT_INTFLAG) .& u32 (.~ STAT_RUN), 0, (base_ns s).[n]))
                else chan s j.
Proof.
  intros (Hs & Hl & Hb & Hc & Hi) Hn. cbv zeta. unfold mrt_expire, repeats, mrt_lens. cbv zeta.
  change (ctrl (s <| stat := _ |>)) with (ctrl s). change (intval (s <| stat := _ |>)) with (intval s).
  unfold chan. destruct (_ && _);
    cbn -[arr_get arr_set Z.land Z.lor wrap bit STAT_INTFLAG STAT_RUN INTVAL_IVALUE];
    rewrite ?length_arr_set, ?(arr_set_set (stat s)); (do 4 (split; [done|])); intros j Hj;
    rewrite !arr_get_set by (rewrite ?length_arr_set; lia);
    rewrite ?arr_get_set by (rewrite ?length_arr_set; lia); rewrite ?Z.eqb_refl;
    destruct (Z.eqb_spec j n) as [->|]; rewrite ?Z.eqb_refl; done.
Qed.

(** Channels are independent: what a tick does to one depends on it alone. *)
Lemma chan_ticked_ext s s' j now :
  chan s' j = chan s j -> ctrl s' = ctrl s -> intval s' = intval s -> clk_hz s' = clk_hz s ->
  chan_ticked s' j now = chan_ticked s j now.
Proof.
  unfold chan. intros E Hc Hi Hk. injection E as Es El Eb.
  unfold chan_ticked, mrt_due, mrt_peek, repeats, mrt_freq, chan. by rewrite Es, El, Eb, Hc, Hi, Hk.
Qed.

Lemma mrt_tick_channel_chan s n now :
  mrt_lens s -> 0 <= n < 4 ->
  let s' := mrt_tick_channel now s n in
  mrt_lens s' /\ ctrl s' = ctrl s /\ intval s' = intval s /\ clk_hz s' = clk_hz s /\
  forall j, 0 <= j < 4 -> chan s' j = if j =? n then chan_ticked s n now else chan s j.
Proof.
  intros Hl Hn. cbv zeta. rewrite mrt_tick_channel_eq. unfold chan_ticked.
  destruct (mrt_due s n now); [by apply mrt_expire_chan|].
  do 4 (split; [done|]). intros j Hj. cbn [negb]. destruct (Z.eqb_spec j n) as [Ejn|Hne]; [by subst j | done].
Qed.

Lemma mrt_tick_channels ns s now :
  mrt_lens s -> NoDup ns -> Forall (fun n => 0 <= n < 4) ns ->
  let s' := foldl (mrt_tick_channel now) s ns in
  mrt_lens s' /\ ctrl s' = ctrl s /\ intval s' = intval s /\ clk_hz s' = clk_hz s /\
  forall j, 0 <= j < 4 -> chan s' j = if decide (j ∈ ns) then chan_ticked s j now else chan s j.
Proof.
  intros Hl Hnd Hns. revert s Hl Hnd. induction Hns as [|n ns Hn Hns IH]; intros s Hl Hnd; [done|].
  apply NoDup_cons in Hnd as [Hnin Hnd]. cbn [foldl]. cbv zeta.
  destruct (mrt_tick_channel_chan s n now Hl Hn) as (Hl1 & Hc1 & Hi1 & Hk1 & Hch1).
  destruct (IH _ Hl1 Hnd) as (Hl2 & Hc2 & Hi2 & Hk2 & Hch2).
  split; [done|]. split; [congruence|]. split; [congruence|]. split; [congruence|].
  intros j Hj. rewrite Hch2 by done. specialize (Hch1 j Hj). destruct (Z.eqb_spec j n) as [Ejn|Hne].
  - subst j. rewrite decide_False, decide_True by (done || by left). done.
  - destruct (decide (j ∈ ns)) as [Hin|Hnot].
    + rewrite decide_True by (by right). by apply chan_ticked_ext.
    + rewrite decide_False by set_solver. done.
Qed.

(** Being due is exact arithmetic while the clock product fits 64 bits. *)
Lemma mrt_peek_exact s n now :
  let E := now - (base_ns s).[n] in
  flag ((stat s).[n]) STAT_RUN = true -> in_range 31 ((load s).[n]) -> 0 <= E -> E * mrt_freq s < 2 ^ 64 ->
  mrt_peek s n now = Z.max 0 ((load s).[n] - E * mrt_freq s / NS_PER_S).
Proof.
  intros E Hrun Hld HE Hov. assert (Hf : 0 <= mrt_freq s) by (apply wrap_range; lia).
  assert (HN : NS_PER_S = 1000000000) by done. unfold in_range in Hld.
  unfold mrt_peek. rewrite Hrun. cbn [negb orb].
  destruct (Z.leb_spec now (base_ns s).[n]).
  { replace E with 0 by lia. rewrite Z.mul_0_l, Z.div_0_l by lia. lia. }
  cbv zeta. fold E.
  assert (Hp : 0 <= E * mrt_freq s) by (apply Z.mul_nonneg_nonneg; lia).
  destruct (Z.eq_dec (mrt_freq s) 0) as [Ef|Ef].
  { rewrite Ef, !Z.mul_0_r. change (u64 0 / NS_PER_S) with 0. change (0 / NS_PER_S) with 0. change (u32 0) with 0.
    rewrite wrap_id by lia. destruct (Z.leb_spec (load s).[n] 0); lia. }
  assert (HE64 : E < 2 ^ 64) by nia.
  rewrite (wrap_id 64 E), (wrap_id 64 (E * _)) by lia.
  set (c := E * mrt_freq s / NS_PER_S) in *. assert (0 <= c) by (apply Z.div_pos; lia).
  destruct (Z.leb_spec (load s).[n] c); [lia|]. rewrite (wrap_id 32 c), wrap_id by lia. lia.
Qed.

Lemma mrt_due_exact s n now :
  let E := now - (base_ns s).[n] in
  in_range 31 ((load s).[n]) -> 0 <= E -> E * mrt_freq s < 2 ^ 64 ->
  mrt_due s n now = flag ((stat s).[n]) STAT_RUN && ((load s).[n] * NS_PER_S <=? E * mrt_freq s).
Proof.
  intros E Hld HE Hov. unfold mrt_due. destruct (flag _ STAT_RUN) eqn:Hrun; [|done]. cbn [andb].
  rewrite mrt_peek_exact by done. fold E. assert (HN : NS_PER_S = 1000000000) by done.
  pose proof (Z.div_mod (E * mrt_freq s) NS_PER_S ltac:(lia)).
  pose proof (Z.mod_pos_bound (E * mrt_freq s) NS_PER_S ltac:(lia)). zcases; lia || done.
Qed.

Lemma mrt_tick_chan s now :
  mrt_lens s -> 0 < mrt_freq s ->
  exists s', mrt_tick s now = Some s' /\ irq s' = mrt_level s' /\
    forall n, 0 <= n < 4 -> chan s' n = chan_ticked s n now.
Proof.
  intros Hl Hf. unfold mrt_tick. cbv zeta.
  destruct (mrt_tick_channels (seqZ 0 MCXN_MRT_CHANNELS) s now Hl (NoDup_seqZ _ _)) as (Hl' & Hc & Hi & Hk & Hch).
  { apply Forall_seqZ. unfold MCXN_MRT_CHANNELS. lia. }
  set (s1 := foldl _ s _) in *. clearbody s1.
  assert (Hf1 : 0 < mrt_freq (mrt_update_irq s1)) by (unfold mrt_freq in *; cbn; by rewrite Hk).
  destruct (mrt_reschedule_some (mrt_update_irq s1) now Hf1) as [d Ed]. rewrite Ed.
  eexists. split; [done|]. split; [done|]. intros n Hn.
  change (chan ((mrt_update_irq s1) <| timer := d |>) n) with (chan s1 n).
  by rewrite Hch, decide_True by (done || by apply elem_of_seqZ).
Qed.

(** A tick expires exactly the channels whose time is up.  A running channel
    is flagged if and only if its interval has elapsed in host time, never
    before; in repeat mode it is reloaded and counts from now, otherwise it
    stops; every other channel is left alone, and the shared interrupt line is
    high exactly when some enabled channel is flagged. *)
Theorem mrt_tick_expires s now :
  mrt_wf s -> 0 < mrt_freq s ->
  (forall n, 0 <= n < 4 -> 0 <= now - (base_ns s).[n] /\ (now - (base_ns s).[n]) * mrt_freq s < 2 ^ 64) ->
  exists s', mrt_tick s now = Some s' /\ irq s' = mrt_level s' /\
    forall n, 0 <= n < 4 ->
      let up := flag ((stat s).[n]) STAT_RUN &&
                ((load s).[n] * NS_PER_S <=? (now - (base_ns s).[n]) * mrt_freq s) in
      chan s' n =
        if negb up then chan s n
        else if repeats s n then ((stat s).[n] .| STAT_INTFLAG, (intval s).[n] .& INTVAL_IVALUE, now)
        else (((stat s).[n] .| STAT_INTFLAG) .& u32 (.~ STAT_RUN), 0, (base_ns s).[n]).
Proof.
  intros [Hl Hld _] Hf Htime. destruct (mrt_tick_chan s now Hl Hf) as (s' & Es & Hi & Hch).
  exists s'. split; [done|]. split; [done|]. intros n Hn. destruct (Htime n Hn) as [HE Hov].
  rewrite Hch by done. unfold chan_ticked. rewrite mrt_due_exact; [done | | done | done].
  apply Forall_arr_get; [done|]. destruct Hl as (_ & -> & _). lia.
Qed.

(** ** From interval to interrupt *)

(** The host timer of a unit whose only running channel is [n]. *)
Definition only_running (s : MCXNMRTState) (n : Z) : Prop :=
  0 <= n < 4 /\ forall j, 0 <= j < 4 -> flag ((stat s).[j]) STAT_RUN = (j =? n).

(** Host time until the next tick for a count of [cur]. *)
Definition mrt_wait (s : MCXNMRTState) (cur : Z) : Z := Z.max 1 (cur * NS_PER_S / mrt_freq s).

Lemma mrt_reschedule_single s n now :
  only_running s n -> 0 < mrt_freq s -> 0 <= mrt_peek s n now < 2 ^ 32 ->
  mrt_reschedule s now = Some (s <| timer := Some (now + mrt_wait s (mrt_peek s n now)) |>).
Proof.
  intros [Hn Hr] Hf Hp. unfold mrt_reschedule. cbv zeta. assert (HN : NS_PER_S = 1000000000) by done.
  set (q := mrt_peek s n now * NS_PER_S / mrt_freq s).
  assert (Hq : 0 <= q < 2 ^ 63).
  { split; [apply Z.div_pos; lia|]. apply Z.div_lt_upper_bound; nia. }
  assert (Eb : mrt_best (seqZ 0 MCXN_MRT_CHANNELS) (s <| timer := None |>) now UINT64_MAX = Some q).
  { change (seqZ 0 MCXN_MRT_CHANNELS) with [0; 1; 2; 3]. cbn [mrt_best].
    change (stat (s <| timer := None |>)) with (stat s). rewrite !Hr by lia.
    change (mrt_freq (s <| timer := None |>)) with (mrt_freq s).
    assert (Et : cdiv (u64 (mrt_peek (s <| timer := None |>) n now * NS_PER_S)) (mrt_freq s) = Some q).
    { change (mrt_peek (s <| timer := None |>) n now) with (mrt_peek s n now). unfold cdiv.
      rewrite (proj2 (Z.eqb_neq _ 0)) by lia. rewrite wrap_id by lia. done. }
    assert (Hlt : (q <? UINT64_MAX) = true) by (apply Z.ltb_lt; unfold UINT64_MAX; lia).
    assert (n = 0 \/ n = 1 \/ n = 2 \/ n = 3) as [-> | [-> | [-> | ->]]] by lia;
      cbn [Z.eqb Pos.eqb negb]; rewrite Et, bind_Some, Hlt; done. }
  rewrite Eb, bind_Some. rewrite (proj2 (Z.eqb_neq q UINT64_MAX)) by (unfold UINT64_MAX; lia).
  assert (Eq : swrap 64 (if q =? 0 then 1 else q) = mrt_wait s (mrt_peek s n now)).
  { unfold mrt_wait. fold q. rewrite swrap_small by (destruct (q =? 0); lia).
    destruct (Z.eqb_spec q 0) as [->|]; lia. }
  by rewrite Eq.
Qed.

Lemma mrt_tick_idle s n now :
  only_running s n -> mrt_due s n now = false -> mrt_tick s now = mrt_reschedule (mrt_update_irq s) now.
Proof.
  intros [Hn Hr] Hd.
  assert (Hch : forall j, 0 <= j < 4 -> mrt_tick_channel now s j = s).
  { intros j Hj. unfold mrt_tick_channel. rewrite Hr by done. destruct (Z.eqb_spec j n) as [->|]; [|done].
    unfold mrt_due in Hd. rewrite Hr, Z.eqb_refl in Hd by done. cbn [andb negb] in *. by rewrite Hd. }
  unfold mrt_tick. change (seqZ 0 MCXN_MRT_CHANNELS) with [0; 1; 2; 3]. cbn [foldl].
  by rewrite !Hch by lia.
Qed.

(** The host timer's callback at the time it was armed for. *)
Definition mrt_host_timer (s : MCXNMRTState) : option (Z * MCXNMRTState) :=
  T ← timer s; s' ← mrt_tick s T; Some (T, s').

Definition mrt_flagged (s : MCXNMRTState) (n : Z) : Prop := flag ((stat s).[n]) STAT_INTFLAG = true.

(** The two deadlines of an interval of [c] counts: the first is short of the
    interval by less than one count, the second covers the rest. *)
Lemma mrt_wait_two f c :
  0 < f -> 2 * f <= NS_PER_S -> 0 < c ->
  let w1 := c * NS_PER_S / f in
  let w2 := NS_PER_S / f in
  0 < w1 /\ 2 <= w2 /\ w1 * f <= c * NS_PER_S /\
  (w1 * f < c * NS_PER_S -> c - w1 * f / NS_PER_S = 1 /\
    c * NS_PER_S <= (w1 + w2) * f <= (c + 1) * NS_PER_S).
Proof.
  intros Hf H2 Hc w1 w2. assert (HN : NS_PER_S = 1000000000) by done.
  pose proof (Z.div_mod (c * NS_PER_S) f ltac:(lia)) as E1. fold w1 in E1.
  pose proof (Z.mod_pos_bound (c * NS_PER_S) f Hf).
  pose proof (Z.div_mod NS_PER_S f ltac:(lia)) as E2. fold w2 in E2.
  pose proof (Z.mod_pos_bound NS_PER_S f Hf).
  assert (0 < w1) by nia. assert (2 <= w2) by nia. split_and!; [done..|lia|].
  intros Hlt. split; [|lia].
  assert (w1 * f / NS_PER_S = c - 1); [|lia]. symmetry.
  apply (Z.div_unique _ _ _ (w1 * f - (c - 1) * NS_PER_S)); lia.
Qed.

Lemma mrt_tick_due s n now :
  mrt_lens s -> 0 < mrt_freq s -> 0 <= n < 4 -> mrt_due s n now = true ->
  exists s', mrt_tick s now = Some s' /\ mrt_flagged s' n.
Proof.
  intros Hl Hf Hn Hd. destruct (mrt_tick_chan s now Hl Hf) as (s' & Es & _ & Hch).
  exists s'. split; [done|]. specialize (Hch n Hn). unfold chan_ticked, chan in Hch. rewrite Hd in Hch.
  unfold mrt_flagged. change STAT_INTFLAG with (bit 0). rewrite flag_bit by lia.
  destruct (repeats s n); injection Hch as -> _ _; autorewrite with bits;
    change (Z.testbit STAT_INTFLAG 0) with true; change (Z.testbit STAT_RUN 0) with false;
    try change (0 <? 32) with true; btauto.
Qed.

(** The same two facts in time since the channel's base. *)
Lemma mrt_after s n w :
  let c := (load s).[n] in
  flag ((stat s).[n]) STAT_RUN = true -> in_range 31 c -> 0 <= w -> w * mrt_freq s < 2 ^ 64 ->
  mrt_due s n ((base_ns s).[n] + w) = (c * NS_PER_S <=? w * mrt_freq s) /\
  mrt_peek s n ((base_ns s).[n] + w) = Z.max 0 (c - w * mrt_freq s / NS_PER_S).
Proof.
  intros c Hr Hc Hw Hov. assert (Hd : (base_ns s).[n] + w - (base_ns s).[n] = w) by lia.
  rewrite mrt_due_exact, mrt_peek_exact by (rewrite ?Hd; done). rewrite Hd, Hr. done.
Qed.

(** The interval timer keeps its promise.  With one channel running from its
    base time on a clock of at most 500 MHz, the host timer that is armed flags
    the channel at its first expiry, exactly on time, or at its second one; the
    flag is never early and never late by more than one count. *)
Theorem mrt_interval_on_time s n :
  let base := (base_ns s).[n] in
  let c := (load s).[n] in
  mrt_wf s -> only_running s n -> 0 < mrt_freq s -> 2 * mrt_freq s <= NS_PER_S -> 0 < c ->
  exists s1 T1 s2, mrt_reschedule s base = Some s1 /\ mrt_host_timer s1 = Some (T1, s2) /\
    ((mrt_flagged s2 n /\ (T1 - base) * mrt_freq s = c * NS_PER_S) \/
     exists T2 s3, mrt_host_timer s2 = Some (T2, s3) /\ mrt_flagged s3 n /\
       c * NS_PER_S <= (T2 - base) * mrt_freq s <= (c + 1) * NS_PER_S).
Proof.
  intros base c [Hl Hld _] Hrun Hf H2 Hc.
  destruct (mrt_wait_two _ c Hf H2 Hc) as (Hw1 & Hw2 & Hle & Hrest).
  set (w1 := c * NS_PER_S / mrt_freq s) in *. set (w2 := NS_PER_S / mrt_freq s) in *.
  assert (HN : NS_PER_S = 1000000000) by done. assert (Hn := proj1 Hrun).
  assert (Hcr : in_range 31 c) by (apply Forall_arr_get; [done | destruct Hl as (_ & -> & _); lia]).
  assert (Hcr' := Hcr). unfold in_range in Hcr'.
  assert (Hr : flag (stat s).[n] STAT_RUN = true) by (by rewrite (proj2 Hrun), Z.eqb_refl).
  assert (Hp0 : mrt_peek s n base = c) by (unfold mrt_peek; fold base; by rewrite Hr, Z.leb_refl).
  rewrite (mrt_reschedule_single s n) by (rewrite ?Hp0; lia || done). rewrite Hp0.
  replace (mrt_wait s c) with w1 by (unfold mrt_wait; fold w1; lia).
  set (s1 := s <| timer := Some (base + w1) |>).
  destruct (mrt_after s1 n w1 Hr Hcr ltac:(lia) ltac:(change (mrt_freq s1) with (mrt_freq s); lia)) as [Hd1 Hp1].
  change (base_ns s1).[n] with base in *. change (load s1).[n] with c in *. change (mrt_freq s1) with (mrt_freq s) in *.
  exists s1, (base + w1). unfold mrt_host_timer at 1. change (timer s1) with (Some (base + w1)). rewrite bind_Some.
  destruct (Z.leb_spec (c * NS_PER_S) (w1 * mrt_freq s)).
  - destruct (mrt_tick_due s1 n (base + w1) Hl Hf Hn Hd1) as (s2 & E2 & Hf2).
    exists s2. rewrite E2, bind_Some. split; [done|]. split; [done|]. left. split; [done|]. lia.
  - destruct (Hrest ltac:(lia)) as [Hcur Hlate]. rewrite (mrt_tick_idle s1 n _ Hrun Hd1).
    set (s2 := mrt_update_irq s1). assert (Hp2 : mrt_peek s2 n (base + w1) = 1) by (change (mrt_peek s1 n (base + w1) = 1); lia).
    rewrite (mrt_reschedule_single s2 n _ Hrun Hf), bind_Some by lia. rewrite Hp2.
    replace (mrt_wait s2 1) with w2
      by (unfold mrt_wait; change (mrt_freq s2) with (mrt_freq s); rewrite Z.mul_1_l; fold w2; lia).
    set (s3 := s2 <| timer := Some (base + w1 + w2) |>). exists s3. split; [done|]. split; [done|]. right.
    destruct (mrt_after s3 n (w1 + w2) Hr Hcr ltac:(lia) ltac:(change (mrt_freq s3) with (mrt_freq s); lia)) as [Hd3 _].
    change (base_ns s3).[n] with base in *. change (load s3).[n] with c in *. change (mrt_freq s3) with (mrt_freq s) in *.
    rewrite (proj2 (Z.leb_le _ _)), Z.add_assoc in Hd3 by lia.
    destruct (mrt_tick_due s3 n _ Hl Hf Hn Hd3) as (s4 & E4 & Hf4).
    exists (base + w1 + w2), s4. unfold mrt_host_timer. change (timer s3) with (Some (base + w1 + w2)).
    rewrite bind_Some, E4, bind_Some. split; [done|]. split; [done|]. lia.
Qed.

(** Channel 1 programmed with ten counts of a 3 MHz clock, in repeat mode with
    its interrupt enabled. *)
Definition mrt_sample : MCXNMRTState :=
  default (mrt_init 0)
    (s ← mrt_write (mrt_init 3000000) (CH_STRIDE + CH_CTRL) CTRL_INTEN 100; mrt_write s (CH_STRIDE + CH_INTVAL) 10 1000).

Lemma mrt_sample_wf : mrt_wf mrt_sample.
Proof. split; [done| |done]. repeat constructor; vm_compute; congruence. Qed.
Lemma mrt_sample_running : only_running mrt_sample 1.
Proof.
  split; [lia|]. intros j Hj. assert (j = 0 \/ j = 1 \/ j = 2 \/ j = 3) as [-> | [-> | [-> | ->]]] by lia; done.
Qed.

Lemma mrt_tick_expires_witness :
  exists s', mrt_tick mrt_sample 4400 = Some s' /\ chan s' 1 = (STAT_RUN .| STAT_INTFLAG, 10, 4400) /\
    chan s' 0 = chan mrt_sample 0.
Proof.
  destruct (mrt_tick_expires mrt_sample 4400) as (s' & Es & _ & Hch).
  - exact mrt_sample_wf.
  - reflexivity.
  - intros n Hn. assert (n = 0 \/ n = 1 \/ n = 2 \/ n = 3) as [-> | [-> | [-> | ->]]] by lia;
      split; vm_compute; congruence.
  - exists s'. split; [exact Es|]. split; [rewrite (Hch 1) by lia | rewrite (Hch 0) by lia]; reflexivity.
Defined.

Lemma mrt_interval_on_time_witness :
  exists s1 T1 s2, mrt_reschedule mrt_sample 1000 = Some s1 /\ mrt_host_timer s1 = Some (T1, s2) /\
    (mrt_flagged s2 1 \/ exists T2 s3, mrt_host_timer s2 = Some (T2, s3) /\ mrt_flagged s3 1).
Proof.
  destruct (mrt_interval_on_time mrt_sample 1 mrt_sample_wf mrt_sample_running) as (s1 & T1 & s2 & E1 & E2 & H).
  - reflexivity.
  - vm_compute; congruence.
  - reflexivity.
  - exists s1, T1, s2. split; [exact E1|]. split; [exact E2|].
    destruct H as [[H _]|(T2 & s3 & E3 & H & _)]; [left; exact H | right; exists T2, s3; auto].
Defined.

(** ** Reachable states *)

Inductive mrt_step : MCXNMRTState -> MCXNMRTState -> Prop :=
  | mrt_step_write s off val now s' : 0 <= off -> mrt_write s off val now = Some s' -> mrt_step s s'
  | mrt_step_tick s now s' : mrt_tick s now = Some s' -> mrt_step s s'
  | mrt_step_load s : mrt_step s (mcxn_mrt_post_load s).

Lemma mrt_reschedule_wf s now s' : mrt_reschedule s now = Some s' -> mrt_wf s -> mrt_wf s' /\ clk_hz s' = clk_hz s.
Proof.
  unfold mrt_reschedule. cbv zeta. destruct (mrt_best _ _ _ _) as [b|]; [|done]. rewrite bind_Some.
  intros [= <-] [Hl Hd Hi]. destruct (b =? UINT64_MAX); (split; [by split | done]).
Qed.

(** The interrupt level looks at the flag bits alone. *)
Lemma mrt_level_ext s s' :
  ctrl s' = ctrl s ->
  (forall n, 0 <= n < 4 -> flag ((stat s').[n]) STAT_INTFLAG = flag ((stat s).[n]) STAT_INTFLAG) ->
  mrt_level s' = mrt_level s.
Proof.
  intros Hc Hs. unfold mrt_level. change (seqZ 0 MCXN_MRT_CHANNELS) with [0; 1; 2; 3]. cbn [existsb].
  by rewrite Hc, !Hs by lia.
Qed.

Lemma mrt_run_bit_level s n v :
  mrt_lens s -> 0 <= n < 4 -> Z.testbit v 0 = Z.testbit ((stat s).[n]) 0 ->
  mrt_level (s <| stat := (stat s).[n <- v] |>) = mrt_level s.
Proof.
  intros (Hs & _) Hn Hv. apply mrt_level_ext; [done|]. intros j Hj. cbn -[arr_get arr_set flag STAT_INTFLAG].
  change STAT_INTFLAG with (bit 0). rewrite !flag_bit by lia. rewrite arr_get_set by lia.
  destruct (Z.eqb_spec j n) as [->|]; done.
Qed.

Lemma mrt_set_stat_wf s n v :
  mrt_wf s -> 0 <= n < 4 -> Z.testbit v 0 = Z.testbit ((stat s).[n]) 0 ->
  mrt_wf (s <| stat := (stat s).[n <- v] |>).
Proof.
  intros [Hl Hd Hi] Hn Hv. split; [|done|].
  - unfold mrt_lens in *. cbn. by rewrite length_arr_set.
  - rewrite mrt_run_bit_level by done. exact Hi.
Qed.

Lemma mrt_intval_run_bit x b : Z.testbit (if b : bool then x .| STAT_RUN else x .& u32 (.~ STAT_RUN)) 0 = Z.testbit x 0.
Proof.
  destruct b; autorewrite with bits; change (Z.testbit STAT_RUN 0) with false; try change (0 <? 32) with true; btauto.
Qed.

Lemma mrt_intval_wf s n v : mrt_wf s -> mrt_wf (s <| intval := (intval s).[n <- v] |>).
Proof. intros [Hl Hd Hi]. split; [|done|done]. unfold mrt_lens in *. cbn. by rewrite length_arr_set. Qed.

Lemma mrt_load_wf s n v now :
  mrt_wf s -> mrt_wf (s <| load := (load s).[n <- v .& INTVAL_IVALUE] |> <| base_ns := (base_ns s).[n <- now] |>).
Proof.
  intros [Hl Hd Hi]. split; [| |done].
  - unfold mrt_lens in *. cbn. by rewrite !length_arr_set.
  - cbn -[INTVAL_IVALUE]. apply Forall_arr_set; [done|]. auto with ranges.
Qed.

Lemma mrt_write_wf s off val now s' :
  0 <= off -> mrt_write s off val now = Some s' -> mrt_wf s -> mrt_wf s' /\ clk_hz s' = clk_hz s.
Proof.
  intros Ho Hw Hwf. unfold mrt_write in Hw. cbv zeta in Hw.
  destruct (Z.ltb_spec off (CH_STRIDE * MCXN_MRT_CHANNELS)) as [Hlt|]; [|by injection Hw as <-].
  unfold CH_STRIDE, MCXN_MRT_CHANNELS in Hlt.
  assert (Hn : 0 <= off / CH_STRIDE < 4)
    by (unfold CH_STRIDE; split; [apply Z.div_pos; lia | apply Z.div_lt_upper_bound; lia]).
  set (n := off / CH_STRIDE) in *. destruct (_ =? CH_INTVAL).
  - destruct (mrt_reschedule_wf _ _ _ Hw) as [? Hk].
    + destruct (_ || _); [|by apply mrt_intval_wf].
      match goal with |- context [if ?b then _ else _] => pose proof (mrt_intval_run_bit (stat s).[n] b) as Hb end.
      destruct (negb _); (apply (mrt_set_stat_wf (_ <| base_ns := _ |>)); [|done|exact Hb]);
        by apply (mrt_load_wf (_ <| intval := _ |>)), mrt_intval_wf.
    + split; [done|]. rewrite Hk. by repeat case_match.
  - destruct Hwf as [Hl Hd Hi]. unfold mrt_lens in Hl.
    repeat case_match; injection Hw as <-; (split; [split|]); try done;
      unfold mrt_lens; cbn; by rewrite ?length_arr_set.
Qed.

Lemma mrt_tick_wf s now s' : mrt_tick s now = Some s' -> mrt_wf s -> mrt_wf s' /\ clk_hz s' = clk_hz s.
Proof.
  intros Ht [Hl Hd Hi]. unfold mrt_tick in Ht. cbv zeta in Ht.
  set (s1 := foldl _ _ _) in Ht.
  assert (Hs1 : mrt_lens s1 /\ Forall (in_range 31) (load s1) /\ clk_hz s1 = clk_hz s).
  { subst s1. clear Ht Hi. generalize (seqZ 0 MCXN_MRT_CHANNELS) as ns. intros ns. revert s Hl Hd.
    induction ns as [|n ns IH]; intros s Hl Hd; [done|]. cbn [foldl].
    destruct (IH (mrt_tick_channel now s n)) as (Hl' & Hd' & Hk'); [| |split_and!; [done..|rewrite Hk']];
      rewrite mrt_tick_channel_eq; unfold mrt_expire, mrt_lens in *; repeat case_match; cbn -[INTVAL_IVALUE];
      rewrite ?length_arr_set; auto using Forall_arr_set with ranges. }
  destruct Hs1 as (Hl1 & Hd1 & Hk1).
  destruct (mrt_reschedule_wf _ _ _ Ht) as [Hwf Hk]; [by split | by rewrite Hk].
Qed.

(** Whatever registers are written and whenever the host timer fires, every
    operation of a clocked timer returns and the interrupt line is high exactly
    when some channel is flagged with its interrupt enabled. *)
Theorem mrt_reachable_irq hz s :
  0 < u32 hz -> rtc mrt_step (mrt_init hz) s ->
  irq s = mrt_level s /\
  (forall off val now, is_Some (mrt_write s off val now)) /\ (forall now, is_Some (mrt_tick s now)).
Proof.
  intros Hhz Hr. assert (Hinv : mrt_wf s /\ clk_hz s = hz).
  { eapply (rtc_invariant _ (fun s => mrt_wf s /\ clk_hz s = hz)); [|exact Hr|].
    - intros a b [s0 off val now s' Ho Hw|s0 now s' Ht|s0] [Hwf Hk].
      + apply mrt_write_wf in Hw as [? ->]; done.
      + apply mrt_tick_wf in Ht as [? ->]; done.
      + destruct Hwf. split; [by split|done].
    - split; [|done]. split; [done|repeat constructor; vm_compute; congruence|done]. }
  destruct Hinv as [[Hl Hd Hi] Hk]. assert (Hf : forall s', clk_hz s' = hz -> 0 < mrt_freq s') by (intros s' E; unfold mrt_freq; by rewrite E).
  assert (Hres : forall s' now, clk_hz s' = hz -> is_Some (mrt_reschedule s' now)).
  { intros s' now E. destruct (mrt_reschedule_some s' now (Hf s' E)) as [d ->]. by eexists. }
  split; [done|]. split.
  - intros off val now. unfold mrt_write. cbv zeta.
    repeat match goal with |- is_Some (if ?b then _ else _) => destruct b end; try by eexists.
    apply Hres. by repeat case_match.
  - intros now. destruct (mrt_tick_chan s now Hl (Hf s Hk)) as (s' & -> & _). by eexists.
Qed.
Lemma mrt_reachable_irq_witness : irq (mcxn_mrt_post_load (mrt_init 3000000)) = false.
Proof.
  rewrite (proj1 (mrt_reachable_irq 3000000 _ eq_refl (rtc_once _ _ (mrt_step_load _)))). reflexivity.
Defined.

(** Starting a channel of a unit without a clock divides by zero. *)
Theorem mrt_no_clock_traps s v now :
  mrt_wf s -> mrt_freq s = 0 -> flag v INTVAL_LOAD = true -> in_range 32 v -> v .& INTVAL_IVALUE <> 0 ->
  mrt_write s CH_INTVAL v now = None.
Proof.
  intros [(Hs & Hl & _) _ _] Hf Hv Hr Hnz. unfold mrt_write. rewrite (wrap_in_range 32) by done.
  change (CH_INTVAL <? CH_STRIDE * MCXN_MRT_CHANNELS) with true. change (CH_INTVAL / CH_STRIDE) with 0.
  change (CH_INTVAL mod CH_STRIDE =? CH_INTVAL) with true. cbv zeta iota. rewrite Hv. cbn [orb].
  match goal with |- context [if negb (?x =? 0) then _ else _] => assert (E : x = v .& INTVAL_IVALUE) end.
  { cbn -[arr_get arr_set Z.land INTVAL_IVALUE]. by apply arr_get_set_eq; lia. }
  rewrite E, (proj2 (Z.eqb_neq _ 0)) by done. cbn [negb].
  unfold mrt_reschedule. cbv zeta. change (seqZ 0 MCXN_MRT_CHANNELS) with [0; 1; 2; 3]. cbn [mrt_best].
  match goal with |- context [flag ?x STAT_RUN] => assert (Er : flag x STAT_RUN = true) end.
  { cbn -[arr_get arr_set Z.lor flag STAT_RUN]. rewrite arr_get_set_eq by lia. change STAT_RUN with (bit 1).
    rewrite flag_bit by lia. autorewrite with bits. rewrite Z.eqb_refl. btauto. }
  rewrite Er. cbn [negb]. match goal with |- context [cdiv _ (mrt_freq ?x)] => change (mrt_freq x) with (mrt_freq s) end.
  by rewrite Hf.
Qed.
