(* ===== verification/Lptmr.v ===== *)
(** * LPTMR: the low-power timer

    Model of [hw/timer/mcxn_lptmr.c]: the 16-bit counter on its selectable
    prescaled clock, the compare flag and interrupt, the trigger output and the
    host timer armed for the compare. *)
From S2P Require Import Prelude.

Definition R_CSR : Z := 0x0.
Definition R_PSR : Z := 0x4.
Definition R_CMR : Z := 0x8.
Definition R_CNR : Z := 0xC.
Definition CSR_TEN : Z := bit 0.
Definition CSR_TFC : Z := bit 2.
Definition CSR_TIE : Z := bit 6.
Definition CSR_TCF : Z := bit 7.
Definition PSR_PCS : Z := 3 .<< 0.
Definition PSR_PBYP : Z := bit 2.
Definition PSR_PRESCALE : Z := 0xF .<< 3.
Definition FRO_16K_HZ : Z := 16000.
Definition CLK_32K_HZ : Z := 32768.
Definition NS_PER_S : Z := 1000000000.

Record MCXNLPTMRState := mkLPTMR {
  irq : bool;
  timer : option Z;    (* the deadline of the host timer, if armed *)
  clk_hz : Z;
  csr : Z; psr : Z; cmr : Z; cnr : Z;
  base_ns : Z
}.
#[export] Instance lptmr_settable : Settable MCXNLPTMRState := fun s =>
  mkLPTMR (irq s) (timer s) (clk_hz s) (csr s) (psr s) (cmr s) (cnr s) (base_ns s).

Definition lptmr_divider (s : MCXNLPTMRState) : Z :=
  if flag (psr s) PSR_PBYP then 1 else u32 (1 .<< (((psr s .& PSR_PRESCALE) .>> 3) + 1)).

Definition lptmr_source_hz (s : MCXNLPTMRState) : Z :=
  let pcs := psr s .& PSR_PCS in
  if pcs =? 0 then u32 (clk_hz s)
  else if pcs =? 1 then FRO_16K_HZ
  else if pcs =? 2 then CLK_32K_HZ
  else 0.

Definition lptmr_freq (s : MCXNLPTMRState) : Z := lptmr_source_hz s / lptmr_divider s.

Definition lptmr_peek (s : MCXNLPTMRState) (now : Z) : Z :=
  if negb (flag (csr s) CSR_TEN) || (now <=? base_ns s) then cnr s
  else
    let counts := u64 (u64 (now - base_ns s) * lptmr_freq s) / NS_PER_S in
    u32 (cnr s + counts) .& 0xFFFF.

Definition lptmr_update_irq (s : MCXNLPTMRState) : MCXNLPTMRState :=
  s <| irq := flag (csr s) CSR_TCF && flag (csr s) CSR_TIE |>.

Definition lptmr_reschedule (s : MCXNLPTMRState) (now : Z) : MCXNLPTMRState :=
  let s := s <| timer := None |> in
  if negb (flag (csr s) CSR_TEN) then s
  else
    let freq := lptmr_freq s in
    if freq =? 0 then s
    else
      let cur := lptmr_peek s now in
      let remain := if cur <=? cmr s then u32 (cmr s - cur + 1) else 1 in
      s <| timer := Some (now + swrap 64 (u64 (remain * NS_PER_S) / freq)) |>.

(** The second component tells whether the trigger output pulsed. *)
Definition lptmr_tick (s : MCXNLPTMRState) (now : Z) : MCXNLPTMRState * bool :=
  let s := s <| csr := csr s .| CSR_TCF |> in
  let s :=
    if negb (flag (csr s) CSR_TFC) then s <| cnr := 0 |> <| base_ns := now |>
    else s <| cnr := lptmr_peek s now |> <| base_ns := now |> in
  let s := lptmr_update_irq s in
  (lptmr_reschedule s now, true).

Definition lptmr_read (s : MCXNLPTMRState) (off now : Z) : Z :=
  if off =? R_CSR then csr s
  else if off =? R_PSR then psr s
  else if off =? R_CMR then cmr s
  else if off =? R_CNR then lptmr_peek s now
  else 0.

Definition lptmr_write_csr (s : MCXNLPTMRState) (v now : Z) : MCXNLPTMRState :=
  let was_en := flag (csr s) CSR_TEN in
  let s := if flag v CSR_TCF then s <| csr := csr s .& u32 (.~ CSR_TCF) |> else s in
  let s := s <| csr := (csr s .& CSR_TCF) .| (v .& u32 (.~ CSR_TCF)) |> in
  let s := if flag (csr s) CSR_TEN && negb was_en then s <| cnr := 0 |> <| base_ns := now |> else s in
  let s := if negb (flag (csr s) CSR_TEN) then s <| cnr := 0 |> else s in
  lptmr_reschedule (lptmr_update_irq s) now.

Definition lptmr_write (s : MCXNLPTMRState) (off val now : Z) : MCXNLPTMRState :=
  let v := u32 val in
  if off =? R_CSR then lptmr_write_csr s v now
  else if off =? R_PSR then lptmr_reschedule (s <| psr := v |>) now
  else if off =? R_CMR then lptmr_reschedule (s <| cmr := v .& 0xFFFF |>) now
  else s.

Definition mcxn_lptmr_reset (s : MCXNLPTMRState) : MCXNLPTMRState :=
  mkLPTMR (irq s) None (clk_hz s) 0 0 0 0 0.
Definition mcxn_lptmr_post_load (s : MCXNLPTMRState) : MCXNLPTMRState := lptmr_update_irq s.
Definition mcxn_lptmr_init (hz : Z) : MCXNLPTMRState := mcxn_lptmr_reset (mkLPTMR false None hz 0 0 0 0 0).

(** ** Reachable states *)

Inductive lptmr_step : MCXNLPTMRState -> MCXNLPTMRState -> Prop :=
  | lptmr_step_write s off val now : lptmr_step s (lptmr_write s off val now)
  | lptmr_step_tick s now : timer s = Some now -> lptmr_step s (lptmr_tick s now).1
  | lptmr_step_load s : lptmr_step s (mcxn_lptmr_post_load s).

Record lptmr_wf (s : MCXNLPTMRState) : Prop := {
  wf_irq : irq s = flag (csr s) CSR_TCF && flag (csr s) CSR_TIE;
  wf_cnr : in_range 16 (cnr s);
  wf_cmr : in_range 16 (cmr s);
  wf_timer : is_Some (timer s) <-> flag (csr s) CSR_TEN = true /\ lptmr_freq s <> 0;
}.

Lemma lptmr_reschedule_wf s now :
  irq s = flag (csr s) CSR_TCF && flag (csr s) CSR_TIE -> in_range 16 (cnr s) -> in_range 16 (cmr s) ->
  lptmr_wf (lptmr_reschedule s now).
Proof.
  intros Hi Hc Hm. unfold lptmr_reschedule. cbv zeta. change (csr (s <| timer := None |>)) with (csr s).
  change (lptmr_freq (s <| timer := None |>)) with (lptmr_freq s).
  destruct (flag (csr s) CSR_TEN) eqn:Ht; cbn [negb]; [destruct (Z.eqb_spec (lptmr_freq s) 0) as [E|E]|];
    (split; [done..|]); cbn -[flag lptmr_freq].
  - split; [by intros [? ?] | by intros [_ []]].
  - split; [intros _; split; done | intros _; by eexists].
  - rewrite Ht. split; [by intros [? ?] | by intros []].
Qed.

Lemma lptmr_peek_range s now : in_range 16 (cnr s) -> in_range 16 (lptmr_peek s now).
Proof. intros Hc. unfold lptmr_peek. case_match; [done|]. cbv zeta. auto with ranges. Qed.

Lemma lptmr_step_wf s s' : lptmr_step s s' -> lptmr_wf s -> lptmr_wf s'.
Proof.
  intros Hst [Hi Hc Hm Ht]. destruct Hst as [s off val now|s now _|s].
  - unfold lptmr_write. cbv zeta. repeat case_match; try done; [|apply lptmr_reschedule_wf..]; try done.
    + unfold lptmr_write_csr. cbv zeta. apply lptmr_reschedule_wf; [done|..];
        repeat case_match; cbn; auto with ranges.
    + cbn. auto with ranges.
  - unfold lptmr_tick. cbn [fst]. cbv zeta. apply lptmr_reschedule_wf; [done|..]; case_match; cbn -[lptmr_peek];
      auto using lptmr_peek_range with ranges.
  - by split.
Qed.

(** From reset, whatever is written and whenever the timer fires, the
    interrupt line is the compare flag gated by its enable, the counter stays
    within sixteen bits, and the host timer is armed exactly while the timer is
    enabled and has a clock: without a clock the timer does not run. *)
Theorem lptmr_reachable hz s :
  rtc lptmr_step (mcxn_lptmr_init hz) s ->
  irq s = flag (csr s) CSR_TCF && flag (csr s) CSR_TIE /\
  (forall now, in_range 16 (lptmr_read s R_CNR now)) /\
  (is_Some (timer s) <-> flag (csr s) CSR_TEN = true /\ lptmr_freq s <> 0).
Proof.
  intros Hr. assert (Hwf : lptmr_wf s).
  { eapply rtc_invariant; [exact lptmr_step_wf | exact Hr |].
    split; [done | apply in_range_0; lia.. |]. cbn. split; [by intros [? ?] | by intros [? _]]. }
  destruct Hwf as [Hi Hc Hm Ht]. split; [done|]. split; [|done].
  intros now. by apply lptmr_peek_range.
Qed.
Lemma lptmr_reachable_witness :
  let s := lptmr_write (mcxn_lptmr_init 12000000) R_CSR CSR_TEN 5 in is_Some (timer s).
Proof.
  intros s. destruct (lptmr_reachable 12000000 s (rtc_once _ _ (lptmr_step_write _ _ _ _))) as (_ & _ & H).
  apply H. split; [reflexivity | vm_compute; congruence].
Defined.

(** ** Periodic triggers *)

(** The host timer's callback, at the time it was armed for: the time and the
    trigger pulse it emits. *)
Definition lptmr_host_timer (s : MCXNLPTMRState) : option (Z * MCXNLPTMRState) :=
  match timer s with
  | Some T => let '(s', pulse) := lptmr_tick s T in if pulse then Some (T, s') else None
  | None => None
  end.

(** The times of the first [k] triggers and the state after them. *)
Fixpoint lptmr_triggers (k : nat) (s : MCXNLPTMRState) : list Z * MCXNLPTMRState :=
  match k with
  | O => ([], s)
  | S k => match lptmr_host_timer s with
           | Some (T, s') => let '(ts, s'') := lptmr_triggers k s' in (T :: ts, s'')
           | None => ([], s)
           end
  end.

Definition lptmr_period (s : MCXNLPTMRState) : Z := (cmr s + 1) * NS_PER_S / lptmr_freq s.

(** Counting from zero in time-counter mode since [base_ns]. *)
Record lptmr_counting (s : MCXNLPTMRState) : Prop := {
  cnt_ten : flag (csr s) CSR_TEN = true;
  cnt_tfc : flag (csr s) CSR_TFC = false;
  cnt_cmr : in_range 16 (cmr s);
  cnt_freq : 0 < lptmr_freq s;
  cnt_timer : timer s = Some (base_ns s + lptmr_period s);
}.

Lemma lptmr_arm s now :
  flag (csr s) CSR_TEN = true -> in_range 16 (cmr s) -> 0 < lptmr_freq s -> cnr s = 0 -> base_ns s = now ->
  lptmr_reschedule s now = s <| timer := Some (now + lptmr_period s) |>.
Proof.
  intros Ht Hm Hf Hc Hb. unfold in_range in Hm. assert (HN : NS_PER_S = 1000000000) by done.
  unfold lptmr_reschedule. cbv zeta. change (csr (s <| timer := None |>)) with (csr s).
  change (lptmr_freq (s <| timer := None |>)) with (lptmr_freq s). change (cmr (s <| timer := None |>)) with (cmr s).
  rewrite Ht, (proj2 (Z.eqb_neq _ 0)) by lia. cbn [negb].
  assert (Hp : lptmr_peek (s <| timer := None |>) now = 0).
  { unfold lptmr_peek. change (base_ns (s <| timer := None |>)) with (base_ns s).
    change (csr (s <| timer := None |>)) with (csr s). rewrite Hb, Z.leb_refl, orb_true_r. exact Hc. }
  rewrite Hp, (proj2 (Z.leb_le _ _)) by lia. rewrite (wrap_id 32), (wrap_id 64) by lia. rewrite Z.sub_0_r.
  rewrite swrap_small; [done | lia |]. split; [apply Z.div_pos; lia|].
  apply Z.div_lt_upper_bound; lia.
Qed.

Lemma lptmr_counting_tick s :
  lptmr_counting s ->
  exists s', lptmr_host_timer s = Some (base_ns s + lptmr_period s, s') /\ lptmr_counting s' /\
    base_ns s' = base_ns s + lptmr_period s /\ lptmr_period s' = lptmr_period s /\
    flag (csr s') CSR_TCF = true /\ irq s' = flag (csr s) CSR_TIE /\
    flag (csr s') CSR_TIE = flag (csr s) CSR_TIE.
Proof.
  intros [Ht Hc Hm Hf Htm]. unfold lptmr_host_timer. rewrite Htm. set (T := base_ns s + lptmr_period s).
  unfold lptmr_tick. cbv zeta.
  set (s1 := s <| csr := csr s .| CSR_TCF |>).
  assert (Hcsr : flag (csr s1) CSR_TEN = true /\ flag (csr s1) CSR_TFC = false /\
                 flag (csr s1) CSR_TCF = true /\ flag (csr s1) CSR_TIE = flag (csr s) CSR_TIE).
  { change (csr s1) with (csr s .| CSR_TCF). unfold CSR_TEN, CSR_TFC, CSR_TCF, CSR_TIE in *.
    rewrite !flag_bit in * by lia. autorewrite with bits. rewrite Ht, Hc. cbn. split_and!; try done; btauto. }
  destruct Hcsr as (H1 & H2 & H3 & H4). rewrite H2. cbn [negb].
  set (s2 := lptmr_update_irq _). assert (Ef : lptmr_freq s2 = lptmr_freq s) by done.
  rewrite lptmr_arm by (done || by rewrite Ef).
  eexists. split; [done|]. split; [|split_and!; try done].
  - split; [exact H1 | exact H2 | exact Hm | exact Hf | done].
  - cbn -[flag]. change (csr s .| CSR_TCF) with (csr s1). by rewrite H3, H4.
Qed.

Lemma lptmr_counting_triggers k s :
  lptmr_counting s ->
  let '(ts, s') := lptmr_triggers k s in
  ts = map (fun i => base_ns s + Z.of_nat i * lptmr_period s) (seq 1 k) /\ lptmr_counting s' /\
  ((0 < k)%nat -> flag (csr s') CSR_TCF = true /\ irq s' = flag (csr s) CSR_TIE).
Proof.
  revert s. induction k as [|k IH]; intros s Hs; cbn [lptmr_triggers]; [split_and!; [done..|lia]|].
  destruct (lptmr_counting_tick s Hs) as (s' & -> & Hs' & Hb & Hp & Htcf & Hirq & Htie).
  specialize (IH s' Hs'). destruct (lptmr_triggers k s') as [ts s''] eqn:Et. destruct IH as (Hts & Hs'' & Hk).
  split_and!; [|done|].
  - cbn [seq map]. f_equal; [lia|]. rewrite Hts, Hb, Hp, <- (seq_shift k 1), map_map. apply map_ext. intros i. lia.
  - intros _. destruct k as [|k]; [|destruct Hk as [? ->]; [lia | split; congruence]].
    cbn in Et. injection Et as <- <-. done.
Qed.

(** The timer is periodic.  Enabling it in time-counter mode at [t0] makes
    it trigger at [t0 + P], [t0 + 2P], ... where [P] is CMR + 1 counts of the
    prescaled clock, for as long as it is left alone; every trigger sets the
    compare flag and, when enabled, raises the interrupt. *)
Theorem lptmr_periodic s t0 v k :
  lptmr_wf s -> flag (csr s) CSR_TEN = false -> 0 < lptmr_freq s ->
  in_range 32 v -> flag v CSR_TEN = true -> flag v CSR_TFC = false ->
  let '(ts, s') := lptmr_triggers k (lptmr_write s R_CSR v t0) in
  ts = map (fun i => t0 + Z.of_nat i * ((cmr s + 1) * NS_PER_S / lptmr_freq s)) (seq 1 k) /\
  ((0 < k)%nat -> flag (lptmr_read s' R_CSR t0) CSR_TCF = true /\ irq s' = flag v CSR_TIE).
Proof.
  intros [Hi Hc Hm _] Hdis Hf Hr Hten Htfc. unfold lptmr_write. rewrite (wrap_in_range 32) by done.
  rewrite Z.eqb_refl. cbv zeta iota. unfold lptmr_write_csr. cbv zeta. rewrite Hdis.
  set (s1 := (if flag v CSR_TCF then _ else s) <| csr := _ |>).
  assert (Hcsr : flag (csr s1) CSR_TEN = true /\ flag (csr s1) CSR_TFC = false /\
                 flag (csr s1) CSR_TIE = flag v CSR_TIE).
  { subst s1. cbn -[flag CSR_TCF CSR_TEN CSR_TFC CSR_TIE]. unfold CSR_TEN, CSR_TFC, CSR_TCF, CSR_TIE in *.
    rewrite !flag_bit in * by lia. autorewrite with bits. rewrite Hten, Htfc. cbn.
    split_and!; btauto. }
  destruct Hcsr as (H1 & H2 & H3). rewrite H1. cbn [negb andb].
  change (csr (s1 <| cnr := 0 |> <| base_ns := t0 |>)) with (csr s1). rewrite H1. cbn [negb].
  set (s2 := lptmr_update_irq _).
  assert (Es : psr s1 = psr s /\ cmr s1 = cmr s /\ clk_hz s1 = clk_hz s) by (subst s1; by case_match).
  destruct Es as (Ep & Ec & Ek).
  assert (Ef : lptmr_freq s2 = lptmr_freq s).
  { unfold lptmr_freq, lptmr_source_hz, lptmr_divider. change (psr s2) with (psr s1). change (clk_hz s2) with (clk_hz s1).
    by rewrite Ep, Ek. }
  assert (Hm2 : in_range 16 (cmr s2)) by (change (cmr s2) with (cmr s1); by rewrite Ec).
  rewrite lptmr_arm by (done || lia). set (s3 := s2 <| timer := _ |>).
  assert (Hs3 : lptmr_counting s3) by (split; [exact H1 | exact H2 | exact Hm2 | change (0 < lptmr_freq s2); lia | done]).
  pose proof (lptmr_counting_triggers k s3 Hs3) as Hk. destruct (lptmr_triggers k s3) as [ts s'].
  destruct Hk as (-> & _ & Hk). split.
  - change (lptmr_period s3) with ((cmr s1 + 1) * NS_PER_S / lptmr_freq s2). by rewrite Ec, Ef.
  - intros Hpos. destruct (Hk Hpos) as [Ht Hq]. split; [exact Ht|]. rewrite Hq. exact H3.
Qed.
Lemma lptmr_periodic_witness :
  let s := lptmr_write (lptmr_write (mcxn_lptmr_init 12000000) R_PSR 5 0) R_CMR 15999 0 in
  (lptmr_triggers 3 (lptmr_write s R_CSR (CSR_TEN .| CSR_TIE) 1000)).1 = [1000001000; 2000001000; 3000001000].
Proof.
  intros s. assert (Hwf : lptmr_wf s).
  { split; [reflexivity | split; vm_compute; congruence.. |]. vm_compute. split; [intros [? ?]; congruence | intros []; congruence]. }
  pose proof (lptmr_periodic s 1000 (CSR_TEN .| CSR_TIE) 3 Hwf eq_refl eq_refl
    ltac:(split; vm_compute; congruence) eq_refl eq_refl) as H.
  destruct (lptmr_triggers 3 _) as [ts s']. destruct H as [-> _]. reflexivity.
Defined.

(** In free-running mode a compare match repeats: once the counter has passed
    the compare value the timer is re-armed one count ahead, so the flag and the
    trigger come back on every count instead of once per wrap of the counter.
    Here the clock is 1 kHz and the compare value 9: the triggers follow one
    another by a millisecond. *)
Theorem lptmr_free_running_refires :
  let s := lptmr_write (lptmr_write (mcxn_lptmr_init 1000) R_PSR PSR_PBYP 0) R_CMR 9 0 in
  (lptmr_triggers 4 (lptmr_write s R_CSR (CSR_TEN .| CSR_TFC) 0)).1 = [10000000; 11000000; 12000000; 13000000].
Proof. vm_compute. reflexivity. Qed.
