(* ===== verification/Fmu.v ===== *)
(** * FMU: the flash management unit

    Model of [hw/misc/mcxn_fmu.c]: the command registers, the program/erase
    handshake in which the address and the data of a command arrive as stores
    into the flash address space (PEWEN, then PERDY), the commit with its flash
    physics, the Read 1s family, abort and errors.  The flash array is the
    content of the ROM device: a byte per offset.  [None] is the failure of the
    source's assertion. *)
From S2P Require Import Prelude.

Definition R_FSTAT : Z := 0x0.
Definition R_FCNFG : Z := 0x4.
Definition R_FCTRL : Z := 0x8.
Definition R_FCCOB0 : Z := 0x10.
Definition FSTAT_FAIL : Z := bit 0.
Definition FSTAT_CMDABT : Z := bit 2.
Definition FSTAT_PVIOL : Z := bit 4.
Definition FSTAT_ACCERR : Z := bit 5.
Definition FSTAT_CCIF : Z := bit 7.
Definition FSTAT_PERDY : Z := bit 31.
Definition FSTAT_PEWEN_SHIFT : Z := 24.
Definition FSTAT_PEWEN_MASK : Z := 3 .<< FSTAT_PEWEN_SHIFT.
Definition PEWEN_PHRASE : Z := 1.
Definition PEWEN_PAGE : Z := 2.
Definition FSTAT_ERRORS : Z := FSTAT_FAIL .| FSTAT_CMDABT .| FSTAT_PVIOL .| FSTAT_ACCERR.
Definition FCNFG_CCIE : Z := bit 7.
Definition FCTRL_ABTREQ : Z := bit 24.
Definition FCMD_RD1ALL : Z := 0x00.
Definition FCMD_RD1BLK : Z := 0x01.
Definition FCMD_RD1SCR : Z := 0x02.
Definition FCMD_RD1PG : Z := 0x03.
Definition FCMD_RD1PHR : Z := 0x04.
Definition FCMD_PGMPG : Z := 0x23.
Definition FCMD_PGMPHR : Z := 0x24.
Definition FCMD_ERSALL : Z := 0x40.
Definition FCMD_ERSSCR : Z := 0x42.
Definition MCXN_FLASH_PHRASE : Z := 16.
Definition MCXN_FLASH_PAGE : Z := 128.
Definition MCXN_FLASH_SECTOR : Z := 0x2000.

Record MCXNFMUState := mkFMU {
  irq : bool;
  fstat : Z; fcnfg : Z; fctrl : Z;
  fccob : list Z;
  pe_buf : list Z;       (* words staged by the guest's stores *)
  pe_addr : Z;           (* flash offset of the first store *)
  pe_words : Z;          (* words staged so far *)
  pe_expect : Z;         (* words this command wants *)
  pe_cmd : Z;            (* command awaiting its write phase *)
  pe_active : bool;      (* a write window is open *)
  flash : option (Z -> Z);
  flash_size : Z
}.
#[export] Instance fmu_settable : Settable MCXNFMUState := fun s =>
  mkFMU (irq s) (fstat s) (fcnfg s) (fctrl s) (fccob s) (pe_buf s) (pe_addr s) (pe_words s)
    (pe_expect s) (pe_cmd s) (pe_active s) (flash s) (flash_size s).

Definition fmu_flash_off (s : MCXNFMUState) (addr : Z) : Z :=
  if negb (flash_size s =? 0) then addr .& u64 (flash_size s - 1) else 0.

Definition fmu_update_irq (s : MCXNFMUState) : MCXNFMUState :=
  s <| irq := flag (fstat s) FSTAT_CCIF && flag (fcnfg s) FCNFG_CCIE |>.

Definition fmu_complete (s : MCXNFMUState) : MCXNFMUState :=
  let s := s <| pe_active := false |> <| pe_words := 0 |> in
  let s := s <| fstat := fstat s .& u32 (.~ (FSTAT_PEWEN_MASK .| FSTAT_PERDY)) |> in
  let s := s <| fstat := fstat s .| FSTAT_CCIF |> in
  fmu_update_irq s.

Definition fmu_fail (s : MCXNFMUState) (flag : Z) : MCXNFMUState :=
  fmu_complete (s <| fstat := fstat s .| flag |>).

Definition fmu_open_write_window (s : MCXNFMUState) (cmd words pewen : Z) : MCXNFMUState :=
  let s := s <| pe_cmd := cmd |> <| pe_expect := words |> <| pe_words := 0 |> <| pe_addr := 0 |>
             <| pe_active := true |> <| pe_buf := replicate (Z.to_nat MCXN_FLASH_PAGE) 0xFF |> in
  let s := s <| fstat := fstat s .& u32 (.~ FSTAT_PERDY) |> in
  s <| fstat := (fstat s .& u32 (.~ FSTAT_PEWEN_MASK)) .| u32 (pewen .<< FSTAT_PEWEN_SHIFT) |>.

(** The loop of the Read 1s commands: some byte of the span, cut at the end of
    the array, is not erased. *)
Definition fmu_unerased (mem : Z -> Z) (size off len : Z) : bool :=
  existsb (fun i => (off + i <? size) && negb (mem (off + i) =? 0xFF)) (seqZ 0 len).

Definition fmu_verify_erased (s : MCXNFMUState) (off len : Z) : MCXNFMUState :=
  match flash s with
  | None => s
  | Some mem =>
      if fmu_unerased mem (flash_size s) off len then s <| fstat := fstat s .| FSTAT_FAIL |> else s
  end.

(** [memset(flash + off, 0xFF, len)] *)
Definition flash_fill (mem : Z -> Z) (off len : Z) : Z -> Z :=
  fun a => if (off <=? a) && (a <? off + len) then 0xFF else mem a.

Definition flash_store (mem : Z -> Z) (a v : Z) : Z -> Z := fun x => if x =? a then v else mem x.

(** One byte of the program loop: bits only go from 1 to 0, and a bit that was
    to stay 1 and reads back 0 fails the verify. *)
Definition fmu_program_byte (buf : list Z) (off : Z) (acc : (Z -> Z) * Z) (i : Z) : (Z -> Z) * Z :=
  let '(mem, st) := acc in
  let merged := mem (off + i) .& buf.[i] in
  (flash_store mem (off + i) merged, if negb (merged =? buf.[i]) then st .| FSTAT_FAIL else st).

Definition fmu_commit (s : MCXNFMUState) : option MCXNFMUState :=
  let len := u32 (pe_expect s * 4) in
  let off := pe_addr s in
  match flash s with
  | None => Some (fmu_complete s)
  | Some mem =>
      if (pe_cmd s =? FCMD_PGMPG) || (pe_cmd s =? FCMD_PGMPHR) then
        if flash_size s <? u64 (off + len) then Some (fmu_fail s FSTAT_ACCERR)
        else
          let '(mem', st) := foldl (fmu_program_byte (pe_buf s) off) (mem, fstat s) (seqZ 0 len) in
          Some (fmu_complete (s <| flash := Some mem' |> <| fstat := st |>))
      else if pe_cmd s =? FCMD_ERSSCR then
        let sec := off .& u64 (.~ (MCXN_FLASH_SECTOR - 1)) in
        if flash_size s <? u64 (sec + MCXN_FLASH_SECTOR) then Some (fmu_fail s FSTAT_ACCERR)
        else
          let s := s <| flash := Some (flash_fill mem sec MCXN_FLASH_SECTOR) |> in
          Some (fmu_complete (fmu_verify_erased s sec MCXN_FLASH_SECTOR))
      else None
  end.

(** A Read 1s command on an aligned unit. *)
Definition fmu_read1s (s : MCXNFMUState) (addr unit : Z) : MCXNFMUState :=
  if flag addr (unit - 1) then fmu_fail s FSTAT_ACCERR
  else fmu_complete (fmu_verify_erased s addr unit).

Definition fmu_launch (s : MCXNFMUState) : MCXNFMUState :=
  let cmd := u8 ((fccob s).[0] .& 0xFF) in
  let addr := fmu_flash_off s ((fccob s).[2]) in
  let s := s <| fstat := fstat s .& u32 (.~ FSTAT_CCIF) |> in
  let s := fmu_update_irq s in
  if cmd =? FCMD_ERSALL then
    fmu_complete
      match flash s with
      | Some mem => s <| flash := Some (flash_fill mem 0 (flash_size s)) |>
      | None => s
      end
  else if cmd =? FCMD_RD1ALL then fmu_complete (fmu_verify_erased s 0 (flash_size s))
  else if cmd =? FCMD_RD1BLK then
    fmu_complete (fmu_verify_erased s (addr .& u64 (.~ u64 (flash_size s / 2 - 1))) (flash_size s / 2))
  else if cmd =? FCMD_RD1SCR then fmu_read1s s addr MCXN_FLASH_SECTOR
  else if cmd =? FCMD_RD1PG then fmu_read1s s addr MCXN_FLASH_PAGE
  else if cmd =? FCMD_RD1PHR then fmu_read1s s addr MCXN_FLASH_PHRASE
  else if cmd =? FCMD_PGMPG then fmu_open_write_window s cmd (MCXN_FLASH_PAGE / 4) PEWEN_PAGE
  else if (cmd =? FCMD_PGMPHR) || (cmd =? FCMD_ERSSCR) then
    fmu_open_write_window s cmd (MCXN_FLASH_PHRASE / 4) PEWEN_PHRASE
  else fmu_fail s FSTAT_ACCERR.

(** [stl_le_p(&buf[i], v)] *)
Definition stl_le_p (buf : list Z) (i v : Z) : list Z :=
  list_inserts (Z.to_nat i) (le_store 4 (u32 v)) buf.

(** The store itself, once the window and the address are accepted. *)
Definition fmu_stage (s : MCXNFMUState) (val : Z) : MCXNFMUState :=
  if pe_expect s <=? pe_words s then fmu_fail s FSTAT_ACCERR
  else
    let s := s <| pe_buf := stl_le_p (pe_buf s) (u32 (pe_words s * 4)) val |> in
    let s := s <| pe_words := u32 (pe_words s + 1) |> in
    if pe_words s =? pe_expect s then
      let s := s <| fstat := fstat s .& u32 (.~ FSTAT_PEWEN_MASK) |> in
      s <| fstat := fstat s .| FSTAT_PERDY |>
    else s.

Definition mcxn_fmu_flash_write (s : MCXNFMUState) (off val size : Z) : MCXNFMUState :=
  if negb (pe_active s) || negb (flag (fstat s) FSTAT_PEWEN_MASK) then s
  else if negb (size =? 4) then fmu_fail s FSTAT_ACCERR
  else if pe_words s =? 0 then
    if flag off (u32 (u32 (pe_expect s * 4) - 1)) then fmu_fail s FSTAT_ACCERR
    else fmu_stage (s <| pe_addr := off |>) val
  else if negb (off =? u64 (pe_addr s + u32 (pe_words s * 4))) then fmu_fail s FSTAT_ACCERR
  else fmu_stage s val.

Definition mcxn_fmu_init_flash (s : MCXNFMUState) (mem : Z -> Z) (size : Z) : MCXNFMUState :=
  s <| flash := Some mem |> <| flash_size := size |>.

Definition in_fccob (off : Z) : bool := (R_FCCOB0 <=? off) && (off <? R_FCCOB0 + 8 * 4).

Definition mcxn_fmu_read (s : MCXNFMUState) (off : Z) : Z :=
  if off =? R_FSTAT then fstat s
  else if off =? R_FCNFG then fcnfg s
  else if off =? R_FCTRL then fctrl s
  else if in_fccob off then (fccob s).[(off - R_FCCOB0) / 4]
  else 0.

Definition fmu_write_fstat (s : MCXNFMUState) (v : Z) : option MCXNFMUState :=
  let blocked := flag (fstat s) FSTAT_ERRORS in
  let s := s <| fstat := fstat s .& u32 (.~ (v .& FSTAT_ERRORS)) |> in
  if flag v FSTAT_PERDY && flag (fstat s) FSTAT_PERDY then
    fmu_commit (s <| fstat := fstat s .& u32 (.~ FSTAT_PERDY) |>)
  else if flag v FSTAT_CCIF && flag (fstat s) FSTAT_CCIF && negb blocked then Some (fmu_launch s)
  else Some s.

Definition mcxn_fmu_write (s : MCXNFMUState) (off val : Z) : option MCXNFMUState :=
  let v := u32 val in
  if off =? R_FSTAT then fmu_write_fstat s v
  else if off =? R_FCNFG then Some (fmu_update_irq (s <| fcnfg := v |>))
  else if off =? R_FCTRL then
    let s := s <| fctrl := v |> in
    Some (if flag v FCTRL_ABTREQ then
            let s := if pe_active s then fmu_fail s FSTAT_CMDABT else s in
            s <| fctrl := fctrl s .& u32 (.~ FCTRL_ABTREQ) |>
          else s)
  else if in_fccob off then
    Some (if flag (fstat s) FSTAT_CCIF then s <| fccob := (fccob s).[(off - R_FCCOB0) / 4 <- v] |> else s)
  else Some s.

Definition mcxn_fmu_reset (s : MCXNFMUState) : MCXNFMUState :=
  mkFMU (irq s) FSTAT_CCIF 0 0 (replicate 8 0) (replicate (Z.to_nat MCXN_FLASH_PAGE) 0xFF)
    0 0 0 0 false (flash s) (flash_size s).
Definition mcxn_fmu_post_load (s : MCXNFMUState) : MCXNFMUState := fmu_update_irq s.
Definition fmu_init : MCXNFMUState := mcxn_fmu_reset (mkFMU false 0 0 0 [] [] 0 0 0 0 false None 0).

(** ** The handshake as an invariant

    The unit is either idle (CCIF set, no window) or executes one program or
    erase command: it collects the words of the command while PEWEN is set, and
    waits with PERDY set when it has them all. *)

Definition fmu_errors (s : MCXNFMUState) : bool := flag (fstat s) FSTAT_ERRORS.

Definition fmu_idle (s : MCXNFMUState) : Prop :=
  pe_active s = false /\ flag (fstat s) FSTAT_CCIF = true /\
  flag (fstat s) FSTAT_PEWEN_MASK = false /\ flag (fstat s) FSTAT_PERDY = false.

(** The commands with a write window and the words they want. *)
Definition windowed (cmd expect : Z) : Prop :=
  cmd = FCMD_PGMPG /\ expect = 32 \/ (cmd = FCMD_PGMPHR \/ cmd = FCMD_ERSSCR) /\ expect = 4.

Definition fmu_busy (s : MCXNFMUState) : Prop :=
  pe_active s = true /\ flag (fstat s) FSTAT_CCIF = false /\ fmu_errors s = false /\
  windowed (pe_cmd s) (pe_expect s) /\ 0 <= pe_words s <= pe_expect s /\
  flag (fstat s) FSTAT_PEWEN_MASK = (pe_words s <? pe_expect s) /\
  flag (fstat s) FSTAT_PERDY = (pe_words s =? pe_expect s).

(** The sizes of the arrays; the staged address is one of the flash array, which
    is far below the 64-bit offsets of the source. *)
Definition fmu_shape (s : MCXNFMUState) : Prop :=
  zlen (fccob s) = 8 /\ zlen (pe_buf s) = 128 /\ in_range 63 (pe_addr s).

Record fmu_ok (s : MCXNFMUState) : Prop := {
  ok_irq : irq s = flag (fstat s) FSTAT_CCIF && flag (fcnfg s) FCNFG_CCIE;
  ok_phase : fmu_idle s \/ fmu_busy s;
  ok_shape : fmu_shape s;
}.

Lemma fmu_complete_ok s : fmu_shape s -> fmu_ok (fmu_complete s).
Proof.
  intros Hs. split; [done | left | done]. unfold fmu_idle. cbn -[flag].
  fnorm. done.
Qed.

Lemma fmu_fail_ok s f : fmu_shape s -> fmu_ok (fmu_fail s f).
Proof. intros. by apply fmu_complete_ok. Qed.

Lemma fmu_verify_frame s off len :
  let s' := fmu_verify_erased s off len in
  (fmu_shape s -> fmu_shape s') /\ flash s' = flash s /\ flash_size s' = flash_size s.
Proof. unfold fmu_verify_erased. by repeat case_match. Qed.

Lemma fmu_window_ok s cmd words pewen :
  irq s = flag (fstat s) FSTAT_CCIF && flag (fcnfg s) FCNFG_CCIE ->
  flag (fstat s) FSTAT_CCIF = false -> fmu_errors s = false ->
  fmu_shape s -> windowed cmd words -> pewen = PEWEN_PHRASE \/ pewen = PEWEN_PAGE ->
  fmu_ok (fmu_open_write_window s cmd words pewen).
Proof.
  intros Hi Hc He Hf Hw Hp. assert (Hpos : 0 < words) by (destruct Hw as [[_ ->]|[_ ->]]; lia).
  unfold fmu_errors in *. destruct Hp as [-> | ->]; (split; [|right|split_and!; [apply Hf | done | by split]]).
  all: try (unfold fmu_busy, fmu_errors; split_and!; try done; try (cbn; lia)).
  all: cbn -[flag Z.eqb Z.ltb]; fnorm; rewrite ?(proj2 (Z.ltb_lt 0 words)), ?(proj2 (Z.eqb_neq 0 words)) by lia; try done.
  all: by rewrite Hi, Hc.
Qed.

(** ** Flash physics *)

(** The program loop over the bytes [k .. k + n). *)
Lemma fmu_program_loop buf off n k mem st :
  0 <= n ->
  let '(mem', st') := foldl (fmu_program_byte buf off) (mem, st) (seqZ k n) in
  (forall a, mem' a = if (off + k <=? a) && (a <? off + k + n) then mem a .& buf.[a - off] else mem a) /\
  st' = if existsb (fun i => negb (mem (off + i) .& buf.[i] =? buf.[i])) (seqZ k n) then st .| FSTAT_FAIL else st.
Proof.
  intros Hn. revert k mem st. pattern n. apply natlike_ind; [| |done]; clear n Hn.
  { intros k mem st. cbn. split; [|done]. intros a. zcases; done. }
  intros n Hn IH k mem st. rewrite seqZ_S, Z.sub_1_r, Z.pred_succ by lia. cbn [foldl fmu_program_byte existsb].
  specialize (IH (k + 1) (flash_store mem (off + k) (mem (off + k) .& buf.[k]))
    (if negb (mem (off + k) .& buf.[k] =? buf.[k]) then st .| FSTAT_FAIL else st)).
  destruct (foldl _ _ _) as [mem' st']. destruct IH as [Hm Hs]. split.
  - intros a. rewrite Hm. unfold flash_store. destruct (Z.eqb_spec a (off + k)) as [->|].
    + replace (off + k - off) with k by lia. zcases; done.
    + zcases; done.
  - rewrite Hs, (existsb_ext _ (fun i => negb (mem (off + i) .& buf.[i] =? buf.[i])) (seqZ (k + 1) n)).
    + clear Hs. destruct (negb (mem (off + k) .& _ =? _)), (existsb _ _); cbn [orb]; try done.
      by rewrite <- Z.lor_assoc, Z.lor_diag.
    + intros x Hx%elem_of_seqZ. unfold flash_store. by rewrite (proj2 (Z.eqb_neq (off + x) (off + k))) by lia.
Qed.

(** A bit of the array goes from 0 to 1 only when its whole sector is erased. *)
Definition flash_evolves (s s' : MCXNFMUState) : Prop :=
  flash_size s' = flash_size s /\
  match flash s, flash s' with
  | Some mem, Some mem' =>
      forall a, mem' a = mem a .& mem' a \/
        forall b, 0 <= b < flash_size s -> b / MCXN_FLASH_SECTOR = a / MCXN_FLASH_SECTOR -> mem' b = 0xFF
  | None, None => True
  | _, _ => False
  end.

Lemma flash_evolves_refl s s' : flash_size s' = flash_size s -> flash s' = flash s -> flash_evolves s s'.
Proof. intros Hz E. split; [done|]. rewrite E. destruct (flash s); [|done]. intros a. left. by rewrite Z.land_diag. Qed.

Lemma flash_fill_in mem off len a : off <= a < off + len -> flash_fill mem off len a = 0xFF.
Proof. intros. unfold flash_fill. rewrite (proj2 (Z.leb_le _ _)), (proj2 (Z.ltb_lt _ _)) by lia. done. Qed.
Lemma flash_fill_out mem off len a : ~ (off <= a < off + len) -> flash_fill mem off len a = mem a.
Proof. intros. unfold flash_fill. zcases; done. Qed.

Lemma fmu_sector_base a : 0 <= a < 2 ^ 64 ->
  a .& u64 (.~ (MCXN_FLASH_SECTOR - 1)) = MCXN_FLASH_SECTOR * (a / MCXN_FLASH_SECTOR).
Proof.
  intros Ha. transitivity ((a .>> 13) .<< 13).
  - change (MCXN_FLASH_SECTOR - 1) with (Z.ones 13). apply Z.bits_inj'. intros i Hi.
    autorewrite with bits. destruct (Z.ltb_spec i 13).
    + rewrite (Z.testbit_neg_r _ (i - 13)) by lia. cbn. btauto.
    + cbn [negb]. rewrite andb_true_r, Z.shiftr_spec by lia. replace (i - 13 + 13) with i by lia.
      destruct (Z.ltb_spec i 64); [btauto|]. rewrite (testbit_range 64) by lia. done.
  - rewrite Z.shiftl_mul_pow2, Z.shiftr_div_pow2 by lia. change (2 ^ 13) with MCXN_FLASH_SECTOR. lia.
Qed.

Lemma fmu_unerased_fill mem size off len : fmu_unerased (flash_fill mem off len) size off len = false.
Proof.
  unfold fmu_unerased. apply not_true_is_false. intros (i & Hi & H)%existsb_exists.
  apply list_elem_of_In, elem_of_seqZ in Hi. rewrite flash_fill_in in H by lia. by rewrite andb_false_r in H.
Qed.

(** An erased span verifies. *)
Lemma fmu_verify_fill s mem off len :
  let s1 := s <| flash := Some (flash_fill mem off len) |> in fmu_verify_erased s1 off len = s1.
Proof. cbv zeta. unfold fmu_verify_erased. cbn [flash modify]. by rewrite fmu_unerased_fill. Qed.

Lemma flash_fill_evolves mem q :
  let mem' := flash_fill mem (MCXN_FLASH_SECTOR * q) MCXN_FLASH_SECTOR in
  forall a, mem' a = mem a .& mem' a \/
    forall b, b / MCXN_FLASH_SECTOR = a / MCXN_FLASH_SECTOR -> mem' b = 0xFF.
Proof.
  intros mem' a. unfold MCXN_FLASH_SECTOR in *. destruct (Z.eq_dec (a / 0x2000) q) as [E|E].
  - right. intros b Hbq. apply flash_fill_in.
    pose proof (Z.div_mod b 0x2000 ltac:(lia)). pose proof (Z.mod_pos_bound b 0x2000 ltac:(lia)). lia.
  - left. subst mem'. rewrite flash_fill_out; [by rewrite Z.land_diag|]. intros Hin. apply E.
    symmetry. apply (Z.div_unique _ _ _ (a - 0x2000 * q)); lia.
Qed.

Lemma fmu_commit_spec s :
  fmu_shape s -> windowed (pe_cmd s) (pe_expect s) ->
  exists s', fmu_commit s = Some s' /\ fmu_ok s' /\ flash_evolves s s'.
Proof.
  intros Hs Hw. assert (Ha : in_range 63 (pe_addr s)) by apply Hs. unfold fmu_commit. destruct (flash s) as [mem|] eqn:Em.
  2: { eexists. split; [done|]. split; [by apply fmu_complete_ok | by apply flash_evolves_refl]. }
  assert (Hfail : forall f, exists s', Some (fmu_fail s f) = Some s' /\ fmu_ok s' /\ flash_evolves s s').
  { intros f. eexists. split; [done|]. split; [by apply fmu_fail_ok | by apply flash_evolves_refl]. }
  destruct ((pe_cmd s =? FCMD_PGMPG) || (pe_cmd s =? FCMD_PGMPHR)) eqn:Ep.
  - destruct (_ <? _); [done|]. set (len := u32 (pe_expect s * 4)).
    pose proof (fmu_program_loop (pe_buf s) (pe_addr s) len 0 mem (fstat s) ltac:(apply wrap_range; lia)) as Hl.
    destruct (foldl _ _ _) as [mem' st]. destruct Hl as [Hm _]. eexists. split; [done|].
    split; [by apply fmu_complete_ok|]. split; [done|]. cbn. rewrite Em. intros a. left. rewrite Hm.
    destruct (_ && _); [by rewrite Z.land_assoc, Z.land_diag | by rewrite Z.land_diag].
  - destruct (pe_cmd s =? FCMD_ERSSCR) eqn:Ee.
    + destruct (_ <? _); [done|]. rewrite fmu_verify_fill. eexists. split; [done|].
      split; [by apply fmu_complete_ok|]. split; [done|]. cbn [flash modify]. rewrite Em.
      change (flash (fmu_complete ?x)) with (flash x). cbn [flash modify].
      rewrite fmu_sector_base by (unfold in_range in Ha; lia). intros a.
      destruct (flash_fill_evolves mem (pe_addr s / MCXN_FLASH_SECTOR) a); auto.
    + exfalso. destruct Hw as [[E _]|[[E|E] _]]; rewrite E in *; done.
Qed.

Lemma fmu_verify_done s off len :
  fmu_shape s -> let s' := fmu_complete (fmu_verify_erased s off len) in fmu_ok s' /\ flash_evolves s s'.
Proof.
  intros Hs. destruct (fmu_verify_frame s off len) as (H1 & H2 & H3).
  split; [by apply fmu_complete_ok, H1 | by apply flash_evolves_refl].
Qed.

Lemma fmu_fail_done s f : fmu_shape s -> fmu_ok (fmu_fail s f) /\ flash_evolves s (fmu_fail s f).
Proof. intros Hs. split; [by apply fmu_fail_ok | by apply flash_evolves_refl]. Qed.

Lemma fmu_read1s_done s addr unit :
  fmu_shape s -> fmu_ok (fmu_read1s s addr unit) /\ flash_evolves s (fmu_read1s s addr unit).
Proof. intros Hs. unfold fmu_read1s. destruct (flag _ _); [by apply fmu_fail_done | by apply fmu_verify_done]. Qed.

Lemma fmu_launch_spec s :
  fmu_ok s -> fmu_errors s = false -> fmu_ok (fmu_launch s) /\ flash_evolves s (fmu_launch s).
Proof.
  intros [Hi _ Hs] He. unfold fmu_launch. cbv zeta. set (s1 := fmu_update_irq _).
  assert (Hs1 : fmu_shape s1) by exact Hs. assert (Hc1 : flag (fstat s1) FSTAT_CCIF = false) by (cbn -[flag]; by fnorm).
  assert (He1 : fmu_errors s1 = false) by (unfold fmu_errors in *; cbn -[flag]; by fnorm).
  assert (Hev : forall s', flash_evolves s1 s' -> flash_evolves s s') by done.
  assert (Hi1 : irq s1 = flag (fstat s1) FSTAT_CCIF && flag (fcnfg s1) FCNFG_CCIE) by done.
  set (addr := fmu_flash_off s _). set (cmd := u8 _). clearbody addr cmd s1. clear Hi Hs He.
  assert (Hgo : forall s', fmu_ok s' /\ flash_evolves s1 s' -> fmu_ok s' /\ flash_evolves s s') by (intros s' []; auto).
  assert (Hwin : forall words pewen, windowed cmd words -> pewen = PEWEN_PHRASE \/ pewen = PEWEN_PAGE ->
    let s' := fmu_open_write_window s1 cmd words pewen in fmu_ok s' /\ flash_evolves s1 s').
  { intros words pewen Hw Hp. split; [by apply fmu_window_ok | by apply flash_evolves_refl]. }
  apply Hgo. clear Hgo Hev.
  repeat match goal with |- context [cmd =? ?c] => destruct (Z.eqb_spec cmd c) as [E|_]; cbn [orb] end;
    auto using fmu_verify_done, fmu_read1s_done, fmu_fail_done.
  - destruct (flash s1) as [mem|] eqn:Em; (split; [by apply fmu_complete_ok|]).
    + split; [done|]. cbn. rewrite Em. intros a. right. intros b Hb _. apply flash_fill_in. lia.
    + by apply flash_evolves_refl.
  - apply Hwin; [by left | by right].
  - apply Hwin; [right; auto | by left].
  - apply Hwin; [right; auto | by left].
Qed.

(** Stores never reach the array. *)
Lemma fmu_stage_spec s val :
  fmu_ok s -> fmu_busy s -> flag (fstat s) FSTAT_PEWEN_MASK = true ->
  fmu_ok (fmu_stage s val) /\ flash (fmu_stage s val) = flash s /\ flash_size (fmu_stage s val) = flash_size s.
Proof.
  intros [Hi _ (Hf & Hb & Ha)] (Hact & Hc & He & Hw & Hwd & Hpw & Hrd) Hpe. unfold fmu_errors in *.
  assert (Hlt : pe_words s < pe_expect s) by (rewrite Hpe in Hpw; symmetry in Hpw; by apply Z.ltb_lt in Hpw).
  assert (Hex : pe_expect s <= 32) by (destruct Hw as [[_ ->]|[_ ->]]; lia).
  unfold fmu_stage. rewrite (proj2 (Z.leb_gt _ _)) by lia. cbv zeta.
  set (buf := stl_le_p _ _ _).
  assert (Hb1 : zlen buf = 128) by (unfold buf, stl_le_p; by rewrite length_inserts).
  clearbody buf. cbn [pe_words pe_expect fstat modify]. rewrite (wrap_id 32) by lia.
  destruct (Z.eqb_spec (pe_words s + 1) (pe_expect s)) as [E|E]; (split; [|done]);
    (split; [|right; unfold fmu_busy, fmu_errors; cbn -[flag Z.eqb Z.ltb]|done]);
    cbn -[flag Z.eqb Z.ltb]; fnorm; try done.
  - rewrite E, Z.ltb_irrefl, Z.eqb_refl. split_and!; done || lia.
  - split_and!; try done; try lia.
    + rewrite Hpe. symmetry. apply Z.ltb_lt. lia.
    + rewrite Hrd, !(proj2 (Z.eqb_neq _ _)) by lia. done.
Qed.

Lemma fmu_flash_write_spec s off val size :
  fmu_ok s -> in_range 63 off ->
  let s' := mcxn_fmu_flash_write s off val size in
  fmu_ok s' /\ flash s' = flash s /\ flash_size s' = flash_size s.
Proof.
  intros Hok Ho. cbv zeta. unfold mcxn_fmu_flash_write.
  destruct (pe_active s) eqn:Hact; [|done]. destruct (flag _ FSTAT_PEWEN_MASK) eqn:Hpe; [|done]. cbn [negb orb].
  assert (Hbusy : fmu_busy s) by (destruct (ok_phase s Hok) as [(? & _)|]; [congruence | done]).
  assert (Hfail : forall f, fmu_ok (fmu_fail s f) /\ flash (fmu_fail s f) = flash s /\ flash_size (fmu_fail s f) = flash_size s).
  { intros f. split; [apply fmu_fail_ok, Hok | done]. }
  destruct (negb (size =? 4)); [done|]. destruct (pe_words s =? 0).
  - destruct (flag off _); [done|].
    set (s0 := s <| pe_addr := off |>). refine (fmu_stage_spec s0 val _ Hbusy Hpe).
    destruct Hok as [Hi Hp (H1 & H2 & H3)]. split; [exact Hi | exact Hp | by split_and!].
  - destruct (negb _); [done|]. by apply fmu_stage_spec.
Qed.

Lemma fmu_write_fstat_spec s v :
  fmu_ok s -> exists s', fmu_write_fstat s v = Some s' /\ fmu_ok s' /\ flash_evolves s s'.
Proof.
  intros Hok. unfold fmu_write_fstat. cbv zeta. set (s1 := s <| fstat := _ |>).
  assert (Hfl : forall m, in_range 32 m -> FSTAT_ERRORS .& m = 0 -> flag (fstat s1) m = flag (fstat s) m)
    by (intros; by apply flag_w1c_other).
  assert (Hok1 : fmu_ok s1).
  { destruct Hok as [Hi Hp Hs]. split; [|destruct Hp as [(H1 & H2 & H3 & H4)|(H1 & H2 & H3 & H4 & H5 & H6 & H7)];
      [left; unfold fmu_idle | right; unfold fmu_busy]|exact Hs]; rewrite !Hfl by (done || auto with ranges);
      try done; try by split_and!.
    split_and!; try done; [by apply flag_land_false | apply H5 | apply H5]. }
  destruct (flag v FSTAT_PERDY && _) eqn:Hp.
  - apply andb_true_iff in Hp as [_ Hp]. set (s2 := s1 <| fstat := _ |>).
    destruct (ok_phase s1 Hok1) as [(_ & _ & _ & ?)|Hb]; [congruence|].
    destruct (fmu_commit_spec s2) as (s' & Ec & Hok' & Hev); [apply Hok1 | apply Hb |]. by exists s'.
  - destruct (_ && negb _) eqn:Hl; eexists; (split; [done|]).
    + apply andb_true_iff in Hl as [_ Hl%negb_true_iff].
      apply (fmu_launch_spec s1); [done|]. by apply flag_land_false.
    + split; [done|]. by apply flash_evolves_refl.
Qed.

Lemma fmu_write_spec s off val :
  fmu_ok s -> exists s', mcxn_fmu_write s off val = Some s' /\ fmu_ok s' /\ flash_evolves s s'.
Proof.
  intros Hok. unfold mcxn_fmu_write. cbv zeta. destruct (off =? R_FSTAT); [by apply fmu_write_fstat_spec|].
  destruct Hok as [Hi Hp Hs].
  destruct (off =? R_FCNFG).
  { eexists. split; [done|]. split; [by split | by apply flash_evolves_refl]. }
  destruct (off =? R_FCTRL).
  { eexists. split; [done|]. destruct (flag _ FCTRL_ABTREQ); [|by split; [split | apply flash_evolves_refl]].
    destruct (pe_active _) eqn:Ha; (split; [|by apply flash_evolves_refl]); [|by split].
    destruct (fmu_fail_ok s FSTAT_CMDABT Hs) as [Hi' Hp' Hs']. split; [exact Hi' | exact Hp' | exact Hs']. }
  destruct (in_fccob off); eexists; (split; [done|]).
  - destruct (flag _ FSTAT_CCIF) in |- *; (split; [|by apply flash_evolves_refl]); split; try done.
    destruct Hs as (H1 & H2). split; [|done]. cbn. by rewrite length_arr_set.
  - by split; [split | apply flash_evolves_refl].
Qed.

(** ** Reachable states *)

Inductive fmu_step : MCXNFMUState -> MCXNFMUState -> Prop :=
  | fmu_step_write s off val s' : mcxn_fmu_write s off val = Some s' -> fmu_step s s'
  | fmu_step_store s off val size : in_range 63 off -> fmu_step s (mcxn_fmu_flash_write s off val size)
  | fmu_step_load s : fmu_step s (mcxn_fmu_post_load s).

Definition fmu_boot (mem : Z -> Z) (size : Z) : MCXNFMUState := mcxn_fmu_init_flash fmu_init mem size.

Lemma fmu_boot_ok mem size : fmu_ok (fmu_boot mem size).
Proof. split; [done | left | split_and!]; done || auto with ranges. Qed.

Lemma fmu_reachable_ok mem size s : rtc fmu_step (fmu_boot mem size) s -> fmu_ok s.
Proof.
  intros Hr. eapply rtc_invariant; [|exact Hr|apply fmu_boot_ok]. clear.
  intros a b [s off val s' Hw|s off val size Ho|s] Hok.
  - destruct (fmu_write_spec s off val Hok) as (s'' & E & Hok' & _). by rewrite Hw in E; injection E as <-.
  - by apply fmu_flash_write_spec.
  - destruct Hok. by split.
Qed.

(** Nothing depends on the level of the interrupt line, which a device reset leaves
    as it was. *)
Lemma fmu_commit_irq s b : exists b', fmu_commit (s <| irq := b |>) = (fun s' => s' <| irq := b' |>) <$> fmu_commit s.
Proof.
  destruct s. unfold fmu_commit. cbn -[foldl fmu_verify_erased u64 u32 flash_fill Z.land seqZ]. case_match; [|by eexists].
  destruct (_ || _); [case_match; [by eexists|]; destruct (foldl _ _ _); by eexists|].
  destruct (_ =? FCMD_ERSSCR); [|by exists b]. case_match; [by eexists|]. unfold fmu_verify_erased. cbn -[u64 u32 flash_fill Z.land seqZ]. repeat case_match; by eexists.
Qed.

Lemma fmu_launch_irq s b : fmu_launch (s <| irq := b |>) = fmu_launch s.
Proof. by destruct s. Qed.

Lemma fmu_write_irq s b off val : exists b', mcxn_fmu_write (s <| irq := b |>) off val = (fun s' => s' <| irq := b' |>) <$> mcxn_fmu_write s off val.
Proof.
  unfold mcxn_fmu_write, fmu_write_fstat. cbv zeta. destruct (off =? R_FSTAT).
  - change (fstat (s <| irq := b |>)) with (fstat s). set (x := fstat s .& _).
    change (fstat (s <| fstat := x |>)) with x. change (fstat (s <| irq := b |> <| fstat := x |>)) with x.
    destruct (_ && flag x FSTAT_PERDY); [exact (fmu_commit_irq (s <| fstat := x |> <| fstat := x .& u32 (.~ FSTAT_PERDY) |>) b)|].
    destruct (_ && _ && _); [|by exists b]. exists (irq (fmu_launch (s <| fstat := x |>))).
    change (s <| irq := b |> <| fstat := x |>) with (s <| fstat := x |> <| irq := b |>). rewrite fmu_launch_irq. cbn. f_equal. by destruct (fmu_launch _).
  - destruct s. cbn. repeat case_match; by eexists.
Qed.

(** The runs of the unit with device resets among the steps. *)
Inductive fmu_run : MCXNFMUState -> MCXNFMUState -> Prop :=
  | fmu_run_step s s' : fmu_step s s' -> fmu_run s s'
  | fmu_run_reset s : fmu_run s (mcxn_fmu_reset s).

Definition fmu_sound (s : MCXNFMUState) : Prop := exists b, fmu_ok (s <| irq := b |>).

Lemma fmu_write_sound s off val : fmu_sound s -> exists s', mcxn_fmu_write s off val = Some s' /\ fmu_sound s' /\ flash_evolves s s'.
Proof.
  intros [b Hok]. destruct (fmu_write_spec _ off val Hok) as (s1 & E & Hok1 & Hev). destruct (fmu_write_irq s b off val) as [b' E'].
  rewrite E in E'. destruct (mcxn_fmu_write s off val) as [s2|]; [|done]. injection E' as ->. exists s2. split; [done|]. split; [by exists b' | exact Hev].
Qed.

Lemma fmu_store_sound s off val n : fmu_sound s -> in_range 63 off ->
  fmu_sound (mcxn_fmu_flash_write s off val n) /\ flash (mcxn_fmu_flash_write s off val n) = flash s.
Proof.
  intros [b Hok] Ho. destruct (fmu_flash_write_spec _ off val n Hok Ho) as [H1 H2].
  assert (E : exists b', mcxn_fmu_flash_write (s <| irq := b |>) off val n = (mcxn_fmu_flash_write s off val n) <| irq := b' |>).
  { destruct s. unfold mcxn_fmu_flash_write, fmu_stage. cbn -[stl_le_p u32 u64]. repeat case_match; by eexists. }
  destruct E as [b' E]. rewrite E in H1, H2. split; [by exists b' | apply H2].
Qed.

Lemma fmu_run_sound mem size s : rtc fmu_run (fmu_boot mem size) s -> fmu_sound s.
Proof.
  intros Hr. eapply rtc_invariant; [|exact Hr|exists false; apply fmu_boot_ok]. clear.
  intros a b [s s' [s1 off val s2 Hw|s1 off val size Ho|s1]|s] Hs.
  - destruct (fmu_write_sound s1 off val Hs) as (s3 & E & Hs3 & _). rewrite Hw in E. by injection E as ->.
  - by apply fmu_store_sound.
  - destruct Hs as [b0 Hok]. exists (irq (mcxn_fmu_post_load s1)). destruct Hok. by split.
  - exists false. split; [done | left | split_and!]; done || auto with ranges.
Qed.

(** C24: The flash keeps its physics.  In every state reachable from reset, device
    resets in the middle of a command included, a guest store to the flash address
    space leaves the array as it is, whatever the state of the command; a register
    write changes it only as flash can: a bit goes from 0 to 1 only if the whole
    8 KB sector around it is erased by the same command. *)
Theorem fmu_flash_physics mem size s off val :
  rtc fmu_run (fmu_boot mem size) s ->
  (forall n, in_range 63 off -> flash (mcxn_fmu_flash_write s off val n) = flash s) /\
  (forall s', mcxn_fmu_write s off val = Some s' -> flash_evolves s s').
Proof.
  intros Hok%fmu_run_sound. split.
  - intros n Ho. by apply fmu_store_sound.
  - intros s' Hw. destruct (fmu_write_sound s off val Hok) as (s'' & E & _ & Hev).
    rewrite Hw in E. by injection E as <-.
Qed.

(** A reset in the middle of a phrase program, and the command launched again. *)
Definition fmu_interrupted : MCXNFMUState :=
  default fmu_init (s ← mcxn_fmu_write (fmu_boot (fun _ => 0x12) 0x200000) R_FCCOB0 FCMD_PGMPHR;
                    s ← mcxn_fmu_write s R_FSTAT FSTAT_CCIF;
                    mcxn_fmu_write (mcxn_fmu_reset s) R_FCCOB0 FCMD_PGMPHR).
Lemma fmu_flash_physics_witness :
  flash (mcxn_fmu_flash_write fmu_interrupted 0x40 0 4) = flash fmu_interrupted /\
  exists s', mcxn_fmu_write fmu_interrupted R_FSTAT FSTAT_CCIF = Some s' /\ flash_evolves fmu_interrupted s'.
Proof.
  destruct (fmu_flash_physics (fun _ => 0x12) 0x200000 fmu_interrupted 0x40 0) as [H1 _].
  - eapply rtc_l; [apply fmu_run_step, (fmu_step_write _ R_FCCOB0 FCMD_PGMPHR); reflexivity|].
    eapply rtc_l; [apply fmu_run_step, (fmu_step_write _ R_FSTAT FSTAT_CCIF); reflexivity|].
    eapply rtc_l; [apply fmu_run_reset|]. apply rtc_once, fmu_run_step, (fmu_step_write _ R_FCCOB0 FCMD_PGMPHR). reflexivity.
  - split; [apply H1; split; vm_compute; congruence|]. eexists. split; [reflexivity|].
    apply (fmu_flash_physics (fun _ => 0x12) 0x200000 fmu_interrupted R_FSTAT FSTAT_CCIF); [|reflexivity].
    eapply rtc_l; [apply fmu_run_step, (fmu_step_write _ R_FCCOB0 FCMD_PGMPHR); reflexivity|].
    eapply rtc_l; [apply fmu_run_step, (fmu_step_write _ R_FSTAT FSTAT_CCIF); reflexivity|].
    eapply rtc_l; [apply fmu_run_reset|]. apply rtc_once, fmu_run_step, (fmu_step_write _ R_FCCOB0 FCMD_PGMPHR). reflexivity.
Defined.

(** The handshake.  In every reachable state the unit is idle or busy with
    exactly one program or erase command: CCIF is set if and only if no command
    waits for its data, PEWEN is set while words are missing and PERDY once all
    are there; the interrupt line is CCIF gated by CCIE; and no register write
    runs into the assertion on the staged command. *)
Theorem fmu_handshake mem size s :
  rtc fmu_step (fmu_boot mem size) s ->
  irq s = flag (fstat s) FSTAT_CCIF && flag (fcnfg s) FCNFG_CCIE /\
  flag (fstat s) FSTAT_CCIF = negb (pe_active s) /\
  flag (fstat s) FSTAT_PEWEN_MASK = pe_active s && (pe_words s <? pe_expect s) /\
  flag (fstat s) FSTAT_PERDY = pe_active s && (pe_words s =? pe_expect s) /\
  (forall off val, is_Some (mcxn_fmu_write s off val)).
Proof.
  intros Hok%fmu_reachable_ok. assert (Hw : forall off val, is_Some (mcxn_fmu_write s off val)).
  { intros off val. destruct (fmu_write_spec s off val Hok) as (s' & -> & _). by eexists. }
  destruct Hok as [Hi Hp _]. split; [done|].
  destruct Hp as [(-> & -> & -> & ->)|(-> & -> & _ & _ & _ & -> & ->)]; done.
Qed.

(** A phrase program launched on the erased flash: the window is open. *)
Definition fmu_phrase_open : MCXNFMUState :=
  default fmu_init (s ← mcxn_fmu_write (fmu_boot (fun _ => 0xFF) 0x200000) R_FCCOB0 FCMD_PGMPHR;
                    mcxn_fmu_write s R_FSTAT FSTAT_CCIF).
Lemma fmu_handshake_witness : flag (fstat fmu_phrase_open) FSTAT_PEWEN_MASK = true.
Proof.
  refine (eq_trans (proj1 (proj2 (proj2 (fmu_handshake (fun _ => 0xFF) 0x200000 fmu_phrase_open _)))) eq_refl).
  eapply rtc_l; [apply (fmu_step_write _ R_FCCOB0 FCMD_PGMPHR); reflexivity|].
  apply rtc_once, (fmu_step_write _ R_FSTAT FSTAT_CCIF). reflexivity.
Defined.

(** ** The program and erase protocol

    What the flash driver does: name the command, launch it, store the words
    into the flash address space, and release the staged operation. *)

Fixpoint fmu_stores (s : MCXNFMUState) (a : Z) (ws : list Z) : MCXNFMUState :=
  match ws with
  | [] => s
  | w :: ws => fmu_stores (mcxn_fmu_flash_write s a w 4) (a + 4) ws
  end.

Definition fmu_command (s : MCXNFMUState) (cmd a : Z) (ws : list Z) : option MCXNFMUState :=
  s1 ← mcxn_fmu_write s R_FCCOB0 cmd;
  s2 ← mcxn_fmu_write s1 R_FSTAT FSTAT_CCIF;
  mcxn_fmu_write (fmu_stores s2 a ws) R_FSTAT FSTAT_PERDY.

(** The bytes the words stand for. *)
Definition bytes_of (ws : list Z) : list Z := concat (le_store 4 <$> ws).

Definition fmu_ready (s : MCXNFMUState) : Prop := fmu_ok s /\ pe_active s = false /\ fmu_errors s = false.

(** Command [cmd] for [n] words at [a] has collected the bytes [bs]. *)
Record staging (s0 s : MCXNFMUState) (cmd n a : Z) (bs : list Z) : Prop := {
  stg_ok : fmu_ok s;
  stg_act : pe_active s = true;
  stg_cmd : pe_cmd s = cmd;
  stg_expect : pe_expect s = n;
  stg_words : zlen bs = 4 * pe_words s;
  stg_addr : pe_words s = 0 \/ pe_addr s = a;
  stg_buf : exists rest, pe_buf s = bs ++ rest;
  stg_flash : flash s = flash s0;
  stg_size : flash_size s = flash_size s0;
}.

Lemma fmu_ok_busy s : fmu_ok s -> pe_active s = true -> fmu_busy s.
Proof. intros [_ [(H & _)|H] _]; [congruence | done]. Qed.

Lemma fmu_launch_staging s cmd n a :
  fmu_ready s -> windowed cmd n ->
  exists s2, (s1 ← mcxn_fmu_write s R_FCCOB0 cmd; mcxn_fmu_write s1 R_FSTAT FSTAT_CCIF) = Some s2 /\
    staging s s2 cmd n a [].
Proof.
  intros (Hok & Ha & He) Hw.
  assert (Hcc : flag (fstat s) FSTAT_CCIF = true)
    by (destruct (ok_phase s Hok) as [(_ & ? & _)|(? & _)]; [done | congruence]).
  assert (Hpd : flag (fstat s) FSTAT_PERDY = false)
    by (destruct (ok_phase s Hok) as [(_ & _ & _ & ?)|(? & _)]; [done | congruence]).
  destruct (fmu_write_spec s R_FCCOB0 cmd Hok) as (s1 & E1 & Hok1 & _).
  rewrite E1, bind_Some. change (mcxn_fmu_write s R_FCCOB0 cmd) with
    (Some (if flag (fstat s) FSTAT_CCIF then s <| fccob := (fccob s).[0 <- u32 cmd] |> else s)) in E1.
  rewrite Hcc in E1. injection E1 as <-. set (s1 := s <| fccob := _ |>) in *.
  destruct (fmu_write_spec s1 R_FSTAT FSTAT_CCIF Hok1) as (s2 & E2 & Hok2 & _). rewrite E2.
  exists s2. split; [done|]. change (fmu_write_fstat s1 FSTAT_CCIF = Some s2) in E2. revert E2. unfold fmu_write_fstat.
  set (s3 := s1 <| fstat := _ |>). cbv zeta.
  assert (H1 : flag FSTAT_CCIF FSTAT_PERDY && flag (fstat s3) FSTAT_PERDY = false) by done.
  assert (H2 : flag FSTAT_CCIF FSTAT_CCIF && flag (fstat s3) FSTAT_CCIF && negb (flag (fstat s1) FSTAT_ERRORS) = true).
  { unfold fmu_errors in He. change (fstat s1) with (fstat s). cbn -[flag]. fnorm. by rewrite Hcc, He. }
  rewrite H1, H2. clear H1 H2. intros [= <-]. clear Hpd Hcc Ha He.
  assert (Hcmd : u8 ((fccob s3).[0] .& 0xFF) = cmd).
  { change (fccob s3) with ((fccob s).[0 <- u32 cmd]). destruct Hok as [_ _ (Hf & _)].
    rewrite arr_get_set_eq by lia. destruct Hw as [[-> _]|[[-> | ->] _]]; reflexivity. }
  revert Hok2. unfold fmu_launch. rewrite Hcmd.
  destruct Hw as [[-> ->]|[[-> | ->] ->]]; intros Hok2;
    (split; [exact Hok2 | done.. | by left | by eexists | done | done]).
Qed.


Lemma stl_le_p_app bs rest w :
  4 <= zlen rest ->
  exists rest', stl_le_p (bs ++ rest) (zlen bs) w = (bs ++ le_store 4 (u32 w)) ++ rest'.
Proof.
  intros Hr. unfold stl_le_p. rewrite Nat2Z.id. exists (drop 4 rest).
  replace (length bs) with (length bs + 0)%nat by lia. rewrite list_inserts_app_r, <- app_assoc. f_equal.
  rewrite <- (take_drop 4 rest) at 1. apply list_inserts_0_r. rewrite length_le_store, length_take. lia.
Qed.

(** Addresses aligned to the unit of the command. *)
Lemma unit_flag n a : n = 4 \/ n = 32 -> flag a (u32 (u32 (n * 4) - 1)) = negb (a mod (4 * n) =? 0).
Proof.
  intros Hn. unfold flag. do 2 f_equal. destruct Hn as [-> | ->];
    [change (u32 (u32 (4 * 4) - 1)) with (Z.ones 4) | change (u32 (u32 (32 * 4) - 1)) with (Z.ones 7)];
    by rewrite Z.land_ones by lia.
Qed.

Lemma fmu_store_staging s0 s cmd n a bs w :
  staging s0 s cmd n a bs -> zlen bs < 4 * n -> in_range 62 a -> a mod (4 * n) = 0 ->
  staging s0 (mcxn_fmu_flash_write s (a + zlen bs) w 4) cmd n a (bs ++ le_store 4 (u32 w)).
Proof.
  intros [Hok Hact Hcmd Hex Hwd Had [rest Hbuf] Hfl Hsz] Hlt Ha Hal. unfold in_range in Ha.
  destruct (fmu_ok_busy s Hok Hact) as (_ & Hcc & _ & Hw & Hwr & Hpe & _).
  assert (Hn : n = 4 \/ n = 32) by (destruct Hw as [[_ E]|[_ E]]; rewrite Hex in E; auto).
  destruct (fmu_flash_write_spec s (a + zlen bs) w 4 Hok ltac:(unfold in_range; lia)) as (Hok' & Hfl' & Hsz').
  revert Hok' Hfl' Hsz'. unfold mcxn_fmu_flash_write.
  rewrite Hact, Hpe, (proj2 (Z.ltb_lt _ _)) by lia. cbn [negb orb]. change (4 =? 4) with true. cbn [negb].
  assert (Hstage : forall s1, pe_active s1 = true -> pe_addr s1 = a -> pe_cmd s1 = cmd -> pe_expect s1 = n ->
    pe_words s1 = pe_words s -> pe_buf s1 = bs ++ rest -> let s' := fmu_stage s1 w in
    fmu_ok s' -> flash s' = flash s -> flash_size s' = flash_size s -> staging s0 s' cmd n a (bs ++ le_store 4 (u32 w))).
  { clear Had. intros s1 A1 A2 A3 A4 A5 A6. unfold fmu_stage. rewrite A4, A5, (proj2 (Z.leb_gt _ _)) by lia.
    cbv zeta. cbn [pe_words pe_expect fstat modify]. rewrite A4, A5, A6, (wrap_id 32 (_ * 4)), (wrap_id 32 (_ + 1)) by lia.
    replace (pe_words s * 4) with (zlen bs) by lia.
    assert (Hrest : 4 <= zlen rest) by (destruct Hok as [_ _ (_ & Hb & _)]; rewrite Hbuf, length_app in Hb; lia).
    destruct (stl_le_p_app bs rest w Hrest) as [rest' ->]. destruct (_ =? n); intros Hok' Hfl' Hsz';
      (split; [exact Hok' | exact A1 | exact A3 | exact A4 | | by right | by eexists
              | by rewrite Hfl', Hfl | by rewrite Hsz', Hsz]);
      rewrite length_app, length_le_store; cbn [pe_words modify]; lia. }
  destruct (Z.eqb_spec (pe_words s) 0) as [E|E].
  - replace (a + zlen bs) with a by lia. rewrite Hex, unit_flag, Hal by done.
    set (s1 := s <| pe_addr := a |>). by apply Hstage.
  - destruct Had as [Had|Had]; [done|]. rewrite Had.
    rewrite (wrap_id 32), (wrap_id 64) by lia. replace (pe_words s * 4) with (zlen bs) by lia. rewrite Z.eqb_refl. cbn [negb].
    by apply Hstage.
Qed.

Lemma fmu_stores_staging ws : forall s0 s cmd n a bs,
  staging s0 s cmd n a bs -> zlen bs + 4 * zlen ws <= 4 * n -> in_range 62 a -> a mod (4 * n) = 0 ->
  Forall (in_range 32) ws ->
  staging s0 (fmu_stores s (a + zlen bs) ws) cmd n a (bs ++ bytes_of ws).
Proof.
  induction ws as [|w ws IH]; intros s0 s cmd n a bs Hst Hlen Ha Hal Hws.
  { unfold bytes_of. cbn. by rewrite app_nil_r. }
  inversion Hws as [|? ? Hw Hws']; subst. cbn [fmu_stores length] in *.
  specialize (IH s0 (mcxn_fmu_flash_write s (a + zlen bs) w 4) cmd n a (bs ++ le_store 4 w)).
  rewrite length_app, length_le_store in IH. replace (a + Z.of_nat (length bs + 4)) with (a + zlen bs + 4) in IH by lia.
  unfold bytes_of. cbn [fmap list_fmap concat]. rewrite app_assoc. apply IH; try done; [|lia].
  rewrite <- (wrap_in_range 32 w) at 2 by done. apply fmu_store_staging; [done | lia | done | done].
Qed.

Lemma fmu_release s0 s cmd n a bs :
  staging s0 s cmd n a bs -> zlen bs = 4 * n ->
  pe_addr s = a /\
  exists st, mcxn_fmu_write s R_FSTAT FSTAT_PERDY = fmu_commit (s <| fstat := st |>) /\ flag st FSTAT_ERRORS = false.
Proof.
  intros [Hok Hact Hcmd Hex Hwd Had _ _ _] Hlen.
  destruct (fmu_ok_busy s Hok Hact) as (_ & _ & He & Hw & _ & _ & Hrd). unfold fmu_errors in He.
  rewrite (proj2 (Z.eqb_eq _ _)) in Hrd by lia. split.
  - destruct Had as [E|]; [|done]. destruct Hw as [[_ E']|[_ E']]; lia.
  - change (mcxn_fmu_write s R_FSTAT FSTAT_PERDY) with (fmu_write_fstat s FSTAT_PERDY). unfold fmu_write_fstat. cbv zeta.
    set (s1 := s <| fstat := _ |>).
    assert (H1 : flag FSTAT_PERDY FSTAT_PERDY && flag (fstat s1) FSTAT_PERDY = true) by (cbn -[flag]; by fnorm).
    rewrite H1. eexists. split; [done|]. subst s1. cbn -[flag]. by fnorm.
Qed.

(** How a command ends: idle again, with [fail] as its only possible error. *)
Definition fmu_ended (s' : MCXNFMUState) (fail : bool) : Prop :=
  fmu_ok s' /\ pe_active s' = false /\ flag (fstat s') FSTAT_CCIF = true /\
  flag (fstat s') FSTAT_FAIL = fail /\ flag (fstat s') (FSTAT_CMDABT .| FSTAT_PVIOL .| FSTAT_ACCERR) = false.

Lemma fmu_complete_ended s (fail : bool) :
  fmu_shape s -> flag (fstat s) FSTAT_FAIL = fail -> flag (fstat s) (FSTAT_CMDABT .| FSTAT_PVIOL .| FSTAT_ACCERR) = false ->
  fmu_ended (fmu_complete s) fail.
Proof.
  intros Hs Hf He. split; [by apply fmu_complete_ok|]. split; [done|]. cbn -[flag]. fnorm. done.
Qed.

Lemma fmu_ended_ready s : fmu_ended s false -> fmu_ready s.
Proof.
  intros (Hok & Ha & _ & Hf & He). split; [done|]. split; [done|]. unfold fmu_errors.
  change FSTAT_ERRORS with (FSTAT_FAIL .| (FSTAT_CMDABT .| FSTAT_PVIOL .| FSTAT_ACCERR)).
  by rewrite flag_lor_r, Hf, He.
Qed.

(** No error at all, split as the end of a command reports it. *)
Lemma fmu_no_errors st : flag st FSTAT_ERRORS = false ->
  flag st FSTAT_FAIL = false /\ flag st (FSTAT_CMDABT .| FSTAT_PVIOL .| FSTAT_ACCERR) = false.
Proof.
  change FSTAT_ERRORS with (FSTAT_FAIL .| (FSTAT_CMDABT .| FSTAT_PVIOL .| FSTAT_ACCERR)).
  rewrite flag_lor_r. apply orb_false_iff.
Qed.

(** The programmed array: the new bytes masked by the old ones. *)
Definition programmed (mem : Z -> Z) (a : Z) (bs : list Z) (mem' : Z -> Z) : Prop :=
  forall x, mem' x = if (a <=? x) && (x <? a + zlen bs) then mem x .& bs.[x - a] else mem x.

(** Some bit that the data leaves at 1 is already 0. *)
Definition needs_erase (mem : Z -> Z) (a : Z) (bs : list Z) : bool :=
  existsb (fun i => negb (mem (a + i) .& bs.[i] =? bs.[i])) (seqZ 0 (zlen bs)).

Lemma arr_get_app_l (bs rest : list Z) i : 0 <= i < zlen bs -> (bs ++ rest).[i] = bs.[i].
Proof. intros. unfold arr_get. apply lookup_total_app_l. lia. Qed.

Lemma fmu_commit_program s0 s cmd n a bs mem :
  staging s0 s cmd n a bs -> zlen bs = 4 * n -> cmd = FCMD_PGMPHR \/ cmd = FCMD_PGMPG ->
  0 <= a -> a + 4 * n <= flash_size s0 < 2 ^ 64 -> flash s0 = Some mem ->
  exists s' mem', mcxn_fmu_write s R_FSTAT FSTAT_PERDY = Some s' /\ flash s' = Some mem' /\
    flash_size s' = flash_size s0 /\ programmed mem a bs mem' /\ fmu_ended s' (needs_erase mem a bs).
Proof.
  intros Hst Hlen Hc Ha Hsz Hm. destruct (fmu_release _ _ _ _ _ _ Hst Hlen) as [Had (st & -> & He)].
  destruct Hst as [Hok Hact Hcmd Hex _ _ [rest Hbuf] Hfl Hfs]. apply fmu_no_errors in He as [Hf He].
  assert (Hn : n = 4 \/ n = 32)
    by (destruct (fmu_ok_busy s Hok Hact) as (_ & _ & _ & [[_ E]|[_ E]] & _); rewrite Hex in E; auto).
  unfold fmu_commit. cbn [flash pe_cmd pe_addr pe_expect pe_buf flash_size fstat modify]. rewrite Hfl, Hm, Hcmd, Had, Hex, Hfs.
  replace ((cmd =? FCMD_PGMPG) || (cmd =? FCMD_PGMPHR)) with true by (destruct Hc as [-> | ->]; done).
  rewrite (wrap_id 32 (n * 4)), (wrap_id 64 (a + n * 4)), (proj2 (Z.ltb_ge _ _)) by lia.
  pose proof (fmu_program_loop (pe_buf s) a (n * 4) 0 mem st ltac:(lia)) as Hl.
  destruct (foldl _ _ _) as [mem' st']. destruct Hl as [Hmem Hst']. eexists _, mem'. split; [done|].
  split; [done|]. split; [exact Hfs|]. split.
  - intros x. rewrite Hmem, Hbuf, Z.add_0_r. replace (n * 4) with (zlen bs) by lia.
    destruct (Z.leb_spec a x), (Z.ltb_spec x (a + zlen bs)); cbn [andb]; try done. by rewrite arr_get_app_l by lia.
  - apply fmu_complete_ended; [apply Hok|..]; cbn [fstat modify]; rewrite Hst'; clear Hst';
      unfold needs_erase; replace (n * 4) with (zlen bs) by lia;
      rewrite (existsb_ext _ (fun i => negb (mem (a + i) .& bs.[i] =? bs.[i])))
        by (intros i Hi%elem_of_seqZ; rewrite Hbuf, arr_get_app_l by lia; done);
      destruct (existsb _ _); fnorm; done.
Qed.

Lemma fmu_command_run s cmd n a ws :
  fmu_ready s -> windowed cmd n -> zlen ws = n -> in_range 62 a -> a mod (4 * n) = 0 -> Forall (in_range 32) ws ->
  exists s3, fmu_command s cmd a ws = mcxn_fmu_write s3 R_FSTAT FSTAT_PERDY /\
    staging s s3 cmd n a (bytes_of ws) /\ zlen (bytes_of ws) = 4 * n.
Proof.
  intros Hr Hw Hlen Ha Hal Hws. destruct (fmu_launch_staging s cmd n a Hr Hw) as (s2 & E2 & Hst).
  exists (fmu_stores s2 a ws). split; [|split].
  - unfold fmu_command. destruct (mcxn_fmu_write s R_FCCOB0 cmd) as [s1|]; [|done].
    rewrite bind_Some in E2 |- *. by rewrite E2, bind_Some.
  - pose proof (fmu_stores_staging ws s s2 cmd n a [] Hst) as H. cbn [length app] in H.
    rewrite Z.add_0_r in H. apply H; [lia | done..].
  - subst n. clear. induction ws as [|w ws IH]; [done|]. unfold bytes_of in *. cbn [fmap list_fmap concat length].
    rewrite length_app, length_le_store. lia.
Qed.

(** Programming.  The driver's program sequence for a phrase (4 words) or a
    page (32 words) at an aligned address of the array completes, with the
    array's bytes masked by the data and no other byte touched; it reports FAIL
    exactly when a bit that the data leaves at 1 was already 0, and no other
    error. *)
Theorem fmu_program s cmd n a ws mem :
  fmu_ready s -> flash s = Some mem -> in_range 62 (flash_size s) ->
  cmd = FCMD_PGMPHR /\ n = 4 \/ cmd = FCMD_PGMPG /\ n = 32 ->
  zlen ws = n -> Forall (in_range 32) ws -> 0 <= a -> a mod (4 * n) = 0 -> a + 4 * n <= flash_size s ->
  exists s' mem', fmu_command s cmd a ws = Some s' /\ flash s' = Some mem' /\
    programmed mem a (bytes_of ws) mem' /\ fmu_ended s' (needs_erase mem a (bytes_of ws)).
Proof.
  intros Hr Hm Hsz Hc Hlen Hws Ha Hal Hend. unfold in_range in Hsz.
  destruct (fmu_command_run s cmd n a ws) as (s3 & -> & Hst & Hbl); try done.
  { destruct Hc as [[-> ->]|[-> ->]]; [right | left]; auto. }
  { unfold in_range. lia. }
  assert (Hc' : cmd = FCMD_PGMPHR \/ cmd = FCMD_PGMPG) by (destruct Hc as [[? _]|[? _]]; auto).
  destruct (fmu_commit_program s s3 cmd n a _ mem Hst Hbl Hc' Ha ltac:(lia) Hm) as (s' & mem' & E & Hm' & _ & Hp & He).
  by exists s', mem'.
Qed.

Lemma fmu_commit_erase s0 s a bs mem :
  staging s0 s FCMD_ERSSCR 4 a bs -> zlen bs = 16 -> 0 <= a < 2 ^ 62 ->
  MCXN_FLASH_SECTOR * (a / MCXN_FLASH_SECTOR) + MCXN_FLASH_SECTOR <= flash_size s0 -> flash s0 = Some mem ->
  exists s', mcxn_fmu_write s R_FSTAT FSTAT_PERDY = Some s' /\
    flash s' = Some (flash_fill mem (MCXN_FLASH_SECTOR * (a / MCXN_FLASH_SECTOR)) MCXN_FLASH_SECTOR) /\
    flash_size s' = flash_size s0 /\ fmu_ended s' false.
Proof.
  intros Hst Hlen Ha Hsz Hm. destruct (fmu_release _ _ _ _ _ _ Hst Hlen) as [Had (st & -> & He)].
  destruct Hst as [Hok Hact Hcmd Hex _ _ _ Hfl Hfs]. apply fmu_no_errors in He as [Hf He].
  unfold fmu_commit. cbn [flash pe_cmd pe_addr pe_expect pe_buf flash_size fstat modify]. rewrite Hfl, Hm, Hcmd, Had, Hex, Hfs.
  change ((FCMD_ERSSCR =? FCMD_PGMPG) || (FCMD_ERSSCR =? FCMD_PGMPHR)) with false. rewrite Z.eqb_refl. cbv iota zeta.
  rewrite fmu_sector_base by lia. set (sec := MCXN_FLASH_SECTOR * _) in *.
  assert (Hsec : 0 <= sec <= a).
  { unfold sec, MCXN_FLASH_SECTOR. pose proof (Z.div_mod a 0x2000 ltac:(lia)).
    pose proof (Z.mod_pos_bound a 0x2000 ltac:(lia)). lia. }
  unfold MCXN_FLASH_SECTOR at 1. rewrite (wrap_id 64 (sec + _)) by lia.
  rewrite (proj2 (Z.ltb_ge _ _)) by (unfold MCXN_FLASH_SECTOR in *; lia). rewrite fmu_verify_fill.
  eexists. split; [done|]. split; [done|]. split; [exact Hfs|].
  apply fmu_complete_ended; [apply Hok | exact Hf | exact He].
Qed.

Lemma bytes_of_range ws : Forall (in_range 8) (bytes_of ws).
Proof.
  unfold bytes_of. induction ws as [|w ws IH]; [constructor|]. cbn [fmap list_fmap concat]. apply Forall_app. split; [|done].
  cbn [le_store]. repeat constructor; apply in_range_wrap; lia.
Qed.

Lemma erased_byte b : in_range 8 b -> 0xFF .& b = b.
Proof. intros Hb. rewrite Z.land_comm. change 0xFF with (Z.ones 8). rewrite Z.land_ones by lia. by apply Z.mod_small. Qed.

(** Data programmed over erased bytes needs no further erase. *)
Lemma needs_erase_erased mem a bs :
  Forall (in_range 8) bs -> (forall i, 0 <= i < zlen bs -> mem (a + i) = 0xFF) -> needs_erase mem a bs = false.
Proof.
  intros Hb Hm. unfold needs_erase. apply not_true_is_false. intros (i & Hi & H)%existsb_exists.
  apply list_elem_of_In, elem_of_seqZ in Hi. rewrite Hm, erased_byte, Z.eqb_refl in H by (lia || (apply Forall_arr_get; [done|lia])).
  done.
Qed.

(** An aligned unit is phrase-aligned and does not leave its sector. *)
Lemma unit_in_sector n a : n = 4 \/ n = 32 -> 0 <= a -> a mod (4 * n) = 0 ->
  let sec := MCXN_FLASH_SECTOR * (a / MCXN_FLASH_SECTOR) in
  sec <= a /\ a + 4 * n <= sec + MCXN_FLASH_SECTOR /\ a mod (4 * 4) = 0.
Proof.
  intros Hn Ha Hal. unfold MCXN_FLASH_SECTOR. pose proof (Z.div_mod a 0x2000 ltac:(lia)).
  pose proof (Z.mod_pos_bound a 0x2000 ltac:(lia)). pose proof (Z.div_mod a (4 * n) ltac:(lia)) as E.
  rewrite Hal, Z.add_0_r in E. cbv zeta. split; [lia|]. destruct Hn as [-> | ->]; (split; [lia|]); [done|].
  rewrite E. replace (4 * 32 * (a / (4 * 32))) with (8 * (a / (4 * 32)) * (4 * 4)) by lia. apply Z.mod_mul. lia.
Qed.

(** C34: Flash round trip.  Erasing the sector of an aligned phrase or page and
    programming it makes the array read back exactly the data, with no error;
    the rest of the sector reads as erased, and no byte outside it changes. *)
Theorem fmu_erase_program_roundtrip s cmd n a ws0 ws mem :
  let sec := MCXN_FLASH_SECTOR * (a / MCXN_FLASH_SECTOR) in
  fmu_ready s -> flash s = Some mem -> in_range 62 (flash_size s) ->
  cmd = FCMD_PGMPHR /\ n = 4 \/ cmd = FCMD_PGMPG /\ n = 32 ->
  zlen ws0 = 4 -> Forall (in_range 32) ws0 -> zlen ws = n -> Forall (in_range 32) ws ->
  0 <= a -> a mod (4 * n) = 0 -> sec + MCXN_FLASH_SECTOR <= flash_size s ->
  exists s1 s2 mem2, fmu_command s FCMD_ERSSCR a ws0 = Some s1 /\ fmu_command s1 cmd a ws = Some s2 /\
    flash s2 = Some mem2 /\ fmu_ended s2 false /\
    forall x, mem2 x = if (a <=? x) && (x <? a + 4 * n) then (bytes_of ws).[x - a]
                       else if (sec <=? x) && (x <? sec + MCXN_FLASH_SECTOR) then 0xFF else mem x.
Proof.
  intros sec Hr Hm Hsz Hc Hl0 Hws0 Hlen Hws Ha Hal Hend. unfold in_range in Hsz.
  assert (Hn : n = 4 \/ n = 32) by (destruct Hc as [[_ ->]|[_ ->]]; auto).
  destruct (unit_in_sector n a Hn Ha Hal) as (Hin1 & Hin2 & Hal4). fold sec in Hin1, Hin2.
  destruct (fmu_command_run s FCMD_ERSSCR 4 a ws0) as (s3 & E3 & Hst & Hbl); try done.
  { right; auto. }
  { unfold in_range. unfold MCXN_FLASH_SECTOR in *. lia. }
  destruct (fmu_commit_erase s s3 a _ mem Hst Hbl) as (s1 & E1 & Hm1 & Hs1 & He1); try done.
  { unfold MCXN_FLASH_SECTOR in *. lia. }
  fold sec in Hm1. apply fmu_ended_ready in He1.
  destruct (fmu_command_run s1 cmd n a ws He1) as (s4 & E4 & Hst4 & Hbl4); try done.
  { destruct Hc as [[-> ->]|[-> ->]]; [right | left]; auto. }
  { unfold in_range. unfold MCXN_FLASH_SECTOR in *. lia. }
  assert (Hc' : cmd = FCMD_PGMPHR \/ cmd = FCMD_PGMPG) by (destruct Hc as [[? _]|[? _]]; auto).
  destruct (fmu_commit_program s1 s4 cmd n a _ _ Hst4 Hbl4 Hc' Ha ltac:(lia) Hm1) as (s2 & mem2 & E2 & Hm2 & _ & Hp & He2).
  rewrite needs_erase_erased in He2 by (apply bytes_of_range || (intros i Hi; apply flash_fill_in; lia)).
  exists s1, s2, mem2. rewrite E3, E4. split_and!; try done.
  intros x. rewrite Hp, Hbl4. destruct (Z.leb_spec a x), (Z.ltb_spec x (a + 4 * n)); cbn [andb]; try done.
  rewrite flash_fill_in by lia. apply erased_byte, Forall_arr_get; [apply bytes_of_range | lia].
Qed.

Lemma fmu_boot_ready mem size : fmu_ready (fmu_boot mem size).
Proof. split; [apply fmu_boot_ok | done]. Qed.

Definition sample_words : list Z := [0x11223344; 0x55667788; 0x99AABBCC; 0xDDEEFF00].
Lemma sample_words_range : Forall (in_range 32) sample_words.
Proof. repeat constructor; vm_compute; congruence. Qed.

(** Programming over the zero byte at 0x45 fails, and masks it. *)
Lemma fmu_program_witness :
  exists s' mem', fmu_command (fmu_boot (fun a => if a =? 0x45 then 0 else 0xFF) 0x200000) FCMD_PGMPHR 0x40 sample_words = Some s' /\
    flash s' = Some mem' /\ mem' 0x44 = 0x88 /\ mem' 0x45 = 0 /\ fmu_ended s' true.
Proof.
  destruct (fmu_program (fmu_boot (fun a => if a =? 0x45 then 0 else 0xFF) 0x200000) FCMD_PGMPHR 4 0x40 sample_words
    (fun a => if a =? 0x45 then 0 else 0xFF)) as (s' & mem' & E & Hm & Hp & He).
  - apply fmu_boot_ready.
  - reflexivity.
  - split; vm_compute; congruence.
  - left. split; reflexivity.
  - reflexivity.
  - exact sample_words_range.
  - lia.
  - reflexivity.
  - vm_compute; congruence.
  - exists s', mem'. split; [exact E|]. split; [exact Hm|]. split; [exact (Hp 0x44)|]. split; [exact (Hp 0x45)|]. exact He.
Defined.

Lemma fmu_erase_program_roundtrip_witness :
  exists s1 s2 mem2,
    fmu_command (fmu_boot (fun _ => 0x00) 0x200000) FCMD_ERSSCR 0x40 [0; 0; 0; 0] = Some s1 /\
    fmu_command s1 FCMD_PGMPHR 0x40 sample_words = Some s2 /\ flash s2 = Some mem2 /\
    mem2 0x45 = 0x77 /\ mem2 0x50 = 0xFF /\ mem2 0x2000 = 0.
Proof.
  destruct (fmu_erase_program_roundtrip (fmu_boot (fun _ => 0x00) 0x200000) FCMD_PGMPHR 4 0x40 [0; 0; 0; 0] sample_words
    (fun _ => 0x00)) as (s1 & s2 & mem2 & E1 & E2 & Hm & _ & Hx).
  - apply fmu_boot_ready.
  - reflexivity.
  - split; vm_compute; congruence.
  - left. split; reflexivity.
  - reflexivity.
  - repeat constructor; vm_compute; congruence.
  - reflexivity.
  - exact sample_words_range.
  - lia.
  - reflexivity.
  - vm_compute; congruence.
  - exists s1, s2, mem2. split; [exact E1|]. split; [exact E2|]. split; [exact Hm|].
    split; [exact (Hx 0x45)|]. split; [exact (Hx 0x50) | exact (Hx 0x2000)].
Defined.

(** ** Protocol errors *)

(** The store the open window expects next. *)
Definition expected_store (s : MCXNFMUState) (off size : Z) : bool :=
  (size =? 4) &&
  (if pe_words s =? 0 then off mod (4 * pe_expect s) =? 0 else off =? pe_addr s + 4 * pe_words s).

(** Errors.  A store into an open window that is not the expected one (a
    32-bit store, aligned to the unit for the first word, consecutive after
    that) aborts the command with ACCERR and leaves the array alone; and as long
    as an error flag is set no write launches a command, not even one that
    clears the flag in the same access. *)
Theorem fmu_bad_store_aborts mem size s off val n v :
  rtc fmu_step (fmu_boot mem size) s -> flag (fstat s) FSTAT_PEWEN_MASK = true -> in_range 62 off ->
  expected_store s off n = false ->
  let s' := mcxn_fmu_flash_write s off val n in
  fmu_ok s' /\ pe_active s' = false /\ flag (fstat s') FSTAT_ACCERR = true /\ flash s' = flash s /\
  exists s'', mcxn_fmu_write s' R_FSTAT v = Some s'' /\ pe_active s'' = false /\ flash s'' = flash s.
Proof.
  intros Hok%fmu_reachable_ok Hpe Ho Hbad s'.
  assert (Hact : pe_active s = true) by (destruct (ok_phase s Hok) as [(_ & _ & ? & _)|(? & _)]; [congruence | done]).
  destruct (fmu_ok_busy s Hok Hact) as (_ & _ & _ & Hw & Hwr & _).
  assert (Hn : pe_expect s = 4 \/ pe_expect s = 32) by (destruct Hw as [[_ E]|[_ E]]; auto).
  assert (Es : s' = fmu_fail s FSTAT_ACCERR).
  { unfold s', mcxn_fmu_flash_write, expected_store in *. rewrite Hact, Hpe. cbn [negb orb].
    destruct (n =? 4); [|done]. cbn [negb andb] in *. rewrite unit_flag by done.
    destruct (pe_words s =? 0); [by rewrite Hbad|].
    destruct Hok as [_ _ (_ & _ & Hpa)]. unfold in_range in Hpa.
    rewrite (wrap_id 32), (wrap_id 64), (Z.mul_comm _ 4), Hbad by lia. done. }
  clearbody s'. subst s'. assert (Hfok := fmu_fail_ok s FSTAT_ACCERR (ok_shape s Hok)).
  assert (Hacc : flag (fstat (fmu_fail s FSTAT_ACCERR)) FSTAT_ACCERR = true) by (cbn -[flag]; by fnorm).
  split; [done|]. split; [done|]. split; [done|]. split; [done|].
  change (mcxn_fmu_write ?x R_FSTAT v) with (fmu_write_fstat x (u32 v)). unfold fmu_write_fstat. cbv zeta.
  set (s1 := fmu_fail s FSTAT_ACCERR) in *. set (s2 := s1 <| fstat := _ |>).
  assert (Hb : flag (fstat s1) FSTAT_ERRORS = true).
  { change FSTAT_ERRORS with (FSTAT_FAIL .| FSTAT_CMDABT .| FSTAT_PVIOL .| FSTAT_ACCERR).
    by rewrite flag_lor_r, Hacc, orb_true_r. }
  assert (Hp2 : flag (fstat s2) FSTAT_PERDY = false).
  { apply flag_land_false. destruct (ok_phase s1 Hfok) as [(_ & _ & _ & H)|(H & _)]; [exact H | discriminate H]. }
  rewrite Hb, Hp2, !andb_false_r. by exists s2.
Qed.
Lemma fmu_bad_store_aborts_witness :
  flash (mcxn_fmu_flash_write fmu_phrase_open 0x44 0 4) = flash fmu_phrase_open.
Proof.
  refine (proj1 (proj2 (proj2 (proj2 (fmu_bad_store_aborts (fun _ => 0xFF) 0x200000 fmu_phrase_open 0x44 0 4 FSTAT_CCIF _ _ _ _))))).
  - eapply rtc_l; [apply (fmu_step_write _ R_FCCOB0 FCMD_PGMPHR); reflexivity|].
    apply rtc_once, (fmu_step_write _ R_FSTAT FSTAT_CCIF). reflexivity.
  - reflexivity.
  - split; vm_compute; congruence.
  - reflexivity.
Defined.
