(* ===== verification/Mailbox.v ===== *)
(** * MAILBOX: inter-CPU interrupts and the hardware mutex

    Model of [hw/misc/mcxn_mailbox.c]: the two interrupt request words with
    their set and clear aliases, the lines they drive, and the read-to-acquire
    mutex, with the mutual exclusion it provides. *)
From stdpp Require Import gmap.
From S2P Require Import Prelude.

Definition MAILBOX_IRQ0 : Z := 0x00.
Definition MAILBOX_IRQSET0 : Z := 0x04.
Definition MAILBOX_IRQCLR0 : Z := 0x08.
Definition MAILBOX_IRQ1 : Z := 0x10.
Definition MAILBOX_IRQSET1 : Z := 0x14.
Definition MAILBOX_IRQCLR1 : Z := 0x18.
Definition MAILBOX_MUTEX : Z := 0xF8.
Definition MAILBOX_MUTEX_EX : Z := bit 0.

Record MCXNMailboxState := mkMailbox {
  out : list bool;    (* the lines to the two NVICs *)
  irq : list Z;       (* uint32_t irq[2] *)
  mutex : Z
}.
#[export] Instance mailbox_settable : Settable MCXNMailboxState := fun s => mkMailbox (out s) (irq s) (mutex s).

Definition mcxn_mailbox_update_irq (s : MCXNMailboxState) : MCXNMailboxState :=
  let s := s <| out := (out s).[0 <- negb ((irq s).[0] =? 0)] |> in
  s <| out := (out s).[1 <- negb ((irq s).[1] =? 0)] |>.

Definition mcxn_mailbox_read (s : MCXNMailboxState) (offset : Z) : Z * MCXNMailboxState :=
  if offset =? MAILBOX_IRQ0 then ((irq s).[0], s)
  else if offset =? MAILBOX_IRQ1 then ((irq s).[1], s)
  else if offset =? MAILBOX_MUTEX then
    (mutex s .& MAILBOX_MUTEX_EX, s <| mutex := mutex s .& u32 (.~ MAILBOX_MUTEX_EX) |>)
  else (0, s).

Definition mcxn_mailbox_write (s : MCXNMailboxState) (offset value : Z) : MCXNMailboxState :=
  if offset =? MAILBOX_IRQ0 then mcxn_mailbox_update_irq (s <| irq := (irq s).[0 <- u32 value] |>)
  else if offset =? MAILBOX_IRQ1 then mcxn_mailbox_update_irq (s <| irq := (irq s).[1 <- u32 value] |>)
  else if offset =? MAILBOX_IRQSET0 then
    mcxn_mailbox_update_irq (s <| irq := (irq s).[0 <- u32 ((irq s).[0] .| value)] |>)
  else if offset =? MAILBOX_IRQCLR0 then
    mcxn_mailbox_update_irq (s <| irq := (irq s).[0 <- (irq s).[0] .& u32 (.~ u32 value)] |>)
  else if offset =? MAILBOX_IRQSET1 then
    mcxn_mailbox_update_irq (s <| irq := (irq s).[1 <- u32 ((irq s).[1] .| value)] |>)
  else if offset =? MAILBOX_IRQCLR1 then
    mcxn_mailbox_update_irq (s <| irq := (irq s).[1 <- (irq s).[1] .& u32 (.~ u32 value)] |>)
  else if offset =? MAILBOX_MUTEX then s <| mutex := mutex s .| MAILBOX_MUTEX_EX |>
  else s.

Definition mcxn_mailbox_reset (s : MCXNMailboxState) : MCXNMailboxState :=
  mkMailbox (out s) [0; 0] MAILBOX_MUTEX_EX.
Definition mcxn_mailbox_post_load (s : MCXNMailboxState) : MCXNMailboxState := mcxn_mailbox_update_irq s.
Definition mailbox_init : MCXNMailboxState := mcxn_mailbox_reset (mkMailbox [false; false] [] 0).

(** ** The interrupt words *)

(** Two words, and each line carries whether its word is non-zero. *)
Record mailbox_ok (s : MCXNMailboxState) : Prop := {
  ok_len : length (irq s) = 2%nat;
  ok_range : Forall (in_range 32) (irq s);
  ok_out : out s = map (fun w => negb (w =? 0)) (irq s);
}.

Lemma mailbox_update_ok s : length (out s) = 2%nat -> length (irq s) = 2%nat -> Forall (in_range 32) (irq s) ->
  mailbox_ok (mcxn_mailbox_update_irq s).
Proof.
  intros Ho Hl Hr. split; [done | done |]. destruct s as [o q m]. cbn in *.
  destruct o as [|o0 [|o1 [|]]]; try done. destruct q as [|q0 [|q1 [|]]]; done.
Qed.

Lemma mailbox_set_ok s i v : mailbox_ok s -> in_range 32 v ->
  mailbox_ok (mcxn_mailbox_update_irq (s <| irq := (irq s).[i <- v] |>)).
Proof.
  intros [Hl Hr Ho] Hv. apply mailbox_update_ok; cbn -[map].
  - by rewrite Ho, length_map.
  - by rewrite length_arr_set.
  - by apply Forall_arr_set.
Qed.

Lemma mailbox_write_ok s off v : mailbox_ok s -> mailbox_ok (mcxn_mailbox_write s off v).
Proof.
  intros Hok. assert (Hg : forall i, 0 <= i < 2 -> in_range 32 ((irq s).[i])).
  { intros i Hi. destruct Hok as [Hl Hr _]. apply Forall_arr_get; [done | lia]. }
  unfold mcxn_mailbox_write. repeat case_match; try by destruct Hok.
  all: apply mailbox_set_ok; auto with ranges.
  all: apply in_range_land_l; [lia | apply Hg; lia].
Qed.

Lemma mailbox_read_ok s off : mailbox_ok s -> mailbox_ok (mcxn_mailbox_read s off).2.
Proof. intros []. unfold mcxn_mailbox_read. by repeat case_match. Qed.

(** ** Signalling and the mutex between the cores *)

(** The cores (of any number) with the set of those inside the critical section
    the mutex protects.  A core acquires by reading the mutex as 1, and only a
    core inside releases; everything else on the mailbox may interleave. *)
Record mb_sys := mkMb { dev : MCXNMailboxState; crit : gset Z }.

Inductive mb_step : mb_sys -> mb_sys -> Prop :=
  | mb_acquire s c i s' : mcxn_mailbox_read s MAILBOX_MUTEX = (1, s') ->
      mb_step (mkMb s c) (mkMb s' ({[i]} ∪ c))
  | mb_miss s c v s' : mcxn_mailbox_read s MAILBOX_MUTEX = (v, s') -> v <> 1 ->
      mb_step (mkMb s c) (mkMb s' c)
  | mb_release s c i v : i ∈ c -> mb_step (mkMb s c) (mkMb (mcxn_mailbox_write s MAILBOX_MUTEX v) (c ∖ {[i]}))
  | mb_read s c off : off <> MAILBOX_MUTEX -> mb_step (mkMb s c) (mkMb (mcxn_mailbox_read s off).2 c)
  | mb_write s c off v : off <> MAILBOX_MUTEX -> mb_step (mkMb s c) (mkMb (mcxn_mailbox_write s off v) c)
  | mb_load s c : mb_step (mkMb s c) (mkMb (mcxn_mailbox_post_load s) c).

Record mb_inv (st : mb_sys) : Prop := {
  inv_ok : mailbox_ok (dev st);
  inv_free : Z.testbit (mutex (dev st)) 0 = true -> crit st = ∅;
  inv_one i j : i ∈ crit st -> j ∈ crit st -> i = j;
}.

Lemma mailbox_mutex_write s off v : off <> MAILBOX_MUTEX -> mutex (mcxn_mailbox_write s off v) = mutex s.
Proof. intros Hn%Z.eqb_neq. unfold mcxn_mailbox_write. rewrite Hn. by repeat case_match. Qed.
Lemma mailbox_mutex_read s off : off <> MAILBOX_MUTEX -> (mcxn_mailbox_read s off).2 = s.
Proof. intros Hn%Z.eqb_neq. unfold mcxn_mailbox_read. rewrite Hn. by repeat case_match. Qed.

Lemma mailbox_acquire s : let '(v, s') := mcxn_mailbox_read s MAILBOX_MUTEX in
  (v = 1 -> Z.testbit (mutex s) 0 = true) /\ Z.testbit (mutex s') 0 = false.
Proof.
  change (mcxn_mailbox_read s MAILBOX_MUTEX) with
    (mutex s .& MAILBOX_MUTEX_EX, s <| mutex := mutex s .& u32 (.~ MAILBOX_MUTEX_EX) |>). split.
  - intros E. apply (f_equal (fun z => Z.testbit z 0)) in E. rewrite Z.land_spec in E. by apply andb_true_iff in E as [? _].
  - cbn [mutex modify]. rewrite Z.land_spec. apply andb_false_r.
Qed.

Lemma mb_step_inv st st' : mb_step st st' -> mb_inv st -> mb_inv st'.
Proof.
  intros Hst [Hok Hfree Hone].
  destruct Hst as [s c i s' Er|s c v s' Er Hv|s c i v Hi|s c off Ho|s c off v Ho|s c]; cbn in Hok, Hfree, Hone.
  1, 2: pose proof (mailbox_acquire s) as Ha; pose proof (mailbox_read_ok s MAILBOX_MUTEX Hok) as Hrd;
    rewrite Er in Ha, Hrd; destruct Ha as [Hset Hclr]; split; cbn in *; [done | congruence |].
  - intros a b Ha Hb. rewrite Hfree in Ha, Hb by auto. set_solver.
  - done.
  - split; cbn -[mcxn_mailbox_write].
    + by apply mailbox_write_ok.
    + intros _. apply set_eq. intros j. rewrite elem_of_difference, elem_of_singleton. split; [|set_solver].
      intros [Hj Hne]. by destruct Hne, (Hone i j).
    + intros a b Ha Hb. apply Hone; set_solver.
  - split; cbn -[mcxn_mailbox_read]; rewrite ?mailbox_mutex_read by done; done.
  - split; cbn -[mcxn_mailbox_write]; rewrite ?mailbox_mutex_write by done; auto using mailbox_write_ok.
  - split; [|done|done]. destruct Hok as [Hl Hr Ho]. apply mailbox_update_ok; [by rewrite Ho, length_map | done..].
Qed.

Lemma mb_reachable_inv st : rtc mb_step (mkMb mailbox_init ∅) st -> mb_inv st.
Proof.
  intros Hr. eapply rtc_invariant; [exact mb_step_inv | exact Hr |]. split; cbn; [|done|set_solver].
  split; [done | repeat constructor; vm_compute; congruence | done].
Qed.

(** C33: The mutex excludes.  Whatever the interleaving of the cores' accesses
    from reset, at most one core is inside the critical section; while one is,
    the mutex reads as taken. *)
Theorem mailbox_mutual_exclusion st i j :
  rtc mb_step (mkMb mailbox_init ∅) st -> i ∈ crit st -> j ∈ crit st ->
  i = j /\ (mcxn_mailbox_read (dev st) MAILBOX_MUTEX).1 <> 1.
Proof.
  intros [Hok Hfree Hone]%mb_reachable_inv Hi Hj. split; [by apply Hone|]. intros E.
  pose proof (mailbox_acquire (dev st)) as Ha. destruct (mcxn_mailbox_read _ _) as [v s'] eqn:Er.
  destruct Ha as [Hv _]. rewrite Hfree in Hi by (by apply Hv). set_solver.
Qed.
Lemma mailbox_mutual_exclusion_witness :
  (mcxn_mailbox_read (mcxn_mailbox_read mailbox_init MAILBOX_MUTEX).2 MAILBOX_MUTEX).1 <> 1.
Proof.
  refine (proj2 (mailbox_mutual_exclusion (mkMb (mcxn_mailbox_read mailbox_init MAILBOX_MUTEX).2 ({[1]} ∪ ∅)) 1 1 _ _ _)).
  - apply rtc_once. apply (mb_acquire mailbox_init ∅ 1). reflexivity.
  - apply elem_of_union_l, elem_of_singleton. reflexivity.
  - apply elem_of_union_l, elem_of_singleton. reflexivity.
Defined.

Definition irqset (n : Z) : Z := MAILBOX_IRQSET0 + 0x10 * n.
Definition irqclr (n : Z) : Z := MAILBOX_IRQCLR0 + 0x10 * n.

(** Signalling.  In every reachable state a core's line is high exactly when
    its word is non-zero; setting and clearing through the aliases of a word
    adds and removes exactly the written bits of that word and leaves the other
    core's word alone. *)
Theorem mailbox_signalling st n j v :
  rtc mb_step (mkMb mailbox_init ∅) st -> (n = 0 \/ n = 1) -> (j = 0 \/ j = 1) -> in_range 32 v ->
  let s := dev st in
  let set := mcxn_mailbox_write s (irqset n) v in
  let clr := mcxn_mailbox_write s (irqclr n) v in
  (irq set).[j] = (if j =? n then (irq s).[j] .| v else (irq s).[j]) /\
  (irq clr).[j] = (if j =? n then Z.ldiff ((irq s).[j]) v else (irq s).[j]) /\
  (out s).[j] = negb ((irq s).[j] =? 0) /\ (out set).[j] = negb ((irq set).[j] =? 0) /\
  (out clr).[j] = negb ((irq clr).[j] =? 0).
Proof.
  intros [Hok _ _]%mb_reachable_inv Hn Hj Hv s set clr. subst s.
  assert (Hout : forall s, mailbox_ok s -> (out s).[j] = negb ((irq s).[j] =? 0)).
  { intros s [Hl _ ->]. destruct (irq s) as [|a [|b [|]]]; try done. by destruct Hj as [-> | ->]. }
  assert (Hg : in_range 32 ((irq (dev st)).[n])).
  { destruct Hok as [Hl Hr _]. apply Forall_arr_get; [done|]. lia. }
  assert (Hset : irq set = (irq (dev st)).[n <- (irq (dev st)).[n] .| v]).
  { transitivity ((irq (dev st)).[n <- u32 ((irq (dev st)).[n] .| v)]); [by destruct Hn as [-> | ->]|].
    by rewrite wrap_in_range by auto with ranges. }
  assert (Hclr : irq clr = (irq (dev st)).[n <- Z.ldiff ((irq (dev st)).[n]) v]).
  { subst clr. assert (E : (irq (dev st)).[n] .& u32 (.~ u32 v) = Z.ldiff ((irq (dev st)).[n]) v).
    { rewrite (wrap_in_range 32 v) by done. apply Z.bits_inj'. intros i Hi. autorewrite with bits.
      destruct (Z.ltb_spec i 32); [btauto|]. by rewrite (testbit_range 32 (irq (dev st)).[n]) by (done || lia). }
    rewrite <- E. by destruct Hn as [-> | ->]. }
  pose proof (ok_len _ Hok). split_and!; [..|apply Hout; done|by apply Hout, mailbox_write_ok|by apply Hout, mailbox_write_ok];
    rewrite ?Hset, ?Hclr, arr_get_set by lia; destruct (Z.eqb_spec j n) as [->|]; done.
Qed.
Lemma mailbox_signalling_witness : (out (mcxn_mailbox_write mailbox_init (irqset 1) 4)).[1] = true.
Proof.
  refine (eq_trans (proj1 (proj2 (proj2 (proj2 (mailbox_signalling (mkMb mailbox_init ∅) 1 1 4 _ _ _ _))))) eq_refl).
  - apply rtc_refl.
  - right; reflexivity.
  - right; reflexivity.
  - split; vm_compute; congruence.
Defined.
