(* ===== verification/Rtc.v ===== *)
(** * RTC: the calendar clock

    Model of [hw/misc/mcxn_rtc.c]: 16-bit registers packed in pairs into words,
    a one-second tick that advances the calendar and compares it with the alarm,
    and the deadline chain of that tick.  The theorems: the calendar counts
    seconds without drift, and the alarm rings when the calendar reaches it and at
    no other time. *)
From S2P Require Import Prelude.

Definition R_YEARMON : Z := 0x00.
Definition R_DAYS : Z := 0x02.
Definition R_HOURMIN : Z := 0x04.
Definition R_SECONDS : Z := 0x06.
Definition R_ALM_YEARMON : Z := 0x08.
Definition R_ALM_DAYS : Z := 0x0A.
Definition R_ALM_HOURMIN : Z := 0x0C.
Definition R_ALM_SECONDS : Z := 0x0E.
Definition R_CTRL : Z := 0x10.
Definition R_ISR : Z := 0x14.
Definition R_SUBSECOND_CNT : Z := 0x804.
Definition R_WAKE_TIMER_CTRL : Z := 0xC00.
Definition R_WAKE_TIMER_CNT : Z := 0xC0C.
Definition CTRL_SWR : Z := bit 8.
Definition ISR_W1C_MASK : Z := 0xFFFC.
Definition ISR_ALM_IS : Z := bit 2.
Definition ISR_IS_1HZ : Z := bit 6.
Definition SEC_MASK : Z := 0x003F.
Definition MIN_MASK : Z := 0x003F.
Definition HOUR_MASK : Z := 0x1F00.
Definition HM_MASK : Z := HOUR_MASK .| MIN_MASK.
Definition DAY_MASK : Z := 0x001F.
Definition MON_MASK : Z := 0x000F.
Definition WAKE_TIMER_WAKE_FLAG : Z := bit 1.
Definition MCXN_RTC_SIZE : Z := 0x1000.
Definition NANOSECONDS_PER_SECOND : Z := 1000000000.

Record MCXNRTCState := mkRTC {
  irq : bool;
  tick : option Z;          (* the host timer *)
  next_tick_ns : Z;
  regs : list Z;
}.
#[export] Instance rtc_settable : Settable MCXNRTCState := fun s => mkRTC (irq s) (tick s) (next_tick_ns s) (regs s).

(** ** Registers *)

Definition mcxn_rtc_is_16bit (offset : Z) : bool := offset <? 0x800.

Definition mcxn_rtc_update_irq (s : MCXNRTCState) : MCXNRTCState :=
  let word := (regs s).[R_ISR / 4] in
  let isr := word .& 0xFFFF in
  let ier := (word .>> 16) .& 0xFFFF in
  s <| irq := flag isr ier |>.

Definition rtc_get16 (s : MCXNRTCState) (off : Z) : Z :=
  let word := (regs s).[off / 4] in
  if flag off 2 then (word .>> 16) .& 0xFFFF else word .& 0xFFFF.
Definition rtc_set16 (s : MCXNRTCState) (off val : Z) : MCXNRTCState :=
  let word := (regs s).[off / 4] in
  let val := u16 val in
  s <| regs := (regs s).[off / 4 <- if flag off 2 then (word .& 0x0000FFFF) .| (val .<< 16) else (word .& 0xFFFF0000) .| val] |>.

(** ** The tick *)

(** One second later: seconds, minutes, hours and days with their carries. *)
Definition rtc_advance (sec min hour day : Z) : Z * Z * Z * Z :=
  if sec + 1 <? 60 then (sec + 1, min, hour, day)
  else if min + 1 <? 60 then (0, min + 1, hour, day)
  else if hour + 1 <? 24 then (0, 0, hour + 1, day)
  else (0, 0, 0, day + 1).

Definition rtc_set_flag (s : MCXNRTCState) (f : Z) : MCXNRTCState :=
  s <| regs := (regs s).[R_ISR / 4 <- (regs s).[R_ISR / 4] .| f] |>.

Definition rtc_alarm_matches (s : MCXNRTCState) : bool :=
  (rtc_get16 s R_SECONDS .& SEC_MASK =? rtc_get16 s R_ALM_SECONDS .& SEC_MASK) &&
  (rtc_get16 s R_HOURMIN .& HM_MASK =? rtc_get16 s R_ALM_HOURMIN .& HM_MASK) &&
  (rtc_get16 s R_DAYS .& DAY_MASK =? rtc_get16 s R_ALM_DAYS .& DAY_MASK) &&
  (rtc_get16 s R_YEARMON .& MON_MASK =? rtc_get16 s R_ALM_YEARMON .& MON_MASK).

Definition mcxn_rtc_tick (s : MCXNRTCState) : MCXNRTCState :=
  let hm := rtc_get16 s R_HOURMIN in
  let days := rtc_get16 s R_DAYS in
  let '(sec, min, hour, day) :=
    rtc_advance (rtc_get16 s R_SECONDS .& SEC_MASK) (hm .& MIN_MASK) ((hm .& HOUR_MASK) .>> 8) (days .& DAY_MASK) in
  let s := rtc_set16 s R_SECONDS (sec .& SEC_MASK) in
  let s := rtc_set16 s R_HOURMIN ((hour .<< 8) .| min) in
  let s := rtc_set16 s R_DAYS ((days .& u32 (.~ DAY_MASK)) .| (day .& DAY_MASK)) in
  let s := rtc_set_flag s ISR_IS_1HZ in
  let s := if rtc_alarm_matches s then rtc_set_flag s ISR_ALM_IS else s in
  let s := mcxn_rtc_update_irq s in
  let s := s <| next_tick_ns := next_tick_ns s + NANOSECONDS_PER_SECOND |> in
  s <| tick := Some (next_tick_ns s) |>.

(** ** Register accesses *)

Definition mcxn_rtc_read (s : MCXNRTCState) (offset size : Z) : Z :=
  let word := (regs s).[offset / 4] in
  if mcxn_rtc_is_16bit offset && (size <=? 2) then
    if flag offset 2 then (word .>> 16) .& 0xFFFF else word .& 0xFFFF
  else word.

Definition mcxn_rtc_write (s : MCXNRTCState) (offset value : Z) : MCXNRTCState :=
  let v := u32 value in
  if mcxn_rtc_is_16bit offset then
    let reg := offset .& .~ 1 in
    let word := (regs s).[reg / 4] in
    let half := v .& 0xFFFF in
    let half :=
      if reg =? R_CTRL then if flag half CTRL_SWR then half .& u16 (.~ CTRL_SWR) else half
      else if reg =? R_ISR then (word .& 0xFFFF) .& u32 (.~ (half .& ISR_W1C_MASK))
      else half in
    let word := if flag reg 2 then (word .& 0x0000FFFF) .| (half .<< 16) else (word .& 0xFFFF0000) .| half in
    mcxn_rtc_update_irq (s <| regs := (regs s).[reg / 4 <- word] |>)
  else if (offset =? R_SUBSECOND_CNT) || (offset =? R_WAKE_TIMER_CNT) then s
  else if offset =? R_WAKE_TIMER_CTRL then
    let s := if flag v WAKE_TIMER_WAKE_FLAG
             then s <| regs := (regs s).[offset / 4 <- (regs s).[offset / 4] .& u32 (.~ WAKE_TIMER_WAKE_FLAG)] |> else s in
    let v := if flag v WAKE_TIMER_WAKE_FLAG then v .& u32 (.~ WAKE_TIMER_WAKE_FLAG) else v in
    s <| regs := (regs s).[offset / 4 <- ((regs s).[offset / 4] .& WAKE_TIMER_WAKE_FLAG) .| v] |>
  else s <| regs := (regs s).[offset / 4 <- v] |>.

(** ** Reset, realize and migration *)

Definition rst_tbl : list (Z * Z * Z) := [(0x002, 16, 0x00000001)].

Definition mcxn_rtc_set_reset (regs : list Z) (off width val : Z) : list Z :=
  let word := regs.[off / 4] in
  let shift := (off .& 3) * 8 in
  let mask := if width =? 8 then 0xFF else if width =? 16 then 0xFFFF else 0xFFFFFFFF in
  regs.[off / 4 <- (word .& u32 (.~ (mask .<< shift))) .| u32 ((val .& mask) .<< shift)].

Definition mcxn_rtc_reset (s : MCXNRTCState) : MCXNRTCState :=
  s <| regs := foldl (fun l (e : Z * Z * Z) => let '(off, width, val) := e in mcxn_rtc_set_reset l off width val)
                 (replicate (Z.to_nat (MCXN_RTC_SIZE / 4)) 0) rst_tbl |>
    <| irq := false |>.

Definition mcxn_rtc_realize (now : Z) (s : MCXNRTCState) : MCXNRTCState :=
  let s := s <| next_tick_ns := now + NANOSECONDS_PER_SECOND |> in
  s <| tick := Some (next_tick_ns s) |>.

Definition mcxn_rtc_post_load (s : MCXNRTCState) : MCXNRTCState := mcxn_rtc_update_irq s.

(** ** Registers in halves of words *)

Definition rtc_wf (s : MCXNRTCState) : Prop := zlen (regs s) = MCXN_RTC_SIZE / 4.
(** The offset of a 16-bit register. *)
Definition reg16 (off : Z) : Prop := 0 <= off < 0x800 /\ off mod 2 = 0.

Lemma high_half w v : in_range 16 v -> (((w .& 0x0000FFFF) .| (v .<< 16)) .>> 16) .& 0xFFFF = v /\ ((w .& 0x0000FFFF) .| (v .<< 16)) .& 0xFFFF = w .& 0xFFFF.
Proof.
  intros Hv. change 0xFFFF with (Z.ones 16). split; apply Z.bits_inj'; intros i Hi; autorewrite with bits.
  - replace (i + 16 - 16) with i by lia. rewrite (proj2 (Z.ltb_ge (i + 16) 16)) by lia.
    destruct (Z.ltb_spec i 16); [btauto | rewrite (testbit_range 16 v) by (done || lia); btauto].
  - destruct (Z.ltb_spec i 16); [rewrite (Z.testbit_neg_r v) by lia|]; btauto.
Qed.

Lemma low_half w v : in_range 16 v -> ((w .& 0xFFFF0000) .| v) .& 0xFFFF = v /\ (((w .& 0xFFFF0000) .| v) .>> 16) .& 0xFFFF = (w .>> 16) .& 0xFFFF.
Proof.
  intros Hv. change 0xFFFF0000 with (Z.ones 16 .<< 16). change 0xFFFF with (Z.ones 16). split; apply Z.bits_inj'; intros i Hi; autorewrite with bits.
  - destruct (Z.ltb_spec i 16); [|rewrite (testbit_range 16 v) by (done || lia); btauto].
    rewrite (Z.testbit_neg_r (Z.ones 16)) by lia. btauto.
  - rewrite (testbit_range 16 v (i + 16)) by (done || lia). replace (i + 16 - 16) with i by lia. autorewrite with bits. zcases; btauto.
Qed.

Lemma get16_set16 s off off' v : rtc_wf s -> reg16 off -> reg16 off' ->
  rtc_get16 (rtc_set16 s off v) off' = if off' =? off then u16 v else rtc_get16 s off'.
Proof.
  intros Hw [Ho He] [Ho' He']. unfold rtc_get16, rtc_set16. cbn [regs modify].
  assert (Hf : forall o, flag o 2 = Z.testbit o 1) by (intros; by apply (flag_bit _ 1)).
  assert (Hb : forall o, o mod 2 = 0 -> 0 <= o -> o = 4 * (o / 4) + 2 * Z.b2z (Z.testbit o 1)).
  { intros o H2 H0. rewrite Z.testbit_spec' by lia. change (2 ^ 1) with 2. pose proof (Z.div_mod o 4). dlia. }
  pose proof (Hb off He ltac:(lia)) as E. pose proof (Hb off' He' ltac:(lia)) as E'. rewrite !Hf. set (b := Z.testbit off 1) in *. set (b' := Z.testbit off' 1) in *.
  assert (Hq : 0 <= off / 4 < zlen (regs s)) by (rewrite Hw; split; [apply Z.div_pos; lia | apply Z.div_lt_upper_bound; [lia | vm_compute (4 * _); lia]]).
  rewrite arr_get_set by (try apply Z.div_pos; lia). set (w := (regs s).[off / 4]). pose proof (in_range_wrap 16 v ltac:(lia)) as Hv.
  destruct (Z.eqb_spec (off' / 4) (off / 4)) as [Eq|Ne].
  - rewrite Eq. fold w. destruct (high_half w _ Hv) as [H1 H2], (low_half w _ Hv) as [H3 H4].
    destruct b, b'; cbn [Z.b2z] in *; zcases; done.
  - destruct (Z.eqb_spec off' off); [congruence | done].
Qed.

Lemma get16_range s off : in_range 16 (rtc_get16 s off).
Proof. unfold rtc_get16. cbv zeta. destruct (flag off 2); apply in_range_land_r; (lia || by vm_compute). Qed.
Lemma set16_wf s off v : rtc_wf s -> rtc_wf (rtc_set16 s off v).
Proof. unfold rtc_wf. cbn. by rewrite length_arr_set. Qed.
Lemma set_flag_wf s f : rtc_wf s -> rtc_wf (rtc_set_flag s f).
Proof. unfold rtc_wf. cbn. by rewrite length_arr_set. Qed.
#[local] Hint Resolve set16_wf set_flag_wf : core.

Lemma get16_set_flag s f off : 0 <= off < R_ISR -> rtc_get16 (rtc_set_flag s f) off = rtc_get16 s off.
Proof.
  unfold R_ISR. intros Ho. unfold rtc_get16, rtc_set_flag. cbn [regs modify]. rewrite arr_get_set_ne; [done | done | apply Z.div_pos; lia|].
  intros E. assert (off / 4 < 5) by (apply Z.div_lt_upper_bound; lia). change (R_ISR / 4) with 5 in E. lia.
Qed.

Definition isr (s : MCXNRTCState) : Z := (regs s).[R_ISR / 4].
Lemma isr_set16 s off v : rtc_wf s -> 0 <= off < R_ISR -> isr (rtc_set16 s off v) = isr s.
Proof.
  unfold R_ISR. intros Hw Ho. unfold isr, rtc_set16. cbn [regs modify]. apply arr_get_set_ne; [apply Z.div_pos; lia | done|].
  intros E. assert (off / 4 < 5) by (apply Z.div_lt_upper_bound; lia). change (R_ISR / 4) with 5 in E. lia.
Qed.
Lemma isr_set_flag s f : rtc_wf s -> isr (rtc_set_flag s f) = isr s .| f.
Proof. intros Hw. unfold isr, rtc_set_flag. cbn [regs modify]. apply arr_get_set_eq. by rewrite Hw. Qed.

(** ** The calendar *)

Definition packed_min (hm : Z) : Z := hm .& MIN_MASK.
Definition packed_hour (hm : Z) : Z := (hm .& HOUR_MASK) .>> 8.

(** A time as the registers have it: seconds, hours and minutes, day. *)
Definition seconds_of (sec hm day : Z) : Z :=
  ((((day .& DAY_MASK) * 24 + packed_hour hm) * 60) + packed_min hm) * 60 + (sec .& SEC_MASK).
Definition proper (sec hm : Z) : Prop := sec .& SEC_MASK < 60 /\ packed_min hm < 60 /\ packed_hour hm < 24.

Lemma pack_fields hour min : 0 <= hour < 32 -> 0 <= min < 64 ->
  in_range 16 ((hour .<< 8) .| min) /\ packed_min ((hour .<< 8) .| min) = min /\ packed_hour ((hour .<< 8) .| min) = hour.
Proof.
  intros Hh Hm. set (ok := fun h m => in_rangeb 16 ((h .<< 8) .| m) && (packed_min ((h .<< 8) .| m) =? m) && (packed_hour ((h .<< 8) .| m) =? h)).
  assert (Hall : forallb (fun h => forallb (ok h) (seqZ 0 64)) (seqZ 0 32) = true) by (vm_compute; reflexivity).
  rewrite forallb_forall in Hall. specialize (Hall hour ltac:(apply list_elem_of_In, elem_of_seqZ; lia)). rewrite forallb_forall in Hall.
  specialize (Hall min ltac:(apply list_elem_of_In, elem_of_seqZ; lia)). unfold ok, in_rangeb in Hall.
  rewrite !andb_true_iff, !Z.eqb_eq, Z.leb_le, Z.ltb_lt in Hall. unfold in_range. tauto.
Qed.

Lemma field_ranges v : 0 <= packed_min v < 64 /\ 0 <= packed_hour v < 32 /\ 0 <= v .& SEC_MASK < 64 /\ 0 <= v .& DAY_MASK < 32.
Proof.
  unfold packed_min, packed_hour, MIN_MASK, SEC_MASK, DAY_MASK. change 0x3F with (Z.ones 6). change 0x1F with (Z.ones 5). rewrite !Z.land_ones by lia. change (2 ^ 6) with 64. change (2 ^ 5) with 32.
  pose proof (Z.mod_pos_bound v 64). pose proof (Z.mod_pos_bound v 32). split_and!; try lia.
  - apply Z.shiftr_nonneg, Z.land_nonneg. by right.
  - assert (H1 : (v .& HOUR_MASK) .>> 8 = (v .>> 8) .& Z.ones 5) by (rewrite Z.shiftr_land; done).
    rewrite H1, Z.land_ones by lia. apply Z.mod_pos_bound. lia.
Qed.

Lemma hm_split hm : hm .& HM_MASK = (packed_hour hm .<< 8) .| packed_min hm.
Proof.
  unfold packed_hour, packed_min, HM_MASK. rewrite Z.land_lor_distr_r. f_equal. unfold HOUR_MASK. change 0x1F00 with (Z.ones 5 .<< 8).
  apply Z.bits_inj'. intros i Hi. autorewrite with bits. destruct (Z.ltb_spec i 8).
  - rewrite !(Z.testbit_neg_r _ (i - 8)) by lia. by rewrite andb_false_r.
  - autorewrite with bits. replace (i - 8 + 8) with i by lia. done.
Qed.

(** Two proper times agree in their fields exactly when they are the same
    second. *)
Lemma fields_agree sec hm day sec' hm' day' : proper sec hm -> proper sec' hm' ->
  (sec .& SEC_MASK =? sec' .& SEC_MASK) && (hm .& HM_MASK =? hm' .& HM_MASK) && (day .& DAY_MASK =? day' .& DAY_MASK) =
    (seconds_of sec hm day =? seconds_of sec' hm' day').
Proof.
  intros (H1 & H2 & H3) (H1' & H2' & H3'). destruct (field_ranges hm) as (R1 & R2 & _), (field_ranges hm') as (R1' & R2' & _).
  pose proof (field_ranges sec) as (_ & _ & R3 & _). pose proof (field_ranges sec') as (_ & _ & R3' & _). pose proof (field_ranges day) as (_ & _ & _ & R4).
  pose proof (field_ranges day') as (_ & _ & _ & R4'). rewrite !hm_split.
  assert (Hp : ((packed_hour hm .<< 8) .| packed_min hm =? (packed_hour hm' .<< 8) .| packed_min hm') = (packed_hour hm =? packed_hour hm') && (packed_min hm =? packed_min hm')).
  { destruct (pack_fields _ _ R2 R1) as (_ & P1 & P2), (pack_fields _ _ R2' R1') as (_ & P1' & P2').
    apply eq_true_iff_eq. rewrite andb_true_iff, !Z.eqb_eq. split; [|by intros [-> ->]]. intros E. rewrite E in P1, P2. split; congruence. }
  rewrite Hp. unfold seconds_of. apply eq_true_iff_eq. rewrite !andb_true_iff, !Z.eqb_eq.
  split; [intros ((E1 & E2 & E3) & E4); by rewrite E1, E2, E3, E4 | intros; lia].
Qed.

Definition clock (s : MCXNRTCState) : Z := seconds_of (rtc_get16 s R_SECONDS) (rtc_get16 s R_HOURMIN) (rtc_get16 s R_DAYS).
Definition alarm (s : MCXNRTCState) : Z := seconds_of (rtc_get16 s R_ALM_SECONDS) (rtc_get16 s R_ALM_HOURMIN) (rtc_get16 s R_ALM_DAYS).
Definition alarm_month (s : MCXNRTCState) : bool := rtc_get16 s R_YEARMON .& MON_MASK =? rtc_get16 s R_ALM_YEARMON .& MON_MASK.

(** Calendar and alarm hold times that exist. *)
Record rtc_ok (s : MCXNRTCState) : Prop := {
  ro_wf : rtc_wf s;
  ro_time : proper (rtc_get16 s R_SECONDS) (rtc_get16 s R_HOURMIN);
  ro_alarm : proper (rtc_get16 s R_ALM_SECONDS) (rtc_get16 s R_ALM_HOURMIN);
}.

Lemma advance_second sec min hour day : 0 <= sec < 60 -> 0 <= min < 60 -> 0 <= hour < 24 ->
  let '(sec', min', hour', day') := rtc_advance sec min hour day in
  0 <= sec' < 60 /\ 0 <= min' < 60 /\ 0 <= hour' < 24 /\ (day' = day \/ day' = day + 1) /\
  ((day' * 24 + hour') * 60 + min') * 60 + sec' = ((day * 24 + hour) * 60 + min) * 60 + sec + 1.
Proof. intros. unfold rtc_advance. zcases; lia. Qed.

(** Storing a time. *)
Lemma store_time s a b c : rtc_wf s -> in_range 16 a -> in_range 16 b -> in_range 16 c ->
  let s3 := rtc_set16 (rtc_set16 (rtc_set16 s R_SECONDS a) R_HOURMIN b) R_DAYS c in
  rtc_wf s3 /\ rtc_get16 s3 R_SECONDS = a /\ rtc_get16 s3 R_HOURMIN = b /\ rtc_get16 s3 R_DAYS = c /\
  Forall (fun off => rtc_get16 s3 off = rtc_get16 s off) [R_YEARMON; R_ALM_YEARMON; R_ALM_DAYS; R_ALM_HOURMIN; R_ALM_SECONDS] /\ isr s3 = isr s.
Proof.
  intros Hw Ha Hb Hc. cbv zeta.
  assert (Hreg : Forall reg16 [R_YEARMON; R_DAYS; R_HOURMIN; R_SECONDS; R_ALM_YEARMON; R_ALM_DAYS; R_ALM_HOURMIN; R_ALM_SECONDS])
    by (repeat (apply Forall_cons; split; [by vm_compute|]); by apply Forall_nil_2).
  rewrite !Forall_cons in Hreg. destruct Hreg as (? & ? & ? & ? & ? & ? & ? & ? & _).
  split; [auto|]. rewrite !get16_set16, !wrap_in_range by auto. split_and!; try done.
  - repeat (apply Forall_cons; split; [by rewrite !get16_set16 by auto|]). done.
  - by rewrite !isr_set16 by first [solve [auto] | by vm_compute].
Qed.

Lemma flags_keep s f off : 0 <= off < R_ISR -> rtc_wf s -> forall b : bool,
  rtc_get16 (if b then rtc_set_flag s f else s) off = rtc_get16 s off.
Proof. intros Ho Hw [|]; [by apply get16_set_flag | done]. Qed.

(** What a second does. *)
Lemma tick_step s : rtc_ok s -> clock s + 1 < 32 * 86400 ->
  let s' := mcxn_rtc_tick s in
  rtc_ok s' /\ clock s' = clock s + 1 /\ alarm s' = alarm s /\ alarm_month s' = alarm_month s /\
  next_tick_ns s' = next_tick_ns s + NANOSECONDS_PER_SECOND /\ tick s' = Some (next_tick_ns s') /\
  isr s' = isr s .| ISR_IS_1HZ .| (if alarm_month s && (clock s + 1 =? alarm s) then ISR_ALM_IS else 0) /\
  irq s' = flag (isr s' .& 0xFFFF) ((isr s' .>> 16) .& 0xFFFF).
Proof.
  intros [Hw Ht Ha] Hday. unfold mcxn_rtc_tick. cbv zeta. destruct Ht as (T1 & T2 & T3).
  destruct (field_ranges (rtc_get16 s R_HOURMIN)) as (R1 & R2 & _). destruct (field_ranges (rtc_get16 s R_SECONDS)) as (_ & _ & R3 & _).
  destruct (field_ranges (rtc_get16 s R_DAYS)) as (_ & _ & _ & R4).
  fold (packed_min (rtc_get16 s R_HOURMIN)) (packed_hour (rtc_get16 s R_HOURMIN)).
  pose proof (advance_second (rtc_get16 s R_SECONDS .& SEC_MASK) (packed_min (rtc_get16 s R_HOURMIN)) (packed_hour (rtc_get16 s R_HOURMIN))
    (rtc_get16 s R_DAYS .& DAY_MASK) ltac:(lia) ltac:(lia) ltac:(lia)) as Hadv.
  destruct (rtc_advance _ _ _ _) as [[[sec min] hour] day]. destruct Hadv as (A1 & A2 & A3 & A4 & A5).
  assert (Es : sec .& SEC_MASK = sec) by (unfold SEC_MASK; change 0x3F with (Z.ones 6); rewrite Z.land_ones by lia; apply Z.mod_small; lia).
  assert (Ed : day .& DAY_MASK = day).
  { unfold DAY_MASK. change 0x1F with (Z.ones 5). rewrite Z.land_ones by lia. apply Z.mod_small. unfold clock, seconds_of in Hday. lia. }
  destruct (pack_fields hour min ltac:(lia) ltac:(lia)) as (P0 & P1 & P2). rewrite Es, Ed. set (days := _ .| day).
  assert (Hdays : in_range 16 days /\ days .& DAY_MASK = day).
  { split; [apply in_range_lor; [lia | apply in_range_land_l; [lia | apply get16_range] | split; lia]|].
    unfold days. rewrite Z.land_lor_distr_l, Ed, <- Z.land_assoc. change (u32 (.~ DAY_MASK) .& DAY_MASK) with 0. by rewrite Z.land_0_r. }
  destruct (store_time s sec ((hour .<< 8) .| min) days) as (Hw3 & G1 & G2 & G3 & G4 & G5); [done | split; lia | done | apply Hdays|].
  set (s3 := rtc_set16 (rtc_set16 (rtc_set16 s R_SECONDS sec) _ _) _ _) in *. set (s4 := rtc_set_flag s3 ISR_IS_1HZ).
  assert (Hw4 : rtc_wf s4) by (by apply set_flag_wf). rewrite !Forall_cons in G4. destruct G4 as (G6 & G7 & G8 & G9 & G10 & _).
  assert (Hget : forall f off, 0 <= off < R_ISR -> forall b : bool, rtc_get16 (if b then rtc_set_flag s4 f else s4) off = rtc_get16 s3 off).
  { intros f off Ho b. rewrite flags_keep by done. by apply get16_set_flag. }
  assert (Hm : rtc_alarm_matches s4 = alarm_month s && (clock s + 1 =? alarm s)).
  { unfold rtc_alarm_matches, s4. rewrite !(get16_set_flag s3), G1, G2, G3, G6, G7, G8, G9, G10 by (by vm_compute). rewrite fields_agree; [|by split_and!; lia|done].
    rewrite andb_comm. unfold alarm_month. f_equal. f_equal. unfold clock, seconds_of in *. rewrite P1, P2, Es, (proj2 Hdays). lia. }
  rewrite Hm. set (b := alarm_month s && _). set (s5 := if b then rtc_set_flag s4 ISR_ALM_IS else s4). set (fin := (mcxn_rtc_update_irq s5) <| next_tick_ns := _ |>).
  assert (Hfin : forall off, 0 <= off < R_ISR -> rtc_get16 (fin <| tick := Some (next_tick_ns fin) |>) off = rtc_get16 s3 off)
    by (intros off Ho; exact (Hget ISR_ALM_IS off Ho b)).
  assert (Hw5 : rtc_wf s5) by (unfold s5; destruct b; auto).
  assert (Hi : isr s5 = isr s .| ISR_IS_1HZ .| (if b then ISR_ALM_IS else 0)).
  { unfold s5, s4. destruct b; rewrite ?isr_set_flag, ?G5, ?Z.lor_0_r by auto; done. }
  unfold clock, alarm, alarm_month. split; [split; [exact Hw5 | |]|]; rewrite ?Hfin, ?G1, ?G2, ?G3, ?G6, ?G7, ?G8, ?G9, ?G10 by (by vm_compute); [by split_and!; lia | done|].
  split; [unfold seconds_of, clock in *; rewrite P1, P2, Es, (proj2 Hdays); lia|]. split; [done|]. split; [done|].
  split; [unfold s5, s4; by destruct b|]. split; [done|]. split; [exact Hi | done].
Qed.

(** C37: The clock keeps time.  After [k] ticks the calendar shows [k] seconds
    more (within a month, which the device does not leave), the deadline of the
    next tick is exactly [k] seconds later, whatever the latency of the ticks was,
    and the alarm flag has come up exactly if the calendar passed through the alarm
    time in the alarm's month. *)
Theorem rtc_keeps_time k s : rtc_ok s -> clock s + Z.of_nat k < 32 * 86400 ->
  let s' := Nat.iter k mcxn_rtc_tick s in
  clock s' = clock s + Z.of_nat k /\ next_tick_ns s' = next_tick_ns s + Z.of_nat k * NANOSECONDS_PER_SECOND /\
  flag (isr s') ISR_ALM_IS = flag (isr s) ISR_ALM_IS || (alarm_month s && (clock s <? alarm s) && (alarm s <=? clock s + Z.of_nat k)).
Proof.
  intros Hok Hk. cbv zeta.
  assert (H : let s' := Nat.iter k mcxn_rtc_tick s in rtc_ok s' /\ clock s' = clock s + Z.of_nat k /\ alarm s' = alarm s /\ alarm_month s' = alarm_month s /\
    next_tick_ns s' = next_tick_ns s + Z.of_nat k * NANOSECONDS_PER_SECOND /\
    flag (isr s') ISR_ALM_IS = flag (isr s) ISR_ALM_IS || (alarm_month s && (clock s <? alarm s) && (alarm s <=? clock s + Z.of_nat k)));
    [|by destruct H as (_ & ? & _ & _ & ? & ?)].
  cbv zeta. induction k as [|k IH].
  { cbn. split_and!; try done; try lia. rewrite Z.add_0_r. zcases; by rewrite ?andb_false_r, ?orb_false_r. }
  destruct IH as (I1 & I2 & I3 & I4 & I5 & I6); [lia|]. cbn [Nat.iter nat_rect]. set (sk := Nat.iter k mcxn_rtc_tick s) in *.
  destruct (tick_step sk I1 ltac:(lia)) as (T1 & T2 & T3 & T4 & T5 & _ & T7 & _).
  change (nat_rect _ s _ k) with sk. split_and!; [done | lia | congruence | congruence | lia|].
  rewrite T7, I4, I3, I2, !flag_lor, I6. change (flag ISR_IS_1HZ ISR_ALM_IS) with false. rewrite orb_false_r, <- orb_assoc. f_equal.
  destruct (alarm_month s); [|done]. cbn [andb]. zcases; done.
Qed.

(** Two seconds to midnight, and an alarm one second after it. *)
Definition rtc_init : MCXNRTCState := mcxn_rtc_realize 0 (mcxn_rtc_reset (mkRTC false None 0 [])).
Definition new_year : MCXNRTCState :=
  foldl (fun s (p : Z * Z) => mcxn_rtc_write s p.1 p.2) rtc_init
    [(R_HOURMIN, (23 .<< 8) .| 59); (R_SECONDS, 58); (R_ALM_DAYS, 2); (R_ALM_HOURMIN, 0); (R_ALM_SECONDS, 1)].
Lemma new_year_ok : rtc_ok new_year.
Proof. by split; vm_compute. Qed.

Lemma rtc_keeps_time_witness :
  let s' := Nat.iter 5 mcxn_rtc_tick new_year in
  clock s' = 2 * 86400 + 3 /\ next_tick_ns s' = 6000000000 /\ flag (isr s') ISR_ALM_IS = true.
Proof.
  destruct (rtc_keeps_time 5 new_year new_year_ok ltac:(vm_compute; reflexivity)) as (H1 & H2 & H3). cbv zeta.
  rewrite H1, H2, H3. vm_compute. split; [reflexivity|]. split; reflexivity.
Defined.

(** ** Departures from the code's intent *)

(** The day after the 31st is day 0, which the reset table's comment says is not
    a day. *)
Theorem rtc_day_zero :
  let s := foldl (fun s (p : Z * Z) => mcxn_rtc_write s p.1 p.2) new_year [(R_DAYS, 31); (R_SECONDS, 59)] in
  rtc_get16 (mcxn_rtc_tick s) R_DAYS .& DAY_MASK = 0.
Proof. vm_compute. reflexivity. Qed.

(** A word read returns a pair of registers, but a word write stores only the
    first of them. *)
Theorem rtc_word_write_loses_half :
  let s := mcxn_rtc_write rtc_init R_HOURMIN ((30 .<< 16) .| (12 .<< 8)) in
  mcxn_rtc_read s R_HOURMIN 4 = 12 .<< 8 /\ rtc_get16 s R_SECONDS = 0.
Proof. vm_compute. split; reflexivity. Qed.

(** A byte write replaces the whole register, and one to the upper byte (the
    hours) lands in the lower (the minutes). *)
Theorem rtc_byte_write_misplaced :
  let s := mcxn_rtc_write new_year (R_HOURMIN + 1) 7 in
  packed_hour (rtc_get16 s R_HOURMIN) = 0 /\ packed_min (rtc_get16 s R_HOURMIN) = 7.
Proof. vm_compute. split; reflexivity. Qed.
