(* ===== verification/Pwm.v ===== *)
(** * eFlexPWM: carrier, outputs, dead time, faults and triggers

    Model of [hw/misc/mcxn_pwm.c]: the byte-addressed register file, submodule
    0's counter reconstructed from the deadline of its reload timer, the outputs
    PWM_A, PWM_B and PWM_X, the capture input, the fault input with its latch, the
    value-register DMA request and the output triggers.  The theorems: on a
    carrier that counts up each output is a pulse of the programmed width; the
    complementary pair keeps its dead time unless an edge plus its dead time
    overflows 16 bits; a live fault keeps the mapped outputs off; with the timers
    served at their deadlines the carrier does not drift, and a period brings exactly
    one trigger per enabled compare after INIT. *)
From Stdlib Require Import Sorting.Sorted.
From S2P Require Import Prelude.

Definition PWM_SM_STEP : Z := 0x60.
Definition PWM_SM_COUNT : Z := 4.
Definition PWM_SM_BASE (n : Z) : Z := n * PWM_SM_STEP.
Definition PWM_SM_INIT : Z := 0x02.
Definition PWM_SM_CTRL2 : Z := 0x04.
Definition PWM_SM_CTRL : Z := 0x06.
Definition PWM_SM_VAL0 : Z := 0x0A.
Definition PWM_SM_VAL1 : Z := 0x0E.
Definition PWM_SM_VAL2 : Z := 0x12.
Definition PWM_SM_VAL3 : Z := 0x16.
Definition PWM_SM_VAL4 : Z := 0x1A.
Definition PWM_SM_VAL5 : Z := 0x1E.
Definition PWM_SM_OCTRL : Z := 0x22.
Definition PWM_SM_STS : Z := 0x24.
Definition PWM_SM_INTEN : Z := 0x26.
Definition PWM_SM_DMAEN : Z := 0x28.
Definition PWM_SM_DISMAP0 : Z := 0x2C.
Definition PWM_SM_DTCNT0 : Z := 0x30.
Definition PWM_SM_DTCNT1 : Z := 0x32.
Definition PWM_SM_TCTRL : Z := 0x2A.
Definition PWM_SM_CAPTCTRLA : Z := 0x34.
Definition PWM_SM_CVAL0 : Z := 0x40.
Definition PWM_TCTRL_OUT_TRIG_EN_MASK : Z := 0x3F.
Definition PWM_OCTRL_POLA : Z := 0x0400.
Definition PWM_OCTRL_POLB : Z := 0x0200.
Definition PWM_OCTRL_POLX : Z := 0x0100.
Definition PWM_OUTEN_PWMA_SM0 : Z := 0x0100.
Definition PWM_OUTEN_PWMB_SM0 : Z := 0x0010.
Definition PWM_OUTEN_PWMX_SM0 : Z := 0x0001.
Definition PWM_DISMAP_DIS0A_F0 : Z := 0x0001.
Definition PWM_DISMAP_DIS0B_F0 : Z := 0x0010.
Definition PWM_DISMAP_DIS0X_F0 : Z := 0x0100.
Definition PWM_CTRL2_INDEP : Z := 0x2000.
Definition PWM_DTCNT_RESET : Z := 0x07FF.
Definition PWM_DISMAP_RESET : Z := 0xFFFF.
Definition PWM_CTRL_RESET : Z := 0x0400.
Definition PWM_DMAEN_VALDE : Z := 0x0200.
Definition PWM_DMAEN_CA0DE : Z := 0x0010.
Definition PWM_CAPTCTRLA_ARMA : Z := 0x0001.
Definition PWM_CAPTCTRLA_EDGA0_MASK : Z := 0x000C.
Definition PWM_CAPTCTRLA_EDGA0_SHIFT : Z := 2.
Definition EDGA0_DISABLED : Z := 0.
Definition EDGA0_FALLING : Z := 1.
Definition EDGA0_RISING : Z := 2.
Definition EDGA0_ANY : Z := 3.
Definition PWM_STS_CMPF : Z := 0x003F.
Definition PWM_STS_CFA0 : Z := 0x0400.
Definition PWM_STS_RF : Z := 0x1000.
Definition PWM_MCTRL_RUN_SM0 : Z := 0x0100.
Definition PWM_CTRL_PRSC_MASK : Z := 0x0070.
Definition PWM_CTRL_PRSC_SHIFT : Z := 4.
Definition PWM_OUTEN : Z := 0x180.
Definition PWM_MCTRL : Z := 0x188.
Definition PWM_FCTRL : Z := 0x18C.
Definition PWM_FSTS : Z := 0x18E.
Definition PWM_MCTRL_RUN_MASK : Z := 0x0F00.
Definition PWM_STS_W1C_MASK : Z := 0x7FFF.
Definition PWM_FSTS_W1C_MASK : Z := 0x000F.
Definition PWM_FSTS_FFLAG_MASK : Z := 0x000F.
Definition PWM_FCTRL_FIE0 : Z := 0x0001.
Definition PWM_FCTRL_FAUTO0 : Z := 0x0100.
Definition PWM_FCTRL_FLVL0 : Z := 0x1000.
Definition PWM_FSTS_FFLAG0 : Z := 0x0001.
Definition PWM_FSTS_FFPIN0 : Z := 0x0100.
Definition MCXN_PWM_SIZE : Z := 0x1000.
Definition NS_PER_S : Z := 1000000000.

Record MCXNPWMState := mkPWM {
  clk : Z;                       (* the frequency of the bus clock, 0 if stopped *)
  irq : bool;
  dma_req_val : bool;
  val_dma_lvl : bool;
  capa_level : bool;
  irq_fault : bool;
  fault_level : bool;
  reload_timer : option Z;
  next_reload_ns : Z;
  trig_timer : option Z;
  next_trig_ns : Z;
  trig_mask : Z;
  regs : list Z;
}.
#[export] Instance pwm_settable : Settable MCXNPWMState := fun s =>
  mkPWM (clk s) (irq s) (dma_req_val s) (val_dma_lvl s) (capa_level s) (irq_fault s) (fault_level s) (reload_timer s)
    (next_reload_ns s) (trig_timer s) (next_trig_ns s) (trig_mask s) (regs s).

(** The lines that carry pulses: the capture request and the output triggers. *)
Inductive pwm_pulse := dma_req_capa | out_trig (t : Z).

(** ** Registers *)

Definition pwm_ld16 (s : MCXNPWMState) (off : Z) : Z := (regs s).[off] .| ((regs s).[off + 1] .<< 8).
Definition pwm_st16 (s : MCXNPWMState) (off v : Z) : MCXNPWMState :=
  let v := u16 v in
  s <| regs := (regs s).[off <- v .& 0xff].[off + 1 <- (v .>> 8) .& 0xff] |>.

Definition mcxn_pwm_update_irq (s : MCXNPWMState) : MCXNPWMState :=
  let sts := pwm_ld16 s PWM_SM_STS in
  let inten := pwm_ld16 s PWM_SM_INTEN in
  s <| irq := flag (sts .& inten) (PWM_STS_RF .| PWM_STS_CMPF .| PWM_STS_CFA0) |>.

(** ** The carrier *)

Definition timer_pending (t : option Z) : bool := match t with Some _ => true | None => false end.

Definition mcxn_pwm_period_ns (s : MCXNPWMState) : Z :=
  let init := pwm_ld16 s PWM_SM_INIT in
  let val1 := pwm_ld16 s PWM_SM_VAL1 in
  let ctrl := pwm_ld16 s PWM_SM_CTRL in
  let prsc := (ctrl .& PWM_CTRL_PRSC_MASK) .>> PWM_CTRL_PRSC_SHIFT in
  let span := u16 (val1 - init) + 1 in
  let ticks := span .<< prsc in
  let hz := u32 (clk s) in
  if hz =? 0 then 0
  else
    let ns := swrap 64 (muldiv64 ticks NS_PER_S hz) in
    if ns <? 1000 then 1000 else ns.

Definition mcxn_pwm_counter_now (s : MCXNPWMState) (now : Z) : Z :=
  let init := pwm_ld16 s PWM_SM_INIT in
  let val1 := pwm_ld16 s PWM_SM_VAL1 in
  let period := mcxn_pwm_period_ns s in
  if (period <=? 0) || negb (timer_pending (reload_timer s)) then init
  else
    let remaining := next_reload_ns s - now in
    let remaining := if remaining <? 0 then 0 else if period <? remaining then period else remaining in
    let elapsed := period - remaining in
    let span := u16 (val1 - init) + 1 in
    let pos := init + Z.quot (swrap 64 (elapsed * span)) period in
    u16 (if val1 <? pos then val1 else pos).

Definition mcxn_pwm_set_val_dma (s : MCXNPWMState) (level : bool) : MCXNPWMState :=
  if Bool.eqb level (val_dma_lvl s) then s else s <| val_dma_lvl := level |> <| dma_req_val := level |>.

(** ** Capture *)

Definition mcxn_pwm_capture_a_edge (s : MCXNPWMState) (level : bool) (now : Z) : MCXNPWMState * list pwm_pulse :=
  let capctrl := pwm_ld16 s PWM_SM_CAPTCTRLA in
  let edgsel := (capctrl .& PWM_CAPTCTRLA_EDGA0_MASK) .>> PWM_CAPTCTRLA_EDGA0_SHIFT in
  let rising := level && negb (capa_level s) in
  let falling := negb level && capa_level s in
  let s := s <| capa_level := level |> in
  if negb (flag capctrl PWM_CAPTCTRLA_ARMA) || (edgsel =? EDGA0_DISABLED) then (s, [])
  else if negb ((edgsel =? EDGA0_ANY) || ((edgsel =? EDGA0_RISING) && rising) || ((edgsel =? EDGA0_FALLING) && falling)) then (s, [])
  else
    let s := pwm_st16 s PWM_SM_CVAL0 (mcxn_pwm_counter_now s now) in
    let s := pwm_st16 s PWM_SM_STS (pwm_ld16 s PWM_SM_STS .| PWM_STS_CFA0) in
    let s := mcxn_pwm_update_irq s in
    (s, if flag (pwm_ld16 s PWM_SM_DMAEN) PWM_DMAEN_CA0DE then [dma_req_capa] else []).

Definition mcxn_pwm_set_capa (s : MCXNPWMState) (value : bool) (now : Z) : MCXNPWMState * list pwm_pulse :=
  mcxn_pwm_capture_a_edge s value now.

(** ** Faults *)

Definition mcxn_pwm_update_fault_irq (s : MCXNPWMState) : MCXNPWMState :=
  let fsts := pwm_ld16 s PWM_FSTS in
  let fctrl := pwm_ld16 s PWM_FCTRL in
  s <| irq_fault := flag (fsts .& PWM_FSTS_FFLAG_MASK) fctrl |>.

Definition mcxn_pwm_fault_eval (s : MCXNPWMState) : MCXNPWMState :=
  let fctrl := pwm_ld16 s PWM_FCTRL in
  let fsts := pwm_ld16 s PWM_FSTS in
  let flvl0 := flag fctrl PWM_FCTRL_FLVL0 in
  let active := Bool.eqb (fault_level s) flvl0 in
  let fsts := if fault_level s then fsts .| PWM_FSTS_FFPIN0 else fsts .& u16 (.~ PWM_FSTS_FFPIN0) in
  let fsts :=
    if active then fsts .| PWM_FSTS_FFLAG0
    else if flag fctrl PWM_FCTRL_FAUTO0 then fsts .& u16 (.~ PWM_FSTS_FFLAG0)
    else fsts in
  mcxn_pwm_update_fault_irq (pwm_st16 s PWM_FSTS fsts).

Definition mcxn_pwm_set_fault (s : MCXNPWMState) (value : bool) : MCXNPWMState :=
  mcxn_pwm_fault_eval (s <| fault_level := value |>).

(** ** Outputs *)

(** The flip-flop of an output in independent mode: set at [on], reset at
    [off]. *)
Definition pwm_between (on off pos : Z) : bool :=
  if on <=? off then (on <=? pos) && (pos <? off) else (on <=? pos) || (pos <? off).

(** The levels of PWM_A, PWM_B and PWM_X. *)
Definition mcxn_pwm_outputs (s : MCXNPWMState) (now : Z) : bool * bool * bool :=
  let fsts := pwm_ld16 s PWM_FSTS in
  let dismap := pwm_ld16 s PWM_SM_DISMAP0 in
  let octrl := pwm_ld16 s PWM_SM_OCTRL in
  let outen := pwm_ld16 s PWM_OUTEN in
  let ctrl2 := pwm_ld16 s PWM_SM_CTRL2 in
  let ctrl := pwm_ld16 s PWM_SM_CTRL in
  let prsc := (ctrl .& PWM_CTRL_PRSC_MASK) .>> PWM_CTRL_PRSC_SHIFT in
  let val0 := pwm_ld16 s PWM_SM_VAL0 in
  let val1 := pwm_ld16 s PWM_SM_VAL1 in
  let val2 := pwm_ld16 s PWM_SM_VAL2 in
  let val3 := pwm_ld16 s PWM_SM_VAL3 in
  let pos := mcxn_pwm_counter_now s now in
  let '(a, b) :=
    if flag ctrl2 PWM_CTRL2_INDEP then
      let val4 := pwm_ld16 s PWM_SM_VAL4 in
      let val5 := pwm_ld16 s PWM_SM_VAL5 in
      (pwm_between val2 val3 pos, pwm_between val4 val5 pos)
    else
      let dead0 := pwm_ld16 s PWM_SM_DTCNT0 .>> prsc in
      let dead1 := pwm_ld16 s PWM_SM_DTCNT1 .>> prsc in
      ((u16 (val2 + dead0) <=? pos) && (pos <? val3), (pos <? val2) || (u16 (val3 + dead1) <=? pos)) in
  let x := (val0 <? pos) && (pos <? val1) in
  let a := if flag octrl PWM_OCTRL_POLA then negb a else a in
  let b := if flag octrl PWM_OCTRL_POLB then negb b else b in
  let x := if flag octrl PWM_OCTRL_POLX then negb x else x in
  let a := flag outen PWM_OUTEN_PWMA_SM0 && a in
  let b := flag outen PWM_OUTEN_PWMB_SM0 && b in
  let x := flag outen PWM_OUTEN_PWMX_SM0 && x in
  if flag fsts PWM_FSTS_FFLAG0 then
    (negb (flag dismap PWM_DISMAP_DIS0A_F0) && a, negb (flag dismap PWM_DISMAP_DIS0B_F0) && b, negb (flag dismap PWM_DISMAP_DIS0X_F0) && x)
  else (a, b, x).

Definition mcxn_pwm_get_a_output (s : MCXNPWMState) (now : Z) : bool := let '(a, _, _) := mcxn_pwm_outputs s now in a.
Definition mcxn_pwm_get_b_output (s : MCXNPWMState) (now : Z) : bool := let '(_, b, _) := mcxn_pwm_outputs s now in b.
Definition mcxn_pwm_get_x_output (s : MCXNPWMState) (now : Z) : bool := let '(_, _, x) := mcxn_pwm_outputs s now in x.

(** ** Output triggers *)

(** [while (t <= now) { t += period; }], which [pwm_later_fuel] passes finish
    ([pwm_later_exits]). *)
Fixpoint pwm_later (fuel : nat) (t now period : Z) : Z :=
  match fuel with
  | O => t
  | S fuel => if t <=? now then pwm_later fuel (t + period) now period else t
  end.
Definition pwm_later_fuel (t now period : Z) : nat := Z.to_nat ((now - t) / period + 1).

(** One pass of the loop over the compares: the best instant so far and its
    lines. *)
Definition pwm_trig_candidate (s : MCXNPWMState) (now : Z) (bm : Z * Z) (n : Z) : Z * Z :=
  let '(best, mask) := bm in
  let tren := pwm_ld16 s PWM_SM_TCTRL .& PWM_TCTRL_OUT_TRIG_EN_MASK in
  let init := pwm_ld16 s PWM_SM_INIT in
  let val1 := pwm_ld16 s PWM_SM_VAL1 in
  let period := mcxn_pwm_period_ns s in
  let span := u16 (val1 - init) + 1 in
  let period_start := next_reload_ns s - period in
  if negb (flag tren (bit n)) then bm
  else
    let valn := pwm_ld16 s (PWM_SM_VAL0 + n * 4) in
    if (valn <? init) || (val1 <? valn) then bm
    else
      let off := u16 (valn - init) in
      let t := period_start + Z.quot (swrap 64 (off * period)) span in
      let t := pwm_later (pwm_later_fuel t now period) t now period in
      let line := bit (n .& 1) in
      if (best =? 0) || (t <? best) then (t, line)
      else if t =? best then (best, mask .| line)
      else bm.

Definition mcxn_pwm_next_trig (s : MCXNPWMState) (now : Z) : Z * Z :=
  let tren := pwm_ld16 s PWM_SM_TCTRL .& PWM_TCTRL_OUT_TRIG_EN_MASK in
  let period := mcxn_pwm_period_ns s in
  let span := u16 (pwm_ld16 s PWM_SM_VAL1 - pwm_ld16 s PWM_SM_INIT) + 1 in
  if (tren =? 0) || (period <=? 0) || (span <=? 0) || negb (timer_pending (reload_timer s)) then (0, 0)
  else foldl (pwm_trig_candidate s now) (0, 0) (seqZ 0 6).

Definition mcxn_pwm_arm_trig (s : MCXNPWMState) (now : Z) : MCXNPWMState :=
  let '(t, mask) := mcxn_pwm_next_trig s now in
  if t =? 0 then s <| trig_timer := None |> <| trig_mask := 0 |>
  else s <| next_trig_ns := t |> <| trig_mask := u8 mask |> <| trig_timer := Some t |>.

(** The timer callbacks: the timer that expired is no longer pending. *)
Definition mcxn_pwm_trig_tick (s : MCXNPWMState) (now : Z) : MCXNPWMState * list pwm_pulse :=
  let s := s <| trig_timer := None |> in
  let out := (if flag (trig_mask s) 1 then [out_trig 0] else []) ++ (if flag (trig_mask s) 2 then [out_trig 1] else []) in
  (mcxn_pwm_arm_trig s now, out).

Definition mcxn_pwm_reload_tick (s : MCXNPWMState) (now : Z) : MCXNPWMState :=
  let s := s <| reload_timer := None |> in
  let s := pwm_st16 s PWM_SM_STS (pwm_ld16 s PWM_SM_STS .| PWM_STS_RF) in
  let s := mcxn_pwm_update_irq s in
  let s := if flag (pwm_ld16 s PWM_SM_DMAEN) PWM_DMAEN_VALDE then mcxn_pwm_set_val_dma s true else s in
  let period := mcxn_pwm_period_ns s in
  if period <=? 0 then s
  else
    let s := s <| next_reload_ns := next_reload_ns s + period |> in
    let s := s <| reload_timer := Some (next_reload_ns s) |> in
    mcxn_pwm_arm_trig s now.

(** ** Register accesses *)

Definition mcxn_pwm_read (s : MCXNPWMState) (offset size : Z) : Z :=
  foldl (fun val i => if offset + i <? MCXN_PWM_SIZE then val .| ((regs s).[offset + i] .<< (8 * i)) else val) 0 (seqZ 0 size).

(** The generic store of a write. *)
Definition pwm_store (s : MCXNPWMState) (offset value size : Z) : MCXNPWMState :=
  s <| regs := foldl (fun r i => if offset + i <? MCXN_PWM_SIZE then r.[offset + i <- (value .>> (8 * i)) .& 0xff] else r) (regs s) (seqZ 0 size) |>.

Definition pwm_write_mctrl (s : MCXNPWMState) (value now : Z) : MCXNPWMState :=
  let mctrl := value .& 0xffff in
  let run := mctrl .& PWM_MCTRL_RUN_MASK in
  let s := pwm_st16 s PWM_MCTRL run in
  let stop := s <| reload_timer := None |> <| trig_timer := None |> in
  if flag run PWM_MCTRL_RUN_SM0 then
    let period := mcxn_pwm_period_ns s in
    if 0 <? period then
      let s := s <| next_reload_ns := now + period |> in
      let s := s <| reload_timer := Some (next_reload_ns s) |> in
      mcxn_pwm_arm_trig s now
    else stop
  else stop.

(** A halfword write to the status register of a submodule. *)
Definition pwm_write_sts (s : MCXNPWMState) (n value : Z) : MCXNPWMState :=
  let sts := PWM_SM_BASE n + PWM_SM_STS in
  let cur := pwm_ld16 s sts .& u16 (.~ (u16 value .& PWM_STS_W1C_MASK)) in
  let s := pwm_st16 s sts cur in
  if n =? 0 then mcxn_pwm_update_irq s else s.

Definition pwm_write_fsts (s : MCXNPWMState) (value : Z) : MCXNPWMState :=
  let cur := pwm_ld16 s PWM_FSTS in
  let fctrl := pwm_ld16 s PWM_FCTRL in
  let blocked := if Bool.eqb (fault_level s) (flag fctrl PWM_FCTRL_FLVL0) then PWM_FSTS_FFLAG0 else 0 in
  let clr := u16 value .& PWM_FSTS_W1C_MASK .& u16 (.~ blocked) in
  mcxn_pwm_update_fault_irq (pwm_st16 s PWM_FSTS (cur .& u16 (.~ clr))).

(** A write to any other register. *)
Definition pwm_write_generic (s : MCXNPWMState) (offset value size now : Z) : MCXNPWMState :=
  let s := pwm_store s offset value size in
  let s := if (offset <=? PWM_SM_INTEN + 1) && (PWM_SM_INTEN <? offset + size) then mcxn_pwm_update_irq s else s in
  let s := if (offset <=? PWM_FCTRL + 1) && (PWM_FCTRL <? offset + size) then mcxn_pwm_fault_eval s else s in
  let s :=
    if val_dma_lvl s && (PWM_SM_VAL0 <? offset + size) && (offset <=? PWM_SM_VAL5 + 1) then mcxn_pwm_set_val_dma s false else s in
  if (offset <? PWM_SM_TCTRL + 2) && (PWM_SM_INIT <? offset + size) && timer_pending (reload_timer s) then mcxn_pwm_arm_trig s now
  else s.

Definition mcxn_pwm_write (s : MCXNPWMState) (offset value size now : Z) : MCXNPWMState :=
  if (size =? 2) && (offset =? PWM_MCTRL) then pwm_write_mctrl s value now
  else
    match (if (size =? 2) && (offset <? PWM_SM_BASE PWM_SM_COUNT)
           then List.find (fun n => offset =? PWM_SM_BASE n + PWM_SM_STS) (seqZ 0 PWM_SM_COUNT) else None) with
    | Some n => pwm_write_sts s n value
    | None => if (size =? 2) && (offset =? PWM_FSTS) then pwm_write_fsts s value else pwm_write_generic s offset value size now
    end.

(** ** Reset and migration *)

Definition pwm_reset_submodule (s : MCXNPWMState) (n : Z) : MCXNPWMState :=
  let b := PWM_SM_BASE n in
  let s := pwm_st16 s (b + PWM_SM_CTRL) PWM_CTRL_RESET in
  let s := pwm_st16 s (b + PWM_SM_DTCNT0) PWM_DTCNT_RESET in
  let s := pwm_st16 s (b + PWM_SM_DTCNT1) PWM_DTCNT_RESET in
  pwm_st16 s (b + PWM_SM_DISMAP0) PWM_DISMAP_RESET.

Definition mcxn_pwm_reset (s : MCXNPWMState) : MCXNPWMState :=
  let s := s <| regs := replicate (Z.to_nat MCXN_PWM_SIZE) 0 |> in
  let s := foldl pwm_reset_submodule s (seqZ 0 PWM_SM_COUNT) in
  let s := s <| reload_timer := None |> <| trig_timer := None |> <| trig_mask := 0 |> in
  let s := s <| irq := false |> <| val_dma_lvl := false |> <| dma_req_val := false |> <| capa_level := false |> in
  s <| fault_level := false |> <| irq_fault := false |>.

Definition mcxn_pwm_post_load (s : MCXNPWMState) : MCXNPWMState := mcxn_pwm_update_fault_irq (mcxn_pwm_update_irq s).

(** ** The register file *)

Record pwm_wf (s : MCXNPWMState) : Prop := {
  wf_len : zlen (regs s) = MCXN_PWM_SIZE;
  wf_bytes : Forall (in_range 8) (regs s);
}.

Lemma ld16_range s off : pwm_wf s -> 0 <= off < MCXN_PWM_SIZE - 1 -> in_range 16 (pwm_ld16 s off).
Proof.
  intros [Hl Hb] Ho. unfold pwm_ld16. assert (H0 := Forall_arr_get _ _ off Hb ltac:(lia)). assert (H1 := Forall_arr_get _ _ (off + 1) Hb ltac:(lia)).
  apply in_range_lor; [lia | apply (in_range_mono 8); [lia | done]|]. rewrite Z.shiftl_mul_pow2 by lia.
  unfold in_range in *. change (2 ^ 8) with 256 in *. change (2 ^ 16) with 65536. lia.
Qed.

Lemma lo_hi_byte v : in_range 16 v -> (v .& 0xff) .| (((v .>> 8) .& 0xff) .<< 8) = v.
Proof.
  intros Hv. change 0xff with (Z.ones 8). apply Z.bits_inj'. intros i Hi. destruct (Z.ltb_spec i 8).
  - rewrite Z.lor_spec, Z.land_spec, Z.shiftl_spec, (Z.testbit_neg_r _ (i - 8)), testbit_ones by lia. zcases. btauto.
  - rewrite Z.lor_spec, Z.land_spec, Z.shiftl_spec, Z.land_spec, Z.shiftr_spec, !testbit_ones by lia. replace (i - 8 + 8) with i by lia.
    destruct (Z.ltb_spec (i - 8) 8); zcases; [btauto|]. rewrite (testbit_range 16 v) by (done || lia). done.
Qed.

Lemma ld16_st16 s off v : pwm_wf s -> 0 <= off < MCXN_PWM_SIZE - 1 -> pwm_ld16 (pwm_st16 s off v) off = u16 v.
Proof.
  intros [Hl _] Ho. unfold pwm_ld16, pwm_st16. cbn [regs modify]. cbv zeta.
  rewrite arr_get_set_ne, !arr_get_set_eq by (rewrite ?length_arr_set; lia). apply lo_hi_byte. auto with ranges.
Qed.

Lemma ld16_st16_ne s off v o : 0 <= off -> 0 <= o -> o + 2 <= off \/ off + 2 <= o -> pwm_ld16 (pwm_st16 s off v) o = pwm_ld16 s o.
Proof. intros. unfold pwm_ld16, pwm_st16. cbn [regs modify]. cbv zeta. by rewrite !arr_get_set_ne by lia. Qed.

Lemma st16_wf s off v : pwm_wf s -> pwm_wf (pwm_st16 s off v).
Proof.
  intros [Hl Hb]. split; cbn [regs pwm_st16 modify]; [by rewrite !length_arr_set|].
  repeat apply Forall_arr_set; [done | auto with ranges..].
Qed.

Lemma store_wf s off v n : pwm_wf s -> pwm_wf (pwm_store s off v n).
Proof.
  intros [Hl Hb]. unfold pwm_store. cbn [modify]. assert (H : forall l r, zlen r = MCXN_PWM_SIZE -> Forall (in_range 8) r ->
    let r' := foldl (fun r i => if off + i <? MCXN_PWM_SIZE then r.[off + i <- (v .>> (8 * i)) .& 0xff] else r) r l in
    zlen r' = MCXN_PWM_SIZE /\ Forall (in_range 8) r').
  { clear. induction l as [|i l IH]; intros r Hl Hb; [done|]. cbn [foldl]. apply IH; case_match; rewrite ?length_arr_set; try done.
    apply Forall_arr_set; auto with ranges. }
  destruct (H (seqZ 0 n) (regs s) Hl Hb). by split.
Qed.

(** A halfword store is the store of a 16-bit register. *)
Lemma store_halfword s off v : 0 <= off < MCXN_PWM_SIZE - 1 -> pwm_store s off v 2 = pwm_st16 s off v.
Proof.
  intros Ho. unfold pwm_store, pwm_st16. change (seqZ 0 2) with [0; 1]. cbn [foldl]. rewrite Z.add_0_r.
  rewrite !(proj2 (Z.ltb_lt _ _)) by lia. change (8 * 0) with 0. change (8 * 1) with 8. rewrite Z.shiftr_0_r. f_equal.
  assert (E1 : v .& 0xff = u16 v .& 0xff) by (change 0xff with (Z.ones 8); bitwise).
  assert (E2 : (v .>> 8) .& 0xff = (u16 v .>> 8) .& 0xff) by (change 0xff with (Z.ones 8); bitwise).
  by rewrite E1, E2.
Qed.

(** ** The waveform *)

Definition pwm_init (s : MCXNPWMState) : Z := pwm_ld16 s PWM_SM_INIT.
Definition pwm_span (s : MCXNPWMState) : Z := u16 (pwm_ld16 s PWM_SM_VAL1 - pwm_ld16 s PWM_SM_INIT) + 1.
Definition pwm_prsc (s : MCXNPWMState) : Z := (pwm_ld16 s PWM_SM_CTRL .& PWM_CTRL_PRSC_MASK) .>> PWM_CTRL_PRSC_SHIFT.
Definition pwm_start (s : MCXNPWMState) : Z := next_reload_ns s - mcxn_pwm_period_ns s.

(** A running submodule with an upward range, whose products fit the machine. *)
Record pwm_running (s : MCXNPWMState) : Prop := {
  run_wf : pwm_wf s;
  run_timer : timer_pending (reload_timer s) = true;
  run_clock : u32 (clk s) <> 0;
  run_range : pwm_init s <= pwm_ld16 s PWM_SM_VAL1;
  run_fits : mcxn_pwm_period_ns s * 65536 < 2 ^ 63;
}.

(** The offset in the period at which the counter reaches [v], in nanoseconds
    rounded up. *)
Definition pwm_edge (s : MCXNPWMState) (v : Z) : Z := - (- ((v - pwm_init s) * mcxn_pwm_period_ns s) / pwm_span s).

Lemma span_pos s : 1 <= pwm_span s <= 65536.
Proof. unfold pwm_span. pose proof (wrap_range 16 (pwm_ld16 s PWM_SM_VAL1 - pwm_ld16 s PWM_SM_INIT) ltac:(lia)) as H. change (2 ^ 16) with 65536 in H. lia. Qed.

Lemma period_pos s : u32 (clk s) <> 0 -> 1000 <= mcxn_pwm_period_ns s.
Proof. intros H. unfold mcxn_pwm_period_ns. cbv zeta. rewrite (proj2 (Z.eqb_neq _ _)) by done. case_match; lia. Qed.

Lemma span_val1 s : pwm_running s -> pwm_init s + pwm_span s = pwm_ld16 s PWM_SM_VAL1 + 1.
Proof.
  intros [Hw _ _ Hr _]. unfold pwm_span, pwm_init in *. pose proof (ld16_range s PWM_SM_INIT Hw ltac:(done)) as H1.
  pose proof (ld16_range s PWM_SM_VAL1 Hw ltac:(done)) as H2. unfold in_range in *. rewrite wrap_id by lia. lia.
Qed.

(** Within a period the counter advances linearly from INIT to VAL1. *)
Lemma counter_linear s e : pwm_running s -> 0 <= e < mcxn_pwm_period_ns s ->
  mcxn_pwm_counter_now s (pwm_start s + e) = pwm_init s + e * pwm_span s / mcxn_pwm_period_ns s.
Proof.
  intros Hr He. pose proof (span_val1 s Hr) as Hv. pose proof (span_pos s) as Hs. destruct Hr as [Hw Ht Hc Hr Hf].
  pose proof (period_pos s Hc). pose proof (ld16_range s PWM_SM_VAL1 Hw ltac:(done)) as H2. pose proof (ld16_range s PWM_SM_INIT Hw ltac:(done)) as H1.
  unfold mcxn_pwm_counter_now, pwm_start. cbv zeta. fold (pwm_span s) (pwm_init s) in *. set (P := mcxn_pwm_period_ns s) in *.
  rewrite Ht. rewrite (proj2 (Z.leb_gt P 0)) by lia. cbn [orb negb]. replace (next_reload_ns s - (next_reload_ns s - P + e)) with (P - e) by lia.
  rewrite (proj2 (Z.ltb_ge (P - e) 0)), (proj2 (Z.ltb_ge P (P - e))) by lia. replace (P - (P - e)) with e by lia.
  rewrite swrap_small by (try done; change (64 - 1) with 63; nia). rewrite Z.quot_div_nonneg by nia.
  assert (e * pwm_span s / P < pwm_span s) by (apply Z.div_lt_upper_bound; nia). assert (0 <= e * pwm_span s / P) by (apply Z.div_pos; nia).
  rewrite (proj2 (Z.ltb_ge _ _)) by lia. apply wrap_in_range. unfold in_range in *. lia.
Qed.

(** The counter is past [v] from the edge of [v] on. *)
Lemma counter_reaches s e v : pwm_running s -> 0 <= e < mcxn_pwm_period_ns s ->
  (v <=? mcxn_pwm_counter_now s (pwm_start s + e)) = (pwm_edge s v <=? e).
Proof.
  intros Hr He. rewrite counter_linear by done. pose proof (span_pos s). unfold pwm_edge. set (P := mcxn_pwm_period_ns s) in *. set (n := pwm_span s) in *.
  assert (0 < P) by lia. apply eq_true_iff_eq. rewrite !Z.leb_le.
  transitivity ((v - pwm_init s) * P <= e * n).
  - rewrite <- Z.le_sub_le_add_l. split; intros Hx.
    + pose proof (Z.mul_div_le (e * n) P ltac:(lia)). nia.
    + apply Z.div_le_lower_bound; lia.
  - split; intros Hx.
    + assert (- e <= - ((v - pwm_init s) * P) / n) by (apply Z.div_le_lower_bound; lia). lia.
    + pose proof (Z.mul_div_le (- ((v - pwm_init s) * P)) n ltac:(lia)). nia.
Qed.

Lemma counter_before s e v : pwm_running s -> 0 <= e < mcxn_pwm_period_ns s ->
  (mcxn_pwm_counter_now s (pwm_start s + e) <? v) = (e <? pwm_edge s v).
Proof. intros Hr He. rewrite !Z.ltb_antisym. f_equal. by apply counter_reaches. Qed.

(** The gates between the waveform and a pin: polarity, output enable and the
    fault cut-off. *)
Definition pwm_cut (s : MCXNPWMState) (dis : Z) : bool := flag (pwm_ld16 s PWM_FSTS) PWM_FSTS_FFLAG0 && flag (pwm_ld16 s PWM_SM_DISMAP0) dis.
Definition pwm_drive (s : MCXNPWMState) (en pol dis : Z) (level : bool) : bool :=
  negb (pwm_cut s dis) && (flag (pwm_ld16 s PWM_OUTEN) en && xorb (flag (pwm_ld16 s PWM_SM_OCTRL) pol) level).

Definition pwm_indep (s : MCXNPWMState) : bool := flag (pwm_ld16 s PWM_SM_CTRL2) PWM_CTRL2_INDEP.
Definition pwm_dead0 (s : MCXNPWMState) : Z := pwm_ld16 s PWM_SM_DTCNT0 .>> pwm_prsc s.
Definition pwm_dead1 (s : MCXNPWMState) : Z := pwm_ld16 s PWM_SM_DTCNT1 .>> pwm_prsc s.

Lemma outputs_eq s now :
  let val := pwm_ld16 s in
  let pos := mcxn_pwm_counter_now s now in
  mcxn_pwm_outputs s now =
    (pwm_drive s PWM_OUTEN_PWMA_SM0 PWM_OCTRL_POLA PWM_DISMAP_DIS0A_F0
       (if pwm_indep s then pwm_between (val PWM_SM_VAL2) (val PWM_SM_VAL3) pos
        else (u16 (val PWM_SM_VAL2 + pwm_dead0 s) <=? pos) && (pos <? val PWM_SM_VAL3)),
     pwm_drive s PWM_OUTEN_PWMB_SM0 PWM_OCTRL_POLB PWM_DISMAP_DIS0B_F0
       (if pwm_indep s then pwm_between (val PWM_SM_VAL4) (val PWM_SM_VAL5) pos
        else (pos <? val PWM_SM_VAL2) || (u16 (val PWM_SM_VAL3 + pwm_dead1 s) <=? pos)),
     pwm_drive s PWM_OUTEN_PWMX_SM0 PWM_OCTRL_POLX PWM_DISMAP_DIS0X_F0 ((val PWM_SM_VAL0 <? pos) && (pos <? val PWM_SM_VAL1))).
Proof.
  cbv zeta. unfold mcxn_pwm_outputs, pwm_drive, pwm_cut, pwm_indep, pwm_dead0, pwm_dead1, pwm_prsc. cbv zeta.
  destruct (flag (pwm_ld16 s PWM_SM_CTRL2) PWM_CTRL2_INDEP), (flag (pwm_ld16 s PWM_FSTS) PWM_FSTS_FFLAG0); cbn [andb negb];
    repeat f_equal; by destruct (flag (pwm_ld16 s PWM_SM_OCTRL) _).
Qed.

(** High from the edge of [on] to the edge of [off], at the offset [e]. *)
Definition pwm_pulsed (s : MCXNPWMState) (on off e : Z) : bool := (pwm_edge s on <=? e) && (e <? pwm_edge s off).
(** The same with [off] before [on]: high over the reload. *)
Definition pwm_flipflop (s : MCXNPWMState) (on off e : Z) : bool :=
  if on <=? off then pwm_pulsed s on off e else negb (pwm_pulsed s off on e).

Lemma pulsed_counter s on off e : pwm_running s -> 0 <= e < mcxn_pwm_period_ns s ->
  (let pos := mcxn_pwm_counter_now s (pwm_start s + e) in (on <=? pos) && (pos <? off)) = pwm_pulsed s on off e.
Proof. intros Hr He. cbv zeta. unfold pwm_pulsed. by rewrite counter_reaches, counter_before. Qed.

Lemma dead_nonneg s off : pwm_wf s -> 0 <= off < MCXN_PWM_SIZE - 1 -> 0 <= pwm_ld16 s off .>> pwm_prsc s.
Proof. intros Hw Ho. apply Z.shiftr_nonneg. by apply (ld16_range s off Hw Ho). Qed.

(** The width of a pulse is the programmed number of counts, to the
    nanosecond. *)
Lemma pulse_width s on off :
  Z.abs ((pwm_edge s off - pwm_edge s on) * pwm_span s - (off - on) * mcxn_pwm_period_ns s) < pwm_span s.
Proof.
  pose proof (span_pos s). unfold pwm_edge. set (n := pwm_span s) in *. set (P := mcxn_pwm_period_ns s). set (i := pwm_init s).
  pose proof (Z.div_mod (- ((off - i) * P)) n ltac:(lia)). pose proof (Z.mod_pos_bound (- ((off - i) * P)) n ltac:(lia)).
  pose proof (Z.div_mod (- ((on - i) * P)) n ltac:(lia)). pose proof (Z.mod_pos_bound (- ((on - i) * P)) n ltac:(lia)).
  apply Z.abs_lt. nia.
Qed.

Lemma pulse_counter s on off e : pwm_running s -> 0 <= e < mcxn_pwm_period_ns s ->
  pwm_between on off (mcxn_pwm_counter_now s (pwm_start s + e)) = pwm_flipflop s on off e.
Proof.
  intros Hr He. unfold pwm_between, pwm_flipflop. destruct (on <=? off); rewrite <- pulsed_counter by done; cbv zeta; [done|].
  rewrite negb_andb, <- Z.ltb_antisym, <- Z.leb_antisym. apply orb_comm.
Qed.

(** C18: Let the carrier run and count up, INIT being at most VAL1 as unsigned
    numbers, with a period below 2^47 ns.  At every instant of a period each output is
    the pulse that the edges of its compare registers delimit in time, behind its
    polarity, enable and fault gates: in independent mode PWM_A is high from VAL2 to
    VAL3 and PWM_B from VAL4 to VAL5, over the reload if the edges are in that order;
    in complementary mode PWM_A is high from VAL2 plus its dead time to VAL3, and PWM_B
    before VAL2 and from VAL3 plus its dead time on, the sums being of 16 bits; PWM_X
    is high from the count after VAL0 to VAL1.  A pulse of [off - on] counts lasts that
    share of the period, to the nanosecond. *)
Theorem pwm_waveform s e : pwm_running s -> 0 <= e < mcxn_pwm_period_ns s ->
  let val := pwm_ld16 s in
  mcxn_pwm_outputs s (pwm_start s + e) =
    (pwm_drive s PWM_OUTEN_PWMA_SM0 PWM_OCTRL_POLA PWM_DISMAP_DIS0A_F0
       (if pwm_indep s then pwm_flipflop s (val PWM_SM_VAL2) (val PWM_SM_VAL3) e else pwm_pulsed s (u16 (val PWM_SM_VAL2 + pwm_dead0 s)) (val PWM_SM_VAL3) e),
     pwm_drive s PWM_OUTEN_PWMB_SM0 PWM_OCTRL_POLB PWM_DISMAP_DIS0B_F0
       (if pwm_indep s then pwm_flipflop s (val PWM_SM_VAL4) (val PWM_SM_VAL5) e
        else negb (pwm_pulsed s (val PWM_SM_VAL2) (u16 (val PWM_SM_VAL3 + pwm_dead1 s)) e)),
     pwm_drive s PWM_OUTEN_PWMX_SM0 PWM_OCTRL_POLX PWM_DISMAP_DIS0X_F0 (pwm_pulsed s (val PWM_SM_VAL0 + 1) (val PWM_SM_VAL1) e)) /\
  forall on off, Z.abs ((pwm_edge s off - pwm_edge s on) * pwm_span s - (off - on) * mcxn_pwm_period_ns s) < pwm_span s.
Proof.
  intros Hr He. cbv zeta. split; [|apply pulse_width]. rewrite outputs_eq, <- !pulse_counter, <- !pulsed_counter by done. cbv zeta.
  set (pos := mcxn_pwm_counter_now s (pwm_start s + e)).
  assert (Hx : (pwm_ld16 s PWM_SM_VAL0 + 1 <=? pos) = (pwm_ld16 s PWM_SM_VAL0 <? pos)) by (zcases; done). rewrite Hx.
  by rewrite negb_andb, <- Z.ltb_antisym, <- Z.leb_antisym.
Qed.

Lemma edge_mono s v w : pwm_running s -> v <= w -> pwm_edge s v <= pwm_edge s w.
Proof.
  intros [_ _ Hc _ _] Hvw. pose proof (span_pos s). pose proof (period_pos s Hc). unfold pwm_edge. apply Z.opp_le_mono. rewrite !Z.opp_involutive.
  apply Z.div_le_mono; nia.
Qed.

Lemma drive_high s en pol dis level : flag (pwm_ld16 s PWM_SM_OCTRL) pol = false -> pwm_drive s en pol dis level = true -> level = true.
Proof. intros Hp. unfold pwm_drive. rewrite Hp. destruct level; [done|]. by rewrite !andb_false_r. Qed.

(** C15: No shoot-through, up to the 16 bits of an edge.  In complementary mode,
    without inverted outputs, PWM_A and PWM_B are high at once only if VAL2 or VAL3 plus
    its dead time overflows 16 bits, and then only at a count below that register; and
    when neither sum overflows, within a period of a running carrier (INIT at most VAL1)
    an output goes high only when more than its dead time, in counts of the counter, has
    passed since the other was high. *)
Theorem pwm_dead_time s : pwm_wf s -> pwm_indep s = false ->
  flag (pwm_ld16 s PWM_SM_OCTRL) PWM_OCTRL_POLA = false -> flag (pwm_ld16 s PWM_SM_OCTRL) PWM_OCTRL_POLB = false ->
  let on := pwm_ld16 s PWM_SM_VAL2 in let off := pwm_ld16 s PWM_SM_VAL3 in
  (forall now, mcxn_pwm_get_a_output s now = true -> mcxn_pwm_get_b_output s now = true ->
     (2 ^ 16 <= on + pwm_dead0 s /\ mcxn_pwm_counter_now s now < on) \/ (2 ^ 16 <= off + pwm_dead1 s /\ mcxn_pwm_counter_now s now < off)) /\
  (pwm_running s -> on + pwm_dead0 s < 2 ^ 16 -> off + pwm_dead1 s < 2 ^ 16 ->
     forall e1 e2, 0 <= e1 < mcxn_pwm_period_ns s -> 0 <= e2 < mcxn_pwm_period_ns s ->
     mcxn_pwm_get_a_output s (pwm_start s + e1) = true -> mcxn_pwm_get_b_output s (pwm_start s + e2) = true ->
     (e2 < e1 /\ pwm_dead0 s * mcxn_pwm_period_ns s < (e1 - e2) * pwm_span s) \/
     (e1 < e2 /\ pwm_dead1 s * mcxn_pwm_period_ns s < (e2 - e1) * pwm_span s)).
Proof.
  intros Hw Hi Ha Hb. cbv zeta.
  pose proof (dead_nonneg s PWM_SM_DTCNT0 Hw ltac:(done)) as D0. pose proof (dead_nonneg s PWM_SM_DTCNT1 Hw ltac:(done)) as D1.
  fold (pwm_dead0 s) in D0. fold (pwm_dead1 s) in D1.
  pose proof (ld16_range s PWM_SM_VAL2 Hw ltac:(done)) as R2. pose proof (ld16_range s PWM_SM_VAL3 Hw ltac:(done)) as R3. unfold in_range in R2, R3.
  assert (Hab : forall now, let pos := mcxn_pwm_counter_now s now in
    (mcxn_pwm_get_a_output s now = true -> u16 (pwm_ld16 s PWM_SM_VAL2 + pwm_dead0 s) <= pos < pwm_ld16 s PWM_SM_VAL3) /\
    (mcxn_pwm_get_b_output s now = true -> pos < pwm_ld16 s PWM_SM_VAL2 \/ u16 (pwm_ld16 s PWM_SM_VAL3 + pwm_dead1 s) <= pos)).
  { intros now. cbv zeta. unfold mcxn_pwm_get_a_output, mcxn_pwm_get_b_output. rewrite outputs_eq, Hi. cbv zeta. split; intros H%drive_high; try done.
    - rewrite andb_true_iff, Z.leb_le, Z.ltb_lt in H. exact H.
    - rewrite orb_true_iff, Z.leb_le, Z.ltb_lt in H. exact H. }
  split.
  - intros now Ka%(Hab now) Kb%(Hab now). destruct Kb as [Kb|Kb].
    + left. split; [|done]. apply Z.le_ngt. intros Hlt. rewrite wrap_id in Ka by lia. lia.
    + right. split; [|apply Ka]. apply Z.le_ngt. intros Hlt. rewrite wrap_id in Kb by lia. lia.
  - intros Hr H1 H2 e1 e2 He1 He2 [Ka1 Ka2]%(Hab (pwm_start s + e1)) Kb%(Hab (pwm_start s + e2)). rewrite wrap_id in Ka1, Kb by lia.
    apply Z.leb_le in Ka1. rewrite counter_reaches, Z.leb_le in Ka1 by done. apply Z.ltb_lt in Ka2. rewrite counter_before, Z.ltb_lt in Ka2 by done.
    destruct Kb as [Kb|Kb].
    + apply Z.ltb_lt in Kb. rewrite counter_before, Z.ltb_lt in Kb by done. left.
      pose proof (edge_mono s (pwm_ld16 s PWM_SM_VAL2) (pwm_ld16 s PWM_SM_VAL2 + pwm_dead0 s) Hr ltac:(lia)).
      pose proof (pulse_width s (pwm_ld16 s PWM_SM_VAL2) (pwm_ld16 s PWM_SM_VAL2 + pwm_dead0 s)). pose proof (span_pos s). nia.
    + apply Z.leb_le in Kb. rewrite counter_reaches, Z.leb_le in Kb by done. right.
      pose proof (edge_mono s (pwm_ld16 s PWM_SM_VAL3) (pwm_ld16 s PWM_SM_VAL3 + pwm_dead1 s) Hr ltac:(lia)).
      pose proof (pulse_width s (pwm_ld16 s PWM_SM_VAL3) (pwm_ld16 s PWM_SM_VAL3 + pwm_dead1 s)). pose proof (span_pos s). nia.
Qed.

(** ** Reachable states *)

(** What the world does to a submodule between resets: aligned halfword writes,
    the two timers, the pins, the clock tree and migration.  After a migration the
    interrupt lines are at any level until [mcxn_pwm_post_load] drives them; the
    level of the DMA request is part of what the DMA controller migrates. *)
Inductive pwm_step : MCXNPWMState -> MCXNPWMState -> Prop :=
  | pwm_step_write s off v now : 0 <= off < MCXN_PWM_SIZE -> Z.even off = true -> pwm_step s (mcxn_pwm_write s off v 2 now)
  | pwm_step_reload s now : pwm_step s (mcxn_pwm_reload_tick s now)
  | pwm_step_trig s now : pwm_step s (mcxn_pwm_trig_tick s now).1
  | pwm_step_capa s b now : pwm_step s (mcxn_pwm_set_capa s b now).1
  | pwm_step_fault s b : pwm_step s (mcxn_pwm_set_fault s b)
  | pwm_step_clk s hz : pwm_step s (s <| clk := hz |>)
  | pwm_step_load s i f : pwm_step s (mcxn_pwm_post_load (s <| irq := i |> <| irq_fault := f |>)).

Definition pwm_level (s : MCXNPWMState) : bool :=
  flag (pwm_ld16 s PWM_SM_STS .& pwm_ld16 s PWM_SM_INTEN) (PWM_STS_RF .| PWM_STS_CMPF .| PWM_STS_CFA0).
Definition pwm_fault_irq_level (s : MCXNPWMState) : bool :=
  flag (pwm_ld16 s PWM_FSTS .& PWM_FSTS_FFLAG_MASK) (pwm_ld16 s PWM_FCTRL).
(** FAULT0 is at its active level. *)
Definition pwm_fault_live (s : MCXNPWMState) : bool := Bool.eqb (fault_level s) (flag (pwm_ld16 s PWM_FCTRL) PWM_FCTRL_FLVL0).

Record pwm_ok (s : MCXNPWMState) : Prop := {
  ok_wf : pwm_wf s;
  ok_irq : irq s = pwm_level s;
  ok_fault : irq_fault s = pwm_fault_irq_level s;
  ok_dma : dma_req_val s = val_dma_lvl s;
}.
(** A live fault is latched. *)
Definition pwm_latched (s : MCXNPWMState) : Prop := pwm_fault_live s = true -> flag (pwm_ld16 s PWM_FSTS) PWM_FSTS_FFLAG0 = true.

Create HintDb pwm.

(** Operations that leave the registers and the lines alone. *)
Definition pwm_same (s s' : MCXNPWMState) : Prop :=
  regs s' = regs s /\ irq s' = irq s /\ irq_fault s' = irq_fault s /\ fault_level s' = fault_level s /\
  dma_req_val s' = dma_req_val s /\ val_dma_lvl s' = val_dma_lvl s.

Lemma ok_same s s' : pwm_same s s' -> pwm_ok s -> pwm_ok s'.
Proof.
  intros (Hr & H1 & H2 & _ & H4 & H5) [[Hl Hb] Hi Hf Hd].
  split; [split; by rewrite Hr | unfold pwm_level, pwm_ld16 in *; by rewrite H1, Hr | unfold pwm_fault_irq_level, pwm_ld16 in *; by rewrite H2, Hr | by rewrite H4, H5].
Qed.
Lemma latched_same s s' : pwm_same s s' -> pwm_latched s -> pwm_latched s'.
Proof. intros (Hr & _ & _ & Hf & _). unfold pwm_latched, pwm_fault_live, pwm_ld16. by rewrite Hr, Hf. Qed.

Lemma arm_same s now : pwm_same s (mcxn_pwm_arm_trig s now).
Proof. unfold mcxn_pwm_arm_trig. destruct (mcxn_pwm_next_trig s now) as [t m]. by case_match. Qed.

(** A register that no line depends on. *)
Definition pwm_plain (off : Z) : Prop :=
  0 <= off /\ Forall (fun o => off + 2 <= o \/ o + 2 <= off) [PWM_SM_STS; PWM_SM_INTEN; PWM_FSTS; PWM_FCTRL].

Lemma plain_regs s off v : pwm_plain off ->
  Forall (fun o => pwm_ld16 (pwm_st16 s off v) o = pwm_ld16 s o) [PWM_SM_STS; PWM_SM_INTEN; PWM_FSTS; PWM_FCTRL].
Proof.
  intros [Ho Hf]. eapply Forall_impl; [apply Forall_and; split; [exact Hf|]|].
  - instantiate (1 := fun o => 0 <= o). repeat constructor; done.
  - intros o [H1 H2]. cbn beta in *. apply ld16_st16_ne; lia.
Qed.

Lemma ok_plain s off v : pwm_plain off -> pwm_ok s -> pwm_ok (pwm_st16 s off v).
Proof.
  intros Hp [Hw Hi Hf Hd]. pose proof (plain_regs s off v Hp) as H. rewrite !Forall_cons in H. destruct H as (E1 & E2 & E3 & E4 & _).
  split; [by apply st16_wf | unfold pwm_level; rewrite E1, E2; exact Hi | unfold pwm_fault_irq_level; rewrite E3, E4; exact Hf | exact Hd].
Qed.
Lemma latched_plain s off v : pwm_plain off -> pwm_latched s -> pwm_latched (pwm_st16 s off v).
Proof.
  intros Hp H. pose proof (plain_regs s off v Hp) as Hr. rewrite !Forall_cons in Hr. destruct Hr as (_ & _ & E3 & E4 & _).
  unfold pwm_latched, pwm_fault_live. rewrite E3, E4. exact H.
Qed.

(** Changes of a status register followed by the update of its line. *)
Lemma ok_update_irq s s' : pwm_ok s -> pwm_wf s' -> irq_fault s' = irq_fault s -> dma_req_val s' = dma_req_val s -> val_dma_lvl s' = val_dma_lvl s ->
  pwm_ld16 s' PWM_FSTS = pwm_ld16 s PWM_FSTS -> pwm_ld16 s' PWM_FCTRL = pwm_ld16 s PWM_FCTRL -> pwm_ok (mcxn_pwm_update_irq s').
Proof.
  intros [_ _ Hf Hd] [Hl Hb] E1 E2 E3 E4 E5. split; [by split | done | | cbn -[flag]; congruence].
  unfold pwm_fault_irq_level in *. cbn -[flag pwm_ld16]. change (pwm_ld16 (mcxn_pwm_update_irq s')) with (pwm_ld16 s'). by rewrite E4, E5, E1.
Qed.
Lemma ok_update_fault s s' : pwm_ok s -> pwm_wf s' -> irq s' = irq s -> dma_req_val s' = dma_req_val s -> val_dma_lvl s' = val_dma_lvl s ->
  pwm_ld16 s' PWM_SM_STS = pwm_ld16 s PWM_SM_STS -> pwm_ld16 s' PWM_SM_INTEN = pwm_ld16 s PWM_SM_INTEN -> pwm_ok (mcxn_pwm_update_fault_irq s').
Proof.
  intros [_ Hi _ Hd] [Hl Hb] E1 E2 E3 E4 E5. split; [by split | | done | cbn -[flag]; congruence].
  unfold pwm_level in *. cbn -[flag pwm_ld16]. change (pwm_ld16 (mcxn_pwm_update_fault_irq s')) with (pwm_ld16 s'). by rewrite E4, E5, E1.
Qed.

Ltac plain :=
  split; [done || lia|]; unfold PWM_SM_STS, PWM_FSTS, PWM_SM_INTEN, PWM_FCTRL, PWM_MCTRL, PWM_SM_CVAL0 in *;
  repeat (apply Forall_cons_2; [lia|]); apply Forall_nil_2.

(** An operation that keeps the lines and the fault latch right. *)
Definition pwm_keeps (s s' : MCXNPWMState) : Prop := pwm_ok s -> pwm_ok s' /\ (pwm_latched s -> pwm_latched s').

Lemma keeps_refl s : pwm_keeps s s.
Proof. done. Qed.
Lemma keeps_trans s1 s2 s3 : pwm_keeps s1 s2 -> pwm_keeps s2 s3 -> pwm_keeps s1 s3.
Proof. intros H1 H2 Hok. destruct (H1 Hok) as [K1 L1]. destruct (H2 K1) as [K2 L2]. auto. Qed.
Lemma keeps_same s s' : pwm_same s s' -> pwm_keeps s s'.
Proof. intros H Hok. split; [by apply (ok_same s) | by apply latched_same]. Qed.
Lemma keeps_arm s now : pwm_keeps s (mcxn_pwm_arm_trig s now).
Proof. apply keeps_same, arm_same. Qed.
Lemma keeps_plain s off v : pwm_plain off -> pwm_keeps s (pwm_st16 s off v).
Proof. intros H Hok. split; [by apply ok_plain | by apply latched_plain]. Qed.

(** A change of STS or INTEN. *)
Lemma keeps_irq s off v : off = PWM_SM_STS \/ off = PWM_SM_INTEN -> pwm_keeps s (mcxn_pwm_update_irq (pwm_st16 s off v)).
Proof.
  intros Ho Hok. assert (E : forall o, o = PWM_FSTS \/ o = PWM_FCTRL -> pwm_ld16 (pwm_st16 s off v) o = pwm_ld16 s o).
  { intros o Hx. apply ld16_st16_ne; destruct Ho as [-> | ->], Hx as [-> | ->]; unfold PWM_SM_STS, PWM_SM_INTEN, PWM_FSTS, PWM_FCTRL; lia. }
  split.
  - apply (ok_update_irq s); auto using st16_wf, ok_wf.
  - unfold pwm_latched, pwm_fault_live. change (pwm_ld16 (mcxn_pwm_update_irq (pwm_st16 s off v))) with (pwm_ld16 (pwm_st16 s off v)). by rewrite !E by auto.
Qed.

Lemma keeps_val_dma s b : pwm_keeps s (mcxn_pwm_set_val_dma s b).
Proof.
  intros [Hw Hi Hf Hd]. unfold mcxn_pwm_set_val_dma. case_match; [done|]. split; [|done]. split; [by destruct Hw | done..].
Qed.

Lemma fsts_update s v : pwm_ok s -> pwm_ok (mcxn_pwm_update_fault_irq (pwm_st16 s PWM_FSTS v)).
Proof. intros Hok. apply (ok_update_fault s); auto using st16_wf, ok_wf; apply ld16_st16_ne; unfold PWM_FSTS, PWM_SM_STS, PWM_SM_INTEN; lia. Qed.

(** Evaluating the fault latches a live one. *)
Lemma fault_eval_ok s : pwm_ok s -> pwm_ok (mcxn_pwm_fault_eval s) /\ pwm_latched (mcxn_pwm_fault_eval s).
Proof.
  intros Hok. unfold mcxn_pwm_fault_eval. cbv zeta. split; [by apply fsts_update|]. set (x := if fault_level s then _ else _).
  unfold pwm_latched, pwm_fault_live. set (v := if Bool.eqb _ _ then _ else _).
  change (pwm_ld16 (mcxn_pwm_update_fault_irq (pwm_st16 s PWM_FSTS v))) with (pwm_ld16 (pwm_st16 s PWM_FSTS v)).
  change (fault_level (mcxn_pwm_update_fault_irq (pwm_st16 s PWM_FSTS v))) with (fault_level s).
  rewrite (ld16_st16_ne s PWM_FSTS v PWM_FCTRL) by (unfold PWM_FSTS, PWM_FCTRL; lia). rewrite ld16_st16 by (done || apply Hok).
  intros Hl. unfold v. rewrite Hl. unfold wrap. rewrite <- Z.land_ones, flag_land, flag_lor by lia. by rewrite orb_true_r.
Qed.

Lemma keeps_fault s b : pwm_keeps s (mcxn_pwm_set_fault s b).
Proof.
  intros Hok. unfold mcxn_pwm_set_fault. assert (H : pwm_ok (s <| fault_level := b |>)) by (destruct Hok as [[] ? ? ?]; by split).
  destruct (fault_eval_ok _ H). auto.
Qed.

(** The interlock: writing ones does not clear a live fault. *)
Lemma keeps_fsts s v : pwm_keeps s (pwm_write_fsts s v).
Proof.
  intros Hok. split; [by apply fsts_update|]. unfold pwm_write_fsts, pwm_latched. cbv zeta. fold (pwm_fault_live s).
  set (w := pwm_ld16 s PWM_FSTS .& _).
  change (pwm_ld16 (mcxn_pwm_update_fault_irq (pwm_st16 s PWM_FSTS w))) with (pwm_ld16 (pwm_st16 s PWM_FSTS w)).
  assert (E : pwm_fault_live (mcxn_pwm_update_fault_irq (pwm_st16 s PWM_FSTS w)) = pwm_fault_live s).
  { unfold pwm_fault_live. change (pwm_ld16 (mcxn_pwm_update_fault_irq (pwm_st16 s PWM_FSTS w))) with (pwm_ld16 (pwm_st16 s PWM_FSTS w)).
    by rewrite ld16_st16_ne by (unfold PWM_FSTS, PWM_FCTRL; lia). }
  rewrite E, ld16_st16 by (done || apply Hok). intros Hlat Hl. specialize (Hlat Hl). unfold w. rewrite Hl.
  change PWM_FSTS_FFLAG0 with (bit 0) in *. rewrite flag_bit in * by lia. autorewrite with bits. rewrite Hlat. by destruct (Z.testbit v 0).
Qed.

Lemma keeps_generic s off v now : 0 <= off < MCXN_PWM_SIZE -> Z.even off = true -> off <> PWM_SM_STS -> off <> PWM_FSTS ->
  pwm_keeps s (pwm_write_generic s off v 2 now).
Proof.
  intros Ho Hev H1 H2. apply Zeven_bool_iff in Hev. apply Zeven_ex in Hev as [k ->].
  unfold pwm_write_generic. cbv zeta. rewrite store_halfword by (unfold MCXN_PWM_SIZE in *; lia). set (s1 := pwm_st16 s _ v).
  assert (Hend : forall t, pwm_keeps t (let t := if val_dma_lvl t && (PWM_SM_VAL0 <? 2 * k + 2) && (2 * k <=? PWM_SM_VAL5 + 1) then mcxn_pwm_set_val_dma t false else t in
    if (2 * k <? PWM_SM_TCTRL + 2) && (PWM_SM_INIT <? 2 * k + 2) && timer_pending (reload_timer t) then mcxn_pwm_arm_trig t now else t)).
  { intros t. cbv zeta. eapply keeps_trans; [|case_match; [apply keeps_arm | apply keeps_refl]]. case_match; [apply keeps_val_dma | apply keeps_refl]. }
  eapply keeps_trans; [|apply Hend]. unfold s1, PWM_SM_STS, PWM_FSTS, PWM_SM_INTEN, PWM_FCTRL in *.
  destruct (Z.eq_dec (2 * k) 0x26) as [E|E]; [|destruct (Z.eq_dec (2 * k) 0x18C) as [E'|E']].
  - rewrite E. cbn [Z.leb Z.ltb Z.add Z.compare Pos.compare andb]. apply keeps_irq. by right.
  - rewrite E'. change ((0x18C <=? 0x26 + 1) && (0x26 <? 0x18C + 2)) with false. change ((0x18C <=? 0x18C + 1) && (0x18C <? 0x18C + 2)) with true.
    cbv iota. intros Hok. set (t := pwm_st16 s 0x18C v).
    assert (Hs : pwm_ok (mcxn_pwm_update_fault_irq t)).
    { unfold t. apply (ok_update_fault s); auto using st16_wf, ok_wf; apply ld16_st16_ne; unfold PWM_SM_STS, PWM_SM_INTEN; lia. }
    destruct (fault_eval_ok _ Hs) as [K L].
    change (mcxn_pwm_fault_eval (mcxn_pwm_update_fault_irq t)) with (mcxn_pwm_fault_eval t) in *. auto.
  - replace ((2 * k <=? 0x26 + 1) && (0x26 <? 2 * k + 2)) with false by (zcases; done).
    replace ((2 * k <=? 0x18C + 1) && (0x18C <? 2 * k + 2)) with false by (zcases; done).
    apply keeps_plain. plain.
Qed.

Lemma keeps_write s off v now : 0 <= off < MCXN_PWM_SIZE -> Z.even off = true -> pwm_keeps s (mcxn_pwm_write s off v 2 now).
Proof.
  intros Ho Hev. unfold mcxn_pwm_write. cbn [Z.eqb Pos.eqb andb].
  assert (Hstop : forall t, pwm_keeps t (t <| reload_timer := None |> <| trig_timer := None |>)) by (intros t; by apply keeps_same).
  destruct (Z.eqb_spec off PWM_MCTRL) as [->|H1].
  { unfold pwm_write_mctrl. cbv zeta. set (run := v .& 0xffff .& PWM_MCTRL_RUN_MASK).
    assert (Hst : pwm_keeps s (pwm_st16 s PWM_MCTRL run)).
    { apply keeps_plain. plain. }
    eapply keeps_trans; [exact Hst|]. case_match; [|apply Hstop]. case_match; [|apply Hstop]. eapply keeps_trans; [|apply keeps_arm]. by apply keeps_same. }
  destruct (if off <? _ then _ else _) as [n|] eqn:Ef.
  - destruct (off <? PWM_SM_BASE PWM_SM_COUNT); [|done]. apply find_some in Ef as [Hin He]. apply Z.eqb_eq in He.
    apply list_elem_of_In, elem_of_seqZ in Hin. unfold pwm_write_sts. cbv zeta. rewrite <- He. destruct (Z.eqb_spec n 0) as [->|Hn].
    + apply keeps_irq. by left.
    + apply keeps_plain. unfold PWM_SM_COUNT, PWM_SM_BASE, PWM_SM_STEP in *. plain.
  - destruct (Z.eqb_spec off PWM_FSTS) as [->|H2]; [apply keeps_fsts|]. apply keeps_generic; try done. intros ->. done.
Qed.

Lemma keeps_step s s' : pwm_step s s' -> pwm_keeps s s'.
Proof.
  destruct 1 as [s off v now Ho He|s now|s now|s b now|s b|s hz|s i f].
  - by apply keeps_write.
  - unfold mcxn_pwm_reload_tick. cbv zeta. set (s0 := s <| reload_timer := None |>).
    eapply keeps_trans; [by apply (keeps_same s s0)|]. eapply keeps_trans; [apply (keeps_irq s0 PWM_SM_STS (pwm_ld16 s0 PWM_SM_STS .| PWM_STS_RF)); by left|].
    set (s1 := mcxn_pwm_update_irq _). set (s2 := if flag (pwm_ld16 s1 PWM_SM_DMAEN) PWM_DMAEN_VALDE then mcxn_pwm_set_val_dma s1 true else s1).
    assert (H2 : pwm_keeps s1 s2) by (unfold s2; case_match; [apply keeps_val_dma | apply keeps_refl]). eapply keeps_trans; [exact H2|].
    case_match; [apply keeps_refl|]. eapply keeps_trans; [|apply keeps_arm]. by apply keeps_same.
  - unfold mcxn_pwm_trig_tick. cbn [fst]. eapply keeps_trans; [|apply keeps_arm]. by apply keeps_same.
  - unfold mcxn_pwm_set_capa, mcxn_pwm_capture_a_edge. cbv zeta. set (s0 := s <| capa_level := b |>).
    eapply keeps_trans; [by apply (keeps_same s s0)|]. case_match; [apply keeps_refl|]. case_match; [apply keeps_refl|]. cbn [fst].
    eapply keeps_trans; [apply (keeps_plain s0 PWM_SM_CVAL0); plain|].
    apply keeps_irq. by left.
  - apply keeps_fault.
  - by apply keeps_same.
  - intros [Hw Hi Hf Hd]. split; [|done]. split; [by destruct Hw | done..].
Qed.

Lemma reset_ok s : pwm_ok (mcxn_pwm_reset s).
Proof.
  set (r := regs (mcxn_pwm_reset (mkPWM 0 false false false false false false None 0 None 0 0 []))).
  assert (Hr : regs (mcxn_pwm_reset s) = r) by (vm_compute; reflexivity).
  assert (Hw : zlen r = MCXN_PWM_SIZE /\ forallb (in_rangeb 8) r = true /\ r.[PWM_SM_STS] .| (r.[PWM_SM_STS + 1] .<< 8) = 0 /\ r.[PWM_FSTS] .| (r.[PWM_FSTS + 1] .<< 8) = 0)
    by (vm_compute; split_and!; reflexivity).
  destruct Hw as (Hl & Hb & Hs & Hf). split; [split; rewrite Hr; [done|]|unfold pwm_level, pwm_ld16; rewrite Hr, Hs; done|unfold pwm_fault_irq_level, pwm_ld16; rewrite Hr, Hf; done|done].
  apply Forall_forall. intros x Hx%list_elem_of_In. rewrite forallb_forall in Hb. specialize (Hb x Hx).
  unfold in_rangeb in Hb. rewrite andb_true_iff, Z.leb_le, Z.ltb_lt in Hb. done.
Qed.

Lemma write_fctrl s v now : pwm_ok s ->
  pwm_ok (mcxn_pwm_write s PWM_FCTRL v 2 now) /\ pwm_latched (mcxn_pwm_write s PWM_FCTRL v 2 now).
Proof.
  intros Hok. split; [by apply (keeps_write s PWM_FCTRL v now)|].
  assert (E : mcxn_pwm_write s PWM_FCTRL v 2 now = pwm_write_generic s PWM_FCTRL v 2 now) by reflexivity. rewrite E.
  unfold pwm_write_generic. cbv zeta. rewrite store_halfword by done. set (t := pwm_st16 s PWM_FCTRL v).
  change ((PWM_FCTRL <=? PWM_SM_INTEN + 1) && (PWM_SM_INTEN <? PWM_FCTRL + 2)) with false.
  change ((PWM_FCTRL <=? PWM_FCTRL + 1) && (PWM_FCTRL <? PWM_FCTRL + 2)) with true.
  change (PWM_FCTRL <=? PWM_SM_VAL5 + 1) with false. change (PWM_FCTRL <? PWM_SM_TCTRL + 2) with false. rewrite andb_false_r. cbn [andb].
  change (mcxn_pwm_fault_eval t) with (mcxn_pwm_fault_eval (mcxn_pwm_update_fault_irq t)). apply fault_eval_ok. unfold t.
  apply (ok_update_fault s); auto using st16_wf, ok_wf; apply ld16_st16_ne; unfold PWM_FCTRL, PWM_SM_STS, PWM_SM_INTEN; lia.
Qed.

(** C17: The fault interlock.  Once the fault control register has been written,
    under any sequence of halfword register writes, timer expiries, pin changes,
    clock changes and migrations, as long as FAULT0 is at its active level its flag
    is latched and every output that DISMAP maps to it is off, so no write can
    clear a live fault; and the interrupt and request lines follow the status
    registers. *)
Theorem pwm_fault_interlock s0 s1 v t s :
  rtc pwm_step (mcxn_pwm_reset s0) s1 -> rtc pwm_step (mcxn_pwm_write s1 PWM_FCTRL v 2 t) s ->
  (pwm_fault_live s = true ->
     flag (pwm_ld16 s PWM_FSTS) PWM_FSTS_FFLAG0 = true /\
     forall now, let '(a, b, x) := mcxn_pwm_outputs s now in let dismap := pwm_ld16 s PWM_SM_DISMAP0 in
       (flag dismap PWM_DISMAP_DIS0A_F0 = true -> a = false) /\ (flag dismap PWM_DISMAP_DIS0B_F0 = true -> b = false) /\
       (flag dismap PWM_DISMAP_DIS0X_F0 = true -> x = false)) /\
  irq s = pwm_level s /\ irq_fault s = pwm_fault_irq_level s /\ dma_req_val s = val_dma_lvl s.
Proof.
  intros H1 H2. assert (Hok1 : pwm_ok s1).
  { apply (rtc_invariant pwm_step pwm_ok _ _ (fun a b Hst Hok => proj1 (keeps_step a b Hst Hok)) H1), reset_ok. }
  assert (Hok : pwm_ok s /\ pwm_latched s).
  { apply (rtc_invariant pwm_step (fun a => pwm_ok a /\ pwm_latched a) _ _) in H2; [done| |by apply write_fctrl].
    intros a b Hst [Ka La]. destruct (keeps_step a b Hst Ka). auto. }
  destruct Hok as [[_ Hi Hf Hd] Hlat]. split; [|done]. intros Hl. specialize (Hlat Hl). split; [done|]. intros now. rewrite outputs_eq. cbv zeta.
  unfold pwm_drive, pwm_cut. rewrite Hlat. cbn [andb]. by split_and!; intros ->.
Qed.

(** ** The carrier and its triggers

    The two host timers run in the order of their deadlines, each at its deadline
    (and on a tie the reload timer first, which is armed first). *)

Inductive pwm_firing := fired_reload (t : Z) | fired_trig (t : Z) (out : list pwm_pulse).
Definition fired_at (f : pwm_firing) : Z := match f with fired_reload t | fired_trig t _ => t end.

Definition pwm_fire (s : MCXNPWMState) : option (pwm_firing * MCXNPWMState) :=
  let reload r := Some (fired_reload r, mcxn_pwm_reload_tick s r) in
  let trig t := let '(s, out) := mcxn_pwm_trig_tick s t in Some (fired_trig t out, s) in
  match reload_timer s, trig_timer s with
  | Some r, Some t => if r <=? t then reload r else trig t
  | Some r, None => reload r
  | None, Some t => trig t
  | None, None => None
  end.

(** The first [m] expiries. *)
Fixpoint pwm_run (m : nat) (s : MCXNPWMState) : list pwm_firing * MCXNPWMState :=
  match m with
  | O => ([], s)
  | S m =>
      let '(tr, s) := pwm_run m s in
      match pwm_fire s with Some (f, s) => (tr ++ [f], s) | None => (tr, s) end
  end.

(** A submodule that is clocked, whatever its range. *)
Record pwm_clocked (s : MCXNPWMState) : Prop := {
  ck_wf : pwm_wf s;
  ck_timer : timer_pending (reload_timer s) = true;
  ck_clock : u32 (clk s) <> 0;
  ck_fits : mcxn_pwm_period_ns s * 65536 < 2 ^ 63;
}.

(** Compare [n] is enabled and in the range of the counter, and how long after the
    start of a period it is reached. *)
Definition pwm_compares (s : MCXNPWMState) (n : Z) : bool :=
  let valn := pwm_ld16 s (PWM_SM_VAL0 + n * 4) in
  flag (pwm_ld16 s PWM_SM_TCTRL .& PWM_TCTRL_OUT_TRIG_EN_MASK) (bit n) && (pwm_init s <=? valn) && (valn <=? pwm_ld16 s PWM_SM_VAL1).
Definition pwm_compare (s : MCXNPWMState) (n : Z) : Z :=
  Z.quot (swrap 64 (u16 (pwm_ld16 s (PWM_SM_VAL0 + n * 4) - pwm_init s) * mcxn_pwm_period_ns s)) (pwm_span s).

(** The instants of the reloads, and of the pulses of a trigger line, of a
    carrier that starts at [t0].  A compare that falls on the reload has none. *)
Definition pwm_reload_at (s : MCXNPWMState) (t0 t : Z) : Prop := exists j, 1 <= j /\ t = t0 + j * mcxn_pwm_period_ns s.
Definition pwm_pulse_at (s : MCXNPWMState) (t0 t line : Z) : Prop :=
  exists n j, 0 <= n < 6 /\ 0 <= j /\ pwm_compares s n = true /\ 0 < pwm_compare s n /\ n .& 1 = line /\ t = t0 + j * mcxn_pwm_period_ns s + pwm_compare s n.

Lemma later_exits fuel t now period : 0 < period -> (Z.to_nat ((now - t) / period + 1) <= fuel)%nat ->
  pwm_later fuel t now period = if t <=? now then t + ((now - t) / period + 1) * period else t.
Proof.
  intros Hp. revert t. induction fuel as [|f IH]; intros t Hf; cbn [pwm_later].
  - destruct (Z.leb_spec t now); [|done]. assert (0 <= (now - t) / period) by (apply Z.div_pos; lia). lia.
  - destruct (Z.leb_spec t now) as [H|H]; [|done]. assert (E : (now - (t + period)) / period = (now - t) / period - 1).
    { replace (now - (t + period)) with (now - t + (-1) * period) by lia. rewrite Z.div_add by lia. lia. }
    assert (0 <= (now - t) / period) by (apply Z.div_pos; lia). rewrite IH by (rewrite E; lia). rewrite E.
    destruct (Z.leb_spec (t + period) now); [lia|]. assert ((now - t) / period < 1) by (apply Z.div_lt_upper_bound; lia). nia.
Qed.

(** The instant of a compare in the period that starts at [p], or in the next one
    if it has passed. *)
Definition pwm_due (s : MCXNPWMState) (p now n : Z) : Z :=
  let t := p + pwm_compare s n in if t <=? now then t + mcxn_pwm_period_ns s else t.

Lemma compare_bounds s n : pwm_running s -> 0 <= n < 6 -> pwm_compares s n = true -> 0 <= pwm_compare s n < mcxn_pwm_period_ns s.
Proof.
  intros Hr Hn Hc. pose proof (span_val1 s Hr). pose proof (span_pos s). destruct Hr as [Hw _ Hk _ Hf]. pose proof (period_pos s Hk).
  unfold pwm_compares in Hc. cbv zeta in Hc. rewrite !andb_true_iff, !Z.leb_le in Hc. destruct Hc as [[_ Hlo] Hhi].
  pose proof (ld16_range s (PWM_SM_VAL0 + n * 4) Hw ltac:(unfold PWM_SM_VAL0, MCXN_PWM_SIZE; lia)) as Rv. unfold in_range in Rv.
  pose proof (ld16_range s PWM_SM_INIT Hw ltac:(done)) as Ri. fold (pwm_init s) in Ri. unfold in_range in Ri.
  unfold pwm_compare. rewrite wrap_id by lia. set (d := pwm_ld16 s (PWM_SM_VAL0 + n * 4) - pwm_init s) in *. set (P := mcxn_pwm_period_ns s) in *.
  change (2 ^ 16) with 65536 in *. change (2 ^ 63) with (2 ^ (64 - 1)) in Hf.
  assert (0 <= d < pwm_span s) by lia. rewrite swrap_small by nia. rewrite Z.quot_div_nonneg by nia.
  split; [apply Z.div_pos; nia | apply Z.div_lt_upper_bound; nia].
Qed.

Lemma clocked_bounds s n : pwm_clocked s -> 0 <= n < 6 -> pwm_compares s n = true -> 0 <= pwm_compare s n < mcxn_pwm_period_ns s.
Proof.
  intros [? ? ? ?] Hn Hc. apply compare_bounds; [|done..]. split; try done. unfold pwm_compares in Hc. cbv zeta in Hc. rewrite !andb_true_iff, !Z.leb_le in Hc. lia.
Qed.

Lemma candidate_eq s now p bm n : pwm_clocked s -> 0 <= n < 6 -> p = pwm_start s -> p <= now < p + mcxn_pwm_period_ns s ->
  pwm_trig_candidate s now bm n =
    if pwm_compares s n then
      let t := pwm_due s p now n in
      if (bm.1 =? 0) || (t <? bm.1) then (t, bit (n .& 1))
      else if t =? bm.1 then (bm.1, bm.2 .| bit (n .& 1)) else bm
    else bm.
Proof.
  intros Hr Hn -> Hnow. destruct bm as [best mask]. unfold pwm_trig_candidate. cbv zeta. cbn [fst snd].
  fold (pwm_span s). fold (pwm_init s). fold (pwm_compare s n). change (next_reload_ns s - mcxn_pwm_period_ns s) with (pwm_start s).
  destruct (pwm_compares s n) eqn:Hc.
  - pose proof (clocked_bounds s n Hr Hn Hc) as Hb. unfold pwm_compares in Hc. cbv zeta in Hc. rewrite !andb_true_iff, !Z.leb_le in Hc. destruct Hc as [[Hf Hlo] Hhi].
    rewrite Hf. cbn [negb]. rewrite (proj2 (Z.ltb_ge _ _)), (proj2 (Z.ltb_ge _ _)) by lia. cbn [orb].
    pose proof (period_pos s (ck_clock s Hr)).
    rewrite later_exits by (unfold pwm_later_fuel; lia). unfold pwm_due. cbv zeta.
    destruct (Z.leb_spec (pwm_start s + pwm_compare s n) now); [|done].
    rewrite (Z.div_small (now - _)) by lia. by rewrite Z.mul_1_l.
  - unfold pwm_compares in Hc. cbv zeta in Hc. destruct (flag _ (bit n)); cbn [negb]; [|done]. cbn [andb] in Hc.
    rewrite !Z.ltb_antisym, <- negb_andb, Hc. done.
Qed.

Lemma due_later s p now n : pwm_clocked s -> 0 <= n < 6 -> p = pwm_start s -> p <= now < p + mcxn_pwm_period_ns s -> pwm_compares s n = true ->
  now < pwm_due s p now n.
Proof. intros Hr Hn -> Hnow Hc. pose proof (clocked_bounds s n Hr Hn Hc). unfold pwm_due. cbv zeta. zcases; lia. Qed.

(** The loop keeps the earliest of a list of instants, with the set of the lines
    that share it. *)
Definition earliest (bm tl : Z * Z) : Z * Z :=
  if (bm.1 =? 0) || (tl.1 <? bm.1) then (tl.1, bit tl.2)
  else if tl.1 =? bm.1 then (bm.1, bm.2 .| bit tl.2) else bm.

Lemma earliest_spec l : (forall t b, (t, b) ∈ l -> 0 < t /\ 0 <= b) -> l <> [] ->
  let bm := foldl earliest (0, 0) l in
  (exists b, (bm.1, b) ∈ l) /\ (forall t b, (t, b) ∈ l -> bm.1 <= t) /\
  forall b, 0 <= b -> Z.testbit bm.2 b = true <-> (bm.1, b) ∈ l.
Proof.
  induction l as [|[t n] l IH] using rev_ind; [done|]. intros Hl _. cbv zeta. rewrite foldl_app. cbn [foldl].
  destruct (Hl t n) as [Ht Hn]; [apply elem_of_app; right; by apply list_elem_of_singleton|]. unfold earliest at 1 3 5 7. cbn [fst snd].
  destruct (decide (l = [])) as [->|Hne].
  { cbn [foldl fst snd Z.eqb orb app]. split; [exists n; by apply list_elem_of_singleton|]. split.
    - by intros t' b [= -> ->]%list_elem_of_singleton.
    - intros b Hb. rewrite testbit_bit, Z.eqb_eq, list_elem_of_singleton by done. naive_solver. }
  destruct IH as ((i & Hi) & Hle & Hm); [intros ? ? ?; apply Hl; apply elem_of_app; by left | done|].
  destruct (foldl earliest (0, 0) l) as [best mask]. cbn [fst snd] in *.
  destruct (Hl best i) as [Hb _]; [apply elem_of_app; by left|]. rewrite (proj2 (Z.eqb_neq best 0)) by lia. cbn [orb].
  setoid_rewrite elem_of_app. setoid_rewrite list_elem_of_singleton.
  destruct (Z.ltb_spec t best) as [Hlt|Hge]; [|destruct (Z.eqb_spec t best) as [->|Hd]]; cbn [fst snd].
  - split; [by eexists; right|]. split; [intros t' b [H|[= -> ->]]; [specialize (Hle _ _ H)|]; lia|].
    intros b Hb'. rewrite testbit_bit, Z.eqb_eq by done. split; [intros ->; by right|]. intros [H|[= ->]]; [specialize (Hle _ _ H); lia | done].
  - split; [by eexists; right|]. split; [intros t' b [H|[= -> ->]]; [by eapply Hle | lia]|].
    intros b Hb'. rewrite Z.lor_spec, orb_true_iff, Hm, testbit_bit, Z.eqb_eq by done. naive_solver.
  - split; [by exists i; left|]. split; [intros t' b [H|[= -> ->]]; [by eapply Hle | lia]|].
    intros b Hb'. rewrite Hm by done. naive_solver.
Qed.

(** The instants the loop compares. *)
Definition pwm_dues (s : MCXNPWMState) (p now : Z) : list (Z * Z) :=
  map (fun n => (pwm_due s p now n, n .& 1)) (List.filter (pwm_compares s) (seqZ 0 6)).

Lemma elem_of_dues s p now t b :
  (t, b) ∈ pwm_dues s p now <-> exists n, 0 <= n < 6 /\ pwm_compares s n = true /\ t = pwm_due s p now n /\ n .& 1 = b.
Proof.
  unfold pwm_dues. rewrite list_elem_of_In, in_map_iff. split.
  - intros (n & [= <- <-] & [Hn Hc]%filter_In). apply list_elem_of_In, elem_of_seqZ in Hn. exists n. split_and!; done || lia.
  - intros (n & Hn & Hc & -> & <-). exists n. split; [done|]. apply filter_In. split; [|done]. apply list_elem_of_In, elem_of_seqZ. lia.
Qed.

Lemma candidates s now p l bm : pwm_clocked s -> p = pwm_start s -> p <= now < p + mcxn_pwm_period_ns s -> Forall (fun n => 0 <= n < 6) l ->
  foldl (pwm_trig_candidate s now) bm l = foldl earliest bm (map (fun n => (pwm_due s p now n, n .& 1)) (List.filter (pwm_compares s) l)).
Proof.
  intros Hr Hp Hnow Hl. revert bm. induction Hl as [|n l Hn _ IH]; intros bm; [done|]. cbn [foldl List.filter].
  rewrite (candidate_eq s now p) by done. destruct (pwm_compares s n); cbv zeta; [|apply IH]. cbn [map foldl]. rewrite IH. done.
Qed.

Lemma next_trig_eq s now p : pwm_clocked s -> p = pwm_start s -> p <= now < p + mcxn_pwm_period_ns s ->
  mcxn_pwm_next_trig s now = foldl earliest (0, 0) (pwm_dues s p now).
Proof.
  intros Hr Hp Hnow. unfold mcxn_pwm_next_trig. cbv zeta. fold (pwm_span s). pose proof (span_pos s). pose proof (period_pos s (ck_clock s Hr)).
  rewrite (proj2 (Z.leb_gt _ 0)), (proj2 (Z.leb_gt (pwm_span s) 0)), (ck_timer s Hr) by lia. cbn [negb]. rewrite !orb_false_r.
  rewrite (candidates s now p) by (try done; apply Forall_forall; intros n Hn%elem_of_seqZ; lia). fold (pwm_dues s p now).
  destruct (Z.eqb_spec (pwm_ld16 s PWM_SM_TCTRL .& PWM_TCTRL_OUT_TRIG_EN_MASK) 0) as [E|]; [|done].
  assert (Hd : pwm_dues s p now = []); [|by rewrite Hd]. unfold pwm_dues, pwm_compares. rewrite E. done.
Qed.

(** A carrier under way.  [s0] is its configuration, [t0] the start of its first
    period and [now] the time of the last expiry. *)
Record pwm_sched (s0 : MCXNPWMState) (t0 now : Z) (s : MCXNPWMState) : Prop := {
  sch_wf : pwm_wf s;
  sch_clk : clk s = clk s0;
  sch_regs : forall o, 0 <= o -> o + 2 <= PWM_SM_STS \/ PWM_SM_STS + 2 <= o -> o + 2 <= PWM_MCTRL -> pwm_ld16 s o = pwm_ld16 s0 o;
  sch_reload : reload_timer s = Some (next_reload_ns s);
  sch_phase : exists k, 0 <= k /\ next_reload_ns s = t0 + (k + 1) * mcxn_pwm_period_ns s0 /\ t0 + k * mcxn_pwm_period_ns s0 <= now < next_reload_ns s;
  sch_trig : let '(t, m) := mcxn_pwm_next_trig s now in trig_timer s = (if t =? 0 then None else Some t) /\ (t <> 0 -> trig_mask s = u8 m);
}.

Section schedule.
Context (s0 : MCXNPWMState) (t0 : Z).
Hypothesis Hwf : pwm_wf s0.
Hypothesis Hclk : u32 (clk s0) <> 0.
Hypothesis Hfits : mcxn_pwm_period_ns s0 * 65536 < 2 ^ 63.
Hypothesis Ht0 : 0 <= t0.

Lemma sched_same s now : pwm_sched s0 t0 now s -> mcxn_pwm_period_ns s = mcxn_pwm_period_ns s0 /\ pwm_clocked s /\
  forall n, 0 <= n < 6 -> pwm_compares s n = pwm_compares s0 n /\ pwm_compare s n = pwm_compare s0 n.
Proof using Hclk Hfits.
  intros [Hw Hc Hr Hl _ _].
  assert (Ei : pwm_ld16 s PWM_SM_INIT = pwm_ld16 s0 PWM_SM_INIT) by (apply Hr; unfold PWM_SM_INIT, PWM_SM_STS, PWM_MCTRL; lia).
  assert (Ev : pwm_ld16 s PWM_SM_VAL1 = pwm_ld16 s0 PWM_SM_VAL1) by (apply Hr; unfold PWM_SM_VAL1, PWM_SM_STS, PWM_MCTRL; lia).
  assert (Ec : pwm_ld16 s PWM_SM_CTRL = pwm_ld16 s0 PWM_SM_CTRL) by (apply Hr; unfold PWM_SM_CTRL, PWM_SM_STS, PWM_MCTRL; lia).
  assert (Et : pwm_ld16 s PWM_SM_TCTRL = pwm_ld16 s0 PWM_SM_TCTRL) by (apply Hr; unfold PWM_SM_TCTRL, PWM_SM_STS, PWM_MCTRL; lia).
  assert (Ep : mcxn_pwm_period_ns s = mcxn_pwm_period_ns s0) by (unfold mcxn_pwm_period_ns; by rewrite Ei, Ev, Ec, Hc).
  split; [done|]. split.
  - split; [done | by rewrite Hl | by rewrite Hc | by rewrite Ep].
  - intros n Hn. assert (En : pwm_ld16 s (PWM_SM_VAL0 + n * 4) = pwm_ld16 s0 (PWM_SM_VAL0 + n * 4)) by (apply Hr; unfold PWM_SM_VAL0, PWM_SM_STS, PWM_MCTRL; lia).
    unfold pwm_compares, pwm_compare, pwm_init, pwm_span. by rewrite En, Ei, Ev, Et, Ep.
Qed.

Lemma next_trig_arm s now : mcxn_pwm_next_trig (mcxn_pwm_arm_trig s now) now = mcxn_pwm_next_trig s now.
Proof. unfold mcxn_pwm_arm_trig. destruct (mcxn_pwm_next_trig s now) as [t m] eqn:E. case_match; exact E. Qed.

Lemma arm_sched s now k : pwm_wf s -> clk s = clk s0 ->
  (forall o, 0 <= o -> o + 2 <= PWM_SM_STS \/ PWM_SM_STS + 2 <= o -> o + 2 <= PWM_MCTRL -> pwm_ld16 s o = pwm_ld16 s0 o) ->
  reload_timer s = Some (next_reload_ns s) -> 0 <= k -> next_reload_ns s = t0 + (k + 1) * mcxn_pwm_period_ns s0 ->
  t0 + k * mcxn_pwm_period_ns s0 <= now < next_reload_ns s -> pwm_sched s0 t0 now (mcxn_pwm_arm_trig s now).
Proof.
  intros [Hl Hb] Hc Hr Ht Hk Hn Hnow. destruct (arm_same s now) as [Er _].
  assert (En : next_reload_ns (mcxn_pwm_arm_trig s now) = next_reload_ns s /\ reload_timer (mcxn_pwm_arm_trig s now) = reload_timer s /\ clk (mcxn_pwm_arm_trig s now) = clk s).
  { unfold mcxn_pwm_arm_trig. destruct (mcxn_pwm_next_trig s now). by case_match. }
  destruct En as (E1 & E2 & E3). split; [split; by rewrite Er | congruence | unfold pwm_ld16 in *; by rewrite Er | congruence | exists k; by rewrite E1 |].
  rewrite next_trig_arm. unfold mcxn_pwm_arm_trig. destruct (mcxn_pwm_next_trig s now) as [t m]. by destruct (Z.eqb_spec t 0).
Qed.

(** The compares due next, up to the reload, are the next instants of the
    carrier's pulses. *)
Lemma dues_spec s now k : pwm_sched s0 t0 now s -> 0 <= k -> next_reload_ns s = t0 + (k + 1) * mcxn_pwm_period_ns s0 ->
  t0 + k * mcxn_pwm_period_ns s0 <= now < next_reload_ns s ->
  let p := t0 + k * mcxn_pwm_period_ns s0 in
  mcxn_pwm_next_trig s now = foldl earliest (0, 0) (pwm_dues s p now) /\
  (forall t b, (t, b) ∈ pwm_dues s p now -> now < t /\ 0 <= b /\ (t < next_reload_ns s -> pwm_pulse_at s0 t0 t b)) /\
  (forall t b, now < t -> pwm_pulse_at s0 t0 t b -> exists t', t' <= t /\ (t', b) ∈ pwm_dues s p now).
Proof using Hclk Hfits.
  intros Hs Hk Hn Hnow. cbv zeta. destruct (sched_same s now Hs) as (Ep & Hr & Hc). set (P := mcxn_pwm_period_ns s0) in *. set (p := t0 + k * P) in *.
  assert (Hp : p = pwm_start s) by (unfold pwm_start; rewrite Ep; lia).
  pose proof (period_pos s0 Hclk) as HP. fold P in HP.
  split; [apply next_trig_eq; rewrite ?Ep; done || lia|].
  assert (Hb : forall n, 0 <= n < 6 -> pwm_compares s0 n = true -> 0 <= pwm_compare s0 n < P).
  { intros n Hn6 Hcn. destruct (Hc n Hn6) as [E1 E2]. rewrite <- E2, <- Ep. apply clocked_bounds; congruence || done. }
  split; intros t b.
  - intros (n & Hn6 & Hcn & -> & <-)%elem_of_dues. destruct (Hc n Hn6) as [E1 E2]. split; [apply due_later; rewrite ?Ep; done || lia|].
    split; [apply Z.land_nonneg; by right|]. rewrite E1 in Hcn. unfold pwm_due. cbv zeta. rewrite E2, Ep. fold P. specialize (Hb n Hn6 Hcn).
    destruct (Z.leb_spec (p + pwm_compare s0 n) now); intros Hlt; [lia|]. exists n, k. split_and!; done || lia.
  - intros Hlt (n & j & Hn6 & Hj & Hcn & Hpos & <- & ->). destruct (Hc n Hn6) as [E1 E2]. specialize (Hb n Hn6 Hcn).
    exists (pwm_due s p now n). split; [|apply elem_of_dues; exists n; by rewrite E1]. unfold pwm_due. cbv zeta. rewrite E2, Ep. fold P. unfold p.
    assert (k <= j) by nia. destruct (Z.leb_spec (t0 + k * P + pwm_compare s0 n) now); [|nia]. assert (k < j) by nia. nia.
Qed.

(** A reload, whenever it runs, moves the deadline by one period and re-frames
    the triggers. *)
Lemma reload_frame s now late : pwm_sched s0 t0 now s -> exists s3, mcxn_pwm_reload_tick s late = mcxn_pwm_arm_trig s3 late /\ pwm_wf s3 /\ clk s3 = clk s0 /\
  (forall o, 0 <= o -> o + 2 <= PWM_SM_STS \/ PWM_SM_STS + 2 <= o -> o + 2 <= PWM_MCTRL -> pwm_ld16 s3 o = pwm_ld16 s0 o) /\
  reload_timer s3 = Some (next_reload_ns s3) /\ next_reload_ns s3 = next_reload_ns s + mcxn_pwm_period_ns s0.
Proof using Hclk Hfits.
  intros Hs. destruct (sched_same s now Hs) as (Ep & _ & _). destruct Hs as [Hw Hc Hr Hl _ _]. pose proof (period_pos s0 Hclk).
  unfold mcxn_pwm_reload_tick. cbv zeta. set (s1 := mcxn_pwm_update_irq _).
  set (s2 := if flag (pwm_ld16 s1 PWM_SM_DMAEN) PWM_DMAEN_VALDE then mcxn_pwm_set_val_dma s1 true else s1).
  assert (H2 : regs s2 = regs s1 /\ clk s2 = clk s /\ next_reload_ns s2 = next_reload_ns s).
  { unfold s2, mcxn_pwm_set_val_dma. repeat case_match; done. }
  destruct H2 as (E1 & E2 & E3).
  assert (Er : forall o, 0 <= o -> o + 2 <= PWM_SM_STS \/ PWM_SM_STS + 2 <= o -> o + 2 <= PWM_MCTRL -> pwm_ld16 s2 o = pwm_ld16 s0 o).
  { intros o Ho Hd Hm. rewrite <- Hr by done. unfold pwm_ld16 at 1. rewrite E1.
    exact (ld16_st16_ne (s <| reload_timer := None |>) PWM_SM_STS _ o ltac:(done) Ho Hd). }
  assert (Ep2 : mcxn_pwm_period_ns s2 = mcxn_pwm_period_ns s0).
  { unfold mcxn_pwm_period_ns. rewrite E2, Hc, !Er by (unfold PWM_SM_INIT, PWM_SM_VAL1, PWM_SM_CTRL, PWM_SM_STS, PWM_MCTRL; lia). done. }
  rewrite Ep2, (proj2 (Z.leb_gt _ 0)) by lia. eexists. split; [reflexivity|]. cbn [modify reload_timer next_reload_ns clk].
  split; [|split; [congruence | split; [exact Er | split; [done | by rewrite E3]]]].
  assert (Hw1 : pwm_wf (pwm_st16 (s <| reload_timer := None |>) PWM_SM_STS (pwm_ld16 (s <| reload_timer := None |>) PWM_SM_STS .| PWM_STS_RF)))
      by (apply st16_wf; by destruct Hw; split).
  destruct Hw1 as [Hl1 Hb1]. split; cbn [regs modify]; by rewrite E1.
Qed.

Lemma reload_sched s now k : pwm_sched s0 t0 now s -> 0 <= k -> next_reload_ns s = t0 + (k + 1) * mcxn_pwm_period_ns s0 ->
  pwm_sched s0 t0 (next_reload_ns s) (mcxn_pwm_reload_tick s (next_reload_ns s)).
Proof using Hclk Hfits.
  intros Hs Hk Hn. destruct (reload_frame s now (next_reload_ns s) Hs) as (s3 & -> & Hw & Hc & Hr & Ht & E). pose proof (period_pos s0 Hclk).
  apply (arm_sched _ _ (k + 1)); done || lia.
Qed.

(** The deadline after a reload that runs late. *)
Lemma reload_no_drift s now late : pwm_sched s0 t0 now s -> reload_timer (mcxn_pwm_reload_tick s late) = Some (next_reload_ns s + mcxn_pwm_period_ns s0).
Proof using Hclk Hfits.
  intros Hs. destruct (reload_frame s now late Hs) as (s3 & -> & _ & _ & _ & Ht & E). rewrite <- E, <- Ht. unfold mcxn_pwm_arm_trig.
  destruct (mcxn_pwm_next_trig s3 late). by case_match.
Qed.

Lemma out_lines m b : 0 <= b ->
  out_trig b ∈ (if flag (u8 m) 1 then [out_trig 0] else []) ++ (if flag (u8 m) 2 then [out_trig 1] else []) <-> b < 2 /\ Z.testbit m b = true.
Proof.
  intros Hb. change (flag (u8 m) 1) with (flag (u8 m) (bit 0)). change (flag (u8 m) 2) with (flag (u8 m) (bit 1)). rewrite !flag_bit, !testbit_wrap by lia. cbn [Z.ltb Z.compare Pos.compare Pos.compare_cont andb].
  rewrite elem_of_app. assert (Hl : forall (c : bool) i, out_trig b ∈ (if c then [out_trig i] else []) <-> b = i /\ c = true).
  { intros c i. destruct c; [rewrite list_elem_of_singleton | rewrite elem_of_nil]; naive_solver. }
  rewrite !Hl. split.
  - intros [[-> H]|[-> H]]; (split; [lia | done]).
  - intros [H1 H2]. assert (b = 0 \/ b = 1) as [-> | ->] by lia; auto.
Qed.

(** [f] is the next event of the carrier after [now]. *)
Record pwm_next_is (now : Z) (f : pwm_firing) : Prop := {
  next_later : now < fired_at f;
  next_reloads : forall t, now < t <= fired_at f -> pwm_reload_at s0 t0 t <-> f = fired_reload t;
  next_pulses : forall t b, now < t <= fired_at f -> pwm_pulse_at s0 t0 t b <-> exists out, f = fired_trig t out /\ out_trig b ∈ out;
}.

Lemma reload_instants s now t : pwm_sched s0 t0 now s -> now < t <= next_reload_ns s -> pwm_reload_at s0 t0 t <-> t = next_reload_ns s.
Proof using Hclk.
  intros Hs Ht. destruct (sch_phase _ _ _ _ Hs) as (k & Hk & Hn & Hnow). pose proof (period_pos s0 Hclk). unfold pwm_reload_at. split.
  - intros (j & Hj & ->). assert (j = k + 1) by nia. subst j. lia.
  - intros ->. exists (k + 1). lia.
Qed.

Lemma no_pulse_at_reload s now b : pwm_sched s0 t0 now s -> ~ pwm_pulse_at s0 t0 (next_reload_ns s) b.
Proof using Hclk Hfits.
  intros Hs (n & j & Hn6 & Hj & Hc & Hpos & _ & E). destruct (sch_phase _ _ _ _ Hs) as (k & Hk & Hn & _).
  destruct (sched_same s now Hs) as (Ep & Hr & Hcc). destruct (Hcc n Hn6) as [E1 E2].
  pose proof (clocked_bounds s n Hr Hn6 ltac:(congruence)) as Hb. rewrite E2, Ep in Hb.
  assert (j = k \/ k < j \/ j < k) as [-> | [?|?]] by lia; nia.
Qed.

Lemma next_is_reload s now : pwm_sched s0 t0 now s -> (forall t b, now < t < next_reload_ns s -> ~ pwm_pulse_at s0 t0 t b) ->
  pwm_next_is now (fired_reload (next_reload_ns s)).
Proof using Hclk Hfits.
  intros Hs Hno. pose proof (sch_phase _ _ _ _ Hs) as (k & _ & _ & Hnow). split; cbn [fired_at]; [lia|..].
  - intros t Ht. rewrite (reload_instants s now t Hs Ht). naive_solver.
  - intros t b Ht. split; [|by intros (? & ? & _)]. intros Hp. exfalso. destruct (Z.eq_dec t (next_reload_ns s)) as [->|].
    + by apply (no_pulse_at_reload s now b Hs).
    + apply (Hno t b); [lia | done].
Qed.

Lemma next_is_trig s now t m : pwm_sched s0 t0 now s -> now < t < next_reload_ns s ->
  (forall t' b, now < t' <= t -> pwm_pulse_at s0 t0 t' b <-> t' = t /\ 0 <= b < 2 /\ Z.testbit m b = true) -> trig_mask s = u8 m ->
  pwm_next_is now (fired_trig t (mcxn_pwm_trig_tick s t).2).
Proof using Hclk Hfits.
  intros Hs Ht Hp Hm. split; cbn [fired_at]; [lia|..].
  - intros t' Ht'. rewrite (reload_instants s now t' Hs) by lia. split; [lia | done].
  - intros t' b Ht'. rewrite Hp by done. cbn [mcxn_pwm_trig_tick snd trig_mask modify]. rewrite Hm. split.
    + intros (-> & Hb & Hbit). eexists. split; [done|]. apply out_lines; [lia|]. split; [lia | done].
    + intros (out & [= <- <-] & Hin). split; [done|].
      assert (Hb : 0 <= b) by (apply elem_of_app in Hin as [Hin|Hin]; case_match; first [apply list_elem_of_singleton in Hin as [= ->] | apply elem_of_nil in Hin]; done).
      apply out_lines in Hin as [? ?]; [|done]. split; [lia | done].
Qed.

Lemma pulse_line t b : pwm_pulse_at s0 t0 t b -> 0 <= b < 2.
Proof.
  intros (n & _ & _ & _ & _ & _ & <- & _). change 1 with (Z.ones 1). rewrite Z.land_ones by lia. exact (Z.mod_pos_bound n 2 ltac:(lia)).
Qed.

(** The next expiry is the next event of the carrier. *)
Lemma fire_spec s now : pwm_sched s0 t0 now s -> 0 <= now ->
  exists f s', pwm_fire s = Some (f, s') /\ pwm_sched s0 t0 (fired_at f) s' /\ pwm_next_is now f.
Proof using Hclk Hfits.
  intros Hs H0. destruct (sch_phase _ _ _ _ Hs) as (k & Hk & Hn & Hnow). destruct (dues_spec s now k Hs Hk Hn Hnow) as (Et & Hd1 & Hd2). cbv zeta in *.
  pose proof (reload_sched s now k Hs Hk Hn) as Hre. pose proof (sch_trig _ _ _ _ Hs) as Htr. rewrite Et in Htr.
  set (l := pwm_dues s _ now) in *. unfold pwm_fire. rewrite (sch_reload _ _ _ _ Hs). destruct (decide (l = [])) as [Hnil|Hne].
  { rewrite Hnil in Htr. cbn in Htr. destruct Htr as [-> _]. eexists _, _. split; [done|]. split; [done|]. apply (next_is_reload s now Hs).
    intros t b Ht Hp. destruct (Hd2 t b ltac:(lia) Hp) as (t' & _ & Hin). rewrite Hnil in Hin. by apply elem_of_nil in Hin. }
  destruct (earliest_spec l) as ((b0 & Hb0) & Hle & Hm); [intros t b H%Hd1; lia | done|]. cbv zeta in *.
  destruct (foldl earliest (0, 0) l) as [t m]. cbn [fst snd] in *. destruct (Hd1 _ _ Hb0) as (Hlt & _ & _).
  rewrite (proj2 (Z.eqb_neq t 0)) in Htr by lia. destruct Htr as [-> Hmask]. specialize (Hmask ltac:(lia)).
  destruct (Z.leb_spec (next_reload_ns s) t) as [Hrt|Htr].
  - eexists _, _. split; [done|]. split; [done|]. apply (next_is_reload s now Hs). intros t' b Ht Hp.
    destruct (Hd2 t' b ltac:(lia) Hp) as (t'' & Hle' & Hin). specialize (Hle _ _ Hin). lia.
  - eexists _, (mcxn_pwm_trig_tick s t).1. split; [reflexivity|]. split.
    { destruct Hs as [Hw Hc Hr Hl _ _]. apply (arm_sched _ _ k); cbn [modify reload_timer next_reload_ns clk fired_at]; try done; try lia. by destruct Hw. }
    apply (next_is_trig s now t m); try done. intros t' b Ht'. split.
    + intros Hp. pose proof (pulse_line _ _ Hp) as Hb. destruct (Hd2 t' b ltac:(lia) Hp) as (t'' & Hle' & Hin). specialize (Hle _ _ Hin).
      assert (t' = t /\ t'' = t) as [-> ->] by lia. split; [done|]. split; [done|]. apply Hm; [lia | done].
    + intros (-> & Hb & Hbit). apply Hm in Hbit; [|lia]. apply Hd1 in Hbit as (_ & _ & H). by apply H.
Qed.

(** What [m] expiries of a carrier have brought, the last of them at [last]. *)
Record pwm_trace (m : nat) (tr : list pwm_firing) (last : Z) : Prop := {
  tr_length : length tr = m;
  tr_last : list.last (map fired_at tr) = if decide (tr = []) then None else Some last;
  tr_sorted : StronglySorted Z.lt (map fired_at tr);
  tr_advances : t0 + Z.of_nat m <= last;
  tr_reloads : forall t, fired_reload t ∈ tr <-> pwm_reload_at s0 t0 t /\ t <= last;
  tr_pulses : forall t b, (exists out, fired_trig t out ∈ tr /\ out_trig b ∈ out) <-> pwm_pulse_at s0 t0 t b /\ t <= last;
}.

Lemma instants_later t : (pwm_reload_at s0 t0 t \/ exists b, pwm_pulse_at s0 t0 t b) -> t0 < t.
Proof using Hclk.
  pose proof (period_pos s0 Hclk). intros [(j & Hj & ->)|(b & n & j & Hn & Hj & Hc & Hpos & _ & ->)]; nia.
Qed.

Lemma trace_start : pwm_trace 0 [] t0.
Proof using Hclk.
  split; try done; [constructor | lia | |].
  - intros t. rewrite elem_of_nil. split; [done|]. intros [H Hle]. pose proof (instants_later t (or_introl H)). lia.
  - intros t b. split; [by intros (? & ?%elem_of_nil & _)|]. intros [H Hle]. pose proof (instants_later t (or_intror (ex_intro _ b H))). lia.
Qed.

Lemma StronglySorted_snoc (l : list Z) x : StronglySorted Z.lt l -> Forall (fun y => y < x) l -> StronglySorted Z.lt (l ++ [x]).
Proof.
  induction 1 as [|y l Hl IH Hy]; intros Hx; cbn [app]; [repeat constructor|]. apply Forall_cons in Hx as [Hyx Hx].
  constructor; [by apply IH|]. apply Forall_app. split; [done|]. by constructor.
Qed.

Lemma last_max (l : list Z) x : StronglySorted Z.lt l -> list.last l = Some x -> Forall (fun y => y <= x) l.
Proof.
  induction 1 as [|y l Hl IH Hy]; [done|]. destruct l as [|z l]; cbn [list.last].
  - intros [= ->]. repeat constructor. lia.
  - intros Hx. specialize (IH Hx). constructor; [|done]. apply Forall_cons in Hy as [Hyz _]. apply Forall_cons in IH as [Hzx _]. lia.
Qed.

Lemma trace_step m tr last f : pwm_trace m tr last -> pwm_next_is last f -> pwm_trace (S m) (tr ++ [f]) (fired_at f).
Proof.
  intros [Hl Hlast Hs Ha Hre Hpu] [Hlt Hfr Hfp].
  assert (Hle : Forall (fun y => y <= last) (map fired_at tr)).
  { destruct (decide (tr = [])) as [->|]; [constructor | by apply last_max]. }
  split.
  - rewrite length_app, Hl. cbn. lia.
  - rewrite map_app. cbn [map]. rewrite last_snoc, decide_False; [done|]. intros H%app_eq_nil. naive_solver.
  - rewrite map_app. apply StronglySorted_snoc; [done|]. eapply Forall_impl; [exact Hle|]. cbn. lia.
  - lia.
  - intros t. rewrite elem_of_app, list_elem_of_singleton, Hre. split.
    + intros [[H H']|<-]; [split; [done | lia]|]. cbn [fired_at] in *. split; [apply Hfr; [lia | done] | lia].
    + intros [H H']. destruct (Z.le_gt_cases t last); [by left|]. right. symmetry. apply Hfr; [lia | done].
  - intros t b. setoid_rewrite elem_of_app. setoid_rewrite list_elem_of_singleton. split.
    + intros (out & [H|<-] & Hb).
      * destruct (proj1 (Hpu t b)) as [K K']; [by exists out|]. split; [done | lia].
      * cbn [fired_at] in *. split; [apply Hfp; [lia | by exists out] | lia].
    + intros [H H']. destruct (Z.le_gt_cases t last) as [Hc|Hc].
      * destruct (proj2 (Hpu t b)) as (out & K & K'); [done|]. exists out. auto.
      * destruct (proj1 (Hfp t b ltac:(lia)) H) as (out & -> & K). exists out. auto.
Qed.

Lemma run_trace s m : pwm_sched s0 t0 t0 s -> exists last, pwm_trace m (pwm_run m s).1 last /\ pwm_sched s0 t0 last (pwm_run m s).2.
Proof using Hclk Hfits Ht0.
  intros Hs. induction m as [|m (last & Htr & Hsch)]; [exists t0; split; [apply trace_start | done]|].
  cbn [pwm_run]. destruct (pwm_run m s) as [tr s1]. cbn [fst snd] in *. pose proof (tr_advances _ _ _ Htr).
  destruct (fire_spec s1 last Hsch ltac:(lia)) as (f & s' & -> & Hsch' & Hnext). exists (fired_at f). split; [by apply (trace_step m tr last) | done].
Qed.
End schedule.

Lemma start_sched s v t : pwm_wf s -> u32 (clk s) <> 0 -> flag v PWM_MCTRL_RUN_SM0 = true -> pwm_sched s t t (mcxn_pwm_write s PWM_MCTRL v 2 t).
Proof.
  intros Hw Hc Hv. change (mcxn_pwm_write s PWM_MCTRL v 2 t) with (pwm_write_mctrl s v t). unfold pwm_write_mctrl. cbv zeta.
  rewrite !flag_land. change (flag v (0xffff .& (PWM_MCTRL_RUN_MASK .& PWM_MCTRL_RUN_SM0))) with (flag v PWM_MCTRL_RUN_SM0). rewrite Hv.
  set (s1 := pwm_st16 s PWM_MCTRL _).
  assert (Er : forall o, 0 <= o -> o + 2 <= PWM_SM_STS \/ PWM_SM_STS + 2 <= o -> o + 2 <= PWM_MCTRL -> pwm_ld16 s1 o = pwm_ld16 s o).
  { intros o Ho _ Hd. apply ld16_st16_ne; (done || lia). }
  assert (Ep : mcxn_pwm_period_ns s1 = mcxn_pwm_period_ns s).
  { unfold mcxn_pwm_period_ns. rewrite !Er by (unfold PWM_SM_INIT, PWM_SM_VAL1, PWM_SM_CTRL, PWM_SM_STS, PWM_MCTRL; lia). done. }
  pose proof (period_pos s Hc). rewrite Ep, (proj2 (Z.ltb_lt _ _)) by lia. assert (Hw1 : pwm_wf s1) by by apply st16_wf.
  apply (arm_sched _ _ _ _ 0); cbn [modify reload_timer next_reload_ns clk]; try done; try lia. by destruct Hw1.
Qed.

(** C16: The carrier does not drift.  Let software set RUN at [t0] with the clock on
    and a period below 2^47 ns, and let every timer callback run at its deadline.  The
    expiries of the two timers are then, in order and without end, the reloads at
    exactly [t0 + j * period] and, for every enabled compare after INIT up to VAL1 as
    unsigned numbers, one pulse per period of its trigger line, at the instant the
    counter reaches the compare value: up to the time of the last expiry the trace
    holds all of these events and no other.  And however late the next reload runs, the
    one after it is due exactly a period after its deadline. *)
Theorem pwm_carrier s v t0 m : pwm_wf s -> u32 (clk s) <> 0 -> mcxn_pwm_period_ns s * 65536 < 2 ^ 63 -> 0 <= t0 -> flag v PWM_MCTRL_RUN_SM0 = true ->
  let run := pwm_run m (mcxn_pwm_write s PWM_MCTRL v 2 t0) in
  exists last, pwm_trace s t0 m run.1 last /\
    forall late, reload_timer (mcxn_pwm_reload_tick run.2 late) = Some (next_reload_ns run.2 + mcxn_pwm_period_ns s).
Proof.
  intros Hw Hc Hf Ht Hv. cbv zeta. destruct (run_trace s t0 Hc Hf Ht (mcxn_pwm_write s PWM_MCTRL v 2 t0) m) as (last & H & Hs); [by apply start_sched|].
  exists last. split; [done|]. intros late. exact (reload_no_drift s t0 Hc Hf _ _ late Hs).
Qed.

(** A device programmed after reset. *)
Definition pwm_config (hz : Z) (l : list (Z * Z)) : MCXNPWMState :=
  foldl (fun s (p : Z * Z) => mcxn_pwm_write s p.1 p.2 2 0) (mcxn_pwm_reset (mkPWM hz false false false false false false None 0 None 0 0 [])) l.

Lemma config_ok hz l : forallb (fun p : Z * Z => (0 <=? p.1) && (p.1 <? MCXN_PWM_SIZE) && Z.even p.1) l = true -> pwm_ok (pwm_config hz l).
Proof.
  unfold pwm_config. generalize (reset_ok (mkPWM hz false false false false false false None 0 None 0 0 [])).
  generalize (mcxn_pwm_reset (mkPWM hz false false false false false false None 0 None 0 0 [])). induction l as [|p l IH]; intros s Hs; [done|].
  cbn [foldl forallb]. rewrite !andb_true_iff, Z.leb_le, Z.ltb_lt. intros [[[H1 H2] H3] Hl]. apply IH; [|done]. apply keeps_write; done || lia.
Qed.

(** A half-bridge: 1000 counts, high from 300 to 700, dead times of 20 and 30
    counts, an ADC trigger in the middle of the pulse and one near the end. *)
Definition half_bridge : MCXNPWMState :=
  pwm_config 150000000
    [(PWM_SM_VAL1, 999); (PWM_SM_VAL2, 300); (PWM_SM_VAL3, 700); (PWM_SM_VAL4, 500); (PWM_SM_VAL5, 990); (PWM_SM_DTCNT0, 20); (PWM_SM_DTCNT1, 30);
     (PWM_SM_TCTRL, 0x30); (PWM_OUTEN, 0x110); (PWM_FCTRL, 0x1001)].
Definition half_bridge_on : MCXNPWMState := mcxn_pwm_write half_bridge PWM_MCTRL 0x100 2 5000.

Lemma half_bridge_ok : pwm_ok half_bridge.
Proof. apply config_ok. reflexivity. Qed.
Lemma half_bridge_on_running : pwm_running half_bridge_on.
Proof.
  split; [apply keeps_write; [done..|apply half_bridge_ok] | by vm_compute | by vm_compute | by vm_compute | by vm_compute].
Qed.

Lemma pwm_carrier_witness :
  exists last, pwm_trace half_bridge 5000 6 (pwm_run 6 (mcxn_pwm_write half_bridge PWM_MCTRL 0x100 2 5000)).1 last /\
    (pwm_run 6 (mcxn_pwm_write half_bridge PWM_MCTRL 0x100 2 5000)).1 =
      [fired_trig 8333 [out_trig 0]; fired_trig 11599 [out_trig 1]; fired_reload 11666;
       fired_trig 14999 [out_trig 0]; fired_trig 18265 [out_trig 1]; fired_reload 18332].
Proof.
  destruct (pwm_carrier half_bridge 0x100 5000 6 (ok_wf _ half_bridge_ok) ltac:(by vm_compute) ltac:(by vm_compute) ltac:(done) eq_refl) as (last & H & _).
  exists last. split; [exact H | by vm_compute].
Defined.

Lemma pwm_waveform_witness :
  map (fun e => mcxn_pwm_outputs half_bridge_on (5000 + e)) [0; 2000; 2134; 4666; 4667; 4867] =
    [(false, true, false); (false, false, false); (true, false, false); (true, false, false); (false, false, false); (false, true, false)].
Proof.
  assert (H : forall e, 0 <= e < 6666 -> mcxn_pwm_outputs half_bridge_on (5000 + e) = _)
    by (intros e He; exact (proj1 (pwm_waveform half_bridge_on e half_bridge_on_running He))).
  cbn [map]. rewrite !H by lia. vm_compute. reflexivity.
Defined.

Lemma pwm_dead_time_witness :
  (mcxn_pwm_get_a_output half_bridge_on 8000 = true /\ mcxn_pwm_get_b_output half_bridge_on 8000 <> true) /\
  (mcxn_pwm_get_a_output half_bridge_on (5000 + 2134) = true /\ mcxn_pwm_get_b_output half_bridge_on (5000 + 1999) = true /\
   pwm_dead0 half_bridge_on * mcxn_pwm_period_ns half_bridge_on < (2134 - 1999) * pwm_span half_bridge_on).
Proof.
  destruct (pwm_dead_time half_bridge_on (run_wf _ half_bridge_on_running) ltac:(by vm_compute) ltac:(by vm_compute) ltac:(by vm_compute)) as [H1 H2].
  assert (Ho : pwm_ld16 half_bridge_on PWM_SM_VAL2 + pwm_dead0 half_bridge_on = 320 /\ pwm_ld16 half_bridge_on PWM_SM_VAL3 + pwm_dead1 half_bridge_on = 730)
    by (vm_compute; split; reflexivity). destruct Ho as [Ho1 Ho2]. rewrite Ho1, Ho2 in *.
  assert (Ha : mcxn_pwm_get_a_output half_bridge_on 8000 = true) by by vm_compute.
  split; [split; [done|]; intros Hb; destruct (H1 8000 Ha Hb) as [[? _]|[? _]]; lia|].
  assert (Ha' : mcxn_pwm_get_a_output half_bridge_on (5000 + 2134) = true) by by vm_compute.
  assert (Hb' : mcxn_pwm_get_b_output half_bridge_on (5000 + 1999) = true) by by vm_compute.
  split; [done|]. split; [done|].
  destruct (H2 half_bridge_on_running ltac:(lia) ltac:(lia) 2134 1999 ltac:(vm_compute; split; congruence) ltac:(vm_compute; split; congruence) Ha' Hb') as [[_ H]|[H _]];
    [exact H | lia].
Defined.

(** The half-bridge runs, FAULT0 trips, and the driver tries to clear the
    flag. *)
Definition tripped : MCXNPWMState := mcxn_pwm_write (mcxn_pwm_set_fault half_bridge_on true) PWM_FSTS 0xF 2 7500.

Lemma pwm_fault_interlock_witness :
  pwm_fault_live tripped = true /\ flag (pwm_ld16 tripped PWM_FSTS) PWM_FSTS_FFLAG0 = true /\ irq_fault tripped = pwm_fault_irq_level tripped.
Proof.
  set (s1 := pwm_config 150000000 [(PWM_SM_VAL1, 999); (PWM_SM_VAL2, 300); (PWM_SM_VAL3, 700); (PWM_SM_VAL4, 500); (PWM_SM_VAL5, 990); (PWM_SM_DTCNT0, 20);
     (PWM_SM_DTCNT1, 30); (PWM_SM_TCTRL, 0x30); (PWM_OUTEN, 0x110)]).
  assert (H1 : rtc pwm_step (mcxn_pwm_reset (mkPWM 150000000 false false false false false false None 0 None 0 0 [])) s1).
  { unfold s1, pwm_config. cbn [foldl fst snd]. repeat (eapply rtc_r; [|apply pwm_step_write; done]). apply rtc_refl. }
  assert (H2 : rtc pwm_step (mcxn_pwm_write s1 PWM_FCTRL 0x1001 2 0) tripped).
  { assert (E : half_bridge = mcxn_pwm_write s1 PWM_FCTRL 0x1001 2 0) by (unfold half_bridge, s1, pwm_config; cbn [foldl fst snd]; reflexivity).
    rewrite <- E. clear E. unfold tripped, half_bridge_on. eapply rtc_r; [|by apply pwm_step_write]. eapply rtc_r; [|apply pwm_step_fault]. by apply rtc_once, pwm_step_write. }
  destruct (pwm_fault_interlock _ s1 0x1001 0 tripped H1 H2) as (H & _ & Hf & _).
  assert (Hl : pwm_fault_live tripped = true) by by vm_compute. split; [exact Hl|]. split; [exact (proj1 (H Hl)) | exact Hf].
Defined.

(** ** Departures from the code's intent *)

(** An edge delayed by its dead time wraps around at 16 bits: with the dead time
    of reset and a late turn-on, both transistors of the pair conduct, which the
    comment on the dead band rules out. *)
Theorem pwm_dead_time_wraps :
  let s := pwm_config 150000000 [(PWM_SM_INIT, 0x1000); (PWM_SM_VAL1, 0xFFFF); (PWM_SM_VAL2, 0xF900); (PWM_SM_VAL3, 0xFFFF); (PWM_OUTEN, 0x110)] in
  mcxn_pwm_get_a_output s 0 && mcxn_pwm_get_b_output s 0 = true.
Proof. by vm_compute. Qed.

(** Counts are signed on the chip, and a centre-aligned carrier runs from a
    negative INIT; the reconstructed counter is clamped to VAL1 for its whole
    period, although the range is meant to wrap, and no compare triggers. *)
Theorem pwm_centre_aligned_stuck :
  let s := mcxn_pwm_write (pwm_config 150000000 [(PWM_SM_INIT, 0xFE0C); (PWM_SM_VAL1, 499); (PWM_SM_VAL2, 0xFF38); (PWM_SM_VAL3, 200); (PWM_SM_TCTRL, 0x3F)])
             PWM_MCTRL 0x100 2 0 in
  mcxn_pwm_period_ns s = 6666 /\ map (mcxn_pwm_counter_now s) [0; 1000; 3333; 6665] = [499; 499; 499; 499] /\ trig_timer s = None.
Proof. vm_compute. split_and!; reflexivity. Qed.

(** The fault input is not evaluated at reset: with the active level of reset it
    is live, and not latched. *)
Theorem pwm_reset_fault_unlatched s :
  pwm_fault_live (mcxn_pwm_reset s) = true /\ flag (pwm_ld16 (mcxn_pwm_reset s) PWM_FSTS) PWM_FSTS_FFLAG0 = false.
Proof. split; vm_compute; reflexivity. Qed.

(** A byte write to FSTS bypasses the interlock and clears a live fault. *)
Theorem pwm_byte_write_clears_fault :
  let s := mcxn_pwm_write tripped PWM_FSTS 0 1 7500 in
  pwm_fault_live s = true /\ flag (pwm_ld16 s PWM_FSTS) PWM_FSTS_FFLAG0 = false /\ mcxn_pwm_get_a_output s 8000 = true.
Proof. vm_compute. split_and!; reflexivity. Qed.

(** A compare at INIT falls on the reload, which re-frames the triggers before
    it can fire: it never does. *)
Theorem pwm_trigger_at_init_lost :
  let s := pwm_config 150000000 [(PWM_SM_INIT, 10); (PWM_SM_VAL1, 999); (PWM_SM_VAL4, 10); (PWM_SM_TCTRL, 0x10)] in
  (pwm_run 4 (mcxn_pwm_write s PWM_MCTRL 0x100 2 0)).1 = map fired_reload [6600; 13200; 19800; 26400].
Proof. by vm_compute. Qed.

(** A reload served late re-frames the triggers from its own time, and one that
    was due in between is lost. *)
Theorem pwm_late_reload_loses_trigger :
  let s := mcxn_pwm_write (pwm_config 150000000 [(PWM_SM_VAL1, 999); (PWM_SM_VAL4, 3); (PWM_SM_TCTRL, 0x10)]) PWM_MCTRL 0x100 2 0 in
  let s := (mcxn_pwm_trig_tick s 19).1 in
  trig_timer s = Some (6666 + 19) /\ trig_timer (mcxn_pwm_reload_tick s (6666 + 50)) = Some (2 * 6666 + 19).
Proof. vm_compute. split; reflexivity. Qed.

(** With both edges selected a capture needs no edge. *)
Theorem pwm_capture_without_edge :
  let s := pwm_config 150000000 [(PWM_SM_CAPTCTRLA, 0xD); (PWM_SM_DMAEN, PWM_DMAEN_CA0DE)] in
  capa_level s = false /\ (mcxn_pwm_set_capa s false 0).2 = [dma_req_capa].
Proof. vm_compute. split; reflexivity. Qed.

(** When the clock stops the carrier does, but a trigger that was armed still
    fires. *)
Theorem pwm_stopped_clock_triggers :
  let s := mcxn_pwm_reload_tick ((pwm_run 2 half_bridge_on).2 <| clk := 0 |>) 11666 in
  reload_timer s = None /\ trig_timer s = Some 14999 /\ (mcxn_pwm_trig_tick s 14999).2 = [out_trig 0].
Proof. vm_compute. split_and!; reflexivity. Qed.
