(* ===== verification/Gpio.v ===== *)
(** * GPIO: general purpose pins

    Model of [hw/gpio/mcxn_gpio.c]: output data with its set, clear and toggle
    aliases, direction, input data, and the 32 output lines. *)
From S2P Require Import Prelude.

Definition GPIO_VERID : Z := 0x00.
Definition GPIO_PARAM : Z := 0x04.
Definition GPIO_LOCK : Z := 0x0C.
Definition GPIO_PDOR : Z := 0x40.
Definition GPIO_PSOR : Z := 0x44.
Definition GPIO_PCOR : Z := 0x48.
Definition GPIO_PTOR : Z := 0x4C.
Definition GPIO_PDIR : Z := 0x50.
Definition GPIO_PDDR : Z := 0x54.
Definition GPIO_PIDR : Z := 0x58.
Definition MCXN_GPIO_PINS : Z := 32.
Definition GPIO_VERID_VALUE : Z := 0x01000000.
Definition GPIO_PARAM_VALUE : Z := MCXN_GPIO_PINS.

Record MCXNGPIOState := mkGPIO {
  pdor : Z; pddr : Z; pidr : Z; lock : Z;
  in_level : Z;
  output : list bool
}.
#[export] Instance gpio_settable : Settable MCXNGPIOState := fun s =>
  mkGPIO (pdor s) (pddr s) (pidr s) (lock s) (in_level s) (output s).

Definition mcxn_gpio_update_outputs (s : MCXNGPIOState) : MCXNGPIOState :=
  foldl (fun s i => if flag (pddr s) (bit i)
                    then s <| output := (output s).[i <- flag (pdor s .>> i) 1] |> else s)
    s (seqZ 0 MCXN_GPIO_PINS).

Definition mcxn_gpio_pdir (s : MCXNGPIOState) : Z :=
  (pdor s .& pddr s) .| (in_level s .& u32 (.~ pddr s)).

Definition mcxn_gpio_set_input (s : MCXNGPIOState) (line : Z) (level : bool) : MCXNGPIOState :=
  if level then s <| in_level := in_level s .| bit line |>
  else s <| in_level := in_level s .& u32 (.~ bit line) |>.

Definition mcxn_gpio_read (s : MCXNGPIOState) (offset : Z) : Z :=
  if offset =? GPIO_VERID then GPIO_VERID_VALUE
  else if offset =? GPIO_PARAM then GPIO_PARAM_VALUE
  else if offset =? GPIO_LOCK then lock s
  else if offset =? GPIO_PDOR then pdor s
  else if offset =? GPIO_PDIR then mcxn_gpio_pdir s
  else if offset =? GPIO_PDDR then pddr s
  else if offset =? GPIO_PIDR then pidr s
  else 0.

Definition mcxn_gpio_write (s : MCXNGPIOState) (offset value : Z) : MCXNGPIOState :=
  if offset =? GPIO_LOCK then s <| lock := u32 value |>
  else if offset =? GPIO_PDOR then mcxn_gpio_update_outputs (s <| pdor := u32 value |>)
  else if offset =? GPIO_PSOR then mcxn_gpio_update_outputs (s <| pdor := pdor s .| u32 value |>)
  else if offset =? GPIO_PCOR then mcxn_gpio_update_outputs (s <| pdor := pdor s .& u32 (.~ u32 value) |>)
  else if offset =? GPIO_PTOR then mcxn_gpio_update_outputs (s <| pdor := pdor s .^ u32 value |>)
  else if offset =? GPIO_PDDR then mcxn_gpio_update_outputs (s <| pddr := u32 value |>)
  else if offset =? GPIO_PIDR then s <| pidr := u32 value |>
  else s.

Definition mcxn_gpio_reset (s : MCXNGPIOState) : MCXNGPIOState := mkGPIO 0 0 0 0 0 (output s).
Definition mcxn_gpio_post_load (s : MCXNGPIOState) : MCXNGPIOState := mcxn_gpio_update_outputs s.
Definition gpio_init : MCXNGPIOState := mcxn_gpio_reset (mkGPIO 0 0 0 0 0 (replicate 32 false)).

(** ** The pins

    What software sees of one pin: its direction, the level it drives and the
    level applied from outside. *)

Record pin := mkPin { is_out : bool; drives : bool; ext : bool }.
Definition pin_of (s : MCXNGPIOState) (i : Z) : pin :=
  mkPin (Z.testbit (pddr s) i) (Z.testbit (pdor s) i) (Z.testbit (in_level s) i).

(** One pin's part of a register write: its bit [b] of the written value. *)
Definition pin_write (offset : Z) (b : bool) (p : pin) : pin :=
  if offset =? GPIO_PDOR then mkPin (is_out p) b (ext p)
  else if offset =? GPIO_PSOR then mkPin (is_out p) (drives p || b) (ext p)
  else if offset =? GPIO_PCOR then mkPin (is_out p) (drives p && negb b) (ext p)
  else if offset =? GPIO_PTOR then mkPin (is_out p) (xorb (drives p) b) (ext p)
  else if offset =? GPIO_PDDR then mkPin b (drives p) (ext p)
  else p.

Definition pin_input (p : pin) : bool := if is_out p then drives p else ext p.

Lemma gpio_update_frame s :
  let s' := mcxn_gpio_update_outputs s in
  pdor s' = pdor s /\ pddr s' = pddr s /\ in_level s' = in_level s /\ length (output s') = length (output s).
Proof.
  cbv zeta. unfold mcxn_gpio_update_outputs. generalize (seqZ 0 MCXN_GPIO_PINS) as l. intros l. revert s.
  induction l as [|i l IH]; intros s; [done|]. cbn [foldl].
  destruct (flag (pddr s) (bit i)); [|apply IH]. destruct (IH (s <| output := (output s).[i <- flag (pdor s .>> i) 1] |>)) as (-> & -> & -> & ->).
  cbn. by rewrite length_arr_set.
Qed.

Lemma flag_shift v i : 0 <= i -> flag (v .>> i) 1 = Z.testbit v i.
Proof. intros. change 1 with (bit 0). by rewrite flag_bit, Z.shiftr_spec by lia. Qed.

(** The loop drives the lines of the output pins it visits and keeps the rest. *)
Lemma gpio_update_lines l s j :
  Forall (fun i => 0 <= i < 32) l -> zlen (output s) = 32 -> 0 <= j < 32 ->
  (output (foldl (fun s i => if flag (pddr s) (bit i)
                    then s <| output := (output s).[i <- flag (pdor s .>> i) 1] |> else s) s l)).[j] =
  if bool_decide (j ∈ l) && Z.testbit (pddr s) j then Z.testbit (pdor s) j else (output s).[j].
Proof.
  intros Hl. revert s. induction Hl as [|i l Hi Hl IH]; intros s Hlen Hj; [done|]. cbn [foldl].
  rewrite flag_bit by lia. destruct (Z.testbit (pddr s) i) eqn:Hd.
  - rewrite IH by (cbn; rewrite ?length_arr_set; done).
    cbn -[arr_get arr_set flag]. rewrite arr_get_set, flag_shift by lia.
    destruct (Z.eqb_spec j i) as [->|Hne].
    + rewrite (bool_decide_true (i ∈ i :: l)), Hd by left. by destruct (_ && _).
    + rewrite (bool_decide_ext (j ∈ i :: l) (j ∈ l)) by set_solver. done.
  - rewrite IH by done. destruct (Z.eqb_spec j i) as [->|Hne]; [by rewrite Hd, !andb_false_r|].
    rewrite (bool_decide_ext (j ∈ i :: l) (j ∈ l)) by set_solver. done.
Qed.

Lemma gpio_update_output s j :
  zlen (output s) = 32 -> 0 <= j < 32 ->
  (output (mcxn_gpio_update_outputs s)).[j] = if Z.testbit (pddr s) j then Z.testbit (pdor s) j else (output s).[j].
Proof.
  intros Hl Hj. unfold mcxn_gpio_update_outputs. rewrite gpio_update_lines by (done || (apply Forall_seqZ; unfold MCXN_GPIO_PINS; lia)).
  by rewrite bool_decide_true by (apply elem_of_seqZ; unfold MCXN_GPIO_PINS; lia).
Qed.

Inductive gpio_step : MCXNGPIOState -> MCXNGPIOState -> Prop :=
  | gpio_step_write s off v : gpio_step s (mcxn_gpio_write s off v)
  | gpio_step_input s line level : 0 <= line < 32 -> gpio_step s (mcxn_gpio_set_input s line level)
  | gpio_step_load s : gpio_step s (mcxn_gpio_post_load s).

Record gpio_ok (s : MCXNGPIOState) : Prop := {
  ok_lines : zlen (output s) = 32;
  ok_driven i : 0 <= i < 32 -> is_out (pin_of s i) = true -> (output s).[i] = drives (pin_of s i);
}.

Lemma gpio_update_ok s : zlen (output s) = 32 -> gpio_ok (mcxn_gpio_update_outputs s).
Proof.
  intros Hl. destruct (gpio_update_frame s) as (E1 & E2 & _ & E4). split; [by rewrite E4|].
  intros i Hi. unfold pin_of. cbn [is_out drives]. rewrite E1, E2, gpio_update_output by done. by intros ->.
Qed.

Lemma gpio_write_ok s off v : gpio_ok s -> gpio_ok (mcxn_gpio_write s off v).
Proof.
  intros [Hl Hd]. unfold mcxn_gpio_write.
  repeat case_match; try (by apply gpio_update_ok); by split.
Qed.

Lemma gpio_step_ok s s' : gpio_step s s' -> gpio_ok s -> gpio_ok s'.
Proof.
  intros [s0 off v|s0 line level Hi|s0] Hok.
  - by apply gpio_write_ok.
  - destruct Hok as [Hl Hd]. split; unfold mcxn_gpio_set_input; by destruct level.
  - apply gpio_update_ok, Hok.
Qed.

Lemma gpio_pin_write s off v i : 0 <= i < 32 -> pin_of (mcxn_gpio_write s off v) i = pin_write off (Z.testbit v i) (pin_of s i).
Proof.
  intros Hi. assert (Hu : forall s0, pin_of (mcxn_gpio_update_outputs s0) i = pin_of s0 i).
  { intros s0. destruct (gpio_update_frame s0) as (E1 & E2 & E3 & _). unfold pin_of. by rewrite E1, E2, E3. }
  unfold mcxn_gpio_write, pin_write. destruct (Z.eqb_spec off GPIO_LOCK) as [->|_]; [done|].
  repeat match goal with |- context [off =? ?c] => destruct (off =? c) end; rewrite ?Hu; try done;
    unfold pin_of; cbn -[Z.testbit wrap Z.land Z.lor Z.lxor Z.lnot]; autorewrite with bits;
    destruct (Z.ltb_spec i 32); try lia; cbn [andb]; rewrite ?andb_true_l; done.
Qed.

(** The port is 32 independent pins.  In every state reachable from reset, a
    register write acts on each pin as the pin's own write (store, set, clear,
    toggle or direction) of its bit; a pin that is an output drives its line to
    its data bit; and PDIR reads the driven level of an output and the external
    level of an input. *)
Theorem gpio_refines_pins s i off v :
  rtc gpio_step gpio_init s -> 0 <= i < 32 ->
  pin_of (mcxn_gpio_write s off v) i = pin_write off (Z.testbit v i) (pin_of s i) /\
  (forall s', s' = s \/ s' = mcxn_gpio_write s off v ->
     (is_out (pin_of s' i) = true -> (output s').[i] = drives (pin_of s' i)) /\
     Z.testbit (mcxn_gpio_read s' GPIO_PDIR) i = pin_input (pin_of s' i)).
Proof.
  intros Hr Hi. assert (Hok : gpio_ok s).
  { eapply rtc_invariant; [exact gpio_step_ok | exact Hr |]. split; [done|]. intros j Hj Ho.
    unfold pin_of in Ho. cbn in Ho. by rewrite Z.testbit_0_l in Ho. }
  split; [by apply gpio_pin_write|]. intros s' Hs'.
  assert (Hok' : gpio_ok s') by (destruct Hs' as [-> | ->]; [done | by apply gpio_write_ok]).
  split; [by apply ok_driven|]. change (mcxn_gpio_read s' GPIO_PDIR) with (mcxn_gpio_pdir s').
  unfold mcxn_gpio_pdir, pin_input, pin_of. cbn [is_out drives ext]. autorewrite with bits.
  rewrite (proj2 (Z.ltb_lt i 32)) by lia. cbn [andb]. destruct (Z.testbit (pddr s') i); btauto.
Qed.
Lemma gpio_refines_pins_witness :
  let s := mcxn_gpio_write gpio_init GPIO_PDDR 0x20 in
  (output (mcxn_gpio_write s GPIO_PTOR 0x20)).[5] = true.
Proof.
  intros s. destruct (gpio_refines_pins s 5 GPIO_PTOR 0x20) as [Hp Hl].
  - apply rtc_once, gpio_step_write.
  - lia.
  - destruct (Hl (mcxn_gpio_write s GPIO_PTOR 0x20)) as [Ho _]; [right; reflexivity|].
    rewrite Ho; reflexivity.
Defined.
