(* ===== verification/InputMux.v ===== *)
(** * INPUTMUX: trigger routing and DMA request gates

    Model of [hw/misc/mcxn_inputmux.c]: the selector registers with their reset
    values, the routing of a trigger edge to the destinations whose selector
    names its source, and the DMA request enable banks with their set, clear and
    toggle aliases that gate the eDMA's request inputs.  Pulses and gate levels
    are emitted as events. *)
From S2P Require Import Prelude.

Definition IM_ADC0_TRIG : Z := 0x280.
Definition IM_ADC1_TRIG : Z := 0x2C0.
Definition IM_TRIG_SEL_MASK : Z := 0x7F.
Definition IM_TRIG_NONE : Z := 0x7F.
Definition IM_DAC0_TRIG : Z := 0x300.
Definition IM_DAC_TRIG_STEP : Z := 0x20.
Definition IM_TRIG6_MASK : Z := 0x3F.
Definition IM_TRIG6_NONE : Z := 0x3F.
Definition im_cmp_trig_off : list Z := [0x260; 0x4E0; 0x500].
Definition IM_QDC0_TRIG : Z := 0x360.
Definition IM_QDC_TRIG_STEP : Z := 0x20.
Definition IM_TSI_TRIG : Z := 0x4A0.
Definition IM_TRIG2_MASK : Z := 0x3.
Definition IM_TRIG2_NONE : Z := 0x3.
Definition IM_DMA0_REQ_ENABLE0 : Z := 0x700.
Definition IM_DMA1_REQ_ENABLE0 : Z := 0x780.
Definition IM_REQ_ENABLE_STRIDE : Z := 0x010.
Definition IM_REQ_ENABLE_BANKS : Z := 4.
Definition MCXN_INPUTMUX_SIZE : Z := 0x1000.
Definition MCXN_INPUTMUX_NREQ : Z := 128.
Definition MCXN_INPUTMUX_NADC : Z := 2.
Definition MCXN_INPUTMUX_NADC_TRIG : Z := 4.
Definition MCXN_INPUTMUX_NDAC : Z := 3.
Definition MCXN_INPUTMUX_NCMP : Z := 3.
Definition MCXN_INPUTMUX_NQDC : Z := 2.
Definition MCXN_INPUTMUX_NTRIG_SRC : Z := 128.
Definition MCXN_INPUTMUX_SRC_LPTMR0 : Z := 50.
Definition MCXN_INPUTMUX_SRC_LPTMR1 : Z := 51.
Definition MCXN_INPUTMUX_SRC_CTIMER3_M2 : Z := 96.
Definition MCXN_INPUTMUX_SRC_CTIMER4_M1 : Z := 97.

Definition im_reset : list (Z * Z) :=
  [(0x000, 0x7F); (0x004, 0x7F); (0x008, 0x7F); (0x00C, 0x7F); (0x010, 0x7F); (0x014, 0x7F); (0x018, 0x7F);
   (0x01C, 0x7F); (0x020, 0x7F); (0x024, 0x7F); (0x028, 0x7F); (0x02C, 0x7F); (0x030, 0x7F); (0x040, 0x7F);
   (0x044, 0x7F); (0x048, 0x7F); (0x04C, 0x7F); (0x050, 0x7F); (0x060, 0x7F); (0x064, 0x7F); (0x068, 0x7F);
   (0x06C, 0x7F); (0x070, 0x7F); (0x0C0, 0x7F); (0x0C4, 0x7F); (0x0C8, 0x7F); (0x0CC, 0x7F); (0x0D0, 0x7F);
   (0x0D4, 0x7F); (0x0D8, 0x7F); (0x0DC, 0x7F); (0x1A0, 0x7F); (0x1A4, 0x7F); (0x1A8, 0x7F); (0x1AC, 0x7F);
   (0x1B0, 0x7F); (0x1C0, 0x7F); (0x1C4, 0x7F); (0x1C8, 0x7F); (0x1CC, 0x7F); (0x1D0, 0x7F); (0x260, 0x3F);
   (0x2C0, 0x7F); (0x2C4, 0x7F); (0x2C8, 0x7F); (0x2CC, 0x7F); (0x300, 0x3F); (0x320, 0x3F); (0x340, 0x3F);
   (0x360, 0x3F); (0x364, 0x3F); (0x368, 0x3F); (0x36C, 0x3F); (0x370, 0x3F); (0x380, 0x3F); (0x384, 0x3F);
   (0x388, 0x3F); (0x38C, 0x3F); (0x390, 0x3F); (0x420, 0x7); (0x424, 0x7); (0x480, 0xF); (0x4A0, 0x3);
   (0x4E0, 0x3F); (0x500, 0x3F); (0x5A0, 0x3F); (0x5C0, 0x3F); (0x5E0, 0x3F); (0x600, 0x3F); (0x620, 0x3F);
   (0x640, 0x3F); (0x660, 0x3F); (0x680, 0x3F); (0x6A0, 0x3F); (0x6C0, 0x3F); (0x6E0, 0x7F); (0x6E4, 0x7F);
   (0x6E8, 0x7F); (0x6EC, 0x7F); (0x6F0, 0x7F); (0x6F4, 0x7F); (0x6F8, 0x7F); (0x6FC, 0x7F); (0x700, 0xFFFFFFFF);
   (0x710, 0xFFFFFFFF); (0x720, 0xFFFFFFFF); (0x730, 0x3FFFFFF); (0x780, 0xFFFFFFFF); (0x790, 0xFFFFFFFF); (0x7A0, 0xFFFFFFFF); (0x7B0, 0x3FFFFFF)].

Record MCXNInputMuxState := mkInputMux { regs : list Z (* uint32_t regs[SIZE / 4] *) }.
#[export] Instance inputmux_settable : Settable MCXNInputMuxState := fun s => mkInputMux (regs s).

(** The trigger outputs; a pulse is one event. *)
Inductive trig_out := AdcTrig (adc t : Z) | DacTrig (t : Z) | CmpTrig (t : Z) | QdcTrig (t : Z) | TsiTrig.
#[export] Instance trig_out_eq_dec : EqDecision trig_out.
Proof. solve_decision. Defined.

(** A level on the gate line of an eDMA request source. *)
Record gate_level := GateLevel { g_dma : Z; g_src : Z; g_level : bool }.

(** [(dma, bank, alias)] *)
Definition im_decode_req_enable (off : Z) : option (Z * Z * Z) :=
  if (IM_DMA0_REQ_ENABLE0 <=? off) && (off <? IM_DMA0_REQ_ENABLE0 + IM_REQ_ENABLE_BANKS * IM_REQ_ENABLE_STRIDE) then
    let rel := off - IM_DMA0_REQ_ENABLE0 in
    Some (0, rel / IM_REQ_ENABLE_STRIDE, rel mod IM_REQ_ENABLE_STRIDE / 4)
  else if (IM_DMA1_REQ_ENABLE0 <=? off) && (off <? IM_DMA1_REQ_ENABLE0 + IM_REQ_ENABLE_BANKS * IM_REQ_ENABLE_STRIDE) then
    let rel := off - IM_DMA1_REQ_ENABLE0 in
    Some (1, rel / IM_REQ_ENABLE_STRIDE, rel mod IM_REQ_ENABLE_STRIDE / 4)
  else None.

Definition im_bank_base (dma bank : Z) : Z :=
  (if negb (dma =? 0) then IM_DMA1_REQ_ENABLE0 else IM_DMA0_REQ_ENABLE0) + bank * IM_REQ_ENABLE_STRIDE.

Definition im_push_req_enable (s : MCXNInputMuxState) (dma bank : Z) : list gate_level :=
  let v := (regs s).[im_bank_base dma bank / 4] in
  omap (fun i => let src := bank * 32 + i in
                 if src <? MCXN_INPUTMUX_NREQ then Some (GateLevel dma src (flag (v .>> i) 1)) else None)
    (seqZ 0 32).

Definition mcxn_inputmux_read (s : MCXNInputMuxState) (offset : Z) : Z := (regs s).[offset / 4].

Definition im_adc_sel_to_src (adc sel : Z) : Z :=
  if adc =? 1 then
    if sel =? 8 then MCXN_INPUTMUX_SRC_CTIMER3_M2
    else if sel =? 9 then MCXN_INPUTMUX_SRC_CTIMER4_M1
    else sel
  else sel.

(** The pulses on the four trigger inputs of an ADC. *)
Definition im_trigger_adc (s : MCXNInputMuxState) (src adc : Z) : list trig_out :=
  let base := if negb (adc =? 0) then IM_ADC1_TRIG else IM_ADC0_TRIG in
  omap (fun t => let sel := (regs s).[(base + t * 4) / 4] .& IM_TRIG_SEL_MASK in
                 if negb (sel =? IM_TRIG_NONE) && (im_adc_sel_to_src adc sel =? src)
                 then Some (AdcTrig adc t) else None)
    (seqZ 0 MCXN_INPUTMUX_NADC_TRIG).

(** The pulses of a group of [n] destinations with 6-bit selectors at [off t]. *)
Definition im_trigger_6 (s : MCXNInputMuxState) (src n : Z) (off : Z -> Z) (out : Z -> trig_out) : list trig_out :=
  omap (fun t => let sel := (regs s).[off t / 4] .& IM_TRIG6_MASK in
                 if negb (sel =? IM_TRIG6_NONE) && (sel =? src) then Some (out t) else None)
    (seqZ 0 n).

Definition im_trigger_tsi (s : MCXNInputMuxState) (src : Z) : list trig_out :=
  let sel := (regs s).[IM_TSI_TRIG / 4] .& IM_TRIG2_MASK in
  let phys := if sel =? 0 then MCXN_INPUTMUX_SRC_LPTMR0
              else if sel =? 1 then MCXN_INPUTMUX_SRC_LPTMR1 else IM_TRIG2_NONE in
  if negb (sel =? IM_TRIG2_NONE) && (phys =? src) then [TsiTrig] else [].

Definition mcxn_inputmux_trigger (s : MCXNInputMuxState) (src : Z) (level : bool) : list trig_out :=
  if negb level || (src <? 0) || (MCXN_INPUTMUX_NTRIG_SRC <=? src) then []
  else
    mjoin (im_trigger_adc s src <$> seqZ 0 MCXN_INPUTMUX_NADC) ++
    im_trigger_6 s src MCXN_INPUTMUX_NDAC (fun t => IM_DAC0_TRIG + t * IM_DAC_TRIG_STEP) DacTrig ++
    im_trigger_6 s src MCXN_INPUTMUX_NCMP (fun t => im_cmp_trig_off.[t]) CmpTrig ++
    im_trigger_6 s src MCXN_INPUTMUX_NQDC (fun t => IM_QDC0_TRIG + t * IM_QDC_TRIG_STEP) QdcTrig ++
    im_trigger_tsi s src.

(** The value of a bank register after a write through an alias. *)
Definition im_alias (alias reg value : Z) : Z :=
  if alias =? 0 then u32 value
  else if alias =? 1 then u32 (reg .| value)
  else if alias =? 2 then reg .& u32 (.~ u32 value)
  else if alias =? 3 then u32 (reg .^ value)
  else reg.

Definition mcxn_inputmux_write (s : MCXNInputMuxState) (offset value : Z) : MCXNInputMuxState * list gate_level :=
  match im_decode_req_enable offset with
  | Some (dma, bank, alias) =>
      let i := im_bank_base dma bank / 4 in
      let s := s <| regs := (regs s).[i <- im_alias alias ((regs s).[i]) value] |> in
      (s, im_push_req_enable s dma bank)
  | None => (s <| regs := (regs s).[offset / 4 <- u32 value] |>, [])
  end.

Definition mcxn_inputmux_reset : MCXNInputMuxState :=
  mkInputMux (foldl (fun r '(off, val) => r.[off / 4 <- val])
    (replicate (Z.to_nat (MCXN_INPUTMUX_SIZE / 4)) 0) im_reset).

(** ** The routing table

    Every destination is connected to at most one source, named by its selector
    register; the numbering of the sources depends on the destination. *)

Definition all_dests : list trig_out :=
  (AdcTrig 0 <$> seqZ 0 4) ++ (AdcTrig 1 <$> seqZ 0 4) ++ (DacTrig <$> seqZ 0 3) ++
  (CmpTrig <$> seqZ 0 3) ++ (QdcTrig <$> seqZ 0 2) ++ [TsiTrig].

Definition sel_off (d : trig_out) : Z :=
  match d with
  | AdcTrig adc t => (if negb (adc =? 0) then IM_ADC1_TRIG else IM_ADC0_TRIG) + t * 4
  | DacTrig t => IM_DAC0_TRIG + t * IM_DAC_TRIG_STEP
  | CmpTrig t => im_cmp_trig_off.[t]
  | QdcTrig t => IM_QDC0_TRIG + t * IM_QDC_TRIG_STEP
  | TsiTrig => IM_TSI_TRIG
  end.

(** The source that the selector value [v] connects [d] to. *)
Definition connects (d : trig_out) (v : Z) : option Z :=
  match d with
  | AdcTrig adc _ => let sel := v .& IM_TRIG_SEL_MASK in
                     if sel =? IM_TRIG_NONE then None else Some (im_adc_sel_to_src adc sel)
  | TsiTrig => let sel := v .& IM_TRIG2_MASK in
               if sel =? 0 then Some MCXN_INPUTMUX_SRC_LPTMR0
               else if sel =? 1 then Some MCXN_INPUTMUX_SRC_LPTMR1 else None
  | _ => let sel := v .& IM_TRIG6_MASK in if sel =? IM_TRIG6_NONE then None else Some sel
  end.

Definition route (s : MCXNInputMuxState) (d : trig_out) : option Z := connects d (mcxn_inputmux_read s (sel_off d)).

Lemma omap_filter {A} (P : trig_out -> Prop) `{!forall x, Decision (P x)} (f : A -> trig_out) (b : A -> bool) (l : list A) :
  (forall t, t ∈ l -> b t = true <-> P (f t)) ->
  omap (fun t => if b t then Some (f t) else None) l = filter P (f <$> l).
Proof.
  intros Hb. induction l as [|t l IH]; [done|]. cbn [omap list_omap fmap list_fmap]. rewrite filter_cons.
  assert (Ht := Hb t ltac:(left)). rewrite IH by (intros; apply Hb; by right).
  destruct (b t); destruct (decide (P (f t))) as [Hp|Hp]; try done; [by destruct Hp; apply Ht | by apply Ht in Hp].
Qed.

Lemma connects_eq (sel none src phys : Z) :
  negb (sel =? none) && (phys =? src) = true <-> (if sel =? none then None else Some phys) = Some src.
Proof. destruct (sel =? none); cbn; [done|]. rewrite Z.eqb_eq. split; [by intros -> | by intros [= ->]]. Qed.

(** The TSI selector value 2 names no source, but the code compares the source with
    the value that stands for none. *)
Definition tsi_stray (s : MCXNInputMuxState) (src : Z) : list trig_out :=
  if (src =? 3) && (mcxn_inputmux_read s IM_TSI_TRIG .& IM_TRIG2_MASK =? 2) then [TsiTrig] else [].

Lemma inputmux_trigger_filter s src :
  0 <= src < 128 -> mcxn_inputmux_trigger s src true = filter (fun d => route s d = Some src) all_dests ++ tsi_stray s src.
Proof.
  intros Hs. unfold mcxn_inputmux_trigger. change MCXN_INPUTMUX_NTRIG_SRC with 128.
  rewrite (proj2 (Z.ltb_ge src 0)), (proj2 (Z.leb_gt 128 src)) by lia. cbn [negb orb].
  unfold all_dests. rewrite !filter_app.
  assert (Hadc : forall adc, im_trigger_adc s src adc = filter (fun d => route s d = Some src) (AdcTrig adc <$> seqZ 0 4)).
  { intros adc. apply omap_filter. intros t _. apply connects_eq. }
  assert (H6 : forall n off out, (forall t, sel_off (out t) = off t) ->
    (forall t v, connects (out t) v = let sel := v .& IM_TRIG6_MASK in if sel =? IM_TRIG6_NONE then None else Some sel) ->
    im_trigger_6 s src n off out = filter (fun d => route s d = Some src) (out <$> seqZ 0 n)).
  { intros n off out Ho Hc. apply omap_filter. intros t _. unfold route. rewrite Hc, Ho. apply connects_eq. }
  change (seqZ 0 MCXN_INPUTMUX_NADC) with [0; 1]. cbn [fmap list_fmap mjoin list_join]. rewrite !Hadc, !H6 by done.
  rewrite app_nil_r, <- !app_assoc. do 5 f_equal.
  unfold tsi_stray, im_trigger_tsi, filter, list_filter, route, connects. cbv zeta. change (sel_off TsiTrig) with IM_TSI_TRIG.
  change ((regs s).[IM_TSI_TRIG / 4]) with (mcxn_inputmux_read s IM_TSI_TRIG).
  set (sel := mcxn_inputmux_read s IM_TSI_TRIG .& IM_TRIG2_MASK) in *.
  assert (Hr : 0 <= sel < 4) by (change (in_range 2 sel); apply in_range_land_r; [lia | done]).
  assert (sel = 0 \/ sel = 1 \/ sel = 2 \/ sel = 3) as [E | [E | [E | E]]] by lia; rewrite E in *; zclosed.
  - rewrite andb_false_r, app_nil_r. destruct (Z.eqb_spec MCXN_INPUTMUX_SRC_LPTMR0 src) as [<-|Hne]; [by rewrite decide_True|].
    rewrite decide_False; [done|]. intros [= E']. exact (Hne E').
  - rewrite andb_false_r, app_nil_r. destruct (Z.eqb_spec MCXN_INPUTMUX_SRC_LPTMR1 src) as [<-|Hne]; [by rewrite decide_True|].
    rewrite decide_False; [done|]. intros [= E']. exact (Hne E').
  - rewrite decide_False by done. rewrite andb_true_r, (Z.eqb_sym src 3). done.
  - rewrite decide_False by done. by rewrite andb_false_r.
Qed.

(** The selectors are distinct registers, none of them a gate bank. *)
Lemma sel_off_distinct d d' : d ∈ all_dests -> d' ∈ all_dests -> sel_off d / 4 = sel_off d' / 4 -> d = d'.
Proof.
  intros Hd%list_elem_of_In Hd'%list_elem_of_In E%Z.eqb_eq.
  assert (Hall : forallb (fun d => forallb (fun d' => negb (sel_off d / 4 =? sel_off d' / 4) || bool_decide (d = d')) all_dests)
    all_dests = true) by (vm_compute; reflexivity).
  rewrite forallb_forall in Hall. specialize (Hall d Hd). rewrite forallb_forall in Hall. specialize (Hall d' Hd').
  rewrite E in Hall. by apply bool_decide_eq_true in Hall.
Qed.
Lemma sel_off_plain d : d ∈ all_dests -> im_decode_req_enable (sel_off d) = None /\ 0 <= sel_off d / 4 < 1024.
Proof.
  intros Hd%list_elem_of_In.
  assert (Hall : forallb (fun d => bool_decide (im_decode_req_enable (sel_off d) = None) &&
    (0 <=? sel_off d / 4) && (sel_off d / 4 <? 1024)) all_dests = true) by (vm_compute; reflexivity).
  rewrite forallb_forall in Hall. specialize (Hall d Hd).
  apply andb_true_iff in Hall as [[H1 H2]%andb_true_iff H3]. apply bool_decide_eq_true in H1. split; [done | lia].
Qed.

(** C40: INPUTMUX is a routing table.  An edge on a source pulses, once each and in
    the order of the destinations, exactly those connected to it, with one
    exception that the equation shows: the TSI with the reserved selector 2, which
    is connected to nothing, is pulsed by source 3.  A falling edge and a source
    out of range pulse nothing; and writing a destination's selector reconnects
    that destination alone. *)
Theorem inputmux_routes s src d v :
  zlen (regs s) = 1024 -> d ∈ all_dests -> in_range 32 v ->
  mcxn_inputmux_trigger s src true =
    (if (0 <=? src) && (src <? 128) then filter (fun d => route s d = Some src) all_dests ++ tsi_stray s src else []) /\
  mcxn_inputmux_trigger s src false = [] /\
  let '(s', gates) := mcxn_inputmux_write s (sel_off d) v in
  gates = [] /\
  forall d', d' ∈ all_dests -> route s' d' = if decide (d' = d) then connects d v else route s d'.
Proof.
  intros Hl Hd Hv. split.
  { destruct (Z.leb_spec 0 src), (Z.ltb_spec src 128); cbn [andb]; [by apply inputmux_trigger_filter|..];
      unfold mcxn_inputmux_trigger, MCXN_INPUTMUX_NTRIG_SRC; [rewrite (proj2 (Z.leb_le 128 src)), orb_true_r by lia; done|..];
      by rewrite (proj2 (Z.ltb_lt src 0)) by lia. }
  split; [done|].
  destruct (sel_off_plain d Hd) as [Hdec Hr]. unfold mcxn_inputmux_write. rewrite Hdec. split; [done|].
  intros d' Hd'. unfold route, mcxn_inputmux_read. cbn [regs modify].
  destruct (sel_off_plain d' Hd') as [_ Hr']. rewrite arr_get_set by lia.
  destruct (decide (d' = d)) as [->|Hne]; [by rewrite Z.eqb_refl, wrap_in_range|].
  rewrite (proj2 (Z.eqb_neq _ _)); [done|]. intros E. by apply Hne, sel_off_distinct.
Qed.
Lemma inputmux_routes_witness :
  mcxn_inputmux_trigger mcxn_inputmux_reset 50 true = [] /\
  (let '(s', _) := mcxn_inputmux_write mcxn_inputmux_reset (sel_off (AdcTrig 0 2)) 50 in
   route s' (AdcTrig 0 2) = Some 50).
Proof.
  destruct (inputmux_routes mcxn_inputmux_reset 50 (AdcTrig 0 2) 50) as (H1 & _ & H3).
  - reflexivity.
  - apply list_elem_of_In; vm_compute; tauto.
  - split; vm_compute; congruence.
  - split; [rewrite H1; vm_compute; reflexivity|].
    destruct (mcxn_inputmux_write _ _ _) as [s' g]. destruct H3 as [_ H3]. rewrite H3; [reflexivity|].
    apply list_elem_of_In; vm_compute; tauto.
Defined.

(** The ADC0 selectors are missing from the reset table: they come up as 0,
    which connects them to source 0 instead of to nothing. *)
Theorem inputmux_reset_adc0_connected :
  mcxn_inputmux_trigger mcxn_inputmux_reset 0 true = AdcTrig 0 <$> seqZ 0 4 /\
  forall src, 0 < src < 128 -> mcxn_inputmux_trigger mcxn_inputmux_reset src true = [].
Proof.
  split; [vm_compute; reflexivity|]. intros src Hs.
  assert (Hall : forallb (fun src => bool_decide (mcxn_inputmux_trigger mcxn_inputmux_reset src true = []))
    (seqZ 1 127) = true) by (vm_compute; reflexivity).
  rewrite forallb_forall in Hall. specialize (Hall src). rewrite bool_decide_eq_true in Hall.
  apply Hall, list_elem_of_In, elem_of_seqZ. lia.
Qed.

(** The reserved TSI selector 2 is connected to source 3. *)
Theorem inputmux_tsi_reserved_selector :
  let '(s, _) := mcxn_inputmux_write mcxn_inputmux_reset IM_TSI_TRIG 2 in
  mcxn_inputmux_trigger s 3 true = [TsiTrig].
Proof. vm_compute. reflexivity. Qed.

(** ** The DMA request gates *)

(** The effect of a write through an alias on one gate. *)
Definition gate_op (alias : Z) (old b : bool) : bool :=
  if alias =? 0 then b else if alias =? 1 then old || b else if alias =? 2 then old && negb b else xorb old b.

Lemma im_decode_bank dma bank alias :
  (dma = 0 \/ dma = 1) -> 0 <= bank < 4 -> 0 <= alias < 4 ->
  im_decode_req_enable (im_bank_base dma bank + 4 * alias) = Some (dma, bank, alias).
Proof.
  intros Hd Hb Ha.
  assert (Hall : forallb (fun dma => forallb (fun bank => forallb (fun alias => bool_decide
    (im_decode_req_enable (im_bank_base dma bank + 4 * alias) = Some (dma, bank, alias)))
    (seqZ 0 4)) (seqZ 0 4)) [0; 1] = true) by (vm_compute; reflexivity).
  rewrite forallb_forall in Hall. specialize (Hall dma ltac:(destruct Hd as [-> | ->]; cbn; auto)).
  rewrite forallb_forall in Hall. specialize (Hall bank ltac:(apply list_elem_of_In, elem_of_seqZ; lia)).
  rewrite forallb_forall in Hall. specialize (Hall alias ltac:(apply list_elem_of_In, elem_of_seqZ; lia)).
  by apply bool_decide_eq_true in Hall.
Qed.

(** The request gates.  A write to a bank of request enables, directly or
    through its set, clear or toggle alias, changes each of the 32 gates by its
    own bit of the written value, stores the result and drives the gate lines
    of exactly those 32 sources of that DMA to their new levels. *)
Theorem inputmux_gates s dma bank alias v :
  zlen (regs s) = 1024 -> Forall (in_range 32) (regs s) ->
  (dma = 0 \/ dma = 1) -> 0 <= bank < 4 -> 0 <= alias < 4 -> in_range 32 v ->
  let base := im_bank_base dma bank in
  let gate i := gate_op alias (Z.testbit (mcxn_inputmux_read s base) i) (Z.testbit v i) in
  let '(s', gates) := mcxn_inputmux_write s (base + 4 * alias) v in
  gates = map (fun i => GateLevel dma (bank * 32 + i) (gate i)) (seqZ 0 32) /\
  (forall i, 0 <= i < 32 -> Z.testbit (mcxn_inputmux_read s' base) i = gate i).
Proof.
  intros Hl Hr Hd Hb Ha Hv base gate. unfold mcxn_inputmux_write. unfold base at 1. rewrite im_decode_bank by done. fold base.
  assert (Hi : 0 <= base / 4 < 1024).
  { unfold base, im_bank_base, IM_DMA1_REQ_ENABLE0, IM_DMA0_REQ_ENABLE0, IM_REQ_ENABLE_STRIDE.
    destruct Hd as [-> | ->]; cbn [Z.eqb negb]; (split; [apply Z.div_pos; lia | apply Z.div_lt_upper_bound; lia]). }
  assert (Hg : in_range 32 ((regs s).[base / 4])) by (apply Forall_arr_get; [done | lia]).
  set (new := im_alias alias _ v).
  assert (Hbit : forall i, 0 <= i < 32 -> Z.testbit new i = gate i).
  { intros i Hi'. unfold new, gate, im_alias, gate_op, mcxn_inputmux_read.
    assert (alias = 0 \/ alias = 1 \/ alias = 2 \/ alias = 3) as [-> | [-> | [-> | ->]]] by lia; zclosed;
      rewrite ?(wrap_in_range 32 v) by done; autorewrite with bits; rewrite ?(proj2 (Z.ltb_lt i 32)) by lia; done. }
  split.
  - unfold im_push_req_enable. fold base. cbn [regs modify]. rewrite arr_get_set_eq by lia.
    assert (Hom : forall l, Forall (fun i => 0 <= i < 32) l ->
      omap (fun i => if bank * 32 + i <? MCXN_INPUTMUX_NREQ then Some (GateLevel dma (bank * 32 + i) (flag (new .>> i) 1)) else None) l =
      map (fun i => GateLevel dma (bank * 32 + i) (gate i)) l).
    { induction 1 as [|i l Hi' _ IH]; [done|]. cbn [omap list_omap map]. unfold MCXN_INPUTMUX_NREQ at 1.
      rewrite (proj2 (Z.ltb_lt _ _)) by lia. f_equal; [|exact IH]. f_equal.
      change 1 with (bit 0). rewrite flag_bit, Z.shiftr_spec by lia. by apply Hbit. }
    apply Hom, Forall_seqZ. lia.
  - intros i Hi'. unfold mcxn_inputmux_read. cbn [regs modify]. rewrite arr_get_set_eq by lia. by apply Hbit.
Qed.
Lemma inputmux_gates_witness :
  let '(s', gates) := mcxn_inputmux_write mcxn_inputmux_reset (im_bank_base 0 1 + 4 * 2) 8 in
  Z.testbit (mcxn_inputmux_read s' (im_bank_base 0 1)) 3 = false.
Proof.
  pose proof (inputmux_gates mcxn_inputmux_reset 0 1 2 8) as H. cbv zeta in H.
  destruct (mcxn_inputmux_write _ _ _) as [s' gates]. destruct H as [_ H].
  - reflexivity.
  - apply (Forall_impl (fun x => Is_true (in_rangeb 32 x))); [apply forallb_True; vm_compute; exact I|].
    unfold in_rangeb, in_range. intros x [H1%Is_true_eq_true H2%Is_true_eq_true]%andb_True. lia.
  - left; reflexivity.
  - lia.
  - lia.
  - split; vm_compute; congruence.
  - rewrite H by lia. reflexivity.
Defined.
