(* ===== verification/Sai.v ===== *)
(** * SAI: the serial audio interface

    Model of [hw/misc/mcxn_sai.c]: the transmit and receive FIFOs, the control
    and status registers with their computed and sticky flags, the word clock,
    the bench loopback, the interrupt line and the edge-suppressed DMA request
    lines, whose published changes are emitted as events. *)
From S2P Require Import Prelude.

Definition SAI_VERID : Z := 0x00.
Definition SAI_PARAM : Z := 0x04.
Definition SAI_TCSR : Z := 0x08.
Definition SAI_TCR1 : Z := 0x0C.
Definition SAI_TCR2 : Z := 0x10.
Definition SAI_TCR5 : Z := 0x1C.
Definition SAI_TDR0 : Z := 0x20.
Definition SAI_TFR0 : Z := 0x40.
Definition SAI_RCSR : Z := 0x88.
Definition SAI_RCR1 : Z := 0x8C.
Definition SAI_RDR0 : Z := 0xA0.
Definition SAI_RFR0 : Z := 0xC0.
Definition TCR1_TFW (v : Z) : Z := v .& 0x7.
Definition RCR1_RFW (v : Z) : Z := v .& 0x7.
Definition TCR2_DIV (v : Z) : Z := v .& 0xFF.
Definition TCR5_W0W (v : Z) : Z := (v .>> 16) .& 0x1F.
Definition CSR_FRDE : Z := bit 0.
Definition CSR_FRF : Z := bit 16.
Definition CSR_FWF : Z := bit 17.
Definition CSR_FEF : Z := bit 18.
Definition CSR_SEF : Z := bit 19.
Definition CSR_WSF : Z := bit 20.
Definition CSR_SR : Z := bit 24.
Definition CSR_FR : Z := bit 25.
Definition CSR_EN : Z := bit 31.
Definition CSR_FLAGS_W1C : Z := CSR_FEF .| CSR_SEF .| CSR_WSF.
Definition CSR_IE_TO_FLAG_SHIFT : Z := 8.
Definition CSR_STICKY_FLAGS : Z := CSR_FEF .| CSR_SEF .| CSR_WSF.
Definition SAI_FIFO_EXP : Z := 3.
Definition SAI_VERID_VALUE : Z := 0x03010000.
Definition SAI_PARAM_VALUE : Z := (5 .<< 16) .| (SAI_FIFO_EXP .<< 8) .| 2.
Definition TCR2_BCD : Z := bit 24.
Definition TCR2_BYP : Z := bit 23.
Definition MCXN_SAI_SIZE : Z := 0x1000.
Definition MCXN_SAI_FIFO_DEPTH : Z := 8.
Definition NS_PER_S : Z := 1000000000.

(** A level published on a DMA request line. *)
Inductive sai_event := DmaTx (level : bool) | DmaRx (level : bool).

Record MCXNSAIState := mkSAI {
  clk_hz : Z;
  irq : bool;
  tx_dma_req : bool; rx_dma_req : bool;
  regs : list Z;
  loopback : bool;
  tx_fifo : list Z; tx_count : Z;
  rx_fifo : list Z; rx_count : Z;
  word_timer : option Z;
  next_word_ns : Z
}.
#[export] Instance sai_settable : Settable MCXNSAIState := fun s =>
  mkSAI (clk_hz s) (irq s) (tx_dma_req s) (rx_dma_req s) (regs s) (loopback s)
    (tx_fifo s) (tx_count s) (rx_fifo s) (rx_count s) (word_timer s) (next_word_ns s).

Definition reg (s : MCXNSAIState) (off : Z) : Z := (regs s).[off .>> 2].
Definition set_reg (s : MCXNSAIState) (off v : Z) : MCXNSAIState := s <| regs := (regs s).[off .>> 2 <- v] |>.

Definition sai_word_period_ns (s : MCXNSAIState) : Z :=
  let tcr2 := reg s SAI_TCR2 in
  let bits := u32 (TCR5_W0W (reg s SAI_TCR5) + 1) in
  if negb (flag tcr2 TCR2_BCD) then 0
  else
    let mclk := u32 (clk_hz s) in
    let bclk := if flag tcr2 TCR2_BYP then mclk else mclk / (2 * (TCR2_DIV tcr2 + 1)) in
    if bclk =? 0 then 0 else swrap 64 (u64 (bits * NS_PER_S) / bclk).

Definition sai_tcsr_flags (s : MCXNSAIState) : Z :=
  let wm := TCR1_TFW (reg s SAI_TCR1) in
  let f := reg s SAI_TCSR .& CSR_STICKY_FLAGS in
  if tx_count s <=? wm then f .| (CSR_FRF .| CSR_FWF) else f.

Definition sai_rcsr_flags (s : MCXNSAIState) : Z :=
  let wm := RCR1_RFW (reg s SAI_RCR1) in
  let f := reg s SAI_RCSR .& CSR_STICKY_FLAGS in
  if wm <? rx_count s then f .| (CSR_FRF .| CSR_FWF) else f.

(** A flag with its interrupt enable, eight bits below it. *)
Definition sai_pending (flags csr : Z) : bool :=
  negb (((flags .>> 16) .& 0x1F) .& ((csr .>> CSR_IE_TO_FLAG_SHIFT) .& 0x1F) =? 0).

Definition mcxn_sai_update_irq (s : MCXNSAIState) : MCXNSAIState * list sai_event :=
  let tcsr := reg s SAI_TCSR in
  let rcsr := reg s SAI_RCSR in
  let tflags := sai_tcsr_flags s in
  let rflags := sai_rcsr_flags s in
  let tx := sai_pending tflags tcsr in
  let rx := sai_pending rflags rcsr in
  let tdma := flag tflags CSR_FRF && flag tcsr CSR_FRDE in
  let rdma := flag rflags CSR_FRF && flag rcsr CSR_FRDE in
  let evt := if negb (Bool.eqb tdma (tx_dma_req s)) then [DmaTx tdma] else [] in
  let evr := if negb (Bool.eqb rdma (rx_dma_req s)) then [DmaRx rdma] else [] in
  let s := if negb (Bool.eqb tdma (tx_dma_req s)) then s <| tx_dma_req := tdma |> else s in
  let s := if negb (Bool.eqb rdma (rx_dma_req s)) then s <| rx_dma_req := rdma |> else s in
  (s <| irq := tx || rx |>, evt ++ evr).

(** The word that leaves the transmitter, on the receiver's side of the jumper. *)
Definition sai_receive (s : MCXNSAIState) (rcsr word : Z) : MCXNSAIState :=
  if loopback s && flag rcsr CSR_EN then
    if rx_count s <? MCXN_SAI_FIFO_DEPTH then
      s <| rx_fifo := (rx_fifo s).[rx_count s <- word] |> <| rx_count := u32 (rx_count s + 1) |>
    else set_reg s SAI_RCSR (reg s SAI_RCSR .| CSR_FEF)
  else s.

(** Arm the word clock at its next deadline, or stop it when there is no clock. *)
Definition sai_arm (s : MCXNSAIState) (from : Z) : MCXNSAIState :=
  let period := sai_word_period_ns s in
  if 0 <? period then
    let s := s <| next_word_ns := from + period |> in s <| word_timer := Some (next_word_ns s) |>
  else s <| word_timer := None |>.

Definition mcxn_sai_word_tick (s : MCXNSAIState) : MCXNSAIState * list sai_event :=
  let tcsr := reg s SAI_TCSR in
  let rcsr := reg s SAI_RCSR in
  if negb (flag tcsr CSR_EN) then (s, [])
  else
    let s :=
      if tx_count s =? 0 then set_reg s SAI_TCSR (reg s SAI_TCSR .| CSR_FEF)
      else
        let word := (tx_fifo s).[0] in
        let s := s <| tx_count := u32 (tx_count s - 1) |> in
        let s := s <| tx_fifo := fifo_shift (tx_fifo s) (tx_count s) |> in
        sai_receive s rcsr word in
    mcxn_sai_update_irq (sai_arm s (next_word_ns s)).

Definition sai_fifo_reset (s : MCXNSAIState) (tx rx : bool) : MCXNSAIState :=
  let s := if tx then set_reg (s <| tx_count := 0 |>) SAI_TCSR (reg s SAI_TCSR .& u32 (.~ CSR_FEF)) else s in
  if rx then set_reg (s <| rx_count := 0 |>) SAI_RCSR (reg s SAI_RCSR .& u32 (.~ CSR_FEF)) else s.

(** Pop the receive FIFO. *)
Definition sai_read_rdr (s : MCXNSAIState) : Z * MCXNSAIState * list sai_event :=
  if rx_count s =? 0 then
    let '(s, ev) := mcxn_sai_update_irq (set_reg s SAI_RCSR (reg s SAI_RCSR .| CSR_FEF)) in (0, s, ev)
  else
    let word := (rx_fifo s).[0] in
    let s := s <| rx_count := u32 (rx_count s - 1) |> in
    let s := s <| rx_fifo := fifo_shift (rx_fifo s) (rx_count s) |> in
    let '(s, ev) := mcxn_sai_update_irq s in (word, s, ev).

Definition SAI_CSR_VOLATILE : Z := CSR_FRF .| CSR_FWF .| CSR_FEF .| CSR_SEF .| CSR_WSF.

Definition mcxn_sai_read (s : MCXNSAIState) (off : Z) : Z * MCXNSAIState * list sai_event :=
  let v := if off <? MCXN_SAI_SIZE then reg s off else 0 in
  if off =? SAI_VERID then (SAI_VERID_VALUE, s, [])
  else if off =? SAI_PARAM then (SAI_PARAM_VALUE, s, [])
  else if off =? SAI_TCSR then
    (((v .& u32 (.~ (CSR_SR .| CSR_FR))) .& u32 (.~ SAI_CSR_VOLATILE)) .| sai_tcsr_flags s, s, [])
  else if off =? SAI_RCSR then
    (((v .& u32 (.~ (CSR_SR .| CSR_FR))) .& u32 (.~ SAI_CSR_VOLATILE)) .| sai_rcsr_flags s, s, [])
  else if (off =? SAI_TFR0) || (off =? SAI_TFR0 + 4) then (u32 ((tx_count s .& 0xF) .<< 16), s, [])
  else if (off =? SAI_RFR0) || (off =? SAI_RFR0 + 4) then (u32 ((rx_count s .& 0xF) .<< 16), s, [])
  else if (off =? SAI_RDR0) || (off =? SAI_RDR0 + 4) then sai_read_rdr s
  else (v, s, []).

Definition sai_write_csr (s : MCXNSAIState) (off val now : Z) : MCXNSAIState * list sai_event :=
  let cur := reg s off in
  let was_te := flag (reg s SAI_TCSR) CSR_EN in
  let is_tx := off =? SAI_TCSR in
  let cur := cur .& u32 (.~ (val .& CSR_FLAGS_W1C)) in
  let cur := (cur .& CSR_FLAGS_W1C) .| (val .& u32 (.~ CSR_FLAGS_W1C)) in
  let s := if flag val (CSR_SR .| CSR_FR) then sai_fifo_reset s is_tx (negb is_tx) else s in
  let cur := cur .& u32 (.~ (CSR_SR .| CSR_FR)) in
  let s := set_reg s off cur in
  let s :=
    if is_tx then
      let te := flag cur CSR_EN in
      if te && negb was_te then sai_arm s now
      else if negb te && was_te then s <| word_timer := None |>
      else s
    else s in
  mcxn_sai_update_irq s.

Definition sai_write_tdr (s : MCXNSAIState) (val : Z) : MCXNSAIState * list sai_event :=
  mcxn_sai_update_irq
    (if MCXN_SAI_FIFO_DEPTH <=? tx_count s then set_reg s SAI_TCSR (reg s SAI_TCSR .| CSR_FEF)
     else s <| tx_fifo := (tx_fifo s).[tx_count s <- val] |> <| tx_count := u32 (tx_count s + 1) |>).

Definition sai_read_only (off : Z) : bool :=
  existsb (Z.eqb off)
    [SAI_VERID; SAI_PARAM; SAI_TFR0; SAI_TFR0 + 4; SAI_RFR0; SAI_RFR0 + 4; SAI_RDR0; SAI_RDR0 + 4].

Definition mcxn_sai_write (s : MCXNSAIState) (off value now : Z) : MCXNSAIState * list sai_event :=
  let val := u32 value in
  if MCXN_SAI_SIZE <=? off then (s, [])
  else if sai_read_only off then (s, [])
  else if (off =? SAI_TCSR) || (off =? SAI_RCSR) then sai_write_csr s off val now
  else if (off =? SAI_TDR0) || (off =? SAI_TDR0 + 4) then sai_write_tdr s val
  else (set_reg s off val, []).

Definition mcxn_sai_reset (s : MCXNSAIState) : MCXNSAIState :=
  s <| regs := replicate (Z.to_nat (MCXN_SAI_SIZE / 4)) 0 |> <| tx_count := 0 |> <| rx_count := 0 |>
    <| word_timer := None |> <| irq := false |>.
Definition mcxn_sai_post_load (s : MCXNSAIState) : MCXNSAIState * list sai_event := mcxn_sai_update_irq s.
Definition mcxn_sai_init (hz : Z) (jumper : bool) : MCXNSAIState :=
  mcxn_sai_reset (mkSAI hz false false false [] jumper (replicate 8 0) 0 (replicate 8 0) 0 None 0).

(** ** The FIFOs as bounded queues *)

Record sai_wf (s : MCXNSAIState) : Prop := {
  wf_regs : zlen (regs s) = 1024;
  wf_tx : zlen (tx_fifo s) = 8;
  wf_rx : zlen (rx_fifo s) = 8;
  wf_txc : 0 <= tx_count s <= 8;
  wf_rxc : 0 <= rx_count s <= 8;
}.

Definition tx_q (s : MCXNSAIState) : list Z := take (Z.to_nat (tx_count s)) (tx_fifo s).
Definition rx_q (s : MCXNSAIState) : list Z := take (Z.to_nat (rx_count s)) (rx_fifo s).

(** Recomputing the lines touches neither registers nor FIFOs. *)
Lemma sai_update_frame s : let s' := (mcxn_sai_update_irq s).1 in
  regs s' = regs s /\ tx_q s' = tx_q s /\ rx_q s' = rx_q s /\ loopback s' = loopback s /\
  word_timer s' = word_timer s /\ next_word_ns s' = next_word_ns s /\ clk_hz s' = clk_hz s /\
  (sai_wf s -> sai_wf s').
Proof.
  unfold mcxn_sai_update_irq. cbv zeta. cbn [fst].
  do 2 match goal with |- context [negb (Bool.eqb ?b ?c)] => destruct (negb (Bool.eqb b c)) end;
    (split_and!; [done..|]); intros []; by split.
Qed.

Lemma sai_arm_frame s from : let s' := sai_arm s from in
  regs s' = regs s /\ tx_q s' = tx_q s /\ rx_q s' = rx_q s /\ loopback s' = loopback s /\ clk_hz s' = clk_hz s /\
  (sai_wf s -> sai_wf s').
Proof.
  unfold sai_arm. cbv zeta. destruct (0 <? _); (split_and!; [done..|]); intros []; by split.
Qed.

Lemma sai_set_reg_wf s off v : sai_wf s -> sai_wf (set_reg s off v).
Proof. intros []. split; try done. unfold set_reg. cbn. by rewrite length_arr_set. Qed.

Lemma sai_reg_set s off off' v : zlen (regs s) = 1024 -> 0 <= off < 4096 -> 0 <= off' ->
  reg (set_reg s off v) off' = if off' .>> 2 =? off .>> 2 then v else reg s off'.
Proof.
  intros Hl Ho Ho'. unfold reg, set_reg. cbn [regs modify]. apply arr_get_set.
  - rewrite Z.shiftr_div_pow2 by lia. change (2 ^ 2) with 4. split; [apply Z.div_pos; lia | apply Z.div_lt_upper_bound; lia].
  - apply Z.shiftr_nonneg. lia.
Qed.

(** Transmit, tick of the word clock, receive. *)
Inductive sai_op := OpSend (w : Z) | OpTick | OpRecv.

Definition sai_exec (s : MCXNSAIState) (op : sai_op) : MCXNSAIState * option Z :=
  match op with
  | OpSend w => ((mcxn_sai_write s SAI_TDR0 w 0).1, None)
  | OpTick => ((mcxn_sai_word_tick s).1, None)
  | OpRecv => let '(v, s', _) := mcxn_sai_read s SAI_RDR0 in (s', Some v)
  end.

(** The abstract machine: two queues of at most eight words; [loop] tells
    whether the sent words come back.  The last two components are the errors:
    a transmit under- or overrun, a receive under- or overrun. *)
Definition q_exec (loop : bool) (tx rx : list Z) (op : sai_op) : list Z * list Z * option Z * bool * bool :=
  match op with
  | OpSend w => if zlen tx <? 8 then (tx ++ [w], rx, None, false, false) else (tx, rx, None, true, false)
  | OpTick => match tx with
              | [] => (tx, rx, None, true, false)
              | w :: tx => if loop then
                             if zlen rx <? 8 then (tx, rx ++ [w], None, false, false) else (tx, rx, None, false, true)
                           else (tx, rx, None, false, false)
              end
  | OpRecv => match rx with
              | [] => (tx, rx, Some 0, false, true)
              | w :: rx => (tx, rx, Some w, false, false)
              end
  end.

(** The transmitter runs. *)
Definition sai_enabled (s : MCXNSAIState) : Prop := flag (reg s SAI_TCSR) CSR_EN = true.
Definition sai_loops (s : MCXNSAIState) : bool := loopback s && flag (reg s SAI_RCSR) CSR_EN.

(** [s] implements the queues [tx] and [rx] after errors [te] and [re] on top of [s0]. *)
Record sai_refines (s0 s : MCXNSAIState) (tx rx : list Z) (te re : bool) : Prop := {
  rf_wf : sai_wf s;
  rf_tx : tx_q s = tx;
  rf_rx : rx_q s = rx;
  rf_loop : loopback s = loopback s0;
  rf_tcsr : forall m, flag (reg s SAI_TCSR) m = flag (reg s0 SAI_TCSR) m || (te && flag CSR_FEF m);
  rf_rcsr : forall m, flag (reg s SAI_RCSR) m = flag (reg s0 SAI_RCSR) m || (re && flag CSR_FEF m);
}.

Lemma sai_refines_update s0 s tx rx te re :
  sai_refines s0 s tx rx te re -> sai_refines s0 (mcxn_sai_update_irq s).1 tx rx te re.
Proof.
  intros [Hw Ht Hr Hl Htc Hrc]. destruct (sai_update_frame s) as (E1 & E2 & E3 & E4 & _ & _ & _ & Hwf).
  split; [by apply Hwf | by rewrite E2 | by rewrite E3 | by rewrite E4 |..]; unfold reg in *; by rewrite E1.
Qed.
Lemma sai_refines_arm s0 s tx rx te re from :
  sai_refines s0 s tx rx te re -> sai_refines s0 (sai_arm s from) tx rx te re.
Proof.
  intros [Hw Ht Hr Hl Htc Hrc]. destruct (sai_arm_frame s from) as (E1 & E2 & E3 & E4 & _ & Hwf).
  split; [by apply Hwf | by rewrite E2 | by rewrite E3 | by rewrite E4 |..]; unfold reg in *; by rewrite E1.
Qed.

(** Raising an error flag. *)
Lemma sai_refines_tx_error s0 s tx rx :
  sai_refines s0 s tx rx false false -> sai_refines s0 (set_reg s SAI_TCSR (reg s SAI_TCSR .| CSR_FEF)) tx rx true false.
Proof.
  intros [Hw Ht Hr Hl Htc Hrc]. split; [by apply sai_set_reg_wf | done | done | done |..]; intros m;
    rewrite sai_reg_set by (apply Hw || (unfold SAI_TCSR, SAI_RCSR; lia)).
  - change (SAI_TCSR .>> 2 =? SAI_TCSR .>> 2) with true. cbv iota. rewrite flag_lor, Htc. cbn [andb]. by rewrite orb_false_r.
  - apply Hrc.
Qed.
Lemma sai_refines_rx_error s0 s tx rx :
  sai_refines s0 s tx rx false false -> sai_refines s0 (set_reg s SAI_RCSR (reg s SAI_RCSR .| CSR_FEF)) tx rx false true.
Proof.
  intros [Hw Ht Hr Hl Htc Hrc]. split; [by apply sai_set_reg_wf | done | done | done |..]; intros m;
    rewrite sai_reg_set by (apply Hw || (unfold SAI_TCSR, SAI_RCSR; lia)).
  - apply Htc.
  - change (SAI_RCSR .>> 2 =? SAI_RCSR .>> 2) with true. cbv iota. rewrite flag_lor, Hrc. cbn [andb]. by rewrite orb_false_r.
Qed.

Lemma sai_refines_refl s : sai_wf s -> sai_refines s s (tx_q s) (rx_q s) false false.
Proof. intros Hw. split; try done; intros m; by rewrite orb_false_r. Qed.

Lemma tx_q_len s : sai_wf s -> zlen (tx_q s) = tx_count s.
Proof. intros []. unfold tx_q. rewrite length_take. lia. Qed.
Lemma rx_q_len s : sai_wf s -> zlen (rx_q s) = rx_count s.
Proof. intros []. unfold rx_q. rewrite length_take. lia. Qed.

Lemma sai_send_refines s w : sai_wf s -> in_range 32 w ->
  let '(tx', rx', _, te, re) := q_exec (sai_loops s) (tx_q s) (rx_q s) (OpSend w) in
  sai_refines s (sai_exec s (OpSend w)).1 tx' rx' te re.
Proof.
  intros Hw Hv. cbn [q_exec sai_exec fst]. rewrite tx_q_len by done.
  change (mcxn_sai_write s SAI_TDR0 w 0) with (sai_write_tdr s (u32 w)). rewrite wrap_in_range by done.
  unfold sai_write_tdr, MCXN_SAI_FIFO_DEPTH. destruct (Z.ltb_spec (tx_count s) 8) as [Hlt|Hge].
  - rewrite (proj2 (Z.leb_gt _ _)) by lia. apply sai_refines_update.
    destruct Hw as [H1 H2 H3 H4 H5]. rewrite wrap_id by lia. split; try done; try (intros m; by rewrite orb_false_r).
    + split; cbn; rewrite ?length_arr_set; try done; lia.
    + by apply fifo_push; lia.
  - rewrite (proj2 (Z.leb_le _ _)) by lia. apply sai_refines_update, sai_refines_tx_error. by apply sai_refines_refl.
Qed.

Lemma sai_recv_refines s : sai_wf s ->
  let '(tx', rx', out, te, re) := q_exec (sai_loops s) (tx_q s) (rx_q s) OpRecv in
  sai_refines s (sai_exec s OpRecv).1 tx' rx' te re /\ (sai_exec s OpRecv).2 = out.
Proof.
  intros Hw. cbn [q_exec sai_exec]. change (mcxn_sai_read s SAI_RDR0) with (sai_read_rdr s). unfold sai_read_rdr.
  pose proof (rx_q_len s Hw) as Hlen. destruct (Z.eqb_spec (rx_count s) 0) as [E|E].
  - destruct (rx_q s) as [|x q] eqn:Eq; [|cbn [length] in Hlen; lia].
    pose proof (sai_refines_update s _ _ _ _ _ (sai_refines_rx_error s s _ _ (sai_refines_refl s Hw))) as H. rewrite Eq in H.
    destruct (mcxn_sai_update_irq _) as [s' ev]. by split.
  - destruct Hw as [H1 H2 H3 H4 H5]. assert (Hq := fifo_pop (rx_fifo s) (rx_count s) ltac:(lia)). fold (rx_q s) in Hq.
    rewrite Hq. cbv zeta. cbn [rx_count modify rx_fifo]. rewrite wrap_id by lia.
    set (s1 := s <| rx_count := _ |> <| rx_fifo := _ |>).
    assert (Hr : sai_refines s s1 (tx_q s) (take (Z.to_nat (rx_count s - 1)) (fifo_shift (rx_fifo s) (rx_count s - 1))) false false).
    { split; try done; try (intros m; by rewrite orb_false_r).
      split; cbn -[fifo_shift]; try done; [rewrite fifo_shift_len; lia | lia]. }
    apply sai_refines_update in Hr. destruct (mcxn_sai_update_irq s1) as [s' ev]. by split.
Qed.

Lemma sai_receive_refines s0 s tx w : sai_refines s0 s tx (rx_q s0) false false -> reg s SAI_RCSR = reg s0 SAI_RCSR ->
  let '(rx', re) := if sai_loops s0 then if zlen (rx_q s0) <? 8 then (rx_q s0 ++ [w], false) else (rx_q s0, true)
                    else (rx_q s0, false) in
  sai_refines s0 (sai_receive s (reg s0 SAI_RCSR) w) tx rx' false re.
Proof.
  intros Hr Hc. assert (Hw := rf_wf _ _ _ _ _ _ Hr). unfold sai_receive, sai_loops. rewrite (rf_loop _ _ _ _ _ _ Hr).
  destruct (loopback s0 && _); [|done].
  assert (Hlen : zlen (rx_q s0) = rx_count s) by (rewrite <- (rf_rx _ _ _ _ _ _ Hr); by apply rx_q_len).
  rewrite Hlen. unfold MCXN_SAI_FIFO_DEPTH. destruct (Z.ltb_spec (rx_count s) 8); [|by apply sai_refines_rx_error].
  destruct Hr as [_ Ht Hq Hl Htc Hrc]. destruct Hw as [H1 H2 H3 H4 H5]. rewrite wrap_id by lia. split; try done.
  - split; cbn; rewrite ?length_arr_set; try done; lia.
  - unfold rx_q at 1. cbn [rx_count rx_fifo modify]. rewrite fifo_push by lia. by rewrite <- Hq.
Qed.

Lemma sai_tick_refines s : sai_wf s -> sai_enabled s ->
  let '(tx', rx', _, te, re) := q_exec (sai_loops s) (tx_q s) (rx_q s) OpTick in
  sai_refines s (sai_exec s OpTick).1 tx' rx' te re.
Proof.
  intros Hw He. cbn [q_exec sai_exec fst]. unfold mcxn_sai_word_tick. rewrite He. cbn [negb].
  pose proof (tx_q_len s Hw) as Hlen. destruct (Z.eqb_spec (tx_count s) 0) as [E|E].
  - destruct (tx_q s) as [|x q] eqn:Eq; [|cbn [length] in Hlen; lia].
    apply sai_refines_update, sai_refines_arm, sai_refines_tx_error. rewrite <- Eq. by apply sai_refines_refl.
  - assert (Hw' := Hw). destruct Hw' as [H1 H2 H3 H4 H5].
    assert (Hq := fifo_pop (tx_fifo s) (tx_count s) ltac:(lia)). fold (tx_q s) in Hq.
    rewrite Hq. cbv zeta. cbn [tx_count modify tx_fifo]. rewrite wrap_id by lia.
    set (s1 := s <| tx_count := _ |> <| tx_fifo := _ |>). set (q := take _ _).
    assert (Hr : sai_refines s s1 q (rx_q s) false false).
    { split; try done; try (intros m; by rewrite orb_false_r).
      split; cbn -[fifo_shift]; try done; [rewrite fifo_shift_len; lia | lia]. }
    pose proof (sai_receive_refines s s1 q (tx_fifo s).[0] Hr eq_refl) as Hrc. clearbody q.
    destruct (sai_loops s); [destruct (_ <? _)|]; by apply sai_refines_update, sai_refines_arm.
Qed.

(** C25: the audio path is a pair of bounded queues.  With the transmitter
    enabled, sending, the word clock and receiving act on the contents of the
    two FIFOs exactly as the abstract machine: words leave in the order they
    were written, none is invented or duplicated, a word is lost only to an
    overrun, and the error flag of the right direction is raised exactly when
    an under- or overrun happens. *)
Theorem sai_refines_queues s op :
  sai_wf s -> sai_enabled s -> (forall w, op = OpSend w -> in_range 32 w) ->
  let '(s', out) := sai_exec s op in
  let '(tx', rx', out', te, re) := q_exec (sai_loops s) (tx_q s) (rx_q s) op in
  tx_q s' = tx' /\ rx_q s' = rx' /\ out = out' /\ sai_wf s' /\ sai_enabled s' /\ sai_loops s' = sai_loops s /\
  flag (reg s' SAI_TCSR) CSR_FEF = flag (reg s SAI_TCSR) CSR_FEF || te /\
  flag (reg s' SAI_RCSR) CSR_FEF = flag (reg s SAI_RCSR) CSR_FEF || re.
Proof.
  intros Hw He Hv.
  assert (Hr : let '(tx', rx', out', te, re) := q_exec (sai_loops s) (tx_q s) (rx_q s) op in
    sai_refines s (sai_exec s op).1 tx' rx' te re /\ (sai_exec s op).2 = out').
  { destruct op as [w| |].
    - pose proof (sai_send_refines s w Hw (Hv w eq_refl)) as H. cbn [q_exec] in *. by destruct (_ <? _).
    - pose proof (sai_tick_refines s Hw He) as H. cbn [q_exec] in *.
      destruct (tx_q s); [done|]. destruct (sai_loops s); [by destruct (_ <? _) | done].
    - by apply sai_recv_refines. }
  destruct (sai_exec s op) as [s' out]. destruct (q_exec _ _ _ op) as [[[[tx' rx'] out'] te] re].
  destruct Hr as [[H1 H2 H3 H4 H5 H6] H7]. unfold sai_enabled, sai_loops. cbn [fst snd] in *. rewrite H4, !H5, !H6.
  change (flag CSR_FEF CSR_FEF) with true. change (flag CSR_FEF CSR_EN) with false.
  rewrite !andb_true_r, !andb_false_r, !orb_false_r. split_and!; done.
Qed.

(** The audio unit with the jumper, both directions enabled on a 12.288 MHz clock. *)
Definition sai_sample : MCXNSAIState :=
  let s := (mcxn_sai_write (mcxn_sai_init 12288000 true) SAI_TCR2 (TCR2_BCD .| 3) 0).1 in
  let s := (mcxn_sai_write s SAI_TCR5 (15 .<< 16) 0).1 in
  let s := (mcxn_sai_write s SAI_RCSR CSR_EN 0).1 in
  (mcxn_sai_write s SAI_TCSR CSR_EN 5000).1.

Lemma sai_sample_wf : sai_wf sai_sample.
Proof. split; vm_compute; split || reflexivity; congruence. Qed.

Lemma sai_refines_queues_witness :
  let '(s', out) := sai_exec sai_sample (OpSend 7) in tx_q s' = [7] /\ out = None.
Proof.
  pose proof (sai_refines_queues sai_sample (OpSend 7) sai_sample_wf eq_refl
    ltac:(intros w [= <-]; split; vm_compute; congruence)) as H.
  assert (Hq : q_exec (sai_loops sai_sample) (tx_q sai_sample) (rx_q sai_sample) (OpSend 7) = ([7], [], None, false, false))
    by (vm_compute; reflexivity).
  rewrite Hq in H. destruct (sai_exec sai_sample (OpSend 7)) as [s' out]. destruct H as (H1 & _ & H3 & _).
  split; [exact H1 | exact H3].
Defined.

(** ** The word clock *)

Lemma sai_period_ext s s' :
  reg s' SAI_TCR2 = reg s SAI_TCR2 -> reg s' SAI_TCR5 = reg s SAI_TCR5 -> clk_hz s' = clk_hz s ->
  sai_word_period_ns s' = sai_word_period_ns s.
Proof. intros E1 E2 E3. unfold sai_word_period_ns. by rewrite E1, E2, E3. Qed.

Definition period_of (s : MCXNSAIState) : Z * Z * Z := (reg s SAI_TCR2, reg s SAI_TCR5, clk_hz s).

Lemma sai_period_of s s' : period_of s' = period_of s -> sai_word_period_ns s' = sai_word_period_ns s.
Proof. intros [= E1 E2 E3]. by apply sai_period_ext. Qed.

Lemma period_of_csr s off v : zlen (regs s) = 1024 -> off = SAI_TCSR \/ off = SAI_RCSR ->
  period_of (set_reg s off v) = period_of s.
Proof.
  intros Hw Ho. unfold period_of. destruct Ho as [-> | ->];
    rewrite !sai_reg_set by (done || (unfold SAI_TCSR, SAI_RCSR, SAI_TCR2, SAI_TCR5; lia)); reflexivity.
Qed.

Lemma sai_tick_clock s : sai_wf s -> sai_enabled s -> 0 < sai_word_period_ns s ->
  let s' := (mcxn_sai_word_tick s).1 in
  sai_wf s' /\ sai_enabled s' /\ sai_word_period_ns s' = sai_word_period_ns s /\
  next_word_ns s' = next_word_ns s + sai_word_period_ns s /\ word_timer s' = Some (next_word_ns s').
Proof.
  intros Hw He Hp. cbv zeta.
  assert (Hr : exists tx rx te re, sai_refines s (mcxn_sai_word_tick s).1 tx rx te re).
  { pose proof (sai_tick_refines s Hw He) as H. destruct (q_exec _ _ _ _) as [[[[tx rx] o] te] re]. by exists tx, rx, te, re. }
  destruct Hr as (tx & rx & te & re & Hr). split; [apply Hr|]. split.
  { unfold sai_enabled in *. rewrite (rf_tcsr _ _ _ _ _ _ Hr), He. done. }
  unfold mcxn_sai_word_tick. rewrite He. cbn [negb]. set (s1 := if tx_count s =? 0 then _ else _).
  assert (H1 : period_of s1 = period_of s /\ next_word_ns s1 = next_word_ns s).
  { subst s1. destruct (tx_count s =? 0); [split; [apply period_of_csr; [apply Hw | auto] | done]|].
    unfold sai_receive. cbv zeta. destruct (_ && _); [|done]. destruct (_ <? _); [done|].
    split; [|done]. rewrite period_of_csr; [done | apply Hw | by right]. }
  destruct H1 as [Hpo Hn]. apply sai_period_of in Hpo.
  destruct (sai_update_frame (sai_arm s1 (next_word_ns s1))) as (E1 & _ & _ & _ & Et & En & Ec & _).
  rewrite Et, En. split; [|unfold sai_arm; rewrite Hpo, (proj2 (Z.ltb_lt _ _)) by lia; cbv zeta; split; [by rewrite <- Hn | done]].
  destruct (sai_arm_frame s1 (next_word_ns s1)) as (A1 & _ & _ & _ & A5 & _).
  rewrite <- Hpo. apply sai_period_ext; unfold reg; by rewrite ?E1, ?Ec, ?A1, ?A5.
Qed.

Fixpoint sai_ticks (k : nat) (s : MCXNSAIState) : MCXNSAIState :=
  match k with O => s | S k => sai_ticks k (mcxn_sai_word_tick s).1 end.

Lemma sai_ticks_clock k s : sai_wf s -> sai_enabled s -> 0 < sai_word_period_ns s ->
  next_word_ns (sai_ticks k s) = next_word_ns s + Z.of_nat k * sai_word_period_ns s /\
  ((0 < k)%nat -> word_timer (sai_ticks k s) = Some (next_word_ns (sai_ticks k s))).
Proof.
  revert s. induction k as [|k IH]; intros s Hw He Hp; cbn [sai_ticks]; [split; [lia | lia]|].
  destruct (sai_tick_clock s Hw He Hp) as (Hw' & He' & Hp' & Hn & Ht).
  destruct (IH _ Hw' He' ltac:(lia)) as [IHn IHt]. rewrite IHn, Hp', Hn. split; [lia|]. intros _.
  destruct k as [|k]; [cbn [sai_ticks] in *; rewrite Ht; f_equal; lia|]. rewrite IHt by lia. f_equal. rewrite IHn. lia.
Qed.

(** The word clock does not drift.  Enabling the transmitter at [t0] in
    controller mode makes the k-th word leave at t0 + k * P, where P is the word
    width times the period of the divided bit clock: the deadlines depend on
    [t0] alone, not on when the host runs the callbacks. *)
Theorem sai_word_clock s v t0 k :
  sai_wf s -> flag (reg s SAI_TCSR) CSR_EN = false -> in_range 32 v ->
  flag v CSR_EN = true -> flag v (CSR_SR .| CSR_FR) = false -> 0 < sai_word_period_ns s -> (0 < k)%nat ->
  let s1 := (mcxn_sai_write s SAI_TCSR v t0).1 in
  word_timer s1 = Some (t0 + sai_word_period_ns s) /\
  word_timer (sai_ticks k s1) = Some (t0 + Z.of_nat (S k) * sai_word_period_ns s).
Proof.
  intros Hw Hdis Hv Hen Hnr Hp Hk s1. subst s1.
  change (mcxn_sai_write s SAI_TCSR v t0) with (sai_write_csr s SAI_TCSR (u32 v) t0). rewrite wrap_in_range by done.
  unfold sai_write_csr. cbv zeta. rewrite Hdis, Hnr, Z.eqb_refl. cbn [negb].
  set (cur := (_ .| _) .& u32 (.~ (CSR_SR .| CSR_FR))).
  assert (Hcur : flag cur CSR_EN = true).
  { subst cur. fnorm. by rewrite Hen. }
  rewrite Hcur. cbn [negb andb]. set (s2 := set_reg s SAI_TCSR cur).
  assert (Hw2 : sai_wf s2) by (by apply sai_set_reg_wf).
  assert (Hp2 : sai_word_period_ns s2 = sai_word_period_ns s).
  { apply sai_period_of, period_of_csr; [apply Hw | by left]. }
  assert (He2 : sai_enabled s2).
  { unfold sai_enabled, s2. rewrite sai_reg_set by (apply Hw || (unfold SAI_TCSR; lia)). exact Hcur. }
  set (s3 := sai_arm s2 t0).
  destruct (sai_arm_frame s2 t0) as (A1 & _ & _ & _ & A5 & Aw). fold s3 in A1, A5, Aw.
  destruct (sai_update_frame s3) as (E1 & _ & _ & _ & Et & En & Ec & Ew). set (s4 := (mcxn_sai_update_irq s3).1) in *.
  assert (H3 : next_word_ns s3 = t0 + sai_word_period_ns s /\ word_timer s3 = Some (t0 + sai_word_period_ns s)).
  { unfold s3, sai_arm. rewrite Hp2, (proj2 (Z.ltb_lt _ _)) by lia. done. }
  assert (Hp4 : sai_word_period_ns s4 = sai_word_period_ns s).
  { rewrite <- Hp2. apply sai_period_ext; unfold reg; by rewrite ?E1, ?Ec, ?A1, ?A5. }
  assert (He4 : sai_enabled s4) by (unfold sai_enabled, reg in *; by rewrite E1, A1).
  destruct (sai_ticks_clock k s4 (Ew (Aw Hw2)) He4 ltac:(lia)) as [Hn Ht]. destruct H3 as [H3 H3'].
  split; [by rewrite Et|]. rewrite (Ht Hk), Hn, En, H3, Hp4. f_equal. lia.
Qed.
Definition sai_configured : MCXNSAIState :=
  let s := (mcxn_sai_write (mcxn_sai_init 12288000 false) SAI_TCR2 (TCR2_BCD .| 3) 0).1 in
  (mcxn_sai_write s SAI_TCR5 (15 .<< 16) 0).1.
Lemma sai_word_clock_witness :
  word_timer (sai_ticks 2 (mcxn_sai_write sai_configured SAI_TCSR CSR_EN 5000).1) = Some 36248.
Proof.
  rewrite (proj2 (sai_word_clock sai_configured CSR_EN 5000 2
    ltac:(split; vm_compute; split || reflexivity; congruence) eq_refl ltac:(split; vm_compute; congruence)
    eq_refl eq_refl ltac:(vm_compute; reflexivity) ltac:(lia))).
  vm_compute. reflexivity.
Defined.

(** A FIFO reset does not clear the error flag it means to clear: the register
    is written back from the value read before the reset.  Here the transmitter
    underruns, and the flag survives the reset of its FIFO. *)
Theorem sai_fifo_reset_keeps_error :
  let s := (mcxn_sai_word_tick sai_sample).1 in
  let s' := (mcxn_sai_write s SAI_TCSR (CSR_FR .| CSR_EN) 6000).1 in
  flag (reg s SAI_TCSR) CSR_FEF = true /\ flag (reg s' SAI_TCSR) CSR_FEF = true /\
  flag (reg (sai_fifo_reset s true false) SAI_TCSR) CSR_FEF = false.
Proof. vm_compute. auto. Qed.

(** A write of the watermark does not re-evaluate the interrupt: with one word
    in the FIFO and FRIE enabled, raising the watermark makes TCSR read with the
    request flag set and its interrupt enabled while the line stays low. *)
Theorem sai_watermark_write_stale :
  let s := (mcxn_sai_write (mcxn_sai_init 0 false) SAI_TDR0 7 0).1 in
  let s := (mcxn_sai_write s SAI_TCSR (bit 8) 0).1 in
  let s := (mcxn_sai_write s SAI_TCR1 3 0).1 in
  flag (mcxn_sai_read s SAI_TCSR).1.1 CSR_FRF = true /\ flag (mcxn_sai_read s SAI_TCSR).1.1 (bit 8) = true /\ irq s = false.
Proof. vm_compute. auto. Qed.

(** The published state of the DMA request lines survives a reset: the request
    that software raises after a reset is not published if one was pending
    before it, while a fresh unit publishes it. *)
Theorem sai_reset_loses_dma_request :
  let enable s := mcxn_sai_write s SAI_TCSR CSR_FRDE 0 in
  let s := mcxn_sai_init 0 false in
  (enable s).2 = [DmaTx true] /\ (enable (mcxn_sai_reset (enable s).1)).2 = [].
Proof. vm_compute. auto. Qed.
