(* ===== verification/Dac.v ===== *)
(** * DAC: the digital to analog converters

    Model of [hw/misc/mcxn_dac.c]: the sample FIFO of both variants (a ring
    buffer), software and hardware triggers, the status flags, the interrupt and
    the DMA request line. *)
From S2P Require Import Prelude.

Definition DAC_VERID : Z := 0x00.
Definition DAC_PARAM : Z := 0x04.
Definition DAC_DATA : Z := 0x08.
Definition DAC_GCR : Z := 0x0C.
Definition DAC_FCR : Z := 0x10.
Definition DAC_FPR : Z := 0x14.
Definition DAC_FSR : Z := 0x18.
Definition DAC_IER : Z := 0x1C.
Definition DAC_DER : Z := 0x20.
Definition DAC_RCR : Z := 0x24.
Definition DAC_TCR : Z := 0x28.
Definition GCR_DACEN : Z := bit 0.
Definition GCR_FIFOEN : Z := bit 3.
Definition GCR_SWMD : Z := bit 4.
Definition GCR_TRGSEL : Z := bit 5.
Definition GCR_PTGEN : Z := bit 6.
Definition FSR_FULL : Z := bit 0.
Definition FSR_EMPTY : Z := bit 1.
Definition FSR_WM : Z := bit 2.
Definition FSR_SWBK : Z := bit 3.
Definition FSR_OF : Z := bit 6.
Definition FSR_UF : Z := bit 7.
Definition FSR_PTGCOCO : Z := bit 8.
Definition FSR_W1C_MASK : Z := FSR_SWBK .| FSR_OF .| FSR_UF .| FSR_PTGCOCO.
Definition RCR_SWRST : Z := bit 0.
Definition RCR_FIFORST : Z := bit 1.
Definition TCR_SWTRG : Z := bit 0.
Definition DAC_VERID_VALUE : Z := 0x01000000.
Definition DER_EMPTY_DMAEN : Z := bit 1.
Definition DER_WM_DMAEN : Z := bit 2.
Definition MCXN_DAC_SIZE : Z := 0x1000.
Definition MCXN_DAC_FIFO_MAX : Z := 32.

Record MCXNDACState := mkDAC {
  irq : bool;
  dma_req : bool;         (* the level last driven on the line *)
  dma_req_level : bool;
  regs : list Z;
  hpdac : bool;
  fifo : list Z;          (* uint16_t fifo[MCXN_DAC_FIFO_MAX] *)
  wptr : Z; rptr : Z; count : Z;
  out : Z;
  warned_ptg : bool; warned_swmd : bool
}.
#[export] Instance dac_settable : Settable MCXNDACState := fun s =>
  mkDAC (irq s) (dma_req s) (dma_req_level s) (regs s) (hpdac s) (fifo s) (wptr s) (rptr s) (count s)
    (out s) (warned_ptg s) (warned_swmd s).

Definition reg (s : MCXNDACState) (off : Z) : Z := (regs s).[off / 4].
Definition set_reg (s : MCXNDACState) (off v : Z) : MCXNDACState := s <| regs := (regs s).[off / 4 <- v] |>.

Definition dac_depth (s : MCXNDACState) : Z := if hpdac s then 32 else 16.
Definition dac_data_mask (s : MCXNDACState) : Z := if hpdac s then 0x3FFF else 0x0FFF.
Definition dac_param (s : MCXNDACState) : Z := if hpdac s then 4 else 3.

Definition dac_fsr (s : MCXNDACState) : Z :=
  let fsr := reg s DAC_FSR .& FSR_W1C_MASK in
  let wml := reg s DAC_FCR .& (if hpdac s then 0x1F else 0x0F) in
  let fsr := if count s =? 0 then fsr .| FSR_EMPTY else fsr in
  let fsr := if dac_depth s <=? count s then fsr .| FSR_FULL else fsr in
  if count s <=? wml then fsr .| FSR_WM else fsr.

(** The FIFO asks the eDMA for samples. *)
Definition dac_request (s : MCXNDACState) : bool :=
  (flag (dac_fsr s) FSR_WM && flag (reg s DAC_DER) DER_WM_DMAEN) ||
  (flag (dac_fsr s) FSR_EMPTY && flag (reg s DAC_DER) DER_EMPTY_DMAEN).

Definition dac_update_irq (s : MCXNDACState) : MCXNDACState :=
  let req := dac_request s in
  let s := s <| irq := flag (dac_fsr s) (reg s DAC_IER) |> in
  if negb (Bool.eqb req (dma_req_level s)) then s <| dma_req_level := req |> <| dma_req := req |> else s.

Definition dac_fifo_reset (s : MCXNDACState) : MCXNDACState :=
  let s := s <| wptr := 0 |> <| rptr := 0 |> <| count := 0 |> in
  set_reg s DAC_FSR (reg s DAC_FSR .& u32 (.~ FSR_W1C_MASK)).

Definition dac_push (s : MCXNDACState) (value : Z) : MCXNDACState :=
  let v := value .& dac_data_mask s in
  if negb (flag (reg s DAC_GCR) GCR_FIFOEN) then s <| out := v |>
  else if dac_depth s <=? count s then dac_update_irq (set_reg s DAC_FSR (reg s DAC_FSR .| FSR_OF))
  else
    let s := s <| fifo := (fifo s).[wptr s <- u16 v] |> in
    let s := s <| wptr := u32 (wptr s + 1) mod dac_depth s |> in
    dac_update_irq (s <| count := u32 (count s + 1) |>).

Definition dac_trigger (s : MCXNDACState) : MCXNDACState :=
  if negb (flag (reg s DAC_GCR) GCR_DACEN) then s
  else if negb (flag (reg s DAC_GCR) GCR_FIFOEN) then s
  else if count s =? 0 then dac_update_irq (set_reg s DAC_FSR (reg s DAC_FSR .| FSR_UF))
  else
    let s := s <| out := (fifo s).[rptr s] |> in
    let s := s <| rptr := u32 (rptr s + 1) mod dac_depth s |> in
    dac_update_irq (s <| count := u32 (count s - 1) |>).

Definition dac_hw_trigger (s : MCXNDACState) (level : bool) : MCXNDACState :=
  if negb level then s
  else if flag (reg s DAC_GCR) GCR_TRGSEL then s
  else dac_trigger s.

Definition mcxn_dac_read (s : MCXNDACState) (offset : Z) : Z :=
  if offset =? DAC_VERID then DAC_VERID_VALUE
  else if offset =? DAC_PARAM then dac_param s
  else if (offset =? DAC_DATA) || (offset =? DAC_TCR) then 0
  else if offset =? DAC_FPR then u32 (wptr s .<< 16) .| rptr s
  else if offset =? DAC_FSR then dac_fsr s
  else reg s offset.

(** The merge of a sub-word write. *)
Definition dac_merge (old offset value size : Z) : Z :=
  let shift := (offset .& 3) * 8 in
  let mask := if 4 <=? size then 0xFFFFFFFF else u32 (u32 (u32 (1 .<< (size * 8)) - 1) .<< shift) in
  (old .& u32 (.~ mask)) .| (u32 (value .<< shift) .& mask).

Definition dac_write_rcr (s : MCXNDACState) (v : Z) : MCXNDACState :=
  let s :=
    if flag v RCR_SWRST then
      dac_fifo_reset (s <| regs := replicate (Z.to_nat (MCXN_DAC_SIZE / 4)) 0 |>) <| out := 0 |>
    else if flag v RCR_FIFORST then dac_fifo_reset s
    else s in
  dac_update_irq (set_reg s DAC_RCR 0).

Definition dac_write_gcr (s : MCXNDACState) (v : Z) : MCXNDACState :=
  let s := set_reg s DAC_GCR v in
  let s := if flag v GCR_PTGEN && negb (warned_ptg s) then s <| warned_ptg := true |> else s in
  let s := if flag v GCR_SWMD && negb (warned_swmd s) then s <| warned_swmd := true |> else s in
  dac_update_irq s.

Definition mcxn_dac_write (s : MCXNDACState) (offset value size : Z) : MCXNDACState :=
  let v := u32 value in
  if (offset =? DAC_VERID) || (offset =? DAC_PARAM) || (offset =? DAC_FPR) then s
  else if offset =? DAC_DATA then dac_push s v
  else if offset =? DAC_TCR then if flag v TCR_SWTRG then dac_trigger s else s
  else if offset =? DAC_FSR then dac_update_irq (set_reg s DAC_FSR (reg s DAC_FSR .& u32 (.~ (v .& FSR_W1C_MASK))))
  else if offset =? DAC_IER then dac_update_irq (set_reg s DAC_IER v)
  else if (offset =? DAC_DER) || (offset =? DAC_FCR) then dac_update_irq (set_reg s offset v)
  else if offset =? DAC_RCR then dac_write_rcr s v
  else if offset =? DAC_GCR then dac_write_gcr s v
  else dac_update_irq (set_reg s offset (dac_merge (reg s offset) offset value size)).

Definition mcxn_dac_reset (s : MCXNDACState) : MCXNDACState :=
  let s := s <| regs := replicate (Z.to_nat (MCXN_DAC_SIZE / 4)) 0 |>
             <| fifo := replicate (Z.to_nat MCXN_DAC_FIFO_MAX) 0 |> in
  let s := dac_fifo_reset s in
  s <| out := 0 |> <| warned_ptg := false |> <| warned_swmd := false |> <| irq := false |>.
Definition mcxn_dac_post_load (s : MCXNDACState) : MCXNDACState := dac_update_irq s.
Definition dac_init (hp : bool) : MCXNDACState :=
  mcxn_dac_reset (mkDAC false false false [] hp [] 0 0 0 0 false false).

(** ** The ring buffer as a queue of samples *)

Record dac_wf (s : MCXNDACState) : Prop := {
  wf_regs : zlen (regs s) = 1024;
  wf_fifo : zlen (fifo s) = 32;
  wf_rptr : 0 <= rptr s < dac_depth s;
  wf_count : 0 <= count s <= dac_depth s;
  wf_wptr : wptr s = (rptr s + count s) mod dac_depth s;
}.

(** The samples waiting, oldest first. *)
Definition samples (s : MCXNDACState) : list Z :=
  ring_items (dac_depth s) (fifo s) (rptr s) (count s).

Lemma dac_depth_range s : dac_depth s = 32 \/ dac_depth s = 16.
Proof. unfold dac_depth. destruct (hpdac s); auto. Qed.

(** The part of the state that the FIFO lives in. *)
Definition same_fifo (s s' : MCXNDACState) : Prop :=
  fifo s' = fifo s /\ rptr s' = rptr s /\ wptr s' = wptr s /\ count s' = count s /\ hpdac s' = hpdac s /\ out s' = out s.

Lemma samples_same s s' : same_fifo s s' -> samples s' = samples s.
Proof. intros (E1 & E2 & E3 & E4 & E5 & E6). unfold samples, dac_depth. by rewrite E1, E2, E4, E5. Qed.
Lemma wf_same s s' : same_fifo s s' -> zlen (regs s') = 1024 -> dac_wf s -> dac_wf s'.
Proof.
  intros (E1 & E2 & E3 & E4 & E5 & _) Hr []. assert (Ed : dac_depth s' = dac_depth s) by (unfold dac_depth; by rewrite E5).
  split; rewrite ?E1, ?E2, ?E3, ?E4, ?Ed; done.
Qed.

Lemma dac_update_same s : same_fifo s (dac_update_irq s) /\ regs (dac_update_irq s) = regs s.
Proof. unfold dac_update_irq. cbv zeta. by destruct (negb _). Qed.

Lemma dac_update_wf s : dac_wf s -> dac_wf (dac_update_irq s).
Proof. intros Hw. destruct (dac_update_same s) as [Hs Hr]. apply (wf_same s); [done | by rewrite Hr; destruct Hw | done]. Qed.

Lemma dac_set_reg_wf s off v : dac_wf s -> dac_wf (set_reg s off v).
Proof. intros Hw. apply (wf_same s); [done | | done]. unfold set_reg. cbn. rewrite length_arr_set. apply Hw. Qed.

Lemma samples_len s : dac_wf s -> zlen (samples s) = count s.
Proof. intros []. apply ring_items_len. lia. Qed.

Lemma samples_push s v : dac_wf s -> count s < dac_depth s ->
  let s' := s <| fifo := (fifo s).[wptr s <- v] |> <| wptr := (wptr s + 1) mod dac_depth s |> <| count := count s + 1 |> in
  samples s' = samples s ++ [v] /\ dac_wf s'.
Proof.
  intros [Hr Hf Hp Hc Hw] Hlt. cbv zeta. assert (HD := dac_depth_range s). split.
  - unfold samples. rewrite Hw. apply ring_push; lia.
  - split; cbn -[dac_depth]; rewrite ?length_arr_set; try done.
    + change (0 <= count s + 1 <= dac_depth s). lia.
    + change ((wptr s + 1) mod dac_depth s = (rptr s + (count s + 1)) mod dac_depth s).
      rewrite Hw, Z.add_mod_idemp_l by lia. f_equal. lia.
Qed.

Lemma samples_pop s : dac_wf s -> 0 < count s ->
  let s' := s <| out := (fifo s).[rptr s] |> <| rptr := (rptr s + 1) mod dac_depth s |> <| count := count s - 1 |> in
  samples s = out s' :: samples s' /\ dac_wf s'.
Proof.
  intros [Hr Hf Hp Hc Hw] Hpos. cbv zeta. assert (HD := dac_depth_range s). split.
  - by apply ring_pop.
  - split; cbn -[dac_depth]; try done.
    + change (0 <= (rptr s + 1) mod dac_depth s < dac_depth s). apply Z.mod_pos_bound. lia.
    + change (0 <= count s - 1 <= dac_depth s). lia.
    + change (wptr s = ((rptr s + 1) mod dac_depth s + (count s - 1)) mod dac_depth s).
      rewrite Hw, ring_next by lia. f_equal. lia.
Qed.

Lemma dac_reg_set s off off' v : dac_wf s -> 0 <= off < 4096 -> 0 <= off' ->
  reg (set_reg s off v) off' = if off' / 4 =? off / 4 then v else reg s off'.
Proof.
  intros [Hl _ _ _ _] Ho Ho'. unfold reg, set_reg. cbn [regs modify]. apply arr_get_set.
  - split; [apply Z.div_pos; lia | apply Z.div_lt_upper_bound; lia].
  - apply Z.div_pos; lia.
Qed.

Definition dac_running (s : MCXNDACState) : Prop :=
  flag (reg s DAC_GCR) GCR_DACEN = true /\ flag (reg s DAC_GCR) GCR_FIFOEN = true.

(** Raising a latched error. *)
Lemma dac_error s f : dac_wf s ->
  let s' := dac_update_irq (set_reg s DAC_FSR (reg s DAC_FSR .| f)) in
  dac_wf s' /\ samples s' = samples s /\ out s' = out s /\ reg s' DAC_FSR = reg s DAC_FSR .| f /\
  reg s' DAC_GCR = reg s DAC_GCR.
Proof.
  intros Hw. cbv zeta. set (s1 := set_reg s DAC_FSR _). destruct (dac_update_same s1) as [Hs Hr].
  split; [by apply dac_update_wf, dac_set_reg_wf|]. split; [by rewrite (samples_same s1)|].
  split; [apply Hs|]. split; unfold reg at 1; rewrite Hr; change ((regs s1).[?o / 4]) with (reg s1 o); unfold s1;
    rewrite dac_reg_set by (done || (unfold DAC_FSR, DAC_GCR; lia)); reflexivity.
Qed.

Lemma dac_push_spec s v : dac_wf s -> flag (reg s DAC_GCR) GCR_FIFOEN = true ->
  let s' := dac_push s v in
  dac_wf s' /\ out s' = out s /\ reg s' DAC_GCR = reg s DAC_GCR /\
  samples s' = (if zlen (samples s) <? dac_depth s then samples s ++ [v .& dac_data_mask s] else samples s) /\
  reg s' DAC_FSR = if zlen (samples s) <? dac_depth s then reg s DAC_FSR else reg s DAC_FSR .| FSR_OF.
Proof.
  intros Hw Hf. cbv zeta. rewrite samples_len by done. unfold dac_push. rewrite Hf. cbn [negb].
  destruct (Z.ltb_spec (count s) (dac_depth s)) as [Hlt|Hge].
  - rewrite (proj2 (Z.leb_gt _ _)) by lia. cbv zeta. cbn [count wptr modify].
    assert (HD := dac_depth_range s). assert (Hc := wf_count s Hw). assert (Hwp := wf_wptr s Hw).
    assert (Hwr : 0 <= wptr s < dac_depth s) by (rewrite Hwp; apply Z.mod_pos_bound; lia).
    rewrite !(wrap_id 32) by lia. rewrite (wrap_in_range 16).
    2: { apply in_range_land_r; [lia|]. unfold dac_data_mask. destruct (hpdac s); split; vm_compute; congruence. }
    destruct (samples_push s (v .& dac_data_mask s) Hw Hlt) as [Hq Hw']. cbv zeta in Hq, Hw'.
    set (s1 := s <| fifo := _ |> <| wptr := _ |> <| count := _ |>) in *.
    change (dac_depth (s <| fifo := _ |>)) with (dac_depth s). change (count s1) with (count s + 1).
    destruct (dac_update_same s1) as [Hs Hr]. split; [by apply dac_update_wf|]. split; [apply Hs|].
    split; [unfold reg; by rewrite Hr|]. split; [by rewrite (samples_same s1)|]. unfold reg. by rewrite Hr.
  - rewrite (proj2 (Z.leb_le _ _)) by lia. destruct (dac_error s FSR_OF Hw) as (H1 & H2 & H3 & H4 & H5). done.
Qed.

Lemma dac_trigger_spec s : dac_wf s -> dac_running s ->
  let s' := dac_trigger s in
  dac_wf s' /\ reg s' DAC_GCR = reg s DAC_GCR /\
  match samples s with
  | [] => samples s' = [] /\ out s' = out s /\ reg s' DAC_FSR = reg s DAC_FSR .| FSR_UF
  | x :: q => samples s' = q /\ out s' = x /\ reg s' DAC_FSR = reg s DAC_FSR
  end.
Proof.
  intros Hw [He Hf]. cbv zeta. assert (Hlen := samples_len s Hw). unfold dac_trigger. rewrite He, Hf. cbn [negb].
  destruct (Z.eqb_spec (count s) 0) as [E|E].
  - destruct (dac_error s FSR_UF Hw) as (H1 & H2 & H3 & H4 & H5). rewrite E in Hlen.
    destruct (samples s) as [|x q]; [|cbn in Hlen; lia]. by split_and!.
  - assert (Hc := wf_count s Hw). assert (HD := dac_depth_range s). assert (Hp := wf_rptr s Hw). cbv zeta.
    cbn [count rptr modify]. rewrite !(wrap_id 32) by lia. change (dac_depth (s <| out := _ |>)) with (dac_depth s).
    destruct (samples_pop s Hw ltac:(lia)) as [Hq Hw']. cbv zeta in Hq, Hw'. rewrite Hq.
    set (s1 := s <| out := _ |> <| rptr := _ |> <| count := _ |>) in *.
    destruct (dac_update_same s1) as [Hs Hr]. split; [by apply dac_update_wf|]. split; [unfold reg; by rewrite Hr|].
    split; [by apply samples_same|]. split; [apply Hs|]. unfold reg. by rewrite Hr.
Qed.

(** ** Sequences of samples and triggers *)

Inductive dac_op := Push (v : Z) | SoftTrigger | HardTrigger.

Definition dac_exec (s : MCXNDACState) (op : dac_op) : MCXNDACState :=
  match op with
  | Push v => mcxn_dac_write s DAC_DATA v 4
  | SoftTrigger => mcxn_dac_write s DAC_TCR TCR_SWTRG 4
  | HardTrigger => dac_hw_trigger s true
  end.

(** What is observable: the samples waiting, the analog output, the error flags. *)
Record dac_abs := mkAbs { waiting : list Z; analog : Z; overflow : bool; underflow : bool }.
Definition abs_of (s : MCXNDACState) : dac_abs :=
  mkAbs (samples s) (out s) (flag (reg s DAC_FSR) FSR_OF) (flag (reg s DAC_FSR) FSR_UF).

(** One trigger of the abstract converter: the oldest sample, or hold and flag. *)
Definition abs_trigger (a : dac_abs) : dac_abs :=
  match waiting a with
  | [] => mkAbs [] (analog a) (overflow a) true
  | x :: q => mkAbs q x (overflow a) (underflow a)
  end.

(** [depth] and [mask] are the geometry, [hw] tells whether the routed trigger is live. *)
Definition abs_exec (depth mask : Z) (hw : bool) (a : dac_abs) (op : dac_op) : dac_abs :=
  match op with
  | Push v => if zlen (waiting a) <? depth
              then mkAbs (waiting a ++ [v .& mask]) (analog a) (overflow a) (underflow a)
              else mkAbs (waiting a) (analog a) true (underflow a)
  | SoftTrigger => abs_trigger a
  | HardTrigger => if hw then abs_trigger a else a
  end.

Definition dac_geometry (s : MCXNDACState) : Z * Z * bool :=
  (dac_depth s, dac_data_mask s, negb (flag (reg s DAC_GCR) GCR_TRGSEL)).

Lemma dac_trigger_abs s : dac_wf s -> dac_running s ->
  let s' := dac_trigger s in
  abs_of s' = abs_trigger (abs_of s) /\ dac_wf s' /\ reg s' DAC_GCR = reg s DAC_GCR.
Proof.
  intros Hw Hr. destruct (dac_trigger_spec s Hw Hr) as (Hw' & Hg & H). cbv zeta. split; [|done].
  unfold abs_of, abs_trigger. cbn [waiting analog overflow underflow].
  destruct (samples s) as [|x q]; destruct H as (H1 & H2 & H3); rewrite H1, H2, H3, ?flag_lor; [|done].
  change (flag FSR_UF FSR_OF) with false. change (flag FSR_UF FSR_UF) with true. by rewrite orb_false_r, orb_true_r.
Qed.

Lemma dac_hpdac_trigger s : hpdac (dac_trigger s) = hpdac s.
Proof.
  unfold dac_trigger. cbv zeta. repeat case_match; try done;
    match goal with |- hpdac (dac_update_irq ?x) = _ => destruct (dac_update_same x) as [(_ & _ & _ & _ & -> & _) _]; done end.
Qed.
Lemma dac_hpdac_push s v : hpdac (dac_push s v) = hpdac s.
Proof.
  unfold dac_push. cbv zeta. repeat case_match; try done;
    match goal with |- hpdac (dac_update_irq ?x) = _ => destruct (dac_update_same x) as [(_ & _ & _ & _ & -> & _) _]; done end.
Qed.

Lemma dac_exec_abs s op : dac_wf s -> dac_running s -> (forall v, op = Push v -> in_range 32 v) ->
  let '(depth, mask, hw) := dac_geometry s in
  let s' := dac_exec s op in
  abs_of s' = abs_exec depth mask hw (abs_of s) op /\ dac_wf s' /\ dac_running s' /\ dac_geometry s' = dac_geometry s.
Proof.
  intros Hw Hr Hv. unfold dac_geometry. cbv zeta.
  assert (Hgo : forall s', dac_wf s' -> reg s' DAC_GCR = reg s DAC_GCR -> hpdac s' = hpdac s ->
    dac_wf s' /\ dac_running s' /\
    (dac_depth s', dac_data_mask s', negb (flag (reg s' DAC_GCR) GCR_TRGSEL)) =
    (dac_depth s, dac_data_mask s, negb (flag (reg s DAC_GCR) GCR_TRGSEL))).
  { intros s' Hw' Hg Hh. unfold dac_running, dac_depth, dac_data_mask in *. by rewrite Hg, Hh. }
  destruct op as [v| |]; cbn [dac_exec abs_exec].
  - change (mcxn_dac_write s DAC_DATA v 4) with (dac_push s (u32 v)). rewrite wrap_in_range by (by apply Hv).
    destruct (dac_push_spec s v Hw (proj2 Hr)) as (H1 & H2 & H3 & H4 & H5). split; [|by apply Hgo, dac_hpdac_push].
    unfold abs_of. cbn [waiting analog overflow underflow]. rewrite H2, H4, H5.
    destruct (_ <? _); [done|]. rewrite !flag_lor. change (flag FSR_OF FSR_OF) with true. change (flag FSR_OF FSR_UF) with false.
    by rewrite orb_false_r, orb_true_r.
  - change (mcxn_dac_write s DAC_TCR TCR_SWTRG 4) with (dac_trigger s).
    destruct (dac_trigger_abs s Hw Hr) as (H1 & H2 & H3). split; [done|]. apply Hgo; auto using dac_hpdac_trigger.
  - unfold dac_hw_trigger. cbn [negb]. destruct (flag (reg s DAC_GCR) GCR_TRGSEL) eqn:E; cbn [negb].
    + split; [done|]. split; [done|]. split; [done|]. by rewrite E.
    + destruct (dac_trigger_abs s Hw Hr) as (H1 & H2 & H3). split; [done|]. apply Hgo; auto using dac_hpdac_trigger.
Qed.

(** The converter plays its samples in order.  Over any sequence of data
    writes and triggers with the FIFO enabled, the samples waiting, the analog
    output and the error flags are those of a plain queue of 16 (or 32) samples
    of 12 (or 14) bits: every trigger outputs the oldest sample, an empty FIFO
    holds the output and flags an underflow, a full one drops the sample and
    flags an overflow, and a routed trigger is ignored in software mode. *)
Theorem dac_refines_queue ops s :
  dac_wf s -> dac_running s -> Forall (fun op => forall v, op = Push v -> in_range 32 v) ops ->
  let '(depth, mask, hw) := dac_geometry s in
  abs_of (foldl dac_exec s ops) = foldl (abs_exec depth mask hw) (abs_of s) ops.
Proof.
  intros Hw Hr Hops. revert s Hw Hr. induction Hops as [|op ops Hop _ IH]; intros s Hw Hr; [done|]. cbn [foldl].
  pose proof (dac_exec_abs s op Hw Hr Hop) as H. destruct (dac_geometry s) as [[depth mask] hw] eqn:Eg.
  destruct H as (H1 & H2 & H3 & H4). specialize (IH _ H2 H3). rewrite H4 in IH. by rewrite IH, H1.
Qed.
(** The low-power converter, enabled with its FIFO and the routed trigger. *)
Definition dac_sample : MCXNDACState := mcxn_dac_write (dac_init false) DAC_GCR (GCR_DACEN .| GCR_FIFOEN) 4.
Lemma dac_refines_queue_witness :
  analog (abs_of (foldl dac_exec dac_sample [Push 0x1234; Push 0x56; HardTrigger])) = 0x234.
Proof.
  assert (Hw : dac_wf dac_sample) by (split; vm_compute; split || reflexivity; congruence).
  pose proof (dac_refines_queue [Push 0x1234; Push 0x56; HardTrigger] dac_sample Hw (conj eq_refl eq_refl)) as H.
  assert (Hg : dac_geometry dac_sample = (16, 0xFFF, true)) by (vm_compute; reflexivity). rewrite Hg in H.
  rewrite H; [vm_compute; reflexivity|].
  apply Forall_cons. split; [intros v [= <-]; split; vm_compute; congruence|].
  apply Forall_cons. split; [intros v [= <-]; split; vm_compute; congruence|].
  apply Forall_cons. split; [intros v E; discriminate E | apply Forall_nil_2].
Defined.

(** ** The lines *)

Definition dac_wired (s : MCXNDACState) : Prop := dma_req s = dma_req_level s.
Definition dac_lines (s : MCXNDACState) : Prop :=
  irq s = flag (dac_fsr s) (reg s DAC_IER) /\ dma_req s = dac_request s /\ dac_wired s.

Lemma dac_update_lines s : dac_wired s -> dac_lines (dac_update_irq s).
Proof.
  intros Hw. unfold dac_wired in Hw. unfold dac_update_irq. cbv zeta. change (dma_req_level (s <| irq := _ |>)) with (dma_req_level s).
  destruct (Bool.eqb (dac_request s) (dma_req_level s)) eqn:E; cbn [negb]; [|done].
  apply eqb_prop in E. split; [done|]. split; [|done]. rewrite <- E in Hw. exact Hw.
Qed.

Inductive dac_step : MCXNDACState -> MCXNDACState -> Prop :=
  | dac_step_write s off v size : dac_step s (mcxn_dac_write s off v size)
  | dac_step_trigger s level : dac_step s (dac_hw_trigger s level)
  | dac_step_load s : dac_step s (mcxn_dac_post_load s).

Lemma dac_trigger_lines s : dac_lines s -> dac_lines (dac_trigger s).
Proof. intros Hl. unfold dac_trigger. cbv zeta. repeat case_match; try done; apply dac_update_lines, Hl. Qed.

Lemma dac_push_lines s v : dac_lines s -> dac_lines (dac_push s v).
Proof. intros Hl. unfold dac_push. cbv zeta. repeat case_match; try done; apply dac_update_lines, Hl. Qed.

Lemma dac_step_lines s s' : dac_step s s' -> dac_lines s -> dac_lines s'.
Proof.
  intros Hst Hl. destruct Hst as [s off v size|s level|s].
  - unfold mcxn_dac_write. cbv zeta. repeat match goal with |- context [if ?b then _ else _] => destruct b end;
      auto using dac_trigger_lines, dac_push_lines; unfold dac_write_gcr, dac_write_rcr; cbv zeta;
      apply dac_update_lines; repeat case_match; apply Hl.
  - unfold dac_hw_trigger. repeat case_match; auto using dac_trigger_lines.
  - apply dac_update_lines, Hl.
Qed.

(** The lines tell the truth.  In every state reachable from reset the
    interrupt line is high exactly when an enabled status flag is set, and the
    DMA request line exactly when the FIFO is at its watermark or empty with the
    matching DMA enable. *)
Theorem dac_lines_reachable hp s :
  rtc dac_step (dac_init hp) s ->
  irq s = flag (mcxn_dac_read s DAC_FSR) (mcxn_dac_read s DAC_IER) /\ dma_req s = dac_request s.
Proof.
  intros Hr. assert (Hl : dac_lines s).
  { eapply rtc_invariant; [exact dac_step_lines | exact Hr |]. by destruct hp. }
  destruct Hl as (H1 & H2 & _). split; [exact H1 | exact H2].
Qed.
Lemma dac_lines_reachable_witness :
  dma_req (mcxn_dac_write (dac_init false) DAC_DER DER_EMPTY_DMAEN 4) = true.
Proof.
  rewrite (proj2 (dac_lines_reachable false _ (rtc_once _ _ (dac_step_write _ DAC_DER DER_EMPTY_DMAEN 4)))).
  vm_compute. reflexivity.
Defined.

(** A reset keeps the published request: the line stays asserted although DER
    is cleared, until the next register access re-evaluates it. *)
Theorem dac_reset_keeps_request :
  let s := mcxn_dac_reset (mcxn_dac_write (dac_init false) DAC_DER DER_EMPTY_DMAEN 4) in
  dma_req s = true /\ dac_request s = false.
Proof. vm_compute. auto. Qed.
