(* ===== verification/Adc.v ===== *)
(** * LPADC: the analog to digital converters

    Model of [hw/misc/mcxn_adc.c]: the software and hardware triggers, the
    command each of them starts, the two result FIFOs with their watermarks, the
    status flags, the interrupt and the DMA request lines.  The converter refines
    a pair of bounded queues of results. *)
From S2P Require Import Prelude.

Definition R_VERID : Z := 0x000.
Definition R_PARAM : Z := 0x004.
Definition R_CTRL : Z := 0x010.
Definition R_STAT : Z := 0x014.
Definition R_IE : Z := 0x018.
Definition R_DE : Z := 0x01C.
Definition R_SWTRIG : Z := 0x034.
Definition R_TCTRL0 : Z := 0x0A0.
Definition R_FCTRL0 : Z := 0x0E0.
Definition R_FCTRL1 : Z := 0x0E4.
Definition R_GCC0 : Z := 0x0F0.
Definition R_GCC1 : Z := 0x0F4.
Definition R_CMD_BASE : Z := 0x100.
Definition R_RESFIFO0 : Z := 0x300.
Definition R_RESFIFO1 : Z := 0x304.
Definition GCC_RDY : Z := bit 24.
Definition CTRL_ADCEN : Z := bit 0.
Definition CTRL_RST : Z := bit 1.
Definition CTRL_CAL_REQ : Z := bit 3.
Definition CTRL_CALOFS : Z := bit 4.
Definition CTRL_RSTFIFO0 : Z := bit 8.
Definition CTRL_RSTFIFO1 : Z := bit 9.
Definition STAT_RDY0 : Z := bit 0.
Definition STAT_FOF0 : Z := bit 1.
Definition STAT_RDY1 : Z := bit 2.
Definition STAT_FOF1 : Z := bit 3.
Definition STAT_TEXC_INT : Z := bit 8.
Definition STAT_TCOMP_INT : Z := bit 9.
Definition STAT_CAL_RDY : Z := bit 10.
Definition IE_TCOMP_IE : Z := bit 16.
Definition FCTRL_FCOUNT_MASK : Z := 0x1F.
Definition FCTRL_FWMARK_SHIFT : Z := 16.
Definition FCTRL_FWMARK_MASK : Z := 0xF.
Definition RESFIFO_VALID : Z := bit 31.
Definition RESFIFO_CMDSRC_SHIFT : Z := 24.
Definition RESFIFO_CMDSRC_MASK : Z := 0xF.
Definition ADC_VERID_VALUE : Z := 0x02000209.
Definition ADC_PARAM_VALUE : Z := 0x0F0F0F08.
Definition ADC_CH_DEFAULT : Z := 0x0800.
Definition CMDL_ADCH_MASK : Z := 0x1F.
Definition TCTRL_TCMD_SHIFT : Z := 24.
Definition TCTRL_TCMD_MASK : Z := 0xF.
Definition TCTRL_FIFO_SEL_A : Z := bit 1.
Definition TCTRL_HTEN : Z := bit 0.
Definition DE_FWMDE0 : Z := 0x1.
Definition DE_FWMDE1 : Z := 0x2.
Definition MCXN_ADC_SIZE : Z := 0x1000.
Definition MCXN_ADC_CHANNELS : Z := 16.
Definition MCXN_ADC_NFIFO : Z := 2.
Definition MCXN_ADC_FIFO_DEPTH : Z := 16.

Record MCXNADCState := mkADC {
  irq : bool;
  dma_req : list bool;        (* the levels last driven on the lines *)
  dma_req_level : list bool;
  regs : list Z;
  adc_ch : list Z;            (* uint16_t adc_ch[MCXN_ADC_CHANNELS] *)
  fifo : list (list Z);       (* uint32_t fifo[MCXN_ADC_NFIFO][MCXN_ADC_FIFO_DEPTH] *)
  fifo_count : list Z         (* uint8_t fifo_count[MCXN_ADC_NFIFO] *)
}.
#[export] Instance adc_settable : Settable MCXNADCState := fun s =>
  mkADC (irq s) (dma_req s) (dma_req_level s) (regs s) (adc_ch s) (fifo s) (fifo_count s).

Definition reg (s : MCXNADCState) (off : Z) : Z := (regs s).[off / 4].
Definition set_reg (s : MCXNADCState) (off v : Z) : MCXNADCState := s <| regs := (regs s).[off / 4 <- v] |>.

Definition adc_fwmark (s : MCXNADCState) (f : Z) : Z :=
  (reg s (if f =? 0 then R_FCTRL0 else R_FCTRL1) .>> FCTRL_FWMARK_SHIFT) .& FCTRL_FWMARK_MASK.

(** The FIFO asks the eDMA for service. *)
Definition adc_request (s : MCXNADCState) (f : Z) : bool :=
  flag (reg s R_DE) (if f =? 0 then DE_FWMDE0 else DE_FWMDE1) && (adc_fwmark s f <? (fifo_count s).[f]).

Definition adc_update_dma_req (s : MCXNADCState) (f : Z) : MCXNADCState :=
  let req := adc_request s f in
  if negb (Bool.eqb req (dma_req_level s).[f]) then
    s <| dma_req_level := (dma_req_level s).[f <- req] |> <| dma_req := (dma_req s).[f <- req] |>
  else s.

(** An enabled status flag is set. *)
Definition adc_active (s : MCXNADCState) : bool :=
  let stat := reg s R_STAT in
  let ie := reg s R_IE in
  let active := negb ((stat .& ie) .& (STAT_RDY0 .| STAT_FOF0 .| STAT_RDY1 .| STAT_FOF1 .| STAT_TEXC_INT) =? 0) in
  if flag stat STAT_TCOMP_INT && flag ie IE_TCOMP_IE then true else active.

Definition mcxn_adc_update_irq (s : MCXNADCState) : MCXNADCState :=
  foldl adc_update_dma_req (s <| irq := adc_active s |>) (seqZ 0 MCXN_ADC_NFIFO).

(** STAT[RDYn] is a level: more entries than the watermark. *)
Definition adc_update_rdy (s : MCXNADCState) (f : Z) : MCXNADCState :=
  let rdy := if f =? 0 then STAT_RDY0 else STAT_RDY1 in
  if adc_fwmark s f <? (fifo_count s).[f] then set_reg s R_STAT (reg s R_STAT .| rdy)
  else set_reg s R_STAT (reg s R_STAT .& u32 (.~ rdy)).

Definition mcxn_adc_update_status (s : MCXNADCState) : MCXNADCState :=
  mcxn_adc_update_irq (foldl adc_update_rdy s (seqZ 0 MCXN_ADC_NFIFO)).

Definition adc_fifo_push (s : MCXNADCState) (f val : Z) : MCXNADCState :=
  let n := (fifo_count s).[f] in
  if MCXN_ADC_FIFO_DEPTH <=? n then
    set_reg s R_STAT (reg s R_STAT .| (if f =? 0 then STAT_FOF0 else STAT_FOF1))
  else s <| fifo := (fifo s).[f <- ((fifo s).[f]).[n <- val]] |> <| fifo_count := (fifo_count s).[f <- u8 (n + 1)] |>.

Definition adc_fifo_pop (s : MCXNADCState) (f : Z) : Z * MCXNADCState :=
  let n := (fifo_count s).[f] in
  if n =? 0 then (0, s)
  else
    let n := u8 (n - 1) in
    (((fifo s).[f]).[0],
     s <| fifo := (fifo s).[f <- fifo_shift ((fifo s).[f]) n] |> <| fifo_count := (fifo_count s).[f <- n] |>).

(** [ctz32] of a word that is not zero. *)
Definition ctz32 (v : Z) : Z := default 32 (head (filter (fun i => Z.testbit v i = true) (seqZ 0 32))).

(** The command trigger [trig] starts, and the channel the command selects. *)
Definition adc_command (s : MCXNADCState) (trig : Z) : Z :=
  if trig <? 4 then (reg s (R_TCTRL0 + trig * 4) .>> TCTRL_TCMD_SHIFT) .& TCTRL_TCMD_MASK else 0.
Definition adc_channel (s : MCXNADCState) (cmd : Z) : Z :=
  let ch := if (1 <=? cmd) && (cmd <=? 15) then reg s (R_CMD_BASE + (cmd - 1) * 8) .& CMDL_ADCH_MASK else 0 in
  if MCXN_ADC_CHANNELS <=? ch then 0 else ch.

Definition mcxn_adc_do_conversion (s : MCXNADCState) (swtrig : Z) : MCXNADCState :=
  if negb (flag (reg s R_CTRL) CTRL_ADCEN) then s
  else
    let trig := if negb (swtrig =? 0) then ctz32 swtrig else 0 in
    let cmd := adc_command s trig in
    let ch := adc_channel s cmd in
    let f := if (trig <? 4) && flag (reg s (R_TCTRL0 + trig * 4)) TCTRL_FIFO_SEL_A then 1 else 0 in
    mcxn_adc_update_status
      (adc_fifo_push s f
         ((adc_ch s).[ch] .| RESFIFO_VALID .| u32 ((cmd .& RESFIFO_CMDSRC_MASK) .<< RESFIFO_CMDSRC_SHIFT))).

Definition mcxn_adc_hw_trigger (s : MCXNADCState) (trig : Z) (level : bool) : MCXNADCState :=
  if negb level || (trig <? 0) || (4 <=? trig) then s
  else if negb (flag (reg s (R_TCTRL0 + trig * 4)) TCTRL_HTEN) then s
  else mcxn_adc_do_conversion s (bit trig).

Definition mcxn_adc_read (s : MCXNADCState) (offset : Z) : Z * MCXNADCState :=
  if (offset =? R_GCC0) || (offset =? R_GCC1) then (if flag (reg s R_STAT) STAT_CAL_RDY then GCC_RDY else 0, s)
  else if offset =? R_VERID then (ADC_VERID_VALUE, s)
  else if offset =? R_PARAM then (ADC_PARAM_VALUE, s)
  else if offset =? R_SWTRIG then (0, s)
  else if (offset =? R_FCTRL0) || (offset =? R_FCTRL1) then
    let f := if offset =? R_FCTRL1 then 1 else 0 in
    ((reg s offset .& u32 (.~ FCTRL_FCOUNT_MASK)) .| ((fifo_count s).[f] .& FCTRL_FCOUNT_MASK), s)
  else if (offset =? R_RESFIFO0) || (offset =? R_RESFIFO1) then
    let '(val, s) := adc_fifo_pop s (if offset =? R_RESFIFO1 then 1 else 0) in
    (val, mcxn_adc_update_status s)
  else (reg s offset, s).

Definition adc_write_ctrl (s : MCXNADCState) (v : Z) : MCXNADCState :=
  let s := if flag v (CTRL_CALOFS .| CTRL_CAL_REQ) then set_reg s R_STAT (reg s R_STAT .| STAT_CAL_RDY) else s in
  let s := if flag v CTRL_RST then (set_reg s R_STAT 0) <| fifo_count := [0; 0] |> else s in
  let s :=
    if flag v CTRL_RSTFIFO0 then
      let s := s <| fifo_count := (fifo_count s).[0 <- 0] |> in set_reg s R_STAT (reg s R_STAT .& u32 (.~ STAT_FOF0))
    else s in
  let s :=
    if flag v CTRL_RSTFIFO1 then
      let s := s <| fifo_count := (fifo_count s).[1 <- 0] |> in set_reg s R_STAT (reg s R_STAT .& u32 (.~ STAT_FOF1))
    else s in
  mcxn_adc_update_status (set_reg s R_CTRL (v .& u32 (.~ (CTRL_RST .| CTRL_RSTFIFO0 .| CTRL_RSTFIFO1)))).

Definition mcxn_adc_write (s : MCXNADCState) (offset value : Z) : MCXNADCState :=
  let v := u32 value in
  if (offset =? R_VERID) || (offset =? R_PARAM) then s
  else if (offset =? R_DE) || (offset =? R_FCTRL0) || (offset =? R_FCTRL1) then mcxn_adc_update_irq (set_reg s offset v)
  else if offset =? R_CTRL then adc_write_ctrl s v
  else if offset =? R_STAT then
    mcxn_adc_update_status
      (set_reg s R_STAT (reg s R_STAT .& u32 (.~ (v .& (STAT_FOF0 .| STAT_FOF1 .| STAT_TEXC_INT .| STAT_TCOMP_INT)))))
  else if offset =? R_IE then mcxn_adc_update_irq (set_reg s R_IE v)
  else if offset =? R_SWTRIG then if negb (v =? 0) then mcxn_adc_do_conversion s v else s
  else if (offset =? R_RESFIFO0) || (offset =? R_RESFIFO1) then s
  else set_reg s offset v.

Definition mcxn_adc_reset (s : MCXNADCState) : MCXNADCState :=
  let s := s <| regs := (replicate (Z.to_nat (MCXN_ADC_SIZE / 4)) 0).[0x020 / 4 <- 0x00800000] |> in
  s <| fifo := replicate 2 (replicate (Z.to_nat MCXN_ADC_FIFO_DEPTH) 0) |> <| fifo_count := [0; 0] |>
    <| adc_ch := replicate (Z.to_nat MCXN_ADC_CHANNELS) ADC_CH_DEFAULT |> <| irq := false |>.
Definition mcxn_adc_post_load (s : MCXNADCState) : MCXNADCState := mcxn_adc_update_irq s.

(** The operator drives the pin of channel [i] (property [adc-ch<i>]). *)
Definition adc_set_input (s : MCXNADCState) (i v : Z) : MCXNADCState := s <| adc_ch := (adc_ch s).[i <- u16 v] |>.

Definition adc_init : MCXNADCState :=
  mcxn_adc_reset (mkADC false [false; false] [false; false] [] [] [] []).

(** ** Frames *)

Record adc_wf (s : MCXNADCState) : Prop := {
  wf_regs : zlen (regs s) = 1024;
  wf_fifos : zlen (fifo s) = 2;
  wf_fifo : Forall (fun q => zlen q = 16) (fifo s);
  wf_counts : zlen (fifo_count s) = 2;
  wf_count : Forall (fun n => 0 <= n <= 16) (fifo_count s);
  wf_req : zlen (dma_req s) = 2;
  wf_level : zlen (dma_req_level s) = 2;
  wf_ch : zlen (adc_ch s) = 16;
}.

(** What the status and line updates leave alone. *)
Record adc_same (s s' : MCXNADCState) : Prop := {
  sm_fifo : fifo s' = fifo s;
  sm_count : fifo_count s' = fifo_count s;
  sm_ch : adc_ch s' = adc_ch s;
  sm_regs : zlen (regs s') = zlen (regs s);
  sm_reg : forall off, 0 <= off / 4 -> off / 4 <> R_STAT / 4 -> reg s' off = reg s off;
  sm_lines : zlen (dma_req s') = zlen (dma_req s) /\ zlen (dma_req_level s') = zlen (dma_req_level s);
}.
#[export] Instance adc_same_preorder : PreOrder adc_same.
Proof.
  split; [by split|]. intros a b c [] []. split; try congruence; [|split; intuition congruence].
  intros off H1 H2. rewrite sm_reg1, sm_reg0; done.
Qed.

Lemma adc_wf_same s s' : adc_same s s' -> adc_wf s -> adc_wf s'.
Proof. intros [] []. destruct sm_lines0. split; congruence. Qed.

Lemma adc_reg_set s off v off' : zlen (regs s) = 1024 -> 0 <= off / 4 < 1024 -> 0 <= off' / 4 ->
  reg (set_reg s off v) off' = if off' / 4 =? off / 4 then v else reg s off'.
Proof.
  intros Hl Ho Ho'. unfold reg, set_reg. change (regs (s <| regs := _ |>)) with ((regs s).[off / 4 <- v]).
  rewrite arr_get_set by lia. done.
Qed.

Lemma adc_same_stat s v : adc_wf s -> adc_same s (set_reg s R_STAT v).
Proof.
  intros Hw. split; try done; [cbn; by autorewrite with arrays|]. intros off H1 H2.
  rewrite adc_reg_set by (try apply Hw; done). by rewrite (proj2 (Z.eqb_neq _ _)).
Qed.

Lemma adc_update_dma_req_same s f : adc_wf s -> 0 <= f < 2 ->
  let s' := adc_update_dma_req s f in
  adc_same s s' /\ regs s' = regs s /\ irq s' = irq s /\ (dma_req_level s').[f] = adc_request s f /\
  (forall g, 0 <= g < 2 -> g <> f -> (dma_req_level s').[g] = (dma_req_level s).[g]) /\
  (dma_req s = dma_req_level s -> dma_req s' = dma_req_level s').
Proof.
  intros Hw Hf. unfold adc_update_dma_req. cbv zeta. destruct (Bool.eqb _ _) eqn:E; cbn [negb].
  - apply eqb_prop in E. by split_and!.
  - destruct Hw. split_and!; try done.
    + split; try done. cbn. by autorewrite with arrays.
    + cbn. apply arr_get_set_eq. lia.
    + intros g Hg Hne. cbn. apply arr_get_set_ne; lia.
    + cbn. by intros ->.
Qed.

Definition adc_wired (s : MCXNADCState) : Prop := dma_req s = dma_req_level s.

Lemma adc_request_regs s s' f : regs s' = regs s -> fifo_count s' = fifo_count s -> adc_request s' f = adc_request s f.
Proof. intros Hr Hc. unfold adc_request, adc_fwmark, reg. by rewrite Hr, Hc. Qed.

Lemma adc_update_irq_spec s : adc_wf s ->
  let s' := mcxn_adc_update_irq s in
  adc_same s s' /\ regs s' = regs s /\ irq s' = adc_active s /\
  (forall f, 0 <= f < 2 -> (dma_req_level s').[f] = adc_request s f) /\ (adc_wired s -> adc_wired s').
Proof.
  intros Hw. unfold mcxn_adc_update_irq. change (seqZ 0 MCXN_ADC_NFIFO) with [0; 1]. cbn [foldl].
  set (s0 := s <| irq := adc_active s |>). assert (H0 : adc_same s s0) by (by split). assert (Hw0 := adc_wf_same _ _ H0 Hw).
  destruct (adc_update_dma_req_same s0 0 Hw0 ltac:(lia)) as (Ha & Hra & Hia & Hla & _ & Hwa). set (s1 := adc_update_dma_req s0 0) in *.
  assert (Hw1 := adc_wf_same _ _ Ha Hw0).
  destruct (adc_update_dma_req_same s1 1 Hw1 ltac:(lia)) as (Hb & Hrb & Hib & Hlb & Hob & Hwb). set (s2 := adc_update_dma_req s1 1) in *.
  split; [by etransitivity; [|etransitivity]|]. split; [by rewrite Hrb, Hra|]. split; [by rewrite Hib, Hia|]. split; [|unfold adc_wired; auto].
  intros f Hf. assert (f = 0 \/ f = 1) as [-> | ->] by lia.
  - rewrite Hob, Hla by lia. by apply adc_request_regs.
  - rewrite Hlb. apply adc_request_regs; [by rewrite Hra | apply Ha].
Qed.

(** STAT with the two ready levels. *)
Definition with_rdy (st : Z) (r0 r1 : bool) : Z :=
  let st := if r0 then st .| STAT_RDY0 else st .& u32 (.~ STAT_RDY0) in
  if r1 then st .| STAT_RDY1 else st .& u32 (.~ STAT_RDY1).

Definition above (s : MCXNADCState) (f : Z) : bool := adc_fwmark s f <? (fifo_count s).[f].

Lemma adc_update_rdy_eq s f : adc_wf s -> 0 <= f < 2 ->
  adc_update_rdy s f =
    set_reg s R_STAT (let rdy := if f =? 0 then STAT_RDY0 else STAT_RDY1 in
                      if above s f then reg s R_STAT .| rdy else reg s R_STAT .& u32 (.~ rdy)).
Proof. intros Hw Hf. unfold adc_update_rdy, above. cbv zeta. by destruct (_ <? _). Qed.

Lemma adc_fwmark_same s s' f : adc_same s s' -> adc_fwmark s' f = adc_fwmark s f.
Proof. intros []. unfold adc_fwmark. rewrite sm_reg0; [done | |]; by destruct (f =? 0). Qed.
Lemma above_same s s' f : adc_same s s' -> above s' f = above s f.
Proof. intros Hs. unfold above. rewrite (adc_fwmark_same s s' f Hs). by rewrite (sm_count _ _ Hs). Qed.

Lemma adc_update_status_eq s : adc_wf s ->
  mcxn_adc_update_status s = mcxn_adc_update_irq (set_reg s R_STAT (with_rdy (reg s R_STAT) (above s 0) (above s 1))).
Proof.
  intros Hw. unfold mcxn_adc_update_status. change (seqZ 0 MCXN_ADC_NFIFO) with [0; 1]. cbn [foldl]. f_equal.
  rewrite (adc_update_rdy_eq s 0) by (try done; lia). cbn [Z.eqb].
  set (st := if above s 0 then _ else _). assert (Hs := adc_same_stat s st Hw). assert (Hw1 := adc_wf_same _ _ Hs Hw).
  rewrite adc_update_rdy_eq by (try done; lia). cbn [Z.eqb]. rewrite (above_same s) by done.
  rewrite adc_reg_set by (try apply Hw; done). rewrite Z.eqb_refl. unfold with_rdy. fold st.
  unfold set_reg. cbn. unfold arr_set. by rewrite list_insert_insert_eq.
Qed.

Lemma with_rdy_bit st r0 r1 i : 0 <= i < 32 ->
  Z.testbit (with_rdy st r0 r1) i = if i =? 0 then r0 else if i =? 2 then r1 else Z.testbit st i.
Proof.
  intros Hi. unfold with_rdy, STAT_RDY0, STAT_RDY1. cbv zeta.
  destruct r0, r1; autorewrite with bits; rewrite ?testbit_bit by lia; zcases; subst; cbn [andb orb negb]; try lia; try btauto.
Qed.

Lemma adc_update_status_spec s : adc_wf s ->
  let s' := mcxn_adc_update_status s in
  adc_same s s' /\ reg s' R_STAT = with_rdy (reg s R_STAT) (above s 0) (above s 1) /\ irq s' = adc_active s' /\
  (forall f, 0 <= f < 2 -> (dma_req_level s').[f] = adc_request s' f) /\ (adc_wired s -> adc_wired s').
Proof.
  intros Hw. cbv zeta. rewrite adc_update_status_eq by done. set (st := with_rdy _ _ _). assert (Hs := adc_same_stat s st Hw).
  set (s1 := set_reg s R_STAT st) in *. destruct (adc_update_irq_spec s1 (adc_wf_same _ _ Hs Hw)) as (H1 & H2 & H3 & H4 & H5).
  split; [by etransitivity|]. split; [|split; [|split; [|done]]].
  - unfold reg. rewrite H2. fold (reg s1 R_STAT). unfold s1. rewrite adc_reg_set by (try apply Hw; done). done.
  - rewrite H3. unfold adc_active, reg. by rewrite H2.
  - intros f Hf. rewrite H4 by done. symmetry. apply adc_request_regs; [done | apply H1].
Qed.

(** ** The FIFOs as bounded queues *)

Definition results (s : MCXNADCState) (f : Z) : list Z := take (Z.to_nat (fifo_count s).[f]) ((fifo s).[f]).
Definition overflowed (s : MCXNADCState) (f : Z) : bool := Z.testbit (reg s R_STAT) (2 * f + 1).

Lemma adc_counts s f : adc_wf s -> 0 <= f < 2 -> 0 <= (fifo_count s).[f] <= 16 /\ zlen ((fifo s).[f]) = 16 /\
  zlen (results s f) = (fifo_count s).[f].
Proof.
  intros [] Hf. assert (Hc : 0 <= (fifo_count s).[f] <= 16) by (apply (Forall_arr_get (fun n => 0 <= n <= 16)); [done | lia]).
  assert (Hq : zlen ((fifo s).[f]) = 16) by (apply (Forall_arr_get (fun q : list Z => zlen q = 16)); [done | lia]).
  split; [done|]. split; [done|]. unfold results. rewrite length_take. lia.
Qed.

(** The frame of an operation on FIFO [f]. *)
Record adc_touches (f : Z) (s s' : MCXNADCState) : Prop := {
  tc_wf : adc_wf s';
  tc_results : forall g, 0 <= g < 2 -> g <> f -> results s' g = results s g /\ overflowed s' g = overflowed s g;
  tc_ch : adc_ch s' = adc_ch s;
  tc_reg : forall off, 0 <= off / 4 -> off / 4 <> R_STAT / 4 -> reg s' off = reg s off;
}.

Lemma adc_push_spec s f v : adc_wf s -> 0 <= f < 2 ->
  let s' := adc_fifo_push s f v in
  adc_touches f s s' /\
  results s' f = (if zlen (results s f) <? 16 then results s f ++ [v] else results s f) /\
  overflowed s' f = overflowed s f || negb (zlen (results s f) <? 16).
Proof.
  intros Hw Hf. destruct (adc_counts s f Hw Hf) as (Hc & Hq & ->). cbv zeta. unfold adc_fifo_push, MCXN_ADC_FIFO_DEPTH.
  destruct (Z.ltb_spec (fifo_count s).[f] 16) as [Hlt|Hge].
  - rewrite (proj2 (Z.leb_gt _ _)), wrap_id by lia. set (n := (fifo_count s).[f]) in *. pose proof Hw as [].
    set (s' := s <| fifo := _ |> <| fifo_count := _ |>).
    assert (Hf' : (fifo s').[f] = ((fifo s).[f]).[n <- v]) by (apply (arr_get_set_eq (fifo s)); lia).
    assert (Hn' : (fifo_count s').[f] = n + 1) by (apply (arr_get_set_eq (fifo_count s)); lia).
    split; [|split; [unfold results; rewrite Hf', Hn'; apply fifo_push; lia | by rewrite orb_false_r]]. split; try done.
    + split; try done; unfold s'; cbn; autorewrite with arrays; try done; apply Forall_arr_set; try done; [by autorewrite with arrays | lia].
    + intros g Hg Hne. split; [|done]. unfold results, s'. cbn. by rewrite !arr_get_set_ne by lia.
  - rewrite (proj2 (Z.leb_le _ _)) by lia. set (s' := set_reg _ _ _). assert (Hs := adc_same_stat s _ Hw : adc_same s s').
    assert (Hst : forall g, 0 <= g < 2 -> overflowed s' g = overflowed s g || (g =? f)).
    { intros g Hg. unfold overflowed, s'. rewrite adc_reg_set by (try apply Hw; done). rewrite Z.eqb_refl, Z.lor_spec. f_equal.
      unfold STAT_FOF0, STAT_FOF1. assert (f = 0 \/ f = 1) as [-> | ->] by lia; assert (g = 0 \/ g = 1) as [-> | ->] by lia; reflexivity. }
    split; [|rewrite Hst, Z.eqb_refl by done; done]. split; [by eapply adc_wf_same | | done | apply Hs].
    intros g Hg Hne. split; [done|]. rewrite Hst, (proj2 (Z.eqb_neq _ _)) by done. apply orb_false_r.
Qed.

Lemma adc_pop_spec s f : adc_wf s -> 0 <= f < 2 ->
  let '(v, s') := adc_fifo_pop s f in
  adc_touches f s s' /\ overflowed s' f = overflowed s f /\
  match results s f with [] => v = 0 /\ results s' f = [] | x :: q => v = x /\ results s' f = q end.
Proof.
  intros Hw Hf. destruct (adc_counts s f Hw Hf) as (Hc & Hq & Hlen). unfold adc_fifo_pop. cbv zeta.
  destruct (Z.eqb_spec (fifo_count s).[f] 0) as [E|E].
  - split; [by split|]. split; [done|]. rewrite E in Hlen. destruct (results s f); [done | cbn in Hlen; lia].
  - rewrite wrap_id by lia. set (n := (fifo_count s).[f]) in *. pose proof Hw as [].
    set (s' := s <| fifo := _ |> <| fifo_count := _ |>).
    assert (Hf' : (fifo s').[f] = fifo_shift ((fifo s).[f]) (n - 1)) by (apply (arr_get_set_eq (fifo s)); lia).
    assert (Hn' : (fifo_count s').[f] = n - 1) by (apply (arr_get_set_eq (fifo_count s)); lia).
    split; [|split; [done|]].
    + split; try done.
      * split; try done; unfold s'; cbn; autorewrite with arrays; try done; apply Forall_arr_set; try done; [rewrite fifo_shift_len; lia | lia].
      * intros g Hg Hne. split; [|done]. unfold results, s'. cbn. by rewrite !arr_get_set_ne by lia.
    + unfold results at 1. fold n. rewrite fifo_pop by lia. split; [done|]. unfold results. by rewrite Hf', Hn'.
Qed.

Lemma adc_touches_status f s s' : 0 <= f < 2 -> adc_touches f s s' ->
  let s2 := mcxn_adc_update_status s' in
  adc_touches f s s2 /\ results s2 f = results s' f /\ overflowed s2 f = overflowed s' f.
Proof.
  intros Hf []. destruct (adc_update_status_spec s' tc_wf0) as (Hs & Hst & _). pose proof Hs as [].
  assert (Hr : forall g, results (mcxn_adc_update_status s') g = results s' g) by (intros; unfold results; by rewrite sm_fifo0, sm_count0).
  assert (Ho : forall g, 0 <= g < 2 -> overflowed (mcxn_adc_update_status s') g = overflowed s' g).
  { intros g Hg. unfold overflowed. rewrite Hst, with_rdy_bit by lia. zcases. done. }
  cbv zeta. split; [|by rewrite Hr, Ho]. split; [by eapply adc_wf_same | | congruence |].
  - intros g Hg Hne. rewrite Hr, Ho by done. by apply tc_results0.
  - intros. rewrite sm_reg0 by done. by apply tc_reg0.
Qed.

(** ** Triggers, conversions and reads *)

Inductive adc_op :=
  | SoftTrigger (v : Z)      (* SWTRIG := v *)
  | HardTrigger (t : Z)      (* an edge on trigger input t *)
  | ReadResult (f : Z)       (* a read of RESFIFO[f] *)
  | Flush (f : Z)            (* CTRL |= RSTFIFO[f] *)
  | Pin (i v : Z).           (* the voltage of a channel changes *)

Definition resfifo (f : Z) : Z := if f =? 0 then R_RESFIFO0 else R_RESFIFO1.
Definition rstfifo (f : Z) : Z := if f =? 0 then CTRL_RSTFIFO0 else CTRL_RSTFIFO1.

Definition adc_exec (s : MCXNADCState) (op : adc_op) : MCXNADCState * list Z :=
  match op with
  | SoftTrigger v => (mcxn_adc_write s R_SWTRIG v, [])
  | HardTrigger t => (mcxn_adc_hw_trigger s t true, [])
  | ReadResult f => let '(v, s) := mcxn_adc_read s (resfifo f) in (s, [v])
  | Flush f => (mcxn_adc_write s R_CTRL (reg s R_CTRL .| rstfifo f), [])
  | Pin i v => (adc_set_input s i v, [])
  end.

(** How the triggers are programmed. *)
Record adc_config := mkConfig {
  c_cmd : Z -> Z;         (* the command of a trigger *)
  c_ch : Z -> Z;          (* the channel a trigger converts *)
  c_dest : Z -> Z;        (* the FIFO its result goes to *)
  c_armed : Z -> bool     (* whether it accepts hardware triggers *)
}.
Definition config_of (s : MCXNADCState) : adc_config :=
  let tctrl t := reg s (R_TCTRL0 + t * 4) in
  mkConfig (fun t => adc_command s t) (fun t => adc_channel s (adc_command s t))
    (fun t => if (t <? 4) && flag (tctrl t) TCTRL_FIFO_SEL_A then 1 else 0) (fun t => flag (tctrl t) TCTRL_HTEN).

(** The converter as its user sees it: the pins, two queues of sixteen results
    and a sticky overflow flag for each. *)
Record adc_abs := mkAbs { pins : list Z; queues : list (list Z); lost : list bool }.
Definition abs_of (s : MCXNADCState) : adc_abs :=
  mkAbs (adc_ch s) (map (results s) [0; 1]) (map (overflowed s) [0; 1]).

Definition abs_convert (g : adc_config) (a : adc_abs) (t : Z) : adc_abs :=
  let f := c_dest g t in
  let q := (queues a).[f] in
  let r := (pins a).[c_ch g t] .| RESFIFO_VALID .| (c_cmd g t .<< 24) in
  if zlen q <? 16 then mkAbs (pins a) (queues a).[f <- q ++ [r]] (lost a)
  else mkAbs (pins a) (queues a) (lost a).[f <- true].

Definition abs_exec (g : adc_config) (a : adc_abs) (op : adc_op) : adc_abs * list Z :=
  match op with
  | SoftTrigger v => (if v =? 0 then a else abs_convert g a (ctz32 v), [])
  | HardTrigger t => (if (0 <=? t) && (t <? 4) && c_armed g t then abs_convert g a t else a, [])
  | ReadResult f =>
      match (queues a).[f] with
      | [] => (a, [0])
      | r :: q => (mkAbs (pins a) (queues a).[f <- q] (lost a), [r])
      end
  | Flush f => (mkAbs (pins a) (queues a).[f <- []] (lost a).[f <- false], [])
  | Pin i v => (mkAbs (pins a).[i <- v] (queues a) (lost a), [])
  end.

Definition op_ok (op : adc_op) : Prop :=
  match op with
  | SoftTrigger v => in_range 32 v
  | HardTrigger t => True
  | ReadResult f | Flush f => 0 <= f < 2
  | Pin i v => 0 <= i < 16 /\ in_range 16 v
  end.

(** Enabled, with the registers that program the triggers as in [s0]. *)
Record sampling (s0 s : MCXNADCState) : Prop := {
  sp_wf : adc_wf s;
  sp_on : flag (reg s R_CTRL) CTRL_ADCEN = true;
  sp_ctrl : in_range 32 (reg s R_CTRL) /\ reg s R_CTRL .& u32 (.~ (CTRL_RST .| CTRL_RSTFIFO0 .| CTRL_RSTFIFO1)) = reg s R_CTRL;
  sp_cfg : forall off, 0x0A0 <= off < 0x200 -> reg s off = reg s0 off;
}.

Lemma sampling_touch f s0 s s' : sampling s0 s -> adc_touches f s s' -> sampling s0 s'.
Proof.
  intros [] []. split; [done | by rewrite tc_reg0 | by rewrite !tc_reg0 by done|]. intros off Hoff. rewrite tc_reg0 by (change (R_STAT / 4) with 5; dlia). auto.
Qed.

Lemma abs_touch f s s' : 0 <= f < 2 -> adc_touches f s s' ->
  abs_of s' = mkAbs (adc_ch s) (queues (abs_of s)).[f <- results s' f] (lost (abs_of s)).[f <- overflowed s' f].
Proof.
  intros Hf []. unfold abs_of. rewrite tc_ch0. cbn [queues lost map].
  assert (f = 0 \/ f = 1) as [-> | ->] by lia;
    [destruct (tc_results0 1) as [-> ->] | destruct (tc_results0 0) as [-> ->]]; done || lia.
Qed.

Lemma abs_nth s f : 0 <= f < 2 -> (queues (abs_of s)).[f] = results s f /\ (lost (abs_of s)).[f] = overflowed s f.
Proof. intros Hf. assert (f = 0 \/ f = 1) as [-> | ->] by lia; done. Qed.

Lemma abs_id s f : 0 <= f < 2 ->
  (queues (abs_of s)).[f <- results s f] = queues (abs_of s) /\ (lost (abs_of s)).[f <- overflowed s f] = lost (abs_of s).
Proof. intros Hf. assert (f = 0 \/ f = 1) as [-> | ->] by lia; done. Qed.

Lemma adc_command_range s t : 0 <= adc_command s t < 16.
Proof. unfold adc_command. destruct (t <? 4); [|lia]. apply (in_range_land_r 4); [lia | split; done]. Qed.

Lemma adc_config_eq s0 s t : sampling s0 s -> 0 <= t ->
  adc_command s t = c_cmd (config_of s0) t /\ adc_channel s (adc_command s t) = c_ch (config_of s0) t /\
  (t < 4 -> reg s (R_TCTRL0 + t * 4) = reg s0 (R_TCTRL0 + t * 4)).
Proof.
  intros [] Ht. assert (Hr : t < 4 -> reg s (R_TCTRL0 + t * 4) = reg s0 (R_TCTRL0 + t * 4)) by (intros; apply sp_cfg0; unfold R_TCTRL0; lia).
  assert (Hc : adc_command s t = adc_command s0 t).
  { unfold adc_command. destruct (Z.ltb_spec t 4); [by rewrite Hr | done]. }
  split; [done|]. split; [|done]. cbn [config_of c_ch]. rewrite Hc. unfold adc_channel.
  pose proof (adc_command_range s0 t). destruct (Z.leb_spec 1 (adc_command s0 t)); cbn [andb]; [|done].
  rewrite (proj2 (Z.leb_le (adc_command s0 t) 15)) by lia. rewrite sp_cfg0 by (unfold R_CMD_BASE; lia). done.
Qed.

Lemma ctz32_range v : in_range 32 v -> v <> 0 -> 0 <= ctz32 v < 32.
Proof.
  intros Hv Hne. unfold ctz32. destruct (filter _ _) as [|i l] eqn:E; cbn [head default].
  - exfalso. apply Hne. apply Z.bits_inj'. intros i Hi. rewrite Z.bits_0. destruct (decide (i < 32)).
    + destruct (Z.testbit v i) eqn:Eb; [|done]. exfalso. apply (not_elem_of_nil i). rewrite <- E.
      apply list_elem_of_filter. split; [done|]. apply elem_of_seqZ. lia.
    + apply (testbit_range 32); [done | lia].
  - assert (Hi : i ∈ i :: l) by apply list_elem_of_here. rewrite <- E in Hi. apply list_elem_of_filter in Hi as [_ Hi%elem_of_seqZ]. cbn. lia.
Qed.

Lemma ctz32_bit t : 0 <= t < 4 -> ctz32 (bit t) = t /\ bit t <> 0.
Proof. intros Ht. assert (t = 0 \/ t = 1 \/ t = 2 \/ t = 3) as [-> | [-> | [-> | ->]]] by lia; by vm_compute. Qed.

Lemma adc_cmdsrc s t : u32 ((adc_command s t .& RESFIFO_CMDSRC_MASK) .<< RESFIFO_CMDSRC_SHIFT) = adc_command s t .<< 24.
Proof.
  pose proof (adc_command_range s t) as Hr. change RESFIFO_CMDSRC_MASK with (Z.ones 4). rewrite Z.land_ones, Z.mod_small by lia.
  unfold RESFIFO_CMDSRC_SHIFT. rewrite Z.shiftl_mul_pow2 by lia. apply wrap_id. lia.
Qed.

Lemma adc_convert_abs s0 s w : sampling s0 s -> w <> 0 -> 0 <= ctz32 w ->
  let s' := mcxn_adc_do_conversion s w in
  sampling s0 s' /\ abs_of s' = abs_convert (config_of s0) (abs_of s) (ctz32 w) /\
  adc_touches (c_dest (config_of s0) (ctz32 w)) s s'.
Proof.
  intros Hs Hw Ht. cbv zeta. unfold mcxn_adc_do_conversion. rewrite (sp_on _ _ Hs), (proj2 (Z.eqb_neq w 0) Hw). cbn [negb].
  set (t := ctz32 w) in *. rewrite adc_cmdsrc. destruct (adc_config_eq s0 s t Hs Ht) as (-> & Hch & Htc).
  set (f := if (t <? 4) && _ then 1 else 0).
  assert (Hfd : f = c_dest (config_of s0) t).
  { unfold f. cbn [config_of c_dest]. destruct (Z.ltb_spec t 4); cbn [andb]; [by rewrite Htc | done]. }
  assert (Hf : 0 <= f < 2) by (unfold f; destruct (_ && _); lia). clearbody f.
  rewrite Hch.
  unfold abs_convert. cbv zeta. rewrite <- Hfd. change (pins (abs_of s)) with (adc_ch s). rewrite (proj1 (abs_nth s f Hf)).
  set (r := _ .| _ .| _). destruct (adc_push_spec s f r (sp_wf _ _ Hs) Hf) as (Hp & Hq & Ho).
  destruct (adc_touches_status f s _ Hf Hp) as (Hp2 & Hq2 & Ho2). split; [by eapply sampling_touch|]. split; [|done].
  rewrite (abs_touch f s _ Hf Hp2), Hq2, Ho2, Hq, Ho. destruct (_ <? 16); cbn [negb].
  - by rewrite orb_false_r, (proj2 (abs_id s f Hf)).
  - by rewrite orb_true_r, (proj1 (abs_id s f Hf)).
Qed.

#[export] Instance adc_touches_trans f : Transitive (adc_touches f).
Proof.
  intros a b c [] []. split; [done | | congruence |].
  - intros g Hg Hne. destruct (tc_results0 g Hg Hne), (tc_results1 g Hg Hne). split; congruence.
  - intros. rewrite tc_reg1, tc_reg0; done.
Qed.

Lemma adc_stat_touch f s v : adc_wf s -> (forall g, 0 <= g < 2 -> g <> f -> Z.testbit v (2 * g + 1) = overflowed s g) ->
  let s' := set_reg s R_STAT v in
  adc_touches f s s' /\ results s' f = results s f /\ overflowed s' f = Z.testbit v (2 * f + 1).
Proof.
  intros Hw Hv. assert (Hs := adc_same_stat s v Hw). pose proof Hs as []. cbv zeta.
  assert (Ho : forall g, overflowed (set_reg s R_STAT v) g = Z.testbit v (2 * g + 1)).
  { intros g. unfold overflowed. rewrite adc_reg_set by (try apply Hw; done). done. }
  split; [|split; [done | apply Ho]]. split; [by eapply adc_wf_same | | done | done].
  intros g Hg Hne. split; [done|]. rewrite Ho. auto.
Qed.

(** The reset of FIFO [f] through CTRL. *)
Definition adc_flush (s : MCXNADCState) (f : Z) : MCXNADCState :=
  let s := s <| fifo_count := (fifo_count s).[f <- 0] |> in
  set_reg s R_STAT (reg s R_STAT .& u32 (.~ (if f =? 0 then STAT_FOF0 else STAT_FOF1))).

Lemma adc_flush_touch s f : adc_wf s -> 0 <= f < 2 ->
  adc_touches f s (adc_flush s f) /\ results (adc_flush s f) f = [] /\ overflowed (adc_flush s f) f = false.
Proof.
  intros Hw Hf. pose proof Hw as []. unfold adc_flush. cbv zeta. set (s1 := s <| fifo_count := _ |>).
  assert (H1 : adc_touches f s s1).
  { split; try done; [split; try done; unfold s1; cbn; autorewrite with arrays; try done; apply Forall_arr_set; [done | lia]|].
    intros g Hg Hne. split; [|done]. unfold results, s1. cbn. by rewrite arr_get_set_ne by lia. }
  destruct (adc_stat_touch f s1 (reg s1 R_STAT .& u32 (.~ (if f =? 0 then STAT_FOF0 else STAT_FOF1)))) as (H2 & H3 & H4); [apply H1 | |].
  { intros g Hg Hne. unfold STAT_FOF0, STAT_FOF1.
    assert (f = 0 \/ f = 1) as [-> | ->] by lia; assert (g = 0 \/ g = 1) as [-> | ->] by lia; try done; cbn [Z.eqb Z.mul Z.add Pos.mul Pos.add];
      rewrite Z.land_spec; apply andb_true_r. }
  split; [by etransitivity|]. rewrite H3, H4. unfold results, s1. cbn [fifo_count fifo modify].
  change (fifo_count (s <| fifo_count := ?x |>)) with x. rewrite arr_get_set_eq by lia. split; [done|].
  rewrite Z.land_spec. unfold STAT_FOF0, STAT_FOF1. assert (f = 0 \/ f = 1) as [-> | ->] by lia; apply andb_false_r.
Qed.

Lemma adc_ctrl_flags c f : 0 <= f < 2 -> c .& u32 (.~ (CTRL_RST .| CTRL_RSTFIFO0 .| CTRL_RSTFIFO1)) = c ->
  let v := c .| rstfifo f in
  flag v CTRL_RST = false /\ flag v CTRL_RSTFIFO0 = (f =? 0) /\ flag v CTRL_RSTFIFO1 = (f =? 1) /\
  v .& u32 (.~ (CTRL_RST .| CTRL_RSTFIFO0 .| CTRL_RSTFIFO1)) = c.
Proof.
  intros Hf Hc. cbv zeta. unfold rstfifo, CTRL_RST, CTRL_RSTFIFO0, CTRL_RSTFIFO1 in *. rewrite !flag_bit by lia.
  assert (Hb : Z.testbit c 1 = false /\ Z.testbit c 8 = false /\ Z.testbit c 9 = false).
  { rewrite <- Hc, !Z.land_spec. split_and!; apply andb_false_r. }
  destruct Hb as (H1 & H8 & H9). rewrite !Z.lor_spec, H1, H8, H9, Z.land_lor_distr_l, Hc.
  assert (f = 0 \/ f = 1) as [-> | ->] by lia; cbn [Z.eqb]; split_and!; try reflexivity; apply Z.lor_0_r.
Qed.

Lemma adc_flush_write s0 s f : sampling s0 s -> 0 <= f < 2 ->
  let s' := mcxn_adc_write s R_CTRL (reg s R_CTRL .| rstfifo f) in
  adc_touches f s s' /\ results s' f = [] /\ overflowed s' f = false.
Proof.
  intros [Hw _ [Hr Hc] _] Hf. cbv zeta. set (c := reg s R_CTRL) in *.
  destruct (adc_ctrl_flags c f Hf Hc) as (E1 & E2 & E3 & E4). set (v := c .| rstfifo f) in *.
  assert (Hv : in_range 32 v). { apply in_range_lor; [lia | done|]. unfold rstfifo. destruct (f =? 0); split; done. }
  change (mcxn_adc_write s R_CTRL v) with (adc_write_ctrl s (u32 v)). rewrite wrap_in_range by done.
  unfold adc_write_ctrl. rewrite E1, E2, E3, E4.
  set (s1 := if flag v (CTRL_CALOFS .| CTRL_CAL_REQ) then _ else _).
  assert (H1 : adc_touches f s s1).
  { unfold s1. destruct (flag v (CTRL_CALOFS .| CTRL_CAL_REQ)); [|by split]. apply adc_stat_touch; [done|]. intros g Hg _. unfold overflowed. rewrite Z.lor_spec.
    assert (g = 0 \/ g = 1) as [-> | ->] by lia; apply orb_false_r. }
  set (s2 := if f =? 1 then _ else _). assert (Hs2 : s2 = adc_flush s1 f).
  { unfold s2. assert (f = 0 \/ f = 1) as [-> | ->] by lia; done. }
  rewrite Hs2. destruct (adc_flush_touch s1 f (tc_wf _ _ _ H1) Hf) as (H2 & H3 & H4).
  set (s3 := set_reg (adc_flush s1 f) R_CTRL c).
  assert (H5 : adc_touches f s s3 /\ results s3 f = [] /\ overflowed s3 f = false).
  { assert (H12 : adc_touches f s (adc_flush s1 f)) by (by etransitivity). pose proof H12 as []. pose proof tc_wf0 as [].
    assert (Hreg : forall off, 0 <= off / 4 -> reg s3 off = if off / 4 =? R_CTRL / 4 then c else reg (adc_flush s1 f) off)
      by (intros; apply adc_reg_set; done).
    assert (Ho : forall g, overflowed s3 g = overflowed (adc_flush s1 f) g) by (intros; unfold overflowed; by rewrite Hreg).
    split; [|by rewrite Ho]. split; [split; try done; change (regs s3) with ((regs (adc_flush s1 f)).[R_CTRL / 4 <- c]); by autorewrite with arrays| | done |].
    - intros g Hg Hne. rewrite Ho. by apply tc_results0.
    - intros off Hoff Hne. rewrite Hreg by done. destruct (Z.eqb_spec (off / 4) (R_CTRL / 4)) as [E|]; [|auto]. unfold c, reg. by rewrite E. }
  destruct H5 as (H5 & H6 & H7). destruct (adc_touches_status f s s3 Hf H5) as (H8 & H9 & H10). by rewrite H9, H10.
Qed.

Lemma adc_read_result s f : adc_wf s -> 0 <= f < 2 ->
  let '(v, s') := mcxn_adc_read s (resfifo f) in
  adc_touches f s s' /\ overflowed s' f = overflowed s f /\
  match results s f with [] => v = 0 /\ results s' f = [] | x :: q => v = x /\ results s' f = q end.
Proof.
  intros Hw Hf.
  assert (E : mcxn_adc_read s (resfifo f) = let '(v, s) := adc_fifo_pop s f in (v, mcxn_adc_update_status s)).
  { unfold resfifo. assert (f = 0 \/ f = 1) as [-> | ->] by lia; done. }
  rewrite E. pose proof (adc_pop_spec s f Hw Hf) as Hp. destruct (adc_fifo_pop s f) as [v s1].
  destruct Hp as (Hp & Ho & Hq). destruct (adc_touches_status f s s1 Hf Hp) as (Hp2 & -> & ->). done.
Qed.

Definition adc_tracks (s0 s : MCXNADCState) (a : adc_abs) : Prop := sampling s0 s /\ abs_of s = a.

Lemma adc_exec_tracks s0 s a op : op_ok op -> adc_tracks s0 s a ->
  adc_tracks s0 (adc_exec s op).1 (abs_exec (config_of s0) a op).1 /\ (adc_exec s op).2 = (abs_exec (config_of s0) a op).2.
Proof.
  intros Hop [Hs <-]. unfold adc_tracks. destruct op as [v|t|f|f|i v]; cbn [adc_exec abs_exec op_ok] in *.
  - change (mcxn_adc_write s R_SWTRIG v) with (if negb (u32 v =? 0) then mcxn_adc_do_conversion s (u32 v) else s).
    rewrite wrap_in_range by done. destruct (Z.eqb_spec v 0); cbn [negb fst snd]; [done|]. split; [|done].
    destruct (adc_convert_abs s0 s v Hs) as (H1 & H2 & _); [done | by apply ctz32_range | done].
  - unfold mcxn_adc_hw_trigger. destruct (Z.ltb_spec t 0), (Z.leb_spec 4 t); cbn [negb orb]; try lia;
      rewrite ?(proj2 (Z.leb_le 0 t)), ?(proj2 (Z.leb_gt 0 t)), ?(proj2 (Z.ltb_ge t 4)), ?(proj2 (Z.ltb_lt t 4)) by lia; cbn [andb]; try done.
    cbn [config_of c_armed]. rewrite (proj2 (proj2 (adc_config_eq s0 s t Hs ltac:(lia)))) by lia.
    destruct (flag (reg s0 (R_TCTRL0 + t * 4)) TCTRL_HTEN); cbn [negb fst snd]; [|done]. split; [|done].
    destruct (ctz32_bit t ltac:(lia)) as [Ec Hb]. pose proof (adc_convert_abs s0 s (bit t) Hs Hb) as Hcv. rewrite Ec in Hcv.
    destruct Hcv as (H1 & H2 & _); [lia | done].
  - pose proof (adc_read_result s f (sp_wf _ _ Hs) Hop) as Hp. destruct (mcxn_adc_read s (resfifo f)) as [v s1].
    destruct Hp as (Hp & Ho & Hq). rewrite (proj1 (abs_nth s f Hop)). cbn [fst snd]. pose proof (abs_touch f s _ Hop Hp) as Ha.
    rewrite Ho, (proj2 (abs_id s f Hop)) in Ha.
    destruct (results s f) as [|r q] eqn:Er; destruct Hq as [-> Hq]; rewrite Hq in Ha; cbn [fst snd];
      (split; [|done]); (split; [by eapply sampling_touch|]); rewrite Ha; [|done].
    rewrite <- Er, (proj1 (abs_id s f Hop)). done.
  - destruct (adc_flush_write s0 s f Hs Hop) as (Hp & Hq & Ho). cbn [fst snd]. split; [|done]. split; [by eapply sampling_touch|].
    by rewrite (abs_touch f s _ Hop Hp), Hq, Ho.
  - cbn [fst snd]. destruct Hop as [Hi Hv]. split; [|done]. unfold adc_set_input. rewrite wrap_in_range by done. split; [|done].
    destruct Hs. split; try done. destruct sp_wf0. split; try done. cbn. by autorewrite with arrays.
Qed.

(** C26: The converter is a pair of queues.  Over any sequence of software and
    hardware triggers, pin changes, result reads and FIFO resets, a trigger
    converts the pin that its command selects at that moment and queues the
    result, tagged with the command, in the FIFO the trigger selects; reads return
    the results of a FIFO in order, and zero, which is not a valid result, when
    there is none; a result is lost only to a full FIFO of sixteen, and flagged;
    and an input that is not armed converts nothing. *)
Theorem adc_refines_queues s ops :
  sampling s s -> Forall op_ok ops ->
  let '(s', out) := run_ops adc_exec s ops in
  let '(a, out') := run_ops (abs_exec (config_of s)) (abs_of s) ops in
  out = out' /\ abs_of s' = a.
Proof.
  intros Hs Hops. pose proof (run_ops_simulates adc_exec (abs_exec (config_of s)) (adc_tracks s) op_ok (adc_exec_tracks s)
    ops s (abs_of s) Hops (conj Hs eq_refl)) as H.
  destruct (run_ops adc_exec s ops) as [s' out], (run_ops _ (abs_of s) ops) as [a out']. cbn [fst snd] in H.
  by destruct H as [[_ ?] ?].
Qed.

(** Trigger 0 runs command 3 on channel 5 into FIFO 1, from the routed input. *)
Definition adc_sample : MCXNADCState :=
  foldl (fun s (p : Z * Z) => mcxn_adc_write s p.1 p.2) adc_init
    [(R_TCTRL0, TCTRL_HTEN .| TCTRL_FIFO_SEL_A .| (3 .<< TCTRL_TCMD_SHIFT)); (R_CMD_BASE + 16, 5); (R_CTRL, CTRL_ADCEN)].
Lemma adc_sample_ok : sampling adc_sample adc_sample.
Proof. split; [split; try done; repeat constructor; done | done | split; [split|]; done | done]. Qed.

Lemma adc_refines_queues_witness :
  (run_ops adc_exec adc_sample [Pin 5 0xABC; HardTrigger 0; Pin 5 0x123; SoftTrigger 9; HardTrigger 1; ReadResult 1; ReadResult 1; ReadResult 1]).2
  = [0x83000ABC; 0x83000123; 0].
Proof.
  pose proof (adc_refines_queues adc_sample
    [Pin 5 0xABC; HardTrigger 0; Pin 5 0x123; SoftTrigger 9; HardTrigger 1; ReadResult 1; ReadResult 1; ReadResult 1] adc_sample_ok) as H.
  destruct (run_ops adc_exec _ _) as [s' out]. destruct (run_ops (abs_exec _) _ _) as [a out'] eqn:E.
  destruct H as [-> _]; [repeat constructor; done|]. apply (f_equal snd) in E. vm_compute in E. by subst out'.
Defined.

(** ** The lines *)

(** Ready flags, interrupt line and DMA requests say what the FIFOs hold. *)
Record adc_ok (s : MCXNADCState) : Prop := {
  ok_wf : adc_wf s;
  ok_wired : adc_wired s;
  ok_irq : irq s = adc_active s;
  ok_level : forall f, 0 <= f < 2 -> (dma_req_level s).[f] = adc_request s f;
  ok_rdy : forall f, 0 <= f < 2 -> Z.testbit (reg s R_STAT) (2 * f) = above s f;
}.

Lemma adc_ok_status s : adc_wf s -> adc_wired s -> adc_ok (mcxn_adc_update_status s).
Proof.
  intros Hw Hd. destruct (adc_update_status_spec s Hw) as (H1 & H2 & H3 & H4 & H5). split; [by eapply adc_wf_same | auto | done | done|].
  intros f Hf. rewrite (above_same s _ f H1), H2, with_rdy_bit by lia. assert (f = 0 \/ f = 1) as [-> | ->] by lia; done.
Qed.

Lemma adc_ok_irq s : adc_wf s -> adc_wired s -> (forall f, 0 <= f < 2 -> Z.testbit (reg s R_STAT) (2 * f) = above s f) ->
  adc_ok (mcxn_adc_update_irq s).
Proof.
  intros Hw Hd Hr. destruct (adc_update_irq_spec s Hw) as (H1 & H2 & H3 & H4 & H5). split.
  - by eapply adc_wf_same.
  - auto.
  - rewrite H3. unfold adc_active, reg. by rewrite H2.
  - intros f Hf. rewrite H4 by done. symmetry. apply adc_request_regs; [done | apply H1].
  - intros f Hf. rewrite (above_same s) by done. unfold reg. rewrite H2. by apply Hr.
Qed.

Lemma adc_wf_set_reg s off v : adc_wf s -> adc_wf (set_reg s off v).
Proof. intros []. split; try done. cbn. by autorewrite with arrays. Qed.

Lemma adc_above_set s off v f : adc_wf s -> 0 <= off / 4 < 1024 -> off / 4 <> (if f =? 0 then R_FCTRL0 else R_FCTRL1) / 4 ->
  above (set_reg s off v) f = above s f.
Proof.
  intros Hw Ho Hne. unfold above, adc_fwmark. rewrite adc_reg_set; [|apply Hw | done | by destruct (f =? 0)].
  by rewrite (proj2 (Z.eqb_neq _ _)) by done.
Qed.

(** A store into a register that only holds its value. *)
Lemma adc_ok_store s off v : adc_ok s -> 0 <= off / 4 < 1024 ->
  off / 4 <> R_STAT / 4 -> off / 4 <> R_IE / 4 -> off / 4 <> R_DE / 4 -> off / 4 <> R_FCTRL0 / 4 -> off / 4 <> R_FCTRL1 / 4 ->
  adc_ok (set_reg s off v).
Proof.
  intros [] Ho H1 H2 H3 H4 H5.
  assert (Hr : forall o, 0 <= o / 4 -> off / 4 <> o / 4 -> reg (set_reg s off v) o = reg s o).
  { intros o Hp Hne. rewrite adc_reg_set by (try apply ok_wf0; done). by rewrite (proj2 (Z.eqb_neq _ _)) by congruence. }
  assert (Ha : forall f, above (set_reg s off v) f = above s f) by (intros; apply adc_above_set; [done | done | by destruct (f =? 0)]).
  split; [by apply adc_wf_set_reg | done | | |].
  - unfold adc_active. by rewrite !Hr by done.
  - intros f Hf. unfold adc_request. fold (above (set_reg s off v) f). rewrite Ha, Hr by done. by apply ok_level0.
  - intros f Hf. rewrite Ha, Hr by done. by apply ok_rdy0.
Qed.

(** What happens to a converter: word accesses (the watermark of a FIFO being
    programmed while it is empty), trigger edges, pin changes and migration. *)
Inductive adc_step : relation MCXNADCState :=
  | adc_step_write s off v : 0 <= off < 4096 -> off mod 4 = 0 ->
      (off = R_FCTRL0 -> (fifo_count s).[0] = 0) -> (off = R_FCTRL1 -> (fifo_count s).[1] = 0) ->
      adc_step s (mcxn_adc_write s off v)
  | adc_step_read s off : adc_step s (mcxn_adc_read s off).2
  | adc_step_trigger s t level : adc_step s (mcxn_adc_hw_trigger s t level)
  | adc_step_pin s i v : adc_step s (adc_set_input s i v)
  | adc_step_load s : adc_step s (mcxn_adc_post_load s).

Create HintDb adc.
Definition adc_pre (s : MCXNADCState) : Prop := adc_wf s /\ adc_wired s.

Lemma adc_pre_reg s off v : adc_pre s -> adc_pre (set_reg s off v).
Proof. intros [Hw Hd]. split; [by apply adc_wf_set_reg | done]. Qed.
Lemma adc_pre_count s l : adc_pre s -> zlen l = 2 -> Forall (fun n => 0 <= n <= 16) l -> adc_pre (s <| fifo_count := l |>).
Proof. intros [[] Hd] Hl Hf. by split. Qed.
Lemma adc_pre_clear s f : adc_pre s -> adc_pre (s <| fifo_count := (fifo_count s).[f <- 0] |>).
Proof.
  intros Hs. pose proof Hs as [[] _]. apply adc_pre_count; [done | by autorewrite with arrays|]. apply Forall_arr_set; [done | lia].
Qed.
Lemma adc_pre_status s : adc_pre s -> adc_ok (mcxn_adc_update_status s).
Proof. intros []. by apply adc_ok_status. Qed.
#[local] Hint Resolve adc_pre_reg adc_pre_clear adc_pre_status : adc.

Lemma adc_ok_pre s : adc_ok s -> adc_pre s.
Proof. intros []. by split. Qed.
#[local] Hint Resolve adc_ok_pre : adc.

Lemma adc_convert_ok s w : adc_ok s -> adc_ok (mcxn_adc_do_conversion s w).
Proof.
  intros Hs. unfold mcxn_adc_do_conversion. destruct (negb _); [done|]. cbv zeta. apply adc_pre_status.
  set (f := if (_ <? 4) && _ then 1 else 0). assert (Hf : 0 <= f < 2) by (unfold f; destruct (_ && _); lia).
  set (v := _ .| _ .| _). split; [apply (adc_push_spec s f v (ok_wf _ Hs) Hf)|].
  unfold adc_fifo_push. cbv zeta. destruct (_ <=? _); apply Hs.
Qed.

Lemma adc_write_ctrl_ok s v : adc_pre s -> adc_ok (adc_write_ctrl s v).
Proof.
  intros Hs. unfold adc_write_ctrl. cbv zeta.
  assert (H1 : adc_pre (if flag v (CTRL_CALOFS .| CTRL_CAL_REQ) then set_reg s R_STAT (reg s R_STAT .| STAT_CAL_RDY) else s))
    by (destruct (flag v _); auto with adc).
  revert H1. generalize (if flag v (CTRL_CALOFS .| CTRL_CAL_REQ) then set_reg s R_STAT (reg s R_STAT .| STAT_CAL_RDY) else s). clear s Hs.
  intros s Hs.
  assert (H2 : adc_pre (if flag v CTRL_RST then (set_reg s R_STAT 0) <| fifo_count := [0; 0] |> else s)).
  { destruct (flag v _); [|done]. apply adc_pre_count; [auto with adc | done | repeat constructor; lia]. }
  revert H2. generalize (if flag v CTRL_RST then (set_reg s R_STAT 0) <| fifo_count := [0; 0] |> else s). clear s Hs.
  intros s Hs. apply adc_pre_status, adc_pre_reg. destruct (flag v CTRL_RSTFIFO0), (flag v CTRL_RSTFIFO1); auto 6 with adc.
Qed.

Lemma adc_word_index o o' : o mod 4 = 0 -> o' mod 4 = 0 -> o <> o' -> o / 4 <> o' / 4.
Proof. intros. dlia. Qed.

Lemma adc_write_ok s off v : adc_ok s -> 0 <= off < 4096 -> off mod 4 = 0 ->
  (off = R_FCTRL0 -> (fifo_count s).[0] = 0) -> (off = R_FCTRL1 -> (fifo_count s).[1] = 0) -> adc_ok (mcxn_adc_write s off v).
Proof.
  intros Hs Hoff Hal H0 H1. assert (Hidx : 0 <= off / 4 < 1024) by dlia. unfold mcxn_adc_write. cbv zeta.
  destruct (Z.eqb_spec off R_VERID); [done|]. destruct (Z.eqb_spec off R_PARAM); [done|]. cbn [orb].
  destruct (decide (off = R_DE \/ off = R_FCTRL0 \/ off = R_FCTRL1)) as [Hd|Hd].
  { replace (_ || _ || _) with true by (destruct Hd as [-> | [-> | ->]]; done).
    apply adc_ok_irq; [by apply adc_wf_set_reg, Hs | apply Hs|]. intros f Hf. rewrite adc_reg_set by (try apply Hs; done).
    replace (R_STAT / 4 =? off / 4) with false by (destruct Hd as [-> | [-> | ->]]; done). rewrite (ok_rdy _ Hs) by done.
    destruct (decide (off / 4 = (if f =? 0 then R_FCTRL0 else R_FCTRL1) / 4)) as [E|E]; [|symmetry; apply adc_above_set; [apply Hs | done..]].
    assert (Hc : (fifo_count s).[f] = 0).
    { assert (f = 0 \/ f = 1) as [-> | ->] by lia; [apply H0 | apply H1]; destruct Hd as [-> | [-> | ->]]; done. }
    unfold above. change (fifo_count (set_reg s off (u32 v))) with (fifo_count s). rewrite Hc.
    assert (Hp : forall s', 0 <= adc_fwmark s' f) by (intros; apply Z.land_nonneg; by right).
    pose proof (Hp s). pose proof (Hp (set_reg s off (u32 v))). by rewrite !(proj2 (Z.ltb_ge _ _)) by lia. }
  replace (_ || _ || _) with false by (symmetry; rewrite !orb_false_iff, !Z.eqb_neq; tauto).
  destruct (Z.eqb_spec off R_CTRL); [apply adc_write_ctrl_ok; auto with adc|].
  destruct (Z.eqb_spec off R_STAT); [auto with adc|].
  destruct (Z.eqb_spec off R_IE) as [->|].
  { apply adc_ok_irq; [by apply adc_wf_set_reg, Hs | apply Hs|]. intros f Hf. rewrite adc_reg_set by (try apply Hs; done).
    cbn [Z.eqb]. rewrite adc_above_set; [apply (ok_rdy _ Hs f Hf) | apply Hs | done | by destruct (f =? 0)]. }
  destruct (Z.eqb_spec off R_SWTRIG); [destruct (negb _); auto using adc_convert_ok|].
  destruct (_ || _); [done|]. apply adc_ok_store; try done; apply adc_word_index; tauto || done.
Qed.

Lemma adc_step_ok s s' : adc_step s s' -> adc_ok s -> adc_ok s'.
Proof.
  intros [] Hs.
  - by apply adc_write_ok.
  - unfold mcxn_adc_read. repeat match goal with |- context [if ?b then _ else _] => destruct b; try done end;
      match goal with |- context [adc_fifo_pop ?x ?f] => pose proof (adc_pop_spec x f (ok_wf _ Hs) ltac:(lia)) as Hp;
        assert (Hd : adc_wired (adc_fifo_pop x f).2) by (unfold adc_fifo_pop; cbv zeta; destruct (_ =? 0); apply Hs);
        destruct (adc_fifo_pop x f) as [v s1] end;
      apply adc_pre_status; destruct Hp as [[] _]; done.
  - unfold mcxn_adc_hw_trigger. repeat case_match; auto using adc_convert_ok.
  - destruct Hs. split; try done. destruct ok_wf0. split; try done. cbn. by autorewrite with arrays.
  - apply adc_ok_irq; apply Hs.
Qed.

Lemma adc_init_ok : adc_ok adc_init.
Proof.
  split; try done; [split; try done; repeat constructor; lia | |]; intros f Hf; assert (f = 0 \/ f = 1) as [-> | ->] by lia; done.
Qed.

(** The flags and lines of the converter tell the truth.  In every state
    reachable from reset a FIFO is flagged ready exactly when it holds more
    results than its watermark, its DMA request is high exactly when it does and
    the request is enabled, and the interrupt line is high exactly when an enabled
    flag is set. *)
Theorem adc_lines s f :
  rtc adc_step adc_init s -> 0 <= f < 2 ->
  let more := adc_fwmark s f <? zlen (results s f) in
  flag (mcxn_adc_read s R_STAT).1 (if f =? 0 then STAT_RDY0 else STAT_RDY1) = more /\
  (dma_req s).[f] = flag (mcxn_adc_read s R_DE).1 (bit f) && more /\
  irq s = adc_active s.
Proof.
  intros Hr Hf more. assert (Hs : adc_ok s) by (eapply rtc_invariant; [exact adc_step_ok | exact Hr | exact adc_init_ok]).
  destruct Hs. destruct (adc_counts s f ok_wf0 Hf) as (_ & _ & Hlen). unfold more. rewrite Hlen.
  split; [|split; [|done]].
  - unfold STAT_RDY0, STAT_RDY1. specialize (ok_rdy0 f Hf).
    assert (f = 0 \/ f = 1) as [-> | ->] by lia; cbn [Z.eqb]; rewrite flag_bit by lia; apply ok_rdy0.
  - rewrite ok_wired0, ok_level0 by done. unfold adc_request. by assert (f = 0 \/ f = 1) as [-> | ->] by lia.
Qed.

Lemma adc_step_config s off v : 0 <= off < 4096 -> off mod 4 = 0 -> off <> R_FCTRL0 -> off <> R_FCTRL1 ->
  rtc adc_step adc_init s -> rtc adc_step adc_init (mcxn_adc_write s off v).
Proof. intros H1 H2 H3 H4 Hr. eapply rtc_r; [exact Hr|]. by apply adc_step_write. Qed.

Lemma adc_lines_witness :
  let s := mcxn_adc_hw_trigger (mcxn_adc_write adc_sample R_DE DE_FWMDE1) 0 true in
  (dma_req s).[1] = true /\ flag (mcxn_adc_read s R_STAT).1 STAT_RDY1 = true.
Proof.
  destruct (adc_lines (mcxn_adc_hw_trigger (mcxn_adc_write adc_sample R_DE DE_FWMDE1) 0 true) 1) as (H1 & H2 & _); [|lia|].
  - apply (rtc_r _ (mcxn_adc_write adc_sample R_DE DE_FWMDE1)); [|apply adc_step_trigger].
    unfold adc_sample. cbn [foldl fst snd]. do 4 (apply adc_step_config; [done..|]). apply rtc_refl.
  - cbv zeta. rewrite H2. change STAT_RDY1 with (if 1 =? 0 then STAT_RDY0 else STAT_RDY1). rewrite H1. vm_compute. split; reflexivity.
Defined.

(** ** Departures of the code from its comments *)

(** The ready flag is meant to be a level that every path re-derives; a
    watermark write re-derives the lines only, and the flag (with its interrupt)
    stays set over a FIFO that is no longer above its watermark. *)
Theorem adc_watermark_write_stale :
  let s := mcxn_adc_write (mcxn_adc_hw_trigger adc_sample 0 true) R_IE STAT_RDY1 in
  let s := mcxn_adc_write s R_FCTRL1 (1 .<< FCTRL_FWMARK_SHIFT) in
  adc_fwmark s 1 = 1 /\ results s 1 = [0x83000800] /\ flag (reg s R_STAT) STAT_RDY1 = true /\ irq s = true.
Proof. vm_compute. auto. Qed.

(** A reset disables the DMA requests and empties the FIFOs but leaves a request
    line asserted. *)
Theorem adc_reset_keeps_request :
  let s := mcxn_adc_reset (mcxn_adc_hw_trigger (mcxn_adc_write adc_sample R_DE DE_FWMDE1) 0 true) in
  (dma_req s).[1] = true /\ reg s R_DE = 0 /\ results s 1 = [].
Proof. vm_compute. auto. Qed.
