(* ===== verification/Signal.v ===== *)
(** * Discrete-time signals

    The reference mathematics of the sigma-delta filters of [Sinc]: signals
    indexed by the integers, running sums, differences and moving sums, and the
    identity behind a cascaded integrator-comb filter,

<<
      (1 - z^-R)^n  *  (1 / (1 - z^-1))^n   =   (1 + z^-1 + ... + z^-(R-1))^n
>>

    on causal signals.  Two signals that agree up to a time are related by the
    equivalence [agree]; every operator is a morphism for it, which is
    causality. *)
From Stdlib Require Import Setoid Morphisms.
From S2P Require Import Prelude.

Definition signal : Type := Z -> Z.

Definition agree (t : Z) (f g : signal) : Prop := forall u, u <= t -> f u = g u.

#[export] Instance agree_equiv t : Equivalence (agree t).
Proof.
  split; [by intros f u | by intros f g Hfg u Hu; symmetry; apply Hfg|].
  intros f g h Hfg Hgh u Hu. by rewrite Hfg, Hgh.
Qed.

Lemma agree_le t u f g : u <= t -> agree t f g -> agree u f g.
Proof. intros Hle Hfg v Hv. apply Hfg. lia. Qed.

(** Nothing before time 1. *)
Definition causal (f : signal) : Prop := forall t, t <= 0 -> f t = 0.

Fixpoint sum_n (n : nat) (f : Z -> Z) : Z :=
  match n with O => 0 | S n => sum_n n f + f (Z.of_nat n) end.

(** [1 / (1 - z^-1)], [1 - z^-r] and [1 + ... + z^-(r-1)] *)
Definition running_sum (f : signal) : signal := fun t => sum_n (Z.to_nat t) (fun i => f (i + 1)).
Definition diff (r : Z) (f : signal) : signal := fun t => f t - f (t - r).
Definition moving_sum (r : Z) (f : signal) : signal := fun t => sum_n (Z.to_nat r) (fun i => f (t - i)).

Lemma sum_n_ext n f g : (forall i, 0 <= i < Z.of_nat n -> f i = g i) -> sum_n n f = sum_n n g.
Proof.
  induction n as [|n IH]; intros Hfg; cbn [sum_n]; [done|].
  rewrite IH, (Hfg (Z.of_nat n)) by (intros; try apply Hfg; lia). done.
Qed.

Lemma sum_n_sub n f g : sum_n n (fun i => f i - g i) = sum_n n f - sum_n n g.
Proof. induction n as [|n IH]; cbn [sum_n]; lia. Qed.

Lemma sum_n_bound n f b : (forall i, Z.abs (f i) <= b) -> Z.abs (sum_n n f) <= Z.of_nat n * b.
Proof. intros Hf. induction n as [|n IH]; cbn [sum_n]; [lia|]. specialize (Hf (Z.of_nat n)). nia. Qed.

#[export] Instance running_sum_proper t : Proper (agree t ==> agree t) running_sum.
Proof. intros f g Hfg u Hu. apply sum_n_ext. intros i Hi. apply Hfg. lia. Qed.

#[export] Instance diff_proper r t : 0 <= r -> Proper (agree t ==> agree t) (diff r).
Proof. intros Hr f g Hfg u Hu. unfold diff. rewrite !Hfg by lia. done. Qed.

#[export] Instance moving_sum_proper r t : Proper (agree t ==> agree t) (moving_sum r).
Proof. intros f g Hfg u Hu. apply sum_n_ext. intros i Hi. apply Hfg. lia. Qed.

#[export] Instance iter_proper n (F : signal -> signal) t :
  Proper (agree t ==> agree t) F -> Proper (agree t ==> agree t) (Nat.iter n F).
Proof. intros HF f g Hfg. induction n as [|n IH]; [done|]. by apply HF. Qed.

Lemma causal_running_sum f : causal (running_sum f).
Proof. intros t Ht. unfold running_sum. by replace (Z.to_nat t) with O by lia. Qed.

Lemma causal_iter_running_sum n f : causal f -> causal (Nat.iter n running_sum f).
Proof. intros Hf. destruct n; [done | apply causal_running_sum]. Qed.

Lemma running_sum_step f t : causal f -> running_sum f (t + 1) = running_sum f t + f (t + 1).
Proof.
  intros Hf. unfold running_sum. destruct (decide (0 <= t)) as [Ht|Ht].
  - replace (Z.to_nat (t + 1)) with (S (Z.to_nat t)) by lia. cbn [sum_n]. by rewrite Z2Nat.id.
  - rewrite (Hf (t + 1)) by lia. replace (Z.to_nat (t + 1)) with (Z.to_nat t) by lia. lia.
Qed.

(** One stage of the cascade. *)
Lemma diff_running_sum r f t : 0 <= r -> causal f -> agree t (diff r (running_sum f)) (moving_sum r f).
Proof.
  intros Hr Hf u _. revert r Hr. apply natlike_ind; [unfold diff, moving_sum; rewrite Z.sub_0_r, Z.sub_diag; done|].
  intros r Hr IH. unfold diff, moving_sum in *. rewrite Z2Nat.inj_succ by lia. cbn [sum_n]. rewrite <- IH, Z2Nat.id by lia.
  pose proof (running_sum_step f (u - Z.succ r) Hf) as Hs. replace (u - Z.succ r + 1) with (u - r) in Hs by lia. lia.
Qed.

Lemma diff_moving_sum r f t : agree t (diff r (moving_sum r f)) (moving_sum r (diff r f)).
Proof.
  intros u _. unfold diff, moving_sum. rewrite sum_n_sub. f_equal. apply sum_n_ext. intros i _. f_equal. lia.
Qed.

Lemma iter_diff_moving_sum n r f t : 0 <= r ->
  agree t (Nat.iter n (diff r) (moving_sum r f)) (moving_sum r (Nat.iter n (diff r) f)).
Proof.
  intros Hr. pose proof (diff_proper r t Hr). induction n as [|n IH]; [done|]. cbn [Nat.iter nat_rect].
  etransitivity; [by apply (diff_proper r t Hr), IH | apply diff_moving_sum].
Qed.

(** The whole cascade: n integrators and n combs are n moving sums. *)
Lemma cic_moving_sums n r f t : 0 <= r -> causal f ->
  agree t (Nat.iter n (diff r) (Nat.iter n running_sum f)) (Nat.iter n (moving_sum r) f).
Proof.
  intros Hr Hf. induction n as [|n IH]; [done|]. rewrite Nat.iter_succ_r. cbn [Nat.iter nat_rect].
  transitivity (Nat.iter n (diff r) (moving_sum r (Nat.iter n running_sum f))).
  - apply iter_proper; [by apply diff_proper|]. apply diff_running_sum; [done | by apply causal_iter_running_sum].
  - etransitivity; [by apply iter_diff_moving_sum | by apply moving_sum_proper].
Qed.

Lemma moving_sums_bound n r f t : 0 <= r -> (forall u, Z.abs (f u) <= 1) ->
  Z.abs (Nat.iter n (moving_sum r) f t) <= r ^ Z.of_nat n.
Proof.
  intros Hr Hf. revert t. induction n as [|n IH]; intros t; [apply Hf|]. cbn [Nat.iter nat_rect].
  rewrite Nat2Z.inj_succ, Z.pow_succ_r by lia.
  pose proof (sum_n_bound (Z.to_nat r) (fun i => Nat.iter n (moving_sum r) f (t - i)) _ ltac:(intros; apply IH)).
  rewrite Z2Nat.id in H by lia. done.
Qed.

Lemma causal_moving_sums n r f : causal f -> causal (Nat.iter n (moving_sum r) f).
Proof.
  intros Hf. induction n as [|n IH]; [done|]. intros t Ht. cbn [Nat.iter nat_rect]. unfold moving_sum.
  rewrite (sum_n_ext _ _ (fun _ => 0)) by (intros; apply IH; lia). induction (Z.to_nat r); cbn [sum_n]; lia.
Qed.

Lemma causal_iter_diff n r f : 0 <= r -> causal f -> causal (Nat.iter n (diff r) f).
Proof.
  intros Hr Hf. induction n as [|n IH]; [done|]. intros t Ht. rewrite Nat.iter_succ. unfold diff.
  rewrite !IH by lia. done.
Qed.

(** A finite recording as a signal: its first sample at time 1. *)
Definition recording (h : list Z) : signal := fun t => if t <=? 0 then 0 else default 0 (h !! Z.to_nat (t - 1)).

Lemma recording_causal h : causal (recording h).
Proof. intros t Ht. unfold recording. by rewrite (proj2 (Z.leb_le _ _)). Qed.

Lemma recording_snoc_old h x : agree (zlen h) (recording h) (recording (h ++ [x])).
Proof.
  intros t Ht. unfold recording. destruct (Z.leb_spec t 0); [done|]. by rewrite lookup_app_l by lia.
Qed.

Lemma recording_snoc_new h x : recording (h ++ [x]) (zlen h + 1) = x.
Proof.
  unfold recording. rewrite (proj2 (Z.leb_gt _ _)) by lia. replace (Z.to_nat (zlen h + 1 - 1)) with (length h) by lia.
  by rewrite list_lookup_middle.
Qed.

Lemma recording_bound h b t : 0 <= b -> Forall (fun x => Z.abs x <= b) h -> Z.abs (recording h t) <= b.
Proof.
  intros Hb Hh. unfold recording. destruct (_ <=? _); [lia|]. destruct (h !! _) as [x|] eqn:E; cbn; [|lia].
  by eapply Forall_lookup_1 in Hh.
Qed.
