(* ===== verification/Sinc.v ===== *)
(** * SINC: the sigma-delta decimation filters

    Model of [hw/misc/mcxn_sinc.c]: five channels, each a cascade of
    integrators at the rate of the bitstream and combs at the decimated rate
    (with the FastSinc variant), the scaling, bias and saturation of the result,
    the result FIFOs, the interrupt and the DMA request lines.  The filter is
    proved equal to its reference, a cascade of moving sums over the whole
    bitstream, although its 64-bit integrators overflow. *)
From S2P Require Import Prelude Signal.

Definition SINC_VERID : Z := 0x00.
Definition SINC_PARAMETER : Z := 0x04.
Definition SINC_MCR : Z := 0x08.
Definition SINC_NIE : Z := 0x0C.
Definition SINC_EIE : Z := 0x10.
Definition SINC_FIFOIE : Z := 0x14.
Definition SINC_NIS : Z := 0x18.
Definition SINC_EIS : Z := 0x1C.
Definition SINC_FIFOIS : Z := 0x20.
Definition SINC_SR : Z := 0x24.
Definition MCXN_SINC_SIZE : Z := 0x1000.
Definition MCXN_SINC_NUM_CH : Z := 5.
Definition MCXN_SINC_FIFO_DEPTH : Z := 8.
Definition MCXN_SINC_MAX_ORD : nat := 4.
Definition SINC_CH_BASE : Z := 0x38.
Definition SINC_CH_STEP : Z := 0x30.
Definition SINC_CH_LAST : Z := SINC_CH_BASE + MCXN_SINC_NUM_CH * SINC_CH_STEP.
Definition SINC_CH_CCR : Z := 0x00.
Definition SINC_CH_CDR : Z := 0x04.
Definition SINC_CH_CCFR : Z := 0x08.
Definition SINC_CH_CBIAS : Z := 0x10.
Definition SINC_CH_CRDATA : Z := 0x1C.
Definition SINC_CH_CMPDATA : Z := 0x20.
Definition SINC_CH_CSR : Z := 0x28.
Definition SINC_CH_CDBGR : Z := 0x2C.
Definition SINC_VERID_VALUE : Z := 0x0200007D.
Definition SINC_PARAMETER_VALUE : Z := 0x00700508.
Definition MCR_STRIG (n : Z) : Z := bit n.
Definition MCR_STRIG_ALL : Z := 0x1F.
Definition MCR_RST : Z := bit 13.
Definition MCR_MEN : Z := bit 15.
Definition MCR_MCLK0DIS : Z := bit 27.
Definition MCR_MCLK1DIS : Z := bit 28.
Definition MCR_MCLK2DIS : Z := bit 29.
Definition SR_CIP (n : Z) : Z := bit n.
Definition SR_CHRDY (n : Z) : Z := bit (8 + n).
Definition SR_FIFOEMPTY (n : Z) : Z := bit (16 + n).
Definition SR_MCLKRDY (n : Z) : Z := bit (24 + n).
Definition NIS_COC (n : Z) : Z := bit n.
Definition NIS_CHF (n : Z) : Z := bit (8 + n).
Definition CCR_CHEN : Z := bit 0.
Definition CCR_PFEN : Z := bit 1.
Definition CCR_DMAEN : Z := bit 3.
Definition CCR_FIFOEN : Z := bit 14.
Definition CDR_PFOSR (v : Z) : Z := v .& 0x7FF.
Definition CDR_PFORD (v : Z) : Z := (v .>> 11) .& 0x3.
Definition CDR_PFCM (v : Z) : Z := (v .>> 14) .& 0x3.
Definition PFCM_SINGLE : Z := 0.
Definition PFCM_CONTINUOUS : Z := 1.
Definition PFCM_ALWAYS : Z := 2.
Definition PFCM_FIXEDNUM : Z := 3.
Definition CCFR_PFSFT (v : Z) : Z := v .& 0x1F.
Definition CCFR_RDFMT : Z := bit 6.
Definition CCFR_FIFOWMK (v : Z) : Z := (v .>> 10) .& 0x7.
Definition CCFR_IBFMT (v : Z) : Z := (v .>> 16) .& 0x3.
Definition IBFMT_EM : Z := 0.
Definition IBFMT_EXT : Z := 1.
Definition IBFMT_PM : Z := 2.
Definition IBFMT_SM : Z := 3.
Definition FIFO_UNDERFLOW (n : Z) : Z := bit n.
Definition FIFO_OVERFLOW (n : Z) : Z := bit (8 + n).
Definition CSR_FIFOAVIL : Z := 0x1F.
Definition CSR_PSRDY : Z := bit 7.
Definition CSR_PFSAT : Z := bit 8.
Definition CSR_SRDS : Z := bit 13.
Definition CSR_DBGRS : Z := u32 (3 .<< 14).

Record MCXNSINCChannel := mkSincCh {
  integ : list Z;        (* int64_t integ[MCXN_SINC_MAX_ORD] *)
  comb : list Z;
  fs_delay : list Z;
  phase : Z;
  running : bool;
  fifo : list Z;         (* int32_t fifo[MCXN_SINC_FIFO_DEPTH] *)
  fifo_count : Z;
  last : Z;
  have_last : bool
}.
#[export] Instance sinc_ch_settable : Settable MCXNSINCChannel := fun c =>
  mkSincCh (integ c) (comb c) (fs_delay c) (phase c) (running c) (fifo c) (fifo_count c) (last c) (have_last c).
#[export] Instance sinc_ch_inhabited : Inhabited MCXNSINCChannel :=
  populate (mkSincCh (replicate 4 0) (replicate 4 0) (replicate 2 0) 0 false (replicate 8 0) 0 0 false).

Record MCXNSINCState := mkSinc {
  irq : bool;
  dma_req : list bool;      (* the request lines *)
  ch_dma_req : list bool;   (* the levels last driven on them *)
  regs : list Z;
  ch : list MCXNSINCChannel;
  warned_ext_source : bool
}.
#[export] Instance sinc_settable : Settable MCXNSINCState := fun s =>
  mkSinc (irq s) (dma_req s) (ch_dma_req s) (regs s) (ch s) (warned_ext_source s).

Definition reg (s : MCXNSINCState) (off : Z) : Z := (regs s).[off / 4].
Definition set_reg (s : MCXNSINCState) (off v : Z) : MCXNSINCState := s <| regs := (regs s).[off / 4 <- v] |>.
Definition upd_chan (s : MCXNSINCState) (n : Z) (f : MCXNSINCChannel -> MCXNSINCChannel) : MCXNSINCState :=
  s <| ch := (ch s).[n <- f ((ch s).[n])] |>.

Definition sinc_ch_reg (s : MCXNSINCState) (n rel : Z) : Z := reg s (SINC_CH_BASE + n * SINC_CH_STEP + rel).
Definition sinc_set_ch_reg (s : MCXNSINCState) (n rel v : Z) : MCXNSINCState :=
  set_reg s (SINC_CH_BASE + n * SINC_CH_STEP + rel) v.

Definition sinc_mclk_ready (s : MCXNSINCState) (clk : Z) : bool :=
  let dis := [MCR_MCLK0DIS; MCR_MCLK1DIS; MCR_MCLK2DIS] in
  let mcr := reg s SINC_MCR in
  flag mcr MCR_MEN && negb (flag mcr (dis.[clk])).

Definition sinc_update_irq (s : MCXNSINCState) : MCXNSINCState :=
  s <| irq := flag (reg s SINC_NIS) (reg s SINC_NIE) || flag (reg s SINC_EIS) (reg s SINC_EIE) ||
              flag (reg s SINC_FIFOIS) (reg s SINC_FIFOIE) |>.

Definition sinc_update_dma_req (s : MCXNSINCState) (n : Z) : MCXNSINCState :=
  let ccr := sinc_ch_reg s n SINC_CH_CCR in
  let ccfr := sinc_ch_reg s n SINC_CH_CCFR in
  let wmk := CCFR_FIFOWMK ccfr in
  let req := flag ccr CCR_FIFOEN && flag ccr CCR_DMAEN && (wmk <? fifo_count ((ch s).[n])) in
  if negb (Bool.eqb req ((ch_dma_req s).[n])) then
    s <| ch_dma_req := (ch_dma_req s).[n <- req] |> <| dma_req := (dma_req s).[n <- req] |>
  else s.

Definition sinc_reset_channel_filter (c : MCXNSINCChannel) : MCXNSINCChannel :=
  c <| integ := replicate MCXN_SINC_MAX_ORD 0 |> <| comb := replicate MCXN_SINC_MAX_ORD 0 |>
    <| fs_delay := replicate 2 0 |> <| phase := 0 |> <| fifo_count := 0 |> <| last := 0 |> <| have_last := false |>.

(** The saturation of a result into 24 bits, with the updated CSR. *)
Definition sinc_saturate (ccfr csr v : Z) : Z * Z :=
  if flag ccfr CCFR_RDFMT then
    let '(v, csr) := if v <? 0 then (0, csr .| CSR_PFSAT) else (v, csr) in
    if 0xFFFFFF <? v then (0xFFFFFF, csr .| CSR_PFSAT) else (v, csr)
  else
    let '(v, csr) := if v <? -0x800000 then (-0x800000, csr .| CSR_PFSAT) else (v, csr) in
    if 0x7FFFFF <? v then (0x7FFFFF, csr .| CSR_PFSAT) else (v, csr).

Definition sinc_push_result (s : MCXNSINCState) (n v : Z) : MCXNSINCState :=
  let ccr := sinc_ch_reg s n SINC_CH_CCR in
  let ccfr := sinc_ch_reg s n SINC_CH_CCFR in
  let csr := sinc_ch_reg s n SINC_CH_CSR in
  let wmk := CCFR_FIFOWMK ccfr in
  let '(v, csr) := sinc_saturate ccfr csr v in
  let res := swrap 32 v in
  let s :=
    if flag ccr CCR_FIFOEN then
      if fifo_count ((ch s).[n]) <? MCXN_SINC_FIFO_DEPTH then
        upd_chan s n (fun c => c <| fifo := (fifo c).[fifo_count c <- res] |> <| fifo_count := u32 (fifo_count c + 1) |>)
      else set_reg s SINC_FIFOIS (reg s SINC_FIFOIS .| FIFO_OVERFLOW n)
    else upd_chan s n (fun c => c <| last := res |> <| have_last := true |>) in
  let s := sinc_set_ch_reg s n SINC_CH_CSR csr in
  let s := set_reg s SINC_NIS (reg s SINC_NIS .| NIS_COC n) in
  let s :=
    if flag ccr CCR_FIFOEN && (wmk <? fifo_count ((ch s).[n])) then
      let s := set_reg s SINC_NIS (reg s SINC_NIS .| NIS_CHF n) in
      if CDR_PFCM (sinc_ch_reg s n SINC_CH_CDR) =? PFCM_FIXEDNUM then upd_chan s n (fun c => c <| running := false |>) else s
    else s in
  let s := if CDR_PFCM (sinc_ch_reg s n SINC_CH_CDR) =? PFCM_SINGLE then upd_chan s n (fun c => c <| running := false |>) else s in
  sinc_update_dma_req (sinc_update_irq s) n.

(** The integrator chain: [c->integ[k] += v; v = c->integ[k]] for k < ord. *)
Definition sinc_integrate (ord : Z) (a : list Z) (v : Z) : list Z :=
  (foldl (fun (av : list Z * Z) k => let '(a, v) := av in let x := swrap 64 (a.[k] + v) in (a.[k <- x], x))
    (a, v) (seqZ 0 ord)).1.

(** The comb chain: [d = v - c->comb[k]; c->comb[k] = v; v = d] for k < ord. *)
Definition sinc_combs (ord : Z) (a : list Z) (v : Z) : list Z * Z :=
  foldl (fun (av : list Z * Z) k => let '(a, v) := av in (a.[k <- v], swrap 64 (v - a.[k]))) (a, v) (seqZ 0 ord).

Definition sinc_feed_bit (s : MCXNSINCState) (n b : Z) : MCXNSINCState :=
  let cdr := sinc_ch_reg s n SINC_CH_CDR in
  let ccfr := sinc_ch_reg s n SINC_CH_CCFR in
  let osr := u32 (CDR_PFOSR cdr + 1) in
  let pford := CDR_PFORD cdr in
  let fastsinc := pford =? 0 in
  let ord := if fastsinc then 2 else pford in
  let shift := CCFR_PFSFT ccfr in
  let bias := swrap 32 (sinc_ch_reg s n SINC_CH_CBIAS) in
  let x := if flag ccfr CCFR_RDFMT then b else if b =? 0 then -1 else 1 in
  let s := upd_chan s n (fun c => c <| integ := sinc_integrate ord (integ c) x |> <| phase := u32 (phase c + 1) |>) in
  if phase ((ch s).[n]) <? osr then s
  else
    let c := (ch s).[n] in
    let '(cb, v) := sinc_combs ord (comb c) ((integ c).[ord - 1]) in
    let s := upd_chan s n (fun c => c <| phase := 0 |> <| comb := cb |>) in
    let fs := fs_delay ((ch s).[n]) in
    let '(s, v) := if fastsinc
                   then (upd_chan s n (fun c => c <| fs_delay := fs.[1 <- fs.[0]].[0 <- v] |>), swrap 64 (v + fs.[1]))
                   else (s, v) in
    let v := v .>> shift in
    let v := swrap 64 (v + bias) in
    sinc_push_result s n v.

Definition sinc_feed_mpdata (s : MCXNSINCState) (n value : Z) : MCXNSINCState :=
  let ccr := sinc_ch_reg s n SINC_CH_CCR in
  let ibfmt := CCFR_IBFMT (sinc_ch_reg s n SINC_CH_CCFR) in
  if negb (flag (reg s SINC_MCR) MCR_MEN) || negb (flag ccr CCR_CHEN) || negb (flag ccr CCR_PFEN) then s
  else if negb (running ((ch s).[n])) then s
  else if ibfmt =? IBFMT_PM then
    foldl (fun s i => sinc_feed_bit s n ((value .>> i) .& 1)) s (rev (seqZ 0 16))
  else if ibfmt =? IBFMT_SM then
    foldl (fun s i => sinc_feed_bit s n ((value .>> i) .& 1)) s (rev (seqZ 0 32))
  else s.

(** ** Register accesses *)

Definition sinc_status (s : MCXNSINCState) : Z :=
  let v := foldl (fun v n =>
    let ccr := sinc_ch_reg s n SINC_CH_CCR in
    let v := if running ((ch s).[n]) then v .| SR_CIP n else v in
    let v := if flag ccr CCR_CHEN && flag (reg s SINC_MCR) MCR_MEN then v .| SR_CHRDY n else v in
    if fifo_count ((ch s).[n]) =? 0 then v .| SR_FIFOEMPTY n else v) 0 (seqZ 0 MCXN_SINC_NUM_CH) in
  foldl (fun v n => if sinc_mclk_ready s n then v .| SR_MCLKRDY n else v) v (seqZ 0 3).

Definition sinc_read_crdata (s : MCXNSINCState) (n : Z) : Z * MCXNSINCState :=
  let data res := u32 (u32 res .<< 8) .& 0xFFFFFF00 in
  let c := (ch s).[n] in
  let ccr := sinc_ch_reg s n SINC_CH_CCR in
  if flag ccr CCR_FIFOEN then
    if fifo_count c =? 0 then
      (0, sinc_update_irq (set_reg s SINC_FIFOIS (reg s SINC_FIFOIS .| FIFO_UNDERFLOW n)))
    else
      let res := (fifo c).[0] in
      let s := upd_chan s n (fun c =>
        let c := c <| fifo_count := u32 (fifo_count c - 1) |> in
        c <| fifo := fifo_shift (fifo c) (fifo_count c) |>) in
      let s :=
        if fifo_count ((ch s).[n]) <=? CCFR_FIFOWMK (sinc_ch_reg s n SINC_CH_CCFR) then
          sinc_update_irq (set_reg s SINC_NIS (reg s SINC_NIS .& u32 (.~ NIS_CHF n)))
        else s in
      (data res, sinc_update_dma_req s n)
  else if negb (have_last c) then (0, s)
  else (data (last c), s).

Definition sinc_in_channels (offset : Z) : bool := (SINC_CH_BASE <=? offset) && (offset <? SINC_CH_LAST).
Definition sinc_chan_of (offset : Z) : Z := (offset - SINC_CH_BASE) / SINC_CH_STEP.
Definition sinc_rel_of (offset : Z) : Z := (offset - SINC_CH_BASE) mod SINC_CH_STEP.

Definition mcxn_sinc_read (s : MCXNSINCState) (offset : Z) : Z * MCXNSINCState :=
  if offset =? SINC_VERID then (SINC_VERID_VALUE, s)
  else if offset =? SINC_PARAMETER then (SINC_PARAMETER_VALUE, s)
  else if offset =? SINC_SR then (sinc_status s, s)
  else if sinc_in_channels offset then
    let n := sinc_chan_of offset in
    let rel := sinc_rel_of offset in
    if rel =? SINC_CH_CRDATA then sinc_read_crdata s n
    else if rel =? SINC_CH_CSR then
      let csr := sinc_ch_reg s n SINC_CH_CSR in
      let csr := csr .& u32 (.~ CSR_FIFOAVIL) in
      let csr := csr .| (fifo_count ((ch s).[n]) .& CSR_FIFOAVIL) in
      let csr := csr .| CSR_PSRDY in
      (csr .& u32 (.~ (CSR_SRDS .| CSR_DBGRS)), s)
    else if rel =? SINC_CH_CDBGR then (0, s)
    else (reg s offset, s)
  else (reg s offset, s).

Definition sinc_write_mcr (s : MCXNSINCState) (v : Z) : MCXNSINCState :=
  let reset_ch s n := upd_chan s n (fun c => sinc_reset_channel_filter c <| running := false |>) in
  let '(s, v) := if flag v MCR_RST
                 then (foldl reset_ch s (seqZ 0 MCXN_SINC_NUM_CH), v .& u32 (.~ MCR_RST)) else (s, v) in
  let trigger s n :=
    if flag v (MCR_STRIG n) then
      let cdr := sinc_ch_reg s n SINC_CH_CDR in
      if negb ((CDR_PFCM cdr =? PFCM_ALWAYS) && running ((ch s).[n])) then
        upd_chan s n (fun c => sinc_reset_channel_filter c <| running := true |>)
      else s
    else s in
  let s := foldl trigger s (seqZ 0 MCXN_SINC_NUM_CH) in
  set_reg s SINC_MCR (v .& u32 (.~ MCR_STRIG_ALL)).

(** The merge of a sub-word write. *)
Definition sinc_merge (s : MCXNSINCState) (offset value size : Z) : MCXNSINCState :=
  let shift := u32 ((offset .& 3) * 8) in
  let mask := if 4 <=? size then 0xFFFFFFFF else u32 ((u32 (bit (size * 8)) - 1) .<< shift) in
  set_reg s offset ((reg s offset .& u32 (.~ mask)) .| (u32 (value .<< shift) .& mask)).

Definition mcxn_sinc_write (s : MCXNSINCState) (offset value size : Z) : MCXNSINCState :=
  let v := u32 value in
  if (offset =? SINC_VERID) || (offset =? SINC_PARAMETER) || (offset =? SINC_SR) then s
  else if offset =? SINC_MCR then sinc_write_mcr s v
  else if (offset =? SINC_NIE) || (offset =? SINC_EIE) || (offset =? SINC_FIFOIE) then
    sinc_update_irq (set_reg s offset v)
  else if (offset =? SINC_NIS) || (offset =? SINC_EIS) || (offset =? SINC_FIFOIS) then
    sinc_update_irq (set_reg s offset (reg s offset .& u32 (.~ v)))
  else if sinc_in_channels offset then
    let n := sinc_chan_of offset in
    let rel := sinc_rel_of offset in
    if (rel =? SINC_CH_CRDATA) || (rel =? SINC_CH_CDBGR) then s
    else if rel =? SINC_CH_CMPDATA then sinc_feed_mpdata (set_reg s offset v) n v
    else if rel =? SINC_CH_CCR then
      let old := sinc_ch_reg s n SINC_CH_CCR in
      let s := set_reg s offset v in
      let s := if flag old CCR_CHEN && negb (flag v CCR_CHEN)
               then upd_chan s n (fun c => sinc_reset_channel_filter c <| running := false |>) else s in
      sinc_update_dma_req s n
    else if rel =? SINC_CH_CCFR then
      let ibfmt := CCFR_IBFMT v in
      let s := set_reg s offset v in
      let s := sinc_update_dma_req s n in
      if ((ibfmt =? IBFMT_EM) || (ibfmt =? IBFMT_EXT)) && negb (warned_ext_source s)
      then s <| warned_ext_source := true |> else s
    else sinc_merge s offset value size
  else sinc_merge s offset value size.

(** ** Reset and migration *)

Definition mcxn_sinc_reset (s : MCXNSINCState) : MCXNSINCState :=
  let s := s <| regs := replicate (Z.to_nat (MCXN_SINC_SIZE / 4)) 0 |> in
  let s := foldl (fun s n => upd_chan s n (fun c => sinc_reset_channel_filter c <| running := false |>)) s
             (seqZ 0 MCXN_SINC_NUM_CH) in
  let s := s <| warned_ext_source := false |> <| irq := false |> in
  foldl (fun s n => s <| ch_dma_req := (ch_dma_req s).[n <- false] |> <| dma_req := (dma_req s).[n <- false] |>) s
    (seqZ 0 MCXN_SINC_NUM_CH).

Definition mcxn_sinc_post_load (s : MCXNSINCState) : MCXNSINCState := sinc_update_irq s.

(** The device at power-on. *)
Definition sinc_init : MCXNSINCState :=
  mcxn_sinc_reset (mkSinc false (replicate 5 false) (replicate 5 false) [] (replicate 5 inhabitant) false).

(** ** The filter of one channel against its reference *)

(** The state of the cascade after the samples [h]: [ord] stages, decimation
    by [r]; the last output was computed at the last multiple of [r]. *)
Record filter_inv (fast : bool) (ord : nat) (r : Z) (h : list Z) (c : MCXNSINCChannel) : Prop := {
  fi_integ_len : length (integ c) = 4%nat;
  fi_comb_len : length (comb c) = 4%nat;
  fi_fs_len : length (fs_delay c) = 2%nat;
  fi_phase : phase c = zlen h mod r;
  fi_integ : forall k, (k < ord)%nat ->
    (integ c).[Z.of_nat k] = swrap 64 (Nat.iter (S k) running_sum (recording h) (zlen h));
  fi_comb : forall k, (k < ord)%nat ->
    (comb c).[Z.of_nat k] =
      swrap 64 (Nat.iter k (diff r) (Nat.iter ord running_sum (recording h)) (r * (zlen h / r)));
  fi_fs : fast = true -> forall k, (k < 2)%nat ->
    (fs_delay c).[Z.of_nat k] =
      swrap 64 (Nat.iter ord (moving_sum r) (recording h) (r * (zlen h / r) - Z.of_nat k * r));
}.

Lemma filter_inv_reset fast ord r c : 0 < r -> (ord <= 4)%nat ->
  filter_inv fast ord r [] (sinc_reset_channel_filter c).
Proof.
  intros Hr Ho. pose proof (recording_causal []) as Hc. split; try done; cbn [length Z.of_nat].
  - intros k Hk. rewrite causal_iter_running_sum by (done || lia). apply (arr_get_replicate 4 0); cbn; lia.
  - intros k Hk. rewrite Z.div_0_l, Z.mul_0_r by lia.
    rewrite causal_iter_diff by (lia || by apply causal_iter_running_sum). apply (arr_get_replicate 4 0); cbn; lia.
  - intros _ k Hk. rewrite Z.div_0_l, Z.mul_0_r by lia. rewrite causal_moving_sums by (done || lia).
    apply (arr_get_replicate 2 0); cbn; lia.
Qed.

(** One integrator, and one comb. *)
Lemma integrator_step k h x :
  swrap 64 (swrap 64 (Nat.iter (S k) running_sum (recording h) (zlen h)) +
            swrap 64 (Nat.iter k running_sum (recording (h ++ [x])) (zlen h + 1))) =
  swrap 64 (Nat.iter (S k) running_sum (recording (h ++ [x])) (zlen h + 1)).
Proof.
  rewrite swrap_add by lia. cbn [Nat.iter nat_rect]. rewrite running_sum_step.
  - f_equal. f_equal. apply (iter_proper (S k) running_sum (zlen h) _); [apply recording_snoc_old | lia].
  - apply causal_iter_running_sum, recording_causal.
Qed.

Lemma sinc_integrate_spec (j : nat) h x a : (j <= length a)%nat ->
  (forall k, (k < j)%nat -> a.[Z.of_nat k] = swrap 64 (Nat.iter (S k) running_sum (recording h) (zlen h))) ->
  swrap 64 x = x ->
  let '(a', v) := foldl (fun (av : list Z * Z) k => let '(a, v) := av in let x := swrap 64 (a.[k] + v) in (a.[k <- x], x))
    (a, x) (seqZ 0 (Z.of_nat j)) in
  length a' = length a /\ v = swrap 64 (Nat.iter j running_sum (recording (h ++ [x])) (zlen h + 1)) /\
  (forall k, (k < j)%nat -> a'.[Z.of_nat k] = swrap 64 (Nat.iter (S k) running_sum (recording (h ++ [x])) (zlen h + 1))) /\
  (forall k, (j <= k)%nat -> a'.[Z.of_nat k] = a.[Z.of_nat k]).
Proof.
  intros Hj Ha Hx. induction j as [|j IH].
  { split; [done|]. split; [|split; [intros; lia | done]]. cbn. by rewrite recording_snoc_new. }
  specialize (IH ltac:(lia) ltac:(intros; apply Ha; lia)). rewrite seqZ_snoc, foldl_app.
  destruct (foldl _ _ _) as [a' v]. destruct IH as (Hl & Hv & Hn & Ho). cbn [foldl].
  assert (Hs : swrap 64 (a'.[Z.of_nat j] + v) = swrap 64 (Nat.iter (S j) running_sum (recording (h ++ [x])) (zlen h + 1))).
  { rewrite Ho, Ha, Hv by lia. apply integrator_step. }
  rewrite Hs. autorewrite with arrays. split; [done|]. split; [done|]. split.
  - intros k Hk. destruct (decide (k = j)) as [->|Hne]; [by rewrite arr_get_set_eq by lia|].
    rewrite arr_get_set_ne by lia. apply Hn. lia.
  - intros k Hk. rewrite arr_get_set_ne by lia. apply Ho. lia.
Qed.

(** The combs at a decimation instant [t], [r] after the previous one. *)
Lemma sinc_combs_spec (j : nat) f r t a : (j <= length a)%nat ->
  (forall k, (k < j)%nat -> a.[Z.of_nat k] = swrap 64 (Nat.iter k (diff r) f (t - r))) ->
  let '(a', v) := sinc_combs (Z.of_nat j) a (swrap 64 (f t)) in
  length a' = length a /\ v = swrap 64 (Nat.iter j (diff r) f t) /\
  (forall k, (k < j)%nat -> a'.[Z.of_nat k] = swrap 64 (Nat.iter k (diff r) f t)) /\
  (forall k, (j <= k)%nat -> a'.[Z.of_nat k] = a.[Z.of_nat k]).
Proof.
  intros Hj Ha. unfold sinc_combs. induction j as [|j IH].
  { split; [done|]. split; [done|]. split; [intros; lia | done]. }
  specialize (IH ltac:(lia) ltac:(intros; apply Ha; lia)). rewrite seqZ_snoc, foldl_app.
  destruct (foldl _ _ _) as [a' v]. destruct IH as (Hl & Hv & Hn & Ho). cbn [foldl].
  rewrite Ho, Ha, Hv by lia. autorewrite with arrays. split; [done|]. split; [by rewrite swrap_sub by lia|]. split.
  - intros k Hk. destruct (decide (k = j)) as [->|Hne]; [by rewrite arr_get_set_eq by lia|].
    rewrite arr_get_set_ne by lia. apply Hn. lia.
  - intros k Hk. rewrite arr_get_set_ne by lia. apply Ho. lia.
Qed.

(** The channel once a sample has gone through the integrators. *)
Definition accumulate (ord : Z) (x : Z) (c : MCXNSINCChannel) : MCXNSINCChannel :=
  c <| integ := sinc_integrate ord (integ c) x |> <| phase := u32 (phase c + 1) |>.

Lemma accumulate_integ fast ord r h x c : filter_inv fast ord r h c -> (ord <= 3)%nat -> swrap 64 x = x ->
  length (integ (accumulate (Z.of_nat ord) x c)) = 4%nat /\
  forall k, (k < ord)%nat -> (integ (accumulate (Z.of_nat ord) x c)).[Z.of_nat k] =
    swrap 64 (Nat.iter (S k) running_sum (recording (h ++ [x])) (zlen (h ++ [x]))).
Proof.
  intros [Hil _ _ _ Hi _ _] Ho Hx. pose proof (sinc_integrate_spec ord h x (integ c) ltac:(lia) Hi Hx) as Hs.
  cbn [accumulate integ modify]. unfold accumulate, sinc_integrate. cbn [integ modify].
  destruct (foldl _ _ _) as [a' v]. destruct Hs as (Hl & _ & Hn & _). rewrite length_app. cbn [fst].
  split; [by rewrite Hl|]. intros k Hk. rewrite Hn by done. f_equal. f_equal. cbn [length]. lia.
Qed.

(** Division facts of the decimation counter. *)
Lemma decimation_step m r : 0 <= m -> 0 < r ->
  (m + 1) mod r <> 0 /\ m mod r + 1 < r /\ (m + 1) mod r = m mod r + 1 /\ (m + 1) / r = m / r \/
  (m + 1) mod r = 0 /\ m mod r + 1 = r /\ r * ((m + 1) / r) = m + 1 /\ r * (m / r) = m + 1 - r.
Proof.
  intros Hm Hr. pose proof (Z.mod_pos_bound m r Hr). pose proof (Z.div_mod m r ltac:(lia)).
  destruct (Z.lt_ge_cases (m mod r + 1) r) as [Hlt|Hge].
  - left. assert (Hu : m + 1 = r * (m / r) + (m mod r + 1)) by lia.
    pose proof (Z.mod_unique_pos (m + 1) r (m / r) (m mod r + 1) ltac:(lia) Hu).
    pose proof (Z.div_unique_pos (m + 1) r (m / r) (m mod r + 1) ltac:(lia) Hu). lia.
  - right. assert (Hu : m + 1 = r * (m / r + 1) + 0) by lia.
    pose proof (Z.mod_unique_pos (m + 1) r (m / r + 1) 0 ltac:(lia) Hu).
    pose proof (Z.div_unique_pos (m + 1) r (m / r + 1) 0 ltac:(lia) Hu). lia.
Qed.

Lemma filter_accumulate fast ord r h x c : filter_inv fast ord r h c -> (ord <= 3)%nat -> 0 < r <= 2048 ->
  swrap 64 x = x -> zlen (h ++ [x]) mod r <> 0 ->
  phase (accumulate (Z.of_nat ord) x c) < r /\ filter_inv fast ord r (h ++ [x]) (accumulate (Z.of_nat ord) x c).
Proof.
  intros Hf Ho Hr Hx Hm. destruct (accumulate_integ _ _ _ _ _ _ Hf Ho Hx) as [Hl Hi]. destruct Hf as [_ Hcl Hfl Hp _ Hc Hfs].
  pose proof (recording_snoc_old h x) as Hag.
  rewrite length_app, Nat2Z.inj_add in Hm. change (zlen [x]) with 1 in Hm.
  destruct (decimation_step (zlen h) r ltac:(lia) ltac:(lia)) as [(_ & H1 & H2 & H3)|[? _]]; [|done].
  assert (Hle : r * (zlen h / r) <= zlen h) by (apply Z.mul_div_le; lia). pose proof (Z.mod_pos_bound (zlen h) r ltac:(lia)).
  assert (Hph : phase (accumulate (Z.of_nat ord) x c) = zlen h mod r + 1).
  { change (u32 (phase c + 1) = zlen h mod r + 1). rewrite Hp. apply wrap_id. change (2 ^ 32) with 4294967296. lia. }
  split; [lia|]. split; try done; rewrite length_app, Nat2Z.inj_add; change (zlen [x]) with 1.
  - lia.
  - intros k Hk. rewrite H3. etransitivity; [by apply Hc|]. f_equal.
    apply (iter_proper k (diff r) (zlen h) (diff_proper r _ ltac:(lia))); [|lia]. by apply iter_proper; [apply _|].
  - intros Hfast k Hk. rewrite H3. etransitivity; [by apply Hfs|]. f_equal.
    apply (iter_proper ord (moving_sum r) (zlen h) _); [done | lia].
Qed.

Lemma filter_decimate fast ord r h x c : filter_inv fast ord r h c -> (1 <= ord <= 3)%nat -> 0 < r <= 2048 ->
  swrap 64 x = x -> zlen (h ++ [x]) mod r = 0 ->
  let c1 := accumulate (Z.of_nat ord) x c in
  let t := zlen (h ++ [x]) in
  let g := Nat.iter ord (moving_sum r) (recording (h ++ [x])) in
  phase c1 = r /\
  let '(cb, v) := sinc_combs (Z.of_nat ord) (comb c1) ((integ c1).[Z.of_nat ord - 1]) in
  let fs := fs_delay c1 in
  v = swrap 64 (g t) /\ (fast = true -> fs.[1] = swrap 64 (g (t - 2 * r))) /\
  filter_inv fast ord r (h ++ [x]) (c1 <| phase := 0 |> <| comb := cb |>
    <| fs_delay := if fast then fs.[1 <- fs.[0]].[0 <- v] else fs |>).
Proof.
  intros Hf Ho Hr Hx Hm c1 t g. destruct (accumulate_integ _ _ _ _ _ _ Hf ltac:(lia) Hx) as [Hl Hi].
  fold c1 t in Hl, Hi. destruct Hf as [_ Hcl Hfl Hp _ Hc Hfs]. change (comb c) with (comb c1) in *. change (fs_delay c) with (fs_delay c1) in *.
  pose proof (recording_snoc_old h x) as Hag. assert (Ht : t = zlen h + 1) by (subst t; rewrite length_app; cbn; lia).
  fold t in Hm. rewrite Ht in Hm.
  destruct (decimation_step (zlen h) r ltac:(lia) ltac:(lia)) as [[? _]|(_ & H1 & H2 & H3)]; [done|]. rewrite <- Ht in *.
  pose proof (Z.mod_pos_bound (zlen h) r ltac:(lia)).
  split; [change (u32 (phase c + 1) = r); rewrite Hp, wrap_id; [|change (2 ^ 32) with 4294967296]; lia|].
  pose proof (sinc_combs_spec ord (Nat.iter ord running_sum (recording (h ++ [x]))) r t (comb c1) ltac:(lia)) as Hcomb.
  replace (Z.of_nat ord - 1) with (Z.of_nat (ord - 1)) by lia. rewrite Hi by lia. replace (S (ord - 1)) with ord by lia.
  destruct (sinc_combs _ _ _) as [cb v]. destruct Hcomb as (Hcbl & Hv & Hcb & _).
  { intros k Hk. etransitivity; [by apply Hc|]. rewrite H3. f_equal.
    apply (iter_proper k (diff r) (zlen h) (diff_proper r _ ltac:(lia))); [|lia]. by apply iter_proper; [apply _|]. }
  assert (Hvg : v = swrap 64 (g t)).
  { rewrite Hv. f_equal. apply (cic_moving_sums ord r (recording (h ++ [x])) t); [lia | apply recording_causal | lia]. }
  assert (Hfs' : fast = true -> forall k, (k < 2)%nat -> (fs_delay c1).[Z.of_nat k] = swrap 64 (g (t - r - Z.of_nat k * r))).
  { intros Hfast k Hk. etransitivity; [by apply Hfs|]. rewrite H3. f_equal.
    apply (iter_proper ord (moving_sum r) (zlen h) _); [done | lia]. }
  split; [done|]. split.
  { intros Hfast. etransitivity; [by apply (Hfs' Hfast 1%nat); lia|]. f_equal. f_equal. cbn. lia. }
  split; cbn [integ comb fs_delay phase modify]; try done.
  - by rewrite Hcbl.
  - destruct fast; by autorewrite with arrays.
  - intros k Hk. fold t. rewrite H2. by apply Hcb.
  - intros Hfast k Hk. fold t. rewrite H2, Hfast. destruct k as [|[|k]]; [| |lia].
    + rewrite arr_get_set_eq by (autorewrite with arrays; lia). rewrite Hvg. f_equal. f_equal. cbn. lia.
    + rewrite arr_get_set_ne, arr_get_set_eq by lia. etransitivity; [by apply (Hfs' Hfast 0%nat); lia|]. f_equal. f_equal. cbn. lia.
Qed.

(** ** The reference machine of a channel *)

Record sinc_config := mkConfig {
  c_osr : Z; c_pford : Z; c_unsigned : bool; c_shift : Z; c_bias : Z; c_width : Z
}.

(** The configuration the registers of channel [n] select. *)
Definition config_of (s : MCXNSINCState) (n : Z) : sinc_config :=
  let cdr := sinc_ch_reg s n SINC_CH_CDR in
  let ccfr := sinc_ch_reg s n SINC_CH_CCFR in
  mkConfig (CDR_PFOSR cdr + 1) (CDR_PFORD cdr) (flag ccfr CCFR_RDFMT) (CCFR_PFSFT ccfr)
    (swrap 32 (sinc_ch_reg s n SINC_CH_CBIAS)) (if CCFR_IBFMT ccfr =? IBFMT_PM then 16 else 32).

(** H(z) = (1 + ... + z^-(OSR-1))^ORD, or FastSinc's
    (1 + ... + z^-(OSR-1))^2 * (1 + z^-2*OSR) for the order 0. *)
Definition fir (g : sinc_config) (x : signal) (t : Z) : Z :=
  if c_pford g =? 0 then
    let y := Nat.iter 2 (moving_sum (c_osr g)) x in y t + y (t - 2 * c_osr g)
  else Nat.iter (Z.to_nat (c_pford g)) (moving_sum (c_osr g)) x t.

Definition clamp (lo hi v : Z) : Z := Z.max lo (Z.min hi v).

Definition fir_result (g : sinc_config) (x : signal) (t : Z) : Z :=
  let v := fir g x t / 2 ^ c_shift g + c_bias g in
  if c_unsigned g then clamp 0 0xFFFFFF v else clamp (-0x800000) 0x7FFFFF v.

(** The samples seen since the trigger, the results waiting, and whether one
    was lost or missed. *)
Record sinc_abs := mkAbs { hist : list Z; queue : list Z; lost : bool; missed : bool }.

Definition abs_sample (g : sinc_config) (a : sinc_abs) (b : bool) : sinc_abs :=
  let x := if c_unsigned g then if b then 1 else 0 else if b then 1 else -1 in
  let h := hist a ++ [x] in
  if zlen h mod c_osr g =? 0 then
    if zlen (queue a) <? 8 then mkAbs h (queue a ++ [fir_result g (recording h) (zlen h)]) (lost a) (missed a)
    else mkAbs h (queue a) true (missed a)
  else mkAbs h (queue a) (lost a) (missed a).

Inductive sinc_op := Feed (w : Z) | Drain.

Definition abs_exec (g : sinc_config) (a : sinc_abs) (op : sinc_op) : sinc_abs * list Z :=
  match op with
  | Feed w => (foldl (abs_sample g) a (map (Z.testbit w) (rev (seqZ 0 (c_width g)))), [])
  | Drain => match queue a with
             | v :: q => (mkAbs (hist a) q (lost a) (missed a), [u32 (v * 256)])
             | [] => (mkAbs (hist a) [] (lost a) true, [0])
             end
  end.

(** The register accesses the operations stand for. *)
Definition sinc_exec (n : Z) (s : MCXNSINCState) (op : sinc_op) : MCXNSINCState * list Z :=
  match op with
  | Feed w => (mcxn_sinc_write s (SINC_CH_BASE + n * SINC_CH_STEP + SINC_CH_CMPDATA) w 4, [])
  | Drain => let '(v, s) := mcxn_sinc_read s (SINC_CH_BASE + n * SINC_CH_STEP + SINC_CH_CRDATA) in (s, [v])
  end.

(** Channel [n] takes its samples from CMPDATA and keeps converting. *)
Record sampling (s : MCXNSINCState) (n : Z) : Prop := {
  sm_n : 0 <= n < 5;
  sm_regs : zlen (regs s) = 1024;
  sm_ch : zlen (ch s) = 5;
  sm_men : flag (reg s SINC_MCR) MCR_MEN = true;
  sm_chen : flag (sinc_ch_reg s n SINC_CH_CCR) CCR_CHEN = true;
  sm_pfen : flag (sinc_ch_reg s n SINC_CH_CCR) CCR_PFEN = true;
  sm_fifoen : flag (sinc_ch_reg s n SINC_CH_CCR) CCR_FIFOEN = true;
  sm_pfcm : CDR_PFCM (sinc_ch_reg s n SINC_CH_CDR) = PFCM_CONTINUOUS \/ CDR_PFCM (sinc_ch_reg s n SINC_CH_CDR) = PFCM_ALWAYS;
  sm_ibfmt : CCFR_IBFMT (sinc_ch_reg s n SINC_CH_CCFR) = IBFMT_PM \/ CCFR_IBFMT (sinc_ch_reg s n SINC_CH_CCFR) = IBFMT_SM;
  sm_running : running ((ch s).[n]) = true;
}.

(** Accesses that leave the configuration and the channels alone, and those
    that leave FIFOIS alone too. *)
Record calm (n : Z) (s s' : MCXNSINCState) : Prop := {
  q_ch : ch s' = ch s;
  q_regs : zlen (regs s') = zlen (regs s);
  q_mcr : reg s' SINC_MCR = reg s SINC_MCR;
  q_ccr : sinc_ch_reg s' n SINC_CH_CCR = sinc_ch_reg s n SINC_CH_CCR;
  q_cdr : sinc_ch_reg s' n SINC_CH_CDR = sinc_ch_reg s n SINC_CH_CDR;
  q_ccfr : sinc_ch_reg s' n SINC_CH_CCFR = sinc_ch_reg s n SINC_CH_CCFR;
  q_cbias : sinc_ch_reg s' n SINC_CH_CBIAS = sinc_ch_reg s n SINC_CH_CBIAS;
}.

Definition quiet (n : Z) (s s' : MCXNSINCState) : Prop := calm n s s' /\ reg s' SINC_FIFOIS = reg s SINC_FIFOIS.

#[export] Instance calm_preorder n : PreOrder (calm n).
Proof. split; [by intros s; split|]. intros s1 s2 s3 [] []. split; congruence. Qed.

#[export] Instance quiet_preorder n : PreOrder (quiet n).
Proof. split; [by intros s; split|]. intros s1 s2 s3 [] []. split; [by etransitivity | congruence]. Qed.

Lemma quiet_irq n s : quiet n s (sinc_update_irq s).
Proof. by repeat split. Qed.

Lemma quiet_dma n m s : quiet n s (sinc_update_dma_req s m).
Proof. unfold sinc_update_dma_req. destruct (negb _); by repeat split. Qed.

Lemma sinc_reg_ne s off off' v : 0 <= off -> 0 <= off' -> off / 4 <> off' / 4 -> reg (set_reg s off v) off' = reg s off'.
Proof.
  intros H1 H2 H3. unfold reg, set_reg. cbn [regs modify]. apply arr_get_set_ne; [apply Z.div_pos; lia..|done].
Qed.

Lemma sinc_reg_eq s off v : zlen (regs s) = 1024 -> 0 <= off < 4096 -> reg (set_reg s off v) off = v.
Proof.
  intros Hl Ho. unfold reg, set_reg. cbn [regs modify]. apply arr_get_set_eq.
  rewrite Hl. split; [apply Z.div_pos | apply Z.div_lt_upper_bound]; lia.
Qed.

(** The registers the filter itself writes. *)
Definition status_reg (n off : Z) : Prop := off = SINC_NIS \/ off = SINC_FIFOIS \/
  off = SINC_CH_BASE + n * SINC_CH_STEP + SINC_CH_CSR \/ off = SINC_CH_BASE + n * SINC_CH_STEP + SINC_CH_CMPDATA.

Ltac sinc_offsets := unfold status_reg, SINC_NIS, SINC_MCR, SINC_FIFOIS,
    SINC_CH_BASE, SINC_CH_STEP, SINC_CH_CSR, SINC_CH_CMPDATA, SINC_CH_CCR, SINC_CH_CDR, SINC_CH_CCFR, SINC_CH_CBIAS in *; dlia.

Lemma calm_set n s off v : 0 <= n < 5 -> status_reg n off -> calm n s (set_reg s off v).
Proof.
  intros Hn Ho. split; unfold sinc_ch_reg; try (apply sinc_reg_ne; sinc_offsets).
  - done.
  - unfold set_reg. cbn [regs modify]. by autorewrite with arrays.
Qed.

Lemma quiet_set n s off v : 0 <= n < 5 -> status_reg n off -> off <> SINC_FIFOIS -> quiet n s (set_reg s off v).
Proof. intros Hn Ho Hne. split; [by apply calm_set|]. apply sinc_reg_ne; sinc_offsets. Qed.

(** Writes of one channel leave the registers alone. *)
Lemma chan_upd_eq s n f : zlen (ch s) = 5 -> 0 <= n < 5 -> (ch (upd_chan s n f)).[n] = f ((ch s).[n]).
Proof. intros Hl Hn. unfold upd_chan. cbn [ch modify]. apply arr_get_set_eq. lia. Qed.

Lemma chan_upd_ne s n m f : 0 <= n -> 0 <= m -> m <> n -> (ch (upd_chan s n f)).[m] = (ch s).[m].
Proof. intros. unfold upd_chan. cbn [ch modify]. by apply arr_get_set_ne. Qed.

Lemma chan_upd_upd s n f g : zlen (ch s) = 5 -> 0 <= n < 5 ->
  upd_chan (upd_chan s n f) n g = upd_chan s n (fun c => g (f c)).
Proof.
  intros Hl Hn. unfold upd_chan at 1 3. rewrite chan_upd_eq by done. unfold upd_chan. cbn [ch modify]. by rewrite arr_set_set.
Qed.

Definition stages (g : sinc_config) : nat := if c_pford g =? 0 then 2 else Z.to_nat (c_pford g).

(** Channel [n] of [s] is in the state [a] of the reference machine; the other
    channels are those of [s0], and so are the error flags up to those of [a]. *)
Record tracks (n : Z) (s0 s : MCXNSINCState) (a : sinc_abs) : Prop := {
  tk_sampling : sampling s n;
  tk_config : config_of s n = config_of s0 n;
  tk_filter : filter_inv (c_pford (config_of s0 n) =? 0) (stages (config_of s0 n)) (c_osr (config_of s0 n)) (hist a) ((ch s).[n]);
  tk_small : Forall (fun x => Z.abs x <= 1) (hist a);
  tk_fifo : zlen (fifo ((ch s).[n])) = 8;
  tk_count : 0 <= fifo_count ((ch s).[n]) <= 8;
  tk_queue : queue a = take (Z.to_nat (fifo_count ((ch s).[n]))) (fifo ((ch s).[n]));
  tk_lost : Z.testbit (reg s SINC_FIFOIS) (8 + n) = Z.testbit (reg s0 SINC_FIFOIS) (8 + n) || lost a;
  tk_missed : Z.testbit (reg s SINC_FIFOIS) n = Z.testbit (reg s0 SINC_FIFOIS) n || missed a;
  tk_others : forall m, 0 <= m < 5 -> m <> n -> (ch s).[m] = (ch s0).[m];
}.

Lemma tracks_calm n s0 s s' a lo mi : calm n s s' -> tracks n s0 s a ->
  Z.testbit (reg s' SINC_FIFOIS) (8 + n) = Z.testbit (reg s0 SINC_FIFOIS) (8 + n) || lo ->
  Z.testbit (reg s' SINC_FIFOIS) n = Z.testbit (reg s0 SINC_FIFOIS) n || mi ->
  tracks n s0 s' (mkAbs (hist a) (queue a) lo mi).
Proof.
  intros [Hch Hr Hm Hccr Hcdr Hccfr Hb] [[] Hc Hfi Hsm Hl Hcnt Hq Hlo Hmi Ho] Hlo' Hmi'.
  split; rewrite ?Hch; try done.
  - split; rewrite ?Hch, ?Hr, ?Hm, ?Hccr, ?Hcdr, ?Hccfr; done.
  - rewrite <- Hc. unfold config_of. by rewrite Hcdr, Hccfr, Hb.
Qed.

Lemma tracks_quiet n s0 s s' a : quiet n s s' -> tracks n s0 s a -> tracks n s0 s' a.
Proof.
  intros [Hc Hf] Ht. destruct a. eapply (tracks_calm n s0 s s' _ _ _ Hc Ht); rewrite Hf; apply Ht.
Qed.

Lemma sampling_upd s n f : sampling s n -> running (f ((ch s).[n])) = true -> sampling (upd_chan s n f) n.
Proof.
  intros [] Hr. split; try done; [unfold upd_chan; cbn [ch modify]; by autorewrite with arrays | by rewrite chan_upd_eq].
Qed.

Lemma tracks_upd n s0 s a f h : tracks n s0 s a ->
  running (f ((ch s).[n])) = true ->
  filter_inv (c_pford (config_of s0 n) =? 0) (stages (config_of s0 n)) (c_osr (config_of s0 n)) h (f ((ch s).[n])) ->
  Forall (fun x => Z.abs x <= 1) h ->
  fifo (f ((ch s).[n])) = fifo ((ch s).[n]) -> fifo_count (f ((ch s).[n])) = fifo_count ((ch s).[n]) ->
  tracks n s0 (upd_chan s n f) (mkAbs h (queue a) (lost a) (missed a)).
Proof.
  intros [Hs Hc Hfi Hsm Hl Hcnt Hq Hlo Hmi Ho] Hrun Hf Hh Hff Hfc. pose proof Hs as [].
  split; rewrite ?chan_upd_eq, ?Hff, ?Hfc by done; try done.
  - by apply sampling_upd.
  - intros m Hm Hne. rewrite chan_upd_ne by lia. by apply Ho.
Qed.

Lemma sinc_saturate_spec ccfr csr v : (sinc_saturate ccfr csr v).1 =
  if flag ccfr CCFR_RDFMT then clamp 0 0xFFFFFF v else clamp (-0x800000) 0x7FFFFF v.
Proof.
  unfold sinc_saturate, clamp. destruct (flag _ _); zcases; cbn [fst]; try lia.
Qed.

Definition abs_push (a : sinc_abs) (r : Z) : sinc_abs :=
  if zlen (queue a) <? 8 then mkAbs (hist a) (queue a ++ [r]) (lost a) (missed a)
  else mkAbs (hist a) (queue a) true (missed a).

Lemma filter_inv_fifo fast ord r h c f k : filter_inv fast ord r h c -> filter_inv fast ord r h (c <| fifo := f |> <| fifo_count := k |>).
Proof. intros []. by split. Qed.

(** The FIFO part of a push. *)
Lemma tracks_store n s0 s a res : tracks n s0 s a ->
  tracks n s0
    (if fifo_count ((ch s).[n]) <? MCXN_SINC_FIFO_DEPTH then
       upd_chan s n (fun c => c <| fifo := (fifo c).[fifo_count c <- res] |> <| fifo_count := u32 (fifo_count c + 1) |>)
     else set_reg s SINC_FIFOIS (reg s SINC_FIFOIS .| FIFO_OVERFLOW n)) (abs_push a res).
Proof.
  intros Ht. pose proof Ht as [Hs Hc Hfi Hsm Hl Hcnt Hq Hlo Hmi Ho]. pose proof Hs as [].
  assert (Hqn : zlen (queue a) = fifo_count ((ch s).[n])) by (rewrite Hq, length_take; lia).
  unfold abs_push. rewrite Hqn. change MCXN_SINC_FIFO_DEPTH with 8. destruct (Z.ltb_spec (fifo_count ((ch s).[n])) 8) as [Hlt|Hge].
  - assert (Hu : u32 (fifo_count ((ch s).[n]) + 1) = fifo_count ((ch s).[n]) + 1) by (apply wrap_id; lia).
    split; rewrite ?chan_upd_eq by done; cbn [hist queue lost missed fifo fifo_count modify]; rewrite ?Hu; try done.
    + by apply sampling_upd.
    + by apply filter_inv_fifo.
    + by autorewrite with arrays.
    + lia.
    + rewrite Hq. symmetry. apply fifo_push. lia.
    + intros m Hm Hne. rewrite chan_upd_ne by lia. by apply Ho.
  - apply (tracks_calm n s0 s); [apply calm_set; sinc_offsets | done | |].
    all: rewrite sinc_reg_eq, Z.lor_spec by (done || sinc_offsets); unfold FIFO_OVERFLOW; rewrite testbit_bit by lia.
    + rewrite Z.eqb_refl. btauto.
    + rewrite (proj2 (Z.eqb_neq (8 + n) n)), orb_false_r by lia. done.
Qed.

Lemma tracks_pfcm n s0 s a : tracks n s0 s a ->
  (CDR_PFCM (sinc_ch_reg s n SINC_CH_CDR) =? PFCM_FIXEDNUM) = false /\
  (CDR_PFCM (sinc_ch_reg s n SINC_CH_CDR) =? PFCM_SINGLE) = false.
Proof. intros [[] _ _ _ _ _ _ _ _ _]. by destruct sm_pfcm0 as [-> | ->]. Qed.

Lemma sinc_push_tracks n s0 s a v : tracks n s0 s a ->
  let g := config_of s0 n in
  tracks n s0 (sinc_push_result s n v)
    (abs_push a (if c_unsigned g then clamp 0 0xFFFFFF v else clamp (-0x800000) 0x7FFFFF v)).
Proof.
  intros Ht g. pose proof (tk_sampling _ _ _ _ Ht) as [Hn _ _ _ _ _ Hfe _ _ _]. unfold sinc_push_result.
  pose proof (sinc_saturate_spec (sinc_ch_reg s n SINC_CH_CCFR) (sinc_ch_reg s n SINC_CH_CSR) v) as Hsat.
  assert (Hu : flag (sinc_ch_reg s n SINC_CH_CCFR) CCFR_RDFMT = c_unsigned g) by exact (f_equal c_unsigned (tk_config _ _ _ _ Ht)).
  destruct (sinc_saturate _ _ _) as [v' csr]. cbn [fst] in Hsat. rewrite Hu in Hsat. rewrite <- Hsat, Hfe. cbn [andb].
  assert (Hr : swrap 32 v' = v') by (apply swrap_id; [|rewrite Hsat; unfold clamp; destruct (c_unsigned g)]; lia).
  rewrite Hr. clear Hsat Hr Hfe. pose proof (tracks_store n s0 s a v' Ht) as H1. match type of H1 with tracks _ _ ?x _ => set (s1 := x) in * end.
  clearbody s1. clear Ht Hu.
  assert (H3 : tracks n s0 (set_reg (sinc_set_ch_reg s1 n SINC_CH_CSR csr) SINC_NIS
                (reg (sinc_set_ch_reg s1 n SINC_CH_CSR csr) SINC_NIS .| NIS_COC n)) (abs_push a v')).
  { eapply tracks_quiet; [|apply H1]. transitivity (sinc_set_ch_reg s1 n SINC_CH_CSR csr); apply quiet_set; sinc_offsets. }
  set (s3 := set_reg _ _ _) in *. clearbody s3. clear H1.
  assert (H4 : tracks n s0 (if CCFR_FIFOWMK (sinc_ch_reg s n SINC_CH_CCFR) <? fifo_count (ch s3).[n] then
      if CDR_PFCM (sinc_ch_reg (set_reg s3 SINC_NIS (reg s3 SINC_NIS .| NIS_CHF n)) n SINC_CH_CDR) =? PFCM_FIXEDNUM
      then upd_chan (set_reg s3 SINC_NIS (reg s3 SINC_NIS .| NIS_CHF n)) n (fun c => c <| running := false |>)
      else set_reg s3 SINC_NIS (reg s3 SINC_NIS .| NIS_CHF n) else s3) (abs_push a v')).
  { destruct (_ <? _); [|done].
    assert (H5 : tracks n s0 (set_reg s3 SINC_NIS (reg s3 SINC_NIS .| NIS_CHF n)) (abs_push a v'))
      by (eapply tracks_quiet; [apply quiet_set; sinc_offsets | done]).
    by rewrite (proj1 (tracks_pfcm _ _ _ _ H5)). }
  match type of H4 with tracks _ _ ?x _ => set (s4 := x) in * end. clearbody s4. rewrite (proj2 (tracks_pfcm _ _ _ _ H4)).
  eapply tracks_quiet; [|apply H4]. transitivity (sinc_update_irq s4); [apply quiet_irq | apply quiet_dma].
Qed.

Lemma sinc_config_ranges s n : let g := config_of s n in
  0 < c_osr g <= 2048 /\ 0 <= c_pford g <= 3 /\ 0 <= c_shift g < 32 /\ - 2 ^ 31 <= c_bias g < 2 ^ 31.
Proof.
  cbn [config_of c_osr c_pford c_shift c_bias]. unfold CDR_PFOSR, CDR_PFORD, CCFR_PFSFT.
  assert (Hl : forall x k, 0 <= k -> 0 <= x .& Z.ones k < 2 ^ k)
    by (intros; rewrite Z.land_ones by done; apply Z.mod_pos_bound; lia).
  pose proof (Hl (sinc_ch_reg s n SINC_CH_CDR) 11 ltac:(lia)). pose proof (Hl (sinc_ch_reg s n SINC_CH_CDR .>> 11) 2 ltac:(lia)).
  pose proof (Hl (sinc_ch_reg s n SINC_CH_CCFR) 5 ltac:(lia)).
  change (Z.ones 11) with 0x7FF in *. change (Z.ones 2) with 3 in *. change (Z.ones 5) with 0x1F in *.
  repeat split; try lia; unfold swrap.
  all: pose proof (Z.mod_pos_bound (sinc_ch_reg s n SINC_CH_CBIAS + 2 ^ (32 - 1)) (2 ^ 32) ltac:(lia)); lia.
Qed.

Lemma stages_range s n : (1 <= stages (config_of s n) <= 3)%nat.
Proof. destruct (sinc_config_ranges s n) as (_ & H & _). unfold stages. destruct (Z.eqb_spec (c_pford (config_of s n)) 0); lia. Qed.

Lemma fir_bound s n h t : let g := config_of s n in
  Forall (fun x => Z.abs x <= 1) h -> Z.abs (fir g (recording h) t) <= 2 ^ 33.
Proof.
  intros g Hh. destruct (sinc_config_ranges s n) as (Ho & Hp & _). fold g in Ho, Hp.
  assert (Hr : forall u, Z.abs (recording h u) <= 1) by (intros; by apply recording_bound).
  assert (Hb : forall k u, (k <= 3)%nat -> Z.abs (Nat.iter k (moving_sum (c_osr g)) (recording h) u) <= 2048 ^ Z.of_nat k).
  { intros k u Hk. etransitivity; [apply moving_sums_bound; [lia | done]|]. apply Z.pow_le_mono_l. lia. }
  unfold fir. destruct (Z.eqb_spec (c_pford g) 0) as [E|E].
  - pose proof (Hb 2%nat t ltac:(lia)). pose proof (Hb 2%nat (t - 2 * c_osr g) ltac:(lia)).
    change (2048 ^ Z.of_nat 2) with (2 ^ 22) in *. lia.
  - etransitivity; [apply Hb; lia|]. transitivity (2048 ^ 3); [|done]. apply Z.pow_le_mono_r; lia.
Qed.

(** The part of a sample after the decimation: the end of [sinc_feed_bit]. *)
Definition decimate (s : MCXNSINCState) (n : Z) (g : sinc_config) : MCXNSINCState :=
  let c := (ch s).[n] in
  let '(cb, v) := sinc_combs (Z.of_nat (stages g)) (comb c) ((integ c).[Z.of_nat (stages g) - 1]) in
  let s := upd_chan s n (fun c => c <| phase := 0 |> <| comb := cb |>) in
  let fs := fs_delay ((ch s).[n]) in
  let '(s, v) := if c_pford g =? 0
                 then (upd_chan s n (fun c => c <| fs_delay := fs.[1 <- fs.[0]].[0 <- v] |>), swrap 64 (v + fs.[1]))
                 else (s, v) in
  sinc_push_result s n (swrap 64 ((v .>> c_shift g) + c_bias g)).

Lemma sinc_feed_bit_eq s n (b : bool) : let g := config_of s n in
  let x := if c_unsigned g then if b then 1 else 0 else if b then 1 else -1 in
  let s1 := upd_chan s n (accumulate (Z.of_nat (stages g)) x) in
  sinc_feed_bit s n (Z.b2z b) = if phase ((ch s1).[n]) <? c_osr g then s1 else decimate s1 n g.
Proof.
  intros g x s1. destruct (sinc_config_ranges s n) as (Ho & Hp & _ & _). fold g in Ho, Hp. unfold sinc_feed_bit.
  assert (Hx : (if flag (sinc_ch_reg s n SINC_CH_CCFR) CCFR_RDFMT then Z.b2z b else if Z.b2z b =? 0 then -1 else 1) = x)
    by (subst x; unfold g; cbn [config_of c_unsigned]; by destruct (flag _ _), b).
  assert (Hosr : u32 (CDR_PFOSR (sinc_ch_reg s n SINC_CH_CDR) + 1) = c_osr g) by (apply wrap_id; change (CDR_PFOSR (sinc_ch_reg s n SINC_CH_CDR) + 1) with (c_osr g); lia).
  assert (Hord : (if CDR_PFORD (sinc_ch_reg s n SINC_CH_CDR) =? 0 then 2 else CDR_PFORD (sinc_ch_reg s n SINC_CH_CDR)) = Z.of_nat (stages g)).
  { unfold stages. change (CDR_PFORD (sinc_ch_reg s n SINC_CH_CDR)) with (c_pford g). clearbody g. clear -Hp. destruct (_ =? _); lia. }
  rewrite Hx, Hosr, Hord. reflexivity.
Qed.

Lemma filter_result g h t v : 0 < c_osr g ->
  Z.abs (fir g (recording h) t) <= 2 ^ 33 -> 0 <= c_shift g < 32 -> - 2 ^ 31 <= c_bias g < 2 ^ 31 ->
  v = swrap 64 (fir g (recording h) t) ->
  (if c_unsigned g then clamp 0 0xFFFFFF (swrap 64 ((v .>> c_shift g) + c_bias g))
   else clamp (-0x800000) 0x7FFFFF (swrap 64 ((v .>> c_shift g) + c_bias g))) = fir_result g (recording h) t.
Proof.
  intros Ho Hf Hs Hb ->. rewrite (swrap_id 64 (fir _ _ _)) by lia. rewrite Z.shiftr_div_pow2 by lia.
  set (f := fir _ _ _) in *. assert (Hd : - 2 ^ 33 <= f / 2 ^ c_shift g <= 2 ^ 33).
  { pose proof (Z.pow_pos_nonneg 2 (c_shift g) ltac:(lia) ltac:(lia)). split.
    - apply Z.div_le_lower_bound; nia.
    - apply Z.div_le_upper_bound; nia. }
  rewrite swrap_id by lia. reflexivity.
Qed.

Lemma sinc_feed_bit_tracks n s0 s a (b : bool) : tracks n s0 s a ->
  tracks n s0 (sinc_feed_bit s n (Z.b2z b)) (abs_sample (config_of s0 n) a b).
Proof.
  intros Ht. pose proof (sinc_config_ranges s0 n) as (Hosr & Hpf & Hsh & Hbi). pose proof (stages_range s0 n) as Hst.
  pose proof (fir_bound s0 n) as Hfb. pose proof (tk_config _ _ _ _ Ht) as Hc. rewrite sinc_feed_bit_eq, Hc. unfold abs_sample.
  set (g := config_of s0 n) in *. set (x := if c_unsigned g then _ else _) in *.
  assert (Hx : Z.abs x <= 1) by (subst x; by destruct (c_unsigned g), b). clearbody x.
  assert (Hxw : swrap 64 x = x) by (apply swrap_id; lia).
  pose proof Ht as [[Hn _ Hchl _ _ _ _ _ _ Hrun] _ Hfi Hsm Hfl Hcnt Hq Hlo Hmi Hot]. fold g in Hfi.
  assert (Hh : Forall (fun x => Z.abs x <= 1) (hist a ++ [x])) by (apply Forall_app; by repeat constructor).
  rewrite chan_upd_eq by done. destruct (Z.eqb_spec (zlen (hist a ++ [x]) mod c_osr g) 0) as [Hm|Hm].
  - destruct (filter_decimate _ _ _ _ _ _ Hfi Hst ltac:(lia) Hxw Hm) as [Hp Hd]. rewrite Hp, Z.ltb_irrefl. clear Hp.
    unfold decimate. cbv zeta. rewrite chan_upd_eq by done.
    destruct (sinc_combs _ _ _) as [cb v]. destruct Hd as (Hv & Hf1 & Hfi').
    rewrite (chan_upd_upd s n (accumulate (Z.of_nat (stages g)) x)), chan_upd_eq by done. cbn [fs_delay modify].
    set (fs := fs_delay (accumulate _ _ _)) in *.
    rewrite <- (filter_result g (hist a ++ [x]) (zlen (hist a ++ [x])) (if c_pford g =? 0 then swrap 64 (v + fs.[1]) else v));
      [|lia | by apply Hfb | done..|].
    + set (h := hist a ++ [x]) in *. clearbody h.
      assert (Hgo : forall f w, running (f ((ch s).[n])) = true -> filter_inv (c_pford g =? 0) (stages g) (c_osr g) h (f ((ch s).[n])) ->
        fifo (f ((ch s).[n])) = fifo ((ch s).[n]) -> fifo_count (f ((ch s).[n])) = fifo_count ((ch s).[n]) ->
        tracks n s0 (sinc_push_result (upd_chan s n f) n w)
          (abs_push (mkAbs h (queue a) (lost a) (missed a)) (if c_unsigned g then clamp 0 0xFFFFFF w else clamp (-0x800000) 0x7FFFFF w)))
        by (intros; apply sinc_push_tracks; by apply tracks_upd).
      destruct (c_pford g =? 0); [rewrite chan_upd_upd by done|]; by apply Hgo.
    + unfold fir, stages in *. destruct (c_pford g =? 0).
      * rewrite Hv, Hf1 by done. rewrite swrap_add by lia. done.
      * done.
  - destruct (filter_accumulate _ _ _ _ _ _ Hfi ltac:(lia) ltac:(lia) Hxw Hm) as [Hp Hfi'].
    rewrite (proj2 (Z.ltb_lt _ _) Hp). by apply tracks_upd.
Qed.

Lemma sinc_data_word r : u32 (u32 r .<< 8) .& 0xFFFFFF00 = u32 (r * 256).
Proof.
  change 256 with (2 ^ 8). rewrite <- Z.shiftl_mul_pow2 by lia. change 0xFFFFFF00 with (Z.ones 24 .<< 8).
  apply Z.bits_inj'. intros i Hi. autorewrite with bits. destruct (Z.lt_ge_cases i 8).
  - rewrite !(Z.testbit_neg_r _ (i - 8)) by lia. btauto.
  - autorewrite with bits. zcases; try btauto; lia.
Qed.

(** Decoding of the channel registers. *)
Lemma sinc_decode n rel : 0 <= n < 5 -> 0 <= rel < 0x30 ->
  let off := SINC_CH_BASE + n * SINC_CH_STEP + rel in
  sinc_in_channels off = true /\ sinc_chan_of off = n /\ sinc_rel_of off = rel /\ 0x38 <= off.
Proof.
  unfold sinc_in_channels, sinc_chan_of, sinc_rel_of, SINC_CH_LAST, SINC_CH_BASE, SINC_CH_STEP, MCXN_SINC_NUM_CH.
  intros Hn Hr. repeat split; [zcases; lia | dlia | dlia | lia].
Qed.

Lemma sinc_write_cmpdata s n w : 0 <= n < 5 ->
  mcxn_sinc_write s (SINC_CH_BASE + n * SINC_CH_STEP + SINC_CH_CMPDATA) w 4 =
  sinc_feed_mpdata (sinc_set_ch_reg s n SINC_CH_CMPDATA (u32 w)) n (u32 w).
Proof.
  intros Hn. destruct (sinc_decode n SINC_CH_CMPDATA Hn ltac:(done)) as (H1 & H2 & H3 & H4).
  unfold mcxn_sinc_write. rewrite H1, H2, H3.
  rewrite !(proj2 (Z.eqb_neq (SINC_CH_BASE + _ + _) _)) by (unfold SINC_VERID, SINC_PARAMETER, SINC_SR, SINC_MCR, SINC_NIE,
    SINC_EIE, SINC_FIFOIE, SINC_NIS, SINC_EIS, SINC_FIFOIS; lia). reflexivity.
Qed.

Lemma sinc_read_crdata_eq s n : 0 <= n < 5 ->
  mcxn_sinc_read s (SINC_CH_BASE + n * SINC_CH_STEP + SINC_CH_CRDATA) = sinc_read_crdata s n.
Proof.
  intros Hn. destruct (sinc_decode n SINC_CH_CRDATA Hn ltac:(done)) as (H1 & H2 & H3 & H4).
  unfold mcxn_sinc_read. rewrite H1, H2, H3.
  rewrite !(proj2 (Z.eqb_neq (SINC_CH_BASE + _ + _) _)) by (unfold SINC_VERID, SINC_PARAMETER, SINC_SR; lia). reflexivity.
Qed.

Lemma bit_at w i : 0 <= i -> (w .>> i) .& 1 = Z.b2z (Z.testbit w i).
Proof.
  intros Hi. change 1 with (Z.ones 1). rewrite Z.land_ones by lia. rewrite Z.shiftr_div_pow2 by done. symmetry.
  by apply Z.testbit_spec'.
Qed.

Lemma sinc_feed_bits_tracks n s0 w l : Forall (fun i => 0 <= i < 32) l -> forall s a, tracks n s0 s a ->
  tracks n s0 (foldl (fun s i => sinc_feed_bit s n ((u32 w .>> i) .& 1)) s l)
    (foldl (abs_sample (config_of s0 n)) a (map (Z.testbit w) l)).
Proof.
  induction 1 as [|i l Hi _ IH]; intros s a Ht; cbn [foldl map]; [done|]. apply IH.
  rewrite bit_at, testbit_wrap, (proj2 (Z.ltb_lt i 32)) by lia. by apply sinc_feed_bit_tracks.
Qed.

Lemma Forall_rev_seqZ k : k <= 32 -> Forall (fun i => 0 <= i < 32) (rev (seqZ 0 k)).
Proof. intros Hk. apply Forall_rev, Forall_forall. intros i Hi. apply elem_of_seqZ in Hi. lia. Qed.

Lemma sinc_feed_tracks n s0 s a w : tracks n s0 s a ->
  tracks n s0 (sinc_exec n s (Feed w)).1 (abs_exec (config_of s0 n) a (Feed w)).1.
Proof.
  intros Ht. pose proof (sm_n _ _ (tk_sampling _ _ _ _ Ht)) as Hn. cbn [sinc_exec abs_exec fst]. rewrite sinc_write_cmpdata by done.
  assert (Ht' : tracks n s0 (sinc_set_ch_reg s n SINC_CH_CMPDATA (u32 w)) a)
    by (eapply tracks_quiet; [apply quiet_set; sinc_offsets | done]).
  clear Ht. set (s1 := sinc_set_ch_reg _ _ _ _) in *. clearbody s1. unfold sinc_feed_mpdata.
  pose proof Ht' as [[_ _ _ H1 H2 H3 _ _ Hib H4] Hc _ _ _ _ _ _ _ _]. rewrite H1, H2, H3, H4. cbn [negb orb].
  assert (Hw : c_width (config_of s0 n) = if CCFR_IBFMT (sinc_ch_reg s1 n SINC_CH_CCFR) =? IBFMT_PM then 16 else 32)
    by (by rewrite <- Hc). rewrite Hw.
  destruct Hib as [Hib|Hib]; rewrite Hib; apply sinc_feed_bits_tracks; by try apply Forall_rev_seqZ.
Qed.

Lemma sinc_drain_tracks n s0 s a : tracks n s0 s a ->
  tracks n s0 (sinc_exec n s Drain).1 (abs_exec (config_of s0 n) a Drain).1 /\
  (sinc_exec n s Drain).2 = (abs_exec (config_of s0 n) a Drain).2.
Proof.
  intros Ht. pose proof Ht as [[Hn Hrl Hcl _ _ _ Hfe _ _ Hrun] Hc Hfi Hsm Hfl Hcnt Hq Hlo Hmi Hot].
  cbn [sinc_exec abs_exec]. rewrite sinc_read_crdata_eq by done. unfold sinc_read_crdata. rewrite Hfe.
  destruct (Z.eqb_spec (fifo_count ((ch s).[n])) 0) as [E|E].
  - rewrite E in Hq. change (queue a = []) in Hq. rewrite Hq. cbn [fst snd]. split; [|done]. rewrite <- Hq.
    eapply tracks_quiet; [apply quiet_irq|]. apply (tracks_calm n s0 s); [apply calm_set; sinc_offsets | done | |].
    all: rewrite sinc_reg_eq, Z.lor_spec by (done || sinc_offsets); unfold FIFO_UNDERFLOW; rewrite testbit_bit by lia.
    + by rewrite (proj2 (Z.eqb_neq n (8 + n))), orb_false_r by lia.
    + rewrite Z.eqb_refl. btauto.
  - rewrite fifo_pop in Hq by lia. rewrite Hq. cbn [fst snd]. split; [|by rewrite sinc_data_word].
    set (k := fifo_count (ch s).[n] - 1) in *.
    assert (Hk : u32 (fifo_count (ch s).[n] - 1) = k) by (apply wrap_id; lia).
    set (s1 := upd_chan s n _).
    assert (H1 : tracks n s0 s1 (mkAbs (hist a) (take (Z.to_nat k) (fifo_shift (fifo (ch s).[n]) k)) (lost a) (missed a))).
    { subst s1. split; rewrite ?chan_upd_eq by done; cbn [hist queue lost missed fifo fifo_count modify]; rewrite ?Hk; try done.
      - apply sampling_upd; [apply Ht | done].
      - destruct Hfi. by split.
      - rewrite fifo_shift_len; lia.
      - lia.
      - intros m Hm Hne. rewrite chan_upd_ne by lia. by apply Hot. }
    clearbody s1. eapply tracks_quiet; [apply quiet_dma|]. destruct (_ <=? _); [|done].
    eapply tracks_quiet; [|apply H1]. etransitivity; [|apply quiet_irq]. apply quiet_set; sinc_offsets.
Qed.

(** Channel [n] is set up for samples from CMPDATA and waits for a trigger. *)
Record configured (s : MCXNSINCState) (n : Z) : Prop := {
  cf_n : 0 <= n < 5;
  cf_regs : zlen (regs s) = 1024;
  cf_ch : zlen (ch s) = 5;
  cf_fifo : zlen (fifo ((ch s).[n])) = 8;
  cf_chen : flag (sinc_ch_reg s n SINC_CH_CCR) CCR_CHEN = true;
  cf_pfen : flag (sinc_ch_reg s n SINC_CH_CCR) CCR_PFEN = true;
  cf_fifoen : flag (sinc_ch_reg s n SINC_CH_CCR) CCR_FIFOEN = true;
  cf_pfcm : CDR_PFCM (sinc_ch_reg s n SINC_CH_CDR) = PFCM_CONTINUOUS \/
            CDR_PFCM (sinc_ch_reg s n SINC_CH_CDR) = PFCM_ALWAYS /\ running ((ch s).[n]) = false;
  cf_ibfmt : CCFR_IBFMT (sinc_ch_reg s n SINC_CH_CCFR) = IBFMT_PM \/ CCFR_IBFMT (sinc_ch_reg s n SINC_CH_CCFR) = IBFMT_SM;
}.

Lemma sinc_trigger_eq s n : configured s n ->
  mcxn_sinc_write s SINC_MCR (MCR_MEN .| MCR_STRIG n) 4 =
  set_reg (upd_chan s n (fun c => sinc_reset_channel_filter c <| running := true |>)) SINC_MCR MCR_MEN.
Proof.
  intros Hc. pose proof (cf_n _ _ Hc) as Hn.
  transitivity (set_reg (if negb ((CDR_PFCM (sinc_ch_reg s n SINC_CH_CDR) =? PFCM_ALWAYS) && running ((ch s).[n])) then
    upd_chan s n (fun c => sinc_reset_channel_filter c <| running := true |>) else s) SINC_MCR MCR_MEN).
  - clear Hc. by assert (n = 0 \/ n = 1 \/ n = 2 \/ n = 3 \/ n = 4) as [->|[->|[->|[->| ->]]]] by lia.
  - destruct (cf_pfcm _ _ Hc) as [-> |[-> ->]]; reflexivity.
Qed.

Lemma sinc_trigger_tracks s n : configured s n ->
  let s0 := mcxn_sinc_write s SINC_MCR (MCR_MEN .| MCR_STRIG n) 4 in
  tracks n s0 s0 (mkAbs [] [] false false) /\ config_of s0 n = config_of s n /\
  reg s0 SINC_FIFOIS = reg s SINC_FIFOIS /\ forall m, 0 <= m < 5 -> m <> n -> (ch s0).[m] = (ch s).[m].
Proof.
  intros Hc. cbv zeta. rewrite sinc_trigger_eq by done. pose proof Hc as [Hn Hrl Hcl Hfl H1 H2 H3 H4 H5].
  destruct (sinc_config_ranges s n) as (Ho & _). pose proof (stages_range s n) as Hst.
  set (s1 := upd_chan s n _). set (s0 := set_reg s1 SINC_MCR MCR_MEN).
  assert (Hne : forall rel, 0 <= rel -> sinc_ch_reg s0 n rel = sinc_ch_reg s n rel)
    by (intros; change (sinc_ch_reg s n rel) with (sinc_ch_reg s1 n rel); apply sinc_reg_ne; sinc_offsets).
  assert (Hcf : config_of s0 n = config_of s n) by (unfold config_of; by rewrite !Hne by done).
  assert (Hch : ch s0 = ch s1) by done.
  assert (Hc1 : (ch s0).[n] = sinc_reset_channel_filter ((ch s).[n]) <| running := true |>)
    by (rewrite Hch; unfold s1; by rewrite chan_upd_eq).
  split; [|split; [done|split]].
  - split; rewrite ?Hcf, ?Hc1, ?orb_false_r; try done.
    + split; try done; rewrite ?Hne, ?Hc1 by done; try done.
      * unfold s0, set_reg. cbn [regs modify]. by autorewrite with arrays.
      * unfold s0, s1, set_reg, upd_chan. cbn [ch modify]. by autorewrite with arrays.
      * unfold s0. by rewrite sinc_reg_eq by done.
      * destruct H4 as [|[]]; auto.
    + pose proof (filter_inv_reset (c_pford (config_of s n) =? 0) (stages (config_of s n)) (c_osr (config_of s n)) ((ch s).[n])
        ltac:(lia) ltac:(lia)) as []. by split.
  - change (reg s SINC_FIFOIS) with (reg s1 SINC_FIFOIS). apply sinc_reg_ne; done.
  - intros m Hm Hne'. rewrite Hch. apply chan_upd_ne; lia.
Qed.

Lemma sinc_exec_tracks n s0 s a op : tracks n s0 s a ->
  tracks n s0 (sinc_exec n s op).1 (abs_exec (config_of s0 n) a op).1 /\ (sinc_exec n s op).2 = (abs_exec (config_of s0 n) a op).2.
Proof. intros Ht. destruct op as [w|]; [split; [by apply sinc_feed_tracks | done] | by apply sinc_drain_tracks]. Qed.

(** C5: The decimation filter is the reference filter.  From its trigger on, a
    channel fed through CMPDATA and drained through CRDATA, in any order and
    for any length, returns the results of the reference: for every OSR samples
    the cascade of ORD moving sums (or FastSinc's) over all samples since the
    trigger, scaled, biased and clamped to 24 bits, in order, through a queue of
    eight; a result is lost only to a full queue, and flagged; a read of an
    empty queue is flagged; and no other channel changes.  The wrap-around of the
    64-bit integrators never shows. *)
Theorem sinc_refines_fir s n ops :
  configured s n ->
  let s0 := mcxn_sinc_write s SINC_MCR (MCR_MEN .| MCR_STRIG n) 4 in
  let '(s', out) := run_ops (sinc_exec n) s0 ops in
  let '(a, out') := run_ops (abs_exec (config_of s n)) (mkAbs [] [] false false) ops in
  out = out' /\
  queue a = take (Z.to_nat (fifo_count ((ch s').[n]))) (fifo ((ch s').[n])) /\
  flag (reg s' SINC_FIFOIS) (FIFO_OVERFLOW n) = flag (reg s SINC_FIFOIS) (FIFO_OVERFLOW n) || lost a /\
  flag (reg s' SINC_FIFOIS) (FIFO_UNDERFLOW n) = flag (reg s SINC_FIFOIS) (FIFO_UNDERFLOW n) || missed a /\
  forall m, 0 <= m < 5 -> m <> n -> (ch s').[m] = (ch s).[m].
Proof.
  intros Hc s0. destruct (sinc_trigger_tracks s n Hc) as (Ht & Hcf & Hf & Hm). fold s0 in Ht, Hcf, Hf, Hm.
  pose proof (cf_n _ _ Hc) as Hn.
  pose proof (run_ops_simulates (sinc_exec n) (abs_exec (config_of s0 n)) (tracks n s0) (fun _ => True)
    (fun s a op _ => sinc_exec_tracks n s0 s a op) ops s0 _ ltac:(by apply Forall_true) Ht) as Hr. rewrite Hcf in Hr.
  destruct (run_ops (sinc_exec n) s0 ops) as [s' out], (run_ops _ (mkAbs _ _ _ _) ops) as [a out'].
  cbn [fst snd] in Hr. destruct Hr as [[] ->]. unfold FIFO_OVERFLOW, FIFO_UNDERFLOW. rewrite !flag_bit, <- Hf by lia.
  split; [done|]. split; [done|]. split; [done|]. split; [done|]. intros m H1 H2. rewrite <- Hm by done. auto.
Qed.

(** Channel 1, third order, OSR 8, signed words of 32 bits. *)
Definition sinc_sample : MCXNSINCState :=
  let base := SINC_CH_BASE + SINC_CH_STEP in
  let s := mcxn_sinc_write sinc_init (base + SINC_CH_CCR) (CCR_CHEN .| CCR_PFEN .| CCR_FIFOEN) 4 in
  let s := mcxn_sinc_write s (base + SINC_CH_CDR) (7 .| (3 .<< 11) .| (1 .<< 14)) 4 in
  mcxn_sinc_write s (base + SINC_CH_CCFR) (3 .<< 16) 4.

Lemma sinc_sample_configured : configured sinc_sample 1.
Proof. split; try done; first [by left | by right]. Qed.

Lemma sinc_refines_fir_witness :
  let ops := [Feed 0xFFFFFFFF; Drain; Drain; Feed 0x00FF00FF; Drain; Drain; Drain; Drain; Drain; Drain; Drain] in
  let s0 := mcxn_sinc_write sinc_sample SINC_MCR (MCR_MEN .| MCR_STRIG 1) 4 in
  (run_ops (sinc_exec 1) s0 ops).2 =
    map (fun v => u32 (v * 256)) [120; 456; 512; 512; 272; -160; 160; -160] ++ [0].
Proof.
  pose proof (sinc_refines_fir sinc_sample 1
    [Feed 0xFFFFFFFF; Drain; Drain; Feed 0x00FF00FF; Drain; Drain; Drain; Drain; Drain; Drain; Drain] sinc_sample_configured) as H.
  cbv zeta in H |- *. destruct (run_ops (sinc_exec 1) _ _) as [s' out].
  destruct (run_ops (abs_exec _) _ _) as [a out'] eqn:E. destruct H as [H _].
  apply (f_equal snd) in E. vm_compute in E. cbn [snd]. rewrite H, <- E. vm_compute. reflexivity.
Defined.

(** ** Bounds and lines in every reachable state *)

Definition result_range (v : Z) : Prop := -0x800000 <= v <= 0xFFFFFF.

Record chan_ok (c : MCXNSINCChannel) : Prop := {
  co_phase : 0 <= phase c < 2048;
  co_fifo : zlen (fifo c) = 8;
  co_count : 0 <= fifo_count c <= 8;
  co_results : Forall result_range (fifo c);
  co_last : result_range (last c);
}.

Record chans_ok (s : MCXNSINCState) : Prop := {
  cs_regs : zlen (regs s) = 1024;
  cs_ch : zlen (ch s) = 5;
  cs_ok : Forall chan_ok (ch s);
}.

Definition sinc_level (s : MCXNSINCState) : bool :=
  flag (reg s SINC_NIS) (reg s SINC_NIE) || flag (reg s SINC_EIS) (reg s SINC_EIE) ||
  flag (reg s SINC_FIFOIS) (reg s SINC_FIFOIE).
Definition sinc_ok (s : MCXNSINCState) : Prop := chans_ok s /\ irq s = sinc_level s.

Lemma chans_ok_upd s n f : chans_ok s -> 0 <= n < 5 -> (chan_ok ((ch s).[n]) -> chan_ok (f ((ch s).[n]))) -> chans_ok (upd_chan s n f).
Proof.
  intros [H1 H2 H3] Hn Hf. unfold upd_chan. split; cbn [regs ch modify]; autorewrite with arrays; try done.
  apply Forall_arr_set; [done|]. apply Hf. apply Forall_arr_get; [done | lia].
Qed.

Lemma chans_ok_set s off v : chans_ok s -> chans_ok (set_reg s off v).
Proof. intros []. split; unfold set_reg; cbn [regs ch modify]; autorewrite with arrays; done. Qed.

Lemma chans_ok_dma s n : chans_ok s -> chans_ok (sinc_update_dma_req s n).
Proof. intros []. unfold sinc_update_dma_req. destruct (negb _); by split. Qed.

Lemma sinc_ok_irq s : chans_ok s -> sinc_ok (sinc_update_irq s).
Proof. intros []. by split. Qed.

Lemma sinc_ok_dma s n : sinc_ok s -> sinc_ok (sinc_update_dma_req s n).
Proof.
  intros [H1 H2]. split; [by apply chans_ok_dma|]. unfold sinc_update_dma_req. by destruct (negb _).
Qed.

Lemma sinc_ok_upd s n f : sinc_ok s -> 0 <= n < 5 -> (chan_ok ((ch s).[n]) -> chan_ok (f ((ch s).[n]))) -> sinc_ok (upd_chan s n f).
Proof. intros [H1 H2] Hn Hf. split; [by apply chans_ok_upd | done]. Qed.

(** A register outside the three pairs of status and enable registers. *)
Lemma sinc_ok_set s off v : sinc_ok s -> 0x24 <= off \/ 0 <= off < 0x0C -> sinc_ok (set_reg s off v).
Proof.
  intros [H1 H2] Ho. split; [by apply chans_ok_set|]. change (irq (set_reg s off v)) with (irq s). rewrite H2.
  unfold sinc_level. rewrite !sinc_reg_ne; [done|..]; unfold SINC_NIS, SINC_NIE, SINC_EIS, SINC_EIE, SINC_FIFOIS, SINC_FIFOIE; dlia.
Qed.

Lemma chan_ok_reset c b : chan_ok c -> chan_ok (sinc_reset_channel_filter c <| running := b |>).
Proof. intros []. by split. Qed.

Lemma chan_ok_running c b : chan_ok c -> chan_ok (c <| running := b |>).
Proof. intros []. by split. Qed.

Lemma sinc_saturate_range ccfr csr v : result_range (sinc_saturate ccfr csr v).1.
Proof. rewrite sinc_saturate_spec. unfold clamp, result_range. destruct (flag _ _); lia. Qed.

Lemma chans_ok_if (b : bool) s1 s2 : chans_ok s1 -> chans_ok s2 -> chans_ok (if b then s1 else s2).
Proof. by destruct b. Qed.

Create HintDb sinc.
#[export] Hint Resolve chans_ok_upd chans_ok_set chans_ok_dma sinc_ok_irq sinc_ok_dma chan_ok_reset chan_ok_running chans_ok_if : sinc.

Lemma sinc_push_ok s n v : chans_ok s -> 0 <= n < 5 -> sinc_ok (sinc_push_result s n v).
Proof.
  intros Hs Hn. unfold sinc_push_result. pose proof (sinc_saturate_range (sinc_ch_reg s n SINC_CH_CCFR) (sinc_ch_reg s n SINC_CH_CSR) v) as Hr.
  destruct (sinc_saturate _ _ _) as [v' csr]. cbn [fst] in Hr. rewrite (swrap_id 32 v') by (unfold result_range in Hr; lia).
  apply sinc_ok_dma, sinc_ok_irq.
  assert (H1 : chans_ok (if flag (sinc_ch_reg s n SINC_CH_CCR) CCR_FIFOEN then
      if fifo_count ((ch s).[n]) <? MCXN_SINC_FIFO_DEPTH then
        upd_chan s n (fun c => c <| fifo := (fifo c).[fifo_count c <- v'] |> <| fifo_count := u32 (fifo_count c + 1) |>)
      else set_reg s SINC_FIFOIS (reg s SINC_FIFOIS .| FIFO_OVERFLOW n)
    else upd_chan s n (fun c => c <| last := v' |> <| have_last := true |>))).
  { destruct (flag _ _); [destruct (Z.ltb_spec (fifo_count ((ch s).[n])) MCXN_SINC_FIFO_DEPTH)|]; auto with sinc.
    - apply chans_ok_upd; [done..|]. intros []. unfold MCXN_SINC_FIFO_DEPTH in *. split; cbn [phase fifo fifo_count last modify]; try done.
      + by autorewrite with arrays.
      + rewrite wrap_id; lia.
      + by apply Forall_arr_set.
    - apply chans_ok_upd; [done..|]. intros []. by split. }
  match type of H1 with chans_ok ?x => set (s1 := x) in * end. clearbody s1.
  cbv zeta. unfold sinc_set_ch_reg. auto 12 with sinc.
Qed.

Lemma sinc_feed_bit_ok s n b : sinc_ok s -> 0 <= n < 5 -> sinc_ok (sinc_feed_bit s n b).
Proof.
  intros Hs Hn. pose proof Hs as [Hc _]. pose proof (cs_ch _ Hc) as Hl. unfold sinc_feed_bit. cbv zeta.
  destruct (sinc_config_ranges s n) as (Ho & _). cbn [config_of c_osr] in Ho.
  set (osr := u32 _). assert (Hosr : osr <= 2048) by (unfold osr; rewrite wrap_id; lia). clearbody osr. clear Ho.
  set (x := if flag _ _ then b else _). set (ord := if _ =? 0 then _ else _). clearbody ord. rewrite chan_upd_eq by done.
  destruct (Z.ltb_spec (phase ((ch s).[n] <| integ := sinc_integrate ord (integ (ch s).[n]) x |> <| phase := u32 (phase (ch s).[n] + 1) |>)) osr) as [Hp|_].
  - apply sinc_ok_upd; [done..|]. intros []. cbn [phase modify] in Hp. split; cbn [phase fifo fifo_count last modify]; try done.
    rewrite wrap_id in *; lia.
  - destruct (sinc_combs _ _ _) as [cb v]. rewrite (chan_upd_upd s n) by done.
    assert (H1 : chans_ok (upd_chan s n (fun c => c <| integ := sinc_integrate ord (integ c) x |> <| phase := u32 (phase c + 1) |>
              <| phase := 0 |> <| comb := cb |>))) by (apply chans_ok_upd; [done..|]; intros []; by split).
    set (s1 := upd_chan s n _) in *. clearbody s1. destruct (CDR_PFORD _ =? 0); apply sinc_push_ok; try done.
    apply chans_ok_upd; [done..|]. intros []. by split.
Qed.

Lemma foldl_ok {A} (P : MCXNSINCState -> Prop) (f : MCXNSINCState -> A -> MCXNSINCState) l :
  (forall s x, x ∈ l -> P s -> P (f s x)) -> forall s, P s -> P (foldl f s l).
Proof.
  induction l as [|x l IH]; intros Hf s Hs; cbn [foldl]; [done|].
  apply IH; [intros; apply Hf; [by right | done] | apply Hf; [by left | done]].
Qed.

Lemma sinc_feed_mpdata_ok s n v : sinc_ok s -> 0 <= n < 5 -> sinc_ok (sinc_feed_mpdata s n v).
Proof.
  intros Hs Hn. unfold sinc_feed_mpdata. repeat (destruct (_ : bool); try done).
  all: apply foldl_ok; [|done]; intros; by apply sinc_feed_bit_ok.
Qed.

Lemma sinc_write_mcr_ok s v : sinc_ok s -> sinc_ok (sinc_write_mcr s v).
Proof.
  intros Hs. unfold sinc_write_mcr.
  assert (H1 : sinc_ok (foldl (fun s n => upd_chan s n (fun c => sinc_reset_channel_filter c <| running := false |>)) s (seqZ 0 MCXN_SINC_NUM_CH))).
  { apply foldl_ok; [|done]. intros s' n Hn Hs'. apply elem_of_seqZ in Hn. apply sinc_ok_upd; auto with sinc; unfold MCXN_SINC_NUM_CH in *; lia. }
  set (sv := if flag v MCR_RST then _ else _). assert (H2 : sinc_ok sv.1) by (subst sv; by destruct (flag _ _)).
  destruct sv as [s2 v2]. cbn [fst] in H2. apply sinc_ok_set; [|unfold SINC_MCR; lia].
  apply foldl_ok; [|done]. intros s' n Hn Hs'. apply elem_of_seqZ in Hn. destruct (flag _ _); [|done]. destruct (negb _); [|done].
  apply sinc_ok_upd; auto with sinc; unfold MCXN_SINC_NUM_CH in *; lia.
Qed.

Lemma sinc_chan_range off : sinc_in_channels off = true -> 0 <= sinc_chan_of off < 5 /\ 0x38 <= off.
Proof.
  unfold sinc_in_channels, sinc_chan_of, SINC_CH_LAST, SINC_CH_BASE, SINC_CH_STEP, MCXN_SINC_NUM_CH. intros H.
  apply andb_true_iff in H as [H1 H2]. dlia.
Qed.

Lemma sinc_write_ok s off v : sinc_ok s -> 0 <= off -> off mod 4 = 0 -> sinc_ok (mcxn_sinc_write s off v 4).
Proof.
  intros Hs Ho Ha. pose proof Hs as [Hc _]. unfold mcxn_sinc_write. pose proof (sinc_chan_range off) as Hr.
  destruct (_ || _ || (off =? SINC_SR)) eqn:E1; [done|]. destruct (off =? SINC_MCR) eqn:E2; [by apply sinc_write_mcr_ok|].
  destruct (_ || _ || (off =? SINC_FIFOIE)) eqn:E3; [auto with sinc|].
  destruct (_ || _ || (off =? SINC_FIFOIS)) eqn:E4; [auto with sinc|].
  assert (Hoff : 0x24 <= off) by (unfold SINC_VERID, SINC_PARAMETER, SINC_SR, SINC_MCR, SINC_NIE, SINC_EIE, SINC_FIFOIE, SINC_NIS,
    SINC_EIS, SINC_FIFOIS in *; dlia).
  clear E1 E2 E3 E4. destruct (sinc_in_channels off) eqn:Ei; [|apply sinc_ok_set; auto].
  destruct (Hr eq_refl) as [Hn _]. repeat match goal with |- sinc_ok (if ?b then _ else _) => destruct b eqn:? end; try done.
  - by apply sinc_feed_mpdata_ok; [apply sinc_ok_set; auto|].
  - apply sinc_ok_dma. destruct (_ && _); [apply sinc_ok_upd; auto with sinc|]; apply sinc_ok_set; auto.
  - assert (H1 : sinc_ok (sinc_update_dma_req (set_reg s off (u32 v)) (sinc_chan_of off))) by (apply sinc_ok_dma, sinc_ok_set; auto).
    destruct H1 as [[] H1]. by repeat split.
  - apply sinc_ok_dma, sinc_ok_set; auto.
  - apply sinc_ok_set; auto.
Qed.

Lemma sinc_read_ok s off : sinc_ok s -> sinc_ok (mcxn_sinc_read s off).2.
Proof.
  intros Hs. pose proof Hs as [Hc _]. unfold mcxn_sinc_read. pose proof (sinc_chan_range off) as Hr.
  destruct (off =? SINC_VERID); [done|]. destruct (off =? SINC_PARAMETER); [done|]. destruct (off =? SINC_SR); [done|].
  destruct (sinc_in_channels off); [|done]. destruct (Hr eq_refl) as [Hn _]. set (n := sinc_chan_of off) in *. clearbody n.
  destruct (_ =? SINC_CH_CRDATA); [|by repeat destruct (_ =? _)]. unfold sinc_read_crdata.
  destruct (flag _ CCR_FIFOEN); [|by destruct (negb _)]. destruct (Z.eqb_spec (fifo_count (ch s).[n]) 0); [cbn [snd]; auto with sinc|].
  cbn [snd]. apply sinc_ok_dma. set (s1 := upd_chan s n _).
  assert (H1 : sinc_ok s1).
  { apply sinc_ok_upd; [done..|]. intros []. split; cbn [phase fifo fifo_count last modify]; try done; rewrite ?wrap_id by lia.
    - rewrite fifo_shift_len; lia.
    - lia.
    - unfold fifo_shift, slice. apply Forall_app. split; [apply Forall_take, Forall_drop | apply Forall_drop]; done. }
  destruct (_ <=? _); [|done]. destruct H1 as [H1 _]. auto with sinc.
Qed.

Lemma sinc_reset_ok s : chans_ok (s <| regs := replicate 1024 0 |>) -> sinc_ok (mcxn_sinc_reset s).
Proof.
  intros Hs. unfold mcxn_sinc_reset. apply foldl_ok; [intros s' n _ [[] H2]; by repeat split|].
  assert (H1 : chans_ok (foldl (fun s n => upd_chan s n (fun c => sinc_reset_channel_filter c <| running := false |>))
      (s <| regs := replicate 1024 0 |>) (seqZ 0 MCXN_SINC_NUM_CH)) /\
    regs (foldl (fun s n => upd_chan s n (fun c => sinc_reset_channel_filter c <| running := false |>))
      (s <| regs := replicate 1024 0 |>) (seqZ 0 MCXN_SINC_NUM_CH)) = replicate 1024 0).
  { apply (foldl_ok (fun s => chans_ok s /\ regs s = replicate 1024 0)); [|done]. intros s' n Hn [H1 H2].
    apply elem_of_seqZ in Hn. split; [|done]. apply chans_ok_upd; auto with sinc; unfold MCXN_SINC_NUM_CH in *; lia. }
  change (Z.to_nat (MCXN_SINC_SIZE / 4)) with 1024%nat. set (s1 := foldl _ _ _) in *. clearbody s1. destruct H1 as [[] H2]. split; [by split|].
  unfold sinc_level, reg. cbn [regs irq modify]. rewrite H2. reflexivity.
Qed.

Inductive sinc_step : relation MCXNSINCState :=
  | step_read s off : sinc_step s (mcxn_sinc_read s off).2
  | step_write s off v : 0 <= off -> off mod 4 = 0 -> sinc_step s (mcxn_sinc_write s off v 4)
  | step_reset s : sinc_step s (mcxn_sinc_reset s)
  | step_load s : sinc_step s (mcxn_sinc_post_load s).

Lemma sinc_step_ok s s' : sinc_step s s' -> sinc_ok s -> sinc_ok s'.
Proof.
  intros [s1 off|s1 off v H1 H2|s1|s1] Hs.
  - by apply sinc_read_ok.
  - by apply sinc_write_ok.
  - apply sinc_reset_ok. destruct Hs as [[] _]. by split.
  - apply sinc_ok_irq, Hs.
Qed.

Lemma sinc_init_ok : sinc_ok sinc_init.
Proof.
  apply sinc_reset_ok. split; [done..|]. repeat constructor; cbn; try lia; repeat constructor; unfold result_range; lia.
Qed.

(** C35: Bounds.  In every state reachable from reset by word accesses, a channel
    never holds more than eight results, each of them a 24-bit value of one of
    the two formats; its decimation counter stays below the largest OSR; a read
    of CRDATA returns a word whose low byte is zero; and the interrupt line is
    high exactly when an enabled status flag is set. *)
Theorem sinc_reachable_bounds s n :
  rtc sinc_step sinc_init s -> 0 <= n < 5 ->
  let c := (ch s).[n] in
  0 <= fifo_count c <= 8 /\ Forall result_range (fifo c) /\ 0 <= phase c < 2048 /\
  (let v := (mcxn_sinc_read s (SINC_CH_BASE + n * SINC_CH_STEP + SINC_CH_CRDATA)).1 in in_range 32 v /\ v mod 256 = 0) /\
  irq s = sinc_level s.
Proof.
  intros Hs Hn c. apply (rtc_invariant _ sinc_ok) in Hs as [[H1 H2 H3] H4]; [| apply sinc_step_ok | apply sinc_init_ok].
  assert (Hc : chan_ok c) by (apply Forall_arr_get; [done | lia]). destruct Hc. repeat split; try lia; try done.
  all: rewrite sinc_read_crdata_eq by done; unfold sinc_read_crdata; rewrite ?sinc_data_word.
  all: destruct (flag _ _); [destruct (_ =? 0)|destruct (negb _)]; cbn [fst]; rewrite ?sinc_data_word; try done.
  all: try (apply wrap_range; lia). all: unfold wrap; dlia.
Qed.

Lemma sinc_reachable_bounds_witness :
  let s := mcxn_sinc_write sinc_init SINC_MCR (MCR_MEN .| MCR_STRIG 1) 4 in
  running ((ch s).[1]) = true /\ irq s = sinc_level s.
Proof.
  cbv zeta. split; [by vm_compute|].
  apply (sinc_reachable_bounds (mcxn_sinc_write sinc_init SINC_MCR (MCR_MEN .| MCR_STRIG 1) 4) 1); [|lia].
  apply rtc_once. apply step_write; done.
Defined.

(** ** Departures of the code from its comments *)

(** Single mode is meant to be one trigger, one conversion; a word of 32
    samples with OSR 8 converts four times, because the loop over the samples
    does not look at the flag the first conversion clears. *)
Theorem sinc_single_converts_many :
  let base := SINC_CH_BASE + SINC_CH_STEP in
  let s := mcxn_sinc_write sinc_sample (base + SINC_CH_CDR) (7 .| (3 .<< 11)) 4 in
  let s := mcxn_sinc_write s SINC_MCR (MCR_MEN .| MCR_STRIG 1) 4 in
  let s := mcxn_sinc_write s (base + SINC_CH_CMPDATA) 0xFFFFFFFF 4 in
  CDR_PFCM (sinc_ch_reg s 1 SINC_CH_CDR) = PFCM_SINGLE /\ fifo_count ((ch s).[1]) = 4 /\ running ((ch s).[1]) = false.
Proof. vm_compute. auto. Qed.

(** A trigger empties the FIFO but keeps the DMA request asserted. *)
Theorem sinc_trigger_keeps_dma_request :
  let base := SINC_CH_BASE + SINC_CH_STEP in
  let s := mcxn_sinc_write sinc_sample (base + SINC_CH_CCR) (CCR_CHEN .| CCR_PFEN .| CCR_FIFOEN .| CCR_DMAEN) 4 in
  let s := mcxn_sinc_write s SINC_MCR (MCR_MEN .| MCR_STRIG 1) 4 in
  let s := mcxn_sinc_write s (base + SINC_CH_CMPDATA) 0xFFFFFFFF 4 in
  let s' := mcxn_sinc_write s SINC_MCR (MCR_MEN .| MCR_STRIG 1) 4 in
  (dma_req s).[1] = true /\ (dma_req s').[1] = true /\ fifo_count ((ch s').[1]) = 0.
Proof. vm_compute. auto. Qed.

(** A byte write to the second byte of NIS is a plain store: it sets the
    watermark flag, which only the filter may set, and leaves the line stale. *)
Theorem sinc_byte_write_sets_status :
  let s := mcxn_sinc_write sinc_init SINC_NIE (NIS_CHF 0) 4 in
  let s := mcxn_sinc_write s (SINC_NIS + 1) 1 1 in
  flag (reg s SINC_NIS) (NIS_CHF 0) = true /\ irq s = false /\ sinc_level s = true.
Proof. vm_compute. auto. Qed.
