(* ===== verification/FlexCan.v ===== *)
(** * FlexCAN: the CAN controllers and the bus between them

    Model of [hw/misc/mcxn_flexcan.c] (mode handshake, message buffers,
    transmission on the bus or in loopback, reception with identifier matching,
    interrupt line) and of the bus that connects the controllers of several
    boards, [can_bus_client_send] of [net/can/can_core.c]. *)
From S2P Require Import Prelude.

Definition R_MCR : Z := 0x000.
Definition R_CTRL1 : Z := 0x004.
Definition R_TIMER : Z := 0x008.
Definition R_ECR : Z := 0x01C.
Definition R_ESR1 : Z := 0x020.
Definition R_IMASK1 : Z := 0x028.
Definition R_IFLAG1 : Z := 0x030.
Definition R_CTRL2 : Z := 0x034.
Definition R_ESR2 : Z := 0x038.
Definition R_CRCR : Z := 0x044.
Definition R_RXFIR : Z := 0x04C.
Definition R_FDCRC : Z := 0xC08.
Definition R_RXMGMASK : Z := 0x010.
Definition CTRL1_LPB : Z := bit 12.
Definition MB_BASE : Z := 0x080.
Definition MB_STRIDE : Z := 0x010.
Definition MB_COUNT : Z := 32.
Definition MB_CODE_SHIFT : Z := 24.
Definition MB_CODE_MASK : Z := 0xF.
Definition CODE_RX_EMPTY : Z := 0x4.
Definition CODE_RX_FULL : Z := 0x2.
Definition CODE_RX_OVERRUN : Z := 0x6.
Definition CODE_TX_DATA : Z := 0xC.
Definition MB_SRR : Z := bit 22.
Definition MB_IDE : Z := bit 21.
Definition MB_RTR : Z := bit 20.
Definition MB_DLC (cs : Z) : Z := (cs .>> 16) .& 0xF.
Definition MCR_LPMACK : Z := bit 20.
Definition MCR_SUPV : Z := bit 23.
Definition MCR_FRZACK : Z := bit 24.
Definition MCR_SOFTRST : Z := bit 25.
Definition MCR_NOTRDY : Z := bit 27.
Definition MCR_HALT : Z := bit 28.
Definition MCR_FRZ : Z := bit 30.
Definition MCR_MDIS : Z := bit 31.
Definition MCR_RESET : Z := MCR_MDIS .| MCR_FRZ .| MCR_HALT .| MCR_NOTRDY .| MCR_SUPV .| MCR_LPMACK .| 0x0000000F.
Definition MCXN_FLEXCAN_SIZE : Z := 0x4000.

Definition QEMU_CAN_EFF_FLAG : Z := 0x80000000.
Definition QEMU_CAN_RTR_FLAG : Z := 0x40000000.
Definition QEMU_CAN_ERR_FLAG : Z := 0x20000000.
Definition QEMU_CAN_SFF_MASK : Z := 0x000007FF.
Definition QEMU_CAN_EFF_MASK : Z := 0x1FFFFFFF.

(** The fields of a frame the device uses. *)
Record qemu_can_frame := mkFrame { can_id : Z; can_dlc : Z; data : list Z }.

Record MCXNFlexCanState := mkFlexCan {
  irq : bool;
  regs : list Z;
  canbus : bool       (* a bus is linked *)
}.
#[export] Instance flexcan_settable : Settable MCXNFlexCanState := fun s => mkFlexCan (irq s) (regs s) (canbus s).
#[export] Instance flexcan_inhabited : Inhabited MCXNFlexCanState := populate (mkFlexCan false [] false).

Definition reg (s : MCXNFlexCanState) (off : Z) : Z := (regs s).[off .>> 2].
Definition set_reg (s : MCXNFlexCanState) (off v : Z) : MCXNFlexCanState := s <| regs := (regs s).[off .>> 2 <- v] |>.
(** [s->regs[i]] *)
Definition word (s : MCXNFlexCanState) (i : Z) : Z := (regs s).[i].
Definition set_word (s : MCXNFlexCanState) (i v : Z) : MCXNFlexCanState := s <| regs := (regs s).[i <- v] |>.

Definition flexcan_mcr_settle (mcr : Z) : Z :=
  let freeze := flag mcr MCR_FRZ && flag mcr MCR_HALT in
  let disable := flag mcr MCR_MDIS in
  let mcr := mcr .& u32 (.~ (MCR_FRZACK .| MCR_LPMACK .| MCR_NOTRDY)) in
  if disable then mcr .| (MCR_LPMACK .| MCR_NOTRDY)
  else if freeze then mcr .| (MCR_FRZACK .| MCR_NOTRDY)
  else mcr.

Definition flexcan_update_irq (s : MCXNFlexCanState) : MCXNFlexCanState :=
  s <| irq := flag (reg s R_IFLAG1) (reg s R_IMASK1) |>.

Definition mb_index (k : Z) : Z := (MB_BASE + k * MB_STRIDE) .>> 2.

(** The frame of message buffer [tx]. *)
Definition flexcan_send_to_bus (s : MCXNFlexCanState) (tx : Z) : qemu_can_frame :=
  let t := mb_index tx in
  let cs := word s t in
  let id := word s (t + 1) in
  let len := if 8 <? MB_DLC cs then 8 else MB_DLC cs in
  let cid := if flag cs MB_IDE then (id .& QEMU_CAN_EFF_MASK) .| QEMU_CAN_EFF_FLAG
             else (id .>> 18) .& QEMU_CAN_SFF_MASK in
  let cid := if flag cs MB_RTR then cid .| QEMU_CAN_RTR_FLAG else cid in
  let d := foldl (fun d i => d.[i <- (word s (t + 2 + i / 4) .>> (24 - 8 * (i mod 4))) .& 0xFF])
             (replicate 64 0) (seqZ 0 len) in
  mkFrame cid len d.

Definition flexcan_enabled (s : MCXNFlexCanState) : bool :=
  let mcr := reg s R_MCR in
  negb (flag mcr MCR_MDIS) && negb (flag mcr MCR_NOTRDY).

(** The matching process considers EMPTY, FULL and OVERRUN buffers whose
    identifier agrees under the mask. *)
Definition flexcan_match (s : MCXNFlexCanState) (id rx : Z) : bool :=
  let r := mb_index rx in
  let code := (word s r .>> MB_CODE_SHIFT) .& MB_CODE_MASK in
  negb (negb (code =? CODE_RX_EMPTY) && negb (code =? CODE_RX_FULL) && negb (code =? CODE_RX_OVERRUN)) &&
  ((id .^ word s (r + 1)) .& reg s R_RXMGMASK =? 0).

(** The store of a frame into message buffer [rx]. *)
Definition flexcan_store (s : MCXNFlexCanState) (f : qemu_can_frame) (rx_id rx : Z) : MCXNFlexCanState :=
  let eff := flag (can_id f) QEMU_CAN_EFF_FLAG in
  let rtr := flag (can_id f) QEMU_CAN_RTR_FLAG in
  let len := if 8 <? can_dlc f then 8 else can_dlc f in
  let r := mb_index rx in
  let code := (word s r .>> MB_CODE_SHIFT) .& MB_CODE_MASK in
  let full := negb (code =? CODE_RX_EMPTY) in
  let s := set_word s (r + 1) rx_id in
  let s := set_word s (r + 3) 0 in
  let s := set_word s (r + 2) 0 in
  let s := foldl (fun s i =>
    set_word s (r + 2 + i / 4) (word s (r + 2 + i / 4) .| u32 ((data f).[i] .<< (24 - 8 * (i mod 4))))) s (seqZ 0 len) in
  let s := set_word s r
    (((if full then CODE_RX_OVERRUN else CODE_RX_FULL) .<< MB_CODE_SHIFT) .| (len .<< 16) .|
     (if eff then MB_IDE .| MB_SRR else 0) .| (if rtr then MB_RTR else 0)) in
  let s := set_reg s R_IFLAG1 (reg s R_IFLAG1 .| bit rx) in
  flexcan_update_irq s.

Definition flexcan_bus_receive (s : MCXNFlexCanState) (f : qemu_can_frame) : MCXNFlexCanState :=
  if flag (can_id f) QEMU_CAN_ERR_FLAG then s
  else if negb (flexcan_enabled s) then s
  else
    let eff := flag (can_id f) QEMU_CAN_EFF_FLAG in
    let rx_id := if eff then can_id f .& QEMU_CAN_EFF_MASK else u32 ((can_id f .& QEMU_CAN_SFF_MASK) .<< 18) in
    match filter (fun rx => flexcan_match s rx_id rx = true) (seqZ 0 MB_COUNT) with
    | rx :: _ => flexcan_store s f rx_id rx
    | [] => s
    end.

Definition flexcan_bus_can_receive (s : MCXNFlexCanState) : bool := flexcan_enabled s.

(** Loopback: delivery to another message buffer of the same controller. *)
Definition flexcan_loopback (s : MCXNFlexCanState) (tx : Z) : MCXNFlexCanState :=
  let t := mb_index tx in
  let tcs := word s t in
  let tid := word s (t + 1) in
  match filter (fun rx => negb (rx =? tx) && flexcan_match s tid rx = true) (seqZ 0 MB_COUNT) with
  | rx :: _ =>
      let r := mb_index rx in
      let rcode := (word s r .>> MB_CODE_SHIFT) .& MB_CODE_MASK in
      let full := negb (rcode =? CODE_RX_EMPTY) in
      let s := set_word s r (((if full then CODE_RX_OVERRUN else CODE_RX_FULL) .<< MB_CODE_SHIFT) .| (tcs .& 0x00FF0000)) in
      let s := set_word s (r + 1) tid in
      let s := set_word s (r + 2) (word s (t + 2)) in
      let s := set_word s (r + 3) (word s (t + 3)) in
      set_reg s R_IFLAG1 (reg s R_IFLAG1 .| bit rx)
  | [] => s
  end.

(** The frames put on the bus are returned with the new state. *)
Definition flexcan_transmit (s : MCXNFlexCanState) (tx : Z) : MCXNFlexCanState * list qemu_can_frame :=
  if negb (flexcan_enabled s) then (s, [])
  else
    let '(s, frames) :=
      if canbus s && negb (flag (reg s R_CTRL1) CTRL1_LPB) then (s, [flexcan_send_to_bus s tx])
      else if flag (reg s R_CTRL1) CTRL1_LPB then (flexcan_loopback s tx, [])
      else (s, []) in
    let s := set_reg s R_IFLAG1 (reg s R_IFLAG1 .| bit tx) in
    (flexcan_update_irq s, frames).

Definition flexcan_read (s : MCXNFlexCanState) (off size : Z) : Z :=
  let shift := u32 ((off .& 3) * 8) in
  if MCXN_FLEXCAN_SIZE <=? off then 0
  else
    let a := off .& .~ 3 in
    let v := if (a =? R_ESR2) || (a =? R_CRCR) || (a =? R_RXFIR) || (a =? R_FDCRC) then 0 else reg s off in
    (v .>> shift) .& (if size =? 4 then 0xFFFFFFFF else u32 (bit (size * 8)) - 1).

Definition flexcan_write (s : MCXNFlexCanState) (off value size : Z) : MCXNFlexCanState * list qemu_can_frame :=
  let shift := u32 ((off .& 3) * 8) in
  let mask := if size =? 4 then 0xFFFFFFFF else u32 ((u32 (bit (size * 8)) - 1) .<< shift) in
  if MCXN_FLEXCAN_SIZE <=? off then (s, [])
  else
    let bits := u32 (value .<< shift) .& mask in
    let val := (reg s off .& u32 (.~ mask)) .| bits in
    let a := off .& .~ 3 in
    if a =? R_MCR then (set_reg s off (flexcan_mcr_settle (val .& u32 (.~ MCR_SOFTRST))), [])
    else if a =? R_ESR1 then (set_reg s off (reg s off .& u32 (.~ bits)), [])
    else if a =? R_IFLAG1 then (flexcan_update_irq (set_reg s off (reg s off .& u32 (.~ bits))), [])
    else if a =? R_IMASK1 then (flexcan_update_irq (set_reg s off val), [])
    else if (a =? R_ESR2) || (a =? R_CRCR) || (a =? R_RXFIR) || (a =? R_FDCRC) then (s, [])
    else
      let s := set_reg s off val in
      if (MB_BASE <=? off) && (off <? MB_BASE + MB_COUNT * MB_STRIDE) && ((off - MB_BASE) mod MB_STRIDE =? 0) &&
         ((val .>> MB_CODE_SHIFT) .& MB_CODE_MASK =? CODE_TX_DATA)
      then flexcan_transmit s ((off - MB_BASE) / MB_STRIDE)
      else (s, []).

Definition rst_can0 : list (Z * Z) :=
  [(0x000, 0xD890000F); (0x034, 0x00A00000); (0xB00, 0x00000100); (0xB10, 0x00000008); (0xC00, 0x80000100)].

Definition mcxn_flexcan_reset (s : MCXNFlexCanState) : MCXNFlexCanState :=
  let r := foldl (fun r (e : Z * Z) => r.[e.1 / 4 <- e.2]) (replicate (Z.to_nat (MCXN_FLEXCAN_SIZE / 4)) 0) rst_can0 in
  s <| regs := r.[R_MCR .>> 2 <- MCR_RESET] |>.

Definition mcxn_flexcan_post_load (s : MCXNFlexCanState) : MCXNFlexCanState := flexcan_update_irq s.

(** The controller at power-on, linked to a bus or not. *)
Definition flexcan_init (linked : bool) : MCXNFlexCanState := mcxn_flexcan_reset (mkFlexCan false [] linked).

(** ** The bus *)

(** The clients of a bus in their order; client [i] sends a frame. *)
Definition can_bus_client_send (bus : list MCXNFlexCanState) (i : Z) (f : qemu_can_frame) : list MCXNFlexCanState :=
  imap (fun j peer => if flexcan_bus_can_receive peer then if Z.of_nat j =? i then peer else flexcan_bus_receive peer f else peer) bus.

(** A register write of client [i]. *)
Definition can_bus_write (bus : list MCXNFlexCanState) (i off value size : Z) : list MCXNFlexCanState :=
  let '(s, frames) := flexcan_write (bus.[i]) off value size in
  foldl (fun bus f => can_bus_client_send bus i f) (bus.[i <- s]) frames.

(** ** Message buffers and messages *)

(** Byte [p] of a big-endian data word. *)
Definition byte_at (w p : Z) : Z := (w .>> (24 - 8 * p)) .& 0xFF.

Record mailbox := mkMb {
  mb_code : Z; mb_ide : bool; mb_srr : bool; mb_rtr : bool; mb_dlc : Z; mb_id : Z; mb_data : list Z
}.

Definition mb_of (s : MCXNFlexCanState) (k : Z) : mailbox :=
  let r := mb_index k in
  let cs := word s r in
  mkMb ((cs .>> MB_CODE_SHIFT) .& MB_CODE_MASK) (flag cs MB_IDE) (flag cs MB_SRR) (flag cs MB_RTR) (MB_DLC cs) (word s (r + 1))
    (map (fun i => byte_at (word s (r + 2 + i / 4)) (i mod 4)) (seqZ 0 8)).

(** What is on the wire: an identifier (standard ones at bit 18, as the
    mailboxes keep them) and at most eight bytes. *)
Record message := mkMsg { m_ide : bool; m_rtr : bool; m_id : Z; m_bytes : list Z }.

Definition message_of (mb : mailbox) : message :=
  mkMsg (mb_ide mb) (mb_rtr mb) (mb_id mb .& (if mb_ide mb then 0x1FFFFFFF else 0x7FF .<< 18))
    (take (Z.to_nat (Z.min 8 (mb_dlc mb))) (mb_data mb)).

(** Which mailboxes listen for a message, and the first of them. *)
Definition accepts (s : MCXNFlexCanState) (m : message) (k : Z) : bool :=
  let mb := mb_of s k in
  ((mb_code mb =? CODE_RX_EMPTY) || (mb_code mb =? CODE_RX_FULL) || (mb_code mb =? CODE_RX_OVERRUN)) &&
  ((m_id m .^ mb_id mb) .& reg s R_RXMGMASK =? 0).
Definition hits (s : MCXNFlexCanState) (m : message) (k : Z) : bool :=
  accepts s m k && forallb (fun j => negb (accepts s m j)) (seqZ 0 k).

Definition received (mb : mailbox) (m : message) : mailbox :=
  mkMb (if mb_code mb =? CODE_RX_EMPTY then CODE_RX_FULL else CODE_RX_OVERRUN) (m_ide m) (m_ide m) (m_rtr m)
    (zlen (m_bytes m)) (m_id m) (m_bytes m ++ replicate (8 - length (m_bytes m)) 0).

(** ** Lemmas on arrays and bits *)

Lemma first_match (p : Z -> bool) n : 0 <= n ->
  match filter (fun x => p x = true) (seqZ 0 n) with
  | [] => forall k, 0 <= k < n -> p k = false
  | x :: _ => 0 <= x < n /\ p x = true /\ forall k, 0 <= k < x -> p k = false
  end.
Proof.
  intros Hn. assert (Hg : forall j a, 0 <= j -> match filter (fun x => p x = true) (seqZ a j) with
    | [] => forall k, a <= k < a + j -> p k = false
    | x :: _ => a <= x < a + j /\ p x = true /\ forall k, a <= k < x -> p k = false end).
  { intros j a Hj. revert a. pattern j. revert j Hj. apply natlike_ind; [intros a k Hk; lia|].
    intros j Hj IH a. rewrite seqZ_S by lia. rewrite filter_cons. specialize (IH (a + 1)). replace (Z.succ j - 1) with j by lia.
    destruct (decide (p a = true)) as [Hp|Hp]; [split; [lia|]; split; [done | intros; lia]|]. apply not_true_iff_false in Hp.
    destruct (filter _ _) as [|x l].
    - intros k Hk. destruct (decide (k = a)) as [->|]; [done | apply IH; lia].
    - destruct IH as (H1 & H2 & H3). split; [lia|]. split; [done|]. intros k Hk. destruct (decide (k = a)) as [->|]; [done | apply H3; lia]. }
  apply (Hg n 0 Hn).
Qed.

Lemma arr_fill (f : Z -> Z) (l : list Z) n k : 0 <= n <= zlen l -> 0 <= k < zlen l ->
  (foldl (fun d i => d.[i <- f i]) l (seqZ 0 n)).[k] = if k <? n then f k else l.[k].
Proof.
  intros Hn Hk. assert (Hg : forall j : nat, Z.of_nat j <= zlen l ->
    length (foldl (fun d i => d.[i <- f i]) l (seqZ 0 (Z.of_nat j))) = length l /\
    (foldl (fun d i => d.[i <- f i]) l (seqZ 0 (Z.of_nat j))).[k] = if k <? Z.of_nat j then f k else l.[k]).
  { induction j as [|j IH]; intros Hj; [split; [done|]; cbn; by rewrite (proj2 (Z.ltb_ge _ _)) by lia|].
    rewrite seqZ_snoc, foldl_app. destruct IH as [IH1 IH2]; [lia|]. cbn [foldl]. autorewrite with arrays. split; [done|].
    destruct (decide (k = Z.of_nat j)) as [->|Hne].
    - rewrite arr_get_set_eq by lia. by rewrite (proj2 (Z.ltb_lt _ _)) by lia.
    - rewrite arr_get_set_ne, IH2 by lia. zcases; done. }
  specialize (Hg (Z.to_nat n) ltac:(lia)). rewrite Z2Nat.id in Hg by lia. apply Hg.
Qed.

(** Or-ing a byte into a word. *)
Lemma byte_at_or w b p q : 0 <= p < 4 -> 0 <= q < 4 -> in_range 8 b ->
  byte_at (w .| u32 (b .<< (24 - 8 * q))) p = byte_at w p .| (if p =? q then b else 0).
Proof.
  intros Hp Hq Hb. assert (Hbit : forall i, 8 <= i -> Z.testbit b i = false) by (intros; apply (testbit_range 8); [done | lia]).
  unfold byte_at. change 0xFF with (Z.ones 8). apply Z.bits_inj'. intros i Hi. autorewrite with bits.
  destruct (Z.ltb_spec i 8) as [Hlt|Hge]; rewrite ?andb_false_r.
  - destruct (Z.eqb_spec p q) as [->|Hne]; autorewrite with bits.
    + replace (i + (24 - 8 * q) - (24 - 8 * q)) with i by lia. rewrite (proj2 (Z.ltb_lt _ _)) by lia. btauto.
    + replace (Z.testbit b (i + (24 - 8 * p) - (24 - 8 * q))) with false; [btauto|]. symmetry.
      destruct (Z.lt_ge_cases (i + (24 - 8 * p) - (24 - 8 * q)) 0); [by apply Z.testbit_neg_r | apply Hbit; lia].
  - destruct (p =? q); rewrite ?Z.testbit_0_l, ?Hbit by done; done.
Qed.

Lemma byte_at_range w p : in_range 8 (byte_at w p).
Proof. unfold byte_at. change 0xFF with (Z.ones 8). rewrite Z.land_ones by lia. apply Z.mod_pos_bound. lia. Qed.

Definition can_wf (s : MCXNFlexCanState) : Prop := zlen (regs s) = 4096.

Lemma word_set_eq s i v : can_wf s -> 0 <= i < 4096 -> word (set_word s i v) i = v.
Proof. intros Hs Hi. apply arr_get_set_eq. unfold can_wf in Hs. lia. Qed.
Lemma word_set_ne s i j v : 0 <= i -> 0 <= j -> i <> j -> word (set_word s i v) j = word s j.
Proof. intros. by apply arr_get_set_ne. Qed.
Lemma can_wf_set s i v : can_wf s -> can_wf (set_word s i v).
Proof. unfold can_wf, set_word. cbn [regs modify]. by autorewrite with arrays. Qed.

Lemma mb_index_eq k : 0 <= k -> mb_index k = 32 + 4 * k.
Proof.
  intros Hk. unfold mb_index, MB_BASE, MB_STRIDE. rewrite Z.shiftr_div_pow2 by lia. change (2 ^ 2) with 4. dlia.
Qed.

(** The data bytes after the copy loop. *)
Lemma store_bytes r (d : list Z) (len : nat) s : can_wf s -> 0 <= r -> r + 4 < 4096 -> (len <= 8)%nat ->
  word s (r + 2) = 0 -> word s (r + 3) = 0 -> Forall (in_range 8) d -> Z.of_nat len <= zlen d ->
  let s' := foldl (fun s i =>
    set_word s (r + 2 + i / 4) (word s (r + 2 + i / 4) .| u32 (d.[i] .<< (24 - 8 * (i mod 4))))) s (seqZ 0 (Z.of_nat len)) in
  can_wf s' /\ irq s' = irq s /\ canbus s' = canbus s /\
  (forall j, 0 <= j -> j <> r + 2 -> j <> r + 3 -> word s' j = word s j) /\
  (forall i, 0 <= i < 8 -> byte_at (word s' (r + 2 + i / 4)) (i mod 4) = if i <? Z.of_nat len then d.[i] else 0).
Proof.
  intros Hs Hr1 Hr2. induction len as [|len IH]; intros Hlen H2 H3 Hd Hdl.
  { cbv zeta. change (seqZ 0 (Z.of_nat 0)) with (@nil Z). cbn [foldl]. repeat split; try done. intros i Hi.
    rewrite (proj2 (Z.ltb_ge _ _)) by lia. assert (i / 4 = 0 \/ i / 4 = 1) as [-> | ->] by dlia.
    - rewrite Z.add_0_r, H2. unfold byte_at. by rewrite Z.shiftr_0_l.
    - replace (r + 2 + 1) with (r + 3) by lia. rewrite H3. unfold byte_at. by rewrite Z.shiftr_0_l. }
  specialize (IH ltac:(lia) H2 H3 Hd ltac:(lia)). cbv zeta in *. rewrite seqZ_snoc, foldl_app. set (s' := foldl _ _ (seqZ 0 (Z.of_nat len))) in *.
  clearbody s'. destruct IH as (Hw & Hi & Hc & Ho & Hb). cbn [foldl]. set (n := Z.of_nat len) in *. assert (0 <= n < 8) by lia.
  assert (Hq : 0 <= n / 4 <= 1) by dlia. assert (Hm : 0 <= n mod 4 < 4) by (apply Z.mod_pos_bound; lia).
  split; [by apply can_wf_set|]. split; [done|]. split; [done|]. split; [intros j ???; rewrite word_set_ne by lia; by apply Ho|].
  intros i Hi8. pose proof (Hb i Hi8) as Hbi. pose proof (Hb n ltac:(lia)) as Hbn. rewrite Z.ltb_irrefl in Hbn.
  destruct (decide (i / 4 = n / 4)) as [Ei|Ei].
  - rewrite Ei in Hbi |- *. rewrite word_set_eq by (done || lia). rewrite byte_at_or; [|apply Z.mod_pos_bound; lia|done|].
    + destruct (Z.eqb_spec (i mod 4) (n mod 4)) as [Em|Em].
      * assert (i = n) as -> by dlia. rewrite Hbn, Z.lor_0_l. by rewrite (proj2 (Z.ltb_lt _ _)) by lia.
      * rewrite Z.lor_0_r, Hbi. zcases; try done. exfalso. assert (i = n) as -> by lia. done.
    + apply Forall_arr_get; [done | lia].
  - rewrite word_set_ne, Hbi by dlia. zcases; try done. exfalso. assert (i = n) as -> by lia. done.
Qed.

(** The control word of a received frame. *)
Definition rx_cs (full eff rtr : bool) (len : Z) : Z :=
  ((if full then CODE_RX_OVERRUN else CODE_RX_FULL) .<< MB_CODE_SHIFT) .| (len .<< 16) .|
  (if eff then MB_IDE .| MB_SRR else 0) .| (if rtr then MB_RTR else 0).

Lemma rx_cs_fields full eff rtr len : 0 <= len <= 8 -> let cs := rx_cs full eff rtr len in
  (cs .>> MB_CODE_SHIFT) .& MB_CODE_MASK = (if full then CODE_RX_OVERRUN else CODE_RX_FULL) /\
  flag cs MB_IDE = eff /\ flag cs MB_SRR = eff /\ flag cs MB_RTR = rtr /\ MB_DLC cs = len.
Proof.
  intros Hl. assert (Hs : len ∈ seqZ 0 9) by (apply elem_of_seqZ; lia). revert len Hs Hl.
  assert (Hb : forallb (fun len => let cs := rx_cs full eff rtr len in
    ((cs .>> MB_CODE_SHIFT) .& MB_CODE_MASK =? (if full then CODE_RX_OVERRUN else CODE_RX_FULL)) &&
    Bool.eqb (flag cs MB_IDE) eff && Bool.eqb (flag cs MB_SRR) eff && Bool.eqb (flag cs MB_RTR) rtr && (MB_DLC cs =? len)) (seqZ 0 9) = true)
    by (by destruct full, eff, rtr; vm_compute).
  intros len Hs _. rewrite forallb_forall in Hb. specialize (Hb len (proj1 (list_elem_of_In _ _) Hs)). cbv zeta in Hb.
  repeat (apply andb_true_iff in Hb as [Hb ?]). repeat split; try (by apply eqb_prop); lia.
Qed.

Record same_but (s s' : MCXNFlexCanState) (rx : Z) : Prop := {
  sb_wf : can_wf s';
  sb_word : forall j, 0 <= j < 4096 -> j <> 12 -> (j < mb_index rx \/ mb_index rx + 3 < j) -> word s' j = word s j;
  sb_flags : reg s' R_IFLAG1 = reg s R_IFLAG1 .| bit rx;
  sb_irq : irq s' = flag (reg s' R_IFLAG1) (reg s' R_IMASK1);
  sb_bus : canbus s' = canbus s;
}.

Lemma flexcan_store_spec s f rx_id rx : can_wf s -> 0 <= rx < 32 -> Forall (in_range 8) (data f) -> zlen (data f) = 64 ->
  0 <= can_dlc f ->
  let s' := flexcan_store s f rx_id rx in
  let len := Z.min 8 (can_dlc f) in
  let eff := flag (can_id f) QEMU_CAN_EFF_FLAG in
  same_but s s' rx /\
  mb_of s' rx = mkMb (if mb_code (mb_of s rx) =? CODE_RX_EMPTY then CODE_RX_FULL else CODE_RX_OVERRUN) eff eff
    (flag (can_id f) QEMU_CAN_RTR_FLAG) len rx_id (map (fun i => if i <? len then (data f).[i] else 0) (seqZ 0 8)).
Proof.
  intros Hs Hrx Hd Hdl Hdlc s' len eff. assert (Hri : mb_index rx = 32 + 4 * rx) by (apply mb_index_eq; lia).
  assert (Hlen : (if 8 <? can_dlc f then 8 else can_dlc f) = len) by (subst len; zcases; lia).
  subst s'. unfold flexcan_store. cbv zeta. rewrite Hlen. fold eff. set (full := negb _).
  set (s1 := set_word (set_word (set_word s (mb_index rx + 1) rx_id) (mb_index rx + 3) 0) (mb_index rx + 2) 0).
  assert (Hw1 : can_wf s1) by by repeat apply can_wf_set.
  assert (Hz2 : word s1 (mb_index rx + 2) = 0) by (apply word_set_eq; [by repeat apply can_wf_set | lia]).
  assert (Hz3 : word s1 (mb_index rx + 3) = 0).
  { unfold s1. rewrite word_set_ne by lia. apply word_set_eq; [by apply can_wf_set | lia]. }
  assert (Hid : word s1 (mb_index rx + 1) = rx_id).
  { unfold s1. rewrite !word_set_ne by lia. apply word_set_eq; [done | lia]. }
  assert (Ho1 : forall j, 0 <= j < 4096 -> j < mb_index rx \/ mb_index rx + 3 < j -> word s1 j = word s j).
  { intros j Hj Hn. unfold s1. by rewrite !word_set_ne by lia. }
  pose proof (store_bytes (mb_index rx) (data f) (Z.to_nat len) s1 Hw1 ltac:(lia) ltac:(lia) ltac:(lia) Hz2 Hz3 Hd ltac:(lia)) as Hst.
  cbv zeta in Hst. rewrite Z2Nat.id in Hst by lia. set (s2 := foldl _ _ (seqZ 0 len)) in *. clearbody s2.
  destruct Hst as (Hw2 & Hi2 & Hc2 & Ho2 & Hb2). change (canbus s1) with (canbus s) in Hc2. clearbody s1.
  pose proof (rx_cs_fields full eff (flag (can_id f) QEMU_CAN_RTR_FLAG) len ltac:(lia)) as (Hf1 & Hf2 & Hf3 & Hf4 & Hf5).
  fold (rx_cs full eff (flag (can_id f) QEMU_CAN_RTR_FLAG) len). set (cs := rx_cs _ _ _ _) in *. clearbody cs.
  set (s3 := set_word s2 (mb_index rx) cs). assert (Hw3 : can_wf s3) by by apply can_wf_set.
  change (set_reg s3 R_IFLAG1 (reg s3 R_IFLAG1 .| bit rx)) with (set_word s3 12 (word s3 12 .| bit rx)).
  assert (H3 : forall j, 0 <= j < 4096 -> j <> mb_index rx -> word s3 j = word s2 j) by (intros; apply word_set_ne; lia).
  assert (H3e : word s3 (mb_index rx) = cs) by (apply word_set_eq; [done | lia]). change (canbus s2) with (canbus s3) in Hc2. clearbody s3.
  set (s4 := set_word s3 12 _). assert (H4 : forall j, 0 <= j < 4096 -> j <> 12 -> word s4 j = word s3 j) by (intros; apply word_set_ne; lia).
  split.
  - split; [by apply can_wf_set | | | done | done].
    + intros j Hj Hj12 Hne. change (word s4 j = word s j). rewrite H4, H3, Ho2, Ho1 by lia. done.
    + change (word s4 12 = word s 12 .| bit rx). unfold s4. rewrite word_set_eq by (done || lia). by rewrite H3, Ho2, Ho1 by lia.
  - unfold mb_of. change (word (flexcan_update_irq s4)) with (word s4). rewrite !H4, H3e, Hf1, Hf2, Hf3, Hf4, Hf5 by lia.
    f_equal.
    + subst full. cbn [mb_code]. by destruct (_ =? CODE_RX_EMPTY).
    + rewrite H3, Ho2, Hid by lia. done.
    + apply map_ext_in. intros i Hi%list_elem_of_In%elem_of_seqZ. assert (0 <= i / 4 <= 1) by dlia.
      rewrite H4, H3 by lia. by apply Hb2.
Qed.

(** ** A frame carries a message *)

Record carries (f : qemu_can_frame) (m : message) : Prop := {
  ca_len : can_dlc f = zlen (m_bytes m);
  ca_short : zlen (m_bytes m) <= 8;
  ca_data : zlen (data f) = 64;
  ca_range : Forall (in_range 8) (data f);
  ca_bytes : forall i, 0 <= i < zlen (m_bytes m) -> (data f).[i] = (m_bytes m).[i];
  ca_err : flag (can_id f) QEMU_CAN_ERR_FLAG = false;
  ca_ide : flag (can_id f) QEMU_CAN_EFF_FLAG = m_ide m;
  ca_rtr : flag (can_id f) QEMU_CAN_RTR_FLAG = m_rtr m;
  ca_id : (if m_ide m then can_id f .& QEMU_CAN_EFF_MASK else u32 ((can_id f .& QEMU_CAN_SFF_MASK) .<< 18)) = m_id m;
}.

Lemma arr_take_map (g : Z -> Z) n i : 0 <= i < n -> n <= 8 -> (take (Z.to_nat n) (map g (seqZ 0 8))).[i] = g i.
Proof.
  intros Hi Hn. unfold arr_get. rewrite lookup_total_take_lt by lia. apply list_lookup_total_correct.
  rewrite list_lookup_fmap. rewrite lookup_seqZ_lt by lia. cbn. f_equal. f_equal. lia.
Qed.

Lemma send_data_range s t len : 0 <= len <= 8 ->
  let d := foldl (fun d i => d.[i <- (word s (t + 2 + i / 4) .>> (24 - 8 * (i mod 4))) .& 0xFF]) (replicate 64 0) (seqZ 0 len) in
  zlen d = 64 /\ Forall (in_range 8) d.
Proof.
  intros Hl d. subst d. assert (Hg : forall l (d : list Z), zlen d = 64 -> Forall (in_range 8) d ->
    let d' := foldl (fun d i => d.[i <- (word s (t + 2 + i / 4) .>> (24 - 8 * (i mod 4))) .& 0xFF]) d l in
    zlen d' = 64 /\ Forall (in_range 8) d').
  { induction l as [|i l IH]; intros d H1 H2; [done|]. cbn [foldl]. apply IH; [by autorewrite with arrays|].
    apply Forall_arr_set; [done | apply (byte_at_range (word s (t + 2 + i / 4)) (i mod 4))]. }
  apply Hg; [done|]. apply Forall_replicate. by apply in_range_0.
Qed.

Lemma std_id id : u32 (((id .>> 18) .& (0x7FF .& 0x7FF)) .<< 18) = id .& (0x7FF .<< 18).
Proof.
  change (0x7FF .& 0x7FF) with (Z.ones 11). change 0x7FF with (Z.ones 11). apply Z.bits_inj'. intros i Hi. autorewrite with bits.
  destruct (Z.lt_ge_cases i 18); [rewrite !(Z.testbit_neg_r _ (i - 18)) by lia; btauto|]. autorewrite with bits.
  replace (i - 18 + 18) with i by lia. zcases; try btauto; lia.
Qed.

Lemma send_carries s tx : 0 <= tx < 32 -> carries (flexcan_send_to_bus s tx) (message_of (mb_of s tx)).
Proof.
  intros Htx. unfold flexcan_send_to_bus. cbv zeta. set (t := mb_index tx). set (cs := word s t). set (id := word s (t + 1)).
  assert (Hdlc : 0 <= MB_DLC cs < 16).
  { unfold MB_DLC. change 0xF with (Z.ones 4). rewrite Z.land_ones by lia. apply Z.mod_pos_bound. lia. }
  assert (Hlen : (if 8 <? MB_DLC cs then 8 else MB_DLC cs) = Z.min 8 (MB_DLC cs)) by (zcases; lia). rewrite Hlen.
  assert (Hbl : zlen (m_bytes (message_of (mb_of s tx))) = Z.min 8 (MB_DLC cs)).
  { cbn [message_of m_bytes mb_of mb_dlc mb_data]. fold t cs. rewrite length_take, length_map, length_seqZ. lia. }
  destruct (send_data_range s t (Z.min 8 (MB_DLC cs)) ltac:(lia)) as [Hd1 Hd2].
  split; cbn [can_id can_dlc data]; rewrite ?Hbl; try done; try lia.
  - intros i Hi. rewrite (arr_fill (fun i => (word s (t + 2 + i / 4) .>> (24 - 8 * (i mod 4))) .& 0xFF)) by (cbn; lia).
    rewrite (proj2 (Z.ltb_lt _ _)) by lia. symmetry.
    exact (arr_take_map (fun i => byte_at (word s (t + 2 + i / 4)) (i mod 4)) (Z.min 8 (MB_DLC cs)) i Hi ltac:(lia)).
  - destruct (flag cs MB_IDE), (flag cs MB_RTR); unfold QEMU_CAN_ERR_FLAG, QEMU_CAN_RTR_FLAG, QEMU_CAN_EFF_MASK, QEMU_CAN_EFF_FLAG, QEMU_CAN_SFF_MASK; fnorm; done.
  - cbn [message_of m_ide mb_of mb_ide]. fold t cs. destruct (flag cs MB_IDE), (flag cs MB_RTR);
      unfold QEMU_CAN_ERR_FLAG, QEMU_CAN_RTR_FLAG, QEMU_CAN_EFF_MASK, QEMU_CAN_EFF_FLAG, QEMU_CAN_SFF_MASK; fnorm; try done; try btauto.
  - cbn [message_of m_rtr mb_of mb_rtr]. fold t cs. destruct (flag cs MB_IDE), (flag cs MB_RTR);
      unfold QEMU_CAN_ERR_FLAG, QEMU_CAN_RTR_FLAG, QEMU_CAN_EFF_MASK, QEMU_CAN_EFF_FLAG, QEMU_CAN_SFF_MASK; fnorm; try done; try btauto.
  - cbn [message_of m_ide m_id mb_of mb_ide mb_id]. fold t cs id.
    destruct (flag cs MB_IDE), (flag cs MB_RTR); unfold QEMU_CAN_RTR_FLAG, QEMU_CAN_EFF_MASK, QEMU_CAN_EFF_FLAG, QEMU_CAN_SFF_MASK.
    1, 2: rewrite !Z.land_lor_distr_l, <- Z.land_assoc; change (0x80000000 .& 0x1FFFFFFF) with 0; change (0x40000000 .& 0x1FFFFFFF) with 0;
      by rewrite !Z.lor_0_r.
    1: rewrite Z.land_lor_distr_l; change (0x40000000 .& 0x7FF) with 0; rewrite Z.lor_0_r.
    all: rewrite <- Z.land_assoc; apply std_id.
Qed.


(** ** Delivery *)

Definition lines_ok (s : MCXNFlexCanState) : Prop := can_wf s /\ irq s = flag (reg s R_IFLAG1) (reg s R_IMASK1).

(** [s'] is [s] once the message is delivered to its first listening mailbox. *)
Record delivered (s : MCXNFlexCanState) (m : message) (s' : MCXNFlexCanState) : Prop := {
  de_mailbox : forall k, 0 <= k < 32 -> mb_of s' k = if hits s m k then received (mb_of s k) m else mb_of s k;
  de_flag : forall k, 0 <= k -> Z.testbit (reg s' R_IFLAG1) k = Z.testbit (reg s R_IFLAG1) k || ((k <? 32) && hits s m k);
  de_lines : lines_ok s';
  de_frame : forall w, 0 <= w < 4096 -> w <> R_IFLAG1 .>> 2 ->
    (forall k, 0 <= k < 32 -> hits s m k = true -> w < mb_index k \/ mb_index k + 3 < w) -> word s' w = word s w;
  de_bus : canbus s' = canbus s;
}.

Lemma accepts_match s m k : flexcan_match s (m_id m) k = accepts s m k.
Proof.
  unfold flexcan_match, accepts. cbn [mb_of mb_code mb_id]. f_equal. by rewrite !negb_andb, !negb_involutive.
Qed.

Lemma hits_first s m rx : 0 <= rx < 32 -> accepts s m rx = true -> (forall k, 0 <= k < rx -> accepts s m k = false) ->
  forall k, 0 <= k < 32 -> hits s m k = (rx =? k).
Proof.
  intros Hrx Ha Hf k Hk. unfold hits. destruct (Z.eqb_spec rx k) as [<-|Hne].
  - rewrite Ha. apply forallb_forall. intros j Hj%list_elem_of_In%elem_of_seqZ. by rewrite Hf by lia.
  - destruct (Z.lt_ge_cases k rx); [by rewrite Hf by lia|]. apply andb_false_iff. right. apply not_true_iff_false.
    rewrite forallb_forall. intros Hj. specialize (Hj rx (proj1 (list_elem_of_In _ _) (proj2 (elem_of_seqZ 0 k rx) ltac:(lia)))).
    by rewrite Ha in Hj.
Qed.

Lemma hits_none s m : (forall k, 0 <= k < 32 -> accepts s m k = false) -> forall k, 0 <= k < 32 -> hits s m k = false.
Proof. intros Hf k Hk. unfold hits. by rewrite Hf. Qed.

Lemma mb_of_same s s' rx k : same_but s s' rx -> 0 <= rx < 32 -> 0 <= k < 32 -> rx <> k -> mb_of s' k = mb_of s k.
Proof.
  intros [_ Hw _ _ _] Hrx Hk Hne. assert (Hri := mb_index_eq rx ltac:(lia)). assert (Hki := mb_index_eq k ltac:(lia)).
  unfold mb_of. rewrite !Hw by lia. f_equal. apply map_ext_in. intros i Hi%list_elem_of_In%elem_of_seqZ.
  assert (0 <= i / 4 <= 1) by dlia. rewrite Hw by lia. done.
Qed.

Lemma bytes_padded (d b : list Z) : zlen b <= 8 -> (forall i, 0 <= i < zlen b -> d.[i] = b.[i]) ->
  map (fun i => if i <? zlen b then d.[i] else 0) (seqZ 0 8) = b ++ replicate (8 - length b) 0.
Proof.
  intros Hl Hb. apply arr_ext; [rewrite length_map, length_seqZ, length_app, length_replicate; lia|].
  intros i Hi. rewrite length_map, length_seqZ in Hi.
  assert (Hs : (map (fun i => if i <? zlen b then d.[i] else 0) (seqZ 0 8)).[i] = if i <? zlen b then d.[i] else 0).
  { apply list_lookup_total_correct. rewrite list_lookup_fmap, lookup_seqZ_lt by lia. cbn. f_equal. by replace (0 + Z.of_nat (Z.to_nat i)) with i by lia. }
  rewrite Hs. destruct (Z.ltb_spec i (zlen b)); [rewrite Hb by lia|]; unfold arr_get.
  - by rewrite lookup_total_app_l by lia.
  - rewrite lookup_total_app_r by lia. symmetry. apply list_lookup_total_correct, lookup_replicate_2. lia.
Qed.

Lemma bus_receive_delivers s f m : lines_ok s -> carries f m ->
  let s' := flexcan_bus_receive s f in
  if flexcan_enabled s then delivered s m s' else s' = s.
Proof.
  intros [Hs Hirq] [Hl Hsh Hdl Hdr Hby Herr Hide Hrtr Hid]. cbv zeta. unfold flexcan_bus_receive. rewrite Herr.
  destruct (flexcan_enabled s) eqn:Een; [|done]. cbn [negb]. rewrite Hide, Hid.
  pose proof (first_match (flexcan_match s (m_id m)) 32 ltac:(lia)) as Hfm. change MB_COUNT with 32.
  destruct (filter _ _) as [|rx l].
  - setoid_rewrite accepts_match in Hfm. pose proof (hits_none s m Hfm) as Hn.
    split; [intros k Hk; by rewrite Hn | | done..].
    intros k Hk. destruct (Z.ltb_spec k 32); [rewrite Hn by lia|]; by rewrite orb_false_r.
  - setoid_rewrite accepts_match in Hfm. destruct Hfm as (Hrx & Ha & Hf). pose proof (hits_first s m rx Hrx Ha Hf) as Hh.
    destruct (flexcan_store_spec s f (m_id m) rx Hs Hrx Hdr Hdl ltac:(lia)) as [Hsb Hmb].
    replace (Z.min 8 (can_dlc f)) with (zlen (m_bytes m)) in Hmb by lia. rewrite (bytes_padded _ _ Hsh Hby), Hide, Hrtr in Hmb.
    split.
    + intros k Hk. rewrite Hh by done. destruct (Z.eqb_spec rx k) as [<-|Hne]; [done | by apply (mb_of_same s _ rx)].
    + intros k Hk. rewrite (sb_flags _ _ _ Hsb), Z.lor_spec, testbit_bit by lia. f_equal.
      destruct (Z.ltb_spec k 32); [by rewrite Hh by lia|]. apply Z.eqb_neq. lia.
    + split; [apply Hsb | apply Hsb].
    + intros w Hw Hne Hout. apply (sb_word _ _ _ Hsb); [done | exact Hne|]. apply Hout; [done|]. by rewrite Hh, Z.eqb_refl.
    + apply Hsb.
Qed.

Lemma arr_imap {A B} `{Inhabited A} `{Inhabited B} (g : nat -> A -> B) (l : list A) j : 0 <= j < zlen l ->
  (imap g l).[j] = g (Z.to_nat j) (l.[j]).
Proof.
  intros Hj. apply list_lookup_total_correct. rewrite list_lookup_imap. unfold arr_get.
  by rewrite (list_lookup_lookup_total_lt l (Z.to_nat j)) by lia.
Qed.

Definition cs_off (k : Z) : Z := MB_BASE + k * MB_STRIDE.

(** Decoding of a word write to the control word of a mailbox. *)
Lemma cs_decode k : 0 <= k < 32 ->
  (cs_off k .& 3 = 0 /\ cs_off k .& .~ 3 = cs_off k) /\ (cs_off k .>> 2 = mb_index k /\ (cs_off k - MB_BASE) / MB_STRIDE = k) /\
  (MB_BASE <=? cs_off k) && (cs_off k <? MB_BASE + MB_COUNT * MB_STRIDE) && ((cs_off k - MB_BASE) mod MB_STRIDE =? 0) = true.
Proof.
  intros Hk. assert (Hs : k ∈ seqZ 0 32) by (apply elem_of_seqZ; lia). revert k Hs Hk.
  assert (Hb : forallb (fun k => (cs_off k .& 3 =? 0) && (cs_off k .& .~ 3 =? cs_off k) && (cs_off k .>> 2 =? mb_index k) &&
    ((cs_off k - MB_BASE) / MB_STRIDE =? k) && ((MB_BASE <=? cs_off k) && (cs_off k <? MB_BASE + MB_COUNT * MB_STRIDE) &&
    ((cs_off k - MB_BASE) mod MB_STRIDE =? 0))) (seqZ 0 32) = true) by (vm_compute; done).
  intros k Hs _. rewrite forallb_forall in Hb. specialize (Hb k (proj1 (list_elem_of_In _ _) Hs)). cbv beta in Hb.
  apply andb_true_iff in Hb as [Hb H5]. repeat (apply andb_true_iff in Hb as [Hb ?]). repeat split; lia || done.
Qed.

Lemma flexcan_write_cs s k v : 0 <= k < 32 -> in_range 32 v -> (v .>> MB_CODE_SHIFT) .& MB_CODE_MASK = CODE_TX_DATA ->
  flexcan_write s (cs_off k) v 4 = flexcan_transmit (set_word s (mb_index k) v) k.
Proof.
  intros Hk Hv Hc. destruct (cs_decode k Hk) as ([H1 H2] & [H3 H4] & H5). unfold flexcan_write, reg, set_reg. cbv zeta.
  rewrite H1, H2, H3, H4. change (u32 (0 * 8)) with 0. change (4 =? 4) with true. cbv iota. change (u32 (.~ 0xFFFFFFFF)) with 0.
  rewrite Z.shiftl_0_r, Z.land_0_r, Z.lor_0_l. change 0xFFFFFFFF with (Z.ones 32). rewrite (wrap_id 32 v) by done.
  rewrite Z.land_ones, Z.mod_small by (done || lia). rewrite Hc, H5.
  assert (Hlo : 0x80 <= cs_off k < 0x280) by (unfold cs_off, MB_BASE, MB_STRIDE; lia).
  rewrite (proj2 (Z.leb_gt _ _)) by (unfold MCXN_FLEXCAN_SIZE; lia).
  rewrite !(proj2 (Z.eqb_neq (cs_off k) _)) by (unfold R_MCR, R_ESR1, R_IFLAG1, R_IMASK1, R_ESR2, R_CRCR, R_RXFIR, R_FDCRC; lia).
  reflexivity.
Qed.

Lemma flexcan_transmit_bus s tx : lines_ok s -> 0 <= tx < 32 -> flexcan_enabled s = true -> canbus s = true ->
  flag (reg s R_CTRL1) CTRL1_LPB = false ->
  let '(s', frames) := flexcan_transmit s tx in
  frames = [flexcan_send_to_bus s tx] /\ lines_ok s' /\ canbus s' = canbus s /\
  (forall w, 0 <= w < 4096 -> word s' w = if w =? R_IFLAG1 .>> 2 then word s w .| bit tx else word s w).
Proof.
  intros [Hs Hirq] Htx He Hb Hl. unfold flexcan_transmit. rewrite He, Hb, Hl. cbn [negb andb].
  change (set_reg s R_IFLAG1 (reg s R_IFLAG1 .| bit tx)) with (set_word s 12 (word s 12 .| bit tx)).
  split; [done|]. split; [split; [by apply can_wf_set | done]|]. split; [done|]. intros w Hw. change (R_IFLAG1 .>> 2) with 12.
  change (word (set_word s 12 (word s 12 .| bit tx)) w = if w =? 12 then word s w .| bit tx else word s w).
  destruct (Z.eqb_spec w 12) as [->|Hne]; [by apply word_set_eq | apply word_set_ne; lia].
Qed.

(** C6: Board to board.  A controller that is on the bus and arms a message buffer
    puts its message on the bus: every other controller that is enabled stores
    it in the first of its mailboxes that listens for its identifier under the
    mask (identifier, format, remote flag, length and bytes as sent, the code
    telling whether an unread message was overwritten), flags that mailbox and no
    other, drives its line accordingly and keeps every other word of its register
    file; a controller that is disabled or frozen does not change at all; and the
    sender changes nothing but the control word it was given, the flag of that
    mailbox and its line. *)
Theorem flexcan_link bus i tx v :
  Forall lines_ok bus -> 0 <= i < zlen bus -> 0 <= tx < 32 -> in_range 32 v ->
  (v .>> MB_CODE_SHIFT) .& MB_CODE_MASK = CODE_TX_DATA ->
  flexcan_enabled (bus.[i]) = true -> canbus (bus.[i]) = true -> flag (reg (bus.[i]) R_CTRL1) CTRL1_LPB = false ->
  let bus' := can_bus_write bus i (cs_off tx) v 4 in
  let armed := set_word (bus.[i]) (mb_index tx) v in
  let m := message_of (mb_of armed tx) in
  zlen bus' = zlen bus /\
  (forall j, 0 <= j < zlen bus -> j <> i ->
     if flexcan_enabled (bus.[j]) then delivered (bus.[j]) m (bus'.[j]) else bus'.[j] = bus.[j]) /\
  (forall w, 0 <= w < 4096 -> word (bus'.[i]) w =
     if w =? mb_index tx then v else if w =? R_IFLAG1 .>> 2 then word (bus.[i]) w .| bit tx else word (bus.[i]) w) /\
  canbus (bus'.[i]) = canbus (bus.[i]) /\ lines_ok (bus'.[i]).
Proof.
  intros Hbus Hi Htx Hv Hc He Hb Hl. cbv zeta. unfold can_bus_write. rewrite flexcan_write_cs by done.
  set (armed := set_word _ _ _). assert (Hix := mb_index_eq tx ltac:(lia)).
  assert (Hlow : forall j, 0 <= j < 32 -> word armed j = word (bus.[i]) j) by (intros; apply word_set_ne; lia).
  assert (Hok : lines_ok (bus.[i])) by (apply Forall_arr_get; [done | lia]).
  assert (Hoka : lines_ok armed).
  { destruct Hok as [H1 H2]. split; [by apply can_wf_set|]. change (irq armed) with (irq (bus.[i])). rewrite H2.
    change (flag (word (bus.[i]) 12) (word (bus.[i]) 10) = flag (word armed 12) (word armed 10)). by rewrite !Hlow by lia. }
  assert (Hen : flexcan_enabled armed = true) by (unfold flexcan_enabled; change (reg armed R_MCR) with (word armed 0); rewrite Hlow by lia; exact He).
  assert (Hlpb : flag (reg armed R_CTRL1) CTRL1_LPB = false) by (change (reg armed R_CTRL1) with (word armed 1); rewrite Hlow by lia; exact Hl).
  pose proof (flexcan_transmit_bus armed tx Hoka Htx Hen Hb Hlpb) as Ht. destruct (flexcan_transmit armed tx) as [s' frames].
  destruct Ht as (-> & Hs' & Hcb & Hfl). cbn [foldl]. unfold can_bus_client_send.
  pose proof (send_carries armed tx Htx) as Hca. set (f := flexcan_send_to_bus armed tx) in *. clearbody f.
  split; [by rewrite length_imap; autorewrite with arrays|]. rewrite !arr_imap by (autorewrite with arrays; lia).
  rewrite !arr_get_set_eq, !Z2Nat.id, Z.eqb_refl by lia. unfold flexcan_bus_can_receive.
  assert (Hsi : (if flexcan_enabled s' then s' else s') = s') by by destruct (flexcan_enabled s'). rewrite Hsi.
  split; [|split; [|done]].
  - intros j Hj Hne. rewrite arr_imap by (autorewrite with arrays; lia). rewrite arr_get_set_ne, Z2Nat.id by lia.
    rewrite (proj2 (Z.eqb_neq j i)) by done.
    pose proof (bus_receive_delivers (bus.[j]) f _ (Forall_arr_get _ _ _ Hbus Hj) Hca) as Hd.
    destruct (flexcan_enabled (bus.[j])) eqn:Ej; done.
  - intros w Hw. rewrite Hfl by done. destruct (Z.eqb_spec w (mb_index tx)) as [->|Hne].
    + rewrite (proj2 (Z.eqb_neq _ _)) by (change (R_IFLAG1 .>> 2) with 12; lia). apply word_set_eq; [apply Hok | lia].
    + unfold armed. by rewrite word_set_ne by lia.
Qed.

(** Two boards: the first sends 0x123 with eight bytes from its mailbox 8, the
    second listens for it in its mailbox 3. *)
Definition board (cfg : list (Z * Z)) : MCXNFlexCanState :=
  foldl (fun s (e : Z * Z) => (flexcan_write s e.1 e.2 4).1) (flexcan_init true) ((R_MCR, 0xF) :: cfg).
Definition two_boards : list MCXNFlexCanState :=
  [board [(cs_off 8 + 4, 0x123 .<< 18); (cs_off 8 + 8, 0x11223344); (cs_off 8 + 12, 0x55667788)];
   board [(R_RXMGMASK, 0x1FFC0000); (cs_off 2, 0x04000000); (cs_off 2 + 4, 0x124 .<< 18);
          (cs_off 3, 0x04000000); (cs_off 3 + 4, 0x123 .<< 18); (R_IMASK1, 0xFF)]].

Lemma flexcan_link_witness :
  let bus' := can_bus_write two_boards 0 (cs_off 8) 0x0C080000 4 in
  mb_of (bus'.[1]) 3 = mkMb CODE_RX_FULL false false false 8 (0x123 .<< 18) [0x11; 0x22; 0x33; 0x44; 0x55; 0x66; 0x77; 0x88] /\
  mb_of (bus'.[1]) 2 = mb_of (two_boards.[1]) 2 /\ reg (bus'.[1]) R_RXMGMASK = 0x1FFC0000 /\ lines_ok (bus'.[0]).
Proof.
  assert (Hok : Forall lines_ok two_boards) by (repeat constructor; vm_compute; reflexivity).
  destruct (flexcan_link two_boards 0 8 0x0C080000 Hok) as (_ & Hd & _ & _ & Hl); [vm_compute; done..|].
  specialize (Hd 1 ltac:(done) ltac:(done)). assert (He : flexcan_enabled (two_boards.[1]) = true) by (vm_compute; reflexivity).
  rewrite He in Hd. cbv zeta. rewrite (de_mailbox _ _ _ Hd 3), (de_mailbox _ _ _ Hd 2) by lia. split; [vm_compute; reflexivity|].
  split; [vm_compute; reflexivity|]. split; [|exact Hl].
  etransitivity; [apply (de_frame _ _ _ Hd (R_RXMGMASK .>> 2)); [done | done|] | vm_compute; reflexivity].
  intros k Hk _. rewrite mb_index_eq by lia. change (R_RXMGMASK .>> 2) with 4. lia.
Defined.

(** ** The mode handshake *)

Definition acks (mcr : Z) : Prop :=
  let disable := flag mcr MCR_MDIS in
  let freeze := flag mcr MCR_FRZ && flag mcr MCR_HALT in
  flag mcr MCR_LPMACK = disable /\ flag mcr MCR_FRZACK = negb disable && freeze /\ flag mcr MCR_NOTRDY = disable || freeze.

Lemma settle_acks mcr : acks (flexcan_mcr_settle mcr).
Proof.
  unfold acks, flexcan_mcr_settle. destruct (flag mcr MCR_MDIS) eqn:E1, (flag mcr MCR_FRZ) eqn:E2, (flag mcr MCR_HALT) eqn:E3; cbn [andb];
    unfold MCR_MDIS, MCR_FRZ, MCR_HALT, MCR_LPMACK, MCR_FRZACK, MCR_NOTRDY in *; fnorm; rewrite ?E1, ?E2, ?E3; done.
Qed.

Definition mode_ok (s : MCXNFlexCanState) : Prop := can_wf s /\ acks (word s 0).

Lemma mode_set s i v : mode_ok s -> 0 < i -> mode_ok (set_word s i v).
Proof. intros [H1 H2] Hi. split; [by apply can_wf_set|]. by rewrite word_set_ne by lia. Qed.

Lemma mode_irq s : mode_ok s -> mode_ok (flexcan_update_irq s).
Proof. done. Qed.

Lemma mode_foldl {A} (f : MCXNFlexCanState -> A -> MCXNFlexCanState) l : (forall s x, x ∈ l -> mode_ok s -> mode_ok (f s x)) ->
  forall s, mode_ok s -> mode_ok (foldl f s l).
Proof.
  induction l as [|x l IH]; intros Hf s Hs; cbn [foldl]; [done|].
  apply IH; [intros; apply Hf; [by right | done] | apply Hf; [by left | done]].
Qed.

Lemma mode_store s f id rx : mode_ok s -> 0 <= rx -> mode_ok (flexcan_store s f id rx).
Proof.
  intros Hs Hrx. assert (Hi := mb_index_eq rx Hrx). unfold flexcan_store. cbv zeta. apply mode_irq. apply (mode_set _ 12); [|lia].
  apply mode_set; [|lia]. apply mode_foldl; [|by repeat apply mode_set; try lia].
  intros s' i Hx Hs'. apply elem_of_seqZ in Hx. apply mode_set; [done | dlia].
Qed.

Lemma mode_receive s f : mode_ok s -> mode_ok (flexcan_bus_receive s f).
Proof.
  intros Hs. unfold flexcan_bus_receive. destruct (flag _ _); [done|]. destruct (negb _); [done|].
  pose proof (first_match (flexcan_match s (if flag (can_id f) QEMU_CAN_EFF_FLAG then can_id f .& QEMU_CAN_EFF_MASK
    else u32 ((can_id f .& QEMU_CAN_SFF_MASK) .<< 18))) 32 ltac:(lia)) as Hf. change MB_COUNT with 32.
  cbv zeta. destruct (filter _ _) as [|rx l]; [done|]. destruct Hf as [Hrx _]. apply mode_store; [done | lia].
Qed.

Lemma mode_loopback s tx : mode_ok s -> mode_ok (flexcan_loopback s tx).
Proof.
  intros Hs. unfold flexcan_loopback. cbv zeta.
  pose proof (first_match (fun rx => negb (rx =? tx) && flexcan_match s (word s (mb_index tx + 1)) rx) 32 ltac:(lia)) as Hf.
  change MB_COUNT with 32. destruct (filter _ _) as [|rx l]; [done|]. destruct Hf as [Hrx _]. assert (Hi := mb_index_eq rx ltac:(lia)).
  apply (mode_set _ 12); [|lia]. by repeat apply mode_set; try lia.
Qed.

Lemma mode_transmit s tx : mode_ok s -> mode_ok (flexcan_transmit s tx).1.
Proof.
  intros Hs. unfold flexcan_transmit. destruct (negb _); [done|].
  destruct (_ && _); [|destruct (flag _ CTRL1_LPB)]; cbn [fst]; apply mode_irq, (mode_set _ 12); (done || lia || by apply mode_loopback).
Qed.

(** A write is to MCR or to another word. *)
Lemma write_word off : 0 <= off -> (off .& .~ 3 =? R_MCR) = false -> 0 < off .>> 2.
Proof.
  intros Ho Hne. apply Z.eqb_neq in Hne. rewrite Z.shiftr_div_pow2 by lia. change (2 ^ 2) with 4.
  destruct (Z.lt_ge_cases off 4); [|dlia]. exfalso. apply Hne. assert (off = 0 \/ off = 1 \/ off = 2 \/ off = 3) as [->|[->|[->| ->]]] by lia; done.
Qed.

Lemma mode_write s off v size : mode_ok s -> 0 <= off -> mode_ok (flexcan_write s off v size).1.
Proof.
  intros Hs Ho. pose proof (write_word off Ho) as Hw. unfold flexcan_write. cbv zeta.
  set (mask := if size =? 4 then _ else _). set (bits := u32 (v .<< _) .& mask). clearbody mask bits.
  destruct (Z.leb_spec MCXN_FLEXCAN_SIZE off) as [|Hhi]; [done|].
  destruct (off .& .~ 3 =? R_MCR) eqn:E.
  - destruct Hs as [H1 H2]. cbn [fst]. split; [by apply can_wf_set|].
    assert (off .>> 2 = 0) as Hz.
    { apply Z.eqb_eq in E. rewrite Z.shiftr_div_pow2 by lia. change (2 ^ 2) with 4. change (.~ 3) with (.~ Z.ones 2) in E.
      rewrite <- Z.ldiff_land, Z.ldiff_ones_r, Z.shiftr_div_pow2, Z.shiftl_mul_pow2 in E by lia. change (2 ^ 2) with 4 in E.
      unfold R_MCR in E. dlia. }
    set (x := flexcan_mcr_settle _). unfold set_reg. rewrite Hz. change (acks (word (set_word s 0 x) 0)).
    rewrite word_set_eq by (done || lia). apply settle_acks.
  - specialize (Hw eq_refl). assert (Hset : forall x, mode_ok (set_reg s off x)) by (intros; by apply mode_set).
    destruct (_ =? R_ESR1); [apply Hset|]. destruct (_ =? R_IFLAG1); [apply mode_irq, Hset|].
    destruct (_ =? R_IMASK1); [apply mode_irq, Hset|]. destruct (_ || _ || _ || _); [done|].
    destruct (_ && _ && _ && _); [by apply mode_transmit | apply Hset].
Qed.

(** A controller off the bus puts nothing on it. *)
Lemma write_silent s off v size : 0 <= off -> flexcan_enabled s = false -> (flexcan_write s off v size).2 = [].
Proof.
  intros Ho He. pose proof (write_word off Ho) as Hw. unfold flexcan_write. cbv zeta.
  destruct (MCXN_FLEXCAN_SIZE <=? off); [done|]. destruct (_ =? R_MCR); [done|]. specialize (Hw eq_refl).
  destruct (_ =? R_ESR1); [done|]. destruct (_ =? R_IFLAG1); [done|]. destruct (_ =? R_IMASK1); [done|].
  destruct (_ || _ || _ || _); [done|]. destruct (_ && _ && _ && _); [|done]. unfold flexcan_transmit.
  set (x := _ .| _). replace (flexcan_enabled (set_reg s off x)) with false; [done|]. symmetry. unfold flexcan_enabled.
  change (reg (set_reg s off x) R_MCR) with (word (set_word s (off .>> 2) x) 0). rewrite word_set_ne by lia. exact He.
Qed.

Inductive flexcan_step : relation MCXNFlexCanState :=
  | can_step_write s off v size : 0 <= off -> flexcan_step s (flexcan_write s off v size).1
  | can_step_receive s f : flexcan_step s (flexcan_bus_receive s f)
  | can_step_reset s : flexcan_step s (mcxn_flexcan_reset s)
  | can_step_load s : flexcan_step s (mcxn_flexcan_post_load s).

Lemma flexcan_reset_mode s : mode_ok (mcxn_flexcan_reset s).
Proof. split; [by vm_compute|]. by vm_compute. Qed.

(** The mode handshake.  In every state reachable from power-on, whatever the
    accesses and their sizes and whatever arrives from the bus, the low-power
    acknowledge is the disable request, the freeze acknowledge is a freeze
    request of an enabled module, and not-ready is either; and a module that is
    not ready is off the bus: it ignores every frame and sends none. *)
Theorem flexcan_mode_handshake linked s :
  rtc flexcan_step (flexcan_init linked) s ->
  acks (reg s R_MCR) /\
  (flag (reg s R_MCR) MCR_NOTRDY = true ->
   (forall f, flexcan_bus_receive s f = s) /\
   (forall off v size, 0 <= off -> (flexcan_write s off v size).2 = [])).
Proof.
  intros Hs. apply (rtc_invariant _ mode_ok) in Hs as [_ Ha]; [|intros a b [] Hm | apply flexcan_reset_mode].
  - split; [exact Ha|]. intros Hn. assert (He : flexcan_enabled s = false) by (unfold flexcan_enabled; by rewrite Hn, andb_false_r).
    split; [|intros; by apply write_silent]. intros f. unfold flexcan_bus_receive. rewrite He. by destruct (flag (can_id f) QEMU_CAN_ERR_FLAG).
  - by apply mode_write.
  - by apply mode_receive.
  - apply flexcan_reset_mode.
  - by apply mode_irq.
Qed.

(** A frozen module: enabled, then FRZ and HALT requested by a byte write. *)
Lemma flexcan_mode_handshake_witness :
  let s := (flexcan_write (board []) (R_MCR + 3) 0x50 1).1 in
  flag (reg s R_MCR) MCR_FRZACK = true /\ forall f, flexcan_bus_receive s f = s.
Proof.
  cbv zeta. split; [by vm_compute|].
  apply (flexcan_mode_handshake true (flexcan_write (board []) (R_MCR + 3) 0x50 1).1); [|by vm_compute].
  eapply rtc_l; [apply (can_step_write _ R_MCR 0xF 4); done|]. apply rtc_once. apply can_step_write. done.
Defined.

(** ** Departures of the code from its comments *)

(** The reset clears the flags but does not re-evaluate the interrupt line:
    a pending interrupt survives it. *)
Theorem flexcan_reset_keeps_irq :
  let bus := can_bus_write two_boards 0 (cs_off 8) 0x0C080000 4 in
  let s := bus.[1] in
  irq s = true /\ irq (mcxn_flexcan_reset s) = true /\ reg (mcxn_flexcan_reset s) R_IFLAG1 = 0.
Proof. vm_compute. auto. Qed.

(** SOFTRST clears itself without resetting anything: the pending flags and the
    programmed mailboxes survive it. *)
Theorem flexcan_softrst_resets_nothing :
  let bus := can_bus_write two_boards 0 (cs_off 8) 0x0C080000 4 in
  let s := (flexcan_write (bus.[1]) R_MCR MCR_SOFTRST 4).1 in
  reg s R_IFLAG1 = bit 3 /\ mb_code (mb_of s 2) = CODE_RX_EMPTY.
Proof. vm_compute. auto. Qed.
