(* ===== verification/Enet.v ===== *)
(** * ENET: the Ethernet MAC and its descriptor rings

    Model of [hw/misc/mcxn_enet.c].  The MAC reaches descriptors and frame
    buffers in guest memory, a function from addresses to bytes; calls to the
    network backend are recorded in the state.  The theorems are about frames: a
    doorbell sends the frames that the transmit ring describes, a received frame
    is handed to the driver through the receive ring, and two boards on a wire
    exchange frames in order.  A backend answers after the call that sends to it
    has returned. *)
From S2P Require Import Prelude.

(** ** Registers *)

Definition R_MAC_CONFIGURATION : Z := 0x000.
Definition R_MAC_INTERRUPT_STATUS : Z := 0x0B0.
Definition R_MAC_INTERRUPT_ENABLE : Z := 0x0B4.
Definition R_MAC_RX_TX_STATUS : Z := 0x0B8.
Definition R_MAC_VERSION : Z := 0x110.
Definition R_MAC_DEBUG : Z := 0x114.
Definition R_MAC_HW_FEAT0 : Z := 0x11C.
Definition R_MAC_MDIO_ADDRESS : Z := 0x200.
Definition R_MAC_MDIO_DATA : Z := 0x204.
Definition R_MTL_INTERRUPT_STATUS : Z := 0xC20.
Definition R_DMA_MODE : Z := 0x1000.
Definition R_DMA_INTERRUPT_STATUS : Z := 0x1008.
Definition R_DMA_DEBUG_STATUS0 : Z := 0x100C.
Definition R_DMA_CH0_TX_CTRL : Z := 0x1104.
Definition R_DMA_CH0_RX_CTRL : Z := 0x1108.
Definition R_DMA_CH0_TXDESC_LIST : Z := 0x1114.
Definition R_DMA_CH0_RXDESC_LIST : Z := 0x111C.
Definition R_DMA_CH0_TXDESC_TAIL : Z := 0x1120.
Definition R_DMA_CH0_RXDESC_TAIL : Z := 0x1128.
Definition R_DMA_CH0_TXRING_LEN : Z := 0x112C.
Definition R_DMA_CH0_RXRING_LEN : Z := 0x1130.
Definition R_DMA_CH0_INT_EN : Z := 0x1134.
Definition R_DMA_CH0_STATUS : Z := 0x1160.
Definition R_MTL_TXQ0_OP_MODE : Z := 0x0D00.

Definition MDIO_GB : Z := bit 0.
Definition MDIO_GOC_SHIFT : Z := 2.
Definition MDIO_GOC_MASK : Z := 0x3.
Definition MDIO_GOC_WRITE : Z := 0x1.
Definition MDIO_RDA_SHIFT : Z := 16.
Definition MDIO_RDA_MASK : Z := 0x1F.
Definition MDIO_PA_SHIFT : Z := 21.
Definition MDIO_PA_MASK : Z := 0x1F.
Definition MAC_IS_PHYIS : Z := bit 3.
Definition DMA_MODE_SWR : Z := bit 0.
Definition MAC_CFG_RE : Z := bit 0.
Definition MAC_CFG_TE : Z := bit 1.
Definition MAC_CFG_LM : Z := bit 12.
Definition MTL_TXQ_FTQ : Z := bit 0.
Definition DMA_TX_ST : Z := bit 0.
Definition DMA_RX_SR : Z := bit 0.
Definition DMA_STAT_TI : Z := bit 0.
Definition DMA_STAT_RI : Z := bit 6.
Definition DMA_STAT_RBU : Z := bit 7.
Definition DMA_STAT_NIS : Z := bit 15.
Definition TDES2_IOC : Z := bit 31.
Definition TDES3_OWN : Z := bit 31.
Definition TDES3_FD : Z := bit 29.
Definition TDES3_LD : Z := bit 28.
Definition TDES2_B1L_MASK : Z := 0x3FFF.
Definition RDES3_OWN : Z := bit 31.
Definition RDES3_FD : Z := bit 29.
Definition RDES3_LD : Z := bit 28.
Definition RDES3_PL_MASK : Z := 0x7FFF.
Definition ENET_FRAME_MAX : Z := 2048.
Definition ENET_RING_GUARD : nat := 256.
Definition ENET_PHY_ADDR : Z := 2.
Definition PHY_BMCR : Z := 0x00.
Definition PHY_BMSR : Z := 0x01.
Definition PHY_ID1 : Z := 0x02.
Definition PHY_ID2 : Z := 0x03.
Definition PHY_BMCR_RESET : Z := 0x1140.
Definition PHY_BMSR_VALUE : Z := 0x782D.
Definition PHY_ID1_VALUE : Z := 0x0007.
Definition PHY_ID2_VALUE : Z := 0xC120.
Definition MAC_VERSION_VALUE : Z := 0x00001052.
Definition MCXN_ENET_SIZE : Z := 0x2000.

(** ** State *)

(** A packet sent to the backend, and the request to deliver what it holds back. *)
Inductive net_call := NetSend (frame : list Z) | NetFlush.

Record MCXNEnetState := mkEnet {
  irq : bool;
  nic : bool;               (* there is a backend *)
  cur_tx : Z;
  cur_rx : Z;
  regs : list Z;
  phy : list Z;
  net : list net_call;      (* the calls to the backend *)
}.
#[export] Instance enet_settable : Settable MCXNEnetState := fun s =>
  mkEnet (irq s) (nic s) (cur_tx s) (cur_rx s) (regs s) (phy s) (net s).

Definition reg (s : MCXNEnetState) (off : Z) : Z := (regs s).[off .>> 2].
Definition set_reg (s : MCXNEnetState) (off v : Z) : MCXNEnetState := s <| regs := (regs s).[off .>> 2 <- v] |>.

(** The device and guest memory. *)
Abbreviation board := (MCXNEnetState * (Z -> Z))%type.

Definition mcxn_enet_update_irq (s : MCXNEnetState) : MCXNEnetState :=
  let mac := flag (reg s R_MAC_INTERRUPT_STATUS .& reg s R_MAC_INTERRUPT_ENABLE) MAC_IS_PHYIS in
  let dma := flag (reg s R_DMA_CH0_STATUS .& reg s R_DMA_CH0_INT_EN) (DMA_STAT_TI .| DMA_STAT_RI) in
  s <| irq := mac || dma |>.

(** ** Descriptor rings *)

Definition enet_desc_read (m : Z -> Z) (addr : Z) : list Z :=
  [word_at m addr; word_at m (addr + 4); word_at m (addr + 8); word_at m (addr + 12)].
Definition enet_desc_write_word3 (m : Z -> Z) (addr w3 : Z) : Z -> Z :=
  mem_store m (u32 (addr + 12)) (le_store 4 w3).

(** The next descriptor of a ring. *)
Definition enet_next (base ringlen cur : Z) : Z :=
  let cur := u32 (cur + 16) in
  if u32 (base + ringlen * 16) <=? cur then base else cur.

(** The pieces of the frame [buf] from offset [off] on. *)
Fixpoint enet_deliver_loop (fuel : nat) (base ringlen rbsz : Z) (buf : list Z) (off : Z) (first : bool) (b : board)
  : option (bool * board) :=
  match fuel with
  | O => None
  | S fuel =>
      let '(s, m) := b in
      let d := enet_desc_read m (cur_rx s) in
      if negb (flag (d.[3]) RDES3_OWN) then
        Some (false, (mcxn_enet_update_irq (set_reg s R_DMA_CH0_STATUS (reg s R_DMA_CH0_STATUS .| (DMA_STAT_RBU .| DMA_STAT_NIS))), m))
      else
        let chunk := Z.min rbsz (zlen buf - off) in
        let m := mem_store m (d.[0]) (slice off chunk buf) in
        let off := off + chunk in
        let last := zlen buf <=? off in
        let m := enet_desc_write_word3 m (cur_rx s)
                   ((if first then RDES3_FD else 0) .| (if last then RDES3_LD else 0) .| (off .& RDES3_PL_MASK)) in
        let s := s <| cur_rx := enet_next base ringlen (cur_rx s) |> in
        if off <? zlen buf then enet_deliver_loop fuel base ringlen rbsz buf off false (s, m) else Some (true, (s, m))
  end.

Definition enet_rx_enabled (s : MCXNEnetState) : bool :=
  flag (reg s R_MAC_CONFIGURATION) MAC_CFG_RE && flag (reg s R_DMA_CH0_RX_CTRL) DMA_RX_SR.
Definition enet_rx_base (s : MCXNEnetState) : Z := reg s R_DMA_CH0_RXDESC_LIST .& u32 (.~ 0x3).
Definition enet_rx_ringlen (s : MCXNEnetState) : Z := (reg s R_DMA_CH0_RXRING_LEN .& 0x3FF) + 1.
Definition enet_rbsz (s : MCXNEnetState) : Z :=
  let rbsz := (reg s R_DMA_CH0_RX_CTRL .>> 1) .& 0x3FFF in
  if (rbsz =? 0) || (ENET_FRAME_MAX <? rbsz) then ENET_FRAME_MAX else rbsz.

Definition mcxn_enet_deliver (b : board) (buf : list Z) : option (bool * board) :=
  let s := b.1 in
  if negb (enet_rx_enabled s) || (enet_rx_base s =? 0) then Some (false, b)
  else
    let buf := take (Z.to_nat ENET_FRAME_MAX) buf in
    '(ok, (s, m)) ← enet_deliver_loop (S (length buf)) (enet_rx_base s) (enet_rx_ringlen s) (enet_rbsz s) buf 0 true b;
    if ok : bool then
      Some (true, (mcxn_enet_update_irq (set_reg s R_DMA_CH0_STATUS (reg s R_DMA_CH0_STATUS .| (DMA_STAT_RI .| DMA_STAT_NIS))), m))
    else Some (false, (s, m)).

(** A buffer of a transmit descriptor is appended if it fits. *)
Definition enet_gather (m : Z -> Z) (addr len : Z) (frame : list Z) : list Z :=
  if negb (len =? 0) && (zlen frame + len <=? ENET_FRAME_MAX) then frame ++ mem_load m addr len else frame.

(** A complete frame leaves. *)
Definition enet_tx_frame (loopback ioc : bool) (frame : list Z) (b : board) : option board :=
  '(s, m) ← (if loopback then '(_, b) ← mcxn_enet_deliver b frame; Some b
             else Some (if nic b.1 then (b.1 <| net := net b.1 ++ [NetSend frame] |>, b.2) else b));
  Some (if ioc then set_reg s R_DMA_CH0_STATUS (reg s R_DMA_CH0_STATUS .| (DMA_STAT_TI .| DMA_STAT_NIS)) else s, m).

(** The walk of the transmit ring; [frame] is what is assembled so far. *)
Fixpoint enet_tx_loop (guard : nat) (base tail ringlen : Z) (loopback : bool) (frame : list Z) (ioc : bool) (b : board)
  : option board :=
  match guard with
  | O => Some b
  | S guard =>
      let '(s, m) := b in
      if cur_tx s =? tail then Some b
      else
        let d := enet_desc_read m (cur_tx s) in
        if negb (flag (d.[3]) TDES3_OWN) then Some b
        else
          let frame := if flag (d.[3]) TDES3_FD then [] else frame in
          let ioc := if flag (d.[3]) TDES3_FD then false else ioc in
          let frame := enet_gather m (d.[0]) (d.[2] .& TDES2_B1L_MASK) frame in
          let frame := enet_gather m (d.[1]) ((d.[2] .>> 16) .& TDES2_B1L_MASK) frame in
          let ioc := ioc || flag (d.[2]) TDES2_IOC in
          let m := enet_desc_write_word3 m (cur_tx s) (d.[3] .& u32 (.~ TDES3_OWN)) in
          '(s, m) ← (if flag (d.[3]) TDES3_LD then enet_tx_frame loopback ioc frame (s, m) else Some (s, m));
          let frame := if flag (d.[3]) TDES3_LD then [] else frame in
          enet_tx_loop guard base tail ringlen loopback frame ioc (s <| cur_tx := enet_next base ringlen (cur_tx s) |>, m)
  end.

Definition enet_tx_enabled (s : MCXNEnetState) : bool :=
  flag (reg s R_MAC_CONFIGURATION) MAC_CFG_TE && flag (reg s R_DMA_CH0_TX_CTRL) DMA_TX_ST.
Definition enet_tx_base (s : MCXNEnetState) : Z := reg s R_DMA_CH0_TXDESC_LIST .& u32 (.~ 0x3).
Definition enet_tx_tail (s : MCXNEnetState) : Z := reg s R_DMA_CH0_TXDESC_TAIL .& u32 (.~ 0x3).
Definition enet_tx_ringlen (s : MCXNEnetState) : Z := (reg s R_DMA_CH0_TXRING_LEN .& 0x3FF) + 1.

Definition mcxn_enet_tx_process (b : board) : option board :=
  let s := b.1 in
  if negb (enet_tx_enabled s) || (enet_tx_base s =? 0) then Some b
  else
    '(s, m) ← enet_tx_loop ENET_RING_GUARD (enet_tx_base s) (enet_tx_tail s) (enet_tx_ringlen s)
                (flag (reg s R_MAC_CONFIGURATION) MAC_CFG_LM) [] false b;
    Some (mcxn_enet_update_irq s, m).

(** ** The backend's side *)

Definition mcxn_enet_can_receive (s : MCXNEnetState) : bool := enet_rx_enabled s.
Definition mcxn_enet_receive (b : board) (buf : list Z) : option (Z * board) :=
  '(_, b) ← mcxn_enet_deliver b buf; Some (zlen buf, b).

(** ** Register accesses *)

Definition mcxn_enet_phy_read (s : MCXNEnetState) (r : Z) : Z :=
  if r =? PHY_BMSR then PHY_BMSR_VALUE else (phy s).[r .& 0x1F].

Definition enet_reg_ro (off : Z) : bool :=
  bool_decide (off ∈ [R_MAC_RX_TX_STATUS; R_MAC_VERSION; R_MAC_DEBUG; R_MAC_HW_FEAT0; R_MAC_HW_FEAT0 + 4; R_MAC_HW_FEAT0 + 8;
                      R_MAC_HW_FEAT0 + 12; R_MTL_INTERRUPT_STATUS; R_DMA_INTERRUPT_STATUS; R_DMA_DEBUG_STATUS0]).

Definition enet_read (s : MCXNEnetState) (off size : Z) : Z :=
  let shift := (off .& 3) * 8 in
  if MCXN_ENET_SIZE <=? off then 0
  else
    let r := off .& .~ 3 in
    let v :=
      if r =? R_MAC_VERSION then MAC_VERSION_VALUE
      else if r =? R_DMA_INTERRUPT_STATUS then
        if flag (reg s R_DMA_CH0_STATUS .& reg s R_DMA_CH0_INT_EN) (DMA_STAT_TI .| DMA_STAT_RI .| DMA_STAT_RBU) then 1 else 0
      else reg s r in
    (v .>> shift) .& (if size =? 4 then 0xFFFFFFFF else u32 (bit (size * 8) - 1)).

(** A PHY management operation: of the one PHY there is, or of none. *)
Definition enet_mdio (s : MCXNEnetState) (val : Z) : MCXNEnetState :=
  let pa := (val .>> MDIO_PA_SHIFT) .& MDIO_PA_MASK in
  let rda := (val .>> MDIO_RDA_SHIFT) .& MDIO_RDA_MASK in
  let goc := (val .>> MDIO_GOC_SHIFT) .& MDIO_GOC_MASK in
  let answer s v := set_reg s R_MAC_MDIO_DATA ((reg s R_MAC_MDIO_DATA .& 0xFFFF0000) .| v) in
  let s :=
    if pa =? ENET_PHY_ADDR then
      if goc =? MDIO_GOC_WRITE then s <| phy := (phy s).[rda <- reg s R_MAC_MDIO_DATA .& 0xFFFF] |>
      else answer s (mcxn_enet_phy_read s rda)
    else answer s 0xFFFF in
  mcxn_enet_update_irq (set_reg s R_MAC_INTERRUPT_STATUS (reg s R_MAC_INTERRUPT_STATUS .| MAC_IS_PHYIS)).

Definition enet_flush (s : MCXNEnetState) : MCXNEnetState := if nic s then s <| net := net s ++ [NetFlush] |> else s.

Definition enet_write (b : board) (off value size : Z) : option board :=
  let '(s, m) := b in
  let r := off .& .~ 3 in
  let shift := (off .& 3) * 8 in
  let mask := if size =? 4 then 0xFFFFFFFF else u32 ((bit (size * 8) - 1) .<< shift) in
  if MCXN_ENET_SIZE <=? off then Some b
  else if enet_reg_ro r then Some b
  else
    let written := u32 (value .<< shift) .& mask in
    let val := (reg s r .& u32 (.~ mask)) .| written in
    if r =? R_DMA_MODE then Some (set_reg s r (val .& u32 (.~ DMA_MODE_SWR)), m)
    else if r =? R_MTL_TXQ0_OP_MODE then Some (set_reg s r (val .& u32 (.~ MTL_TXQ_FTQ)), m)
    else if r =? R_MAC_MDIO_ADDRESS then
      if flag val MDIO_GB then Some (set_reg (enet_mdio s val) r (val .& u32 (.~ MDIO_GB)), m)
      else Some (set_reg s r val, m)
    else if r =? R_MAC_INTERRUPT_STATUS then
      Some (mcxn_enet_update_irq (set_reg s r (reg s r .& u32 (.~ written))), m)
    else if r =? R_MAC_INTERRUPT_ENABLE then Some (mcxn_enet_update_irq (set_reg s r val), m)
    else if r =? R_DMA_CH0_TXDESC_LIST then Some ((set_reg s r val) <| cur_tx := val .& u32 (.~ 0x3) |>, m)
    else if r =? R_DMA_CH0_RXDESC_LIST then Some ((set_reg s r val) <| cur_rx := val .& u32 (.~ 0x3) |>, m)
    else if r =? R_DMA_CH0_RXDESC_TAIL then Some (enet_flush (set_reg s r val), m)
    else if r =? R_DMA_CH0_TXDESC_TAIL then mcxn_enet_tx_process (set_reg s r val, m)
    else if r =? R_DMA_CH0_STATUS then Some (mcxn_enet_update_irq (set_reg s r (reg s r .& u32 (.~ val))), m)
    else if r =? R_DMA_CH0_INT_EN then Some (mcxn_enet_update_irq (set_reg s r val), m)
    else if (r =? R_MAC_CONFIGURATION) || (r =? R_DMA_CH0_RX_CTRL) then
      let s := set_reg s r val in
      Some (if enet_rx_enabled s then enet_flush s else s, m)
    else Some (set_reg s r val, m).

Definition enet_reset : list (Z * Z) :=
  [(0x000, 0x00008000); (0x0D4, 0x03E80000); (0x0DC, 0x00000063); (0x300, 0x8000FFFF); (0x304, 0xFFFFFFFF); (0xB00, 0x00002000)].

Definition mcxn_enet_reset (s : MCXNEnetState) : MCXNEnetState :=
  let s := s <| regs := foldl (fun l (p : Z * Z) => l.[p.1 / 4 <- p.2]) (replicate (Z.to_nat (MCXN_ENET_SIZE / 4)) 0) enet_reset |> in
  let phy0 := (replicate 32 0).[PHY_BMCR <- PHY_BMCR_RESET].[PHY_BMSR <- PHY_BMSR_VALUE].[PHY_ID1 <- PHY_ID1_VALUE].[PHY_ID2 <- PHY_ID2_VALUE] in
  s <| phy := phy0 |> <| cur_tx := 0 |> <| cur_rx := 0 |> <| irq := false |>.

Definition mcxn_enet_post_load (s : MCXNEnetState) : MCXNEnetState := mcxn_enet_update_irq s.

(** ** Rings in memory *)

Section ring.
Context (base ringlen : Z).

(** [k] descriptors from [cur] on, and the one after them. *)
Fixpoint ring_walk (k : nat) (cur : Z) : list Z :=
  match k with
  | O => []
  | S k => cur :: ring_walk k (enet_next base ringlen cur)
  end.
Fixpoint ring_after (k : nat) (cur : Z) : Z :=
  match k with
  | O => cur
  | S k => ring_after k (enet_next base ringlen cur)
  end.

Lemma ring_walk_add j k cur : ring_walk (j + k) cur = ring_walk j cur ++ ring_walk k (ring_after j cur).
Proof. revert cur. induction j as [|j IH]; intros cur; [done|]. cbn. by rewrite IH. Qed.
Lemma ring_walk_length k cur : length (ring_walk k cur) = k.
Proof. revert cur. induction k as [|k IH]; intros cur; [done|]. cbn. by rewrite IH. Qed.
Lemma ring_after_add j k cur : ring_after (j + k) cur = ring_after k (ring_after j cur).
Proof. revert cur. induction j as [|j IH]; intros cur; [done|]. apply IH. Qed.

(** A driver takes a frame out of the receive ring: it follows descriptors
    handed back to it, the first one marked FD, up to the one marked LD; a
    descriptor gives the length of the frame up to its buffer's end. *)
Fixpoint rx_poll (k : nat) (m : Z -> Z) (d prev : Z) (first : bool) : option (list Z * Z) :=
  match k with
  | O => None
  | S k =>
      let w := word_at m (d + 12) in
      if flag w RDES3_OWN || negb (Bool.eqb (flag w RDES3_FD) first) then None
      else
        let len := w .& RDES3_PL_MASK in
        let piece := mem_load m (word_at m d) (len - prev) in
        if flag w RDES3_LD then Some (piece, enet_next base ringlen d)
        else '(rest, d') ← rx_poll k m (enet_next base ringlen d) len false; Some (piece ++ rest, d')
  end.
End ring.

(** The memory that reception through the descriptors [ds] may touch. *)
Definition rx_stretches (m : Z -> Z) (rbsz : Z) (ds : list Z) : list (Z * Z) :=
  flat_map (fun d => [(d, 16); (word_at m d, rbsz)]) ds.

(** The descriptors are the MAC's, and they and their buffers do not overlap. *)
Record rx_ready (m : Z -> Z) (rbsz : Z) (ds : list Z) : Prop := {
  rr_own : Forall (fun d => flag (word_at m (d + 12)) RDES3_OWN = true) ds;
  rr_low : Forall (fun d => 0 <= d /\ d + 16 <= 2 ^ 32) ds;
  rr_sep : separate (rx_stretches m rbsz ds);
}.

(** The number of buffers that [n] bytes take. *)
Definition pieces (rbsz n : Z) : nat := Z.to_nat ((n + rbsz - 1) / rbsz).

Lemma pieces_step rbsz n : 0 < rbsz -> 0 < n -> pieces rbsz n = S (pieces rbsz (n - Z.min rbsz n)).
Proof.
  intros Hr Hn. unfold pieces. replace (n + rbsz - 1) with (n - 1 + 1 * rbsz) by lia. rewrite Z.div_add by lia.
  pose proof (Z.div_pos (n - 1) rbsz ltac:(lia) ltac:(lia)). rewrite Z2Nat.inj_add, Nat.add_1_r by lia. f_equal.
  destruct (Z.le_gt_cases n rbsz).
  - rewrite Z.min_r by lia. rewrite !Z.div_small by lia. done.
  - rewrite Z.min_l by lia. f_equal. f_equal. lia.
Qed.

Lemma pieces_0 rbsz : 0 < rbsz -> pieces rbsz 0 = O.
Proof. intros. unfold pieces. by rewrite Z.div_small by lia. Qed.

Lemma rx_stretches_ext m m' rbsz ds : Forall (fun d => word_at m' d = word_at m d) ds -> rx_stretches m' rbsz ds = rx_stretches m rbsz ds.
Proof. induction 1 as [|d ds Hd _ IH]; [done|]. cbn. rewrite Hd. do 2 f_equal. exact IH. Qed.

(** The descriptor of a stretch list, as a stretch. *)
Lemma apart_descs m rbsz ds p : Forall (apart p) (rx_stretches m rbsz ds) -> Forall (fun d => apart p (d, 16)) ds.
Proof. induction ds as [|d ds IH]; [done|]. cbn. rewrite !Forall_cons. intros (H1 & _ & H2). auto. Qed.

(** Memory that agrees outside [p] and [q] agrees on what is apart from both. *)
Lemma word_apart m m' p q a o : (forall x, ~ inside x p -> ~ inside x q -> m' x = m x) ->
  apart p (a, 16) -> apart q (a, 16) -> 0 <= o <= 12 -> word_at m' (a + o) = word_at m (a + o).
Proof.
  intros Hm Hp Hq Ho. apply word_at_ext. unfold inside, apart in *. cbn [fst snd] in *. intros x Hx. apply Hm; lia.
Qed.

(** One descriptor is filled and handed back. *)
Lemma rx_fill m rbsz d ds chunk w : rx_ready m rbsz (d :: ds) -> zlen chunk <= rbsz -> in_range 32 w ->
  let m1 := enet_desc_write_word3 (mem_store m (word_at m d) chunk) d w in
  (forall x, ~ inside x (d, 16) -> ~ inside x (word_at m d, rbsz) -> m1 x = m x) /\
  word_at m1 d = word_at m d /\ word_at m1 (d + 12) = w /\ mem_load m1 (word_at m d) (zlen chunk) = chunk /\
  rx_ready m1 rbsz ds /\ rx_stretches m1 rbsz ds = rx_stretches m rbsz ds.
Proof.
  intros [Hown Hlow Hsep] Hc Hw. apply Forall_cons in Hown as [_ Hown'], Hlow as [[Hd0 Hd] Hlow'].
  cbn in Hsep. destruct Hsep as (Hdp & Hbp & Hsep). apply Forall_cons in Hdp as [Hdb Hdp'].
  unfold enet_desc_write_word3. rewrite wrap_id by lia.
  set (m1 := mem_store (mem_store m (word_at m d) chunk) (d + 12) (le_store 4 w)). cbv zeta.
  assert (Hout : forall x, ~ inside x (d, 16) -> ~ inside x (word_at m d, rbsz) -> m1 x = m x).
  { unfold inside. cbn [fst snd]. intros x H1 H2. unfold m1. rewrite !mem_store_out; [done | |]; unfold inside; cbn [fst snd];
      rewrite ?length_le_store; lia. }
  assert (Hwords : forall o, 0 <= o <= 12 -> Forall (fun e => word_at m1 (e + o) = word_at m (e + o)) ds).
  { intros o Ho. pose proof (apart_descs _ _ _ _ Hdp') as H1. pose proof (apart_descs _ _ _ _ Hbp) as H2.
    rewrite !Forall_forall in *. intros e He. apply (word_apart m m1 (d, 16) (word_at m d, rbsz)); auto. }
  assert (Hw0 : Forall (fun e => word_at m1 e = word_at m e) ds).
  { eapply Forall_impl; [apply (Hwords 0); lia|]. intros e. cbn beta. by rewrite Z.add_0_r. }
  pose proof (rx_stretches_ext _ _ rbsz _ Hw0) as Est. unfold apart in Hdb. cbn [fst snd] in Hdb.
  split; [done|]. split; [|split; [|split; [|split; [split; [|done|by rewrite Est]|done]]]].
  - apply word_at_ext. unfold inside. cbn [fst snd]. intros x Hx. unfold m1.
    rewrite !mem_store_out; [done | |]; unfold inside; cbn [fst snd]; rewrite ?length_le_store; lia.
  - by apply word_at_store.
  - rewrite <- (mem_load_store m (word_at m d) chunk) at 2. apply mem_load_ext. unfold inside. cbn [fst snd]. intros x Hx. unfold m1.
    apply mem_store_out. unfold inside; cbn [fst snd]. rewrite length_le_store. lia.
  - specialize (Hwords 12 ltac:(lia)). rewrite Forall_forall in Hown', Hwords |- *. intros e He. rewrite Hwords by done. by apply Hown'.
Qed.

Section deliver.
Context (base ringlen rbsz : Z) (buf : list Z).
Hypothesis Hr : 0 < rbsz.
Hypothesis Hlen : zlen buf <= ENET_FRAME_MAX.

(** The status word of a filled descriptor. *)
Lemma rx_status first last n : 0 <= n <= ENET_FRAME_MAX ->
  let w := (if first : bool then RDES3_FD else 0) .| (if last : bool then RDES3_LD else 0) .| (n .& RDES3_PL_MASK) in
  in_range 32 w /\ flag w RDES3_OWN = false /\ flag w RDES3_FD = first /\ flag w RDES3_LD = last /\ w .& RDES3_PL_MASK = n.
Proof.
  intros Hn. unfold ENET_FRAME_MAX in Hn. change RDES3_PL_MASK with (Z.ones 15). rewrite (Z.land_ones n) by lia. rewrite Z.mod_small by lia.
  assert (Hn15 : in_range 15 n) by (split; lia). assert (Hb : forall i, 15 <= i -> Z.testbit n i = false) by (intros; apply (testbit_range 15); lia).
  assert (Hx : forall v i, 15 <= i -> Z.testbit (v .| n) i = Z.testbit v i) by (intros; by rewrite Z.lor_spec, Hb, orb_false_r by lia).
  cbv zeta. split; [|split; [|split; [|split]]].
  - apply in_range_lor; [lia | by destruct first, last | apply (in_range_mono 15); [lia | done]].
  - unfold RDES3_OWN. rewrite flag_bit, Hx by lia. by destruct first, last.
  - unfold RDES3_FD at 2. rewrite flag_bit, Hx by lia. by destruct first, last.
  - unfold RDES3_LD at 2. rewrite flag_bit, Hx by lia. by destruct first, last.
  - rewrite Z.land_lor_distr_l, (Z.land_ones n), (Z.mod_small n) by lia. by destruct first, last.
Qed.

Local Abbreviation walk := (ring_walk base ringlen).
Local Abbreviation after := (ring_after base ringlen).

(** The rest of a frame is handed over, provided there are descriptors for it;
    it stays there as long as the memory concerned is left alone. *)
Lemma deliver_loop_spec fuel s m off first :
  0 <= off < zlen buf -> let k := pieces rbsz (zlen buf - off) in
  (k <= fuel)%nat -> rx_ready m rbsz (walk k (cur_rx s)) ->
  exists m', enet_deliver_loop fuel base ringlen rbsz buf off first (s, m) = Some (true, (s <| cur_rx := after k (cur_rx s) |>, m')) /\
    (forall x, Forall (fun p => ~ inside x p) (rx_stretches m rbsz (walk k (cur_rx s))) -> m' x = m x) /\
    (forall m2, (forall x, Exists (inside x) (rx_stretches m rbsz (walk k (cur_rx s))) -> m2 x = m' x) ->
      rx_poll base ringlen k m2 (cur_rx s) off first = Some (drop (Z.to_nat off) buf, after k (cur_rx s))).
Proof.
  revert s m off first. induction fuel as [|fuel IH]; intros s m off first Ho k Hk Hrd; unfold k in *; clear k.
  { rewrite pieces_step in Hk by lia. lia. }
  rewrite pieces_step in * by lia. set (chunk := Z.min rbsz (zlen buf - off)) in *. cbn [ring_walk ring_after] in *.
  set (d := cur_rx s) in *. set (d' := enet_next base ringlen d) in *.
  set (last := zlen buf <=? off + chunk). set (data := slice off chunk buf).
  assert (Hdata : zlen data = chunk) by (unfold data, slice; rewrite length_take, length_drop; lia).
  destruct (rx_status first last (off + chunk)) as (Hw & Wown & Wfd & Wld & Wpl); [lia|]. set (w := _ .| _ .| _) in *.
  destruct (rx_fill m rbsz d _ data w Hrd ltac:(lia) Hw) as (Hout & Ed & Ew & Edata & Hrd1 & Est). set (m1 := enet_desc_write_word3 _ d w) in *.
  cbn [enet_deliver_loop]. fold d. assert (Hown : flag ((enet_desc_read m d).[3]) RDES3_OWN = true) by (by destruct Hrd as [[? _]%Forall_cons _ _]).
  rewrite Hown. cbn [negb]. cbv zeta. fold chunk. change ((enet_desc_read m d).[0]) with (word_at m d). fold data last w m1 d'.
  assert (Hpoll : forall k m2, (forall x, inside x (d, 16) \/ inside x (word_at m d, rbsz) -> m2 x = m1 x) ->
    rx_poll base ringlen (S k) m2 d off first =
      if last then Some (data, d') else '(rest, e) ← rx_poll base ringlen k m2 d' (off + chunk) false; Some (data ++ rest, e)).
  { intros k m2 Hm2. cbn [rx_poll]. fold d'.
    rewrite (word_at_ext m1 m2 (d + 12)), (word_at_ext m1 m2 d), Ew, Ed, Wown, Wfd, Wld, Wpl, eqb_reflx
      by (unfold inside in *; cbn [fst snd] in *; intros; apply Hm2; lia).
    replace (off + chunk - off) with (zlen data) by lia. cbn [orb negb].
    rewrite (mem_load_ext m1 m2), Edata by (unfold inside in *; cbn [fst snd] in *; intros; apply Hm2; lia). done. }
  destruct Hrd as [_ _ (Hdp & Hbp & _)]. apply Forall_cons in Hdp as [_ Hdp].
  destruct (Z.le_gt_cases (zlen buf) (off + chunk)) as [Hl|Hl].
  - replace (zlen buf - off - chunk) with 0 by lia. rewrite pieces_0 by done. assert (El : last = true) by (by apply Z.leb_le).
    rewrite (proj2 (Z.ltb_ge _ _)) by lia. exists m1. split; [done|]. cbn [ring_walk rx_stretches flat_map app]. split.
    + intros x. rewrite !Forall_cons. intros (H1 & H2 & _). auto.
    + intros m2 Hm2. rewrite Hpoll, El by (intros x Hx; apply Hm2; destruct Hx; auto). do 2 f_equal.
      apply take_ge. rewrite length_drop. lia.
  - assert (El : last = false) by (apply Z.leb_gt; lia). rewrite (proj2 (Z.ltb_lt _ _)) by lia.
    replace (zlen buf - off - chunk) with (zlen buf - (off + chunk)) in * by lia.
    destruct (IH (s <| cur_rx := d' |>) m1 (off + chunk) false) as (m' & E & Hf & Hp); [lia | lia | done|]. cbn [cur_rx modify] in *. rewrite Est in *.
    exists m'. split; [exact E|]. set (ds := walk _ d') in *. cbn [rx_stretches flat_map app]. split.
    + intros x. rewrite !Forall_cons. intros (H1 & H2 & H3). rewrite Hf by done. auto.
    + intros m2 Hm2. assert (Hin : forall x, inside x (d, 16) \/ inside x (word_at m d, rbsz) -> m' x = m1 x).
      { intros x [Hx|Hx]; apply Hf; [exact (apart_outside x _ _ Hdp Hx) | exact (apart_outside x _ _ Hbp Hx)]. }
      rewrite Hpoll, El by (intros x Hx; rewrite <- Hin by done; apply Hm2; destruct Hx; auto).
      rewrite Hp by (intros x Hx; apply Hm2; auto). cbn [mbind option_bind]. do 2 f_equal. unfold data, slice.
      rewrite Z2Nat.inj_add, <- drop_drop by lia. apply take_drop.
Qed.
End deliver.

(** ** The receive ring *)

Definition rx_on (s : MCXNEnetState) : Prop :=
  enet_rx_enabled s = true /\ enet_rx_base s <> 0 /\ zlen (regs s) = MCXN_ENET_SIZE / 4.

(** What the MAC's configuration makes of a ring. *)
Abbreviation rx_walk s := (ring_walk (enet_rx_base s) (enet_rx_ringlen s)).
Abbreviation rx_after s := (ring_after (enet_rx_base s) (enet_rx_ringlen s)).
Definition rx_need (s : MCXNEnetState) (fs : list (list Z)) : nat := sum_list (map (fun f => pieces (enet_rbsz s) (zlen f)) fs).

Lemma reg_set s off off' v : zlen (regs s) = MCXN_ENET_SIZE / 4 -> 0 <= off < MCXN_ENET_SIZE -> 0 <= off' < MCXN_ENET_SIZE ->
  reg (set_reg s off v) off' = if off' .>> 2 =? off .>> 2 then v else reg s off'.
Proof.
  intros Hl Ho Ho'. unfold reg, set_reg. cbn [regs modify]. unfold MCXN_ENET_SIZE in *. rewrite !Z.shiftr_div_pow2 by lia. change (2 ^ 2) with 4.
  apply arr_get_set; [split; [apply Z.div_pos; lia | rewrite Hl; change (0x2000 / 4) with 0x800; apply Z.div_lt_upper_bound; lia] | apply Z.div_pos; lia].
Qed.

Lemma rbsz_pos s : 0 < enet_rbsz s.
Proof.
  unfold enet_rbsz, ENET_FRAME_MAX. cbv zeta. set (r := _ .& 0x3FFF). destruct (Z.eqb_spec r 0); [done|]. cbn [orb]. destruct (2048 <? r); [done|].
  assert (0 <= r) by (apply Z.land_nonneg; by right). lia.
Qed.

(** The MAC after [k] descriptors took a frame. *)
Definition rx_took (s : MCXNEnetState) (k : nat) : MCXNEnetState :=
  let s := s <| cur_rx := rx_after s k (cur_rx s) |> in
  mcxn_enet_update_irq (set_reg s R_DMA_CH0_STATUS (reg s R_DMA_CH0_STATUS .| (DMA_STAT_RI .| DMA_STAT_NIS))).

Lemma rx_took_same s k : rx_on s ->
  rx_on (rx_took s k) /\ enet_rx_base (rx_took s k) = enet_rx_base s /\ enet_rx_ringlen (rx_took s k) = enet_rx_ringlen s /\
  enet_rbsz (rx_took s k) = enet_rbsz s /\ cur_rx (rx_took s k) = rx_after s k (cur_rx s) /\
  flag (reg (rx_took s k) R_DMA_CH0_STATUS) DMA_STAT_RI = true.
Proof.
  intros (He & Hb & Hl). assert (Hreg : forall off, 0 <= off < MCXN_ENET_SIZE -> (off .>> 2 =? R_DMA_CH0_STATUS .>> 2) = false ->
    reg (rx_took s k) off = reg s off).
  { intros off Ho Hne. change (reg (rx_took s k) off) with (reg (set_reg (s <| cur_rx := rx_after s k (cur_rx s) |>) R_DMA_CH0_STATUS
      (reg s R_DMA_CH0_STATUS .| (DMA_STAT_RI .| DMA_STAT_NIS))) off). by rewrite reg_set, Hne. }
  unfold rx_on, enet_rx_enabled, enet_rx_base, enet_rx_ringlen, enet_rbsz in *. rewrite !Hreg by done. split_and!; try done.
  - cbn. by rewrite length_arr_set.
  - change (reg (rx_took s k) R_DMA_CH0_STATUS) with (reg (set_reg (s <| cur_rx := rx_after s k (cur_rx s) |>) R_DMA_CH0_STATUS
      (reg s R_DMA_CH0_STATUS .| (DMA_STAT_RI .| DMA_STAT_NIS))) R_DMA_CH0_STATUS).
    rewrite reg_set, Z.eqb_refl by done. unfold DMA_STAT_RI, DMA_STAT_NIS. rewrite flag_bit by lia. autorewrite with bits. apply orb_true_r.
Qed.

Lemma deliver_frame s m f : rx_on s -> 1 <= zlen f <= ENET_FRAME_MAX ->
  let k := pieces (enet_rbsz s) (zlen f) in
  rx_ready m (enet_rbsz s) (rx_walk s k (cur_rx s)) ->
  exists m', mcxn_enet_receive (s, m) f = Some (zlen f, (rx_took s k, m')) /\
    (forall x, Forall (fun p => ~ inside x p) (rx_stretches m (enet_rbsz s) (rx_walk s k (cur_rx s))) -> m' x = m x) /\
    (forall m2, (forall x, Exists (inside x) (rx_stretches m (enet_rbsz s) (rx_walk s k (cur_rx s))) -> m2 x = m' x) ->
      rx_poll (enet_rx_base s) (enet_rx_ringlen s) k m2 (cur_rx s) 0 true = Some (f, rx_after s k (cur_rx s))).
Proof.
  intros (He & Hb & Hl) Hf k Hrd. unfold mcxn_enet_receive, mcxn_enet_deliver. cbn [fst]. rewrite He, (proj2 (Z.eqb_neq _ 0) Hb). cbn [negb orb].
  assert (Et : take (Z.to_nat ENET_FRAME_MAX) f = f) by (apply take_ge; lia). rewrite Et.
  assert (Hkl : (k <= S (length f))%nat).
  { unfold k, pieces. pose proof (rbsz_pos s). apply Nat2Z.inj_le. rewrite Z2Nat.id by (apply Z.div_pos; lia).
    apply Z.lt_succ_r, Z.div_lt_upper_bound; nia. }
  destruct (deliver_loop_spec (enet_rx_base s) (enet_rx_ringlen s) (enet_rbsz s) f (rbsz_pos s) ltac:(lia) (S (length f)) s m 0 true)
    as (m' & E & Hfr & Hp); rewrite ?Z.sub_0_r in *; [lia | done | done|].
  exists m'. rewrite E. cbn [mbind option_bind]. split; [done|]. split; [done|]. intros m2 Hm2. by rewrite Hp.
Qed.

Lemma separate_app l1 l2 : separate (l1 ++ l2) <-> separate l1 /\ separate l2 /\ Forall (fun p => Forall (apart p) l2) l1.
Proof.
  induction l1 as [|p l1 IH]; cbn [app separate]; [split; [by intros|by intros (_ & ? & _)]|].
  rewrite Forall_app, Forall_cons, IH. tauto.
Qed.

Lemma rx_stretches_app m rbsz ds1 ds2 : rx_stretches m rbsz (ds1 ++ ds2) = rx_stretches m rbsz ds1 ++ rx_stretches m rbsz ds2.
Proof. apply flat_map_app. Qed.

Lemma apart_both x (l1 l2 : list (Z * Z)) : Forall (fun p => Forall (apart p) l2) l1 ->
  Exists (inside x) l2 -> Forall (fun p => ~ inside x p) l1.
Proof.
  intros Hl (q & Hq & Hx)%Exists_exists. eapply Forall_impl; [exact Hl|]. cbn beta. intros p Hp Hxp.
  rewrite Forall_forall in Hp. specialize (Hp q Hq). unfold apart, inside in *. lia.
Qed.

Lemma apart_both_r x (l1 l2 : list (Z * Z)) : Forall (fun p => Forall (apart p) l2) l1 ->
  Exists (inside x) l1 -> Forall (fun p => ~ inside x p) l2.
Proof.
  intros Hl (q & Hq & Hx)%Exists_exists. rewrite Forall_forall in Hl. by apply (apart_outside x q), Hx; apply Hl.
Qed.

(** The first descriptors of a ready ring take a frame; the others stay ready. *)
Lemma rx_ready_app m rbsz ds1 ds2 : rx_ready m rbsz (ds1 ++ ds2) ->
  rx_ready m rbsz ds1 /\ Forall (fun p => Forall (apart p) (rx_stretches m rbsz ds2)) (rx_stretches m rbsz ds1) /\
  forall m', (forall x, Forall (fun p => ~ inside x p) (rx_stretches m rbsz ds1) -> m' x = m x) ->
    rx_ready m' rbsz ds2 /\ rx_stretches m' rbsz ds2 = rx_stretches m rbsz ds2.
Proof.
  intros [[Ho1 Ho2]%Forall_app [Hl1 Hl2]%Forall_app Hs]. rewrite rx_stretches_app in Hs. apply separate_app in Hs as (Hs1 & Hs2 & Hap).
  split; [by split|]. split; [done|]. intros m' Hm'.
  assert (Hwords : forall o, 0 <= o <= 12 -> Forall (fun e => word_at m' (e + o) = word_at m (e + o)) ds2).
  { intros o Hoo. apply Forall_forall. intros e He. apply word_at_ext. intros x Hx. apply Hm'. eapply apart_both; [exact Hap|].
    apply Exists_exists. exists (e, 16). split; [|unfold inside in *; cbn [fst snd] in *; lia].
    apply list_elem_of_In, in_flat_map. exists e. split; [by apply list_elem_of_In | by left]. }
  assert (Hw0 : Forall (fun e => word_at m' e = word_at m e) ds2).
  { eapply Forall_impl; [apply (Hwords 0); lia|]. intros e. cbn beta. by rewrite Z.add_0_r. }
  pose proof (rx_stretches_ext _ _ rbsz _ Hw0) as Est. split; [|done]. split; [|done|by rewrite Est].
  specialize (Hwords 12 ltac:(lia)). rewrite Forall_forall in Ho2, Hwords |- *. intros e He. rewrite Hwords by done. by apply Ho2.
Qed.

(** Frames arrive one after the other. *)
Fixpoint enet_receive_all (b : board) (fs : list (list Z)) : option board :=
  match fs with
  | [] => Some b
  | f :: fs => '(_, b) ← mcxn_enet_receive b f; enet_receive_all b fs
  end.

(** The driver takes [n] frames out of the ring. *)
Fixpoint rx_polls (base ringlen : Z) (n : nat) (m : Z -> Z) (d : Z) : option (list (list Z) * Z) :=
  match n with
  | O => Some ([], d)
  | S n =>
      '(f, d) ← rx_poll base ringlen (Z.to_nat ENET_FRAME_MAX) m d 0 true;
      '(fs, d) ← rx_polls base ringlen n m d;
      Some (f :: fs, d)
  end.

Lemma rx_poll_more base ringlen k j m d prev first r : rx_poll base ringlen k m d prev first = Some r ->
  rx_poll base ringlen (k + j) m d prev first = Some r.
Proof.
  revert d prev first r. induction k as [|k IH]; intros d prev first r; [done|]. cbn [rx_poll Nat.add].
  destruct (_ || _); [done|]. destruct (flag _ RDES3_LD); [done|].
  destruct (rx_poll base ringlen k m _ _ false) as [[rest e]|] eqn:E; [|done]. by rewrite (IH _ _ _ _ E).
Qed.

Lemma receive_frames fs s m : rx_on s -> Forall (fun f => 1 <= zlen f <= ENET_FRAME_MAX) fs ->
  rx_ready m (enet_rbsz s) (rx_walk s (rx_need s fs) (cur_rx s)) ->
  exists s' m', enet_receive_all (s, m) fs = Some (s', m') /\ cur_rx s' = rx_after s (rx_need s fs) (cur_rx s) /\
    (fs <> [] -> flag (reg s' R_DMA_CH0_STATUS) DMA_STAT_RI = true) /\
    (forall x, Forall (fun p => ~ inside x p) (rx_stretches m (enet_rbsz s) (rx_walk s (rx_need s fs) (cur_rx s))) -> m' x = m x) /\
    (forall m2, (forall x, Exists (inside x) (rx_stretches m (enet_rbsz s) (rx_walk s (rx_need s fs) (cur_rx s))) -> m2 x = m' x) ->
      rx_polls (enet_rx_base s) (enet_rx_ringlen s) (length fs) m2 (cur_rx s) = Some (fs, cur_rx s')).
Proof.
  revert s m. induction fs as [|f fs IH]; intros s m Hon Hfs Hrd; [by exists s, m|]. apply Forall_cons in Hfs as [Hf Hfs].
  change (rx_need s (f :: fs)) with (pieces (enet_rbsz s) (zlen f) + rx_need s fs)%nat in *. set (k := pieces _ _) in *.
  rewrite ring_walk_add in *. destruct (rx_ready_app _ _ _ _ Hrd) as (Hrd1 & Hap & Hrest).
  destruct (deliver_frame s m f Hon Hf Hrd1) as (m1 & E1 & Hm1 & Hp1). destruct (Hrest m1 Hm1) as [Hrd2 Est].
  destruct (rx_took_same s k Hon) as (Hon1 & Eb & Er & Ez & Ec & Hri).
  pose proof (IH (rx_took s k) m1 Hon1 Hfs) as IH1. unfold rx_need in IH1. rewrite Eb, Er, Ez, Ec in IH1. fold (rx_need s fs) in IH1.
  destruct (IH1 Hrd2) as (s2 & m2 & E2 & Ec2 & Hri2 & Hm2 & Hp2). rewrite Est in Hm2, Hp2. rewrite rx_stretches_app, ring_after_add.
  exists s2, m2. cbn [enet_receive_all]. rewrite E1. split; [exact E2|]. split; [done|]. split.
  { intros _. destruct fs; [|by apply Hri2]. by injection E2 as <- _. }
  split.
  { intros x [H1 H2]%Forall_app. by rewrite Hm2, Hm1. }
  intros m3 Hm3. setoid_rewrite Exists_app in Hm3. cbn [rx_polls length].
  assert (Hk : (k <= Z.to_nat ENET_FRAME_MAX)%nat).
  { unfold k, pieces. pose proof (rbsz_pos s). apply Z2Nat.inj_le; [apply Z.div_pos; lia | done|].
    apply Z.lt_succ_r, Z.div_lt_upper_bound; nia. }
  replace (Z.to_nat ENET_FRAME_MAX) with (k + (Z.to_nat ENET_FRAME_MAX - k))%nat by lia.
  rewrite (rx_poll_more _ _ _ _ _ _ _ _ _ (Hp1 m3 ltac:(intros x Hx; rewrite Hm3 by auto; apply Hm2; by eapply apart_both_r))).
  cbn [mbind option_bind]. fold k. rewrite (Hp2 m3) by auto. done.
Qed.

(** ** The transmit ring *)

(** The two buffers of a descriptor, and the bytes they hold. *)
Definition tx_buffers (m : Z -> Z) (d : Z) : list (Z * Z) :=
  [(word_at m d, word_at m (d + 8) .& TDES2_B1L_MASK); (word_at m (d + 4), (word_at m (d + 8) .>> 16) .& TDES2_B1L_MASK)].
Definition tx_bytes (m : Z -> Z) (d : Z) : list Z := flat_map (fun p : Z * Z => mem_load m p.1 p.2) (tx_buffers m d).
Definition tx_frame (m : Z -> Z) (p : list Z) : list Z := flat_map (tx_bytes m) p.
Definition tx_asks (m : Z -> Z) (p : list Z) : bool := existsb (fun d => flag (word_at m (d + 8)) TDES2_IOC) p.

Definition tx_fd (m : Z -> Z) (d : Z) : bool := flag (word_at m (d + 12)) TDES3_FD.
Definition tx_ld (m : Z -> Z) (d : Z) : bool := flag (word_at m (d + 12)) TDES3_LD.

(** The descriptors of one frame: the first marked FD, the last LD, all the
    MAC's. *)
Record tx_packet (m : Z -> Z) (p : list Z) : Prop := {
  tp_fd : map (tx_fd m) p = true :: replicate (pred (length p)) false;
  tp_ld : map (tx_ld m) p = replicate (pred (length p)) false ++ [true];
  tp_own : Forall (fun d => flag (word_at m (d + 12)) TDES3_OWN = true) p;
  tp_fits : zlen (tx_frame m p) <= ENET_FRAME_MAX;
}.

(** Descriptors and buffers that do not overlap (buffers may share memory). *)
Record tx_ready (m : Z -> Z) (ds : list Z) : Prop := {
  tr_low : Forall (fun d => 0 <= d /\ d + 16 <= 2 ^ 32) ds;
  tr_sep : separate (map (fun d => (d, 16)) ds);
  tr_buf : Forall (fun d => Forall (apart (d, 16)) (flat_map (tx_buffers m) ds)) ds;
}.

(** The status words of the descriptors [ds]. *)
Definition status_words (ds : list Z) : list (Z * Z) := map (fun d => (d + 12, 4)) ds.
Definition agree_but (ds : list Z) (m m' : Z -> Z) : Prop := forall x, Forall (fun p => ~ inside x p) (status_words ds) -> m' x = m x.

(** What the descriptors still to come say is not changed by those before. *)
Lemma tx_unchanged m m' ds d ds' : tx_ready m (ds ++ d :: ds') -> agree_but ds m m' ->
  (forall o, 0 <= o <= 12 -> word_at m' (d + o) = word_at m (d + o)) /\ tx_bytes m' d = tx_bytes m d.
Proof.
  intros [_ Hs Hb] Hm. rewrite map_app in Hs. apply separate_app in Hs as (_ & _ & Hs).
  rewrite Forall_app in Hb. destruct Hb as [Hb _].
  assert (Hin : forall p, (forall e, e ∈ ds -> apart (e, 16) p) -> forall x, inside x p -> m' x = m x).
  { intros p Hp x Hx. apply Hm. apply Forall_map, Forall_forall. intros e He Hxe. specialize (Hp e He). unfold apart, inside in *. cbn [fst snd] in *. lia. }
  assert (Hw : forall o, 0 <= o <= 12 -> word_at m' (d + o) = word_at m (d + o)).
  { intros o Ho. apply word_at_ext. intros x Hx. apply (Hin (d, 16)); [|unfold inside in *; cbn [fst snd] in *; lia].
    intros e He. rewrite Forall_map, Forall_forall in Hs. specialize (Hs e He). by apply Forall_cons in Hs as [? _]. }
  split; [done|]. pose proof (Hw 0 ltac:(lia)) as H0. rewrite Z.add_0_r in H0. assert (Eb : tx_buffers m' d = tx_buffers m d) by (unfold tx_buffers; by rewrite H0, !Hw by lia).
  unfold tx_bytes. rewrite Eb, !flat_map_concat_map. f_equal. apply map_ext_in. intros p Hp%list_elem_of_In. apply mem_load_ext, Hin. intros e He.
  rewrite Forall_forall in Hb. specialize (Hb e He). rewrite flat_map_app in Hb. apply Forall_app in Hb as [_ Hb]. cbn [flat_map] in Hb.
  apply Forall_app in Hb as [Hb _]. rewrite Forall_forall in Hb. by destruct p; apply Hb.
Qed.

(** The MAC after a frame was sent, with or without an interrupt asked for. *)
Definition tx_sent (s : MCXNEnetState) (frame : list Z) (ioc : bool) : MCXNEnetState :=
  let s := s <| net := net s ++ [NetSend frame] |> in
  if ioc then set_reg s R_DMA_CH0_STATUS (reg s R_DMA_CH0_STATUS .| (DMA_STAT_TI .| DMA_STAT_NIS)) else s.

(** The descriptors [ds], as [m0] has them, go back to the driver. *)
Definition release (m0 : Z -> Z) (ds : list Z) (m : Z -> Z) : Z -> Z :=
  foldl (fun m d => enet_desc_write_word3 m d (word_at m0 (d + 12) .& u32 (.~ TDES3_OWN))) m ds.

Lemma gather_fits m a len frame : 0 <= len -> zlen frame + len <= ENET_FRAME_MAX -> enet_gather m a len frame = frame ++ mem_load m a len.
Proof.
  intros Hl Hf. unfold enet_gather. destruct (Z.eqb_spec len 0) as [->|]; cbn [negb andb]; [by rewrite app_nil_r|].
  by rewrite (proj2 (Z.leb_le _ _)).
Qed.

Lemma tx_bytes_len m d : zlen (tx_bytes m d) = word_at m (d + 8) .& TDES2_B1L_MASK + (word_at m (d + 8) .>> 16) .& TDES2_B1L_MASK /\
  0 <= word_at m (d + 8) .& TDES2_B1L_MASK /\ 0 <= (word_at m (d + 8) .>> 16) .& TDES2_B1L_MASK.
Proof.
  assert (Hp : forall v, 0 <= v .& TDES2_B1L_MASK) by (intros; apply Z.land_nonneg; by right).
  split; [|split; apply Hp]. unfold tx_bytes. cbn [flat_map tx_buffers fst snd]. rewrite app_nil_r, length_app, Nat2Z.inj_add, !length_mem_load.
  pose proof (Hp (word_at m (d + 8))). pose proof (Hp (word_at m (d + 8) .>> 16)). lia.
Qed.

Lemma agree_releases m0 p : Forall (fun d => 0 <= d /\ d + 16 <= 2 ^ 32) p ->
  forall b prev m, agree_but prev b m -> agree_but (prev ++ p) b (release m0 p m).
Proof.
  induction 1 as [|d p [Hd0 Hd] _ IH]; intros b prev m Hag; [by rewrite app_nil_r|].
  replace (prev ++ d :: p) with ((prev ++ [d]) ++ p) by (by rewrite <- app_assoc). apply (IH b (prev ++ [d]) (release m0 [d] m)).
  intros x Hx. unfold status_words in Hx. rewrite map_app, Forall_app in Hx. destruct Hx as [Hx Hxd].
  rewrite <- (Hag x Hx). cbn [release foldl]. unfold enet_desc_write_word3. rewrite wrap_id by lia. apply mem_store_out.
  rewrite length_le_store. by apply Forall_cons in Hxd as [? _].
Qed.

(** Every descriptor handed back has lost its OWN bit. *)
Lemma release_own m0 ds m d : Forall (fun d => 0 <= d /\ d + 16 <= 2 ^ 32) ds -> separate (map (fun d => (d, 16)) ds) -> d ∈ ds ->
  flag (word_at (release m0 ds m) (d + 12)) TDES3_OWN = false.
Proof.
  intros Hl. revert m. induction Hl as [|e ds [He0 He] Hl IH]; intros m Hs Hd; [by apply not_elem_of_nil in Hd|].
  cbn [map separate] in Hs. destruct Hs as [Hap Hs]. cbn [release foldl]. fold (release m0 ds). apply elem_of_cons in Hd as [->|Hd]; [|by apply IH].
  set (w := word_at m0 (e + 12) .& u32 (.~ TDES3_OWN)). set (m1 := enet_desc_write_word3 m e w).
  assert (Hw : in_range 32 w) by (apply in_range_land_r; [lia | by vm_compute]).
  assert (E : word_at (release m0 ds m1) (e + 12) = w).
  { transitivity (word_at m1 (e + 12)).
    - apply word_at_ext. intros x Hx. apply (agree_releases m0 ds Hl m1 [] m1 (fun _ _ => eq_refl)). apply Forall_map, Forall_forall. intros d Hd.
      rewrite Forall_map, Forall_forall in Hap. specialize (Hap d Hd). unfold apart, inside in *. cbn [fst snd] in *. lia.
    - unfold m1, enet_desc_write_word3. rewrite wrap_id by lia. by apply word_at_store. }
  change (flag (word_at (release m0 ds m1) (e + 12)) TDES3_OWN = false). rewrite E. unfold w, TDES3_OWN. rewrite flag_bit by lia. autorewrite with bits. cbn. apply andb_false_r.
Qed.

Section transmit.
Context (base tail ringlen : Z) (m0 : Z -> Z).

(** One descriptor of the ring, whatever was sent before it. *)
Lemma tx_step g s m prev d rest f i : tx_ready m0 (prev ++ d :: rest) -> agree_but prev m0 m ->
  cur_tx s = d -> d <> tail -> nic s = true -> flag (word_at m0 (d + 12)) TDES3_OWN = true ->
  let f1 := (if tx_fd m0 d then [] else f) ++ tx_bytes m0 d in
  let i1 := (if tx_fd m0 d then false else i) || flag (word_at m0 (d + 8)) TDES2_IOC in
  zlen f1 <= ENET_FRAME_MAX ->
  enet_tx_loop (S g) base tail ringlen false f i (s, m) =
    enet_tx_loop g base tail ringlen false (if tx_ld m0 d then [] else f1) i1
      ((if tx_ld m0 d then tx_sent s f1 i1 else s) <| cur_tx := enet_next base ringlen d |>, release m0 [d] m).
Proof.
  intros Hrd Hag <- Ht Hn Ho f1 i1 Hf1. set (d := cur_tx s) in *. destruct (tx_unchanged _ _ _ _ _ Hrd Hag) as [Hw Hb].
  pose proof (Hw 0 ltac:(lia)) as H0. rewrite Z.add_0_r in H0. destruct (tx_bytes_len m0 d) as (Hl & Hl1 & Hl2).
  cbn [enet_tx_loop]. fold d. rewrite (proj2 (Z.eqb_neq _ _) Ht). unfold enet_desc_read.
  change ([?a; ?b; ?c; ?e].[0]) with a. change ([?a; ?b; ?c; ?e].[1]) with b. change ([?a; ?b; ?c; ?e].[2]) with c. change ([?a; ?b; ?c; ?e].[3]) with e.
  rewrite H0, !Hw, Ho by lia. fold (tx_fd m0 d) (tx_ld m0 d). cbn [negb]. set (f0 := if tx_fd m0 d then [] else f) in *.
  assert (Ef : enet_gather m (word_at m0 (d + 4)) ((word_at m0 (d + 8) .>> 16) .& TDES2_B1L_MASK)
    (enet_gather m (word_at m0 d) (word_at m0 (d + 8) .& TDES2_B1L_MASK) f0) = f1).
  { unfold f1 in *. rewrite length_app in Hf1. rewrite (gather_fits m (word_at m0 d)) by lia.
    rewrite gather_fits by (rewrite ?length_app, ?Nat2Z.inj_add, ?length_mem_load; lia).
    rewrite <- app_assoc. f_equal. rewrite <- Hb. unfold tx_bytes. cbn [flat_map tx_buffers fst snd]. by rewrite H0, !Hw, app_nil_r by lia. }
  rewrite Ef. fold i1. destruct (tx_ld m0 d); [|done]. unfold enet_tx_frame. cbn [fst snd]. rewrite Hn. cbn [mbind option_bind]. by destruct i1.
Qed.

(** The rest of a frame. *)
Lemma tx_packet_loop g q : forall prev rest s m f i b, tx_ready m0 (prev ++ q ++ rest) -> agree_but prev m0 m ->
  ring_walk base ringlen (length q) (cur_tx s) = q -> Forall (fun d => d <> tail) q -> nic s = true ->
  map (tx_fd m0) q = b :: replicate (pred (length q)) false -> map (tx_ld m0) q = replicate (pred (length q)) false ++ [true] ->
  Forall (fun d => flag (word_at m0 (d + 12)) TDES3_OWN = true) q ->
  let f1 := (if b : bool then [] else f) ++ tx_frame m0 q in
  let i1 := (if b then false else i) || tx_asks m0 q in
  zlen f1 <= ENET_FRAME_MAX ->
  enet_tx_loop (length q + g) base tail ringlen false f i (s, m) =
    enet_tx_loop g base tail ringlen false [] i1 ((tx_sent s f1 i1) <| cur_tx := ring_after base ringlen (length q) (cur_tx s) |>, release m0 q m).
Proof.
  induction q as [|d q IH]; intros prev rest s m f i b Hrd Hag Hwalk Ht Hn Hfd Hld Hown f1 i1 Hf; [done|].
  cbn [length pred map ring_walk ring_after Nat.add] in *. injection Hwalk as Ed Hwalk. injection Hfd as Eb Hfd.
  apply Forall_cons in Ht as [Ht Hts], Hown as [Ho Hown]. unfold f1, i1 in *. cbn [tx_frame flat_map tx_asks existsb] in *.
  fold (tx_frame m0 q) (tx_asks m0 q) in *.
  change (release m0 (d :: q) m) with (release m0 q (release m0 [d] m)).
  assert (Hf' : zlen ((if b then [] else f) ++ tx_bytes m0 d) <= ENET_FRAME_MAX) by (rewrite app_assoc, length_app in Hf; lia).
  rewrite <- Eb in *. rewrite (tx_step _ s m prev d (q ++ rest)) by done. rewrite !app_assoc in Hf |- *. rewrite !orb_assoc.
  set (f2 := (if tx_fd m0 d then [] else f) ++ tx_bytes m0 d) in *. set (i2 := (if tx_fd m0 d then false else i) || _) in *.
  destruct q as [|e q].
  { injection Hld as ->. cbn [length Nat.add ring_after tx_frame flat_map tx_asks existsb]. by rewrite app_nil_r, orb_false_r, Ed. }
  cbn [length replicate app pred] in Hld, Hfd. injection Hld as -> Hld.
  rewrite (IH (prev ++ [d]) rest _ _ f2 i2 false); try done.
  - cbn [length] in *. rewrite Ed. by destruct (i2 || tx_asks m0 (e :: q)), s.
  - by rewrite <- !app_assoc.
  - apply agree_releases; [|done]. destruct Hrd as [Hl _ _]. rewrite Forall_app in Hl. destruct Hl as [_ [? _]%Forall_cons]. by constructor.
  - by rewrite <- Ed.
Qed.

(** Frames leave one after the other. *)
Definition tx_sends (s : MCXNEnetState) (ps : list (list Z)) : MCXNEnetState :=
  foldl (fun s p => tx_sent s (tx_frame m0 p) (tx_asks m0 p)) s ps.

Lemma tx_sends_cur ps s c : tx_sends (s <| cur_tx := c |>) ps = (tx_sends s ps) <| cur_tx := c |>.
Proof.
  revert s. induction ps as [|p ps IH]; intros s; [done|]. cbn [tx_sends foldl]. rewrite <- IH. f_equal. unfold tx_sent. by destruct (tx_asks m0 p), s.
Qed.

Lemma tx_packets_loop g ps : forall prev s m f i, tx_ready m0 (prev ++ concat ps) -> agree_but prev m0 m ->
  ring_walk base ringlen (length (concat ps)) (cur_tx s) = concat ps -> Forall (fun d => d <> tail) (concat ps) -> nic s = true ->
  Forall (tx_packet m0) ps ->
  exists f' i', enet_tx_loop (length (concat ps) + g) base tail ringlen false f i (s, m) =
    enet_tx_loop g base tail ringlen false f' i'
      ((tx_sends s ps) <| cur_tx := ring_after base ringlen (length (concat ps)) (cur_tx s) |>, release m0 (concat ps) m).
Proof.
  induction ps as [|p ps IH]; intros prev s m f i Hrd Hag Hw Ht Hn Hps; [exists f, i; by destruct s|].
  cbn [concat] in *. rewrite length_app in *. rewrite ring_walk_add in Hw. rewrite ring_after_add, <- Nat.add_assoc.
  apply app_inj_1 in Hw as [Hw1 Hw2]; [|apply ring_walk_length]. apply Forall_app in Ht as [Ht1 Ht2]. apply Forall_cons in Hps as [[Hfd Hld Ho Hfit] Hps].
  rewrite (tx_packet_loop _ p prev (concat ps) s m f i true) by done. cbn [app orb].
  set (s1 := (tx_sent s _ _) <| cur_tx := _ |>). set (m1 := release m0 p m).
  destruct (IH (prev ++ p) s1 m1 [] (tx_asks m0 p)) as (f' & i' & E).
  - by rewrite <- app_assoc.
  - apply agree_releases; [|done]. destruct Hrd as [Hl _ _]. rewrite !Forall_app in Hl. tauto.
  - done.
  - done.
  - unfold s1, tx_sent. by destruct (tx_asks m0 p).
  - done.
  - exists f', i'. rewrite E. unfold s1. rewrite tx_sends_cur. unfold release. rewrite foldl_app. by destruct (tx_sends _ ps).
Qed.
End transmit.

Lemma tx_sends_effect m0 ps s : zlen (regs s) = MCXN_ENET_SIZE / 4 ->
  let s' := tx_sends m0 s ps in
  net s' = net s ++ map (fun p => NetSend (tx_frame m0 p)) ps /\ zlen (regs s') = MCXN_ENET_SIZE / 4 /\
  flag (reg s' R_DMA_CH0_STATUS) DMA_STAT_TI = flag (reg s R_DMA_CH0_STATUS) DMA_STAT_TI || existsb (tx_asks m0) ps.
Proof.
  revert s. induction ps as [|p ps IH]; intros s Hl; cbv zeta. { by rewrite app_nil_r, orb_false_r. }
  cbn [tx_sends foldl map existsb]. fold (tx_sends m0 (tx_sent s (tx_frame m0 p) (tx_asks m0 p)) ps).
  assert (Hs : let s1 := tx_sent s (tx_frame m0 p) (tx_asks m0 p) in net s1 = net s ++ [NetSend (tx_frame m0 p)] /\ zlen (regs s1) = MCXN_ENET_SIZE / 4 /\
    flag (reg s1 R_DMA_CH0_STATUS) DMA_STAT_TI = flag (reg s R_DMA_CH0_STATUS) DMA_STAT_TI || tx_asks m0 p).
  { unfold tx_sent. destruct (tx_asks m0 p); [|by rewrite orb_false_r]. split; [done|]. split; [cbn; by rewrite length_arr_set|]. cbv zeta.
    rewrite reg_set, Z.eqb_refl by done. unfold DMA_STAT_TI, DMA_STAT_NIS. rewrite !flag_bit by lia. autorewrite with bits. by rewrite !orb_true_r. }
  destruct Hs as (Hs1 & Hs2 & Hs3). destruct (IH _ Hs2) as (H1 & H2 & H3). rewrite H1, Hs1, <- app_assoc. split; [done|]. split; [done|].
  by rewrite H3, Hs3, orb_assoc.
Qed.

(** A transmitter that sends to the backend. *)
Record tx_on (s : MCXNEnetState) : Prop := {
  to_enabled : enet_tx_enabled s = true;
  to_base : enet_tx_base s <> 0;
  to_wire : flag (reg s R_MAC_CONFIGURATION) MAC_CFG_LM = false;
  to_nic : nic s = true;
  to_regs : zlen (regs s) = MCXN_ENET_SIZE / 4;
}.

(** The frames [ps] lie in the ring between the MAC's position and [tail]. *)
Record tx_ring (s : MCXNEnetState) (m : Z -> Z) (tail : Z) (ps : list (list Z)) : Prop := {
  tg_packets : Forall (tx_packet m) ps;
  tg_walk : ring_walk (enet_tx_base s) (enet_tx_ringlen s) (length (concat ps)) (cur_tx s) = concat ps;
  tg_tail : ring_after (enet_tx_base s) (enet_tx_ringlen s) (length (concat ps)) (cur_tx s) = tail;
  tg_before : Forall (fun d => d <> tail) (concat ps);
  tg_room : (length (concat ps) <= ENET_RING_GUARD)%nat;
  tg_apart : tx_ready m (concat ps);
}.

Lemma word_value r v : in_range 32 v -> (r .& u32 (.~ 0xFFFFFFFF)) .| (u32 (v .<< 0) .& 0xFFFFFFFF) = v.
Proof.
  intros Hv. change (u32 (.~ 0xFFFFFFFF)) with 0. rewrite Z.land_0_r, Z.lor_0_l, Z.shiftl_0_r, wrap_in_range by done.
  change 0xFFFFFFFF with (Z.ones 32). rewrite Z.land_ones by lia. by apply Z.mod_small.
Qed.

Lemma write_tail s m v : in_range 32 v ->
  enet_write (s, m) R_DMA_CH0_TXDESC_TAIL v 4 = mcxn_enet_tx_process (set_reg s R_DMA_CH0_TXDESC_TAIL v, m).
Proof.
  intros Hv. unfold enet_write. change ((R_DMA_CH0_TXDESC_TAIL .& 3) * 8) with 0. change (R_DMA_CH0_TXDESC_TAIL .& .~ 3) with R_DMA_CH0_TXDESC_TAIL.
  cbn [Z.eqb Pos.eqb]. rewrite word_value by done. done.
Qed.

(** The doorbell. *)
Lemma transmit_frames s m v ps : tx_on s -> in_range 32 v -> tx_ring s m (v .& u32 (.~ 0x3)) ps ->
  exists s' m', enet_write (s, m) R_DMA_CH0_TXDESC_TAIL v 4 = Some (s', m') /\
    net s' = net s ++ map (fun p => NetSend (tx_frame m p)) ps /\ cur_tx s' = v .& u32 (.~ 0x3) /\
    flag (reg s' R_DMA_CH0_STATUS) DMA_STAT_TI = flag (reg s R_DMA_CH0_STATUS) DMA_STAT_TI || existsb (tx_asks m) ps /\
    agree_but (concat ps) m m' /\ forall d, d ∈ concat ps -> flag (word_at m' (d + 12)) TDES3_OWN = false.
Proof.
  intros [He Hb Hlm Hn Hl] Hv [Hps Hw Ht Hne Hroom Hrd]. set (s1 := set_reg s R_DMA_CH0_TXDESC_TAIL v).
  assert (Hreg : forall off, 0 <= off < MCXN_ENET_SIZE -> (off .>> 2 =? R_DMA_CH0_TXDESC_TAIL .>> 2) = false -> reg s1 off = reg s off).
  { intros off Ho Hoff. unfold s1. by rewrite reg_set, Hoff. }
  assert (Hs1 : enet_tx_enabled s1 = true /\ enet_tx_base s1 = enet_tx_base s /\ enet_tx_ringlen s1 = enet_tx_ringlen s /\
    enet_tx_tail s1 = v .& u32 (.~ 0x3) /\ flag (reg s1 R_MAC_CONFIGURATION) MAC_CFG_LM = false /\ zlen (regs s1) = MCXN_ENET_SIZE / 4).
  { unfold enet_tx_enabled, enet_tx_base, enet_tx_ringlen, enet_tx_tail. rewrite !Hreg by done. split_and!; try done.
    - unfold s1. by rewrite reg_set, Z.eqb_refl.
    - cbn. by rewrite length_arr_set. }
  destruct Hs1 as (He1 & Hb1 & Hr1 & Ht1 & Hlm1 & Hl1). rewrite write_tail by done. fold s1. unfold mcxn_enet_tx_process. cbn [fst].
  rewrite He1, Hb1, Hr1, Ht1, Hlm1, (proj2 (Z.eqb_neq _ 0) Hb). cbn [negb orb].
  replace ENET_RING_GUARD with (length (concat ps) + (ENET_RING_GUARD - length (concat ps)))%nat by lia.
  destruct (tx_packets_loop (enet_tx_base s) (v .& u32 (.~ 0x3)) (enet_tx_ringlen s) m (ENET_RING_GUARD - length (concat ps)) ps [] s1 m [] false)
    as (f' & i' & E); try done. rewrite E. change (cur_tx s1) with (cur_tx s). rewrite Ht.
  destruct (tx_sends_effect m ps s1 Hl1) as (Hnet & Hl2 & Hti). set (s2 := (tx_sends m s1 ps) <| cur_tx := _ |>). set (m2 := release m (concat ps) m).
  assert (Eend : forall g f i, enet_tx_loop g (enet_tx_base s) (v .& u32 (.~ 0x3)) (enet_tx_ringlen s) false f i (s2, m2) = Some (s2, m2)).
  { intros [|g] f i; [done|]. cbn [enet_tx_loop]. unfold s2 at 1. cbn [cur_tx modify]. by rewrite Z.eqb_refl. }
  rewrite Eend. cbn [mbind option_bind]. exists (mcxn_enet_update_irq s2), m2. split; [done|]. split; [exact Hnet|]. split; [done|]. split.
  { change (reg (mcxn_enet_update_irq s2) R_DMA_CH0_STATUS) with (reg (tx_sends m s1 ps) R_DMA_CH0_STATUS). by rewrite Hti, Hreg. }
  split; [by apply (agree_releases m (concat ps) (tr_low _ _ Hrd) m []) | intros d Hd; by apply release_own; destruct Hrd].
Qed.

(** C7: Two boards on a wire exchange frames.  When the driver of one board
    rings the doorbell over a ring of frames (each spread over any number of
    descriptors with up to two buffers), the MAC sends exactly those frames in
    order, hands every descriptor back, changes nothing else in memory and asks
    for the interrupt if a frame does.  When they reach the other board and its
    receive ring has the room, its driver finds exactly those frames in order,
    each cut into buffers of the programmed size, and nothing else in its memory
    has changed. *)
Theorem enet_wire sa ma v ps sb mb :
  tx_on sa -> in_range 32 v -> tx_ring sa ma (v .& u32 (.~ 0x3)) ps ->
  let fs := map (tx_frame ma) ps in
  Forall (fun f => f <> []) fs -> rx_on sb ->
  let ds := rx_walk sb (rx_need sb fs) (cur_rx sb) in
  rx_ready mb (enet_rbsz sb) ds ->
  exists sa' ma' sb' mb', enet_write (sa, ma) R_DMA_CH0_TXDESC_TAIL v 4 = Some (sa', ma') /\
    net sa' = net sa ++ map NetSend fs /\
    flag (reg sa' R_DMA_CH0_STATUS) DMA_STAT_TI = flag (reg sa R_DMA_CH0_STATUS) DMA_STAT_TI || existsb (tx_asks ma) ps /\
    agree_but (concat ps) ma ma' /\ (forall d, d ∈ concat ps -> flag (word_at ma' (d + 12)) TDES3_OWN = false) /\
    enet_receive_all (sb, mb) fs = Some (sb', mb') /\
    rx_polls (enet_rx_base sb) (enet_rx_ringlen sb) (length fs) mb' (cur_rx sb) = Some (fs, cur_rx sb') /\
    (forall x, Forall (fun p => ~ inside x p) (rx_stretches mb (enet_rbsz sb) ds) -> mb' x = mb x).
Proof.
  intros Ha Hv Hr fs Hne Hb ds Hrd. destruct (transmit_frames sa ma v ps Ha Hv Hr) as (sa' & ma' & Ea & Hnet & _ & Hti & Hag & Hown).
  destruct (receive_frames fs sb mb Hb) as (sb' & mb' & Eb & _ & _ & Hfr & Hp).
  { destruct Hr as [Hps _ _ _ _ _]. unfold fs in *. rewrite Forall_map in *. rewrite Forall_forall in *. intros p Hp. destruct (Hps p Hp) as [_ _ _ Hfit].
    specialize (Hne p Hp). cbn beta in *. destruct (tx_frame ma p); [done|]. cbn [length] in *. lia. }
  { done. }
  exists sa', ma', sb', mb'. split; [done|]. split; [by unfold fs; rewrite map_map|]. split_and!; try done. by apply Hp.
Qed.

(** Three descriptors and two frames, around the end of a ring of four; the
    other board receives into buffers of 32 bytes. *)
Definition put_words (m : Z -> Z) (l : list (Z * Z)) : Z -> Z := foldl (fun m (p : Z * Z) => mem_store m p.1 (le_store 4 p.2)) m l.
Definition put_desc (d a b l w : Z) : list (Z * Z) := [(d, a); (d + 4, b); (d + 8, l); (d + 12, w)].
Definition enet_init : MCXNEnetState := mcxn_enet_reset (mkEnet false true 0 0 [] [] []).
Definition set_regs (s : MCXNEnetState) (l : list (Z * Z)) : MCXNEnetState := foldl (fun s (p : Z * Z) => set_reg s p.1 p.2) s l.

Definition sender : MCXNEnetState :=
  (set_regs enet_init [(R_MAC_CONFIGURATION, MAC_CFG_TE); (R_DMA_CH0_TX_CTRL, DMA_TX_ST); (R_DMA_CH0_TXDESC_LIST, 0x1000); (R_DMA_CH0_TXRING_LEN, 3)])
    <| cur_tx := 0x1010 |>.
Definition sender_mem : Z -> Z :=
  put_words (fun a => u8 (7 * a))
    (put_desc 0x1010 0x2000 0x2100 ((50 .<< 16) .| 14) (TDES3_OWN .| TDES3_FD .| TDES3_LD) ++
     put_desc 0x1020 0x2200 0 40 (TDES3_OWN .| TDES3_FD) ++ put_desc 0x1030 0x2300 0 (TDES2_IOC .| 30) (TDES3_OWN .| TDES3_LD)).
Definition sender_frames : list (list Z) := [[0x1010]; [0x1020; 0x1030]].

Definition receiver : MCXNEnetState :=
  (set_regs enet_init [(R_MAC_CONFIGURATION, MAC_CFG_RE); (R_DMA_CH0_RX_CTRL, (32 .<< 1) .| DMA_RX_SR); (R_DMA_CH0_RXDESC_LIST, 0x3000); (R_DMA_CH0_RXRING_LEN, 7)])
    <| cur_rx := 0x3060 |>.
Definition receiver_mem : Z -> Z :=
  put_words (fun _ => 0) (flat_map (fun i => put_desc (0x3000 + 16 * i) (0x4000 + 32 * i) 0 0 RDES3_OWN) (seqZ 0 8)).

(** Decides a statement on each of a list of concrete descriptors. *)
Ltac descriptors :=
  repeat match goal with |- Forall _ (_ :: _) => apply Forall_cons; split end; try apply Forall_nil_2;
  first [apply apartb_ok; vm_compute; reflexivity | vm_compute; repeat split; first [reflexivity | discriminate]].

Lemma sender_ring : tx_ring sender sender_mem (0x1000 .& u32 (.~ 0x3)) sender_frames.
Proof.
  split; [|by vm_compute|by vm_compute|unfold sender_frames; cbn [concat app]; descriptors|apply Nat.leb_le; reflexivity|].
  - apply Forall_cons; split; [|apply Forall_cons; split; [|done]]; (split; [by vm_compute | by vm_compute | descriptors | vm_compute; discriminate]).
  - unfold sender_frames. cbn [concat app]. split; [descriptors | apply separateb_ok; reflexivity | descriptors].
Qed.

Lemma receiver_ready : rx_ready receiver_mem 32 (rx_walk receiver 5 (cur_rx receiver)).
Proof.
  change (rx_walk receiver 5 (cur_rx receiver)) with [0x3060; 0x3070; 0x3000; 0x3010; 0x3020]. split; [descriptors | descriptors | apply separateb_ok; vm_compute; reflexivity].
Qed.

Lemma enet_wire_witness :
  exists sa' ma' sb' mb', enet_write (sender, sender_mem) R_DMA_CH0_TXDESC_TAIL 0x1000 4 = Some (sa', ma') /\
    net sa' = map (fun p => NetSend (tx_frame sender_mem p)) sender_frames /\
    flag (reg sa' R_DMA_CH0_STATUS) DMA_STAT_TI = true /\
    enet_receive_all (receiver, receiver_mem) (map (tx_frame sender_mem) sender_frames) = Some (sb', mb') /\
    rx_polls 0x3000 8 2 mb' 0x3060 = Some (map (tx_frame sender_mem) sender_frames, cur_rx sb').
Proof.
  destruct (enet_wire sender sender_mem 0x1000 sender_frames receiver receiver_mem) as (sa' & ma' & sb' & mb' & H1 & H2 & H3 & _ & _ & H4 & H5 & _).
  - split; vm_compute; congruence || reflexivity.
  - vm_compute. split; congruence.
  - apply sender_ring.
  - vm_compute. repeat constructor; discriminate.
  - split; [reflexivity|]. split; [vm_compute; congruence | vm_compute; reflexivity].
  - apply receiver_ready.
  - exists sa', ma', sb', mb'. split; [exact H1|]. split; [rewrite H2; reflexivity|]. split; [rewrite H3; vm_compute; reflexivity|]. split; [exact H4 | exact H5].
Defined.

(** ** Every operation returns, and the line tells the truth *)

Definition enet_level (s : MCXNEnetState) : bool :=
  flag (reg s R_MAC_INTERRUPT_STATUS .& reg s R_MAC_INTERRUPT_ENABLE) MAC_IS_PHYIS ||
  flag (reg s R_DMA_CH0_STATUS .& reg s R_DMA_CH0_INT_EN) (DMA_STAT_TI .| DMA_STAT_RI).

Record enet_ok (s : MCXNEnetState) : Prop := {
  ek_regs : zlen (regs s) = MCXN_ENET_SIZE / 4;
  ek_irq : irq s = enet_level s;
}.

Lemma enet_ok_update s : zlen (regs s) = MCXN_ENET_SIZE / 4 -> enet_ok (mcxn_enet_update_irq s).
Proof. by split. Qed.
Lemma set_reg_len s off v : zlen (regs s) = MCXN_ENET_SIZE / 4 -> zlen (regs (set_reg s off v)) = MCXN_ENET_SIZE / 4.
Proof. intros <-. cbn. by rewrite length_arr_set. Qed.
Create HintDb enet.
#[local] Hint Resolve enet_ok_update set_reg_len ek_regs : enet.

(** A register that the line does not depend on. *)
Lemma enet_ok_set s r v : enet_ok s -> 0 <= r < MCXN_ENET_SIZE -> r .& 3 = 0 ->
  r ∉ [R_MAC_INTERRUPT_STATUS; R_MAC_INTERRUPT_ENABLE; R_DMA_CH0_STATUS; R_DMA_CH0_INT_EN] -> enet_ok (set_reg s r v).
Proof.
  intros [Hl Hi] Hr H3 Hne. split; [by apply set_reg_len|]. change (irq (set_reg s r v)) with (irq s). rewrite Hi. unfold enet_level.
  assert (Hreg : forall w, w ∈ [R_MAC_INTERRUPT_STATUS; R_MAC_INTERRUPT_ENABLE; R_DMA_CH0_STATUS; R_DMA_CH0_INT_EN] ->
    reg (set_reg s r v) w = reg s w).
  { intros w Hw. assert (Hwr : 0 <= w < MCXN_ENET_SIZE /\ w mod 4 = 0) by (repeat (apply elem_of_cons in Hw as [->|Hw]; [done|]); by apply not_elem_of_nil in Hw).
    change 3 with (Z.ones 2) in H3. rewrite Z.land_ones in H3 by lia. change (2 ^ 2) with 4 in H3.
    rewrite reg_set by tauto. destruct (Z.eqb_spec (w .>> 2) (r .>> 2)) as [E|]; [|done]. exfalso. apply Hne.
    rewrite !Z.shiftr_div_pow2 in E by lia. change (2 ^ 2) with 4 in E. replace r with w; [done|].
    pose proof (Z.div_mod w 4 ltac:(lia)). pose proof (Z.div_mod r 4 ltac:(lia)). lia. }
  by rewrite !Hreg by (apply list_elem_of_In; cbn; auto).
Qed.

Lemma enet_ok_tx s a : enet_ok s -> enet_ok (s <| cur_tx := a |>).
Proof. intros [H1 H2]. by split. Qed.
Lemma enet_ok_rx s a : enet_ok s -> enet_ok (s <| cur_rx := a |>).
Proof. intros [H1 H2]. by split. Qed.

(** The line stays right if it was. *)
Definition enet_keeps (s s' : MCXNEnetState) : Prop := zlen (regs s') = MCXN_ENET_SIZE / 4 /\ (enet_ok s -> enet_ok s').
Lemma keeps_update s s' : zlen (regs s') = MCXN_ENET_SIZE / 4 -> enet_keeps s (mcxn_enet_update_irq s').
Proof. by split; [|split]. Qed.
#[local] Hint Resolve keeps_update : enet.

(** Delivery ends, whatever is in memory. *)
Lemma deliver_loop_total fuel base ringlen rbsz buf : 0 < rbsz ->
  forall off first s m, Z.max 0 (zlen buf - off) < Z.of_nat fuel -> zlen (regs s) = MCXN_ENET_SIZE / 4 ->
  exists r s' m', enet_deliver_loop fuel base ringlen rbsz buf off first (s, m) = Some (r, (s', m')) /\ enet_keeps s s'.
Proof.
  intros Hr. induction fuel as [|fuel IH]; intros off first s m Hf Hl; [lia|]. cbn [enet_deliver_loop].
  destruct (negb _); [eauto 8 with enet|]. cbv zeta. set (m1 := enet_desc_write_word3 _ _ _). set (s1 := s <| cur_rx := _ |>).
  assert (Hs1 : enet_keeps s s1) by (split; [done | apply enet_ok_rx]).
  destruct (Z.ltb_spec (off + Z.min rbsz (zlen buf - off)) (zlen buf)); [|by eauto].
  destruct (IH (off + Z.min rbsz (zlen buf - off)) false s1 m1) as (r & s' & m' & E & Hk); [lia | done|].
  exists r, s', m'. split; [done|]. destruct Hk, Hs1. by split; auto.
Qed.

Lemma deliver_total s m buf : zlen (regs s) = MCXN_ENET_SIZE / 4 ->
  exists r s' m', mcxn_enet_deliver (s, m) buf = Some (r, (s', m')) /\ enet_keeps s s'.
Proof.
  intros Hl. unfold mcxn_enet_deliver. cbn [fst]. destruct (_ || _); [by exists false, s, m|]. set (f := take _ buf).
  destruct (deliver_loop_total (S (length f)) (enet_rx_base s) (enet_rx_ringlen s) (enet_rbsz s) f (rbsz_pos s) 0 true s m) as (r & s' & m' & E & Hk);
    [lia | done|]. rewrite E. cbn [mbind option_bind]. destruct r; [|by eauto]. destruct Hk. eauto 8 with enet.
Qed.

Lemma tx_frame_total lb ioc f s m : zlen (regs s) = MCXN_ENET_SIZE / 4 ->
  exists s' m', enet_tx_frame lb ioc f (s, m) = Some (s', m') /\ zlen (regs s') = MCXN_ENET_SIZE / 4.
Proof.
  intros Hl. unfold enet_tx_frame. destruct lb.
  - destruct (deliver_total s m f Hl) as (r & s' & m' & E & Hk & _). rewrite E. cbn [mbind option_bind]. destruct ioc; eauto with enet.
  - cbn [fst snd mbind option_bind]. destruct (nic s), ioc; eauto with enet.
Qed.

Lemma tx_loop_total g base tail ringlen lb : forall f i s m, zlen (regs s) = MCXN_ENET_SIZE / 4 ->
  exists s' m', enet_tx_loop g base tail ringlen lb f i (s, m) = Some (s', m') /\ zlen (regs s') = MCXN_ENET_SIZE / 4.
Proof.
  induction g as [|g IH]; intros f i s m Hl; [by eauto|]. cbn [enet_tx_loop]. destruct (_ =? _); [by eauto|]. destruct (negb _); [by eauto|]. cbv zeta.
  set (m1 := enet_desc_write_word3 _ _ _). destruct (flag (_.[3]) TDES3_LD); [|by apply IH].
  edestruct tx_frame_total as (s1 & m2 & E & Hl1); [exact Hl|]. rewrite E. cbn [mbind option_bind]. by apply IH.
Qed.

Lemma tx_process_total s m : zlen (regs s) = MCXN_ENET_SIZE / 4 -> exists s' m', mcxn_enet_tx_process (s, m) = Some (s', m') /\ enet_keeps s s'.
Proof.
  intros Hl. unfold mcxn_enet_tx_process. cbn [fst]. destruct (_ || _); [by exists s, m|].
  edestruct tx_loop_total as (s1 & m1 & E & Hl1); [exact Hl|]. rewrite E. cbn [mbind option_bind]. eauto with enet.
Qed.

Lemma enet_write_ok s m off v n : enet_ok s -> 0 <= off -> exists s' m', enet_write (s, m) off v n = Some (s', m') /\ enet_ok s'.
Proof.
  intros Hok Ho. unfold enet_write. destruct (Z.leb_spec MCXN_ENET_SIZE off) as [|Hs]; [by eauto|]. destruct (enet_reg_ro _); [by eauto|].
  assert (Hr : 0 <= off .& .~ 3 < MCXN_ENET_SIZE /\ (off .& .~ 3) .& 3 = 0).
  { rewrite <- Z.ldiff_land. assert (Hd : Z.ldiff off 3 = 4 * (off / 4)).
    { change 3 with (Z.ones 2). rewrite Z.ldiff_ones_r, Z.shiftl_mul_pow2, Z.shiftr_div_pow2 by lia. change (2 ^ 2) with 4. lia. }
    pose proof (Z.div_pos off 4 ltac:(lia) ltac:(lia)). pose proof (Z.mul_div_le off 4 ltac:(lia)). split; [lia | apply Z.land_ldiff]. }
  set (r := off .& .~ 3) in *. destruct Hr as [Hr H3]. set (val := (reg s r .& _) .| _). clearbody val.
  assert (Hother : forall v, r ∉ [R_MAC_INTERRUPT_STATUS; R_MAC_INTERRUPT_ENABLE; R_DMA_CH0_STATUS; R_DMA_CH0_INT_EN] -> enet_ok (set_reg s r v)).
  { intros. by apply enet_ok_set. }
  assert (Hconst : forall x, r = x -> bool_decide (x ∉ [R_MAC_INTERRUPT_STATUS; R_MAC_INTERRUPT_ENABLE; R_DMA_CH0_STATUS; R_DMA_CH0_INT_EN]) = true ->
    forall v, enet_ok (set_reg s r v)).
  { intros x -> Hx v'. by apply Hother, (bool_decide_eq_true_1 _). }
  destruct (Z.eqb_spec r R_DMA_MODE) as [E|]; [specialize (Hconst _ E eq_refl); by eauto|].
  destruct (Z.eqb_spec r R_MTL_TXQ0_OP_MODE) as [E|]; [specialize (Hconst _ E eq_refl); by eauto|].
  destruct (Z.eqb_spec r R_MAC_MDIO_ADDRESS) as [E|].
  { destruct (flag val MDIO_GB); [|specialize (Hconst _ E eq_refl); by eauto]. do 2 eexists. split; [done|]. apply enet_ok_set; [|done..|].
    - apply enet_ok_update, set_reg_len. repeat case_match; by try apply set_reg_len; apply Hok.
    - rewrite E. by apply (bool_decide_eq_true_1 _). }
  destruct (Z.eqb_spec r R_MAC_INTERRUPT_STATUS); [by eauto 10 with enet|]. destruct (Z.eqb_spec r R_MAC_INTERRUPT_ENABLE); [by eauto 10 with enet|].
  destruct (Z.eqb_spec r R_DMA_CH0_TXDESC_LIST) as [E|]; [do 2 eexists; split; [done | apply enet_ok_tx; by apply (Hconst _ E)]|].
  destruct (Z.eqb_spec r R_DMA_CH0_RXDESC_LIST) as [E|]; [do 2 eexists; split; [done | apply enet_ok_rx; by apply (Hconst _ E)]|].
  assert (Hflush : forall s', enet_ok s' -> enet_ok (enet_flush s')) by (intros s' []; unfold enet_flush; by destruct (nic s')).
  destruct (Z.eqb_spec r R_DMA_CH0_RXDESC_TAIL) as [E|]; [specialize (Hconst _ E eq_refl); by eauto|].
  destruct (Z.eqb_spec r R_DMA_CH0_TXDESC_TAIL) as [E|].
  { destruct (tx_process_total (set_reg s r val) m) as (s' & m' & Ew & _ & Hk); [by apply set_reg_len, Hok|].
    specialize (Hconst _ E eq_refl). eauto. }
  destruct (Z.eqb_spec r R_DMA_CH0_STATUS); [by eauto 10 with enet|]. destruct (Z.eqb_spec r R_DMA_CH0_INT_EN); [by eauto 10 with enet|].
  assert (Hrest : enet_ok (set_reg s r val)) by (apply Hother; rewrite !not_elem_of_cons; by repeat split; [..|apply not_elem_of_nil]).
  destruct (_ || _); [|by eauto]. destruct (enet_rx_enabled _); eauto.
Qed.

(** What can happen to the MAC and its memory. *)
Inductive enet_step : board -> board -> Prop :=
  | enet_step_write b off v n b' : 0 <= off -> enet_write b off v n = Some b' -> enet_step b b'
  | enet_step_receive b f z b' : mcxn_enet_receive b f = Some (z, b') -> enet_step b b'
  | enet_step_reset s m : enet_step (s, m) (mcxn_enet_reset s, m)
  | enet_step_load s m : enet_step (s, m) (mcxn_enet_post_load s, m)
  | enet_step_guest s m m' : enet_step (s, m) (s, m').

Lemma enet_reset_ok s : enet_ok (mcxn_enet_reset s).
Proof. split; vm_compute; reflexivity. Qed.

(** C36: From reset, under any sequence of register writes, received frames,
    post-loads and changes of memory by the guest, every operation returns,
    whatever the rings in memory look like, and the interrupt line is high exactly
    when an enabled PHY, transmit or receive event is pending. *)
Theorem enet_reachable s0 m0 s m : rtc enet_step (mcxn_enet_reset s0, m0) (s, m) ->
  irq s = enet_level s /\ (forall off v n, 0 <= off -> is_Some (enet_write (s, m) off v n)) /\ forall f, is_Some (mcxn_enet_receive (s, m) f).
Proof.
  intros Hr. assert (Hok : enet_ok s).
  { apply (rtc_invariant enet_step (fun b => enet_ok b.1) _ _) in Hr; [done | | apply enet_reset_ok].
    intros a b Hst Hok. destruct Hst as [[s1 m1] off v n b' Ho E|[s1 m1] f z b' E|s1 m1|s1 m1|]; cbn [fst] in *; [| | | |done].
    - destruct (enet_write_ok s1 m1 off v n Hok Ho) as (s' & m' & E' & Hok'). rewrite E in E'. by injection E' as ->.
    - unfold mcxn_enet_receive in E. destruct (deliver_total s1 m1 f (ek_regs _ Hok)) as (r & s' & m' & E' & _ & Hk). rewrite E' in E. injection E as _ <-. auto.
    - apply enet_reset_ok.
    - apply enet_ok_update, Hok. }
  split; [apply Hok|]. split.
  - intros off v n Ho. destruct (enet_write_ok s m off v n Hok Ho) as (s' & m' & -> & _). eauto.
  - intros f. unfold mcxn_enet_receive. destruct (deliver_total s m f (ek_regs _ Hok)) as (r & s' & m' & -> & _). cbn. eauto.
Qed.

Lemma enet_reachable_witness :
  exists b, enet_write (enet_init, fun _ => 0) R_MAC_INTERRUPT_ENABLE MAC_IS_PHYIS 4 = Some b /\ irq b.1 = enet_level b.1.
Proof.
  eexists. split; [reflexivity|].
  apply (enet_reachable (mkEnet false true 0 0 [] [] []) (fun _ => 0) _ _
    (rtc_once _ _ (enet_step_write (enet_init, fun _ => 0) R_MAC_INTERRUPT_ENABLE MAC_IS_PHYIS 4 _ ltac:(by compute) eq_refl))).
Defined.

(** ** Departures from the code's intent *)

(** The flags of DMA_CH0_STATUS are cleared by writing ones, but the value of a
    byte write is merged with the register first: writing zero to one byte clears
    the flags of all the others. *)
Theorem enet_status_byte_write :
  let s := set_reg enet_init R_DMA_CH0_STATUS (DMA_STAT_TI .| DMA_STAT_NIS) in
  exists b, enet_write (s, fun _ => 0) (R_DMA_CH0_STATUS + 3) 0 1 = Some b /\ reg b.1 R_DMA_CH0_STATUS = 0.
Proof. eexists. split; reflexivity. Qed.

(** The software reset through DMA_MODE, which the file comment says resets the
    register file, only clears its own bit. *)
Theorem enet_swr_resets_nothing :
  exists b, enet_write (sender, fun _ => 0) R_DMA_MODE DMA_MODE_SWR 4 = Some b /\
    (b.1 : MCXNEnetState) = set_reg sender R_DMA_MODE 0 /\ reg b.1 R_DMA_CH0_TXDESC_LIST = 0x1000.
Proof. eexists. split; [reflexivity|]. split; reflexivity. Qed.

(** The frame being assembled is forgotten between doorbells: of a frame whose
    descriptors are published by two of them, only the second part is sent. *)
Theorem enet_split_doorbell :
  (b ← enet_write (sender, sender_mem) R_DMA_CH0_TXDESC_TAIL 0x1030 4; b ← enet_write b R_DMA_CH0_TXDESC_TAIL 0x1000 4; Some (net b.1)) =
    Some (map (fun p => NetSend (tx_frame sender_mem p)) [[0x1010]; [0x1030]]).
Proof. vm_compute. reflexivity. Qed.

(** A frame that finds too few buffers is dropped, but the descriptors it used
    are handed to the driver with its first part, and no end. *)
Theorem enet_short_ring_fragment :
  let m := put_words receiver_mem [(0x307C, 0)] in
  ('(ok, (s, m)) ← mcxn_enet_deliver (receiver, m) (replicate 40 1); Some (ok, word_at m 0x306C, flag (reg s R_DMA_CH0_STATUS) DMA_STAT_RBU)) =
    Some (false, RDES3_FD .| 32, true).
Proof. vm_compute. reflexivity. Qed.

(** A doorbell looks at 256 descriptors of a ring that may have 1024: what lies
    beyond waits for another one. *)
Theorem enet_long_ring_stalls :
  let m := fun a => if a mod 16 =? 1 then 0x80 else if a mod 16 =? 8 then 1 else if a mod 16 =? 15 then 0xB0 else 0 in
  let s := (set_reg sender R_DMA_CH0_TXRING_LEN 511) <| cur_tx := 0x1000 |> in
  (b ← enet_write (s, m) R_DMA_CH0_TXDESC_TAIL (0x1000 + 16 * 300) 4; Some (length (net b.1), cur_tx b.1)) = Some (256%nat, 0x1000 + 16 * 256).
Proof. vm_compute. reflexivity. Qed.
