(* ===== verification/I2c.v ===== *)
(** * I2C: the bus between a controller and its devices

    Model of the transfer functions of [hw/i2c/core.c], which the LPI2C function
    of the FlexComm drives.  The devices on a bus are values of a type [D] with
    the methods of [struct I2CSlaveClass]; several kinds of device on one bus are
    a sum type.  A node of [current_devs] is the index of a child. *)
From S2P Require Import Prelude.

Inductive i2c_event := I2C_START_RECV | I2C_START_SEND | I2C_START_SEND_ASYNC | I2C_FINISH | I2C_NACK.
Definition I2C_BROADCAST : Z := 0x00.

(** A method that a device does not have is [None]; a method returns the new
    state of the device and its result. *)
Class I2CSlaveClass (D : Type) := {
  sc_event : D -> option (i2c_event -> D * Z);
  sc_send : D -> option (Z -> D * Z);
  sc_recv : D -> option (D * Z);
}.

Record I2CSlave {D : Type} := mkSlave { address : Z; dev : D }.
Arguments I2CSlave D : clear implicits.
#[export] Instance slave_settable D : Settable (I2CSlave D) := fun s => mkSlave _ (address s) (dev s).

Record I2CBus {D : Type} := mkBus {
  children : list (I2CSlave D);
  current_devs : list nat;
  broadcast : bool
}.
Arguments I2CBus D : clear implicits.
#[export] Instance bus_settable D : Settable (I2CBus D) := fun b =>
  mkBus _ (children b) (current_devs b) (broadcast b).

Section bus.
Context {D : Type} `{I2CSlaveClass D}.
Implicit Types b : I2CBus D.

Definition upd_dev b (k : nat) (d : D) : I2CBus D :=
  b <| children := alter (fun s => s <| dev := d |>) k (children b) |>.

Definition i2c_slave_match (candidate : I2CSlave D) (addr : Z) (bcast : bool) : bool :=
  (address candidate =? addr) || bcast.

(** The children from index [k] on; [devs] are the nodes found so far. *)
Fixpoint i2c_scan_children (cs : list (I2CSlave D)) (k : nat) (addr : Z) (bcast : bool) (devs : list nat) : list nat :=
  match cs with
  | [] => devs
  | c :: cs =>
      if i2c_slave_match c addr bcast then
        if bcast then i2c_scan_children cs (S k) addr bcast (k :: devs) else k :: devs
      else i2c_scan_children cs (S k) addr bcast devs
  end.
Definition i2c_scan_bus b (addr : Z) (bcast : bool) : I2CBus D :=
  b <| current_devs := i2c_scan_children (children b) 0 addr bcast (current_devs b) |>.

(** The event sent to one device, when it takes events. *)
Definition i2c_event_to b (k : nat) (ev : i2c_event) : option (I2CBus D * Z) :=
  match children b !! k with
  | Some s => match sc_event (dev s) with
              | Some f => let '(d, rv) := f ev in Some (upd_dev b k d, rv)
              | None => None
              end
  | None => None
  end.

Definition i2c_end_transfer b : I2CBus D :=
  let b := foldl (fun b k => match i2c_event_to b k I2C_FINISH with Some (b, _) => b | None => b end) b (current_devs b) in
  b <| current_devs := [] |> <| broadcast := false |>.

(** The loop of [i2c_do_start_transfer] over the nodes. *)
Fixpoint i2c_start_events b (ev : i2c_event) (bus_scanned : bool) (nodes : list nat) : I2CBus D * Z :=
  match nodes with
  | [] => (b, 0)
  | k :: nodes =>
      match i2c_event_to b k ev with
      | Some (b, rv) =>
          if negb (rv =? 0) && negb (broadcast b) then (if bus_scanned then i2c_end_transfer b else b, rv)
          else i2c_start_events b ev bus_scanned nodes
      | None => i2c_start_events b ev bus_scanned nodes
      end
  end.

Definition i2c_do_start_transfer b (addr : Z) (ev : i2c_event) : I2CBus D * Z :=
  let b := if addr =? I2C_BROADCAST then b <| broadcast := true |> else b in
  let '(b, bus_scanned) :=
    match current_devs b with
    | [] => (i2c_scan_bus b addr (broadcast b), true)
    | _ => (b, false)
    end in
  match current_devs b with
  | [] => (b, 1)
  | nodes => i2c_start_events b ev bus_scanned nodes
  end.
Definition i2c_start_transfer b (addr : Z) (is_recv : bool) : I2CBus D * Z :=
  i2c_do_start_transfer b addr (if is_recv then I2C_START_RECV else I2C_START_SEND).

(** [ret || send()] does not call the device once one has refused. *)
Definition i2c_send_to (data : Z) (br : I2CBus D * bool) (k : nat) : I2CBus D * bool :=
  let '(b, ret) := br in
  match children b !! k with
  | Some s => match sc_send (dev s) with
              | Some f => if ret then (b, true) else let '(d, rv) := f data in (upd_dev b k d, negb (rv =? 0))
              | None => (b, true)
              end
  | None => (b, ret)
  end.
Definition i2c_send b (data : Z) : I2CBus D * Z :=
  let '(b, ret) := foldl (i2c_send_to data) (b, false) (current_devs b) in
  (b, if ret then -1 else 0).

Definition i2c_recv b : I2CBus D * Z :=
  match current_devs b with
  | k :: _ =>
      if broadcast b then (b, 0xFF)
      else match children b !! k with
           | Some s => match sc_recv (dev s) with
                       | Some (d, v) => (upd_dev b k d, v)
                       | None => (b, 0xFF)
                       end
           | None => (b, 0xFF)
           end
  | [] => (b, 0xFF)
  end.
End bus.

(** ** A transfer with one device *)

Section talk.
Context {D : Type} `{I2CSlaveClass D}.
Implicit Types b : I2CBus D.

(** The bus is free, and child [k] is the one that answers to [addr]. *)
Record answers b (addr : Z) (k : nat) (d : D) : Prop := {
  an_free : current_devs b = [] /\ broadcast b = false;
  an_addr : addr <> I2C_BROADCAST;
  an_child : children b !! k = Some (mkSlave D addr d);
  an_first : forall j s, (j < k)%nat -> children b !! j = Some s -> address s <> addr;
}.

(** The bus [b] with child [k] in the middle of a transfer, its state being [d]. *)
Definition talking b (k : nat) (d : D) : I2CBus D := (upd_dev b k d) <| current_devs := [k] |>.

Lemma scan_first (cs : list (I2CSlave D)) i k addr d :
  cs !! k = Some (mkSlave D addr d) -> (forall j s, (j < k)%nat -> cs !! j = Some s -> address s <> addr) ->
  i2c_scan_children cs i addr false [] = [(i + k)%nat].
Proof.
  revert i k. induction cs as [|c cs IH]; intros i k Hk Hf; [done|]. cbn [i2c_scan_children]. unfold i2c_slave_match.
  rewrite orb_false_r. destruct k as [|k].
  - injection Hk as ->. cbn [address]. rewrite Z.eqb_refl. by rewrite Nat.add_0_r.
  - rewrite (proj2 (Z.eqb_neq _ _)) by (apply (Hf 0%nat c); [lia | done]).
    rewrite (IH (S i) k) by (done || (intros j s Hj; apply (Hf (S j)); lia)). by rewrite Nat.add_succ_r.
Qed.

Lemma upd_dev_child b k d0 addr d : children b !! k = Some (mkSlave D addr d0) ->
  children (upd_dev b k d) !! k = Some (mkSlave D addr d).
Proof. intros E. unfold upd_dev. cbn. by rewrite list_lookup_alter_eq, E. Qed.

Lemma upd_dev_twice b k d1 d2 : upd_dev (upd_dev b k d1) k d2 = upd_dev b k d2.
Proof.
  unfold upd_dev, modify. destruct b as [cs cur bc]. cbn. f_equal. rewrite list_alter_alter_eq. by apply list_alter_ext.
Qed.

Lemma upd_dev_same b k addr d : children b !! k = Some (mkSlave D addr d) -> upd_dev b k d = b.
Proof.
  intros E. unfold upd_dev, modify. destruct b as [cs cur bc]. cbn in *. f_equal.
  rewrite (list_alter_ext _ id cs cs k); [by apply list_alter_id | | done]. intros s Hs. rewrite E in Hs. by injection Hs as <-.
Qed.

Context (b : I2CBus D) (addr : Z) (k : nat) (d0 : D) (Han : answers b addr k d0).

Lemma talking_child d : children (talking b k d) !! k = Some (mkSlave D addr d).
Proof. apply (upd_dev_child b k d0), Han. Qed.

Lemma talking_event d ev f d' rv : sc_event d = Some f -> f ev = (d', rv) ->
  i2c_event_to (talking b k d) k ev = Some (talking b k d', rv).
Proof.
  intros Hf E. unfold i2c_event_to. rewrite talking_child. cbn [dev]. rewrite Hf, E. do 2 f_equal. unfold talking.
  transitivity ((upd_dev (upd_dev b k d) k d') <| current_devs := [k] |>); [done|]. by rewrite upd_dev_twice.
Qed.

(** A START to the free bus reaches the device. *)
Lemma start_free ev f d' : sc_event d0 = Some f -> f ev = (d', 0) ->
  i2c_do_start_transfer b addr ev = (talking b k d', 0).
Proof.
  intros Hf E. pose proof (talking_event d0 ev f d' 0 Hf E) as Ht. destruct Han as [[Hc Hb] Ha Hk Hfirst].
  unfold i2c_do_start_transfer. rewrite (proj2 (Z.eqb_neq _ _) Ha), Hc. unfold i2c_scan_bus.
  rewrite Hc, Hb, (scan_first _ 0 k addr d0) by done. cbn [current_devs modify Nat.add i2c_start_events].
  assert (Eb : modify current_devs (fun _ => [k]) b = talking b k d0) by (unfold talking; by rewrite (upd_dev_same b k addr)).
  by rewrite Eb, Ht.
Qed.

(** A repeated START stays with the device, whatever its address. *)
Lemma start_again a ev d f d' : a <> I2C_BROADCAST -> sc_event d = Some f -> f ev = (d', 0) ->
  i2c_do_start_transfer (talking b k d) a ev = (talking b k d', 0).
Proof.
  intros Ha Hf E. unfold i2c_do_start_transfer. rewrite (proj2 (Z.eqb_neq _ _) Ha).
  change (current_devs (talking b k d)) with [k]. cbn [current_devs]. change (current_devs (talking b k d)) with [k].
  cbn [i2c_start_events]. by rewrite (talking_event d ev f d' 0 Hf E).
Qed.

Lemma talking_send d data f d' : sc_send d = Some f -> f data = (d', 0) -> i2c_send (talking b k d) data = (talking b k d', 0).
Proof.
  intros Hf E. unfold i2c_send. change (current_devs (talking b k d)) with [k]. cbn [foldl i2c_send_to].
  rewrite talking_child. cbn [dev]. rewrite Hf, E. f_equal. unfold talking.
  transitivity ((upd_dev (upd_dev b k d) k d') <| current_devs := [k] |>); [done|]. by rewrite upd_dev_twice.
Qed.

Lemma talking_recv d d' v : sc_recv d = Some (d', v) -> i2c_recv (talking b k d) = (talking b k d', v).
Proof.
  intros E. unfold i2c_recv. change (current_devs (talking b k d)) with [k]. change (broadcast (talking b k d)) with (broadcast b).
  destruct Han as [[_ Hb] _ _ _]. rewrite Hb, talking_child. cbn [dev]. rewrite E. f_equal. unfold talking.
  transitivity ((upd_dev (upd_dev b k d) k d') <| current_devs := [k] |>); [done|]. by rewrite upd_dev_twice.
Qed.

(** The STOP leaves the bus free, with the device in its new state. *)
Lemma talking_end d f d' rv : sc_event d = Some f -> f I2C_FINISH = (d', rv) ->
  i2c_end_transfer (talking b k d) = upd_dev b k d' /\ answers (upd_dev b k d') addr k d'.
Proof.
  intros Hf E. unfold i2c_end_transfer. change (current_devs (talking b k d)) with [k]. cbn [foldl].
  rewrite (talking_event d I2C_FINISH f d' rv Hf E). destruct Han as [[Hc Hb] Ha Hk Hfirst]. split.
  - unfold talking, upd_dev. destruct b as [cs cur bc]. cbn in *. by rewrite Hc, Hb.
  - split; [done | done | by apply (upd_dev_child b k d0) |]. intros j s Hj. unfold upd_dev. cbn.
    rewrite list_lookup_alter_ne by lia. by apply Hfirst.
Qed.
End talk.
