(* ===== verification/At24c.v ===== *)
(** * AT24C: a serial EEPROM on the I2C bus

    Model of [hw/nvram/eeprom_at24c.c], the device that the LPI2C function of a
    FlexComm is used with: an address counter, set by the first bytes of a write
    transfer, that every further byte written or read advances. *)
From S2P Require Import Prelude I2c.

Record EEPROMState := mkEEPROM {
  cur : Z;                       (* uint16_t: the address counter *)
  rsize : Z;                     (* total size in bytes *)
  asize : Z;                     (* number of address bytes *)
  writable : bool;
  changed : bool;                (* cells changed since the last START *)
  haveaddr : Z;                  (* uint8_t: address bytes transferred *)
  mem : list Z;
  blk : option (list (list Z))   (* the drive: images handed to blk_pwrite, latest first *)
}.
#[export] Instance eeprom_settable : Settable EEPROMState := fun s =>
  mkEEPROM (cur s) (rsize s) (asize s) (writable s) (changed s) (haveaddr s) (mem s) (blk s).

(** The common part of the START and STOP events. *)
Definition at24c_flush (ee : EEPROMState) : EEPROMState :=
  let ee := match blk ee with
            | Some images => if changed ee then ee <| blk := Some (mem ee :: images) |> else ee
            | None => ee
            end in
  ee <| changed := false |>.

Definition at24c_eeprom_event (ee : EEPROMState) (event : i2c_event) : EEPROMState * Z :=
  match event with
  | I2C_START_SEND | I2C_FINISH => (at24c_flush (ee <| haveaddr := 0 |>), 0)
  | I2C_START_RECV => (at24c_flush ee, 0)
  | I2C_NACK => (ee, 0)
  | I2C_START_SEND_ASYNC => (ee, -1)
  end.

Definition at24c_eeprom_recv (ee : EEPROMState) : EEPROMState * Z :=
  if (0 <? haveaddr ee) && (haveaddr ee <? asize ee) then (ee, 0xFF)
  else (ee <| cur := u16 (u32 (cur ee + 1) mod rsize ee) |>, (mem ee).[cur ee]).

Definition at24c_eeprom_send (ee : EEPROMState) (data : Z) : EEPROMState * Z :=
  if haveaddr ee <? asize ee then
    let ee := ee <| cur := u16 (cur ee .<< 8) |> in
    let ee := ee <| cur := cur ee .| data |> in
    let ee := ee <| haveaddr := u8 (haveaddr ee + 1) |> in
    (if haveaddr ee =? asize ee then ee <| cur := u16 (cur ee mod rsize ee) |> else ee, 0)
  else
    let ee := if writable ee then ee <| mem := (mem ee).[cur ee <- data] |> <| changed := true |> else ee in
    (ee <| cur := u16 (u32 (cur ee + 1) mod rsize ee) |>, 0).

(** Realize: [None] is a reported error.  The drive is its length and contents. *)
Definition at24c_eeprom_realize (size asz : Z) (wr : bool) (drive : option (list Z)) (init_rom : list Z) : option EEPROMState :=
  if size <? zlen init_rom then None
  else
    let asz := if asz =? 0 then (if size <=? 256 then 1 else 2) else asz in
    match drive with
    | Some image =>
        if zlen image =? size then Some (mkEEPROM 0 size asz wr false 0 image (Some [])) else None
    | None =>
        Some (mkEEPROM 0 size asz wr false 0 (init_rom ++ replicate (Z.to_nat (size - zlen init_rom)) 0) None)
    end.
Definition at24c_eeprom_reset (ee : EEPROMState) : EEPROMState := ee <| changed := false |> <| cur := 0 |> <| haveaddr := 0 |>.

#[export] Instance at24c_slave : I2CSlaveClass EEPROMState := {
  sc_event ee := Some (at24c_eeprom_event ee);
  sc_send ee := Some (at24c_eeprom_send ee);
  sc_recv ee := Some (at24c_eeprom_recv ee);
}.

(** ** Addressing *)

Record at24c_wf (ee : EEPROMState) : Prop := {
  wf_size : 0 < rsize ee <= 2 ^ 16;
  wf_mem : zlen (mem ee) = rsize ee;
  (** One address byte leaves the last address in the upper half of the counter. *)
  wf_asize : asize ee = 2 \/ asize ee = 1 /\ (rsize ee | 256);
  wf_cur : in_range 16 (cur ee);
}.

Lemma flush_same ee : cur (at24c_flush ee) = cur ee /\ rsize (at24c_flush ee) = rsize ee /\ asize (at24c_flush ee) = asize ee /\
  mem (at24c_flush ee) = mem ee /\ writable (at24c_flush ee) = writable ee.
Proof. unfold at24c_flush. destruct (blk ee); by destruct (changed ee). Qed.

Lemma flush_clean ee : changed ee = false -> at24c_flush ee = ee.
Proof. intros E. unfold at24c_flush. rewrite E. destruct ee as [? ? ? ? ? ? ? bk]. cbn in *. subst. by destruct bk. Qed.

(** The bytes that address cell [off], highest first. *)
Definition addr_bytes (n off : Z) : list Z := if n =? 1 then [off] else [off .>> 8; off .& 0xFF].

Definition sends (ee : EEPROMState) (bs : list Z) : EEPROMState := foldl (fun ee b => (at24c_eeprom_send ee b).1) ee bs.

(** The EEPROM with its counter on cell [off], the address complete. *)
Definition at_cell (ee : EEPROMState) (off : Z) : EEPROMState := ee <| cur := off |> <| haveaddr := asize ee |>.

(** An address byte is shifted into the counter. *)
Lemma shift_in c d : in_range 8 d -> u16 (c .<< 8) .| d = (c mod 256) * 256 + d.
Proof.
  intros Hd. assert (E : u16 (c .<< 8) .& d = 0).
  { bitwise. destruct (decide (i < 8)); [rewrite (Z.testbit_neg_r c) by lia | rewrite (testbit_range 8 d) by (done || lia)]; btauto. }
  pose proof (Z.add_lor_land (u16 (c .<< 8)) d) as El. rewrite E, Z.add_0_r in El. rewrite El. unfold wrap.
  rewrite Z.shiftl_mul_pow2 by lia. change (2 ^ 16) with (256 * 256). change (2 ^ 8) with 256. by rewrite Z.mul_mod_distr_r.
Qed.

Lemma send_address ee d : haveaddr ee < asize ee -> 0 <= haveaddr ee < 255 -> in_range 8 d -> in_range 16 (cur ee) ->
  (at24c_eeprom_send ee d).1 =
    let c := (cur ee mod 256) * 256 + d in
    ee <| cur := if haveaddr ee + 1 =? asize ee then u16 (c mod rsize ee) else c |> <| haveaddr := haveaddr ee + 1 |>.
Proof.
  intros Hh Hh' Hd Hc. unfold at24c_eeprom_send. rewrite (proj2 (Z.ltb_lt _ _)) by done. cbv zeta.
  cbn [haveaddr cur asize rsize modify]. rewrite (wrap_id 8) by lia. rewrite <- (shift_in (cur ee) d) by done.
  destruct ee. cbn. by destruct (_ =? _).
Qed.

Lemma at24c_addressed ee off : at24c_wf ee -> haveaddr ee = 0 -> 0 <= off < rsize ee ->
  sends ee (addr_bytes (asize ee) off) = at_cell ee off.
Proof.
  intros [Hs _ Ha Hc] Hh Ho. unfold in_range in Hc. unfold addr_bytes, sends. destruct Ha as [Ha|[Ha [q Hq]]]; rewrite Ha; cbn [Z.eqb Pos.eqb foldl].
  - change 0xFF with (Z.ones 8). rewrite Z.land_ones, Z.shiftr_div_pow2 by lia.
    rewrite (send_address ee) by (unfold in_range; dlia). rewrite Hh, Ha. change (0 + 1 =? 2) with false. change (0 + 1) with 1. cbv zeta iota.
    rewrite send_address by (cbn [haveaddr cur asize modify]; unfold in_range; dlia). cbn [haveaddr cur asize rsize modify]. rewrite Ha. cbn [Z.add Z.eqb Pos.eqb Pos.add Pos.succ].
    destruct ee. unfold at_cell, modify. cbn [cur rsize asize haveaddr] in *. subst. f_equal.
    change (2 ^ 8) with 256. rewrite (Z.add_comm _ (off / 256)), Z.mod_add, (Z.mod_small (off / 256)) by dlia.
    replace (off / 256 * 256 + off mod 256) with off by dlia. change (1 + 1 =? 2) with true. cbv iota. rewrite (Z.mod_small off rsize0) by lia. apply wrap_id. lia.
  - assert (rsize ee <= 256) by (apply Z.divide_pos_le; [lia | by exists q]). rewrite (send_address ee) by (unfold in_range; lia). rewrite Hh, Ha. change (0 + 1 =? 1) with true. cbv zeta iota.
    destruct ee. unfold at_cell, modify. cbn [cur rsize asize haveaddr] in *. subst. f_equal.
    replace (cur0 mod 256 * 256 + off) with (off + (cur0 mod 256) * q * rsize0) by (rewrite <- Z.mul_assoc, <- Hq; lia).
    rewrite Z.mod_add, Z.mod_small by lia. apply wrap_id. lia.
Qed.

(** ** Data *)

Fixpoint recvs (n : nat) (ee : EEPROMState) : EEPROMState * list Z :=
  match n with
  | O => (ee, [])
  | S n => let '(ee, v) := at24c_eeprom_recv ee in let '(ee, vs) := recvs n ee in (ee, v :: vs)
  end.

Lemma cell_next c size : 0 <= c < size -> size <= 2 ^ 16 -> u16 (u32 (c + 1) mod size) = (c + 1) mod size.
Proof. intros. rewrite (wrap_id 32) by lia. apply wrap_id. pose proof (Z.mod_pos_bound (c + 1) size). lia. Qed.

(** Writing leaves the bytes in the cells from [off] on, and nothing else changed. *)
Lemma at24c_writes ee off bs : at24c_wf ee -> writable ee = true -> 0 <= off < rsize ee -> off + zlen bs <= rsize ee ->
  sends (at_cell ee off) bs =
    (at_cell ee ((off + zlen bs) mod rsize ee)) <| mem := list_inserts (Z.to_nat off) bs (mem ee) |>
      <| changed := changed ee || negb (bool_decide (bs = [])) |>.
Proof.
  revert ee off. induction bs as [|x bs IH]; intros ee off Hw Hwr Ho Hlen.
  - cbn [sends foldl length list_inserts]. rewrite Z.add_0_r, Z.mod_small by lia. destruct ee. unfold at_cell, modify. cbn.
    by rewrite orb_false_r.
  - cbn [length] in Hlen. destruct Hw as [Hs Hm Ha Hc].
    assert (E : (at24c_eeprom_send (at_cell ee off) x).1 =
      at_cell (ee <| mem := (mem ee).[off <- x] |> <| changed := true |>) ((off + 1) mod rsize ee)).
    { unfold at24c_eeprom_send. change (haveaddr (at_cell ee off)) with (asize ee). change (asize (at_cell ee off)) with (asize ee).
      rewrite Z.ltb_irrefl. change (writable (at_cell ee off)) with (writable ee). rewrite Hwr. cbv zeta.
      rewrite <- (cell_next off) by lia. done. }
    cbn [sends foldl]. fold (sends (at24c_eeprom_send (at_cell ee off) x).1 bs). rewrite E.
    destruct (decide (off + 1 = rsize ee)) as [Eo|Eo].
    + destruct bs; [|cbn [length] in Hlen; lia]. cbn. rewrite orb_true_r. by destruct ee.
    + rewrite (Z.mod_small (off + 1)) by lia. rewrite IH; cbn [rsize mem writable modify]; [|split; try done|done|lia|lia].
      * destruct ee. unfold at_cell, modify. cbn [cur rsize asize writable changed haveaddr mem blk length].
        f_equal; [f_equal; lia | by rewrite orb_true_r |]. unfold arr_set. cbn [list_inserts].
        rewrite list_insert_inserts_lt by lia. f_equal. lia.
      * cbn. by rewrite length_arr_set.
Qed.

Lemma at24c_reads n ee off : at24c_wf ee -> 0 <= off < rsize ee -> off + Z.of_nat n <= rsize ee ->
  recvs n (at_cell ee off) = (at_cell ee ((off + Z.of_nat n) mod rsize ee), slice off (Z.of_nat n) (mem ee)).
Proof.
  intros [Hs Hm Ha Hc]. revert off. induction n as [|n IH]; intros off Ho Hn.
  - cbn. unfold slice. by rewrite Z.add_0_r, Z.mod_small by lia.
  - assert (E : at24c_eeprom_recv (at_cell ee off) = (at_cell ee ((off + 1) mod rsize ee), (mem ee).[off])).
    { unfold at24c_eeprom_recv. change (haveaddr (at_cell ee off)) with (asize ee). change (asize (at_cell ee off)) with (asize ee).
      rewrite Z.ltb_irrefl, andb_false_r. rewrite <- (cell_next off) by lia. done. }
    cbn [recvs]. rewrite E. assert (Hsl : slice off (Z.of_nat (S n)) (mem ee) = (mem ee).[off] :: slice (off + 1) (Z.of_nat n) (mem ee)).
    { unfold slice, arr_get. rewrite !Nat2Z.id. rewrite (drop_S (mem ee) ((mem ee) !!! Z.to_nat off)) by (apply list_lookup_lookup_total_lt; lia).
      cbn [take]. do 3 f_equal. lia. }
    destruct (decide (off + 1 = rsize ee)) as [Eo|Eo].
    + assert (n = 0%nat) as -> by lia. cbn [recvs]. by rewrite Hsl.
    + rewrite (Z.mod_small (off + 1)), IH, Hsl by lia. f_equal. do 2 f_equal. lia.
Qed.

(** ** Departures from the code's intent *)

(** An address that is not completed leaves the counter outside the memory: the
    STOP forgets that address bytes are missing, and a following read transfer
    is let through to [mem[cur]] with [cur] beyond the array. *)
Theorem at24c_partial_address_reads_outside :
  exists ee, at24c_eeprom_realize 1024 0 true None [] = Some ee /\
    let write1 (ee : EEPROMState) (x : Z) :=
      (at24c_eeprom_event ((at24c_eeprom_send ((at24c_eeprom_event ee I2C_START_SEND).1) x).1) I2C_FINISH).1 in
    let ee := (at24c_eeprom_event (write1 (write1 ee 4) 0) I2C_START_RECV).1 in
    (0 <? haveaddr ee) && (haveaddr ee <? asize ee) = false /\ zlen (mem ee) <= cur ee.
Proof. eexists. split; [reflexivity|]. vm_compute. split; congruence. Qed.
