(* ===== verification/Ssi.v ===== *)
(** * SSI: the bus of the LPSPI function, and the board-to-board link

    Model of the transfers and chip selects of [hw/ssi/ssi.c], of the byte FIFO
    [util/fifo8.c] and of the [spi-link] peripheral ([hw/ssi/spi_link.c]) that
    bridges an SPI bus to a character device. *)
From S2P Require Import Prelude.

Inductive SSICSMode := SSI_CS_NONE | SSI_CS_LOW | SSI_CS_HIGH.

(** The methods of [struct SSIPeripheralClass] that a device with standard chip
    select behaviour has; the result of [set_cs] is not used. *)
Class SSIPeripheralClass (P : Type) := {
  spc_transfer : P -> Z -> P * Z;
  spc_set_cs : P -> option (bool -> P);
  spc_cs_polarity : P -> SSICSMode;
}.

Record SSIPeripheral {P : Type} := mkPeripheral { cs : bool; periph : P }.
Arguments SSIPeripheral P : clear implicits.
#[export] Instance peripheral_settable P : Settable (SSIPeripheral P) := fun s => mkPeripheral _ (cs s) (periph s).

Section ssi.
Context {P : Type} `{SSIPeripheralClass P}.

Definition ssi_cs_default (s : SSIPeripheral P) (level : bool) : SSIPeripheral P :=
  let s := if negb (Bool.eqb (cs s) level) then
             match spc_set_cs (periph s) with Some f => s <| periph := f level |> | None => s end
           else s in
  s <| cs := level |>.

Definition ssi_transfer_raw_default (s : SSIPeripheral P) (val : Z) : SSIPeripheral P * Z :=
  let selected := match spc_cs_polarity (periph s) with
                  | SSI_CS_HIGH => cs s
                  | SSI_CS_LOW => negb (cs s)
                  | SSI_CS_NONE => true
                  end in
  if selected then let '(p, r) := spc_transfer (periph s) val in (s <| periph := p |>, r) else (s, 0).

(** The bus is the list of its children; their answers are or-ed. *)
Definition ssi_transfer (bus : list (SSIPeripheral P)) (val : Z) : list (SSIPeripheral P) * Z :=
  foldr (fun s br => let '(bus, r) := br in let '(s, v) := ssi_transfer_raw_default s val in (s :: bus, v .| r)) ([], 0) bus.
End ssi.

(** ** A byte FIFO *)

Record Fifo8 := mkFifo8 { data : list Z; capacity : Z; head : Z; num : Z }.
#[export] Instance fifo8_settable : Settable Fifo8 := fun f => mkFifo8 (data f) (capacity f) (head f) (num f).

Definition fifo8_create (cap : Z) : Fifo8 := mkFifo8 (replicate (Z.to_nat cap) 0) cap 0 0.
Definition fifo8_is_empty (f : Fifo8) : bool := num f =? 0.
Definition fifo8_is_full (f : Fifo8) : bool := num f =? capacity f.
Definition fifo8_num_free (f : Fifo8) : Z := u32 (capacity f - num f).
(** [None] is the failed assertion. *)
Definition fifo8_push (f : Fifo8) (x : Z) : option Fifo8 :=
  if num f <? capacity f then
    Some (f <| data := (data f).[u32 (head f + num f) mod capacity f <- x] |> <| num := u32 (num f + 1) |>)
  else None.
Definition fifo8_pop (f : Fifo8) : option (Fifo8 * Z) :=
  if 0 <? num f then
    Some (f <| head := u32 (head f + 1) mod capacity f |> <| num := u32 (num f - 1) |>, (data f).[head f])
  else None.

(** ** The board-to-board link *)

Definition SPI_LINK_FIFO_DEPTH : Z := 256.

Record SpiLinkState := mkSpiLink {
  link_out : list Z;      (* bytes written to the character device, in order *)
  rx : Fifo8
}.
#[export] Instance spi_link_settable : Settable SpiLinkState := fun s => mkSpiLink (link_out s) (rx s).

Definition spi_link_transfer (s : SpiLinkState) (val : Z) : SpiLinkState * Z :=
  let out := val .& 0xFF in
  let s := s <| link_out := link_out s ++ [out] |> in
  match (if fifo8_is_empty (rx s) then None else fifo8_pop (rx s)) with
  | Some (f, x) => (s <| rx := f |>, x)
  | None => (s, 0xFF)
  end.
Definition spi_link_can_receive (s : SpiLinkState) : Z := fifo8_num_free (rx s).
Fixpoint spi_link_receive (s : SpiLinkState) (buf : list Z) : SpiLinkState :=
  match buf with
  | [] => s
  | x :: buf =>
      if fifo8_is_full (rx s) then s
      else match fifo8_push (rx s) x with
           | Some f => spi_link_receive (s <| rx := f |>) buf
           | None => s
           end
  end.
Definition spi_link_realize : SpiLinkState := mkSpiLink [] (fifo8_create SPI_LINK_FIFO_DEPTH).

#[export] Instance spi_link_peripheral : SSIPeripheralClass SpiLinkState := {
  spc_transfer := spi_link_transfer;
  spc_set_cs _ := None;
  spc_cs_polarity _ := SSI_CS_NONE;
}.

(** ** The FIFO as a queue *)

Definition fifo8_items (f : Fifo8) : list Z := ring_items (capacity f) (data f) (head f) (num f).
Record fifo8_wf (f : Fifo8) : Prop := {
  f8_cap : 0 < capacity f < 2 ^ 31;
  f8_data : zlen (data f) = capacity f;
  f8_head : 0 <= head f < capacity f;
  f8_num : 0 <= num f <= capacity f;
}.

Lemma fifo8_len f : fifo8_wf f -> zlen (fifo8_items f) = num f.
Proof. intros []. apply ring_items_len. lia. Qed.

Lemma fifo8_create_wf cap : 0 < cap < 2 ^ 31 -> fifo8_wf (fifo8_create cap) /\ fifo8_items (fifo8_create cap) = [].
Proof. intros Hc. split; [|done]. split; cbn; rewrite ?length_replicate; lia. Qed.

Lemma fifo8_push_spec f x : fifo8_wf f -> num f < capacity f ->
  exists f', fifo8_push f x = Some f' /\ fifo8_wf f' /\ capacity f' = capacity f /\ fifo8_items f' = fifo8_items f ++ [x].
Proof.
  intros [] Hlt. unfold fifo8_push. rewrite (proj2 (Z.ltb_lt _ _)) by done. eexists. split; [done|]. cbn [num modify].
  rewrite !(wrap_id 32) by lia. split; [|split; [done | unfold fifo8_items; cbn [capacity data head num modify]; apply ring_push; lia]].
  split; cbn; rewrite ?length_arr_set; lia.
Qed.

Lemma fifo8_pop_spec f x q : fifo8_wf f -> fifo8_items f = x :: q ->
  exists f', fifo8_pop f = Some (f', x) /\ fifo8_wf f' /\ capacity f' = capacity f /\ fifo8_items f' = q.
Proof.
  intros Hw Hq. pose proof (fifo8_len f Hw) as Hlen. rewrite Hq in Hlen. cbn [length] in Hlen. destruct Hw. unfold fifo8_pop.
  rewrite (proj2 (Z.ltb_lt _ _)) by lia. unfold fifo8_items in Hq. rewrite ring_pop in Hq by lia. injection Hq as Hx Hq.
  eexists. split; [by rewrite Hx|]. cbn [head num modify]. rewrite !(wrap_id 32) by lia.
  split; [|split; [done | exact Hq]]. pose proof (Z.mod_pos_bound (head f + 1) (capacity f)). split; cbn; lia.
Qed.

(** ** The link as two byte streams *)

Definition link_wf (s : SpiLinkState) : Prop := fifo8_wf (rx s) /\ capacity (rx s) = SPI_LINK_FIFO_DEPTH.
Definition link_in (s : SpiLinkState) : list Z := fifo8_items (rx s).

Lemma spi_link_transfer_spec s w : link_wf s ->
  let '(s', r) := spi_link_transfer s w in
  link_wf s' /\ link_out s' = link_out s ++ [w .& 0xFF] /\ r = (match link_in s with x :: _ => x | [] => 0xFF end) /\ link_in s' = tail (link_in s).
Proof.
  intros [Hw Hc]. unfold spi_link_transfer, fifo8_is_empty, link_in. cbv zeta. cbn [rx modify]. pose proof (fifo8_len _ Hw) as Hlen.
  destruct (fifo8_items (rx s)) as [|x q] eqn:E; cbn [length] in Hlen.
  - rewrite <- Hlen. cbn [Z.of_nat Z.eqb]. by split_and!.
  - rewrite (proj2 (Z.eqb_neq _ _)) by lia. destruct (fifo8_pop_spec _ _ _ Hw E) as (f & -> & Hf & Hcf & Hq).
    split; [split; [done | cbn; congruence]|]. done.
Qed.

Lemma spi_link_receive_spec s buf : link_wf s -> zlen (link_in s) + zlen buf <= SPI_LINK_FIFO_DEPTH ->
  link_wf (spi_link_receive s buf) /\ link_out (spi_link_receive s buf) = link_out s /\ link_in (spi_link_receive s buf) = link_in s ++ buf.
Proof.
  revert s. induction buf as [|x buf IH]; intros s [Hw Hc] Hlen; cbn [spi_link_receive]; [by rewrite app_nil_r|].
  cbn [length] in Hlen. unfold link_in in Hlen. rewrite fifo8_len in Hlen by done. unfold fifo8_is_full.
  rewrite (proj2 (Z.eqb_neq _ _)) by lia. destruct (fifo8_push_spec (rx s) x Hw ltac:(lia)) as (f & -> & Hf & Hcf & Hq).
  destruct (IH (s <| rx := f |>)) as (H1 & H2 & H3); [split; [exact Hf | cbn; congruence] | |].
  - unfold link_in. cbn [rx modify]. rewrite Hq, length_app. pose proof (fifo8_len _ Hw). cbn [length]. lia.
  - split; [done|]. split; [done|]. rewrite H3. unfold link_in. cbn [rx modify]. by rewrite Hq, <- app_assoc.
Qed.
