(* ===== verification/Sd.v ===== *)
(** * SD: the card bus

    Model of the bus of [hw/sd/core.c] over a class of cards ([SDCardClass], after
    [include/hw/sd/sd.h]).  [SDStream] is what a host controller may rely on: a
    card's data phase is a stream of bytes, however the host cuts it into
    accesses. *)
From S2P Require Import Prelude.

(** ** The bus *)

(** The methods of [struct SDCardClass] that a host uses.  [None] is an assertion
    that fails or an access outside of an array. *)
Class SDCardClass (C : Type) := {
  do_command : C -> Z -> Z -> option (list Z * C);       (* the response *)
  write_data : C -> list Z -> option (Z * C);            (* how many bytes it took *)
  read_data : C -> Z -> option (list Z * C);
  get_inserted : C -> bool;
}.

Section bus.
Context {C : Type} `{SDCardClass C}.

(** A bus has at most one card. *)
Definition sdbus_do_command (bus : option C) (cmd arg : Z) : option (list Z * option C) :=
  match bus with
  | Some card => '(resp, card) ← do_command card cmd arg; Some (resp, Some card)
  | None => Some ([], None)
  end.

(** The loop of [sdbus_write_data]; every pass takes at least a byte. *)
Fixpoint sdbus_write_loop (fuel : nat) (card : C) (buf : list Z) : option C :=
  match buf with
  | [] => Some card
  | _ =>
      match fuel with
      | O => None
      | S fuel =>
          '(written, card) ← write_data card buf;
          if written <? 1 then None else sdbus_write_loop fuel card (drop (Z.to_nat written) buf)
      end
  end.
Definition sdbus_write_data (bus : option C) (buf : list Z) : option (option C) :=
  match bus with
  | Some card => card ← sdbus_write_loop (length buf) card buf; Some (Some card)
  | None => Some None
  end.

Fixpoint sdbus_read_loop (fuel : nat) (card : C) (length : Z) : option (list Z * C) :=
  if length <=? 0 then Some ([], card)
  else
    match fuel with
    | O => None
    | S fuel =>
        '(bs, card) ← read_data card length;
        if zlen bs <? 1 then None
        else '(rest, card) ← sdbus_read_loop fuel card (length - zlen bs); Some (bs ++ rest, card)
    end.
(** Without a card the caller's buffer [buf] is left as it is. *)
Definition sdbus_read_data (bus : option C) (buf : list Z) : option (list Z * option C) :=
  match bus with
  | Some card => '(bs, card) ← sdbus_read_loop (length buf) card (zlen buf); Some (bs, Some card)
  | None => Some (buf, None)
  end.

Definition sdbus_get_inserted (bus : option C) : bool := match bus with Some card => get_inserted card | None => false end.

(** ** A card as a stream

    The bytes that single-byte reads get from a card, and those that single-byte
    writes put into it. *)
Inductive sends : C -> list Z -> C -> Prop :=
  | sends_nil c : sends c [] c
  | sends_cons c b c1 bs c' : read_data c 1 = Some ([b], c1) -> sends c1 bs c' -> sends c (b :: bs) c'.
Inductive takes : C -> list Z -> C -> Prop :=
  | takes_nil c : takes c [] c
  | takes_cons c b c1 bs c' : write_data c [b] = Some (1, c1) -> takes c1 bs c' -> takes c (b :: bs) c'.
End bus.

(** A longer access transfers some of the same bytes and leaves the rest; [card_ok]
    holds of the states a card can be in. *)
Class SDStream (C : Type) `{SDCardClass C} := {
  card_ok : C -> Prop;
  read_chunk c bs c' : card_ok c -> bs <> [] -> sends c bs c' ->
    exists k c1, (1 <= k <= length bs)%nat /\ read_data c (zlen bs) = Some (take k bs, c1) /\ card_ok c1 /\ sends c1 (drop k bs) c';
  write_chunk c bs c' : card_ok c -> bs <> [] -> takes c bs c' ->
    exists k c1, (1 <= k <= length bs)%nat /\ write_data c bs = Some (Z.of_nat k, c1) /\ card_ok c1 /\ takes c1 (drop k bs) c';
}.

Section stream.
Context {C : Type} `{SDStream C}.

Lemma sends_app c a b c' : sends c (a ++ b) c' <-> exists c1, sends c a c1 /\ sends c1 b c'.
Proof.
  revert c. induction a as [|x a IH]; intros c; cbn [app]; split.
  - eauto using sends_nil.
  - intros (c1 & Ha & Hb). by inversion Ha; subst.
  - intros Ha. inversion Ha as [|? ? c1 ? ? E Hs]; subst. apply IH in Hs as (c2 & ? & ?). eauto using sends_cons.
  - intros (c1 & Ha & Hb). inversion Ha as [|? ? c2 ? ? E Hs]; subst. eapply sends_cons; [done|]. apply IH. eauto.
Qed.
Lemma takes_app c a b c' : takes c (a ++ b) c' <-> exists c1, takes c a c1 /\ takes c1 b c'.
Proof.
  revert c. induction a as [|x a IH]; intros c; cbn [app]; split.
  - eauto using takes_nil.
  - intros (c1 & Ha & Hb). by inversion Ha; subst.
  - intros Ha. inversion Ha as [|? ? c1 ? ? E Hs]; subst. apply IH in Hs as (c2 & ? & ?). eauto using takes_cons.
  - intros (c1 & Ha & Hb). inversion Ha as [|? ? c2 ? ? E Hs]; subst. eapply takes_cons; [done|]. apply IH. eauto.
Qed.

Lemma sends_ok c bs c' : card_ok c -> sends c bs c' -> card_ok c'.
Proof.
  intros Hok Hs. induction Hs as [|c b c1 bs c' E Hs IH]; [done|]. apply IH.
  destruct (read_chunk c [b] c1 Hok ltac:(done)) as (k & c2 & _ & E1 & Hok1 & _); [eauto using sends_cons, sends_nil|].
  change (zlen [b]) with 1 in E1. rewrite E in E1. by injection E1 as _ <-.
Qed.
Lemma takes_ok c bs c' : card_ok c -> takes c bs c' -> card_ok c'.
Proof.
  intros Hok Hs. induction Hs as [|c b c1 bs c' E Hs IH]; [done|]. apply IH.
  destruct (write_chunk c [b] c1 Hok ltac:(done)) as (k & c2 & _ & E1 & Hok1 & _); [eauto using takes_cons, takes_nil|].
  rewrite E in E1. by injection E1 as _ <-.
Qed.

Lemma read_loop fuel c bs c' : (length bs <= fuel)%nat -> card_ok c -> sends c bs c' -> sdbus_read_loop fuel c (zlen bs) = Some (bs, c').
Proof.
  revert c bs. induction fuel as [|fuel IH]; intros c bs Hf Hok Hs.
  { destruct bs; [|cbn in Hf; lia]. inversion Hs; subst. done. }
  cbn [sdbus_read_loop]. destruct (decide (bs = [])) as [->|Hne]; [inversion Hs; by subst|].
  destruct (read_chunk c bs c' Hok Hne Hs) as (k & c1 & Hk & E & Hok1 & Hs1). rewrite (proj2 (Z.leb_gt _ 0)) by lia. rewrite E. cbn [mbind option_bind]. rewrite length_take_le by lia.
  rewrite (proj2 (Z.ltb_ge _ 1)) by lia. replace (zlen bs - Z.of_nat k) with (zlen (drop k bs)) by (rewrite length_drop; lia).
  rewrite IH by (rewrite ?length_drop; done || lia). cbn. by rewrite take_drop.
Qed.
Lemma write_loop fuel c bs c' : (length bs <= fuel)%nat -> card_ok c -> takes c bs c' -> sdbus_write_loop fuel c bs = Some c'.
Proof.
  revert c bs. induction fuel as [|fuel IH]; intros c bs Hf Hok Hs.
  { destruct bs; [|cbn in Hf; lia]. inversion Hs; subst. done. }
  destruct (decide (bs = [])) as [->|Hne]; [inversion Hs; by subst|].
  destruct (write_chunk c bs c' Hok Hne Hs) as (k & c1 & Hk & E & Hok1 & Hs1). destruct bs as [|b bs]; [done|]. cbn [sdbus_write_loop]. rewrite E. cbn [mbind option_bind].
  rewrite (proj2 (Z.ltb_ge _ 1)), Nat2Z.id by lia. apply IH; [|done..]. rewrite length_drop. lia.
Qed.

(** The bus delivers the stream. *)
Lemma bus_read c bs c' buf : length buf = length bs -> card_ok c -> sends c bs c' -> sdbus_read_data (Some c) buf = Some (bs, Some c').
Proof. intros Hl Hok Hs. cbn. by rewrite Hl, (read_loop (length bs) c bs c'). Qed.
Lemma bus_write c bs c' : card_ok c -> takes c bs c' -> sdbus_write_data (Some c) bs = Some (Some c').
Proof. intros Hok Hs. cbn. by rewrite (write_loop (length bs) c bs c'). Qed.
End stream.
