(* ===== verification/SdCard.v ===== *)
(** * SdCard: the SD memory card

    Model of the [sd-card] device of [hw/sd/sd.c] in SD mode (the protocol table
    [sd_proto_sd], so neither SPI nor eMMC): reset and the card registers, every
    command of the table, responses, and the data path of each command.  The medium
    is a function from addresses to bytes; a request beyond its end is refused, as
    the block layer does.  Of the host the card uses the virtual clock, for the
    power-up delay, and a random source, for its address. *)
From S2P Require Import Prelude Sd.

(** ** Registers *)

Definition SDSC_MAX_CAPACITY : Z := 2 * 2 ^ 30.
Definition INVALID_ADDRESS : Z := 2 ^ 32 - 1.
Definition HWBLOCK_SHIFT : Z := 9.
Definition SECTOR_SHIFT : Z := 5.
Definition WPGROUP_SHIFT : Z := 7.
Definition CMULT_SHIFT : Z := 9.
Definition WPGROUP_SIZE : Z := 1 .<< (HWBLOCK_SHIFT + SECTOR_SHIFT + WPGROUP_SHIFT).
Definition OCR_POWER_DELAY_NS : Z := 500000.
Definition SD_PHY_SPECv3_01_VERS : Z := 3.
Definition OUT_OF_RANGE : Z := bit 31.
Definition ADDRESS_ERROR : Z := bit 30.
Definition BLOCK_LEN_ERROR : Z := bit 29.
Definition ERASE_SEQ_ERROR : Z := bit 28.
Definition WP_VIOLATION : Z := bit 26.
Definition CARD_IS_LOCKED : Z := bit 25.
Definition LOCK_UNLOCK_FAILED : Z := bit 24.
Definition ILLEGAL_COMMAND : Z := bit 22.
Definition CID_CSD_OVERWRITE : Z := bit 16.
Definition WP_ERASE_SKIP : Z := bit 15.
Definition READY_FOR_DATA : Z := bit 8.
Definition APP_CMD : Z := bit 5.
Definition OCR_VDD_VOLTAGE_WIN_HI : Z := 0xFFFF00.
Definition OCR_CARD_CAPACITY : Z := bit 30.
Definition OCR_CARD_POWER_UP : Z := bit 31.
Definition ACMD41_ENQUIRY_MASK : Z := 0x00ffffff.
Definition ACMD41_R3_MASK : Z := OCR_VDD_VOLTAGE_WIN_HI .| bit 24 .| bit 29 .| OCR_CARD_CAPACITY .| OCR_CARD_POWER_UP.
Definition CARD_STATUS_B : Z := (0xF .<< 9) .| bit 22 .| bit 23.
Definition CARD_STATUS_C : Z :=
  bit 3 .| bit 5 .| bit 13 .| bit 15 .| bit 16 .| bit 19 .| bit 20 .| bit 21 .| bit 24 .| bit 26 .| bit 27 .| bit 28 .| bit 29 .| bit 30 .| bit 31.

Inductive sd_rsp_type_t := sd_r0 | sd_r1 | sd_r2_i | sd_r2_s | sd_r3 | sd_r6 | sd_r7 | sd_r1b | sd_illegal.

Definition sd_inactive_state : Z := -1.
Definition sd_idle_state : Z := 0.
Definition sd_ready_state : Z := 1.
Definition sd_identification_state : Z := 2.
Definition sd_standby_state : Z := 3.
Definition sd_transfer_state : Z := 4.
Definition sd_sendingdata_state : Z := 5.
Definition sd_receivingdata_state : Z := 6.
Definition sd_programming_state : Z := 7.
Definition sd_disconnect_state : Z := 8.
Definition sd_sleep_state : Z := 10.

Record SDState := mkSD {
  ocr : Z;
  scr : list Z;
  cid : list Z;
  csd : list Z;
  rca : Z;
  card_status : Z;
  sd_status : list Z;
  spec_version : Z;
  blk : option (Z -> Z);      (* the medium, if one is inserted *)
  blk_sectors : Z;            (* its length *)
  blk_writable : bool;
  state : Z;
  vhs : Z;
  wp_switch : bool;
  wp_group_bmap : Z;
  wp_group_bits : Z;
  size : Z;
  blk_len : Z;
  multi_blk_cnt : Z;
  erase_start : Z;
  erase_end : Z;
  pwd : list Z;
  pwd_len : Z;
  function_group : list Z;
  current_cmd : Z;
  expecting_acmd : bool;
  blk_written : Z;
  data_start : Z;
  data_offset : Z;
  data_size : Z;
  data : list Z;
  ocr_power_timer : option Z; (* its deadline, if it is pending *)
  vclock : Z;                 (* the virtual clock of the host *)
  entropy : nat -> Z;         (* what the random source gives next *)
}.
#[export] Instance sd_settable : Settable SDState := fun s =>
  mkSD (ocr s) (scr s) (cid s) (csd s) (rca s) (card_status s) (sd_status s) (spec_version s) (blk s) (blk_sectors s) (blk_writable s) (state s) (vhs s)
    (wp_switch s) (wp_group_bmap s) (wp_group_bits s) (size s) (blk_len s) (multi_blk_cnt s) (erase_start s) (erase_end s) (pwd s) (pwd_len s) (function_group s)
    (current_cmd s) (expecting_acmd s) (blk_written s) (data_start s) (data_offset s) (data_size s) (data s) (ocr_power_timer s) (vclock s) (entropy s).

Definition raise_status (sd : SDState) (m : Z) : SDState := sd <| card_status := card_status sd .| m |>.
Definition high_capacity (sd : SDState) : bool := flag (ocr sd) OCR_CARD_CAPACITY.

(** Whether the card is in the data transfer mode of [sd_mode]. *)
Definition sd_data_transfer_mode (sd : SDState) : bool := (sd_standby_state <=? state sd) && (state sd <=? sd_disconnect_state).

Definition sd_crc7_bit (shift_reg b : Z) : Z :=
  let s := u8 (shift_reg .<< 1) in
  if negb ((s .>> 7) .^ b =? 0) then s .^ 0x89 else s.
Definition sd_crc7 (message : list Z) : Z :=
  foldl (fun s m => foldl (fun s i => sd_crc7_bit s ((m .>> i) .& 1)) s [7; 6; 5; 4; 3; 2; 1; 0]) 0 message.
(** The last byte of CID and CSD. *)
Definition with_crc7 (message : list Z) : list Z := message ++ [u8 (sd_crc7 message .<< 1) .| 1].

(** A loop whose body may fail an assertion. *)
Fixpoint foldM {A B} (f : A -> B -> option A) (a : A) (l : list B) : option A :=
  match l with [] => Some a | b :: l => a ← f a b; foldM f a l end.

Definition be_store (n : nat) (v : Z) : list Z := rev (le_store n v).

(** The assertion that the card is not powered up yet. *)
Definition sd_ocr_powerup (sd : SDState) : option SDState :=
  if flag (ocr sd) OCR_CARD_POWER_UP then None
  else
    let sd := sd <| ocr := ocr sd .| OCR_CARD_POWER_UP |> in
    Some (if SDSC_MAX_CAPACITY <? size sd then sd <| ocr := ocr sd .| OCR_CARD_CAPACITY |> else sd).

Definition sd_set_scr (sd : SDState) : SDState :=
  sd <| scr := [2; (2 .<< 4) .| 5; if SD_PHY_SPECv3_01_VERS <=? spec_version sd then 1 .<< 7 else 0; 0; 0; 0; 0; 0] |>.

Definition sd_set_cid (sd : SDState) : SDState :=
  sd <| cid := with_crc7 ([0xaa; 0x58; 0x59; 0x51; 0x45; 0x4D; 0x55; 0x21; 0x01] ++ be_store 4 0xdeadbeef ++ [(2006 - 2000) / 10; ((2006 mod 10) .<< 4) .| 2]) |>.

Definition sd_set_csd (sd : SDState) (sz : Z) : SDState :=
  let hwblock_shift := if sz =? SDSC_MAX_CAPACITY then HWBLOCK_SHIFT + 1 else HWBLOCK_SHIFT in
  let csize := u32 ((sz .>> (CMULT_SHIFT + hwblock_shift)) - 1) in
  let sectsize := (1 .<< (SECTOR_SHIFT + 1)) - 1 in
  let wpsize := (1 .<< (WPGROUP_SHIFT + 1)) - 1 in
  sd <| csd := with_crc7
    (if sz <=? SDSC_MAX_CAPACITY then
       [0x00; 0x26; 0x00; 0x32; 0x5f; 0x50 .| hwblock_shift; 0xe0 .| ((csize .>> 10) .& 0x03); (csize .>> 2) .& 0xff; 0x3f .| ((csize .<< 6) .& 0xc0);
        0xfc .| ((CMULT_SHIFT - 2) .>> 1); 0x40 .| (((CMULT_SHIFT - 2) .<< 7) .& 0x80) .| (sectsize .>> 1); ((sectsize .<< 7) .& 0x80) .| wpsize;
        0x90 .| (hwblock_shift .>> 2); 0x20 .| ((hwblock_shift .<< 6) .& 0xc0); 0x00]
     else
       [0x40; 0x0e; 0x00; 0x32; 0x5b; 0x59; 0x00] ++ be_store 3 (sz / (512 * 1024) - 1) ++ [0x7f; 0x80; 0x0a; 0x40; 0x00]) |>.

Definition sd_req_rca_same (sd : SDState) (arg : Z) : bool := u16 (arg .>> 16) =? rca sd.

Definition sd_blk_len (sd : SDState) : Z := if high_capacity sd then 1 .<< HWBLOCK_SHIFT else blk_len sd.
Definition sd_req_get_address (sd : SDState) (arg : Z) : Z := if high_capacity sd then u64 (arg .<< HWBLOCK_SHIFT) else arg.
Definition sd_addr_to_wpnum (addr : Z) : Z := addr .>> (HWBLOCK_SHIFT + SECTOR_SHIFT + WPGROUP_SHIFT).
Definition sd_wp_addr (sd : SDState) (addr : Z) : bool := Z.testbit (wp_group_bmap sd) (sd_addr_to_wpnum addr).

Definition sd_reset (sd : SDState) : SDState :=
  let sz := match blk sd with Some _ => blk_sectors sd .<< HWBLOCK_SHIFT | None => 0 end in
  let sd := sd <| state := sd_idle_state |> <| rca := 0 |> <| size := sz |> <| ocr := OCR_VDD_VOLTAGE_WIN_HI |> in
  let sd := sd_set_csd (sd_set_cid (sd_set_scr sd)) sz in
  let sd := sd <| card_status := READY_FOR_DATA |> <| sd_status := replicate 64 0 |> in
  let sd := sd <| wp_switch := match blk sd with Some _ => negb (blk_writable sd) | None => false end |> <| wp_group_bits := swrap 32 (sd_addr_to_wpnum sz + 1) |> <| wp_group_bmap := 0 |> in
  let sd := sd <| function_group := replicate 6 0 |> <| erase_start := INVALID_ADDRESS |> <| erase_end := INVALID_ADDRESS |> in
  sd <| blk_len := 0x200 |> <| pwd_len := 0 |> <| expecting_acmd := false |> <| multi_blk_cnt := 0 |>.

(** A new card with the medium [b] of so many sectors. *)
Definition sd_instance_init (b : option (Z -> Z)) (sectors : Z) (writable : bool) (version now : Z) (rng : nat -> Z) : SDState :=
  mkSD 0 (replicate 8 0) (replicate 16 0) (replicate 16 0) 0 0 (replicate 64 0) version b sectors writable 0 0 false 0 0 0 0 0 0 0 (replicate 16 0) 0 (replicate 6 0)
    0 false 0 0 0 0 (replicate 512 0) None now rng.

(** Transfers between the block buffer and the medium.  Reads are checked against
    the size before; a write beyond the end has no effect. *)
Definition sd_blk_read (sd : SDState) (addr len : Z) : SDState :=
  match blk sd with
  | Some b => sd <| data := mem_load b addr len ++ drop (Z.to_nat len) (data sd) |>
  | None => sd
  end.
Definition sd_blk_write (sd : SDState) (addr len : Z) : SDState :=
  match blk sd with
  | Some b => if addr + len <=? blk_sectors sd .<< HWBLOCK_SHIFT then sd <| blk := Some (mem_store b addr (take (Z.to_nat len) (data sd))) |> else sd
  | None => sd
  end.

Definition address_in_range (sd : SDState) (addr length : Z) : bool * SDState :=
  if size sd <? u64 (addr + length) then (false, raise_status sd ADDRESS_ERROR) else (true, sd).

(** ** Commands

    A handler returns the card and the type of the response. *)

Definition handler : Type := SDState -> Z -> option (SDState * sd_rsp_type_t).

Definition sd_cmd_illegal : handler := fun sd _ => Some (sd, sd_illegal).
Definition sd_cmd_unimplemented : handler := fun sd _ => Some (sd, sd_illegal).
Definition sd_cmd_optional : handler := fun sd _ => Some (sd, sd_illegal).

(** Most commands are for a card in one state. *)
Definition sd_in_state (sd : SDState) (st : Z) (k : SDState * sd_rsp_type_t) : option (SDState * sd_rsp_type_t) :=
  Some (if negb (state sd =? st) then (sd, sd_illegal) else k).

Definition sd_cmd_to_receivingdata (sd : SDState) (start sz : Z) : option (SDState * sd_rsp_type_t) :=
  sd_in_state sd sd_transfer_state
    (sd <| state := sd_receivingdata_state |> <| data_start := start |> <| data_offset := 0 |> <| data_size := if sz =? 0 then zlen (data sd) else sz |>, sd_r1).

(** [d] is the data to send, unless it is in the buffer already; its size is
    asserted to be that of some data that the buffer can hold. *)
Definition sd_cmd_to_sendingdata (sd : SDState) (start : Z) (d : option (list Z)) (sz : Z) : option (SDState * sd_rsp_type_t) :=
  if negb (state sd =? sd_transfer_state) then Some (sd, sd_illegal)
  else
    let sd := sd <| state := sd_sendingdata_state |> <| data_start := start |> <| data_offset := 0 |> in
    sd ← match d with
         | Some bs => if (0 <? sz) && (sz <=? 512) then Some (sd <| data := bs ++ drop (Z.to_nat sz) (data sd) |>) else None
         | None => Some sd
         end;
    Some (if sz =? 0 then sd else sd <| data_size := sz |>, sd_r1).

(** CMD0 *)
Definition sd_cmd_GO_IDLE_STATE : handler := fun sd arg =>
  Some (if (state sd =? sd_sleep_state) && negb ((arg =? 0) || (arg =? 0xf0f0f0f0)) then (sd, sd_r0)
        else if state sd =? sd_inactive_state then (sd, sd_r0)
        else (sd_reset (sd <| state := sd_idle_state |>), sd_r0)).

(** CMD2 *)
Definition sd_cmd_ALL_SEND_CID : handler := fun sd _ =>
  sd_in_state sd sd_ready_state (sd <| state := sd_identification_state |>, sd_r2_i).

(** CMD3 *)
Definition sd_cmd_SEND_RELATIVE_ADDR : handler := fun sd _ =>
  Some (if (state sd =? sd_identification_state) || (state sd =? sd_standby_state) then
          (sd <| state := sd_standby_state |> <| rca := u16 (entropy sd O) |> <| entropy := fun n => entropy sd (S n) |>, sd_r6)
        else (sd, sd_illegal)).

(** CMD6: the status of the six function groups. *)
Definition sd_function_group (arg : Z) (sd : SDState) (i : Z) : SDState :=
  let new_func := (arg .>> (i * 4)) .& 0x0f in
  let sd := if flag arg 0x80000000 && negb (new_func =? 0x0f) then sd <| function_group := (function_group sd).[i <- new_func] |> else sd in
  sd <| data := (data sd).[16 - (i .>> 1) <- (data sd).[16 - (i .>> 1)] .| (new_func .<< ((i mod 2) * 4))] |>.
Definition sd_function_switch (sd : SDState) (arg : Z) : SDState :=
  let sd := sd <| data := [0x00; 0x01; 0x80; 0x01; 0x80; 0x01; 0x80; 0x01; 0x80; 0x01; 0x80; 0x43; 0x80; 0x03] ++ [0; 0; 0] ++ drop 17 (data sd) |> in
  let sd := foldl (sd_function_group arg) sd (seqZ 0 6) in
  sd <| data := take 17 (data sd) ++ replicate 47 0 ++ drop 64 (data sd) |>.
Definition sd_cmd_SWITCH_FUNCTION : handler := fun sd arg =>
  if negb (sd_data_transfer_mode sd) then Some (sd, sd_illegal)
  else if negb (state sd =? sd_transfer_state) then Some (sd, sd_illegal)
  else sd_cmd_to_sendingdata (sd_function_switch sd arg) 0 None 64.

(** CMD7 *)
Definition sd_cmd_DE_SELECT_CARD : handler := fun sd arg =>
  let same_rca := sd_req_rca_same sd arg in
  let st := state sd in
  Some (if st =? sd_standby_state then
          if same_rca then (sd <| state := sd_transfer_state |>, sd_r1b) else (sd, sd_r0)
        else if (st =? sd_transfer_state) || (st =? sd_sendingdata_state) then
          if same_rca then (sd, sd_illegal) else (sd <| state := sd_standby_state |>, sd_r1b)
        else if st =? sd_disconnect_state then
          if same_rca then (sd <| state := sd_programming_state |>, sd_r1b) else (sd, sd_r0)
        else if st =? sd_programming_state then
          if same_rca then (sd, sd_illegal) else (sd <| state := sd_disconnect_state |>, sd_r1b)
        else (sd, sd_illegal)).

Fixpoint ctz_pos (p : positive) : Z := match p with xO p => 1 + ctz_pos p | _ => 0 end.
Definition ctz32 (v : Z) : Z := match v with Zpos p => ctz_pos p | _ => 32 end.

(** CMD8: exactly one bit of the voltage field. *)
Definition sd_cmd_SEND_IF_COND : handler := fun sd arg =>
  sd_in_state sd sd_idle_state
    (let sd := sd <| vhs := 0 |> in
     if (arg .>> 8 =? 0) || negb (arg .>> (ctz32 (arg .& u32 (.~ 0xff)) + 1) =? 0) then (sd, sd_r0) else (sd <| vhs := arg |>, sd_r7)).

(** CMD9, CMD10 *)
Definition sd_cmd_SEND_CSD : handler := fun sd arg => sd_in_state sd sd_standby_state (sd, if sd_req_rca_same sd arg then sd_r2_s else sd_r0).
Definition sd_cmd_SEND_CID : handler := fun sd arg => sd_in_state sd sd_standby_state (sd, if sd_req_rca_same sd arg then sd_r2_i else sd_r0).

(** CMD12 *)
Definition sd_cmd_STOP_TRANSMISSION : handler := fun sd _ =>
  Some (if state sd =? sd_sendingdata_state then (sd <| state := sd_transfer_state |>, sd_r1b)
        else if state sd =? sd_receivingdata_state then (sd <| state := sd_transfer_state |>, sd_r1)
        else (sd, sd_illegal)).

(** CMD13 *)
Definition sd_cmd_SEND_STATUS : handler := fun sd arg =>
  Some (if negb (sd_data_transfer_mode sd) then (sd, sd_illegal) else (sd, if sd_req_rca_same sd arg then sd_r1 else sd_r0)).

(** CMD15 *)
Definition sd_cmd_GO_INACTIVE_STATE : handler := fun sd arg =>
  Some (if negb (sd_data_transfer_mode sd) then (sd, sd_illegal)
        else (if sd_req_rca_same sd arg then sd <| state := sd_inactive_state |> else sd, sd_r0)).

(** CMD16 *)
Definition sd_cmd_SET_BLOCKLEN : handler := fun sd arg =>
  sd_in_state sd sd_transfer_state
    (if (1 .<< HWBLOCK_SHIFT) <? arg then raise_status sd BLOCK_LEN_ERROR else sd <| blk_len := arg |>, sd_r1).

(** CMD17 *)
Definition sd_cmd_READ_SINGLE_BLOCK : handler := fun sd arg =>
  if negb (state sd =? sd_transfer_state) then Some (sd, sd_illegal)
  else
    let addr := sd_req_get_address sd arg in
    let '(ok, sd) := address_in_range sd addr (blk_len sd) in
    if negb ok then Some (sd, sd_r1)
    else sd_cmd_to_sendingdata (sd_blk_read sd addr (blk_len sd)) addr None (blk_len sd).

Definition sd_tuning_block_pattern4 : list Z :=
  [0xff; 0x0f; 0xff; 0x00; 0x0f; 0xfc; 0xc3; 0xcc; 0xc3; 0x3c; 0xcc; 0xff; 0xfe; 0xff; 0xfe; 0xef;
   0xff; 0xdf; 0xff; 0xdd; 0xff; 0xfb; 0xff; 0xfb; 0xbf; 0xff; 0x7f; 0xff; 0x77; 0xf7; 0xbd; 0xef;
   0xff; 0xf0; 0xff; 0xf0; 0x0f; 0xfc; 0xcc; 0x3c; 0xcc; 0x33; 0xcc; 0xcf; 0xff; 0xef; 0xff; 0xee;
   0xff; 0xfd; 0xff; 0xfd; 0xdf; 0xff; 0xbf; 0xff; 0xbb; 0xff; 0xf7; 0xff; 0xf7; 0x7f; 0x7b; 0xde].
(** CMD19 *)
Definition sd_cmd_SEND_TUNING_BLOCK : handler := fun sd arg =>
  if spec_version sd <? SD_PHY_SPECv3_01_VERS then sd_cmd_illegal sd arg
  else sd_cmd_to_sendingdata sd 0 (Some sd_tuning_block_pattern4) 64.

(** CMD23 *)
Definition sd_cmd_SET_BLOCK_COUNT : handler := fun sd arg =>
  if spec_version sd <? SD_PHY_SPECv3_01_VERS then sd_cmd_illegal sd arg
  else sd_in_state sd sd_transfer_state (sd <| multi_blk_cnt := arg |>, sd_r1).

(** The write protection of the addressed group (on a standard capacity card) and
    of the whole card. *)
Definition sd_check_wp (sd : SDState) (addr : Z) : SDState :=
  let sd := if (size sd <=? SDSC_MAX_CAPACITY) && sd_wp_addr sd addr then raise_status sd WP_VIOLATION else sd in
  if flag ((csd sd).[14]) 0x30 then raise_status sd WP_VIOLATION else sd.

(** CMD24 *)
Definition sd_cmd_WRITE_SINGLE_BLOCK : handler := fun sd arg =>
  if negb (state sd =? sd_transfer_state) then Some (sd, sd_illegal)
  else
    let addr := sd_req_get_address sd arg in
    let '(ok, sd) := address_in_range sd addr (blk_len sd) in
    if negb ok then Some (sd, sd_r1)
    else sd_cmd_to_receivingdata ((sd_check_wp sd addr) <| blk_written := 0 |>) addr (blk_len sd).

(** CMD27 *)
Definition sd_cmd_PROGRAM_CSD : handler := fun sd _ => sd_cmd_to_receivingdata sd 0 16.

(** CMD28, CMD29 *)
Definition sd_cmd_SET_CLR_WRITE_PROT (is_write : bool) : handler := fun sd arg =>
  if SDSC_MAX_CAPACITY <? size sd then Some (sd, sd_illegal)
  else
    sd_in_state sd sd_transfer_state
      (let addr := sd_req_get_address sd arg in
       let '(ok, sd) := address_in_range sd addr 1 in
       if negb ok then (sd, sd_r1b)
       else (sd <| wp_group_bmap := (if is_write then Z.setbit else Z.clearbit) (wp_group_bmap sd) (sd_addr_to_wpnum addr) |>
                <| state := sd_transfer_state |>, sd_r1)).
Definition sd_cmd_SET_WRITE_PROT : handler := sd_cmd_SET_CLR_WRITE_PROT true.
Definition sd_cmd_CLR_WRITE_PROT : handler := sd_cmd_SET_CLR_WRITE_PROT false.

(** CMD30: the protection of 32 groups from [addr] on, with the assertion that the
    bitmap has a bit for each of them that is on the card. *)
Definition sd_wpbit (sd : SDState) (addr : Z) (ret : Z) (i : Z) : option Z :=
  let wpnum := u32 (sd_addr_to_wpnum addr + i) in
  if size sd <=? addr + i * WPGROUP_SIZE then Some ret
  else if negb (wpnum <? u32 (wp_group_bits sd)) then None
  else Some (if Z.testbit (wp_group_bmap sd) wpnum then ret .| (1 .<< i) else ret).
Definition sd_wpbits (sd : SDState) (addr : Z) : option Z := foldM (sd_wpbit sd addr) 0 (seqZ 0 32).
Definition sd_cmd_SEND_WRITE_PROT : handler := fun sd arg =>
  if SDSC_MAX_CAPACITY <? size sd then Some (sd, sd_illegal)
  else if negb (state sd =? sd_transfer_state) then Some (sd, sd_illegal)
  else
    let addr := sd_req_get_address sd arg in
    let '(ok, sd) := address_in_range sd addr (blk_len sd) in
    if negb ok then Some (sd, sd_r1)
    else wp ← sd_wpbits sd arg; sd_cmd_to_sendingdata sd addr (Some (le_store 4 wp)) 4.

(** CMD32, CMD33 *)
Definition sd_cmd_ERASE_WR_BLK_START : handler := fun sd arg => sd_in_state sd sd_transfer_state (sd <| erase_start := arg |>, sd_r1).
Definition sd_cmd_ERASE_WR_BLK_END : handler := fun sd arg => sd_in_state sd sd_transfer_state (sd <| erase_end := arg |>, sd_r1).

(** CMD38: the blocks from [erase_start] to [erase_end] are filled, but for those
    of a protected group; the group of a block is asserted to be in the bitmap. *)
Definition sd_erase_block (sdsc : bool) (sd : SDState) (erase_addr : Z) : option SDState :=
  let wpnum := sd_addr_to_wpnum erase_addr in
  if sdsc && negb (wpnum <? u64 (wp_group_bits sd)) then None
  else Some (if sdsc && Z.testbit (wp_group_bmap sd) wpnum then raise_status sd WP_ERASE_SKIP
             else sd_blk_write sd erase_addr (1 .<< HWBLOCK_SHIFT)).
Definition sd_erase (sd : SDState) : option SDState :=
  let done := sd <| erase_start := INVALID_ADDRESS |> <| erase_end := INVALID_ADDRESS |> in
  if (erase_start sd =? INVALID_ADDRESS) || (erase_end sd =? INVALID_ADDRESS) then Some (raise_status done ERASE_SEQ_ERROR)
  else
    let sdsc := negb (high_capacity sd) in
    let first := if sdsc then erase_start sd else erase_start sd .<< HWBLOCK_SHIFT in
    let last := if sdsc then erase_end sd else erase_end sd .<< HWBLOCK_SHIFT in
    if (size sd <? first) || (size sd <? last) then Some (raise_status done OUT_OF_RANGE)
    else
      let sd := done <| csd := (csd done).[14 <- (csd done).[14] .| 0x40] |> <| data := replicate 512 0xff |> in
      foldM (sd_erase_block sdsc) sd (map (fun i => first + i * (1 .<< HWBLOCK_SHIFT)) (seqZ 0 ((last - first) / (1 .<< HWBLOCK_SHIFT) + 1))).
Definition sd_cmd_ERASE : handler := fun sd _ =>
  if negb (state sd =? sd_transfer_state) then Some (sd, sd_illegal)
  else if flag ((csd sd).[14]) 0x30 then Some (raise_status sd WP_VIOLATION, sd_r1b)
  else sd ← sd_erase sd; Some (sd <| state := sd_transfer_state |>, sd_r1b).

(** CMD42 *)
Definition sd_cmd_LOCK_UNLOCK : handler := fun sd _ => sd_cmd_to_receivingdata sd 0 0.

(** CMD55 *)
Definition sd_cmd_APP_CMD : handler := fun sd arg =>
  Some (if (state sd =? sd_ready_state) || (state sd =? sd_identification_state) || (state sd =? sd_inactive_state) || (state sd =? sd_sleep_state)
        then (sd, sd_illegal)
        else if negb (sd_req_rca_same sd arg) then (sd, sd_r0)
        else (raise_status (sd <| expecting_acmd := true |>) APP_CMD, sd_r1)).

(** CMD56 *)
Definition sd_cmd_GEN_CMD : handler := fun sd arg =>
  if negb (state sd =? sd_transfer_state) then Some (sd, sd_illegal)
  else if flag arg 1 then sd_cmd_to_sendingdata (sd <| data := replicate 512 0 |>) 0 None 0
  else sd_cmd_to_receivingdata sd 0 0.

(** ACMD6, ACMD13, ACMD22, ACMD23 *)
Definition sd_acmd_SET_BUS_WIDTH : handler := fun sd arg =>
  sd_in_state sd sd_transfer_state
    (sd <| sd_status := (sd_status sd).[0 <- ((sd_status sd).[0] .& 0x3f) .| ((arg .& 0x03) .<< 6)] |>, sd_r1).
Definition sd_acmd_SD_STATUS : handler := fun sd _ => sd_cmd_to_sendingdata sd 0 (Some (sd_status sd)) 64.
Definition sd_acmd_SEND_NUM_WR_BLOCKS : handler := fun sd _ => sd_cmd_to_sendingdata sd 0 (Some (le_store 4 (blk_written sd))) 4.
Definition sd_acmd_SET_WR_BLK_ERASE_COUNT : handler := fun sd _ => sd_in_state sd sd_transfer_state (sd, sd_r1).

(** ACMD41: power-up, at once or after a delay if the command only enquires. *)
Definition sd_cmd_SEND_OP_COND : handler := fun sd arg =>
  if negb (state sd =? sd_idle_state) then Some (sd, sd_illegal)
  else
    sd ← (if flag (ocr sd) OCR_CARD_POWER_UP then Some sd
          else if flag arg ACMD41_ENQUIRY_MASK then sd_ocr_powerup (sd <| ocr_power_timer := None |>)
          else Some (match ocr_power_timer sd with
                     | Some _ => sd
                     | None => sd <| ocr_power_timer := Some (vclock sd + OCR_POWER_DELAY_NS) |>
                     end));
    Some (if flag (ocr sd .& arg) 0xFFFFFF then sd <| state := sd_ready_state |> else sd, sd_r3).

(** ACMD42, ACMD51 *)
Definition sd_acmd_SET_CLR_CARD_DETECT : handler := fun sd _ => sd_in_state sd sd_transfer_state (sd, sd_r1).
Definition sd_acmd_SEND_SCR : handler := fun sd _ => sd_cmd_to_sendingdata sd 0 (Some (scr sd)) 8.

(** The power-up timer expires. *)
Definition sd_timer (sd : SDState) : option SDState :=
  match ocr_power_timer sd with
  | Some t => if t <=? vclock sd then sd_ocr_powerup (sd <| ocr_power_timer := None |>) else Some sd
  | None => Some sd
  end.

(** ** The protocol table

    Class and handler of the commands and application commands that have an
    entry. *)
Definition sd_proto_cmd : list (Z * (Z * handler)) :=
  [(0, (0, sd_cmd_GO_IDLE_STATE)); (2, (0, sd_cmd_ALL_SEND_CID)); (3, (0, sd_cmd_SEND_RELATIVE_ADDR)); (4, (0, sd_cmd_unimplemented));
   (5, (9, sd_cmd_optional)); (6, (10, sd_cmd_SWITCH_FUNCTION)); (7, (0, sd_cmd_DE_SELECT_CARD)); (8, (0, sd_cmd_SEND_IF_COND));
   (9, (0, sd_cmd_SEND_CSD)); (10, (0, sd_cmd_SEND_CID)); (11, (0, sd_cmd_optional)); (12, (0, sd_cmd_STOP_TRANSMISSION));
   (13, (0, sd_cmd_SEND_STATUS)); (15, (0, sd_cmd_GO_INACTIVE_STATE)); (16, (2, sd_cmd_SET_BLOCKLEN)); (17, (2, sd_cmd_READ_SINGLE_BLOCK));
   (19, (2, sd_cmd_SEND_TUNING_BLOCK)); (20, (2, sd_cmd_optional)); (23, (2, sd_cmd_SET_BLOCK_COUNT)); (24, (4, sd_cmd_WRITE_SINGLE_BLOCK));
   (27, (4, sd_cmd_PROGRAM_CSD)); (28, (6, sd_cmd_SET_WRITE_PROT)); (29, (6, sd_cmd_CLR_WRITE_PROT)); (30, (6, sd_cmd_SEND_WRITE_PROT));
   (32, (5, sd_cmd_ERASE_WR_BLK_START)); (33, (5, sd_cmd_ERASE_WR_BLK_END)); (34, (10, sd_cmd_optional)); (35, (10, sd_cmd_optional));
   (36, (10, sd_cmd_optional)); (37, (10, sd_cmd_optional)); (38, (5, sd_cmd_ERASE)); (42, (7, sd_cmd_LOCK_UNLOCK)); (43, (1, sd_cmd_optional));
   (44, (1, sd_cmd_optional)); (45, (1, sd_cmd_optional)); (46, (1, sd_cmd_optional)); (47, (1, sd_cmd_optional)); (48, (1, sd_cmd_optional));
   (49, (1, sd_cmd_optional)); (50, (10, sd_cmd_optional)); (52, (9, sd_cmd_optional)); (53, (9, sd_cmd_optional)); (55, (8, sd_cmd_APP_CMD));
   (56, (8, sd_cmd_GEN_CMD)); (57, (10, sd_cmd_optional)); (58, (11, sd_cmd_optional)); (59, (11, sd_cmd_optional))].
Definition sd_proto_acmd : list (Z * (Z * handler)) :=
  [(6, (8, sd_acmd_SET_BUS_WIDTH)); (13, (8, sd_acmd_SD_STATUS)); (22, (8, sd_acmd_SEND_NUM_WR_BLOCKS)); (23, (8, sd_acmd_SET_WR_BLK_ERASE_COUNT));
   (41, (8, sd_cmd_SEND_OP_COND)); (42, (8, sd_acmd_SET_CLR_CARD_DETECT)); (51, (8, sd_acmd_SEND_SCR))].

Fixpoint proto_entry (table : list (Z * (Z * handler))) (cmd : Z) : option (Z * handler) :=
  match table with
  | [] => None
  | (k, e) :: table => if cmd =? k then Some e else proto_entry table cmd
  end.
(** The class field of a command without an entry is zero. *)
Definition cmd_class (cmd : Z) : Z := match proto_entry sd_proto_cmd cmd with Some (c, _) => c | None => 0 end.

(** CMD18 and CMD25, which have no entry. *)
Definition sd_cmd_READ_MULTIPLE_BLOCK : handler := fun sd arg =>
  sd_in_state sd sd_transfer_state
    (let addr := sd_req_get_address sd arg in
     let '(ok, sd) := address_in_range sd addr (blk_len sd) in
     if negb ok then (sd, sd_r1)
     else (sd <| state := sd_sendingdata_state |> <| data_start := addr |> <| data_offset := 0 |>, sd_r1)).
Definition sd_cmd_WRITE_MULTIPLE_BLOCK : handler := fun sd arg =>
  sd_in_state sd sd_transfer_state
    (let addr := sd_req_get_address sd arg in
     let '(ok, sd) := address_in_range sd addr (blk_len sd) in
     if negb ok then (sd, sd_r1)
     else (sd_check_wp (sd <| state := sd_receivingdata_state |> <| data_start := addr |> <| data_offset := 0 |> <| blk_written := 0 |>) addr, sd_r1)).

Definition sd_normal_command (sd : SDState) (cmd arg : Z) : option (SDState * sd_rsp_type_t) :=
  let sd := sd <| card_status := card_status sd .& u32 (.~ APP_CMD) |> in
  let sd := if negb (multi_blk_cnt sd =? 0) && negb ((cmd =? 18) || (cmd =? 25)) then sd <| multi_blk_cnt := 0 |> else sd in
  if (cmd_class cmd =? 6) && high_capacity sd then Some (sd, sd_illegal)
  else
    match proto_entry sd_proto_cmd cmd with
    | Some (_, h) => h sd arg
    | None =>
        if cmd =? 18 then sd_cmd_READ_MULTIPLE_BLOCK sd arg
        else if cmd =? 25 then sd_cmd_WRITE_MULTIPLE_BLOCK sd arg
        else Some (sd, sd_illegal)
    end.

Definition sd_app_command (sd : SDState) (cmd arg : Z) : option (SDState * sd_rsp_type_t) :=
  let sd := raise_status sd APP_CMD in
  match proto_entry sd_proto_acmd cmd with
  | Some (_, h) => h sd arg
  | None =>
      if (cmd =? 18) || (cmd =? 25) || (cmd =? 26) || (cmd =? 38) || ((43 <=? cmd) && (cmd <=? 49)) then Some (sd, sd_illegal)
      else sd_normal_command sd cmd arg
  end.

Definition cmd_valid_while_locked (sd : SDState) (cmd : Z) : bool :=
  if expecting_acmd sd then (cmd =? 41) || (cmd =? 42)
  else if (cmd =? 16) || (cmd =? 55) then true
  else match proto_entry sd_proto_cmd cmd with
       | Some (class, _) => (class =? 0) || (class =? 7)
       | None => false
       end.

Definition sd_response_r1_make (sd : SDState) : list Z * SDState :=
  (be_store 4 (card_status sd), sd <| card_status := card_status sd .& u32 (.~ CARD_STATUS_C) |>).
Definition sd_response_r3_make (sd : SDState) : list Z := be_store 4 (ocr sd .& ACMD41_R3_MASK).
Definition sd_response_r6_make (sd : SDState) : list Z * SDState :=
  let status := u16 (((card_status sd .>> 8) .& 0xc000) .| ((card_status sd .>> 6) .& 0x2000) .| (card_status sd .& 0x1fff)) in
  (be_store 2 (rca sd) ++ be_store 2 status, sd <| card_status := card_status sd .& u32 (.~ (CARD_STATUS_C .& 0xc81fff)) |>).
Definition sd_response_r7_make (sd : SDState) : list Z := be_store 4 (vhs sd).

(** The switch of [sd_do_command] on the type of the response. *)
Definition sd_send_response (sd : SDState) (rtype : sd_rsp_type_t) : list Z * SDState :=
  match rtype with
  | sd_r1 | sd_r1b => sd_response_r1_make sd
  | sd_r2_i => (cid sd, sd)
  | sd_r2_s => (csd sd, sd)
  | sd_r3 => (sd_response_r3_make sd, sd)
  | sd_r6 => sd_response_r6_make sd
  | sd_r7 => (sd_response_r7_make sd, sd)
  | sd_r0 => ([], sd <| data_start := 0 |> <| data_offset := 0 |>)
  | sd_illegal => ([], sd)
  end.

Definition is_illegal (r : sd_rsp_type_t) : bool := match r with sd_illegal => true | _ => false end.

(** A command as far as the response: the card and the type of the response. *)
Definition sd_execute (sd : SDState) (cmd arg : Z) : option (SDState * sd_rsp_type_t) :=
  if state sd =? sd_inactive_state then Some (sd, sd_illegal)
  else if (state sd =? sd_sleep_state) && negb (cmd =? 0) then Some (sd, sd_r0)
  else if flag (card_status sd) CARD_IS_LOCKED && negb (cmd_valid_while_locked sd cmd) then
    Some ((raise_status sd ILLEGAL_COMMAND) <| expecting_acmd := false |>, sd_illegal)
  else
    let last_state := state sd in
    '(sd, rtype) ← (if expecting_acmd sd then sd_app_command (sd <| expecting_acmd := false |>) cmd arg else sd_normal_command sd cmd arg);
    Some (if is_illegal rtype then raise_status sd ILLEGAL_COMMAND
          else sd <| card_status := (card_status sd .& u32 (.~ (0xF .<< 9))) .| ((last_state .& 0xF) .<< 9) |>, rtype).

(** The response and the card. *)
Definition sd_do_command (sd : SDState) (cmd arg : Z) : option (list Z * SDState) :=
  match blk sd with
  | None => Some ([], sd)
  | Some _ =>
      let cmd := if 64 <=? cmd then cmd .& 0x3f else cmd in
      '(sd, rtype) ← sd_execute sd cmd arg;
      let '(response, sd) := sd_send_response sd rtype in
      let sd := if is_illegal rtype then sd else sd <| card_status := card_status sd .& u32 (.~ CARD_STATUS_B) |> in
      Some (response, sd <| current_cmd := if is_illegal rtype then 0 else cmd |>)
  end.

(** ** The data path

    A copy out of the buffer of 512 bytes is undefined. *)

(** How many bytes were taken, whether the buffer is complete, and the card. *)
Definition sd_generic_write_data (sd : SDState) (buf : list Z) : option (Z * bool * SDState) :=
  let to_write := Z.min (u64 (data_size sd - data_offset sd)) (zlen buf) in
  if 512 <? data_offset sd + to_write then None
  else
    let d := data sd in
    let sd := sd <| data := take (Z.to_nat (data_offset sd)) d ++ take (Z.to_nat to_write) buf ++ drop (Z.to_nat (data_offset sd + to_write)) d |> in
    let sd := sd <| data_offset := u32 (data_offset sd + to_write) |> in
    Some (if data_size sd <=? data_offset sd then (to_write, true, sd <| state := sd_transfer_state |>) else (to_write, false, sd)).

Definition sd_generic_read_data (sd : SDState) (length : Z) : option (list Z * SDState) :=
  let to_read := Z.min (u64 (data_size sd - data_offset sd)) length in
  if 512 <? data_offset sd + to_read then None
  else
    let bs := slice (data_offset sd) to_read (data sd) in
    let sd := sd <| data_offset := u32 (data_offset sd + to_read) |> in
    Some (bs, if data_size sd <=? data_offset sd then sd <| state := sd_transfer_state |> else sd).

Definition sd_csd_rw_mask : list Z := [0; 0; 0; 0; 0; 0; 0; 0; 0; 0; 0; 0; 0; 0; 0xfc; 0xfe].

Definition sd_lock_command (sd : SDState) : SDState :=
  let erase := flag ((data sd).[0]) 0x08 in
  let lock := flag ((data sd).[0]) 0x04 in
  let clr_pwd := flag ((data sd).[0]) 0x02 in
  let set_pwd := flag ((data sd).[0]) 0x01 in
  let plen := if 1 <? blk_len sd then (data sd).[1] else 0 in
  let locked := flag (card_status sd) CARD_IS_LOCKED in
  let failed := raise_status sd LOCK_UNLOCK_FAILED in
  if erase then
    if negb locked || (1 <? blk_len sd) || set_pwd || clr_pwd || lock || wp_switch sd || flag ((csd sd).[14]) 0x20 then failed
    else
      let sd := sd <| wp_group_bmap := 0 |> <| csd := (csd sd).[14 <- (csd sd).[14] .& u8 (.~ 0x10)] |> in
      sd <| card_status := card_status sd .& u32 (.~ CARD_IS_LOCKED) |> <| pwd_len := 0 |>
  else if (blk_len sd <? 2 + plen) || (plen <=? pwd_len sd) || (pwd_len sd + 16 <? plen) then failed
  else if negb (pwd_len sd =? 0) && negb (bool_decide (take (Z.to_nat (pwd_len sd)) (pwd sd) = slice 2 (pwd_len sd) (data sd))) then failed
  else
    let old := pwd_len sd in
    let plen := plen - old in
    if (negb (plen =? 0) && negb set_pwd) || (clr_pwd && (set_pwd || lock)) || (lock && (old =? 0) && negb set_pwd) ||
       (negb set_pwd && negb clr_pwd && ((locked && lock) || (negb locked && negb lock))) then failed
    else
      let sd := if set_pwd then sd <| pwd := slice (2 + old) plen (data sd) ++ drop (Z.to_nat plen) (pwd sd) |> <| pwd_len := plen |> else sd in
      let sd := if clr_pwd then sd <| pwd_len := 0 |> else sd in
      if lock then sd <| card_status := card_status sd .| CARD_IS_LOCKED |> else sd <| card_status := card_status sd .& u32 (.~ CARD_IS_LOCKED) |>.

(** The block in the buffer goes to the medium. *)
Definition sd_commit (sd : SDState) : SDState :=
  let sd := sd_blk_write sd (data_start sd) (data_offset sd) in
  let sd := sd <| blk_written := u32 (blk_written sd + 1) |> in
  sd <| csd := (csd sd).[14 <- (csd sd).[14] .| 0x40] |>.

(** A byte of a WRITE_MULTIPLE_BLOCK. *)
Definition sd_write_multiple (sd : SDState) (value : Z) : option SDState :=
  let '(ok, sd) :=
    if data_offset sd =? 0 then
      let '(ok, sd) := address_in_range sd (data_start sd) (blk_len sd) in
      if negb ok then (false, sd)
      else if (size sd <=? SDSC_MAX_CAPACITY) && sd_wp_addr sd (data_start sd) then (false, raise_status sd WP_VIOLATION)
      else (true, sd)
    else (true, sd) in
  if negb ok then Some sd
  else if 512 <=? data_offset sd then None
  else
    let sd := sd <| data := (data sd).[data_offset sd <- value] |> <| data_offset := data_offset sd + 1 |> in
    Some
      (if data_offset sd <? blk_len sd then sd
       else
         let sd := sd_commit sd in
         let sd := sd <| data_start := u64 (data_start sd + blk_len sd) |> <| data_offset := 0 |> in
         if negb (multi_blk_cnt sd =? 0) then
           let sd := sd <| multi_blk_cnt := multi_blk_cnt sd - 1 |> in
           if multi_blk_cnt sd =? 0 then sd <| state := sd_transfer_state |> else sd <| state := sd_receivingdata_state |>
         else sd <| state := sd_receivingdata_state |>).

Definition sd_program_cid (sd : SDState) : SDState :=
  let sd := if bool_decide (cid sd = take 16 (data sd)) then sd else raise_status sd CID_CSD_OVERWRITE in
  if flag (card_status sd) CID_CSD_OVERWRITE then sd
  else sd <| cid := zip_with Z.land (cid sd) (take 16 (data sd)) |>.

Definition sd_program_csd (sd : SDState) : SDState :=
  let sd := if bool_decide (zip_with Z.lor (csd sd) sd_csd_rw_mask = zip_with Z.lor (take 16 (data sd)) sd_csd_rw_mask) then sd
            else raise_status sd CID_CSD_OVERWRITE in
  let sd := if flag ((csd sd).[14] .& .~ (data sd).[14]) 0x60 then raise_status sd CID_CSD_OVERWRITE else sd in
  if flag (card_status sd) CID_CSD_OVERWRITE then sd
  else sd <| csd := zip_with Z.land (zip_with Z.lor (csd sd) sd_csd_rw_mask) (take 16 (data sd)) |>.

(** What a command does with its block once it is complete; [None] is the
    unreachable case asserted by the code. *)
Definition sd_finish (cmd : Z) : option (SDState -> SDState) :=
  if cmd =? 24 then Some sd_commit
  else if cmd =? 26 then Some sd_program_cid
  else if cmd =? 27 then Some sd_program_csd
  else if cmd =? 42 then Some sd_lock_command
  else if cmd =? 56 then Some (fun sd => sd)
  else None.

(** The bytes taken, and the card. *)
Definition sd_write_data (sd : SDState) (buf : list Z) : option (Z * SDState) :=
  match blk sd with
  | None => Some (zlen buf, sd)
  | Some _ =>
      if negb (state sd =? sd_receivingdata_state) then Some (zlen buf, sd)
      else if flag (card_status sd) (ADDRESS_ERROR .| WP_VIOLATION) then Some (zlen buf, sd)
      else if current_cmd sd =? 25 then sd ← sd_write_multiple sd (buf.[0]); Some (1, sd)
      else
        f ← sd_finish (current_cmd sd);
        '(n, complete, sd) ← sd_generic_write_data sd buf;
        Some (n, if complete : bool then (f sd) <| state := sd_transfer_state |> else sd)
  end.

(** A byte of a READ_MULTIPLE_BLOCK. *)
Definition sd_read_multiple (sd : SDState) : option (list Z * SDState) :=
  let io_len := sd_blk_len sd in
  let '(ok, sd) :=
    if data_offset sd =? 0 then
      let '(ok, sd) := address_in_range sd (data_start sd) io_len in
      if ok : bool then (true, sd_blk_read sd (data_start sd) io_len) else (false, sd)
    else (true, sd) in
  if negb ok then Some ([], sd)
  else if 512 <=? data_offset sd then None
  else
    let value := (data sd).[data_offset sd] in
    let sd := sd <| data_offset := data_offset sd + 1 |> in
    Some ([value],
      if data_offset sd <? io_len then sd
      else
        let sd := sd <| data_start := u64 (data_start sd + io_len) |> <| data_offset := 0 |> in
        if negb (multi_blk_cnt sd =? 0) then
          let sd := sd <| multi_blk_cnt := multi_blk_cnt sd - 1 |> in
          if multi_blk_cnt sd =? 0 then sd <| state := sd_transfer_state |> else sd
        else sd).

(** The commands whose data is prepared in the buffer. *)
Definition sd_buffered_read (cmd : Z) : bool := existsb (Z.eqb cmd) [6; 8; 9; 10; 13; 17; 19; 22; 30; 51; 56].

Definition sd_read_data (sd : SDState) (length : Z) : option (list Z * SDState) :=
  let dummy := Some (replicate (Z.to_nat length) 0, sd) in
  match blk sd with
  | None => dummy
  | Some _ =>
      if negb (state sd =? sd_sendingdata_state) then dummy
      else if flag (card_status sd) (ADDRESS_ERROR .| WP_VIOLATION) then dummy
      else if sd_buffered_read (current_cmd sd) then sd_generic_read_data sd length
      else if current_cmd sd =? 18 then sd_read_multiple sd
      else dummy
  end.

Definition sd_get_inserted (sd : SDState) : bool := match blk sd with Some _ => true | None => false end.

(** The card as an instance of the class. *)
#[export] Instance sd_card_class : SDCardClass SDState := {|
  do_command := sd_do_command;
  write_data := sd_write_data;
  read_data := sd_read_data;
  get_inserted := sd_get_inserted;
|}.
