(* ===== verification/SdStream.v ===== *)
(** * SdStream: the SD memory card as a stream

    The card of [SdCard] never accesses its buffer out of bounds and fails none of
    its assertions if the host does not ask for its status in the middle of a
    multiple-block read and writes data only to a command that takes it
    ([sd_safe]).  On that ground it is a stream in the sense of [Sd.SDStream]. *)
From S2P Require Import Prelude Sd SdCard.

(** ** The buffer *)

Record core_ok (sd : SDState) : Prop := {
  ok_data : length (data sd) = 512%nat;
  ok_status : length (sd_status sd) = 64%nat;
  ok_scr : length (scr sd) = 8%nat;
  ok_offset : 0 <= data_offset sd <= 512;
  ok_size : 0 <= data_size sd <= 512;
  ok_len : 0 <= blk_len sd <= 512;
  ok_timer : ocr_power_timer sd <> None -> flag (ocr sd) OCR_CARD_POWER_UP = false;
  ok_medium : 0 <= blk_sectors sd < 2 ^ 42;
  ok_bits : wp_group_bits sd = sd_addr_to_wpnum (size sd) + 1 /\ 0 < wp_group_bits sd < 2 ^ 31;
}.

(** The transfer that command [cur] started indexes the buffer in bounds. *)
Definition phase_ok (cur : Z) (sd : SDState) : Prop :=
  (state sd = sd_sendingdata_state -> sd_buffered_read cur = true -> data_offset sd <= data_size sd) /\
  (state sd = sd_receivingdata_state -> sd_finish cur <> None -> data_offset sd < data_size sd) /\
  (state sd = sd_sendingdata_state -> cur = 18 -> data_offset sd < 512) /\
  (state sd = sd_receivingdata_state -> cur = 25 -> data_offset sd < 512).

Definition sd_ok (sd : SDState) : Prop := core_ok sd /\ phase_ok (current_cmd sd) sd.

(** What the handlers do to that: a data phase starts at offset zero, and the
    commands accepted in the middle of one leave it as it is. *)
Definition mid_phase (cmd : Z) : bool := (cmd =? 13) || (cmd =? 15) || (cmd =? 55).
Definition phase_start (cmd : Z) (sd : SDState) : Prop := data_offset sd = 0 /\ (state sd = sd_receivingdata_state -> sd_finish cmd <> None -> 0 < data_size sd).
Definition handler_ok (cmd : Z) (h : handler) : Prop := forall sd arg, core_ok sd -> 0 <= arg ->
  exists sd' r, h sd arg = Some (sd', r) /\ core_ok sd' /\
    (is_illegal r = false -> state sd' = sd_sendingdata_state \/ state sd' = sd_receivingdata_state ->
     phase_start cmd sd' \/ mid_phase cmd = true /\ data_offset sd' = data_offset sd /\ data_size sd' = data_size sd /\ state sd' = state sd).

(** A part of the card that [core_ok] does not look at. *)
Lemma core_ok_same sd sd' : core_ok sd -> data sd' = data sd -> sd_status sd' = sd_status sd -> scr sd' = scr sd -> data_offset sd' = data_offset sd ->
  data_size sd' = data_size sd -> blk_len sd' = blk_len sd -> ocr_power_timer sd' = ocr_power_timer sd -> ocr sd' = ocr sd ->
  blk_sectors sd' = blk_sectors sd -> size sd' = size sd -> wp_group_bits sd' = wp_group_bits sd -> core_ok sd'.
Proof. intros [] E1 E2 E3 E4 E5 E6 E7 E8 E9 E10 E11. split; rewrite ?E1, ?E2, ?E3, ?E4, ?E5, ?E6, ?E7, ?E8, ?E9, ?E10, ?E11; done. Qed.

Ltac core_same := by (eapply core_ok_same; [eassumption|reflexivity..]).

Lemma in_state_ok cmd st (f : SDState -> Z -> SDState * sd_rsp_type_t) :
  (forall sd arg, core_ok sd -> 0 <= arg -> state sd = st -> core_ok (f sd arg).1 /\
    (is_illegal (f sd arg).2 = false -> state (f sd arg).1 = sd_sendingdata_state \/ state (f sd arg).1 = sd_receivingdata_state -> phase_start cmd (f sd arg).1)) ->
  handler_ok cmd (fun sd arg => sd_in_state sd st (f sd arg)).
Proof.
  intros Hf sd arg Hc Ha. unfold sd_in_state. destruct (Z.eqb_spec (state sd) st) as [Hst|]; cbn [negb]; [|eexists _, _; split; [done|]; split; [done | done]].
  destruct (Hf sd arg Hc Ha Hst) as [H1 H2]. destruct (f sd arg) as [sd' r]. exists sd', r. split; [done|]. split; [done|]. intros Hi Hs. left. by apply H2.
Qed.

(** The two ways into a data phase. *)
Lemma to_receiving_ok cmd sd start sz : core_ok sd -> 0 <= sz <= 512 ->
  exists sd' r, sd_cmd_to_receivingdata sd start sz = Some (sd', r) /\ core_ok sd' /\ (is_illegal r = false -> phase_start cmd sd').
Proof.
  intros [] Hs. unfold sd_cmd_to_receivingdata, sd_in_state. destruct (negb _); (eexists _, _; split; [done|]); [by split|].
  split; [|intros _; split; [done|]; cbn; intros _ _]; [split; cbn; try done|]; destruct (Z.eqb_spec sz 0); lia.
Qed.
Lemma to_sending_ok cmd sd start d sz : core_ok sd -> 0 <= sz <= 512 -> match d with Some bs => zlen bs = sz /\ 0 < sz | None => True end ->
  exists sd' r, sd_cmd_to_sendingdata sd start d sz = Some (sd', r) /\ core_ok sd' /\ (is_illegal r = false -> phase_start cmd sd').
Proof.
  intros [] Hs Hd. unfold sd_cmd_to_sendingdata. destruct (negb _); [eexists _, _; split; [done|]; by split|]. cbv zeta. destruct d as [bs|].
  - destruct Hd as [Hl Hp]. rewrite (proj2 (Z.ltb_lt 0 sz)), (proj2 (Z.leb_le sz 512)), (proj2 (Z.eqb_neq sz 0)) by lia. cbn [andb mbind option_bind].
    eexists _, _. split; [done|]. split; [|done]. split; cbn; try done. rewrite length_app, length_drop. lia.
  - cbn [mbind option_bind]. eexists _, _. split; [done|]. destruct (sz =? 0); (split; [by split|done]).
Qed.

(** A handler that leaves the transfer, the buffer and the power state alone, or
    ends the data phase. *)
Ltac state_cases :=
  repeat match goal with
         | |- context [if negb ?b then _ else _] => destruct b eqn:?; cbn [negb]
         | |- context [if ?b then _ else _] => destruct b eqn:?
         end.
Ltac state_lia :=
  unfold sd_data_transfer_mode, sd_inactive_state, sd_idle_state, sd_ready_state, sd_identification_state, sd_standby_state, sd_transfer_state,
    sd_sendingdata_state, sd_receivingdata_state, sd_programming_state, sd_disconnect_state, sd_sleep_state in *; cbn in *; lia.
Ltac quiet :=
  intros sd arg Hc Ha; unfold sd_in_state; cbv zeta; state_cases;
  (eexists _, _; split; [reflexivity|]; split;
   [core_same | cbn [is_illegal]; intros Hi Hs; try discriminate Hi; first [by left | by right | exfalso; destruct Hs; state_lia]]).

Lemma quiet_handlers : Forall (fun e => handler_ok e.1 e.2)
  [(2, sd_cmd_ALL_SEND_CID); (3, sd_cmd_SEND_RELATIVE_ADDR); (4, sd_cmd_unimplemented); (5, sd_cmd_optional); (7, sd_cmd_DE_SELECT_CARD);
   (8, sd_cmd_SEND_IF_COND); (9, sd_cmd_SEND_CSD); (10, sd_cmd_SEND_CID); (12, sd_cmd_STOP_TRANSMISSION);
   (13, sd_cmd_SEND_STATUS); (15, sd_cmd_GO_INACTIVE_STATE); (32, sd_cmd_ERASE_WR_BLK_START); (33, sd_cmd_ERASE_WR_BLK_END); (55, sd_cmd_APP_CMD);
   (23, sd_acmd_SET_WR_BLK_ERASE_COUNT); (42, sd_acmd_SET_CLR_CARD_DETECT)].
Proof.
  repeat apply Forall_cons_2; try apply Forall_nil_2; cbn [fst snd];
  unfold sd_cmd_ALL_SEND_CID, sd_cmd_SEND_RELATIVE_ADDR, sd_cmd_unimplemented, sd_cmd_optional, sd_cmd_DE_SELECT_CARD, sd_cmd_SEND_IF_COND, sd_cmd_SEND_CSD,
    sd_cmd_SEND_CID, sd_cmd_STOP_TRANSMISSION, sd_cmd_SEND_STATUS, sd_cmd_GO_INACTIVE_STATE, sd_cmd_ERASE_WR_BLK_START, sd_cmd_ERASE_WR_BLK_END,
    sd_cmd_APP_CMD, sd_acmd_SET_WR_BLK_ERASE_COUNT, sd_acmd_SET_CLR_CARD_DETECT.
  all: quiet.
Qed.

(** Parts of a card that the steps of the other handlers keep. *)
Lemma core_ok_raise sd m : core_ok sd -> core_ok (raise_status sd m).
Proof. intros. core_same. Qed.
Lemma core_ok_range sd a n : core_ok sd -> core_ok (address_in_range sd a n).2.
Proof. intros. unfold address_in_range. destruct (_ <? _); core_same. Qed.
Lemma range_state sd a n : state (address_in_range sd a n).2 = state sd.
Proof. unfold address_in_range. by destruct (_ <? _). Qed.
Lemma core_ok_check_wp sd a : core_ok sd -> core_ok (sd_check_wp sd a).
Proof. intros. unfold sd_check_wp. cbv zeta. destruct (_ && _), (flag _ _); core_same. Qed.
Lemma check_wp_fields sd a : data_offset (sd_check_wp sd a) = data_offset sd /\ state (sd_check_wp sd a) = state sd /\ blk_len (sd_check_wp sd a) = blk_len sd.
Proof. unfold sd_check_wp. cbv zeta. by destruct (_ && _), (flag _ _). Qed.
Lemma core_ok_blk_read sd a n : core_ok sd -> 0 <= n <= 512 -> core_ok (sd_blk_read sd a n).
Proof.
  intros Hc Hn. unfold sd_blk_read. destruct (blk sd); [|done]. destruct Hc. split; cbn; try done. pose proof (length_mem_load z a n). rewrite length_app, length_drop. lia.
Qed.
Lemma core_ok_blk_write sd a n : core_ok sd -> core_ok (sd_blk_write sd a n).
Proof. intros. unfold sd_blk_write. destruct (blk sd); [|done]. destruct (_ <=? _); core_same. Qed.
(** The bitmap of a reset card has a bit for every group, the one at the end of
    the card included. *)
Lemma reset_bits n : 0 <= n < 2 ^ 42 ->
  swrap 32 (sd_addr_to_wpnum (n .<< HWBLOCK_SHIFT) + 1) = sd_addr_to_wpnum (n .<< HWBLOCK_SHIFT) + 1 /\ 0 < sd_addr_to_wpnum (n .<< HWBLOCK_SHIFT) + 1 < 2 ^ 31.
Proof.
  intros Hn. unfold sd_addr_to_wpnum, HWBLOCK_SHIFT, SECTOR_SHIFT, WPGROUP_SHIFT. rewrite Z.shiftl_mul_pow2, Z.shiftr_div_pow2 by lia.
  assert (H : 0 <= n * 2 ^ 9 / 2 ^ (9 + 5 + 7) < 2 ^ 31 - 1) by (split; [apply Z.div_pos; lia | apply Z.div_lt_upper_bound; lia]).
  split; [|lia]. apply swrap_id; lia.
Qed.
Lemma core_ok_reset sd : length (data sd) = 512%nat -> 0 <= data_offset sd <= 512 -> 0 <= data_size sd <= 512 -> 0 <= blk_sectors sd < 2 ^ 42 ->
  core_ok (sd_reset sd).
Proof.
  intros Hd Ho Hs Hn. split; try done. unfold sd_reset, sd_set_csd, sd_set_cid, sd_set_scr. cbv zeta. cbn [wp_group_bits size modify blk].
  destruct (blk sd); [|done]. destruct (reset_bits _ Hn) as [E Hb]. by rewrite E.
Qed.

Lemma reset_core sd : core_ok sd -> core_ok (sd_reset (sd <| state := sd_idle_state |>)).
Proof. intros []. by apply core_ok_reset. Qed.

(** A loop that keeps an invariant under which its body does not fail. *)
Lemma foldM_ok {A B} (P : A -> Prop) (f : A -> B -> option A) l : (forall a b, b ∈ l -> P a -> exists a', f a b = Some a' /\ P a') ->
  forall a, P a -> exists a', foldM f a l = Some a' /\ P a'.
Proof.
  induction l as [|b l IH]; intros Hf a Ha; [by eexists|]. destruct (Hf a b ltac:(apply list_elem_of_here) Ha) as (a' & E & Ha'). cbn [foldM]. rewrite E. cbn [mbind option_bind].
  apply IH; [|done]. intros a1 b1 Hb. apply Hf. by apply list_elem_of_further.
Qed.

(** The group of an address on the card has a bit. *)
Lemma wpnum_bound sd addr : core_ok sd -> addr <= size sd -> sd_addr_to_wpnum addr < wp_group_bits sd.
Proof.
  intros Hc Ha. rewrite (proj1 (ok_bits sd Hc)). unfold sd_addr_to_wpnum, HWBLOCK_SHIFT, SECTOR_SHIFT, WPGROUP_SHIFT. rewrite !Z.shiftr_div_pow2 by lia.
  pose proof (Z.div_le_mono addr (size sd) (2 ^ (9 + 5 + 7)) ltac:(lia) Ha). lia.
Qed.

Lemma core_ok_erase sd : core_ok sd -> exists sd', sd_erase sd = Some sd' /\ core_ok sd'.
Proof.
  intros Hc. unfold sd_erase. cbv zeta. destruct (_ || _); [eexists; split; [done | core_same]|].
  set (first := if negb (high_capacity sd) then erase_start sd else _). set (last := if negb (high_capacity sd) then erase_end sd else _).
  destruct ((size sd <? first) || (size sd <? last)) eqn:Er; [eexists; split; [done | core_same]|]. apply orb_false_iff in Er as [Hf%Z.ltb_ge Hl%Z.ltb_ge].
  match goal with |- context [foldM _ ?x _] => assert (Hx : core_ok x /\ size x = size sd) by (split; [destruct Hc; split; done | done]); generalize dependent x end.
  intros x Hx. match goal with |- context [foldM ?f _ ?l] => destruct (foldM_ok (fun y => core_ok y /\ size y = size sd) f l) with (a := x) as (y & E & Hy) end;
    [|exact Hx | exists y; split; [exact E | apply Hy]].
  intros y a Ha [Hy Hs]. apply list_elem_of_fmap in Ha as (i & -> & Hi%elem_of_seqZ). change (1 .<< HWBLOCK_SHIFT) with 512 in *.
  assert (Hle : first + i * 512 <= size y) by (rewrite Hs; pose proof (Z.mul_div_le (last - first) 512 ltac:(lia)); nia).
  pose proof (wpnum_bound y _ Hy Hle) as Hw. unfold sd_erase_block. cbv zeta. rewrite (wrap_id 64) by (destruct (ok_bits y Hy); lia). rewrite (proj2 (Z.ltb_lt _ _) Hw).
  rewrite andb_false_r. eexists. split; [reflexivity|]. destruct (_ && _); [split; [core_same | done]|]. split; [by apply core_ok_blk_write|].
  unfold sd_blk_write. destruct (blk y); [|done]. by destruct (_ <=? _).
Qed.

Lemma wpbits_ok sd addr : core_ok sd -> 0 <= addr -> exists wp, sd_wpbits sd addr = Some wp.
Proof.
  intros Hc Hpos. destruct (foldM_ok (fun _ => True) (sd_wpbit sd addr) (seqZ 0 32)) with (a := 0) as (wp & E & _); [|done | by exists wp].
  intros ret i [Hi _]%elem_of_seqZ _. unfold sd_wpbit. cbv zeta. destruct (Z.leb_spec (size sd) (addr + i * WPGROUP_SIZE)) as [|Hlt]; [by eexists|].
  pose proof (wpnum_bound sd _ Hc (Z.lt_le_incl _ _ Hlt)) as Hw. destruct (ok_bits sd Hc) as [_ Hb].
  assert (E : sd_addr_to_wpnum (addr + i * WPGROUP_SIZE) = sd_addr_to_wpnum addr + i).
  { unfold sd_addr_to_wpnum, WPGROUP_SIZE, HWBLOCK_SHIFT, SECTOR_SHIFT, WPGROUP_SHIFT. rewrite Z.shiftl_1_l, !Z.shiftr_div_pow2 by lia. by rewrite Z.div_add by lia. }
  rewrite E in Hw. rewrite (wrap_id 32 (wp_group_bits sd)) by lia.
  assert (Hm : u32 (sd_addr_to_wpnum addr + i) <= sd_addr_to_wpnum addr + i) by (apply Z.mod_le; [apply Z.add_nonneg_nonneg; [by apply Z.shiftr_nonneg | done] | done]).
  rewrite (proj2 (Z.ltb_lt _ _)) by lia. cbn [negb]. by eexists.
Qed.

Lemma core_ok_set_data sd d : core_ok sd -> length d = 512%nat -> core_ok (sd <| data := d |>).
Proof. intros [] Hd. by split. Qed.
Lemma core_ok_function_switch sd arg : core_ok sd -> core_ok (sd_function_switch sd arg).
Proof.
  intros Hc. unfold sd_function_switch.
  assert (H1 : forall l x, core_ok x -> core_ok (foldl (sd_function_group arg) x l)).
  { induction l as [|i l IH]; intros x Hx; [done|]. cbn [foldl]. apply IH. unfold sd_function_group. cbv zeta.
    apply core_ok_set_data; [destruct (_ && _); [core_same | done]|]. rewrite length_arr_set. destruct (_ && _); by destruct Hx. }
  assert (Hl : length ([0x00; 0x01; 0x80; 0x01; 0x80; 0x01; 0x80; 0x01; 0x80; 0x01; 0x80; 0x43; 0x80; 0x03] ++ [0; 0; 0] ++ drop 17 (data sd)) = 512%nat).
  { destruct Hc. rewrite !length_app, length_drop. cbn [length]. lia. }
  pose proof (H1 (seqZ 0 6) _ (core_ok_set_data _ _ Hc Hl)) as H2. apply core_ok_set_data; [exact H2|].
  rewrite !length_app, length_take, length_replicate, length_drop, (ok_data _ H2). lia.
Qed.

(** A handler that ends in one of the ways into a data phase. *)
Lemma data_handler cmd (h : handler) : (forall sd arg, core_ok sd -> 0 <= arg ->
    h sd arg = Some (sd, sd_illegal) \/ (exists sd' r, h sd arg = Some (sd', r) /\ core_ok sd' /\ state sd = sd_transfer_state /\ state sd' = sd_transfer_state) \/
    exists sd' r, h sd arg = Some (sd', r) /\ core_ok sd' /\ (is_illegal r = false -> phase_start cmd sd')) -> handler_ok cmd h.
Proof.
  intros Hh sd arg Hc Ha. destruct (Hh sd arg Hc Ha) as [E | [(sd' & r & E & Hc' & _ & Hst) | (sd' & r & E & Hc' & Ho)]]; eexists _, _; (split; [exact E|]).
  - by split.
  - split; [done|]. intros _ [Hs|Hs]; rewrite Hs in Hst; discriminate Hst.
  - split; [done|]. intros Hi _. left. by apply Ho.
Qed.

Lemma handler_sending cmd (h : handler) : (forall sd arg, core_ok sd -> 0 <= arg ->
    h sd arg = Some (sd, sd_illegal) \/ exists sd0 a d sz, h sd arg = sd_cmd_to_sendingdata sd0 a d sz /\ core_ok sd0 /\ 0 <= sz <= 512 /\
      match d with Some bs => zlen bs = sz /\ 0 < sz | None => True end) -> handler_ok cmd h.
Proof.
  intros Hh. apply data_handler. intros sd arg Hc Ha. destruct (Hh sd arg Hc Ha) as [E | (sd0 & a & d & sz & -> & Hc0 & Hsz & Hd)]; [by left|].
  right. right. by apply to_sending_ok.
Qed.
Lemma handler_receiving cmd (h : handler) : (forall sd arg, core_ok sd -> 0 <= arg ->
    h sd arg = Some (sd, sd_illegal) \/ exists sd0 a sz, h sd arg = sd_cmd_to_receivingdata sd0 a sz /\ core_ok sd0 /\ 0 <= sz <= 512) -> handler_ok cmd h.
Proof.
  intros Hh. apply data_handler. intros sd arg Hc Ha. destruct (Hh sd arg Hc Ha) as [E | (sd0 & a & sz & -> & Hc0 & Hsz)]; [by left|].
  right. right. by apply to_receiving_ok.
Qed.

(** The block commands: out of range, or into the data phase. *)
Lemma single_block_ok : handler_ok 17 sd_cmd_READ_SINGLE_BLOCK /\ handler_ok 24 sd_cmd_WRITE_SINGLE_BLOCK.
Proof.
  split; apply data_handler; intros sd arg Hc Ha; unfold sd_cmd_READ_SINGLE_BLOCK, sd_cmd_WRITE_SINGLE_BLOCK;
    (destruct (Z.eqb_spec (state sd) sd_transfer_state) as [Hst|]; cbn [negb]; [right | by left]); cbv zeta;
    pose proof (core_ok_range sd (sd_req_get_address sd arg) (blk_len sd) Hc) as Hc1; pose proof (range_state sd (sd_req_get_address sd arg) (blk_len sd)) as Hst1;
    destruct (address_in_range _ _ _) as [ok sd1]; cbn [snd] in *; pose proof (ok_len sd1 Hc1); destruct ok; cbn [negb];
    try (left; eexists _, _; split; [done|]; rewrite Hst1; done); right.
  - apply to_sending_ok; [by apply core_ok_blk_read | done | done].
  - apply to_receiving_ok; [|done]. pose proof (core_ok_check_wp sd1 (sd_req_get_address sd arg) Hc1). core_same.
Qed.

Lemma multiple_block_ok : handler_ok 18 sd_cmd_READ_MULTIPLE_BLOCK /\ handler_ok 25 sd_cmd_WRITE_MULTIPLE_BLOCK.
Proof.
  split; apply in_state_ok; intros sd arg Hc Ha Hst; cbv zeta;
    pose proof (core_ok_range sd (sd_req_get_address sd arg) (blk_len sd) Hc) as Hc1; pose proof (range_state sd (sd_req_get_address sd arg) (blk_len sd)) as Hst1;
    destruct (address_in_range _ _ _) as [ok sd1]; cbn [snd] in *; destruct ok; cbn [negb fst snd];
    try (split; [done|]; rewrite Hst1, Hst; by intros _ [|]).
  - destruct Hc1. split; [split; cbn; done || lia | done].
  - split; [apply core_ok_check_wp; destruct Hc1; split; cbn; done || lia|]. intros _ _. split; [by rewrite (proj1 (check_wp_fields _ _)) | done].
Qed.

Lemma data_handlers : Forall (fun e => handler_ok e.1 e.2)
  [(6, sd_cmd_SWITCH_FUNCTION); (19, sd_cmd_SEND_TUNING_BLOCK); (27, sd_cmd_PROGRAM_CSD); (30, sd_cmd_SEND_WRITE_PROT); (42, sd_cmd_LOCK_UNLOCK); (56, sd_cmd_GEN_CMD);
   (13, sd_acmd_SD_STATUS); (22, sd_acmd_SEND_NUM_WR_BLOCKS); (51, sd_acmd_SEND_SCR)].
Proof.
  repeat apply Forall_cons_2; try apply Forall_nil_2; cbn [fst snd].
  - apply handler_sending. intros sd arg Hc _. unfold sd_cmd_SWITCH_FUNCTION. destruct (negb _); [by left|]. destruct (negb _); [by left|]. right.
    eexists _, _, _, _. split; [done|]. split; [by apply core_ok_function_switch | done].
  - apply handler_sending. intros sd arg Hc _. unfold sd_cmd_SEND_TUNING_BLOCK. destruct (_ <? _); [by left|]. right. eexists _, _, _, _. split; [done|]. done.
  - apply handler_receiving. intros sd arg Hc _. right. eexists _, _, _. split; [done|]. done.
  - apply data_handler. intros sd arg Hc Ha. unfold sd_cmd_SEND_WRITE_PROT. destruct (_ <? _); [by left|].
    destruct (Z.eqb_spec (state sd) sd_transfer_state) as [Hst|]; cbn [negb]; [right | by left]. cbv zeta.
    pose proof (core_ok_range sd (sd_req_get_address sd arg) (blk_len sd) Hc) as Hc1. pose proof (range_state sd (sd_req_get_address sd arg) (blk_len sd)) as Hst1.
    destruct (address_in_range _ _ _) as [ok sd1]; cbn [snd] in *; destruct ok; cbn [negb]; [right | left; eexists _, _; split; [done|]; by rewrite Hst1].
    destruct (wpbits_ok sd1 arg Hc1 Ha) as (wp & ->). cbn [mbind option_bind]. apply to_sending_ok; [done | lia |]. by rewrite length_le_store.
  - apply handler_receiving. intros sd arg Hc _. right. eexists _, _, _. split; [done|]. done.
  - apply data_handler. intros sd arg Hc _. unfold sd_cmd_GEN_CMD. destruct (negb _); [by left|]. right. right. destruct (flag arg 1).
    + apply to_sending_ok; [by apply core_ok_set_data | done | done].
    + by apply to_receiving_ok.
  - apply handler_sending. intros sd arg Hc _. right. eexists _, _, _, _. split; [done|]. split; [done|]. split; [done|]. destruct Hc. lia.
  - apply handler_sending. intros sd arg Hc _. right. eexists _, _, _, _. split; [done|]. split; [done|]. split; [done|]. by rewrite length_le_store.
  - apply handler_sending. intros sd arg Hc _. right. eexists _, _, _, _. split; [done|]. split; [done|]. split; [done|]. destruct Hc. lia.
Qed.

Lemma write_prot_ok cmd is_write : handler_ok cmd (sd_cmd_SET_CLR_WRITE_PROT is_write).
Proof.
  intros sd arg Hc Ha. unfold sd_cmd_SET_CLR_WRITE_PROT. destruct (_ <? _); [eexists _, _; split; [done|]; by split|].
  revert sd arg Hc Ha. apply in_state_ok. intros sd arg Hc _ Hst. cbv zeta.
  pose proof (core_ok_range sd (sd_req_get_address sd arg) 1 Hc) as Hc1. pose proof (range_state sd (sd_req_get_address sd arg) 1) as Hst1.
  destruct (address_in_range _ _ _) as [ok sd1]; cbn [snd] in *; destruct ok; cbn [negb fst snd]; [split; [core_same | by intros _ [|]] | split; [done|]; rewrite Hst1, Hst; by intros _ [|]].
Qed.

Lemma state_handlers : Forall (fun e => handler_ok e.1 e.2)
  [(0, sd_cmd_GO_IDLE_STATE); (16, sd_cmd_SET_BLOCKLEN); (23, sd_cmd_SET_BLOCK_COUNT); (28, sd_cmd_SET_WRITE_PROT); (29, sd_cmd_CLR_WRITE_PROT);
   (38, sd_cmd_ERASE); (6, sd_acmd_SET_BUS_WIDTH); (41, sd_cmd_SEND_OP_COND)].
Proof.
  repeat apply Forall_cons_2; try apply Forall_nil_2; cbn [fst snd].
  - intros sd arg Hc _. unfold sd_cmd_GO_IDLE_STATE. destruct (Z.eqb_spec (state sd) sd_sleep_state) as [Hs|_]; cbn [andb].
    { rewrite Hs. change (sd_sleep_state =? sd_inactive_state) with false. destruct (negb _); (eexists _, _; split; [reflexivity|]).
      - split; [done|]. rewrite Hs. by intros _ [|].
      - split; [by apply reset_core | by intros _ [|]]. }
    destruct (Z.eqb_spec (state sd) sd_inactive_state) as [Hs|_]; (eexists _, _; split; [done|]); [rewrite Hs; split; [done | by intros _ [|]]|].
    split; [by apply reset_core | by intros _ [|]].
  - apply in_state_ok. intros sd arg Hc Ha Hst. destruct (Z.ltb_spec (1 .<< HWBLOCK_SHIFT) arg) as [Hl|Hl]; cbn [fst snd].
    + split; [core_same|]. cbn. rewrite Hst. by intros _ [|].
    + change (1 .<< HWBLOCK_SHIFT) with 512 in Hl. split; [destruct Hc; split; cbn; done || lia|]. cbn. rewrite Hst. by intros _ [|].
  - intros sd arg Hc Ha. unfold sd_cmd_SET_BLOCK_COUNT, sd_cmd_illegal. destruct (_ <? _); [eexists _, _; split; [done|]; by split|].
    revert sd arg Hc Ha. apply in_state_ok. intros sd arg Hc _ Hst. split; [core_same|]. cbn. rewrite Hst. by intros _ [|].
  - apply write_prot_ok.
  - apply write_prot_ok.
  - intros sd arg Hc _. unfold sd_cmd_ERASE. destruct (Z.eqb_spec (state sd) sd_transfer_state) as [Hst|]; cbn [negb]; [|eexists _, _; split; [done|]; by split].
    destruct (flag _ _); [eexists _, _; split; [done|]; split; [core_same | cbn; rewrite Hst; by intros _ [|]]|].
    destruct (core_ok_erase sd Hc) as (sd1 & -> & Hc1). cbn [mbind option_bind]. eexists _, _. split; [done|]. split; [core_same | by intros _ [|]].
  - apply in_state_ok. intros sd arg Hc _ Hst. split; [|cbn; rewrite Hst; by intros _ [|]]. destruct Hc. split; cbn; try done. by rewrite length_arr_set.
  - intros sd arg Hc Ha. unfold sd_cmd_SEND_OP_COND, sd_ocr_powerup. cbn [ocr modify].
    destruct (Z.eqb_spec (state sd) sd_idle_state) as [Hst|]; cbn [negb]; [|eexists _, _; split; [done|]; by split].
    destruct (flag (ocr sd) OCR_CARD_POWER_UP) eqn:Ep; [|destruct (flag arg ACMD41_ENQUIRY_MASK)]; cbn [mbind option_bind].
    + eexists _, _. split; [done|]. destruct (flag (ocr sd .& arg) _); (split; [core_same|]); cbn; rewrite ?Hst; by intros _ [|].
    + eexists _, _. split; [done|]. destruct (_ <? _), (flag (_ .& arg) _); (split; [destruct Hc; by split|]); cbn; rewrite ?Hst; by intros _ [|].
    + eexists _, _. split; [done|]. destruct Hc. destruct (ocr_power_timer sd) eqn:Et, (flag (_ .& arg) _); (split; [split; cbn; rewrite ?Et; done|]); cbn; rewrite ?Hst; by intros _ [|].
Qed.

(** ** Commands *)

Lemma entry_ok table cmd c h : Forall (fun e => handler_ok e.1 e.2.2) table -> proto_entry table cmd = Some (c, h) -> handler_ok cmd h.
Proof.
  induction 1 as [|[k [ck hk]] table Hk _ IH]; [done|]. cbn [proto_entry]. destruct (Z.eqb_spec cmd k) as [->|]; [|exact IH]. by intros [= <- <-].
Qed.

(** The handlers of the two tables. *)
Lemma listed (l : list (Z * handler)) cmd h : Forall (fun e => handler_ok e.1 e.2) l -> (cmd, h) ∈ l -> handler_ok cmd h.
Proof. intros Hl He. rewrite Forall_forall in Hl. exact (Hl _ He). Qed.
Lemma optional_ok cmd : handler_ok cmd sd_cmd_optional.
Proof. intros sd arg Hc _. eexists _, _. split; [done|]. by split. Qed.
Ltac find_handler :=
  cbn [fst snd]; first [exact (optional_ok _) | exact (proj1 single_block_ok) | exact (proj2 single_block_ok)
    | apply (listed _ _ _ quiet_handlers); repeat (apply list_elem_of_here || apply list_elem_of_further); done
    | apply (listed _ _ _ data_handlers); repeat (apply list_elem_of_here || apply list_elem_of_further); done
    | apply (listed _ _ _ state_handlers); repeat (apply list_elem_of_here || apply list_elem_of_further); done].
Lemma proto_cmd_ok : Forall (fun e => handler_ok e.1 e.2.2) sd_proto_cmd.
Proof. unfold sd_proto_cmd. repeat (apply Forall_cons_2; [find_handler|]). apply Forall_nil_2. Qed.
Lemma proto_acmd_ok : Forall (fun e => handler_ok e.1 e.2.2) sd_proto_acmd.
Proof. unfold sd_proto_acmd. repeat (apply Forall_cons_2; [find_handler|]). apply Forall_nil_2. Qed.

Lemma handler_ok_via cmd (f : SDState -> SDState) (h h' : handler) : handler_ok cmd h ->
  (forall sd, core_ok sd -> core_ok (f sd) /\ data_offset (f sd) = data_offset sd /\ data_size (f sd) = data_size sd /\ state (f sd) = state sd) ->
  (forall sd arg, h' sd arg = h (f sd) arg) -> handler_ok cmd h'.
Proof.
  intros Hh Hf E sd arg Hc Ha. rewrite E. destruct (Hf sd Hc) as (Hc' & Eo & Es & Et). destruct (Hh (f sd) arg Hc' Ha) as (sd' & r & Er & Hr & Hd).
  exists sd', r. split; [done|]. split; [done|]. by rewrite Eo, Es, Et in Hd.
Qed.

(** What [sd_normal_command] does before it looks at the command. *)
Definition before_command (cmd : Z) (sd : SDState) : SDState :=
  let sd := sd <| card_status := card_status sd .& u32 (.~ APP_CMD) |> in
  if negb (multi_blk_cnt sd =? 0) && negb ((cmd =? 18) || (cmd =? 25)) then sd <| multi_blk_cnt := 0 |> else sd.

Lemma normal_ok cmd : handler_ok cmd (fun sd arg => sd_normal_command sd cmd arg).
Proof.
  apply (handler_ok_via cmd (before_command cmd) (fun sd arg => if (cmd_class cmd =? 6) && high_capacity sd then Some (sd, sd_illegal) else
    match proto_entry sd_proto_cmd cmd with
    | Some (_, h) => h sd arg
    | None => if cmd =? 18 then sd_cmd_READ_MULTIPLE_BLOCK sd arg else if cmd =? 25 then sd_cmd_WRITE_MULTIPLE_BLOCK sd arg else Some (sd, sd_illegal)
    end)).
  - intros sd arg Hc Ha. destruct (_ && _); [eexists _, _; split; [done|]; by split|]. destruct (proto_entry sd_proto_cmd cmd) as [[c h]|] eqn:E.
    { exact (entry_ok _ _ _ _ proto_cmd_ok E sd arg Hc Ha). }
    destruct (Z.eqb_spec cmd 18) as [->|]; [by apply (proj1 multiple_block_ok)|]. destruct (Z.eqb_spec cmd 25) as [->|]; [by apply (proj2 multiple_block_ok)|].
    eexists _, _. split; [done|]. by split.
  - intros sd Hc. unfold before_command. cbv zeta. destruct (_ && _); (split; [core_same | done]).
  - reflexivity.
Qed.

Lemma app_ok cmd : handler_ok cmd (fun sd arg => sd_app_command sd cmd arg).
Proof.
  apply (handler_ok_via cmd (fun sd => raise_status sd APP_CMD) (fun sd arg => match proto_entry sd_proto_acmd cmd with
    | Some (_, h) => h sd arg
    | None => if (cmd =? 18) || (cmd =? 25) || (cmd =? 26) || (cmd =? 38) || ((43 <=? cmd) && (cmd <=? 49)) then Some (sd, sd_illegal) else sd_normal_command sd cmd arg
    end)).
  - intros sd arg Hc Ha. destruct (proto_entry sd_proto_acmd cmd) as [[c h]|] eqn:E; [exact (entry_ok _ _ _ _ proto_acmd_ok E sd arg Hc Ha)|].
    destruct (_ || _); [eexists _, _; split; [done|]; by split | by apply normal_ok].
  - intros sd Hc. split; [core_same | done].
  - reflexivity.
Qed.

Lemma execute_ok cmd : handler_ok cmd (fun sd arg => sd_execute sd cmd arg).
Proof.
  intros sd arg Hc Ha. unfold sd_execute. destruct (state sd =? sd_inactive_state); [eexists _, _; split; [done|]; by split|].
  destruct ((state sd =? sd_sleep_state) && negb (cmd =? 0)) eqn:Esl.
  { apply andb_true_iff in Esl as [Hs%Z.eqb_eq _]. eexists _, _. split; [done|]. split; [done|]. rewrite Hs. by intros _ [|]. }
  destruct (flag (card_status sd) CARD_IS_LOCKED && negb (cmd_valid_while_locked sd cmd)); [eexists _, _; split; [done|]; split; [core_same | done]|]. cbv zeta.
  assert (Hrun : exists sd' r, (if expecting_acmd sd then sd_app_command (sd <| expecting_acmd := false |>) cmd arg else sd_normal_command sd cmd arg) = Some (sd', r) /\ core_ok sd' /\
    (is_illegal r = false -> state sd' = sd_sendingdata_state \/ state sd' = sd_receivingdata_state ->
     phase_start cmd sd' \/ mid_phase cmd = true /\ data_offset sd' = data_offset sd /\ data_size sd' = data_size sd /\ state sd' = state sd)).
  { destruct (expecting_acmd sd); [|by apply normal_ok]. set (sd0 := sd <| expecting_acmd := false |>).
    assert (H0 : core_ok sd0) by core_same. exact (app_ok cmd sd0 arg H0 Ha). }
  destruct Hrun as (sd' & r & E & Hc' & Hd). rewrite E. cbn [mbind option_bind]. eexists _, r. split; [reflexivity|].
  destruct (is_illegal r); (split; [core_same | exact Hd]).
Qed.

(** The status is not asked for when a multiple-block read has passed the size of
    the last transfer from the buffer. *)
Definition status_allowed (sd : SDState) (cmd : Z) : Prop := cmd .& 0x3f = 13 -> state sd = sd_sendingdata_state -> data_offset sd <= data_size sd.

Lemma phase_ok_idle cur sd : (state sd = sd_sendingdata_state \/ state sd = sd_receivingdata_state -> phase_start cur sd) -> core_ok sd -> phase_ok cur sd.
Proof.
  intros H []. split; [|split; [|split]]; intros Hs Hcur; (destruct H as [E H]; [by auto|]); rewrite E; try lia. by apply H.
Qed.

Lemma response_ok sd r : core_ok sd -> core_ok (sd_send_response sd r).2 /\ state (sd_send_response sd r).2 = state sd /\
  data_size (sd_send_response sd r).2 = data_size sd /\ data_offset (sd_send_response sd r).2 = match r with sd_r0 => 0 | _ => data_offset sd end.
Proof. intros Hc. destruct r; (split; [try core_same | done]). destruct Hc. split; cbn; done || lia. Qed.

Lemma command_ok sd cmd arg : sd_ok sd -> 0 <= cmd -> 0 <= arg -> status_allowed sd cmd ->
  exists resp sd', sd_do_command sd cmd arg = Some (resp, sd') /\ sd_ok sd'.
Proof.
  intros [Hc Hp] Hcmd Ha Hst. unfold sd_do_command. destruct (blk sd); [|eexists _, _; by split].
  set (c := if 64 <=? cmd then cmd .& 0x3f else cmd). assert (Hc13 : c = 13 -> cmd .& 0x3f = 13).
  { unfold c. destruct (64 <=? cmd); [done|]. by intros ->. }
  destruct (execute_ok c sd arg Hc Ha) as (sd1 & r & -> & Hc1 & Hd). cbn [mbind option_bind].
  destruct (response_ok sd1 r Hc1) as (Hc2 & Es & Ez & Eo). destruct (sd_send_response sd1 r) as [resp sd2]. cbn [snd] in *.
  eexists _, _. split; [done|]. split; [destruct (is_illegal r); core_same|]. cbn [current_cmd modify].
  destruct (is_illegal r) eqn:Ei; [by split; [|split; [|split]]|].
  change (phase_ok c sd2). destruct (decide (state sd2 = sd_sendingdata_state \/ state sd2 = sd_receivingdata_state)) as [Hds|Hds];
    [|apply phase_ok_idle; [done | done]].
  rewrite Es in Hds. destruct (Hd eq_refl Hds) as [H0 | (Hm & H1 & H2 & H3)].
  - apply phase_ok_idle; [|done]. intros _. destruct H0 as [H0 H1]. split; [rewrite Eo, H0; by destruct r | by rewrite Es, Ez].
  - unfold mid_phase in Hm. rewrite !orb_true_iff, !Z.eqb_eq in Hm. destruct Hm as [[->| ->] | ->]; (split; [|split; [|split]]; intros Hs; try done).
    intros _. rewrite Ez, Eo, H1, H2. pose proof (ok_size sd Hc). destruct r; try lia; apply Hst; congruence || auto.
Qed.

(** ** The data path *)

(** Transfers of a buffer whose offset is in bounds. *)
Definition buffer_read (sd : SDState) (n : Z) : list Z * SDState :=
  let k := Z.min (data_size sd - data_offset sd) n in
  let sd1 := sd <| data_offset := data_offset sd + k |> in
  (slice (data_offset sd) k (data sd), if data_size sd <=? data_offset sd + k then sd1 <| state := sd_transfer_state |> else sd1).
Definition buffer_write (sd : SDState) (buf : list Z) : Z * bool * SDState :=
  let k := Z.min (data_size sd - data_offset sd) (zlen buf) in
  let d := take (Z.to_nat (data_offset sd)) (data sd) ++ take (Z.to_nat k) buf ++ drop (Z.to_nat (data_offset sd + k)) (data sd) in
  let sd1 := sd <| data := d |> <| data_offset := data_offset sd + k |> in
  if data_size sd <=? data_offset sd + k then (k, true, sd1 <| state := sd_transfer_state |>) else (k, false, sd1).

Lemma generic_read_eq sd n : core_ok sd -> data_offset sd <= data_size sd -> 0 <= n -> sd_generic_read_data sd n = Some (buffer_read sd n).
Proof.
  intros [] Ho Hn. unfold sd_generic_read_data, buffer_read. cbv zeta. rewrite (wrap_id 64) by lia. rewrite (proj2 (Z.ltb_ge _ _)) by lia.
  rewrite (wrap_id 32) by lia. done.
Qed.
Lemma generic_write_eq sd buf : core_ok sd -> data_offset sd <= data_size sd -> sd_generic_write_data sd buf = Some (buffer_write sd buf).
Proof.
  intros [] Ho. unfold sd_generic_write_data, buffer_write. cbv zeta. rewrite (wrap_id 64) by lia. rewrite (proj2 (Z.ltb_ge _ _)) by lia.
  cbn [data_offset data_size modify]. rewrite (wrap_id 32) by lia. done.
Qed.

(** Reads a card answers with zeros, writes it swallows. *)
Definition card_dummy (sd : SDState) : bool :=
  match blk sd with
  | None => true
  | Some _ => negb (state sd =? sd_sendingdata_state) || flag (card_status sd) (ADDRESS_ERROR .| WP_VIOLATION) ||
              negb (sd_buffered_read (current_cmd sd)) && negb (current_cmd sd =? 18)
  end.
Definition card_deaf (sd : SDState) : bool :=
  match blk sd with
  | None => true
  | Some _ => negb (state sd =? sd_receivingdata_state) || flag (card_status sd) (ADDRESS_ERROR .| WP_VIOLATION)
  end.

Lemma dummy_state sd : card_dummy sd = false -> state sd = sd_sendingdata_state.
Proof. unfold card_dummy. destruct (blk sd); [|done]. by destruct (Z.eqb_spec (state sd) sd_sendingdata_state). Qed.
Lemma deaf_state sd : card_deaf sd = false -> state sd = sd_receivingdata_state.
Proof. unfold card_deaf. destruct (blk sd); [|done]. by destruct (Z.eqb_spec (state sd) sd_receivingdata_state). Qed.

Lemma read_data_cases sd n : sd_ok sd -> 0 <= n -> sd_read_data sd n =
  if card_dummy sd then Some (replicate (Z.to_nat n) 0, sd)
  else if sd_buffered_read (current_cmd sd) then Some (buffer_read sd n) else sd_read_multiple sd.
Proof.
  intros [Hc Hp] Hn. destruct (card_dummy sd) eqn:Hd.
  - unfold sd_read_data, card_dummy in *. destruct (blk sd); [|done]. destruct (state sd =? _), (flag (card_status sd) _); cbn [negb orb] in *; try done.
    by destruct (sd_buffered_read (current_cmd sd)), (current_cmd sd =? 18).
  - pose proof (dummy_state sd Hd) as Hst. assert (E : sd_read_data sd n = if sd_buffered_read (current_cmd sd) then sd_generic_read_data sd n else sd_read_multiple sd).
    { unfold sd_read_data, card_dummy in *. destruct (blk sd); [|done]. destruct (state sd =? _), (flag (card_status sd) _); cbn [negb orb] in *; try done.
      by destruct (sd_buffered_read (current_cmd sd)), (current_cmd sd =? 18). }
    rewrite E. destruct (sd_buffered_read (current_cmd sd)) eqn:Hb; [|done]. apply generic_read_eq; [done | | done]. by apply (proj1 Hp).
Qed.

Lemma finish_cases cmd : sd_finish cmd <> None -> (cmd =? 25) = false.
Proof. unfold sd_finish. intros H. destruct (Z.eqb_spec cmd 25) as [->|]; [by destruct H | done]. Qed.

Lemma write_data_cases sd buf : sd_ok sd -> sd_write_data sd buf =
  if card_deaf sd then Some (zlen buf, sd)
  else if current_cmd sd =? 25 then sd ← sd_write_multiple sd (buf.[0]); Some (1, sd)
  else f ← sd_finish (current_cmd sd); let '(n, complete, sd) := buffer_write sd buf in
       Some (n, if complete : bool then (f sd) <| state := sd_transfer_state |> else sd).
Proof.
  intros [Hc Hp]. destruct (card_deaf sd) eqn:Hd; unfold sd_write_data, card_deaf in *; (destruct (blk sd) eqn:Eb; [|done]).
  - by destruct (state sd =? _), (flag (card_status sd) _).
  - assert (Hst : state sd = sd_receivingdata_state) by (destruct (Z.eqb_spec (state sd) sd_receivingdata_state); done).
    rewrite Hst. cbn [negb Z.eqb Pos.eqb sd_receivingdata_state]. destruct (flag (card_status sd) _); [by rewrite orb_true_r in Hd|].
    destruct (current_cmd sd =? 25); [done|]. destruct (sd_finish (current_cmd sd)) as [f|] eqn:Ef; [|done]. cbn [mbind option_bind].
    rewrite generic_write_eq; [done | done |]. apply Z.lt_le_incl, Hp; [done | by rewrite Ef].
Qed.

Lemma buffer_read_ok sd n : sd_ok sd -> card_dummy sd = false -> sd_buffered_read (current_cmd sd) = true -> 0 <= n -> sd_ok (buffer_read sd n).2.
Proof.
  intros [Hc Hp] Hd Hb Hn. pose proof (dummy_state sd Hd) as Hst. pose proof (proj1 Hp Hst Hb) as Ho. unfold buffer_read. cbv zeta. cbn [snd].
  assert (H18 : current_cmd sd <> 18) by (intros E; by rewrite E in Hb).
  destruct Hc. split; [destruct (_ <=? _); split; cbn; done || lia|].
  destruct (_ <=? _); (split; [|split; [|split]]); cbn; try done; rewrite Hst; try done; lia.
Qed.

Lemma blk_len_ok sd : core_ok sd -> 0 <= sd_blk_len sd <= 512.
Proof. intros []. unfold sd_blk_len. destruct (high_capacity sd); [done | lia]. Qed.

(** The start of a block of a multiple-block transfer. *)
Lemma read_multiple_ok sd : sd_ok sd -> state sd = sd_sendingdata_state -> current_cmd sd = 18 ->
  exists bs sd', sd_read_multiple sd = Some (bs, sd') /\ sd_ok sd'.
Proof.
  intros [Hc Hp] Hst Hcmd. pose proof (blk_len_ok sd Hc) as Hio. pose proof (proj1 (proj2 (proj2 Hp)) Hst Hcmd) as Ho. unfold sd_read_multiple. cbv zeta.
  set (x := if data_offset sd =? 0 then _ else _).
  assert (Hx : core_ok x.2 /\ data_offset x.2 = data_offset sd /\ state x.2 = state sd /\ current_cmd x.2 = 18).
  { unfold x. destruct (data_offset sd =? 0); [|done]. pose proof (core_ok_range sd (data_start sd) (sd_blk_len sd) Hc) as Hr.
    assert (Hf : data_offset (address_in_range sd (data_start sd) (sd_blk_len sd)).2 = data_offset sd /\ state (address_in_range sd (data_start sd) (sd_blk_len sd)).2 = state sd /\
      current_cmd (address_in_range sd (data_start sd) (sd_blk_len sd)).2 = 18) by (unfold address_in_range; by destruct (_ <? _)).
    destruct (address_in_range _ _ _) as [ok sd1]. cbn [snd] in *. destruct ok; cbn [snd]; [|tauto].
    split; [by apply core_ok_blk_read|]. unfold sd_blk_read. by destruct (blk sd1). }
  destruct x as [ok sd1]. cbn [snd] in Hx. destruct Hx as (Hc1 & Eo & Es & Ec). rewrite Hst in Es.
  destruct ok; cbn [negb]; [|exists [], sd1; split; [done|]; split; [done|]; rewrite Ec; (split; [|split; [|split]]); try done; rewrite Es; done || lia].
  rewrite (proj2 (Z.leb_gt _ _)) by lia. eexists _, _. split; [done|]. cbn [data_offset modify]. destruct (Z.ltb_spec (data_offset sd1 + 1) (sd_blk_len sd)).
  - destruct Hc1. split; [split; cbn; done || lia|]. cbn [current_cmd modify]. rewrite Ec. (split; [|split; [|split]]); cbn; try done; intros; rewrite ?Es in *; try done; lia.
  - assert (Hcx : core_ok (sd1 <| data_offset := data_offset sd1 + 1 |> <| data_start := u64 (data_start sd1 + sd_blk_len sd) |> <| data_offset := 0 |>))
      by (destruct Hc1; split; cbn; done || lia).
    cbn [multi_blk_cnt data_start modify]. destruct (negb _); [destruct (_ =? 0)|]; (split; [core_same|]); cbn [current_cmd modify]; rewrite Ec; (split; [|split; [|split]]); cbn; try done;
      intros; rewrite ?Es in *; try done; lia.
Qed.

Lemma core_ok_commit sd : core_ok sd -> core_ok (sd_commit sd).
Proof. intros Hc. unfold sd_commit. cbv zeta. pose proof (core_ok_blk_write sd (data_start sd) (data_offset sd) Hc). core_same. Qed.
Lemma commit_fields sd : data_offset (sd_commit sd) = data_offset sd /\ data_size (sd_commit sd) = data_size sd /\ state (sd_commit sd) = state sd /\
  current_cmd (sd_commit sd) = current_cmd sd.
Proof. unfold sd_commit, sd_blk_write. destruct (blk sd); [|done]. by destruct (_ <=? _). Qed.

Lemma write_multiple_ok sd v : sd_ok sd -> state sd = sd_receivingdata_state -> current_cmd sd = 25 ->
  exists sd', sd_write_multiple sd v = Some sd' /\ sd_ok sd'.
Proof.
  intros [Hc Hp] Hst Hcmd. pose proof (proj2 (proj2 (proj2 Hp)) Hst Hcmd) as Ho. unfold sd_write_multiple. cbv zeta.
  set (x := if data_offset sd =? 0 then _ else _).
  assert (Hx : core_ok x.2 /\ data_offset x.2 = data_offset sd /\ state x.2 = state sd /\ current_cmd x.2 = 25 /\ blk_len x.2 = blk_len sd).
  { unfold x. destruct (data_offset sd =? 0); [|done]. unfold address_in_range. destruct (_ <? _); cbn [negb]; [cbn [snd]; split; [core_same | done]|].
    destruct (_ && _); cbn [snd]; (split; [done || core_same | done]). }
  destruct x as [ok sd1]. cbn [snd] in Hx. destruct Hx as (Hc1 & Eo & Es & Ec & El). rewrite Hst in Es. pose proof (ok_len sd Hc).
  destruct ok; cbn [negb]; [|exists sd1; split; [done|]; split; [done|]; rewrite Ec; (split; [|split; [|split]]); try done; intros; rewrite ?Es in *; done || lia].
  rewrite (proj2 (Z.leb_gt _ _)) by lia. eexists. split; [done|]. set (sd2 := sd1 <| data := _ |> <| data_offset := _ |>).
  assert (Hc2 : core_ok sd2) by (destruct Hc1; split; cbn; try done; [by rewrite length_arr_set | lia]).
  change (data_offset sd2) with (data_offset sd1 + 1). change (blk_len sd2) with (blk_len sd1). destruct (Z.ltb_spec (data_offset sd1 + 1) (blk_len sd1)).
  - split; [done|]. change (current_cmd sd2) with (current_cmd sd1). rewrite Ec. (split; [|split; [|split]]); try done; intros; change (state sd2) with (state sd1) in *;
      rewrite ?Es in *; try done; change (data_offset sd2) with (data_offset sd1 + 1); lia.
  - pose proof (core_ok_commit sd2 Hc2) as Hc3. destruct (commit_fields sd2) as (_ & _ & _ & Ec3). change (current_cmd sd2) with (current_cmd sd1) in Ec3. rewrite Ec in Ec3.
    assert (Hfin : forall st m a, sd_ok ((sd_commit sd2) <| data_start := a |> <| data_offset := 0 |> <| multi_blk_cnt := m |> <| state := st |>)).
    { intros st m a. split; [destruct Hc3; split; cbn; done || lia|]. cbn [current_cmd modify]. rewrite Ec3. (split; [|split; [|split]]); cbn; try done; lia. }
    cbn [multi_blk_cnt modify]. destruct (negb _); [destruct (_ =? 0); apply Hfin|].
    specialize (Hfin sd_receivingdata_state (multi_blk_cnt (sd_commit sd2)) (u64 (data_start (sd_commit sd2) + blk_len (sd_commit sd2)))).
    destruct (sd_commit sd2). exact Hfin.
Qed.

Lemma finish_ok cmd f sd : sd_finish cmd = Some f -> core_ok sd -> core_ok (f sd) /\ data_offset (f sd) = data_offset sd /\ data_size (f sd) = data_size sd /\
  current_cmd (f sd) = current_cmd sd.
Proof.
  intros E Hc. unfold sd_finish in E. repeat match type of E with context [if ?b then _ else _] => destruct b end; simplify_eq; [| | | |done].
  - split; [by apply core_ok_commit|]. destruct (commit_fields sd) as (? & ? & _ & ?). done.
  - unfold sd_program_cid. cbv zeta. destruct (bool_decide _), (flag _ _); (split; [core_same | done]).
  - unfold sd_program_csd. cbv zeta. destruct (bool_decide _), (flag (_ .& _) _), (flag _ _); (split; [core_same | done]).
  - unfold sd_lock_command. cbv zeta. state_cases; (split; [core_same | done]).
Qed.

(** A buffer write, with what the command does once it is full. *)
Definition buffer_finish (sd : SDState) (f : SDState -> SDState) (buf : list Z) : Z * SDState :=
  let '(n, complete, sd) := buffer_write sd buf in (n, if complete : bool then (f sd) <| state := sd_transfer_state |> else sd).

Lemma buffer_write_ok sd f buf : sd_ok sd -> card_deaf sd = false -> sd_finish (current_cmd sd) = Some f -> sd_ok (buffer_finish sd f buf).2.
Proof.
  intros [Hc Hp] Hd Ef. pose proof (deaf_state sd Hd) as Hst. assert (Ho : data_offset sd < data_size sd) by (apply Hp; [done | by rewrite Ef]).
  assert (H25 : current_cmd sd <> 25) by (intros E; by rewrite E in Ef).
  unfold buffer_finish, buffer_write. cbv zeta. set (k := Z.min (data_size sd - data_offset sd) (zlen buf)). set (sd1 := sd <| data := _ |> <| data_offset := _ |>).
  assert (Hc1 : core_ok sd1).
  { destruct Hc. split; cbn [sd1 data sd_status scr data_offset data_size blk_len ocr_power_timer ocr modify]; try done; [|lia].
    rewrite !length_app, !length_take, length_drop. lia. }
  destruct (Z.leb_spec (data_size sd) (data_offset sd + k)) as [Hk|Hk].
  - assert (Hcs : core_ok (sd1 <| state := sd_transfer_state |>)) by core_same.
    destruct (finish_ok _ _ _ Ef Hcs) as (Hcf & _ & _ & Ecf). cbn [snd]. split; [core_same|]. (split; [|split; [|split]]); done.
  - cbn [snd]. split; [done|]. (split; [|split; [|split]]); intros Hs; change (state sd1) with (state sd) in Hs; rewrite Hst in Hs; try discriminate Hs.
    + intros _. change (data_offset sd + k < data_size sd). lia.
    + by intros H25'.
Qed.

(** ** Memory safety *)

Lemma read_ok sd n : sd_ok sd -> 0 <= n -> exists bs sd', sd_read_data sd n = Some (bs, sd') /\ sd_ok sd'.
Proof.
  intros Hok Hn. rewrite read_data_cases by done. destruct (card_dummy sd) eqn:Hd; [by eexists _, _|]. pose proof (dummy_state sd Hd) as Hst.
  destruct (sd_buffered_read (current_cmd sd)) eqn:Hb.
  - pose proof (buffer_read_ok sd n Hok Hd Hb Hn). destruct (buffer_read sd n) as [bs sd']. by eexists _, _.
  - apply read_multiple_ok; [done | done |]. unfold card_dummy in Hd. destruct (blk sd); [|done]. rewrite Hb in Hd. cbn [negb andb] in Hd.
    destruct (Z.eqb_spec (current_cmd sd) 18); [done|]. by rewrite orb_true_r in Hd.
Qed.

(** The command that a write belongs to, if the card takes writes. *)
Definition write_allowed (sd : SDState) : Prop := card_deaf sd = false -> current_cmd sd = 25 \/ sd_finish (current_cmd sd) <> None.

Lemma write_ok sd buf : sd_ok sd -> write_allowed sd -> exists n sd', sd_write_data sd buf = Some (n, sd') /\ sd_ok sd'.
Proof.
  intros Hok Hw. rewrite write_data_cases by done. destruct (card_deaf sd) eqn:Hd; [by eexists _, _|]. pose proof (deaf_state sd Hd) as Hst. destruct (Hw Hd) as [H25|Hf].
  - rewrite H25. destruct (write_multiple_ok sd (buf.[0]) Hok Hst H25) as (sd' & -> & Hok'). by eexists _, _.
  - rewrite (finish_cases _ Hf). destruct (sd_finish (current_cmd sd)) as [f|] eqn:Ef; [|done]. cbn [mbind option_bind].
    pose proof (buffer_write_ok sd f buf Hok Hd Ef) as H'. unfold buffer_finish in H'. destruct (buffer_write sd buf) as [[n c] sd1]. by eexists _, _.
Qed.

Lemma timer_ok sd : sd_ok sd -> exists sd', sd_timer sd = Some sd' /\ sd_ok sd'.
Proof.
  intros [Hc Hp]. unfold sd_timer, sd_ocr_powerup. destruct (ocr_power_timer sd) eqn:Et; [|by eexists]. destruct (_ <=? _); [|by eexists].
  cbn [ocr size modify]. destruct Hc. rewrite ok_timer0 by (by rewrite Et). eexists. split; [done|].
  destruct (_ <? _); (split; [by split | exact Hp]).
Qed.

(** What happens to a card: commands, data accesses, time and the timer. *)
Inductive card_step : SDState -> SDState -> Prop :=
  | step_command sd cmd arg resp sd' : 0 <= cmd -> 0 <= arg -> status_allowed sd cmd -> sd_do_command sd cmd arg = Some (resp, sd') -> card_step sd sd'
  | step_read sd n bs sd' : 0 <= n -> sd_read_data sd n = Some (bs, sd') -> card_step sd sd'
  | step_write sd buf n sd' : write_allowed sd -> sd_write_data sd buf = Some (n, sd') -> card_step sd sd'
  | step_clock sd t : card_step sd (sd <| vclock := t |>)
  | step_timer sd sd' : sd_timer sd = Some sd' -> card_step sd sd'.

Lemma card_step_ok sd sd' : card_step sd sd' -> sd_ok sd -> sd_ok sd'.
Proof.
  intros Hst Hok. inversion Hst; subst.
  - edestruct (command_ok sd cmd arg) as (? & ? & E & Hok'); try done. by simplify_eq.
  - edestruct (read_ok sd n) as (? & ? & E & Hok'); try done. by simplify_eq.
  - edestruct (write_ok sd buf) as (? & ? & E & Hok'); try done. by simplify_eq.
  - destruct Hok as [Hc Hp]. split; [core_same | exact Hp].
  - edestruct (timer_ok sd) as (? & E & Hok'); try done. by simplify_eq.
Qed.

Lemma fresh_ok b sectors writable version now rng : 0 <= sectors < 2 ^ 42 -> sd_ok (sd_reset (sd_instance_init b sectors writable version now rng)).
Proof.
  intros Hn. assert (Hc : core_ok (sd_reset (sd_instance_init b sectors writable version now rng))) by (apply core_ok_reset; cbn; done || lia).
  split; [exact Hc|]. apply phase_ok_idle; [by intros [|] | done].
Qed.

(** When a read from a sending card returns no byte: a multiple-block read at a
    block beyond the end of the card, or a buffer with nothing left to send. *)
Definition read_stalls (sd : SDState) : Prop :=
  (current_cmd sd = 18 /\ data_offset sd = 0 /\ size sd < u64 (data_start sd + sd_blk_len sd)) \/
  (sd_buffered_read (current_cmd sd) = true /\ data_offset sd = data_size sd).

Lemma read_progress sd n bs sd' : sd_ok sd -> 0 < n -> sd_read_data sd n = Some (bs, sd') -> bs = [] -> read_stalls sd.
Proof.
  intros Hok Hn E ->. rewrite read_data_cases in E by (done || lia). destruct (card_dummy sd) eqn:Hd.
  { apply (inj Some) in E. apply (f_equal (fun p => length p.1)) in E. cbn [fst length] in E. rewrite length_replicate in E. lia. }
  pose proof (dummy_state sd Hd) as Hst. destruct (sd_buffered_read (current_cmd sd)) eqn:Hb.
  - right. split; [done|]. destruct Hok as [[] Hp]. pose proof (proj1 Hp Hst Hb) as Ho. unfold buffer_read in E. cbv zeta in E. apply (inj Some) in E.
    apply (f_equal (fun p => length p.1)) in E. cbn [fst length] in E. unfold slice in E. rewrite length_take, length_drop in E. lia.
  - left. assert (Hcmd : current_cmd sd = 18).
    { unfold card_dummy in Hd. destruct (blk sd); [|done]. rewrite Hb in Hd. destruct (Z.eqb_spec (current_cmd sd) 18); [done|]. by rewrite orb_true_r in Hd. }
    split; [done|]. unfold sd_read_multiple, address_in_range in E. cbv zeta in E. destruct (Z.eqb_spec (data_offset sd) 0) as [H0|H0].
    + split; [done|]. destruct (Z.ltb_spec (size sd) (u64 (data_start sd + sd_blk_len sd))); [done|]. cbn [negb] in E. by destruct (512 <=? _).
    + cbn [negb] in E. by destruct (512 <=? _).
Qed.

Lemma write_progress sd buf n sd' : sd_ok sd -> sd_write_data sd buf = Some (n, sd') -> buf <> [] -> 1 <= n.
Proof.
  intros Hok E Hne. assert (Hl : 1 <= zlen buf) by (destruct buf; [done | cbn; lia]). rewrite write_data_cases in E by done. destruct (card_deaf sd) eqn:Hd; [by simplify_eq|].
  pose proof (deaf_state sd Hd) as Hst. destruct (current_cmd sd =? 25).
  { destruct (sd_write_multiple sd _); [|done]. cbn [mbind option_bind] in E. by simplify_eq. }
  destruct (sd_finish (current_cmd sd)) as [f|] eqn:Ef; [|done]. cbn [mbind option_bind] in E. destruct Hok as [_ Hp].
  assert (Ho : data_offset sd < data_size sd) by (apply Hp; [done | by rewrite Ef]). unfold buffer_write in E. cbv zeta in E. destruct (data_size sd <=? _); injection E as <- _; lia.
Qed.

(** C13: The card stays within its block buffer and fails no assertion.  Take a new
    card with a medium below 2 PiB after reset, and any sequence of commands, reads,
    writes and timer expiries in which CMD13 is not sent when a multiple-block read has
    passed the size of the last buffer transfer and data is only written to a command
    that takes it.  Then no operation accesses the buffer out of bounds or fails an
    assertion of the card on its power-up state, on the size of the data it sends, on
    the size of the write-protection bitmap or on the command that a write belongs to.
    A write takes at least one byte, as the bus asserts; a read returns none only from
    a multiple-block read beyond the end of the card or from an exhausted buffer. *)
Theorem sd_safe b sectors writable version now rng sd : 0 <= sectors < 2 ^ 42 ->
  rtc card_step (sd_reset (sd_instance_init b sectors writable version now rng)) sd ->
  (forall cmd arg, 0 <= cmd -> 0 <= arg -> status_allowed sd cmd -> sd_do_command sd cmd arg <> None) /\
  (forall n, 0 < n -> exists bs sd', sd_read_data sd n = Some (bs, sd') /\ (bs = [] -> read_stalls sd)) /\
  (forall buf, write_allowed sd -> exists n sd', sd_write_data sd buf = Some (n, sd') /\ (buf <> [] -> 1 <= n)) /\ sd_timer sd <> None.
Proof.
  intros Hn Hrun. assert (Hok : sd_ok sd) by (refine (rtc_invariant card_step sd_ok _ _ card_step_ok Hrun _); by apply fresh_ok).
  split; [|split; [|split]].
  - intros cmd arg H1 H2 H3. destruct (command_ok sd cmd arg Hok H1 H2 H3) as (? & ? & -> & _). done.
  - intros n Hp. destruct (read_ok sd n Hok ltac:(lia)) as (bs & sd' & E & _). exists bs, sd'. split; [done|]. by eapply read_progress.
  - intros buf Hw. destruct (write_ok sd buf Hok Hw) as (n & sd' & E & _). exists n, sd'. split; [done|]. by eapply write_progress.
  - destruct (timer_ok sd Hok) as (? & -> & _). done.
Qed.

(** A card that has been asked for its voltages and waits for an application
    command. *)
Definition asked_card : SDState :=
  let sd := sd_reset (sd_instance_init (Some (fun _ => 0)) 8 true 2 0 (fun _ => 0)) in
  match ('(_, sd) ← sd_do_command sd 8 0x1AA; '(_, sd) ← sd_do_command sd 55 0; Some sd) with Some sd => sd | None => sd end.
Lemma sd_safe_witness : sd_do_command asked_card 41 0xFF8000 <> None /\ exists bs sd', sd_read_data asked_card 512 = Some (bs, sd').
Proof.
  assert (Hrun : rtc card_step (sd_reset (sd_instance_init (Some (fun _ => 0)) 8 true 2 0 (fun _ => 0))) asked_card).
  { eapply rtc_l; [by eapply (step_command _ 8 0x1AA); [..|vm_compute; reflexivity]|].
    eapply rtc_l; [by eapply (step_command _ 55 0); [..|vm_compute; reflexivity]|]. vm_compute. apply rtc_refl. }
  destruct (sd_safe _ 8 true 2 0 _ asked_card ltac:(lia) Hrun) as (Hc & Hr & _ & _). split; [by apply Hc|]. destruct (Hr 512 ltac:(lia)) as (bs & sd' & E & _). by exists bs, sd'.
Defined.

(** ** The card is a stream *)

Lemma sends_dummy (sd : SDState) bs sd' : sd_ok sd -> card_dummy sd = true -> sends sd bs sd' -> bs = replicate (length bs) 0 /\ sd' = sd.
Proof.
  intros Hok Hd Hs. induction Hs as [c|c b c1 bs c' E Hs IH]; [done|]. change (read_data c 1) with (sd_read_data c 1) in E.
  rewrite read_data_cases, Hd in E by done. injection E as <- <-. destruct (IH Hok Hd) as [-> ->]. cbn [length replicate]. by rewrite length_replicate.
Qed.

(** A buffered read of more bytes is one of the first byte and one of the
    rest. *)
Lemma buffer_read_step sd n : 1 < data_size sd - data_offset sd -> 0 <= data_offset sd -> data_size sd <= zlen (data sd) -> 0 < n ->
  exists b, buffer_read sd 1 = ([b], sd <| data_offset := data_offset sd + 1 |>) /\
    buffer_read sd (1 + n) = (b :: (buffer_read (sd <| data_offset := data_offset sd + 1 |>) n).1, (buffer_read (sd <| data_offset := data_offset sd + 1 |>) n).2).
Proof.
  intros Hr Ho Hl Hn. destruct (lookup_lt_is_Some_2 (data sd) (Z.to_nat (data_offset sd)) ltac:(lia)) as [b Hb]. exists b.
  unfold buffer_read. cbv zeta. rewrite Z.min_r by lia. rewrite (proj2 (Z.leb_gt _ _)) by lia. cbn [data_size data_offset data state modify fst snd]. split.
  - f_equal. unfold slice. by rewrite (drop_S _ b).
  - set (k := Z.min (data_size sd - (data_offset sd + 1)) n). replace (Z.min (data_size sd - data_offset sd) (1 + n)) with (1 + k) by lia.
    replace (data_offset sd + (1 + k)) with (data_offset sd + 1 + k) by lia. f_equal.
    unfold slice. replace (Z.to_nat (1 + k)) with (S (Z.to_nat k)) by lia. replace (Z.to_nat (data_offset sd + 1)) with (S (Z.to_nat (data_offset sd))) by lia.
    by rewrite (drop_S _ b _ Hb).
Qed.

Lemma sd_read_chunk (sd : SDState) bs sd' : sd_ok sd -> bs <> [] -> sends sd bs sd' ->
  exists k sd1, (1 <= k <= length bs)%nat /\ sd_read_data sd (zlen bs) = Some (take k bs, sd1) /\ sd_ok sd1 /\ sends sd1 (drop k bs) sd'.
Proof.
  intros Hok Hne Hs.
  assert (H : exists k sd1, (1 <= k <= length bs)%nat /\ sd_read_data sd (zlen bs) = Some (take k bs, sd1) /\ sends sd1 (drop k bs) sd').
  2: { destruct H as (k & sd1 & Hk & E & Ht). exists k, sd1. split; [done|]. split; [done|]. split; [|done].
       destruct (read_ok sd (zlen bs) Hok ltac:(lia)) as (? & ? & E' & Hok'). by simplify_eq. }
  destruct (card_dummy sd) eqn:Hd.
  { rewrite read_data_cases, Hd by (done || lia). destruct (sends_dummy _ _ _ Hok Hd Hs) as [E ->]. exists (length bs), sd. split; [destruct bs; [done | cbn; lia]|].
    rewrite Nat2Z.id, firstn_all, drop_all. split; [by rewrite <- E | constructor]. }
  pose proof (dummy_state sd Hd) as Hst. destruct (sd_buffered_read (current_cmd sd)) eqn:Hb.
  2: { inversion Hs as [|? b c1 bs' ? E Hs1]; subst; [done|]. change (read_data sd 1) with (sd_read_data sd 1) in E. rewrite read_data_cases, Hd, Hb in E by done.
       exists 1%nat, c1. rewrite read_data_cases, Hd, Hb, E by (done || lia). split; [cbn; lia | done]. }
  revert sd Hok Hd Hb Hst Hs. induction bs as [|b bs IH]; intros sd Hok Hd Hb Hst Hs; [done|].
  inversion Hs as [|? ? sd1 ? ? E Hs1]; subst. change (read_data sd 1) with (sd_read_data sd 1) in E. rewrite read_data_cases, Hd, Hb in E by done.
  rewrite read_data_cases, Hd, Hb by (done || lia). pose proof (proj1 (proj2 Hok) Hst Hb) as Ho. pose proof Hok as [[Hd512 _ _ Hoff Hsz _ _] _].
  destruct (decide (bs = [])) as [->|Hnil]; [exists 1%nat, sd1; change (zlen [b]) with 1; rewrite E; split; [cbn; lia | done]|].
  destruct (Z.le_gt_cases (data_size sd - data_offset sd) 1) as [Hr|Hr].
  - assert (E1 : buffer_read sd (zlen (b :: bs)) = buffer_read sd 1).
    { unfold buffer_read. by rewrite !Z.min_l by (cbn [length]; lia). }
    exists 1%nat, sd1. rewrite E1, E. split; [cbn; lia | done].
  - destruct (buffer_read_step sd (zlen bs)) as (b' & E1 & E2); [lia.. | destruct bs; [done | cbn; lia]|]. rewrite E1 in E. injection E as <- <-.
    set (sd1 := sd <| data_offset := data_offset sd + 1 |>) in *.
    assert (Hok1 : sd_ok sd1) by (pose proof (buffer_read_ok sd 1 Hok Hd Hb ltac:(done)) as H'; by rewrite E1 in H').
    destruct (IH Hnil sd1 Hok1 Hd Hb Hst Hs1) as (k & sd2 & Hk & E3 & Hs2). exists (S k), sd2. split; [cbn [length]; lia|].
    rewrite read_data_cases in E3 by (done || lia). change (card_dummy sd1) with (card_dummy sd) in E3. change (current_cmd sd1) with (current_cmd sd) in E3. rewrite Hd, Hb in E3.
    apply (inj Some) in E3. replace (zlen (b' :: bs)) with (1 + zlen bs) by (cbn [length]; lia). rewrite E2, E3. done.
Qed.

Lemma splice_step {A} (d : list A) (o k : nat) b bs :
  let d1 := take o d ++ [b] ++ drop (o + 1) d in
  take (o + 1) d1 ++ take k bs ++ drop (o + 1 + k) d1 = take o d ++ (b :: take k bs) ++ drop (o + 1 + k) d.
Proof.
  cbv zeta. destruct (decide (o <= length d)%nat) as [Ho|Ho].
  - assert (E1 : take (o + 1) (take o d ++ [b] ++ drop (o + 1) d) = take o d ++ [b]).
    { rewrite app_assoc. apply take_app_length'. rewrite length_app, length_take. cbn. lia. }
    assert (E2 : drop (o + 1 + k) (take o d ++ [b] ++ drop (o + 1) d) = drop (o + 1 + k) d).
    { rewrite app_assoc, drop_app_ge by (rewrite length_app, length_take; cbn; lia). rewrite drop_drop. f_equal. rewrite length_app, length_take. cbn. lia. }
    by rewrite E1, E2, <- app_assoc.
  - rewrite (take_ge d o), !(drop_ge d) by lia. rewrite app_nil_r, take_ge, drop_ge by (rewrite length_app; cbn; lia). by rewrite <- app_assoc.
Qed.

(** A buffered write of more bytes is one of the first byte and one of the
    rest. *)
Lemma buffer_write_step sd b bs : 1 < data_size sd - data_offset sd -> 0 <= data_offset sd ->
  exists d, let sd1 := sd <| data := d |> <| data_offset := data_offset sd + 1 |> in
    d = take (Z.to_nat (data_offset sd)) (data sd) ++ [b] ++ drop (Z.to_nat (data_offset sd) + 1) (data sd) /\
    buffer_write sd [b] = (1, false, sd1) /\ buffer_write sd (b :: bs) = let '(n, c, sd2) := buffer_write sd1 bs in (1 + n, c, sd2).
Proof.
  intros Hr Ho. eexists. split; [reflexivity|]. split.
  - unfold buffer_write. cbv zeta. rewrite Z.min_r by (cbn; lia). change (zlen [b]) with 1. rewrite (proj2 (Z.leb_gt _ _)) by lia.
    replace (Z.to_nat (data_offset sd + 1)) with (Z.to_nat (data_offset sd) + 1)%nat by lia. reflexivity.
  - unfold buffer_write. cbv zeta. cbn [data_size data_offset data modify].
    set (k := Z.min (data_size sd - (data_offset sd + 1)) (zlen bs)).
    replace (Z.min (data_size sd - data_offset sd) (zlen (b :: bs))) with (1 + k) by (cbn [length]; lia).
    replace (data_offset sd + 1 + k) with (data_offset sd + (1 + k)) by lia. assert (Hk : 0 <= k) by lia.
    replace (Z.to_nat (data_offset sd + 1)) with (Z.to_nat (data_offset sd) + 1)%nat by lia.
    replace (Z.to_nat (data_offset sd + (1 + k))) with (Z.to_nat (data_offset sd) + 1 + Z.to_nat k)%nat by lia.
    replace (Z.to_nat (1 + k)) with (S (Z.to_nat k)) by lia. cbn [take]. rewrite splice_step. by case_match.
Qed.

Lemma takes_deaf (sd : SDState) bs sd' : sd_ok sd -> card_deaf sd = true -> takes sd bs sd' -> sd' = sd.
Proof.
  intros Hok Hd Hs. induction Hs as [c|c b c1 bs c' E Hs IH]; [done|]. change (write_data c [b]) with (sd_write_data c [b]) in E.
  rewrite write_data_cases, Hd in E by done. injection E as <-. auto.
Qed.

(** With room for one byte a longer write takes the same byte, with more room it
    goes on. *)
Lemma finish_last sd f b bs sd1 : data_size sd - data_offset sd <= 1 -> buffer_finish sd f [b] = (1, sd1) -> buffer_finish sd f (b :: bs) = (1, sd1).
Proof.
  intros Hr E. unfold buffer_finish, buffer_write in *. cbv zeta in *. assert (Er : Z.min (data_size sd - data_offset sd) (zlen [b]) = 1) by (repeat case_match; by simplify_eq).
  replace (Z.min (data_size sd - data_offset sd) (zlen (b :: bs))) with 1 by (cbn [length] in *; lia). by rewrite Er in E.
Qed.

(** The command of the write phase a card is in. *)
Lemma write_phase sd buf : sd_ok sd -> card_deaf sd = false -> forall r, sd_write_data sd buf = Some r ->
  (current_cmd sd = 25 /\ exists sd', r = (1, sd') /\ sd_write_multiple sd (buf.[0]) = Some sd') \/
  (exists f, sd_finish (current_cmd sd) = Some f /\ r = buffer_finish sd f buf /\ forall l, sd_write_data sd l = Some (buffer_finish sd f l)).
Proof.
  intros Hok Hd r E. rewrite write_data_cases, Hd in E by done. destruct (Z.eqb_spec (current_cmd sd) 25) as [H25|H25].
  - left. split; [done|]. destruct (sd_write_multiple _ _) as [sd'|]; [|done]. injection E as <-. by exists sd'.
  - right. destruct (sd_finish (current_cmd sd)) as [f|] eqn:Ef; [|done]. exists f. split; [done|]. cbn [mbind option_bind] in E. split.
    + unfold buffer_finish. destruct (buffer_write sd buf) as [[? ?] ?]. by injection E as <-.
    + intros l. rewrite write_data_cases, Hd, (proj2 (Z.eqb_neq _ _) H25), Ef by done. cbn [mbind option_bind]. unfold buffer_finish. by destruct (buffer_write sd l) as [[? ?] ?].
Qed.

Lemma sd_write_chunk (sd : SDState) bs sd' : sd_ok sd -> bs <> [] -> takes sd bs sd' ->
  exists k sd1, (1 <= k <= length bs)%nat /\ sd_write_data sd bs = Some (Z.of_nat k, sd1) /\ sd_ok sd1 /\ takes sd1 (drop k bs) sd'.
Proof.
  intros Hok Hne Hs.
  assert (H : exists k sd1, (1 <= k <= length bs)%nat /\ sd_write_data sd bs = Some (Z.of_nat k, sd1) /\ takes sd1 (drop k bs) sd').
  2: { destruct H as (k & sd1 & Hk & E & Ht). exists k, sd1. split; [done|]. split; [done|]. split; [|done].
       assert (Hw : write_allowed sd). { intros Hd. destruct (write_phase sd bs Hok Hd _ E) as [[? _] | (f & -> & _)]; auto. }
       destruct (write_ok sd bs Hok Hw) as (? & ? & E' & Hok'). by simplify_eq. }
  revert sd Hok Hs. induction bs as [|b bs IH]; intros sd Hok Hs; [done|]. inversion Hs as [|? ? sd1 ? ? E Hs1]; subst.
  change (write_data sd [b]) with (sd_write_data sd [b]) in E. destruct (card_deaf sd) eqn:Hd.
  { pose proof (takes_deaf _ _ _ Hok Hd Hs) as ->. exists (length (b :: bs)), sd. rewrite write_data_cases, Hd, drop_all by done. split; [cbn; lia|]. split; [done | constructor]. }
  destruct (decide (bs = [])) as [->|Hnil]; [exists 1%nat, sd1; split; [cbn; lia | done]|].
  destruct (write_phase sd [b] Hok Hd _ E) as [(H25 & sd'' & [= <-] & Ew) | (f & Ef & E1 & Eall)].
  { exists 1%nat, sd1. split; [cbn; lia|]. split; [|done]. rewrite write_data_cases, Hd, H25 by done. cbn [Z.eqb Pos.eqb]. change ((b :: bs).[0]) with ([b].[0]). by rewrite Ew. }
  destruct (Z.le_gt_cases (data_size sd - data_offset sd) 1) as [Hr|Hr].
  { exists 1%nat, sd1. split; [cbn; lia|]. split; [|done]. rewrite Eall. f_equal. by apply finish_last. }
  destruct (buffer_write_step sd b bs) as (d & Hdd & Ew & Em); [lia | apply Hok|]. set (sdx := sd <| data := d |> <| data_offset := data_offset sd + 1 |>) in *.
  unfold buffer_finish in E1. rewrite Ew in E1. injection E1 as ->.
  assert (Hokx : sd_ok sdx). { pose proof (buffer_write_ok sd f [b] Hok Hd Ef) as H'. unfold buffer_finish in H'. by rewrite Ew in H'. }
  destruct (IH Hnil sdx Hokx Hs1) as (k & sd2 & Hk & E2 & Ht). exists (S k), sd2. split; [cbn; lia|]. split; [|done].
  rewrite Eall. unfold buffer_finish. rewrite Em. destruct (write_phase sdx bs Hokx Hd _ E2) as [[H25 _] | (f' & Ef' & E3 & _)].
  { change (current_cmd sdx) with (current_cmd sd) in H25. rewrite H25 in Ef. done. }
  change (current_cmd sdx) with (current_cmd sd) in Ef'. rewrite Ef in Ef'. injection Ef' as <-. unfold buffer_finish in E3. destruct (buffer_write sdx bs) as [[n c] sd3].
  injection E3 as <- ->. do 2 f_equal. lia.
Qed.

#[export] Instance sd_stream : SDStream SDState := {| card_ok := sd_ok; read_chunk := sd_read_chunk; write_chunk := sd_write_chunk |}.
Lemma sd_sends_ok (sd : SDState) bs (sd' : SDState) : sd_ok sd -> sends sd bs sd' -> sd_ok sd'.
Proof. exact (sends_ok sd bs sd'). Qed.
Lemma sd_takes_ok (sd : SDState) bs (sd' : SDState) : sd_ok sd -> takes sd bs sd' -> sd_ok sd'.
Proof. exact (takes_ok sd bs sd'). Qed.
