(* ===== verification/SdBlock.v ===== *)
(** * SdBlock: blocks on the SD memory card

    The identification sequence brings a reset card to the transfer state; there
    single blocks are read and written, and ranges erased.  The departures at the
    end can be reached by a guest. *)
From S2P Require Import Prelude Sd SdCard SdStream.

(** ** Single blocks

    A card selected by the host and waiting for a command, with the medium
    [b]. *)
Record card_idle (sd : SDState) (b : Z -> Z) : Prop := {
  idle_blk : blk sd = Some b;
  idle_state : state sd = sd_transfer_state;
  idle_locked : flag (card_status sd) CARD_IS_LOCKED = false;
  idle_acmd : expecting_acmd sd = false;
  idle_len : 0 < blk_len sd <= 512;
  idle_core : core_ok sd;
  idle_size : size sd = blk_sectors sd .<< HWBLOCK_SHIFT;
}.

(** The rest of a prepared buffer is sent byte by byte. *)
Lemma sends_buffer n : forall sd b, sd_ok sd -> blk sd = Some b -> state sd = sd_sendingdata_state -> flag (card_status sd) (ADDRESS_ERROR .| WP_VIOLATION) = false ->
  sd_buffered_read (current_cmd sd) = true -> data_size sd - data_offset sd = Z.of_nat (S n) ->
  sends sd (slice (data_offset sd) (Z.of_nat (S n)) (data sd)) (sd <| data_offset := data_size sd |> <| state := sd_transfer_state |>).
Proof.
  induction n as [|n IH]; intros sd b Hok Hb Hst He Hc Hr.
  all: assert (Hd : card_dummy sd = false) by (unfold card_dummy; by rewrite Hb, Hst, He, Hc).
  all: assert (E1 : read_data sd 1 = Some (buffer_read sd 1)) by (change (read_data sd 1) with (sd_read_data sd 1); by rewrite read_data_cases, Hd, Hc).
  all: pose proof Hok as [[Hl _ _ Ho Hsz _ _] _].
  - destruct (lookup_lt_is_Some_2 (data sd) (Z.to_nat (data_offset sd)) ltac:(lia)) as [x Hx].
    assert (Es : slice (data_offset sd) 1 (data sd) = [x]) by (unfold slice; rewrite (drop_S _ x) by done; done). change (Z.of_nat 1) with 1 in *.
    rewrite Es. eapply sends_cons; [|apply sends_nil]. rewrite E1. unfold buffer_read. cbv zeta. rewrite Z.min_r, Es by lia.
    rewrite (proj2 (Z.leb_le _ _)) by lia. do 2 f_equal. by replace (data_offset sd + 1) with (data_size sd) by lia.
  - destruct (buffer_read_step sd (Z.of_nat (S n))) as (x & E2 & E3); [lia..|]. rewrite E2 in E1.
    set (sd1 := sd <| data_offset := data_offset sd + 1 |>) in *.
    assert (Hok1 : sd_ok sd1) by (pose proof (buffer_read_ok sd 1 Hok Hd Hc ltac:(done)) as H'; by rewrite E2 in H').
    pose proof (IH sd1 b Hok1 Hb Hst He Hc ltac:(cbn [sd1 data_offset data_size modify]; lia)) as IH1.
    assert (E : slice (data_offset sd) (Z.of_nat (S (S n))) (data sd) = x :: slice (data_offset sd1) (Z.of_nat (S n)) (data sd1)).
    { apply (f_equal fst) in E3. unfold buffer_read in E3. cbn [fst sd1 data_offset data_size data modify] in E3.
      rewrite !Z.min_r in E3 by lia. by replace (1 + Z.of_nat (S n)) with (Z.of_nat (S (S n))) in E3 by lia. }
    rewrite E. eapply sends_cons; [exact E1 | exact IH1].
Qed.

(** The rest of a block is collected byte by byte, and committed. *)
Lemma takes_block bs : forall sd b, sd_ok sd -> blk sd = Some b -> state sd = sd_receivingdata_state -> flag (card_status sd) (ADDRESS_ERROR .| WP_VIOLATION) = false ->
  current_cmd sd = 24 -> bs <> [] -> data_size sd - data_offset sd = zlen bs ->
  let d := take (Z.to_nat (data_offset sd)) (data sd) ++ bs ++ drop (Z.to_nat (data_size sd)) (data sd) in
  takes sd bs ((sd_commit (sd <| data := d |> <| data_offset := data_size sd |> <| state := sd_transfer_state |>)) <| state := sd_transfer_state |>).
Proof.
  induction bs as [|x bs IH]; intros sd b Hok Hb Hst He Hc Hne Hr; [done|]. cbv zeta.
  assert (Hd : card_deaf sd = false) by (unfold card_deaf; by rewrite Hb, Hst, He). assert (Ef : sd_finish (current_cmd sd) = Some sd_commit) by by rewrite Hc.
  assert (Ew : forall l, write_data sd l = Some (buffer_finish sd sd_commit l)).
  { intros l. change (write_data sd l) with (sd_write_data sd l). rewrite write_data_cases, Hd, Hc by done. cbn. unfold buffer_finish. by destruct (buffer_write sd l) as [[? ?] ?]. }
  pose proof Hok as [[Hl _ _ Ho Hsz _ _] _]. destruct (decide (bs = [])) as [->|Hnil].
  - eapply takes_cons; [|apply takes_nil]. rewrite Ew. unfold buffer_finish, buffer_write. cbv zeta. cbn [length] in Hr. rewrite Z.min_r by (cbn; lia).
    change (zlen [x]) with 1. rewrite (proj2 (Z.leb_le _ _)) by lia. replace (data_offset sd + 1) with (data_size sd) by lia. done.
  - destruct (buffer_write_step sd x bs) as (d & Ed & E1 & _); [destruct bs; [done | cbn [length] in Hr; lia] | lia|].
    set (sd1 := sd <| data := d |> <| data_offset := data_offset sd + 1 |>) in *.
    assert (Hok1 : sd_ok sd1) by (pose proof (buffer_write_ok sd sd_commit [x] Hok Hd Ef) as H'; unfold buffer_finish in H'; by rewrite E1 in H').
    eapply takes_cons; [rewrite Ew; unfold buffer_finish; by rewrite E1|].
    pose proof (IH sd1 b Hok1 Hb Hst He Hc Hnil ltac:(cbn [sd1 data_offset data_size modify length] in *; lia)) as IH1. cbv zeta in IH1.
    assert (Ex : forall D o, (sd1 <| data := D |> <| data_offset := o |>) = (sd <| data := D |> <| data_offset := o |>)) by reflexivity. rewrite Ex in IH1.
    replace (take (Z.to_nat (data_offset sd)) (data sd) ++ (x :: bs) ++ drop (Z.to_nat (data_size sd)) (data sd))
      with (take (Z.to_nat (data_offset sd1)) (data sd1) ++ bs ++ drop (Z.to_nat (data_size sd1)) (data sd1)); [exact IH1|].
    cbn [sd1 data_offset data_size data modify]. rewrite Ed. pose proof (splice_step (data sd) (Z.to_nat (data_offset sd)) (length bs) x bs) as Hsp. cbv zeta in Hsp. rewrite !firstn_all in Hsp.
    replace (Z.to_nat (data_offset sd + 1)) with (Z.to_nat (data_offset sd) + 1)%nat by lia.
    replace (Z.to_nat (data_size sd)) with (Z.to_nat (data_offset sd) + 1 + length bs)%nat by (cbn [length] in Hr; lia). exact Hsp.
Qed.

(** What stays of a card through block transfers. *)
Definition same_card (sd sd' : SDState) : Prop := blk_len sd' = blk_len sd /\ size sd' = size sd /\ ocr sd' = ocr sd.

(** A block command that its handler accepts. *)
Lemma do_block_command sd b cmd arg c h sd1 : card_idle sd b -> cmd = 17 \/ cmd = 24 -> proto_entry sd_proto_cmd cmd = Some (c, h) -> c <> 6 ->
  h (sd <| card_status := card_status sd .& u32 (.~ APP_CMD) |> <| multi_blk_cnt := 0 |>) arg = Some (sd1, sd_r1) ->
  exists resp cs, length resp = 4%nat /\ sd_do_command sd cmd arg = Some (resp, sd1 <| card_status := cs |> <| current_cmd := cmd |>) /\
    flag cs (ADDRESS_ERROR .| WP_VIOLATION) = false /\ flag cs CARD_IS_LOCKED = flag (card_status sd1) CARD_IS_LOCKED.
Proof.
  intros [Hb Hst Hl Ha _ _ _] Hcmd Hh Hcl E. unfold sd_do_command. rewrite Hb.
  assert (E64 : (64 <=? cmd) = false) by (destruct Hcmd as [-> | ->]; done). rewrite E64. cbv zeta. unfold sd_execute. rewrite Hst, Hl, Ha.
  change (sd_transfer_state =? sd_inactive_state) with false. change (sd_transfer_state =? sd_sleep_state) with false. cbn [andb].
  assert (En : sd_normal_command sd cmd arg = Some (sd1, sd_r1)).
  { unfold sd_normal_command, cmd_class. cbv zeta. rewrite Hh, (proj2 (Z.eqb_neq _ _) Hcl). cbn [andb]. cbn [multi_blk_cnt modify].
    destruct (Z.eqb_spec (multi_blk_cnt sd) 0) as [E0|E0]; cbn [negb andb].
    - rewrite <- E. f_equal. unfold modify. cbn. by rewrite E0.
    - replace (negb ((cmd =? 18) || (cmd =? 25))) with true by (destruct Hcmd as [-> | ->]; done). exact E. }
  rewrite En. cbn [mbind option_bind is_illegal sd_send_response sd_response_r1_make card_status modify]. eexists _, _. split; [|split; [reflexivity|]].
  - unfold be_store. by rewrite length_rev, length_le_store.
  - split; fnorm; done.
Qed.

Lemma card_read_block sd b arg : card_idle sd b ->
  let addr := sd_req_get_address sd arg in 0 <= arg -> 0 <= addr -> addr + blk_len sd <= size sd < 2 ^ 64 ->
  exists resp sd1 sd2, sd_do_command sd 17 arg = Some (resp, sd1) /\ length resp = 4%nat /\ sd_ok sd1 /\
    sends sd1 (mem_load b addr (blk_len sd)) sd2 /\ card_idle sd2 b /\ same_card sd sd2.
Proof.
  intros Hi addr Harg Ha Hs. pose proof Hi as [Hb Hst Hl Hx Hlen Hcore Hsize].
  set (sd0 := sd <| card_status := card_status sd .& u32 (.~ APP_CMD) |> <| multi_blk_cnt := 0 |>).
  set (sd1 := sd0 <| data := mem_load b addr (blk_len sd) ++ drop (Z.to_nat (blk_len sd)) (data sd) |> <| state := sd_sendingdata_state |>
    <| data_start := addr |> <| data_offset := 0 |> <| data_size := blk_len sd |>).
  assert (E : sd_cmd_READ_SINGLE_BLOCK sd0 arg = Some (sd1, sd_r1)).
  { unfold sd_cmd_READ_SINGLE_BLOCK. change (state sd0) with (state sd). rewrite Hst. cbn [Z.eqb Pos.eqb negb sd_transfer_state]. cbv zeta.
    change (sd_req_get_address sd0 arg) with addr. unfold address_in_range. change (size sd0) with (size sd). change (blk_len sd0) with (blk_len sd).
    rewrite wrap_id, (proj2 (Z.ltb_ge _ _)) by lia. cbn [negb]. change (blk_len sd0) with (blk_len sd). unfold sd_blk_read. change (blk sd0) with (blk sd). rewrite Hb.
    unfold sd_cmd_to_sendingdata, sd_in_state. cbn [sd0 state modify]. rewrite Hst, (proj2 (Z.eqb_neq (blk_len sd) 0)) by lia. done. }
  destruct (do_block_command sd b 17 arg _ _ sd1 Hi ltac:(by left) eq_refl ltac:(done) E) as (resp & cs & Hr & Ed & He & Hlk).
  set (sd2 := sd1 <| card_status := cs |> <| current_cmd := 17 |>) in *.
  assert (Hok2 : sd_ok sd2).
  { destruct (command_ok sd 17 arg) as (? & ? & E' & Hok'); [split; [done|]; apply phase_ok_idle; [rewrite Hst; by intros [|] | done] | done | done | done|].
    rewrite Ed in E'. by injection E' as _ <-. }
  pose proof (length_mem_load b addr (blk_len sd)) as Hml.
  assert (Es : mem_load b addr (blk_len sd) = slice (data_offset sd2) (Z.of_nat (S (Z.to_nat (blk_len sd - 1)))) (data sd2)).
  { cbn [sd2 sd1 data_offset data modify]. unfold slice. rewrite drop_0, Nat2Z.id, take_app_length' by lia. done. }
  assert (Hsend : sends sd2 (mem_load b addr (blk_len sd)) (sd2 <| data_offset := data_size sd2 |> <| state := sd_transfer_state |>)).
  { rewrite Es. refine (sends_buffer _ sd2 b Hok2 Hb eq_refl He eq_refl _). cbn [sd2 sd1 data_offset data_size modify]. lia. }
  exists resp, sd2, (sd2 <| data_offset := data_size sd2 |> <| state := sd_transfer_state |>). split; [done|]. split; [done|]. split; [done|]. split; [done|]. split; [|done].
  destruct (sd_sends_ok sd2 _ _ Hok2 Hsend) as [Hc3 _]. change (flag (card_status sd1) CARD_IS_LOCKED) with (flag (card_status sd .& u32 (.~ APP_CMD)) CARD_IS_LOCKED) in Hlk. rewrite flag_land in Hlk.
  split; [exact Hb | reflexivity | exact (eq_trans Hlk Hl) | exact Hx | exact Hlen | exact Hc3 | exact Hsize].
Qed.

Lemma commit_eq sd b : blk sd = Some b -> data_start sd + data_offset sd <= blk_sectors sd .<< HWBLOCK_SHIFT ->
  sd_commit sd = sd <| blk := Some (mem_store b (data_start sd) (take (Z.to_nat (data_offset sd)) (data sd))) |> <| blk_written := u32 (blk_written sd + 1) |>
    <| csd := (csd sd).[14 <- (csd sd).[14] .| 0x40] |>.
Proof. intros Hb Hl. unfold sd_commit, sd_blk_write. by rewrite Hb, (proj2 (Z.leb_le _ _) Hl). Qed.

Lemma check_wp_status sd addr : exists cs, sd_check_wp sd addr = sd <| card_status := cs |> /\ flag cs CARD_IS_LOCKED = flag (card_status sd) CARD_IS_LOCKED.
Proof.
  unfold sd_check_wp, raise_status. cbv zeta. destruct ((size sd <=? SDSC_MAX_CAPACITY) && sd_wp_addr sd addr); cbn [csd modify]; destruct (flag ((csd sd).[14]) 0x30).
  - exists (card_status sd .| WP_VIOLATION .| WP_VIOLATION). split; [done|]. by rewrite !flag_lor, !orb_false_r.
  - exists (card_status sd .| WP_VIOLATION). split; [done|]. by rewrite flag_lor, orb_false_r.
  - exists (card_status sd .| WP_VIOLATION). split; [done|]. by rewrite flag_lor, orb_false_r.
  - exists (card_status sd). split; [by destruct sd | done].
Qed.

Lemma card_write_block sd b arg bs : card_idle sd b ->
  let addr := sd_req_get_address sd arg in 0 <= arg -> 0 <= addr -> addr + blk_len sd <= size sd < 2 ^ 64 -> zlen bs = blk_len sd ->
  exists resp sd1 sd2, sd_do_command sd 24 arg = Some (resp, sd1) /\ length resp = 4%nat /\ sd_ok sd1 /\
    takes sd1 bs sd2 /\ card_idle sd2 (mem_store b addr bs) /\ same_card sd sd2.
Proof.
  intros Hi addr Harg Ha Hs Hbs. pose proof Hi as [Hb Hst Hl Hx Hlen Hcore Hsize].
  set (sd0 := sd <| card_status := card_status sd .& u32 (.~ APP_CMD) |> <| multi_blk_cnt := 0 |>).
  destruct (check_wp_status sd0 addr) as (cs & Ecs & Hcs).
  set (sd1 := sd0 <| card_status := cs |> <| blk_written := 0 |> <| state := sd_receivingdata_state |> <| data_start := addr |> <| data_offset := 0 |> <| data_size := blk_len sd |>).
  assert (E : sd_cmd_WRITE_SINGLE_BLOCK sd0 arg = Some (sd1, sd_r1)).
  { unfold sd_cmd_WRITE_SINGLE_BLOCK. change (state sd0) with (state sd). rewrite Hst. cbn [Z.eqb Pos.eqb negb sd_transfer_state]. cbv zeta.
    change (sd_req_get_address sd0 arg) with addr. unfold address_in_range. change (size sd0) with (size sd). change (blk_len sd0) with (blk_len sd).
    rewrite wrap_id, (proj2 (Z.ltb_ge _ _)) by lia. cbn [negb]. change (blk_len sd0) with (blk_len sd). rewrite Ecs.
    unfold sd_cmd_to_receivingdata, sd_in_state. cbn [sd0 state modify]. rewrite Hst, (proj2 (Z.eqb_neq (blk_len sd) 0)) by lia. done. }
  destruct (do_block_command sd b 24 arg _ _ sd1 Hi ltac:(by right) eq_refl ltac:(done) E) as (resp & cs2 & Hr & Ed & He & Hlk).
  set (sd2 := sd1 <| card_status := cs2 |> <| current_cmd := 24 |>) in *.
  assert (Hok2 : sd_ok sd2).
  { destruct (command_ok sd 24 arg) as (? & ? & E' & Hok'); [split; [done|]; apply phase_ok_idle; [rewrite Hst; by intros [|] | done] | done | done | done|].
    rewrite Ed in E'. by injection E' as _ <-. }
  pose proof (takes_block bs sd2 b Hok2 Hb eq_refl He eq_refl ltac:(destruct bs; [cbn in Hbs; lia | done]) ltac:(cbn [sd2 sd1 data_offset data_size modify]; lia)) as Ht. cbv zeta in Ht.
  set (sd3 := (sd_commit _) <| state := sd_transfer_state |>) in Ht.
  exists resp, sd2, sd3. split; [done|]. split; [done|]. split; [done|]. split; [done|]. destruct (sd_takes_ok sd2 _ _ Hok2 Ht) as [Hc3 _].
  set (d := take (Z.to_nat (data_offset sd2)) (data sd2) ++ bs ++ drop (Z.to_nat (data_size sd2)) (data sd2)) in *.
  set (sdd := sd2 <| data := d |> <| data_offset := data_size sd2 |> <| state := sd_transfer_state |>) in *.
  assert (Hend : data_start sdd + data_offset sdd <= blk_sectors sdd .<< HWBLOCK_SHIFT) by (change (addr + blk_len sd <= blk_sectors sd .<< HWBLOCK_SHIFT); lia).
  pose proof (commit_eq sdd b Hb Hend) as E3. change (data_start sdd) with addr in E3. change (data_offset sdd) with (blk_len sd) in E3. change (data sdd) with d in E3.
  assert (Et : take (Z.to_nat (blk_len sd)) d = bs).
  { unfold d. cbn [sd2 sd1 data_offset modify]. change (Z.to_nat 0) with 0%nat. rewrite take_0. cbn [app]. apply take_app_length'. lia. }
  rewrite Et in E3. unfold sd3 in Hc3 |- *. rewrite E3 in Hc3 |- *. split; [|done].
  assert (Hlk' : flag cs2 CARD_IS_LOCKED = false).
  { rewrite Hlk. change (card_status sd1) with cs. rewrite Hcs. change (card_status sd0) with (card_status sd .& u32 (.~ APP_CMD)). rewrite flag_land. exact Hl. }
  split; [reflexivity | reflexivity | exact Hlk' | exact Hx | exact Hlen | exact Hc3 | exact Hsize].
Qed.

(** ** Identification *)

(** What the response and the status update leave of the card a handler returns. *)
Record kept (sd sd' : SDState) : Prop := {
  kept_blk : blk sd' = blk sd;
  kept_sectors : blk_sectors sd' = blk_sectors sd;
  kept_state : state sd' = state sd;
  kept_len : blk_len sd' = blk_len sd;
  kept_size : size sd' = size sd;
  kept_ocr : ocr sd' = ocr sd;
  kept_rca : rca sd' = rca sd;
  kept_acmd : expecting_acmd sd' = expecting_acmd sd;
  kept_locked : flag (card_status sd') CARD_IS_LOCKED = flag (card_status sd) CARD_IS_LOCKED;
}.

(** A card that answers commands. *)
Record answers (sd : SDState) (b : Z -> Z) (st : Z) (acmd : bool) : Prop := {
  an_blk : blk sd = Some b;
  an_state : state sd = st;
  an_awake : st <> sd_inactive_state /\ st <> sd_sleep_state;
  an_locked : flag (card_status sd) CARD_IS_LOCKED = false;
  an_acmd : expecting_acmd sd = acmd;
}.

Lemma respond cmd last sd1 r : is_illegal r = false ->
  let sd2 := sd1 <| card_status := (card_status sd1 .& u32 (.~ (0xF .<< 9))) .| ((last .& 0xF) .<< 9) |> in
  let '(resp, sd3) := sd_send_response sd2 r in
  kept sd1 (sd3 <| card_status := card_status sd3 .& u32 (.~ CARD_STATUS_B) |> <| current_cmd := cmd |>) /\ (r = sd_r6 -> take 2 resp = be_store 2 (rca sd1)).
Proof.
  intros Hi. assert (Hlk : flag (((card_status sd1 .& u32 (.~ (0xF .<< 9))) .| ((last .& 0xF) .<< 9))) CARD_IS_LOCKED = flag (card_status sd1) CARD_IS_LOCKED).
  { unfold CARD_IS_LOCKED. rewrite !flag_bit by lia. rewrite Z.lor_spec, Z.land_spec, Z.shiftl_spec, Z.land_spec by lia. change (Z.testbit 0xF (25 - 9)) with false.
    change (Z.testbit (u32 (.~ (0xF .<< 9))) 25) with true. by rewrite andb_false_r, andb_true_r, orb_false_r. }
  destruct r; try discriminate Hi; cbn [sd_send_response sd_response_r1_make sd_response_r6_make]; (split; [|try done]);
    (split; try reflexivity; cbn [card_status modify]; rewrite ?flag_land, <- Hlk; reflexivity).
Qed.

Lemma do_command_kept sd b st acmd cmd arg sd1 r : answers sd b st acmd -> 0 <= cmd < 64 ->
  (if acmd then sd_app_command (sd <| expecting_acmd := false |>) cmd arg else sd_normal_command sd cmd arg) = Some (sd1, r) -> is_illegal r = false ->
  exists resp sd2, sd_do_command sd cmd arg = Some (resp, sd2) /\ kept sd1 sd2 /\ (r = sd_r6 -> take 2 resp = be_store 2 (rca sd1)).
Proof.
  intros [Hb Hst [Hi1 Hi2] Hl Ha] Hcmd E Hill. pose proof (respond cmd st sd1 r Hill) as Hr. cbv zeta in Hr.
  unfold sd_do_command, sd_execute. rewrite Hb, (proj2 (Z.leb_gt 64 cmd)), Hst, Hl, Ha by lia. cbv zeta.
  rewrite (proj2 (Z.eqb_neq _ _) Hi1), (proj2 (Z.eqb_neq _ _) Hi2). cbn [andb]. rewrite E. cbn [mbind option_bind]. rewrite Hill.
  destruct (sd_send_response _ r) as [resp sd3]. eexists _, _. split; [reflexivity | exact Hr].
Qed.

(** The handler of a command outside class 6 gets the card as it is, but for the
    status. *)
Lemma normal_entry sd cmd arg c h : proto_entry sd_proto_cmd cmd = Some (c, h) -> c <> 6 -> exists sd0, sd_normal_command sd cmd arg = h sd0 arg /\ kept sd sd0.
Proof.
  intros Hh Hc. unfold sd_normal_command, cmd_class. cbv zeta. rewrite Hh, (proj2 (Z.eqb_neq _ _) Hc). cbn [andb].
  destruct (_ && _); (eexists; split; [reflexivity|]); split; try reflexivity; cbn [card_status modify]; rewrite flag_land; reflexivity.
Qed.

Lemma kept_trans sd1 sd2 sd3 : kept sd1 sd2 -> kept sd2 sd3 -> kept sd1 sd3.
Proof. intros [] []. split; congruence. Qed.

Lemma kept_answers sd sd' b st acmd : kept sd sd' -> answers sd b st acmd -> answers sd' b st acmd.
Proof. intros [] []. split; congruence. Qed.

(** A command of the basic classes: what its handler makes of the card is what the
    host finds. *)
Lemma do_basic sd b st cmd arg c h (f : SDState -> SDState) r : answers sd b st false -> 0 <= cmd < 64 -> proto_entry sd_proto_cmd cmd = Some (c, h) -> c <> 6 ->
  (forall sd0, kept sd sd0 -> h sd0 arg = Some (f sd0, r)) -> is_illegal r = false ->
  exists resp sd0 sd2, sd_do_command sd cmd arg = Some (resp, sd2) /\ kept sd sd0 /\ kept (f sd0) sd2 /\ (r = sd_r6 -> take 2 resp = be_store 2 (rca (f sd0))).
Proof.
  intros Ha Hc Hh Hcl Hf Hi. destruct (normal_entry sd cmd arg c h Hh Hcl) as (sd0 & E & Hk). rewrite Hf in E by done.
  destruct (do_command_kept sd b st false cmd arg _ r Ha Hc E Hi) as (resp & sd2 & Ed & Hk2 & Hr). by exists resp, sd0, sd2.
Qed.

(** A card on its way through the identification, after the reset. *)
Record ident (sd : SDState) (b : Z -> Z) (n st : Z) (acmd : bool) (o : Z) : Prop := {
  id_answers : answers sd b st acmd;
  id_len : blk_len sd = 512;
  id_sectors : blk_sectors sd = n;
  id_size : size sd = n .<< HWBLOCK_SHIFT;
  id_ocr : ocr sd = o;
}.

Lemma kept_ident sd sd' b n st acmd o : kept sd sd' -> ident sd b n st acmd o -> ident sd' b n st acmd o.
Proof. intros Hk [Ha ? ? ? ?]. split; [by eapply kept_answers|..]; destruct Hk; congruence. Qed.

Lemma reset_ident sd b : blk sd = Some b -> ident (sd_reset sd) b (blk_sectors sd) sd_idle_state false OCR_VDD_VOLTAGE_WIN_HI.
Proof. intros Hb. split; [split; try done|..]; unfold sd_reset; by rewrite Hb. Qed.

(** CMD0 resets the card whatever it was doing. *)
Lemma ident_reset sd b st acmd : answers sd b st acmd ->
  exists resp sd', sd_do_command sd 0 0 = Some (resp, sd') /\ ident sd' b (blk_sectors sd) sd_idle_state false OCR_VDD_VOLTAGE_WIN_HI /\ rca sd' = 0.
Proof.
  intros Ha. pose proof Ha as [Hb Hst [Hi1 Hi2] Hl _].
  assert (Hh : forall sd0, blk sd0 = blk sd -> blk_sectors sd0 = blk_sectors sd -> state sd0 = state sd ->
    exists sd1, sd_normal_command sd0 0 0 = Some (sd1, sd_r0) /\ ident sd1 b (blk_sectors sd) sd_idle_state false OCR_VDD_VOLTAGE_WIN_HI /\ rca sd1 = 0).
  { intros sd0 Eb En Es. destruct (normal_entry sd0 0 0 _ _ eq_refl ltac:(done)) as (sd1 & E & Hk). rewrite E. destruct Hk as [Kb Kn Ks _ _ _ _ _ _].
    unfold sd_cmd_GO_IDLE_STATE. rewrite Ks, Es, Hst, (proj2 (Z.eqb_neq _ _) Hi1), (proj2 (Z.eqb_neq _ _) Hi2). cbn [andb].
    eexists. split; [reflexivity|]. split; [|done]. rewrite <- En, <- Kn. refine (reset_ident (sd1 <| state := sd_idle_state |>) b _). cbn [blk modify]. congruence. }
  assert (Hx : exists sd1, (if acmd then sd_app_command (sd <| expecting_acmd := false |>) 0 0 else sd_normal_command sd 0 0) = Some (sd1, sd_r0) /\
    ident sd1 b (blk_sectors sd) sd_idle_state false OCR_VDD_VOLTAGE_WIN_HI /\ rca sd1 = 0).
  { destruct acmd; [|by apply Hh]. unfold sd_app_command. cbv zeta. cbn -[sd_normal_command raise_status]. by apply Hh. }
  destruct Hx as (sd1 & E & Hid & Hr). destruct (do_command_kept sd b st acmd 0 0 sd1 sd_r0 Ha ltac:(lia) E eq_refl) as (resp & sd2 & Ed & Hk & _).
  exists resp, sd2. split; [done|]. split; [by eapply kept_ident | by rewrite (kept_rca _ _ Hk)].
Qed.

(** One command of the basic classes on the way. *)
Lemma ident_step sd b n st acmd o cmd arg c h (f : SDState -> SDState) r st' : ident sd b n st false o -> 0 <= cmd < 64 -> proto_entry sd_proto_cmd cmd = Some (c, h) -> c <> 6 ->
  is_illegal r = false -> (forall sd0, kept sd sd0 -> h sd0 arg = Some (f sd0, r)) -> (forall sd0, ident sd0 b n st false o -> ident (f sd0) b n st' acmd o) ->
  exists resp sd', sd_do_command sd cmd arg = Some (resp, sd') /\ ident sd' b n st' acmd o /\ (forall x, (forall sd0, rca sd0 = rca sd -> rca (f sd0) = x) -> rca sd' = x) /\
    (r = sd_r6 -> take 2 resp = be_store 2 (rca sd')).
Proof.
  intros Hid Hc Hh Hcl Hi Hf Hn. destruct (do_basic sd b st cmd arg c h f r (id_answers _ _ _ _ _ _ Hid) Hc Hh Hcl Hf Hi) as (resp & sd0 & sd2 & Ed & K0 & K2 & Hr).
  exists resp, sd2. split; [done|]. split; [by eapply kept_ident, Hn, kept_ident|]. rewrite (kept_rca _ _ K2). split; [|done]. intros x Hx. apply Hx, (kept_rca _ _ K0).
Qed.

(** The handler of a card in the state it asks for. *)
Ltac ident_state Hid := let sd0 := fresh in let Hk := fresh in intros sd0 Hk;
  lazymatch goal with |- ?h _ _ = _ => unfold h, sd_in_state end; rewrite (kept_state _ _ Hk), (an_state _ _ _ _ (id_answers _ _ _ _ _ _ Hid)).
Ltac ident_next := let sd0 := fresh in intros sd0 [[] ? ? ? ?]; split; [split|..]; cbn [blk state card_status expecting_acmd blk_len blk_sectors size ocr modify raise_status];
  first [done | rewrite flag_lor; match goal with H : flag _ CARD_IS_LOCKED = false |- _ => by rewrite H end].

(** CMD8 and CMD55 are answered by a card in the idle state. *)
Lemma ident_if_cond sd b n o : ident sd b n sd_idle_state false o ->
  exists resp sd', sd_do_command sd 8 0x1AA = Some (resp, sd') /\ ident sd' b n sd_idle_state false o /\ rca sd' = rca sd.
Proof.
  intros Hid. destruct (ident_step sd b n sd_idle_state false o 8 0x1AA 0 sd_cmd_SEND_IF_COND (fun sd0 => sd0 <| vhs := 0 |> <| vhs := 0x1AA |>) sd_r7 sd_idle_state) as (resp & sd' & Ed & Hid' & Hr & _); try done.
  - ident_state Hid. reflexivity.
  - ident_next.
  - exists resp, sd'. by auto.
Qed.

Lemma ident_app sd b n o : ident sd b n sd_idle_state false o -> rca sd = 0 ->
  exists resp sd', sd_do_command sd 55 0 = Some (resp, sd') /\ ident sd' b n sd_idle_state true o.
Proof.
  intros Hid H0. destruct (ident_step sd b n sd_idle_state true o 55 0 8 sd_cmd_APP_CMD (fun sd0 => raise_status (sd0 <| expecting_acmd := true |>) APP_CMD) sd_r1 sd_idle_state)
    as (resp & sd' & Ed & Hid' & _ & _); try done.
  - intros sd0 Hk. unfold sd_cmd_APP_CMD, sd_req_rca_same. rewrite (kept_rca _ _ Hk), H0, (kept_state _ _ Hk), (an_state _ _ _ _ (id_answers _ _ _ _ _ _ Hid)). reflexivity.
  - ident_next.
  - exists resp, sd'. by auto.
Qed.

(** What ACMD41 makes of the operating conditions. *)
Definition powered_up (n : Z) : Z := OCR_VDD_VOLTAGE_WIN_HI .| OCR_CARD_POWER_UP .| (if SDSC_MAX_CAPACITY <? n .<< HWBLOCK_SHIFT then OCR_CARD_CAPACITY else 0).

(** ACMD41 with a voltage window powers the card up. *)
Lemma ident_op_cond sd b n arg : ident sd b n sd_idle_state true OCR_VDD_VOLTAGE_WIN_HI -> flag arg OCR_VDD_VOLTAGE_WIN_HI = true ->
  exists resp sd', sd_do_command sd 41 arg = Some (resp, sd') /\ ident sd' b n sd_ready_state false (powered_up n).
Proof.
  intros [Ha Hl Hn Hs Ho] Harg. assert (He : flag arg ACMD41_ENQUIRY_MASK = true).
  { change ACMD41_ENQUIRY_MASK with (OCR_VDD_VOLTAGE_WIN_HI .| 0xff). rewrite flag_lor_r, Harg. done. }
  assert (E : exists sd1, sd_app_command (sd <| expecting_acmd := false |>) 41 arg = Some (sd1, sd_r3) /\ ident sd1 b n sd_ready_state false (powered_up n)).
  { pose proof Ha as [Hb Hst Haw Hlk Hx]. unfold sd_app_command. cbn [proto_entry sd_proto_acmd Z.eqb Pos.eqb]. unfold sd_cmd_SEND_OP_COND, raise_status. cbv zeta.
    cbn [state ocr modify]. rewrite Hst, Ho, He. change (flag OCR_VDD_VOLTAGE_WIN_HI OCR_CARD_POWER_UP) with false. cbn [negb Z.eqb sd_idle_state].
    unfold sd_ocr_powerup. cbn [ocr modify]. rewrite Ho. change (flag OCR_VDD_VOLTAGE_WIN_HI OCR_CARD_POWER_UP) with false. cbn [size modify]. rewrite Hs.
    assert (Hv : forall o, flag ((OCR_VDD_VOLTAGE_WIN_HI .| o) .& arg) 0xFFFFFF = true).
    { intros o. rewrite Z.land_lor_distr_l, flag_lor, (Z.land_comm OCR_VDD_VOLTAGE_WIN_HI), flag_land.
      change (OCR_VDD_VOLTAGE_WIN_HI .& 0xFFFFFF) with OCR_VDD_VOLTAGE_WIN_HI. by rewrite Harg. }
    assert (Hlk' : flag (card_status sd .| APP_CMD) CARD_IS_LOCKED = false) by by rewrite flag_lor, Hlk.
    unfold powered_up. cbn [mbind option_bind]. destruct (SDSC_MAX_CAPACITY <? n .<< HWBLOCK_SHIFT); cbn [ocr modify]; rewrite <- ?Z.lor_assoc, Hv;
      (eexists; split; [reflexivity|]); (split; [by split|done..|]); cbn [ocr modify]; by rewrite <- ?Z.lor_assoc, ?Z.lor_0_r. }
  destruct E as (sd1 & E & Hid). destruct (do_command_kept sd b _ true 41 arg sd1 sd_r3 Ha ltac:(lia) E eq_refl) as (resp & sd2 & Ed & Hk & _).
  exists resp, sd2. split; [done | by eapply kept_ident].
Qed.

(** CMD2 and CMD3: the card publishes an address. *)
Lemma ident_cid sd b n o : ident sd b n sd_ready_state false o ->
  exists resp sd', sd_do_command sd 2 0 = Some (resp, sd') /\ ident sd' b n sd_identification_state false o.
Proof.
  intros Hid. destruct (ident_step sd b n sd_ready_state false o 2 0 0 sd_cmd_ALL_SEND_CID (fun sd0 => sd0 <| state := sd_identification_state |>) sd_r2_i sd_identification_state)
    as (resp & sd' & Ed & Hid' & _ & _); try done.
  - ident_state Hid. reflexivity.
  - ident_next.
  - exists resp, sd'. by auto.
Qed.

Lemma ident_rca sd b n o : ident sd b n sd_identification_state false o ->
  exists resp sd', sd_do_command sd 3 0 = Some (resp, sd') /\ ident sd' b n sd_standby_state false o /\ take 2 resp = be_store 2 (rca sd') /\ 0 <= rca sd' < 2 ^ 16.
Proof.
  intros Hid. set (f sd0 := sd0 <| state := sd_standby_state |> <| rca := u16 (entropy sd0 O) |> <| entropy := fun n => entropy sd0 (S n) |>).
  destruct (do_basic sd b sd_identification_state 3 0 0 sd_cmd_SEND_RELATIVE_ADDR f sd_r6 (id_answers _ _ _ _ _ _ Hid) ltac:(lia) eq_refl ltac:(done))
    as (resp & sd0 & sd' & Ed & K0 & K & Hr); [|done|].
  - ident_state Hid. reflexivity.
  - exists resp, sd'. split; [done|]. split.
    + eapply kept_ident; [exact K|]. eapply kept_ident in Hid; [|exact K0]. clear -Hid. revert sd0 Hid. unfold f. ident_next.
    + rewrite (kept_rca _ _ K). split; [by apply Hr|]. cbn [f rca modify]. by apply wrap_range.
Qed.

(** CMD7 selects the card. *)
Lemma ident_select sd b n o arg : ident sd b n sd_standby_state false o -> u16 (arg .>> 16) = rca sd ->
  exists resp sd', sd_do_command sd 7 arg = Some (resp, sd') /\ ident sd' b n sd_transfer_state false o /\ rca sd' = rca sd.
Proof.
  intros Hid Hr. destruct (ident_step sd b n sd_standby_state false o 7 arg 0 sd_cmd_DE_SELECT_CARD (fun sd0 => sd0 <| state := sd_transfer_state |>) sd_r1b sd_transfer_state)
    as (resp & sd' & Ed & Hid' & Hr' & _); try done.
  - intros sd0 Hk. unfold sd_cmd_DE_SELECT_CARD, sd_req_rca_same. rewrite (kept_rca _ _ Hk), Hr, Z.eqb_refl, (kept_state _ _ Hk), (an_state _ _ _ _ (id_answers _ _ _ _ _ _ Hid)).
    reflexivity.
  - ident_next.
  - exists resp, sd'. by auto.
Qed.

(** The commands of a host that brings up a card; [arg] is the argument of ACMD41. *)
Definition sd_bring_up (sd : SDState) (arg : Z) : option (Z * SDState) :=
  '(_, sd) ← sd_do_command sd 0 0;
  '(_, sd) ← sd_do_command sd 8 0x1AA;
  '(_, sd) ← sd_do_command sd 55 0;
  '(_, sd) ← sd_do_command sd 41 arg;
  '(_, sd) ← sd_do_command sd 2 0;
  '(resp, sd) ← sd_do_command sd 3 0;
  let rca := le_load (rev (take 2 resp)) in
  '(_, sd) ← sd_do_command sd 7 (rca .<< 16);
  Some (rca, sd).

Lemma command_core sd cmd arg resp sd' : sd_ok sd -> 0 <= cmd -> cmd .& 0x3f <> 13 -> 0 <= arg -> sd_do_command sd cmd arg = Some (resp, sd') -> sd_ok sd'.
Proof. intros Hok Hc H13 Ha E. destruct (command_ok sd cmd arg Hok Hc Ha ltac:(by intros ?)) as (? & ? & E' & Hok'). rewrite E in E'. by injection E' as _ <-. Qed.

(** C12: The identification sequence succeeds.  From any state but the inactive one,
    which only power ends, and the sleep of eMMC, in the middle of a transfer or
    waiting for an application command, an unlocked card whose buffer is in order
    ([sd_ok]) is brought by CMD0, CMD8, ACMD41 with a bit of its voltage window, CMD2,
    CMD3 and CMD7 with the address the card answered to the transfer state, with its
    medium untouched, blocks of 512 bytes, and addressing by blocks exactly when it is
    larger than 2 GiB. *)
Theorem sd_identification sd b st acmd arg : sd_ok sd -> answers sd b st acmd -> 0 <= arg -> flag arg OCR_VDD_VOLTAGE_WIN_HI = true ->
  exists rca sd', sd_bring_up sd arg = Some (rca, sd') /\ card_idle sd' b /\ rca = SdCard.rca sd' /\ blk_len sd' = 512 /\ blk_sectors sd' = blk_sectors sd /\
    high_capacity sd' = (SDSC_MAX_CAPACITY <? blk_sectors sd .<< HWBLOCK_SHIFT).
Proof.
  intros Hok0 Ha Harg Hv. unfold sd_bring_up.
  destruct (ident_reset sd b st acmd Ha) as (r1 & sd1 & E1 & Hid1 & Hr1). rewrite E1. cbn [mbind option_bind].
  destruct (ident_if_cond sd1 b _ _ Hid1) as (r2 & sd2 & E2 & Hid2 & Hr2). rewrite E2. cbn [mbind option_bind].
  destruct (ident_app sd2 b _ _ Hid2 ltac:(congruence)) as (r3 & sd3 & E3 & Hid3). rewrite E3. cbn [mbind option_bind].
  destruct (ident_op_cond sd3 b _ arg Hid3 Hv) as (r4 & sd4 & E4 & Hid4). rewrite E4. cbn [mbind option_bind].
  destruct (ident_cid sd4 b _ _ Hid4) as (r5 & sd5 & E5 & Hid5). rewrite E5. cbn [mbind option_bind].
  destruct (ident_rca sd5 b _ _ Hid5) as (r6 & sd6 & E6 & Hid6 & Hr6 & Hrng). rewrite E6. cbn [mbind option_bind].
  assert (Er : le_load (rev (take 2 r6)) = rca sd6).
  { rewrite Hr6. unfold be_store. rewrite rev_involutive, le_load_store. apply wrap_id. exact Hrng. }
  rewrite Er. assert (Hsel : u16 ((rca sd6 .<< 16) .>> 16) = rca sd6) by (rewrite Z.shiftr_shiftl_l, Z.shiftl_0_r by lia; by apply wrap_id).
  destruct (ident_select sd6 b _ _ _ Hid6 Hsel) as (r7 & sd7 & E7 & Hid7 & Hr7). rewrite E7. cbn [mbind option_bind].
  assert (Hok7 : sd_ok sd7).
  { apply command_core in E1; [|done..]. apply command_core in E2; [|done..]. apply command_core in E3; [|done..]. apply command_core in E4; [|done..].
    apply command_core in E5; [|done..]. apply command_core in E6; [|done..]. apply command_core in E7; [done..|]. apply Z.shiftl_nonneg. lia. }
  exists (rca sd6), sd7. destruct Hid7 as [[Hb Hst _ Hlk Hx] Hl Hn Hs Ho]. split; [done|]. split; [|split; [done|split; [done|split; [done|]]]].
  - split; [done..| | apply Hok7 | congruence]. rewrite Hl. lia.
  - unfold high_capacity, powered_up in *. rewrite Ho. by destruct (SDSC_MAX_CAPACITY <? _).
Qed.

(** ** A small card *)

(** A new card of eight sectors, after reset, and when the host has brought it up. *)
Definition small_medium (a : Z) : Z := a mod 251.
Definition small_fresh : SDState := sd_reset (sd_instance_init (Some small_medium) 8 true 2 0 (fun _ => 0x4567)).
Definition small_card : SDState := match sd_bring_up small_fresh 0x40FF8000 with Some (_, sd) => sd | None => small_fresh end.

Lemma small_card_idle : card_idle small_card small_medium.
Proof.
  assert (Hl : blk_len small_card = 512) by (vm_compute; reflexivity). assert (Ht : ocr_power_timer small_card = None) by (vm_compute; reflexivity).
  assert (Ho : data_offset small_card = 0) by (vm_compute; reflexivity). assert (Hs : data_size small_card = 0) by (vm_compute; reflexivity).
  split; [vm_compute; reflexivity.. | rewrite Hl; lia | | vm_compute; reflexivity].
  assert (Hn : blk_sectors small_card = 8) by (vm_compute; reflexivity).
  assert (Hb : wp_group_bits small_card = 1) by (vm_compute; reflexivity). assert (Hw : sd_addr_to_wpnum (size small_card) = 0) by (vm_compute; reflexivity).
  split; [vm_compute; reflexivity.. | rewrite Ho; lia | rewrite Hs; lia | rewrite Hl; lia | rewrite Ht; intros []; reflexivity | rewrite Hn; lia | rewrite Hb, Hw; lia].
Qed.

Lemma sd_identification_witness : exists rca sd', sd_bring_up small_fresh 0x40FF8000 = Some (rca, sd') /\ card_idle sd' small_medium /\ blk_len sd' = 512.
Proof.
  destruct (sd_identification small_fresh small_medium sd_idle_state false 0x40FF8000) as (r & sd' & E & Hi & _ & Hl & _); [by apply fresh_ok | by split | lia | done|].
  exists r, sd'. exact (conj E (conj Hi Hl)).
Defined.

(** ** Departures from the code's intent *)

(** A host that sends a command, and one that moves data, with no interest in the
    bytes. *)
Definition host_command (sd : SDState) (cmd arg : Z) : option SDState := '(_, sd) ← sd_do_command sd cmd arg; Some sd.
Definition host_read (sd : SDState) (n : nat) : option SDState := '(_, sd) ← sdbus_read_data (Some sd) (replicate n 0); sd.
Definition host_write (sd : SDState) (buf : list Z) : option SDState := sd ← sdbus_write_data (Some sd) buf; sd.

(** Whether an operation fails an assertion or leaves an array. *)
Definition aborts {A} (o : option A) : bool := match o with Some _ => false | None => true end.

(** A multiple-block read that reaches the end of the card returns no byte, and
    the bus asserts that every read returns one: the emulator stops. *)
Theorem sd_read_past_end_aborts : (sd ← host_command small_card 18 3584; sd ← host_read sd 512; Some (aborts (host_read sd 1))) = Some true.
Proof. vm_compute. reflexivity. Qed.

(** The same happens to the first CMD56 read of a card, which leaves the size of the
    buffer at zero. *)
Theorem sd_general_read_aborts : (sd ← host_command small_card 56 1; Some (aborts (host_read sd 1))) = Some true.
Proof. vm_compute. reflexivity. Qed.

(** CMD13 in a multiple-block read turns the rest of it into a read of the buffer,
    whose size is that of an earlier transfer, here the eight bytes of the SCR.  The
    difference wraps and the copy leaves the buffer. *)
Theorem sd_status_reads_out_of_bounds :
  (sd ← host_command small_card 55 0x45670000; sd ← host_command sd 51 0; sd ← host_read sd 8; sd ← host_command sd 18 0; sd ← host_read sd 100;
   sd ← host_command sd 13 0x45670000; Some (data_size sd, data_offset sd, aborts (sd_read_data sd 512))) = Some (8, 100, true).
Proof. vm_compute. reflexivity. Qed.

(** CMD13 in a write sends the next data to the case the code declares unreachable. *)
Theorem sd_status_in_write_aborts :
  (sd ← host_command small_card 24 0; sd ← host_command sd 13 0x45670000; Some (state sd, aborts (sd_write_data sd [0]))) = Some (sd_receivingdata_state, true).
Proof. vm_compute. reflexivity. Qed.

(** The violation that a write to a protected group raises is cleared by the
    response to the command, so the data is written all the same. *)
Theorem sd_write_protection_ignored :
  (sd ← host_command small_card 28 0; '(resp, sd) ← sd_do_command sd 24 0; sd ← host_write sd (replicate 512 0xAB); b ← blk sd;
   Some (flag (le_load (rev resp)) WP_VIOLATION, b 0, b 511)) = Some (true, 0xAB, 0xAB).
Proof. vm_compute. reflexivity. Qed.

(** A card locked with a password cannot be unlocked with it: the length given has
    to exceed that of the password. *)
Theorem sd_unlock_fails :
  (sd ← host_command small_card 42 0; sd ← host_write sd ([0x05; 4; 1; 2; 3; 4] ++ replicate 506 0);
   sd ← host_command sd 42 0; sd ← host_write sd ([0x00; 4; 1; 2; 3; 4] ++ replicate 506 0);
   Some (take 4 (pwd sd), flag (card_status sd) CARD_IS_LOCKED, flag (card_status sd) LOCK_UNLOCK_FAILED)) = Some ([1; 2; 3; 4], true, true).
Proof. vm_compute. reflexivity. Qed.
