(* ===== verification/Usdhc.v ===== *)
(** * uSDHC: the SD host controller

    Model of [hw/misc/mcxn_usdhc.c] over the bus of [Sd]: commands and their
    responses, the ADMA2 descriptor walk, simple DMA and programmed I/O, status
    register and interrupt line.  Guest memory is a function from addresses to
    bytes; [fetch_ok] tells where a descriptor can be fetched.  The theorems: the
    DMA engine scatters the card's stream over the regions of the descriptor table
    and gathers it from them, whatever the card; a block written to a memory card
    is read back; the interrupt line follows the status register. *)
From S2P Require Import Prelude Sd SdCard SdStream SdBlock.

Definition USDHC_DS_ADDR : Z := 0x00.
Definition USDHC_BLK_ATT : Z := 0x04.
Definition USDHC_CMD_ARG : Z := 0x08.
Definition USDHC_CMD_XFR_TYP : Z := 0x0C.
Definition USDHC_CMD_RSP0 : Z := 0x10.
Definition USDHC_CMD_RSP1 : Z := 0x14.
Definition USDHC_CMD_RSP2 : Z := 0x18.
Definition USDHC_CMD_RSP3 : Z := 0x1C.
Definition USDHC_DATA_BUFF_ACC_PORT : Z := 0x20.
Definition USDHC_PRES_STATE : Z := 0x24.
Definition USDHC_PROT_CTRL : Z := 0x28.
Definition USDHC_SYS_CTRL : Z := 0x2C.
Definition USDHC_INT_STATUS : Z := 0x30.
Definition USDHC_INT_SIGNAL_EN : Z := 0x38.
Definition USDHC_HOST_CTRL_CAP : Z := 0x40.
Definition USDHC_MIX_CTRL : Z := 0x48.
Definition USDHC_ADMA_ERR_STATUS : Z := 0x54.
Definition USDHC_ADMA_SYS_ADDR : Z := 0x58.
Definition USDHC_DLL_STATUS : Z := 0x64.
Definition PRES_SDSTB : Z := bit 3.
Definition PRES_CINST : Z := bit 16.
Definition SYS_CTRL_RSTA : Z := bit 24.
Definition SYS_CTRL_RSTC : Z := bit 25.
Definition SYS_CTRL_RSTD : Z := bit 26.
Definition SYS_CTRL_INITA : Z := bit 27.
Definition SYS_CTRL_SELF_CLEAR : Z := SYS_CTRL_RSTA .| SYS_CTRL_RSTC .| SYS_CTRL_RSTD .| SYS_CTRL_INITA.
Definition CMD_XFR_DPSEL : Z := bit 21.
Definition CMD_XFR_CMDINX_SHIFT : Z := 24.
Definition CMD_XFR_CMDINX_MASK : Z := 0x3F.
Definition INT_CC : Z := bit 0.
Definition INT_TC : Z := bit 1.
Definition INT_CTOE : Z := bit 16.
Definition INT_DMAE : Z := bit 28.
Definition MIX_DMAEN : Z := bit 0.
Definition MIX_BCEN : Z := bit 1.
Definition MIX_DTDSEL : Z := bit 4.
Definition PROT_DMASEL_MASK : Z := 0x300.
Definition PROT_DMASEL_SHIFT : Z := 8.
Definition DMASEL_ADMA2 : Z := 2.
Definition BLK_BLKSIZE_MASK : Z := 0x1FFF.
Definition BLK_BLKCNT_SHIFT : Z := 16.
Definition ADMA_VALID : Z := bit 0.
Definition ADMA_END : Z := bit 1.
Definition ADMA_ACT_MASK : Z := 3 .<< 4.
Definition ADMA_ACT_TRAN : Z := 2 .<< 4.
Definition ADMA_ACT_LINK : Z := 3 .<< 4.
Definition CAP_UHS_I_UNIMPLEMENTED : Z := 0x1 .| 0x2 .| 0x4 .| 0x2000.
Definition HOST_CTRL_CAP_VALUE : Z := 0x07F3B407 .& u32 (.~ CAP_UHS_I_UNIMPLEMENTED).
Definition MCXN_USDHC_SIZE : Z := 0x1000.
(** The bound of the code on the descriptors of one transfer. *)
Definition ADMA_GUARD : nat := Z.to_nat 4096.

Record MCXNUSDHCState {C : Type} := mkUSDHC {
  irq : bool;
  regs : list Z;
  sdbus : option C;
  data_len : Z;
  data_pos : Z;
  data_read : bool;
}.
Arguments MCXNUSDHCState C : clear implicits.
#[export] Instance usdhc_settable C : Settable (MCXNUSDHCState C) := fun s => mkUSDHC _ (irq s) (regs s) (sdbus s) (data_len s) (data_pos s) (data_read s).

Definition reg {C} (s : MCXNUSDHCState C) (off : Z) : Z := (regs s).[off .>> 2].
Definition set_reg {C} (s : MCXNUSDHCState C) (off v : Z) : MCXNUSDHCState C := s <| regs := (regs s).[off .>> 2 <- v] |>.

Section usdhc.
Context {C : Type} `{SDCardClass C} (fetch_ok : Z -> bool).

(** The controller and guest memory. *)
Abbreviation board := (MCXNUSDHCState C * (Z -> Z))%type.

Definition mcxn_usdhc_update_irq (s : MCXNUSDHCState C) : MCXNUSDHCState C :=
  s <| irq := flag (reg s USDHC_INT_STATUS) (reg s USDHC_INT_SIGNAL_EN) |>.

Definition raise_int (s : MCXNUSDHCState C) (m : Z) : MCXNUSDHCState C := set_reg s USDHC_INT_STATUS (reg s USDHC_INT_STATUS .| m).

(** ** The data phase *)

(** [n] bytes between the card and memory at [addr]. *)
Definition usdhc_move (read : bool) (addr n : Z) (b : board) : option board :=
  let '(s, m) := b in
  if read then
    '(bs, bus) ← sdbus_read_data (sdbus s) (replicate (Z.to_nat n) 0);
    Some (s <| sdbus := bus |>, mem_store m addr bs)
  else
    bus ← sdbus_write_data (sdbus s) (mem_load m addr n);
    Some (s <| sdbus := bus |>, m).

(** A run of [len] bytes from [addr], in pieces of at most 512, until [total] have
    been moved. *)
Fixpoint usdhc_run (fuel : nat) (read : bool) (addr len moved total : Z) (b : board) : option (Z * board) :=
  if (0 <? len) && (moved <? total) then
    match fuel with
    | O => None
    | S fuel =>
        let n := Z.min (Z.min len 512) (total - moved) in
        b ← usdhc_move read addr n b;
        usdhc_run fuel read (addr + n) (len - n) (moved + n) total b
    end
  else Some (moved, b).
Definition run_fuel (len : Z) : nat := Z.to_nat ((len + 511) / 512).

Definition adma_raw (m : Z -> Z) (desc : Z) : Z := le_load (mem_load m desc 8).
Definition adma_attr (raw : Z) : Z := raw .& 0x7F.
Definition adma_len (raw : Z) : Z := let len := (raw .>> 16) .& 0xFFFF in if len =? 0 then 65536 else len.
Definition adma_addr (raw : Z) : Z := ((raw .>> 32) .& 0xFFFFFFFF) .& u64 (.~ 0x3).

(** The descriptor walk; [guard] descriptors are left. *)
Fixpoint usdhc_adma2_walk (guard : nat) (read : bool) (total desc moved : Z) (b : board) : option board :=
  if moved <? total then
    match guard with
    | O => Some (raise_int b.1 INT_DMAE, b.2)
    | S guard =>
        let raw := adma_raw b.2 desc in
        let attr := adma_attr raw in
        if negb (fetch_ok desc) || negb (flag attr ADMA_VALID) then Some (raise_int b.1 INT_DMAE, b.2)
        else if attr .& ADMA_ACT_MASK =? ADMA_ACT_LINK then usdhc_adma2_walk guard read total (adma_addr raw) moved b
        else
          '(moved, b) ← (if attr .& ADMA_ACT_MASK =? ADMA_ACT_TRAN
                         then usdhc_run (run_fuel (adma_len raw)) read (adma_addr raw) (adma_len raw) moved total b else Some (moved, b));
          if flag attr ADMA_END then Some (set_reg b.1 USDHC_ADMA_SYS_ADDR (u32 desc), b.2)
          else usdhc_adma2_walk guard read total (desc + 8) moved b
    end
  else Some (set_reg b.1 USDHC_ADMA_SYS_ADDR (u32 desc), b.2).

Definition mcxn_usdhc_do_adma2 (b : board) (read : bool) (total : Z) : option board :=
  usdhc_adma2_walk ADMA_GUARD read total (reg b.1 USDHC_ADMA_SYS_ADDR) 0 b.

Definition usdhc_total (s : MCXNUSDHCState C) : Z :=
  let blk := reg s USDHC_BLK_ATT in
  let blksize := blk .& BLK_BLKSIZE_MASK in
  let blkcnt := (blk .>> BLK_BLKCNT_SHIFT) .& 0xFFFF in
  let blkcnt := if negb (flag (reg s USDHC_MIX_CTRL) MIX_BCEN) || (blkcnt =? 0) then 1 else blkcnt in
  blksize * blkcnt.

Definition mcxn_usdhc_do_data (b : board) : option board :=
  let '(s, m) := b in
  let mix := reg s USDHC_MIX_CTRL in
  let read := flag mix MIX_DTDSEL in
  let total := usdhc_total s in
  let done (b : board) := (raise_int b.1 INT_TC, b.2) in
  if total =? 0 then Some (done b)
  else if negb (flag mix MIX_DMAEN) then Some (s <| data_len := u32 total |> <| data_pos := 0 |> <| data_read := read |>, m)
  else if (reg s USDHC_PROT_CTRL .& PROT_DMASEL_MASK) .>> PROT_DMASEL_SHIFT =? DMASEL_ADMA2 then
    b ← mcxn_usdhc_do_adma2 b read total; Some (done b)
  else
    let addr := reg s USDHC_DS_ADDR in
    '(moved, b) ← usdhc_run (run_fuel total) read addr total 0 total b;
    Some (done (set_reg b.1 USDHC_DS_ADDR (u32 (addr + moved)), b.2)).

(** ** Commands *)

(** [ldl_be_p(&response[i])]. *)
Definition ldl_be_p (resp : list Z) (i : Z) : Z := le_load (rev (slice i 4 resp)).

Definition set_responses (s : MCXNUSDHCState C) (r0 r1 r2 r3 : Z) : MCXNUSDHCState C :=
  set_reg (set_reg (set_reg (set_reg s USDHC_CMD_RSP0 r0) USDHC_CMD_RSP1 r1) USDHC_CMD_RSP2 r2) USDHC_CMD_RSP3 r3.

Definition mcxn_usdhc_send_command (b : board) (xfrtyp : Z) : option board :=
  let '(s, m) := b in
  '(resp, bus) ← sdbus_do_command (sdbus s) ((xfrtyp .>> CMD_XFR_CMDINX_SHIFT) .& CMD_XFR_CMDINX_MASK) (reg s USDHC_CMD_ARG);
  let s := s <| sdbus := bus |> in
  let complete s :=
    let s := raise_int s INT_CC in
    '(s, m) ← (if flag xfrtyp CMD_XFR_DPSEL then mcxn_usdhc_do_data (s, m) else Some (s, m));
    Some (mcxn_usdhc_update_irq s, m) in
  if zlen resp =? 4 then complete (set_responses s (ldl_be_p resp 0) 0 0 0)
  else if zlen resp =? 16 then
    complete (set_responses s (ldl_be_p resp 11) (ldl_be_p resp 7) (ldl_be_p resp 3) ((resp.[0] .<< 16) .| (resp.[1] .<< 8) .| resp.[2]))
  else Some (mcxn_usdhc_update_irq (raise_int s INT_CTOE), m).

(** ** Register accesses *)

(** The word of the buffer port has been moved: [data_pos] advances, and the last
    word completes the transfer. *)
Definition usdhc_port_moved (s : MCXNUSDHCState C) : MCXNUSDHCState C :=
  let s := s <| data_pos := u32 (data_pos s + 4) |> in
  if data_len s <=? data_pos s then mcxn_usdhc_update_irq (raise_int (s <| data_len := 0 |>) INT_TC) else s.

Definition mcxn_usdhc_read (s : MCXNUSDHCState C) (off : Z) : option (Z * MCXNUSDHCState C) :=
  let v := if off <? MCXN_USDHC_SIZE then reg s off else 0 in
  if off =? USDHC_PRES_STATE then
    Some (PRES_SDSTB .| (if sdbus_get_inserted (sdbus s) then PRES_CINST else 0), s)
  else if off =? USDHC_DATA_BUFF_ACC_PORT then
    if (data_len s =? 0) || negb (data_read s) then Some (0, s)
    else
      '(w, bus) ← sdbus_read_data (sdbus s) [0; 0; 0; 0];
      Some (le_load w, usdhc_port_moved (s <| sdbus := bus |>))
  else if off =? USDHC_HOST_CTRL_CAP then Some (HOST_CTRL_CAP_VALUE, s)
  else if off =? USDHC_DLL_STATUS then Some (reg s USDHC_DLL_STATUS, s)
  else if off =? USDHC_ADMA_ERR_STATUS then Some (0, s)
  else if off =? USDHC_SYS_CTRL then Some (v .& u32 (.~ SYS_CTRL_SELF_CLEAR), s)
  else Some (v, s).

(** The registers a write leaves alone. *)
Definition usdhc_read_only (off : Z) : bool :=
  existsb (Z.eqb off)
    [USDHC_PRES_STATE; USDHC_CMD_RSP0; USDHC_CMD_RSP1; USDHC_CMD_RSP2; USDHC_CMD_RSP3; USDHC_ADMA_ERR_STATUS; USDHC_DLL_STATUS; USDHC_HOST_CTRL_CAP].

Definition mcxn_usdhc_write (b : board) (off value : Z) : option board :=
  let '(s, m) := b in
  let val := u32 value in
  if MCXN_USDHC_SIZE <=? off then Some (s, m)
  else if usdhc_read_only off then Some (s, m)
  else if off =? USDHC_SYS_CTRL then
    let s := set_reg s off (val .& u32 (.~ SYS_CTRL_SELF_CLEAR)) in
    Some (if flag val (SYS_CTRL_RSTA .| SYS_CTRL_RSTC .| SYS_CTRL_RSTD) then mcxn_usdhc_update_irq (set_reg s USDHC_INT_STATUS 0) else s, m)
  else if off =? USDHC_INT_STATUS then Some (mcxn_usdhc_update_irq (set_reg s off (reg s off .& u32 (.~ val))), m)
  else if off =? USDHC_CMD_XFR_TYP then mcxn_usdhc_send_command (set_reg s off val, m) val
  else if off =? USDHC_DATA_BUFF_ACC_PORT then
    if (data_len s =? 0) || data_read s then Some (s, m)
    else
      bus ← sdbus_write_data (sdbus s) (le_store 4 val);
      Some (usdhc_port_moved (s <| sdbus := bus |>), m)
  else if off =? USDHC_INT_SIGNAL_EN then Some (mcxn_usdhc_update_irq (set_reg s off val), m)
  else Some (set_reg s off val, m).

(** ** Reset and migration *)

Definition rst_usdhc0 : list (Z * Z) :=
  [(0x004, 0x00010000); (0x028, 0x08800020); (0x02C, 0x0080800F); (0x040, 0x07F3B407); (0x044, 0x08100810); (0x048, 0x80000000);
   (0x064, 0x00000200); (0x0C0, 0x30007809); (0x0C8, 0x00019006); (0x0CC, 0x00212800)].

Definition mcxn_usdhc_reset (s : MCXNUSDHCState C) : MCXNUSDHCState C :=
  let s := s <| regs := replicate (Z.to_nat (MCXN_USDHC_SIZE / 4)) 0 |> in
  let s := set_reg s USDHC_DLL_STATUS 0x00000200 in
  let s := foldl (fun s e => set_reg s e.1 e.2) s rst_usdhc0 in
  let s := set_reg s USDHC_HOST_CTRL_CAP HOST_CTRL_CAP_VALUE in
  s <| data_len := 0 |> <| data_pos := 0 |> <| data_read := false |>.

(** A saved controller is loaded into a fresh one, whose line is low. *)
Definition usdhc_vmstate (saved fresh : MCXNUSDHCState C) : MCXNUSDHCState C :=
  fresh <| regs := regs saved |> <| data_len := data_len saved |> <| data_pos := data_pos saved |> <| data_read := data_read saved |>.
Definition mcxn_usdhc_post_load (s : MCXNUSDHCState C) : MCXNUSDHCState C := mcxn_usdhc_update_irq s.
End usdhc.

(** ** Descriptor tables

    The descriptors that a transfer of [total] bytes follows from [desc] and the
    memory they name, if the table is well formed: the descriptors can be fetched
    and are valid, they do not end before [total] bytes, and at most [guard] are
    used. *)
Section table.
Context (fetch_ok : Z -> bool) (m : Z -> Z).

Fixpoint adma_table (guard : nat) (desc total : Z) : option (list Z * list (Z * Z)) :=
  if total <=? 0 then Some ([], [])
  else
    match guard with
    | O => None
    | S guard =>
        let raw := adma_raw m desc in
        let attr := adma_attr raw in
        if negb (fetch_ok desc) || negb (flag attr ADMA_VALID) then None
        else if attr .& ADMA_ACT_MASK =? ADMA_ACT_LINK then
          '(ds, l) ← adma_table guard (adma_addr raw) total; Some (desc :: ds, l)
        else
          let p := if attr .& ADMA_ACT_MASK =? ADMA_ACT_TRAN then [(adma_addr raw, Z.min (adma_len raw) total)] else [] in
          let rest := total - foldr (fun p t => p.2 + t) 0 p in
          if flag attr ADMA_END && (0 <? rest) then None
          else '(ds, l) ← adma_table guard (desc + 8) rest; Some (desc :: ds, p ++ l)
    end.
End table.

Lemma adma_len_pos raw : 0 < adma_len raw <= 65536.
Proof.
  unfold adma_len. cbv zeta. change 0xFFFF with (Z.ones 16). rewrite Z.land_ones by lia.
  pose proof (Z.mod_pos_bound (raw .>> 16) (2 ^ 16) ltac:(lia)). destruct (Z.eqb_spec ((raw .>> 16) mod 2 ^ 16) 0); lia.
Qed.

(** A table describes its bytes. *)
Lemma adma_table_total ok m guard : forall desc total ds l, 0 <= total -> adma_table ok m guard desc total = Some (ds, l) ->
  Forall (fun p => 0 <= p.2) l /\ foldr (fun p t => p.2 + t) 0 l = total.
Proof.
  induction guard as [|guard IH]; intros desc total ds l Ht; cbn [adma_table]; destruct (Z.leb_spec total 0); try done;
    try (intros [= <- <-]; split; [constructor | cbn; lia]).
  destruct (_ || _); [done|]. destruct (_ =? ADMA_ACT_LINK).
  { destruct (adma_table _ _ _ _ _) as [[ds1 l1]|] eqn:E1; [|done]. intros [= <- <-]. exact (IH _ _ _ _ Ht E1). }
  set (p := if _ =? ADMA_ACT_TRAN then _ else []). cbv zeta. destruct (_ && _); [done|].
  destruct (adma_table _ _ _ _ _) as [[ds1 l1]|] eqn:E1; [|done]. intros [= <- <-]. pose proof (adma_len_pos (adma_raw m desc)).
  destruct (_ =? ADMA_ACT_TRAN); subst p; cbn [foldr app snd] in *; apply IH in E1 as [? E1]; try lia; [|split; [done | lia]].
  split; [constructor; [cbn; lia | done] | cbn [foldr snd]; lia].
Qed.

(** The table is read in the descriptors alone. *)
Lemma adma_table_ext ok m m1 k guard : only_in k m m1 -> forall desc total ds l, adma_table ok m guard desc total = Some (ds, l) ->
  Forall (fun d => Forall (apart (d, 8)) k) ds -> adma_table ok m1 guard desc total = Some (ds, l).
Proof.
  intros Hm. induction guard as [|guard IH]; intros desc total ds l; cbn [adma_table]; destruct (total <=? 0); try done.
  assert (Hraw : forall d, Forall (apart (d, 8)) k -> adma_raw m1 d = adma_raw m d).
  { intros d Hd. unfold adma_raw. f_equal. exact (mem_load_only k m m1 (d, 8) Hm Hd). }
  assert (Hin : forall (A B C : bool) (d : Z) p x r, (if A then None else if B then '(ds, l) ← x; Some (d :: ds, l) else if C then None else
    '(ds, l) ← r; Some (d :: ds, p ++ l)) = Some (ds, l) -> exists ds', ds = d :: ds').
  { intros [] [] [] d p [[]|] [[]|]; cbn; intros; by simplify_eq; eauto. }
  intros E Hds. pose proof E as E'. apply Hin in E' as [ds' ->]. apply Forall_cons in Hds as [Hd Hds]. rewrite (Hraw desc Hd).
  destruct (_ || _); [done|]. destruct (_ =? ADMA_ACT_LINK).
  - destruct (adma_table ok m _ _ _) as [[ds1 l1]|] eqn:E1 in E; [|done]. cbn in E. injection E as -> ->. by rewrite (IH _ _ _ _ E1).
  - cbv zeta in *. destruct (_ && _); [done|]. destruct (adma_table ok m _ _ _) as [[ds1 l1]|] eqn:E1 in E; [|done].
    cbn in E. injection E as -> <-. by rewrite (IH _ _ _ _ E1).
Qed.

(** ** The data path *)

Section path.
Context {C : Type} `{SDStream C} (fetch_ok : Z -> bool).
Implicit Types s : MCXNUSDHCState C.

Lemma run_fuel_step len n fuel : 0 < len -> 0 < n -> (run_fuel len <= S fuel)%nat -> len - n <= 0 \/ 512 <= n -> (run_fuel (len - n) <= fuel)%nat.
Proof.
  unfold run_fuel. intros Hl Hn Hf [Hz|Hb].
  - assert ((len - n + 511) / 512 <= 0) by (apply Z.lt_succ_r, Z.div_lt_upper_bound; lia). lia.
  - replace (len + 511) with (len - 512 + 511 + 1 * 512) in Hf by lia. rewrite Z.div_add in Hf by lia.
    assert ((len - n + 511) / 512 <= (len - 512 + 511) / 512) by (apply Z.div_le_mono; lia).
    pose proof (Z.div_le_lower_bound (len - 512 + 511) 512 0 ltac:(lia)). lia.
Qed.

Lemma run_fuel_mono n len : n <= len -> (run_fuel n <= run_fuel len)%nat.
Proof. intros. unfold run_fuel. pose proof (Z.div_le_mono (n + 511) (len + 511) 512). lia. Qed.

Lemma run_read fuel : forall addr len moved total s m c bs c', 0 <= len -> moved <= total -> (run_fuel (Z.min len (total - moved)) <= fuel)%nat ->
  sdbus s = Some c -> card_ok c -> sends c bs c' -> zlen bs = Z.min len (total - moved) ->
  exists m', usdhc_run fuel true addr len moved total (s, m) = Some (moved + zlen bs, (s <| sdbus := Some c' |>, m')) /\
    mem_load m' addr (zlen bs) = bs /\ only_in [(addr, zlen bs)] m m'.
Proof.
  induction fuel as [|fuel IH]; intros addr len moved total s m c bs c' Hlen Hm Hf Hbus Hok Hs Hbs.
  all: destruct (decide (zlen bs = 0)) as [Hz|Hz].
  1, 3: destruct bs; [|done]; inversion Hs; subst; exists m; cbn [length Z.of_nat]; split; [|split; [done | by intros x]].
  1, 2: cbn [usdhc_run]; replace ((0 <? len) && (moved <? total)) with false by (cbn in Hbs; zcases; lia || done); rewrite Z.add_0_r; do 2 f_equal.
  1, 2: destruct s; cbn in *; by subst.
  { exfalso. unfold run_fuel in Hf. pose proof (Z.div_le_lower_bound (Z.min len (total - moved) + 511) 512 1). lia. }
  cbn [usdhc_run]. rewrite (proj2 (Z.ltb_lt 0 len)), (proj2 (Z.ltb_lt moved total)) by lia. cbn [andb].
  set (n := Z.min (Z.min len 512) (total - moved)). assert (0 < n <= zlen bs) by lia.
  assert (Hrem : Z.min (len - n) (total - (moved + n)) = Z.min len (total - moved) - n) by lia.
  rewrite <- (take_drop (Z.to_nat n) bs) in Hs. apply sends_app in Hs as (c1 & Hs1 & Hs2).
  assert (Hl1 : zlen (take (Z.to_nat n) bs) = n) by (rewrite length_take; lia).
  assert (Hl2 : zlen (drop (Z.to_nat n) bs) = zlen bs - n) by (rewrite length_drop; lia).
  unfold usdhc_move at 1. rewrite Hbus, (bus_read c (take (Z.to_nat n) bs) c1) by (rewrite ?length_replicate; done || lia). cbn [mbind option_bind].
  set (s1 := s <| sdbus := Some c1 |>). set (m1 := mem_store m addr (take (Z.to_nat n) bs)).
  destruct (IH (addr + n) (len - n) (moved + n) total s1 m1 c1 (drop (Z.to_nat n) bs) c') as (m' & E & Hld & Hout);
    [lia | lia | rewrite Hrem; apply run_fuel_step; lia | done | by apply (sends_ok c (take (Z.to_nat n) bs)) | done | lia |].
  rewrite Hl2 in *. exists m'. split; [rewrite E; do 2 f_equal; lia|]. unfold only_in in Hout.
  assert (Hpre : mem_load m' addr n = take (Z.to_nat n) bs).
  { rewrite <- (mem_load_store m addr (take _ bs)) at 1. rewrite Hl1. apply mem_load_ext. intros x Hx. apply Hout.
    apply Forall_singleton. unfold inside in *. cbn [fst snd] in *. lia. }
  split.
  - replace (zlen bs) with (n + (zlen bs - n)) by lia. rewrite mem_load_app, Hpre, Hld by lia. apply take_drop.
  - intros x Hx. rewrite Forall_singleton in Hx. unfold inside in Hx. cbn [fst snd] in Hx.
    rewrite Hout by (apply Forall_singleton; unfold inside; cbn [fst snd]; lia).
    unfold m1. apply mem_store_out. rewrite Hl1. unfold inside. cbn [fst snd]. lia.
Qed.

Lemma run_write fuel : forall addr len moved total s m c c', 0 <= len -> moved <= total -> (run_fuel (Z.min len (total - moved)) <= fuel)%nat ->
  sdbus s = Some c -> card_ok c -> let n := Z.min len (total - moved) in takes c (mem_load m addr n) c' ->
  usdhc_run fuel false addr len moved total (s, m) = Some (moved + n, (s <| sdbus := Some c' |>, m)).
Proof.
  induction fuel as [|fuel IH]; intros addr len moved total s m c c' Hlen Hm Hf Hbus Hok n Hs.
  all: destruct (decide (n = 0)) as [Hz|Hz].
  1, 3: rewrite Hz in Hs |- *; inversion Hs; subst; cbn [usdhc_run]; rewrite Z.add_0_r.
  1, 2: replace ((0 <? len) && (moved <? total)) with false by (zcases; lia || done); do 2 f_equal; destruct s; cbn in *; by subst.
  { exfalso. unfold run_fuel in Hf. pose proof (Z.div_le_lower_bound (Z.min len (total - moved) + 511) 512 1). lia. }
  cbn [usdhc_run]. rewrite (proj2 (Z.ltb_lt 0 len)), (proj2 (Z.ltb_lt moved total)) by lia. cbn [andb].
  set (k := Z.min (Z.min len 512) (total - moved)). assert (0 < k <= n) by lia.
  assert (Hrem : Z.min (len - k) (total - (moved + k)) = Z.min len (total - moved) - k) by lia.
  replace n with (k + (n - k)) in Hs by lia. rewrite mem_load_app in Hs by lia. apply takes_app in Hs as (c1 & Hs1 & Hs2).
  unfold usdhc_move at 1. rewrite Hbus, (bus_write c (mem_load m addr k) c1) by done. cbn [mbind option_bind].
  set (s1 := s <| sdbus := Some c1 |>).
  rewrite (IH (addr + k) (len - k) (moved + k) total s1 m c1 c');
    [do 2 f_equal; lia | lia | lia | rewrite Hrem; apply run_fuel_step; lia | done | by apply (takes_ok c (mem_load m addr k)) |].
  rewrite Hrem. done.
Qed.

(** The transfer is done: the walk stops. *)
Lemma walk_stop guard read total desc s m : usdhc_adma2_walk fetch_ok guard read total desc total (s, m) = Some (set_reg s USDHC_ADMA_SYS_ADDR (u32 desc), m).
Proof. destruct guard; cbn [usdhc_adma2_walk]; by rewrite Z.ltb_irrefl. Qed.

Lemma same_bus s c : sdbus s = Some c -> s <| sdbus := Some c |> = s.
Proof. destruct s. cbn. by intros ->. Qed.

Lemma gather_app m l k : gather m (l ++ k) = gather m l ++ gather m k.
Proof. apply flat_map_app. Qed.
Lemma only_in_trans l k m m1 m2 : only_in l m m1 -> only_in k m1 m2 -> only_in (l ++ k) m m2.
Proof. intros H1 H2 x Hx. apply Forall_app in Hx as [Hl Hk]. rewrite (H2 x Hk). by apply H1. Qed.

(** One descriptor of a table that moves data or does nothing: the run it stands for. *)
Lemma walk_step guard read total desc moved s m ds l : adma_table fetch_ok m (S guard) desc (total - moved) = Some (ds, l) -> moved < total ->
  (exists ds', ds = desc :: ds' /\ adma_table fetch_ok m guard (adma_addr (adma_raw m desc)) (total - moved) = Some (ds', l) /\
    usdhc_adma2_walk fetch_ok (S guard) read total desc moved (s, m) = usdhc_adma2_walk fetch_ok guard read total (adma_addr (adma_raw m desc)) moved (s, m)) \/
  (exists ds', ds = desc :: ds' /\ adma_table fetch_ok m guard (desc + 8) (total - moved) = Some (ds', l) /\
    usdhc_adma2_walk fetch_ok (S guard) read total desc moved (s, m) = usdhc_adma2_walk fetch_ok guard read total (desc + 8) moved (s, m)) \/
  (exists ds' l' addr len (fin : bool), let n := Z.min len (total - moved) in
    ds = desc :: ds' /\ l = (addr, n) :: l' /\ 0 < len /\ (fin = true -> n = total - moved) /\
    adma_table fetch_ok m guard (desc + 8) (total - moved - n) = Some (ds', l') /\
    usdhc_adma2_walk fetch_ok (S guard) read total desc moved (s, m) =
      ('(moved, b) ← usdhc_run (run_fuel len) read addr len moved total (s, m);
       if fin then Some (set_reg b.1 USDHC_ADMA_SYS_ADDR (u32 desc), b.2) else usdhc_adma2_walk fetch_ok guard read total (desc + 8) moved b)).
Proof.
  intros E Hlt. cbn [adma_table usdhc_adma2_walk fst snd] in *. rewrite (proj2 (Z.ltb_lt moved total)) by lia.
  rewrite (proj2 (Z.leb_gt (total - moved) 0)) in E by lia. set (raw := adma_raw m desc) in *.
  destruct (_ || _); [done|]. destruct (_ =? ADMA_ACT_LINK).
  { left. destruct (adma_table _ _ _ _ _) as [[ds1 l1]|]; [|done]. injection E as <- <-. by exists ds1. }
  right. cbv zeta in E. destruct (_ =? ADMA_ACT_TRAN); cbn [foldr snd app] in E.
  - right. destruct (flag _ ADMA_END) eqn:Eend; cbn [andb] in E.
    + destruct (Z.ltb_spec 0 (total - moved - (Z.min (adma_len raw) (total - moved) + 0))); [done|].
      destruct (adma_table _ _ _ _ _) as [[ds1 l1]|] eqn:E1; [|done]. injection E as <- <-.
      exists ds1, l1, (adma_addr raw), (adma_len raw), true. pose proof (adma_len_pos raw). rewrite Z.add_0_r in E1.
      split; [done|]. split; [done|]. split; [lia|]. split; [lia|]. done.
    + destruct (adma_table _ _ _ _ _) as [[ds1 l1]|] eqn:E1; [|done]. injection E as <- <-.
      exists ds1, l1, (adma_addr raw), (adma_len raw), false. pose proof (adma_len_pos raw). rewrite Z.add_0_r in E1.
      split; [done|]. split; [done|]. split; [lia|]. split; [done|]. done.
  - left. rewrite Z.sub_0_r in E. destruct (flag _ ADMA_END); cbn [andb] in E; [rewrite (proj2 (Z.ltb_lt 0 _)) in E by lia; done|].
    destruct (adma_table _ _ _ _ _) as [[ds1 l1]|]; [|done]. injection E as <- <-. by exists ds1.
Qed.

Lemma walk_read guard : forall desc moved total s m c bs c' ds l, adma_table fetch_ok m guard desc (total - moved) = Some (ds, l) -> moved <= total ->
  separate l -> Forall (fun d => Forall (apart (d, 8)) l) ds -> sdbus s = Some c -> card_ok c -> sends c bs c' -> zlen bs = total - moved ->
  exists m' a, usdhc_adma2_walk fetch_ok guard true total desc moved (s, m) = Some (set_reg (s <| sdbus := Some c' |>) USDHC_ADMA_SYS_ADDR a, m') /\
    gather m' l = bs /\ only_in l m m'.
Proof.
  induction guard as [|guard IH]; intros desc moved total s m c bs c' ds l Ht Hm Hsep Hds Hbus Hok Hs Hbs.
  all: destruct (decide (moved = total)) as [->|Hne].
  1, 3: cbn [adma_table] in Ht; rewrite Z.sub_diag in *; injection Ht as <- <-; destruct bs; [|done]; inversion Hs; subst; rewrite walk_stop.
  1, 2: rewrite same_bus by done; eexists _, _; split; [done|]; split; [done | by intros x].
  { cbn [adma_table] in Ht. rewrite (proj2 (Z.leb_gt _ 0)) in Ht by lia. done. }
  destruct (walk_step guard true total desc moved s m ds l Ht ltac:(lia)) as
    [(ds' & -> & Ht' & ->) | [(ds' & -> & Ht' & ->) | (ds' & l' & addr & len & fin & -> & -> & Hlen & Hfin & Ht' & ->)]];
    apply Forall_cons in Hds as [Hd Hds]; try (eapply IH; done).
  set (n := Z.min len (total - moved)) in *. assert (0 < n <= zlen bs) by lia. destruct Hsep as [Hap Hsep].
  rewrite <- (take_drop (Z.to_nat n) bs) in Hs. apply sends_app in Hs as (c1 & Hs1 & Hs2).
  assert (Hl1 : zlen (take (Z.to_nat n) bs) = n) by (rewrite length_take; lia).
  assert (Hl2 : zlen (drop (Z.to_nat n) bs) = zlen bs - n) by (rewrite length_drop; lia).
  destruct (run_read (run_fuel len) addr len moved total s m c (take (Z.to_nat n) bs) c1 ltac:(lia) ltac:(lia)
    (run_fuel_mono n len ltac:(lia)) Hbus Hok Hs1 ltac:(lia)) as (m1 & -> & Hld & Hout).
  rewrite Hl1 in *. cbn [mbind option_bind].
  set (s1 := s <| sdbus := Some c1 |>). assert (Hdo : Forall (fun d => Forall (apart (d, 8)) [(addr, n)]) ds').
  { eapply Forall_impl; [exact Hds|]. intros d Hdd. apply Forall_cons in Hdd as [Hdd _]. by apply Forall_singleton. }
  assert (Hds' : Forall (fun d => Forall (apart (d, 8)) l') ds') by (eapply Forall_impl; [exact Hds|]; intros d Hdd; by apply Forall_cons in Hdd as [_ Hdd]).
  apply (adma_table_ext fetch_ok m m1 [(addr, n)] guard Hout) in Ht'; [|exact Hdo].
  assert (Hok1 : card_ok c1) by exact (sends_ok _ _ _ Hok Hs1).
  assert (Hrest : exists m' a, (if fin then Some (set_reg s1 USDHC_ADMA_SYS_ADDR (u32 desc), m1) else
    usdhc_adma2_walk fetch_ok guard true total (desc + 8) (moved + n) (s1, m1)) = Some (set_reg (s <| sdbus := Some c' |>) USDHC_ADMA_SYS_ADDR a, m') /\
    gather m' l' = drop (Z.to_nat n) bs /\ only_in l' m1 m').
  { destruct fin.
    - rewrite (Hfin eq_refl) in *. rewrite Z.sub_diag in Ht'. destruct guard; injection Ht' as <- <-;
        (destruct (drop _ bs); [|cbn [length] in Hl2; lia]); inversion Hs2; subst; eexists _, _; (split; [done | split; [done | by intros x]]).
    - replace (total - moved - n) with (total - (moved + n)) in Ht' by lia.
      apply (IH (desc + 8) (moved + n) total s1 m1 c1 (drop (Z.to_nat n) bs) c' ds' l' Ht'); done || lia. }
  destruct Hrest as (m' & a & E & Hg & Ho). exists m', a. split; [exact E|]. split.
  - change (gather m' ((addr, n) :: l')) with (mem_load m' addr n ++ gather m' l').
    rewrite Hg. rewrite <- (take_drop (Z.to_nat n) bs) at 2. f_equal. etrans; [|exact Hld]. exact (mem_load_only l' m1 m' (addr, n) Ho Hap).
  - exact (only_in_trans [(addr, n)] l' m m1 m' Hout Ho).
Qed.

Lemma walk_write guard : forall desc moved total s m c c' ds l, adma_table fetch_ok m guard desc (total - moved) = Some (ds, l) -> moved <= total ->
  sdbus s = Some c -> card_ok c -> takes c (gather m l) c' ->
  exists a, usdhc_adma2_walk fetch_ok guard false total desc moved (s, m) = Some (set_reg (s <| sdbus := Some c' |>) USDHC_ADMA_SYS_ADDR a, m).
Proof.
  induction guard as [|guard IH]; intros desc moved total s m c c' ds l Ht Hm Hbus Hok Hs.
  all: destruct (decide (moved = total)) as [->|Hne].
  1, 3: cbn [adma_table] in Ht; rewrite Z.sub_diag in *; injection Ht as <- <-; inversion Hs; subst; rewrite walk_stop, same_bus by done; eauto.
  { cbn [adma_table] in Ht. rewrite (proj2 (Z.leb_gt _ 0)) in Ht by lia. done. }
  destruct (walk_step guard false total desc moved s m ds l Ht ltac:(lia)) as
    [(ds' & -> & Ht' & ->) | [(ds' & -> & Ht' & ->) | (ds' & l' & addr & len & fin & -> & -> & Hlen & Hfin & Ht' & ->)]]; try (eapply IH; done).
  set (n := Z.min len (total - moved)) in *.
  change (gather m ((addr, n) :: l')) with (mem_load m addr n ++ gather m l') in Hs. apply takes_app in Hs as (c1 & Hs1 & Hs2).
  rewrite (run_write (run_fuel len) addr len moved total s m c c1 ltac:(lia) ltac:(lia) (run_fuel_mono n len ltac:(lia)) Hbus Hok Hs1).
  fold n. cbn [mbind option_bind]. set (s1 := s <| sdbus := Some c1 |>). destruct fin.
  - rewrite (Hfin eq_refl) in *. rewrite Z.sub_diag in Ht'. destruct guard; injection Ht' as <- <-; inversion Hs2; subst; by eexists.
  - replace (total - moved - n) with (total - (moved + n)) in Ht' by lia.
    apply (IH (desc + 8) (moved + n) total s1 m c1 c' ds' l' Ht'); [lia | done | by apply (takes_ok c (mem_load m addr n)) | done].
Qed.

(** ** DMA transfers *)

(** The descriptors and the memory of the DMA transfer that is set up. *)
Definition dma_table (m : Z -> Z) s : option (list Z * list (Z * Z)) :=
  if (reg s USDHC_PROT_CTRL .& PROT_DMASEL_MASK) .>> PROT_DMASEL_SHIFT =? DMASEL_ADMA2
  then adma_table fetch_ok m ADMA_GUARD (reg s USDHC_ADMA_SYS_ADDR) (usdhc_total s)
  else Some ([], [(reg s USDHC_DS_ADDR, usdhc_total s)]).

Lemma usdhc_reg_set s o v o' : zlen (regs s) = 1024 -> 0 <= o .>> 2 < 1024 -> 0 <= o' .>> 2 ->
  reg (set_reg s o v) o' = if o .>> 2 =? o' .>> 2 then v else reg s o'.
Proof. intros Hl Ho Ho'. unfold reg, set_reg. cbn. rewrite arr_get_set by lia. by rewrite Z.eqb_sym. Qed.
Lemma usdhc_length_set s o v : zlen (regs (set_reg s o v)) = zlen (regs s).
Proof. unfold set_reg. cbn. by rewrite length_arr_set. Qed.

(** [s'] is [s] after a transfer that leaves the card [c'] on the bus. *)
Record transferred s (ints : Z) (c' : C) s' : Prop := {
  tr_bus : sdbus s' = Some c';
  tr_len : zlen (regs s') = 1024;
  tr_int : reg s' USDHC_INT_STATUS = reg s USDHC_INT_STATUS .| ints;
  tr_reg o : 0 <= o .>> 2 -> (o .>> 2 =? 0) || (o .>> 2 =? 12) || (o .>> 2 =? 22) = false -> reg s' o = reg s o;
}.

(** The end of the DMA transfer: the address register moves on and TC is raised. *)
Lemma transferred_tc s c' o a : zlen (regs s) = 1024 -> o = USDHC_DS_ADDR \/ o = USDHC_ADMA_SYS_ADDR ->
  transferred s INT_TC c' (raise_int (set_reg (s <| sdbus := Some c' |>) o a) INT_TC).
Proof.
  intros Hl Ho. assert (Hrng : 0 <= o .>> 2 < 1024 /\ (o .>> 2 = 0 \/ o .>> 2 = 22)) by (destruct Ho as [-> | ->]; vm_compute; intuition congruence).
  assert (Hl1 : zlen (regs (set_reg (s <| sdbus := Some c' |>) o a)) = 1024) by (rewrite usdhc_length_set; exact Hl).
  assert (E12 : USDHC_INT_STATUS .>> 2 = 12) by reflexivity. unfold raise_int. split; [done | by rewrite usdhc_length_set | |].
  - rewrite usdhc_reg_set, Z.eqb_refl by (rewrite ?E12; exact Hl || done || lia). rewrite usdhc_reg_set by (rewrite ?E12; exact Hl || done || lia).
    rewrite E12, (proj2 (Z.eqb_neq (o .>> 2) 12)) by lia. done.
  - intros r Hr Hno. rewrite !orb_false_iff, !Z.eqb_neq in Hno. rewrite usdhc_reg_set by (rewrite ?E12; exact Hl || done || lia). rewrite E12, (proj2 (Z.eqb_neq 12 _)) by lia.
    rewrite usdhc_reg_set by (exact Hl || done || lia). rewrite (proj2 (Z.eqb_neq (o .>> 2) _)) by lia. done.
Qed.

Lemma do_data_read s m c bs c' ds l : zlen (regs s) = 1024 -> flag (reg s USDHC_MIX_CTRL) MIX_DMAEN = true -> flag (reg s USDHC_MIX_CTRL) MIX_DTDSEL = true ->
  dma_table m s = Some (ds, l) -> separate l -> Forall (fun d => Forall (apart (d, 8)) l) ds ->
  sdbus s = Some c -> card_ok c -> sends c bs c' -> zlen bs = usdhc_total s -> bs <> [] ->
  exists s' m', mcxn_usdhc_do_data fetch_ok (s, m) = Some (s', m') /\ transferred s INT_TC c' s' /\ gather m' l = bs /\ only_in l m m'.
Proof.
  intros Hl Hen Hdir Ht Hsep Hds Hbus Hok Hs Hbs Hne. unfold mcxn_usdhc_do_data, dma_table in *. cbv zeta. rewrite Hen, Hdir. cbn [negb].
  assert (0 < usdhc_total s) by (rewrite <- Hbs; destruct bs; [done | cbn [length]; lia]). rewrite (proj2 (Z.eqb_neq (usdhc_total s) 0)) by lia.
  destruct (_ =? DMASEL_ADMA2).
  - unfold mcxn_usdhc_do_adma2. cbn [fst]. rewrite <- (Z.sub_0_r (usdhc_total s)) in Ht.
    destruct (walk_read ADMA_GUARD _ 0 (usdhc_total s) s m c bs c' ds l Ht ltac:(lia) Hsep Hds Hbus Hok Hs ltac:(lia)) as (m' & a & -> & Hg & Ho).
    cbn [mbind option_bind fst snd]. eexists _, m'. split; [done|]. split; [|done]. apply transferred_tc; [done | by right].
  - injection Ht as <- <-. set (total := usdhc_total s) in *.
    destruct (run_read (run_fuel total) (reg s USDHC_DS_ADDR) total 0 total s m c bs c' ltac:(lia) ltac:(lia) (run_fuel_mono (Z.min total (total - 0)) total ltac:(lia)) Hbus Hok Hs ltac:(lia))
      as (m' & -> & Hld & Ho).
    cbn [mbind option_bind fst snd]. eexists _, m'. split; [done|]. split; [apply transferred_tc; [done | by left]|].
    rewrite Hbs in *. split; [|done]. change (mem_load m' (reg s USDHC_DS_ADDR) total ++ [] = bs). by rewrite app_nil_r.
Qed.

Lemma do_data_write s m c c' ds l : zlen (regs s) = 1024 -> flag (reg s USDHC_MIX_CTRL) MIX_DMAEN = true -> flag (reg s USDHC_MIX_CTRL) MIX_DTDSEL = false ->
  dma_table m s = Some (ds, l) -> 0 < usdhc_total s -> sdbus s = Some c -> card_ok c -> takes c (gather m l) c' ->
  exists s', mcxn_usdhc_do_data fetch_ok (s, m) = Some (s', m) /\ transferred s INT_TC c' s'.
Proof.
  intros Hl Hen Hdir Ht Hpos Hbus Hok Hs. unfold mcxn_usdhc_do_data, dma_table in *. cbv zeta. rewrite Hen, Hdir. cbn [negb].
  rewrite (proj2 (Z.eqb_neq (usdhc_total s) 0)) by lia. destruct (_ =? DMASEL_ADMA2).
  - unfold mcxn_usdhc_do_adma2. cbn [fst]. rewrite <- (Z.sub_0_r (usdhc_total s)) in Ht.
    destruct (walk_write ADMA_GUARD _ 0 (usdhc_total s) s m c c' ds l Ht ltac:(lia) Hbus Hok Hs) as (a & ->).
    cbn [mbind option_bind fst snd]. eexists. split; [done|]. apply transferred_tc; [done | by right].
  - injection Ht as <- <-. set (total := usdhc_total s) in *.
    change (takes c (mem_load m (reg s USDHC_DS_ADDR) total ++ []) c') in Hs. rewrite app_nil_r in Hs.
    assert (Emin : Z.min total (total - 0) = total) by lia.
    rewrite (run_write (run_fuel total) (reg s USDHC_DS_ADDR) total 0 total s m c c' ltac:(lia) ltac:(lia) (run_fuel_mono (Z.min total (total - 0)) total ltac:(lia)) Hbus Hok) by by rewrite Emin.
    cbn [mbind option_bind fst snd]. eexists. split; [done|]. apply transferred_tc; [done | by left].
Qed.

(** A DMA transfer of [n] bytes is set up; memory it fills is separate from its
    other parts and from the descriptors. *)
Record dma_ready (read : bool) (m : Z -> Z) s (n : Z) (l : list (Z * Z)) : Prop := {
  dr_len : zlen (regs s) = 1024;
  dr_en : flag (reg s USDHC_MIX_CTRL) MIX_DMAEN = true;
  dr_dir : flag (reg s USDHC_MIX_CTRL) MIX_DTDSEL = read;
  dr_total : usdhc_total s = n;
  dr_pos : 0 < n;
  dr_table : exists ds, dma_table m s = Some (ds, l) /\ (read = true -> separate l /\ Forall (fun d => Forall (apart (d, 8)) l) ds);
}.

(** The command was answered: [s1] has the response, and [c1] is on the bus. *)
Record answered s (c1 : C) s1 : Prop := {
  an_bus : sdbus s1 = Some c1;
  an_len : zlen (regs s1) = 1024;
  an_int : reg s1 USDHC_INT_STATUS = reg s USDHC_INT_STATUS .| INT_CC;
  an_reg o : 0 <= o .>> 2 -> (o .>> 2 =? 12) || (3 <=? o .>> 2) && (o .>> 2 <=? 7) = false -> reg s1 o = reg s o;
}.

Lemma ready_answered read m s n l c1 s1 : dma_ready read m s n l -> answered s c1 s1 -> dma_ready read m s1 n l.
Proof.
  intros [Hl Hen Hdir Htot Hpos Htab] [Hb Hl1 Hi Hr].
  assert (Eds : reg s1 USDHC_DS_ADDR = reg s USDHC_DS_ADDR) by (by apply Hr).
  assert (Emix : reg s1 USDHC_MIX_CTRL = reg s USDHC_MIX_CTRL) by (by apply Hr).
  assert (Eprot : reg s1 USDHC_PROT_CTRL = reg s USDHC_PROT_CTRL) by (by apply Hr).
  assert (Eadma : reg s1 USDHC_ADMA_SYS_ADDR = reg s USDHC_ADMA_SYS_ADDR) by (by apply Hr).
  assert (Et : usdhc_total s1 = usdhc_total s) by (unfold usdhc_total; rewrite Emix, (Hr USDHC_BLK_ATT) by done; done).
  split; [done | congruence..|]. unfold dma_table in *. rewrite Et, Eds, Eprot, Eadma. exact Htab.
Qed.

(** The registers of a response. *)
Lemma answered_regs s c1 xt r0 r1 r2 r3 : zlen (regs s) = 1024 ->
  answered s c1 (raise_int (set_responses ((set_reg s USDHC_CMD_XFR_TYP xt) <| sdbus := Some c1 |>) r0 r1 r2 r3) INT_CC).
Proof.
  intros Hl. unfold raise_int, set_responses. set (t := (set_reg s USDHC_CMD_XFR_TYP xt) <| sdbus := Some c1 |>).
  assert (Hlt : zlen (regs t) = 1024) by (etrans; [exact (usdhc_length_set s _ _) | exact Hl]).
  assert (Ht : forall o, 0 <= o .>> 2 -> reg t o = if 3 =? o .>> 2 then xt else reg s o) by (intros; by apply (usdhc_reg_set s)).
  split; [done | by rewrite !usdhc_length_set | |].
  - repeat (rewrite usdhc_reg_set by (rewrite ?usdhc_length_set; done)). rewrite Z.eqb_refl. f_equal. by rewrite Ht.
  - intros o Ho Hno. rewrite orb_false_iff, andb_false_iff, Z.eqb_neq, !Z.leb_gt in Hno.
    repeat (rewrite usdhc_reg_set by (rewrite ?usdhc_length_set; done)).
    repeat (rewrite (proj2 (Z.eqb_neq _ (o .>> 2))) by (vm_compute (_ .>> _) at 1; lia)).
    rewrite Ht, (proj2 (Z.eqb_neq 3 _)) by lia. done.
Qed.

Lemma write_command s m xt : mcxn_usdhc_write fetch_ok (s, m) USDHC_CMD_XFR_TYP xt =
  mcxn_usdhc_send_command fetch_ok (set_reg s USDHC_CMD_XFR_TYP (u32 xt), m) (u32 xt).
Proof. reflexivity. Qed.

Lemma answer s xt m c resp c1 : zlen (regs s) = 1024 -> sdbus s = Some c ->
  do_command c ((u32 xt .>> CMD_XFR_CMDINX_SHIFT) .& CMD_XFR_CMDINX_MASK) (reg s USDHC_CMD_ARG) = Some (resp, c1) -> zlen resp = 4 \/ zlen resp = 16 ->
  exists s1, answered s c1 s1 /\
    mcxn_usdhc_write fetch_ok (s, m) USDHC_CMD_XFR_TYP xt =
      ('(s, m) ← (if flag (u32 xt) CMD_XFR_DPSEL then mcxn_usdhc_do_data fetch_ok (s1, m) else Some (s1, m)); Some (mcxn_usdhc_update_irq s, m)).
Proof.
  intros Hl Hbus E Hresp. rewrite write_command. unfold mcxn_usdhc_send_command. cbv zeta.
  assert (Ea : reg (set_reg s USDHC_CMD_XFR_TYP (u32 xt)) USDHC_CMD_ARG = reg s USDHC_CMD_ARG) by by rewrite usdhc_reg_set.
  change (sdbus (set_reg s USDHC_CMD_XFR_TYP (u32 xt))) with (sdbus s). rewrite Ea, Hbus. cbn [sdbus_do_command]. rewrite E. cbn [mbind option_bind].
  destruct Hresp as [Hr|Hr]; rewrite Hr; change (4 =? 4) with true; change (16 =? 4) with false; change (16 =? 16) with true; cbv iota;
    (eexists; split; [by apply answered_regs | reflexivity]).
Qed.

(** A command with a DMA data phase is complete, as the status register and the
    interrupt line say. *)
Record completed s (c' : C) s' : Prop := {
  co_bus : sdbus s' = Some c';
  co_int : reg s' USDHC_INT_STATUS = reg s USDHC_INT_STATUS .| INT_CC .| INT_TC;
  co_irq : irq s' = flag (reg s' USDHC_INT_STATUS) (reg s USDHC_INT_SIGNAL_EN);
}.

Lemma completed_transfer s c1 s1 c' s2 : answered s c1 s1 -> transferred s1 INT_TC c' s2 -> completed s c' (mcxn_usdhc_update_irq s2).
Proof.
  intros [_ _ Hi Hr] [Hb _ Hi2 Hr2]. split; [done | |].
  - change (reg s2 USDHC_INT_STATUS = reg s USDHC_INT_STATUS .| INT_CC .| INT_TC). by rewrite Hi2, Hi.
  - change (flag (reg s2 USDHC_INT_STATUS) (reg s2 USDHC_INT_SIGNAL_EN) = flag (reg s2 USDHC_INT_STATUS) (reg s USDHC_INT_SIGNAL_EN)).
    by rewrite (Hr2 USDHC_INT_SIGNAL_EN), (Hr USDHC_INT_SIGNAL_EN).
Qed.

Section command.
Context (s : MCXNUSDHCState C) (m : Z -> Z) (n xt : Z) (l : list (Z * Z)) (c : C) (resp : list Z) (c1 : C).
Hypothesis Hdp : flag (u32 xt) CMD_XFR_DPSEL = true.
Hypothesis Hbus : sdbus s = Some c.
Hypothesis Hcmd : do_command c ((u32 xt .>> CMD_XFR_CMDINX_SHIFT) .& CMD_XFR_CMDINX_MASK) (reg s USDHC_CMD_ARG) = Some (resp, c1).
Hypothesis Hresp : zlen resp = 4 \/ zlen resp = 16.
Hypothesis Hok : card_ok c1.

(** A read scatters what the card sends over the memory of the transfer. *)
Lemma dma_read_command bs c' : dma_ready true m s n l -> sends c1 bs c' -> zlen bs = n ->
  exists s' m', mcxn_usdhc_write fetch_ok (s, m) USDHC_CMD_XFR_TYP xt = Some (s', m') /\ completed s c' s' /\ gather m' l = bs /\ only_in l m m'.
Proof.
  intros Hrd Hs Hbs. destruct (answer s xt m c resp c1 (dr_len _ _ _ _ _ Hrd) Hbus Hcmd Hresp) as (s1 & Ha & ->). rewrite Hdp.
  destruct (ready_answered _ _ _ _ _ _ _ Hrd Ha) as [Hl Hen Hdir Htot Hpos (ds & Ht & Hsep)]. destruct (Hsep eq_refl) as [Hsp Hds].
  destruct (do_data_read s1 m c1 bs c' ds l) as (s' & m' & -> & Htr & Hg & Ho); try done; [by destruct Ha | lia | intros ->; cbn in Hbs; lia|].
  eexists _, m'. split; [done|]. split; [|done]. by apply (completed_transfer s c1 s1).
Qed.

(** A write puts what that memory holds into the card. *)
Lemma dma_write_command c' : dma_ready false m s n l -> takes c1 (gather m l) c' ->
  exists s', mcxn_usdhc_write fetch_ok (s, m) USDHC_CMD_XFR_TYP xt = Some (s', m) /\ completed s c' s'.
Proof.
  intros Hrd Hs. destruct (answer s xt m c resp c1 (dr_len _ _ _ _ _ Hrd) Hbus Hcmd Hresp) as (s1 & Ha & ->). rewrite Hdp.
  destruct (ready_answered _ _ _ _ _ _ _ Hrd Ha) as [Hl Hen Hdir Htot Hpos (ds & Ht & _)].
  destruct (do_data_write s1 m c1 c' ds l) as (s' & -> & Htr); try done; [lia | by destruct Ha|].
  eexists. split; [done|]. by apply (completed_transfer s c1 s1).
Qed.
End command.

(** The length of the data of a transfer. *)
Lemma ready_gather read m s n l m' : dma_ready read m s n l -> zlen (gather m' l) = n.
Proof.
  intros [_ _ _ <- Hpos (ds & Ht & _)]. unfold dma_table in Ht. destruct (_ =? DMASEL_ADMA2).
  - destruct (adma_table_total _ _ _ _ _ _ _ (Z.lt_le_incl _ _ Hpos) Ht) as [Hnn Hsum]. by rewrite gather_length.
  - injection Ht as <- <-. rewrite gather_length by (apply Forall_singleton; cbn; lia). cbn. lia.
Qed.
End path.

(** ** Blocks of a memory card *)

Section block.
Context (fetch_ok : Z -> bool).

(** The CMD_XFR_TYP word of a command with data. *)
Definition data_command (cmd : Z) : Z := (cmd .<< CMD_XFR_CMDINX_SHIFT) .| CMD_XFR_DPSEL.

(** C11: A block written to the card is read back.  The controller is set up to
    write a block by either kind of DMA; the command of a block write moves the
    block from the memory of the transfer into the card and changes nothing else of
    the medium.  Later, whatever has become of memory and of the controller, a block
    read at the same address brings the block into the memory of that transfer and
    changes no other memory; both commands complete. *)
Theorem usdhc_block_roundtrip s m l sd b arg :
  sdbus s = Some sd -> card_idle sd b -> reg s USDHC_CMD_ARG = arg -> 0 <= arg ->
  let addr := sd_req_get_address sd arg in 0 <= addr -> addr + blk_len sd <= size sd < 2 ^ 64 ->
  dma_ready fetch_ok false m s (blk_len sd) l ->
  exists s1 sd1, mcxn_usdhc_write fetch_ok (s, m) USDHC_CMD_XFR_TYP (data_command 24) = Some (s1, m) /\ completed s sd1 s1 /\
    card_idle sd1 (mem_store b addr (gather m l)) /\
    forall s2 m2 l2, sdbus s2 = Some sd1 -> reg s2 USDHC_CMD_ARG = arg -> dma_ready fetch_ok true m2 s2 (blk_len sd) l2 ->
    exists s3 m3 sd3, mcxn_usdhc_write fetch_ok (s2, m2) USDHC_CMD_XFR_TYP (data_command 17) = Some (s3, m3) /\ completed s2 sd3 s3 /\
      gather m3 l2 = gather m l /\ only_in l2 m2 m3.
Proof.
  intros Hbus Hidle Harg Hpos addr Ha Hsz Hrd.
  pose proof (ready_gather _ _ _ _ _ _ m Hrd) as Hlen.
  destruct (card_write_block sd b arg (gather m l) Hidle Hpos Ha Hsz Hlen)
    as (resp & sd0 & sd1 & Ed & Hr & Hok & Htk & Hidle1 & (Hbl & Hsize & Hocr)).
  destruct (dma_write_command fetch_ok s m (blk_len sd) (data_command 24) l sd resp sd0 eq_refl Hbus) with (c' := sd1) as (s1 & Ew & Hc);
    [rewrite Harg; exact Ed | lia | exact Hok | exact Hrd | exact Htk |].
  exists s1, sd1. split; [exact Ew|]. split; [exact Hc|]. split; [exact Hidle1|]. intros s2 m2 l2 Hbus2 Harg2 Hrd2.
  assert (Eaddr : sd_req_get_address sd1 arg = addr) by (unfold addr, sd_req_get_address, high_capacity; by rewrite Hocr).
  destruct (card_read_block sd1 _ arg Hidle1 Hpos) as (resp2 & sd2 & sd3 & Ed2 & Hr2 & Hok2 & Hsd & _ & _);
    [by rewrite Eaddr | by rewrite Eaddr, Hbl, Hsize|].
  assert (Hblk : mem_load (mem_store b addr (gather m l)) addr (blk_len sd) = gather m l) by (rewrite <- Hlen; apply mem_load_store).
  cbv zeta in Hsd. rewrite Eaddr, Hbl in Hsd. fold addr in Hsd. rewrite Hblk in Hsd.
  destruct (dma_read_command fetch_ok s2 m2 (blk_len sd) (data_command 17) l2 sd1 resp2 sd2 eq_refl Hbus2) with (bs := gather m l) (c' := sd3)
    as (s3 & m3 & Er & Hc3 & Hg & Ho);
    [rewrite Harg2; exact Ed2 | lia | exact Hok2 | exact Hrd2 | exact Hsd | exact Hlen |].
  by exists s3, m3, sd3.
Qed.
End block.

(** A controller set up for a block at 0x400 with the registers [cfg]. *)
Definition demo_host (c : SDState) (cfg : list (Z * Z)) : MCXNUSDHCState SDState :=
  foldl (fun s e => set_reg s e.1 e.2) (mcxn_usdhc_reset (mkUSDHC _ false [] (Some c) 0 0 false))
    ([(USDHC_CMD_ARG, 0x400); (USDHC_BLK_ATT, 512)] ++ cfg).
(** Two stretches of 200 and 312 bytes, in descriptors joined by a link. *)
Definition demo_memory : Z -> Z :=
  mem_store (mem_store (mem_store (fun a => u8 (7 * a)) 0x1000 (le_store 8 0x200000C80021)) 0x1008 (le_store 8 0x110000000031)) 0x1100 (le_store 8 0x300001380023).

Lemma usdhc_block_roundtrip_witness : let l := [(0x2000, 200); (0x3000, 312)] in
  let s := demo_host small_card [(USDHC_MIX_CTRL, MIX_DMAEN); (USDHC_PROT_CTRL, DMASEL_ADMA2 .<< PROT_DMASEL_SHIFT); (USDHC_ADMA_SYS_ADDR, 0x1000)] in
  exists s1 sd1, mcxn_usdhc_write (fun _ => true) (s, demo_memory) USDHC_CMD_XFR_TYP (data_command 24) = Some (s1, demo_memory) /\
    let s2 := demo_host sd1 [(USDHC_MIX_CTRL, MIX_DMAEN .| MIX_DTDSEL); (USDHC_DS_ADDR, 0x8000)] in
    exists s3 m3, mcxn_usdhc_write (fun _ => true) (s2, fun _ => 0) USDHC_CMD_XFR_TYP (data_command 17) = Some (s3, m3) /\
      mem_load m3 0x8000 512 = gather demo_memory l.
Proof.
  destruct (usdhc_block_roundtrip (fun _ => true)
    (demo_host small_card [(USDHC_MIX_CTRL, MIX_DMAEN); (USDHC_PROT_CTRL, DMASEL_ADMA2 .<< PROT_DMASEL_SHIFT); (USDHC_ADMA_SYS_ADDR, 0x1000)])
    demo_memory [(0x2000, 200); (0x3000, 312)] small_card small_medium 0x400 eq_refl small_card_idle
    ltac:(vm_compute; reflexivity) ltac:(lia) ltac:(by vm_compute) ltac:(by vm_compute)) as (s1 & sd1 & Ew & _ & _ & Hread).
  - split; try (vm_compute; reflexivity). exists [0x1000; 0x1008; 0x1100]. split; [vm_compute; reflexivity | done].
  - exists s1, sd1. split; [exact Ew|]. cbv zeta.
    destruct (Hread (demo_host sd1 [(USDHC_MIX_CTRL, MIX_DMAEN .| MIX_DTDSEL); (USDHC_DS_ADDR, 0x8000)]) (fun _ => 0) [(0x8000, 512)]) as (s3 & m3 & sd3 & Er & _ & Hg & _).
    + reflexivity.
    + vm_compute; reflexivity.
    + split; try (vm_compute; reflexivity). exists []. split; [vm_compute; reflexivity|]. intros _. split; [|constructor]. by split; [constructor|].
    + exists s3, m3. split; [exact Er|]. cbn [gather flat_map fst snd] in Hg. by rewrite app_nil_r in Hg.
Defined.

(** ** Programmed I/O *)

Section pio.
Context {C : Type} `{SDStream C} (fetch_ok : Z -> bool).
Implicit Types s : MCXNUSDHCState C.

(** [k] reads of the buffer port. *)
Fixpoint port_reads (k : nat) s : option (list Z * MCXNUSDHCState C) :=
  match k with
  | O => Some ([], s)
  | S k => '(w, s) ← mcxn_usdhc_read s USDHC_DATA_BUFF_ACC_PORT; '(ws, s) ← port_reads k s; Some (w :: ws, s)
  end.

(** A transfer through the port with [left] words to go. *)
Record port_armed (read : bool) s (left : Z) : Prop := {
  pa_len : zlen (regs s) = 1024;
  pa_dir : data_read s = read;
  pa_pos : 0 <= data_pos s;
  pa_left : data_len s - data_pos s = 4 * left;
  pa_max : data_len s < 2 ^ 32;
}.

(** One word through the port. *)
Lemma port_word read s left c : port_armed read s left -> 0 < left -> let s' := usdhc_port_moved (s <| sdbus := Some c |>) in
  sdbus s' = Some c /\ reg s' USDHC_INT_STATUS = reg s USDHC_INT_STATUS .| (if left =? 1 then INT_TC else 0) /\
  (1 < left -> port_armed read s' (left - 1)).
Proof.
  intros [Hl Hd Hp Hlf Hm] Hpos. unfold usdhc_port_moved. cbv zeta. set (s1 := (s <| sdbus := Some c |>) <| data_pos := _ |>).
  assert (Ep : data_pos s1 = data_pos s + 4) by (cbn; apply wrap_id; lia). change (data_len s1) with (data_len s). rewrite Ep.
  destruct (Z.eqb_spec left 1) as [->|Hne].
  - rewrite (proj2 (Z.leb_le _ _)) by lia. split; [done|]. split; [|lia]. exact (usdhc_reg_set _ USDHC_INT_STATUS _ USDHC_INT_STATUS Hl ltac:(done) ltac:(done)).
  - rewrite (proj2 (Z.leb_gt _ _)) by lia. split; [done|]. split; [by rewrite Z.lor_0_r|]. intros _.
    split; [done | done | lia | change (data_len s1) with (data_len s); lia | done].
Qed.

Lemma port_reads_stream k : forall s left c bs c', port_armed true s left -> Z.of_nat k <= left -> sdbus s = Some c -> card_ok c -> sends c bs c' ->
  zlen bs = 4 * Z.of_nat k -> Forall (in_range 8) bs ->
  exists ws s', port_reads k s = Some (ws, s') /\ flat_map (le_store 4) ws = bs /\ sdbus s' = Some c' /\
    reg s' USDHC_INT_STATUS = reg s USDHC_INT_STATUS .| (if (0 <? left) && (left =? Z.of_nat k) then INT_TC else 0).
Proof.
  induction k as [|k IH]; intros s left c bs c' Ha Hk Hb Hok Hs Hbs Hr.
  { destruct bs; [|done]. inversion Hs; subst. exists [], s. split; [done|]. split; [done|]. split; [done|].
    replace ((0 <? left) && (left =? Z.of_nat 0)) with false by (zcases; lia || done). by rewrite Z.lor_0_r. }
  rewrite <- (take_drop 4 bs) in Hs, Hr. apply sends_app in Hs as (c1 & Hs1 & Hs2). apply Forall_app in Hr as [Hr1 Hr2].
  assert (Hl1 : length (take 4 bs) = 4%nat) by (rewrite length_take; lia).
  destruct (port_word true s left c1 Ha ltac:(lia)) as (Hb1 & Hi & Hnext). set (s1 := usdhc_port_moved (s <| sdbus := Some c1 |>)) in *.
  assert (E : mcxn_usdhc_read s USDHC_DATA_BUFF_ACC_PORT = Some (le_load (take 4 bs), s1)).
  { unfold mcxn_usdhc_read. change (USDHC_DATA_BUFF_ACC_PORT =? USDHC_PRES_STATE) with false.
    change (USDHC_DATA_BUFF_ACC_PORT =? USDHC_DATA_BUFF_ACC_PORT) with true. cbv iota zeta. destruct Ha as [_ Hdir Hp Hlf _].
    rewrite (proj2 (Z.eqb_neq (data_len s) 0)), Hdir by lia. cbn [negb orb]. by rewrite Hb, (bus_read c (take 4 bs) c1). }
  cbn [port_reads]. rewrite E. cbn [mbind option_bind].
  assert (Hw : le_store 4 (le_load (take 4 bs)) = take 4 bs) by (rewrite <- Hl1 at 1; by apply le_store_load).
  destruct (decide (k = 0%nat)) as [->|Hk0].
  - exists [le_load (take 4 bs)], s1. destruct (drop 4 bs) as [|x xs] eqn:Ed; [|apply (f_equal length) in Ed; rewrite length_drop in Ed; cbn in Ed; lia].
    inversion Hs2; subst. split; [done|]. cbn [flat_map]. rewrite app_nil_r. split; [by rewrite Hw, <- (take_drop 4 bs), Ed, app_nil_r, firstn_all2 by lia|].
    split; [done|]. rewrite Hi. do 2 f_equal. zcases; lia || done.
  - destruct (IH s1 (left - 1) c1 (drop 4 bs) c') as (ws & s' & -> & Hws & Hb' & Hi'); [apply Hnext; lia | lia | done | by apply (sends_ok c (take 4 bs)) | done | rewrite length_drop; lia | done|].
    exists (le_load (take 4 bs) :: ws), s'. split; [done|]. cbn [flat_map]. rewrite Hw, Hws, take_drop. split; [done|]. split; [done|].
    rewrite Hi', Hi, (proj2 (Z.eqb_neq left 1)), Z.lor_0_r by lia. do 2 f_equal. zcases; lia || done.
Qed.

Lemma answered_total s c1 s1 : answered s c1 s1 -> usdhc_total s1 = usdhc_total s /\ reg s1 USDHC_MIX_CTRL = reg s USDHC_MIX_CTRL.
Proof. intros [_ _ _ Hr]. unfold usdhc_total. by rewrite (Hr USDHC_BLK_ATT), (Hr USDHC_MIX_CTRL). Qed.

Lemma total_range s : 0 <= usdhc_total s < 2 ^ 32.
Proof.
  unfold usdhc_total. cbv zeta. change BLK_BLKSIZE_MASK with (Z.ones 13). change 0xFFFF with (Z.ones 16). rewrite !Z.land_ones by lia.
  pose proof (Z.mod_pos_bound (reg s USDHC_BLK_ATT) (2 ^ 13) ltac:(lia)).
  pose proof (Z.mod_pos_bound (reg s USDHC_BLK_ATT .>> BLK_BLKCNT_SHIFT) (2 ^ 16) ltac:(lia)). destruct (_ || _); nia.
Qed.

(** The command of a transfer through the port arms it. *)
Lemma pio_arm s m xt c resp c1 k : zlen (regs s) = 1024 -> sdbus s = Some c ->
  do_command c ((u32 xt .>> CMD_XFR_CMDINX_SHIFT) .& CMD_XFR_CMDINX_MASK) (reg s USDHC_CMD_ARG) = Some (resp, c1) -> zlen resp = 4 \/ zlen resp = 16 ->
  flag (u32 xt) CMD_XFR_DPSEL = true -> flag (reg s USDHC_MIX_CTRL) MIX_DMAEN = false -> usdhc_total s = 4 * k -> 0 < k ->
  exists s1, mcxn_usdhc_write fetch_ok (s, m) USDHC_CMD_XFR_TYP xt = Some (s1, m) /\ sdbus s1 = Some c1 /\
    reg s1 USDHC_INT_STATUS = reg s USDHC_INT_STATUS .| INT_CC /\ port_armed (flag (reg s USDHC_MIX_CTRL) MIX_DTDSEL) s1 k.
Proof.
  intros Hl Hb Hcmd Hr Hdp Hen Ht Hk. destruct (answer fetch_ok s xt m c resp c1 Hl Hb Hcmd Hr) as (s1 & Ha & ->). rewrite Hdp.
  destruct (answered_total _ _ _ Ha) as [Et Em]. destruct Ha as [Hb1 Hl1 Hi1 _]. unfold mcxn_usdhc_do_data. cbv zeta.
  pose proof (total_range s). rewrite Et, Em, Hen, Ht, (proj2 (Z.eqb_neq (4 * k) 0)) by lia. cbn [negb mbind option_bind].
  eexists. split; [done|]. split; [done|]. split; [done|]. split; cbn; [done | done | lia | rewrite wrap_id by lia; lia | apply wrap_range; lia].
Qed.

(** C14: Reading through the buffer port gives the card's stream.  After the
    command of a read of [k] words without DMA, the first [j] reads of the port
    return the first words the card sends, and the transfer is complete with the last
    one and not before. *)
Theorem usdhc_pio_read s m xt c resp c1 k bs c' : zlen (regs s) = 1024 -> sdbus s = Some c ->
  do_command c ((u32 xt .>> CMD_XFR_CMDINX_SHIFT) .& CMD_XFR_CMDINX_MASK) (reg s USDHC_CMD_ARG) = Some (resp, c1) -> zlen resp = 4 \/ zlen resp = 16 ->
  flag (u32 xt) CMD_XFR_DPSEL = true -> flag (reg s USDHC_MIX_CTRL) MIX_DMAEN = false -> flag (reg s USDHC_MIX_CTRL) MIX_DTDSEL = true ->
  usdhc_total s = 4 * Z.of_nat k -> (0 < k)%nat -> card_ok c1 -> sends c1 bs c' -> zlen bs = usdhc_total s -> Forall (in_range 8) bs ->
  exists s1, mcxn_usdhc_write fetch_ok (s, m) USDHC_CMD_XFR_TYP xt = Some (s1, m) /\
    forall j, (j <= k)%nat -> exists ws s2, port_reads j s1 = Some (ws, s2) /\ flat_map (le_store 4) ws = take (4 * j) bs /\
      reg s2 USDHC_INT_STATUS = reg s USDHC_INT_STATUS .| INT_CC .| (if (j =? k)%nat then INT_TC else 0).
Proof.
  intros Hl Hb Hcmd Hr Hdp Hen Hdir Ht Hk Hok Hs Hbs Hby.
  destruct (pio_arm s m xt c resp c1 (Z.of_nat k) Hl Hb Hcmd Hr Hdp Hen Ht ltac:(lia)) as (s1 & E & Hb1 & Hi & Ha). rewrite Hdir in Ha.
  exists s1. split; [done|]. intros j Hj. rewrite <- (take_drop (4 * j) bs) in Hs, Hby. apply sends_app in Hs as (c2 & Hs & _).
  apply Forall_app in Hby as [Hby _].
  destruct (port_reads_stream j s1 (Z.of_nat k) c1 (take (4 * j) bs) c2 Ha ltac:(lia) Hb1 Hok Hs) as (ws & s2 & E2 & Hws & _ & Hi2); [rewrite length_take; lia | done|].
  exists ws, s2. split; [done|]. split; [done|]. rewrite Hi2, Hi. f_equal. destruct (Nat.eqb_spec j k); zcases; lia || done.
Qed.

(** ** The empty slot, and the interrupt line *)

(** With no card the command times out, and nothing but the status, the command
    register and the line changes. *)
Theorem usdhc_empty_slot s m xt : zlen (regs s) = 1024 -> sdbus s = None ->
  exists s', mcxn_usdhc_write fetch_ok (s, m) USDHC_CMD_XFR_TYP xt = Some (s', m) /\
    reg s' USDHC_INT_STATUS = reg s USDHC_INT_STATUS .| INT_CTOE /\
    (forall o, 0 <= o .>> 2 -> o .>> 2 <> 3 -> o .>> 2 <> 12 -> reg s' o = reg s o) /\ data_len s' = data_len s /\
    mcxn_usdhc_read s' USDHC_PRES_STATE = Some (PRES_SDSTB, s').
Proof.
  intros Hl Hb. rewrite write_command. unfold mcxn_usdhc_send_command. change (sdbus (set_reg s USDHC_CMD_XFR_TYP (u32 xt))) with (sdbus s). rewrite Hb.
  set (s0 := (set_reg s USDHC_CMD_XFR_TYP (u32 xt)) <| sdbus := None |>). cbn [sdbus_do_command mbind option_bind length Z.of_nat Z.eqb].
  assert (Hl0 : zlen (regs s0) = 1024) by (etrans; [exact (usdhc_length_set s _ _) | exact Hl]).
  assert (Hreg0 : forall o, 0 <= o .>> 2 -> o .>> 2 <> 3 -> reg s0 o = reg s o).
  { intros o Ho H3. etrans; [exact (usdhc_reg_set s USDHC_CMD_XFR_TYP (u32 xt) o Hl ltac:(done) Ho)|]. change (USDHC_CMD_XFR_TYP .>> 2) with 3. by rewrite (proj2 (Z.eqb_neq 3 _)) by lia. }
  eexists. split; [done|]. split; [|split; [|split; [done | done]]].
  - change (reg (raise_int s0 INT_CTOE) USDHC_INT_STATUS = reg s USDHC_INT_STATUS .| INT_CTOE). unfold raise_int.
    rewrite usdhc_reg_set, Z.eqb_refl by done. by rewrite (Hreg0 USDHC_INT_STATUS).
  - intros o Ho H3 H12. change (reg (raise_int s0 INT_CTOE) o = reg s o). unfold raise_int. rewrite usdhc_reg_set by done. change (USDHC_INT_STATUS .>> 2) with 12.
    rewrite (proj2 (Z.eqb_neq 12 _)) by lia. by apply Hreg0.
Qed.
End pio.

Section line.
Context {C : Type} `{SDCardClass C} (fetch_ok : Z -> bool).
Implicit Types (s : MCXNUSDHCState C) (b : MCXNUSDHCState C * (Z -> Z)).

(** The line is the status register under the signal enables. *)
Definition line_ok s : Prop := zlen (regs s) = 1024 /\ irq s = flag (reg s USDHC_INT_STATUS) (reg s USDHC_INT_SIGNAL_EN).

Lemma line_update s : zlen (regs s) = 1024 -> line_ok (mcxn_usdhc_update_irq s).
Proof. by split. Qed.

Lemma run_regs fuel read : forall addr len moved total b n b', usdhc_run fuel read addr len moved total b = Some (n, b') -> regs b'.1 = regs b.1.
Proof.
  induction fuel as [|fuel IH]; intros addr len moved total b n b'; cbn [usdhc_run]; destruct (_ && _); try done; try (by intros [= _ <-]).
  destruct (usdhc_move _ _ _ _) as [b1|] eqn:E; [|done]. cbn [mbind option_bind]. intros E1. rewrite (IH _ _ _ _ _ _ _ E1). clear E1.
  destruct b as [s m]. unfold usdhc_move in E. destruct read.
  - destruct (sdbus_read_data _ _) as [[bs bus]|]; [|done]. by injection E as <-.
  - destruct (sdbus_write_data _ _) as [bus|]; [|done]. by injection E as <-.
Qed.

Lemma walk_regs guard read total : forall desc moved b b', usdhc_adma2_walk fetch_ok guard read total desc moved b = Some b' -> zlen (regs b'.1) = zlen (regs b.1).
Proof.
  assert (Hset : forall s o v, zlen (regs (set_reg s o v)) = zlen (regs s)) by apply usdhc_length_set.
  induction guard as [|guard IH]; intros desc moved b b'; cbn [usdhc_adma2_walk].
  { destruct (_ <? _); intros [= <-]; apply Hset. }
  destruct (_ <? _); [|intros [= <-]; apply Hset]. destruct (_ || _); [intros [= <-]; apply Hset|]. destruct (_ =? ADMA_ACT_LINK); [apply IH|].
  destruct (if _ =? ADMA_ACT_TRAN then _ else _) as [[n b1]|] eqn:E; [|done]. cbn [mbind option_bind].
  assert (Eb : regs b1.1 = regs b.1) by (destruct (_ =? ADMA_ACT_TRAN); [exact (run_regs _ _ _ _ _ _ _ _ _ E) | by injection E as _ <-]).
  destruct (flag _ ADMA_END); [intros [= <-]; cbn [fst]; by rewrite Hset, Eb | intros E1; by rewrite (IH _ _ _ _ E1), Eb].
Qed.

Lemma do_data_regs b b' : mcxn_usdhc_do_data fetch_ok b = Some b' -> zlen (regs b'.1) = zlen (regs b.1).
Proof.
  destruct b as [s m]. unfold mcxn_usdhc_do_data. cbv zeta. destruct (_ =? 0); [intros [= <-]; apply usdhc_length_set|].
  destruct (negb _); [by intros [= <-]|]. destruct (_ =? DMASEL_ADMA2).
  - unfold mcxn_usdhc_do_adma2. destruct (usdhc_adma2_walk _ _ _ _ _ _ _) as [b1|] eqn:E; [|done]. intros [= <-].
    etrans; [apply usdhc_length_set | exact (walk_regs _ _ _ _ _ _ _ E)].
  - destruct (usdhc_run _ _ _ _ _ _ _) as [[n b1]|] eqn:E; [|done]. intros [= <-].
    etrans; [apply usdhc_length_set|]. etrans; [apply usdhc_length_set|]. cbn [fst]. by rewrite (run_regs _ _ _ _ _ _ _ _ _ E).
Qed.

Lemma command_line b xt b' : zlen (regs b.1) = 1024 -> mcxn_usdhc_send_command fetch_ok b xt = Some b' -> line_ok b'.1.
Proof.
  destruct b as [s m]. unfold mcxn_usdhc_send_command. cbn [fst]. intros Hl. destruct (sdbus_do_command _ _ _) as [[resp bus]|]; [|done].
  cbn [mbind option_bind]. cbv zeta.
  assert (Hdone : forall r0 r1 r2 r3 b', ('(s, m) ← (if flag xt CMD_XFR_DPSEL then mcxn_usdhc_do_data fetch_ok (raise_int (set_responses (s <| sdbus := bus |>) r0 r1 r2 r3) INT_CC, m)
    else Some (raise_int (set_responses (s <| sdbus := bus |>) r0 r1 r2 r3) INT_CC, m)); Some (mcxn_usdhc_update_irq s, m)) = Some b' -> line_ok b'.1).
  { intros r0 r1 r2 r3 b2. set (s0 := raise_int _ INT_CC). assert (Hl0 : zlen (regs s0) = 1024) by (unfold s0, raise_int, set_responses; by rewrite !usdhc_length_set).
    destruct (if flag xt CMD_XFR_DPSEL then _ else _) as [[s1 m1]|] eqn:E; [|done]. intros [= <-]. apply line_update.
    destruct (flag xt CMD_XFR_DPSEL); [rewrite <- Hl0; exact (do_data_regs _ _ E) | by injection E as <- _]. }
  destruct (_ =? 4); [apply Hdone|]. destruct (_ =? 16); [apply Hdone|]. intros [= <-]. apply line_update. unfold raise_int. by rewrite usdhc_length_set.
Qed.

(** A word write to a register that is neither. *)
Lemma line_set s o v : line_ok s -> 0 <= o < MCXN_USDHC_SIZE -> o .& 3 = 0 -> o <> USDHC_INT_STATUS -> o <> USDHC_INT_SIGNAL_EN -> line_ok (set_reg s o v).
Proof.
  intros [Hl Hi] Ho Ha H1 H2. unfold MCXN_USDHC_SIZE in Ho. change 3 with (Z.ones 2) in Ha. rewrite Z.land_ones in Ha by lia.
  unfold USDHC_INT_STATUS, USDHC_INT_SIGNAL_EN in *. assert (Hs : o .>> 2 = o / 4) by (by rewrite Z.shiftr_div_pow2 by lia).
  split; [by rewrite usdhc_length_set|]. change (irq s = flag (reg (set_reg s o v) USDHC_INT_STATUS) (reg (set_reg s o v) USDHC_INT_SIGNAL_EN)).
  rewrite !usdhc_reg_set by (rewrite ?Hs; done || dlia). change (USDHC_INT_STATUS .>> 2) with 12. change (USDHC_INT_SIGNAL_EN .>> 2) with 14.
  rewrite Hs, !(proj2 (Z.eqb_neq (o / 4) _)) by (change (2 ^ 2) with 4 in Ha; dlia). done.
Qed.

Lemma port_line s : line_ok s -> line_ok (usdhc_port_moved s).
Proof. intros [Hl Hi]. unfold usdhc_port_moved. cbv zeta. destruct (_ <=? _); [|by split]. apply line_update. unfold raise_int. by rewrite usdhc_length_set. Qed.

(** What the guest and migration do: word accesses, and a restored state. *)
Inductive usdhc_step : MCXNUSDHCState C * (Z -> Z) -> MCXNUSDHCState C * (Z -> Z) -> Prop :=
  | step_read s m off v s' : mcxn_usdhc_read s off = Some (v, s') -> usdhc_step (s, m) (s', m)
  | step_write b off v b' : 0 <= off -> off .& 3 = 0 -> mcxn_usdhc_write fetch_ok b off v = Some b' -> usdhc_step b b'
  | step_memory s m m' : usdhc_step (s, m) (s, m')
  | step_card s m bus : usdhc_step (s, m) (s <| sdbus := bus |>, m)
  | step_migrate s m fresh : usdhc_step (s, m) (mcxn_usdhc_post_load (usdhc_vmstate s fresh), m).

Lemma read_line s off v s' : line_ok s -> mcxn_usdhc_read s off = Some (v, s') -> line_ok s'.
Proof.
  intros Hs. unfold mcxn_usdhc_read. cbv zeta. repeat (destruct (off =? _); [|]); try (intros [= _ <-]; exact Hs).
  destruct (_ || _); [by intros [= _ <-]|]. destruct (sdbus_read_data _ _) as [[w bus]|]; [|done]. intros [= _ <-]. by apply port_line.
Qed.

Lemma write_line b off v b' : line_ok b.1 -> 0 <= off -> off .& 3 = 0 -> mcxn_usdhc_write fetch_ok b off v = Some b' -> line_ok b'.1.
Proof.
  destruct b as [s m]. cbn [fst]. intros Hs Ho Ha. unfold mcxn_usdhc_write. cbv zeta. destruct (Z.leb_spec MCXN_USDHC_SIZE off); [by intros [= <-]|].
  destruct (usdhc_read_only off); [by intros [= <-]|]. pose proof (usdhc_length_set s) as Hlen. pose proof (proj1 Hs) as Hl.
  destruct (Z.eqb_spec off USDHC_SYS_CTRL) as [->|].
  { intros [= <-]. cbn [fst]. destruct (flag (u32 v) _); [apply line_update; by rewrite !usdhc_length_set | by apply line_set]. }
  destruct (Z.eqb_spec off USDHC_INT_STATUS) as [->|]; [intros [= <-]; apply line_update; by rewrite Hlen|].
  destruct (Z.eqb_spec off USDHC_CMD_XFR_TYP) as [->|]; [apply command_line; cbn [fst]; by rewrite Hlen|].
  destruct (Z.eqb_spec off USDHC_DATA_BUFF_ACC_PORT) as [->|].
  { destruct (_ || _); [by intros [= <-]|]. destruct (sdbus_write_data _ _) as [bus|]; [|done]. intros [= <-]. by apply port_line. }
  destruct (Z.eqb_spec off USDHC_INT_SIGNAL_EN) as [->|]; intros [= <-]; [apply line_update; by rewrite Hlen | apply line_set; done || lia].
Qed.

(** The interrupt line follows the status register.  However the guest accesses
    the registers by words, whatever card is put into the slot or taken out, and
    across migration, the line is high when an enabled status bit is set and only then. *)
Theorem usdhc_line b b' : line_ok b.1 -> rtc usdhc_step b b' -> irq b'.1 = flag (reg b'.1 USDHC_INT_STATUS) (reg b'.1 USDHC_INT_SIGNAL_EN).
Proof.
  intros Hb Hrun. enough (line_ok b'.1) as [_ Hi]; [exact Hi|]. revert Hrun Hb. apply (rtc_invariant usdhc_step (fun b => line_ok b.1)).
  intros b1 b2 Hst Hl. inversion Hst; subst; cbn [fst] in *; [by eapply read_line | by eapply write_line | done | by destruct Hl | by apply line_update; destruct Hl].
Qed.
End line.

Lemma usdhc_pio_read_witness : let s := demo_host small_card [(USDHC_MIX_CTRL, MIX_DTDSEL)] in
  exists s1, mcxn_usdhc_write (fun _ => true) (s, fun _ => 0) USDHC_CMD_XFR_TYP (data_command 17) = Some (s1, fun _ => 0) /\
    exists ws s2, port_reads 128 s1 = Some (ws, s2) /\ flat_map (le_store 4) ws = mem_load small_medium 0x400 512 /\
      reg s2 USDHC_INT_STATUS = INT_CC .| INT_TC.
Proof.
  destruct (card_read_block small_card small_medium 0x400 small_card_idle ltac:(lia))
    as (resp & sd1 & sd2 & Ed & Hr & Hok & Hs & _); [by vm_compute..|].
  cbv zeta. destruct (usdhc_pio_read (fun _ => true) (demo_host small_card [(USDHC_MIX_CTRL, MIX_DTDSEL)]) (fun _ => 0) (data_command 17) small_card resp sd1 128
    (mem_load small_medium 0x400 512) sd2) as (s1 & Ew & Hrd).
  1, 2, 5, 6, 7, 8, 12: vm_compute; reflexivity.
  - exact Ed.
  - left. lia.
  - lia.
  - exact Hok.
  - exact Hs.
  - apply Forall_map, Forall_true. intros a. unfold in_range, small_medium. pose proof (Z.mod_pos_bound a 251). lia.
  - exists s1. split; [exact Ew|]. destruct (Hrd 128%nat ltac:(lia)) as (ws & s2 & E & Hws & Hi). exists ws, s2. split; [exact E|]. split; [|exact Hi].
    etrans; [exact Hws|]. by vm_compute.
Defined.

Lemma usdhc_line_witness : let s := demo_host small_card [] in
  exists b, rtc (usdhc_step (fun _ => true)) (s, fun _ => 0) b /\ reg b.1 USDHC_INT_STATUS = INT_CTOE /\ irq b.1 = flag (reg b.1 USDHC_INT_STATUS) (reg b.1 USDHC_INT_SIGNAL_EN).
Proof.
  set (s := demo_host small_card []). cbv zeta.
  destruct (mcxn_usdhc_write (fun _ => true) (s <| sdbus := None |>, fun _ => 0) USDHC_INT_SIGNAL_EN INT_CTOE) as [b1|] eqn:E1; [|done].
  destruct (mcxn_usdhc_write (fun _ => true) b1 USDHC_CMD_XFR_TYP 0) as [b2|] eqn:E2; [|injection E1 as <-; vm_compute in E2; discriminate E2].
  assert (Hrun : rtc (usdhc_step (fun _ => true)) (s, fun _ => 0) b2).
  { eapply rtc_l; [apply (step_card _ _ _ None)|]. eapply rtc_l; [by apply (step_write _ _ USDHC_INT_SIGNAL_EN INT_CTOE)|].
    apply rtc_once. by apply (step_write _ _ USDHC_CMD_XFR_TYP 0). }
  exists b2. split; [exact Hrun|]. split.
  - injection E1 as <-. injection E2 as <-. vm_compute. reflexivity.
  - apply (usdhc_line (fun _ => true) (s, fun _ => 0)); [split; vm_compute; reflexivity | exact Hrun].
Defined.

(** ** Departures from the code's intent *)

(** A transfer stopped by a bad descriptor is reported as complete as well. *)
Theorem usdhc_dma_error_completes {C} `{SDCardClass C} s m : flag (reg s USDHC_MIX_CTRL) MIX_DMAEN = true -> 0 < usdhc_total s -> zlen (regs s) = 1024 ->
  (reg s USDHC_PROT_CTRL .& PROT_DMASEL_MASK) .>> PROT_DMASEL_SHIFT = DMASEL_ADMA2 -> flag (adma_attr (adma_raw m (reg s USDHC_ADMA_SYS_ADDR))) ADMA_VALID = false ->
  exists s', mcxn_usdhc_do_data (C := C) (fun _ => true) (s, m) = Some (s', m) /\ sdbus s' = sdbus s /\
    flag (reg s' USDHC_INT_STATUS) INT_DMAE = true /\ flag (reg s' USDHC_INT_STATUS) INT_TC = true.
Proof.
  intros Hen Ht Hl Hsel Hv. unfold mcxn_usdhc_do_data. cbv zeta. rewrite Hen, Hsel, (proj2 (Z.eqb_neq (usdhc_total s) 0)) by lia. cbn [negb Z.eqb Pos.eqb DMASEL_ADMA2].
  unfold mcxn_usdhc_do_adma2. change ADMA_GUARD with (S (Z.to_nat 4095)). cbn [usdhc_adma2_walk fst snd]. rewrite (proj2 (Z.ltb_lt 0 (usdhc_total s))) by lia.
  rewrite Hv. cbn [negb orb mbind option_bind fst snd]. eexists. split; [done|]. split; [done|]. unfold raise_int.
  rewrite !usdhc_reg_set, !Z.eqb_refl, !flag_lor by (rewrite ?usdhc_length_set; done). by rewrite !orb_true_r.
Qed.

(** A byte written into the status register sets bits instead of clearing them,
    and the line is left behind. *)
Theorem usdhc_byte_write_sets_status : let s := demo_host small_card [(USDHC_INT_SIGNAL_EN, INT_TC)] in
  exists s', mcxn_usdhc_write (fun _ => true) (s, fun _ => 0) (USDHC_INT_STATUS + 1) 2 = Some (s', fun _ => 0) /\
    reg s USDHC_INT_STATUS = 0 /\ reg s' USDHC_INT_STATUS = INT_TC /\ irq s' = false.
Proof. eexists. split; [reflexivity|]. vm_compute. done. Qed.

(** Reset clears the status and leaves the line high. *)
Theorem usdhc_reset_keeps_line {C} (s : MCXNUSDHCState C) : irq s = true ->
  reg (mcxn_usdhc_reset s) USDHC_INT_STATUS = 0 /\ irq (mcxn_usdhc_reset s) = true.
Proof. intros Hi. split; [vm_compute; reflexivity | exact Hi]. Qed.

(** A software reset of the data line leaves a transfer through the port armed. *)
Theorem usdhc_data_reset_keeps_transfer {C} `{SDCardClass C} (s : MCXNUSDHCState C) m :
  exists s', mcxn_usdhc_write (fun _ => true) (s, m) USDHC_SYS_CTRL SYS_CTRL_RSTD = Some (s', m) /\ data_len s' = data_len s /\ data_read s' = data_read s.
Proof. eexists. split; [reflexivity | done]. Qed.
