(* ===== verification/FlexComm.v ===== *)
(** * FlexComm: the LPUART / LPSPI / LPI2C serial block

    Model of [hw/char/mcxn_lpuart.c]: one LP_FLEXCOMM whose register window
    decodes as LPUART, LPSPI or LPI2C by PSELID, with one interrupt line and two
    DMA request lines.  The calls on the character backend are a trace; the I2C
    and SSI buses are those of [I2c] and [Ssi], with any devices on them. *)
From S2P Require Import Prelude I2c At24c Ssi.

Definition LPUART_VERID : Z := 0x00.
Definition LPUART_PARAM : Z := 0x04.
Definition LPUART_GLOBAL : Z := 0x08.
Definition LPUART_PINCFG : Z := 0x0C.
Definition LPUART_BAUD : Z := 0x10.
Definition LPUART_STAT : Z := 0x14.
Definition LPUART_CTRL : Z := 0x18.
Definition LPUART_DATA : Z := 0x1C.
Definition LPUART_MATCH : Z := 0x20.
Definition LPUART_MODIR : Z := 0x24.
Definition LPUART_FIFO : Z := 0x28.
Definition LPUART_WATER : Z := 0x2C.
Definition LPUART_DATARO : Z := 0x30.
Definition LPUART_MCR : Z := 0x40.
Definition LPUART_MSR : Z := 0x44.
Definition LPUART_REIR : Z := 0x48.
Definition LPUART_TEIR : Z := 0x4C.
Definition LPUART_HDCR : Z := 0x50.
Definition LPUART_TOCR : Z := 0x58.
Definition LPUART_TOSR : Z := 0x5C.
Definition LPUART_TIMEOUT0 : Z := 0x60.
Definition LPUART_TIMEOUT3 : Z := 0x6C.
Definition LPFLEXCOMM_ISTAT : Z := 0xFF4.
Definition LPFLEXCOMM_PSELID : Z := 0xFF8.
Definition LPI2C_WINDOW : Z := 0x800.
Definition LPUART_BAUD_RESET : Z := 0x0F000004.
Definition LPUART_TOSR_RESET : Z := 0x0000000F.
Definition LPSPI_TCR_RESET : Z := 0x0000001F.
Definition LPUART_FIFO_SIZES : Z := 0x00000022.
Definition LPUART_FIFO_SIZES_MASK : Z := 0x00000077.
Definition LPUART_DATA_RXEMPT : Z := 0x00001000.
Definition STAT_OR : Z := 0x00080000.
Definition STAT_RDRF : Z := 0x00200000.
Definition STAT_TC : Z := 0x00400000.
Definition STAT_TDRE : Z := 0x00800000.
Definition CTRL_RE : Z := 0x00040000.
Definition CTRL_TE : Z := 0x00080000.
Definition CTRL_RIE : Z := 0x00200000.
Definition CTRL_TCIE : Z := 0x00400000.
Definition CTRL_TIE : Z := 0x00800000.
Definition FIFO_RXFE : Z := 0x00000008.
Definition FIFO_RXFLUSH : Z := 0x00004000.
Definition FIFO_TXFLUSH : Z := 0x00008000.
Definition FIFO_RXEMPT : Z := 0x00400000.
Definition FIFO_TXEMPT : Z := 0x00800000.
Definition GLOBAL_RST : Z := 0x00000002.
Definition PSELID_PERSEL : Z := 0x7.
Definition PSELID_LOCK : Z := 0x8.
Definition PSELID_PRESENT_BITS : Z := 0x10 .| 0x20 .| 0x40.
Definition PSELID_ID_VALUE : Z := 0x00103000.
Definition PERSEL_LPSPI : Z := 2.
Definition PERSEL_LPI2C : Z := 3.
Definition LPUART_VERID_VALUE : Z := 0x04010003.
Definition LPUART_PARAM_FIFO_EXP : Z := 3.
Definition LPUART_PARAM_VALUE : Z := u32 (LPUART_PARAM_FIFO_EXP .<< 8) .| LPUART_PARAM_FIFO_EXP.
Definition ISTAT_UARTTX : Z := 0x1.
Definition ISTAT_UARTRX : Z := 0x2.
Definition ISTAT_SPI : Z := 0x4.
Definition ISTAT_I2CM : Z := 0x10.
Definition LPSPI_VERID : Z := 0x00.
Definition LPSPI_PARAM : Z := 0x04.
Definition LPSPI_CR : Z := 0x10.
Definition LPSPI_SR : Z := 0x14.
Definition LPSPI_IER : Z := 0x18.
Definition LPSPI_DER : Z := 0x1C.
Definition LPSPI_CFGR0 : Z := 0x20.
Definition LPSPI_CFGR1 : Z := 0x24.
Definition LPSPI_CCR : Z := 0x40.
Definition LPSPI_CCR1 : Z := 0x44.
Definition LPSPI_FCR : Z := 0x58.
Definition LPSPI_FSR : Z := 0x5C.
Definition LPSPI_TCR : Z := 0x60.
Definition LPSPI_TDR : Z := 0x64.
Definition LPSPI_RSR : Z := 0x70.
Definition LPSPI_RDR : Z := 0x74.
Definition LPSPI_RDROR : Z := 0x78.
Definition LPSPI_CR_MEN : Z := 0x1.
Definition LPSPI_CR_RST : Z := 0x2.
Definition LPSPI_CR_RTF : Z := 0x100.
Definition LPSPI_CR_RRF : Z := 0x200.
Definition LPSPI_SR_TDF : Z := 0x1.
Definition LPSPI_SR_RDF : Z := 0x2.
Definition LPSPI_SR_WCF : Z := 0x100.
Definition LPSPI_SR_FCF : Z := 0x200.
Definition LPSPI_SR_TCF : Z := 0x400.
Definition LPSPI_SR_W1C : Z := LPSPI_SR_WCF .| LPSPI_SR_FCF .| LPSPI_SR_TCF.
Definition LPSPI_TCR_FRAMESZ : Z := 0xFFF.
Definition LPSPI_TCR_RXMSK : Z := 0x80000.
Definition LPSPI_TCR_CONT : Z := 0x200000.
Definition LPSPI_RSR_RXEMPTY : Z := 0x2.
Definition LPSPI_VERID_VALUE : Z := 0x01010004.
Definition LPSPI_PARAM_VALUE : Z := 0x00040000.
Definition LPI2C_VERID : Z := 0x00.
Definition LPI2C_PARAM : Z := 0x04.
Definition LPI2C_MCR : Z := 0x10.
Definition LPI2C_MSR : Z := 0x14.
Definition LPI2C_MIER : Z := 0x18.
Definition LPI2C_MDER : Z := 0x1C.
Definition LPI2C_MCFGR1 : Z := 0x24.
Definition LPI2C_MFSR : Z := 0x5C.
Definition LPI2C_MTDR : Z := 0x60.
Definition LPI2C_MRDR : Z := 0x70.
Definition LPI2C_MRDROR : Z := 0x78.
Definition LPI2C_SASR : Z := 0x150.
Definition LPI2C_SRDR : Z := 0x170.
Definition LPI2C_SRDROR : Z := 0x178.
Definition LPI2C_MCR_MEN : Z := 0x1.
Definition LPI2C_MCR_RST : Z := 0x2.
Definition LPI2C_MCR_RTF : Z := 0x100.
Definition LPI2C_MCR_RRF : Z := 0x200.
Definition LPI2C_MSR_TDF : Z := 0x1.
Definition LPI2C_MSR_RDF : Z := 0x2.
Definition LPI2C_MSR_EPF : Z := 0x100.
Definition LPI2C_MSR_SDF : Z := 0x200.
Definition LPI2C_MSR_NDF : Z := 0x400.
Definition LPI2C_MSR_MBF : Z := 0x1000000.
Definition LPI2C_MSR_BBF : Z := 0x2000000.
Definition LPI2C_MSR_W1C : Z := LPI2C_MSR_EPF .| LPI2C_MSR_SDF .| LPI2C_MSR_NDF.
Definition LPI2C_MRDR_RXEMPTY : Z := 0x4000.
Definition LPI2C_MTDR_CMD_SHIFT : Z := 8.
Definition LPI2C_MTDR_CMD_MASK : Z := 0x700.
Definition LPI2C_MTDR_DATA_MASK : Z := 0xFF.
Definition LPI2C_CMD_TXDATA : Z := 0.
Definition LPI2C_CMD_RXDATA : Z := 1.
Definition LPI2C_CMD_STOP : Z := 2.
Definition LPI2C_CMD_START : Z := 4.
Definition LPI2C_VERID_VALUE : Z := 0x01000003.
Definition LPI2C_PARAM_VALUE : Z := 0x00000000.
Definition BAUD_RDMAE : Z := 0x00200000.
Definition BAUD_TDMAE : Z := 0x00800000.
Definition DER_TDDE : Z := 0x1.
Definition DER_RDDE : Z := 0x2.
Definition MCXN_LPUART_FIFO_DEPTH : Z := 8.

(** A call on the character backend: a byte sent, or the notice that there is
    room for input again. *)
Inductive chr_call := ChrWrite (b : Z) | ChrAccept.

Record MCXNLPUARTState {D P : Type} := mkLPUART {
  irq : bool;
  chr : list chr_call;
  dma_req_tx : bool; dma_req_rx : bool;       (* the levels driven on the lines *)
  dma_tx_level : bool; dma_rx_level : bool;
  spi_bus : option (list (SSIPeripheral P));
  spi_cs : option nat;                        (* the child of the bus that the chip select is wired to *)
  global : Z; pincfg : Z; baud : Z; ctrl : Z; match_ : Z; modir : Z; fifo : Z; water : Z; pselid : Z; mcr : Z;
  reir : Z; teir : Z; hdcr : Z; tocr : Z; tosr : Z;
  timeout : list Z;                           (* timeout[4] *)
  rx_fifo : list Z;                           (* uint8_t rx_fifo[MCXN_LPUART_FIFO_DEPTH] *)
  rx_head : Z; rx_count : Z;
  stat_or : Z;
  spi_cr : Z; spi_sr : Z; spi_ier : Z; spi_cfgr0 : Z; spi_cfgr1 : Z; spi_ccr : Z; spi_fcr : Z; spi_tcr : Z; spi_der : Z; spi_rdr : Z;
  spi_rx_full : bool; spi_cs_asserted : bool;
  i2c_mcr : Z; i2c_msr : Z; i2c_mier : Z; i2c_mcfgr1 : Z; i2c_mder : Z; i2c_mrdr : Z;
  i2c_rx_full : bool; i2c_busy : bool;
  i2c_rx_pending : Z;
  i2c_bus : I2CBus D
}.
Arguments MCXNLPUARTState D P : clear implicits.
#[export] Instance lpuart_settable D P : Settable (MCXNLPUARTState D P) := fun s =>
  mkLPUART _ _ (irq s) (chr s) (dma_req_tx s) (dma_req_rx s) (dma_tx_level s) (dma_rx_level s) (spi_bus s) (spi_cs s)
    (global s) (pincfg s) (baud s) (ctrl s) (match_ s) (modir s) (fifo s) (water s) (pselid s) (mcr s)
    (reir s) (teir s) (hdcr s) (tocr s) (tosr s) (timeout s) (rx_fifo s) (rx_head s) (rx_count s) (stat_or s)
    (spi_cr s) (spi_sr s) (spi_ier s) (spi_cfgr0 s) (spi_cfgr1 s) (spi_ccr s) (spi_fcr s) (spi_tcr s) (spi_der s) (spi_rdr s)
    (spi_rx_full s) (spi_cs_asserted s) (i2c_mcr s) (i2c_msr s) (i2c_mier s) (i2c_mcfgr1 s) (i2c_mder s) (i2c_mrdr s)
    (i2c_rx_full s) (i2c_busy s) (i2c_rx_pending s) (i2c_bus s).

Section flexcomm.
Context {D P : Type} `{I2CSlaveClass D} `{SSIPeripheralClass P}.
Local Abbreviation State := (MCXNLPUARTState D P).
Implicit Types s : State.

(** ** The receive FIFO of the LPUART *)

Definition lpuart_rx_depth s : Z := if flag (fifo s) FIFO_RXFE then MCXN_LPUART_FIFO_DEPTH else 1.
Definition lpuart_rxwater s : Z := (water s .>> 16) .& 0x7.
Definition lpuart_rdrf s : bool := lpuart_rxwater s <? rx_count s.

Definition lpuart_rx_push s (ch : Z) : bool * State :=
  if lpuart_rx_depth s <=? rx_count s then (false, s)
  else
    let s := s <| rx_fifo := (rx_fifo s).[(rx_head s + rx_count s) mod MCXN_LPUART_FIFO_DEPTH <- ch] |> in
    (true, s <| rx_count := u8 (rx_count s + 1) |>).

Definition lpuart_rx_pop s : Z * State :=
  if rx_count s =? 0 then (0, s)
  else
    let ch := (rx_fifo s).[rx_head s] in
    let s := s <| rx_head := (rx_head s + 1) mod MCXN_LPUART_FIFO_DEPTH |> in
    (ch, s <| rx_count := u8 (rx_count s - 1) |>).

(** ** Status and lines *)

Definition mcxn_lpspi_status s : Z :=
  let sr := spi_sr s in
  let sr := if flag (spi_cr s) LPSPI_CR_MEN then sr .| LPSPI_SR_TDF else sr in
  if spi_rx_full s then sr .| LPSPI_SR_RDF else sr.

Definition mcxn_lpi2c_status s : Z :=
  let msr := i2c_msr s .| LPI2C_MSR_TDF in
  let msr := if i2c_rx_full s then msr .| LPI2C_MSR_RDF else msr in
  if i2c_busy s then msr .| (LPI2C_MSR_MBF .| LPI2C_MSR_BBF) else msr.

Definition mcxn_flexcomm_istat s : Z :=
  let persel := pselid s .& PSELID_PERSEL in
  if persel =? PERSEL_LPSPI then if flag (spi_ier s) (mcxn_lpspi_status s) then ISTAT_SPI else 0
  else if persel =? PERSEL_LPI2C then if flag (i2c_mier s) (mcxn_lpi2c_status s) then ISTAT_I2CM else 0
  else
    let istat := if flag (ctrl s) (CTRL_TIE .| CTRL_TCIE) then ISTAT_UARTTX else 0 in
    if flag (ctrl s) CTRL_RIE && lpuart_rdrf s then istat .| ISTAT_UARTRX else istat.

(** The requests that the selected function makes to the eDMA. *)
Definition flexcomm_tx_request s : bool :=
  let persel := pselid s .& PSELID_PERSEL in
  if persel =? 2 then flag (spi_der s) DER_TDDE
  else if persel =? 3 then flag (i2c_mder s) DER_TDDE
  else flag (baud s) BAUD_TDMAE.
Definition flexcomm_rx_request s : bool :=
  let persel := pselid s .& PSELID_PERSEL in
  if persel =? 2 then flag (spi_der s) DER_RDDE && spi_rx_full s
  else if persel =? 3 then flag (i2c_mder s) DER_RDDE && i2c_rx_full s
  else flag (baud s) BAUD_RDMAE && lpuart_rdrf s.

Definition mcxn_flexcomm_update_dma s : State :=
  let tx := flexcomm_tx_request s in
  let rx := flexcomm_rx_request s in
  let s := if negb (Bool.eqb tx (dma_tx_level s)) then s <| dma_tx_level := tx |> <| dma_req_tx := tx |> else s in
  if negb (Bool.eqb rx (dma_rx_level s)) then s <| dma_rx_level := rx |> <| dma_req_rx := rx |> else s.

Definition mcxn_flexcomm_update_irq s : State :=
  mcxn_flexcomm_update_dma (s <| irq := negb (mcxn_flexcomm_istat s =? 0) |>).

(** ** LPSPI *)

Definition mcxn_lpspi_read s (offset : Z) : Z * State :=
  if offset =? LPSPI_VERID then (LPSPI_VERID_VALUE, s)
  else if offset =? LPSPI_PARAM then (LPSPI_PARAM_VALUE, s)
  else if offset =? LPSPI_CR then (spi_cr s, s)
  else if offset =? LPSPI_SR then (mcxn_lpspi_status s, s)
  else if offset =? LPSPI_IER then (spi_ier s, s)
  else if offset =? LPSPI_DER then (spi_der s, s)
  else if offset =? LPSPI_CFGR0 then (spi_cfgr0 s, s)
  else if offset =? LPSPI_CFGR1 then (spi_cfgr1 s, s)
  else if offset =? LPSPI_CCR then (spi_ccr s, s)
  else if offset =? LPSPI_FCR then (spi_fcr s, s)
  else if offset =? LPSPI_TCR then (spi_tcr s, s)
  else if offset =? LPSPI_FSR then (if spi_rx_full s then bit 16 else 0, s)
  else if offset =? LPSPI_RSR then (if spi_rx_full s then 0 else LPSPI_RSR_RXEMPTY, s)
  else if offset =? LPSPI_RDROR then (spi_rdr s, s)
  else if offset =? LPSPI_RDR then
    (spi_rdr s, if spi_rx_full s then mcxn_flexcomm_update_irq (s <| spi_rx_full := false |>) else s)
  else (0, s).

(** The level of the chip select, at the device it is wired to. *)
Definition spi_set_cs s (level : bool) : State :=
  match spi_cs s, spi_bus s with
  | Some k, Some bus => s <| spi_bus := Some (alter (fun p => ssi_cs_default p level) k bus) |>
  | _, _ => s
  end.

Definition lpspi_write_cr s (value : Z) : State :=
  if flag value LPSPI_CR_RST then
    let s := s <| spi_cr := 0 |> <| spi_sr := 0 |> <| spi_ier := 0 |> <| spi_rx_full := false |> in
    if spi_cs_asserted s then (spi_set_cs s true) <| spi_cs_asserted := false |> else s
  else
    let s := s <| spi_cr := value .& u32 (.~ (LPSPI_CR_RTF .| LPSPI_CR_RRF)) |> in
    if flag value LPSPI_CR_RRF then s <| spi_rx_full := false |> else s.

Definition lpspi_mask s : Z :=
  let framesz := (spi_tcr s .& LPSPI_TCR_FRAMESZ) + 1 in
  if 32 <=? framesz then 0xFFFFFFFF else u32 (u32 (1 .<< framesz) - 1).

(** One frame: over the bus under the chip select, or looped back. *)
Definition lpspi_frame s (value : Z) : State :=
  let mask := lpspi_mask s in
  match spi_bus s with
  | Some _ =>
      let s := if spi_cs_asserted s then s else (spi_set_cs s false) <| spi_cs_asserted := true |> in
      let '(bus, r) := match spi_bus s with Some bus => ssi_transfer bus (value .& mask) | None => ([], 0) end in
      let s := s <| spi_bus := Some bus |> <| spi_rdr := r .& mask |> in
      if flag (spi_tcr s) LPSPI_TCR_CONT then s else (spi_set_cs s true) <| spi_cs_asserted := false |>
  | None => s <| spi_rdr := value .& mask |>
  end.

Definition lpspi_write_tdr s (value : Z) : State :=
  if flag (spi_cr s) LPSPI_CR_MEN then
    let s := if flag (spi_tcr s) LPSPI_TCR_RXMSK then s else (lpspi_frame s value) <| spi_rx_full := true |> in
    mcxn_flexcomm_update_irq (s <| spi_sr := spi_sr s .| LPSPI_SR_W1C |>)
  else s.

Definition mcxn_lpspi_write s (offset value : Z) : State :=
  if offset =? LPSPI_CR then mcxn_flexcomm_update_irq (lpspi_write_cr s value)
  else if offset =? LPSPI_SR then mcxn_flexcomm_update_irq (s <| spi_sr := spi_sr s .& u32 (.~ (value .& LPSPI_SR_W1C)) |>)
  else if offset =? LPSPI_IER then mcxn_flexcomm_update_irq (s <| spi_ier := value |>)
  else if offset =? LPSPI_CFGR0 then s <| spi_cfgr0 := value |>
  else if offset =? LPSPI_CFGR1 then s <| spi_cfgr1 := value |>
  else if offset =? LPSPI_CCR then s <| spi_ccr := value |>
  else if offset =? LPSPI_FCR then s <| spi_fcr := value |>
  else if offset =? LPSPI_TCR then s <| spi_tcr := value |>
  else if offset =? LPSPI_CCR1 then s
  else if offset =? LPSPI_DER then mcxn_flexcomm_update_irq (s <| spi_der := value |>)
  else if offset =? LPSPI_TDR then lpspi_write_tdr s value
  else s.

(** ** LPI2C *)

(** The read of MRDR: the lookahead byte, refilled from the bus. *)
Definition lpi2c_read_mrdr s : Z * State :=
  if i2c_rx_full s then
    let v := i2c_mrdr s in
    let s := if negb (i2c_rx_pending s =? 0) then
               let '(bus, x) := i2c_recv (i2c_bus s) in
               s <| i2c_bus := bus |> <| i2c_mrdr := x |> <| i2c_rx_pending := u32 (i2c_rx_pending s - 1) |>
             else s <| i2c_rx_full := false |> in
    (v, mcxn_flexcomm_update_irq s)
  else (LPI2C_MRDR_RXEMPTY, s).

Definition mcxn_lpi2c_read s (offset : Z) : Z * State :=
  if offset =? LPI2C_VERID then (LPI2C_VERID_VALUE, s)
  else if offset =? LPI2C_PARAM then (LPI2C_PARAM_VALUE, s)
  else if offset =? LPI2C_MCR then (i2c_mcr s, s)
  else if offset =? LPI2C_MSR then (mcxn_lpi2c_status s, s)
  else if offset =? LPI2C_MIER then (i2c_mier s, s)
  else if offset =? LPI2C_MCFGR1 then (i2c_mcfgr1 s, s)
  else if offset =? LPI2C_MFSR then (if i2c_rx_full s then bit 16 else 0, s)
  else if offset =? LPI2C_MRDROR then (if i2c_rx_full s then i2c_mrdr s else LPI2C_MRDR_RXEMPTY, s)
  else if (offset =? LPI2C_SASR) || (offset =? LPI2C_SRDR) || (offset =? LPI2C_SRDROR) then (LPI2C_MRDR_RXEMPTY, s)
  else if offset =? LPI2C_MRDR then lpi2c_read_mrdr s
  else if offset =? LPI2C_MDER then (i2c_mder s, s)
  else (0, s).

Definition lpi2c_write_mcr s (value : Z) : State :=
  if flag value LPI2C_MCR_RST then
    s <| i2c_mcr := 0 |> <| i2c_msr := 0 |> <| i2c_mier := 0 |> <| i2c_rx_full := false |> <| i2c_busy := false |>
      <| i2c_rx_pending := 0 |>
  else
    let s := s <| i2c_mcr := value .& u32 (.~ (LPI2C_MCR_RTF .| LPI2C_MCR_RRF)) |> in
    if flag value LPI2C_MCR_RRF then s <| i2c_rx_full := false |> else s.

(** The command engine. *)
Definition lpi2c_command s (cmd data : Z) : State :=
  if LPI2C_CMD_START <=? cmd then
    let '(bus, rv) := i2c_start_transfer (i2c_bus s) (data .>> 1) (flag data 1) in
    let s := s <| i2c_bus := bus |> in
    if negb (rv =? 0) then s <| i2c_msr := i2c_msr s .| LPI2C_MSR_NDF |> <| i2c_busy := false |>
    else s <| i2c_busy := true |>
  else if cmd =? LPI2C_CMD_TXDATA then
    let '(bus, rv) := i2c_send (i2c_bus s) data in
    let s := s <| i2c_bus := bus |> in
    if negb (rv =? 0) then s <| i2c_msr := i2c_msr s .| LPI2C_MSR_NDF |> else s
  else if cmd =? LPI2C_CMD_RXDATA then
    let s := s <| i2c_rx_pending := u32 (i2c_rx_pending s + (data + 1)) |> in
    if negb (i2c_rx_full s) && negb (i2c_rx_pending s =? 0) then
      let '(bus, x) := i2c_recv (i2c_bus s) in
      s <| i2c_bus := bus |> <| i2c_mrdr := x |> <| i2c_rx_full := true |> <| i2c_rx_pending := u32 (i2c_rx_pending s - 1) |>
    else s
  else if cmd =? LPI2C_CMD_STOP then
    s <| i2c_bus := i2c_end_transfer (i2c_bus s) |> <| i2c_busy := false |> <| i2c_rx_pending := 0 |>
      <| i2c_msr := i2c_msr s .| (LPI2C_MSR_SDF .| LPI2C_MSR_EPF) |>
  else s.

Definition lpi2c_write_mtdr s (value : Z) : State :=
  let cmd := (value .& LPI2C_MTDR_CMD_MASK) .>> LPI2C_MTDR_CMD_SHIFT in
  let data := value .& LPI2C_MTDR_DATA_MASK in
  if flag (i2c_mcr s) LPI2C_MCR_MEN then mcxn_flexcomm_update_irq (lpi2c_command s cmd data) else s.

Definition mcxn_lpi2c_write s (offset value : Z) : State :=
  if offset =? LPI2C_MCR then mcxn_flexcomm_update_irq (lpi2c_write_mcr s value)
  else if offset =? LPI2C_MSR then mcxn_flexcomm_update_irq (s <| i2c_msr := i2c_msr s .& u32 (.~ (value .& LPI2C_MSR_W1C)) |>)
  else if offset =? LPI2C_MIER then mcxn_flexcomm_update_irq (s <| i2c_mier := value |>)
  else if offset =? LPI2C_MCFGR1 then s <| i2c_mcfgr1 := value |>
  else if offset =? LPI2C_MDER then mcxn_flexcomm_update_irq (s <| i2c_mder := value |>)
  else if offset =? LPI2C_MTDR then lpi2c_write_mtdr s value
  else s.

(** ** LPUART and the wrapper *)

Definition lpuart_stat s : Z :=
  let r := STAT_TDRE .| STAT_TC in
  let r := if lpuart_rdrf s then r .| STAT_RDRF else r in
  r .| stat_or s.

Definition chr_accept s : State := s <| chr := chr s ++ [ChrAccept] |>.

(** DATA pops, DATARO peeks. *)
Definition lpuart_read_data s (pop : bool) : Z * State :=
  let r := if rx_count s =? 0 then 0 else (rx_fifo s).[rx_head s] in
  let r := if rx_count s =? 0 then r .| LPUART_DATA_RXEMPT else r in
  (r, if pop && negb (rx_count s =? 0) then chr_accept (mcxn_flexcomm_update_irq (lpuart_rx_pop s).2) else s).

Definition in_timeout (offset : Z) : bool := (LPUART_TIMEOUT0 <=? offset) && (offset <=? LPUART_TIMEOUT3).
Definition timeout_of (offset : Z) : Z := (offset - LPUART_TIMEOUT0) .>> 2.

(** The LPUART registers that a read leaves alone. *)
Definition lpuart_reg s (offset : Z) : Z :=
  if offset =? LPUART_VERID then LPUART_VERID_VALUE
  else if offset =? LPUART_PARAM then LPUART_PARAM_VALUE
  else if offset =? LPUART_GLOBAL then global s
  else if offset =? LPUART_PINCFG then pincfg s
  else if offset =? LPUART_BAUD then baud s
  else if offset =? LPUART_MCR then mcr s
  else if offset =? LPUART_STAT then lpuart_stat s
  else if offset =? LPUART_CTRL then ctrl s
  else if offset =? LPUART_MATCH then match_ s
  else if offset =? LPUART_MODIR then modir s
  else if offset =? LPUART_FIFO then
    let r := (fifo s .& u32 (.~ LPUART_FIFO_SIZES_MASK)) .| LPUART_FIFO_SIZES in
    let r := if rx_count s =? 0 then r .| FIFO_RXEMPT else r in
    r .| FIFO_TXEMPT
  else if offset =? LPUART_WATER then (water s .& 0x00070007) .| ((rx_count s .& 0xF) .<< 24)
  else if offset =? LPUART_REIR then reir s
  else if offset =? LPUART_TEIR then teir s
  else if offset =? LPUART_HDCR then hdcr s
  else if offset =? LPUART_TOCR then tocr s
  else if offset =? LPUART_TOSR then tosr s
  else if in_timeout offset then (timeout s).[timeout_of offset]
  else 0.

Definition mcxn_lpuart_read s (offset : Z) : Z * State :=
  let persel := pselid s .& PSELID_PERSEL in
  if offset =? LPFLEXCOMM_PSELID then (pselid s .| PSELID_PRESENT_BITS .| PSELID_ID_VALUE, s)
  else if offset =? LPFLEXCOMM_ISTAT then (mcxn_flexcomm_istat s, s)
  else if persel =? PERSEL_LPSPI then mcxn_lpspi_read s offset
  else if persel =? PERSEL_LPI2C then
    if offset <? LPI2C_WINDOW then (0, s) else mcxn_lpi2c_read s (offset - LPI2C_WINDOW)
  else if (offset =? LPUART_DATA) || (offset =? LPUART_DATARO) then lpuart_read_data s (offset =? LPUART_DATA)
  else (lpuart_reg s offset, s).

Definition lpuart_write_global s (value : Z) : State :=
  let s := s <| global := value |> in
  if flag value GLOBAL_RST then
    mcxn_flexcomm_update_irq
      (s <| ctrl := 0 |> <| baud := 0 |> <| fifo := 0 |> <| water := 0 |> <| rx_head := 0 |> <| rx_count := 0 |> <| stat_or := 0 |>)
  else s.

Definition lpuart_write_data s (value : Z) : State :=
  let ch := value .& 0xFF in
  let s := if flag (ctrl s) CTRL_TE then s <| chr := chr s ++ [ChrWrite ch] |> else s in
  mcxn_flexcomm_update_irq s.

Definition lpuart_write_fifo s (value : Z) : State :=
  let s := s <| fifo := value .& u32 (.~ LPUART_FIFO_SIZES_MASK) |> in
  let s := if flag value FIFO_RXFLUSH then
             chr_accept (s <| rx_count := 0 |> <| rx_head := 0 |> <| fifo := fifo s .& u32 (.~ FIFO_RXFLUSH) |>)
           else s in
  mcxn_flexcomm_update_irq (s <| fifo := fifo s .& u32 (.~ FIFO_TXFLUSH) |>).

Definition lpuart_write s (offset value : Z) : State :=
  if offset =? LPUART_GLOBAL then lpuart_write_global s value
  else if offset =? LPUART_PINCFG then s <| pincfg := value |>
  else if offset =? LPUART_MCR then s <| mcr := value |>
  else if offset =? LPUART_BAUD then mcxn_flexcomm_update_irq (s <| baud := value |>)
  else if offset =? LPUART_CTRL then mcxn_flexcomm_update_irq (s <| ctrl := value |>)
  else if offset =? LPUART_DATA then lpuart_write_data s value
  else if offset =? LPUART_MATCH then s <| match_ := value |>
  else if offset =? LPUART_MODIR then s <| modir := value |>
  else if offset =? LPUART_FIFO then lpuart_write_fifo s value
  else if offset =? LPUART_WATER then mcxn_flexcomm_update_irq (s <| water := value .& 0x00070007 |>)
  else if offset =? LPUART_REIR then s <| reir := value |>
  else if offset =? LPUART_TEIR then s <| teir := value |>
  else if offset =? LPUART_HDCR then s <| hdcr := value |>
  else if offset =? LPUART_TOCR then s <| tocr := value |>
  else if offset =? LPUART_TOSR then s <| tosr := value |>
  else if in_timeout offset then s <| timeout := (timeout s).[timeout_of offset <- value] |>
  else s.

Definition mcxn_lpuart_write s (offset value : Z) : State :=
  let persel := pselid s .& PSELID_PERSEL in
  let value := u32 value in
  if offset =? LPFLEXCOMM_PSELID then s <| pselid := value .& (PSELID_PERSEL .| PSELID_LOCK) |>
  else if offset =? LPFLEXCOMM_ISTAT then s
  else if persel =? PERSEL_LPSPI then mcxn_lpspi_write s offset value
  else if persel =? PERSEL_LPI2C then
    if offset <? LPI2C_WINDOW then s else mcxn_lpi2c_write s (offset - LPI2C_WINDOW) value
  else lpuart_write s offset value.

(** ** The character backend, reset and post-load *)

Definition mcxn_lpuart_can_rx s : Z :=
  if negb (flag (ctrl s) CTRL_RE) then 0 else swrap 32 (u32 (lpuart_rx_depth s - rx_count s)).

Definition lpuart_rx_byte s (x : Z) : State :=
  let '(ok, s) := lpuart_rx_push s x in
  if ok then s else s <| stat_or := stat_or s .| STAT_OR |>.
Definition mcxn_lpuart_rx s (buf : list Z) : State := mcxn_flexcomm_update_irq (foldl lpuart_rx_byte s buf).

Definition mcxn_lpuart_reset s : State :=
  s <| global := 0 |> <| pincfg := 0 |> <| ctrl := 0 |> <| match_ := 0 |> <| modir := 0 |> <| fifo := 0 |> <| water := 0 |>
    <| pselid := 0 |> <| reir := 0 |> <| teir := 0 |> <| hdcr := 0 |> <| tocr := 0 |>
    <| baud := LPUART_BAUD_RESET |> <| tosr := LPUART_TOSR_RESET |> <| timeout := [0; 0; 0; 0] |>
    <| rx_fifo := replicate (Z.to_nat MCXN_LPUART_FIFO_DEPTH) 0 |> <| rx_head := 0 |> <| rx_count := 0 |> <| stat_or := 0 |>
    <| spi_cr := 0 |> <| spi_sr := 0 |> <| spi_ier := 0 |> <| spi_cfgr0 := 0 |> <| spi_cfgr1 := 0 |> <| spi_ccr := 0 |>
    <| spi_fcr := 0 |> <| spi_tcr := LPSPI_TCR_RESET |> <| spi_rdr := 0 |> <| spi_rx_full := false |> <| spi_cs_asserted := false |>
    <| i2c_mcr := 0 |> <| i2c_msr := 0 |> <| i2c_mier := 0 |> <| i2c_mcfgr1 := 0 |> <| i2c_mrdr := 0 |>
    <| i2c_rx_full := false |> <| i2c_busy := false |> <| i2c_rx_pending := 0 |>.

Definition mcxn_lpuart_post_load s : State := mcxn_flexcomm_update_irq s.

(** A FlexComm out of realize and reset, with its buses. *)
Definition flexcomm_init (sbus : option (list (SSIPeripheral P))) (scs : option nat) (ibus : I2CBus D) : State :=
  mcxn_lpuart_reset
    (mkLPUART _ _ false [] false false false false sbus scs 0 0 0 0 0 0 0 0 0 0 0 0 0 0 0 [] [] 0 0 0 0 0 0 0 0 0 0 0 0 0
       false false 0 0 0 0 0 0 false false 0 ibus).
End flexcomm.

(** ** The lines *)

Section lines.
Context {D P : Type} `{I2CSlaveClass D} `{SSIPeripheralClass P}.
Implicit Types s : MCXNLPUARTState D P.

Definition wired s : Prop := dma_req_tx s = dma_tx_level s /\ dma_req_rx s = dma_rx_level s.
Definition fc_lines s : Prop :=
  irq s = negb (mcxn_flexcomm_istat s =? 0) /\ dma_req_tx s = flexcomm_tx_request s /\ dma_req_rx s = flexcomm_rx_request s /\ wired s.

(** The lines as [mcxn_flexcomm_update_irq] drives them, edge suppression or not. *)
Definition drive s : MCXNLPUARTState D P :=
  s <| irq := negb (mcxn_flexcomm_istat s =? 0) |>
    <| dma_tx_level := flexcomm_tx_request s |> <| dma_req_tx := flexcomm_tx_request s |>
    <| dma_rx_level := flexcomm_rx_request s |> <| dma_req_rx := flexcomm_rx_request s |>.

Lemma update_drive s : wired s -> mcxn_flexcomm_update_irq s = drive s.
Proof.
  intros [Ht Hr]. unfold mcxn_flexcomm_update_irq, mcxn_flexcomm_update_dma, drive. cbv zeta. set (i := negb (_ =? 0)).
  change (flexcomm_tx_request (s <| irq := i |>)) with (flexcomm_tx_request s).
  change (flexcomm_rx_request (s <| irq := i |>)) with (flexcomm_rx_request s).
  change (dma_tx_level (s <| irq := i |>)) with (dma_tx_level s).
  generalize (flexcomm_tx_request s), (flexcomm_rx_request s), i. intros tx rx j. clear i. destruct s.
  cbn [dma_req_tx dma_tx_level dma_req_rx dma_rx_level] in *. subst. by destruct tx, rx, dma_tx_level0, dma_rx_level0.
Qed.

Lemma update_lines s : wired s -> fc_lines (mcxn_flexcomm_update_irq s).
Proof. intros Hw. by rewrite update_drive. Qed.

Lemma wired_spi_set_cs s level b : wired s -> wired ((spi_set_cs s level) <| spi_cs_asserted := b |>).
Proof. intros Hw. unfold spi_set_cs. by destruct (spi_cs s), (spi_bus s). Qed.
Lemma wired_lpspi_frame s v : wired s -> wired (lpspi_frame s v).
Proof.
  intros Hw. unfold lpspi_frame. cbv zeta. destruct (spi_bus s); [|done].
  set (s1 := if spi_cs_asserted s then _ else _). assert (Hw1 : wired s1) by (unfold s1; destruct (spi_cs_asserted s); [done | by apply wired_spi_set_cs]).
  destruct (match spi_bus s1 with Some bus => _ | None => _ end) as [bus r]. destruct (flag _ _); [done | by apply wired_spi_set_cs].
Qed.
Lemma wired_lpi2c_command s cmd data : wired s -> wired (lpi2c_command s cmd data).
Proof. intros Hw. unfold lpi2c_command. cbv zeta. by repeat case_match. Qed.
Lemma wired_rx s buf : wired s -> wired (foldl lpuart_rx_byte s buf).
Proof.
  revert s. induction buf as [|x buf IH]; intros s Hw; [done|]. apply IH. unfold lpuart_rx_byte, lpuart_rx_push. cbv zeta.
  by destruct (_ <=? _).
Qed.

Lemma lines_wired s : fc_lines s -> wired s.
Proof. by intros (_ & _ & _ & Hw). Qed.

(** The callbacks of a FlexComm whose function is not changed. *)
Inductive fc_step : MCXNLPUARTState D P -> MCXNLPUARTState D P -> Prop :=
  | fc_step_read s off : fc_step s (mcxn_lpuart_read s off).2
  | fc_step_write s off v : off <> LPFLEXCOMM_PSELID -> fc_step s (mcxn_lpuart_write s off v)
  | fc_step_rx s buf : fc_step s (mcxn_lpuart_rx s buf)
  | fc_step_load s : fc_step s (mcxn_lpuart_post_load s).

Lemma lpspi_write_lines s off v : fc_lines s -> fc_lines (mcxn_lpspi_write s off v).
Proof.
  intros Hl. pose proof (lines_wired s Hl) as Hw. unfold mcxn_lpspi_write. repeat (destruct (_ =? _); [try (by apply update_lines || exact Hl)|]); [| |done].
  - apply update_lines. unfold lpspi_write_cr. cbv zeta. repeat case_match; try done. by apply wired_spi_set_cs.
  - unfold lpspi_write_tdr. destruct (flag (spi_cr s) _); [|done]. apply update_lines.
    destruct (flag (spi_tcr s) _); [done|]. by apply wired_lpspi_frame.
Qed.

Lemma lpi2c_write_lines s off v : fc_lines s -> fc_lines (mcxn_lpi2c_write s off v).
Proof.
  intros Hl. pose proof (lines_wired s Hl) as Hw. unfold mcxn_lpi2c_write. repeat (destruct (_ =? _); [try (by apply update_lines || exact Hl)|]); [| |done].
  - apply update_lines. unfold lpi2c_write_mcr. cbv zeta. by repeat case_match.
  - unfold lpi2c_write_mtdr. cbv zeta. destruct (flag _ _); [|done]. by apply update_lines, wired_lpi2c_command.
Qed.

Lemma lpuart_write_lines s off v : fc_lines s -> fc_lines (lpuart_write s off v).
Proof.
  intros Hl. pose proof (lines_wired s Hl) as Hw. unfold lpuart_write. repeat (destruct (_ =? _); [try (by apply update_lines || exact Hl)|]).
  - unfold lpuart_write_global. cbv zeta. destruct (flag _ _); [by apply update_lines | exact Hl].
  - unfold lpuart_write_data. cbv zeta. apply update_lines. by destruct (flag _ _).
  - unfold lpuart_write_fifo. cbv zeta. apply update_lines. by destruct (flag _ _).
  - by destruct (in_timeout off).
Qed.

Lemma chr_accept_lines s : fc_lines s -> fc_lines (chr_accept s).
Proof. done. Qed.

Lemma read_lines s off : fc_lines s -> fc_lines (mcxn_lpuart_read s off).2.
Proof.
  intros Hl. pose proof (lines_wired s Hl) as Hw. unfold mcxn_lpuart_read. cbv zeta.
  destruct (off =? LPFLEXCOMM_PSELID); [done|]. destruct (off =? LPFLEXCOMM_ISTAT); [done|].
  destruct (_ =? PERSEL_LPSPI); [|destruct (_ =? PERSEL_LPI2C); [destruct (off <? _)|destruct ((off =? _) || _)]]; try done.
  - unfold mcxn_lpspi_read. repeat (destruct (off =? _); [try done|]); [|done]. cbn [snd]. destruct (spi_rx_full s); [by apply update_lines | done].
  - unfold mcxn_lpi2c_read. repeat match goal with |- context [if ?b then _ else _] => destruct b; [try done|] end; try done.
    unfold lpi2c_read_mrdr. destruct (i2c_rx_full s); [|done]. cbn [snd]. apply update_lines. by repeat case_match.
  - unfold lpuart_read_data. cbv zeta. cbn [snd]. destruct (_ && _); [|done]. apply chr_accept_lines, update_lines.
    unfold lpuart_rx_pop. by destruct (_ =? _).
Qed.

Lemma fc_step_lines s s' : fc_step s s' -> fc_lines s -> fc_lines s'.
Proof.
  intros Hst Hl. pose proof (lines_wired s Hl) as Hw. destruct Hst as [s off|s off v Hne|s buf|s].
  - by apply read_lines.
  - unfold mcxn_lpuart_write. cbv zeta. rewrite (proj2 (Z.eqb_neq _ _) Hne). repeat case_match; try done;
      auto using lpspi_write_lines, lpi2c_write_lines, lpuart_write_lines.
  - by apply update_lines, wired_rx.
  - by apply update_lines.
Qed.
End lines.

(** The lines of a FlexComm tell the truth.  Out of reset, with a function
    selected and then under any sequence of register accesses, received
    characters and post-loads, for any devices on its I2C and SPI buses, the
    interrupt line is high exactly when ISTAT reports an enabled event of the
    selected function, and each DMA request line exactly when that function's
    DMA enable is set and it has room (or data). *)
Theorem flexcomm_lines {D P} `{I2CSlaveClass D} `{SSIPeripheralClass P} sbus scs ibus sel (s : MCXNLPUARTState D P) :
  rtc fc_step (mcxn_lpuart_write (flexcomm_init sbus scs ibus) LPFLEXCOMM_PSELID sel) s ->
  irq s = negb ((mcxn_lpuart_read s LPFLEXCOMM_ISTAT).1 =? 0) /\
  dma_req_tx s = flexcomm_tx_request s /\ dma_req_rx s = flexcomm_rx_request s.
Proof.
  intros Hr. assert (Hl : fc_lines s).
  { eapply rtc_invariant; [exact fc_step_lines | exact Hr |]. unfold fc_lines, mcxn_flexcomm_istat, flexcomm_tx_request, flexcomm_rx_request.
    repeat case_match; done. }
  by destruct Hl as (H1 & H2 & H3 & _).
Qed.

(** No devices on either bus: a console. *)
Definition console : MCXNLPUARTState EEPROMState SpiLinkState := flexcomm_init None None (mkBus _ [] [] false).
Lemma flexcomm_lines_witness :
  irq (mcxn_lpuart_rx (mcxn_lpuart_write (mcxn_lpuart_write console LPFLEXCOMM_PSELID 1) LPUART_CTRL (CTRL_RE .| CTRL_RIE)) [65]) = true.
Proof.
  unfold console. rewrite (proj1 (flexcomm_lines None None (mkBus _ [] [] false) 1 _
    (rtc_l _ _ _ _ (fc_step_write _ LPUART_CTRL (CTRL_RE .| CTRL_RIE) ltac:(discriminate)) (rtc_once _ _ (fc_step_rx _ [65]))))).
  vm_compute. reflexivity.
Defined.

(** ** Departures from the code's intent *)

(** PSELID is stored without re-driving the lines, and its LOCK bit locks
    nothing: a FlexComm that leaves the LPUART function with an interrupt pending
    keeps the line high over an empty ISTAT. *)
Theorem flexcomm_pselid_keeps_irq :
  let s := mcxn_lpuart_write (mcxn_lpuart_write console LPFLEXCOMM_PSELID (1 .| PSELID_LOCK)) LPUART_CTRL CTRL_TIE in
  let s := mcxn_lpuart_write s LPFLEXCOMM_PSELID PERSEL_LPSPI in
  irq s = true /\ (mcxn_lpuart_read s LPFLEXCOMM_ISTAT).1 = 0 /\ pselid s .& PSELID_PERSEL = PERSEL_LPSPI.
Proof. vm_compute. auto. Qed.

(** A device reset clears CTRL without re-driving the interrupt line, and leaves
    MCR and the DMA enables of the other functions as they were. *)
Theorem flexcomm_reset_keeps_irq :
  let s := mcxn_lpuart_write console LPUART_CTRL CTRL_TIE in
  let s := mcxn_lpuart_write s LPUART_MCR 1 in
  let s := mcxn_lpuart_reset (mcxn_lpspi_write s LPSPI_DER DER_TDDE) in
  irq s = true /\ mcxn_flexcomm_istat s = 0 /\ mcr s = 1 /\ spi_der s = DER_TDDE.
Proof. vm_compute. auto. Qed.
