(* ===== verification/Lpuart.v ===== *)
(** * LPUART: the console function of a FlexComm

    The receive path of [hw/char/mcxn_lpuart.c] as a queue of characters with a
    watermark, its flow control towards the character backend, and the transmit
    path; the model is in [FlexComm]. *)
From S2P Require Import Prelude I2c At24c Ssi FlexComm.

(** What the guest and the backend do with a console: the registers of the queue,
    and any other register of the window, of which only the effect on the queue is of
    interest here. *)
Inductive uart_op :=
  | Receive (bs : list Z)           (* the backend delivers characters *)
  | ReadData | PeekData | ReadStat | ReadWater | ReadFifo
  | Send (v : Z) | SetCtrl (v : Z) | SetFifo (v : Z) | SetWater (v : Z) | SetGlobal (v : Z)
  | ReadOther (off : Z) | SetOther (off v : Z).

(** The abstract console. *)
Record uart := mkUart {
  queue : list Z;          (* characters waiting, oldest first *)
  overrun : bool;
  fifo_reg : Z; water_reg : Z; ctrl_reg : Z;
  sent : list Z            (* characters sent, in order *)
}.
#[export] Instance uart_settable : Settable uart := fun a =>
  mkUart (queue a) (overrun a) (fifo_reg a) (water_reg a) (ctrl_reg a) (sent a).

Definition uart_depth (a : uart) : Z := if flag (fifo_reg a) FIFO_RXFE then 8 else 1.
Definition uart_head (a : uart) : Z := match queue a with x :: _ => x | [] => LPUART_DATA_RXEMPT end.

Definition abs_exec (a : uart) (op : uart_op) : uart * list Z :=
  let len := zlen (queue a) in
  match op with
  | Receive bs =>
      let room := uart_depth a - len in
      (a <| queue := queue a ++ take (Z.to_nat room) bs |> <| overrun := overrun a || (Z.max 0 room <? zlen bs) |>, [])
  | ReadData => (a <| queue := tail (queue a) |>, [uart_head a])
  | PeekData => (a, [uart_head a])
  | ReadStat =>
      (a, [STAT_TDRE .| STAT_TC .| (if (water_reg a .>> 16) .& 7 <? len then STAT_RDRF else 0) .| (if overrun a then STAT_OR else 0)])
  | ReadWater => (a, [(water_reg a .& 0x00070007) .| (len .<< 24)])
  | ReadFifo =>
      (a, [(fifo_reg a .& u32 (.~ LPUART_FIFO_SIZES_MASK)) .| LPUART_FIFO_SIZES .| (if len =? 0 then FIFO_RXEMPT else 0) .| FIFO_TXEMPT])
  | Send v => (if flag (ctrl_reg a) CTRL_TE then a <| sent := sent a ++ [v .& 0xFF] |> else a, [])
  | SetCtrl v => (a <| ctrl_reg := v |>, [])
  | SetFifo v =>
      let a := if flag v FIFO_RXFLUSH then a <| queue := [] |> else a in
      (a <| fifo_reg := v .& u32 (.~ (LPUART_FIFO_SIZES_MASK .| FIFO_RXFLUSH .| FIFO_TXFLUSH)) |>, [])
  | SetWater v => (a <| water_reg := v .& 0x00070007 |>, [])
  | SetGlobal v => (if flag v GLOBAL_RST then mkUart [] false 0 0 0 (sent a) else a, [])
  | ReadOther _ | SetOther _ _ => (a, [])
  end.

(** The delivery of a single character. *)
Definition abs_rx (a : uart) (x : Z) : uart :=
  if zlen (queue a) <? uart_depth a then a <| queue := queue a ++ [x] |> else a <| overrun := true |>.

Lemma abs_receive a bs : abs_exec a (Receive bs) = (foldl abs_rx a bs, []).
Proof.
  cbn [abs_exec]. f_equal. revert a. induction bs as [|x bs IH]; intros a; cbn [foldl].
  { rewrite take_nil, app_nil_r. replace (Z.max 0 _ <? zlen (@nil Z)) with false by (symmetry; apply Z.ltb_ge; cbn; lia).
    rewrite orb_false_r. by destruct a. }
  rewrite <- IH. unfold abs_rx. destruct (Z.ltb_spec (zlen (queue a)) (uart_depth a)) as [Hlt|Hge].
  - change (uart_depth (a <| queue := queue a ++ [x] |>)) with (uart_depth a). cbn [queue overrun modify].
    rewrite length_app. cbn [length]. rewrite Nat2Z.inj_add. set (room := uart_depth a - zlen (queue a)) in *.
    replace (uart_depth a - (zlen (queue a) + Z.of_nat 1)) with (room - 1) by lia.
    replace (Z.to_nat room) with (S (Z.to_nat (room - 1))) by lia. cbn [take]. rewrite <- app_assoc. cbn [app].
    replace (Z.max 0 room <? Z.of_nat (S (length bs))) with (Z.max 0 (room - 1) <? zlen bs) by (zcases; done). by destruct a.
  - change (uart_depth (a <| overrun := true |>)) with (uart_depth a). cbn [queue overrun modify length].
    replace (Z.to_nat (uart_depth a - zlen (queue a))) with O by lia. cbn [take]. rewrite (proj2 (Z.ltb_lt _ _)) by lia.
    rewrite orb_true_r. by destruct a.
Qed.

Section uart.
Context {D P : Type} `{I2CSlaveClass D} `{SSIPeripheralClass P}.
Implicit Types s : MCXNLPUARTState D P.

Definition read1 s (off : Z) : MCXNLPUARTState D P * list Z := let '(v, s) := mcxn_lpuart_read s off in (s, [v]).
Definition uart_exec s (op : uart_op) : MCXNLPUARTState D P * list Z :=
  match op with
  | Receive bs => (mcxn_lpuart_rx s bs, [])
  | ReadData => read1 s LPUART_DATA
  | PeekData => read1 s LPUART_DATARO
  | ReadStat => read1 s LPUART_STAT
  | ReadWater => read1 s LPUART_WATER
  | ReadFifo => read1 s LPUART_FIFO
  | Send v => (mcxn_lpuart_write s LPUART_DATA v, [])
  | SetCtrl v => (mcxn_lpuart_write s LPUART_CTRL v, [])
  | SetFifo v => (mcxn_lpuart_write s LPUART_FIFO v, [])
  | SetWater v => (mcxn_lpuart_write s LPUART_WATER v, [])
  | SetGlobal v => (mcxn_lpuart_write s LPUART_GLOBAL v, [])
  | ReadOther off => ((mcxn_lpuart_read s off).2, [])
  | SetOther off v => (mcxn_lpuart_write s off v, [])
  end.

Record uart_wf s : Prop := {
  uw_sel : pselid s .& PSELID_PERSEL <> PERSEL_LPSPI /\ pselid s .& PSELID_PERSEL <> PERSEL_LPI2C;
  uw_fifo : zlen (rx_fifo s) = 8;
  uw_head : 0 <= rx_head s < 8;
  uw_count : 0 <= rx_count s <= 8;
  uw_or : stat_or s = 0 \/ stat_or s = STAT_OR;
}.

Definition rx_items s : list Z := ring_items 8 (rx_fifo s) (rx_head s) (rx_count s).
Definition chr_sent (l : list chr_call) : list Z := omap (fun c => match c with ChrWrite b => Some b | ChrAccept => None end) l.
Definition uart_abs s : uart := mkUart (rx_items s) (flag (stat_or s) STAT_OR) (fifo s) (water s) (ctrl s) (chr_sent (chr s)).

(** The fields that the console is made of. *)
Definition uart_view s := (pselid s, ctrl s, fifo s, water s, (rx_fifo s, rx_head s, rx_count s, stat_or s, chr s)).

Lemma view_abs s s' : uart_view s' = uart_view s -> uart_wf s -> uart_wf s' /\ uart_abs s' = uart_abs s.
Proof.
  unfold uart_view. intros [= E1 E2 E3 E4 E5 E6 E7 E8 E9] []. split; [split|unfold uart_abs, rx_items]; rewrite ?E1, ?E2, ?E3, ?E4, ?E5, ?E6, ?E7, ?E8, ?E9; done.
Qed.

Lemma update_view s : uart_view (mcxn_flexcomm_update_irq s) = uart_view s.
Proof. unfold mcxn_flexcomm_update_irq, mcxn_flexcomm_update_dma. cbv zeta. by repeat case_match. Qed.

Lemma update_abs s : uart_wf s -> uart_wf (mcxn_flexcomm_update_irq s) /\ uart_abs (mcxn_flexcomm_update_irq s) = uart_abs s.
Proof. apply view_abs, update_view. Qed.

Lemma rx_items_len s : uart_wf s -> zlen (rx_items s) = rx_count s.
Proof. intros []. apply ring_items_len. lia. Qed.

Lemma flag_or s : uart_wf s -> stat_or s = (if flag (stat_or s) STAT_OR then STAT_OR else 0) /\ flag (stat_or s .| STAT_OR) STAT_OR = true.
Proof. intros []. by destruct uw_or0 as [-> | ->]. Qed.

Lemma uart_rx_byte s x : uart_wf s -> uart_wf (lpuart_rx_byte s x) /\ uart_abs (lpuart_rx_byte s x) = abs_rx (uart_abs s) x.
Proof.
  intros Hw. pose proof (rx_items_len s Hw) as Hlen. unfold lpuart_rx_byte, lpuart_rx_push, abs_rx.
  change (uart_depth (uart_abs s)) with (lpuart_rx_depth s). cbn [queue uart_abs]. rewrite Hlen.
  assert (Hd : lpuart_rx_depth s <= 8) by (unfold lpuart_rx_depth, MCXN_LPUART_FIFO_DEPTH; destruct (flag _ _); lia).
  destruct (Z.leb_spec (lpuart_rx_depth s) (rx_count s)).
  - rewrite (proj2 (Z.ltb_ge _ _)) by lia. pose proof (proj2 (flag_or s Hw)) as Ho. destruct Hw. split.
    + split; try done. cbn. right. by destruct uw_or0 as [-> | ->].
    + unfold uart_abs, abs_rx. cbn [stat_or modify]. by rewrite Ho.
  - rewrite (proj2 (Z.ltb_lt _ _)) by lia. destruct Hw. cbv zeta. change MCXN_LPUART_FIFO_DEPTH with 8. cbn [rx_count modify].
    rewrite (wrap_id 8) by lia. split.
    + split; try done; cbn; rewrite ?length_arr_set; lia.
    + unfold uart_abs, rx_items. cbn [rx_fifo rx_head rx_count modify]. rewrite ring_push by lia. done.
Qed.

Lemma uart_pop s : uart_wf s -> rx_count s <> 0 ->
  uart_wf (lpuart_rx_pop s).2 /\ uart_abs s = (uart_abs (lpuart_rx_pop s).2) <| queue := (rx_fifo s).[rx_head s] :: rx_items (lpuart_rx_pop s).2 |>.
Proof.
  intros [] Hc. unfold lpuart_rx_pop. rewrite (proj2 (Z.eqb_neq _ _) Hc). cbv zeta. change MCXN_LPUART_FIFO_DEPTH with 8. cbn [rx_count modify snd].
  rewrite (wrap_id 8) by lia. pose proof (Z.mod_pos_bound (rx_head s + 1) 8 ltac:(lia)). split.
  - split; try done; cbn; lia.
  - unfold uart_abs, rx_items at 1. rewrite ring_pop by lia. done.
Qed.

(** The window decodes as LPUART. *)
Lemma uart_read s off : uart_wf s -> off <> LPFLEXCOMM_PSELID -> off <> LPFLEXCOMM_ISTAT ->
  mcxn_lpuart_read s off =
    if (off =? LPUART_DATA) || (off =? LPUART_DATARO) then lpuart_read_data s (off =? LPUART_DATA) else (lpuart_reg s off, s).
Proof. intros [[]] ??. unfold mcxn_lpuart_read. by rewrite !(proj2 (Z.eqb_neq _ _)) by done. Qed.
Lemma uart_write s off v : uart_wf s -> off <> LPFLEXCOMM_PSELID -> off <> LPFLEXCOMM_ISTAT -> in_range 32 v ->
  mcxn_lpuart_write s off v = lpuart_write s off v.
Proof. intros [[]] ???. unfold mcxn_lpuart_write. rewrite wrap_in_range by done. by rewrite !(proj2 (Z.eqb_neq _ _)) by done. Qed.

Lemma chr_accept_abs s : uart_wf s -> uart_wf (chr_accept s) /\ uart_abs (chr_accept s) = uart_abs s.
Proof.
  intros []. split; [done|]. unfold uart_abs, chr_accept, chr_sent. cbn [chr modify]. rewrite omap_app. cbn [omap list_omap].
  by rewrite app_nil_r.
Qed.

Lemma uart_read_data s pop : uart_wf s ->
  let '(v, s') := lpuart_read_data s pop in
  v = uart_head (uart_abs s) /\ uart_wf s' /\ uart_abs s' = if pop then (uart_abs s) <| queue := tail (queue (uart_abs s)) |> else uart_abs s.
Proof.
  intros Hw. unfold lpuart_read_data, uart_head. cbv zeta. cbn [queue uart_abs]. pose proof (rx_items_len s Hw) as Hlen.
  destruct (Z.eqb_spec (rx_count s) 0) as [E|E]; cbn [negb].
  - rewrite andb_false_r. rewrite E in Hlen. destruct (rx_items s) as [|x q] eqn:Eq; [|cbn [length] in Hlen; lia].
    split; [done|]. split; [done|]. destruct pop; [|done]. unfold uart_abs. by rewrite Eq.
  - rewrite andb_true_r. destruct (uart_pop s Hw E) as [Hw' Ha]. pose proof (f_equal queue Ha) as Hq.
    cbn [queue modify uart_abs] in Hq. rewrite Hq. split; [done|]. destruct pop; [|done].
    destruct (update_abs (lpuart_rx_pop s).2 Hw') as [Hw2 Ha2]. destruct (chr_accept_abs _ Hw2) as [Hw3 Ha3].
    split; [done|]. by rewrite Ha3, Ha2, Ha.
Qed.

(** A register write whose effect on the console is [a]. *)
Lemma uart_stored s' a : uart_wf s' -> uart_abs s' = a ->
  uart_wf (mcxn_flexcomm_update_irq s') /\ uart_abs (mcxn_flexcomm_update_irq s') = a.
Proof. intros Hw <-. by apply update_abs. Qed.

Definition op_ok (op : uart_op) : Prop :=
  match op with
  | Send v | SetCtrl v | SetFifo v | SetWater v | SetGlobal v => in_range 32 v
  | ReadOther off => off <> LPUART_DATA
  | SetOther off v => in_range 32 v /\ Forall (fun o => off <> o) [LPFLEXCOMM_PSELID; LPUART_GLOBAL; LPUART_CTRL; LPUART_DATA; LPUART_FIFO; LPUART_WATER]
  | _ => True
  end.

Lemma fifo_value v : flag v FIFO_RXFLUSH = false ->
  (v .& u32 (.~ LPUART_FIFO_SIZES_MASK)) .& u32 (.~ FIFO_TXFLUSH) =
  v .& u32 (.~ (LPUART_FIFO_SIZES_MASK .| FIFO_RXFLUSH .| FIFO_TXFLUSH)).
Proof.
  intros E%flag_false. rewrite <- Z.land_assoc.
  change (u32 (.~ LPUART_FIFO_SIZES_MASK) .& u32 (.~ FIFO_TXFLUSH))
    with (u32 (.~ (LPUART_FIFO_SIZES_MASK .| FIFO_RXFLUSH .| FIFO_TXFLUSH)) .| FIFO_RXFLUSH).
  by rewrite Z.land_lor_distr_r, E, Z.lor_0_r.
Qed.

Lemma uart_write_fifo s v : uart_wf s -> in_range 32 v ->
  uart_wf (lpuart_write_fifo s v) /\ uart_abs (lpuart_write_fifo s v) = (abs_exec (uart_abs s) (SetFifo v)).1.
Proof.
  intros Hw Hv. unfold lpuart_write_fifo. cbv zeta. apply uart_stored.
  - destruct Hw. by destruct (flag v FIFO_RXFLUSH).
  - cbn [abs_exec fst]. destruct (flag v FIFO_RXFLUSH) eqn:E; unfold uart_abs, chr_accept, chr_sent; cbn [fifo chr modify].
    + rewrite omap_app. cbn [omap list_omap]. rewrite app_nil_r, <- !Z.land_assoc. done.
    + by rewrite fifo_value.
Qed.

(** The other registers. *)
Lemma uart_read_other s off : uart_wf s -> off <> LPUART_DATA -> (mcxn_lpuart_read s off).2 = s.
Proof.
  intros [[]] Hd. unfold mcxn_lpuart_read, lpuart_read_data. cbv zeta. rewrite (proj2 (Z.eqb_neq (pselid s .& _) PERSEL_LPSPI)), (proj2 (Z.eqb_neq (pselid s .& _) PERSEL_LPI2C)) by done.
  rewrite (proj2 (Z.eqb_neq off LPUART_DATA)) by done. by repeat case_match.
Qed.
Lemma uart_write_other s off v : uart_wf s -> in_range 32 v -> Forall (fun o => off <> o) [LPFLEXCOMM_PSELID; LPUART_GLOBAL; LPUART_CTRL; LPUART_DATA; LPUART_FIFO; LPUART_WATER] ->
  uart_view (mcxn_lpuart_write s off v) = uart_view s.
Proof.
  intros Hw Hv Ho. rewrite !Forall_cons in Ho. destruct Ho as (H1 & H2 & H3 & H4 & H5 & H6 & _). destruct (Z.eq_dec off LPFLEXCOMM_ISTAT) as [->|Hi]; [done|].
  rewrite uart_write by done. unfold lpuart_write. rewrite (proj2 (Z.eqb_neq off LPUART_GLOBAL)), (proj2 (Z.eqb_neq off LPUART_CTRL)), (proj2 (Z.eqb_neq off LPUART_DATA)),
    (proj2 (Z.eqb_neq off LPUART_FIFO)), (proj2 (Z.eqb_neq off LPUART_WATER)) by done.
  repeat case_match; first [by rewrite update_view | done].
Qed.

Lemma uart_exec_sim s op : op_ok op -> uart_wf s ->
  (uart_wf (uart_exec s op).1 /\ uart_abs (uart_exec s op).1 = (abs_exec (uart_abs s) op).1) /\
  (uart_exec s op).2 = (abs_exec (uart_abs s) op).2.
Proof.
  intros Hok Hw. pose proof (rx_items_len s Hw) as Hlen. destruct op; cbn [uart_exec op_ok] in *; unfold read1;
    rewrite ?uart_read by (done || discriminate); rewrite ?uart_write by (done || discriminate).
  - split; [|done]. rewrite abs_receive. unfold mcxn_lpuart_rx. cbn [fst]. clear Hlen.
    enough (Hgo : uart_wf (foldl lpuart_rx_byte s bs) /\ uart_abs (foldl lpuart_rx_byte s bs) = foldl abs_rx (uart_abs s) bs)
      by (destruct Hgo; by apply uart_stored).
    revert s Hw. induction bs as [|x bs IH]; intros s Hw; [done|]. cbn [foldl]. destruct (uart_rx_byte s x Hw) as [Hw' <-]. by apply IH.
  - pose proof (uart_read_data s true Hw) as Hd. cbn -[lpuart_read_data]. destruct (lpuart_read_data s true) as [v s'].
    destruct Hd as (-> & Hd). done.
  - pose proof (uart_read_data s false Hw) as Hd. cbn -[lpuart_read_data]. destruct (lpuart_read_data s false) as [v s'].
    destruct Hd as (-> & Hd). done.
  - split; [done|]. cbn [abs_exec snd]. change (lpuart_reg s LPUART_STAT) with (lpuart_stat s). cbn [queue uart_abs]. rewrite Hlen.
    unfold lpuart_stat, lpuart_rdrf. f_equal. rewrite (proj1 (flag_or s Hw)) at 1. cbv zeta. change (water_reg (uart_abs s)) with (water s).
    unfold lpuart_rxwater. cbn [overrun uart_abs]. by destruct (_ <? rx_count s), (flag (stat_or s) STAT_OR).
  - split; [done|]. cbn [abs_exec snd queue uart_abs]. rewrite Hlen. change (lpuart_reg s LPUART_WATER) with ((water s .& 0x00070007) .| ((rx_count s .& 0xF) .<< 24)).
    change 0xF with (Z.ones 4). rewrite Z.land_ones, Z.mod_small; [done | destruct Hw; lia | lia].
  - split; [done|]. cbn [abs_exec snd queue uart_abs]. rewrite Hlen. change (lpuart_reg s LPUART_FIFO) with
      ((if rx_count s =? 0 then (fifo s .& u32 (.~ LPUART_FIFO_SIZES_MASK)) .| LPUART_FIFO_SIZES .| FIFO_RXEMPT
        else (fifo s .& u32 (.~ LPUART_FIFO_SIZES_MASK)) .| LPUART_FIFO_SIZES) .| FIFO_TXEMPT).
    change (fifo_reg (uart_abs s)) with (fifo s). destruct (rx_count s =? 0); [done|]. by rewrite Z.lor_0_r.
  - split; [|done]. apply uart_stored; cbn [abs_exec fst].
    + destruct Hw. by destruct (flag (ctrl s) CTRL_TE).
    + change (ctrl_reg (uart_abs s)) with (ctrl s). destruct (flag (ctrl s) CTRL_TE); [|done]. unfold uart_abs, chr_sent. cbn [chr modify].
      by rewrite omap_app.
  - split; [|done]. apply uart_stored; [by destruct Hw | done].
  - split; [|done]. by apply uart_write_fifo.
  - split; [|done]. apply uart_stored; [by destruct Hw | done].
  - split; [|done]. change (lpuart_write s LPUART_GLOBAL v) with (lpuart_write_global s v). unfold lpuart_write_global. cbn [abs_exec fst].
    destruct (flag v GLOBAL_RST); [|by destruct Hw]. apply uart_stored; [destruct Hw; by split; auto | done].
  - split; [|done]. cbn [fst abs_exec]. by rewrite uart_read_other.
  - split; [|done]. cbn [fst abs_exec]. destruct Hok. by apply view_abs; [apply uart_write_other|].
Qed.

(** ** Flow control *)

(** The guest's view: a character is what DATA returns without RXEMPT. *)
Definition getc (op : uart_op) (out : list Z) : list Z :=
  match op with ReadData => filter (fun v => flag v LPUART_DATA_RXEMPT = false) out | _ => [] end.
Definition guest_exec s (op : uart_op) : MCXNLPUARTState D P * list Z := let '(s', out) := uart_exec s op in (s', getc op out).

(** The backend delivers no more than the device offers to take, and the guest
    neither flushes nor resets. *)
Definition fair s (op : uart_op) : Prop :=
  op_ok op /\
  match op with
  | Receive bs => zlen bs <= mcxn_lpuart_can_rx s /\ Forall (in_range 8) bs
  | SetFifo v => flag v FIFO_RXFLUSH = false
  | SetGlobal v => flag v GLOBAL_RST = false
  | _ => True
  end.
Fixpoint fair_run s (ops : list uart_op) : Prop :=
  match ops with
  | [] => True
  | op :: ops => fair s op /\ fair_run (uart_exec s op).1 ops
  end.
Definition delivered (ops : list uart_op) : list Z :=
  concat (map (fun op => match op with Receive bs => bs | _ => [] end) ops).

(** What the device offers is the room in its queue. *)
Lemma can_rx_room s : uart_wf s -> mcxn_lpuart_can_rx s <= Z.max 0 (uart_depth (uart_abs s) - zlen (queue (uart_abs s))).
Proof.
  intros Hw. cbn [queue uart_abs]. rewrite rx_items_len by done. change (uart_depth (uart_abs s)) with (lpuart_rx_depth s).
  assert (Hd : 1 <= lpuart_rx_depth s <= 8) by (unfold lpuart_rx_depth, MCXN_LPUART_FIFO_DEPTH; destruct (flag _ _); lia).
  unfold mcxn_lpuart_can_rx. destruct (flag (ctrl s) CTRL_RE); cbn [negb]; [|lia]. destruct Hw.
  rewrite (swrap_cong 32 _ (lpuart_rx_depth s - rx_count s)), swrap_id by (try (unfold wrap; rewrite Zminus_mod_idemp_l, Z.sub_diag); lia || done). lia.
Qed.

(** One fair operation on the abstract console. *)
Lemma fair_abs s op : uart_wf s -> fair s op -> Forall (in_range 8) (queue (uart_abs s)) ->
  let '(a, out) := abs_exec (uart_abs s) op in
  queue (uart_abs s) ++ delivered [op] = getc op out ++ queue a /\ overrun a = overrun (uart_abs s) /\ Forall (in_range 8) (queue a).
Proof.
  intros Hw [_ Hf] Hq. pose proof (can_rx_room s Hw) as Hr. unfold delivered, getc. cbn [map concat]. rewrite ?app_nil_r.
  destruct op; cbn [abs_exec]; try (by rewrite app_nil_r).
  - destruct Hf as [Hlen Hbs]. cbn [queue overrun modify app]. rewrite take_ge by lia.
    rewrite (proj2 (Z.ltb_ge _ _)), orb_false_r by lia. split; [done|]. split; [done|]. by apply Forall_app.
  - cbn [queue overrun modify]. rewrite app_nil_r. unfold uart_head. destruct (queue (uart_abs s)) as [|x q] eqn:E; [done|].
    inversion_clear Hq as [|? ? Hx Hqs]. assert (Hfl : flag x LPUART_DATA_RXEMPT = false).
    { change LPUART_DATA_RXEMPT with (bit 12). rewrite flag_bit by lia. apply (testbit_range 8); [done | lia]. }
    rewrite filter_cons_True by done. done.
  - rewrite app_nil_r. by destruct (flag _ _).
  - rewrite app_nil_r, Hf. done.
  - rewrite app_nil_r, Hf. done.
Qed.

Lemma fair_step s op : uart_wf s -> fair s op -> Forall (in_range 8) (rx_items s) ->
  let '(s', out) := guest_exec s op in
  uart_wf s' /\ Forall (in_range 8) (rx_items s') /\ rx_items s ++ delivered [op] = out ++ rx_items s' /\
  flag (stat_or s') STAT_OR = flag (stat_or s) STAT_OR.
Proof.
  intros Hw Hf Hq. pose proof (fair_abs s op Hw Hf Hq) as Ha. destruct (uart_exec_sim s op (proj1 Hf) Hw) as [[Hw' Hs] Ho].
  unfold guest_exec. destruct (uart_exec s op) as [s' out], (abs_exec (uart_abs s) op) as [a out']. cbn [fst snd] in *.
  subst a out'. destruct Ha as (H1 & H2 & H3). done.
Qed.
End uart.

(** C22: The console receives through a queue.  While PSELID keeps the LPUART
    selected, for any sequence of delivered characters and of reads and writes of any
    register, the receiver behaves as a queue of one character, or of eight under RXFE:
    DATA returns characters in the order of their arrival (or RXEMPT), RDRF and the count
    report the queue against the watermark; a delivered character is lost only to a full
    queue, which sets the overrun flag; a write of FIFO with RXFLUSH empties the queue
    and leaves the flag, a software reset (GLOBAL[RST]) empties it, clears the flag and
    turns receiver and transmitter off; with TE set every character written to DATA is
    sent, in order; and no other register has an effect on the queue. *)
Theorem lpuart_refines_queue {D P} `{I2CSlaveClass D} `{SSIPeripheralClass P} (s : MCXNLPUARTState D P) ops :
  uart_wf s -> Forall op_ok ops ->
  let '(s', out) := run_ops uart_exec s ops in
  let '(a, out') := run_ops abs_exec (uart_abs s) ops in
  out = out' /\ uart_abs s' = a.
Proof.
  intros Hw Hops. destruct (run_ops_simulates uart_exec abs_exec (fun s a => uart_wf s /\ uart_abs s = a) op_ok) with (ops := ops) (s := s) (a := uart_abs s)
    as [[_ H1] H2]; [|done|done|].
  - intros s0 a op Hok [Hw0 <-]. by apply uart_exec_sim.
  - destruct (run_ops uart_exec s ops), (run_ops abs_exec (uart_abs s) ops). done.
Qed.

Definition console_ops : list uart_op :=
  [SetFifo FIFO_RXFE; SetOther LPUART_BAUD 0x0F000004; SetWater 0x10000; Receive [65]; ReadStat; Receive [66; 67]; ReadStat; ReadData; ReadWater; ReadData;
   SetGlobal GLOBAL_RST; ReadData].
Lemma console_wf : uart_wf console.
Proof. split; vm_compute; try (split; congruence); auto. Qed.
Lemma lpuart_refines_queue_witness :
  (run_ops uart_exec console console_ops).2 = [STAT_TDRE .| STAT_TC; STAT_TDRE .| STAT_TC .| STAT_RDRF; 65; 0x02010000; 66; LPUART_DATA_RXEMPT].
Proof.
  pose proof (lpuart_refines_queue console console_ops console_wf
    ltac:(repeat (apply Forall_cons; split; [first [exact I | split; vm_compute; congruence | split; [split; vm_compute; congruence | repeat constructor; discriminate]]|]);
      apply Forall_nil_2)) as Hr.
  destruct (run_ops uart_exec console console_ops) as [s' out]. revert Hr.
  destruct (run_ops abs_exec (uart_abs console) console_ops) as [a out'] eqn:E. intros [-> _]. cbn [snd].
  transitivity (run_ops abs_exec (uart_abs console) console_ops).2; [by rewrite E | vm_compute; reflexivity].
Defined.

(** Flow control loses nothing.  When the character backend delivers no
    more than the device offers to take and the guest neither flushes nor resets, then over
    any sequence of operations the characters that the guest reads, followed by
    those still in the FIFO, are exactly the characters delivered, in order, and
    no overrun is flagged. *)
Theorem lpuart_flow_control {D P} `{I2CSlaveClass D} `{SSIPeripheralClass P} (s : MCXNLPUARTState D P) ops :
  uart_wf s -> Forall (in_range 8) (rx_items s) -> fair_run s ops ->
  let '(s', out) := run_ops guest_exec s ops in
  rx_items s ++ delivered ops = out ++ rx_items s' /\ flag (stat_or s') STAT_OR = flag (stat_or s) STAT_OR.
Proof.
  revert s. induction ops as [|op ops IH]; intros s Hw Hq Hf.
  { cbn. by rewrite app_nil_r. }
  destruct Hf as [Hop Hf]. rewrite run_ops_cons. pose proof (fair_step s op Hw Hop Hq) as Hst. unfold guest_exec in *.
  destruct (uart_exec s op) as [s1 o1]. cbn [fst] in Hf. destruct Hst as (Hw1 & Hq1 & E1 & O1). specialize (IH s1 Hw1 Hq1 Hf).
  fold (guest_exec (D := D) (P := P)) in *. destruct (run_ops _ s1 ops) as [s2 o2]. destruct IH as [E2 O2].
  split; [|congruence]. change (delivered (op :: ops)) with ((match op with Receive bs => bs | _ => [] end) ++ delivered ops).
  unfold delivered in E1 at 1. cbn [map concat] in E1. rewrite app_nil_r in E1. by rewrite app_assoc, E1, <- !app_assoc, E2.
Qed.

Lemma lpuart_flow_control_witness :
  let ops := [SetFifo FIFO_RXFE; SetCtrl CTRL_RE; Receive [72; 105; 33]; ReadData; ReadData] in
  (run_ops guest_exec console ops).2 ++ rx_items (run_ops guest_exec console ops).1 = [72; 105; 33].
Proof.
  intros ops. pose proof (lpuart_flow_control console ops console_wf) as Hr. destruct (run_ops guest_exec console ops) as [s' out].
  cbn [fst snd]. destruct Hr as [<- _].
  - vm_compute. apply Forall_nil_2.
  - repeat split; vm_compute; try congruence. repeat (apply Forall_cons; split; [split; vm_compute; congruence|]). apply Forall_nil_2.
  - vm_compute. reflexivity.
Defined.

(** ** Departures from the code's intent *)

(** The overrun flag is state of its own, but the write of STAT that drivers
    clear it with is ignored: only a software reset of the block clears it. *)
Theorem lpuart_overrun_sticks :
  let s := mcxn_lpuart_rx (mcxn_lpuart_write console LPUART_CTRL CTRL_RE) [1; 2] in
  flag (lpuart_stat s) STAT_OR = true /\ mcxn_lpuart_write s LPUART_STAT STAT_OR = s.
Proof. vm_compute. auto. Qed.

(** A software reset clears BAUD to zero instead of its reset value, whose
    oversampling ratio drivers divide by. *)
Theorem lpuart_soft_reset_baud :
  baud console = LPUART_BAUD_RESET /\ baud (mcxn_lpuart_write console LPUART_GLOBAL GLOBAL_RST) = 0.
Proof. vm_compute. auto. Qed.

(** Turning the FIFO off over buffered characters makes the room offered to the
    backend negative. *)
Theorem lpuart_can_rx_negative :
  let s := mcxn_lpuart_write (mcxn_lpuart_write console LPUART_CTRL CTRL_RE) LPUART_FIFO FIFO_RXFE in
  mcxn_lpuart_can_rx (mcxn_lpuart_write (mcxn_lpuart_rx s [1; 2; 3]) LPUART_FIFO 0) = -2.
Proof. vm_compute. reflexivity. Qed.
