(* ===== verification/Lpi2c.v ===== *)
(** * LPI2C: the I2C controller function of a FlexComm

    The command engine of [hw/char/mcxn_lpuart.c] over the bus of
    [hw/i2c/core.c], and the transfers of a driver with an EEPROM
    ([hw/nvram/eeprom_at24c.c]) on it; the model is in [FlexComm]. *)
From S2P Require Import Prelude I2c At24c Ssi FlexComm.

Section lpi2c.
Context {D P : Type} `{I2CSlaveClass D} `{SSIPeripheralClass P}.
Implicit Types s : MCXNLPUARTState D P.

(** The accesses of a driver: a command, and a read of the receive register. *)
Definition mtdr s (cmd data : Z) : MCXNLPUARTState D P := mcxn_lpuart_write s (LPI2C_WINDOW + LPI2C_MTDR) ((cmd .<< 8) .| data).
Definition mrdr s : Z * MCXNLPUARTState D P := mcxn_lpuart_read s (LPI2C_WINDOW + LPI2C_MRDR).
Definition mtdrs s (cmds : list (Z * Z)) : MCXNLPUARTState D P := foldl (fun s c => mtdr s c.1 c.2) s cmds.
Fixpoint mrdrs (n : nat) s : list Z * MCXNLPUARTState D P :=
  match n with
  | O => ([], s)
  | S n => let '(v, s) := mrdr s in let '(vs, s) := mrdrs n s in (v :: vs, s)
  end.

(** The controller: enabled, the lookahead byte [la], [pend] more to receive. *)
Record i2c_st s (b : I2CBus D) (msr : Z) (busy : bool) (pend : Z) (la : option Z) : Prop := {
  st_sel : pselid s .& PSELID_PERSEL = PERSEL_LPI2C;
  st_men : flag (i2c_mcr s) LPI2C_MCR_MEN = true;
  st_bus : i2c_bus s = b;
  st_msr : i2c_msr s = msr;
  st_busy : i2c_busy s = busy;
  st_pend : i2c_rx_pending s = pend;
  st_full : i2c_rx_full s = bool_decide (is_Some la);
  st_la : forall x, la = Some x -> i2c_mrdr s = x;
}.

Definition i2c_view s := (pselid s, i2c_mcr s, i2c_bus s, i2c_msr s, (i2c_busy s, i2c_rx_pending s, i2c_rx_full s, i2c_mrdr s)).
Lemma update_st s b msr busy pend la : i2c_st s b msr busy pend la -> i2c_st (mcxn_flexcomm_update_irq s) b msr busy pend la.
Proof.
  assert (E : i2c_view (mcxn_flexcomm_update_irq s) = i2c_view s).
  { unfold mcxn_flexcomm_update_irq, mcxn_flexcomm_update_dma. cbv zeta. by repeat case_match. }
  unfold i2c_view in E. injection E as E1 E2 E3 E4 E5 E6 E7 E8. intros []. split; try congruence.
  intros x Hx. rewrite E8. by apply st_la0.
Qed.

Lemma mtdr_command s b msr busy pend la cmd data : i2c_st s b msr busy pend la -> 0 <= cmd < 8 -> in_range 8 data ->
  mtdr s cmd data = mcxn_flexcomm_update_irq (lpi2c_command s cmd data).
Proof.
  intros [] Hc Hd. unfold mtdr, mcxn_lpuart_write. rewrite st_sel0.
  assert (Hr : in_range 32 ((cmd .<< 8) .| data)).
  { apply in_range_lor; [lia | | by apply (in_range_mono 8); [lia|]]. unfold in_range. rewrite Z.shiftl_mul_pow2 by lia. lia. }
  rewrite wrap_in_range by done. change (mcxn_lpi2c_write s (LPI2C_WINDOW + LPI2C_MTDR - LPI2C_WINDOW)) with (lpi2c_write_mtdr s).
  unfold lpi2c_write_mtdr. rewrite st_men0.
  assert (E1 : (((cmd .<< 8) .| data) .& LPI2C_MTDR_CMD_MASK) .>> LPI2C_MTDR_CMD_SHIFT = cmd).
  { change LPI2C_MTDR_CMD_MASK with (Z.ones 3 .<< 8). unfold LPI2C_MTDR_CMD_SHIFT. rewrite Z.shiftr_land, Z.shiftr_lor, !Z.shiftr_shiftl_l by lia.
    change (8 - 8) with 0. rewrite !Z.shiftl_0_r, Z.shiftr_div_pow2, (Z.div_small data) by (done || lia).
    rewrite Z.lor_0_r, Z.land_ones, Z.mod_small; lia. }
  assert (E2 : ((cmd .<< 8) .| data) .& LPI2C_MTDR_DATA_MASK = data).
  { change LPI2C_MTDR_DATA_MASK with (Z.ones 8). rewrite Z.land_lor_distr_l, !Z.land_ones, Z.shiftl_mul_pow2, Z.mod_mul by lia.
    rewrite Z.lor_0_l. by apply Z.mod_small. }
  by rewrite E1, E2.
Qed.

(** ** The commands *)

Lemma byte_bit0 a (rd : bool) : 0 <= a < 128 -> let data := a * 2 + Z.b2z rd in
  in_range 8 data /\ data .>> 1 = a /\ flag data 1 = rd.
Proof.
  intros Ha. cbv zeta. unfold in_range. split; [destruct rd; cbn; lia|]. split.
  - rewrite Z.shiftr_div_pow2 by lia. destruct rd; cbn [Z.b2z]; dlia.
  - change 1 with (bit 0) at 1. rewrite flag_bit, Z.bit0_odd, Z.odd_add, Z.odd_mul by lia. destruct rd; by rewrite andb_false_r.
Qed.

Lemma st_start s b msr busy pend la cmd a (rd : bool) b' : i2c_st s b msr busy pend la -> 4 <= cmd < 8 -> 0 <= a < 128 ->
  i2c_start_transfer b a rd = (b', 0) -> i2c_st (mtdr s cmd (a * 2 + Z.b2z rd)) b' msr true pend la.
Proof.
  intros Hst Hc Ha Hb. destruct (byte_bit0 a rd Ha) as (Hd & E1 & E2). rewrite (mtdr_command s b msr busy pend la) by (done || lia).
  apply update_st. unfold lpi2c_command. rewrite (proj2 (Z.leb_le _ _)) by (unfold LPI2C_CMD_START; lia).
  destruct Hst. rewrite st_bus0, E1, E2, Hb. by split.
Qed.

Lemma st_send s b msr busy pend la x b' : i2c_st s b msr busy pend la -> in_range 8 x -> i2c_send b x = (b', 0) ->
  i2c_st (mtdr s LPI2C_CMD_TXDATA x) b' msr busy pend la.
Proof.
  intros Hst Hx Hb. rewrite (mtdr_command s b msr busy pend la) by (done || unfold LPI2C_CMD_TXDATA; lia). apply update_st.
  unfold lpi2c_command. destruct Hst. rewrite st_bus0, Hb. by split.
Qed.

Lemma st_stop s b msr busy pend la : i2c_st s b msr busy pend la ->
  i2c_st (mtdr s LPI2C_CMD_STOP 0) (i2c_end_transfer b) (msr .| (LPI2C_MSR_SDF .| LPI2C_MSR_EPF)) false 0 la.
Proof.
  intros Hst. rewrite (mtdr_command s b msr busy pend la) by (done || unfold LPI2C_CMD_STOP, in_range; lia). apply update_st.
  unfold lpi2c_command. destruct Hst. rewrite st_bus0. split; try done. cbn. by rewrite st_msr0.
Qed.

(** A receive command fetches its first byte at once. *)
Lemma st_receive s b msr busy n b' x : i2c_st s b msr busy 0 None -> 1 <= n <= 256 -> i2c_recv b = (b', x) ->
  i2c_st (mtdr s LPI2C_CMD_RXDATA (n - 1)) b' msr busy (n - 1) (Some x).
Proof.
  intros Hst Hn Hb. rewrite (mtdr_command s b msr busy 0 None) by (done || unfold LPI2C_CMD_RXDATA, in_range; lia). apply update_st.
  destruct Hst. unfold lpi2c_command. cbn [Z.leb Z.eqb]. rewrite st_pend0. change (LPI2C_CMD_START <=? LPI2C_CMD_RXDATA) with false.
  change (LPI2C_CMD_RXDATA =? LPI2C_CMD_TXDATA) with false. change (LPI2C_CMD_RXDATA =? LPI2C_CMD_RXDATA) with true. cbv iota zeta.
  cbn [i2c_rx_full i2c_rx_pending i2c_bus modify]. rewrite st_full0, st_bus0, Hb, (wrap_id 32 (0 + _)) by lia.
  rewrite (proj2 (Z.eqb_neq _ _)) by lia. cbn [negb andb bool_decide]. split; try done.
  - cbn. rewrite wrap_id; lia.
  - cbn. congruence.
Qed.

(** Reading the receive register returns the lookahead byte and fetches the next. *)
Lemma st_mrdr s b msr busy pend x : i2c_st s b msr busy pend (Some x) -> 0 <= pend < 2 ^ 32 ->
  (mrdr s).1 = x /\
  (pend = 0 -> i2c_st (mrdr s).2 b msr busy 0 None) /\
  (forall b' y, 0 < pend -> i2c_recv b = (b', y) -> i2c_st (mrdr s).2 b' msr busy (pend - 1) (Some y)).
Proof.
  intros Hst Hp. assert (E : mrdr s = lpi2c_read_mrdr s).
  { destruct Hst. unfold mrdr, mcxn_lpuart_read. by rewrite st_sel0. }
  rewrite E. unfold lpi2c_read_mrdr. destruct Hst. rewrite st_full0, st_pend0, st_bus0. change (bool_decide (is_Some (Some x))) with true.
  cbv iota zeta. cbn [fst snd]. split; [by apply st_la0|]. split.
  - intros ->. cbn [Z.eqb negb]. apply update_st. by split.
  - intros b' y Hpos Hb. rewrite (proj2 (Z.eqb_neq _ _)), Hb by lia. cbn [negb]. apply update_st. split; try done.
    + cbn. apply wrap_id. lia.
    + cbn. congruence.
Qed.
End lpi2c.

(** ** An EEPROM on the bus *)

Section eeprom.
Context {P : Type} `{SSIPeripheralClass P}.
Implicit Types s : MCXNLPUARTState EEPROMState P.
Implicit Types b : I2CBus EEPROMState.

Definition tx (bs : list Z) : list (Z * Z) := map (fun x => (LPI2C_CMD_TXDATA, x)) bs.

(** A driver's transfers with the EEPROM at address [addr], of [asz] address bytes. *)
Definition eeprom_write s (addr asz off : Z) (bs : list Z) : MCXNLPUARTState EEPROMState P :=
  mtdrs s ([(LPI2C_CMD_START, addr * 2)] ++ tx (addr_bytes asz off ++ bs) ++ [(LPI2C_CMD_STOP, 0)]).
Definition eeprom_read s (addr asz off : Z) (n : nat) : list Z * MCXNLPUARTState EEPROMState P :=
  let s := mtdrs s ([(LPI2C_CMD_START, addr * 2)] ++ tx (addr_bytes asz off) ++
                    [(LPI2C_CMD_START, addr * 2 + 1); (LPI2C_CMD_RXDATA, Z.of_nat n - 1)]) in
  let '(vs, s) := mrdrs n s in
  (vs, mtdrs s [(LPI2C_CMD_STOP, 0)]).

Lemma send_result ee x : (at24c_eeprom_send ee x).2 = 0.
Proof. unfold at24c_eeprom_send. by destruct (_ <? _). Qed.

Context (b : I2CBus EEPROMState) (addr : Z) (k : nat) (ee0 : EEPROMState) (Han : answers b addr k ee0).

Lemma st_sends s msr busy pend la ee bs : i2c_st s (talking b k ee) msr busy pend la -> Forall (in_range 8) bs ->
  i2c_st (mtdrs s (tx bs)) (talking b k (sends ee bs)) msr busy pend la.
Proof.
  intros Hst Hbs. revert s ee Hst. induction Hbs as [|x bs Hx _ IH]; intros s ee Hst; [done|]. cbn.
  apply IH. apply (st_send s (talking b k ee)); [done..|]. apply (talking_send b addr k ee0 Han ee x (at24c_eeprom_send ee)); [done|].
  rewrite <- (send_result ee x). apply surjective_pairing.
Qed.

Lemma st_mrdrs n s msr busy ee x : i2c_st s (talking b k ee) msr busy (Z.of_nat n) (Some x) -> Z.of_nat n < 2 ^ 32 ->
  let '(vs, s') := mrdrs (S n) s in
  let '(ee', ys) := recvs n ee in
  vs = x :: ys /\ i2c_st s' (talking b k ee') msr busy 0 None.
Proof.
  revert s ee x. induction n as [|n IH]; intros s ee x Hst Hn.
  - destruct (st_mrdr s _ _ _ _ _ Hst ltac:(lia)) as (Hv & H0 & _). cbn [mrdrs recvs]. destruct (mrdr s) as [v s'].
    cbn [fst snd] in *. subst v. split; [done|]. by apply H0.
  - destruct (st_mrdr s _ _ _ _ _ Hst ltac:(lia)) as (Hv & _ & Hnext). cbn [recvs].
    destruct (at24c_eeprom_recv ee) as [ee1 y] eqn:Er. specialize (Hnext (talking b k ee1) y ltac:(lia)).
    change (mrdrs (S (S n)) s) with (let '(v, s) := mrdr s in let '(vs, s) := mrdrs (S n) s in (v :: vs, s)).
    destruct (mrdr s) as [v s1]. cbn [fst snd] in *. subst v.
    assert (Hst1 : i2c_st s1 (talking b k ee1) msr busy (Z.of_nat n) (Some y)).
    { replace (Z.of_nat n) with (Z.of_nat (S n) - 1) by lia. apply Hnext. apply (talking_recv b addr k ee0 Han ee). cbn. by rewrite Er. }
    specialize (IH s1 ee1 y Hst1 ltac:(lia)). destruct (mrdrs (S n) s1) as [vs s2], (recvs n ee1) as [ee2 ys].
    destruct IH as [-> IH]. done.
Qed.

(** A START with the write bit, the cell's address, and the counter is there. *)
Definition started (ee : EEPROMState) : EEPROMState := at24c_flush (ee <| haveaddr := 0 |>).

Lemma addr_bytes_range ee off : at24c_wf ee -> 0 <= off < rsize ee -> Forall (in_range 8) (addr_bytes (asize ee) off).
Proof.
  intros [Hs _ Ha _] Ho. unfold addr_bytes, in_range. destruct Ha as [-> | [-> Hd]].
  - change 0xFF with (Z.ones 8). rewrite Z.land_ones, Z.shiftr_div_pow2 by lia. cbn [Z.eqb Pos.eqb]. repeat apply Forall_cons_2; [dlia.. | by apply Forall_nil_2].
  - apply Z.divide_pos_le in Hd; [|lia]. apply Forall_cons_2; [lia | by apply Forall_nil_2].
Qed.

Lemma started_wf ee : at24c_wf ee -> at24c_wf (started ee) /\ haveaddr (started ee) = 0 /\ mem (started ee) = mem ee /\
  rsize (started ee) = rsize ee /\ asize (started ee) = asize ee /\ writable (started ee) = writable ee /\ (blk (started ee) = None <-> blk ee = None).
Proof. intros []. unfold started, at24c_flush. destruct ee as [? ? ? ? [] ? ? []]; by split_and!. Qed.

Lemma st_address s msr busy off : i2c_st s b msr busy 0 None -> 0 < addr < 128 -> at24c_wf ee0 -> 0 <= off < rsize ee0 ->
  i2c_st (mtdrs s ((LPI2C_CMD_START, addr * 2) :: tx (addr_bytes (asize ee0) off))) (talking b k (at_cell (started ee0) off)) msr true 0 None.
Proof.
  intros Hst Ha Hw Ho. destruct (started_wf ee0 Hw) as (Hw1 & Hh & _ & Hr & Has & _).
  rewrite <- Hr in Ho. rewrite <- Has, <- (at24c_addressed (started ee0) off) by done. cbn [mtdrs foldl fst snd]. apply st_sends; [|by apply addr_bytes_range].
  rewrite <- (Z.add_0_r (addr * 2)). change 0 with (Z.b2z false) at 1. apply (st_start s b msr busy); [done | unfold LPI2C_CMD_START; lia | lia|].
  unfold i2c_start_transfer. by apply (start_free b addr k ee0 Han _ (at24c_eeprom_event ee0)).
Qed.

Lemma st_finish s msr busy la ee : i2c_st s (talking b k ee) msr busy 0 la ->
  let ee' := at24c_flush (ee <| haveaddr := 0 |>) in
  i2c_st (mtdrs s [(LPI2C_CMD_STOP, 0)]) (upd_dev b k ee') (msr .| (LPI2C_MSR_SDF .| LPI2C_MSR_EPF)) false 0 la /\
  answers (upd_dev b k ee') addr k ee'.
Proof.
  intros Hst. destruct (talking_end b addr k ee0 Han ee (at24c_eeprom_event ee) (at24c_flush (ee <| haveaddr := 0 |>)) 0) as [E Ha]; [done..|].
  split; [|done]. cbn [mtdrs foldl fst snd]. rewrite <- E. by apply (st_stop s (talking b k ee) msr busy 0 la).
Qed.

Lemma mtdrs_app s l1 l2 : mtdrs s (l1 ++ l2) = mtdrs (mtdrs s l1) l2.
Proof. apply foldl_app. Qed.

(** What a write transfer leaves: [bs] in the cells from [off] on, and the drive
    up to date. *)
Record written (ee : EEPROMState) (off : Z) (bs : list Z) (ee' : EEPROMState) : Prop := {
  wr_wf : at24c_wf ee';
  wr_mem : mem ee' = list_inserts (Z.to_nat off) bs (mem ee);
  wr_geometry : rsize ee' = rsize ee /\ asize ee' = asize ee /\ writable ee' = writable ee;
  wr_clean : changed ee' = false;
  wr_drive : match blk ee' with Some images => images !! 0%nat = Some (mem ee') | None => blk ee = None end;
}.

Lemma eeprom_write_spec s msr busy off bs : i2c_st s b msr busy 0 None -> 0 < addr < 128 -> at24c_wf ee0 -> writable ee0 = true ->
  Forall (in_range 8) bs -> bs <> [] -> 0 <= off -> off + zlen bs <= rsize ee0 ->
  exists ee', i2c_st (eeprom_write s addr (asize ee0) off bs) (upd_dev b k ee') (msr .| (LPI2C_MSR_SDF .| LPI2C_MSR_EPF)) false 0 None /\
    answers (upd_dev b k ee') addr k ee' /\ written ee0 off bs ee'.
Proof.
  intros Hst Ha Hw Hwr Hbs Hne Ho Hlen. assert (0 < zlen bs) by (destruct bs; [done | cbn; lia]).
  destruct (started_wf ee0 Hw) as (Hw1 & _ & Hm1 & Hr1 & Has1 & Hwr1 & Hb1).
  pose proof (st_address s msr busy off Hst Ha Hw ltac:(lia)) as H1.
  pose proof (st_sends _ _ _ _ _ _ _ H1 Hbs) as H2. rewrite at24c_writes in H2 by (rewrite ?Hr1; congruence || lia).
  destruct (st_finish _ _ _ _ _ H2) as [H3 H4]. eexists. split; [|split; [exact H4|]].
  - unfold eeprom_write, tx. rewrite map_app. fold (tx (addr_bytes (asize ee0) off)) (tx bs). rewrite <- app_assoc, app_assoc, mtdrs_app, mtdrs_app. exact H3.
  - rewrite bool_decide_eq_false_2 by done. cbn [negb]. rewrite orb_true_r, Hm1, Hr1. pose proof (Z.mod_pos_bound (off + zlen bs) (rsize ee0)).
    destruct Hw1 as [Hs1 Hm1' Ha1 Hc1]. set (ee1 := _ <| haveaddr := 0 |>). destruct (flush_same ee1) as (F1 & F2 & F3 & F4 & F5).
    change (mem ee1) with (list_inserts (Z.to_nat off) bs (mem ee0)) in F4. change (rsize ee1) with (rsize (started ee0)) in F2. split.
    + split; rewrite ?F1, ?F2, ?F3, ?F4; try done; [rewrite length_inserts; congruence|].
      change (cur ee1) with ((off + zlen bs) mod rsize ee0). unfold in_range. lia.
    + done.
    + rewrite F2, F3, F5. done.
    + unfold at24c_flush. by destruct (blk ee1).
    + assert (Hbl : blk (at24c_flush ee1) = match blk (started ee0) with Some im => Some (mem ee1 :: im) | None => None end).
      { unfold at24c_flush. change (blk ee1) with (blk (started ee0)). destruct (blk (started ee0)) eqn:E; [done | exact E]. }
      rewrite F4, Hbl. destruct (blk (started ee0)); [done | by apply Hb1].
Qed.

Lemma eeprom_read_spec s msr busy off n : i2c_st s b msr busy 0 None -> 0 < addr < 128 -> at24c_wf ee0 ->
  0 <= off -> (1 <= n <= 256)%nat -> off + Z.of_nat n <= rsize ee0 ->
  exists ee', (eeprom_read s addr (asize ee0) off n).1 = slice off (Z.of_nat n) (mem ee0) /\
    i2c_st (eeprom_read s addr (asize ee0) off n).2 (upd_dev b k ee') (msr .| (LPI2C_MSR_SDF .| LPI2C_MSR_EPF)) false 0 None /\
    answers (upd_dev b k ee') addr k ee' /\ mem ee' = mem ee0 /\ (changed ee0 = false -> blk ee' = blk ee0).
Proof.
  intros Hst Ha Hw Ho Hn Hlen. destruct (started_wf ee0 Hw) as (Hw1 & _ & Hm1 & Hr1 & Has1 & _).
  pose proof (st_address s msr busy off Hst Ha Hw ltac:(lia)) as H1. set (s1 := mtdrs s _) in H1. set (eeR := at_cell (started ee0) off) in H1.
  assert (Hrecv : at24c_eeprom_event eeR I2C_START_RECV = (at24c_flush eeR, 0)) by done.
  assert (H2 : i2c_st (mtdr s1 LPI2C_CMD_START (addr * 2 + 1)) (talking b k (at24c_flush eeR)) msr true 0 None).
  { apply (st_start s1 (talking b k eeR) msr true 0 None LPI2C_CMD_START addr true); [done | unfold LPI2C_CMD_START; lia | lia |].
    apply (start_again b addr k ee0 Han addr I2C_START_RECV eeR (at24c_eeprom_event eeR)); [apply Han | done | done]. }
  pose proof (at24c_reads n (started ee0) off Hw1) as Hrd. rewrite Hr1, Hm1 in Hrd. specialize (Hrd ltac:(lia) Hlen).
  fold eeR in Hrd. rewrite flush_clean in H2 by done.
  destruct n as [|m]; [lia|]. cbn [recvs] in Hrd. destruct (at24c_eeprom_recv eeR) as [ee1 v] eqn:Er.
  assert (H3 : i2c_st (mtdr (mtdr s1 LPI2C_CMD_START (addr * 2 + 1)) LPI2C_CMD_RXDATA (Z.of_nat (S m) - 1)) (talking b k ee1) msr true (Z.of_nat m) (Some v)).
  { replace (Z.of_nat m) with (Z.of_nat (S m) - 1) by lia. apply (st_receive _ (talking b k eeR)); [done | lia |].
    apply (talking_recv b addr k ee0 Han eeR). cbn. by rewrite Er. }
  pose proof (st_mrdrs m _ _ _ _ _ H3 ltac:(lia)) as H4. destruct (recvs m ee1) as [ee2 ys]. injection Hrd as -> Hys.
  unfold eeprom_read. rewrite app_assoc, mtdrs_app. change (mtdrs s ([(LPI2C_CMD_START, addr * 2)] ++ tx (addr_bytes (asize ee0) off))) with s1.
  change (mtdrs s1 [(LPI2C_CMD_START, addr * 2 + 1); (LPI2C_CMD_RXDATA, Z.of_nat (S m) - 1)])
    with (mtdr (mtdr s1 LPI2C_CMD_START (addr * 2 + 1)) LPI2C_CMD_RXDATA (Z.of_nat (S m) - 1)).
  destruct (mrdrs (S m) _) as [vs s4]. destruct H4 as [-> H4]. destruct (st_finish _ _ _ _ _ H4) as [H5 H6].
  eexists. split; [by rewrite <- Hys|]. split; [exact H5|]. split; [exact H6|].
  rewrite flush_clean by done. split; [done|]. intros Hch. unfold started. by rewrite flush_clean.
Qed.
End eeprom.

Lemma slice_inserts (l bs : list Z) off : 0 <= off -> off + zlen bs <= zlen l ->
  slice off (zlen bs) (list_inserts (Z.to_nat off) bs l) = bs.
Proof.
  intros Ho Hl. unfold slice. rewrite Nat2Z.id. rewrite <- (take_drop (Z.to_nat off) l) at 1.
  replace (Z.to_nat off) with (length (take (Z.to_nat off) l) + 0)%nat at 2 by (rewrite length_take; lia).
  rewrite list_inserts_app_r, drop_app_length' by (rewrite length_take; lia).
  rewrite <- (take_drop (length bs) (drop (Z.to_nat off) l)), list_inserts_0_r, take_app_length; [done|].
  rewrite length_take, length_drop. lia.
Qed.

(** The controller is the selected function, enabled, with nothing to receive. *)
Definition i2c_idle {D P} (s : MCXNLPUARTState D P) : Prop :=
  pselid s .& PSELID_PERSEL = PERSEL_LPI2C /\ flag (i2c_mcr s) LPI2C_MCR_MEN = true /\ i2c_rx_pending s = 0 /\ i2c_rx_full s = false.

(** C21: What is written to an EEPROM over LPI2C is read back.  With an EEPROM at
    [addr] on the I2C bus of a FlexComm, the driver's command sequence START,
    address, data, STOP stores the data in the cells from [off] on and nowhere
    else; the sequence START, address, repeated START, RXDATA and as many reads
    of MRDR returns exactly that data.  No byte is refused, no other device of
    the bus is touched, and a drive behind the EEPROM holds the new contents. *)
Theorem lpi2c_eeprom_roundtrip {P} `{SSIPeripheralClass P} (s : MCXNLPUARTState EEPROMState P) addr k ee off bs :
  i2c_idle s -> answers (i2c_bus s) addr k ee -> 0 < addr < 128 -> at24c_wf ee -> writable ee = true ->
  Forall (in_range 8) bs -> 1 <= zlen bs <= 256 -> 0 <= off -> off + zlen bs <= rsize ee ->
  let s1 := eeprom_write s addr (asize ee) off bs in
  let '(vs, s2) := eeprom_read s1 addr (asize ee) off (length bs) in
  vs = bs /\ flag (i2c_msr s2) LPI2C_MSR_NDF = flag (i2c_msr s) LPI2C_MSR_NDF /\
  exists ee', i2c_bus s2 = upd_dev (i2c_bus s) k ee' /\ mem ee' = list_inserts (Z.to_nat off) bs (mem ee) /\
    match blk ee' with Some images => images !! 0%nat = Some (mem ee') | None => blk ee = None end.
Proof.
  intros (Hsel & Hmen & Hp & Hf) Han Ha Hw Hwr Hbs Hlen Ho Hr. cbv zeta.
  assert (Hst : i2c_st s (i2c_bus s) (i2c_msr s) (i2c_busy s) 0 None) by (by split).
  destruct (eeprom_write_spec _ _ _ _ Han s _ _ off bs Hst Ha Hw Hwr Hbs ltac:(by destruct bs; cbn in Hlen; [lia|]) Ho Hr)
    as (ee1 & H1 & Han1 & [Hw1 Hm1 (Hr1 & Has1 & _) Hc1 Hd1]). set (s1 := eeprom_write s _ _ _ _) in *.
  destruct (eeprom_read_spec _ _ _ _ Han1 s1 _ _ off (length bs) H1 Ha Hw1 Ho ltac:(lia) ltac:(lia)) as (ee2 & Hv & H2 & _ & Hm2 & Hd2).
  rewrite Has1 in *. destruct (eeprom_read s1 _ _ _ _) as [vs s2]. cbn [fst snd] in *. split.
  - rewrite Hv, Hm1. apply slice_inserts; [done|]. destruct Hw. lia.
  - destruct H2. rewrite st_msr0, st_bus0, !flag_lor. change (flag LPI2C_MSR_SDF _) with false. change (flag LPI2C_MSR_EPF _) with false.
    rewrite !orb_false_r. split; [done|]. exists ee2. split; [apply upd_dev_twice|]. rewrite Hm2, Hm1, Hd2 by done. split; [done|].
    by rewrite <- Hm1.
Qed.

(** A FlexComm in LPI2C mode with EEPROMs of 256 bytes at 0x50 and 0x51, the
    first one on a drive. *)
Definition eeprom0 (n : Z) : EEPROMState := mkEEPROM 0 256 1 true false 0 (replicate 256 n) (if n =? 0 then Some [] else None).
Definition two_eeproms : MCXNLPUARTState EEPROMState SpiLinkState :=
  let s := flexcomm_init None None (mkBus _ [mkSlave _ 0x50 (eeprom0 0); mkSlave _ 0x51 (eeprom0 1)] [] false) in
  mcxn_lpuart_write (mcxn_lpuart_write s LPFLEXCOMM_PSELID PERSEL_LPI2C) (LPI2C_WINDOW + LPI2C_MCR) LPI2C_MCR_MEN.
Lemma eeprom0_wf n : at24c_wf (eeprom0 n).
Proof. split; cbn; try lia; [right; split; [done | by exists 1] | split; cbn; lia]. Qed.
Lemma lpi2c_eeprom_roundtrip_witness :
  (eeprom_read (eeprom_write two_eeproms 0x51 1 16 [10; 20; 30]) 0x51 1 16 3).1 = [10; 20; 30].
Proof.
  assert (Hid : i2c_idle two_eeproms) by (vm_compute; auto).
  assert (Han : answers (i2c_bus two_eeproms) 0x51 1 (eeprom0 1)).
  { split; [vm_compute; auto | discriminate | vm_compute; reflexivity |]. intros [|j] sl Hj Hs; [|lia]. vm_compute in Hs. injection Hs as <-. discriminate. }
  pose proof (lpi2c_eeprom_roundtrip two_eeproms 0x51 1 (eeprom0 1) 16 [10; 20; 30] Hid Han ltac:(lia) (eeprom0_wf 1) eq_refl
    ltac:(repeat (apply Forall_cons_2; [split; vm_compute; congruence|]); apply Forall_nil_2) ltac:(cbn; lia) ltac:(lia) ltac:(cbn; lia)) as Hr.
  cbv zeta in Hr. change (asize (eeprom0 1)) with 1 in Hr. change (length [10; 20; 30]) with 3%nat in Hr.
  destruct (eeprom_read (eeprom_write two_eeproms 0x51 1 16 [10; 20; 30]) 0x51 1 16 3) as [vs s2]. exact (proj1 Hr).
Defined.

(** ** Departures from the code's intent *)

(** The cells of child [k] of the bus. *)
Definition cells (s : MCXNLPUARTState EEPROMState SpiLinkState) (k : nat) : list Z :=
  match children (i2c_bus s) !! k with Some sl => mem (dev sl) | None => [] end.

(** A repeated START does not scan the bus again, so the address it carries is
    not looked at: the data meant for the device at 0x51 is acknowledged by, and
    written to, the one at 0x50 that the transfer began with. *)
Theorem lpi2c_repeated_start_wrong_device :
  let s := mtdrs two_eeproms ([(LPI2C_CMD_START, 0x50 * 2); (LPI2C_CMD_START, 0x51 * 2)] ++ tx [7; 0xAB] ++ [(LPI2C_CMD_STOP, 0)]) in
  (cells s 0).[7] = 0xAB /\ cells s 1 = cells two_eeproms 1 /\ flag (i2c_msr s) LPI2C_MSR_NDF = false.
Proof. vm_compute. auto. Qed.

(** A STOP drops the bytes that a receive command has still to fetch: of four
    bytes asked for before the STOP only the first arrives. *)
Theorem lpi2c_stop_drops_receive :
  let s := mtdrs two_eeproms [(LPI2C_CMD_START, 0x51 * 2 + 1); (LPI2C_CMD_RXDATA, 3); (LPI2C_CMD_STOP, 0)] in
  (mrdrs 4 s).1 = [1; LPI2C_MRDR_RXEMPTY; LPI2C_MRDR_RXEMPTY; LPI2C_MRDR_RXEMPTY].
Proof. vm_compute. reflexivity. Qed.

(** Resetting the receive FIFO empties the lookahead but not the count of bytes
    to fetch: the next command for one byte receives three. *)
Theorem lpi2c_fifo_reset_keeps_count :
  let s := mtdrs two_eeproms [(LPI2C_CMD_START, 0x51 * 2 + 1); (LPI2C_CMD_RXDATA, 2)] in
  let s := mcxn_lpuart_write s (LPI2C_WINDOW + LPI2C_MCR) (LPI2C_MCR_MEN .| LPI2C_MCR_RRF) in
  (mrdr s).1 = LPI2C_MRDR_RXEMPTY /\ (mrdrs 4 (mtdr s LPI2C_CMD_RXDATA 0)).1 = [1; 1; 1; LPI2C_MRDR_RXEMPTY].
Proof. vm_compute. auto. Qed.
