(* ===== verification/Lpspi.v ===== *)
(** * LPSPI: the SPI controller function of a FlexComm

    Transfers of the LPSPI function of [hw/char/mcxn_lpuart.c] with a device on
    its SSI bus, under the chip select; the model is in [FlexComm].  Then the
    board-to-board link ([hw/ssi/spi_link.c]) as two independent byte streams. *)
From S2P Require Import Prelude I2c At24c Ssi FlexComm.

(** ** A device seen from the bus *)

Section device.
Context {P : Type} `{SSIPeripheralClass P}.

(** The chip select changes to [level]. *)
Definition dev_select (p : P) (level : bool) : P := match spc_set_cs p with Some f => f level | None => p end.
(** The words [ws] are clocked through the device. *)
Fixpoint dev_frames (p : P) (ws : list Z) : P * list Z :=
  match ws with
  | [] => (p, [])
  | w :: ws => let '(p, r) := spc_transfer p w in let '(p, rs) := dev_frames p ws in (p, r :: rs)
  end.
End device.

Section lpspi.
Context {D P : Type} `{I2CSlaveClass D} `{SSIPeripheralClass P}.
Implicit Types s : MCXNLPUARTState D P.

(** One frame of a driver: the command word, the data word, and the answer. *)
Definition spi_frame s (tcr w : Z) : MCXNLPUARTState D P * list Z :=
  let s := mcxn_lpuart_write s LPSPI_TCR tcr in
  let '(v, s) := mcxn_lpuart_read (mcxn_lpuart_write s LPSPI_TDR w) LPSPI_RDR in
  (s, [v]).
(** A transaction: all frames but the last are continued. *)
Fixpoint spi_frames s (framesz : Z) (ws : list Z) : MCXNLPUARTState D P * list Z :=
  match ws with
  | [] => (s, [])
  | w :: ws =>
      let tcr := match ws with [] => framesz | _ => framesz .| LPSPI_TCR_CONT end in
      let '(s, v) := spi_frame s tcr w in
      let '(s, vs) := spi_frames s framesz ws in
      (s, v ++ vs)
  end.

(** The LPSPI is selected and enabled; one device on its bus. *)
Record spi_st s (wire : option nat) (asserted : bool) (dev : SSIPeripheral P) : Prop := {
  ss_sel : pselid s .& PSELID_PERSEL = PERSEL_LPSPI;
  ss_men : flag (spi_cr s) LPSPI_CR_MEN = true;
  ss_bus : spi_bus s = Some [dev];
  ss_wire : spi_cs s = wire;
  ss_asserted : spi_cs_asserted s = asserted;
}.

Definition frame_mask (framesz : Z) : Z := if 31 <=? framesz then 0xFFFFFFFF else u32 (u32 (1 .<< (framesz + 1)) - 1).

Definition spi_view s := (pselid s, spi_cr s, spi_bus s, spi_cs s, (spi_cs_asserted s, spi_tcr s, spi_rdr s, spi_rx_full s)).
Lemma update_spi s : spi_view (mcxn_flexcomm_update_irq s) = spi_view s.
Proof. unfold mcxn_flexcomm_update_irq, mcxn_flexcomm_update_dma. cbv zeta. by repeat case_match. Qed.

(** The answer of the one selected device is the answer of the bus. *)
Lemma ssi_one (dev : SSIPeripheral P) p w r :
  spc_cs_polarity (periph dev) = SSI_CS_NONE \/ spc_cs_polarity (periph dev) = SSI_CS_LOW /\ cs dev = false ->
  spc_transfer (periph dev) w = (p, r) ->
  ssi_transfer [dev] w = ([mkPeripheral P (cs dev) p], r).
Proof.
  destruct dev as [c d]. cbn [cs periph]. intros Hs Ht. unfold ssi_transfer, ssi_transfer_raw_default. cbn [foldr cs periph].
  destruct Hs as [-> | [-> ->]]; cbn [negb]; rewrite Ht; by rewrite Z.lor_0_r.
Qed.

(** The level of the chip select, if it is wired to the device. *)
Definition cs_to (wire : option nat) (level : bool) (dev : SSIPeripheral P) : SSIPeripheral P :=
  match wire with Some O => ssi_cs_default dev level | _ => dev end.
Definition selected (dev : SSIPeripheral P) : Prop :=
  spc_cs_polarity (periph dev) = SSI_CS_NONE \/ spc_cs_polarity (periph dev) = SSI_CS_LOW /\ cs dev = false.

Lemma spi_set_cs_st s wire a a' dev level : spi_st s wire a dev ->
  spi_st ((spi_set_cs s level) <| spi_cs_asserted := a' |>) wire a' (cs_to wire level dev) /\
  spi_tcr ((spi_set_cs s level) <| spi_cs_asserted := a' |>) = spi_tcr s /\
  spi_rdr ((spi_set_cs s level) <| spi_cs_asserted := a' |>) = spi_rdr s.
Proof.
  intros []. unfold spi_set_cs. rewrite ss_wire0, ss_bus0. destruct wire as [[|n]|]; cbn [cs_to]; (split; [split|]); try done; cbn; by rewrite ss_bus0.
Qed.

Lemma lpspi_frame_st s wire asserted dev w p r : spi_st s wire asserted dev ->
  let dev1 := if asserted then dev else cs_to wire false dev in
  let dev2 := mkPeripheral P (cs dev1) p in
  selected dev1 -> spc_transfer (periph dev1) (w .& lpspi_mask s) = (p, r) ->
  let cont := flag (spi_tcr s) LPSPI_TCR_CONT in
  let s' := lpspi_frame s w in
  spi_st s' wire cont (if cont then dev2 else cs_to wire true dev2) /\ spi_rdr s' = r .& lpspi_mask s.
Proof.
  intros Hst dev1 dev2 Hsel Ht. cbv zeta. unfold lpspi_frame. rewrite (ss_bus _ _ _ _ Hst). cbv zeta.
  set (s1 := if spi_cs_asserted s then s else _).
  assert (H1 : spi_st s1 wire true dev1 /\ spi_tcr s1 = spi_tcr s).
  { unfold s1, dev1. rewrite (ss_asserted _ _ _ _ Hst). destruct asserted; [done|]. by destruct (spi_set_cs_st s wire false true dev false Hst) as (? & ? & ?). }
  destruct H1 as [H1 Htcr]. rewrite (ss_bus _ _ _ _ H1), (ssi_one dev1 p (w .& lpspi_mask s) r Hsel Ht). fold dev2.
  set (s2 := s1 <| spi_bus := Some [dev2] |> <| spi_rdr := r .& lpspi_mask s |>).
  assert (H2 : spi_st s2 wire true dev2) by (destruct H1; by split). change (spi_tcr s2) with (spi_tcr s1). rewrite Htcr.
  destruct (flag (spi_tcr s) LPSPI_TCR_CONT); [done|]. by destruct (spi_set_cs_st s2 wire true false dev2 true H2) as (H3 & _ & ->).
Qed.

Lemma tcr_fields framesz (cont : bool) : 0 <= framesz < 0x1000 ->
  let tcr := if cont then framesz .| LPSPI_TCR_CONT else framesz in
  in_range 32 tcr /\ tcr .& LPSPI_TCR_FRAMESZ = framesz /\ flag tcr LPSPI_TCR_RXMSK = false /\ flag tcr LPSPI_TCR_CONT = cont.
Proof.
  intros Hf. cbv zeta. assert (Hlow : forall n, 12 <= n -> flag framesz (bit n) = false).
  { intros n Hn. rewrite flag_bit by lia. apply (testbit_range 12); lia. }
  assert (Hm : framesz .& LPSPI_TCR_FRAMESZ = framesz).
  { change LPSPI_TCR_FRAMESZ with (Z.ones 12). rewrite Z.land_ones by lia. apply Z.mod_small. lia. }
  change LPSPI_TCR_RXMSK with (bit 19). change LPSPI_TCR_CONT with (bit 21).
  destruct cont; [rewrite Z.land_lor_distr_l, Hm, !flag_lor; change (bit 21 .& LPSPI_TCR_FRAMESZ) with 0; rewrite Z.lor_0_r|]; rewrite ?Hlow by lia; split_and!; try done.
  - apply in_range_lor; [lia | split; lia | by apply in_range_bit].
  - split; lia.
Qed.

(** A frame of the driver. *)
Lemma spi_frame_st s wire asserted dev framesz (cont : bool) w p r : spi_st s wire asserted dev -> 0 <= framesz < 0x1000 -> in_range 32 w ->
  let dev1 := if asserted then dev else cs_to wire false dev in
  let dev2 := mkPeripheral P (cs dev1) p in
  selected dev1 -> spc_transfer (periph dev1) (w .& frame_mask framesz) = (p, r) ->
  let '(s', out) := spi_frame s (if cont then framesz .| LPSPI_TCR_CONT else framesz) w in
  spi_st s' wire cont (if cont then dev2 else cs_to wire true dev2) /\ out = [r .& frame_mask framesz].
Proof.
  intros Hst Hf Hw dev1 dev2 Hsel Ht. destruct (tcr_fields framesz cont Hf) as (Hr & Hfs & Hx & Hc). set (tcr := if cont then _ else _) in *.
  unfold spi_frame. assert (E1 : mcxn_lpuart_write s LPSPI_TCR tcr = s <| spi_tcr := tcr |>).
  { unfold mcxn_lpuart_write. rewrite (ss_sel _ _ _ _ Hst), wrap_in_range by done. done. }
  rewrite E1. set (s1 := s <| spi_tcr := tcr |>). assert (H1 : spi_st s1 wire asserted dev) by (destruct Hst; by split).
  assert (Em : lpspi_mask s1 = frame_mask framesz).
  { unfold lpspi_mask, frame_mask. change (spi_tcr s1) with tcr. rewrite Hfs. by replace (32 <=? framesz + 1) with (31 <=? framesz) by (zcases; done). }
  assert (E2 : mcxn_lpuart_write s1 LPSPI_TDR w = lpspi_write_tdr s1 w).
  { unfold mcxn_lpuart_write. rewrite (ss_sel _ _ _ _ H1), wrap_in_range by done. done. }
  rewrite E2. unfold lpspi_write_tdr. rewrite (ss_men _ _ _ _ H1). change (spi_tcr s1) with tcr. rewrite Hx.
  destruct (lpspi_frame_st s1 wire asserted dev w p r H1 Hsel) as [H2 Hrd]; [by rewrite Em|]. change (spi_tcr s1) with tcr in H2. rewrite Hc in H2.
  rewrite Em in Hrd. set (s2 := lpspi_frame s1 w) in *. fold dev1 dev2 in H2.
  set (s3 := s2 <| spi_rx_full := true |> <| spi_sr := _ |>). pose proof (update_spi s3) as Hv. set (s4 := mcxn_flexcomm_update_irq s3) in *.
  unfold spi_view in Hv. injection Hv as V1 V2 V3 V4 V5 V6 V7 V8.
  assert (E4 : mcxn_lpuart_read s4 LPSPI_RDR = (spi_rdr s4, mcxn_flexcomm_update_irq (s4 <| spi_rx_full := false |>))).
  { unfold mcxn_lpuart_read. rewrite V1. change (pselid s3) with (pselid s2). rewrite (ss_sel _ _ _ _ H2).
    transitivity (spi_rdr s4, if spi_rx_full s4 then mcxn_flexcomm_update_irq (s4 <| spi_rx_full := false |>) else s4); [done|]. by rewrite V8. }
  rewrite E4. split; [|by rewrite V7, <- Hrd]. pose proof (update_spi (s4 <| spi_rx_full := false |>)) as Hv. unfold spi_view in Hv.
  injection Hv as W1 W2 W3 W4 W5 W6 W7 W8. destruct H2. split; rewrite ?W1, ?W2, ?W3, ?W4, ?W5; cbn; rewrite ?V1, ?V2, ?V3, ?V4, ?V5; done.
Qed.

(** A transaction, from its first frame or from the middle. *)
Lemma spi_frames_st ws s wire asserted dev framesz c p : spi_st s wire asserted dev -> 0 <= framesz < 0x1000 -> Forall (in_range 32) ws -> ws <> [] ->
  (forall q : P, spc_cs_polarity q = SSI_CS_NONE \/ spc_cs_polarity q = SSI_CS_LOW /\ c = false) ->
  (if asserted then dev else cs_to wire false dev) = mkPeripheral P c p ->
  let '(p', rs) := dev_frames p (map (fun w => w .& frame_mask framesz) ws) in
  let '(s', vs) := spi_frames s framesz ws in
  vs = map (fun r => r .& frame_mask framesz) rs /\ spi_st s' wire false (cs_to wire true (mkPeripheral P c p')).
Proof.
  intros Hst Hf Hws Hne Hpol. revert s asserted dev p Hst Hne. induction Hws as [|w ws Hw _ IH]; intros s asserted dev p Hst Hne Hd; [done|].
  cbn [map dev_frames]. destruct (spc_transfer p (w .& frame_mask framesz)) as [p1 r] eqn:Et.
  pose proof (spi_frame_st s wire asserted dev framesz (negb (bool_decide (ws = []))) w p1 r Hst Hf Hw) as Hfr. cbv zeta in Hfr.
  rewrite Hd in Hfr. cbn [periph cs] in Hfr. specialize (Hfr (Hpol p) Et). cbn [spi_frames]. destruct ws as [|w' ws].
  - rewrite bool_decide_eq_true_2 in Hfr by done. cbn [negb] in Hfr. destruct (spi_frame s framesz w) as [s1 v]. destruct Hfr as [H1 ->]. done.
  - rewrite bool_decide_eq_false_2 in Hfr by done. cbn [negb] in Hfr. destruct (spi_frame s _ w) as [s1 v]. destruct Hfr as [H1 ->].
    specialize (IH s1 true (mkPeripheral P c p1) p1 H1 ltac:(done) eq_refl). destruct (dev_frames p1 _) as [p2 rs].
    destruct (spi_frames s1 framesz (w' :: ws)) as [s2 vs]. destruct IH as [-> IH]. done.
Qed.
End lpspi.

(** C23: An LPSPI transaction.  With an active-low device on the bus and its chip
    select wired (as the serial flash of FlexComm1), a driver that sends the
    words [ws] with TCR[CONT] set on all but the last, reading the answer of each,
    performs one transaction of the device: the chip select falls once, the words
    pass through the device in order, cut to the frame size, the chip select rises
    once at the end, and the driver reads the device's answers in order. *)
Theorem lpspi_transaction {D P} `{I2CSlaveClass D} `{SSIPeripheralClass P} (s : MCXNLPUARTState D P) framesz p ws :
  (forall q : P, spc_cs_polarity q = SSI_CS_LOW) -> spi_st s (Some 0%nat) false (mkPeripheral P true p) ->
  0 <= framesz < 0x1000 -> Forall (in_range 32) ws -> ws <> [] ->
  let cut := fun w => w .& frame_mask framesz in
  let '(p', rs) := dev_frames (dev_select p false) (map cut ws) in
  let '(s', vs) := spi_frames s framesz ws in
  vs = map cut rs /\ spi_st s' (Some 0%nat) false (mkPeripheral P true (dev_select p' true)).
Proof.
  intros Hpol Hst Hf Hws Hne. cbv zeta.
  assert (Hcs : forall c q, cs_to (Some 0%nat) (negb c) (mkPeripheral P c q) = mkPeripheral P (negb c) (dev_select q (negb c))).
  { intros c q. unfold cs_to, ssi_cs_default, dev_select. destruct c; cbn; by destruct (spc_set_cs q). }
  pose proof (spi_frames_st ws s (Some 0%nat) false _ framesz false (dev_select p false) Hst Hf Hws Hne (fun q => or_intror (conj (Hpol q) eq_refl))
    (Hcs true p)) as Hgo.
  destruct (dev_frames _ _) as [p' rs], (spi_frames s framesz ws) as [s' vs]. destruct Hgo as [-> Hgo]. split; [done|].
  pose proof (Hcs false p') as E. cbn [negb] in E. by rewrite E in Hgo.
Qed.

(** A device for the examples: it answers each word with the one before and
    counts its transactions. *)
Record delay_line := mkDelay { delayed : Z; transactions : Z }.
#[export] Instance delay_line_peripheral : SSIPeripheralClass delay_line := {
  spc_transfer := fun (p : delay_line) (w : Z) => (mkDelay w (transactions p), delayed p);
  spc_set_cs := fun p : delay_line => Some (fun level : bool => if level then mkDelay (delayed p) (transactions p + 1) else mkDelay 0x9F (transactions p));
  spc_cs_polarity _ := SSI_CS_LOW;
}.
Definition spi_node {P} `{SSIPeripheralClass P} (bus : option (list (SSIPeripheral P))) (wire : option nat) : MCXNLPUARTState EEPROMState P :=
  mcxn_lpuart_write (mcxn_lpuart_write (flexcomm_init bus wire (mkBus _ [] [] false)) LPFLEXCOMM_PSELID PERSEL_LPSPI) LPSPI_CR LPSPI_CR_MEN.
Lemma lpspi_transaction_witness :
  (spi_frames (spi_node (Some [mkPeripheral _ true (mkDelay 0 0)]) (Some 0%nat)) 7 [0x101; 0x202; 3]).2 = [0x9F; 1; 2].
Proof.
  set (s := spi_node _ _). assert (Hst : spi_st s (Some 0%nat) false (mkPeripheral _ true (mkDelay 0 0))) by (split; vm_compute; reflexivity).
  pose proof (lpspi_transaction s 7 (mkDelay 0 0) [0x101; 0x202; 3] (fun _ => eq_refl) Hst ltac:(lia)
    ltac:(repeat (apply Forall_cons_2; [split; vm_compute; congruence|]); apply Forall_nil_2) ltac:(discriminate)) as Hr. cbv zeta in Hr.
  destruct (dev_frames _ _) as [p' rs] eqn:E. vm_compute in E. injection E as <- <-.
  destruct (spi_frames s 7 [0x101; 0x202; 3]) as [s' vs]. cbn [snd]. rewrite (proj1 Hr). vm_compute. reflexivity.
Defined.

(** ** The board-to-board link *)

Lemma bytes_cut l : Forall (in_range 8) l -> map (fun w => w .& 0xFF) l = l.
Proof.
  intros Hl. rewrite <- (map_id l) at 2. apply map_ext_in. intros w Hw%list_elem_of_In. rewrite Forall_forall in Hl.
  change 0xFF with (Z.ones 8). rewrite Z.land_ones by lia. by apply Z.mod_small, Hl.
Qed.

Lemma link_frames ws l : link_wf l ->
  let '(l', rs) := dev_frames l ws in
  link_wf l' /\ link_out l' = link_out l ++ map (fun w => w .& 0xFF) ws /\
  (length ws = length (link_in l) -> rs = link_in l /\ link_in l' = []).
Proof.
  revert l. induction ws as [|w ws IH]; intros l Hl; cbn [dev_frames map].
  { rewrite app_nil_r. split_and!; try done. by destruct (link_in l). }
  pose proof (spi_link_transfer_spec l w Hl) as Ht. change (spc_transfer l w) with (spi_link_transfer l w).
  destruct (spi_link_transfer l w) as [l1 r]. destruct Ht as (H1 & H2 & Hr & H4). specialize (IH l1 H1).
  destruct (dev_frames l1 ws) as [l2 rs]. destruct IH as (H5 & H6 & H7). split; [done|]. split.
  - by rewrite H6, H2, <- app_assoc.
  - intros Hlen. destruct (link_in l) as [|x q] eqn:E; [done|]. cbn [tail] in H4. rewrite H4 in H7.
    destruct (H7 ltac:(cbn in Hlen; lia)) as [-> ->]. by rewrite Hr.
Qed.

(** The link of a node on its bus. *)
Definition spi_link_of {D} (s : MCXNLPUARTState D SpiLinkState) (l : SpiLinkState) : Prop :=
  exists c, spi_st s None false (mkPeripheral _ c l).
Definition with_link {D} (s : MCXNLPUARTState D SpiLinkState) (f : SpiLinkState -> SpiLinkState) : MCXNLPUARTState D SpiLinkState :=
  s <| spi_bus := option_map (map (fun p => p <| periph := f (periph p) |>)) (spi_bus s) |>.

Lemma link_transaction {D} `{I2CSlaveClass D} (s : MCXNLPUARTState D SpiLinkState) l ws : spi_link_of s l -> Forall (in_range 8) ws -> ws <> [] ->
  let '(l', rs) := dev_frames l ws in
  let '(s', vs) := spi_frames s 7 ws in
  vs = map (fun r => r .& 0xFF) rs /\ spi_link_of s' l'.
Proof.
  intros [c Hst] Hws Hne.
  assert (Hcut : map (fun w => w .& frame_mask 7) ws = ws) by (by apply bytes_cut).
  pose proof (spi_frames_st ws s None false _ 7 c l Hst ltac:(lia)
    (Forall_impl _ _ _ Hws (fun w Hw => in_range_mono 8 32 w ltac:(lia) Hw)) Hne (fun q => or_introl eq_refl) eq_refl) as Hgo.
  rewrite Hcut in Hgo. destruct (dev_frames l ws) as [l' rs], (spi_frames s 7 ws) as [s' vs]. destruct Hgo as [-> Hgo].
  split; [done | by exists c].
Qed.

(** Two boards exchange bytes over SPI.  Each board has a FlexComm in LPSPI
    mode with a [spi-link] on its bus, and a socket carries what one link sends
    to the other, in whatever pieces.  The bytes that the first controller
    clocks out are read by the second, in order, when it clocks as many frames of
    its own. *)
Theorem spi_link_board_to_board {D} `{I2CSlaveClass D} (sa sb : MCXNLPUARTState D SpiLinkState) la lb ws pieces ds :
  spi_link_of sa la -> link_wf la -> spi_link_of sb lb -> link_wf lb -> link_in lb = [] ->
  Forall (in_range 8) ws -> Forall (in_range 8) ds -> length ds = length ws -> (1 <= length ws <= 256)%nat ->
  concat pieces = ws ->
  (exists la', spi_link_of (spi_frames sa 7 ws).1 la' /\ link_out la' = link_out la ++ ws) /\
  (spi_frames (with_link sb (fun l => foldl spi_link_receive l pieces)) 7 ds).2 = ws.
Proof.
  intros Ha Hla Hb Hlb Hin Hws Hds Hlen Hn Hp.
  split.
  - pose proof (link_transaction sa la ws Ha Hws ltac:(by destruct ws; cbn in Hn; [lia|])) as Ht. pose proof (link_frames ws la Hla) as Hf.
    destruct (dev_frames la ws) as [la' rs], (spi_frames sa 7 ws) as [s' vs]. exists la'. destruct Ht as [_ Ht], Hf as (_ & Hf & _).
    split; [done|]. by rewrite Hf, bytes_cut.
  - set (lb1 := foldl spi_link_receive lb pieces).
    assert (Hgo : link_wf lb1 /\ link_in lb1 = ws).
    { unfold lb1. replace ws with (link_in lb ++ concat pieces) by (by rewrite Hin). rewrite <- Hp in Hn.
      assert (Hcap : zlen (link_in lb) + zlen (concat pieces) <= SPI_LINK_FIFO_DEPTH) by (rewrite Hin; unfold SPI_LINK_FIFO_DEPTH; cbn [length]; lia).
      clear -Hlb Hcap. revert lb Hlb Hcap. induction pieces as [|q pieces IH]; intros lb Hlb Hcap; cbn [foldl concat] in *; [by rewrite app_nil_r|].
      rewrite length_app in Hcap. destruct (spi_link_receive_spec lb q Hlb ltac:(lia)) as (H1 & _ & H2).
      destruct (IH (spi_link_receive lb q) H1) as [H3 H4]; [rewrite H2, length_app; lia|]. split; [done|]. by rewrite H4, H2, <- app_assoc. }
    destruct Hgo as [Hl1 Hi1]. assert (Hb1 : spi_link_of (with_link sb (fun l => foldl spi_link_receive l pieces)) lb1).
    { destruct Hb as [c []]. exists c. split; try done. cbn. by rewrite ss_bus0. }
    pose proof (link_transaction _ lb1 ds Hb1 Hds ltac:(by destruct ds; cbn in Hlen; [lia|])) as Ht. pose proof (link_frames ds lb1 Hl1) as Hf.
    destruct (dev_frames lb1 ds) as [lb' rs], (spi_frames _ 7 ds) as [s' vs]. destruct Ht as [-> _], Hf as (_ & _ & Hf).
    cbn [snd]. destruct Hf as [-> _]; [by rewrite Hi1|]. rewrite Hi1. by apply bytes_cut.
Qed.
Lemma spi_link_board_to_board_witness :
  let node := spi_node (Some [mkPeripheral _ false spi_link_realize]) None in
  (spi_frames (with_link node (fun l => foldl spi_link_receive l [[1]; [2; 3]])) 7 [0; 0; 0]).2 = [1; 2; 3].
Proof.
  intros node. assert (Hst : spi_link_of node spi_link_realize) by (exists false; split; vm_compute; reflexivity).
  assert (Hw : link_wf spi_link_realize) by (split; [by apply fifo8_create_wf | done]).
  assert (Hbytes : Forall (in_range 8) [1; 2; 3] /\ Forall (in_range 8) [0; 0; 0])
    by (split; repeat (apply Forall_cons_2; [split; vm_compute; congruence|]); apply Forall_nil_2).
  exact (proj2 (spi_link_board_to_board node node spi_link_realize spi_link_realize [1; 2; 3] [[1]; [2; 3]] [0; 0; 0] Hst Hw Hst Hw eq_refl
    (proj1 Hbytes) (proj2 Hbytes) eq_refl ltac:(cbn; lia) eq_refl)).
Defined.

(** ** Departures from the code's intent *)

(** A word sent with TCR[RXMSK] set, which should only suppress the receive
    side, is not clocked out at all, although the status flags report a complete
    frame. *)
Theorem lpspi_rxmsk_sends_nothing :
  let node := spi_node (Some [mkPeripheral _ true (mkDelay 0 0)]) (Some 0%nat) in
  let s := mcxn_lpuart_write (mcxn_lpuart_write node LPSPI_TCR (7 .| LPSPI_TCR_RXMSK)) LPSPI_TDR 0xAB in
  spi_bus s = spi_bus node /\ flag (mcxn_lpspi_status s) LPSPI_SR_TCF = true.
Proof. vm_compute. auto. Qed.
