(* ===== verification/Soc.v ===== *)
(** * The wiring of the SoC: timer-paced, DMA-served converters

    Composition of the models of CTIMER, INPUTMUX, eDMA, DAC, ADC and FlexComm
    along the connections of [hw/arm/mcxn_soc.c]: the match of CTIMER0 that
    reaches the trigger router, the router's outputs to DAC0 and ADC0, the
    requests of the two converters and of FlexComm4 to the eDMA, and the address
    space in which the eDMA reaches SRAM and the registers of those three devices
    (at their non-secure addresses; any other address is a bus error here).  The theorems are the two systems these
    parts make together without the processor: a waveform generator, which puts
    out one sample of a buffer in SRAM per timer period, and a recorder, which
    stores one conversion per timer period in SRAM. *)
From S2P Require Import Prelude I2c At24c Ssi FlexComm Ctimer InputMux Adc Dac Edma EdmaControl EdmaCopy EdmaStream.

(** ** Address map and connections *)

Definition MCXN_SRAM_NS : Z := 0x20000000.
Definition sram_size : Z := 416 * 1024.
Definition ADC0_BASE : Z := 0x4010D000.
Definition DAC0_BASE : Z := 0x4010F000.
Definition FLEXCOMM4_BASE : Z := 0x400B4000.
Definition MCXN_DMA_REQ_ADC0_FIFO_A : Z := 21.
Definition MCXN_DMA_REQ_ADC0_FIFO_B : Z := 22.
Definition MCXN_DMA_REQ_DAC0_FIFO : Z := 25.
Definition MCXN_DMA_REQ_CTIMER0_M0 : Z := 7.
Definition MCXN_DMA_REQ_CTIMER0_M1 : Z := 8.
Definition MCXN_DMA_REQ_LPFLEXCOMM0_RX : Z := 69.
Definition MCXN_DMA_REQ_LPFLEXCOMM0_TX : Z := 70.
Definition MCXN_INPUTMUX_SRC_CTIMER0_M3 : Z := 5.

(** What the eDMA reaches. *)
Record soc_bus := mkSocBus {
  sram : Z -> Z; dac0 : MCXNDACState; adc0 : MCXNADCState;
  flexcomm4 : MCXNLPUARTState EEPROMState SpiLinkState     (* the console *)
}.
#[export] Instance soc_bus_settable : Settable soc_bus := fun m => mkSocBus (sram m) (dac0 m) (adc0 m) (flexcomm4 m).

(** A request line of a device, driven when its level changes. *)
Definition line_change (src : Z) (before after : bool) : list line_event :=
  if Bool.eqb before after then [] else [EvReq src after].
Definition dac0_events (d d' : MCXNDACState) : list line_event :=
  line_change MCXN_DMA_REQ_DAC0_FIFO (dma_req_level d) (dma_req_level d').
Definition adc0_events (d d' : MCXNADCState) : list line_event :=
  line_change MCXN_DMA_REQ_ADC0_FIFO_A ((Adc.dma_req_level d).[0]) ((Adc.dma_req_level d').[0]) ++
  line_change MCXN_DMA_REQ_ADC0_FIFO_B ((Adc.dma_req_level d).[1]) ((Adc.dma_req_level d').[1]).

Definition flexcomm4_events (d d' : MCXNLPUARTState EEPROMState SpiLinkState) : list line_event :=
  line_change (MCXN_DMA_REQ_LPFLEXCOMM0_TX + 2 * 4) (dma_tx_level d) (dma_tx_level d') ++
  line_change (MCXN_DMA_REQ_LPFLEXCOMM0_RX + 2 * 4) (dma_rx_level d) (dma_rx_level d').

Definition in_window (base size a n : Z) : bool := (base <=? a) && (a + n <=? base + size).
Definition in_sram (a n : Z) : bool := in_window MCXN_SRAM_NS sram_size a n.
Definition in_dac0 (a n : Z) : bool := in_window DAC0_BASE MCXN_DAC_SIZE a n.
Definition in_adc0 (a n : Z) : bool := in_window ADC0_BASE MCXN_ADC_SIZE a n.

Definition in_flexcomm4 (a n : Z) : bool := in_window FLEXCOMM4_BASE 0x1000 a n.

(** An access of more than four bytes to a device is a sequence of accesses of
    four. *)
Definition accesses (a n : Z) : list (Z * Z) :=
  if n <=? 4 then [(a, n)] else map (fun i => (a + 4 * i, 4)) (seqZ 0 (n / 4)).

Section device.
Context {D : Type} (base : Z) (events : D -> D -> list line_event).

Definition device_read (read : D -> Z -> Z * D) (d : D) (a n : Z) : list Z * D * list line_event :=
  foldl (fun (st : list Z * D * list line_event) (p : Z * Z) =>
    let '(bs, d, evs) := st in
    let '(v, d') := read d (p.1 - base) in
    (bs ++ le_store (Z.to_nat p.2) v, d', evs ++ events d d')) ([], d, []) (accesses a n).

Definition device_write (write : D -> Z -> Z -> Z -> D) (d : D) (a : Z) (bs : list Z) : D * list line_event :=
  foldl (fun (st : D * list line_event) (p : Z * Z) =>
    let '(d, evs) := st in
    let d' := write d (p.1 - base) (le_load (slice (p.1 - a) p.2 bs)) p.2 in
    (d', evs ++ events d d')) (d, []) (accesses a (zlen bs)).
End device.

Definition dac0_read := device_read DAC0_BASE dac0_events (fun d off => (mcxn_dac_read d off, d)).
Definition dac0_write := device_write DAC0_BASE dac0_events mcxn_dac_write.
Definition adc0_read := device_read ADC0_BASE adc0_events mcxn_adc_read.
Definition adc0_write := device_write ADC0_BASE adc0_events (fun d off v _ => mcxn_adc_write d off v).

Definition flexcomm4_read := device_read FLEXCOMM4_BASE flexcomm4_events mcxn_lpuart_read.
Definition flexcomm4_write := device_write FLEXCOMM4_BASE flexcomm4_events (fun d off v _ => mcxn_lpuart_write d off v).

#[export] Instance soc_space : AddressSpace soc_bus := {
  as_read m a n :=
    if in_sram a n then (true, map (sram m) (seqZ a n), m, [])
    else if in_dac0 a n then let '(bs, d, evs) := dac0_read (dac0 m) a n in (true, bs, m <| dac0 := d |>, evs)
    else if in_adc0 a n then let '(bs, d, evs) := adc0_read (adc0 m) a n in (true, bs, m <| adc0 := d |>, evs)
    else if in_flexcomm4 a n then let '(bs, d, evs) := flexcomm4_read (flexcomm4 m) a n in (true, bs, m <| flexcomm4 := d |>, evs)
    else (false, replicate (Z.to_nat n) 0, m, []);
  as_write m a bs :=
    if in_sram a (zlen bs) then (m <| sram := mem_store (sram m) a bs |>, [])
    else if in_dac0 a (zlen bs) then let '(d, evs) := dac0_write (dac0 m) a bs in (m <| dac0 := d |>, evs)
    else if in_adc0 a (zlen bs) then let '(d, evs) := adc0_write (adc0 m) a bs in (m <| adc0 := d |>, evs)
    else if in_flexcomm4 a (zlen bs) then let '(d, evs) := flexcomm4_write (flexcomm4 m) a bs in (m <| flexcomm4 := d |>, evs)
    else (m, []);
}.

Record soc := mkSoc { ctimer0 : MCXNCTimerState; inputmux : MCXNInputMuxState; edma0 : MCXNEDMAState; mem : soc_bus }.
#[export] Instance soc_settable : Settable soc := fun w => mkSoc (ctimer0 w) (inputmux w) (edma0 w) (mem w).

(** The outputs of the trigger router; of its destinations, DAC0 and ADC0 are
    part of this system. *)
Definition soc_dac_trigger (w : soc) : soc :=
  let d := dac0 (mem w) in
  let d' := dac_hw_trigger d true in
  w <| mem := (mem w) <| dac0 := d' |> |> <| edma0 := edma_lines (edma0 w) (dac0_events d d') |>.
Definition soc_adc_trigger (w : soc) (t : Z) : soc :=
  let d := adc0 (mem w) in
  let d' := mcxn_adc_hw_trigger d t true in
  w <| mem := (mem w) <| adc0 := d' |> |> <| edma0 := edma_lines (edma0 w) (adc0_events d d') |>.
Definition soc_trigger (w : soc) (o : trig_out) : soc :=
  match o with
  | DacTrig 0 => soc_dac_trigger w
  | AdcTrig 0 t => soc_adc_trigger w t
  | _ => w
  end.

(** Matches 0 and 1 of CTIMER0 are pulsed DMA requests. *)
Definition soc_ctimer_dma_req (w : soc) (n : Z) : soc :=
  w <| edma0 := mcxn_edma_req_pulse (edma0 w)
                  (if n =? 0 then MCXN_DMA_REQ_CTIMER0_M0 else MCXN_DMA_REQ_CTIMER0_M1) true |>.

(** Match 3 of CTIMER0 is a source of the trigger router. *)
Definition soc_ctimer_match_trig (w : soc) (n : Z) : soc :=
  if n =? 3 then foldl soc_trigger w (mcxn_inputmux_trigger (inputmux w) MCXN_INPUTMUX_SRC_CTIMER0_M3 true) else w.

Definition soc_ctimer_event (w : soc) (e : ctimer_event) : soc :=
  match e with
  | DmaReq n => soc_ctimer_dma_req w n
  | MatchTrig n => soc_ctimer_match_trig w n
  end.

(** The host timer of CTIMER0 expires. *)
Definition soc_tick (w : soc) (now : Z) : option soc :=
  '(t, evs) ← ctimer_tick (ctimer0 w) now;
  Some (foldl soc_ctimer_event (w <| ctimer0 := t |>) evs).

(** The bottom half of the eDMA, if it is scheduled. *)
Definition soc_bh (w : soc) : option soc :=
  if bh (edma0 w) then
    '(e, m) ← mcxn_edma_service_bh ((edma0 w) <| bh := false |>, mem w);
    Some (w <| edma0 := e |> <| mem := m |>)
  else Some w.

(** One expiry of the timer and what it sets off. *)
Definition soc_period (w : soc) : option soc :=
  d ← timer (ctimer0 w);
  w ← soc_tick w d;
  soc_bh w.

Fixpoint soc_run (k : nat) (w : soc) : option soc :=
  match k with
  | O => Some w
  | S k => w ← soc_period w; soc_run k w
  end.

(** ** The converter's side *)

(** DAC0 plays from its FIFO on the routed trigger and asks for samples at the
    watermark [wm]. *)
Record dac_stream (wm : Z) (d : MCXNDACState) : Prop := {
  ds_wf : dac_wf d;
  ds_low : hpdac d = false;
  ds_run : dac_running d;
  ds_hw : flag (Dac.reg d DAC_GCR) GCR_TRGSEL = false;
  ds_wm : Dac.reg d DAC_FCR .& 0x0F = wm;
  ds_dma : flag (Dac.reg d DAC_DER) DER_WM_DMAEN = true;
  ds_level : dma_req_level d = (count d <=? wm);
}.

Lemma dac_request_wm wm d : hpdac d = false -> Dac.reg d DAC_FCR .& 0x0F = wm ->
  flag (Dac.reg d DAC_DER) DER_WM_DMAEN = true -> dac_wf d -> 0 <= wm -> dac_request d = (count d <=? wm).
Proof.
  intros Hh Hw Hd Hwf Hwm. unfold dac_request. rewrite Hd, andb_true_r. unfold dac_fsr. rewrite Hh, Hw. pose proof (wf_count d Hwf).
  set (f := Dac.reg d DAC_FSR). set (x := flag _ DER_EMPTY_DMAEN). clearbody f x.
  unfold FSR_WM, FSR_EMPTY, FSR_FULL, FSR_W1C_MASK, FSR_SWBK, FSR_OF, FSR_UF, FSR_PTGCOCO.
  destruct (Z.eqb_spec (count d) 0), (Z.leb_spec (dac_depth d) (count d)), (Z.leb_spec (count d) wm); fnorm; try lia; try done; by destruct x.
Qed.

Lemma dac_update_level d : dma_req_level (dac_update_irq d) = dac_request d.
Proof.
  unfold dac_update_irq. cbv zeta. change (dma_req_level (d <| Dac.irq := _ |>)) with (dma_req_level d).
  destruct (Bool.eqb (dac_request d) (dma_req_level d)) eqn:E; cbn [negb]; [symmetry; by apply eqb_prop | done].
Qed.

Lemma dac_stream_update wm d d1 : dac_stream wm d -> Dac.regs d1 = Dac.regs d -> hpdac d1 = hpdac d -> dac_wf d1 ->
  dac_stream wm (dac_update_irq d1).
Proof.
  intros [Hw Hl Hr Ht Hwm Hd _] Hregs Hh Hw1. destruct (dac_update_same d1) as [(_ & _ & _ & Hc & Hhp & _) Hr1].
  assert (Hreg : forall off, Dac.reg (dac_update_irq d1) off = Dac.reg d off) by (intros; unfold Dac.reg; by rewrite Hr1, Hregs).
  assert (0 <= wm) by (subst wm; apply Z.land_nonneg; by right).
  split; unfold dac_running; rewrite ?Hreg, ?Hc; try done; [by apply dac_update_wf | congruence|].
  rewrite dac_update_level. apply dac_request_wm; try done; [congruence | |]; unfold Dac.reg in *; by rewrite Hregs.
Qed.

Lemma dac_stream_push wm d v : dac_stream wm d -> count d < 16 ->
  let d' := mcxn_dac_write d DAC_DATA v 4 in
  dac_stream wm d' /\ samples d' = samples d ++ [v .& 0xFFF] /\ out d' = out d /\ count d' = count d + 1 /\
  Dac.regs d' = Dac.regs d.
Proof.
  intros Hs Hc. change (mcxn_dac_write d DAC_DATA v 4) with (dac_push d (u32 v)). pose proof Hs as [Hw Hl [_ Hf] _ _ _ _].
  assert (Hdep : dac_depth d = 16) by (unfold dac_depth; by rewrite Hl).
  destruct (dac_push_spec d (u32 v) Hw Hf) as (Hw' & Ho & _ & Hq & _). rewrite samples_len, Hdep, (proj2 (Z.ltb_lt _ _)) in Hq by done.
  unfold dac_data_mask in Hq. rewrite Hl in Hq.
  assert (Hm : u32 v .& 0xFFF = v .& 0xFFF) by (change 0xFFF with (Z.ones 12); bitwise). rewrite Hm in Hq.
  cbv zeta. pose proof (samples_len d Hw) as Hlen. pose proof (samples_len _ Hw') as Hlen'.
  assert (Hcnt : count (dac_push d (u32 v)) = count d + 1) by (rewrite <- Hlen', Hq, length_app; cbn; lia).
  revert Hw' Ho Hq Hcnt. clear Hlen'. unfold dac_push. rewrite Hf, Hdep, (proj2 (Z.leb_gt _ _)) by lia. cbn [negb].
  set (d1 := _ <| count := _ |>). destruct (dac_update_same d1) as [Hsm Hr]. intros Hw' Ho Hq Hcnt.
  assert (Hw1 : dac_wf d1).
  { apply (wf_same (dac_update_irq d1)); [|apply Hw|done]. destruct Hsm as (?&?&?&?&?&?). by repeat split. }
  repeat split; try done; try (by apply (dac_stream_update wm d)).
Qed.

Lemma dac_stream_trigger wm d x q : dac_stream wm d -> samples d = x :: q ->
  let d' := dac_hw_trigger d true in
  dac_stream wm d' /\ samples d' = q /\ out d' = x /\ count d' = count d - 1 /\ Dac.regs d' = Dac.regs d.
Proof.
  intros Hs Hx. pose proof Hs as [Hw Hl Hrun Hhw _ _ _]. unfold dac_hw_trigger. rewrite Hhw. cbn [negb].
  destruct (dac_trigger_spec d Hw Hrun) as (Hw' & _ & Hq). rewrite Hx in Hq. destruct Hq as (Hq & Ho & _).
  pose proof (samples_len d Hw) as Hlen. rewrite Hx in Hlen. cbn [length] in Hlen. pose proof (samples_len _ Hw') as Hlen'.
  assert (Hcnt : count (dac_trigger d) = count d - 1) by (rewrite <- Hlen', Hq; lia).
  cbv zeta. revert Hw' Ho Hq Hcnt. clear Hlen'. destruct Hrun as [He Hf]. unfold dac_trigger. rewrite He, Hf, (proj2 (Z.eqb_neq _ _)) by lia. cbn [negb].
  set (d1 := _ <| count := _ |>). destruct (dac_update_same d1) as [Hsm Hr]. intros Hw' Ho Hq Hcnt.
  assert (Hw1 : dac_wf d1).
  { apply (wf_same (dac_update_irq d1)); [|apply Hw|done]. destruct Hsm as (?&?&?&?&?&?). by repeat split. }
  repeat split; try done; try (by apply (dac_stream_update wm d)).
Qed.

(** ** Memory and the connections *)


Lemma in_sram_range a n : in_sram a n = true -> 0 <= a /\ a + n < 2 ^ 32.
Proof. unfold in_sram, in_window, MCXN_SRAM_NS, sram_size. lia. Qed.
Lemma in_sram_sub a n a' n' : in_sram a n = true -> a <= a' -> a' + n' <= a + n -> in_sram a' n' = true.
Proof. unfold in_sram, in_window. rewrite !andb_true_iff, !Z.leb_le. lia. Qed.

Lemma line_change_edge src b : line_change src (negb b) b = [EvReq src b].
Proof. by destruct b. Qed.
Lemma line_change_same src b : line_change src b b = [].
Proof. unfold line_change. by rewrite eqb_reflx. Qed.

Lemma dac0_word_write m bs : zlen bs = 4 ->
  as_write m (DAC0_BASE + DAC_DATA) bs =
    let d' := mcxn_dac_write (dac0 m) DAC_DATA (le_load bs) 4 in (m <| dac0 := d' |>, dac0_events (dac0 m) d').
Proof.
  intros Hl. cbn [as_write soc_space]. rewrite Hl. change (in_sram (DAC0_BASE + DAC_DATA) 4) with false.
  change (in_dac0 (DAC0_BASE + DAC_DATA) 4) with true. cbv iota. unfold dac0_write, device_write. rewrite Hl.
  change (accesses (DAC0_BASE + DAC_DATA) 4) with [(DAC0_BASE + DAC_DATA, 4)]. cbn [foldl fst snd].
  change (DAC0_BASE + DAC_DATA - DAC0_BASE) with DAC_DATA. rewrite Z.sub_diag. unfold slice. rewrite drop_0, take_ge by lia. done.
Qed.

Lemma sram_word_read m a : in_sram a 4 = true -> as_read m a 4 = (true, map (sram m) (seqZ a 4), m, []).
Proof. intros Hin. cbn [as_read soc_space]. by rewrite Hin. Qed.

(** The triggers that an edge on the timer's source sets off, when [o] is the
    only destination in the system that is connected to it. *)
Lemma soc_trigger_others w os : (forall o, o ∈ os -> soc_trigger w o = w) -> foldl soc_trigger w os = w.
Proof.
  induction os as [|o os IH]; intros Hos; [done|]. cbn [foldl]. rewrite Hos by apply list_elem_of_here.
  apply IH. intros o' Ho'. apply Hos. by apply list_elem_of_further.
Qed.

Definition in_system (o : trig_out) : bool :=
  match o with DacTrig 0 | AdcTrig 0 _ => true | _ => false end.
Lemma soc_trigger_out w o : in_system o = false -> soc_trigger w o = w.
Proof. by destruct o as [[] | [] | | |]. Qed.

Definition only_routed (w : soc) (o : trig_out) : Prop :=
  route (inputmux w) o = Some MCXN_INPUTMUX_SRC_CTIMER0_M3 /\
  forall o', o' ∈ all_dests -> in_system o' = true -> route (inputmux w) o' = Some MCXN_INPUTMUX_SRC_CTIMER0_M3 -> o' = o.

Lemma soc_routed w o : o ∈ all_dests -> only_routed w o -> soc_ctimer_event w (MatchTrig 3) = soc_trigger w o.
Proof.
  intros Ho [Hr Hon]. cbn [soc_ctimer_event]. unfold soc_ctimer_match_trig. cbn [Z.eqb Pos.eqb].
  rewrite inputmux_trigger_filter by done. change (tsi_stray _ _) with (@nil trig_out). rewrite app_nil_r. set (P := fun d => route (inputmux w) d = _).
  assert (Hnd : NoDup all_dests) by (apply (bool_decide_unpack _); vm_compute; done).
  apply list_elem_of_split in Ho as (l1 & l2 & E). rewrite E in Hnd, Hon |- *.
  apply NoDup_app in Hnd as (_ & Hd1 & Hnd2). apply NoDup_cons in Hnd2 as [Hd2 _].
  assert (Hout : forall l : list trig_out, (forall o', o' ∈ l -> o' ∈ l1 ++ o :: l2) -> o ∉ l ->
    forall w' o', o' ∈ filter P l -> soc_trigger w' o' = w').
  { intros l Hl Hn w' o' [Hp Hin]%list_elem_of_filter. apply soc_trigger_out. destruct (in_system o') eqn:Es; [|done].
    exfalso. apply Hn. by rewrite <- (Hon o') by auto. }
  rewrite filter_app, foldl_app, filter_cons_True by done. rewrite (soc_trigger_others w).
  - cbn [foldl]. apply soc_trigger_others. apply (Hout l2); [set_solver | done].
  - apply (Hout l1); [set_solver|]. intros Hin. apply (Hd1 o Hin). apply list_elem_of_here.
Qed.

(** ** The waveform generator *)

(** The generator between two ticks: match 3 of CTIMER0 keeps the timer alive
    and is routed to the trigger of DAC0, DAC0 holds one sample more than its
    watermark, and channel [n] of the eDMA feeds it from SRAM. *)
Record playing (n wm : Z) (w : soc) : Prop := {
  pl_timer : ticking (ctimer0 w) 3;
  pl_route : only_routed w (DacTrig 0);
  pl_dac : dac_stream wm (dac0 (mem w));
  pl_count : count (dac0 (mem w)) = wm + 1;
  pl_feed : serving MCXN_DMA_REQ_DAC0_FIFO 4 0 n (edma0 w);
  pl_daddr : tcd_daddr (ch (edma0 w)).[n] = DAC0_BASE + DAC_DATA;
  pl_idle : (req_level (edma0 w)).[MCXN_DMA_REQ_DAC0_FIFO] = false;
  pl_bh : bh (edma0 w) = false;
}.

(** What one period does to the samples. *)
Record played (n : Z) (w w' : soc) : Prop := {
  py_out : out (dac0 (mem w')) = (samples (dac0 (mem w))).[0];
  py_samples : samples (dac0 (mem w')) = tail (samples (dac0 (mem w))) ++ [word_at (sram (mem w)) (tcd_saddr (ch (edma0 w)).[n]) .& 0xFFF];
  py_regs : Dac.regs (dac0 (mem w')) = Dac.regs (dac0 (mem w));
  py_sram : sram (mem w') = sram (mem w);
  py_adc : adc0 (mem w') = adc0 (mem w);
  py_saddr : tcd_saddr (ch (edma0 w')).[n] = tcd_saddr (ch (edma0 w)).[n] + 4;
  py_count : tcd_count (ch (edma0 w')).[n] = tcd_count (ch (edma0 w)).[n] - 1;
}.

Lemma dac_wm_range wm d : dac_stream wm d -> 0 <= wm < 16.
Proof. intros []. subst wm. apply (in_range_land_r 4); [lia | split; done]. Qed.

(** The trigger puts out the oldest sample and raises the request. *)
Lemma playing_trigger n wm w : playing n wm w ->
  let d := dac0 (mem w) in
  let d' := dac_hw_trigger d true in
  dac0_events d d' = [EvReq MCXN_DMA_REQ_DAC0_FIFO true] /\ dac_stream wm d' /\ count d' = wm /\
  samples d' = tail (samples d) /\ out d' = (samples d).[0] /\ Dac.regs d' = Dac.regs d.
Proof.
  intros [] d d'. pose proof (dac_wm_range _ _ pl_dac0) as Hwm. pose proof (samples_len _ (ds_wf _ _ pl_dac0)) as Hlen. fold d in Hlen, pl_dac0, pl_count0.
  destruct (samples d) as [|x q] eqn:Hq; [cbn in Hlen; lia|].
  destruct (dac_stream_trigger wm _ x q pl_dac0 Hq) as (Hs & Hq' & Ho & Hc & Hr). fold d' in Hs, Hq', Ho, Hc, Hr.
  split; [|by split_and!; try lia]. unfold dac0_events. rewrite (ds_level _ _ pl_dac0), (ds_level _ _ Hs).
  rewrite (proj2 (Z.leb_gt _ _)), (proj2 (Z.leb_le _ _)) by lia. apply (line_change_edge _ true).
Qed.

Lemma soc_bh_run t i e e' m m' : bh e = true -> mcxn_edma_service_bh (e <| bh := false |>, m) = Some (e', m') ->
  soc_bh (mkSoc t i e m) = Some (mkSoc t i e' m').
Proof. intros Hb E. unfold soc_bh. cbn [edma0 mem]. by rewrite Hb, E, bind_Some. Qed.

Lemma soc_period_playing n wm w d : playing n wm w -> timer (ctimer0 w) = Some d ->
  in_sram (tcd_saddr (ch (edma0 w)).[n]) 4 = true -> 1 < tcd_count (ch (edma0 w)).[n] ->
  exists w', soc_period w = Some w' /\ playing n wm w' /\ played n w w' /\
    timer (ctimer0 w') = Some (d + tick_wait (ctimer0 w) 3) /\ tick_wait (ctimer0 w') 3 = tick_wait (ctimer0 w) 3.
Proof.
  intros Hp Hd Hin Hc. destruct (ticking_tick _ 3 d (pl_timer _ _ _ Hp)) as (t & Et & _ & Ht & Hd' & Hw).
  unfold soc_period, soc_tick. rewrite Hd, bind_Some, Et.
  cbn [match_events Z.ltb Z.compare Pos.compare Pos.compare_cont app]. rewrite !bind_Some. cbn [foldl].
  set (w1 := w <| ctimer0 := t |>). assert (Hp1 : playing n wm w1) by (destruct Hp; by split). pose proof Hp1 as [].
  rewrite (soc_routed w1 (DacTrig 0)); [|apply (bool_decide_unpack _); vm_compute; done | done].
  destruct (playing_trigger n wm w1 Hp1) as (Hev & Hs & Hcnt & Hq & Ho & Hr). cbn [soc_trigger]. unfold soc_dac_trigger. cbv zeta.
  rewrite Hev. set (d1 := dac_hw_trigger (dac0 (mem w1)) true) in *. pose proof (dac_wm_range _ _ Hs) as Hwm.
  set (x := word_at (sram (mem w)) (tcd_saddr (ch (edma0 w)).[n])).
  destruct (dac_stream_push wm d1 x Hs) as (Hs2 & Hq2 & Ho2 & Hcnt2 & Hr2); [lia|]. set (d2 := mcxn_dac_write d1 DAC_DATA x 4) in *.
  set (m1 := (mem w) <| dac0 := d1 |>).
  assert (Hev2 : dac0_events d1 d2 = [EvReq MCXN_DMA_REQ_DAC0_FIFO false]).
  { unfold dac0_events. rewrite (ds_level _ _ Hs), (ds_level _ _ Hs2), (proj2 (Z.leb_le _ _)), (proj2 (Z.leb_gt _ _)) by lia.
    apply (line_change_edge _ false). }
  apply in_sram_range in Hin as Hrange.
  destruct (stream_request 4 0 MCXN_DMA_REQ_DAC0_FIFO n (edma0 w1) m1 m1 (m1 <| dac0 := d2 |>) true
    (map (sram (mem w)) (seqZ (tcd_saddr (ch (edma0 w)).[n]) 4)) [] [EvReq MCXN_DMA_REQ_DAC0_FIFO false])
    as (Hb & e' & He & Hf' & Hl' & Hb' & Hc' & Hsa' & Hda'); try done.
  { rewrite pl_daddr0. split; [done | by vm_compute]. }
  { by apply (sram_word_read m1). }
  { rewrite pl_daddr0, dac0_word_write by done. cbv zeta. change (mcxn_dac_write (dac0 m1) DAC_DATA (le_load _) 4) with d2. change (dac0 m1) with d1. by rewrite Hev2. }
  eexists. split; [exact (soc_bh_run t (inputmux w) _ e' m1 _ Hb He)|]. split; [|split; [|done]].
  - split; try done; cbn [ctimer0 inputmux edma0 mem dac0 modify]; [by rewrite <- Hcnt | by rewrite Hda', Z.add_0_r].
  - split; try done; [by etransitivity | by rewrite Hq in Hq2 | by etransitivity].
Qed.
(** The samples that [k] periods can put out: those in the FIFO, then the next
    [k] words of the buffer. *)
Definition supply (n : Z) (w : soc) (k : nat) : list Z :=
  samples (dac0 (mem w)) ++
  map (fun i => word_at (sram (mem w)) (tcd_saddr (ch (edma0 w)).[n] + 4 * i) .& 0xFFF) (seqZ 0 (Z.of_nat k)).

Lemma map_seqZ_succ {A} (f : Z -> A) k :
  map f (seqZ 0 (Z.of_nat (S k))) = f 0 :: map (fun i => f (1 + i)) (seqZ 0 (Z.of_nat k)).
Proof.
  rewrite seqZ_S by lia. cbn [map]. f_equal. change (0 + 1) with (1 + 0).
  replace (Z.of_nat (S k) - 1) with (Z.of_nat k) by lia.
  rewrite <- fmap_add_seqZ. apply map_map.
Qed.

Lemma supply_played n wm w w1 k : playing n wm w -> played n w w1 -> supply n w (S k) = (samples (dac0 (mem w))).[0] :: supply n w1 k.
Proof.
  intros [] []. pose proof (samples_len _ (ds_wf _ _ pl_dac0)) as Hlen. pose proof (dac_wm_range _ _ pl_dac0).
  unfold supply. rewrite py_samples0, py_sram0, py_saddr0. destruct (samples (dac0 (mem w))) as [|x q]; [cbn in Hlen; lia|].
  change ((x :: q).[0]) with x. cbn [tail app]. f_equal. rewrite <- app_assoc. f_equal. cbn [app].
  rewrite map_seqZ_succ, Z.mul_0_r, Z.add_0_r. f_equal. apply map_ext. intros i. do 2 f_equal. lia.
Qed.

(** C2: CTIMER0, INPUTMUX, DAC0 and the eDMA make a waveform generator.  Every
    expiry of the periodic match puts out one sample and the engine refills one:
    after [k] periods the output is the k-th sample of the FIFO followed by the
    buffer, the FIFO holds the next ones, the k-th expiry is at d + k * P, SRAM
    is untouched, and the DAC's registers, with them its underflow and overflow
    flags, are as before. *)
Theorem soc_waveform n wm w d k :
  playing n wm w -> timer (ctimer0 w) = Some d ->
  let t := ctimer0 w in
  flag (mcr t) (MCR_RST 3) = true -> 0 < (mr t).[3] ->
  Z.of_nat k < tcd_count (ch (edma0 w)).[n] ->
  in_sram (tcd_saddr (ch (edma0 w)).[n]) (4 * Z.of_nat k) = true ->
  let P := Z.max 1 ((mr t).[3] * (pr t + 1) * NS_PER_S / ctimer_freq t) in
  exists w', soc_run k w = Some w' /\ playing n wm w' /\
    timer (ctimer0 w') = Some (d + Z.of_nat k * P) /\
    samples (dac0 (mem w')) = drop k (supply n w k) /\
    ((0 < k)%nat -> out (dac0 (mem w')) = (supply n w k).[Z.of_nat k - 1]) /\
    sram (mem w') = sram (mem w) /\ Dac.regs (dac0 (mem w')) = Dac.regs (dac0 (mem w)).
Proof.
  intros Hp Hd t Hrst Hmr Hk Hin P. replace P with (tick_wait t 3).
  2: { unfold tick_wait. by rewrite Hrst, (proj2 (Z.ltb_lt _ _)). }
  clear Hrst Hmr P. subst t. revert w d Hp Hd Hk Hin. induction k as [|k IH]; intros w d Hp Hd Hk Hin.
  { exists w. replace (d + _ * _) with d by lia. unfold supply. cbn [seqZ map]. rewrite app_nil_r. by split_and!; try lia. }
  destruct (soc_period_playing n wm w d Hp Hd) as (w1 & E1 & Hp1 & Hy & Hd1 & Hw1); [apply (in_sram_sub _ _ _ _ Hin); lia | lia|].
  rewrite (supply_played n wm w w1 k Hp Hy).
  destruct (IH w1 _ Hp1 Hd1) as (w2 & E2 & Hp2 & Hd2 & Hq2 & Ho2 & Hs2 & Hr2).
  { rewrite (py_count _ _ _ Hy). lia. }
  { rewrite (py_saddr _ _ _ Hy). apply (in_sram_sub _ _ _ _ Hin); lia. }
  exists w2. cbn [soc_run]. rewrite E1, bind_Some. split; [done|]. split; [done|]. split; [rewrite Hd2, Hw1; f_equal; lia|].
  split; [done|]. split; [|by destruct Hy; split; etransitivity]. intros _. destruct k as [|k].
  - injection E2 as <-. apply Hy.
  - rewrite Ho2 by lia. unfold arr_get.
    replace (Z.to_nat (Z.of_nat (S (S k)) - 1)) with (S (Z.to_nat (Z.of_nat (S k) - 1))) by lia. done.
Qed.

(** A generator at 100 kHz: match 3 of a 48 MHz timer at 480, three samples in
    the FIFO, watermark two, and a buffer of ascending bytes at the start of
    SRAM. *)
Definition wave_timer : MCXNCTimerState :=
  mkCTimer false (Some 10000) 48000000 0 1 0 (MCR_RST 3) [0; 0; 0; 480] 0 0 0 0 [0; 0; 0; 0] [0; 0; 0; 0] 0 0 0 false.
Definition wave_mux : MCXNInputMuxState := (mcxn_inputmux_write mcxn_inputmux_reset IM_DAC0_TRIG MCXN_INPUTMUX_SRC_CTIMER0_M3).1.
Definition wave_dac : MCXNDACState :=
  foldl (fun d (p : Z * Z) => mcxn_dac_write d p.1 p.2 4) (mcxn_dac_reset (dac_init false))
    [(DAC_GCR, GCR_DACEN .| GCR_FIFOEN); (DAC_FCR, 2); (DAC_DER, DER_WM_DMAEN); (DAC_DATA, 1); (DAC_DATA, 2); (DAC_DATA, 3)].
Definition wave_edma : MCXNEDMAState :=
  program_channel EdmaControl.edma0 1
    ((word_tcd MCXN_DMA_REQ_DAC0_FIFO MCXN_SRAM_NS (DAC0_BASE + DAC_DATA) 4 100 0) <| tcd_doff := 0 |>).
Definition wave : soc := mkSoc wave_timer wave_mux wave_edma (mkSocBus (fun a => u8 a) wave_dac adc_init console).

Lemma wave_ticking : ticking wave_timer 3.
Proof.
  split; [| | reflexivity..].
  - split; [|split; [reflexivity | done]].
    split; [split; [done|]; repeat constructor; vm_compute; congruence | ..]; done || auto with ranges.
  - split; [lia|]. apply (seqZ_cases (fun j => flag _ (MCR_ANY j) = (j =? 3)) 0 4). repeat constructor.
Qed.
Lemma wave_timer_started :
  ctimer_execs (ctimer_init 48000000) [(0, TWrite (R_MR0 + 12) 480); (0, TWrite R_MCR (MCR_RST 3)); (0, TWrite R_TCR 1)] =
    Some (wave_timer, []).
Proof. vm_compute. reflexivity. Qed.

Lemma only_routed_check w o : o ∈ all_dests ->
  forallb (fun o' => bool_decide (o' = o) || negb (in_system o') ||
    negb (bool_decide (route (inputmux w) o' = Some MCXN_INPUTMUX_SRC_CTIMER0_M3))) all_dests = true ->
  route (inputmux w) o = Some MCXN_INPUTMUX_SRC_CTIMER0_M3 -> only_routed w o.
Proof.
  intros Ho Hall Hr. split; [done|]. intros o' Ho'%list_elem_of_In Hs Hr'. rewrite forallb_forall in Hall. specialize (Hall o' Ho').
  rewrite Hs, (bool_decide_eq_true_2 _ Hr') in Hall. cbn [negb] in Hall. rewrite !orb_false_r in Hall. by apply bool_decide_eq_true in Hall.
Qed.

Lemma wave_playing : playing 1 2 wave.
Proof.
  destruct (programmed_serving MCXN_DMA_REQ_DAC0_FIFO 4 0 1
    ((word_tcd MCXN_DMA_REQ_DAC0_FIFO MCXN_SRAM_NS (DAC0_BASE + DAC_DATA) 4 100 0) <| tcd_doff := 0 |>)) as (Hs & Hc & Hl & Hb);
    [done | done | split; try done; auto | done | done|].
  split; [apply wave_ticking | | | by vm_compute | done | | done | done].
  { apply only_routed_check; [apply (bool_decide_unpack _); vm_compute; done | vm_compute; reflexivity..]. }
  2: { change (edma0 wave) with wave_edma. unfold wave_edma. by rewrite Hc. }
  split; try (vm_compute; reflexivity); [|split; vm_compute; reflexivity].
  split; vm_compute; try reflexivity; split; congruence.
Qed.

Lemma soc_waveform_witness :
  exists w', soc_run 5 wave = Some w' /\ timer (ctimer0 w') = Some 60000 /\
    out (dac0 (mem w')) = 0x504 /\ samples (dac0 (mem w')) = [0x908; 0xD0C; 0x110].
Proof.
  destruct (soc_waveform 1 2 wave 10000 5) as (w' & E & _ & Ht & Hq & Ho & _).
  - apply wave_playing.
  - reflexivity.
  - reflexivity.
  - reflexivity.
  - reflexivity.
  - reflexivity.
  - exists w'. split; [exact E|]. split; [exact Ht|]. rewrite Hq, Ho by lia. vm_compute. split; reflexivity.
Defined.

(** ** The recorder *)

(** ADC0 converts on input [t] into FIFO 0 and asks for service as soon as it
    holds a result. *)
Record adc_stream (t : Z) (d : MCXNADCState) : Prop := {
  at_t : 0 <= t < 4;
  at_ok : adc_ok d;
  at_on : sampling d d;
  at_armed : c_armed (config_of d) t = true;
  at_dest : c_dest (config_of d) t = 0;
  at_wm : adc_fwmark d 0 = 0;
  at_de : flag (Adc.reg d R_DE) DE_FWMDE0 = true;
}.

(** The result word of a conversion on input [t] of a pin at [v]. *)
Definition conversion (d : MCXNADCState) (t v : Z) : Z := v .| RESFIFO_VALID .| (adc_command d t .<< 24).

Lemma adc_stream_touch t d d' : adc_stream t d -> adc_touches 0 d d' -> adc_ok d' ->
  adc_stream t d' /\ adc_command d' t = adc_command d t /\ adc_channel d' (adc_command d' t) = adc_channel d (adc_command d t) /\
  adc0_events d d' = line_change MCXN_DMA_REQ_ADC0_FIFO_A (negb (bool_decide (results d 0 = []))) (negb (bool_decide (results d' 0 = []))).
Proof.
  intros [] Htc Hok. pose proof Htc as [Hwf' Hres _ Hreg]. assert (Hs : sampling d d') by (by eapply sampling_touch).
  destruct (adc_config_eq d d' t Hs ltac:(lia)) as (Hcmd & Hch & Htr). specialize (Htr ltac:(lia)).
  assert (Hfw : forall f, 0 <= f < 2 -> adc_fwmark d' f = adc_fwmark d f).
  { intros f Hf. unfold adc_fwmark. rewrite Hreg; [done | |]; by destruct (f =? 0). }
  assert (Hlev : forall x, adc_ok x -> adc_fwmark x 0 = 0 -> flag (Adc.reg x R_DE) DE_FWMDE0 = true ->
    (Adc.dma_req_level x).[0] = negb (bool_decide (results x 0 = []))).
  { intros x [Hw _ _ Hl _] H1 H2. rewrite Hl by lia. unfold adc_request. cbn [Z.eqb]. rewrite H1, H2. cbn [andb].
    destruct (adc_counts x 0 Hw ltac:(lia)) as (_ & _ & <-). by destruct (results x 0). }
  assert (Hde : Adc.reg d' R_DE = Adc.reg d R_DE) by (by apply Hreg).
  split; [|split; [done|]; split; [done|]].
  - split; try done; rewrite ?Hde, ?Hfw by lia; try done.
    + destruct Hs. by split.
    + cbn [config_of c_armed] in *. by rewrite Htr.
    + cbn [config_of c_dest] in *. by rewrite Htr.
  - unfold adc0_events. rewrite (Hlev d), (Hlev d') by (rewrite ?Hde, ?Hfw by lia; done).
    assert (E1 : (Adc.dma_req_level d').[1] = (Adc.dma_req_level d).[1]).
    { rewrite (Adc.ok_level _ Hok), (Adc.ok_level _ at_ok0) by lia. unfold adc_request. rewrite Hde, Hfw by lia.
      destruct (adc_counts d 1 (Adc.ok_wf _ at_ok0) ltac:(lia)) as (_ & _ & <-). destruct (adc_counts d' 1 Hwf' ltac:(lia)) as (_ & _ & <-).
      by destruct (Hres 1 ltac:(lia) ltac:(lia)) as [-> _]. }
    by rewrite E1, line_change_same, app_nil_r.
Qed.

Lemma adc_stream_trigger t d : adc_stream t d -> results d 0 = [] ->
  let d' := mcxn_adc_hw_trigger d t true in
  adc_touches 0 d d' /\ adc_ok d' /\ results d' 0 = [conversion d t ((adc_ch d).[adc_channel d (adc_command d t)])].
Proof.
  intros [] Hr. cbv zeta. assert (Hok : adc_ok (mcxn_adc_hw_trigger d t true)) by (eapply adc_step_ok; [apply adc_step_trigger | done]).
  revert Hok. unfold mcxn_adc_hw_trigger. rewrite (proj2 (Z.ltb_ge t 0)), (proj2 (Z.leb_gt 4 t)) by lia. cbn [negb orb].
  change (flag (Adc.reg d (R_TCTRL0 + t * 4)) TCTRL_HTEN) with (c_armed (config_of d) t). rewrite at_armed0. cbn [negb]. intros Hok.
  destruct (ctz32_bit t at_t0) as [Ec Hb]. destruct (adc_convert_abs d d (bit t) at_on0 Hb) as (_ & Ha & Htc); [rewrite Ec; lia|].
  rewrite Ec in Ha, Htc. rewrite at_dest0 in Htc. split; [done|]. split; [done|].
  pose proof (proj1 (abs_nth (mcxn_adc_do_conversion d (bit t)) 0 ltac:(lia))) as Hq. rewrite <- Hq, Ha. unfold abs_convert.
  rewrite at_dest0. change ((queues (Adc.abs_of d)).[0]) with (results d 0). by rewrite Hr.
Qed.

Lemma adc_stream_read t d r : adc_stream t d -> results d 0 = [r] ->
  exists d', mcxn_adc_read d R_RESFIFO0 = (r, d') /\ adc_touches 0 d d' /\ adc_ok d' /\ results d' 0 = [].
Proof.
  intros [] Hr. pose proof (adc_read_result d 0 (Adc.ok_wf _ at_ok0) ltac:(lia)) as Hp. rewrite Hr in Hp.
  assert (Hok : adc_ok (mcxn_adc_read d R_RESFIFO0).2) by (eapply adc_step_ok; [apply adc_step_read | done]).
  change (resfifo 0) with R_RESFIFO0 in Hp. destruct (mcxn_adc_read d R_RESFIFO0) as [v d']. destruct Hp as (Hp & _ & -> & Hq). by exists d'.
Qed.

Lemma adc0_word_read m : as_read m (ADC0_BASE + R_RESFIFO0) 4 =
  let '(v, d') := mcxn_adc_read (adc0 m) R_RESFIFO0 in (true, le_store 4 v, m <| adc0 := d' |>, adc0_events (adc0 m) d').
Proof.
  cbn [as_read soc_space]. change (in_sram (ADC0_BASE + R_RESFIFO0) 4) with false. change (in_dac0 (ADC0_BASE + R_RESFIFO0) 4) with false.
  change (in_adc0 (ADC0_BASE + R_RESFIFO0) 4) with true. cbv iota. unfold adc0_read, device_read.
  change (accesses (ADC0_BASE + R_RESFIFO0) 4) with [(ADC0_BASE + R_RESFIFO0, 4)]. cbn [foldl fst snd].
  change (ADC0_BASE + R_RESFIFO0 - ADC0_BASE) with R_RESFIFO0. by destruct (mcxn_adc_read (adc0 m) R_RESFIFO0).
Qed.

Lemma sram_word_write m a bs : in_sram a 4 = true -> zlen bs = 4 ->
  as_write m a bs = (m <| sram := mem_store (sram m) a bs |>, []).
Proof. intros Hin Hl. cbn [as_write soc_space]. by rewrite Hl, Hin. Qed.

(** The voltage of channel [i] of ADC0 changes. *)
Definition soc_pin (w : soc) (i v : Z) : soc := w <| mem := (mem w) <| adc0 := adc_set_input (adc0 (mem w)) i v |> |>.

(** One period per pin value. *)
Fixpoint soc_record (i : Z) (vs : list Z) (w : soc) : option soc :=
  match vs with
  | [] => Some w
  | v :: vs => w ← soc_period (soc_pin w i v); soc_record i vs w
  end.

(** The recorder between two ticks: match 3 of CTIMER0 is routed to input [t] of
    ADC0, and channel [n] of the eDMA empties FIFO 0 into SRAM. *)
Record recording (n t : Z) (w : soc) : Prop := {
  rc_timer : ticking (ctimer0 w) 3;
  rc_route : only_routed w (AdcTrig 0 t);
  rc_adc : adc_stream t (adc0 (mem w));
  rc_empty : results (adc0 (mem w)) 0 = [];
  rc_serve : serving MCXN_DMA_REQ_ADC0_FIFO_A 0 4 n (edma0 w);
  rc_saddr : tcd_saddr (ch (edma0 w)).[n] = ADC0_BASE + R_RESFIFO0;
  rc_idle : (req_level (edma0 w)).[MCXN_DMA_REQ_ADC0_FIFO_A] = false;
  rc_bh : bh (edma0 w) = false;
}.

(** The channel that input [t] converts. *)
Definition soc_adc_channel (w : soc) (t : Z) : Z := adc_channel (adc0 (mem w)) (adc_command (adc0 (mem w)) t).

(** What one period with the pin at [v] does. *)
Record recorded (n t v : Z) (w w' : soc) : Prop := {
  re_sram : sram (mem w') = mem_store (sram (mem w)) (tcd_daddr (ch (edma0 w)).[n]) (le_store 4 (conversion (adc0 (mem w)) t v));
  re_dac : dac0 (mem w') = dac0 (mem w);
  re_command : adc_command (adc0 (mem w')) t = adc_command (adc0 (mem w)) t;
  re_channel : soc_adc_channel w' t = soc_adc_channel w t;
  re_daddr : tcd_daddr (ch (edma0 w')).[n] = tcd_daddr (ch (edma0 w)).[n] + 4;
  re_count : tcd_count (ch (edma0 w')).[n] = tcd_count (ch (edma0 w)).[n] - 1;
}.

Lemma recording_pin n t w i v : recording n t w -> recording n t (soc_pin w i v).
Proof.
  intros []. split; try done. destruct rc_adc0 as [? Hok Hon ? ? ? ?]. split; try done.
  - by apply (adc_step_ok (adc0 (mem w))); [apply adc_step_pin|].
  - destruct Hon. split; try done. apply (adc_step_ok (adc0 (mem w))); [apply adc_step_pin | done].
Qed.

Lemma adc_dest_elem t : 0 <= t < 4 -> AdcTrig 0 t ∈ all_dests.
Proof.
  intros Ht. unfold all_dests. apply elem_of_app. left. apply list_elem_of_fmap. exists t. split; [done|]. apply elem_of_seqZ. lia.
Qed.

Lemma soc_period_recording n t w d : recording n t w -> timer (ctimer0 w) = Some d ->
  in_sram (tcd_daddr (ch (edma0 w)).[n]) 4 = true -> 1 < tcd_count (ch (edma0 w)).[n] ->
  exists w', soc_period w = Some w' /\ recording n t w' /\
    recorded n t ((adc_ch (adc0 (mem w))).[soc_adc_channel w t]) w w' /\
    timer (ctimer0 w') = Some (d + tick_wait (ctimer0 w) 3) /\ tick_wait (ctimer0 w') 3 = tick_wait (ctimer0 w) 3.
Proof.
  intros Hp Hd Hin Hc. destruct (ticking_tick _ 3 d (rc_timer _ _ _ Hp)) as (c & Et & _ & Ht & Hd' & Hw).
  unfold soc_period, soc_tick. rewrite Hd, bind_Some, Et.
  cbn [match_events Z.ltb Z.compare Pos.compare Pos.compare_cont app]. rewrite !bind_Some. cbn [foldl].
  set (w1 := w <| ctimer0 := c |>). pose proof Hp as []. pose proof (at_t _ _ rc_adc0) as Ht4.
  rewrite (soc_routed w1 (AdcTrig 0 t)) by (by apply adc_dest_elem || done). cbn [soc_trigger]. unfold soc_adc_trigger. cbv zeta.
  change (mem w1) with (mem w). set (d0 := adc0 (mem w)) in *. set (r := conversion d0 t ((adc_ch d0).[soc_adc_channel w t])).
  destruct (adc_stream_trigger t d0 rc_adc0 rc_empty0) as (Htc1 & Hok1 & Hr1). fold r in Hr1. set (d1 := mcxn_adc_hw_trigger d0 t true) in *.
  destruct (adc_stream_touch t d0 d1 rc_adc0 Htc1 Hok1) as (Hs1 & Hcmd1 & Hch1 & Hev1). rewrite rc_empty0, Hr1 in Hev1.
  destruct (adc_stream_read t d1 r Hs1 Hr1) as (d2 & Hrd & Htc2 & Hok2 & Hr2).
  destruct (adc_stream_touch t d1 d2 Hs1 Htc2 Hok2) as (Hs2 & Hcmd2 & Hch2 & Hev2). rewrite Hr1, Hr2 in Hev2.
  set (m1 := (mem w) <| adc0 := d1 |>). rewrite Hev1. change (line_change _ _ _) with [EvReq MCXN_DMA_REQ_ADC0_FIFO_A true].
  apply in_sram_range in Hin as Hrange.
  destruct (stream_request 0 4 MCXN_DMA_REQ_ADC0_FIFO_A n (edma0 w) m1 (m1 <| adc0 := d2 |>)
    (m1 <| adc0 := d2 |> <| sram := mem_store (sram (mem w)) (tcd_daddr (ch (edma0 w)).[n]) (le_store 4 r) |>) true
    (le_store 4 r) [EvReq MCXN_DMA_REQ_ADC0_FIFO_A false] [])
    as (Hb & e' & He & Hf' & Hl' & Hb' & Hc' & Hsa' & Hda'); try done.
  { rewrite rc_saddr0. by vm_compute. }
  { rewrite rc_saddr0, adc0_word_read. change (adc0 m1) with d1. by rewrite Hrd, Hev2. }
  { by rewrite sram_word_write. }
  eexists. split; [exact (soc_bh_run c (inputmux w) _ e' m1 _ Hb He)|]. split; [|split; [|done]].
  - split; try done. cbn [edma0]. by rewrite Hsa', Z.add_0_r.
  - split; try done; [by etransitivity | unfold soc_adc_channel; by etransitivity].
Qed.

Lemma adc_channel_range d c : 0 <= adc_channel d c < 16.
Proof.
  unfold adc_channel, MCXN_ADC_CHANNELS. cbv zeta. set (x := if (1 <=? c) && (c <=? 15) then _ else _).
  assert (0 <= x) by (unfold x; destruct (_ && _); [apply Z.land_nonneg; by right | lia]). destruct (Z.leb_spec 16 x); lia.
Qed.

Lemma conversion_range d t v : in_range 16 v -> in_range 32 (conversion d t v).
Proof.
  intros Hv. unfold in_range in Hv. pose proof (adc_command_range d t). unfold conversion. apply in_range_lor; [lia | apply in_range_lor; [lia | |] |].
  - unfold in_range. lia.
  - split; done.
  - rewrite Z.shiftl_mul_pow2 by lia. unfold in_range. lia.
Qed.

(** C3: CTIMER0, INPUTMUX, ADC0 and the eDMA make a recorder.  Every expiry of the
    periodic match converts the pin as it is then and the engine stores the
    result: after one period per value of [vs] the buffer holds a valid result for
    each of them, in order and tagged with the command, nothing else in SRAM has
    changed, the FIFO is empty again, and the last expiry was on time. *)
Theorem soc_recorder n t w d vs :
  recording n t w -> timer (ctimer0 w) = Some d ->
  flag (mcr (ctimer0 w)) (MCR_RST 3) = true -> 0 < (mr (ctimer0 w)).[3] ->
  Forall (in_range 16) vs -> zlen vs < tcd_count (ch (edma0 w)).[n] ->
  let a := tcd_daddr (ch (edma0 w)).[n] in
  in_sram a (4 * zlen vs) = true ->
  let P := Z.max 1 ((mr (ctimer0 w)).[3] * (pr (ctimer0 w) + 1) * NS_PER_S / ctimer_freq (ctimer0 w)) in
  exists w', soc_record (soc_adc_channel w t) vs w = Some w' /\ recording n t w' /\
    timer (ctimer0 w') = Some (d + zlen vs * P) /\
    (forall k, 0 <= k < zlen vs -> word_at (sram (mem w')) (a + 4 * k) = conversion (adc0 (mem w)) t (vs.[k])) /\
    (forall x, x < a \/ a + 4 * zlen vs <= x -> sram (mem w') x = sram (mem w) x) /\ dac0 (mem w') = dac0 (mem w).
Proof.
  intros Hp Hd Hrst Hmr Hvs Hk a Hin P. replace P with (tick_wait (ctimer0 w) 3).
  2: { unfold tick_wait. by rewrite Hrst, (proj2 (Z.ltb_lt _ _)). }
  clear Hrst Hmr P. subst a. revert w d Hp Hd Hk Hin. induction Hvs as [|v vs Hv _ IH]; intros w d Hp Hd Hk Hin.
  { exists w. replace (d + zlen [] * _) with d by (cbn; lia). split_and!; try done. cbn. lia. }
  set (i := soc_adc_channel w t). set (a := tcd_daddr (ch (edma0 w)).[n]) in *. cbn [length] in Hk, Hin.
  set (w0 := soc_pin w i v). assert (Hp0 : recording n t w0) by (by apply recording_pin).
  destruct (soc_period_recording n t w0 d Hp0 Hd) as (w1 & E1 & Hp1 & Hy & Hd1 & Hw1);
    [change (edma0 w0) with (edma0 w); fold a; apply (in_sram_sub _ _ _ _ Hin); lia | change (edma0 w0) with (edma0 w); lia|].
  assert (Hpin : (adc_ch (adc0 (mem w0))).[soc_adc_channel w0 t] = v).
  { etransitivity; [apply (arr_get_set_eq (adc_ch (adc0 (mem w))))|by apply wrap_in_range].
    pose proof (adc_channel_range (adc0 (mem w)) (adc_command (adc0 (mem w)) t)).
    rewrite (Adc.wf_ch _ (Adc.ok_wf _ (at_ok _ _ (rc_adc _ _ _ Hp)))). done. }
  rewrite Hpin in Hy. destruct Hy as [Hsr Hdac Hcmd Hch Hda Hcnt]. change (edma0 w0) with (edma0 w) in *. fold a in Hsr, Hda.
  destruct (IH w1 _ Hp1 Hd1) as (w2 & E2 & Hp2 & Hd2 & Hm2 & Hx2 & Hdac2).
  { rewrite Hcnt. lia. }
  { rewrite Hda. apply (in_sram_sub _ _ _ _ Hin); lia. }
  rewrite Hda in Hm2, Hx2. exists w2. cbn [soc_record]. fold w0. rewrite E1, bind_Some.
  split; [by rewrite Hch in E2|]. split; [done|].
  split; [rewrite Hd2, Hw1; change (ctimer0 w0) with (ctimer0 w); f_equal; cbn [length]; lia|].
  split; [|split; [|by etransitivity]].
  - intros k Hk2. destruct (decide (k = 0)) as [->|].
    + rewrite Z.mul_0_r, Z.add_0_r. change ((v :: vs).[0]) with v. rewrite (word_at_ext (sram (mem w1))) by (intros x [Hx Hx0]; cbn [fst snd] in *; apply Hx2; lia).
      rewrite Hsr. apply word_at_store. by apply conversion_range.
    + replace (a + 4 * k) with (a + 4 + 4 * (k - 1)) by lia. cbn [length] in Hk2. rewrite Hm2 by lia.
      unfold conversion. rewrite Hcmd. unfold arr_get. replace (Z.to_nat k) with (S (Z.to_nat (k - 1))) by lia. done.
  - intros x Hx. cbn [length] in Hx. rewrite Hx2 by lia. rewrite Hsr. unfold mem_store. rewrite length_le_store.
    destruct (Z.leb_spec a x), (Z.ltb_spec x (a + Z.of_nat 4)); cbn [andb]; done || lia.
Qed.

(** A recorder at 100 kHz: input 0 of ADC0 runs command 3 on channel 5, and
    channel 2 of the eDMA stores the results from the start of SRAM. *)
Definition rec_adc : MCXNADCState :=
  foldl (fun d (p : Z * Z) => mcxn_adc_write d p.1 p.2) adc_init
    [(R_TCTRL0, TCTRL_HTEN .| (3 .<< TCTRL_TCMD_SHIFT)); (R_CMD_BASE + 16, 5); (R_CTRL, CTRL_ADCEN); (R_DE, DE_FWMDE0)].
Definition rec_tcd : MCXNEDMAChan :=
  (word_tcd MCXN_DMA_REQ_ADC0_FIFO_A (ADC0_BASE + R_RESFIFO0) MCXN_SRAM_NS 4 100 0) <| tcd_soff := 0 |>.
Definition rec_mux : MCXNInputMuxState :=
  (mcxn_inputmux_write mcxn_inputmux_reset (sel_off (AdcTrig 0 0)) MCXN_INPUTMUX_SRC_CTIMER0_M3).1.
Definition rec : soc :=
  mkSoc wave_timer rec_mux (program_channel EdmaControl.edma0 2 rec_tcd) (mkSocBus (fun a => u8 a) (dac_init false) rec_adc console).

Lemma rec_adc_stream : adc_stream 0 rec_adc.
Proof.
  assert (Hok : adc_ok rec_adc).
  { eapply rtc_invariant; [exact adc_step_ok | | exact adc_init_ok]. unfold rec_adc. cbn [foldl fst snd].
    do 4 (apply adc_step_config; [done..|]). apply rtc_refl. }
  split; [lia | exact Hok | | vm_compute; reflexivity..].
  split; [apply Hok | vm_compute; reflexivity | | reflexivity]. vm_compute. split; [split; congruence | reflexivity].
Qed.

Lemma rec_recording : recording 2 0 rec.
Proof.
  destruct (programmed_serving MCXN_DMA_REQ_ADC0_FIFO_A 0 4 2 rec_tcd) as (Hs & Hc & Hl & Hb);
    [done | done | split; try done; auto | done | done|].
  split; [apply wave_ticking | | apply rec_adc_stream | by vm_compute | done | | done | done].
  2: { change (edma0 rec) with (program_channel EdmaControl.edma0 2 rec_tcd). by rewrite Hc. }
  apply only_routed_check; [by apply adc_dest_elem | vm_compute; reflexivity..].
Qed.

Lemma soc_recorder_witness :
  exists w', soc_record 5 [0x111; 0x222; 0x333] rec = Some w' /\ timer (ctimer0 w') = Some 40000 /\
    word_at (sram (mem w')) (MCXN_SRAM_NS + 4) = 0x83000222 /\ sram (mem w') (MCXN_SRAM_NS + 12) = 12.
Proof.
  destruct (soc_recorder 2 0 rec 10000 [0x111; 0x222; 0x333]) as (w' & E & _ & Ht & Hm & Hx & _).
  - apply rec_recording.
  - reflexivity.
  - reflexivity.
  - reflexivity.
  - repeat constructor; vm_compute; congruence.
  - reflexivity.
  - reflexivity.
  - exists w'. split; [exact E|]. split; [exact Ht|]. split; [exact (Hm 1 ltac:(split; vm_compute; congruence))|].
    rewrite Hx; [reflexivity|]. right. vm_compute. congruence.
Defined.
