(* ===== verification/SocConsole.v ===== *)
(** * The wiring of the SoC: a console fed by the eDMA

    Composition of the LPUART function of FlexComm4 with the eDMA and SRAM, on
    the connections of [hw/arm/mcxn_soc.c] that [Soc] models: the transfer that
    a driver sets up by programming a channel at the data register and setting
    BAUD[TDMAE] last. *)
From S2P Require Import Prelude I2c At24c Ssi FlexComm Lpuart Ctimer InputMux Adc Dac Edma EdmaControl EdmaCopy EdmaStream Soc.

(** A descriptor that moves one byte per minor loop from memory to the data
    register of the console. *)
Record byte_feed (c : MCXNEDMAChan) : Prop := {
  bf_attr : tcd_attr c = 0;
  bf_nb : tcd_nb c = 1;
  bf_soff : tcd_soff c = 1;
  bf_doff : tcd_doff c = 0;
  bf_daddr : tcd_daddr c = FLEXCOMM4_BASE + LPUART_DATA;
  bf_saddr : 0 <= tcd_saddr c;
}.

Lemma byte_feed_shape c : byte_feed c ->
  tcd_ssize c = 1 /\ tcd_dsize c = 1 /\ ATTR_SMOD (tcd_attr c) = 0 /\ ATTR_DMOD (tcd_attr c) = 0 /\
  swrap 16 (tcd_soff c) = 1 /\ swrap 16 (tcd_doff c) = 0 /\ chunks c = 1%nat.
Proof.
  intros [Ha Hn Hs Hd _ _]. unfold chunks, chunk_size, tcd_ssize, tcd_dsize. rewrite Ha, Hn, Hs, Hd. by vm_compute.
Qed.

Lemma byte_feed_valid c : byte_feed c -> tcd_count c <> 0 -> tcd_valid c.
Proof.
  intros Hb Hc. destruct (byte_feed_shape c Hb) as (Hs & Hd & _ & _ & Hso & Hdo & _). destruct Hb.
  split; rewrite ?Hs, ?Hd, ?Hso, ?Hdo, ?bf_nb0; try done; try apply Z.divide_1_l; lia.
Qed.

Lemma byte_feed_copy c (st : MCXNEDMAState * soc_bus) : byte_feed c ->
  edma_copy c st =
    let '(_, bs, st) := bus_read st (tcd_saddr c) 1 in
    (bus_write st (FLEXCOMM4_BASE + LPUART_DATA) (slice 0 1 bs), u32 (tcd_saddr c + 1), tcd_daddr c).
Proof.
  intros Hb. destruct (byte_feed_shape c Hb) as (Hs & Hd & Hsm & Hdm & Hso & Hdo & _). unfold edma_copy. rewrite Hs, Hd, (bf_nb c Hb).
  change (Z.to_nat ((1 + Z.max 1 1 - 1) / Z.max 1 1)) with 1%nat. cbn [edma_chunks]. rewrite Hs, Hd, Hsm, Hdm, Hso, Hdo.
  change (Z.to_nat (Z.max 1 1 / 1)) with 1%nat. cbn [edma_fill edma_drain]. unfold edma_advance. cbn [Z.eqb]. rewrite (bf_daddr c Hb).
  by destruct (bus_read st (tcd_saddr c) 1) as [[ok bs] st'].
Qed.

(** ** The console's side *)

(** The transmitter is on and its DMA request asserted. *)
Record sending (d : MCXNLPUARTState EEPROMState SpiLinkState) : Prop := {
  sd_wf : uart_wf d;
  sd_te : flag (ctrl d) CTRL_TE = true;
  sd_lines : fc_lines d;
  sd_dma : flag (baud d) BAUD_TDMAE = true;
}.

Lemma fc_lines_levels d d' : fc_lines d -> fc_lines d' ->
  flexcomm_tx_request d' = flexcomm_tx_request d -> flexcomm_rx_request d' = flexcomm_rx_request d -> flexcomm4_events d d' = [].
Proof.
  intros (_ & H1 & H2 & [H3 H4]) (_ & H1' & H2' & [H3' H4']) Ht Hr. unfold flexcomm4_events.
  rewrite <- H3, <- H4, <- H3', <- H4', H1, H2, H1', H2', Ht, Hr, !line_change_same. done.
Qed.

Lemma sending_byte d x : sending d -> in_range 8 x ->
  let d' := mcxn_lpuart_write d LPUART_DATA x in
  sending d' /\ flexcomm4_events d d' = [] /\ chr d' = chr d ++ [ChrWrite x].
Proof.
  intros [Hw Hte Hl Hd] Hx. rewrite uart_write by (done || discriminate || by apply (in_range_mono 8)). cbv zeta.
  change (lpuart_write d LPUART_DATA x) with (lpuart_write_data d x). unfold lpuart_write_data. rewrite Hte.
  assert (Ex : x .& 0xFF = x) by (change 0xFF with (Z.ones 8); rewrite Z.land_ones by lia; by apply Z.mod_small). rewrite Ex.
  set (d1 := d <| chr := chr d ++ [ChrWrite x] |>). pose proof (lines_wired d Hl) as Hwd. rewrite update_drive by exact Hwd.
  assert (Hl' : fc_lines (drive d1)) by (rewrite <- update_drive by exact Hwd; by apply update_lines).
  split; [|split; [by apply fc_lines_levels | done]]. split; [by destruct Hw | done | exact Hl' | done].
Qed.

Lemma console_write m off bs : 0 <= off <= 0xFFC -> 1 <= zlen bs <= 4 ->
  as_write m (FLEXCOMM4_BASE + off) bs =
    let d' := mcxn_lpuart_write (flexcomm4 m) off (le_load bs) in (m <| flexcomm4 := d' |>, flexcomm4_events (flexcomm4 m) d').
Proof.
  intros Ho Hb. assert (Hw : forall base size, base + size <= FLEXCOMM4_BASE \/ FLEXCOMM4_BASE + 0x1000 <= base ->
    in_window base size (FLEXCOMM4_BASE + off) (zlen bs) = false).
  { intros base size Hd. unfold in_window. apply andb_false_iff. rewrite !Z.leb_gt. lia. }
  cbn [as_write soc_space]. unfold in_sram, in_dac0, in_adc0. rewrite !Hw
    by (unfold FLEXCOMM4_BASE, MCXN_SRAM_NS, sram_size, DAC0_BASE, ADC0_BASE, MCXN_DAC_SIZE, MCXN_ADC_SIZE; lia).
  assert (Hin : in_flexcomm4 (FLEXCOMM4_BASE + off) (zlen bs) = true).
  { unfold in_flexcomm4, in_window. rewrite andb_true_iff, !Z.leb_le. lia. }
  rewrite Hin. unfold flexcomm4_write, device_write, accesses. rewrite (proj2 (Z.leb_le _ 4)) by lia. cbn [foldl fst snd].
  replace (FLEXCOMM4_BASE + off - FLEXCOMM4_BASE) with off by lia. rewrite Z.sub_diag.
  assert (Es : slice 0 (zlen bs) bs = bs) by (unfold slice; rewrite Nat2Z.id; apply firstn_all). by rewrite Es.
Qed.

(** ** The transfer *)

Lemma byte_feed_quiet c m : byte_feed c -> in_sram (tcd_saddr c) 1 = true -> in_range 8 (sram m (tcd_saddr c)) -> sending (flexcomm4 m) ->
  exists m', quiet_copy c m m' /\ sending (flexcomm4 m') /\ sram m' = sram m /\
    chr (flexcomm4 m') = chr (flexcomm4 m) ++ [ChrWrite (sram m (tcd_saddr c))].
Proof.
  intros Hb Hin Hx Hs. set (x := sram m (tcd_saddr c)) in *. destruct (sending_byte _ x Hs Hx) as (Hs' & He & Hc).
  exists (m <| flexcomm4 := mcxn_lpuart_write (flexcomm4 m) LPUART_DATA x |>). split; [|done].
  destruct (byte_feed_shape c Hb) as (H1 & H2 & H3 & H4 & H5 & H6 & H7). intros s. rewrite byte_feed_copy by done.
  unfold src_adv, dst_adv, src_accesses, dst_accesses, chunk_size. rewrite H1, H2, H3, H4, H5, H6, H7.
  change (1 * Z.to_nat (Z.max 1 1 / 1))%nat with 1%nat. cbn [adv]. unfold edma_advance. cbn [Z.eqb].
  unfold bus_read. cbn [as_read soc_space]. rewrite Hin, seqZ_S by lia. cbn [map].
  change (seqZ (tcd_saddr c + 1) (1 - 1)) with (@nil Z). fold x. cbn [map edma_lines foldl]. change (slice 0 1 [x]) with [x].
  unfold bus_write. rewrite console_write by (cbn; unfold LPUART_DATA; lia).
  replace (le_load [x]) with x by (cbn [le_load]; by rewrite Z.shiftl_0_l, Z.lor_0_r). cbv zeta. rewrite He.
  cbn [edma_lines foldl]. by rewrite (bf_daddr c Hb).
Qed.

Lemma byte_feed_after c : byte_feed c -> in_sram (tcd_saddr c) (tcd_count c) = true -> 1 < tcd_count c ->
  byte_feed (chan_after c) /\ tcd_saddr (chan_after c) = tcd_saddr c + 1.
Proof.
  intros Hb Hin Hc. destruct (byte_feed_shape c Hb) as (H1 & H2 & H3 & H4 & H5 & H6 & H7). destruct Hb. unfold chan_after.
  rewrite (proj2 (Z.eqb_neq (tcd_count c) 1)) by lia. unfold src_adv, dst_adv, src_accesses, dst_accesses, chunk_size. rewrite H1, H2, H3, H4, H5, H6, H7.
  change (1 * Z.to_nat (Z.max 1 1 / 1))%nat with 1%nat. cbn [adv]. unfold edma_advance. cbn [Z.eqb].
  assert (E : u32 (tcd_saddr c + 1) = tcd_saddr c + 1).
  { revert Hin. unfold in_sram, in_window, MCXN_SRAM_NS, sram_size. rewrite andb_true_iff, !Z.leb_le. intros. apply wrap_id. lia. }
  rewrite E, bf_daddr0. split; [|done]. split; try done. cbn. lia.
Qed.

Lemma byte_feed_major k c m : byte_feed c -> tcd_elink c = false -> Z.of_nat (S k) = tcd_count c ->
  in_sram (tcd_saddr c) (tcd_count c) = true ->
  let bytes := map (sram m) (seqZ (tcd_saddr c) (tcd_count c)) in
  Forall (in_range 8) bytes -> sending (flexcomm4 m) ->
  exists m', quiet_copies (S k) c m m' /\ sending (flexcomm4 m') /\ sram m' = sram m /\
    chr (flexcomm4 m') = chr (flexcomm4 m) ++ map ChrWrite bytes.
Proof.
  revert c m. induction k as [|k IH]; intros c m Hb He Hk Hin bytes Hbs Hs; subst bytes; rewrite seqZ_S in * by lia; cbn [map] in *;
    apply Forall_cons in Hbs as [Hx Hbs]; (destruct (byte_feed_quiet c m) as (m1 & Hq & Hs1 & Hm1 & Hc1);
    [done | apply (in_sram_sub _ _ _ _ Hin); lia | done | done|]).
  { exists m1. rewrite <- Hk. split; [by exists m1 | done]. }
  destruct (byte_feed_after c Hb Hin ltac:(lia)) as [Hb' Hsa]. destruct (chan_after_count c He ltac:(lia)) as [Hcnt He'].
  destruct (IH (chan_after c) m1) as (m2 & Hqs & Hs2 & Hm2 & Hc2); rewrite ?Hcnt, ?Hsa, ?Hm1 in *; try done; [lia | apply (in_sram_sub _ _ _ _ Hin); lia|].
  exists m2. split; [by exists m1|]. split; [done|]. split; [done|]. by rewrite Hc2, Hc1, <- app_assoc.
Qed.

Definition MCXN_DMA_REQ_CONSOLE_TX : Z := MCXN_DMA_REQ_LPFLEXCOMM0_TX + 2 * 4.

(** Channel [n] is programmed to feed the console: a byte descriptor that
    disables its request at the end, on the console's transmit request, which no
    other channel waits for. *)
Record feeding (n : Z) (s : MCXNEDMAState) : Prop := {
  fd_wf : edma_wf s;
  fd_n : 0 <= n < 16;
  fd_edge : (req_edge s).[MCXN_DMA_REQ_CONSOLE_TX] = false;
  fd_mux : mux (ch s).[n] .& CH_MUX_SRC_MASK = MCXN_DMA_REQ_CONSOLE_TX;
  fd_erq : flag (csr (ch s).[n]) CH_CSR_ERQ = true;
  fd_enabled : (req_enabled s).[MCXN_DMA_REQ_CONSOLE_TX] = true;
  fd_others : forall j, 0 <= j < 16 -> j <> n ->
    mux (ch s).[j] .& CH_MUX_SRC_MASK <> MCXN_DMA_REQ_CONSOLE_TX /\ edma_requested s j = false;
  fd_feed : byte_feed (ch s).[n];
  fd_count : tcd_count (ch s).[n] <> 0;
  fd_plain : plain (ch s).[n];
  fd_dreq : flag (tcd_csr (ch s).[n]) TCD_CSR_DREQ = true;
}.

Lemma feeding_waiting n s b : feeding n s ->
  waiting (s <| req_level := (req_level s).[MCXN_DMA_REQ_CONSOLE_TX <- true] |> <| bh := b |>) n.
Proof.
  intros []. split; cbn [ch req_edge modify]; try done; [| |by rewrite fd_mux0 | by apply byte_feed_valid].
  - destruct fd_wf0. split; try done. cbn. by autorewrite with arrays.
  - intros j Hj. unfold edma_requested. cbn [ch req_edge req_level req_enabled modify].
    change MCXN_DMA_REQ_CONSOLE_TX with 78 in *. rewrite arr_get_set by (destruct fd_wf0; try apply mux_src_range; lia). destruct (Z.eqb_spec j n) as [->|Hne].
    + by rewrite fd_erq0, fd_mux0, Z.eqb_refl, fd_enabled0.
    + destruct (fd_others0 j Hj Hne) as [Hm Hr]. by rewrite (proj2 (Z.eqb_neq _ _) Hm).
Qed.

(** A store of the processor to a device and the lines it moves. *)
Definition soc_write (w : soc) (a : Z) (bs : list Z) : soc :=
  let '(m, evs) := as_write (mem w) a bs in
  w <| mem := m |> <| edma0 := edma_lines (edma0 w) evs |>.

(** Setting BAUD[TDMAE] raises the request. *)
Lemma console_enable d v : uart_wf d -> flag (ctrl d) CTRL_TE = true -> fc_lines d -> flag (baud d) BAUD_TDMAE = false ->
  in_range 32 (baud d) -> v = baud d .| BAUD_TDMAE ->
  let d' := mcxn_lpuart_write d LPUART_BAUD v in
  sending d' /\ flexcomm4_events d d' = [EvReq MCXN_DMA_REQ_CONSOLE_TX true] /\ chr d' = chr d.
Proof.
  intros Hw Hte Hl Ht Hb ->. set (v := baud d .| BAUD_TDMAE).
  assert (Hv : in_range 32 v /\ flag v BAUD_TDMAE = true /\ flag v BAUD_RDMAE = flag (baud d) BAUD_RDMAE).
  { unfold v. change BAUD_TDMAE with (bit 23). change BAUD_RDMAE with (bit 21). rewrite !flag_bit by lia. autorewrite with bits. cbn. rewrite orb_true_r, orb_false_r.
    split; [|done]. by apply in_range_lor. }
  destruct Hv as (Hv & Hvt & Hvr). rewrite uart_write by done. cbv zeta.
  change (lpuart_write d LPUART_BAUD v) with (mcxn_flexcomm_update_irq (d <| baud := v |>)).
  assert (Hwd : wired (d <| baud := v |>)) by exact (lines_wired d Hl). pose proof (update_lines _ Hwd) as Hl'.
  rewrite update_drive in * by exact Hwd. split; [by split; [destruct Hw|..]|]. split; [|done].
  destruct Hl as (_ & H1 & H2 & [H3 H4]). destruct (uw_sel d Hw) as [Hs Hi]. unfold flexcomm4_events, drive. cbn [dma_tx_level dma_rx_level modify].
  rewrite <- H3, <- H4, H1, H2. unfold flexcomm_tx_request, flexcomm_rx_request. cbn [pselid baud modify].
  rewrite (proj2 (Z.eqb_neq _ 2) Hs), (proj2 (Z.eqb_neq _ 3) Hi), Ht, Hvt, Hvr.
  change (lpuart_rdrf (d <| baud := v |>)) with (lpuart_rdrf d). by rewrite line_change_same.
Qed.

(** C4: A console driven by DMA.  With a channel programmed to feed the data
    register of FlexComm4 from SRAM and the transmitter on, setting BAUD[TDMAE]
    is all it takes: the request it raises schedules the engine, and the
    engine's bottom half sends exactly the bytes of the buffer, in order and
    once each, leaves the channel complete with its request disabled, and SRAM as
    it was. *)
Theorem soc_console_dma n w :
  let d := flexcomm4 (mem w) in
  let c := (ch (edma0 w)).[n] in
  feeding n (edma0 w) -> uart_wf d -> fc_lines d ->
  flag (ctrl d) CTRL_TE = true -> flag (baud d) BAUD_TDMAE = false -> in_range 32 (baud d) ->
  in_sram (tcd_saddr c) (tcd_count c) = true ->
  let bytes := map (sram (mem w)) (seqZ (tcd_saddr c) (tcd_count c)) in
  Forall (in_range 8) bytes ->
  exists w', soc_bh (soc_write w (FLEXCOMM4_BASE + LPUART_BAUD) (le_store 4 (baud d .| BAUD_TDMAE))) = Some w' /\
    chr_sent (chr (flexcomm4 (mem w'))) = chr_sent (chr d) ++ bytes /\
    completed c (edma0 w') n /\ sram (mem w') = sram (mem w).
Proof.
  intros d c Hf Hw Hl Hte Ht Hb Hin bytes Hbs. set (v := baud d .| BAUD_TDMAE).
  destruct (console_enable d v Hw Hte Hl Ht Hb eq_refl) as (Hs & He & Hc).
  assert (Ev : le_load (le_store 4 v) = v) by (rewrite le_load_store; apply wrap_in_range; by apply in_range_lor).
  unfold soc_write. rewrite console_write by (rewrite ?length_le_store; unfold LPUART_BAUD; lia). rewrite Ev. fold d. cbv zeta. rewrite He.
  set (m1 := (mem w) <| flexcomm4 := _ |>). cbn [edma_lines foldl edma_line]. rewrite edma_req_set by (by vm_compute).
  unfold soc_bh. cbn [edma0 mem bh modify orb]. set (e1 := _ <| bh := false |>).
  assert (Hwait : waiting e1 n) by (apply (feeding_waiting n (edma0 w) false Hf)).
  assert (Hcount : Z.of_nat (S (pred (Z.to_nat (tcd_count c)))) = tcd_count c).
  { pose proof (fd_count n _ Hf). pose proof (tcd_count_range c (proj1 (fd_plain n _ Hf))). subst c. lia. }
  destruct (byte_feed_major (pred (Z.to_nat (tcd_count c))) c m1 (fd_feed n _ Hf) (proj1 (fd_plain n _ Hf)) Hcount Hin Hbs Hs) as (m2 & Hq & _ & Hm & Hch).
  replace (S (pred (Z.to_nat (tcd_count c)))) with (Z.to_nat (tcd_count c)) in Hq by lia.
  destruct (edma_service_bh_quiet e1 m1 m2 n Hwait (fd_n n _ Hf) Hq) as (e2 & E & Hd).
  exists (w <| edma0 := e2 |> <| mem := m2 |>). rewrite E. split; [done|]. cbn [mem edma0 modify].
  rewrite Hch. change (chr (flexcomm4 m1)) with (chr (mcxn_lpuart_write d LPUART_BAUD v)). rewrite Hc. unfold chr_sent. rewrite omap_app.
  split; [|done]. f_equal. change (sram m1) with (sram (mem w)). fold bytes. clear. induction bytes as [|x l IH]; [done|]. cbn. by f_equal.
Qed.

(** Five characters at the start of SRAM, on channel 3. *)
Definition hello : list Z := [72; 101; 108; 108; 111].
Definition hello_tcd : MCXNEDMAChan :=
  chan_zero <| csr := CH_CSR_ERQ |> <| mux := MCXN_DMA_REQ_CONSOLE_TX |>
    <| tcd_saddr := MCXN_SRAM_NS |> <| tcd_soff := 1 |> <| tcd_nbytes := 1 |> <| tcd_daddr := FLEXCOMM4_BASE + LPUART_DATA |>
    <| tcd_citer := 5 |> <| tcd_biter := 5 |> <| tcd_csr := TCD_CSR_DREQ |>.
Definition hello_uart : MCXNLPUARTState EEPROMState SpiLinkState :=
  mcxn_lpuart_write (mcxn_lpuart_write console LPFLEXCOMM_PSELID 1) LPUART_CTRL CTRL_TE.
Definition hello_soc : soc :=
  mkSoc wave_timer wave_mux (program_channel EdmaControl.edma0 3 hello_tcd)
    (mkSocBus (fun a => hello.[a - MCXN_SRAM_NS]) wave_dac adc_init hello_uart).

Lemma hello_feeding : feeding 3 (edma0 hello_soc).
Proof.
  pose proof (edma_reset_ok 0) as [Hwf _ _]. fold EdmaControl.edma0 in Hwf.
  assert (Hc : (ch (edma0 hello_soc)).[3] = hello_tcd) by (apply (arr_get_set_eq (ch EdmaControl.edma0)); destruct Hwf; lia).
  split; rewrite ?Hc; try done.
  intros j Hj Hne. assert (Hcj : (ch (edma0 hello_soc)).[j] = (ch EdmaControl.edma0).[j]) by (apply (arr_get_set_ne (ch EdmaControl.edma0)); lia).
  unfold edma_requested. rewrite Hcj. destruct (edma0_chans j Hj) as [-> ->]. by rewrite Z.land_0_l.
Qed.

Lemma soc_console_dma_witness :
  exists w', soc_bh (soc_write hello_soc (FLEXCOMM4_BASE + LPUART_BAUD) (le_store 4 (LPUART_BAUD_RESET .| BAUD_TDMAE))) = Some w' /\
    chr_sent (chr (flexcomm4 (mem w'))) = hello.
Proof.
  destruct (soc_console_dma 3 hello_soc) as (w' & E & Hs & _).
  - apply hello_feeding.
  - split; vm_compute; try done; try (split; discriminate); try (by left).
  - split; vm_compute; done.
  - reflexivity.
  - reflexivity.
  - vm_compute. split; [discriminate | reflexivity].
  - reflexivity.
  - vm_compute. repeat constructor; discriminate.
  - exists w'. split; [exact E | exact Hs].
Defined.
