(* ===== verification/ClockTree.v ===== *)
(** * ClockTree: the clock generator, SYSCON and the clocks they drive

    Model of [hw/misc/mcxn_scg.c] and [hw/misc/mcxn_syscon.c] with the clock
    objects of [hw/core/clock.c] that connect them, as [hw/arm/mcxn_soc.c] wires
    them.  A clock is its period in units of 2^-32 ns; a device that is connected to
    an output reads the period of that output.  The theorems: no clock is ever
    stale, every rate being that of the selected source behind its dividers;
    the second core starts from its boot address and is held when it is told to. *)
From S2P Require Import Prelude.

(** ** Clocks *)

Definition CLOCK_PERIOD_1SEC : Z := 1000000000 .<< 32.
Definition CLOCK_PERIOD_FROM_HZ (hz : Z) : Z := if hz =? 0 then 0 else CLOCK_PERIOD_1SEC / hz.
Definition CLOCK_PERIOD_TO_HZ (per : Z) : Z := if per =? 0 then 0 else CLOCK_PERIOD_1SEC / per.
(** The result is an [unsigned]. *)
Definition clock_get_hz (period : Z) : Z := u32 (CLOCK_PERIOD_TO_HZ period).

(** ** SCG: the clock generator *)

Definition SCG_VERID : Z := 0x000.
Definition SCG_PARAM : Z := 0x004.
Definition SCG_CSR : Z := 0x010.
Definition SCG_RCCR : Z := 0x014.
Definition SCG_SOSCCSR : Z := 0x100.
Definition SCG_SIRCCSR : Z := 0x200.
Definition SCG_FIRCCSR : Z := 0x300.
Definition SCG_FIRCCFG : Z := 0x308.
Definition SCG_ROSCCSR : Z := 0x400.
Definition SCG_APLLCSR : Z := 0x500.
Definition SCG_APLLCTRL : Z := 0x504.
Definition SCG_APLLNDIV : Z := 0x50C.
Definition SCG_APLLMDIV : Z := 0x510.
Definition SCG_APLLPDIV : Z := 0x514.
Definition SCG_APLLLOCK_CNFG : Z := 0x518.
Definition SCG_APLLSSCG1 : Z := 0x528.
Definition SCG_SPLLCSR : Z := 0x600.
Definition SCG_SPLLCTRL : Z := 0x604.
Definition SCG_SPLLNDIV : Z := 0x60C.
Definition SCG_SPLLMDIV : Z := 0x610.
Definition SCG_SPLLPDIV : Z := 0x614.
Definition SCG_SPLLLOCK_CNFG : Z := 0x618.
Definition SCG_SPLLSSCG1 : Z := 0x628.
Definition SCG_LDOCSR : Z := 0x800.
Definition SCG_READY : Z := 0x01000000.
Definition SOSCCSR_SOSCEN : Z := bit 0.
Definition ROSCCSR_ROSCCM : Z := bit 16.
Definition APLLCSR_PWR_CLK : Z := bit 0 .| bit 1.
Definition SPLLCSR_PWR_CLK : Z := bit 0 .| bit 1.
Definition SIRCCSR_PERIPH_EN : Z := bit 5.
Definition FIRCCSR_FIRCEN : Z := bit 0.
Definition FIRCCFG_RANGE : Z := bit 0.
Definition FRO12M_HZ : Z := 12000000.
Definition FROHF_48_HZ : Z := 48000000.
Definition FROHF_144_HZ : Z := 144000000.
Definition CLK48M_HZ : Z := 48000000.
Definition EXTCLK_HZ : Z := 16000000.
Definition OSC32K_HZ : Z := 32768.
Definition PLLCTRL_SOURCE_MASK : Z := 0x6000000.
Definition PLLCTRL_SOURCE_SHIFT : Z := 25.
Definition PLLCTRL_BYPASSPOSTDIV2 : Z := 0x10000.
Definition PLLCTRL_BYPASSPREDIV : Z := 0x80000.
Definition PLLCTRL_BYPASSPOSTDIV : Z := 0x100000.
Definition PLLNDIV_MASK : Z := 0xFF.
Definition PLLMDIV_MASK : Z := 0xFFFF.
Definition PLLPDIV_MASK : Z := 0x1F.
Definition RCCR_SCS_MASK : Z := 0x0F000000.
Definition RCCR_SCS_SHIFT : Z := 24.
Definition SCS_SOSC : Z := 1.
Definition SCS_SIRC : Z := 2.
Definition SCS_FIRC : Z := 3.
Definition SCS_ROSC : Z := 4.
Definition SCS_APLL : Z := 5.
Definition SCS_SPLL : Z := 6.
Definition SCG_VERID_VALUE : Z := 0x06010000.
Definition SCG_SIRCCSR_RESET : Z := 0x01000020.
Definition MCXN_SCG_SIZE : Z := 0x1000.

(** The registers and the periods of the outputs. *)
Record MCXNSCGState := mkSCG {
  scg_regs : list Z;            (* uint32_t[MCXN_SCG_SIZE / 4] *)
  fro12m : Z; frohf : Z; apll : Z; spll : Z; mainclk : Z;
}.
#[export] Instance scg_settable : Settable MCXNSCGState := fun s =>
  mkSCG (scg_regs s) (fro12m s) (frohf s) (apll s) (spll s) (mainclk s).

Definition scg_reg (s : MCXNSCGState) (off : Z) : Z := (scg_regs s).[off .>> 2].
Definition set_scg_reg (s : MCXNSCGState) (off v : Z) : MCXNSCGState := s <| scg_regs := (scg_regs s).[off .>> 2 <- v] |>.

Definition scg_clk48m_hz (s : MCXNSCGState) : Z := if flag (scg_reg s SCG_FIRCCSR) FIRCCSR_FIRCEN then CLK48M_HZ else 0.

Definition scg_pll_out (s : MCXNSCGState) (ctrl ndiv mdiv pdiv csr : Z) : Z :=
  let c := scg_reg s ctrl in
  if negb (flag (scg_reg s csr) APLLCSR_PWR_CLK) then 0
  else
    let source := (c .& PLLCTRL_SOURCE_MASK) .>> PLLCTRL_SOURCE_SHIFT in
    let fin :=
      if source =? 0 then if flag (scg_reg s SCG_SOSCCSR) SOSCCSR_SOSCEN then EXTCLK_HZ else 0
      else if source =? 1 then scg_clk48m_hz s
      else if source =? 2 then if flag (scg_reg s SCG_ROSCCSR) ROSCCSR_ROSCCM then OSC32K_HZ else 0
      else 0 in
    if fin =? 0 then 0
    else
      let n := if flag c PLLCTRL_BYPASSPREDIV then 1 else scg_reg s ndiv .& PLLNDIV_MASK in
      let n := if n =? 0 then 1 else n in
      let postdiv :=
        if flag c PLLCTRL_BYPASSPOSTDIV then 1
        else if flag c PLLCTRL_BYPASSPOSTDIV2 then scg_reg s pdiv .& PLLPDIV_MASK
        else 2 * (scg_reg s pdiv .& PLLPDIV_MASK) in
      let postdiv := if postdiv =? 0 then 2 else postdiv in
      let m := scg_reg s mdiv .& PLLMDIV_MASK in
      u32 (fin / n * m / postdiv).
Definition apll_out (s : MCXNSCGState) : Z := scg_pll_out s SCG_APLLCTRL SCG_APLLNDIV SCG_APLLMDIV SCG_APLLPDIV SCG_APLLCSR.
Definition spll_out (s : MCXNSCGState) : Z := scg_pll_out s SCG_SPLLCTRL SCG_SPLLNDIV SCG_SPLLMDIV SCG_SPLLPDIV SCG_SPLLCSR.

Definition scg_main_clk_hz (s : MCXNSCGState) : Z :=
  let scs := (scg_reg s SCG_RCCR .& RCCR_SCS_MASK) .>> RCCR_SCS_SHIFT in
  if scs =? SCS_SOSC then if flag (scg_reg s SCG_SOSCCSR) SOSCCSR_SOSCEN then EXTCLK_HZ else 0
  else if scs =? SCS_SIRC then clock_get_hz (fro12m s)
  else if scs =? SCS_FIRC then clock_get_hz (frohf s)
  else if scs =? SCS_ROSC then if flag (scg_reg s SCG_ROSCCSR) ROSCCSR_ROSCCM then OSC32K_HZ else 0
  else if scs =? SCS_APLL then apll_out s
  else if scs =? SCS_SPLL then spll_out s
  else 0.

(** The value of a register; the status bits follow the enables. *)
Definition mcxn_scg_read (s : MCXNSCGState) (off : Z) : Z :=
  let v := if off <? MCXN_SCG_SIZE then scg_reg s off else 0 in
  let ready (en : Z) := if flag v en then v .| SCG_READY else v in
  if off =? SCG_VERID then SCG_VERID_VALUE
  else if off =? SCG_PARAM then 0
  else if off =? SCG_CSR then scg_reg s SCG_RCCR
  else if off =? SCG_SOSCCSR then ready SOSCCSR_SOSCEN
  else if off =? SCG_ROSCCSR then ready ROSCCSR_ROSCCM
  else if off =? SCG_APLLCSR then ready APLLCSR_PWR_CLK
  else if off =? SCG_SPLLCSR then ready SPLLCSR_PWR_CLK
  else if off =? SCG_SIRCCSR then v .| SCG_READY
  else if off =? SCG_FIRCCSR then ready FIRCCSR_FIRCEN
  else v.

(** ** SYSCON: clock selection and the second core *)

Definition SYSCON_OSTIMERCLKSEL : Z := 0x5E0.
Definition CLK16K_HZ : Z := 16000.
Definition CLK1M_HZ : Z := 1000000.
Definition SYSCON_SCTCLKSEL : Z := 0x2F0.
Definition SYSCON_SCTCLKDIV : Z := 0x3B4.
Definition SYSCON_CTIMERCLKSEL0 : Z := 0x26C.
Definition SYSCON_CTIMERCLKDIV0 : Z := 0x3D0.
Definition SYSCON_PLL1CLK0DIV : Z := 0x3E4.
Definition SYSCON_AHBCLKDIV : Z := 0x380.
Definition SYSCON_SAI0CLKSEL : Z := 0x880.
Definition SYSCON_SAI1CLKSEL : Z := 0x884.
Definition SYSCON_SAI0CLKDIV : Z := 0x888.
Definition SYSCON_SAI1CLKDIV : Z := 0x88C.
Definition SAI_COUNT : Z := 2.
Definition CTIMER_COUNT : Z := 5.
Definition CLKDIV_DIV_MASK : Z := 0xFF.
Definition CLKDIV_HALT : Z := bit 30.
Definition SYSCON_CPUCTRL : Z := 0x800.
Definition SYSCON_CPBOOT : Z := 0x804.
Definition SYSCON_CPSTAT : Z := 0x808.
Definition SYSCON_PRESETCTRL0 : Z := 0x100.
Definition SYSCON_PRESETCTRLSET : Z := 0x120.
Definition SYSCON_PRESETCTRLCLR : Z := 0x140.
Definition SYSCON_AHBCLKCTRL0 : Z := 0x200.
Definition SYSCON_AHBCLKCTRLSET : Z := 0x220.
Definition SYSCON_AHBCLKCTRLCLR : Z := 0x240.
Definition SYSCON_CTRL_COUNT : Z := 4.
Definition CPUCTRL_CPU1CLKEN : Z := bit 3.
Definition CPUCTRL_CPU1RSTEN : Z := bit 5.
Definition CPBOOT_ADDR_MASK : Z := 0xFFFFFF80.
Definition CPSTAT_CPU1SLEEPING : Z := bit 1.
Definition MCXN_SYSCON_SIZE : Z := 0x1000.

(** The second core, as far as SYSCON controls it: the vector table, whether it
    runs, and the tables it was reset from. *)
Record ARMCPU := mkCPU { init_svtor : Z; running : bool; boots : list Z }.

Record MCXNSysconState := mkSyscon {
  sys_regs : list Z;            (* uint32_t[MCXN_SYSCON_SIZE / 4] *)
  ostimer_clk : Z;
  fro12m_in : Z; frohf_in : Z; apll_in : Z; spll_in : Z; mainclk_in : Z;
  busclk : Z;
  ctimer_clk : list Z;          (* Clock[5] *)
  sct_clk : Z;
  sai_clk : list Z;             (* Clock[2] *)
  cpuctrl : Z; cpboot : Z;
  cpu1_running : bool;
  cpu1 : option ARMCPU;
  start_bhs : nat;              (* scheduled runs of the start bottom half *)
}.
#[export] Instance syscon_settable : Settable MCXNSysconState := fun s =>
  mkSyscon (sys_regs s) (ostimer_clk s) (fro12m_in s) (frohf_in s) (apll_in s) (spll_in s) (mainclk_in s) (busclk s) (ctimer_clk s) (sct_clk s) (sai_clk s)
    (cpuctrl s) (cpboot s) (cpu1_running s) (cpu1 s) (start_bhs s).

Definition sys_reg (s : MCXNSysconState) (off : Z) : Z := (sys_regs s).[off / 4].
Definition set_sys_reg (s : MCXNSysconState) (off v : Z) : MCXNSysconState := s <| sys_regs := (sys_regs s).[off / 4 <- v] |>.

Definition mcxn_syscon_pll1_div (s : MCXNSysconState) : Z :=
  let div := (sys_reg s SYSCON_PLL1CLK0DIV .& CLKDIV_DIV_MASK) + 1 in
  clock_get_hz (spll_in s) / div.

Definition mcxn_syscon_ctimer_src (s : MCXNSysconState) (n : Z) : Z :=
  let sel := (sys_regs s).[SYSCON_CTIMERCLKSEL0 / 4 + n] .& 0xF in
  if sel =? 0 then CLK1M_HZ
  else if sel =? 1 then clock_get_hz (apll_in s)
  else if sel =? 2 then mcxn_syscon_pll1_div s
  else if sel =? 3 then clock_get_hz (frohf_in s)
  else if sel =? 4 then clock_get_hz (fro12m_in s)
  else 0.

Definition mcxn_syscon_sct_src (s : MCXNSysconState) : Z :=
  let sel := sys_reg s SYSCON_SCTCLKSEL .& 0x7 in
  if sel =? 1 then clock_get_hz (apll_in s)
  else if sel =? 3 then clock_get_hz (frohf_in s)
  else if sel =? 4 then mcxn_syscon_pll1_div s
  else 0.

Definition mcxn_syscon_sai_src (s : MCXNSysconState) (n : Z) : Z :=
  let off := if negb (n =? 0) then SYSCON_SAI1CLKSEL else SYSCON_SAI0CLKSEL in
  let sel := sys_reg s off .& 0x7 in
  if sel =? 1 then clock_get_hz (apll_in s)
  else if sel =? 3 then clock_get_hz (frohf_in s)
  else if sel =? 4 then mcxn_syscon_pll1_div s
  else 0.

(** A source behind a divider register. *)
Definition divided (src div : Z) : Z := if flag div CLKDIV_HALT then 0 else src / ((div .& CLKDIV_DIV_MASK) + 1).

Definition ostimer_src (s : MCXNSysconState) : Z :=
  let sel := sys_reg s SYSCON_OSTIMERCLKSEL .& 0x7 in
  if sel =? 0 then CLK16K_HZ else if sel =? 1 then OSC32K_HZ else if sel =? 2 then CLK1M_HZ else 0.

(** The devices behind these outputs have no callback: they see the new period. *)
Definition mcxn_syscon_update_clocks (s : MCXNSysconState) : MCXNSysconState :=
  let s := s <| ostimer_clk := CLOCK_PERIOD_FROM_HZ (ostimer_src s) |> in
  let s := foldl (fun s n =>
    let div := (sys_regs s).[SYSCON_CTIMERCLKDIV0 / 4 + n] in
    s <| ctimer_clk := (ctimer_clk s).[n <- CLOCK_PERIOD_FROM_HZ (divided (mcxn_syscon_ctimer_src s n) div)] |>) s (seqZ 0 CTIMER_COUNT) in
  let s := s <| sct_clk := CLOCK_PERIOD_FROM_HZ (divided (mcxn_syscon_sct_src s) (sys_reg s SYSCON_SCTCLKDIV)) |> in
  let s := foldl (fun s n =>
    let divoff := if negb (n =? 0) then SYSCON_SAI1CLKDIV else SYSCON_SAI0CLKDIV in
    s <| sai_clk := (sai_clk s).[n <- CLOCK_PERIOD_FROM_HZ (divided (mcxn_syscon_sai_src s n) (sys_reg s divoff))] |>) s (seqZ 0 SAI_COUNT) in
  let ahbdiv := (sys_reg s SYSCON_AHBCLKDIV .& CLKDIV_DIV_MASK) + 1 in
  s <| busclk := CLOCK_PERIOD_FROM_HZ (clock_get_hz (mainclk_in s) / ahbdiv) |>.

Definition mcxn_syscon_set_cpu1_run (cpu : ARMCPU) (run : bool) : ARMCPU := mkCPU (init_svtor cpu) run (boots cpu).

Definition mcxn_syscon_start_cpu1_bh (s : MCXNSysconState) : MCXNSysconState :=
  match cpu1 s with
  | None => s
  | Some cpu =>
      let svtor := cpboot s .& CPBOOT_ADDR_MASK in
      let cpu := mkCPU svtor (running cpu) (boots cpu ++ [svtor]) in
      s <| cpu1 := Some (mcxn_syscon_set_cpu1_run cpu true) |> <| cpu1_running := true |>
  end.

Definition want_run (s : MCXNSysconState) : bool := flag (cpuctrl s) CPUCTRL_CPU1CLKEN && negb (flag (cpuctrl s) CPUCTRL_CPU1RSTEN).
Definition mcxn_syscon_update_cpu1 (s : MCXNSysconState) : MCXNSysconState :=
  match cpu1 s with
  | None => s
  | Some cpu =>
      if want_run s && negb (cpu1_running s) then s <| start_bhs := S (start_bhs s) |>
      else if negb (want_run s) && cpu1_running s then s <| cpu1 := Some (mcxn_syscon_set_cpu1_run cpu false) |> <| cpu1_running := false |>
      else s
  end.

Definition mcxn_syscon_read (s : MCXNSysconState) (offset : Z) : Z :=
  if offset =? SYSCON_CPUCTRL then cpuctrl s
  else if offset =? SYSCON_CPBOOT then cpboot s
  else if offset =? SYSCON_CPSTAT then if cpu1_running s then 0 else CPSTAT_CPU1SLEEPING
  else sys_reg s offset.

Definition syscon_in_range (off base count : Z) : bool := (base <=? off) && (off <? base + 4 * count).

(** The registers whose writes change a rate. *)
Definition syscon_clock_reg (offset : Z) : bool :=
  existsb (Z.eqb offset) [SYSCON_OSTIMERCLKSEL; SYSCON_SCTCLKSEL; SYSCON_SCTCLKDIV; SYSCON_PLL1CLK0DIV; SYSCON_SAI0CLKSEL; SYSCON_SAI1CLKSEL;
    SYSCON_SAI0CLKDIV; SYSCON_SAI1CLKDIV; SYSCON_AHBCLKDIV] ||
  syscon_in_range offset SYSCON_CTIMERCLKSEL0 CTIMER_COUNT || syscon_in_range offset SYSCON_CTIMERCLKDIV0 CTIMER_COUNT.

Definition mcxn_syscon_write (s : MCXNSysconState) (offset value : Z) : MCXNSysconState :=
  let v := u32 value in
  let alias (set : bool) (base reg0 : Z) :=
    let i := reg0 / 4 + (offset - base) / 4 in
    s <| sys_regs := (sys_regs s).[i <- if set then (sys_regs s).[i] .| v else (sys_regs s).[i] .& u32 (.~ v)] |> in
  if syscon_in_range offset SYSCON_PRESETCTRLSET SYSCON_CTRL_COUNT then alias true SYSCON_PRESETCTRLSET SYSCON_PRESETCTRL0
  else if syscon_in_range offset SYSCON_PRESETCTRLCLR SYSCON_CTRL_COUNT then alias false SYSCON_PRESETCTRLCLR SYSCON_PRESETCTRL0
  else if syscon_in_range offset SYSCON_AHBCLKCTRLSET SYSCON_CTRL_COUNT then alias true SYSCON_AHBCLKCTRLSET SYSCON_AHBCLKCTRL0
  else if syscon_in_range offset SYSCON_AHBCLKCTRLCLR SYSCON_CTRL_COUNT then alias false SYSCON_AHBCLKCTRLCLR SYSCON_AHBCLKCTRL0
  else if offset =? SYSCON_CPUCTRL then mcxn_syscon_update_cpu1 (s <| cpuctrl := v |>)
  else if offset =? SYSCON_CPBOOT then s <| cpboot := v |>
  else
    let s := set_sys_reg s offset v in
    if syscon_clock_reg offset then mcxn_syscon_update_clocks s else s.

Definition syscon_reset : list (Z * Z) :=
  [(0x200, 0x00000603); (0x260, 0x00000007); (0x300, 0x40000000); (0x304, 0x40000000); (0x308, 0x40000000); (0x37C, 0x40000000); (0x384, 0x40000000);
   (0x388, 0x40000000); (0x398, 0x40000000); (0x3B4, 0x40000000); (0x3C4, 0x40000000); (0x3E4, 0x40000000); (0x3E8, 0x40000000); (0x400, 0x00020410);
   (0x490, 0x00000007); (0x494, 0x40000000); (0x498, 0x00000007); (0x49C, 0x40000000); (0x4A0, 0x00000007); (0x4A4, 0x40000000); (0x52C, 0x00000007);
   (0x530, 0x00000007); (0x534, 0x00000007); (0x538, 0x40000000); (0x53C, 0x40000000); (0x540, 0x40000000); (0x548, 0x0000000F); (0x54C, 0x40000000);
   (0x560, 0x00000007); (0x564, 0x40000000); (0x5A0, 0x00000007); (0x5A8, 0x00000007); (0x5AC, 0x40000000); (0x5B0, 0x00000007); (0x5B4, 0x40000000);
   (0x5B8, 0x00000007); (0x5BC, 0x40000000); (0x5D4, 0x00000001); (0x5D8, 0x00000003); (0x5DC, 0x40000000); (0x5E0, 0x00000003); (0x5F0, 0x00000007);
   (0x5F4, 0x40000000); (0x5F8, 0x00000007); (0x5FC, 0x40000000); (0x600, 0x00000007); (0x604, 0x40000000); (0x608, 0x00000007); (0x60C, 0x40000000);
   (0x610, 0x00000007); (0x614, 0x40000000); (0x618, 0x00000007); (0x61C, 0x40000000); (0x800, 0x00000028); (0x824, 0x00000031); (0x880, 0x00000007);
   (0x884, 0x00000007); (0x888, 0x40000000); (0x88C, 0x40000000); (0x890, 0x00000007); (0x894, 0x00000007); (0x898, 0x40000000); (0x89C, 0x40000000);
   (0xB30, 0x00000007); (0xB34, 0x00000007); (0xB38, 0x40000000); (0xB3C, 0x40000000); (0xB40, 0x40000000); (0xE04, 0x0000FFFF); (0xE44, 0x00000003)].

Definition mcxn_syscon_reset (s : MCXNSysconState) : MCXNSysconState :=
  let s := s <| sys_regs := replicate 1024 0 |> in
  let s := foldl (fun s e => set_sys_reg s e.1 e.2) s syscon_reset in
  let s := foldl (fun s i => s <| sys_regs := (sys_regs s).[SYSCON_CTIMERCLKSEL0 / 4 + i <- 7] |>) s (seqZ 0 CTIMER_COUNT) in
  let s := mcxn_syscon_update_clocks s in
  s <| cpuctrl := 0x28 |> <| cpboot := 0 |> <| cpu1_running := false |>.

(** ** The tree *)

Record ClockTree := mkTree { scg : MCXNSCGState; syscon : MCXNSysconState }.
#[export] Instance tree_settable : Settable ClockTree := fun t => mkTree (scg t) (syscon t).

(** The connection of an output of the SCG to an input of SYSCON. *)
Record wire := mkWire {
  out : MCXNSCGState -> Z; set_out : Z -> MCXNSCGState -> MCXNSCGState;
  inp : MCXNSysconState -> Z; set_inp : Z -> MCXNSysconState -> MCXNSysconState;
}.
Definition fro12m_wire : wire := mkWire fro12m (fun p s => s <| fro12m := p |>) fro12m_in (fun p s => s <| fro12m_in := p |>).
Definition frohf_wire : wire := mkWire frohf (fun p s => s <| frohf := p |>) frohf_in (fun p s => s <| frohf_in := p |>).
Definition apll_wire : wire := mkWire apll (fun p s => s <| apll := p |>) apll_in (fun p s => s <| apll_in := p |>).
Definition spll_wire : wire := mkWire spll (fun p s => s <| spll := p |>) spll_in (fun p s => s <| spll_in := p |>).
Definition mainclk_wire : wire := mkWire mainclk (fun p s => s <| mainclk := p |>) mainclk_in (fun p s => s <| mainclk_in := p |>).

(** [clock_update_hz] on an output of the SCG: a new period goes down the wire, and
    SYSCON is called back when its input changes. *)
Definition clock_update_hz (w : wire) (hz : Z) (t : ClockTree) : ClockTree :=
  let period := CLOCK_PERIOD_FROM_HZ hz in
  if out w (scg t) =? period then t
  else
    let t := t <| scg := set_out w period (scg t) |> in
    if inp w (syscon t) =? period then t
    else t <| syscon := mcxn_syscon_update_clocks (set_inp w period (syscon t)) |>.

Definition frohf_hz (s : MCXNSCGState) : Z :=
  if negb (flag (scg_reg s SCG_FIRCCSR) FIRCCSR_FIRCEN) then 0
  else if flag (scg_reg s SCG_FIRCCFG) FIRCCFG_RANGE then FROHF_144_HZ else FROHF_48_HZ.
Definition fro12m_hz (s : MCXNSCGState) : Z := if flag (scg_reg s SCG_SIRCCSR) SIRCCSR_PERIPH_EN then FRO12M_HZ else 0.

Definition mcxn_scg_update_clocks (t : ClockTree) : ClockTree :=
  let t := clock_update_hz fro12m_wire (fro12m_hz (scg t)) t in
  let t := clock_update_hz frohf_wire (frohf_hz (scg t)) t in
  let t := clock_update_hz apll_wire (apll_out (scg t)) t in
  let t := clock_update_hz spll_wire (spll_out (scg t)) t in
  clock_update_hz mainclk_wire (scg_main_clk_hz (scg t)) t.

Definition scg_clock_reg (off : Z) : bool :=
  existsb (Z.eqb off) [SCG_SIRCCSR; SCG_FIRCCSR; SCG_FIRCCFG; SCG_SOSCCSR; SCG_ROSCCSR; SCG_RCCR; SCG_APLLCSR; SCG_APLLCTRL; SCG_APLLNDIV; SCG_APLLMDIV;
    SCG_APLLPDIV; SCG_APLLSSCG1; SCG_SPLLCSR; SCG_SPLLCTRL; SCG_SPLLNDIV; SCG_SPLLMDIV; SCG_SPLLPDIV; SCG_SPLLSSCG1].

Definition mcxn_scg_write (t : ClockTree) (off value : Z) : ClockTree :=
  if MCXN_SCG_SIZE <=? off then t
  else if (off =? SCG_VERID) || (off =? SCG_PARAM) || (off =? SCG_CSR) then t
  else
    let t := t <| scg := set_scg_reg (scg t) off (u32 value) |> in
    if scg_clock_reg off then mcxn_scg_update_clocks t else t.

Definition scg_reset_values : list (Z * Z) :=
  [(SCG_RCCR, 0x03000000); (SCG_SIRCCSR, SCG_SIRCCSR_RESET); (SCG_FIRCCSR, FIRCCSR_FIRCEN .| SCG_READY); (SCG_APLLNDIV, 1); (SCG_APLLMDIV, 1); (SCG_APLLPDIV, 1);
   (SCG_APLLLOCK_CNFG, 0x4F4C); (SCG_APLLSSCG1, 0x80000000); (SCG_SPLLNDIV, 1); (SCG_SPLLMDIV, 1); (SCG_SPLLPDIV, 1); (SCG_SPLLLOCK_CNFG, 0x4F4C);
   (SCG_SPLLSSCG1, 0x80000000); (SCG_LDOCSR, 8)].
Definition mcxn_scg_reset (t : ClockTree) : ClockTree :=
  let s := foldl (fun s e => set_scg_reg s e.1 e.2) ((scg t) <| scg_regs := replicate 1024 0 |>) scg_reset_values in
  mcxn_scg_update_clocks (t <| scg := s |>).

(** The devices as they are created, with a second core or without one. *)
Definition tree_realize (core1 : bool) : ClockTree :=
  mkTree (mkSCG (replicate 1024 0) 0 0 0 0 0)
    (mkSyscon (replicate 1024 0) 0 0 0 0 0 0 0 (replicate 5 0) 0 (replicate 2 0) 0 0 false (if core1 then Some (mkCPU 0 false []) else None) 0).
(** The reset of the machine: each device is reset, in some order. *)
Definition tree_reset (t : ClockTree) : ClockTree := let t := mcxn_scg_reset t in t <| syscon := mcxn_syscon_reset (syscon t) |>.

(** What the guest and the emulator do: aligned word writes, resets of either
    device, and the bottom half that starts the second core. *)
Inductive tree_step : ClockTree -> ClockTree -> Prop :=
  | step_scg t off v : 0 <= off -> off .& 3 = 0 -> tree_step t (mcxn_scg_write t off v)
  | step_scg_reset t : tree_step t (mcxn_scg_reset t)
  | step_syscon t off v : 0 <= off < MCXN_SYSCON_SIZE -> off .& 3 = 0 -> tree_step t (t <| syscon := mcxn_syscon_write (syscon t) off v |>)
  | step_syscon_reset t : tree_step t (t <| syscon := mcxn_syscon_reset (syscon t) |>)
  | step_start t n : start_bhs (syscon t) = S n -> tree_step t (t <| syscon := (mcxn_syscon_start_cpu1_bh (syscon t)) <| start_bhs := n |> |>).

(** ** Rates *)

(** A rate survives its conversion to a period, up to 2 GHz. *)
Lemma hz_exact hz : 0 <= hz <= 2000000000 -> clock_get_hz (CLOCK_PERIOD_FROM_HZ hz) = hz.
Proof.
  intros Hhz. unfold clock_get_hz, CLOCK_PERIOD_FROM_HZ, CLOCK_PERIOD_TO_HZ. destruct (Z.eqb_spec hz 0) as [->|Hne]; [done|].
  assert (HK : CLOCK_PERIOD_1SEC = 4294967296000000000) by reflexivity. rewrite HK. set (p := _ / hz).
  pose proof (Z.div_mod 4294967296000000000 hz ltac:(lia)) as Hp. pose proof (Z.mod_pos_bound 4294967296000000000 hz ltac:(lia)) as Hr. fold p in Hp.
  assert (Hge : hz <= p) by nia. rewrite (proj2 (Z.eqb_neq p 0)) by lia.
  replace (4294967296000000000 / p) with hz; [apply wrap_id; lia|]. apply (Z.div_unique _ _ _ (4294967296000000000 mod hz)); [left; lia | lia].
Qed.

(** *** SYSCON *)

Definition ctimer_period (s : MCXNSysconState) (n : Z) : Z :=
  CLOCK_PERIOD_FROM_HZ (divided (mcxn_syscon_ctimer_src s n) ((sys_regs s).[SYSCON_CTIMERCLKDIV0 / 4 + n])).
Definition sai_period (s : MCXNSysconState) (n : Z) : Z :=
  CLOCK_PERIOD_FROM_HZ (divided (mcxn_syscon_sai_src s n) (sys_reg s (if negb (n =? 0) then SYSCON_SAI1CLKDIV else SYSCON_SAI0CLKDIV))).

(** The outputs are those of the registers and inputs. *)
Record sys_fresh (s : MCXNSysconState) : Prop := {
  sf_len : length (sys_regs s) = 1024%nat;
  sf_ostimer : ostimer_clk s = CLOCK_PERIOD_FROM_HZ (ostimer_src s);
  sf_ctimer : ctimer_clk s = map (ctimer_period s) [0; 1; 2; 3; 4];
  sf_sct : sct_clk s = CLOCK_PERIOD_FROM_HZ (divided (mcxn_syscon_sct_src s) (sys_reg s SYSCON_SCTCLKDIV));
  sf_sai : sai_clk s = map (sai_period s) [0; 1];
  sf_bus : busclk s = CLOCK_PERIOD_FROM_HZ (clock_get_hz (mainclk_in s) / ((sys_reg s SYSCON_AHBCLKDIV .& CLKDIV_DIV_MASK) + 1));
}.

Lemma update_clocks_eq s : length (ctimer_clk s) = 5%nat -> length (sai_clk s) = 2%nat ->
  mcxn_syscon_update_clocks s = s <| ostimer_clk := CLOCK_PERIOD_FROM_HZ (ostimer_src s) |> <| ctimer_clk := map (ctimer_period s) [0; 1; 2; 3; 4] |>
    <| sct_clk := CLOCK_PERIOD_FROM_HZ (divided (mcxn_syscon_sct_src s) (sys_reg s SYSCON_SCTCLKDIV)) |> <| sai_clk := map (sai_period s) [0; 1] |>
    <| busclk := CLOCK_PERIOD_FROM_HZ (clock_get_hz (mainclk_in s) / ((sys_reg s SYSCON_AHBCLKDIV .& CLKDIV_DIV_MASK) + 1)) |>.
Proof.
  intros H5 H2. destruct s as [r o i1 i2 i3 i4 i5 bc ct sc sa cc cb cr cu bh]. cbn [ctimer_clk sai_clk] in *.
  destruct ct as [|a0 [|a1 [|a2 [|a3 [|a4 [|]]]]]]; try discriminate H5. destruct sa as [|b0 [|b1 [|]]]; try discriminate H2.
  unfold mcxn_syscon_update_clocks. change (seqZ 0 CTIMER_COUNT) with [0; 1; 2; 3; 4]. change (seqZ 0 SAI_COUNT) with [0; 1]. reflexivity.
Qed.

Lemma sys_fresh_update s : length (sys_regs s) = 1024%nat -> length (ctimer_clk s) = 5%nat -> length (sai_clk s) = 2%nat -> sys_fresh (mcxn_syscon_update_clocks s).
Proof. intros Hl H5 H2. rewrite update_clocks_eq by done. by split. Qed.

Lemma sys_fresh_lens s : sys_fresh s -> length (ctimer_clk s) = 5%nat /\ length (sai_clk s) = 2%nat.
Proof. intros [_ _ -> _ -> _]. done. Qed.

(** A change that keeps the registers of the clocks and the inputs. *)
Lemma sys_fresh_same s s' : sys_fresh s -> length (sys_regs s') = 1024%nat -> (forall i, 0 <= i -> syscon_clock_reg (4 * i) = true -> (sys_regs s').[i] = (sys_regs s).[i]) ->
  fro12m_in s' = fro12m_in s -> frohf_in s' = frohf_in s -> apll_in s' = apll_in s -> spll_in s' = spll_in s -> mainclk_in s' = mainclk_in s ->
  ostimer_clk s' = ostimer_clk s -> ctimer_clk s' = ctimer_clk s -> sct_clk s' = sct_clk s -> sai_clk s' = sai_clk s -> busclk s' = busclk s -> sys_fresh s'.
Proof.
  intros [Hl Ho Hc Hs Ha Hb] Hl' Hr E1 E2 E3 E4 E5 F1 F2 F3 F4 F5.
  assert (Hreg : forall o, 0 <= o -> o mod 4 = 0 -> syscon_clock_reg o = true -> sys_reg s' o = sys_reg s o).
  { intros o Ho0 Hm Hx. apply Hr; [apply Z.div_pos; lia|]. by replace (4 * (o / 4)) with o by dlia. }
  assert (Hp : mcxn_syscon_pll1_div s' = mcxn_syscon_pll1_div s) by (unfold mcxn_syscon_pll1_div; by rewrite E4, Hreg).
  split; [done | ..].
  - rewrite F1, Ho. unfold ostimer_src. by rewrite Hreg.
  - rewrite F2, Hc. apply map_ext_in. intros n Hn. unfold ctimer_period, mcxn_syscon_ctimer_src. rewrite Hp, E1, E2, E3. change (In n [0; 1; 2; 3; 4]) in Hn.
    rewrite !Hr; [done|..]; unfold SYSCON_CTIMERCLKDIV0, SYSCON_CTIMERCLKSEL0; cbn in Hn; destruct Hn as [<-|[<-|[<-|[<-|[<-|[]]]]]]; done.
  - rewrite F3, Hs. unfold mcxn_syscon_sct_src. by rewrite Hp, E2, E3, !Hreg.
  - rewrite F4, Ha. unfold sai_period, mcxn_syscon_sai_src. cbn [map Z.eqb negb]. by rewrite Hp, E2, E3, !Hreg.
  - rewrite F5, Hb. by rewrite E5, Hreg.
Qed.

Definition same_inputs (s s' : MCXNSysconState) : Prop :=
  fro12m_in s' = fro12m_in s /\ frohf_in s' = frohf_in s /\ apll_in s' = apll_in s /\ spll_in s' = spll_in s /\ mainclk_in s' = mainclk_in s.

(** A register outside of the clock control. *)
Lemma sys_fresh_set s i v : sys_fresh s -> 0 <= i -> syscon_clock_reg (4 * i) = false -> sys_fresh (s <| sys_regs := (sys_regs s).[i <- v] |>).
Proof.
  intros Hs Hi Hn. apply (sys_fresh_same s); try done; [cbn [sys_regs modify]; rewrite length_arr_set; apply Hs|].
  intros j Hj Hx. cbn [sys_regs modify]. apply arr_get_set_ne; [done..|]. intros ->. congruence.
Qed.

(** A write through a set or clear alias. *)
Lemma sys_fresh_alias s off base reg0 (f : Z -> Z) : sys_fresh s -> syscon_in_range off base SYSCON_CTRL_COUNT = true ->
  (forall k, In k [0; 1; 2; 3] -> 0 <= reg0 / 4 + k /\ syscon_clock_reg (4 * (reg0 / 4 + k)) = false) ->
  let i := reg0 / 4 + (off - base) / 4 in sys_fresh (s <| sys_regs := (sys_regs s).[i <- f i] |>).
Proof.
  intros Hs Hr Hk i. apply andb_true_iff in Hr as [H1%Z.leb_le H2%Z.ltb_lt]. unfold SYSCON_CTRL_COUNT in H2.
  assert (Hin : In ((off - base) / 4) [0; 1; 2; 3]) by (assert (0 <= (off - base) / 4 < 4) by dlia; cbn; lia).
  apply sys_fresh_set; [done | apply (Hk _ Hin) ..].
Qed.

Lemma syscon_write_fresh s off v : sys_fresh s -> 0 <= off < MCXN_SYSCON_SIZE -> off .& 3 = 0 -> sys_fresh (mcxn_syscon_write s off v) /\ same_inputs s (mcxn_syscon_write s off v).
Proof.
  intros Hs Ho Ha. change 3 with (Z.ones 2) in Ha. rewrite Z.land_ones in Ha by lia. change (2 ^ 2) with 4 in Ha. unfold MCXN_SYSCON_SIZE in Ho.
  assert (Hcpu : forall c, sys_fresh (mcxn_syscon_update_cpu1 (s <| cpuctrl := c |>)) /\ same_inputs s (mcxn_syscon_update_cpu1 (s <| cpuctrl := c |>))).
  { intros c. unfold mcxn_syscon_update_cpu1. destruct (cpu1 _); [destruct (_ && _); [|destruct (_ && _)]|]; (split; [|done]); by apply (sys_fresh_same s); try apply Hs. }
  unfold mcxn_syscon_write. cbv zeta.
  do 4 (match goal with |- context [if syscon_in_range off ?b ?n then _ else _] => destruct (syscon_in_range off b n) eqn:?Hr end;
    [split; [|done]; match goal with |- sys_fresh (s <| sys_regs := (sys_regs s).[?r / 4 + (off - ?b) / 4 <- _] |>) =>
       match goal with |- context [(sys_regs s).[_] .| ?x] => apply (sys_fresh_alias s off b r (fun i => (sys_regs s).[i] .| x)) |
         |- context [(sys_regs s).[_] .& ?x] => apply (sys_fresh_alias s off b r (fun i => (sys_regs s).[i] .& x)) end end;
     [done | done | intros k Hk; cbn in Hk; destruct Hk as [<-|[<-|[<-|[<-|[]]]]]; done]|]).
  destruct (off =? SYSCON_CPUCTRL); [apply Hcpu|]. destruct (off =? SYSCON_CPBOOT); [split; [|done]; by apply (sys_fresh_same s); try apply Hs|].
  destruct (syscon_clock_reg off) eqn:Hx.
  - destruct (sys_fresh_lens s Hs) as [H5 H2]. split; [apply sys_fresh_update; [cbn [set_sys_reg sys_regs modify]; rewrite length_arr_set; apply Hs | done..]|]. by rewrite update_clocks_eq.
  - split; [|done]. apply sys_fresh_set; [done | apply Z.div_pos; lia | by replace (4 * (off / 4)) with off by dlia].
Qed.

Lemma fold_regs {A} (f : list Z -> A -> list Z) l : forall s, foldl (fun s e => s <| sys_regs := f (sys_regs s) e |>) s l = s <| sys_regs := foldl f (sys_regs s) l |>.
Proof. induction l as [|e l IH]; intros s; [by destruct s | exact (IH _)]. Qed.

(** The register file after reset. *)
Definition syscon_reset_regs : list Z :=
  foldl (fun r i => r.[SYSCON_CTIMERCLKSEL0 / 4 + i <- 7]) (foldl (fun r e => r.[e.1 / 4 <- e.2]) (replicate 1024 0) syscon_reset) (seqZ 0 CTIMER_COUNT).
Lemma syscon_reset_eq s : mcxn_syscon_reset s =
  (mcxn_syscon_update_clocks (s <| sys_regs := syscon_reset_regs |>)) <| cpuctrl := 0x28 |> <| cpboot := 0 |> <| cpu1_running := false |>.
Proof.
  unfold mcxn_syscon_reset. cbv zeta. unfold set_sys_reg.
  rewrite (fold_regs (fun r (e : Z * Z) => r.[e.1 / 4 <- e.2])), (fold_regs (fun r i => r.[SYSCON_CTIMERCLKSEL0 / 4 + i <- 7])).
  cbn [sys_regs modify]. fold syscon_reset_regs. reflexivity.
Qed.

Lemma syscon_reset_fresh s : length (ctimer_clk s) = 5%nat -> length (sai_clk s) = 2%nat -> sys_fresh (mcxn_syscon_reset s) /\ same_inputs s (mcxn_syscon_reset s).
Proof.
  intros H5 H2. rewrite syscon_reset_eq. assert (Hl : length syscon_reset_regs = 1024%nat) by (vm_compute; reflexivity). revert Hl. generalize syscon_reset_regs. intros r Hl.
  pose proof (sys_fresh_update (s <| sys_regs := r |>) Hl H5 H2) as Hf.
  assert (Hi : same_inputs s (mcxn_syscon_update_clocks (s <| sys_regs := r |>))) by by rewrite update_clocks_eq.
  revert Hf Hi. generalize (mcxn_syscon_update_clocks (s <| sys_regs := r |>)). intros s1 Hf Hi. split; [by apply (sys_fresh_same _ _ Hf); try apply Hf | exact Hi].
Qed.

Lemma syscon_start_fresh s n : sys_fresh s -> let s' := (mcxn_syscon_start_cpu1_bh s) <| start_bhs := n |> in sys_fresh s' /\ same_inputs s s'.
Proof. intros Hs. unfold mcxn_syscon_start_cpu1_bh. destruct (cpu1 s); (split; [|done]); by apply (sys_fresh_same s); try apply Hs. Qed.

(** *** The tree *)

(** The inputs of SYSCON have the periods of the outputs they are connected to. *)
Definition linked (a : MCXNSCGState) (s : MCXNSysconState) : Prop :=
  fro12m_in s = fro12m a /\ frohf_in s = frohf a /\ apll_in s = apll a /\ spll_in s = spll a /\ mainclk_in s = mainclk a.
Definition connected (t : ClockTree) : Prop := sys_fresh (syscon t) /\ linked (scg t) (syscon t).

Lemma connected_inputs t s' : connected t -> sys_fresh s' -> same_inputs (syscon t) s' -> connected (t <| syscon := s' |>).
Proof.
  intros [_ (W1 & W2 & W3 & W4 & W5)] Hs (E1 & E2 & E3 & E4 & E5). split; [done|]. unfold linked. cbn [syscon scg modify]. by rewrite E1, E2, E3, E4, E5.
Qed.

(** An output is updated; the rest of the SCG stays. *)
Lemma connected_update w hz t : w ∈ [fro12m_wire; frohf_wire; apll_wire; spll_wire; mainclk_wire] -> connected t ->
  connected (clock_update_hz w hz t) /\ scg (clock_update_hz w hz t) = set_out w (CLOCK_PERIOD_FROM_HZ hz) (scg t) /\
  sys_regs (syscon (clock_update_hz w hz t)) = sys_regs (syscon t).
Proof.
  intros Hw [Hs (W1 & W2 & W3 & W4 & W5)]. destruct (sys_fresh_lens _ Hs) as [H5 H2]. unfold clock_update_hz. cbv zeta. generalize (CLOCK_PERIOD_FROM_HZ hz). intros p.
  destruct (Z.eqb_spec (out w (scg t)) p) as [E|E].
  { split; [done|]. split; [|done]. destruct t as [a s]. destruct a. rewrite !elem_of_cons in Hw.
    destruct Hw as [->|[->|[->|[->|[->|Hw]]]]]; [cbn in *; by subst..|by apply elem_of_nil in Hw]. }
  assert (Ei : inp w (syscon t) = out w (scg t)).
  { rewrite !elem_of_cons in Hw. destruct Hw as [->|[->|[->|[->|[->|Hw]]]]]; [done..|by apply elem_of_nil in Hw]. }
  cbn [syscon modify]. rewrite Ei, (proj2 (Z.eqb_neq _ _) E).
  assert (Hset : forall s, s = set_inp w p (syscon t) -> sys_fresh (mcxn_syscon_update_clocks s) /\ sys_regs (mcxn_syscon_update_clocks s) = sys_regs (syscon t) /\
    linked (set_out w p (scg t)) (mcxn_syscon_update_clocks s)).
  { intros s ->. rewrite !elem_of_cons in Hw. destruct Hw as [->|[->|[->|[->|[->|Hw]]]]]; [..|by apply elem_of_nil in Hw];
      (split; [by apply sys_fresh_update; try apply Hs|]); rewrite update_clocks_eq by done; done. }
  destruct (Hset _ eq_refl) as (Hf & Hr & Hl). done.
Qed.

(** The outputs of the SCG are those of its registers. *)
Record scg_fresh (a : MCXNSCGState) : Prop := {
  gf_len : length (scg_regs a) = 1024%nat;
  gf_fro12m : fro12m a = CLOCK_PERIOD_FROM_HZ (fro12m_hz a);
  gf_frohf : frohf a = CLOCK_PERIOD_FROM_HZ (frohf_hz a);
  gf_apll : apll a = CLOCK_PERIOD_FROM_HZ (apll_out a);
  gf_spll : spll a = CLOCK_PERIOD_FROM_HZ (spll_out a);
  gf_main : mainclk a = CLOCK_PERIOD_FROM_HZ (scg_main_clk_hz a);
}.

Definition fresh (t : ClockTree) : Prop := connected t /\ scg_fresh (scg t).

Lemma scg_update_fresh t : connected t -> length (scg_regs (scg t)) = 1024%nat ->
  fresh (mcxn_scg_update_clocks t) /\ scg_regs (scg (mcxn_scg_update_clocks t)) = scg_regs (scg t) /\ sys_regs (syscon (mcxn_scg_update_clocks t)) = sys_regs (syscon t).
Proof.
  intros H0 Hl. unfold mcxn_scg_update_clocks. cbv zeta.
  destruct (connected_update fro12m_wire (fro12m_hz (scg t)) t ltac:(repeat constructor) H0) as (H1 & E1 & R1). set (t1 := clock_update_hz _ _ t) in *.
  destruct (connected_update frohf_wire (frohf_hz (scg t1)) t1 ltac:(repeat constructor) H1) as (H2 & E2 & R2). set (t2 := clock_update_hz _ _ t1) in *.
  destruct (connected_update apll_wire (apll_out (scg t2)) t2 ltac:(repeat constructor) H2) as (H3 & E3 & R3). set (t3 := clock_update_hz _ _ t2) in *.
  destruct (connected_update spll_wire (spll_out (scg t3)) t3 ltac:(repeat constructor) H3) as (H4 & E4 & R4). set (t4 := clock_update_hz _ _ t3) in *.
  destruct (connected_update mainclk_wire (scg_main_clk_hz (scg t4)) t4 ltac:(repeat constructor) H4) as (H5 & E5 & R5). set (t5 := clock_update_hz _ _ t4) in *.
  clearbody t1 t2 t3 t4 t5. split; [split; [done|]|split; [|congruence]]; rewrite E5, E4, E3, E2, E1; [by split | done].
Qed.

Lemma scg_reg_set a off v o : length (scg_regs a) = 1024%nat -> 0 <= off -> off .& 3 = 0 -> 0 <= o -> o .& 3 = 0 -> o <> off -> scg_reg (set_scg_reg a off v) o = scg_reg a o.
Proof.
  intros Hl H1 H2 H3 H4 Hne. change 3 with (Z.ones 2) in *. rewrite Z.land_ones in H2, H4 by lia. change (2 ^ 2) with 4 in *. unfold scg_reg, set_scg_reg. cbn [scg_regs modify].
  rewrite !Z.shiftr_div_pow2 by lia. change (2 ^ 2) with 4. apply arr_get_set_ne; dlia.
Qed.

(** A register that no rate depends on. *)
Lemma scg_fresh_set a off v : scg_fresh a -> 0 <= off -> off .& 3 = 0 -> scg_clock_reg off = false -> scg_fresh (set_scg_reg a off v).
Proof.
  intros [Hl F1 F2 F3 F4 F5] Ho Ha Hx. set (a' := set_scg_reg a off v).
  assert (Hr : forall o, 0 <= o -> o .& 3 = 0 -> scg_clock_reg o = true -> scg_reg a' o = scg_reg a o).
  { intros o H1 H2 H3. apply scg_reg_set; [done..|]. intros ->. congruence. }
  assert (E48 : scg_clk48m_hz a' = scg_clk48m_hz a) by (unfold scg_clk48m_hz; by rewrite Hr).
  assert (Ep : apll_out a' = apll_out a) by (unfold apll_out, scg_pll_out; by rewrite E48, !Hr).
  assert (Eq : spll_out a' = spll_out a) by (unfold spll_out, scg_pll_out; by rewrite E48, !Hr).
  split; [unfold a'; cbn [set_scg_reg scg_regs modify]; by rewrite length_arr_set|..].
  - change (fro12m a = CLOCK_PERIOD_FROM_HZ (fro12m_hz a')). unfold fro12m_hz. by rewrite Hr.
  - change (frohf a = CLOCK_PERIOD_FROM_HZ (frohf_hz a')). unfold frohf_hz. by rewrite !Hr.
  - change (apll a = CLOCK_PERIOD_FROM_HZ (apll_out a')). by rewrite Ep.
  - change (spll a = CLOCK_PERIOD_FROM_HZ (spll_out a')). by rewrite Eq.
  - change (mainclk a = CLOCK_PERIOD_FROM_HZ (scg_main_clk_hz a')). rewrite F5. unfold scg_main_clk_hz. change (fro12m a') with (fro12m a). change (frohf a') with (frohf a).
    by rewrite Ep, Eq, !Hr.
Qed.

Lemma scg_write_fresh t off v : fresh t -> 0 <= off -> off .& 3 = 0 -> fresh (mcxn_scg_write t off v).
Proof.
  intros [Hc Hf] Ho Ha. unfold mcxn_scg_write. destruct (MCXN_SCG_SIZE <=? off); [done|]. destruct (_ || _); [done|]. cbv zeta.
  destruct (scg_clock_reg off) eqn:Hx; [|split; [done | by apply scg_fresh_set]].
  apply scg_update_fresh; [done|]. cbn [scg set_scg_reg scg_regs modify]. rewrite length_arr_set. apply Hf.
Qed.

Lemma scg_reset_fresh t : connected t -> fresh (mcxn_scg_reset t).
Proof.
  intros Hc. unfold mcxn_scg_reset. cbv zeta.
  assert (Hf : forall l a, let a' := foldl (fun s (e : Z * Z) => set_scg_reg s e.1 e.2) a l in length (scg_regs a') = length (scg_regs a) /\
    fro12m a' = fro12m a /\ frohf a' = frohf a /\ apll a' = apll a /\ spll a' = spll a /\ mainclk a' = mainclk a).
  { induction l as [|e l IH]; intros a; [done|]. cbn [foldl]. destruct (IH (set_scg_reg a e.1 e.2)) as (-> & -> & -> & -> & -> & ->). cbn [set_scg_reg scg_regs modify]. by rewrite length_arr_set. }
  destruct (Hf scg_reset_values ((scg t) <| scg_regs := replicate 1024 0 |>)) as (Hl & E1 & E2 & E3 & E4 & E5). revert Hl E1 E2 E3 E4 E5.
  generalize (foldl (fun s (e : Z * Z) => set_scg_reg s e.1 e.2) ((scg t) <| scg_regs := replicate 1024 0 |>) scg_reset_values). intros a Hl E1 E2 E3 E4 E5.
  apply scg_update_fresh; [|cbn [scg modify]; rewrite Hl; apply length_replicate]. destruct Hc as [Hs (W1 & W2 & W3 & W4 & W5)]. split; [done|].
  unfold linked. cbn [scg syscon modify]. by rewrite E1, E2, E3, E4, E5.
Qed.

Lemma tree_step_fresh t t' : tree_step t t' -> fresh t -> fresh t'.
Proof.
  intros Hst [Hc Hf]. pose proof Hc as [Hs Hw]. inversion Hst; subst.
  - by apply scg_write_fresh.
  - by apply scg_reset_fresh.
  - destruct (syscon_write_fresh (syscon t) off v Hs) as [H1 H2]; [done..|]. split; [by apply connected_inputs | done].
  - destruct (sys_fresh_lens _ Hs). destruct (syscon_reset_fresh (syscon t)) as [H1 H2]; [done..|]. split; [by apply connected_inputs | done].
  - destruct (syscon_start_fresh (syscon t) n Hs) as [H1 H2]. split; [by apply connected_inputs | done].
Qed.

Lemma reset_tree_fresh core1 : fresh (tree_reset (tree_realize core1)).
Proof. destruct core1; (split; [split; [|unfold linked]|]; [split|..|split]); vm_compute; try reflexivity; repeat split. Qed.

(** ** The rates of the registers

    Each rate as a function of the registers of both devices: an oscillator or a PLL,
    behind a selector and a divider, in exact arithmetic. *)

(** The PLLs and their registers. *)
Inductive PLL := APLL | SPLL.
Definition pll_base (p : PLL) : Z := match p with APLL => SCG_APLLCSR | SPLL => SCG_SPLLCSR end.

(** The crystal, the fast oscillator before its range bit, the 32 kHz crystal. *)
Definition pll_ref (a : MCXNSCGState) (sel : Z) : Z :=
  match sel with
  | 0 => if flag (scg_reg a SCG_SOSCCSR) SOSCCSR_SOSCEN then EXTCLK_HZ else 0
  | 1 => if flag (scg_reg a SCG_FIRCCSR) FIRCCSR_FIRCEN then CLK48M_HZ else 0
  | 2 => if flag (scg_reg a SCG_ROSCCSR) ROSCCSR_ROSCCM then OSC32K_HZ else 0
  | _ => 0
  end.
(** N, M and the post-divider; a divider of zero counts as one before the doubling
    of the post-divider. *)
Definition pll_prediv (ctrl ndiv : Z) : Z := if flag ctrl PLLCTRL_BYPASSPREDIV then 1 else Z.max 1 (ndiv mod 256).
Definition pll_postdiv (ctrl pdiv : Z) : Z :=
  if flag ctrl PLLCTRL_BYPASSPOSTDIV then 1
  else if pdiv mod 32 =? 0 then 2
  else pdiv mod 32 * (if flag ctrl PLLCTRL_BYPASSPOSTDIV2 then 1 else 2).
(** A PLL runs when either of its power and clock enables is set; its multiplier is
    the integer one, whatever SEL_SS_MDIV says. *)
Definition pll_hz (a : MCXNSCGState) (p : PLL) : Z :=
  let ctrl := scg_reg a (pll_base p + 0x4) in
  if flag (scg_reg a (pll_base p)) APLLCSR_PWR_CLK
  then pll_ref a (ctrl / 2 ^ 25 mod 4) / pll_prediv ctrl (scg_reg a (pll_base p + 0xC)) * (scg_reg a (pll_base p + 0x10) mod 65536) /
       pll_postdiv ctrl (scg_reg a (pll_base p + 0x14))
  else 0.

Definition main_hz (a : MCXNSCGState) : Z :=
  match (scg_reg a SCG_RCCR .& RCCR_SCS_MASK) .>> RCCR_SCS_SHIFT with
  | 1 => if flag (scg_reg a SCG_SOSCCSR) SOSCCSR_SOSCEN then EXTCLK_HZ else 0
  | 2 => fro12m_hz a
  | 3 => frohf_hz a
  | 4 => if flag (scg_reg a SCG_ROSCCSR) ROSCCSR_ROSCCM then OSC32K_HZ else 0
  | 5 => pll_hz a APLL
  | 6 => pll_hz a SPLL
  | _ => 0
  end.

(** The numbers of the sources differ between the selectors.  The halt bit of the
    divider of PLL1 has no effect; an external clock gives no rate. *)
Inductive source := Fixed (hz : Z) | PLL0 | PLL1Div | FroHf | Fro12M.
Definition source_hz (t : ClockTree) (o : source) : Z :=
  match o with
  | Fixed hz => hz
  | PLL0 => pll_hz (scg t) APLL
  | PLL1Div => pll_hz (scg t) SPLL / ((sys_reg (syscon t) SYSCON_PLL1CLK0DIV .& CLKDIV_DIV_MASK) + 1)
  | FroHf => frohf_hz (scg t)
  | Fro12M => fro12m_hz (scg t)
  end.
Definition ctimer_source (sel : Z) : source := match sel with 0 => Fixed CLK1M_HZ | 1 => PLL0 | 2 => PLL1Div | 3 => FroHf | 4 => Fro12M | _ => Fixed 0 end.
Definition sct_source (sel : Z) : source := match sel with 1 => PLL0 | 3 => FroHf | 4 => PLL1Div | _ => Fixed 0 end.
Definition ostimer_source (sel : Z) : source := match sel with 0 => Fixed CLK16K_HZ | 1 => Fixed OSC32K_HZ | 2 => Fixed CLK1M_HZ | _ => Fixed 0 end.

Lemma pll_ref_range a sel : 0 <= pll_ref a sel.
Proof. unfold pll_ref. destruct sel as [|[|[]|]|]; try done; by destruct (flag _ _). Qed.
Lemma pll_hz_nonneg a p : 0 <= pll_hz a p.
Proof.
  unfold pll_hz, pll_prediv, pll_postdiv. cbv zeta. destruct (flag _ APLLCSR_PWR_CLK); [|done]. pose proof (pll_ref_range a (scg_reg a (pll_base p + 4) / 2 ^ 25 mod 4)).
  pose proof (Z.mod_pos_bound (scg_reg a (pll_base p + 16)) 65536 ltac:(lia)). pose proof (Z.mod_pos_bound (scg_reg a (pll_base p + 20)) 32 ltac:(lia)).
  apply Z.div_pos; [apply Z.mul_nonneg_nonneg; [apply Z.div_pos; [done | case_match; lia] | lia]|]. repeat case_match; lia.
Qed.

(** The code computes the rate of a PLL, in 32 bits. *)
Lemma pll_out_hz a p : scg_pll_out a (pll_base p + 0x4) (pll_base p + 0xC) (pll_base p + 0x10) (pll_base p + 0x14) (pll_base p) = u32 (pll_hz a p).
Proof.
  unfold scg_pll_out, pll_hz, pll_prediv, pll_postdiv. cbv zeta. set (c := scg_reg a (pll_base p + 4)).
  assert (Esel : (c .& PLLCTRL_SOURCE_MASK) .>> PLLCTRL_SOURCE_SHIFT = c / 2 ^ 25 mod 4).
  { rewrite Z.shiftr_land. change (PLLCTRL_SOURCE_MASK .>> PLLCTRL_SOURCE_SHIFT) with (Z.ones 2). rewrite Z.land_ones, Z.shiftr_div_pow2 by done. done. }
  rewrite Esel. change PLLNDIV_MASK with (Z.ones 8). change PLLMDIV_MASK with (Z.ones 16). change PLLPDIV_MASK with (Z.ones 5). rewrite !Z.land_ones by lia.
  change (2 ^ 8) with 256. change (2 ^ 16) with 65536. change (2 ^ 5) with 32.
  destruct (flag _ APLLCSR_PWR_CLK); cbn [negb]; [|done].
  assert (Efin : forall sel, (if sel =? 0 then if flag (scg_reg a SCG_SOSCCSR) SOSCCSR_SOSCEN then EXTCLK_HZ else 0 else if sel =? 1 then scg_clk48m_hz a
    else if sel =? 2 then if flag (scg_reg a SCG_ROSCCSR) ROSCCSR_ROSCCM then OSC32K_HZ else 0 else 0) = pll_ref a sel) by (intros [|[|[]|]|]; done).
  rewrite Efin. destruct (Z.eqb_spec (pll_ref a (c / 2 ^ 25 mod 4)) 0) as [->|_]; [by rewrite !Zdiv_0_l|]. f_equal.
  pose proof (Z.mod_pos_bound (scg_reg a (pll_base p + 12)) 256 ltac:(lia)). pose proof (Z.mod_pos_bound (scg_reg a (pll_base p + 20)) 32 ltac:(lia)).
  f_equal; [do 2 f_equal|].
  - destruct (flag c PLLCTRL_BYPASSPREDIV); [done|]. destruct (Z.eqb_spec (scg_reg a (pll_base p + 12) mod 256) 0); lia.
  - destruct (flag c PLLCTRL_BYPASSPOSTDIV); [done|]. destruct (flag c PLLCTRL_BYPASSPOSTDIV2), (Z.eqb_spec (scg_reg a (pll_base p + 20) mod 32) 0) as [E|E]; rewrite ?E; try done;
      rewrite ?(proj2 (Z.eqb_neq (2 * _) 0)) by lia; lia.
Qed.
Lemma pll_exact a p : pll_hz a p <= 2000000000 -> match p with APLL => apll_out a | SPLL => spll_out a end = pll_hz a p.
Proof.
  intros Hp. transitivity (u32 (pll_hz a p)); [rewrite <- pll_out_hz; by destruct p|]. apply wrap_id. pose proof (pll_hz_nonneg a p). lia.
Qed.

Lemma divided_range src div : 0 <= src -> 0 <= divided src div <= src.
Proof.
  intros Hs. unfold divided. destruct (flag _ _); [lia|]. change CLKDIV_DIV_MASK with (Z.ones 8). rewrite Z.land_ones by lia.
  pose proof (Z.mod_pos_bound div (2 ^ 8) ltac:(lia)). split; [apply Z.div_pos; lia|]. apply Z.div_le_upper_bound; nia.
Qed.

Lemma fro_range a : 0 <= fro12m_hz a <= 2000000000 /\ 0 <= frohf_hz a <= 2000000000.
Proof. unfold fro12m_hz, frohf_hz. repeat destruct (flag _ _); done. Qed.

(** The rates at the inputs of SYSCON. *)
Lemma inputs_hz t : fresh t -> pll_hz (scg t) APLL <= 2000000000 -> pll_hz (scg t) SPLL <= 2000000000 ->
  clock_get_hz (fro12m_in (syscon t)) = fro12m_hz (scg t) /\ clock_get_hz (frohf_in (syscon t)) = frohf_hz (scg t) /\
  clock_get_hz (apll_in (syscon t)) = pll_hz (scg t) APLL /\ clock_get_hz (spll_in (syscon t)) = pll_hz (scg t) SPLL /\
  clock_get_hz (mainclk_in (syscon t)) = main_hz (scg t) /\ 0 <= main_hz (scg t) <= 2000000000.
Proof.
  intros [[_ (-> & -> & -> & -> & ->)] [_ F1 F2 F3 F4 F5]] Hp Hq. destruct (fro_range (scg t)) as [R1 R2].
  pose proof (pll_exact (scg t) APLL Hp) as Ep. pose proof (pll_exact (scg t) SPLL Hq) as Eq. cbn beta iota in Ep, Eq.
  pose proof (pll_hz_nonneg (scg t) APLL). pose proof (pll_hz_nonneg (scg t) SPLL).
  assert (Hm : scg_main_clk_hz (scg t) = main_hz (scg t)).
  { unfold scg_main_clk_hz, main_hz. cbv zeta. rewrite F1, F2, !hz_exact, Ep, Eq by done. generalize ((scg_reg (scg t) SCG_RCCR .& RCCR_SCS_MASK) .>> RCCR_SCS_SHIFT).
    intros [|[[[]|[]|]|[[]|[]|]|]|]; done. }
  assert (R5 : 0 <= main_hz (scg t) <= 2000000000).
  { unfold main_hz. generalize ((scg_reg (scg t) SCG_RCCR .& RCCR_SCS_MASK) .>> RCCR_SCS_SHIFT). intros [|[[[]|[]|]|[[]|[]|]|]|]; try done; by destruct (flag _ _). }
  rewrite F1, F2, F3, F4, F5, Hm, Ep, Eq, !hz_exact; done.
Qed.

Definition source_ok (o : source) : Prop := match o with Fixed hz => 0 <= hz <= 2000000000 | _ => True end.

Lemma source_range t o : 0 <= pll_hz (scg t) APLL <= 2000000000 -> 0 <= pll_hz (scg t) SPLL <= 2000000000 -> source_ok o -> 0 <= source_hz t o <= 2000000000.
Proof.
  intros Hp Hq Ho. destruct (fro_range (scg t)) as [R1 R2]. destruct o; cbn [source_hz]; try done. change CLKDIV_DIV_MASK with (Z.ones 8). rewrite Z.land_ones by lia.
  pose proof (Z.mod_pos_bound (sys_reg (syscon t) SYSCON_PLL1CLK0DIV) (2 ^ 8) ltac:(lia)). split; [apply Z.div_pos; lia|]. apply Z.div_le_upper_bound; nia.
Qed.

Lemma ctimer_source_ok sel : source_ok (ctimer_source sel).
Proof. destruct sel as [|[[[]|[]|]|[[]|[]|]|]|]; done. Qed.
Lemma sct_source_ok sel : source_ok (sct_source sel).
Proof. destruct sel as [|[[[]|[]|]|[[]|[]|]|]|]; done. Qed.
Lemma ostimer_source_ok sel : source_ok (ostimer_source sel).
Proof. destruct sel as [|[[[]|[]|]|[[]|[]|]|]|]; done. Qed.

(** The selectors of the code are the tables above. *)
Lemma sources_eq t : fresh t -> pll_hz (scg t) APLL <= 2000000000 -> pll_hz (scg t) SPLL <= 2000000000 -> let r := sys_reg (syscon t) in
  ostimer_src (syscon t) = source_hz t (ostimer_source (r SYSCON_OSTIMERCLKSEL .& 0x7)) /\
  (forall n, 0 <= n < CTIMER_COUNT -> mcxn_syscon_ctimer_src (syscon t) n = source_hz t (ctimer_source ((sys_regs (syscon t)).[SYSCON_CTIMERCLKSEL0 / 4 + n] .& 0xF))) /\
  mcxn_syscon_sct_src (syscon t) = source_hz t (sct_source (r SYSCON_SCTCLKSEL .& 0x7)) /\
  (forall n, 0 <= n < SAI_COUNT -> mcxn_syscon_sai_src (syscon t) n = source_hz t (sct_source (r (SYSCON_SAI0CLKSEL + 4 * n) .& 0x7))).
Proof.
  intros Hf Hp Hq r. destruct (inputs_hz t Hf Hp Hq) as (I1 & I2 & I3 & I4 & _ & _).
  assert (Ed : mcxn_syscon_pll1_div (syscon t) = source_hz t PLL1Div) by (unfold mcxn_syscon_pll1_div; by rewrite I4).
  split; [unfold ostimer_src; fold r; generalize (r SYSCON_OSTIMERCLKSEL .& 0x7); intros sel; destruct sel as [|[[[]|[]|]|[[]|[]|]|]|]; done|].
  split; [|split].
  - intros n Hn. unfold mcxn_syscon_ctimer_src. rewrite Ed, I1, I2, I3. generalize ((sys_regs (syscon t)).[SYSCON_CTIMERCLKSEL0 / 4 + n] .& 0xF). intros sel.
    destruct sel as [|[[[]|[]|]|[[]|[]|]|]|]; done.
  - unfold mcxn_syscon_sct_src. rewrite Ed, I2, I3. fold r. generalize (r SYSCON_SCTCLKSEL .& 0x7). intros sel. destruct sel as [|[[[]|[]|]|[[]|[]|]|]|]; done.
  - intros n Hn. unfold mcxn_syscon_sai_src. rewrite Ed, I2, I3.
    assert (Es : (if negb (n =? 0) then SYSCON_SAI1CLKSEL else SYSCON_SAI0CLKSEL) = SYSCON_SAI0CLKSEL + 4 * n) by (unfold SAI_COUNT in Hn; by destruct (Z.eq_dec n 0) as [->|]; [|replace n with 1 by lia]).
    rewrite Es. fold r. generalize (r (SYSCON_SAI0CLKSEL + 4 * n) .& 0x7). intros sel. destruct sel as [|[[[]|[]|]|[[]|[]|]|]|]; done.
Qed.

Lemma map_seq_get (f : Z -> Z) k n : 0 <= n < k -> (map f (seqZ 0 k)).[n] = f n.
Proof.
  intros Hn. unfold arr_get. apply list_lookup_total_correct. rewrite list_lookup_fmap, lookup_seqZ_lt by lia. cbn. f_equal. f_equal. lia.
Qed.
Lemma reg_step base (l : list Z) n : base mod 4 = 0 -> l.[(base + 4 * n) / 4] = l.[base / 4 + n].
Proof. intros Hb. f_equal. dlia. Qed.

(** C19: no clock of the tree is ever stale.  From reset, under any sequence of word
    writes to the clock generator and to SYSCON, resets of either and starts of the
    second core, the rate of each timer, of the SCT, of each SAI and of the bus is, to
    the hertz, that of the current registers: the oscillator or PLL that its selector
    names, with the dividers and the multiplier programmed there, provided that both
    PLLs are programmed to at most 2 GHz.  As in the code, a selector whose source is
    not modelled, such as an external clock for the SCT or a SAI, gives 0 Hz, the
    multiplier of a PLL is its integer one, and the halt bit of the divider of PLL1 has
    no effect. *)
Theorem clock_rates core1 t : rtc tree_step (tree_reset (tree_realize core1)) t -> pll_hz (scg t) APLL <= 2000000000 -> pll_hz (scg t) SPLL <= 2000000000 ->
  let r := sys_reg (syscon t) in
  clock_get_hz (fro12m (scg t)) = fro12m_hz (scg t) /\
  clock_get_hz (ostimer_clk (syscon t)) = source_hz t (ostimer_source (r SYSCON_OSTIMERCLKSEL .& 0x7)) /\
  (forall n, 0 <= n < CTIMER_COUNT -> clock_get_hz ((ctimer_clk (syscon t)).[n]) =
     divided (source_hz t (ctimer_source (r (SYSCON_CTIMERCLKSEL0 + 4 * n) .& 0xF))) (r (SYSCON_CTIMERCLKDIV0 + 4 * n))) /\
  clock_get_hz (sct_clk (syscon t)) = divided (source_hz t (sct_source (r SYSCON_SCTCLKSEL .& 0x7))) (r SYSCON_SCTCLKDIV) /\
  (forall n, 0 <= n < SAI_COUNT -> clock_get_hz ((sai_clk (syscon t)).[n]) =
     divided (source_hz t (sct_source (r (SYSCON_SAI0CLKSEL + 4 * n) .& 0x7))) (r (SYSCON_SAI0CLKDIV + 4 * n))) /\
  clock_get_hz (busclk (syscon t)) = main_hz (scg t) / ((r SYSCON_AHBCLKDIV .& CLKDIV_DIV_MASK) + 1).
Proof.
  intros Hrun Hp Hq r. assert (Hf : fresh t) by (refine (rtc_invariant tree_step fresh _ _ tree_step_fresh Hrun _); apply reset_tree_fresh).
  destruct (inputs_hz t Hf Hp Hq) as (I1 & I2 & I3 & I4 & I5 & R5). destruct (sources_eq t Hf Hp Hq) as (S1 & S2 & S3 & S4).
  assert (Hhz : forall o, source_ok o -> 0 <= source_hz t o <= 2000000000) by (intros o Ho; apply source_range; [split; [apply pll_hz_nonneg | done]..|done]).
  destruct Hf as [[[_ E1 E2 E3 E4 E5] _] [_ F1 _ _ _ _]]. destruct (fro_range (scg t)) as [R1 _].
  split; [by rewrite F1, hz_exact|]. split; [rewrite E1, S1; by apply hz_exact, Hhz, ostimer_source_ok|]. split; [|split; [|split]].
  - intros n Hn. rewrite E2. rewrite (map_seq_get (ctimer_period (syscon t)) 5) by done. unfold ctimer_period. rewrite S2 by done. unfold r, sys_reg.
    rewrite !(reg_step _ _ n) by done. apply hz_exact. destruct (Hhz (ctimer_source ((sys_regs (syscon t)).[SYSCON_CTIMERCLKSEL0 / 4 + n] .& 0xF)) (ctimer_source_ok _)).
    pose proof (divided_range (source_hz t (ctimer_source ((sys_regs (syscon t)).[SYSCON_CTIMERCLKSEL0 / 4 + n] .& 0xF))) ((sys_regs (syscon t)).[SYSCON_CTIMERCLKDIV0 / 4 + n])). lia.
  - rewrite E3, S3. apply hz_exact. pose proof (Hhz (sct_source (r SYSCON_SCTCLKSEL .& 0x7)) (sct_source_ok _)).
    pose proof (divided_range (source_hz t (sct_source (r SYSCON_SCTCLKSEL .& 0x7))) (r SYSCON_SCTCLKDIV)). lia.
  - intros n Hn. rewrite E4. rewrite (map_seq_get (sai_period (syscon t)) 2) by done. unfold sai_period. rewrite S4 by done.
    assert (Ed : (if negb (n =? 0) then SYSCON_SAI1CLKDIV else SYSCON_SAI0CLKDIV) = SYSCON_SAI0CLKDIV + 4 * n) by (unfold SAI_COUNT in Hn; by destruct (Z.eq_dec n 0) as [->|]; [|replace n with 1 by lia]).
    rewrite Ed. apply hz_exact. pose proof (Hhz (sct_source (r (SYSCON_SAI0CLKSEL + 4 * n) .& 0x7)) (sct_source_ok _)).
    pose proof (divided_range (source_hz t (sct_source (r (SYSCON_SAI0CLKSEL + 4 * n) .& 0x7))) (r (SYSCON_SAI0CLKDIV + 4 * n))). lia.
  - rewrite E5, I5. apply hz_exact. change CLKDIV_DIV_MASK with (Z.ones 8). rewrite Z.land_ones by lia. fold r.
    pose proof (Z.mod_pos_bound (r SYSCON_AHBCLKDIV) (2 ^ 8) ltac:(lia)). split; [apply Z.div_pos; lia|]. apply Z.div_le_upper_bound; nia.
Qed.

(** The firmware of the board brings PLL0 up to 150 MHz and runs the core from it;
    CTIMER0 counts the FRO at half its rate. *)
Definition boot_writes : list (bool * Z * Z) :=
  [(true, SCG_APLLCTRL, 0x2000000); (true, SCG_APLLNDIV, 8); (true, SCG_APLLMDIV, 50); (true, SCG_APLLPDIV, 1); (true, SCG_APLLCSR, 3); (true, SCG_RCCR, 0x05000000);
   (false, SYSCON_CTIMERCLKSEL0, 3); (false, SYSCON_CTIMERCLKDIV0, 1)].
Definition boot_write (t : ClockTree) (e : bool * Z * Z) : ClockTree :=
  let '(gen, off, v) := e in if gen : bool then mcxn_scg_write t off v else t <| syscon := mcxn_syscon_write (syscon t) off v |>.
Definition booted : ClockTree := foldl boot_write (tree_reset (tree_realize true)) boot_writes.

Lemma clock_rates_witness : clock_get_hz (busclk (syscon booted)) = 150000000 /\ clock_get_hz ((ctimer_clk (syscon booted)).[0]) = 24000000.
Proof.
  assert (Hrun : forall l t, Forall (fun e : bool * Z * Z => 0 <= e.1.2 < MCXN_SYSCON_SIZE /\ e.1.2 .& 3 = 0) l -> rtc tree_step t (foldl boot_write t l)).
  { induction l as [|[[g off] v] l IH]; intros t Hl; [apply rtc_refl|]. apply Forall_cons in Hl as [[Ho Ha] Hl]. eapply rtc_l; [|by apply IH].
    destruct g; [by apply step_scg; [apply Ho|] | by apply step_syscon]. }
  destruct (clock_rates true booted) as (_ & _ & Hc & _ & _ & Hb).
  - apply Hrun. unfold boot_writes. repeat constructor; vm_compute; discriminate.
  - vm_compute. discriminate.
  - vm_compute. discriminate.
  - assert (H0 : 0 <= 0 < CTIMER_COUNT) by (split; reflexivity || discriminate). specialize (Hc 0 H0). split; [rewrite Hb | rewrite Hc]; vm_compute; reflexivity.
Defined.

(** ** The second core *)

(** Word writes by the first core, where CPUCTRL is not written before the bottom
    half of an earlier release has run. *)
Inductive core_step : MCXNSysconState -> MCXNSysconState -> Prop :=
  | core_write s off v : (off = SYSCON_CPUCTRL -> start_bhs s = O) -> core_step s (mcxn_syscon_write s off v)
  | core_start s n : start_bhs s = S n -> core_step s ((mcxn_syscon_start_cpu1_bh s) <| start_bhs := n |>).

(** SYSCON and the core agree, and a release is pending at most once. *)
Definition cpu_ok (s : MCXNSysconState) : Prop := exists cpu, cpu1 s = Some cpu /\ running cpu = cpu1_running s /\ Forall (fun a => a .& 0x7F = 0) (boots cpu) /\
  (start_bhs s = O /\ cpu1_running s = want_run s \/ start_bhs s = 1%nat /\ cpu1_running s = false /\ want_run s = true).

Lemma cpu_ok_same s s' : cpu_ok s -> cpu1 s' = cpu1 s -> cpu1_running s' = cpu1_running s -> cpuctrl s' = cpuctrl s -> start_bhs s' = start_bhs s -> cpu_ok s'.
Proof. intros (cpu & H1 & H2 & H3 & H4) E1 E2 E3 E4. exists cpu. unfold want_run in *. rewrite E1, E2, E3, E4. done. Qed.

Lemma cpu_ok_clocks s : cpu_ok s -> cpu_ok (mcxn_syscon_update_clocks s).
Proof.
  intros Hs. unfold mcxn_syscon_update_clocks. change (seqZ 0 CTIMER_COUNT) with [0; 1; 2; 3; 4]. change (seqZ 0 SAI_COUNT) with [0; 1]. by apply (cpu_ok_same s).
Qed.

Lemma cpu_step_ok s s' : core_step s s' -> cpu_ok s -> cpu_ok s'.
Proof.
  intros Hst Hs. destruct Hst as [s off v Hb|s n En].
  - unfold mcxn_syscon_write. cbv zeta. repeat (destruct (syscon_in_range off _ _); [by apply (cpu_ok_same s)|]). destruct (Z.eqb_spec off SYSCON_CPUCTRL) as [->|_].
    + destruct Hs as (cpu & H1 & H2 & H3 & H4). specialize (Hb eq_refl). destruct H4 as [[_ H4]|[H4 _]]; [|congruence]. unfold mcxn_syscon_update_cpu1. cbn [cpu1 modify]. rewrite H1.
      set (s1 := s <| cpuctrl := u32 v |>). change (cpu1_running s1) with (cpu1_running s).
      destruct (want_run s1) eqn:Ew, (cpu1_running s) eqn:Er; cbn [negb andb].
      * exists cpu. split; [done|]. split; [exact (eq_trans H2 (eq_sym Er))|]. split; [done|]. left. split; [done|]. exact (eq_trans Er (eq_sym Ew)).
      * exists cpu. split; [done|]. split; [exact (eq_trans H2 (eq_sym Er))|]. split; [done|]. right. split; [cbn [s1 start_bhs modify]; by rewrite Hb|]. by split.
      * exists (mcxn_syscon_set_cpu1_run cpu false). split; [done|]. split; [done|]. split; [done|]. left. split; [done|]. by symmetry.
      * exists cpu. split; [done|]. split; [exact (eq_trans H2 (eq_sym Er))|]. split; [done|]. left. split; [done|]. exact (eq_trans Er (eq_sym Ew)).
    + destruct (off =? SYSCON_CPBOOT); [by apply (cpu_ok_same s)|]. destruct (syscon_clock_reg off); [apply cpu_ok_clocks|]; by apply (cpu_ok_same s).
  - destruct Hs as (cpu & H1 & H2 & H3 & H4). destruct H4 as [[H4 _]|(H4 & Hr & Hw)]; [congruence|]. assert (n = O) as -> by congruence.
    unfold mcxn_syscon_start_cpu1_bh. rewrite H1. eexists. split; [reflexivity|]. split; [done|]. split; [|by left]. cbn [boots mcxn_syscon_set_cpu1_run].
    apply Forall_app. split; [done|]. apply Forall_singleton. rewrite <- Z.land_assoc. change (CPBOOT_ADDR_MASK .& 0x7F) with 0. apply Z.land_0_r.
Qed.

(** The second core follows CPUCTRL.  From reset, as long as CPUCTRL is not
    written again before a release has taken effect, CPSTAT tells whether the core
    runs, every start is from a vector table on a 128-byte boundary, and whenever no
    start is pending the core runs exactly when it is clocked and not held in reset. *)
Theorem cpu1_follows s : rtc core_step (syscon (tree_reset (tree_realize true))) s ->
  exists cpu, cpu1 s = Some cpu /\ mcxn_syscon_read s SYSCON_CPSTAT = (if running cpu then 0 else CPSTAT_CPU1SLEEPING) /\ Forall (fun a => a .& 0x7F = 0) (boots cpu) /\
    (start_bhs s = O -> running cpu = want_run s).
Proof.
  intros Hrun. assert (Hs : cpu_ok s).
  { refine (rtc_invariant core_step cpu_ok _ _ cpu_step_ok Hrun _). exists (mkCPU 0 false []). split; [vm_compute; reflexivity|]. split; [vm_compute; reflexivity|].
    split; [constructor|]. left. split; vm_compute; reflexivity. }
  destruct Hs as (cpu & H1 & H2 & H3 & H4). exists cpu. split; [done|]. split; [unfold mcxn_syscon_read; cbn [Z.eqb Pos.eqb SYSCON_CPSTAT SYSCON_CPUCTRL SYSCON_CPBOOT]; by rewrite H2|].
  split; [done|]. intros E. destruct H4 as [[_ H4]|[H4 _]]; congruence.
Qed.

(** A release boots the core from the table CPBOOT names. *)
Theorem cpu1_boots s cpu a c : cpu1 s = Some cpu -> cpu1_running s = false -> flag (u32 c) CPUCTRL_CPU1CLKEN = true -> flag (u32 c) CPUCTRL_CPU1RSTEN = false ->
  let s1 := mcxn_syscon_write (mcxn_syscon_write s SYSCON_CPBOOT a) SYSCON_CPUCTRL c in
  start_bhs s1 = S (start_bhs s) /\ exists cpu', cpu1 (mcxn_syscon_start_cpu1_bh s1) = Some cpu' /\ running cpu' = true /\ init_svtor cpu' = u32 a .& CPBOOT_ADDR_MASK /\
    boots cpu' = boots cpu ++ [u32 a .& CPBOOT_ADDR_MASK].
Proof.
  intros H1 Hr Hc Hh. change (mcxn_syscon_write s SYSCON_CPBOOT a) with (s <| cpboot := u32 a |>). set (s' := s <| cpboot := u32 a |>).
  change (mcxn_syscon_write s' SYSCON_CPUCTRL c) with (mcxn_syscon_update_cpu1 (s' <| cpuctrl := u32 c |>)). unfold mcxn_syscon_update_cpu1, want_run.
  cbn [s' cpu1 cpu1_running cpuctrl modify]. rewrite H1, Hr, Hc, Hh. cbn [negb andb]. split; [done|]. unfold mcxn_syscon_start_cpu1_bh. cbn [cpu1 modify].
  assert (H1' : cpu1 s' = Some cpu) by exact H1. rewrite H1'.
  eexists. split; [reflexivity|]. done.
Qed.

(** ** Departures from the code's intent *)

(** A core that is put back into reset before the bottom half of its release has
    run is started all the same. *)
Theorem cpu1_starts_in_reset : let s0 := syscon (tree_reset (tree_realize true)) in
  let s := mcxn_syscon_write (mcxn_syscon_write s0 SYSCON_CPUCTRL CPUCTRL_CPU1CLKEN) SYSCON_CPUCTRL CPUCTRL_CPU1RSTEN in
  start_bhs s = 1%nat /\ want_run s = false /\ (running <$> cpu1 (mcxn_syscon_start_cpu1_bh s)) = Some true.
Proof. vm_compute. done. Qed.

(** Migration carries the registers of both devices and no clock: on the other
    side the rates are those of reset, whatever the registers say. *)
Definition tree_vmstate (t : ClockTree) (fresh : ClockTree) : ClockTree :=
  mkTree ((scg fresh) <| scg_regs := scg_regs (scg t) |>)
    ((syscon fresh) <| sys_regs := sys_regs (syscon t) |> <| cpuctrl := cpuctrl (syscon t) |> <| cpboot := cpboot (syscon t) |> <| cpu1_running := cpu1_running (syscon t) |>).
Theorem clocks_not_migrated : let t := tree_vmstate booted (tree_reset (tree_realize true)) in
  main_hz (scg t) = 150000000 /\ clock_get_hz (busclk (syscon t)) = 48000000 /\ clock_get_hz ((ctimer_clk (syscon t)).[0]) = 0.
Proof. vm_compute. done. Qed.

(** The divider of PLL1 is halted by reset, and passes the clock on. *)
Theorem pll1_halt_ignored (s : MCXNSysconState) : flag (sys_reg s SYSCON_PLL1CLK0DIV) CLKDIV_HALT = true -> sys_reg s SYSCON_PLL1CLK0DIV .& CLKDIV_DIV_MASK = 0 ->
  mcxn_syscon_pll1_div s = clock_get_hz (spll_in s).
Proof. intros _ Hd. unfold mcxn_syscon_pll1_div. rewrite Hd. apply Z.div_1_r. Qed.

(** A SAI that selects the external clock has no rate, though the crystal runs. *)
Theorem sai_extclk_silent : let t := foldl boot_write (tree_reset (tree_realize true))
    [(true, SCG_SOSCCSR, 1); (false, SYSCON_SAI0CLKSEL, 2); (false, SYSCON_SAI0CLKDIV, 0)] in
  pll_ref (scg t) 0 = EXTCLK_HZ /\ clock_get_hz ((sai_clk (syscon t)).[0]) = 0.
Proof. vm_compute. done. Qed.

(** A PLL programmed beyond 32 bits of hertz wraps around: 48 MHz times 90 shows
    25 MHz. *)
Theorem pll_wraps : let t := foldl boot_write (tree_reset (tree_realize true))
    [(true, SCG_APLLCTRL, 0x2100000); (true, SCG_APLLNDIV, 1); (true, SCG_APLLMDIV, 90); (true, SCG_APLLCSR, 3)] in
  48000000 * 90 = 4320000000 /\ apll_out (scg t) = 25032704.
Proof. vm_compute. done. Qed.
