(* ===== verification/Sct.v ===== *)
(** * SCT: the state configurable timer

    Model of [hw/misc/mcxn_sct.c]: the limit event of the low counter with its
    prescaler and host timer, events conditioned on the input pins, event flags,
    interrupt line and the pulses on the two DMA request lines, and the byte-wide
    register file.  Host time is an argument.  The theorems: limit events come
    exactly one period apart however late the timer is served; a change of the
    pins raises exactly the flags of the events whose condition it meets; the
    line agrees with the flags in every reachable state. *)
From S2P Require Import Prelude.

Definition SCT_CONFIG : Z := 0x00.
Definition SCT_CTRL : Z := 0x04.
Definition SCT_COUNT : Z := 0x40.
Definition SCT_STATE_REG : Z := 0x44.
Definition SCT_INPUT : Z := 0x48.
Definition SCT_DMAREQ0 : Z := 0x5C.
Definition SCT_DMAREQ1 : Z := 0x60.
Definition SCT_EVEN : Z := 0xF0.
Definition SCT_EVFLAG : Z := 0xF4.
Definition SCT_CONFLAG : Z := 0xFC.
Definition SCT_MATCHREL0 : Z := 0x180.
Definition SCT_DMAREQ_DEV0 : Z := bit 0.
Definition SCT_CTRL_CLRCTR_L_MASK : Z := 0x00000008.
Definition SCT_CTRL_CLRCTR_H_MASK : Z := 0x00080000.
Definition SCT_CTRL_STOP_L_MASK : Z := 0x00000002.
Definition SCT_CTRL_HALT_L_MASK : Z := 0x00000004.
Definition SCT_CTRL_PRE_L_MASK : Z := 0x00001FE0.
Definition SCT_CTRL_PRE_L_SHIFT : Z := 5.
Definition SCT_EV0 : Z := bit 0.
Definition SCT_NEV : Z := 16.
Definition SCT_EV_STATE (n : Z) : Z := 0x300 + n * 8.
Definition SCT_EV_CTRL (n : Z) : Z := 0x304 + n * 8.
Definition EV_CTRL_OUTSEL : Z := bit 5.
Definition EV_CTRL_IOSEL_MASK : Z := 0x3C0.
Definition EV_CTRL_IOSEL_SHIFT : Z := 6.
Definition EV_CTRL_IOCOND_MASK : Z := 0xC00.
Definition EV_CTRL_IOCOND_SHIFT : Z := 10.
Definition EV_CTRL_COMBMODE_MASK : Z := 0x3000.
Definition EV_CTRL_COMBMODE_SHIFT : Z := 12.
Definition IOCOND_LOW : Z := 0.
Definition IOCOND_RISE : Z := 1.
Definition IOCOND_FALL : Z := 2.
Definition IOCOND_HIGH : Z := 3.
Definition COMBMODE_IO : Z := 2.
Definition MCXN_SCT_SIZE : Z := 0x1000.

Record MCXNSCTState := mkSCT {
  clk_hz : Z;                   (* rate of the clock input *)
  irq : bool;
  event_timer : option Z;
  next_event_ns : Z;            (* int64_t *)
  in_level : Z;                 (* uint8_t *)
  regs : list Z;                (* uint8_t[MCXN_SCT_SIZE] *)
}.
#[export] Instance sct_settable : Settable MCXNSCTState := fun s =>
  mkSCT (clk_hz s) (irq s) (event_timer s) (next_event_ns s) (in_level s) (regs s).

Definition sct_ld32 (s : MCXNSCTState) (off : Z) : Z :=
  (regs s).[off] .| ((regs s).[off + 1] .<< 8) .| ((regs s).[off + 2] .<< 16) .| ((regs s).[off + 3] .<< 24).
Definition sct_st32 (s : MCXNSCTState) (off v : Z) : MCXNSCTState :=
  let s := s <| regs := (regs s).[off <- v .& 0xff] |> in
  let s := s <| regs := (regs s).[off + 1 <- (v .>> 8) .& 0xff] |> in
  let s := s <| regs := (regs s).[off + 2 <- (v .>> 16) .& 0xff] |> in
  s <| regs := (regs s).[off + 3 <- (v .>> 24) .& 0xff] |>.

Definition mcxn_sct_update_irq (s : MCXNSCTState) : MCXNSCTState := s <| irq := flag (sct_ld32 s SCT_EVFLAG) (sct_ld32 s SCT_EVEN) |>.

(** Whether a change of the pins fires event [n]: the body of the loop of
    [mcxn_sct_eval_inputs]. *)
Definition sct_fires (s : MCXNSCTState) (curstate oldv newv n : Z) : bool :=
  let ctrl := sct_ld32 s (SCT_EV_CTRL n) in
  let combmode := (ctrl .& EV_CTRL_COMBMODE_MASK) .>> EV_CTRL_COMBMODE_SHIFT in
  let iosel := (ctrl .& EV_CTRL_IOSEL_MASK) .>> EV_CTRL_IOSEL_SHIFT in
  let iocond := (ctrl .& EV_CTRL_IOCOND_MASK) .>> EV_CTRL_IOCOND_SHIFT in
  if negb (combmode =? COMBMODE_IO) || flag ctrl EV_CTRL_OUTSEL then false
  else if negb (flag (sct_ld32 s (SCT_EV_STATE n)) (bit curstate)) then false
  else
    let ob := flag (oldv .>> iosel) 1 in
    let nb := flag (newv .>> iosel) 1 in
    if iocond =? IOCOND_RISE then negb ob && nb
    else if iocond =? IOCOND_FALL then ob && negb nb
    else if iocond =? IOCOND_HIGH then nb
    else negb nb.

Definition mcxn_sct_eval_inputs (s : MCXNSCTState) (oldv newv : Z) : MCXNSCTState :=
  let curstate := sct_ld32 s SCT_STATE_REG .& 0x1F in
  let '(evflag, changed) := foldl (fun (acc : Z * bool) n =>
    if sct_fires s curstate oldv newv n then (acc.1 .| bit n, true) else acc) (sct_ld32 s SCT_EVFLAG, false) (seqZ 0 SCT_NEV) in
  if changed : bool then mcxn_sct_update_irq (sct_st32 s SCT_EVFLAG evflag) else s.

(** The pins are set through a property of the device. *)
Definition mcxn_sct_set_inputs (s : MCXNSCTState) (val : Z) : MCXNSCTState :=
  let oldv := in_level s in
  let s := s <| in_level := u8 val |> in
  let s := sct_st32 s SCT_INPUT (u8 val) in
  mcxn_sct_eval_inputs s oldv (u8 val).

(** In [int64_t]; the product wraps. *)
Definition mcxn_sct_period_ns (s : MCXNSCTState) : Z :=
  let limit := sct_ld32 s SCT_MATCHREL0 + 1 in
  let pre := ((sct_ld32 s SCT_CTRL .& SCT_CTRL_PRE_L_MASK) .>> SCT_CTRL_PRE_L_SHIFT) + 1 in
  let ticks := limit * pre in
  let hz := u32 (clk_hz s) in
  if hz =? 0 then 0
  else
    let ns := Z.quot (swrap 64 (ticks * 1000000000)) hz in
    if ns <? 1 then 1 else ns.

(** The lines that are pulsed, and the state. *)
Definition mcxn_sct_event_tick (s : MCXNSCTState) : list Z * MCXNSCTState :=
  let s := mcxn_sct_update_irq (sct_st32 s SCT_EVFLAG (sct_ld32 s SCT_EVFLAG .| SCT_EV0)) in
  let pulses := (if flag (sct_ld32 s SCT_DMAREQ0) SCT_DMAREQ_DEV0 then [0] else []) ++ (if flag (sct_ld32 s SCT_DMAREQ1) SCT_DMAREQ_DEV0 then [1] else []) in
  let period := mcxn_sct_period_ns s in
  (pulses, if period <=? 0 then s
           else let s := s <| next_event_ns := swrap 64 (next_event_ns s + period) |> in s <| event_timer := Some (next_event_ns s) |>).

(** The bytes of an access. *)
Definition mcxn_sct_read (s : MCXNSCTState) (offset size : Z) : Z :=
  foldl (fun val i => if offset + i <? MCXN_SCT_SIZE then val .| ((regs s).[offset + i] .<< (8 * i)) else val) 0 (seqZ 0 size).

Definition sct_write_ctrl (s : MCXNSCTState) (value now : Z) : MCXNSCTState :=
  let v := u32 value in
  let count := sct_ld32 s SCT_COUNT in
  let count := if flag v SCT_CTRL_CLRCTR_L_MASK then count .& 0xffff0000 else count in
  let count := if flag v SCT_CTRL_CLRCTR_H_MASK then count .& 0x0000ffff else count in
  let s := sct_st32 s SCT_COUNT count in
  let v := v .& u32 (.~ (SCT_CTRL_CLRCTR_L_MASK .| SCT_CTRL_CLRCTR_H_MASK)) in
  let s := sct_st32 s SCT_CTRL v in
  if negb (flag v (SCT_CTRL_HALT_L_MASK .| SCT_CTRL_STOP_L_MASK)) then
    let period := mcxn_sct_period_ns s in
    if 0 <? period then
      let s := s <| next_event_ns := swrap 64 (now + period) |> in
      s <| event_timer := Some (next_event_ns s) |>
    else s <| event_timer := None |>
  else s <| event_timer := None |>.

Definition mcxn_sct_write (s : MCXNSCTState) (offset value size now : Z) : MCXNSCTState :=
  if (size =? 4) && (offset =? SCT_CTRL) then sct_write_ctrl s value now
  else if (size =? 4) && ((offset =? SCT_EVFLAG) || (offset =? SCT_CONFLAG)) then
    let cur := sct_ld32 s offset .& u32 (.~ value) in
    let s := sct_st32 s offset cur in
    if offset =? SCT_EVFLAG then mcxn_sct_update_irq s else s
  else
    let s := foldl (fun s i => if offset + i <? MCXN_SCT_SIZE then s <| regs := (regs s).[offset + i <- (value .>> (8 * i)) .& 0xff] |> else s) s (seqZ 0 size) in
    if (offset <? SCT_EVEN + 4) && (SCT_EVEN <? offset + size) then mcxn_sct_update_irq s else s.

Definition mcxn_sct_reset (s : MCXNSCTState) : MCXNSCTState :=
  s <| regs := replicate 4096 0 |> <| event_timer := None |> <| in_level := 0 |> <| irq := false |>.

(** What migration carries to a new device, and its hook. *)
Definition sct_vmstate (s fresh : MCXNSCTState) : MCXNSCTState :=
  fresh <| regs := regs s |> <| event_timer := event_timer s |> <| in_level := in_level s |>.
Definition mcxn_sct_post_load (s : MCXNSCTState) : MCXNSCTState := mcxn_sct_update_irq s.

(** ** Words of the register file *)

Definition sct_ok (s : MCXNSCTState) : Prop := length (regs s) = 4096%nat /\ Forall (in_range 8) (regs s).

Lemma sct_ld32_le s off : sct_ld32 s off = le_load [(regs s).[off]; (regs s).[off + 1]; (regs s).[off + 2]; (regs s).[off + 3]].
Proof. unfold sct_ld32. cbn [le_load]. by rewrite Z.shiftl_0_l, Z.lor_0_r, !Z.shiftl_lor, !Z.shiftl_shiftl, !Z.lor_assoc by lia. Qed.

Lemma byte_u8 v k : 0 <= k -> (v .>> k) .& 0xff = u8 (v .>> k).
Proof. intros. change 0xff with (Z.ones 8). by rewrite Z.land_ones. Qed.

Lemma sct_st32_ok s off v : sct_ok s -> sct_ok (sct_st32 s off v).
Proof.
  intros [Hl Hf]. unfold sct_st32. cbv zeta. split; cbn [regs modify]; [by rewrite !length_arr_set|].
  assert (Hb : forall x, in_range 8 (x .& 0xff)) by (intros x; change 0xff with (Z.ones 8); rewrite Z.land_ones by lia; by apply in_range_wrap).
  by repeat apply Forall_arr_set.
Qed.

Lemma sct_ld32_st32 s off v : sct_ok s -> 0 <= off <= 4092 -> in_range 32 v -> sct_ld32 (sct_st32 s off v) off = v.
Proof.
  intros [Hl _] Ho Hv. rewrite sct_ld32_le. unfold sct_st32. cbv zeta. cbn [regs modify].
  rewrite !(arr_get_set_ne _ (off + 3)), !(arr_get_set_ne _ (off + 2)), !(arr_get_set_ne _ (off + 1)), !arr_get_set_eq by (rewrite ?length_arr_set; lia).
  rewrite <- (Z.shiftr_0_r v) at 1. rewrite !byte_u8 by lia. etrans; [|by apply (wrap_in_range 32)]. change 32 with (8 * Z.of_nat 4). rewrite <- le_load_store.
  cbn [le_store]. by rewrite !Z.shiftr_shiftr by lia.
Qed.

Lemma sct_ld32_other s off v o : 0 <= off -> 0 <= o -> o + 4 <= off \/ off + 4 <= o -> sct_ld32 (sct_st32 s off v) o = sct_ld32 s o.
Proof. intros H1 H2 H3. unfold sct_ld32, sct_st32. cbv zeta. cbn [regs modify]. by rewrite !arr_get_set_ne by lia. Qed.

Lemma sct_ld32_range s off : sct_ok s -> 0 <= off <= 4092 -> in_range 32 (sct_ld32 s off).
Proof.
  intros [Hl Hf] Ho. rewrite sct_ld32_le. assert (Hb : forall i, 0 <= i < 4096 -> in_range 8 ((regs s).[i])) by (intros i Hi; apply Forall_arr_get; [done | lia]).
  set (bs := [_; _; _; _]). assert (Hbs : Forall (in_range 8) bs) by (unfold bs; repeat constructor; apply Hb; lia).
  rewrite <- (le_store_load bs Hbs), le_load_store. by apply in_range_wrap.
Qed.

(** ** Events of the pins *)

(** The flags collected by the loop over the events. *)
Lemma fold_events (fires : Z -> bool) ns : forall e c, Forall (fun n => 0 <= n < 32) ns -> in_range 32 e ->
  let '(e', c') := foldl (fun (acc : Z * bool) n => if fires n then (acc.1 .| bit n, true) else acc) (e, c) ns in
  in_range 32 e' /\ c' = c || existsb fires ns /\ forall i, 0 <= i -> Z.testbit e' i = Z.testbit e i || existsb (fun n => (n =? i) && fires n) ns.
Proof.
  induction ns as [|n ns IH]; intros e c Hns He; cbn [foldl existsb]; [split; [done|]; split; [by rewrite orb_false_r|]; intros; by rewrite orb_false_r|].
  apply Forall_cons in Hns as [Hn Hns]. destruct (fires n) eqn:Hf; cbn [fst].
  - specialize (IH (e .| bit n) true Hns ltac:(apply in_range_lor; [lia | done | apply in_range_bit; lia])). destruct (foldl _ _ ns) as [e' c']. destruct IH as (H1 & H2 & H3).
    split; [done|]. split; [by rewrite H2, orb_true_r|]. intros i Hi. rewrite H3 by done. rewrite Z.lor_spec, testbit_bit by lia. rewrite andb_true_r, Z.eqb_sym. btauto.
  - specialize (IH e c Hns He). destruct (foldl _ _ ns) as [e' c']. destruct IH as (H1 & H2 & H3). split; [done|]. split; [done|]. intros i Hi. by rewrite H3, andb_false_r by done.
Qed.

Lemma event_in_range (fires : Z -> bool) i : 0 <= i -> existsb (fun n => (n =? i) && fires n) (seqZ 0 SCT_NEV) = (i <? SCT_NEV) && fires i.
Proof.
  intros Hi. apply eq_true_iff_eq. rewrite existsb_exists, !andb_true_iff, Z.ltb_lt. split.
  - intros (n & Hn & [->%Z.eqb_eq Hf]%andb_true_iff). apply list_elem_of_In, elem_of_seqZ in Hn. split; [lia | done].
  - intros [Hlt Hf]. exists i. split; [apply list_elem_of_In, elem_of_seqZ; lia | by rewrite Z.eqb_refl].
Qed.

Lemma aligned_apart o p : 0 <= o -> o .& 3 = 0 -> 0 <= p -> p .& 3 = 0 -> o <> p -> o + 4 <= p \/ p + 4 <= o.
Proof. change 3 with (Z.ones 2). rewrite !Z.land_ones by lia. change (2 ^ 2) with 4. intros. dlia. Qed.

Lemma sct_fires_same s s' cur a b n : (forall o, 0x300 <= o -> sct_ld32 s' o = sct_ld32 s o) -> 0 <= n -> sct_fires s' cur a b n = sct_fires s cur a b n.
Proof. intros H Hn. unfold sct_fires, SCT_EV_CTRL, SCT_EV_STATE. by rewrite !H by lia. Qed.

(** A change of the pins raises the flags of exactly the events that it fires:
    those on the input alone, enabled in the current state, whose level or edge
    condition the selected pin meets; the INPUT register shows the pins, the
    interrupt line follows, and no other register changes. *)
Theorem sct_input_events s val : sct_ok s -> let s' := mcxn_sct_set_inputs s val in
  (forall n, 0 <= n < 32 -> Z.testbit (sct_ld32 s' SCT_EVFLAG) n =
     Z.testbit (sct_ld32 s SCT_EVFLAG) n || ((n <? SCT_NEV) && sct_fires s (sct_ld32 s SCT_STATE_REG .& 0x1F) (in_level s) (u8 val) n)) /\
  sct_ld32 s' SCT_INPUT = u8 val /\
  (irq s = flag (sct_ld32 s SCT_EVFLAG) (sct_ld32 s SCT_EVEN) -> irq s' = flag (sct_ld32 s' SCT_EVFLAG) (sct_ld32 s' SCT_EVEN)) /\
  (forall o, 0 <= o -> o .& 3 = 0 -> o <> SCT_EVFLAG -> o <> SCT_INPUT -> sct_ld32 s' o = sct_ld32 s o).
Proof.
  intros Hok. unfold mcxn_sct_set_inputs. cbv zeta. set (s1 := sct_st32 (s <| in_level := u8 val |>) SCT_INPUT (u8 val)).
  assert (Hok1 : sct_ok s1) by by apply sct_st32_ok. assert (Hw : in_range 32 (u8 val)) by (apply (in_range_mono 8); [lia | by apply in_range_wrap]).
  assert (H1 : forall o, 0 <= o -> o .& 3 = 0 -> o <> SCT_INPUT -> sct_ld32 s1 o = sct_ld32 s o).
  { intros o Ho Ha Hne. exact (sct_ld32_other (s <| in_level := u8 val |>) SCT_INPUT (u8 val) o ltac:(done) Ho (aligned_apart o SCT_INPUT Ho Ha ltac:(done) ltac:(done) Hne)). }
  assert (Hi : sct_ld32 s1 SCT_INPUT = u8 val) by (apply sct_ld32_st32; [done | done | done]).
  assert (Hfire : forall cur a b n, 0 <= n -> sct_fires s1 cur a b n = sct_fires s cur a b n).
  { intros cur a b n Hn. apply sct_fires_same; [|done]. intros o Ho.
    exact (sct_ld32_other (s <| in_level := u8 val |>) SCT_INPUT (u8 val) o ltac:(done) ltac:(lia) ltac:(unfold SCT_INPUT; lia)). }
  unfold mcxn_sct_eval_inputs. rewrite (H1 SCT_STATE_REG), (H1 SCT_EVFLAG) by done. set (cur := sct_ld32 s SCT_STATE_REG .& 0x1F).
  pose proof (fold_events (sct_fires s1 cur (in_level s) (u8 val)) (seqZ 0 SCT_NEV) (sct_ld32 s SCT_EVFLAG) false) as Hf.
  destruct (foldl _ _ _) as [e' c']. destruct Hf as (He & Hc & Hb); [apply Forall_seqZ; unfold SCT_NEV; lia | by apply sct_ld32_range|]. cbn [orb] in Hc.
  assert (Hbits : forall n, 0 <= n -> Z.testbit e' n = Z.testbit (sct_ld32 s SCT_EVFLAG) n || ((n <? SCT_NEV) && sct_fires s cur (in_level s) (u8 val) n)).
  { intros n Hn. by rewrite Hb, event_in_range, Hfire by done. }
  destruct c'; [|split; [|split; [done | split; [|by intros; apply H1]]]].
  - set (s2 := sct_st32 s1 SCT_EVFLAG e'). assert (H2 : sct_ld32 s2 SCT_EVFLAG = e') by by apply sct_ld32_st32.
    assert (H3 : forall o, 0 <= o -> o .& 3 = 0 -> o <> SCT_EVFLAG -> sct_ld32 s2 o = sct_ld32 s1 o) by (intros o Ho Ha Hne; apply sct_ld32_other; [done..|by apply aligned_apart]).
    split; [intros n Hn; change (sct_ld32 (mcxn_sct_update_irq s2) SCT_EVFLAG) with (sct_ld32 s2 SCT_EVFLAG); rewrite H2; apply Hbits; lia|].
    split; [etrans; [apply (H3 SCT_INPUT); done | done]|]. split; [done|]. intros o Ho Ha Hn1 Hn2. etrans; [by apply H3 | by apply H1].
  - intros n Hn. rewrite H1 by done. fold cur. destruct ((n <? SCT_NEV) && _) eqn:Hx; [|by rewrite orb_false_r]. apply andb_true_iff in Hx as [Hlt%Z.ltb_lt Hx]. exfalso.
    symmetry in Hc. apply not_true_iff_false in Hc. apply Hc, existsb_exists. exists n. rewrite Hfire by lia. split; [apply list_elem_of_In, elem_of_seqZ; lia | done].
  - intros Hl. etrans; [exact Hl|]. by rewrite !H1.
Qed.

(** ** The limit event *)

(** [k] expiries of the timer: the lines pulsed by each, and the state. *)
Fixpoint sct_ticks (k : nat) (s : MCXNSCTState) : list (list Z) * MCXNSCTState :=
  match k with
  | O => ([], s)
  | S k => let '(p, s) := mcxn_sct_event_tick s in let '(ps, s) := sct_ticks k s in (p :: ps, s)
  end.

(** The DMA lines that event 0 drives. *)
Definition sct_dma_lines (s : MCXNSCTState) : list Z :=
  (if flag (sct_ld32 s SCT_DMAREQ0) SCT_DMAREQ_DEV0 then [0] else []) ++ (if flag (sct_ld32 s SCT_DMAREQ1) SCT_DMAREQ_DEV0 then [1] else []).

Lemma sct_period_same s s' : sct_ld32 s' SCT_MATCHREL0 = sct_ld32 s SCT_MATCHREL0 -> sct_ld32 s' SCT_CTRL = sct_ld32 s SCT_CTRL -> clk_hz s' = clk_hz s ->
  mcxn_sct_period_ns s' = mcxn_sct_period_ns s.
Proof. intros E1 E2 E3. unfold mcxn_sct_period_ns. by rewrite E1, E2, E3. Qed.

(** One expiry. *)
Lemma sct_tick s p : sct_ok s -> 0 < p -> mcxn_sct_period_ns s = p -> - 2 ^ 63 <= next_event_ns s + p < 2 ^ 63 ->
  exists s', mcxn_sct_event_tick s = (sct_dma_lines s, s') /\ sct_ok s' /\ mcxn_sct_period_ns s' = p /\ next_event_ns s' = next_event_ns s + p /\
    event_timer s' = Some (next_event_ns s + p) /\ sct_ld32 s' SCT_EVFLAG = sct_ld32 s SCT_EVFLAG .| SCT_EV0 /\ sct_dma_lines s' = sct_dma_lines s /\
    irq s' = flag (sct_ld32 s' SCT_EVFLAG) (sct_ld32 s' SCT_EVEN).
Proof.
  intros Hok Hp Hper Hn. unfold mcxn_sct_event_tick. cbv zeta. set (e := sct_ld32 s SCT_EVFLAG .| SCT_EV0).
  assert (He : in_range 32 e) by (apply in_range_lor; [lia | by apply sct_ld32_range | by apply in_range_bit]).
  pose proof (sct_st32_ok s SCT_EVFLAG e Hok) as Hok1. pose proof (sct_ld32_st32 s SCT_EVFLAG e Hok ltac:(done) He) as H2.
  assert (H1 : forall o, 0 <= o -> o .& 3 = 0 -> o <> SCT_EVFLAG -> sct_ld32 (sct_st32 s SCT_EVFLAG e) o = sct_ld32 s o).
  { intros o Ho Ha Hne. exact (sct_ld32_other s SCT_EVFLAG e o ltac:(done) Ho (aligned_apart o SCT_EVFLAG Ho Ha ltac:(done) ltac:(done) Hne)). }
  assert (Hnx : next_event_ns (sct_st32 s SCT_EVFLAG e) = next_event_ns s) by reflexivity. assert (Hck : clk_hz (sct_st32 s SCT_EVFLAG e) = clk_hz s) by reflexivity.
  generalize dependent (sct_st32 s SCT_EVFLAG e). intros s0 Hok1 H2 H1 Hnx Hck. set (s1 := mcxn_sct_update_irq s0).
  assert (Hl : forall o, sct_ld32 s1 o = sct_ld32 s0 o) by reflexivity. assert (Hirq : irq s1 = flag (sct_ld32 s1 SCT_EVFLAG) (sct_ld32 s1 SCT_EVEN)) by reflexivity.
  assert (Hok2 : sct_ok s1) by exact Hok1. change (next_event_ns s0) with (next_event_ns s1) in Hnx. change (clk_hz s0) with (clk_hz s1) in Hck. clearbody s1.
  assert (Hp1 : mcxn_sct_period_ns s1 = p) by (rewrite <- Hper; apply sct_period_same; [rewrite Hl; by apply H1..|done]).
  assert (Hd : sct_dma_lines s1 = sct_dma_lines s) by (unfold sct_dma_lines; by rewrite !Hl, !H1).
  rewrite Hp1, (proj2 (Z.leb_gt p 0)) by lia. fold (sct_dma_lines s1). rewrite Hd, Hnx, swrap_id by (change (64 - 1) with 63; lia).
  eexists. split; [reflexivity|]. split; [exact Hok2|]. split; [exact Hp1|]. split; [done|]. split; [done|]. split; [exact (eq_trans (Hl _) H2) | done].
Qed.

Lemma sct_ticks_run k : forall s p, sct_ok s -> 0 < p -> mcxn_sct_period_ns s = p -> - 2 ^ 63 <= next_event_ns s -> next_event_ns s + Z.of_nat k * p < 2 ^ 63 ->
  event_timer s = Some (next_event_ns s) ->
  exists s', sct_ticks k s = (replicate k (sct_dma_lines s), s') /\ event_timer s' = Some (next_event_ns s + Z.of_nat k * p) /\
    (k <> O -> sct_ld32 s' SCT_EVFLAG = sct_ld32 s SCT_EVFLAG .| SCT_EV0 /\ irq s' = flag (sct_ld32 s' SCT_EVFLAG) (sct_ld32 s' SCT_EVEN)).
Proof.
  induction k as [|k IH]; intros s p Hok Hp Hper Hlo Hhi Ht; [exists s; split; [done|]; split; [rewrite Ht; f_equal; lia | done]|].
  destruct (sct_tick s p Hok Hp Hper ltac:(nia)) as (s1 & E & Hok1 & Hp1 & Hn1 & Ht1 & He1 & Hd1 & Hi1). cbn [sct_ticks]. rewrite E.
  destruct (IH s1 p Hok1 Hp Hp1) as (s2 & E2 & Ht2 & He2); [rewrite Hn1; nia | rewrite Hn1; nia | by rewrite Ht1, Hn1|]. rewrite E2, Hd1.
  exists s2. split; [done|]. split; [rewrite Ht2, Hn1; f_equal; lia|]. intros _. destruct k as [|k]; [injection E2 as <-; split; [exact He1 | exact Hi1]|].
  destruct (He2 ltac:(done)) as [He3 Hi2]. split; [|done]. rewrite He3, He1, <- Z.lor_assoc. done.
Qed.

(** The period in nanoseconds for the control word [v]. *)
Definition sct_period (s : MCXNSCTState) (v : Z) : Z :=
  Z.max 1 ((sct_ld32 s SCT_MATCHREL0 + 1) * (((v .& SCT_CTRL_PRE_L_MASK) .>> SCT_CTRL_PRE_L_SHIFT) + 1) * 1000000000 / u32 (clk_hz s)).

Lemma sct_start s v now : sct_ok s -> 0 < u32 (clk_hz s) -> flag (u32 v) (SCT_CTRL_HALT_L_MASK .| SCT_CTRL_STOP_L_MASK) = false ->
  (sct_ld32 s SCT_MATCHREL0 + 1) * (((u32 v .& SCT_CTRL_PRE_L_MASK) .>> SCT_CTRL_PRE_L_SHIFT) + 1) * 1000000000 < 2 ^ 63 ->
  0 <= now -> now + sct_period s (u32 v) < 2 ^ 63 ->
  let s0 := mcxn_sct_write s SCT_CTRL v 4 now in
  sct_ok s0 /\ mcxn_sct_period_ns s0 = sct_period s (u32 v) /\ next_event_ns s0 = now + sct_period s (u32 v) /\ event_timer s0 = Some (next_event_ns s0) /\
  sct_ld32 s0 SCT_EVFLAG = sct_ld32 s SCT_EVFLAG /\ sct_dma_lines s0 = sct_dma_lines s.
Proof.
  intros Hok Hhz Hrun Hov Hnow Hmax. change (mcxn_sct_write s SCT_CTRL v 4 now) with (sct_write_ctrl s v now). unfold sct_write_ctrl. cbv zeta. set (c := if flag (u32 v) SCT_CTRL_CLRCTR_H_MASK then _ else _).
  set (v' := u32 v .& _). assert (Hv' : in_range 32 v') by (apply in_range_land_l; [lia | by apply in_range_wrap]).
  set (s1 := sct_st32 s SCT_COUNT c). set (s2 := sct_st32 s1 SCT_CTRL v'). pose proof (sct_st32_ok s SCT_COUNT c Hok) as Hok1. pose proof (sct_st32_ok s1 SCT_CTRL v' Hok1) as Hok2. fold s1 in Hok1. fold s2 in Hok2.
  assert (Hl : forall o, 0x48 <= o -> sct_ld32 s2 o = sct_ld32 s o).
  { intros o Ho. etrans; [apply (sct_ld32_other s1); unfold SCT_CTRL; lia | apply (sct_ld32_other s); unfold SCT_COUNT; lia]. }
  assert (Hc : sct_ld32 s2 SCT_CTRL = v') by by apply (sct_ld32_st32 s1). assert (Hck : clk_hz s2 = clk_hz s) by reflexivity. clearbody s2. clear Hok1.
  assert (Hpre : v' .& SCT_CTRL_PRE_L_MASK = u32 v .& SCT_CTRL_PRE_L_MASK) by (unfold v'; rewrite <- Z.land_assoc; done).
  assert (Hgo : flag v' (SCT_CTRL_HALT_L_MASK .| SCT_CTRL_STOP_L_MASK) = false) by (unfold v'; rewrite flag_land; exact Hrun).
  assert (Hm : in_range 32 (sct_ld32 s SCT_MATCHREL0)) by by apply sct_ld32_range. unfold in_range in Hm.
  assert (Hpr : 0 <= (u32 v .& SCT_CTRL_PRE_L_MASK) .>> SCT_CTRL_PRE_L_SHIFT) by (apply Z.shiftr_nonneg, Z.land_nonneg; by right).
  assert (Hper : mcxn_sct_period_ns s2 = sct_period s (u32 v)).
  { unfold mcxn_sct_period_ns, sct_period. cbv zeta. rewrite Hc, Hpre, Hck, (Hl SCT_MATCHREL0), (proj2 (Z.eqb_neq (u32 (clk_hz s)) 0)) by (done || lia).
    rewrite swrap_id, Z.quot_div_nonneg by (change (64 - 1) with 63; nia). zcases; lia. }
  assert (Hpos : 1 <= sct_period s (u32 v)) by (unfold sct_period; lia). rewrite Hgo, Hper, (proj2 (Z.ltb_lt 0 _)) by lia. cbn [negb].
  rewrite swrap_id by (change (64 - 1) with 63; lia). split; [exact Hok2|]. split; [exact Hper|]. split; [done|]. split; [done|]. split; [exact (Hl SCT_EVFLAG ltac:(done))|].
  change (sct_dma_lines s2 = sct_dma_lines s). unfold sct_dma_lines. by rewrite !Hl.
Qed.

(** C20: limit events come on time.  A CTRL write that starts the counter at [now]
    makes the timer expire, for the [k]-th time, exactly [k] periods later, however
    late the expiries are served; the period is (MATCHREL0 + 1) * (PRE_L + 1) ticks
    of the clock.  Every expiry flags event 0, drives the interrupt line and pulses
    the DMA lines that select the event. *)
Theorem sct_limit_events s v now k : sct_ok s -> 0 < u32 (clk_hz s) -> flag (u32 v) (SCT_CTRL_HALT_L_MASK .| SCT_CTRL_STOP_L_MASK) = false ->
  (sct_ld32 s SCT_MATCHREL0 + 1) * (((u32 v .& SCT_CTRL_PRE_L_MASK) .>> SCT_CTRL_PRE_L_SHIFT) + 1) * 1000000000 < 2 ^ 63 ->
  let p := sct_period s (u32 v) in 0 <= now -> now + (Z.of_nat k + 1) * p < 2 ^ 63 ->
  exists s', sct_ticks k (mcxn_sct_write s SCT_CTRL v 4 now) = (replicate k (sct_dma_lines s), s') /\ event_timer s' = Some (now + (Z.of_nat k + 1) * p) /\
    (k <> O -> sct_ld32 s' SCT_EVFLAG = sct_ld32 s SCT_EVFLAG .| SCT_EV0 /\ irq s' = flag (sct_ld32 s' SCT_EVFLAG) (sct_ld32 s' SCT_EVEN)).
Proof.
  intros Hok Hhz Hrun Hov p Hnow Hmax. assert (Hp : 1 <= p) by (unfold p, sct_period; lia).
  destruct (sct_start s v now Hok Hhz Hrun Hov Hnow ltac:(fold p; nia)) as (Hok0 & Hp0 & Hn0 & Ht0 & He0 & Hd0). set (s0 := mcxn_sct_write s SCT_CTRL v 4 now) in *. fold p in Hp0, Hn0.
  destruct (sct_ticks_run k s0 p Hok0 ltac:(lia) Hp0) as (s' & E & Ht & Hk); [lia | nia | done|]. rewrite Hd0, Hn0 in *. rewrite He0 in Hk.
  exists s'. split; [done|]. split; [rewrite Ht; f_equal; lia | done].
Qed.

(** A clock of 150 MHz, a limit of 1500 ticks with prescaler 2: 20 us. *)
Definition sct_demo : MCXNSCTState :=
  mcxn_sct_write (mcxn_sct_write (mcxn_sct_reset (mkSCT 150000000 false None 0 0 [])) SCT_MATCHREL0 1499 4 0) SCT_DMAREQ1 1 4 0.
Lemma sct_limit_events_witness : exists s', sct_ticks 3 (mcxn_sct_write sct_demo SCT_CTRL 0x20 4 1000) = ([[1]; [1]; [1]], s') /\ event_timer s' = Some 81000.
Proof.
  destruct (sct_limit_events sct_demo 0x20 1000 3) as (s' & E & Ht & _).
  - split; [vm_compute; reflexivity|]. assert (Hb : forallb (in_rangeb 8) (regs sct_demo) = true) by (vm_compute; reflexivity).
    apply Forall_forall. intros x Hx. rewrite forallb_forall in Hb. specialize (Hb x (proj1 (list_elem_of_In _ _) Hx)). apply andb_true_iff in Hb as [?%Z.leb_le ?%Z.ltb_lt]. by split.
  - done.
  - done.
  - vm_compute. reflexivity.
  - lia.
  - vm_compute. reflexivity.
  - exists s'. split; [etrans; [exact E | vm_compute; reflexivity] | etrans; [exact Ht | vm_compute; reflexivity]].
Defined.

(** ** The interrupt line *)

Definition sct_line (s : MCXNSCTState) : Prop := sct_ok s /\ irq s = flag (sct_ld32 s SCT_EVFLAG) (sct_ld32 s SCT_EVEN).

Lemma sct_line_other s off v : sct_line s -> 0 <= off -> off .& 3 = 0 -> off <> SCT_EVFLAG -> off <> SCT_EVEN -> sct_line (sct_st32 s off v).
Proof.
  intros [Hok Hi] Ho Ha H1 H2. split; [by apply sct_st32_ok|]. change (irq (sct_st32 s off v)) with (irq s).
  by rewrite !sct_ld32_other by (done || apply aligned_apart; done || by intros ->).
Qed.

Lemma sct_line_update s : sct_ok s -> sct_line (mcxn_sct_update_irq s).
Proof. by split. Qed.

Lemma sct_line_same s s' : sct_line s -> regs s' = regs s -> irq s' = irq s -> sct_line s'.
Proof. intros [Hok Hi] E1 E2. unfold sct_line, sct_ok, sct_ld32 in *. by rewrite E1, E2. Qed.

Lemma sct_store_word s off v : 0 <= off -> off + 3 < MCXN_SCT_SIZE ->
  foldl (fun s i => if off + i <? MCXN_SCT_SIZE then s <| regs := (regs s).[off + i <- (v .>> (8 * i)) .& 0xff] |> else s) s (seqZ 0 4) = sct_st32 s off v.
Proof.
  intros Ho Hm. change (seqZ 0 4) with [0; 1; 2; 3]. cbn [foldl]. rewrite !(proj2 (Z.ltb_lt _ _)) by lia. unfold sct_st32. rewrite Z.add_0_r. by rewrite Z.shiftr_0_r.
Qed.

(** What the guest, the pins, the timer and migration do: aligned word accesses. *)
Inductive sct_step : MCXNSCTState -> MCXNSCTState -> Prop :=
  | step_write s off v now : 0 <= off < MCXN_SCT_SIZE -> off .& 3 = 0 -> sct_step s (mcxn_sct_write s off v 4 now)
  | step_pins s val : sct_step s (mcxn_sct_set_inputs s val)
  | step_tick s : sct_step s (mcxn_sct_event_tick s).2
  | step_clock s hz : sct_step s (s <| clk_hz := hz |>)
  | step_reset s : sct_step s (mcxn_sct_reset s)
  | step_migrate s fresh : sct_step s (mcxn_sct_post_load (sct_vmstate s fresh)).

Lemma sct_write_line s off v now : sct_line s -> 0 <= off < MCXN_SCT_SIZE -> off .& 3 = 0 -> sct_line (mcxn_sct_write s off v 4 now).
Proof.
  intros Hs Ho Ha. assert (Hm : off + 3 < MCXN_SCT_SIZE) by (change 3 with (Z.ones 2) in Ha; rewrite Z.land_ones in Ha by lia; unfold MCXN_SCT_SIZE in *; dlia).
  unfold mcxn_sct_write. change (4 =? 4) with true. cbn [andb]. destruct (Z.eqb_spec off SCT_CTRL) as [->|H1].
  - unfold sct_write_ctrl. cbv zeta. set (c := if flag _ SCT_CTRL_CLRCTR_H_MASK then _ else _). set (v' := u32 v .& _).
    assert (H2 : sct_line (sct_st32 (sct_st32 s SCT_COUNT c) SCT_CTRL v')) by (apply sct_line_other; [by apply sct_line_other | done..]). revert H2.
    generalize (sct_st32 (sct_st32 s SCT_COUNT c) SCT_CTRL v'). intros s2 H2. destruct (negb _); [destruct (0 <? _)|]; by apply (sct_line_same s2).
  - destruct (Z.eqb_spec off SCT_EVFLAG) as [->|H2]; cbn [orb]; [apply sct_line_update, sct_st32_ok, Hs|].
    destruct (Z.eqb_spec off SCT_CONFLAG) as [->|H3]; [by apply sct_line_other|]. rewrite sct_store_word by lia.
    destruct (Z.eqb_spec off SCT_EVEN) as [->|H4]; [apply sct_line_update, sct_st32_ok, Hs|].
    assert (Hs2 : sct_line (sct_st32 s off v)) by (by apply sct_line_other; [| lia|..]). destruct (_ && _); [apply sct_line_update, Hs2 | done].
Qed.

Lemma sct_inputs_line s val : sct_line s -> sct_line (mcxn_sct_set_inputs s val).
Proof.
  intros Hs. unfold mcxn_sct_set_inputs. cbv zeta. set (s0 := s <| in_level := u8 val |>). assert (H0 : sct_line s0) by by apply (sct_line_same s).
  pose proof (sct_line_other s0 SCT_INPUT (u8 val) H0 ltac:(done) ltac:(done) ltac:(done) ltac:(done)) as H1. revert H1. generalize (sct_st32 s0 SCT_INPUT (u8 val)). intros s1 H1.
  unfold mcxn_sct_eval_inputs. destruct (foldl _ _ _) as [e []]; [|done]. apply sct_line_update, sct_st32_ok, H1.
Qed.

Lemma sct_tick_line s : sct_line s -> sct_line (mcxn_sct_event_tick s).2.
Proof.
  intros Hs. unfold mcxn_sct_event_tick. cbv zeta. cbn [snd]. assert (H1 : sct_line (mcxn_sct_update_irq (sct_st32 s SCT_EVFLAG (sct_ld32 s SCT_EVFLAG .| SCT_EV0)))) by apply sct_line_update, sct_st32_ok, Hs.
  revert H1. generalize (mcxn_sct_update_irq (sct_st32 s SCT_EVFLAG (sct_ld32 s SCT_EVFLAG .| SCT_EV0))). intros s1 H1. destruct (_ <=? 0); [done | by apply (sct_line_same s1)].
Qed.

Lemma sct_reset_line s : sct_line (mcxn_sct_reset s).
Proof. split; [split; [apply length_replicate | by apply Forall_replicate]|]. vm_compute. reflexivity. Qed.

(** The interrupt line agrees with the event flags: from reset, under any
    sequence of word writes, pin changes, timer expiries, clock changes, resets and
    migrations, the line is high exactly when an enabled event is flagged. *)
Theorem sct_irq_line s0 s : rtc sct_step (mcxn_sct_reset s0) s -> irq s = flag (sct_ld32 s SCT_EVFLAG) (sct_ld32 s SCT_EVEN).
Proof.
  intros Hrun. enough (sct_line s) as [_ H] by exact H. refine (rtc_invariant sct_step sct_line _ _ _ Hrun (sct_reset_line s0)).
  intros s1 s2 Hst H1. destruct Hst; [by apply sct_write_line | by apply sct_inputs_line | by apply sct_tick_line | by eapply sct_line_same | apply sct_reset_line | apply sct_line_update; apply H1].
Qed.

(** ** Departures from the code's intent *)

(** A period beyond 2^63 units overflows to a nanosecond: the longest match value
    with PRE_L = 2 floods the system with events. *)
Theorem sct_long_period_overflows : let s := mcxn_sct_write (mcxn_sct_reset (mkSCT 150000000 false None 0 0 [])) SCT_MATCHREL0 0xFFFFFFFF 4 0 in
  event_timer (mcxn_sct_write s SCT_CTRL 0x40 4 1000) = Some 1001 /\ 2 ^ 32 * 3 * 1000000000 / 150000000 = 85899345920.
Proof. vm_compute. done. Qed.

(** The deadline is not migrated: the first expiry on the other side re-arms the
    timer from zero, in the past, so expiries follow one another until it has caught
    up with the clock. *)
Theorem sct_deadline_not_migrated : let s := mcxn_sct_write sct_demo SCT_CTRL 0x20 4 1000000000 in
  let s' := mcxn_sct_post_load (sct_vmstate s (mcxn_sct_reset (mkSCT 150000000 false None 0 0 []))) in
  event_timer s' = Some 1000020000 /\ event_timer (mcxn_sct_event_tick s).2 = Some 1000040000 /\ event_timer (mcxn_sct_event_tick s').2 = Some 20000.
Proof. vm_compute. done. Qed.

(** A byte written into the event flags is stored instead of clearing them, and the
    line is left behind. *)
Theorem sct_byte_write_sets_flags : let s := mcxn_sct_write (mcxn_sct_reset (mkSCT 0 false None 0 0 [])) SCT_EVEN 1 4 0 in
  let s' := mcxn_sct_write s SCT_EVFLAG 1 1 0 in sct_ld32 s' SCT_EVFLAG = 1 /\ irq s' = false.
Proof. vm_compute. done. Qed.
