(* ===== verification/M25p80.v ===== *)
(** * M25P80: the serial NOR flash on the FlexSPI

    Model of [hw/block/m25p80.c] for the part the board has, the Winbond W25Q64
    (8 MiB, JEDEC id 0xEF4017, 4 KiB erase, no SFDP table): the cases of other
    manufacturers and part flags are resolved to those of this part.  The working
    copy and the drive behind it are functions from addresses to bytes; [None] is
    an access outside the allocated storage or a failed assertion. *)
From S2P Require Import Prelude Ssi.

(** ** The part *)

Definition part_id : list Z := [0xef; 0x40; 0x17].
Definition SPI_NOR_MAX_ID_LEN : Z := 6.
Definition sector_size : Z := 64 .<< 10.
Definition n_sectors : Z := 128.
Definition page_size : Z := 256.
Definition flash_bytes : Z := sector_size * n_sectors.
Definition M25P80_INTERNAL_DATA_BUFFER_SZ : Z := 16.
Definition WINBOND_CONTINUOUS_READ_MODE_CMD_LEN : Z := 1.
Definition FSR_4BYTE_ADDR_MODE_ENABLED : Z := 0x1.
Definition FSR_FLASH_READY : Z := bit 7.

(** ** Commands *)

Definition NOP : Z := 0.
Definition WRSR : Z := 0x1.
Definition WRDI : Z := 0x4.
Definition RDSR : Z := 0x5.
Definition WREN : Z := 0x6.
Definition BRRD : Z := 0x16.
Definition BRWR : Z := 0x17.
Definition JEDEC_READ : Z := 0x9f.
Definition BULK_ERASE_60 : Z := 0x60.
Definition BULK_ERASE : Z := 0xc7.
Definition READ_FSR : Z := 0x70.
Definition RDCR : Z := 0x15.
Definition RDSFDP : Z := 0x5a.
Definition READ : Z := 0x03.
Definition READ4 : Z := 0x13.
Definition FAST_READ : Z := 0x0b.
Definition FAST_READ4 : Z := 0x0c.
Definition DOR : Z := 0x3b.
Definition DOR4 : Z := 0x3c.
Definition QOR : Z := 0x6b.
Definition QOR4 : Z := 0x6c.
Definition DIOR : Z := 0xbb.
Definition DIOR4 : Z := 0xbc.
Definition QIOR : Z := 0xeb.
Definition QIOR4 : Z := 0xec.
Definition PP : Z := 0x02.
Definition PP4 : Z := 0x12.
Definition PP4_4 : Z := 0x3e.
Definition DPP : Z := 0xa2.
Definition QPP : Z := 0x32.
Definition QPP_4 : Z := 0x34.
Definition RDID_90 : Z := 0x90.
Definition RDID_AB : Z := 0xab.
Definition AAI_WP : Z := 0xad.
Definition ERASE_4K : Z := 0x20.
Definition ERASE4_4K : Z := 0x21.
Definition ERASE_32K : Z := 0x52.
Definition ERASE4_32K : Z := 0x5c.
Definition ERASE_SECTOR : Z := 0xd8.
Definition ERASE4_SECTOR : Z := 0xdc.
Definition EN_4BYTE_ADDR : Z := 0xB7.
Definition EX_4BYTE_ADDR : Z := 0xE9.
Definition EXTEND_ADDR_READ : Z := 0xC8.
Definition EXTEND_ADDR_WRITE : Z := 0xC5.
Definition RESET_ENABLE : Z := 0x66.
Definition RESET_MEMORY : Z := 0x99.
Definition RDCR_EQIO : Z := 0x35.
Definition RSTQIO : Z := 0xf5.
Definition WRSR2 : Z := 0x31.
Definition RNVCR : Z := 0xB5.
Definition WNVCR : Z := 0xB1.
Definition RVCR : Z := 0x85.
Definition WVCR : Z := 0x81.
Definition REVCR : Z := 0x65.
Definition WEVCR : Z := 0x61.
Definition DIE_ERASE : Z := 0xC4.

Inductive CMDState :=
  | STATE_IDLE | STATE_PAGE_PROGRAM | STATE_READ | STATE_COLLECTING_DATA | STATE_COLLECTING_VAR_LEN_DATA | STATE_READING_DATA | STATE_READING_SFDP.
#[export] Instance CMDState_dec : EqDecision CMDState.
Proof. solve_decision. Defined.

(** A drive as the part sees it: its content, and whether it can be written
    ([blk_is_writable]).  A write completes before the next event of the part. *)
Record BlockBackend := mkBlk { bytes : Z -> Z; writable : bool }.

(** The fields of [struct Flash] that this part uses.  The upper protection bits and
    the flag of auto-increment programming stay false for it. *)
Record Flash := mkFlash {
  blk : option BlockBackend;
  storage : Z -> Z;
  state : CMDState;
  data : list Z;
  len : Z;
  pos : Z;
  data_read_loop : bool;
  needed_bytes : Z;
  cmd_in_progress : Z;
  cur_addr : Z;
  nonvolatile_cfg : Z;
  volatile_cfg : Z;
  enh_volatile_cfg : Z;
  wp_level : bool;
  write_enable : bool;
  four_bytes_address_mode : bool;
  reset_enable : bool;
  quad_enable : bool;
  block_protect0 : bool;
  block_protect1 : bool;
  block_protect2 : bool;
  status_register_write_disabled : bool;
  ear : Z;
  dirty_page : Z
}.
#[export] Instance flash_settable : Settable Flash := fun s => mkFlash (blk s) (storage s) (state s) (data s) (len s) (pos s) (data_read_loop s) (needed_bytes s)
  (cmd_in_progress s) (cur_addr s) (nonvolatile_cfg s) (volatile_cfg s) (enh_volatile_cfg s) (wp_level s) (write_enable s) (four_bytes_address_mode s) (reset_enable s)
  (quad_enable s) (block_protect0 s) (block_protect1 s) (block_protect2 s) (status_register_write_disabled s) (ear s) (dirty_page s).

Definition is_cmd (cmd : Z) (l : list Z) : bool := existsb (Z.eqb cmd) l.

(** ** The drive *)

(** [n] bytes of [m] at [a] written over [d]. *)
Definition copy_range (m d : Z -> Z) (a n : Z) : Z -> Z := fun x => if (a <=? x) && (x <? a + n) then m x else d x.
Definition memset (m : Z -> Z) (a v n : Z) : Z -> Z := copy_range (fun _ => v) m a n.

Definition BDRV_SECTOR_SIZE : Z := 512.
Definition blk_pwrite (s : Flash) (d : BlockBackend) (off n : Z) : Flash :=
  s <| blk := Some (mkBlk (copy_range (storage s) (bytes d) off n) (writable d)) |>.

(** [None] is the failed assertion on the length. *)
Definition flash_sync_area (s : Flash) (off n : Z) : option Flash :=
  match blk s with
  | None => Some s
  | Some d =>
      if negb (writable d) then Some s
      else if negb (n mod BDRV_SECTOR_SIZE =? 0) then None
      else Some (blk_pwrite s d off n)
  end.
Definition flash_sync_page (s : Flash) (page : Z) : Flash :=
  match blk s with
  | None => s
  | Some d => if negb (writable d) then s else blk_pwrite s d (page * page_size) page_size
  end.
Definition flash_sync_dirty (s : Flash) (newpage : Z) : Flash :=
  if (0 <=? dirty_page s) && negb (dirty_page s =? newpage) then (flash_sync_page s (dirty_page s)) <| dirty_page := newpage |> else s.

(** ** Erase and program *)

Definition erase_len (cmd : Z) : option Z :=
  if is_cmd cmd [ERASE_4K; ERASE4_4K] then Some (4 * 1024)
  else if is_cmd cmd [ERASE_32K; ERASE4_32K] then Some (32 * 1024)
  else if is_cmd cmd [ERASE_SECTOR; ERASE4_SECTOR] then Some sector_size
  else if cmd =? BULK_ERASE then Some flash_bytes
  else None.
(** The part has one die, so a die erase is refused; any other command aborts. *)
Definition flash_erase (s : Flash) (offset cmd : Z) : option Flash :=
  if cmd =? DIE_ERASE then Some s
  else match erase_len cmd with
       | None => None
       | Some n =>
           if negb (write_enable s) then Some s
           else if flash_bytes <? offset + n then None
           else flash_sync_area (s <| storage := memset (storage s) offset 0xff n |>) offset n
       end.

Definition block_protect_value (s : Flash) : Z :=
  (Z.b2z (block_protect2 s) .<< 2) .| (Z.b2z (block_protect1 s) .<< 1) .| Z.b2z (block_protect0 s).
Definition flash_write8 (s : Flash) (addr v : Z) : Flash :=
  let page := addr / page_size in
  let sector := addr / sector_size in
  if negb (write_enable s) then s
  else if (0 <? block_protect_value s) && (n_sectors <=? sector + (1 .<< (block_protect_value s - 1))) then s
  else
    let s := s <| storage := (fun x => if x =? cur_addr s then storage s x .& v else storage s x) |> in
    (flash_sync_dirty s page) <| dirty_page := page |>.

Definition get_addr_length (s : Flash) : Z :=
  if cmd_in_progress s =? RDSFDP then 3
  else if is_cmd (cmd_in_progress s) [PP4; PP4_4; QPP_4; READ4; QIOR4; ERASE4_4K; ERASE4_32K; ERASE4_SECTOR; FAST_READ4; DOR4; QOR4; DIOR4] then 4
  else if four_bytes_address_mode s then 4 else 3.

(** ** Commands with an argument *)

Definition collected_addr (s : Flash) : Z :=
  let n := get_addr_length s in
  foldl (fun a i => u32 (a .<< 8) .| (data s).[i]) (if n =? 3 then ear s else 0) (seqZ 0 n) .& (flash_bytes - 1).

Definition write_status (s : Flash) : Flash :=
  let d := (data s).[0] in
  let s := s <| status_register_write_disabled := flag d (bit 7) |> <| block_protect0 := flag d (bit 2) |>
             <| block_protect1 := flag d (bit 3) |> <| block_protect2 := flag d (bit 4) |> in
  let s := if 1 <? len s then s <| quad_enable := flag ((data s).[1]) 0x02 |> else s in
  s <| write_enable := false |>.

Definition complete_collecting_data (s : Flash) : option Flash :=
  let s := s <| cur_addr := collected_addr s |> <| state := STATE_IDLE |> in
  let cmd := cmd_in_progress s in
  if is_cmd cmd [DPP; QPP; QPP_4; PP; PP4; PP4_4] then Some (s <| state := STATE_PAGE_PROGRAM |>)
  else if cmd =? AAI_WP then Some (s <| cur_addr := cur_addr s .& .~ 1 |> <| state := STATE_PAGE_PROGRAM |>)
  else if is_cmd cmd [READ; READ4; FAST_READ; FAST_READ4; DOR; DOR4; QOR; QOR4; DIOR; DIOR4; QIOR; QIOR4] then Some (s <| state := STATE_READ |>)
  else if is_cmd cmd [ERASE_4K; ERASE4_4K; ERASE_32K; ERASE4_32K; ERASE_SECTOR; ERASE4_SECTOR; DIE_ERASE] then flash_erase s (cur_addr s) cmd
  else if cmd =? WRSR then Some (write_status s)
  else if cmd =? WRSR2 then Some (s <| quad_enable := flag ((data s).[0]) 0x02 |>)
  else if is_cmd cmd [BRWR; EXTEND_ADDR_WRITE] then Some (s <| ear := (data s).[0] |>)
  else if cmd =? WNVCR then Some (s <| nonvolatile_cfg := (data s).[0] .| ((data s).[1] .<< 8) |>)
  else if cmd =? WVCR then Some (s <| volatile_cfg := (data s).[0] |>)
  else if cmd =? WEVCR then Some (s <| enh_volatile_cfg := (data s).[0] |>)
  else if cmd =? RDSFDP then Some (s <| state := STATE_READING_SFDP |>)
  else Some s.

Definition reset_memory (s : Flash) : Flash :=
  s <| cmd_in_progress := NOP |> <| cur_addr := 0 |> <| ear := 0 |> <| four_bytes_address_mode := false |> <| len := 0 |> <| needed_bytes := 0 |>
    <| pos := 0 |> <| state := STATE_IDLE |> <| write_enable := false |> <| reset_enable := false |> <| quad_enable := false |>.

(** ** A new command *)

Definition collect (s : Flash) (n : Z) : Flash := s <| needed_bytes := n |> <| pos := 0 |> <| len := 0 |> <| state := STATE_COLLECTING_DATA |>.
Definition decode_fast_read_cmd (s : Flash) : Flash := collect s (get_addr_length s + 8).
Definition decode_dio_read_cmd (s : Flash) : Flash := collect s (get_addr_length s + WINBOND_CONTINUOUS_READ_MODE_CMD_LEN).
Definition decode_qio_read_cmd (s : Flash) : Flash := collect s (get_addr_length s + WINBOND_CONTINUOUS_READ_MODE_CMD_LEN + 4).

(** [n] bytes of answer, the first of which are [l]. *)
Definition answer (s : Flash) (l : list Z) (n : Z) : Flash :=
  s <| data := l ++ drop (length l) (data s) |> <| pos := 0 |> <| len := n |> <| state := STATE_READING_DATA |>.
Definition status_locked (s : Flash) : bool := (negb (wp_level s) && status_register_write_disabled s) || negb (write_enable s).
Definition status_register (s : Flash) : Z :=
  (Z.b2z (write_enable s) .<< 1) .| (Z.b2z (status_register_write_disabled s) .<< 7) .| (Z.b2z (block_protect0 s) .<< 2) .|
  (Z.b2z (block_protect1 s) .<< 3) .| (Z.b2z (block_protect2 s) .<< 4).
Definition unknown_cmd (s : Flash) : Flash := (answer s [0] 1) <| data_read_loop := true |>.

Definition decode_new_cmd (s : Flash) (value : Z) : option Flash :=
  let s := s <| cmd_in_progress := value |> in
  let s := if negb (value =? RESET_MEMORY) then s <| reset_enable := false |> else s in
  if is_cmd value [ERASE_4K; ERASE4_4K; ERASE_32K; ERASE4_32K; ERASE_SECTOR; ERASE4_SECTOR; PP; PP4; DIE_ERASE; RDID_90; RDID_AB;
                   READ; READ4; DPP; QPP; QPP_4; PP4_4] then Some (collect s (get_addr_length s))
  else if is_cmd value [FAST_READ; FAST_READ4; DOR; DOR4; QOR; QOR4] then Some (decode_fast_read_cmd s)
  else if is_cmd value [DIOR; DIOR4] then Some (decode_dio_read_cmd s)
  else if is_cmd value [QIOR; QIOR4] then Some (decode_qio_read_cmd s)
  else if value =? WRSR then
    Some (if status_locked s then s else s <| needed_bytes := 2 |> <| state := STATE_COLLECTING_VAR_LEN_DATA |> <| pos := 0 |>)
  else if value =? WRSR2 then
    Some (if status_locked s then s else s <| needed_bytes := 1 |> <| state := STATE_COLLECTING_DATA |> <| pos := 0 |>)
  else if value =? WRDI then Some (s <| write_enable := false |>)
  else if value =? WREN then Some (s <| write_enable := true |>)
  else if value =? RDSR then Some ((answer s [status_register s] 1) <| data_read_loop := true |>)
  else if value =? READ_FSR then
    Some ((answer s [FSR_FLASH_READY .| (if four_bytes_address_mode s then FSR_4BYTE_ADDR_MODE_ENABLED else 0)] 1) <| data_read_loop := true |>)
  else if value =? JEDEC_READ then Some (answer s (part_id ++ [0; 0; 0]) SPI_NOR_MAX_ID_LEN)
  else if value =? RDCR then Some (answer s [(volatile_cfg s .& 0xFF) .| (Z.b2z (four_bytes_address_mode s) .<< 5)] 1)
  else if is_cmd value [BULK_ERASE_60; BULK_ERASE] then (if write_enable s then flash_erase s 0 BULK_ERASE else Some s)
  else if value =? NOP then Some s
  else if value =? EN_4BYTE_ADDR then Some (s <| four_bytes_address_mode := true |>)
  else if value =? EX_4BYTE_ADDR then Some (s <| four_bytes_address_mode := false |>)
  else if is_cmd value [BRRD; EXTEND_ADDR_READ] then Some (answer s [ear s] 1)
  else if is_cmd value [BRWR; EXTEND_ADDR_WRITE; WVCR; WEVCR] then Some (if write_enable s then collect s 1 else s)
  else if value =? RNVCR then Some (answer s [nonvolatile_cfg s .& 0xFF; (nonvolatile_cfg s .>> 8) .& 0xFF] 2)
  else if value =? WNVCR then Some s
  else if value =? RVCR then Some (answer s [volatile_cfg s .& 0xFF] 1)
  else if value =? REVCR then Some (answer s [enh_volatile_cfg s .& 0xFF] 1)
  else if value =? RESET_ENABLE then Some (s <| reset_enable := true |>)
  else if value =? RESET_MEMORY then Some (if reset_enable s then reset_memory s else s)
  else if value =? RDCR_EQIO then Some (answer s [Z.b2z (quad_enable s) .<< 1] 1)
  else if value =? RSTQIO then Some (s <| quad_enable := false |>)
  else if value =? AAI_WP then Some s
  else Some (unknown_cmd s).

(** ** The SSI peripheral *)

(** [select] is the level of the line, which is high when the chip is released. *)
Definition m25p80_cs (s : Flash) (select : bool) : option Flash :=
  if select then
    s ← (if decide (state s = STATE_COLLECTING_VAR_LEN_DATA) then complete_collecting_data s else Some s);
    Some ((flash_sync_dirty (s <| len := 0 |> <| pos := 0 |> <| state := STATE_IDLE |>) (-1)) <| data_read_loop := false |>)
  else Some s.

Definition m25p80_transfer8 (s : Flash) (tx : Z) : option (Flash * Z) :=
  let tx := u8 tx in
  match state s with
  | STATE_PAGE_PROGRAM =>
      let s := flash_write8 s (cur_addr s) tx in
      Some (s <| cur_addr := (cur_addr s + 1) .& (flash_bytes - 1) |>, 0)
  | STATE_READ => Some (s <| cur_addr := (cur_addr s + 1) .& (flash_bytes - 1) |>, storage s (cur_addr s))
  | STATE_COLLECTING_DATA | STATE_COLLECTING_VAR_LEN_DATA =>
      if M25P80_INTERNAL_DATA_BUFFER_SZ <=? len s then Some (s <| len := 0 |> <| pos := 0 |> <| state := STATE_IDLE |>, 0)
      else
        let s := s <| data := (data s).[len s <- tx] |> <| len := len s + 1 |> in
        s ← (if len s =? needed_bytes s then complete_collecting_data s else Some s);
        Some (s, 0)
  | STATE_READING_DATA =>
      if M25P80_INTERNAL_DATA_BUFFER_SZ <=? pos s then Some (s <| len := 0 |> <| pos := 0 |> <| state := STATE_IDLE |>, 0)
      else
        let r := (data s).[pos s] in
        let s := s <| pos := pos s + 1 |> in
        Some (if pos s =? len s then
                let s := s <| pos := 0 |> in
                if data_read_loop s then s else s <| state := STATE_IDLE |>
              else s, r)
  | STATE_READING_SFDP => None
  | STATE_IDLE => s ← decode_new_cmd s tx; Some (s, 0)
  end.

Definition m25p80_write_protect_pin_irq_handler (s : Flash) (level : bool) : Flash := s <| wp_level := level |>.

(** A part with the drive [b]: the working copy is its content, or blank. *)
Definition m25p80_realize (b : option BlockBackend) : Flash :=
  mkFlash b (match b with Some d => bytes d | None => fun _ => 0xff end) STATE_IDLE (replicate 16 0) 0 0 false 0 0 0 0x8FFF 0 0 false false false false false false false false false 0 (-1).
Definition m25p80_reset (s : Flash) : Flash :=
  reset_memory (s <| wp_level := true |> <| status_register_write_disabled := false |> <| block_protect0 := false |>
                  <| block_protect1 := false |> <| block_protect2 := false |>).
Definition m25p80_pre_save (s : Flash) : Flash := flash_sync_dirty s (-1).

(** On the bus; once the storage has been left, nothing more is known. *)
#[export] Instance m25p80_peripheral : SSIPeripheralClass (option Flash) := {
  spc_transfer o v := match (s ← o; m25p80_transfer8 s v) with Some (s, r) => (Some s, r) | None => (None, 0) end;
  spc_set_cs o := Some (fun level => s ← o; m25p80_cs s level);
  spc_cs_polarity _ := SSI_CS_LOW;
}.

(** ** The drive follows the working copy *)

(** The drive [b] the part was given: a writable one agrees with the working copy
    outside the dirty page, a read-only one is as it was. *)
Definition in_step (b : BlockBackend) (s : Flash) : Prop :=
  exists d, blk s = Some d /\ writable d = writable b /\
    if writable b then forall x, 0 <= x < flash_bytes -> bytes d x = storage s x \/ x / page_size = dirty_page s else d = b.
Definition same_store (s s' : Flash) : Prop := blk s' = blk s /\ storage s' = storage s /\ dirty_page s' = dirty_page s.

Lemma in_step_same b s s' : same_store s s' -> in_step b s -> in_step b s'.
Proof. intros (E1 & E2 & E3) (d & Hs). exists d. by rewrite E1, E2, E3. Qed.

Lemma copy_range_in m d a n x : a <= x < a + n -> copy_range m d a n x = m x.
Proof. intros Hx. unfold copy_range. by rewrite (proj2 (Z.leb_le _ _)), (proj2 (Z.ltb_lt _ _)) by lia. Qed.
Lemma copy_range_out m d a n x : ~ (a <= x < a + n) -> copy_range m d a n x = d x.
Proof. intros Hx. unfold copy_range. zcases; [lia | done..]. Qed.

Lemma erase_len_sectors c n : erase_len c = Some n -> n mod BDRV_SECTOR_SIZE = 0.
Proof. unfold erase_len. intros E. repeat case_match; simplify_eq; done. Qed.

Lemma erase_in_step b s o cmd s' : flash_erase s o cmd = Some s' -> in_step b s -> in_step b s'.
Proof.
  unfold flash_erase. destruct (cmd =? DIE_ERASE); [by intros [= <-]|]. destruct (erase_len cmd) as [n|]; [|done]. destruct (negb (write_enable s)); [by intros [= <-]|].
  destruct (flash_bytes <? o + n); [done|]. intros E (d & Hd & Hw & Hs). unfold flash_sync_area in E. cbn [blk modify] in E. rewrite Hd in E.
  unfold in_step. rewrite <- Hw in *. destruct (writable d) eqn:Ew; cbn [negb] in E; [|injection E as <-; by exists d].
  destruct (negb _); [done|]. injection E as <-. eexists. split; [done|]. split; [done|]. cbn [storage dirty_page bytes modify blk_pwrite]. intros x Hx.
  destruct (decide (o <= x < o + n)) as [Hin|Hout]; [left; by rewrite copy_range_in|]. unfold memset. rewrite !copy_range_out by done. by apply Hs.
Qed.

(** A page is written back when another one becomes dirty. *)
Lemma sync_dirty_in_step b s q d : blk s = Some d -> writable d = writable b ->
  (if writable b then forall x, 0 <= x < flash_bytes -> bytes d x = storage s x \/ x / page_size = dirty_page s \/ x / page_size = q else d = b) ->
  in_step b ((flash_sync_dirty s q) <| dirty_page := q |>).
Proof.
  intros Hd Hw Hs. unfold in_step, flash_sync_dirty, flash_sync_page. rewrite Hd. rewrite <- Hw in *.
  destruct (writable d) eqn:Ew; cbn [negb]; [|exists d; by destruct (_ && _)].
  destruct ((0 <=? dirty_page s) && negb (dirty_page s =? q)) eqn:E.
  - eexists. split; [done|]. split; [done|]. cbn [storage dirty_page bytes modify blk_pwrite]. intros x Hx.
    destruct (decide (dirty_page s * page_size <= x < dirty_page s * page_size + page_size)) as [Hin|Hout]; [left; by apply copy_range_in|].
    rewrite copy_range_out by done. destruct (Hs x Hx) as [Hq|[Hq|Hq]]; [by left| |by right]. destruct Hout. rewrite <- Hq. unfold page_size. dlia.
  - exists d. split; [done|]. split; [done|]. cbn [storage dirty_page modify]. intros x Hx. assert (Hp : 0 <= x / page_size) by (unfold page_size; dlia).
    destruct (Hs x Hx) as [Hq|[Hq|Hq]]; [by left| |by right]. right. apply andb_false_iff in E as [E|E]; [apply Z.leb_gt in E; lia|].
    apply negb_false_iff, Z.eqb_eq in E. congruence.
Qed.

Lemma write8_in_step b s v : in_step b s -> in_step b (flash_write8 s (cur_addr s) v).
Proof.
  intros Hs. unfold flash_write8. destruct (negb (write_enable s)); [done|]. destruct (_ && _); [done|]. cbv zeta. destruct Hs as (d & Hd & Hw & Hs).
  apply (sync_dirty_in_step b _ _ d); [done | done|]. cbn [storage dirty_page modify]. destruct (writable b); [|done].
  intros x Hx. destruct (Z.eqb_spec x (cur_addr s)) as [->|]; [by right; right|]. destruct (Hs x Hx); [by left | by right; left].
Qed.

(** Writing the dirty page back leaves none. *)
Lemma sync_all_in_step b s : in_step b s -> in_step b (flash_sync_dirty s (-1)) /\ dirty_page (flash_sync_dirty s (-1)) < 0.
Proof.
  intros (d & Hd & Hw & Hs).
  assert (Hn : dirty_page (flash_sync_dirty s (-1)) < 0) by (unfold flash_sync_dirty; destruct (0 <=? dirty_page s) eqn:E; cbn [andb];
    [destruct (Z.eqb_spec (dirty_page s) (-1)); cbn; lia | apply Z.leb_gt in E; lia]). split; [|done].
  assert (H : in_step b ((flash_sync_dirty s (-1)) <| dirty_page := -1 |>)).
  { apply (sync_dirty_in_step b s (-1) d Hd Hw). destruct (writable b); [|done]. intros x Hx. destruct (Hs x Hx); auto. }
  destruct H as (d' & Hd' & Hw' & Hs'). exists d'. split; [done|]. split; [done|]. destruct (writable b); [|done].
  intros x Hx. destruct (Hs' x Hx) as [Hq|Hq]; [by left|]. exfalso. cbn in Hq. unfold page_size in Hq. dlia.
Qed.

Lemma write_status_same s : same_store s (write_status s).
Proof. unfold write_status. cbv zeta. by destruct (1 <? _). Qed.

Lemma complete_in_step dr s s' : complete_collecting_data s = Some s' -> in_step dr s -> in_step dr s'.
Proof.
  unfold complete_collecting_data. cbv zeta. set (s1 := s <| cur_addr := collected_addr s |> <| state := STATE_IDLE |>). intros E Hs.
  assert (H1 : in_step dr s1) by (by apply (in_step_same dr s)). clearbody s1. clear Hs.
  repeat match type of E with
  | (if ?b then _ else _) = _ => destruct b; [first [by eapply erase_in_step; eassumption | injection E as <-; by apply (in_step_same dr s1) | injection E as <-; by eapply in_step_same, H1; apply write_status_same]|]
  end. by injection E as <-.
Qed.

Lemma decode_in_step dr s v s' : decode_new_cmd s v = Some s' -> in_step dr s -> in_step dr s'.
Proof.
  unfold decode_new_cmd. cbv zeta. set (s1 := s <| cmd_in_progress := v |>). intros E Hs.
  assert (H1 : in_step dr (if negb (v =? RESET_MEMORY) then s1 <| reset_enable := false |> else s1)) by (by destruct (negb _); apply (in_step_same dr s)).
  revert E H1. generalize (if negb (v =? RESET_MEMORY) then s1 <| reset_enable := false |> else s1). clear. intros s E Hs.
  repeat match type of E with
  | (if is_cmd v [BULK_ERASE_60; BULK_ERASE] then _ else _) = _ =>
      destruct (is_cmd v [BULK_ERASE_60; BULK_ERASE]); [destruct (write_enable s); [by eapply erase_in_step | by injection E as <-]|]
  | (if ?b then _ else _) = _ => destruct b; [injection E as <-; repeat case_match; by apply (in_step_same dr s)|]
  end. injection E as <-. by apply (in_step_same dr s).
Qed.

Lemma transfer_in_step dr s b s' r : m25p80_transfer8 s b = Some (s', r) -> in_step dr s -> in_step dr s'.
Proof.
  unfold m25p80_transfer8. cbv zeta. intros E Hs. destruct (state s).
  - destruct (decode_new_cmd s (u8 b)) eqn:D; [|done]. injection E as <- <-. by eapply decode_in_step.
  - injection E as <- <-. by eapply in_step_same, write8_in_step.
  - injection E as <- <-. by apply (in_step_same dr s).
  - destruct (_ <=? _); [injection E as <- <-; by apply (in_step_same dr s)|]. destruct (_ =? _).
    + destruct (complete_collecting_data _) eqn:D; [|done]. injection E as <- <-. eapply complete_in_step; [done|]. by apply (in_step_same dr s).
    + injection E as <- <-. by apply (in_step_same dr s).
  - destruct (_ <=? _); [injection E as <- <-; by apply (in_step_same dr s)|]. destruct (_ =? _).
    + destruct (complete_collecting_data _) eqn:D; [|done]. injection E as <- <-. eapply complete_in_step; [done|]. by apply (in_step_same dr s).
    + injection E as <- <-. by apply (in_step_same dr s).
  - destruct (_ <=? _); injection E as <- <-; [by apply (in_step_same dr s)|]. repeat case_match; by apply (in_step_same dr s).
  - done.
Qed.

Lemma cs_in_step dr s l s' : m25p80_cs s l = Some s' -> in_step dr s -> in_step dr s' /\ (l = true -> dirty_page s' < 0).
Proof.
  unfold m25p80_cs. destruct l; [|intros [= <-]; done]. intros E Hs.
  assert (exists s1, in_step dr s1 /\ s' = (flash_sync_dirty (s1 <| len := 0 |> <| pos := 0 |> <| state := STATE_IDLE |>) (-1)) <| data_read_loop := false |>) as (s1 & H1 & ->).
  { destruct (decide _); [|injection E as <-; by exists s]. destruct (complete_collecting_data s) as [s1|] eqn:D; [|done]. injection E as <-. exists s1. split; [by eapply complete_in_step | done]. }
  destruct (sync_all_in_step dr (s1 <| len := 0 |> <| pos := 0 |> <| state := STATE_IDLE |>)) as [H2 H3]; [by apply (in_step_same dr s1)|].
  split; [|done]. by eapply in_step_same, H2.
Qed.

Inductive flash_step : Flash -> Flash -> Prop :=
  | flash_transfer s b r s' : m25p80_transfer8 s b = Some (s', r) -> flash_step s s'
  | flash_cs s l s' : m25p80_cs s l = Some s' -> flash_step s s'
  | flash_wp s l : flash_step s (m25p80_write_protect_pin_irq_handler s l)
  | flash_reset s : flash_step s (m25p80_reset s)
  | flash_save s : flash_step s (m25p80_pre_save s).

Lemma step_in_step dr s s' : flash_step s s' -> in_step dr s -> in_step dr s'.
Proof.
  intros [s1 b r s2 E|s1 l s2 E|s1 l|s1|s1] Hs; [by eapply transfer_in_step | by eapply cs_in_step | by apply (in_step_same dr s1)..|].
  by apply sync_all_in_step.
Qed.

(** C10: the drive holds the flash whenever the chip is released.  From power-on with
    any drive, under any sequence of transfers, chip selects, changes of the WP# pin,
    resets and saves, the deselect that ends a transaction leaves every byte of a
    writable drive equal to the working copy, although programming writes a page
    back only when the next one is touched; and a read-only drive is never
    written. *)
Theorem m25p80_drive_in_step b s s' : rtc flash_step (m25p80_reset (m25p80_realize (Some b))) s -> m25p80_cs s true = Some s' ->
  exists d, blk s' = Some d /\ if writable b then forall x, 0 <= x < flash_bytes -> bytes d x = storage s' x else d = b.
Proof.
  intros Hrun Hcs. assert (Hs : in_step b s).
  { refine (rtc_invariant flash_step (in_step b) _ _ (step_in_step b) Hrun _). exists b. split; [done|]. split; [done|]. destruct (writable b); [|done]. by left. }
  destruct (cs_in_step b s true s' Hcs Hs) as [(d & Hd & _ & H1) H2]. exists d. split; [done|]. destruct (writable b); [|done].
  intros x Hx. destruct (H1 x Hx) as [Hq|Hq]; [done|]. exfalso. unfold page_size in Hq. specialize (H2 eq_refl). dlia.
Qed.

(** A byte string sent to the chip, with its answers. *)
Fixpoint xfer (s : Flash) (l : list Z) : option (Flash * list Z) :=
  match l with
  | [] => Some (s, [])
  | b :: l => '(s, r) ← m25p80_transfer8 s b; '(s, rs) ← xfer s l; Some (s, r :: rs)
  end.

Lemma xfer_steps l s s' rs : xfer s l = Some (s', rs) -> rtc flash_step s s'.
Proof.
  revert s rs. induction l as [|b l IH]; cbn; intros s rs E; [injection E as <- <-; apply rtc_refl|].
  destruct (m25p80_transfer8 s b) as [[s1 r]|] eqn:E1; [|done]. cbn in E. destruct (xfer s1 l) as [[s2 rs2]|] eqn:E2; [|done]. cbn in E. injection E as <- <-.
  eapply rtc_l; [by eapply flash_transfer | by eapply IH].
Qed.
Lemma xfer_app s l1 l2 : xfer s (l1 ++ l2) = ('(s, r1) ← xfer s l1; '(s, r2) ← xfer s l2; Some (s, r1 ++ r2)).
Proof.
  revert s. induction l1 as [|b l IH]; cbn; intros s; [by destruct (xfer s l2) as [[]|]|].
  destruct (m25p80_transfer8 s b) as [[s1 r]|]; [|done]. cbn. rewrite IH. destruct (xfer s1 l) as [[s2 r2]|]; [|done]. cbn. by destruct (xfer s2 l2) as [[]|].
Qed.

Lemma xfer_cons_some f b f1 r l : m25p80_transfer8 f b = Some (f1, r) -> xfer f (b :: l) = ('(s, rs) ← xfer f1 l; Some (s, r :: rs)).
Proof. intros E. cbn. by rewrite E. Qed.
Lemma xfer_app_some f l1 f1 r1 l2 : xfer f l1 = Some (f1, r1) -> xfer f (l1 ++ l2) = ('(s, r2) ← xfer f1 l2; Some (s, r1 ++ r2)).
Proof. intros E. by rewrite xfer_app, E. Qed.

(** Two bytes programmed at the end of the third page: one is written back by the
    start of the fourth page, the other by the deselect. *)
Lemma m25p80_drive_in_step_witness :
  let s0 := m25p80_reset (m25p80_realize (Some (mkBlk (fun _ => 0xff) true))) in
  match xfer s0 [WREN; PP; 0; 2; 0xff; 0x12; 0x34] with
  | Some (s, _) => match m25p80_cs s true with
                   | Some s' => storage s' 0x300 = 0x34 /\ exists d, blk s' = Some d /\ bytes d 0x300 = storage s' 0x300
                   | None => False
                   end
  | None => False
  end.
Proof.
  cbv zeta. destruct (xfer _ _) as [[s r]|] eqn:E; [|vm_compute in E; discriminate E]. destruct (m25p80_cs s true) as [s'|] eqn:Ec.
  2:{ revert Ec. vm_compute in E. injection E as <- _. vm_compute. discriminate. }
  split; [revert Ec; vm_compute in E; injection E as <- _; intros E; vm_compute in E; injection E as <-; reflexivity|].
  destruct (m25p80_drive_in_step (mkBlk (fun _ => 0xff) true) s s') as (d & Hd & Hx); [by eapply xfer_steps | done|].
  exists d. split; [exact Hd|]. apply Hx. vm_compute. split; [discriminate | reflexivity].
Defined.

(** ** Transactions *)

(** The modes of the chip that a transaction relies on. *)
Record kept (f f' : Flash) : Prop := {
  kept_we : write_enable f' = write_enable f;
  kept_four : four_bytes_address_mode f' = four_bytes_address_mode f;
  kept_bp : block_protect_value f' = block_protect_value f;
  kept_data : zlen (data f') = zlen (data f);
}.
Lemma flash_kept_refl f : kept f f.
Proof. done. Qed.
Lemma flash_kept_trans f g h : kept f g -> kept g h -> kept f h.
Proof. intros [] []. split; congruence. Qed.

Lemma kept_state f g st : kept f g -> kept f (g <| state := st |>).
Proof. by intros []. Qed.

Record ready (f : Flash) : Prop := {
  ready_idle : state f = STATE_IDLE;
  ready_four : four_bytes_address_mode f = false;
  ready_data : zlen (data f) = 16;
}.
Lemma ready_kept f f' : ready f -> kept f f' -> state f' = STATE_IDLE -> ready f'.
Proof. intros [] [] ?. split; congruence. Qed.

Definition addr3 (a : Z) : list Z := [(a .>> 16) .& 0xFF; (a .>> 8) .& 0xFF; a .& 0xFF].

Lemma addr3_value e a : 0 <= a < flash_bytes ->
  (u32 ((u32 ((u32 (e .<< 8) .| ((a .>> 16) .& 0xFF)) .<< 8) .| ((a .>> 8) .& 0xFF)) .<< 8) .| (a .& 0xFF)) .& (flash_bytes - 1) = a.
Proof.
  intros Ha. change (flash_bytes - 1) with (Z.ones 23). change 0xFF with (Z.ones 8). change flash_bytes with (2 ^ 23) in Ha.
  apply Z.bits_inj'. intros i Hi. rewrite Z.land_spec, Z.lor_spec, Z.land_spec, testbit_wrap, !testbit_ones by lia.
  destruct (Z.ltb_spec i 23); [|by rewrite andb_false_r, (testbit_range 23 a) by lia]. rewrite andb_true_r.
  assert (Hlow : forall x k, k < 8 -> 0 <= k -> Z.testbit (x .<< 8) k = false) by (intros; apply Z.shiftl_spec_low; lia).
  destruct (Z.ltb_spec i 8); [rewrite Hlow by lia; by rewrite ?andb_false_r, ?andb_true_r|]. rewrite (proj2 (Z.ltb_lt i 32)) by lia. cbn [andb].
  rewrite ?andb_false_r, ?orb_false_r, Z.shiftl_spec, Z.lor_spec, testbit_wrap, Z.land_spec, testbit_ones, Z.shiftr_spec by lia. replace (i - 8 + 8) with i by lia.
  rewrite (proj2 (Z.ltb_lt (i - 8) 32)) by lia. cbn [andb]. destruct (Z.ltb_spec (i - 8) 8); [rewrite Hlow by lia; by rewrite ?andb_true_r|].
  rewrite ?andb_false_r, ?orb_false_r, Z.shiftl_spec, Z.lor_spec, testbit_wrap, Z.land_spec, testbit_ones, Z.shiftr_spec by lia. replace (i - 8 - 8 + 16) with i by lia.
  rewrite (proj2 (Z.ltb_lt (i - 8 - 8) 32)), (proj2 (Z.ltb_lt (i - 8 - 8) 8)), Hlow by lia. by rewrite andb_true_r.
Qed.

(** The chip after a command of three address bytes has been sent. *)
Definition addressed (f : Flash) (c a : Z) : Flash :=
  f <| cmd_in_progress := c |> <| reset_enable := false |> <| needed_bytes := 3 |> <| pos := 0 |> <| len := 3 |>
    <| data := (data f).[0 <- (a .>> 16) .& 0xFF].[1 <- (a .>> 8) .& 0xFF].[2 <- a .& 0xFF] |> <| cur_addr := a |> <| state := STATE_IDLE |>.

Lemma addressed_kept f c a : kept f (addressed f c a) /\ storage (addressed f c a) = storage f.
Proof. split; [|done]. split; try done. cbn. by rewrite !length_arr_set. Qed.

Lemma land_byte x : u8 (x .& 0xFF) = x .& 0xFF.
Proof. apply wrap_in_range, in_range_land_r; [lia|]. split; [lia | reflexivity]. Qed.

(** Resolves the tests on a command that is known. *)
Ltac known_cmd :=
  repeat match goal with
  | |- context [is_cmd ?c ?l] => is_closed c; let b := eval vm_compute in (is_cmd c l) in change (is_cmd c l) with b
  | |- context [?c =? ?d] => is_closed c; is_closed d; let b := eval vm_compute in (c =? d) in change (c =? d) with b
  end; cbv iota.

Definition addressed_cmds : list Z := [PP; QPP; READ; ERASE_4K; ERASE_32K; ERASE_SECTOR].

Lemma transfer_addressed_cmd f c : ready f -> c ∈ addressed_cmds ->
  m25p80_transfer8 f c = Some (collect (f <| cmd_in_progress := c |> <| reset_enable := false |>) 3, 0).
Proof.
  intros [Hi Hf _] Hc. destruct f. cbn in Hi, Hf. subst. unfold addressed_cmds in Hc.
  repeat (apply elem_of_cons in Hc as [->|Hc]; [reflexivity|]). by apply elem_of_nil in Hc.
Qed.

Definition taken (f : Flash) (b : Z) : Flash := f <| data := (data f).[len f <- b] |> <| len := len f + 1 |>.
Lemma transfer_collecting f b : state f = STATE_COLLECTING_DATA -> len f < 16 -> u8 b = b -> len f + 1 <> needed_bytes f ->
  m25p80_transfer8 f b = Some (taken f b, 0).
Proof.
  intros Hs Hl Hb Hn. unfold m25p80_transfer8. rewrite Hs, Hb, (proj2 (Z.leb_gt _ _)) by done. fold (taken f b). cbv zeta.
  change (len (taken f b)) with (len f + 1). change (needed_bytes (taken f b)) with (needed_bytes f). by rewrite (proj2 (Z.eqb_neq _ _)).
Qed.
Lemma transfer_collected f b : state f = STATE_COLLECTING_DATA -> len f < 16 -> u8 b = b -> len f + 1 = needed_bytes f ->
  m25p80_transfer8 f b = (f' ← complete_collecting_data (taken f b); Some (f', 0)).
Proof.
  intros Hs Hl Hb Hn. unfold m25p80_transfer8. rewrite Hs, Hb, (proj2 (Z.leb_gt _ _)) by done. fold (taken f b). cbv zeta.
  change (len (taken f b)) with (len f + 1). change (needed_bytes (taken f b)) with (needed_bytes f). by rewrite (proj2 (Z.eqb_eq _ _)).
Qed.

Lemma complete_addressed g c a f : c ∈ addressed_cmds -> collected_addr g = a -> g <| cur_addr := a |> <| state := STATE_IDLE |> = addressed f c a ->
  complete_collecting_data g =
    if is_cmd c [PP; QPP] then Some ((addressed f c a) <| state := STATE_PAGE_PROGRAM |>)
    else if c =? READ then Some ((addressed f c a) <| state := STATE_READ |>)
    else flash_erase (addressed f c a) a c.
Proof.
  intros Hc Ha Hg. unfold complete_collecting_data. rewrite Ha, Hg. cbv zeta. change (cmd_in_progress (addressed f c a)) with c. change (cur_addr (addressed f c a)) with a.
  unfold addressed_cmds in Hc. repeat (apply elem_of_cons in Hc as [->|Hc]; [known_cmd; reflexivity|]). by apply elem_of_nil in Hc.
Qed.

Lemma collected_three g a : cmd_in_progress g ∈ addressed_cmds -> four_bytes_address_mode g = false -> 0 <= a < flash_bytes ->
  (data g).[0] = (a .>> 16) .& 0xFF -> (data g).[1] = (a .>> 8) .& 0xFF -> (data g).[2] = a .& 0xFF -> collected_addr g = a.
Proof.
  intros Hc Hf Ha E0 E1 E2. assert (Hn : get_addr_length g = 3).
  { unfold get_addr_length. rewrite Hf. revert Hc. generalize (cmd_in_progress g). intros c Hc. unfold addressed_cmds in Hc.
    repeat (apply elem_of_cons in Hc as [->|Hc]; [by known_cmd|]). by apply elem_of_nil in Hc. }
  unfold collected_addr. rewrite Hn. change (seqZ 0 3) with [0; 1; 2]. cbn [foldl]. rewrite E0, E1, E2. by apply addr3_value.
Qed.

(** Three bytes to a chip that waits for them. *)
Lemma xfer_three g x y z : state g = STATE_COLLECTING_DATA -> len g = 0 -> needed_bytes g = 3 -> u8 x = x -> u8 y = y -> u8 z = z ->
  xfer g [x; y; z] = (f' ← complete_collecting_data (g <| data := (data g).[0 <- x].[1 <- y].[2 <- z] |> <| len := 3 |>); Some (f', [0; 0; 0])).
Proof.
  intros Hs Hl Hn Hx Hy Hz. assert (E : taken (taken (taken g x) y) z = g <| data := (data g).[0 <- x].[1 <- y].[2 <- z] |> <| len := 3 |>) by (destruct g; cbn in Hl; by subst).
  rewrite <- E. clear E. assert (E1 : len (taken g x) = 1) by (cbn; lia). assert (E2 : len (taken (taken g x) y) = 2) by (cbn; lia).
  assert (T1 : m25p80_transfer8 g x = Some (taken g x, 0)) by (apply transfer_collecting; try done; lia).
  assert (T2 : m25p80_transfer8 (taken g x) y = Some (taken (taken g x) y, 0)) by (apply transfer_collecting; try done; [lia | rewrite E1; cbn; lia]).
  rewrite (xfer_cons_some _ _ _ _ _ T1), (xfer_cons_some _ _ _ _ _ T2).
  assert (T3 : m25p80_transfer8 (taken (taken g x) y) z = (f' ← complete_collecting_data (taken (taken (taken g x) y) z); Some (f', 0)))
    by (apply transfer_collected; try done; [lia | rewrite E2; cbn; lia]).
  revert T3. generalize (taken (taken g x) y). clear. intros g1. generalize (taken g1 z). intros g2 T3. cbn [xfer]. rewrite T3. by destruct (complete_collecting_data g2).
Qed.

Definition asked (f : Flash) (c a : Z) : Flash :=
  let g := collect (f <| cmd_in_progress := c |> <| reset_enable := false |>) 3 in
  g <| data := (data g).[0 <- (a .>> 16) .& 0xFF].[1 <- (a .>> 8) .& 0xFF].[2 <- a .& 0xFF] |> <| len := 3 |>.
Lemma asked_addressed f c a : (asked f c a) <| cur_addr := a |> <| state := STATE_IDLE |> = addressed f c a.
Proof. by destruct f. Qed.
Lemma asked_addr f c a : ready f -> 0 <= a < flash_bytes -> c ∈ addressed_cmds -> collected_addr (asked f c a) = a.
Proof.
  intros [_ Hf Hd] Ha Hc. apply collected_three; [done | done | done|..]; unfold asked; cbn [data collect modify]; by rewrite !arr_get_set by (rewrite ?length_arr_set; lia).
Qed.

Lemma xfer_addressed f c a : ready f -> 0 <= a < flash_bytes -> c ∈ addressed_cmds ->
  xfer f (c :: addr3 a) = (f' ← (if is_cmd c [PP; QPP] then Some ((addressed f c a) <| state := STATE_PAGE_PROGRAM |>)
                                 else if c =? READ then Some ((addressed f c a) <| state := STATE_READ |>)
                                 else flash_erase (addressed f c a) a c); Some (f', [0; 0; 0; 0])).
Proof.
  intros Hr Ha Hc. rewrite <- (complete_addressed (asked f c a) c a f Hc (asked_addr f c a Hr Ha Hc) (asked_addressed f c a)).
  rewrite (xfer_cons_some _ _ _ _ _ (transfer_addressed_cmd f c Hr Hc)). unfold addr3. rewrite xfer_three by (done || apply land_byte). fold (asked f c a).
  by destruct (complete_collecting_data _).
Qed.

Lemma next_addr a : 0 <= a < flash_bytes -> (a + 1) .& (flash_bytes - 1) = (a + 1) mod flash_bytes.
Proof. intros _. change (flash_bytes - 1) with (Z.ones 23). by rewrite Z.land_ones by lia. Qed.

(** Reading goes on to the end of the storage. *)
Lemma xfer_read n f : state f = STATE_READ -> 0 <= cur_addr f -> cur_addr f + Z.of_nat n <= flash_bytes ->
  exists f', xfer f (replicate n 0) = Some (f', mem_load (storage f) (cur_addr f) (Z.of_nat n)) /\ kept f f' /\ storage f' = storage f /\ state f' = STATE_READ.
Proof.
  revert f. induction n as [|n IH]; intros f Hs H0 Hn; [by exists f|]. cbn [replicate].
  assert (E : m25p80_transfer8 f 0 = Some (f <| cur_addr := (cur_addr f + 1) .& (flash_bytes - 1) |>, storage f (cur_addr f))) by (unfold m25p80_transfer8; by rewrite Hs).
  rewrite (xfer_cons_some _ _ _ _ _ E). clear E. rewrite next_addr by lia. unfold mem_load. rewrite seqZ_S by lia. replace (Z.of_nat (S n) - 1) with (Z.of_nat n) by lia. cbn [map].
  destruct n as [|n]; [by eexists|]. rewrite Z.mod_small by lia. destruct (IH (f <| cur_addr := cur_addr f + 1 |>)) as (f' & -> & Hk & Hst & Hs'); [done | cbn; lia..|].
  exists f'. split; [done|]. split; [by destruct Hk | done].
Qed.

(** The content after the bytes [l] have been programmed at [a]. *)
Definition programmed (we : bool) (m : Z -> Z) (a : Z) (l : list Z) : Z -> Z :=
  fun x => if we && (a <=? x) && (x <? a + zlen l) then m x .& l.[x - a] else m x.

Lemma programmed_ext we m m' a l x : m x = m' x -> programmed we m a l x = programmed we m' a l x.
Proof. unfold programmed. by intros ->. Qed.
Lemma programmed_nil we m a x : programmed we m a [] x = m x.
Proof. unfold programmed. cbn [length]. destruct we; [|done]. cbn [andb]. destruct (Z.leb_spec a x), (Z.ltb_spec x (a + Z.of_nat 0)); try done. lia. Qed.
Lemma programmed_cons we m a b l x : programmed we (programmed we m a [b]) (a + 1) l x = programmed we m a (b :: l) x.
Proof.
  unfold programmed. destruct we; [|done]. cbn [andb length]. rewrite !Nat2Z.inj_succ.
  destruct (Z.leb_spec a x), (Z.leb_spec (a + 1) x), (Z.ltb_spec x (a + Z.succ (Z.of_nat 0))); cbn [andb]; try lia.
  - destruct (Z.ltb_spec x (a + 1 + zlen l)), (Z.ltb_spec x (a + Z.succ (zlen l))); cbn [andb]; try lia; try done.
    f_equal. unfold arr_get. replace (Z.to_nat (x - a)) with (S (Z.to_nat (x - (a + 1)))) by lia. done.
  - replace x with a by lia. rewrite (proj2 (Z.ltb_lt _ _)) by lia. by replace (a - a) with 0 by lia.
Qed.

Lemma write8_unprotected f v : block_protect_value f = 0 ->
  kept f (flash_write8 f (cur_addr f) v) /\ (forall x, storage (flash_write8 f (cur_addr f) v) x = programmed (write_enable f) (storage f) (cur_addr f) [v] x) /\
  state (flash_write8 f (cur_addr f) v) = state f /\ cur_addr (flash_write8 f (cur_addr f) v) = cur_addr f.
Proof.
  intros Hb. unfold flash_write8. rewrite Hb. change (0 <? 0) with false. cbn [andb]. destruct (write_enable f) eqn:Ew; [|done]. cbn [negb].
  set (f1 := f <| storage := _ |>). assert (Hk : kept f ((flash_sync_dirty f1 (cur_addr f / page_size)) <| dirty_page := cur_addr f / page_size |>) /\
    storage (flash_sync_dirty f1 (cur_addr f / page_size)) = storage f1 /\ state (flash_sync_dirty f1 (cur_addr f / page_size)) = state f /\ cur_addr (flash_sync_dirty f1 (cur_addr f / page_size)) = cur_addr f).
  { unfold flash_sync_dirty, flash_sync_page. destruct (_ && _); [|done]. destruct (blk f1) as [d|]; [|done]. by destruct (writable d). }
  destruct Hk as (Hk & Hs & H1 & H2). split; [done|]. split; [|done]. intros x. cbn [storage modify]. rewrite Hs. unfold f1. cbn [storage modify]. unfold programmed. cbn [andb length].
  change (Z.of_nat 1) with 1. zcases; try lia; try done. subst. by replace (cur_addr f - cur_addr f) with 0 by lia.
Qed.

Lemma transfer_program f b : state f = STATE_PAGE_PROGRAM -> block_protect_value f = 0 -> in_range 8 b ->
  exists f', m25p80_transfer8 f b = Some (f', 0) /\ kept f f' /\ (forall x, storage f' x = programmed (write_enable f) (storage f) (cur_addr f) [b] x) /\
    state f' = STATE_PAGE_PROGRAM /\ cur_addr f' = (cur_addr f + 1) mod flash_bytes.
Proof.
  intros Hs Hb Hr. unfold m25p80_transfer8. rewrite Hs, (wrap_in_range 8 b Hr). destruct (write8_unprotected f b Hb) as (Hk & Hst & Hs' & Hc).
  cbv zeta. set (f1 := flash_write8 f (cur_addr f) b) in *. clearbody f1. eexists. split; [done|]. split; [by destruct Hk|]. split; [done|]. split; [by rewrite <- Hs|].
  cbn [cur_addr modify]. rewrite Hc. change (flash_bytes - 1) with (Z.ones 23). by rewrite Z.land_ones by lia.
Qed.

Lemma xfer_program l f : state f = STATE_PAGE_PROGRAM -> block_protect_value f = 0 -> 0 <= cur_addr f < flash_bytes -> cur_addr f + zlen l <= flash_bytes -> Forall (in_range 8) l ->
  exists f' rs, xfer f l = Some (f', rs) /\ kept f f' /\ (forall x, storage f' x = programmed (write_enable f) (storage f) (cur_addr f) l x) /\
    state f' = STATE_PAGE_PROGRAM /\ cur_addr f' = (cur_addr f + zlen l) mod flash_bytes.
Proof.
  revert f. induction l as [|b l IH]; intros f Hs Hb H0 Hn Hl.
  { exists f, []. split; [done|]. split; [done|]. split; [intros x; by rewrite programmed_nil|]. split; [done|]. cbn. rewrite Z.add_0_r. symmetry. by apply Z.mod_small. }
  apply Forall_cons in Hl as [Hb8 Hl]. destruct (transfer_program f b Hs Hb Hb8) as (f1 & E & Hk & Hst & Hs1 & Hc1). rewrite (xfer_cons_some _ _ _ _ _ E). clear E.
  cbn [length] in Hn |- *. rewrite Nat2Z.inj_succ in *. destruct l as [|b' l].
  { exists f1, [0]. split; [done|]. split; [done|]. split; [done|]. split; [done|]. by rewrite Hc1. }
  cbn [length] in Hn. rewrite Nat2Z.inj_succ in Hn. rewrite Z.mod_small in Hc1 by lia. destruct Hk as [K1 K2 K3 K4].
  destruct (IH f1) as (f' & rs & E & Hk' & Hst' & Hs' & Hc'); [done | congruence | lia | cbn [length]; lia | done|]. rewrite E. exists f', (0 :: rs). split; [done|].
  split; [by apply (flash_kept_trans f f1)|]. split; [|split; [done|]].
  - intros x. rewrite Hst', Hc1, K1. etransitivity; [|apply programmed_cons]. apply programmed_ext, Hst.
  - rewrite Hc', Hc1. f_equal. lia.
Qed.

(** Commands that only answer: the chip stays in its transaction. *)
Definition reading_cmds : list Z := [READ; FAST_READ; DOR; QOR; DIOR; QIOR].
Definition listening (f : Flash) : Prop :=
  state f = STATE_READ \/ (state f = STATE_COLLECTING_DATA /\ cmd_in_progress f ∈ reading_cmds /\ 0 <= len f < needed_bytes f /\ needed_bytes f <= 16) \/
  (state f = STATE_READING_DATA /\ data_read_loop f = true /\ pos f = 0 /\ len f = 1).

Lemma complete_reading f : cmd_in_progress f ∈ reading_cmds -> complete_collecting_data f = Some (f <| cur_addr := collected_addr f |> <| state := STATE_READ |>).
Proof.
  unfold complete_collecting_data. cbv zeta. cbn [cmd_in_progress modify]. generalize (collected_addr f). intros a. destruct f. cbn [cmd_in_progress]. intros Hc. unfold reading_cmds in Hc.
  repeat (apply elem_of_cons in Hc as [->|Hc]; [known_cmd; reflexivity|]). by apply elem_of_nil in Hc.
Qed.

Lemma transfer_listening f b : listening f -> exists f' r, m25p80_transfer8 f b = Some (f', r) /\ listening f' /\ kept f f' /\ storage f' = storage f.
Proof.
  intros [Hs|[(Hs & Hc & Hl & Hn)|(Hs & Hd & Hp & Hl)]].
  - do 2 eexists. unfold m25p80_transfer8. rewrite Hs. split; [done|]. split; [by left | done].
  - unfold m25p80_transfer8. rewrite Hs, (proj2 (Z.leb_gt _ _)) by (unfold M25P80_INTERNAL_DATA_BUFFER_SZ; lia). fold (taken f (u8 b)). cbv zeta.
    change (len (taken f (u8 b))) with (len f + 1). change (needed_bytes (taken f (u8 b))) with (needed_bytes f). destruct (Z.eqb_spec (len f + 1) (needed_bytes f)).
    + rewrite complete_reading by done. do 2 eexists. split; [done|]. split; [by left|]. split; [split; try done; cbn; by rewrite length_arr_set | done].
    + do 2 eexists. split; [done|]. split; [right; left; cbn; repeat split; try done; lia|]. split; [split; try done; cbn; by rewrite length_arr_set | done].
  - unfold m25p80_transfer8. rewrite Hs, Hp. cbv zeta. cbn [pos len data_read_loop modify]. rewrite Hl. known_cmd. rewrite Hd.
    do 2 eexists. split; [done|]. split; [right; right; by repeat split | done].
Qed.

Definition quiet (f : Flash) (l : list Z) : Prop :=
  exists f' rs, xfer f l = Some (f', rs) /\ kept f f' /\ storage f' = storage f /\ state f' <> STATE_COLLECTING_VAR_LEN_DATA.

Lemma quiet_cons f b f1 r l : m25p80_transfer8 f b = Some (f1, r) -> kept f f1 -> storage f1 = storage f -> quiet f1 l -> quiet f (b :: l).
Proof.
  intros E Hk Hs (f' & rs & E' & Hk' & Hs' & Hn). exists f', (r :: rs). rewrite (xfer_cons_some _ _ _ _ _ E), E'. split; [done|]. split; [by apply (flash_kept_trans f f1)|]. split; [congruence | done].
Qed.
Lemma quiet_listening l f : listening f -> quiet f l.
Proof.
  revert f. induction l as [|b l IH]; intros f Hf.
  { exists f, []. split; [done|]. split; [done|]. split; [done|]. by destruct Hf as [->|[[-> _]|[-> _]]]. }
  destruct (transfer_listening f b Hf) as (f1 & r & E & H1 & Hk & Hs). by apply (quiet_cons f b f1 r l E Hk Hs), IH.
Qed.

Lemma quiet_read f c l : ready f -> c ∈ reading_cmds -> quiet f (c :: l).
Proof.
  intros [Hi Hf Hd] Hc. destruct (m25p80_transfer8 f c) as [[f1 r]|] eqn:E.
  - assert (kept f f1 /\ storage f1 = storage f /\ listening f1) as (Hk & Hs & Hl); [|by apply (quiet_cons f c f1 r l E Hk Hs), quiet_listening].
    unfold m25p80_transfer8 in E. rewrite Hi in E. unfold decode_new_cmd, decode_fast_read_cmd, decode_dio_read_cmd, decode_qio_read_cmd, get_addr_length in E.
    unfold reading_cmds in Hc. destruct f. cbn in Hi, Hf. subst.
    repeat (apply elem_of_cons in Hc as [->|Hc]; [vm_compute in E; injection E as <- <-; split; [done|]; split; [done|]; right; left; split; [done|]; split; [by apply (bool_decide_unpack _); vm_compute|]; cbn; lia|]).
    by apply elem_of_nil in Hc.
  - exfalso. unfold m25p80_transfer8 in E. rewrite Hi in E. unfold reading_cmds in Hc. destruct f. cbn in Hi, Hf. subst.
    repeat (apply elem_of_cons in Hc as [->|Hc]; [vm_compute in E; discriminate E|]). by apply elem_of_nil in Hc.
Qed.

Lemma quiet_status f l : ready f -> quiet f (RDSR :: l).
Proof.
  intros [Hi Hf Hd]. assert (E : m25p80_transfer8 f RDSR = Some ((answer (f <| cmd_in_progress := RDSR |> <| reset_enable := false |>) [status_register f] 1) <| data_read_loop := true |>, 0))
    by (unfold m25p80_transfer8; rewrite Hi; by destruct f).
  apply (quiet_cons f RDSR _ _ l E); [|done|].
  - split; try done. cbn. rewrite length_drop. lia.
  - apply quiet_listening. right. right. by repeat split.
Qed.

(** An answer of [len] bytes is read at most once. *)
Lemma quiet_answer n f : state f = STATE_READING_DATA -> 0 <= pos f -> pos f + Z.of_nat n <= len f <= 16 -> quiet f (replicate n 0).
Proof.
  revert f. induction n as [|n IH]; intros f Hs Hp Hl; [exists f, []; split; [done|]; split; [done|]; split; [done|]; by rewrite Hs|].
  cbn [replicate]. set (f1 := f <| pos := pos f + 1 |>).
  assert (E : m25p80_transfer8 f 0 = Some (if pos f + 1 =? len f then (if data_read_loop f then f1 <| pos := 0 |> else f1 <| pos := 0 |> <| state := STATE_IDLE |>) else f1, (data f).[pos f])).
  { unfold m25p80_transfer8. rewrite Hs, (proj2 (Z.leb_gt _ _)) by (unfold M25P80_INTERNAL_DATA_BUFFER_SZ; lia). done. }
  destruct (Z.eqb_spec (pos f + 1) (len f)) as [He|He].
  - assert (n = O) as -> by lia. apply (quiet_cons _ _ _ _ _ E); [by destruct (data_read_loop f)..|]. destruct (data_read_loop f); eexists _, []; (split; [done|]; split; [done|]; split; [done|]; cbn; by rewrite ?Hs).
  - apply (quiet_cons _ _ _ _ _ E); [done | done|]. apply IH; [done | cbn; lia..].
Qed.

Lemma quiet_jedec f n : ready f -> (n <= 6)%nat -> quiet f (JEDEC_READ :: replicate n 0).
Proof.
  intros [Hi Hf Hd] Hn. assert (E : m25p80_transfer8 f JEDEC_READ = Some (answer (f <| cmd_in_progress := JEDEC_READ |> <| reset_enable := false |>) (part_id ++ [0; 0; 0]) 6, 0))
    by (unfold m25p80_transfer8; rewrite Hi; by destruct f).
  apply (quiet_cons _ _ _ _ _ E); [|done | apply quiet_answer; [done | done | cbn; lia]]. split; try done. cbn. rewrite length_drop. lia.
Qed.

Lemma transfer_wren f c : state f = STATE_IDLE -> c ∈ [WREN; WRDI] ->
  m25p80_transfer8 f c = Some (f <| cmd_in_progress := c |> <| reset_enable := false |> <| write_enable := (c =? WREN) |>, 0).
Proof. intros Hi Hc. unfold m25p80_transfer8. rewrite Hi. destruct f. repeat (apply elem_of_cons in Hc as [->|Hc]; [done|]). by apply elem_of_nil in Hc. Qed.

(** The erase of an area that lies in the storage. *)
Definition erased (we : bool) (m : Z -> Z) (a n : Z) : Z -> Z := if we then memset m a 0xff n else m.

Lemma erase_inside f a c n : c <> DIE_ERASE -> erase_len c = Some n -> a + n <= flash_bytes ->
  exists f', flash_erase f a c = Some f' /\ kept f f' /\ storage f' = erased (write_enable f) (storage f) a n /\ state f' = state f.
Proof.
  intros Hc Hn Ha. unfold flash_erase. rewrite (proj2 (Z.eqb_neq _ _)), Hn by done. destruct (write_enable f) eqn:Ew; cbn [negb].
  - rewrite (proj2 (Z.ltb_ge _ _)) by done. unfold flash_sync_area. cbn [blk modify]. rewrite (erase_len_sectors c n Hn).
    destruct (blk f) as [d|]; [destruct (writable d)|]; by eexists.
  - by exists f.
Qed.

Lemma transfer_chip_erase f c : state f = STATE_IDLE -> c ∈ [BULK_ERASE; BULK_ERASE_60] ->
  exists f', m25p80_transfer8 f c = Some (f', 0) /\ kept f f' /\ storage f' = erased (write_enable f) (storage f) 0 flash_bytes /\ state f' = STATE_IDLE.
Proof.
  intros Hi Hc. set (f0 := f <| cmd_in_progress := c |> <| reset_enable := false |>).
  assert (E : m25p80_transfer8 f c = (f' ← (if write_enable f0 then flash_erase f0 0 BULK_ERASE else Some f0); Some (f', 0)))
    by (unfold m25p80_transfer8; rewrite Hi; repeat (apply elem_of_cons in Hc as [->|Hc]; [unfold decode_new_cmd; known_cmd; reflexivity|]); by apply elem_of_nil in Hc).
  rewrite E. destruct (erase_inside f0 0 BULK_ERASE flash_bytes) as (f' & E' & Hk & Hs & Ht); [done | done | lia|]. rewrite E'.
  change (write_enable f0) with (write_enable f) in *. destruct (write_enable f) eqn:Ew.
  - exists f'. split; [done|]. split; [by destruct Hk|]. split; [done|]. by rewrite Ht.
  - exists f0. split; [done|]. split; [done|]. split; [done | by rewrite <- Hi].
Qed.

Lemma deselected f : state f <> STATE_COLLECTING_VAR_LEN_DATA ->
  exists f', m25p80_cs f true = Some f' /\ kept f f' /\ storage f' = storage f /\ state f' = STATE_IDLE.
Proof.
  intros Hn. unfold m25p80_cs. rewrite decide_False by done. eexists. split; [done|]. unfold flash_sync_dirty, flash_sync_page. cbn [dirty_page blk modify].
  destruct (_ && _); [|done]. destruct (blk f) as [d|]; [|done]. by destruct (writable d).
Qed.
