(* ===== verification/FlexSpi.v ===== *)
(** * FlexSPI: the controller of the external NOR flash

    Model of [hw/misc/mcxn_flexspi.c]: the register file, the look-up table of SPI
    sequences, IP commands with their receive and transmit paths, and the mirror of
    the flash that backs the executable AHB window.  The controller is stated over
    any peripheral of its SSI bus; the content of the window is a function from
    offsets to bytes. *)
From S2P Require Import Prelude Ssi.

Definition FLEXSPI_MCR0 : Z := 0x00.
Definition FLEXSPI_INTEN : Z := 0x10.
Definition FLEXSPI_INTR : Z := 0x14.
Definition FLEXSPI_IPCR0 : Z := 0xA0.
Definition FLEXSPI_IPCR1 : Z := 0xA4.
Definition FLEXSPI_IPCMD : Z := 0xB0.
Definition FLEXSPI_IPRXFCR : Z := 0xB8.
Definition FLEXSPI_IPTXFCR : Z := 0xBC.
Definition FLEXSPI_STS0 : Z := 0xE0.
Definition FLEXSPI_STS1 : Z := 0xE4.
Definition FLEXSPI_STS2 : Z := 0xE8.
Definition FLEXSPI_AHBSPNDSTS : Z := 0xEC.
Definition FLEXSPI_IPRXFSTS : Z := 0xF0.
Definition FLEXSPI_IPTXFSTS : Z := 0xF4.
Definition FLEXSPI_RFDR0 : Z := 0x100.
Definition FLEXSPI_TFDR0 : Z := 0x180.
Definition FLEXSPI_LUT0 : Z := 0x200.
Definition MCR0_SWRESET : Z := bit 0.
Definition INTR_IPCMDDONE : Z := bit 0.
Definition INTR_IPCMDERR : Z := bit 3.
Definition INTR_IPRXWA : Z := bit 5.
Definition INTR_IPTXWE : Z := bit 6.
Definition IPCMD_TRG : Z := bit 0.
Definition STS0_ARBIDLE : Z := 0x2.
Definition STS0_SEQIDLE : Z := 0x1.
Definition MCR0_MDIS : Z := 0x2.
Definition FCR_CLRF : Z := bit 0.
Definition FCR_DMAEN : Z := bit 1.
Definition FCR_WMRK (v : Z) : Z := (v .>> 2) .& 0x7F.
Definition IPCR1_IDATSZ (v : Z) : Z := v .& 0xFFFF.
Definition IPCR1_ISEQID (v : Z) : Z := (v .>> 16) .& 0xF.
Definition LUT_OPCODE0 (v : Z) : Z := (v .>> 10) .& 0x3F.
Definition LUT_OPERAND0 (v : Z) : Z := v .& 0xFF.
Definition LUT_OPCODE1 (v : Z) : Z := (v .>> 26) .& 0x3F.
Definition LUT_OPERAND1 (v : Z) : Z := (v .>> 16) .& 0xFF.
Definition LUT_STOP : Z := 0x00.
Definition LUT_CMD : Z := 0x01.
Definition LUT_RADDR : Z := 0x02.
Definition LUT_WRITE : Z := 0x08.
Definition LUT_READ : Z := 0x09.
Definition LUT_DUMMY : Z := 0x0C.
Definition LUT_DDR : Z := 0x20.
Definition NOR_WREN : Z := 0x06.
Definition NOR_READ : Z := 0x03.
Definition NOR_PP : Z := 0x02.
Definition NOR_QPP : Z := 0x32.
Definition NOR_SE : Z := 0x20.
Definition NOR_BE32 : Z := 0x52.
Definition NOR_BE64 : Z := 0xD8.
Definition NOR_CE1 : Z := 0xC7.
Definition NOR_CE2 : Z := 0x60.
Definition MCXN_FLEXSPI_SIZE : Z := 0x1000.
Definition MCXN_NOR_PAGE : Z := 256.
Definition MCXN_NOR_SECTOR : Z := 0x1000.
Definition MCXN_NOR_BLOCK32 : Z := 0x8000.
Definition MCXN_NOR_BLOCK64 : Z := 0x10000.
Definition MCXN_FLEXSPI_XFER_MAX : Z := 4096.

(** A decoded LUT sequence. *)
Record FlexSPISeq := mkSeq { valid : bool; cmd : Z; addr_bits : Z; dummy_cycles : Z; has_read : bool; has_write : bool }.
#[export] Instance seq_settable : Settable FlexSPISeq := fun q => mkSeq (valid q) (cmd q) (addr_bits q) (dummy_cycles q) (has_read q) (has_write q).

Definition seq_add (q : FlexSPISeq) (op operand : Z) : FlexSPISeq :=
  let op := op .& .~ LUT_DDR in
  if op =? LUT_CMD then q <| cmd := operand |> <| valid := true |>
  else if op =? LUT_RADDR then q <| addr_bits := operand |>
  else if op =? LUT_DUMMY then q <| dummy_cycles := operand |>
  else if op =? LUT_READ then q <| has_read := true |>
  else if op =? LUT_WRITE then q <| has_write := true |>
  else q.

(** The instructions up to the first STOP. *)
Fixpoint seq_decode (q : FlexSPISeq) (l : list Z) : FlexSPISeq :=
  match l with
  | [] => q
  | lut :: l =>
      if LUT_OPCODE0 lut .& .~ LUT_DDR =? LUT_STOP then q
      else
        let q := seq_add q (LUT_OPCODE0 lut) (LUT_OPERAND0 lut) in
        if LUT_OPCODE1 lut .& .~ LUT_DDR =? LUT_STOP then q
        else seq_decode (seq_add q (LUT_OPCODE1 lut) (LUT_OPERAND1 lut)) l
  end.

(** How much of the mirror a modifying opcode invalidates. *)
Definition flexspi_dirty_range (cmd addr size : Z) : option (Z * Z) :=
  let align n := u32 (addr .& .~ (n - 1)) in
  if (cmd =? NOR_PP) || (cmd =? NOR_QPP) then Some (align MCXN_NOR_PAGE, MCXN_NOR_PAGE)
  else if cmd =? NOR_SE then Some (align MCXN_NOR_SECTOR, MCXN_NOR_SECTOR)
  else if cmd =? NOR_BE32 then Some (align MCXN_NOR_BLOCK32, MCXN_NOR_BLOCK32)
  else if cmd =? NOR_BE64 then Some (align MCXN_NOR_BLOCK64, MCXN_NOR_BLOCK64)
  else if (cmd =? NOR_CE1) || (cmd =? NOR_CE2) then Some (0, u32 size)
  else None.

Definition rst_flexspi0 : list (Z * Z) :=
  [(0x000, 0xFFFF8002); (0x004, 0xFFFFFFFF); (0x008, 0x200081F7); (0x00C, 0x00000018); (0x018, 0x5AF05AF0); (0x01C, 0x00000002);
   (0x094, 0x000000C3); (0x0E0, 0x00000002); (0x0E8, 0x01000100); (0x500, 0x55555555); (0x504, 0xAAAAAAAA)].

(** [nor] is the RAM behind the AHB window, [spi] the peripheral on the bus, whose
    chip select is the line [cs] of the device; [flash_size] is a property. *)
Record MCXNFlexSPIState {P : Type} := mkFlexSPI {
  nor : Z -> Z;
  irq : bool;
  dma_req_rx : bool;
  dma_req_tx : bool;
  rx_dma_lvl : bool;
  tx_dma_lvl : bool;
  regs : list Z;
  flash_size : Z;
  spi : SSIPeripheral P;
  loader_flushed : bool;
  rx_buf : list Z;
  rx_len : Z;
  rx_pos : Z;
  tx_len : Z;
  pgm_pending : bool;
  pgm_addr : Z;
  pgm_len : Z
}.
Arguments MCXNFlexSPIState P : clear implicits.
#[export] Instance flexspi_settable P : Settable (MCXNFlexSPIState P) := fun s => mkFlexSPI P (nor s) (irq s) (dma_req_rx s) (dma_req_tx s) (rx_dma_lvl s) (tx_dma_lvl s)
  (regs s) (flash_size s) (spi s) (loader_flushed s) (rx_buf s) (rx_len s) (rx_pos s) (tx_len s) (pgm_pending s) (pgm_addr s) (pgm_len s).

Section flexspi.
Context {P : Type} `{SSIPeripheralClass P}.

Definition reg (s : MCXNFlexSPIState P) (off : Z) : Z := (regs s).[off .>> 2].
Definition set_reg (s : MCXNFlexSPIState P) (off v : Z) : MCXNFlexSPIState P := s <| regs := (regs s).[off .>> 2 <- v] |>.

Definition nor_off (s : MCXNFlexSPIState P) (addr : Z) : Z := if flash_size s =? 0 then 0 else addr .& u32 (flash_size s - 1).
Definition mcxn_flexspi_update_irq (s : MCXNFlexSPIState P) : MCXNFlexSPIState P := s <| irq := flag (reg s FLEXSPI_INTR) (reg s FLEXSPI_INTEN) |>.
Definition flexspi_done (s : MCXNFlexSPIState P) : MCXNFlexSPIState P := mcxn_flexspi_update_irq (set_reg s FLEXSPI_INTR (reg s FLEXSPI_INTR .| INTR_IPCMDDONE)).
Definition flexspi_error (s : MCXNFlexSPIState P) : MCXNFlexSPIState P := mcxn_flexspi_update_irq (set_reg s FLEXSPI_INTR (reg s FLEXSPI_INTR .| INTR_IPCMDERR .| INTR_IPCMDDONE)).

(** ** The SPI side *)

Definition spi_select (s : MCXNFlexSPIState P) (on : bool) : MCXNFlexSPIState P := s <| spi := ssi_cs_default (spi s) (negb on) |>.
Definition spi_transfer (s : MCXNFlexSPIState P) (v : Z) : MCXNFlexSPIState P * Z :=
  match ssi_transfer [spi s] v with
  | (d :: _, r) => (s <| spi := d |>, r)
  | ([], r) => (s, r)
  end.
Definition spi_send (s : MCXNFlexSPIState P) (l : list Z) : MCXNFlexSPIState P := foldl (fun s v => (spi_transfer s v).1) s l.
Fixpoint spi_recv (s : MCXNFlexSPIState P) (n : nat) : MCXNFlexSPIState P * list Z :=
  match n with
  | O => (s, [])
  | S n => let '(s, r) := spi_transfer s 0 in let '(s, rs) := spi_recv s n in (s, u8 r :: rs)
  end.
Definition addr_bytes (addr bits : Z) : list Z := map (fun i => (addr .>> (i * 8)) .& 0xFF) (reverse (seqZ 0 (bits / 8))).
Definition spi_send_addr (s : MCXNFlexSPIState P) (addr bits : Z) : MCXNFlexSPIState P := spi_send s (addr_bytes addr bits).

Definition nor_read (s : MCXNFlexSPIState P) (off len : Z) : MCXNFlexSPIState P * list Z :=
  let s := spi_select s true in
  let s := spi_send s [NOR_READ] in
  let s := spi_send_addr s off 24 in
  let '(s, buf) := spi_recv s (Z.to_nat len) in
  (spi_select s false, buf).

Definition mirror_resync (s : MCXNFlexSPIState P) (off len : Z) : MCXNFlexSPIState P :=
  if flash_size s <=? off then s
  else
    let len := Z.min len (u32 (flash_size s - off)) in
    let '(s, buf) := nor_read s off len in
    s <| nor := mem_store (nor s) off buf |>.

Definition nor_program_page (s : MCXNFlexSPIState P) (off : Z) (data : list Z) : MCXNFlexSPIState P :=
  let s := spi_select (spi_send (spi_select s true) [NOR_WREN]) false in
  let s := spi_send (spi_select s true) [NOR_PP] in
  let s := spi_send (spi_send_addr s off 24) data in
  spi_select s false.

(** The image the ROM loader put into the window is programmed into the flash. *)
Definition flush_page (s : MCXNFlexSPIState P) (off : Z) : MCXNFlexSPIState P :=
  let page := mem_load (nor s) off MCXN_NOR_PAGE in
  if forallb (Z.eqb 0xFF) page then s else nor_program_page s off page.
Definition flexspi_flush_loader_image (s : MCXNFlexSPIState P) : MCXNFlexSPIState P :=
  foldl flush_page (s <| loader_flushed := true |>) (map (Z.mul MCXN_NOR_PAGE) (seqZ 0 (flash_size s / MCXN_NOR_PAGE))).

(** ** IP commands *)

Definition flexspi_decode_lut (s : MCXNFlexSPIState P) (seq : Z) : FlexSPISeq :=
  seq_decode (mkSeq false 0 0 0 false false) (map (fun i => (regs s).[(FLEXSPI_LUT0 .>> 2) + seq * 4 + i]) (seqZ 0 4)).

Definition flexspi_finish (s : MCXNFlexSPIState P) (cmd addr : Z) : MCXNFlexSPIState P :=
  let s := spi_select s false in
  let s := match flexspi_dirty_range cmd addr (flash_size s) with Some (off, len) => mirror_resync s off len | None => s end in
  let s := s <| pgm_pending := false |> in
  flexspi_done (set_reg s FLEXSPI_INTR (reg s FLEXSPI_INTR .& u32 (.~ INTR_IPTXWE))).

Definition flexspi_update_dma_req (s : MCXNFlexSPIState P) : MCXNFlexSPIState P :=
  let rx := (rx_pos s <? rx_len s) && flag (reg s FLEXSPI_IPRXFCR) FCR_DMAEN in
  let tx := flag (reg s FLEXSPI_INTR) INTR_IPTXWE && flag (reg s FLEXSPI_IPTXFCR) FCR_DMAEN in
  let s := if negb (Bool.eqb rx (rx_dma_lvl s)) then s <| rx_dma_lvl := rx |> <| dma_req_rx := rx |> else s in
  if negb (Bool.eqb tx (tx_dma_lvl s)) then s <| tx_dma_lvl := tx |> <| dma_req_tx := tx |> else s.

(** The data phase of a read command. *)
Definition flexspi_read_phase (s : MCXNFlexSPIState P) (datsz : Z) : MCXNFlexSPIState P :=
  let '(s, buf) := spi_recv s (Z.to_nat datsz) in
  let s := s <| rx_buf := buf ++ drop (length buf) (rx_buf s) |> <| rx_len := datsz |> in
  if datsz =? 0 then s else set_reg s FLEXSPI_INTR (reg s FLEXSPI_INTR .| INTR_IPRXWA).

Definition flexspi_ip_command (s : MCXNFlexSPIState P) : MCXNFlexSPIState P :=
  let ipcr1 := reg s FLEXSPI_IPCR1 in
  let datsz := IPCR1_IDATSZ ipcr1 in
  let addr := nor_off s (reg s FLEXSPI_IPCR0) in
  let q := flexspi_decode_lut s (IPCR1_ISEQID ipcr1) in
  let s := s <| tx_len := 0 |> <| rx_pos := 0 |> <| rx_len := 0 |> in
  let s := set_reg s FLEXSPI_INTR (reg s FLEXSPI_INTR .& u32 (.~ (INTR_IPRXWA .| INTR_IPTXWE))) in
  if negb (valid q) then flexspi_error s
  else if MCXN_FLEXSPI_XFER_MAX <? datsz then flexspi_error s
  else
    let s := if loader_flushed s then s else flexspi_flush_loader_image s in
    let s := spi_send (spi_select s true) [cmd q] in
    let s := if addr_bits q =? 0 then s else spi_send_addr s addr (addr_bits q) in
    let s := spi_send s (replicate (Z.to_nat (dummy_cycles q / 8)) 0) in
    if has_read q then flexspi_update_dma_req (flexspi_finish (flexspi_read_phase s datsz) (cmd q) addr)
    else if has_write q && negb (datsz =? 0) then
      let s := s <| pgm_pending := true |> <| pgm_addr := addr |> <| pgm_len := datsz |> in
      flexspi_update_dma_req (mcxn_flexspi_update_irq (set_reg s FLEXSPI_INTR (reg s FLEXSPI_INTR .| INTR_IPTXWE)))
    else flexspi_finish s (cmd q) addr.

(** ** Register accesses *)

Definition rfdr_value (s : MCXNFlexSPIState P) (i : Z) : Z :=
  let byte := rx_pos s + i * 4 in
  if byte + 4 <=? rx_len s then le_load (slice byte 4 (rx_buf s))
  else if byte <? rx_len s then le_load (slice byte (rx_len s - byte) (rx_buf s) ++ replicate (Z.to_nat (4 - (rx_len s - byte))) 0xFF)
  else 0xFFFFFFFF.

Definition mcxn_flexspi_read (s : MCXNFlexSPIState P) (off : Z) : MCXNFlexSPIState P * Z :=
  let v := if off <? MCXN_FLEXSPI_SIZE then reg s off else 0 in
  if off =? FLEXSPI_MCR0 then (s, v .& u32 (.~ MCR0_SWRESET))
  else if off =? FLEXSPI_STS0 then (s, STS0_ARBIDLE .| (if flag (reg s FLEXSPI_MCR0) MCR0_MDIS then 0 else STS0_SEQIDLE))
  else if off =? FLEXSPI_STS2 then (s, reg s FLEXSPI_STS2)
  else if existsb (Z.eqb off) [FLEXSPI_STS1; FLEXSPI_AHBSPNDSTS; FLEXSPI_IPTXFSTS] then (s, 0)
  else if off =? FLEXSPI_IPRXFSTS then (s, (u32 (u32 (rx_len s - rx_pos s) + 7) / 8) .& 0xFF)
  else if (FLEXSPI_RFDR0 <=? off) && (off <? FLEXSPI_RFDR0 + 32 * 4) then
    let i := (off - FLEXSPI_RFDR0) / 4 in
    let ret := rfdr_value s i in
    (if (i =? 0) && flag (reg s FLEXSPI_IPRXFCR) FCR_DMAEN && (rx_pos s <? rx_len s) then
       let s := s <| rx_pos := rx_pos s + 4 |> in
       let s := if rx_len s <=? rx_pos s then mcxn_flexspi_update_irq (set_reg s FLEXSPI_INTR (reg s FLEXSPI_INTR .& u32 (.~ INTR_IPRXWA))) else s in
       flexspi_update_dma_req s
     else s, ret)
  else (s, v).

(** The four bytes of a word, as far as the program wants them. *)
Fixpoint tfdr_feed (s : MCXNFlexSPIState P) (val : Z) (l : list Z) : MCXNFlexSPIState P :=
  match l with
  | [] => s
  | i :: l =>
      if tx_len s <? pgm_len s then
        let s := (spi_transfer s ((val .>> (i * 8)) .& 0xFF)).1 in
        tfdr_feed (s <| tx_len := tx_len s + 1 |>) val l
      else s
  end.
Definition flexspi_write_tfdr (s : MCXNFlexSPIState P) (val : Z) : MCXNFlexSPIState P :=
  if pgm_pending s then
    let s := tfdr_feed s val (seqZ 0 4) in
    let s := if pgm_len s <=? tx_len s then
               let s := flexspi_finish s NOR_PP (pgm_addr s) in
               mcxn_flexspi_update_irq (set_reg s FLEXSPI_INTR (reg s FLEXSPI_INTR .& u32 (.~ INTR_IPTXWE)))
             else s in
    flexspi_update_dma_req s
  else s.

Definition flexspi_write_intr (s : MCXNFlexSPIState P) (val : Z) : MCXNFlexSPIState P :=
  let s := if flag val INTR_IPRXWA then s <| rx_pos := Z.min (rx_pos s + (FCR_WMRK (reg s FLEXSPI_IPRXFCR) + 1) * 8) (rx_len s) |> else s in
  let s := set_reg s FLEXSPI_INTR (reg s FLEXSPI_INTR .& u32 (.~ val)) in
  let s := if rx_pos s <? rx_len s then set_reg s FLEXSPI_INTR (reg s FLEXSPI_INTR .| INTR_IPRXWA) else s in
  let s := if pgm_pending s && (tx_len s <? pgm_len s) then set_reg s FLEXSPI_INTR (reg s FLEXSPI_INTR .| INTR_IPTXWE) else s in
  flexspi_update_dma_req (mcxn_flexspi_update_irq s).

Definition mcxn_flexspi_write (s : MCXNFlexSPIState P) (off value : Z) : MCXNFlexSPIState P :=
  let val := u32 value in
  if MCXN_FLEXSPI_SIZE <=? off then s
  else if existsb (Z.eqb off) [FLEXSPI_STS0; FLEXSPI_STS1; FLEXSPI_STS2; FLEXSPI_AHBSPNDSTS; FLEXSPI_IPRXFSTS; FLEXSPI_IPTXFSTS] then s
  else if off =? FLEXSPI_MCR0 then set_reg s off (val .& u32 (.~ MCR0_SWRESET))
  else if off =? FLEXSPI_INTR then flexspi_write_intr s val
  else if off =? FLEXSPI_INTEN then mcxn_flexspi_update_irq (set_reg s off val)
  else if off =? FLEXSPI_IPRXFCR then
    let s := set_reg s off (val .& u32 (.~ FCR_CLRF)) in
    let s := if flag val FCR_CLRF then
               let s := s <| rx_pos := 0 |> <| rx_len := 0 |> in
               set_reg s FLEXSPI_INTR (reg s FLEXSPI_INTR .& u32 (.~ INTR_IPRXWA))
             else s in
    flexspi_update_dma_req s
  else if off =? FLEXSPI_IPTXFCR then
    let s := set_reg s off (val .& u32 (.~ FCR_CLRF)) in
    let s := if flag val FCR_CLRF && negb (pgm_pending s) then s <| tx_len := 0 |> else s in
    flexspi_update_dma_req s
  else if off =? FLEXSPI_IPCMD then if flag val IPCMD_TRG then flexspi_ip_command s else s
  else if (FLEXSPI_RFDR0 <=? off) && (off <? FLEXSPI_RFDR0 + 32 * 4) then s
  else if (FLEXSPI_TFDR0 <=? off) && (off <? FLEXSPI_TFDR0 + 32 * 4) then flexspi_write_tfdr s val
  else set_reg s off val.

(** A store of the CPU into the window. *)
Definition mcxn_flexspi_nor_write (s : MCXNFlexSPIState P) (off val : Z) : MCXNFlexSPIState P := s.

Definition mcxn_flexspi_reset (s : MCXNFlexSPIState P) : MCXNFlexSPIState P :=
  let r := (replicate (Z.to_nat (MCXN_FLEXSPI_SIZE / 4)) 0).[0x0E8 / 4 <- 0x01000100] in
  s <| regs := foldl (fun r e => r.[e.1 / 4 <- e.2]) r rst_flexspi0 |> <| rx_len := 0 |> <| rx_pos := 0 |> <| tx_len := 0 |> <| pgm_pending := false |>
    <| pgm_addr := 0 |> <| pgm_len := 0 |> <| rx_dma_lvl := false |> <| tx_dma_lvl := false |> <| dma_req_rx := false |> <| dma_req_tx := false |>.

Definition mcxn_flexspi_post_load (s : MCXNFlexSPIState P) : MCXNFlexSPIState P := mcxn_flexspi_update_irq s.
End flexspi.
