(* ===== verification/FlexSpiNor.v ===== *)
(** * The external flash as the guest sees it

    The FlexSPI controller ([FlexSpi]) with the W25Q64 on its bus ([M25p80]) as one
    memory: a content, a write-enable latch and at most one page program in flight.
    The AHB window is a mirror of the flash that the controller keeps in step; what
    the ROM loader ([hw/core/loader.c]) writes into it at a reset stays visible until
    a command refreshes it. *)
From S2P Require Import Prelude Ssi M25p80 FlexSpi.

Definition dev (lvl : bool) (f : Flash) : SSIPeripheral (option Flash) := mkPeripheral _ lvl (Some f).
Definition Board : Type := MCXNFlexSPIState (option Flash).

(** ** The bus *)

Definition put (s : Board) (lvl : bool) (f : Flash) : Board := s <| spi := dev lvl f |>.
Lemma put_put s a f b g : put (put s a f) b g = put s b g.
Proof. done. Qed.
Lemma put_spi s a f : spi (put s a f) = dev a f.
Proof. done. Qed.
Lemma put_same s a f : spi s = dev a f -> put s a f = s.
Proof. unfold put. intros <-. by destruct s. Qed.

Lemma spi_transfer_on (s : Board) f v f' r : spi s = dev false f -> m25p80_transfer8 f v = Some (f', r) -> spi_transfer s v = (put s false f', r).
Proof. intros Hs E. unfold spi_transfer, ssi_transfer. rewrite Hs. cbn. rewrite E. cbn. by rewrite Z.lor_0_r. Qed.

Lemma spi_send_on l (s : Board) f f' rs : spi s = dev false f -> xfer f l = Some (f', rs) -> spi_send s l = put s false f'.
Proof.
  revert s f rs. induction l as [|b l IH]; intros s f rs Hs E; [cbn in E; injection E as <- <-; symmetry; by apply put_same|].
  cbn [xfer] in E. destruct (m25p80_transfer8 f b) as [[f1 r]|] eqn:E1; [|done]. cbn in E. destruct (xfer f1 l) as [[f2 rs2]|] eqn:E2; [|done]. cbn in E. injection E as <- <-.
  unfold spi_send. cbn [foldl]. rewrite (spi_transfer_on s f b f1 r Hs E1). cbn [fst]. fold (spi_send (put s false f1) l). by rewrite (IH _ f1 rs2).
Qed.

Lemma spi_send_app (s : Board) l1 l2 : spi_send (spi_send s l1) l2 = spi_send s (l1 ++ l2).
Proof. symmetry. apply foldl_app. Qed.

Lemma spi_recv_on n (s : Board) f f' rs : spi s = dev false f -> xfer f (replicate n 0) = Some (f', rs) -> spi_recv s n = (put s false f', map (wrap 8) rs).
Proof.
  revert s f rs. induction n as [|n IH]; intros s f rs Hs E; [cbn in E; injection E as <- <-; by rewrite put_same|].
  cbn [replicate xfer] in E. destruct (m25p80_transfer8 f 0) as [[f1 r]|] eqn:E1; [|done]. cbn in E. destruct (xfer f1 _) as [[f2 rs2]|] eqn:E2; [|done]. cbn in E. injection E as <- <-.
  cbn [spi_recv]. rewrite (spi_transfer_on s f 0 f1 r Hs E1), (IH _ f1 rs2) by done. done.
Qed.

Lemma select_on (s : Board) lvl f : spi s = dev lvl f -> spi_select s true = put s false f.
Proof. intros Hs. unfold spi_select, ssi_cs_default. rewrite Hs. by destruct lvl. Qed.
Lemma deselect_on (s : Board) f f' : spi s = dev false f -> m25p80_cs f true = Some f' -> spi_select s false = put s true f'.
Proof. intros Hs E. unfold spi_select, ssi_cs_default. rewrite Hs. transitivity (s <| spi := mkPeripheral _ true (m25p80_cs f true) |>); [done | by rewrite E]. Qed.

Lemma addr_bytes_24 a : addr_bytes a 24 = addr3 a.
Proof. unfold addr_bytes. change (reverse (seqZ 0 (24 / 8))) with [2; 1; 0]. cbn [map]. unfold addr3. change (2 * 8) with 16. change (1 * 8) with 8. change (0 * 8) with 0. by rewrite Z.shiftr_0_r. Qed.

(** A chip that waits for a command, unprotected. *)
Record chip (f : Flash) : Prop := {
  chip_ready : ready f;
  chip_bp : block_protect_value f = 0;
  chip_bytes : forall x, in_range 8 (storage f x);
}.
Lemma chip_step f f' : chip f -> kept f f' -> state f' = STATE_IDLE -> (forall x, in_range 8 (storage f' x)) -> chip f'.
Proof. intros [Hr Hb _] Hk Hs Hx. split; [by apply (ready_kept f) | destruct Hk; congruence | done]. Qed.

Lemma map_wrap_id l : Forall (in_range 8) l -> map (wrap 8) l = l.
Proof. induction 1 as [|b l Hb _ IH]; cbn; [done|]. by rewrite IH, wrap_in_range. Qed.
Lemma mem_load_range m a n : (forall x, in_range 8 (m x)) -> Forall (in_range 8) (mem_load m a n).
Proof. intros Hm. unfold mem_load. apply Forall_forall. intros b Hb. apply list_elem_of_In, in_map_iff in Hb as (x & <- & _). apply Hm. Qed.

Lemma nor_read_on (s : Board) lvl f off n : spi s = dev lvl f -> chip f -> 0 <= off < flash_bytes -> 0 <= n -> off + n <= flash_bytes ->
  exists f', nor_read s off n = (put s true f', mem_load (storage f) off n) /\ chip f' /\ kept f f' /\ storage f' = storage f.
Proof.
  intros Hs Hf Ho Hn Hb. pose proof (chip_ready f Hf) as Hr. unfold nor_read, spi_send_addr. rewrite (select_on s lvl f Hs), addr_bytes_24.
  assert (Ha : xfer f (READ :: addr3 off) = Some ((addressed f READ off) <| state := STATE_READ |>, [0; 0; 0; 0])) by (rewrite xfer_addressed by (done || unfold addressed_cmds; set_solver); by known_cmd).
  set (f1 := (addressed f READ off) <| state := STATE_READ |>) in *. destruct (addressed_kept f READ off) as [Hk1 Hs1].
  assert (E : spi_send (spi_send (put s false f) [NOR_READ]) (addr3 off) = put s false f1).
  { rewrite spi_send_app. by rewrite (spi_send_on _ _ f f1 [0; 0; 0; 0]). }
  cbv zeta. rewrite E. clear E. destruct (xfer_read (Z.to_nat n) f1) as (f2 & E & Hk2 & Hs2 & Ht2); [done | cbn; lia | change (cur_addr f1) with off; lia|].
  rewrite (spi_recv_on _ (put s false f1) f1 f2 _ (put_spi _ _ _) E). change (cur_addr f1) with off. change (storage f1) with (storage f) in *. rewrite Z2Nat.id, map_wrap_id by (done || apply mem_load_range, Hf).
  destruct (deselected f2) as (f3 & E3 & Hk3 & Hs3 & Ht3); [by rewrite Ht2|]. rewrite put_put, (deselect_on (put s false f2) f2 f3 (put_spi _ _ _) E3). exists f3. split; [done|].
  assert (Hk : kept f f3) by (apply (flash_kept_trans f f1); [exact (kept_state _ _ _ Hk1) | by apply (flash_kept_trans f1 f2)]). split; [|split; [done | congruence]].
  apply (chip_step f); [done | done | done|]. rewrite Hs3, Hs2. apply Hf.
Qed.

(** ** The mirror *)

Lemma mem_store_load m k off n x : 0 <= n -> mem_store m off (mem_load k off n) x = if (off <=? x) && (x <? off + n) then k x else m x.
Proof.
  intros Hn. unfold mem_store. pose proof (length_mem_load k off n) as Hl. rewrite Z.max_r in Hl by done. rewrite Hl.
  destruct (Z.leb_spec off x), (Z.ltb_spec x (off + n)); cbn [andb]; try done. unfold mem_load, arr_get. apply list_lookup_total_correct.
  rewrite list_lookup_fmap, lookup_seqZ_lt by lia. cbn. f_equal. f_equal. lia.
Qed.

(** What a resync leaves in the window. *)
Definition mirrored (m k : Z -> Z) (off n : Z) : Z -> Z := copy_range k m off n.

Lemma mirror_resync_on (s : Board) lvl f off n : spi s = dev lvl f -> chip f -> 0 <= flash_size s <= flash_bytes -> 0 <= off -> 0 <= n ->
  exists lvl' f' m, mirror_resync s off n = (put s lvl' f') <| nor := m |> /\ chip f' /\ kept f f' /\ storage f' = storage f /\
    (forall x, x < flash_size s -> m x = mirrored (nor s) (storage f) off n x) /\ (forall x, in_range 8 (nor s x) -> in_range 8 (m x)).
Proof.
  intros Hs Hf Hz Ho Hn. unfold mirror_resync. destruct (Z.leb_spec (flash_size s) off).
  { exists lvl, f, (nor s). rewrite (put_same s lvl f Hs). split; [by destruct s|]. split; [done|]. split; [done|]. split; [done|]. split; [|done].
    intros x Hx. unfold mirrored. by rewrite copy_range_out by lia. }
  change flash_bytes with (2 ^ 23) in *. rewrite (wrap_id 32) by lia. destruct (nor_read_on s lvl f off (Z.min n (flash_size s - off)) Hs Hf) as (f' & -> & Hf' & Hk & Hst); [change flash_bytes with (2 ^ 23); lia..|].
  cbv zeta. do 3 eexists. split; [done|]. split; [done|]. split; [done|]. split; [done|]. change (nor (put s true f')) with (nor s). split; intros x Hx; rewrite mem_store_load by lia.
  - unfold mirrored, copy_range. zcases; try done; lia.
  - destruct (_ && _); [apply Hf | done].
Qed.

(** ** The loader's image *)

Lemma programmed_range we m a l x : in_range 8 (m x) -> in_range 8 (programmed we m a l x).
Proof. intros Hm. unfold programmed. destruct (_ && _ && _); [|done]. by apply in_range_land_l. Qed.

Lemma program_page_on (s : Board) lvl f off l : spi s = dev lvl f -> chip f -> 0 <= off < flash_bytes -> off + zlen l <= flash_bytes -> Forall (in_range 8) l ->
  exists f', nor_program_page s off l = put s true f' /\ chip f' /\ write_enable f' = true /\ forall x, storage f' x = programmed true (storage f) off l x.
Proof.
  intros Hs Hf Ho Hb Hl. unfold nor_program_page, spi_send_addr. cbv zeta. rewrite (select_on s lvl f Hs), addr_bytes_24.
  pose proof (transfer_wren f WREN (ready_idle f (chip_ready f Hf)) ltac:(set_solver)) as E0. set (f0 := f <| cmd_in_progress := WREN |> <| reset_enable := false |> <| write_enable := (WREN =? WREN) |>) in *.
  assert (X0 : xfer f [NOR_WREN] = Some (f0, [0])) by (exact (xfer_cons_some f WREN f0 0 [] E0)). rewrite (spi_send_on _ _ f f0 [0] (put_spi _ _ _) X0), put_put.
  assert (Hi0 : state f0 = STATE_IDLE) by apply Hf. destruct (deselected f0) as (f1 & E1 & Hk1 & Hs1 & Hi1); [by rewrite Hi0|]. rewrite (deselect_on _ f0 f1 (put_spi _ _ _) E1), put_put.
  rewrite (select_on _ true f1 (put_spi _ _ _)), put_put. assert (Hf1 : chip f1).
  { destruct Hk1 as [K1 K2 K3 K4]. destruct Hf as [[R1 R2 R3] B1 B2]. split; [split; [done | by rewrite K2 | by rewrite K4] | by rewrite K3 | by rewrite Hs1]. }
  assert (Ew : write_enable f1 = true) by (by rewrite (kept_we _ _ Hk1)). pose proof (chip_ready f1 Hf1) as Hr1.
  assert (Ha : xfer f1 (PP :: addr3 off) = Some ((addressed f1 PP off) <| state := STATE_PAGE_PROGRAM |>, [0; 0; 0; 0])) by (rewrite xfer_addressed by (done || unfold addressed_cmds; set_solver); by known_cmd).
  set (f2 := (addressed f1 PP off) <| state := STATE_PAGE_PROGRAM |>) in *. destruct (addressed_kept f1 PP off) as [Hk2 _].
  destruct (xfer_program l f2) as (f3 & rs & E3 & Hk3 & Hs3 & Hi3 & _); [done | change (block_protect_value f1 = 0); apply Hf1 | done | done | done|].
  assert (E : spi_send (spi_send (spi_send (put s false f1) [NOR_PP]) (addr3 off)) l = put s false f3).
  { rewrite !spi_send_app, app_assoc.
    rewrite (spi_send_on _ _ f1 f3 ([0; 0; 0; 0] ++ rs)) by (done || (change ([NOR_PP] ++ addr3 off) with (PP :: addr3 off); rewrite (xfer_app_some _ _ _ _ _ Ha), E3; done)). done. }
  rewrite E. clear E. destruct (deselected f3) as (f4 & E4 & Hk4 & Hs4 & Hi4); [by rewrite Hi3|]. rewrite (deselect_on _ f3 f4 (put_spi _ _ _) E4), put_put.
  assert (Hk : kept f1 f4) by (apply (flash_kept_trans f1 f2); [exact (kept_state _ _ _ Hk2) | by apply (flash_kept_trans f2 f3)]).
  assert (Hx : forall x, storage f4 x = programmed true (storage f) off l x) by (intros x; rewrite Hs4, Hs3; change (write_enable f2) with (write_enable f1); rewrite Ew; apply programmed_ext; change (storage f2) with (storage f1); by rewrite Hs1).
  exists f4. split; [done|]. split; [|split; [by rewrite (kept_we _ _ Hk) | done]]. apply (chip_step f1); [done | done | done|]. intros x. rewrite Hx. apply programmed_range, Hf.
Qed.

(** Whether an area of the window holds anything. *)
Definition marked (m : Z -> Z) (a n : Z) : bool := existsb (fun x => negb (m x =? 0xFF)) (seqZ a n).

Lemma marked_app m a n k : 0 <= n -> 0 <= k -> marked m a (n + k) = marked m a n || marked m (a + n) k.
Proof. intros Hn Hk. unfold marked. by rewrite seqZ_app, existsb_app by done. Qed.
Lemma blank_page m a n : forallb (Z.eqb 0xFF) (mem_load m a n) = negb (marked m a n).
Proof. unfold mem_load, marked. induction (seqZ a n) as [|x l IH]; [done|]. cbn [map forallb existsb]. rewrite IH, (Z.eqb_sym 0xFF). by destruct (m x =? 0xFF). Qed.
Lemma unmarked m a n x : marked m a n = false -> a <= x < a + n -> m x = 0xFF.
Proof.
  unfold marked. intros Hm Hx. destruct (Z.eqb_spec (m x) 0xFF) as [|Hne]; [done|]. exfalso. apply not_true_iff_false in Hm. apply Hm, existsb_exists.
  exists x. split; [apply list_elem_of_In, elem_of_seqZ; lia | by rewrite (proj2 (Z.eqb_neq _ _))].
Qed.

Lemma programmed_blank m k a n x : (forall y, a <= y < a + n -> m y = 0xFF) -> (forall y, in_range 8 (k y)) -> 0 <= n ->
  programmed true m a (mem_load k a n) x = copy_range k m a n x.
Proof.
  intros Hm Hk Hn. unfold programmed, copy_range. rewrite length_mem_load, Z.max_r by done. cbn [andb].
  destruct (Z.leb_spec a x), (Z.ltb_spec x (a + n)); cbn [andb]; try done. rewrite Hm by lia. unfold mem_load, arr_get.
  rewrite (list_lookup_total_correct _ _ (k x)) by (rewrite list_lookup_fmap, lookup_seqZ_lt by lia; cbn; f_equal; f_equal; lia).
  rewrite Z.land_comm. change 0xFF with (Z.ones 8). rewrite Z.land_ones by lia. apply (wrap_in_range 8), Hk.
Qed.

Lemma flush_page_on (s : Board) lvl f off : spi s = dev lvl f -> chip f -> (forall x, in_range 8 (nor s x)) -> 0 <= off -> off + 256 <= flash_bytes ->
  (forall x, off <= x < off + 256 -> storage f x = 0xFF) ->
  exists lvl' f', flush_page s off = put s lvl' f' /\ chip f' /\ write_enable f' = write_enable f || marked (nor s) off 256 /\
    forall x, storage f' x = copy_range (nor s) (storage f) off 256 x.
Proof.
  intros Hs Hf Hn Ho Hb Hblank. unfold flush_page. rewrite blank_page. destruct (marked (nor s) off MCXN_NOR_PAGE) eqn:Em; cbn [negb].
  - destruct (program_page_on s lvl f off (mem_load (nor s) off MCXN_NOR_PAGE) Hs Hf) as (f' & -> & Hf' & Hw & Hx); [lia | rewrite length_mem_load; unfold MCXN_NOR_PAGE; lia | by apply mem_load_range|].
    exists true, f'. split; [done|]. split; [done|]. split; [rewrite Hw; change 256 with MCXN_NOR_PAGE; rewrite Em; by destruct (write_enable f)|]. intros x. rewrite Hx. by apply programmed_blank.
  - exists lvl, f. rewrite (put_same s lvl f Hs). split; [done|]. split; [done|]. change 256 with MCXN_NOR_PAGE. rewrite Em, orb_false_r. split; [done|]. intros x.
    unfold copy_range. destruct ((off <=? x) && (x <? off + MCXN_NOR_PAGE)) eqn:E; [|done]. apply andb_prop in E as [E1 E2]. apply Z.leb_le in E1. apply Z.ltb_lt in E2.
    rewrite (unmarked _ _ _ x Em) by done. apply Hblank. done.
Qed.

Lemma flush_pages_on n i (s : Board) lvl f : spi s = dev lvl f -> chip f -> (forall x, in_range 8 (nor s x)) -> 0 <= i -> 256 * (i + Z.of_nat n) <= flash_bytes ->
  (forall x, 256 * i <= x < 256 * (i + Z.of_nat n) -> storage f x = 0xFF) ->
  exists lvl' f', foldl flush_page s (map (Z.mul MCXN_NOR_PAGE) (seqZ i (Z.of_nat n))) = put s lvl' f' /\ chip f' /\
    write_enable f' = write_enable f || marked (nor s) (256 * i) (256 * Z.of_nat n) /\ forall x, storage f' x = copy_range (nor s) (storage f) (256 * i) (256 * Z.of_nat n) x.
Proof.
  revert i s lvl f. induction n as [|n IH]; intros i s lvl f Hs Hf Hn Hi Hb Hblank.
  { exists lvl, f. rewrite (put_same s lvl f Hs). split; [done|]. split; [done|]. split; [by rewrite orb_false_r|]. intros x. rewrite copy_range_out by lia. done. }
  rewrite seqZ_S by lia. replace (Z.of_nat (S n) - 1) with (Z.of_nat n) by lia. cbn [map foldl]. unfold MCXN_NOR_PAGE at 1.
  destruct (flush_page_on s lvl f (256 * i) Hs Hf Hn) as (l1 & f1 & -> & Hf1 & Hw1 & Hx1); [lia | lia | intros x Hx; apply Hblank; lia|].
  destruct (IH (i + 1) (put s l1 f1) l1 f1) as (l2 & f2 & E & Hf2 & Hw2 & Hx2); [done | done | done | lia | lia | intros x Hx; rewrite Hx1, copy_range_out by lia; apply Hblank; lia|].
  exists l2, f2. rewrite put_put in E. split; [done|]. split; [done|]. change (nor (put s l1 f1)) with (nor s) in *. replace (256 * Z.of_nat (S n)) with (256 + 256 * Z.of_nat n) by lia.
  replace (256 * (i + 1)) with (256 * i + 256) in * by lia. split; [rewrite Hw2, Hw1, marked_app by lia; by rewrite orb_assoc|].
  intros x. rewrite Hx2. unfold copy_range. rewrite Hx1. unfold copy_range. zcases; try done; lia.
Qed.

(** ** The abstract flash *)

(** [programming] is the address and length of a page program in flight and the
    number of bytes it has received; [flushed] tells that the loader's image is in
    the flash.  [stale] marks the bytes of the window that the loader has written
    since, [reloaded] is what it wrote. *)
Record Nor := mkNor { content : Z -> Z; wel : bool; programming : option (Z * Z * Z); flushed : bool; stale : Z -> bool; reloaded : Z -> Z }.
#[export] Instance nor_settable : Settable Nor := fun n => mkNor (content n) (wel n) (programming n) (flushed n) (stale n) (reloaded n).

(** What the window shows, and the marks that are left when an area is refreshed. *)
Definition shows (n : Nor) (x : Z) : Z := if stale n x then reloaded n x else content n x.
Definition fresh (st : Z -> bool) (a k : Z) : Z -> bool := fun x => st x && negb ((a <=? x) && (x <? a + k)).

Lemma fresh_in st a k x : a <= x < a + k -> fresh st a k x = false.
Proof. intros Hx. unfold fresh. rewrite (proj2 (Z.leb_le _ _)), (proj2 (Z.ltb_lt _ _)) by lia. apply andb_false_r. Qed.
Lemma fresh_out st a k x : ~ (a <= x < a + k) -> fresh st a k x = st x.
Proof. intros Hx. unfold fresh. zcases; rewrite ?andb_true_r; done || lia. Qed.

Definition nor_flush (n : Nor) (size : Z) : Nor :=
  if flushed n then n else n <| flushed := true |> <| wel := wel n || marked (content n) 0 size |>.

(** A command without program data. *)
Definition nor_command (n : Nor) (c addr : Z) : Nor :=
  if is_cmd c [WREN; WRDI] then n <| wel := c =? WREN |>
  else if is_cmd c [BULK_ERASE; BULK_ERASE_60] then n <| content := erased (wel n) (content n) 0 flash_bytes |> <| stale := fresh (stale n) 0 flash_bytes |>
  else match erase_len c with
       | Some len => n <| content := erased (wel n) (content n) addr len |> <| stale := fresh (stale n) addr len |>
       | None => n
       end.

(** Whether a sequence leaves the chip waiting for program data. *)
Definition writes (q : FlexSPISeq) (datsz : Z) : bool := negb (has_read q) && has_write q && negb (datsz =? 0).
Definition nor_ipcmd (n : Nor) (size : Z) (q : FlexSPISeq) (addr datsz : Z) : Nor :=
  if negb (valid q) || (MCXN_FLEXSPI_XFER_MAX <? datsz) then n
  else
    let n := nor_flush n size in
    if writes q datsz then n <| programming := Some (addr, datsz, 0) |> else nor_command n (cmd q) addr.

(** A word of program data. *)
Definition word_bytes (val : Z) : list Z := map (fun i => (val .>> (i * 8)) .& 0xFF) (seqZ 0 4).
Definition nor_word (n : Nor) (val : Z) : Nor :=
  match programming n with
  | Some (a, len, t) =>
      let l := take (Z.to_nat (len - t)) (word_bytes val) in
      let n := n <| content := programmed (wel n) (content n) (a + t) l |> in
      if len <=? t + zlen l then n <| programming := None |> <| stale := fresh (stale n) (a - a mod 256) 256 |> else n <| programming := Some (a, len, t + zlen l) |>
  | None => n
  end.

(** The sequences of a driver of this part: plain and fast reads, status and id,
    write enable and disable, aligned erases, and programs within a page. *)
Definition bare (q : FlexSPISeq) : Prop := addr_bits q = 0 /\ dummy_cycles q / 8 = 0.
Definition with_address (q : FlexSPISeq) : Prop := addr_bits q = 24 /\ dummy_cycles q / 8 = 0.
Definition no_data (q : FlexSPISeq) (datsz : Z) : Prop := has_read q = false \/ datsz = 0.
Inductive plain (q : FlexSPISeq) (addr datsz : Z) : Prop :=
  | plain_mode : cmd q ∈ [WREN; WRDI] -> bare q -> no_data q datsz -> writes q datsz = false -> plain q addr datsz
  | plain_chip_erase : cmd q ∈ [BULK_ERASE; BULK_ERASE_60] -> bare q -> no_data q datsz -> writes q datsz = false -> plain q addr datsz
  | plain_erase n : cmd q ∈ [ERASE_4K; ERASE_32K; ERASE_SECTOR] -> erase_len (cmd q) = Some n -> addr mod n = 0 ->
      with_address q -> no_data q datsz -> writes q datsz = false -> plain q addr datsz
  | plain_read : cmd q ∈ reading_cmds -> addr_bits q <= 32 -> writes q datsz = false -> plain q addr datsz
  | plain_status : cmd q = RDSR -> addr_bits q <= 32 -> writes q datsz = false -> plain q addr datsz
  | plain_jedec : cmd q = JEDEC_READ -> bare q -> datsz <= 6 -> writes q datsz = false -> plain q addr datsz
  | plain_program : cmd q ∈ [PP; QPP] -> with_address q -> writes q datsz = true -> addr mod 256 + datsz <= 256 -> plain q addr datsz.

(** ** What the chip does with a sequence *)

Definition header (q : FlexSPISeq) (addr : Z) : list Z :=
  cmd q :: (if addr_bits q =? 0 then [] else addr_bytes addr (addr_bits q)) ++ replicate (Z.to_nat (dummy_cycles q / 8)) 0.
Definition reads (q : FlexSPISeq) (datsz : Z) : list Z := if has_read q then replicate (Z.to_nat datsz) 0 else [].

Lemma no_data_reads q d : no_data q d -> reads q d = [].
Proof. unfold reads. intros [->| ->]; [done|]. by destruct (has_read q). Qed.
Lemma bare_header q a : bare q -> header q a = [cmd q].
Proof. intros [H1 H2]. unfold header. by rewrite H1, H2. Qed.
Lemma address_header q a : with_address q -> header q a = cmd q :: addr3 a.
Proof. intros [H1 H2]. unfold header. rewrite H1, H2. change (24 =? 0) with false. cbn [replicate Z.to_nat]. by rewrite addr_bytes_24, app_nil_r. Qed.

(** The effect of a transaction on the chip, up to the end of its data. *)
Record effect (f f' : Flash) (n n' : Nor) : Prop := {
  eff_four : four_bytes_address_mode f' = four_bytes_address_mode f;
  eff_bp : block_protect_value f' = block_protect_value f;
  eff_data : zlen (data f') = zlen (data f);
  eff_state : state f' <> STATE_COLLECTING_VAR_LEN_DATA;
  eff_we : wel n' = write_enable f';
  eff_content : forall x, 0 <= x < flash_bytes -> storage f' x = content n' x;
  eff_bytes : forall x, in_range 8 (storage f' x);
  eff_rest : programming n' = programming n /\ flushed n' = flushed n;
}.

Lemma effect_quiet f n l : quiet f l -> chip f -> wel n = write_enable f -> (forall x, 0 <= x < flash_bytes -> storage f x = content n x) ->
  exists f' rs, xfer f l = Some (f', rs) /\ effect f f' n n.
Proof.
  intros (f' & rs & E & [K1 K2 K3 K4] & Hs & Hv) [_ _ Hb] Hw Hc. exists f', rs. split; [done|]. split; try done; [congruence | by rewrite Hs..].
Qed.

Lemma erased_range we m a n x : in_range 8 (m x) -> in_range 8 (erased we m a n x).
Proof. intros Hm. unfold erased, memset, copy_range. destruct we; [|done]. destruct (_ && _); [|done]. split; [lia | reflexivity]. Qed.
Lemma erased_ext we m m' a n x : m x = m' x -> erased we m a n x = erased we m' a n x.
Proof. intros E. unfold erased, memset, copy_range. destruct we; [|done]. by destruct (_ && _). Qed.

Lemma effect_erased f f' n c addr a k st : kept f f' -> state f' <> STATE_COLLECTING_VAR_LEN_DATA -> storage f' = erased (write_enable f) (storage f) a k ->
  chip f -> wel n = write_enable f -> (forall x, 0 <= x < flash_bytes -> storage f x = content n x) ->
  nor_command n c addr = n <| content := erased (wel n) (content n) a k |> <| stale := st |> -> effect f f' n (nor_command n c addr).
Proof.
  intros [K1 K2 K3 K4] Hst Hs [_ _ Hb] Hw Hc ->. split; try done; [cbn; congruence|..]; rewrite Hs; intros x; [intros Hx; cbn; rewrite Hw; apply erased_ext; by apply Hc|]. by apply erased_range.
Qed.

Ltac cmd_cases H := repeat (apply elem_of_cons in H as [->|H]); [..|by apply elem_of_nil in H].

Lemma aligned_inside a n : 0 <= a < flash_bytes -> a mod n = 0 -> n ∈ [4 * 1024; 32 * 1024; sector_size] -> a + n <= flash_bytes.
Proof. intros Ha Hm Hn. change flash_bytes with (2 ^ 23) in *. change sector_size with 65536 in Hn. cmd_cases Hn; dlia. Qed.

Lemma plain_effect q a d f n : plain q a d -> writes q d = false -> chip f -> 0 <= a < flash_bytes -> wel n = write_enable f ->
  (forall x, 0 <= x < flash_bytes -> storage f x = content n x) ->
  exists f' rs, xfer f (header q a ++ reads q d) = Some (f', rs) /\ effect f f' n (nor_command n (cmd q) a).
Proof.
  intros Hp Hwr Hf Ha Hw Hc. pose proof (chip_ready f Hf) as Hr. pose proof (ready_idle f Hr) as Hi. destruct Hp as [Hq Hb Hn _|Hq Hb Hn _|k Hq Hk Hm Hb Hn _|Hq _ _|Hq _ _|Hq Hb Hd _|Hq Hb H1 _].
  - rewrite (bare_header q a Hb), (no_data_reads q d Hn). pose proof (transfer_wren f (cmd q) Hi Hq) as E. set (f1 := f <| cmd_in_progress := cmd q |> <| reset_enable := false |> <| write_enable := _ |>) in E.
    exists f1, [0]. split; [exact (xfer_cons_some f (cmd q) f1 0 [] E)|]. assert (Ec : nor_command n (cmd q) a = n <| wel := cmd q =? WREN |>) by (revert Hq; generalize (cmd q); clear; intros c Hq; cmd_cases Hq; reflexivity).
    rewrite Ec. split; try done; [by cbn; rewrite Hi | apply Hf].
  - rewrite (bare_header q a Hb), (no_data_reads q d Hn). destruct (transfer_chip_erase f (cmd q) Hi Hq) as (f' & E & Hk & Hs & Ht).
    exists f', [0]. split; [exact (xfer_cons_some f (cmd q) f' 0 [] E)|]. apply (effect_erased f f' n (cmd q) a 0 flash_bytes (fresh (stale n) 0 flash_bytes)); try done; [by rewrite Ht|].
    revert Hq. generalize (cmd q). clear. intros c Hq. unfold nor_command. cmd_cases Hq; by known_cmd.
  - rewrite (address_header q a Hb), (no_data_reads q d Hn), app_nil_r. rewrite xfer_addressed by (done || (unfold addressed_cmds; set_solver)).
    assert (Hk3 : k ∈ [4 * 1024; 32 * 1024; sector_size]) by (revert Hq Hk; generalize (cmd q); clear; intros c Hq Hk; cmd_cases Hq; vm_compute in Hk; injection Hk as <-; apply (bool_decide_unpack _); by vm_compute).
    assert (cmd q <> DIE_ERASE /\ is_cmd (cmd q) [PP; QPP] = false /\ (cmd q =? READ) = false /\ nor_command n (cmd q) a = n <| content := erased (wel n) (content n) a k |> <| stale := fresh (stale n) a k |>) as (N1 & -> & -> & Ec)
      by (revert Hq Hk; generalize (cmd q); clear; intros c Hq Hk; unfold nor_command; rewrite Hk; cmd_cases Hq; by known_cmd).
    destruct (erase_inside (addressed f (cmd q) a) a (cmd q) k N1 Hk (aligned_inside a k Ha Hm Hk3)) as (f' & E & Hk' & Hs & Ht). rewrite E. exists f', [0; 0; 0; 0]. split; [done|].
    destruct (addressed_kept f (cmd q) a) as [Hk0 _]. apply (effect_erased f f' n (cmd q) a a k (fresh (stale n) a k)); try done; [by apply (flash_kept_trans f (addressed f (cmd q) a)) | by rewrite Ht].
  - assert (Ec : nor_command n (cmd q) a = n) by (revert Hq; generalize (cmd q); clear; intros c Hq; unfold nor_command, reading_cmds in *; cmd_cases Hq; by known_cmd).
    rewrite Ec. apply effect_quiet; try done. by apply quiet_read.
  - unfold header. rewrite Hq. assert (Ec : nor_command n RDSR a = n) by done. rewrite Ec. apply effect_quiet; try done. by apply quiet_status.
  - rewrite (bare_header q a Hb), Hq. assert (Ec : nor_command n JEDEC_READ a = n) by done. rewrite Ec. apply effect_quiet; try done. unfold reads. cbn [app].
    destruct (has_read q); [apply quiet_jedec; [done | lia] | by apply (quiet_jedec f 0); [|lia]].
  - congruence.
Qed.

Lemma program_start q a f : cmd q ∈ [PP; QPP] -> with_address q -> chip f -> 0 <= a < flash_bytes ->
  exists f', xfer f (header q a) = Some (f', [0; 0; 0; 0]) /\ kept f f' /\ storage f' = storage f /\ state f' = STATE_PAGE_PROGRAM /\ cur_addr f' = a.
Proof.
  intros Hq Hb Hf Ha. pose proof (chip_ready f Hf) as Hr. rewrite (address_header q a Hb). rewrite xfer_addressed by (done || (unfold addressed_cmds; set_solver)).
  assert (is_cmd (cmd q) [PP; QPP] = true) as -> by (revert Hq; generalize (cmd q); clear; intros c Hq; cmd_cases Hq; reflexivity).
  eexists. split; [done|]. destruct (addressed_kept f (cmd q) a) as [Hk _]. split; [exact (kept_state _ _ _ Hk) | done].
Qed.

(** ** The controller implements the abstract flash *)

Record sim_at (s : Board) (n : Nor) (lvl : bool) (f : Flash) : Prop := {
  sa_spi : spi s = dev lvl f;
  sa_size : 0 < flash_size s <= flash_bytes /\ flash_size s mod 256 = 0;
  sa_four : four_bytes_address_mode f = false;
  sa_data : zlen (data f) = 16;
  sa_bp : block_protect_value f = 0;
  sa_bytes : forall x, in_range 8 (storage f x);
  sa_nor : forall x, in_range 8 (nor s x);
  sa_we : wel n = write_enable f;
  sa_flushed : loader_flushed s = flushed n;
  sa_content : forall x, 0 <= x < flash_bytes ->
    if flushed n then storage f x = content n x else storage f x = 0xFF /\ content n x = (if x <? flash_size s then nor s x else 0xFF) /\ stale n x = false;
  sa_mode : match programming n with
            | None => pgm_pending s = false /\ state f = STATE_IDLE /\ (forall x, 0 <= x < flash_size s -> nor s x = shows n x)
            | Some (a, len, t) =>
                (pgm_pending s = true /\ pgm_addr s = a /\ pgm_len s = len /\ tx_len s = t) /\ flushed n = true /\
                lvl = false /\ state f = STATE_PAGE_PROGRAM /\ cur_addr f = a + t /\ 0 <= t < len /\ 0 <= a < flash_size s /\ a mod 256 + len <= 256 /\
                (forall x, 0 <= x < flash_size s -> x / 256 <> a / 256 -> nor s x = shows n x)
            end;
}.
(** [z] is the size of the window. *)
Definition sim (z : Z) (s : Board) (n : Nor) : Prop := exists lvl f, flash_size s = z /\ sim_at s n lvl f.

(** Operations that touch neither the bus, nor the window, nor a program in flight. *)
Record frame (s s' : Board) : Prop := {
  fr_spi : spi s' = spi s;
  fr_size : flash_size s' = flash_size s;
  fr_nor : nor s' = nor s;
  fr_loader : loader_flushed s' = loader_flushed s;
  fr_pending : pgm_pending s' = pgm_pending s;
  fr_pgm : pgm_pending s = true -> pgm_addr s' = pgm_addr s /\ pgm_len s' = pgm_len s /\ tx_len s' = tx_len s;
}.
Lemma frame_refl s : frame s s.
Proof. done. Qed.
Lemma frame_trans s s1 s2 : frame s s1 -> frame s1 s2 -> frame s s2.
Proof.
  intros [A1 A2 A3 A4 A5 A6] [B1 B2 B3 B4 B5 B6]. split; [congruence..|]. intros Hp. destruct (A6 Hp) as (? & ? & ?).
  destruct (B6 ltac:(congruence)) as (? & ? & ?). split; [|split]; congruence.
Qed.
Lemma sim_frame z s s' n : frame s s' -> sim z s n -> sim z s' n.
Proof.
  intros [A1 A2 A3 A4 A5 A6] (lvl & f & Hz & []). exists lvl, f. split; [congruence|]. split; try (rewrite ?A1, ?A2, ?A3, ?A4; done).
  destruct (programming n) as [[[a len] t]|]; [|by rewrite A5, A2, A3]. destruct sa_mode0 as ((P1 & P2 & P3 & P4) & Hrest). rewrite A2, A3, A5. destruct (A6 P1) as (-> & -> & ->). done.
Qed.

Lemma frame_reg (s s1 : Board) off v : frame s s1 -> frame s (set_reg s1 off v).
Proof. by intros []. Qed.
Lemma frame_irq (s s1 : Board) : frame s s1 -> frame s (mcxn_flexspi_update_irq s1).
Proof. by intros []. Qed.
Lemma frame_dma (s s1 : Board) : frame s s1 -> frame s (flexspi_update_dma_req s1).
Proof. intros Hf. apply (frame_trans s s1); [done|]. unfold flexspi_update_dma_req. cbv zeta. by repeat case_match. Qed.
Create HintDb flexspi.
#[export] Hint Resolve frame_refl frame_reg frame_irq frame_dma : flexspi.

Lemma read_frame (s : Board) off : frame s (mcxn_flexspi_read s off).1.
Proof.
  unfold mcxn_flexspi_read. cbv zeta. repeat match goal with |- context [if ?b then (_, _) else _] => destruct b; [by apply frame_refl|] end.
  destruct (_ && _); cbn [fst]; [|auto with flexspi]. destruct (_ && _); [|auto with flexspi]. apply frame_dma. destruct (_ <=? _); [|done]. by apply frame_irq, frame_reg.
Qed.

Definition is_tfdr (off : Z) : bool := (FLEXSPI_TFDR0 <=? off) && (off <? FLEXSPI_TFDR0 + 32 * 4).

Lemma write_frame (s : Board) off v : off <> FLEXSPI_IPCMD -> is_tfdr off = false -> frame s (mcxn_flexspi_write s off v).
Proof.
  intros Ho Ht. unfold mcxn_flexspi_write. cbv zeta. destruct (MCXN_FLEXSPI_SIZE <=? off); [auto with flexspi|]. destruct (existsb _ _); [auto with flexspi|].
  destruct (off =? FLEXSPI_MCR0); [auto with flexspi|]. destruct (off =? FLEXSPI_INTR).
  { unfold flexspi_write_intr. cbv zeta. apply frame_dma, frame_irq. destruct (flag _ _); repeat case_match; auto with flexspi; by repeat apply frame_reg. }
  destruct (off =? FLEXSPI_INTEN); [auto with flexspi|]. destruct (off =? FLEXSPI_IPRXFCR); [apply frame_dma; destruct (flag _ _); [by apply frame_reg | auto with flexspi]|].
  destruct (off =? FLEXSPI_IPTXFCR).
  { apply frame_dma. destruct (flag _ _); cbn [andb]; [|auto with flexspi]. change (pgm_pending (set_reg s off (u32 v .& u32 (.~ FCR_CLRF)))) with (pgm_pending s).
    destruct (pgm_pending s) eqn:Ep; cbn [negb]; [auto with flexspi|]. split; try done. by rewrite Ep. }
  rewrite (proj2 (Z.eqb_neq _ _) Ho). destruct (_ && _); [auto with flexspi|]. fold (is_tfdr off). rewrite Ht. auto with flexspi.
Qed.

(** *** The end of a transaction *)

(** A chip in the middle of a transaction that may end here. *)
Record busy (f : Flash) : Prop := {
  busy_four : four_bytes_address_mode f = false;
  busy_data : zlen (data f) = 16;
  busy_bp : block_protect_value f = 0;
  busy_bytes : forall x, in_range 8 (storage f x);
  busy_state : state f <> STATE_COLLECTING_VAR_LEN_DATA;
}.

Lemma dirty_range_pos c a size o k : flexspi_dirty_range c a size = Some (o, k) -> 0 <= o /\ 0 <= k.
Proof.
  assert (Hu : forall z, 0 <= u32 z) by (intros z; by apply wrap_range). unfold flexspi_dirty_range. cbv zeta.
  repeat match goal with |- (if ?b then _ else _) = _ -> _ => destruct b; [intros [= <- <-]; split; [first [apply Hu | lia] | first [apply Hu | done]]|] end. done.
Qed.

Record finished (s : Board) (f : Flash) (c a : Z) (s' : Board) (lvl : bool) (f' : Flash) : Prop := {
  fin_spi : spi s' = dev lvl f';
  fin_chip : chip f';
  fin_we : write_enable f' = write_enable f;
  fin_storage : storage f' = storage f;
  fin_size : flash_size s' = flash_size s;
  fin_loader : loader_flushed s' = loader_flushed s;
  fin_pending : pgm_pending s' = false;
  fin_bytes : forall x, in_range 8 (nor s' x);
  fin_nor : forall x, x < flash_size s -> nor s' x =
    match flexspi_dirty_range c a (flash_size s) with Some (o, k) => mirrored (nor s) (storage f) o k x | None => nor s x end;
}.
Lemma finished_frame s f c a s1 s2 lvl f' : finished s f c a s1 lvl f' -> frame s1 s2 -> finished s f c a s2 lvl f'.
Proof. intros [] [A1 A2 A3 A4 A5 _]. split; rewrite ?A1, ?A2, ?A3, ?A4, ?A5; done. Qed.

Lemma finish_on (s : Board) f c a : spi s = dev false f -> busy f -> 0 < flash_size s <= flash_bytes -> (forall x, in_range 8 (nor s x)) ->
  exists lvl f', finished s f c a (flexspi_finish s c a) lvl f'.
Proof.
  intros Hs [B1 B2 B3 B4 B5] Hz Hn. destruct (deselected f B5) as (f1 & E1 & [K1 K2 K3 K4] & Hs1 & Hi1). unfold flexspi_finish. rewrite (deselect_on s f f1 Hs E1). cbv zeta.
  assert (Hf1 : chip f1) by (split; [split; congruence | congruence | by rewrite Hs1]). change (flash_size (put s true f1)) with (flash_size s).
  destruct (flexspi_dirty_range c a (flash_size s)) as [[o k]|] eqn:Ed.
  - destruct (dirty_range_pos _ _ _ _ _ Ed) as [Ho Hk]. destruct (mirror_resync_on (put s true f1) true f1 o k (put_spi _ _ _) Hf1) as (lvl & f2 & m & E2 & Hf2 & [J1 J2 J3 J4] & Hs2 & Hm & Hb);
      [change (flash_size (put s true f1)) with (flash_size s); lia | done | done|]. rewrite E2, put_put. exists lvl, f2. split; try done; [congruence | congruence | |].
    + intros x. apply Hb, Hn.
    + intros x Hx. rewrite Ed, <- Hs1. by apply Hm.
  - exists true, f1. split; try done. intros x _. by rewrite Ed.
Qed.

(** *** A command *)

Definition cleared (s : Board) : Board :=
  let s := s <| tx_len := 0 |> <| rx_pos := 0 |> <| rx_len := 0 |> in
  set_reg s FLEXSPI_INTR (reg s FLEXSPI_INTR .& u32 (.~ (INTR_IPRXWA .| INTR_IPTXWE))).
Definition issued (s : Board) (q : FlexSPISeq) (a : Z) : Board :=
  let s := cleared s in
  let s := if loader_flushed s then s else flexspi_flush_loader_image s in
  spi_send (spi_select s true) (header q a).

Lemma ip_command_eq (s : Board) : let q := flexspi_decode_lut s (IPCR1_ISEQID (reg s FLEXSPI_IPCR1)) in let d := IPCR1_IDATSZ (reg s FLEXSPI_IPCR1) in
  let a := nor_off s (reg s FLEXSPI_IPCR0) in
  flexspi_ip_command s =
    if negb (valid q) || (MCXN_FLEXSPI_XFER_MAX <? d) then flexspi_error (cleared s)
    else if has_read q then flexspi_update_dma_req (flexspi_finish (flexspi_read_phase (issued s q a) d) (cmd q) a)
    else if has_write q && negb (d =? 0) then
      let s1 := (issued s q a) <| pgm_pending := true |> <| pgm_addr := a |> <| pgm_len := d |> in
      flexspi_update_dma_req (mcxn_flexspi_update_irq (set_reg s1 FLEXSPI_INTR (reg s1 FLEXSPI_INTR .| INTR_IPTXWE)))
    else flexspi_finish (issued s q a) (cmd q) a.
Proof.
  intros q d a. unfold flexspi_ip_command. cbv zeta. fold q d a. fold (cleared s). destruct (valid q); [|done]. cbn [negb orb]. destruct (MCXN_FLEXSPI_XFER_MAX <? d); [done|].
  assert (E : forall s1 : Board, spi_send (if addr_bits q =? 0 then spi_send (spi_select s1 true) [cmd q] else spi_send_addr (spi_send (spi_select s1 true) [cmd q]) a (addr_bits q)) (replicate (Z.to_nat (dummy_cycles q / 8)) 0) =
    spi_send (spi_select s1 true) (header q a)).
  { intros s1. unfold header. destruct (addr_bits q =? 0); unfold spi_send_addr; by rewrite !spi_send_app. }
  rewrite E. fold (issued s q a). done.
Qed.

Lemma align_down a j : 0 <= j -> 0 <= a < 2 ^ 32 -> u32 (a .& .~ (2 ^ j - 1)) = a - a mod 2 ^ j.
Proof.
  intros Hj Ha. replace (2 ^ j - 1) with (Z.ones j) by (rewrite Z.ones_equiv; lia). rewrite <- Z.ldiff_land, Z.ldiff_ones_r, Z.shiftr_div_pow2, Z.shiftl_mul_pow2 by done.
  pose proof (Z.mod_pos_bound a (2 ^ j) ltac:(lia)). pose proof (Z.div_mod a (2 ^ j) ltac:(lia)). pose proof (Z.mod_le a (2 ^ j) ltac:(lia) ltac:(lia)). rewrite wrap_id by lia. lia.
Qed.

(** What a command changes is what the controller reads back. *)
Lemma dirty_covers q a d size n (m k : Z -> Z) x : plain q a d -> writes q d = false -> 0 <= a < size -> 0 < size <= flash_bytes -> 0 <= x < size ->
  m x = shows n x -> k x = content (nor_command n (cmd q) a) x ->
  match flexspi_dirty_range (cmd q) a size with Some (o, l) => mirrored m k o l x | None => m x end = shows (nor_command n (cmd q) a) x.
Proof.
  intros Hp Hw Ha Hz Hx Hm Hk. destruct Hp as [Hq _ _ _|Hq _ _ _|l Hq Hl Hal _ _ _|Hq _ _|Hq _ _|Hq _ _ _|_ _ H1 _]; [| | | | | |congruence].
  - revert Hq Hk. generalize (cmd q). intros c Hq _. cmd_cases Hq; exact Hm.
  - revert Hq Hk. generalize (cmd q). intros c Hq Hk. assert (flexspi_dirty_range c a size = Some (0, size)) as ->.
    { change flash_bytes with (2 ^ 23) in Hz. unfold flexspi_dirty_range. cbv zeta. rewrite (wrap_id 32 size) by lia. cmd_cases Hq; by known_cmd. }
    assert (Ec : nor_command n c a = n <| content := erased (wel n) (content n) 0 flash_bytes |> <| stale := fresh (stale n) 0 flash_bytes |>) by (unfold nor_command; cmd_cases Hq; by known_cmd).
    unfold mirrored, shows. rewrite copy_range_in, Hk, Ec by lia. cbn [stale modify]. by rewrite fresh_in by lia.
  - revert Hq Hl Hk. generalize (cmd q). intros c Hq Hl Hk. change flash_bytes with (2 ^ 23) in Hz.
    assert (flexspi_dirty_range c a size = Some (a, l)) as ->.
    { unfold flexspi_dirty_range. cbv zeta. unfold MCXN_NOR_PAGE, MCXN_NOR_SECTOR, MCXN_NOR_BLOCK32, MCXN_NOR_BLOCK64. change 256 with (2 ^ 8). change 0x1000 with (2 ^ 12). change 0x8000 with (2 ^ 15). change 0x10000 with (2 ^ 16).
      rewrite !align_down by lia. cmd_cases Hq; vm_compute in Hl; injection Hl as <-; known_cmd; match goal with |- context [a mod ?v] => change (a mod v = 0) in Hal end; by rewrite Hal, Z.sub_0_r. }
    assert (Ec : nor_command n c a = n <| content := erased (wel n) (content n) a l |> <| stale := fresh (stale n) a l |>).
    { unfold nor_command. rewrite Hl. assert (is_cmd c [WREN; WRDI] = false /\ is_cmd c [BULK_ERASE; BULK_ERASE_60] = false) as [-> ->] by (cmd_cases Hq; done). done. }
    rewrite Ec in *. unfold mirrored, shows in *. cbn [stale reloaded content modify] in *.
    destruct (decide (a <= x < a + l)) as [Hin|Hout]; [by rewrite copy_range_in, fresh_in|]. rewrite copy_range_out, Hm, fresh_out by done.
    destruct (stale n x); [done|]. unfold erased, memset. destruct (wel n); [by rewrite copy_range_out | done].
  - revert Hq Hk. generalize (cmd q). unfold reading_cmds. intros c Hq _. cmd_cases Hq; exact Hm.
  - rewrite Hq. exact Hm.
  - rewrite Hq. exact Hm.
Qed.

Lemma marked_ext m m' a n : (forall x, a <= x < a + n -> m x = m' x) -> marked m a n = marked m' a n.
Proof. intros E. unfold marked. apply existsb_ext. intros x Hx. apply elem_of_seqZ in Hx. by rewrite E. Qed.

(** The chip that a command finds: the loader's image is in it. *)
Record prepared (s : Board) (n : Nor) (s1 : Board) (lvl : bool) (f : Flash) : Prop := {
  pre_spi : spi s1 = dev lvl f;
  pre_chip : chip f;
  pre_we : wel n = write_enable f;
  pre_content : forall x, 0 <= x < flash_bytes -> storage f x = content n x;
  pre_frame : frame (s <| loader_flushed := true |>) (s1 <| spi := spi s |>);
  pre_tx : tx_len s1 = 0;
}.
Lemma prepared_on z (s : Board) n : sim z s n -> programming n = None ->
  exists lvl f, prepared s (nor_flush n (flash_size s)) (let s1 := cleared s in if loader_flushed s1 then s1 else flexspi_flush_loader_image s1) lvl f.
Proof.
  intros (lvl & f & _ & [Hs [Hz Hdiv] Hf4 Hd Hbp Hb Hn Hw Hfl Hc Hm]) Hp. rewrite Hp in Hm. destruct Hm as (Hpend & Hi & Hm). assert (Hf : chip f) by (by split; [split|..]).
  cbv zeta. change (loader_flushed (cleared s)) with (loader_flushed s). unfold nor_flush. rewrite Hfl. destruct (flushed n) eqn:Ef.
  { exists lvl, f. split; [done | done | done | done | | done]. split; try done; cbn; by rewrite ?Hfl, ?Hpend. }
  assert (E256 : 256 * (flash_size s / 256) = flash_size s) by dlia. unfold flexspi_flush_loader_image. change (flash_size (cleared s)) with (flash_size s). change MCXN_NOR_PAGE with 256 at 2.
  pose proof (flush_pages_on (Z.to_nat (flash_size s / 256)) 0 ((cleared s) <| loader_flushed := true |>) lvl f) as Hfp. rewrite Z2Nat.id in Hfp by dlia.
  destruct Hfp as (l1 & f1 & E & Hf1 & Hw1 & Hx1); [done | done | done | done | lia | |].
  { intros x Hx. by destruct (Hc x ltac:(lia)). }
  rewrite E. exists l1, f1. change (nor ((cleared s) <| loader_flushed := true |>)) with (nor s) in *. rewrite E256 in *. change (256 * 0) with 0 in *. split; [done | done | | | | done].
  - cbn [wel modify]. rewrite Hw1, Hw. f_equal. apply marked_ext. intros x Hx. destruct (Hc x ltac:(lia)) as (_ & -> & _). by rewrite (proj2 (Z.ltb_lt _ _)) by lia.
  - intros x Hx. cbn [content modify]. rewrite Hx1. destruct (Hc x Hx) as (H1 & -> & _). unfold copy_range. rewrite H1. destruct (Z.leb_spec 0 x); [|lia]. by rewrite Z.add_0_l.
  - split; try done. cbn. by rewrite Hpend.
Qed.

Lemma read_phase_on (s : Board) f f' rs d : spi s = dev false f -> xfer f (replicate (Z.to_nat d) 0) = Some (f', rs) -> frame (put s false f') (flexspi_read_phase s d).
Proof. intros Hs E. unfold flexspi_read_phase. rewrite (spi_recv_on _ s f f' rs Hs E). by destruct (d =? 0). Qed.

Lemma nor_off_range (s : Board) v : 0 < flash_size s <= flash_bytes -> 0 <= nor_off s v < flash_size s.
Proof.
  intros Hz. change flash_bytes with (2 ^ 23) in Hz. unfold nor_off. rewrite (proj2 (Z.eqb_neq _ _)), wrap_id by lia. split; [apply Z.land_nonneg; lia|].
  enough (v .& (flash_size s - 1) <= flash_size s - 1) by lia. apply Z.ldiff_le; [lia|]. apply Z.bits_inj'. intros i Hi. rewrite Z.ldiff_spec, Z.land_spec, Z.bits_0. by destruct (Z.testbit v i), (Z.testbit (flash_size s - 1) i).
Qed.

Lemma error_frame (s : Board) : pgm_pending s = false -> frame s (flexspi_error (cleared s)).
Proof. intros Hp. split; try done. by rewrite Hp. Qed.

Lemma xfer_split f l1 l2 f' rs : xfer f (l1 ++ l2) = Some (f', rs) -> exists f1 r1 r2, xfer f l1 = Some (f1, r1) /\ xfer f1 l2 = Some (f', r2).
Proof.
  rewrite xfer_app. destruct (xfer f l1) as [[f1 r1]|]; [|done]. cbn. destruct (xfer f1 l2) as [[f2 r2]|] eqn:E; [|done]. cbn. intros [= <- <-]. by exists f1, r1, r2.
Qed.

(** The state of the controller that matters to a command, [f] being on its bus. *)
Record running (s : Board) (n : Nor) (s2 : Board) (f : Flash) : Prop := {
  run_spi : spi s2 = dev false f;
  run_size : flash_size s2 = flash_size s;
  run_nor : nor s2 = nor s;
  run_loader : loader_flushed s2 = true;
}.

Lemma command_sim (s : Board) n f f' q a d s2 : chip f -> effect f f' n (nor_command n (cmd q) a) -> running s n s2 f' -> programming n = None -> flushed n = true ->
  plain q a d -> writes q d = false -> 0 <= a < flash_size s -> 0 < flash_size s <= flash_bytes /\ flash_size s mod 256 = 0 -> (forall x, in_range 8 (nor s x)) ->
  (forall x, 0 <= x < flash_size s -> nor s x = shows n x) -> sim (flash_size s) (flexspi_finish s2 (cmd q) a) (nor_command n (cmd q) a).
Proof.
  intros [[R1 R2 R3] C2 C3] [F1 F2 F3 F4 F5 F6 F7 [F8 F9]] [S1 S2 S3 S4] Hp Hfl Hpl Hw Ha [Hz Hdiv] Hb Hn.
  destruct (finish_on s2 f' (cmd q) a S1) as (lvl & g & [G1 [[Q1 Q2 Q3] Q4 Q5] G3 G4 G5 G6 G7 G8 G9]); [split; congruence || done | by rewrite S2 | by rewrite S3|].
  rewrite Hp in F8. rewrite Hfl in F9. exists lvl, g. split; [congruence|]. split; try done; [by rewrite G5, S2 | congruence | congruence | |].
  - intros x Hx. rewrite F9, G4. by apply F6.
  - rewrite F8. split; [done|]. split; [done|]. intros x Hx. rewrite G5, S2 in Hx. rewrite G9 by (rewrite S2; lia). rewrite S2, S3.
    apply (dirty_covers q a d); [done | done | done | done | done | by apply Hn | apply F6; lia].
Qed.

Lemma flush_flags n size : programming (nor_flush n size) = programming n /\ flushed (nor_flush n size) = true /\ shows (nor_flush n size) = shows n.
Proof. unfold nor_flush. by destruct (flushed n) eqn:E. Qed.

Lemma ip_sim z (s : Board) n : let q := flexspi_decode_lut s (IPCR1_ISEQID (reg s FLEXSPI_IPCR1)) in let d := IPCR1_IDATSZ (reg s FLEXSPI_IPCR1) in
  let a := nor_off s (reg s FLEXSPI_IPCR0) in
  sim z s n -> programming n = None -> plain q a d -> sim z (flexspi_ip_command s) (nor_ipcmd n z q a d).
Proof.
  intros q d a Hsim Hp Hpl. rewrite ip_command_eq. fold q d a. unfold nor_ipcmd. pose proof Hsim as (lvl0 & f0 & <- & [_ [Hz Hdiv] _ _ _ _ Hnb _ _ _ Hm0]). rewrite Hp in Hm0. destruct Hm0 as (Hpend & _ & Hm).
  destruct (negb (valid q) || _); [by apply (sim_frame _ s), Hsim; apply error_frame|]. cbv zeta.
  destruct (prepared_on _ s n Hsim Hp) as (lvl & f & [P1 P2 P3 P4 [A1 A2 A3 A4 A5 A6] Htx]). unfold issued. set (s1 := let s1 := cleared s in if loader_flushed s1 then s1 else flexspi_flush_loader_image s1) in *. cbv zeta.
  change (if loader_flushed (cleared s) then cleared s else flexspi_flush_loader_image (cleared s)) with s1. clearbody s1. rewrite (select_on s1 lvl f P1).
  destruct (flush_flags n (flash_size s)) as (N1 & N2 & N3). set (n1 := nor_flush n (flash_size s)) in *. clearbody n1. cbn [nor flash_size loader_flushed pgm_pending modify] in A2, A3, A4, A5.
  pose proof (nor_off_range s (reg s FLEXSPI_IPCR0) Hz) as Ha. fold a in Ha. rewrite Hp in N1. rewrite <- N3 in Hm.
  destruct (writes q d) eqn:Hw.
  - pose proof Hw as Hw'. unfold writes in Hw'. apply andb_prop in Hw' as [Hw1 Hw3]. apply andb_prop in Hw1 as [Hw1 Hw2]. apply negb_true_iff in Hw1. rewrite Hw1, Hw2, Hw3. cbn [andb].
    destruct Hpl as [_ _ _ Hx|_ _ _ Hx|k _ _ _ _ _ Hx|_ _ Hx|_ _ Hx|_ _ _ Hx|Hq Hwa _ Hpage]; try congruence.
    destruct (program_start q a f Hq Hwa P2 ltac:(lia)) as (f' & E & [K1 K2 K3 K4] & Hst & Hi & Hc). rewrite (spi_send_on _ _ f f' _ (put_spi _ _ _) E), put_put. clear E.
    destruct P2 as [[R1 R2 R3] C2 C3]. apply (sim_frame _ ((put s1 false f') <| pgm_pending := true |> <| pgm_addr := a |> <| pgm_len := d |> <| tx_len := 0 |>)).
    { apply frame_dma, frame_irq, frame_reg. by split. }
    exists false, f'. split; [done|]. unfold put. split; cbn [spi flash_size nor loader_flushed pgm_pending pgm_addr pgm_len tx_len programming wel flushed content modify]; try congruence; [by rewrite A2|by rewrite Hst|by rewrite A3| |].
    + intros x Hx. rewrite N2, Hst. by apply P4.
    + split; [done|]. split; [done|]. split; [done|]. split; [done|]. rewrite Z.add_0_r. split; [done|]. apply negb_true_iff, Z.eqb_neq in Hw3. assert (0 <= d) by (unfold d, IPCR1_IDATSZ; apply Z.land_nonneg; lia).
      split; [lia|]. rewrite A2, A3. split; [done|]. split; [done|]. intros x Hx _. by apply Hm.
  - destruct (plain_effect q a d f n1 Hpl Hw P2 ltac:(lia) P3 P4) as (f' & rs & E & Heff).
    assert (Hw' : has_read q = false -> has_write q && negb (d =? 0) = false) by (intros Hr; unfold writes in Hw; by rewrite Hr in Hw). unfold reads in E. destruct (has_read q).
    + destruct (xfer_split _ _ _ _ _ E) as (f2 & r1 & r2 & E1 & E2). rewrite (spi_send_on _ _ f f2 _ (put_spi _ _ _) E1), put_put.
      pose proof (read_phase_on (put s1 false f2) f2 f' r2 d (put_spi _ _ _) E2) as [B1 B2 B3 B4 _ _]. rewrite put_put in *.
      eapply sim_frame; [apply frame_dma, frame_refl|]. apply (command_sim s n1 f f' q a d); try done. split; [done | by rewrite B2 | by rewrite B3 | by rewrite B4].
    + rewrite (Hw' eq_refl). rewrite app_nil_r in E. rewrite (spi_send_on _ _ f f' _ (put_spi _ _ _) E), put_put. apply (command_sim s n1 f f' q a d); done.
Qed.

(** *** Program data *)

Definition fed (val : Z) (s : Board) (l : list Z) : list Z := take (Z.to_nat (pgm_len s - tx_len s)) (map (fun i => (val .>> (i * 8)) .& 0xFF) l).

Lemma spi_transfer_fields (s : Board) v : let s' := (spi_transfer s v).1 in tx_len s' = tx_len s /\ pgm_len s' = pgm_len s /\ forall k, s' <| tx_len := k |> = (spi_transfer (s <| tx_len := k |>) v).1.
Proof. unfold spi_transfer. change (spi (s <| tx_len := _ |>)) with (spi s). by destruct (ssi_transfer [spi s] v) as [[|d ?] r]. Qed.
Lemma spi_send_tx l (s : Board) k : (spi_send s l) <| tx_len := k |> = spi_send (s <| tx_len := k |>) l.
Proof.
  unfold spi_send. revert s. induction l as [|v l IH]; intros s; [done|]. cbn [foldl]. rewrite IH. destruct (spi_transfer_fields s v) as (_ & _ & E). by rewrite E.
Qed.

Lemma tfdr_feed_eq val l (s : Board) : tfdr_feed s val l = (spi_send s (fed val s l)) <| tx_len := tx_len s + zlen (fed val s l) |>.
Proof.
  revert s. induction l as [|i l IH]; intros s; unfold fed; cbn [map tfdr_feed].
  { rewrite take_nil. cbn. rewrite Z.add_0_r. by destruct s. }
  destruct (Z.ltb_spec (tx_len s) (pgm_len s)).
  - replace (Z.to_nat (pgm_len s - tx_len s)) with (S (Z.to_nat (pgm_len s - (tx_len s + 1)))) by lia. cbn [take]. rewrite IH. unfold fed. cbn [tx_len pgm_len modify].
    destruct (spi_transfer_fields s ((val .>> (i * 8)) .& 0xFF)) as (E1 & E2 & E3). rewrite E1, E2.
    unfold spi_send at 2. cbn [foldl]. fold (spi_send (spi_transfer s ((val .>> (i * 8)) .& 0xFF)).1 (take (Z.to_nat (pgm_len s - (tx_len s + 1))) (map (λ i0 : Z, (val .>> (i0 * 8)) .& 0xFF) l))).
    rewrite !spi_send_tx. cbn [length]. rewrite Nat2Z.inj_succ, <- Z.add_1_l, Z.add_assoc. done.
  - replace (Z.to_nat (pgm_len s - tx_len s)) with O by lia. cbn. rewrite Z.add_0_r. by destruct s.
Qed.

Lemma programmed_other we m a t l len x : 0 <= t -> t + zlen l <= len -> a mod 256 + len <= 256 -> x / 256 <> a / 256 -> programmed we m (a + t) l x = m x.
Proof.
  intros Ht Hl Hp Hx. unfold programmed. destruct (Z.leb_spec (a + t) x), (Z.ltb_spec x (a + t + zlen l)); rewrite ?andb_false_r, ?andb_true_r; try done.
  exfalso. apply Hx. dlia.
Qed.

Lemma word_sim z (s : Board) n val : sim z s n -> sim z (flexspi_write_tfdr s val) (nor_word n val).
Proof.
  intros Hsim. pose proof Hsim as (lvl & f & Hsz & [Hs [Hz Hdiv] Hf4 Hd Hbp Hb Hn Hw Hfl Hc Hm]). unfold flexspi_write_tfdr, nor_word.
  destruct (programming n) as [[[a len] t]|] eqn:Ep; [|destruct Hm as (-> & _); exact Hsim]. destruct Hm as ((Hpe & Ha & Hlen & Ht) & Hflu & -> & Hst & Hca & Htl & Har & Hpage & Hm). rewrite Hpe. cbv zeta.
  rewrite tfdr_feed_eq. unfold fed. rewrite Hlen, Ht. fold (word_bytes val). set (l := take (Z.to_nat (len - t)) (word_bytes val)).
  assert (Hll : t + zlen l <= len) by (unfold l; rewrite length_take; lia).
  assert (Hl8 : Forall (in_range 8) l) by (apply Forall_take; unfold word_bytes; apply Forall_map, Forall_forall; intros i _; apply in_range_land_r; [lia | split; [lia | reflexivity]]).
  change flash_bytes with (2 ^ 23) in *. destruct (xfer_program l f Hst Hbp) as (f' & rs & E & [K1 K2 K3 K4] & Hx & Hst' & Hca'); [change flash_bytes with (2 ^ 23); rewrite Hca; dlia.. | done|].
  rewrite (spi_send_on l s f f' rs Hs E). clear E. set (s1 := (put s false f') <| tx_len := t + zlen l |>). rewrite Hca, <- Hw in Hx.
  assert (Hc' : forall x, 0 <= x < 2 ^ 23 -> storage f' x = programmed (wel n) (content n) (a + t) l x).
  { intros x Hxr. rewrite Hx. apply programmed_ext. specialize (Hc x Hxr). by rewrite Hflu in Hc. }
  assert (Hb' : forall x, in_range 8 (storage f' x)) by (intros x; rewrite Hx; apply programmed_range, Hb).
  change (pgm_len s1) with (pgm_len s). change (tx_len s1) with (t + zlen l). change (pgm_addr s1) with (pgm_addr s). rewrite Hlen, Ha.
  destruct (Z.leb_spec len (t + zlen l)).
  - destruct (finish_on s1 f' NOR_PP a) as (lvl' & g & [G1 [[Q1 Q2 Q3] Q4 Q5] G3 G4 G5 G6 G7 G8 G9]); [done | split; congruence || done | done | done|].
    eapply sim_frame; [apply frame_dma, frame_irq, frame_reg, frame_refl|]. exists lvl', g. split; [by rewrite G5|]. split; cbn [content wel programming flushed modify]; try done; try congruence.
    + by rewrite G5.
    + by rewrite G6.
    + intros x Hxr. rewrite Hflu, G4. by apply Hc'.
    + split; [done|]. split; [done|]. intros x Hxr. rewrite G5 in Hxr. change (flash_size s1) with (flash_size s) in *. rewrite G9 by lia.
      assert (flexspi_dirty_range NOR_PP a (flash_size s) = Some (a - a mod 256, 256)) as -> by (unfold flexspi_dirty_range; cbv zeta; change MCXN_NOR_PAGE with (2 ^ 8); rewrite (align_down a 8) by lia; done).
      unfold mirrored, shows. cbn [stale reloaded content modify]. destruct (decide (a - a mod 256 <= x < a - a mod 256 + 256)); [rewrite copy_range_in, fresh_in by done; apply Hc'; lia|].
      rewrite copy_range_out, fresh_out by done. assert (x / 256 <> a / 256) by dlia. rewrite (programmed_other _ _ a t l len) by (done || lia). by apply Hm.
  - eapply sim_frame; [apply frame_dma, frame_refl|]. exists false, f'. split; [done|]. split; cbn [content wel programming flushed modify]; try done; try congruence.
    + intros x Hxr. rewrite Hflu. by apply Hc'.
    + split; [done|]. split; [done|]. split; [done|]. split; [done|]. split; [rewrite Hca', Hca, Z.mod_small by (change flash_bytes with (2 ^ 23); dlia); lia|].
      split; [lia|]. split; [done|]. split; [done|]. intros x Hxr Hne. unfold shows. cbn [stale reloaded content modify]. rewrite (programmed_other _ _ a t l len) by (done || lia). by apply Hm.
Qed.

(** ** Every run *)

(** The images registered with the ROM loader, at their offsets in the window.  A
    reset writes the data of each; the stores that pad an image go through the
    window's store path, which refuses them.  The window is not a ROM to the loader,
    so the data are kept and written again at every reset. *)
Record Rom := mkRom { rom_addr : Z; rom_data : list Z }.
Definition rom_reset (roms : list Rom) (m : Z -> Z) : Z -> Z := foldl (fun m rom => mem_store m (rom_addr rom) (rom_data rom)) m roms.
Definition covered (roms : list Rom) (x : Z) : bool := existsb (fun rom => (rom_addr rom <=? x) && (x <? rom_addr rom + zlen (rom_data rom))) roms.
Definition rom_byte (roms : list Rom) : Z -> Z := rom_reset roms (fun _ => 0).
Definition rom_ok (size : Z) (rom : Rom) : Prop := 0 <= rom_addr rom /\ rom_addr rom + zlen (rom_data rom) <= size /\ Forall (in_range 8) (rom_data rom).

Lemma rom_reset_at roms m x : rom_reset roms m x = if covered roms x then rom_byte roms x else m x.
Proof.
  unfold rom_byte. assert (Hg : forall m m', rom_reset roms m x = if covered roms x then rom_reset roms m' x else m x); [|apply Hg].
  induction roms as [|rom roms IH]; intros m1 m2; [done|]. unfold rom_reset. cbn [foldl covered existsb]. fold (rom_reset roms (mem_store m1 (rom_addr rom) (rom_data rom))).
  fold (rom_reset roms (mem_store m2 (rom_addr rom) (rom_data rom))). fold (covered roms x). rewrite (IH _ (mem_store m2 (rom_addr rom) (rom_data rom))).
  destruct (covered roms x); [by rewrite orb_true_r|]. rewrite orb_false_r, (IH (mem_store m2 _ _) m1). unfold mem_store. by destruct (_ && _).
Qed.
Lemma covered_inside size roms x : Forall (rom_ok size) roms -> covered roms x = true -> 0 <= x < size.
Proof.
  intros Hr Hx. apply existsb_exists in Hx as (rom & Hin & Hx). rewrite Forall_forall in Hr. destruct (Hr rom ltac:(by apply list_elem_of_In)) as (H1 & H2 & _).
  apply andb_prop in Hx as [E1 E2]. apply Z.leb_le in E1. apply Z.ltb_lt in E2. lia.
Qed.

(** The board at power-on: a blank flash without a drive, a window of [size] bytes of
    zeros with the images. *)
Definition power_on (size : Z) (roms : list Rom) : Board :=
  mcxn_flexspi_reset (mkFlexSPI _ (rom_byte roms) false false false false false [] size (dev false (m25p80_reset (m25p80_realize None))) false (replicate 4096 0) 0 0 0 false 0 0).
Definition nor_on (size : Z) (roms : list Rom) : Nor :=
  mkNor (fun x => if x <? size then rom_byte roms x else 0xFF) false None false (fun _ => false) (rom_byte roms).

(** A reset: the loader writes the images into the window.  As long as nothing has
    been programmed they are what will be; later they only hide the flash. *)
Definition nor_reset (n : Nor) (roms : list Rom) : Nor :=
  if flushed n then n <| stale := fun x => stale n x || covered roms x |> <| reloaded := rom_reset roms (reloaded n) |>
  else n <| content := rom_reset roms (content n) |>.

(** What the guest and the machine do, beside what it means for the flash. *)
Inductive guest (size : Z) (roms : list Rom) : Board * Nor -> Board * Nor -> Prop :=
  | guest_read s n off : guest size roms (s, n) ((mcxn_flexspi_read s off).1, n)
  | guest_write s n off v : is_tfdr off = false -> (off = FLEXSPI_IPCMD -> flag (u32 v) IPCMD_TRG = false) -> guest size roms (s, n) (mcxn_flexspi_write s off v, n)
  | guest_data s n off v : is_tfdr off = true -> guest size roms (s, n) (mcxn_flexspi_write s off v, nor_word n (u32 v))
  | guest_command s n v : let q := flexspi_decode_lut s (IPCR1_ISEQID (reg s FLEXSPI_IPCR1)) in let d := IPCR1_IDATSZ (reg s FLEXSPI_IPCR1) in
      let a := nor_off s (reg s FLEXSPI_IPCR0) in
      flag (u32 v) IPCMD_TRG = true -> programming n = None -> plain q a d ->
      guest size roms (s, n) (mcxn_flexspi_write s FLEXSPI_IPCMD v, nor_ipcmd n size q a d)
  | guest_store s n off v : guest size roms (s, n) (mcxn_flexspi_nor_write s off v, n)
  | guest_load s n off bs : flushed n = false -> 0 <= off -> off + zlen bs <= size -> Forall (in_range 8) bs ->
      guest size roms (s, n) (s <| nor := mem_store (nor s) off bs |>, n <| content := mem_store (content n) off bs |>)
  | guest_reset s n : programming n = None -> guest size roms (s, n) ((mcxn_flexspi_reset s) <| nor := rom_reset roms (nor s) |>, nor_reset n roms)
  | guest_chip_reset s n lvl f : programming n = None -> spi s = dev lvl f -> guest size roms (s, n) (put s lvl (m25p80_reset f), n <| wel := false |>)
  | guest_loadvm s n : guest size roms (s, n) (mcxn_flexspi_post_load s, n).

Lemma write_ipcmd (s : Board) v : mcxn_flexspi_write s FLEXSPI_IPCMD v = if flag (u32 v) IPCMD_TRG then flexspi_ip_command s else s.
Proof. unfold mcxn_flexspi_write. generalize (u32 v). intros w. reflexivity. Qed.
Lemma write_tfdr (s : Board) off v : is_tfdr off = true -> mcxn_flexspi_write s off v = flexspi_write_tfdr s (u32 v).
Proof.
  intros Ht. unfold mcxn_flexspi_write. cbv zeta. fold (is_tfdr off). rewrite Ht. unfold is_tfdr, FLEXSPI_TFDR0 in Ht. apply andb_prop in Ht as [H1 H2]. apply Z.leb_le in H1. apply Z.ltb_lt in H2.
  assert (E : forall k, k < 0x180 -> (off =? k) = false) by (intros k Hk; apply Z.eqb_neq; lia). cbn [existsb]. rewrite !E by reflexivity. cbn [orb].
  rewrite (proj2 (Z.leb_gt MCXN_FLEXSPI_SIZE off)) by (unfold MCXN_FLEXSPI_SIZE; lia). by rewrite (proj2 (Z.ltb_ge off (FLEXSPI_RFDR0 + 32 * 4))), andb_false_r by (unfold FLEXSPI_RFDR0; lia).
Qed.

Lemma mem_store_range m a bs x : Forall (in_range 8) bs -> in_range 8 (m x) -> in_range 8 (mem_store m a bs x).
Proof.
  intros Hb Hm. unfold mem_store. destruct ((a <=? x) && (x <? a + zlen bs)) eqn:E; [|done]. apply andb_prop in E as [E1 E2]. apply Z.leb_le in E1. apply Z.ltb_lt in E2.
  apply Forall_arr_get; [done | lia].
Qed.

Lemma load_sim z (s : Board) n off bs : sim z s n -> flushed n = false -> 0 <= off -> off + zlen bs <= z -> Forall (in_range 8) bs ->
  sim z (s <| nor := mem_store (nor s) off bs |>) (n <| content := mem_store (content n) off bs |>).
Proof.
  intros (lvl & f & Hsz & [Hs [Hz Hdiv] Hf4 Hd Hbp Hb Hn Hw Hfl Hc Hm]) Hflu Ho Hl Hbs. exists lvl, f. split; [done|]. rewrite Hflu in *.
  assert (Hpn : programming n = None) by (destruct (programming n) as [[[a len] t]|]; [by destruct Hm as (_ & ? & _) | done]). rewrite Hpn in Hm. destruct Hm as (Hp & Hi & Hm).
  split; cbn [spi flash_size nor loader_flushed pgm_pending content wel programming flushed modify]; try done; [intros x; by apply mem_store_range | congruence| |].
  - intros x Hx. rewrite Hflu. destruct (Hc x Hx) as (H1 & H2 & H3). split; [done|]. split; [|done]. unfold mem_store. rewrite H2. zcases; done || lia.
  - rewrite Hpn. split; [done|]. split; [done|]. intros x Hx. destruct (Hc x ltac:(lia)) as (_ & _ & H3). pose proof (Hm x Hx) as E. unfold shows in *. cbn [stale reloaded content modify].
    rewrite H3 in *. unfold mem_store. by rewrite E.
Qed.

Lemma rom_reset_range size roms m x : Forall (rom_ok size) roms -> in_range 8 (m x) -> in_range 8 (rom_reset roms m x).
Proof.
  intros Hr. revert m. induction Hr as [|rom roms (_ & _ & Hd) _ IH]; intros m Hm; [done|]. unfold rom_reset. cbn [foldl]. by apply IH, mem_store_range.
Qed.

Lemma reset_sim z roms (s : Board) n : Forall (rom_ok z) roms -> sim z s n -> programming n = None -> sim z ((mcxn_flexspi_reset s) <| nor := rom_reset roms (nor s) |>) (nor_reset n roms).
Proof.
  intros Hr (lvl & f & Hsz & [Hs [Hz Hdiv] Hf4 Hd Hbp Hb Hn Hw Hfl Hc Hm]) Hp. rewrite Hp in Hm. destruct Hm as (Hpend & Hi & Hm). subst z.
  exists lvl, f. split; [done|]. unfold nor_reset. assert (Hn' : forall x, in_range 8 (rom_reset roms (nor s) x)) by (intros x; by apply (rom_reset_range (flash_size s))).
  destruct (flushed n) eqn:Ef; (split; try done; [cbn; by rewrite Ef| |]).
  - intros x Hx. cbn. rewrite Ef. by apply Hc.
  - cbn [programming modify]. rewrite Hp. split; [done|]. split; [done|]. intros x Hx. unfold shows. cbn [stale reloaded content modify nor flash_size] in *.
    rewrite !rom_reset_at. destruct (covered roms x); [by rewrite orb_true_r|]. rewrite orb_false_r. by apply Hm.
  - intros x Hx. cbn [flushed content stale modify nor flash_size]. change (flash_size (mcxn_flexspi_reset s)) with (flash_size s). rewrite Ef. destruct (Hc x Hx) as (H1 & H2 & H3). split; [done|]. split; [|done].
    rewrite !rom_reset_at, H2. destruct (covered roms x) eqn:Ec; [|done]. pose proof (covered_inside _ _ _ Hr Ec). by rewrite (proj2 (Z.ltb_lt _ _)) by lia.
  - cbn [programming modify]. rewrite Hp. split; [done|]. split; [done|]. intros x Hx. change (flash_size _) with (flash_size s) in Hx. unfold shows. cbn [stale reloaded content modify nor].
    destruct (Hc x ltac:(lia)) as (_ & H2 & ->). rewrite !rom_reset_at, H2. by rewrite (proj2 (Z.ltb_lt _ _)) by lia.
Qed.

Lemma chip_reset_sim z (s : Board) n lvl f : sim z s n -> programming n = None -> spi s = dev lvl f -> sim z (put s lvl (m25p80_reset f)) (n <| wel := false |>).
Proof.
  intros (l0 & f0 & Hsz & [Hs [Hz Hdiv] Hf4 Hd Hbp Hb Hn Hw Hfl Hc Hm]) Hp Hs'. rewrite Hs in Hs'. injection Hs' as <- <-. rewrite Hp in Hm. destruct Hm as (Hpend & Hi & Hm).
  exists l0, (m25p80_reset f0). split; [done|]. split; try done. cbn [programming modify]. by rewrite Hp.
Qed.

Lemma guest_sim z roms p p' : Forall (rom_ok z) roms -> guest z roms p p' -> sim z p.1 p.2 -> sim z p'.1 p'.2.
Proof.
  intros Hr [s n off|s n off v Ht Hi|s n off v Ht|s n v q d a Hv Hp Hpl|s n off v|s n off bs Hf Ho Hl Hb|s n Hp|s n lvl f Hp Hs|s n]; cbn [fst snd]; intros Hsim.
  - by apply (sim_frame z s); [apply read_frame|].
  - destruct (decide (off = FLEXSPI_IPCMD)) as [->|Hne]; [rewrite write_ipcmd; by rewrite (Hi eq_refl) | by apply (sim_frame z s); [apply write_frame|]].
  - rewrite write_tfdr by done. by apply word_sim.
  - rewrite write_ipcmd, Hv. by apply ip_sim.
  - done.
  - by apply load_sim.
  - by apply reset_sim.
  - by apply chip_reset_sim.
  - by apply (sim_frame z s); [apply frame_irq, frame_refl|].
Qed.

Lemma rom_byte_range size roms x : Forall (rom_ok size) roms -> in_range 8 (rom_byte roms x).
Proof. intros Hr. apply (rom_reset_range size); [done|]. split; [done | reflexivity]. Qed.

Lemma power_on_sim size roms : 0 < size <= flash_bytes -> size mod 256 = 0 -> Forall (rom_ok size) roms -> sim size (power_on size roms) (nor_on size roms).
Proof.
  intros Hz Hd Hi. exists false, (m25p80_reset (m25p80_realize None)). split; [done|]. split; try done; [intros x; by apply (rom_byte_range size)|].
  cbn. split; [done|]. split; [done|]. intros x Hx. unfold shows. cbn. by rewrite (proj2 (Z.ltb_lt x size)) by lia.
Qed.

Lemma reachable size roms s n : 0 < size <= flash_bytes -> size mod 256 = 0 -> Forall (rom_ok size) roms ->
  rtc (guest size roms) (power_on size roms, nor_on size roms) (s, n) -> sim size s n.
Proof.
  intros Hz Hd Hi Hrun. change (sim size (s, n).1 (s, n).2). refine (rtc_invariant (guest size roms) (fun p => sim size p.1 p.2) _ _ _ Hrun _); [intros p p'; by apply guest_sim | by apply power_on_sim].
Qed.

(** The marks are where the loader wrote. *)
Definition marks_ok (roms : list Rom) (n : Nor) : Prop := forall x, stale n x = true -> covered roms x = true /\ reloaded n x = rom_byte roms x.
Lemma marks_command roms n c a : marks_ok roms n -> marks_ok roms (nor_command n c a).
Proof.
  intros Hn. assert (Hf : forall m o k, marks_ok roms (n <| content := m |> <| stale := fresh (stale n) o k |>)) by (intros m o k x Hx; cbn in Hx; apply andb_prop in Hx as [Hx _]; by apply Hn).
  unfold nor_command. repeat case_match; done || apply Hf.
Qed.
Lemma marks_guest size roms p p' : guest size roms p p' -> marks_ok roms p.2 -> marks_ok roms p'.2.
Proof.
  intros [s n off|s n off v Ht Hi|s n off v Ht|s n v q d a Hv Hp Hpl|s n off v|s n off bs Hf Ho Hl Hb|s n Hp|s n lvl f Hp Hs|s n]; cbn [fst snd]; intros Hn; try done.
  - unfold nor_word. destruct (programming n) as [[[a len] t]|]; [|done]. cbv zeta. destruct (_ <=? _); [|done]. intros x Hx. cbn in Hx. apply andb_prop in Hx as [Hx _]. by apply Hn.
  - unfold nor_ipcmd. destruct (_ || _); [done|]. cbv zeta. assert (Hfl : marks_ok roms (nor_flush n size)) by (unfold nor_flush; by destruct (flushed n)). destruct (writes q d); [done | by apply marks_command].
  - unfold nor_reset. destruct (flushed n); [|done]. intros x Hx. cbn [stale reloaded modify] in *. rewrite rom_reset_at.
    destruct (covered roms x) eqn:Ec; [done|]. rewrite orb_false_r in Hx. by destruct (Hn x Hx) as [? _]; congruence.
Qed.

(** C8: the window is the flash.  From power-on with any images, under any sequence of
    register accesses, IP commands of a driver (reads, status, write enable, aligned
    erases, programs within a page), program data, CPU stores into the window and
    resets between commands, the controller and the chip behind it act as one memory:
    the cells of the chip hold the content that the commands describe from the first
    command on, no access leaves the storage of the chip, and outside a page program
    the AHB window shows that content, except the bytes of an image that the ROM
    loader has written again at a reset and no command has refreshed since: there it
    shows the image.  Without such a reset there is no exception. *)
Theorem flexspi_refines_nor size roms s n : 0 < size <= flash_bytes -> size mod 256 = 0 -> Forall (rom_ok size) roms ->
  rtc (guest size roms) (power_on size roms, nor_on size roms) (s, n) ->
  (programming n = None -> forall x, 0 <= x < size -> nor s x = if stale n x then rom_byte roms x else content n x) /\
  (forall x, stale n x = true -> covered roms x = true) /\
  exists lvl f, spi s = dev lvl f /\ write_enable f = wel n /\ (flushed n = true -> forall x, 0 <= x < flash_bytes -> storage f x = content n x).
Proof.
  intros Hz Hd Hi Hrun. destruct (reachable size roms s n Hz Hd Hi Hrun) as (lvl & f & <- & [Hs _ _ _ _ _ _ Hw _ Hc Hm]).
  assert (Hmk : marks_ok roms n).
  { change (marks_ok roms (s, n).2). refine (rtc_invariant (guest (flash_size s) roms) (fun p => marks_ok roms p.2) _ _ _ Hrun _); [intros p p'; apply marks_guest | done]. }
  split; [|split].
  - intros Hp. rewrite Hp in Hm. destruct Hm as (_ & _ & Hm). intros x Hx. rewrite (Hm x Hx). unfold shows. destruct (stale n x) eqn:E; [by apply Hmk | done].
  - intros x Hx. by apply Hmk.
  - exists lvl, f. split; [done|]. split; [done|]. intros Hf x Hx. specialize (Hc x Hx). by rewrite Hf in Hc.
Qed.

(** Register writes that neither issue a command nor feed one. *)
Definition write_regs (s : Board) (l : list (Z * Z)) : Board := foldl (fun s e => mcxn_flexspi_write s e.1 e.2) s l.
Lemma write_regs_run z roms l s n : Forall (fun e => is_tfdr e.1 = false /\ e.1 <> FLEXSPI_IPCMD) l -> rtc (guest z roms) (s, n) (write_regs s l, n).
Proof.
  revert s. induction l as [|e l IH]; intros s Hl; [apply rtc_refl|]. apply Forall_cons in Hl as [[H1 H2] Hl]. eapply rtc_l; [by apply guest_write; [exact H1|]|]. by apply IH.
Qed.

Lemma command_run z roms p s n v : let q := flexspi_decode_lut s (IPCR1_ISEQID (reg s FLEXSPI_IPCR1)) in let d := IPCR1_IDATSZ (reg s FLEXSPI_IPCR1) in
  let a := nor_off s (reg s FLEXSPI_IPCR0) in
  rtc (guest z roms) p (s, n) -> flag (u32 v) IPCMD_TRG = true -> programming n = None -> plain q a d -> rtc (guest z roms) p (mcxn_flexspi_write s FLEXSPI_IPCMD v, nor_ipcmd n z q a d).
Proof. intros q d a Hr Hv Hp Hpl. eapply rtc_r; [exact Hr|]. by apply guest_command. Qed.

(** A page of 0x5A in a window of one page: the first command, a write enable, puts
    it into the chip. *)
Definition page_rom : list Rom := [mkRom 0 (replicate 256 0x5A)].
Lemma page_rom_ok : Forall (rom_ok 256) page_rom.
Proof. by repeat constructor. Qed.
Definition one_page : Board := write_regs (power_on 256 page_rom) [(FLEXSPI_LUT0, 0x406)].
Lemma flexspi_refines_nor_witness : exists lvl f, spi (mcxn_flexspi_write one_page FLEXSPI_IPCMD 1) = dev lvl f /\ storage f 5 = 0x5A.
Proof.
  destruct (flexspi_refines_nor 256 page_rom (mcxn_flexspi_write one_page FLEXSPI_IPCMD 1)
    (nor_ipcmd (nor_on 256 page_rom) 256 (flexspi_decode_lut one_page (IPCR1_ISEQID (reg one_page FLEXSPI_IPCR1))) (nor_off one_page (reg one_page FLEXSPI_IPCR0)) (IPCR1_IDATSZ (reg one_page FLEXSPI_IPCR1))))
    as (_ & _ & lvl & f & Hs & _ & Hf).
  - by vm_compute.
  - reflexivity.
  - apply page_rom_ok.
  - refine (command_run 256 page_rom _ one_page (nor_on 256 page_rom) 1 _ _ _ _); [apply write_regs_run; repeat constructor; done | exact eq_refl | exact eq_refl|].
    assert (Eq : flexspi_decode_lut one_page (IPCR1_ISEQID (reg one_page FLEXSPI_IPCR1)) = mkSeq true WREN 0 0 false false) by (vm_compute; reflexivity).
    rewrite Eq. apply plain_mode; [set_solver | done | by left | reflexivity].
  - exists lvl, f. split; [done|]. pose proof (Hf ltac:(vm_compute; reflexivity)) as Hc. clear Hf Hs.
    etransitivity; [exact (Hc 5 ltac:(change flash_bytes with (2 ^ 23); lia))|]. clear. vm_compute. reflexivity.
Defined.
