(* ===== verification/FlexSpiXip.v ===== *)
(** * Reprogramming the code that runs in place

    What a driver gets from the FlexSPI: a sector is erased and a page of it is
    programmed by IP commands, and the AHB window shows the new bytes.  The last part
    shows where the controller departs from what its comments say. *)
From S2P Require Import Prelude Ssi M25p80 FlexSpi FlexSpiNor.

(** ** Commands leave the look-up table alone *)

Definition same_regs (s s' : Board) : Prop :=
  length (regs s') = length (regs s) /\ forall i, 0 <= i -> i <> FLEXSPI_INTR .>> 2 -> (regs s').[i] = (regs s).[i].

Lemma same_regs_eq s s' : regs s' = regs s -> same_regs s s'.
Proof. unfold same_regs. by intros ->. Qed.
Lemma same_regs_trans s s1 s2 : same_regs s s1 -> same_regs s1 s2 -> same_regs s s2.
Proof. intros [L1 H1] [L2 H2]. split; [congruence|]. intros i Hi Hn. by rewrite H2, H1. Qed.
Lemma same_regs_intr s s1 v : same_regs s s1 -> same_regs s (set_reg s1 FLEXSPI_INTR v).
Proof. intros [L1 H1]. split; cbn [regs set_reg modify]; [by rewrite length_arr_set|]. intros i Hi Hn. rewrite arr_get_set_ne by (done || congruence). by apply H1. Qed.
Lemma same_regs_set s s1 s2 : same_regs s s1 -> regs s2 = regs s1 -> same_regs s s2.
Proof. unfold same_regs. by intros [L1 H1] ->. Qed.

Lemma regs_transfer (s : Board) v : regs (spi_transfer s v).1 = regs s.
Proof. unfold spi_transfer. by destruct (ssi_transfer [spi s] v) as [[|? ?] ?]. Qed.
Lemma regs_send l (s : Board) : regs (spi_send s l) = regs s.
Proof. unfold spi_send. revert s. induction l as [|v l IH]; intros s; [done|]. cbn [foldl]. by rewrite IH, regs_transfer. Qed.
Lemma regs_recv n (s : Board) : regs (spi_recv s n).1 = regs s.
Proof.
  revert s. induction n as [|n IH]; intros s; [done|]. cbn [spi_recv]. pose proof (regs_transfer s 0) as E. destruct (spi_transfer s 0) as [s1 r]. specialize (IH s1).
  destruct (spi_recv s1 n) as [s2 rs]. cbn [fst] in *. congruence.
Qed.
Lemma regs_nor_read (s : Board) off n : regs (nor_read s off n).1 = regs s.
Proof.
  unfold nor_read, spi_send_addr. cbv zeta. pose proof (regs_recv (Z.to_nat n) (spi_send (spi_send (spi_select s true) [NOR_READ]) (addr_bytes off 24))) as E. rewrite !regs_send in E.
  destruct (spi_recv _ _) as [s1 l]. exact E.
Qed.
Lemma regs_resync (s : Board) off n : regs (mirror_resync s off n) = regs s.
Proof. unfold mirror_resync. destruct (_ <=? _); [done|]. cbv zeta. pose proof (regs_nor_read s off (Z.min n (u32 (flash_size s - off)))) as E. by destruct (nor_read _ _ _). Qed.
Lemma regs_flush (s : Board) : regs (flexspi_flush_loader_image s) = regs s.
Proof.
  unfold flexspi_flush_loader_image. transitivity (regs (s <| loader_flushed := true |>)); [|done]. generalize (s <| loader_flushed := true |>). clear.
  induction (map _ _) as [|off l IH]; intros s1; [done|]. cbn [foldl]. rewrite IH. unfold flush_page. destruct (forallb _ _); [done|]. unfold nor_program_page, spi_send_addr. cbv zeta.
  assert (E : forall (x : Board) b, regs (spi_select x b) = regs x) by done. by rewrite E, !regs_send, !E, regs_send.
Qed.

Lemma finish_regs (s s1 : Board) c a : same_regs s s1 -> same_regs s (flexspi_finish s1 c a).
Proof.
  intros H1. unfold flexspi_finish, flexspi_done. cbv zeta. eapply same_regs_set; [|done]. do 2 apply same_regs_intr. apply (same_regs_set s s1); [done|]. cbn [regs modify].
  destruct (flexspi_dirty_range _ _ _) as [[o k]|]; [by rewrite regs_resync | done].
Qed.
Lemma dma_regs (s s1 : Board) : same_regs s s1 -> same_regs s (flexspi_update_dma_req s1).
Proof. intros H1. eapply same_regs_set; [done|]. unfold flexspi_update_dma_req. cbv zeta. by repeat case_match. Qed.
Lemma irq_regs (s s1 : Board) : same_regs s s1 -> same_regs s (mcxn_flexspi_update_irq s1).
Proof. done. Qed.
Lemma read_phase_regs (s s1 : Board) d : same_regs s s1 -> same_regs s (flexspi_read_phase s1 d).
Proof.
  intros H1. unfold flexspi_read_phase. pose proof (regs_recv (Z.to_nat d) s1) as E. destruct (spi_recv s1 _) as [s2 buf]. cbn [fst] in E. cbv zeta.
  destruct (d =? 0); [|apply same_regs_intr]; by apply (same_regs_set s s1).
Qed.

Lemma ip_command_regs (s : Board) : same_regs s (flexspi_ip_command s).
Proof.
  rewrite ip_command_eq. assert (Hc : same_regs s (cleared s)) by (apply same_regs_intr; by apply same_regs_eq).
  set (q := flexspi_decode_lut s _). set (a := nor_off s _). set (d := IPCR1_IDATSZ _). assert (Hi : same_regs s (issued s q a)).
  { apply (same_regs_set s (cleared s)); [done|]. unfold issued. rewrite regs_send. cbv zeta. destruct (loader_flushed (cleared s)); [done|]. change (regs (spi_select ?x true)) with (regs x). apply regs_flush. }
  destruct (negb (valid q) || _); [unfold flexspi_error; eapply same_regs_set; [apply same_regs_intr, Hc | done]|].
  destruct (has_read q); [by apply dma_regs, finish_regs, read_phase_regs|]. destruct (_ && _); [|by apply finish_regs].
  assert (Hp : same_regs s ((issued s q a) <| pgm_pending := true |> <| pgm_addr := a |> <| pgm_len := d |>)) by (by apply (same_regs_set s (issued s q a))).
  revert Hp. generalize ((issued s q a) <| pgm_pending := true |> <| pgm_addr := a |> <| pgm_len := d |>). intros s1 Hp. cbv zeta. by apply dma_regs, irq_regs, same_regs_intr.
Qed.

(** ** One command of a driver *)

(** IPCR0, IPCR1 and the trigger. *)
Definition ipcmd (s : Board) (k addr d : Z) : Board :=
  mcxn_flexspi_write (mcxn_flexspi_write (mcxn_flexspi_write s FLEXSPI_IPCR0 addr) FLEXSPI_IPCR1 ((k .<< 16) .| d)) FLEXSPI_IPCMD 1.

Lemma decode_same (s s' : Board) k : 0 <= k -> (forall i, 0x200 .>> 2 <= i -> (regs s').[i] = (regs s).[i]) -> flexspi_decode_lut s' k = flexspi_decode_lut s k.
Proof.
  intros Hk E. unfold flexspi_decode_lut. f_equal. apply map_ext_in. intros i Hi. apply list_elem_of_In, elem_of_seqZ in Hi. apply E. unfold FLEXSPI_LUT0. change (0x200 .>> 2) with 128. lia.
Qed.

Lemma ipcr1_fields k d : 0 <= k < 16 -> 0 <= d < 2 ^ 16 -> IPCR1_ISEQID (u32 ((k .<< 16) .| d)) = k /\ IPCR1_IDATSZ (u32 ((k .<< 16) .| d)) = d.
Proof.
  intros Hk Hd. unfold IPCR1_ISEQID, IPCR1_IDATSZ. change 0xF with (Z.ones 4). change 0xFFFF with (Z.ones 16).
  assert (E : (k .<< 16) .| d = k * 2 ^ 16 + d).
  { rewrite <- Z.shiftl_mul_pow2 by lia. rewrite <- Z.lxor_lor, Z.add_nocarry_lxor; [done| |]; apply Z.bits_inj'; intros i Hi; rewrite Z.land_spec, Z.bits_0; (destruct (Z.ltb_spec i 16);
      [by rewrite Z.shiftl_spec_low | rewrite (testbit_range 16 d) by lia; apply andb_false_r]). }
  rewrite E, wrap_id by lia. rewrite !Z.land_ones, Z.shiftr_div_pow2 by lia. split; dlia.
Qed.

Lemma write_plain (s : Board) off v : off ∈ [FLEXSPI_IPCR0; FLEXSPI_IPCR1] -> mcxn_flexspi_write s off v = set_reg s off (u32 v).
Proof. intros Ho. unfold mcxn_flexspi_write. generalize (u32 v). intros w. cmd_cases Ho; reflexivity. Qed.

Lemma ipcmd_sim z (s : Board) n k addr d : sim z s n -> zlen (regs s) = 1024 -> programming n = None -> 0 <= k < 16 -> 0 <= d < 2 ^ 16 -> 0 <= addr < z ->
  addr .& (z - 1) = addr -> plain (flexspi_decode_lut s k) addr d ->
  sim z (ipcmd s k addr d) (nor_ipcmd n z (flexspi_decode_lut s k) addr d) /\ zlen (regs (ipcmd s k addr d)) = 1024 /\
    forall k', 0 <= k' -> flexspi_decode_lut (ipcmd s k addr d) k' = flexspi_decode_lut s k'.
Proof.
  intros Hsim Hlen Hp Hk Hd Ha Hmask Hpl. unfold ipcmd. rewrite write_ipcmd, !write_plain by set_solver. change (flag (u32 1) IPCMD_TRG) with true. cbv iota.
  set (s1 := set_reg (set_reg s FLEXSPI_IPCR0 (u32 addr)) FLEXSPI_IPCR1 (u32 ((k .<< 16) .| d))).
  assert (Hsim1 : sim z s1 n) by (apply (sim_frame z s); [apply frame_reg, frame_reg, frame_refl | done]). pose proof Hsim as (lvl & f & Hsz & [_ [Hz _] _ _ _ _ _ _ _ _ _]). rewrite Hsz in Hz. change flash_bytes with (2 ^ 23) in Hz.
  assert (R1 : reg s1 FLEXSPI_IPCR1 = u32 ((k .<< 16) .| d)) by (unfold reg, s1; cbn [regs set_reg modify]; by rewrite arr_get_set_eq by (rewrite length_arr_set, Hlen; vm_compute; split; [discriminate | reflexivity])).
  assert (R0 : nor_off s1 (reg s1 FLEXSPI_IPCR0) = addr).
  { unfold reg, s1. cbn [regs set_reg modify]. rewrite arr_get_set_ne by (by vm_compute). rewrite arr_get_set_eq by (rewrite Hlen; vm_compute; split; [discriminate | reflexivity]).
    unfold nor_off. change (flash_size _) with (flash_size s). rewrite Hsz, (proj2 (Z.eqb_neq z 0)), !wrap_id by lia. done. }
  destruct (ipcr1_fields k d Hk Hd) as [F1 F2]. assert (D1 : forall k', 0 <= k' -> flexspi_decode_lut s1 k' = flexspi_decode_lut s k').
  { intros k' Hk'. apply decode_same; [done|]. intros i Hi. change (0x200 .>> 2) with 128 in Hi. unfold s1. cbn [regs set_reg modify]. change (FLEXSPI_IPCR0 .>> 2) with 40. change (FLEXSPI_IPCR1 .>> 2) with 41. by rewrite !arr_get_set_ne by lia. }
  pose proof (ip_sim z s1 n) as H1. rewrite R0, R1, F1, F2, D1 in H1 by lia. split; [by apply H1|]. destruct (ip_command_regs s1) as [L1 L2].
  split; [rewrite L1; unfold s1; cbn [regs set_reg modify]; by rewrite !length_arr_set|]. intros k' Hk'. rewrite <- D1 by done. apply decode_same; [done|]. intros i Hi. change (0x200 .>> 2) with 128 in Hi.
  apply L2; [lia|]. change (FLEXSPI_INTR .>> 2) with 5. lia.
Qed.

(** ** The words of a page program *)

Definition feed (s : Board) (ws : list Z) : Board := foldl (fun s w => mcxn_flexspi_write s FLEXSPI_TFDR0 w) s ws.
Definition stream (ws : list Z) : list Z := flat_map (fun w => word_bytes (u32 w)) ws.
Definition nor_feed (n : Nor) (ws : list Z) : Nor := foldl (fun n w => nor_word n (u32 w)) n ws.

Lemma feed_sim z ws (s : Board) n : sim z s n -> sim z (feed s ws) (nor_feed n ws).
Proof. revert s n. induction ws as [|w ws IH]; intros s n Hsim; [done|]. unfold feed, nor_feed. cbn [foldl]. apply IH. rewrite write_tfdr by done. by apply word_sim. Qed.

Lemma programmed_app we m a l1 l2 x : programmed we (programmed we m a l1) (a + zlen l1) l2 x = programmed we m a (l1 ++ l2) x.
Proof.
  revert m a. induction l1 as [|b l1 IH]; intros m a; cbn [app length].
  - rewrite Z.add_0_r. apply programmed_ext, programmed_nil.
  - rewrite Nat2Z.inj_succ, <- Z.add_1_l, Z.add_assoc. rewrite <- (programmed_cons we m a b (l1 ++ l2)), <- IH. apply programmed_ext. symmetry. apply programmed_cons.
Qed.

Lemma nor_feed_done ws n : programming n = None -> nor_feed n ws = n.
Proof. intros Hp. unfold nor_feed. induction ws as [|w ws IH]; [done|]. cbn [foldl]. unfold nor_word at 2. by rewrite Hp. Qed.

Lemma nor_feed_program ws n a d t : programming n = Some (a, d, t) -> 0 <= t < d -> d - t <= 4 * zlen ws ->
  (programming (nor_feed n ws) = None /\ stale (nor_feed n ws) = fresh (stale n) (a - a mod 256) 256 /\ reloaded (nor_feed n ws) = reloaded n) /\
  forall x, content (nor_feed n ws) x = programmed (wel n) (content n) (a + t) (take (Z.to_nat (d - t)) (stream ws)) x.
Proof.
  revert n t. induction ws as [|w ws IH]; intros n t Hp Ht Hd; [cbn in Hd; lia|]. unfold nor_feed, stream. cbn [foldl flat_map]. fold (nor_feed (nor_word n (u32 w)) ws). fold (stream ws).
  unfold nor_word. rewrite Hp. cbv zeta. assert (Hw : length (word_bytes (u32 w)) = 4%nat) by done. set (l := take (Z.to_nat (d - t)) (word_bytes (u32 w))).
  assert (Hl : zlen l = Z.min (d - t) 4) by (unfold l; rewrite length_take, Hw; lia). cbn [length] in Hd. rewrite take_app. fold l. rewrite Hw. destruct (Z.leb_spec d (t + zlen l)).
  - rewrite nor_feed_done by done. split; [done|]. intros x. replace (Z.to_nat (d - t) - 4)%nat with O by lia. cbn [take content modify]. by rewrite app_nil_r.
  - set (n1 := n <| content := programmed (wel n) (content n) (a + t) l |> <| programming := Some (a, d, t + zlen l) |>).
    destruct (IH n1 (t + zlen l)) as [H1 H2]; [done | lia | lia|]. split; [done|]. intros x. rewrite H2. unfold n1. cbn [content wel modify].
    replace (Z.to_nat (d - (t + zlen l))) with (Z.to_nat (d - t) - 4)%nat by lia. rewrite Z.add_assoc. apply programmed_app.
Qed.

(** ** The registers keep their number *)

Lemma length_set_reg (s : Board) off v : length (regs (set_reg s off v)) = length (regs s).
Proof. apply length_arr_set. Qed.
Lemma length_dma (s : Board) : length (regs (flexspi_update_dma_req s)) = length (regs s).
Proof. unfold flexspi_update_dma_req. cbv zeta. by repeat case_match. Qed.
Lemma length_tfdr (s : Board) v : length (regs (flexspi_write_tfdr s v)) = length (regs s).
Proof.
  unfold flexspi_write_tfdr. destruct (pgm_pending s); [|done]. cbv zeta. rewrite length_dma, tfdr_feed_eq. set (s1 := (spi_send s _) <| tx_len := _ |>).
  assert (E : regs s1 = regs s) by apply regs_send. destruct (_ <=? _); [|by rewrite E]. change (regs (mcxn_flexspi_update_irq ?x)) with (regs x). rewrite length_set_reg.
  destruct (finish_regs s s1 NOR_PP (pgm_addr s1)) as [-> _]; [by apply same_regs_eq | done].
Qed.
Lemma length_read (s : Board) off : length (regs (mcxn_flexspi_read s off).1) = length (regs s).
Proof.
  unfold mcxn_flexspi_read. cbv zeta. repeat match goal with |- context [if ?b then (s, _) else _] => destruct b; [done|] end. destruct (_ && _); cbn [fst]; [|done]. destruct (_ && _); [|done].
  rewrite length_dma. destruct (_ <=? _); [exact (length_set_reg (s <| rx_pos := rx_pos s + 4 |>) FLEXSPI_INTR _) | done].
Qed.
Lemma length_write (s : Board) off v : length (regs (mcxn_flexspi_write s off v)) = length (regs s).
Proof.
  unfold mcxn_flexspi_write. cbv zeta. destruct (MCXN_FLEXSPI_SIZE <=? off); [done|]. destruct (existsb _ _); [done|]. destruct (off =? FLEXSPI_MCR0); [apply length_set_reg|].
  destruct (off =? FLEXSPI_INTR).
  { unfold flexspi_write_intr. cbv zeta. rewrite length_dma. change (regs (mcxn_flexspi_update_irq ?x)) with (regs x). repeat case_match; rewrite ?length_set_reg; done. }
  destruct (off =? FLEXSPI_INTEN); [apply length_set_reg|]. destruct (off =? FLEXSPI_IPRXFCR); [rewrite length_dma; destruct (flag _ _); [etransitivity; [apply length_set_reg|]|]; exact (length_set_reg s off _)|].
  destruct (off =? FLEXSPI_IPTXFCR); [rewrite length_dma; destruct (_ && _); exact (length_set_reg s off _)|]. destruct (off =? FLEXSPI_IPCMD); [destruct (flag _ _); [apply ip_command_regs | done]|].
  destruct (_ && _); [done|]. destruct (_ && _); [apply length_tfdr | apply length_set_reg].
Qed.
Lemma guest_length z roms p p' : guest z roms p p' -> zlen (regs p.1) = 1024 -> zlen (regs p'.1) = 1024.
Proof.
  intros [s n off|s n off v _ _|s n off v _|s n v q d a _ _ _|s n off v|s n off bs _ _ _ _|s n _|s n lvl f _ _|s n]; cbn [fst]; intros Hl; try done; by rewrite ?length_read, ?length_write.
Qed.

(** ** Erase and program, seen through the window *)

Definition wren_seq : FlexSPISeq := mkSeq true WREN 0 0 false false.
Definition erase_seq : FlexSPISeq := mkSeq true ERASE_4K 24 0 false false.
Definition program_seq : FlexSPISeq := mkSeq true PP 24 0 false true.

Lemma mask_small j a : 0 <= j -> 0 <= a < 2 ^ j -> a .& (2 ^ j - 1) = a.
Proof. intros Hj Ha. replace (2 ^ j - 1) with (Z.ones j) by (rewrite Z.ones_equiv; lia). rewrite Z.land_ones by done. by apply Z.mod_small. Qed.

Lemma window_size j : 8 <= j <= 23 -> 0 < 2 ^ j <= flash_bytes /\ 2 ^ j mod 256 = 0.
Proof.
  intros Hj. change flash_bytes with (2 ^ 23). split; [split; [lia | apply Z.pow_le_mono_r; lia]|].
  replace j with (j - 8 + 8) by lia. rewrite Z.pow_add_r by lia. apply Z.mod_mul. lia.
Qed.
Lemma reachable_sim j roms s n : 8 <= j <= 23 -> Forall (rom_ok (2 ^ j)) roms -> rtc (guest (2 ^ j) roms) (power_on (2 ^ j) roms, nor_on (2 ^ j) roms) (s, n) ->
  sim (2 ^ j) s n /\ zlen (regs s) = 1024.
Proof.
  intros Hj Hi Hrun. destruct (window_size j Hj) as [Hz Hm]. split; [by apply (reachable (2 ^ j) roms)|].
  change (zlen (regs (s, n).1) = 1024). by refine (rtc_invariant (guest (2 ^ j) roms) (fun p => zlen (regs p.1) = 1024) _ _ _ Hrun _); [intros p p'; apply guest_length|].
Qed.

(** The driver's sequence: write enable, sector erase, write enable, page program. *)
Definition reprogram (s : Board) (kw ke kp a b d : Z) (ws : list Z) : Board :=
  feed (ipcmd (ipcmd (ipcmd (ipcmd s kw 0 0) ke a 0) kw 0 0) kp b d) ws.

Lemma wren_content n z : wel (nor_ipcmd n z wren_seq 0 0) = true /\ content (nor_ipcmd n z wren_seq 0 0) = content n /\
  (stale (nor_ipcmd n z wren_seq 0 0) = stale n /\ reloaded (nor_ipcmd n z wren_seq 0 0) = reloaded n) /\
  programming (nor_ipcmd n z wren_seq 0 0) = programming n /\ flushed (nor_ipcmd n z wren_seq 0 0) = true.
Proof. unfold nor_ipcmd, nor_flush. cbn. by destruct (flushed n) eqn:E. Qed.

Lemma stream_length ws : zlen (stream ws) = 4 * zlen ws.
Proof. unfold stream. induction ws as [|w ws IH]; [done|]. cbn [flat_map]. rewrite length_app. change (length (word_bytes (u32 w))) with 4%nat. cbn [length]. lia. Qed.
Lemma stream_range ws i : 0 <= i < zlen (stream ws) -> in_range 8 ((stream ws).[i]).
Proof.
  intros Hi. apply Forall_arr_get; [|done]. unfold stream. apply Forall_flat_map, Forall_forall. intros w _. unfold word_bytes. apply Forall_map, Forall_forall. intros k _.
  apply in_range_land_r; [lia | split; [lia | reflexivity]].
Qed.

(** A controller between commands whose look-up table has the driver's sequences. *)
Record driven (z : Z) (s : Board) (n : Nor) (kw ke kp : Z) : Prop := {
  drv_sim : sim z s n;
  drv_regs : zlen (regs s) = 1024;
  drv_idle : programming n = None;
  drv_wren : flexspi_decode_lut s kw = wren_seq;
  drv_erase : flexspi_decode_lut s ke = erase_seq;
  drv_program : flexspi_decode_lut s kp = program_seq;
}.

Section driver.
Context (j kw ke kp : Z) (Hj : 8 <= j <= 23) (Hkw : 0 <= kw < 16) (Hke : 0 <= ke < 16) (Hkp : 0 <= kp < 16).

Lemma wren_driven s n : driven (2 ^ j) s n kw ke kp ->
  exists n', driven (2 ^ j) (ipcmd s kw 0 0) n' kw ke kp /\ wel n' = true /\ content n' = content n /\ (stale n' = stale n /\ reloaded n' = reloaded n) /\ flushed n' = true.
Proof.
  intros [S0 L0 Hp Dw De Dp]. assert (Pw : plain wren_seq 0 0) by (apply plain_mode; [set_solver | done | by left | done]).
  destruct (ipcmd_sim (2 ^ j) s n kw 0 0 S0 L0 Hp Hkw ltac:(lia) ltac:(lia) (mask_small j 0 ltac:(lia) ltac:(lia)) ltac:(by rewrite Dw)) as (S1 & L1 & D1).
  rewrite Dw in S1. destruct (wren_content n (2 ^ j)) as (W1 & C1 & R1 & Q1 & F1). eexists. split; [split; [exact S1 | done | by rewrite Q1 | by rewrite D1 by lia..] | done].
Qed.

Lemma erase_driven s n a : driven (2 ^ j) s n kw ke kp -> wel n = true -> flushed n = true -> 0 <= a < 2 ^ j -> a mod 4096 = 0 ->
  exists n', driven (2 ^ j) (ipcmd s ke a 0) n' kw ke kp /\ content n' = erased true (content n) a 4096 /\ stale n' = fresh (stale n) a 4096 /\ reloaded n' = reloaded n.
Proof.
  intros [S0 L0 Hp Dw De Dp] Hw Hf Ha Ham. assert (Pe : plain erase_seq a 0) by (apply (plain_erase _ _ _ (4 * 1024)); [set_solver | done | done | done | by left | done]).
  destruct (ipcmd_sim (2 ^ j) s n ke a 0 S0 L0 Hp Hke ltac:(lia) Ha (mask_small j a ltac:(lia) Ha) ltac:(by rewrite De)) as (S1 & L1 & D1). rewrite De in S1.
  assert (E : nor_ipcmd n (2 ^ j) erase_seq a 0 = n <| content := erased true (content n) a 4096 |> <| stale := fresh (stale n) a 4096 |>) by (unfold nor_ipcmd, nor_flush; cbn [valid erase_seq negb orb]; rewrite Hf; unfold nor_command; by rewrite Hw).
  rewrite E in S1. eexists. split; [split; [exact S1 | done | done | by rewrite D1 by lia..] | done].
Qed.

Lemma program_driven s n b d ws x : driven (2 ^ j) s n kw ke kp -> wel n = true -> flushed n = true -> 0 <= b < 2 ^ j -> 0 < d -> b mod 256 + d <= 256 -> d <= 4 * zlen ws ->
  0 <= x < 2 ^ j -> nor (feed (ipcmd s kp b d) ws) x =
    if fresh (stale n) (b - b mod 256) 256 x then reloaded n x else programmed true (content n) b (take (Z.to_nat d) (stream ws)) x.
Proof.
  intros [S0 L0 Hp Dw De Dp] Hw Hf Hb Hd Hpage Hws Hx. assert (Hd256 : d <= 256) by (pose proof (Z.mod_pos_bound b 256); lia).
  assert (Hwd : writes program_seq d = true) by (unfold writes; cbn [has_read has_write program_seq negb andb]; by rewrite (proj2 (Z.eqb_neq d 0)) by lia).
  assert (Pp : plain program_seq b d) by (apply plain_program; [set_solver | done | done | done]).
  destruct (ipcmd_sim (2 ^ j) s n kp b d S0 L0 Hp Hkp ltac:(lia) Hb (mask_small j b ltac:(lia) Hb) ltac:(by rewrite Dp)) as (S1 & _ & _). rewrite Dp in S1.
  assert (E : nor_ipcmd n (2 ^ j) program_seq b d = n <| programming := Some (b, d, 0) |>)
    by (unfold nor_ipcmd, nor_flush; cbn [valid program_seq negb orb]; by rewrite (proj2 (Z.ltb_ge MCXN_FLEXSPI_XFER_MAX d)), Hf, Hwd by (unfold MCXN_FLEXSPI_XFER_MAX; lia)).
  rewrite E in S1. clear E. set (n1 := n <| programming := Some (b, d, 0) |>) in *. destruct (feed_sim _ ws _ n1 S1) as (lvl & f & Hsz & [_ _ _ _ _ _ _ _ _ _ Hm]).
  destruct (nor_feed_program ws n1 b d 0) as [(Q & Q1 & Q2) C]; [done | lia | lia|]. rewrite Q, Hsz in Hm. destruct Hm as (_ & _ & Hm). rewrite Hm by done. unfold shows.
  rewrite C, Q1, Q2, Z.add_0_r, Z.sub_0_r. unfold n1. cbn [wel content stale reloaded modify]. by rewrite Hw.
Qed.
End driver.

(** C9: what a driver programs is what the CPU sees.  In every state that a run of
    the board can reach, with a window of any power of two up to the 8 MiB of the
    chip and no program in flight, the sequence write enable, erase of the 4 KiB
    sector at [a], write enable, program of [d] bytes within a page of that sector,
    streamed in words through TFDR, leaves in the AHB window the programmed bytes,
    0xFF in the rest of the sector, and every other byte as it was.  The runs contain
    resets, after which the window shows the loader's images over the flash. *)
Theorem flexspi_erase_program j roms s n kw ke kp a b d ws x : 8 <= j <= 23 -> Forall (rom_ok (2 ^ j)) roms ->
  rtc (guest (2 ^ j) roms) (power_on (2 ^ j) roms, nor_on (2 ^ j) roms) (s, n) -> programming n = None ->
  0 <= kw < 16 -> 0 <= ke < 16 -> 0 <= kp < 16 ->
  flexspi_decode_lut s kw = wren_seq -> flexspi_decode_lut s ke = erase_seq -> flexspi_decode_lut s kp = program_seq ->
  0 <= a -> a mod 4096 = 0 -> a <= b < a + 4096 -> b < 2 ^ j -> 0 < d -> b mod 256 + d <= 256 -> d <= 4 * zlen ws -> 0 <= x < 2 ^ j ->
  nor (reprogram s kw ke kp a b d ws) x =
    if (b <=? x) && (x <? b + d) then (stream ws).[x - b] else if (a <=? x) && (x <? a + 4096) then 0xFF else nor s x.
Proof.
  intros Hj Hi Hrun Hp Hkw Hke Hkp Dw De Dp Ha Ham Hab Hb Hd Hpage Hws Hx. destruct (reachable_sim j roms s n Hj Hi Hrun) as [S0 L0]. unfold reprogram.
  assert (H0 : driven (2 ^ j) s n kw ke kp) by done. assert (Hn : nor s x = shows n x) by (destruct S0 as (lvl & f & Hz & [_ _ _ _ _ _ _ _ _ _ Hm]); rewrite Hp, Hz in Hm; by apply Hm).
  destruct (wren_driven j kw ke kp Hj Hkw Hke Hkp s n H0) as (n1 & H1 & W1 & C1 & [S1 R1] & F1). destruct (erase_driven j kw ke kp Hj Hkw Hke Hkp _ n1 a H1 W1 F1 ltac:(lia) Ham) as (n2 & H2 & C2 & S2 & R2).
  destruct (wren_driven j kw ke kp Hj Hkw Hke Hkp _ n2 H2) as (n3 & H3 & W3 & C3 & [S3 R3] & F3). rewrite (program_driven j kw ke kp Hj Hkw Hke Hkp _ n3 b d ws x H3 W3 F3) by (done || lia).
  rewrite C3, C2, C1, S3, S2, S1, R3, R2, R1, Hn. pose proof (stream_length ws) as Hl. assert (Hin : a <= b - b mod 256 /\ b - b mod 256 + 256 <= a + 4096) by dlia.
  assert (Hbm : 0 <= b mod 256 < 256) by dlia. unfold shows, fresh, programmed, erased, memset, copy_range. cbn [andb].
  replace (zlen (take (Z.to_nat d) (stream ws))) with d by (rewrite length_take; lia).
  destruct ((b <=? x) && (x <? b + d)) eqn:Ex.
  - apply andb_prop in Ex as [E1 E2]. apply Z.leb_le in E1. apply Z.ltb_lt in E2. rewrite (proj2 (Z.leb_le a x)), (proj2 (Z.ltb_lt x (a + 4096))) by lia. cbn [andb negb]. rewrite andb_false_r. cbn [andb].
    replace ((take (Z.to_nat d) (stream ws)).[x - b]) with ((stream ws).[x - b]) by (unfold arr_get; by rewrite lookup_total_take_lt by lia).
    rewrite Z.land_comm. change 0xFF with (Z.ones 8). rewrite Z.land_ones by lia. apply (wrap_in_range 8), stream_range. lia.
  - destruct ((a <=? x) && (x <? a + 4096)) eqn:Ea; cbn [negb]; [by rewrite andb_false_r|]. rewrite andb_true_r.
    assert ((b - b mod 256 <=? x) && (x <? b - b mod 256 + 256) = false) as -> by (apply andb_false_iff; rewrite Z.leb_gt, Z.ltb_ge; apply andb_false_iff in Ea; rewrite Z.leb_gt, Z.ltb_ge in Ea; lia).
    by rewrite andb_true_r.
Qed.

(** A look-up table as a driver sets it up: write enable, sector erase, page program,
    and the fast read with its eight dummy cycles. *)
Definition driver_lut : list (Z * Z) :=
  [(FLEXSPI_LUT0, 0x406); (FLEXSPI_LUT0 + 16, 0x08180420); (FLEXSPI_LUT0 + 32, 0x08180402); (FLEXSPI_LUT0 + 36, 0x2004);
   (FLEXSPI_LUT0 + 48, 0x0818040B); (FLEXSPI_LUT0 + 52, 0x24043008); (FLEXSPI_LUT0 + 64, 0x08180403); (FLEXSPI_LUT0 + 68, 0x2404)].
Definition driver (size : Z) (roms : list Rom) : Board := write_regs (power_on size roms) driver_lut.
(** A window filled with 0x5A. *)
Definition full_rom (size : Z) : list Rom := [mkRom 0 (replicate (Z.to_nat size) 0x5A)].
Lemma full_rom_ok size : 0 <= size -> Forall (rom_ok size) (full_rom size).
Proof.
  intros Hz. apply Forall_singleton. split; [done|]. cbn [rom_addr rom_data]. rewrite length_replicate. split; [lia|]. apply Forall_replicate. split; [done | reflexivity].
Qed.

Lemma flexspi_erase_program_witness :
  nor (reprogram (driver 512 (full_rom 512)) 0 1 2 0 0x10 4 [0x44332211]) 0x12 = 0x33 /\ nor (reprogram (driver 512 (full_rom 512)) 0 1 2 0 0x10 4 [0x44332211]) 0x20 = 0xFF.
Proof.
  assert (Hrun : rtc (guest (2 ^ 9) (full_rom 512)) (power_on (2 ^ 9) (full_rom 512), nor_on (2 ^ 9) (full_rom 512)) (driver (2 ^ 9) (full_rom 512), nor_on (2 ^ 9) (full_rom 512)))
    by (apply write_regs_run; repeat constructor; done).
  split.
  - etransitivity; [apply (flexspi_erase_program 9 (full_rom 512) _ _ 0 1 2 0 0x10 4 [0x44332211] 0x12 ltac:(lia) (full_rom_ok 512 ltac:(lia)) Hrun); first [lia | vm_compute; reflexivity | vm_compute; discriminate]|].
    vm_compute. reflexivity.
  - etransitivity; [apply (flexspi_erase_program 9 (full_rom 512) _ _ 0 1 2 0 0x10 4 [0x44332211] 0x20 ltac:(lia) (full_rom_ok 512 ltac:(lia)) Hrun); first [lia | vm_compute; reflexivity | vm_compute; discriminate]|].
    vm_compute. reflexivity.
Defined.

(** ** Departures *)

(** A byte of the chip. *)
Definition chip_byte (s : Board) (x : Z) : option Z := match periph (spi s) with Some f => Some (storage f x) | None => None end.

(** The RAM of the window starts as zeros, which the first command takes for an image
    and programs into the blank chip. *)
Theorem flexspi_blank_flash_zeroed : let s0 := driver 512 [] in
  chip_byte s0 0x123 = Some 0xFF /\ chip_byte (ipcmd s0 0 0 0) 0x123 = Some 0.
Proof. by vm_compute. Qed.

(** The chip does not wrap a program at the end of its page, and the mirror is
    refreshed for one page: the window keeps the old bytes of the next one. *)
Theorem flexspi_page_crossing_stale : let s := reprogram (driver 512 (full_rom 512)) 0 1 2 0 0xFC 8 [0x44332211; 0x88776655] in
  pgm_pending s = false /\ chip_byte s 0x100 = Some 0x55 /\ nor s 0x100 = 0xFF.
Proof. by vm_compute. Qed.

(** The chip erases from the address it is given, the mirror is refreshed for the
    aligned sector. *)
Theorem flexspi_unaligned_erase_stale : let s := ipcmd (ipcmd (driver 8192 (full_rom 8192)) 0 0 0) 1 0x100 0 in
  chip_byte s 0x1000 = Some 0xFF /\ nor s 0x1000 = 0x5A.
Proof. by vm_compute. Qed.

(** The chip counts dummy cycles in bytes, the controller sends one byte for eight
    cycles: a fast read returns seven bytes of nothing first. *)
Theorem flexspi_fast_read_shifted : let s0 := driver 512 (full_rom 512) in
  take 8 (rx_buf (ipcmd s0 4 0 8)) = replicate 8 0x5A /\ take 8 (rx_buf (ipcmd s0 3 0 8)) = replicate 7 0 ++ [0x5A].
Proof. by vm_compute. Qed.

(** A reset in the middle of a program neither releases the chip nor refreshes the
    mirror. *)
Theorem flexspi_reset_in_program_stale : let s := mcxn_flexspi_reset (feed (ipcmd (ipcmd (driver 512 (full_rom 512)) 0 0 0) 2 0 8) [0]) in
  pgm_pending s = false /\ cs (spi s) = false /\ chip_byte s 0 = Some 0 /\ nor s 0 = 0x5A.
Proof. by vm_compute. Qed.

(** A reset after a program: the loader writes its image into the window again, and
    the window shows the old bytes while the chip keeps the new ones. *)
Theorem flexspi_reset_shows_image : let s := reprogram (driver 512 (full_rom 512)) 0 1 2 0 0x10 4 [0x44332211] in
  let s' := (mcxn_flexspi_reset s) <| nor := rom_reset (full_rom 512) (nor s) |> in
  nor s 0x10 = 0x11 /\ chip_byte s' 0x10 = Some 0x11 /\ nor s' 0x10 = 0x5A.
Proof. by vm_compute. Qed.

(** An erase near the end of the chip writes beyond its storage. *)
Theorem m25p80_erase_past_end : xfer (m25p80_reset (m25p80_realize None)) [WREN; ERASE_SECTOR; 0x7F; 0xFF; 0xFF] = None.
Proof. by vm_compute. Qed.

(** The write-enable latch is still set after a program has completed. *)
Theorem m25p80_latch_stays : match periph (spi (reprogram (driver 512 (full_rom 512)) 0 1 2 0 0 4 [0])) with Some f => write_enable f = true /\ state f = STATE_IDLE | None => False end.
Proof. by vm_compute. Qed.
